(* ===== verification/_CoqProject ===== *)
-Q . S2P
Prelude.v
MapSum.v
IntervalSet.v
SequencerBuffer.v
BufferRing.v
BufferDelivery.v
Float.v
QuicTime.v
PacketNumber.v
WindowedFilter.v
RttStats.v
SendAlgorithm.v
Copa.v
Vegas.v
Pacing.v
AlarmEngine.v
HybridSlowStart.v
Prr.v
CubicBytes.v
TcpCubic.v
QuicTag.v
Address.v
TcpClient.v
UnackedMap.v
GeneralLoss.v
UberLoss.v
IndexedQueue.v
BandwidthSampler.v
Bbr.v
BbrSafety.v
Bbr2Model.v
Bbr2.v
Bbr2Machine.v
Bbr2Safety.v
ClientApp.v
ServerTrace.v
FlowController.v
StreamFlow.v
FlowSafety.v
FlowSystem.v
