(* ===== verification/Prelude.v ===== *)
(** * A verification of the QUIC/TCP congestion-control experiment

    The program simulates bulk transfers over QUIC and TCP in ns-3 and compares
    congestion controllers.  Its QUIC endpoints are built from Google's QUIC
    library: the client application (src/src/quic/model) hands packets to a
    simulated UDP socket, an alarm engine maps the library's alarms to the
    simulator's event queue, a factory creates the congestion controller named on
    the command line, and the controllers decide when a packet may leave.  Two of
    the controllers, Copa and Vegas, are the program's own
    (src/src/quic/model/cc-algo); CUBIC, Reno, BBR and BBRv2, pacing, loss detection, the RTT estimator and
    the windowed filter are the library's (src/quiche/gquiche/quic/core), used
    through the interface [SendAlgorithmInterface].  The server application counts
    delays, losses and goodput per flow and writes them to traces.  The TCP side
    (src/src/tcp-client/model) is a bulk sender, a sink and a tracer over ns-3's
    sockets.

    ** Files

    - [Prelude]: machine integers with their wrap-around, the [result] monad
      whose faults are the ways the C++ code can go wrong (a failed check, an
      overflow exception, a division by zero, an undefined conversion, a read of
      an uninitialized field, a dangling iterator), record update, tactics and
      hints.
    - [MapSum]: sums over finite maps, shared by the sampler and flow control.
    - [Float]: binary32 and binary64 as the code uses them, on the Standard
      Library's executable [SpecFloat], with a calculus of magnitudes for
      bounding a chain of rounded operations.
    - [QuicTime]: quic_time.h, quic_time.cc, quic_bandwidth.h.
    - [PacketNumber]: quic_packet_number.h, quic_packet_number.cc.
    - [WindowedFilter]: windowed_filter.h.
    - [RttStats]: rtt_stats.h, rtt_stats.cc.
    - [SendAlgorithm]: the interface of the controllers and its laws as two
      classes, [SendAlgorithmInterface] and [SendAlgorithmLaws];
      quic_time_accumulator.h and the fields of quic_connection_stats.h the
      controllers write.
    - [Copa], [Vegas]: cc-algo/copa_sender.* and cc-algo/vegas_sender.*, each
      with an instance of the interface and of its laws.
    - [Pacing]: pacing_sender.*, over any lawful controller.
    - [AlarmEngine]: ns3-quic-alarm-engine.* and quic_alarm.cc.
    - [HybridSlowStart], [Prr], [CubicBytes]: the parts of the CUBIC/Reno
      sender; [TcpCubic]: tcp_cubic_sender_bytes.*, composed of them.
    - [QuicTag]: ns3-quic-tag.*, the sequence number and send time a packet
      carries.
    - [Address]: the address conversions of ns3-quic-util.cc and the flows of
      ns3-quic-addr-pair.h.
    - [TcpClient]: tcp-client.*, tcp-sink.cc and the accounting of
      tcp-tracer.cc.
    - [UnackedMap]: quic_unacked_packet_map.*, the deque of packets that are in
      flight, retransmittable or useful for an RTT sample.
    - [GeneralLoss], [UberLoss]: general_loss_algorithm.* over that map, and
      uber_loss_algorithm.* with one of them per packet number space.
    - [IndexedQueue]: packet_number_indexed_queue.h; [BandwidthSampler]:
      bandwidth_sampler.* over it, with the ack height tracker.
    - [Bbr]: bbr_sender.* over the sampler, the filter and the unacked packet
      map, with an instance of the interface and of its laws; [BbrSafety]: the
      proof that no assertion or conversion of it fails.
    - [Bbr2Model]: bbr2_misc.*, the parameters and the network model of BBRv2
      over the same sampler; [Bbr2]: bbr2_sender.* and the four modes
      (bbr2_startup, bbr2_drain, bbr2_probe_bw, bbr2_probe_rtt), with an
      instance of the interface and of its laws; [Bbr2Machine]: its modes as a
      state machine; [Bbr2Safety]: the proof that it does not stop.
    - [ClientApp]: the controller factory (ns3-quic-congestion-factory.cc), the
      choice of controller and the packet path of ns3-quic-client-app.cc.
    - [ServerTrace]: the traces of ns3-quic-trace.*, and the receive path of
      ns3-quic-server-app.cc that feeds them.
    - [FlowController]: quic_flow_controller.*; [StreamFlow]: the flow control
      of quic_stream.cc and quic_session.cc over it, with the offsets of
      quic_stream_sequencer.cc; [FlowSafety]: the invariant of one session and
      its preservation by every operation; [FlowSystem]: two sessions and the
      network between them.
    - [IntervalSet]: quic_interval.h and quic_interval_set.h; [SequencerBuffer]:
      quic_stream_sequencer_buffer.*, the ring of blocks that puts the bytes of a
      stream in order; [BufferRing]: the arithmetic of the ring and of copying
      into it; [BufferDelivery]: the buffer's invariant and what it delivers.

    ** How the code is modelled

    A class is a record of its fields; a method is a function of the record, of
    the objects it points to and of its arguments, returning the new record; a
    method that can fail returns a [result].  The comment before a definition
    gives the lines it translates; a long method is cut into named parts, each
    with its own lines, composed as the method composes them.  Integers have
    the width of the source, the wrap-around written out where an operation
    can leave the range.  Assertions are live in the program's build (nothing
    defines NDEBUG), so [QUICHE_CHECK], [QUICHE_DCHECK], [NS_ASSERT] and
    [QUIC_BUG] (fatal in such a build) are the fault [CheckFailed].

    Code outside the repository is a parameter with documented laws: the C
    library's cube root ([Libm], [LibmLaws]), ns-3's TCP socket ([TcpSocket],
    [TcpSocketLaws]), an alarm's delegate (a list of commands on alarms).  Each
    class of laws has a concrete instance, which the witnesses use.  Interfaces
    of the library whose implementation depends on the caller are classes too:
    the session that is told of acknowledged frames ([SessionNotifier]), the
    tuner of the loss thresholds ([LossDetectionTuner]) and the random number
    generator ([QuicRandom]).

    ** What is proved

    - Copa ([Copa]): an event of a connection with an RTT sample completes; the
      window is at least four segments along every run; it moves only toward the
      target rate; slow start doubles at most once per smoothed RTT and ends for
      good; the velocity doubles per agreeing check modulo 2^64, and once it
      has wrapped to zero the window is frozen.
    - Vegas ([Vegas]): the window's bounds along every run; the adjustment of a
      round by its backlog, in congestion avoidance and in slow start; the mode
      follows recovery; an event completes while the base RTT is fresh, and one that
      ends a round after more than ten seconds without a sample fails a check.
    - CUBIC and Reno ([CubicBytes], [TcpCubic], [Prr], [HybridSlowStart]): the
      response to an acknowledgment is the cubic curve with its two limits; one
      reduction per flight, by 15 percent; the window's bounds along every run; the limits of
      proportional rate reduction; the exact condition for leaving slow start.
    - Estimators ([RttStats], [WindowedFilter]): the estimates are bracketed by
      the samples up to a microsecond of rounding; the filter's best is a sample of its window that no later
      sample beats.
    - Pacing ([Pacing]), proved against the laws of the interface only: an idle
      connection may send at once; paced packets keep to the schedule of their
      transfer times, and time lost to a timer is made up but idle time is not.
    - Alarms ([AlarmEngine]): setting and cancelling refine a finite map of firing
      times; in every state reached, whatever the delegates do, the timer covers
      each pending alarm and an expiry that returns has fired exactly the due
      ones; updating the only alarm, or any to a deadline in the past, fails.
    - Loss detection ([UnackedMap], [GeneralLoss], [UberLoss]): the bytes in
      flight are those of the packets marked so, after any sequence of
      operations; forgetting useless packets is unobservable; merging
      acknowledged stream frames tells the session the same; detection from the
      cached packet number equals a scan of all packets, along every run; the
      spaces do not interfere; a spurious loss moves the thresholds far enough.
    - BBR ([IndexedQueue], [BandwidthSampler], [Bbr], [BbrSafety]): the queue
      refines a finite map; a bandwidth sample is the exact lesser of send and
      ack rate, and no byte is counted twice; BBR's window stays between its
      minimum and maximum; its modes and gains follow the state machine of BBR;
      the RTT is probed when its estimate expires and for 200 ms and a round
      trip; and no event of a connection that keeps to its contract fails.
    - BBRv2 ([Bbr2Model], [Bbr2], [Bbr2Machine], [Bbr2Safety]): the loop over modes ends by
      itself, after at most three changes; the window's bounds along every run
      and its limit in each mode; the invariant of each mode, with its gains and
      phases, in every reachable state; when the RTT is probed and for how long;
      and no event of a connection that keeps to its contract fails, except the one
      that leaves the sender draining at one bit per second, which a run
      shows to exist.
    - Flow control ([FlowController], [StreamFlow], [FlowSafety], [FlowSystem]):
      when a receiver sends a window update, of what size, and when its window is
      doubled; two sessions over a network that loses, repeats and reorders
      never accuse each other and never fail a check; a sender whose bytes have
      been consumed finds its credit in window updates already sent.  A frame
      that carries only a FIN can lose connection-level credit for good, which a
      run shows.
    - Receive buffer ([IntervalSet], [SequencerBuffer], [BufferRing],
      [BufferDelivery]): an interval set refines a set of numbers, each set in
      one representation; a sequencer buffer hands out the stream in order, each
      byte once, whatever frames arrive and however they are read, and a read gets
      all there is before the first gap.  [PeekRegion] can return a length that
      has wrapped around, which a run shows.
    - Applications ([QuicTag], [TcpClient], [ClientApp]): a tag survives its
      encoding; the TCP sender queues its target and no more; the QUIC client's
      packets stop at the cap; the factory creates the
      controller of each name, and every one is lawful.
    - Server ([Address], [ServerTrace]): each packet reaches the trace of its own
      flow only; the lost packets logged are those that never arrived when the
      network neither reorders nor duplicates; the goodput lines account for the
      bytes received; an address survives the conversions; what happens
      otherwise (duplicates, a goodput trace without a delay trace, long packets)
      is proved too.
    - Scalars ([QuicTime], [PacketNumber]): bandwidth and transfer time are
      adjoint; wall-clock arithmetic saturates; [UpdateMax] computes maxima.

    ** Bounds and fuel

    The loops of the source recurse on their data (packet vectors, alarms)
    except ten.  The two varint encoding loops run on ten units of fuel, enough for
    64 bits at seven bits a byte; the round-trip theorem proves that they return.
    The send loop of the TCP client takes its fuel as an argument and its
    theorem proves that one more than the target suffices,
    since each iteration queues at least a byte.  The loop that fills the numbers
    of packets never sent has one more unit than the gap, the loop that
    shrinks the reordering shift one more than the shift.  The loop that
    subtracts interval sets has two units per interval of either, the one that
    looks for a common number one per interval, and the loops that copy into the
    receive buffer, read from it and consume from it one per byte; that they return is part of
    the theorems.  Numeric hypotheses of the
    theorems (windows below 2^36 bytes, times below 2^61 us, packet numbers below
    2^47, bytes sent below 2^62 for flow control, stream
    offsets below 2^61 and a capacity up to 2^40 for the receive buffer, bytes below 2^40 for the sampler and below 2^35 for BBR's and
    BBRv2's products of rates and gains, windows below 2^33 for BBRv2, CUBIC epochs below
    30 s) keep the products of the source inside their 64 bits; what happens
    beyond CUBIC's is the wrap-around the definitions compute.

    ** Not modelled

    The QUIC connection, framer and cryptography are the library's and
    are used unchanged; the controllers are modelled against the calls they
    make.  Of streams and sessions the flow control and the receive
    buffer are modelled and the send buffer, the sequencer's callbacks, retransmission, the stream id managers and the
    write-blocked list are not; the theorems on two sessions are for IETF
    versions and bidirectional streams, from the end of the handshake on.
    Of BBR and BBRv2 the
    debug states are left out, and BBR's run theorems have no step for
    [AdjustNetworkParameters], which only a resumed connection calls.  The safety of
    BBRv2 is proved without the four experiments that change its lower
    bounds (BBQ7, BBQ8, BBQ9) and its startup pacing (BBQ6), and
    for a sender that takes over no sampler from an older one.  Of a trace the
    lines are modelled and the text formatting and file names are not.  Topology
    construction (src/scratch), plotting and batch scripts are glue
    over ns-3.  That the expiry of the alarm timer returns is proved for
    delegates that at most set their own alarm again; one that cancels another
    alarm of its batch makes it fail, which a run shows. *)

From stdpp Require Export base tactics list numbers option sets strings.
From Stdlib Require Export ZArith Lia Bool.

Declare Scope quic_scope.
Delimit Scope quic_scope with quic.
Open Scope Z_scope.

(** * Machine integers

    A [w]-bit C++ integer is a [Z]; every operation of the source that can
    leave the range is followed by the wrap-around of its type.  Unsigned
    arithmetic wraps by the standard; signed arithmetic is modelled by the
    two's-complement wrap the unoptimised build produces, and a theorem that
    depends on the absence of signed overflow says so in its hypotheses. *)

Abbreviation two16 := 65536 (only parsing).
Abbreviation two31 := 2147483648 (only parsing).
Abbreviation two32 := 4294967296 (only parsing).
Abbreviation two63 := 9223372036854775808 (only parsing).
Abbreviation two64 := 18446744073709551616 (only parsing).

Definition u8 (z : Z) : Z := z mod 256.
Definition u16 (z : Z) : Z := z mod two16.
Definition u32 (z : Z) : Z := z mod two32.
Definition u64 (z : Z) : Z := z mod two64.
Definition i32 (z : Z) : Z := (z + two31) mod two32 - two31.
Definition i64 (z : Z) : Z := (z + two63) mod two64 - two63.

Abbreviation INT64_MAX := 9223372036854775807 (only parsing).
Abbreviation UINT64_MAX := 18446744073709551615 (only parsing).

(** [uint64_t] addition, subtraction and multiplication. *)
Notation "x ⊕ y" := (u64 (x + y)) (at level 50, left associativity) : quic_scope.
Notation "x ⊖ y" := (u64 (x - y)) (at level 50, left associativity) : quic_scope.
Notation "x ⊗ y" := (u64 (x * y)) (at level 40, left associativity) : quic_scope.
Open Scope quic_scope.

Definition is_u64 (z : Z) : Prop := 0 <= z < two64.
Definition is_i64 (z : Z) : Prop := - two63 <= z < two63.

Create HintDb quic discriminated.

Lemma u64_small z : 0 <= z < two64 -> u64 z = z.
Proof. intros; unfold u64; apply Z.mod_small; lia. Qed.

Lemma u16_range z : 0 <= u16 z < two16.
Proof. apply Z.mod_pos_bound. done. Qed.
Lemma u64_range z : 0 <= u64 z < two64.
Proof. unfold u64; apply Z.mod_pos_bound; lia. Qed.

Lemma u32_small z : 0 <= z < two32 -> u32 z = z.
Proof. intros; unfold u32; apply Z.mod_small; lia. Qed.

Lemma u32_range z : 0 <= u32 z < two32.
Proof. unfold u32; apply Z.mod_pos_bound; lia. Qed.

Lemma i64_small z : - two63 <= z < two63 -> i64 z = z.
Proof. intros; unfold i64; rewrite Z.mod_small; lia. Qed.

Lemma i64_range z : - two63 <= i64 z < two63.
Proof.
  unfold i64. pose proof (Z.mod_pos_bound (z + two63) two64). lia.
Qed.

Lemma i32_small z : - two31 <= z < two31 -> i32 z = z.
Proof. intros; unfold i32; rewrite Z.mod_small; lia. Qed.

Lemma i32_range z : - two31 <= i32 z < two31.
Proof.
  unfold i32. pose proof (Z.mod_pos_bound (z + two31) two32). lia.
Qed.

Lemma u64_idemp z : u64 (u64 z) = u64 z.
Proof. apply u64_small, u64_range. Qed.

#[export] Hint Resolve u64_range u32_range i64_range i32_range : quic.

(** Remove every wrap whose argument [lia] shows to be in range, innermost
    wraps included. *)
Ltac wrap_small :=
  repeat match goal with
  | |- context [u64 ?z] => rewrite (u64_small z) by lia
  | |- context [i64 ?z] => rewrite (i64_small z) by lia
  | |- context [u32 ?z] => rewrite (u32_small z) by lia
  | |- context [i32 ?z] => rewrite (i32_small z) by lia
  end.

Ltac wrap_small_in H :=
  repeat match type of H with
  | context [u64 ?z] => rewrite (u64_small z) in H by lia
  | context [i64 ?z] => rewrite (i64_small z) in H by lia
  | context [u32 ?z] => rewrite (u32_small z) in H by lia
  | context [i32 ?z] => rewrite (i32_small z) in H by lia
  end.

(** * Boolean tests

    The code's conditions are boolean functions; [zcases] splits on every
    integer test of the goal and leaves the proposition it decides. *)

Ltac zcase_step :=
  match goal with
  | |- context [?a <? ?b] => destruct (Z.ltb_spec a b)
  | |- context [?a <=? ?b] => destruct (Z.leb_spec a b)
  | |- context [?a =? ?b] => destruct (Z.eqb_spec a b)
  | H : context [?a <? ?b] |- _ => destruct (Z.ltb_spec a b)
  | H : context [?a <=? ?b] |- _ => destruct (Z.leb_spec a b)
  | H : context [?a =? ?b] |- _ => destruct (Z.eqb_spec a b)
  end.
Ltac zcases := repeat (zcase_step; cbn [andb orb negb] in *).

(** * Faults

    What ends a run abnormally: a failed [QUICHE_CHECK], [QUICHE_DCHECK] or
    [NS_ASSERT] (the build files define no [NDEBUG], so the debug checks are
    live), an uncaught C++ exception, or undefined behaviour (a division by zero, a
    float-to-integer conversion out of range, a read of an uninitialized member, a
    null dereference, an array index out of bounds, a use of an erased iterator or of a
    destroyed object, a sorted container whose comparison is not a strict weak order).  [OutOfFuel] marks a loop that did not finish
    within the fuel it was given. *)

Inductive fault :=
  | CheckFailed
  | RuntimeError
  | DivByZero
  | BadFloatCast
  | UninitializedRead
  | NullPointer
  | DanglingIterator
  | OutOfBounds
  | BadOrder
  | DanglingPointer
  | OutOfFuel.

#[export] Instance fault_eq_dec : EqDecision fault.
Proof. solve_decision. Defined.

Inductive result (A : Type) :=
  | Ok (a : A)
  | Fault (f : fault).
Arguments Ok {A} a.
Arguments Fault {A} f.

#[export] Instance result_eq_dec `{EqDecision A} : EqDecision (result A).
Proof. solve_decision. Defined.

Definition rbind {A B} (m : result A) (k : A -> result B) : result B :=
  match m with
  | Ok a => k a
  | Fault f => Fault f
  end.

(** An [if] without [else] that updates the state. *)
Definition when {S} (b : bool) (f : S -> S) (s : S) : S := if b then f s else s.

Definition CHECK (b : bool) : result unit := if b then Ok tt else Fault CheckFailed.

Notation "'let*' x := m 'in' k" := (rbind m (fun x => k))
  (at level 10, x pattern, m at level 100, k at level 200,
   format "'let*'  x  :=  m  'in' '//' k") : quic_scope.

(** A [for] loop that threads a state through a vector. *)
Fixpoint rfold {A S} (f : S -> A -> result S) (l : list A) (s : S) : result S :=
  match l with
  | [] => Ok s
  | a :: l => let* s' := f s a in rfold f l s'
  end.

Lemma rbind_Ok {A B} (m : result A) (k : A -> result B) b :
  rbind m k = Ok b <-> exists a, m = Ok a /\ k a = Ok b.
Proof. destruct m; cbn; naive_solver. Qed.

Lemma Ok_inj {A} (a b : A) : Ok a = Ok b -> a = b.
Proof. congruence. Qed.

Lemma CHECK_Ok b u : CHECK b = Ok u <-> b = true.
Proof. destruct b, u; cbn; naive_solver. Qed.

(** An invariant of the loop body is an invariant of the loop. *)
Lemma rfold_inv {A S} (P : S -> Prop) (f : S -> A -> result S) l s s' :
  (forall a t t', a ∈ l -> P t -> f t a = Ok t' -> P t') ->
  P s -> rfold f l s = Ok s' -> P s'.
Proof.
  revert s; induction l as [|a l IH]; intros s Hstep Hs Hf; cbn in Hf.
  - naive_solver.
  - apply rbind_Ok in Hf as (t & Hfa & Hf).
    eapply (IH t); [| |exact Hf]; intros; eapply Hstep; eauto; set_solver.
Qed.

(** A loop whose body preserves a relation that is reflexive and transitive. *)
Lemma rfold_rel {A S} (R : S -> S -> Prop) `{!PreOrder R} (f : S -> A -> result S) l s s' :
  (forall a t t', f t a = Ok t' -> R t t') ->
  rfold f l s = Ok s' -> R s s'.
Proof.
  intros Hstep; revert s; induction l as [|a l IH]; intros s Hf; cbn in Hf.
  - naive_solver.
  - apply rbind_Ok in Hf as (t & Hfa & Hf). etrans; eauto.
Qed.

(** A loop that cannot fault while an invariant holds. *)
Lemma rfold_total {A S} (P : S -> Prop) (f : S -> A -> result S) l s :
  (forall a t, a ∈ l -> P t -> exists t', f t a = Ok t' /\ P t') ->
  P s -> exists s', rfold f l s = Ok s' /\ P s'.
Proof.
  revert s; induction l as [|a l IH]; intros s Hstep Hs; cbn.
  - eauto.
  - destruct (Hstep a s) as (t & -> & Ht); [set_solver|done|]. cbn.
    apply IH; [|done]. intros; apply Hstep; [set_solver|done].
Qed.

(** Take apart a successful run: [inv_ok] splits every bind and check. *)
Ltac inv_ok :=
  repeat match goal with
  | H : rbind _ _ = Ok _ |- _ => apply rbind_Ok in H as (? & ? & H)
  | H : CHECK _ = Ok _ |- _ => apply CHECK_Ok in H
  | H : Ok _ = Ok _ |- _ => injection H as H; subst
  | H : Fault _ = Ok _ |- _ => discriminate H
  end.

(** * Record update

    [s <| f := v |>] is [s] with field [f] replaced.  The setter of a field is
    computed from the record's eta-expansion, declared once per record. *)

Class Eta (R : Type) := MkEta { eta : R -> R }.
Class Setter {R T : Type} (f : R -> T) := MkSetter { set_field : T -> R -> R }.

Ltac derive_setter :=
  lazymatch goal with
  | |- @Setter ?R ?T ?f =>
      let e := eval hnf in (@eta R _) in
      refine (MkSetter R T f (fun (value : T) (record : R) =>
        ltac:(let body := eval cbv beta in (e record) in
              let abstracted := eval pattern (f record) in body in
              lazymatch abstracted with
              | ?g _ => let r := eval cbv beta in (g value) in exact r
              end)))
  end.
#[export] Hint Extern 1 (Setter _) => derive_setter : typeclass_instances.

Notation "s <| f := v |>" := (set_field (f := f) v s)
  (at level 12, f at level 99, v at level 99, left associativity,
   format "s  <|  f  :=  v  |>") : quic_scope.

(** * Lists *)

Lemma Forall_last_default {A} (P : A -> Prop) l d :
  Forall P l -> P d -> P (List.last l d).
Proof.
  induction l as [|a [|b l] IH]; intros Hl Hd; cbn; [done| |].
  - by inversion Hl.
  - apply IH; [by inversion Hl | done].
Qed.
