(* ===== verification/MapSum.v ===== *)
(** Byte counts per key: the sum of a finite map, and a map as a function that is
    zero where it has no entry. *)

From stdpp Require Import gmap.
From S2P Require Import Prelude.

(** The sum of the counts. *)
Definition sum_sizes (g : gmap Z Z) : Z := map_fold (fun _ v n => v + n) 0 g.

Lemma sum_sizes_insert g k v : g !! k = None -> sum_sizes (<[k := v]> g) = v + sum_sizes g.
Proof. intros Hk. unfold sum_sizes. apply (map_fold_insert_L (fun (_ : Z) v n => v + n)); [intros; lia|done]. Qed.
Lemma sum_sizes_delete g k v : g !! k = Some v -> sum_sizes g = v + sum_sizes (delete k g).
Proof.
  intros Hk. rewrite <- (insert_delete_id g k v Hk) at 1. apply sum_sizes_insert, lookup_delete_eq.
Qed.
Lemma sum_sizes_nonneg g : map_Forall (fun _ v => 0 < v) g -> 0 <= sum_sizes g.
Proof.
  induction g as [|k v g Hk IH] using map_ind; intros Hg; [done|].
  apply map_Forall_insert in Hg as [Hv Hg]; [|done]. rewrite sum_sizes_insert by done. specialize (IH Hg). lia.
Qed.
Lemma sum_sizes_filter (Q : Z * Z -> Prop) `{!forall x, Decision (Q x)} g : map_Forall (fun _ v => 0 < v) g ->
  sum_sizes (filter Q g) <= sum_sizes g.
Proof.
  induction g as [|k v g Hk IH] using map_ind; intros Hg; [done|].
  apply map_Forall_insert in Hg as [Hv Hg]; [|done]. specialize (IH Hg).
  rewrite map_filter_insert. case_decide.
  - rewrite !sum_sizes_insert; [lia|done|]. apply map_lookup_filter_None. by left.
  - rewrite delete_id by done. rewrite sum_sizes_insert by done. lia.
Qed.

(** The count of a key, zero if it has none. *)
Definition at_ (g : gmap Z Z) (k : Z) : Z := default 0 (g !! k).

Lemma at_insert g k v : at_ (<[k := v]> g) k = v.
Proof. unfold at_. by rewrite lookup_insert_eq. Qed.
Lemma at_insert_ne g k k' v : k <> k' -> at_ (<[k := v]> g) k' = at_ g k'.
Proof. intros. unfold at_. by rewrite lookup_insert_ne. Qed.
Lemma at_delete_le g k k' : (forall k, 0 <= at_ g k) -> 0 <= at_ (delete k g) k' <= at_ g k'.
Proof.
  intros Hg. specialize (Hg k'). unfold at_ in *. destruct (decide (k = k')) as [->|Hk].
  - rewrite lookup_delete_eq. cbn. lia.
  - rewrite lookup_delete_ne by done. lia.
Qed.

Lemma sum_at g k : sum_sizes g = at_ g k + sum_sizes (delete k g).
Proof.
  unfold at_. destruct (g !! k) as [v|] eqn:E; cbn; [by apply sum_sizes_delete|]. by rewrite delete_id.
Qed.
Lemma sum_update g k v : sum_sizes (<[k := v]> g) = sum_sizes g + (v - at_ g k).
Proof. rewrite (sum_at g k), (sum_at (<[k := v]> g) k), at_insert, delete_insert_eq. lia. Qed.

(** The sum is monotone. *)
Lemma sum_le f g : (forall k, 0 <= at_ f k <= at_ g k) -> sum_sizes f <= sum_sizes g.
Proof.
  revert g. induction f as [|k v f Hk IH] using map_ind; intros g Hfg.
  - assert (Hg : forall k, 0 <= at_ g k) by (intros k; specialize (Hfg k); unfold at_ in Hfg; rewrite lookup_empty in Hfg; apply Hfg).
    clear Hfg. induction g as [|k v g Hk IH] using map_ind; [done|]. rewrite sum_sizes_insert by done.
    assert (0 <= v) by (rewrite <- (at_insert g k v); apply Hg).
    enough (sum_sizes ∅ <= sum_sizes g) by lia. apply IH. intros k'. destruct (decide (k = k')) as [<-|Hne].
    + unfold at_. by rewrite Hk.
    + rewrite <- (at_insert_ne g k k' v Hne). apply Hg.
  - rewrite sum_sizes_insert by done. rewrite (sum_at g k).
    pose proof (Hfg k) as H1. rewrite at_insert in H1.
    enough (sum_sizes f <= sum_sizes (delete k g)) by lia. apply IH. intros k'. unfold at_.
    destruct (decide (k = k')) as [<-|Hne].
    + by rewrite Hk, lookup_delete_eq.
    + rewrite lookup_delete_ne by done. specialize (Hfg k'). rewrite at_insert_ne in Hfg by done. exact Hfg.
Qed.

Lemma at_le_sum g k : (forall k, 0 <= at_ g k) -> at_ g k <= sum_sizes g.
Proof.
  intros Hg. rewrite (sum_at g k). enough (0 <= sum_sizes (delete k g)) by lia.
  change 0 with (sum_sizes ∅).
  apply sum_le. intros k'. pose proof (at_delete_le g k k' Hg). split; [done|]. apply H.
Qed.

(** What is left at one key is part of what is left in all. *)
Lemma sum_diff f g k : (forall k, 0 <= at_ f k <= at_ g k) -> at_ g k - at_ f k <= sum_sizes g - sum_sizes f.
Proof.
  intros Hfg. rewrite (sum_at f k), (sum_at g k). enough (sum_sizes (delete k f) <= sum_sizes (delete k g)) by lia.
  apply sum_le. intros k'. unfold at_. destruct (decide (k = k')) as [<-|Hne].
  - by rewrite !lookup_delete_eq.
  - rewrite !lookup_delete_ne by done. apply Hfg.
Qed.
