(* ===== verification/IntervalSet.v ===== *)
(** [QuicInterval] and [QuicIntervalSet] (quic_interval.h, quic_interval_set.h):
    sets of numbers as sorted sequences of non-empty half-open intervals that
    neither overlap nor touch.  The ordered set of the source is the list of its
    elements by ascending [min()]; an iterator is the list from its element on,
    and [end()] the empty list.  The theorem: every operation computes the
    operation on sets of numbers that its comment promises, and leaves the only
    representation of the result. *)

From S2P Require Import Prelude.
Open Scope quic_scope.

(** src/quiche/gquiche/quic/core/quic_interval.h:223-226 [QuicInterval] *)
Record QuicInterval := mkInterval { imin : Z; imax : Z }.
#[export] Instance QuicInterval_eq_dec : EqDecision QuicInterval.
Proof. solve_decision. Defined.
Implicit Types (i j u : QuicInterval) (s t : list QuicInterval).

(** src/quiche/gquiche/quic/core/quic_interval.h:118-118 [QuicInterval::Clear] *)
Definition Interval_Clear : QuicInterval := mkInterval 0 0.

(** src/quiche/gquiche/quic/core/quic_interval.h:120-120 [QuicInterval::Empty] *)
Definition Interval_Empty (i : QuicInterval) : bool := imax i <=? imin i.

(** src/quiche/gquiche/quic/core/quic_interval.h:124-126 [QuicInterval::Length] *)
Definition Interval_Length (i : QuicInterval) : Z := (if Interval_Empty i then imin i else imax i) - imin i.

(** src/quiche/gquiche/quic/core/quic_interval.h:129-129 [QuicInterval::Contains] *)
Definition contains_point (i : QuicInterval) (p : Z) : bool := (imin i <=? p) && (p <? imax i).

(** src/quiche/gquiche/quic/core/quic_interval.h:135-137 [QuicInterval::Contains] *)
Definition contains_interval (i j : QuicInterval) : bool :=
  negb (Interval_Empty i) && negb (Interval_Empty j) && (imin i <=? imin j) && (imax j <=? imax i).

(** src/quiche/gquiche/quic/core/quic_interval.h:141-143 [QuicInterval::Intersects] *)
Definition Interval_Intersects (i j : QuicInterval) : bool :=
  negb (Interval_Empty i) && negb (Interval_Empty j) && (imin i <? imax j) && (imin j <? imax i).

(** src/quiche/gquiche/quic/core/quic_interval.h:248-257 [QuicInterval::Intersects] *)
Definition intersection_of (i j : QuicInterval) : option QuicInterval :=
  if Interval_Intersects i j then Some (mkInterval (Z.max (imin i) (imin j)) (Z.min (imax i) (imax j))) else None.

(** src/quiche/gquiche/quic/core/quic_interval.h:159-163 [QuicInterval::Separated] *)
Definition Separated (i j : QuicInterval) : bool :=
  if Interval_Empty i || Interval_Empty j then true else (imax j <? imin i) || (imax i <? imin j).

(** src/quiche/gquiche/quic/core/quic_interval.h:275-293 [QuicInterval::SpanningUnion] *)
Definition SpanningUnion (u i : QuicInterval) : QuicInterval :=
  if Interval_Empty i then u
  else if Interval_Empty u then i
  else
    let u := if imin i <? imin u then mkInterval (imin i) (imax u) else u in
    if imax u <? imax i then mkInterval (imin u) (imax i) else u.

(** src/quiche/gquiche/quic/core/quic_interval.h:220-222 [QuicInterval::operator<] *)
Definition Interval_lt (i j : QuicInterval) : bool :=
  (imin i <? imin j) || (negb (imin j <? imin i) && (imax j <? imax i)).

(** * The ordered set *)

(** A set is split at an iterator: what precedes it and what it points to. *)
Fixpoint span (before : QuicInterval -> bool) (s : list QuicInterval) : list QuicInterval * list QuicInterval :=
  match s with
  | [] => ([], [])
  | i :: r => if before i then let '(a, b) := span before r in (i :: a, b) else ([], s)
  end.

(** src/quiche/gquiche/quic/core/quic_interval_set.h:865-879 [QuicIntervalSet::IntervalLess::operator()]
    The first element whose [min()] is not less than the point. *)
Definition lower_bound (p : Z) (s : list QuicInterval) : list QuicInterval * list QuicInterval :=
  span (fun i => imin i <? p) s.

(** src/quiche/gquiche/quic/core/quic_interval_set.h:881-895 [QuicIntervalSet::IntervalLess::operator()]
    The first element whose [min()] is greater than the point. *)
Definition upper_bound (p : Z) (s : list QuicInterval) : list QuicInterval * list QuicInterval :=
  span (fun i => negb (p <? imin i)) s.

(** src/quiche/gquiche/quic/core/quic_interval_set.h:855-861 [QuicIntervalSet::IntervalLess::operator()]
    Insertion into the ordered set, which keeps an element with the same [min()];
    the second result tells whether the interval was inserted. *)
Definition set_insert (u : QuicInterval) (s : list QuicInterval) : list QuicInterval * bool :=
  let '(a, b) := lower_bound (imin u) s in
  match b with
  | x :: _ => if imin u <? imin x then (a ++ u :: b, true) else (s, false)
  | [] => (a ++ [u], true)
  end.

(** The last element before an iterator. *)
Definition step_back (a : list QuicInterval) : option (list QuicInterval * QuicInterval) :=
  match reverse a with
  | x :: r => Some (reverse r, x)
  | [] => None
  end.

(** src/quiche/gquiche/quic/core/quic_interval_set.h:469-478 [QuicIntervalSet::SpanningInterval] *)
Definition SpanningInterval (s : list QuicInterval) : QuicInterval :=
  match head s, last s with
  | Some i, Some j => mkInterval (imin i) (imax j)
  | _, _ => Interval_Clear
  end.

(** src/quiche/gquiche/quic/core/quic_interval_set.h:497-500 [QuicIntervalSet::Add]
    The loop over the intervals that overlap or touch the union. *)
Fixpoint absorb (the_union : QuicInterval) (it : list QuicInterval) : QuicInterval * list QuicInterval :=
  match it with
  | x :: r => if Separated x the_union then (the_union, it) else absorb (SpanningUnion the_union x) r
  | [] => (the_union, [])
  end.

(** src/quiche/gquiche/quic/core/quic_interval_set.h:480-503 [QuicIntervalSet::Add] *)
Definition Add (interval : QuicInterval) (s : list QuicInterval) : list QuicInterval :=
  if Interval_Empty interval then s
  else
    let '(before, it) := lower_bound (imin interval) s in
    let '(before, it) :=
      match step_back before with
      | Some (before', x) => if Separated x interval then (before, it) else (before', x :: it)
      | None => (before, it)
      end in
    let '(the_union, it) := absorb interval it in
    fst (set_insert the_union (before ++ it)).

(** src/quiche/gquiche/quic/core/quic_interval_set.h:130-158 [QuicIntervalSet::AddOptimizedForAppend] *)
Definition AddOptimizedForAppend (interval : QuicInterval) (s : list QuicInterval) : list QuicInterval :=
  match step_back s with
  | None => Add interval s
  | Some (before, last_interval) =>
      if (imin interval <? imin last_interval) || (imax last_interval <? imin interval) then Add interval s
      else if imax interval <=? imax last_interval then s
      else before ++ [mkInterval (imin last_interval) (imax interval)]
  end.

(** src/quiche/gquiche/quic/core/quic_interval_set.h:171-174 [QuicIntervalSet::PopFront] *)
Definition PopFront (s : list QuicInterval) : result (list QuicInterval) :=
  match s with
  | [] => Fault CheckFailed
  | _ :: r => Ok r
  end.

(** src/quiche/gquiche/quic/core/quic_interval_set.h:182-210 [QuicIntervalSet::TrimLessThan] *)
Fixpoint TrimLessThan (value : Z) (s : list QuicInterval) : list QuicInterval * bool :=
  match s with
  | [] => ([], false)
  | i :: r =>
      if value <=? imin i then (s, false)
      else if imax i <=? value then (fst (TrimLessThan value r), true)
      else (mkInterval value (imax i) :: r, true)
  end.

(** src/quiche/gquiche/quic/core/quic_interval_set.h:505-513 [QuicIntervalSet::Contains] *)
Definition Contains (s : list QuicInterval) (value : Z) : bool :=
  match step_back (fst (upper_bound value s)) with
  | None => false
  | Some (_, it) => contains_point it value
  end.

(** src/quiche/gquiche/quic/core/quic_interval_set.h:515-523 [QuicIntervalSet::Contains] *)
Definition Contains_interval (s : list QuicInterval) (interval : QuicInterval) : bool :=
  match step_back (fst (upper_bound (imin interval) s)) with
  | None => false
  | Some (_, it) => contains_interval it interval
  end.

(** src/quiche/gquiche/quic/core/quic_interval_set.h:525-538 [QuicIntervalSet::Contains] *)
Definition Contains_set (s other : list QuicInterval) : bool :=
  if negb (contains_interval (SpanningInterval s) (SpanningInterval other)) then false
  else forallb (Contains_interval s) other.

(** src/quiche/gquiche/quic/core/quic_interval_set.h:555-566 [QuicIntervalSet::Find] *)
Definition Find (s : list QuicInterval) (value : Z) : list QuicInterval :=
  let '(before, it) := upper_bound value s in
  match step_back before with
  | None => []
  | Some (_, x) => if contains_point x value then x :: it else []
  end.

(** src/quiche/gquiche/quic/core/quic_interval_set.h:574-585 [QuicIntervalSet::Find] *)
Definition Find_interval (s : list QuicInterval) (probe : QuicInterval) : list QuicInterval :=
  let '(before, it) := upper_bound (imin probe) s in
  match step_back before with
  | None => []
  | Some (_, x) => if contains_interval x probe then x :: it else []
  end.

(** src/quiche/gquiche/quic/core/quic_interval_set.h:587-604 [QuicIntervalSet::LowerBound] *)
Definition LowerBound (s : list QuicInterval) (value : Z) : list QuicInterval :=
  let '(before, it) := lower_bound value s in
  match step_back before with
  | None => it
  | Some (_, x) => if contains_point x value then x :: it else it
  end.

(** src/quiche/gquiche/quic/core/quic_interval_set.h:606-610 [QuicIntervalSet::UpperBound] *)
Definition UpperBound (s : list QuicInterval) (value : Z) : list QuicInterval := snd (upper_bound value s).

(** src/quiche/gquiche/quic/core/quic_interval_set.h:612-624 [QuicIntervalSet::IsDisjoint] *)
Definition IsDisjoint (s : list QuicInterval) (interval : QuicInterval) : bool :=
  if Interval_Empty interval then true
  else
    let '(before, it) := upper_bound (imin interval) s in
    if match it with x :: _ => imin x <? imax interval | [] => false end then false
    else
      match step_back before with
      | None => true
      | Some (_, x) => imax x <=? imin interval
      end.

(** src/quiche/gquiche/quic/core/quic_interval_set.h:626-631 [QuicIntervalSet::Union] *)
Definition Set_Union (s other : list QuicInterval) : list QuicInterval := foldl (fun s i => Add i s) s other.

(** src/quiche/gquiche/quic/core/quic_interval_set.h:839-852 [QuicIntervalSet::Valid] *)
Fixpoint valid_after (prev : option QuicInterval) (s : list QuicInterval) : bool :=
  match s with
  | [] => true
  | it :: r =>
      if imax it <=? imin it then false
      else if match prev with Some p => imin it <=? imax p | None => false end then false
      else valid_after (Some it) r
  end.
Definition Valid (s : list QuicInterval) : bool := valid_after None s.

(** src/quiche/gquiche/quic/core/quic_interval_set.h:781-819 [QuicIntervalSet::Difference]
    The loop: [mine] starts with the interval of which [myinterval] is left. *)
Fixpoint difference_loop (fuel : nat) (myinterval : QuicInterval) (mine theirs res : list QuicInterval)
    : result (list QuicInterval) :=
  match mine, fuel with
  | [], _ => Ok res
  | _, O => Fault OutOfFuel
  | m :: mine', S fuel =>
      let* _ := CHECK (negb (Interval_Empty myinterval)) in
      let* _ := CHECK (imax myinterval =? imax m) in
      let '(res, myinterval, theirs) :=
        match theirs with
        | [] => (fst (set_insert myinterval res), Interval_Clear, theirs)
        | x :: theirs' =>
            if imax myinterval <=? imin x then (fst (set_insert myinterval res), Interval_Clear, theirs)
            else if imax x <=? imin myinterval then (res, myinterval, theirs')
            else if imin myinterval <? imin x then
              (fst (set_insert (mkInterval (imin myinterval) (imin x)) res), mkInterval (imax x) (imax myinterval), theirs)
            else (res, mkInterval (imax x) (imax myinterval), theirs)
        end in
      if Interval_Empty myinterval
      then difference_loop fuel (match mine' with y :: _ => y | [] => myinterval end) mine' theirs res
      else difference_loop fuel myinterval mine theirs res
  end.

(** src/quiche/gquiche/quic/core/quic_interval_set.h:763-823 [QuicIntervalSet::Difference]
    Two units of fuel per interval: one that cuts it, one that passes it. *)
Definition Set_Difference (s other : list QuicInterval) : result (list QuicInterval) :=
  match s with
  | [] => Ok s
  | mine :: _ =>
      let* res := difference_loop (2 * (length s + length other)) mine s other [] in
      let* _ := CHECK (Valid res) in
      Ok res
  end.

(** src/quiche/gquiche/quic/core/quic_interval_set.h:750-756 [QuicIntervalSet::Difference] *)
Definition Difference_interval (s : list QuicInterval) (interval : QuicInterval) : result (list QuicInterval) :=
  if negb (Interval_Intersects (SpanningInterval s) interval) then Ok s
  else Set_Difference s (Add interval []).

(** src/quiche/gquiche/quic/core/quic_interval_set.h:825-830 [QuicIntervalSet::Complement] *)
Definition Complement (s : list QuicInterval) (min max : Z) : result (list QuicInterval) :=
  Set_Difference (Add (mkInterval min max) []) s.

(** src/quiche/gquiche/quic/core/quic_interval_set.h:731-747 [QuicIntervalSet::Intersects]
    One unit of fuel per interval of either set. *)
Fixpoint intersects_loop (fuel : nat) (mine theirs : list QuicInterval) : result bool :=
  match mine, theirs, fuel with
  | [], _, _ | _, [], _ => Ok false
  | _, _, O => Fault OutOfFuel
  | m :: mine', x :: theirs', S fuel =>
      if Interval_Intersects m x then Ok true
      else if Interval_lt m x then intersects_loop fuel mine' theirs
      else intersects_loop fuel mine theirs'
  end.
Definition Intersects (s other : list QuicInterval) : result bool :=
  intersects_loop (length s + length other) s other.

(** * The numbers in a set *)

Fixpoint mem (s : list QuicInterval) (p : Z) : Prop :=
  match s with
  | [] => False
  | i :: r => imin i <= p < imax i \/ mem r p
  end.

(** A set whose numbers are beyond [lo], in its only representation. *)
Fixpoint ok (lo : Z) (s : list QuicInterval) : Prop :=
  match s with
  | [] => True
  | i :: r => lo < imin i < imax i /\ ok (imax i) r
  end.

(** The end of the last interval. *)
Fixpoint bound (lo : Z) (s : list QuicInterval) : Z :=
  match s with
  | [] => lo
  | i :: r => bound (imax i) r
  end.

Lemma mem_app a b p : mem (a ++ b) p <-> mem a p \/ mem b p.
Proof. induction a as [|i a IH]; cbn; [tauto|]. rewrite IH. tauto. Qed.

Lemma ok_app lo a b : ok lo (a ++ b) <-> ok lo a /\ ok (bound lo a) b.
Proof. revert lo. induction a as [|i a IH]; intros lo; cbn; [tauto|]. rewrite IH. tauto. Qed.

Lemma bound_app lo a b : bound lo (a ++ b) = bound (bound lo a) b.
Proof. revert lo. induction a as [|i a IH]; intros lo; cbn; [done|apply IH]. Qed.

Lemma ok_bound lo s : ok lo s -> lo <= bound lo s.
Proof. revert lo. induction s as [|i s IH]; intros lo; cbn; [lia|]. intros [? Hs]. specialize (IH _ Hs). lia. Qed.

Lemma ok_mono lo lo' s : lo' <= lo -> ok lo s -> ok lo' s.
Proof. destruct s as [|i s]; cbn; [done|]. intros ? [? ?]. split; [lia|done]. Qed.

Lemma ok_mem lo s p : ok lo s -> mem s p -> lo < p < bound lo s.
Proof.
  revert lo. induction s as [|i s IH]; intros lo; cbn; [done|]. intros [? Hs] [?|Hm].
  - pose proof (ok_bound _ _ Hs). lia.
  - specialize (IH _ Hs Hm). lia.
Qed.

(** Two sets with the same numbers are represented by the same intervals. *)
Lemma ok_unique lo s t : ok lo s -> ok lo t -> (forall p, mem s p <-> mem t p) -> s = t.
Proof.
  revert lo t. induction s as [|i s IH]; intros lo [|j t]; cbn; intros Hs Ht He; [done| | |].
  - destruct (proj2 (He (imin j))); lia.
  - destruct (proj1 (He (imin i))); lia.
  - destruct Hs as [Hi Hs], Ht as [Hj Ht].
    assert (E1 : imin i = imin j).
    { destruct (proj1 (He (imin i))) as [?|H1]; [lia| |apply (ok_mem _ _ _ Ht) in H1];
        (destruct (proj2 (He (imin j))) as [?|H2]; [lia| |apply (ok_mem _ _ _ Hs) in H2]); lia. }
    assert (E2 : imax i = imax j).
    { destruct (Z.lt_trichotomy (imax i) (imax j)) as [H|[H|H]]; [|done|].
      - destruct (proj2 (He (imax i))) as [?|H2]; [lia|lia|apply (ok_mem _ _ _ Hs) in H2; lia].
      - destruct (proj1 (He (imax j))) as [?|H2]; [lia|lia|apply (ok_mem _ _ _ Ht) in H2; lia]. }
    assert (i = j) as -> by (destruct i, j; cbn in *; congruence). f_equal.
    apply (IH (imax j)); [done|done|]. intros p. split; intros Hp.
    + destruct (proj1 (He p)) as [?|?]; [by right|apply (ok_mem _ _ _ Hs) in Hp; lia|done].
    + destruct (proj2 (He p)) as [?|?]; [by right|apply (ok_mem _ _ _ Ht) in Hp; lia|done].
Qed.

Lemma valid_after_ok prev s lo : ok lo s -> match prev with Some p => imax p <= lo | None => True end -> valid_after prev s = true.
Proof.
  revert prev lo. induction s as [|i s IH]; intros prev lo; cbn; [done|]. intros [Hi Hs] Hp. zcases; [lia|].
  destruct prev as [q|]; [zcases; [lia|]|]; apply (IH (Some i) (imax i)); done || cbn; lia.
Qed.
Lemma Valid_ok lo s : ok lo s -> Valid s = true.
Proof. intros Hs. by apply (valid_after_ok None s lo). Qed.

Lemma step_back_app a x : step_back (a ++ [x]) = Some (a, x).
Proof. unfold step_back. rewrite reverse_snoc. by rewrite reverse_involutive. Qed.

Lemma step_back_cases a : (a = [] /\ step_back a = None) \/ exists a' x, a = a' ++ [x] /\ step_back a = Some (a', x).
Proof. destruct a as [|x a _] using rev_ind; [by left|right]. exists a, x. by rewrite step_back_app. Qed.

Lemma span_spec f s a b : span f s = (a, b) ->
  s = a ++ b /\ Forall (fun i => f i = true) a /\ match b with x :: _ => f x = false | [] => True end.
Proof.
  revert a b. induction s as [|i s IH]; intros a b; cbn; [by intros [= <- <-]|].
  destruct (f i) eqn:E.
  - destruct (span f s) as [a' b'] eqn:Es. intros [= <- <-]. destruct (IH _ _ eq_refl) as (-> & ? & ?). by repeat constructor.
  - intros [= <- <-]. done.
Qed.

Lemma span_app f a b : Forall (fun i => f i = true) a -> match b with x :: _ => f x = false | [] => True end -> span f (a ++ b) = (a, b).
Proof.
  induction 1 as [|i a Hi _ IH]; intros Hb; cbn.
  - destruct b as [|x b]; [done|]. cbn. by rewrite Hb.
  - by rewrite Hi, IH.
Qed.

(** What comes before a point of an ordered set ends before it. *)
Lemma ok_before lo a b q : ok lo (a ++ b) -> bound lo a <= q -> Forall (fun i => imin i < imax i <= q) a.
Proof.
  rewrite ok_app. intros [Ha _]. revert lo Ha. induction a as [|i a IH]; intros lo; cbn; [by constructor|].
  intros [Hi Ha] Hq. pose proof (ok_bound _ _ Ha). constructor; [lia|by eapply IH].
Qed.

Lemma set_insert_ok lo a u b : ok lo (a ++ u :: b) -> set_insert u (a ++ b) = (a ++ u :: b, true).
Proof.
  intros Hs. pose proof (proj2 (proj1 (ok_app _ _ _) Hs)) as [Hu Hb]. unfold set_insert, lower_bound. rewrite span_app.
  - destruct b as [|x b]; [done|]. cbn in Hb. zcases; [done|lia].
  - eapply Forall_impl; [apply (ok_before lo a (u :: b) (bound lo a) Hs); lia|]. cbn. intros i Hi. zcases; lia || done.
  - destruct b as [|x b]; [done|]. cbn in Hb. zcases; lia || done.
Qed.

(** Reference for [Add]: one pass over the set. *)
Fixpoint add_ref (u : QuicInterval) (s : list QuicInterval) : list QuicInterval :=
  match s with
  | [] => [u]
  | x :: r =>
      if imax x <? imin u then x :: add_ref u r
      else if imax u <? imin x then u :: s
      else add_ref (mkInterval (Z.min (imin u) (imin x)) (Z.max (imax u) (imax x))) r
  end.

Lemma add_ref_mem lo u s p : ok lo s -> imin u < imax u -> mem (add_ref u s) p <-> imin u <= p < imax u \/ mem s p.
Proof.
  revert lo u. induction s as [|x s IH]; intros lo u; cbn; [tauto|]. intros [Hx Hs] Hu. zcases; cbn.
  - rewrite (IH _ _ Hs Hu). tauto.
  - tauto.
  - rewrite (IH _ _ Hs) by (cbn; lia). cbn.
    assert (Z.min (imin u) (imin x) <= p < Z.max (imax u) (imax x) <-> imin u <= p < imax u \/ imin x <= p < imax x) by lia.
    tauto.
Qed.

Lemma add_ref_ok lo u s : ok lo s -> lo < imin u < imax u -> ok lo (add_ref u s).
Proof.
  revert lo u. induction s as [|x s IH]; intros lo u; cbn; [tauto|]. intros [Hx Hs] Hu. zcases; cbn.
  - split; [done|]. apply IH; [done|lia].
  - repeat split; try done; lia.
  - apply IH; [|cbn; lia]. by apply ok_mono with (imax x); [lia|].
Qed.

Lemma add_ref_skip lo a u b : ok lo (a ++ b) -> Forall (fun i => imax i < imin u) a -> add_ref u (a ++ b) = a ++ add_ref u b.
Proof.
  intros _. induction 1 as [|x a Hx _ IH]; cbn; [done|]. zcases; [by rewrite IH|lia..].
Qed.

Lemma Separated_spec x u : imin x < imax x -> imin u < imax u -> Separated x u = (imax u <? imin x) || (imax x <? imin u).
Proof. intros Hx Hu. unfold Separated, Interval_Empty. zcases; try lia; done. Qed.

Lemma SpanningUnion_spec x u : imin x < imax x -> imin u < imax u ->
  SpanningUnion u x = mkInterval (Z.min (imin u) (imin x)) (Z.max (imax u) (imax x)).
Proof. intros Hx Hu. destruct x, u. unfold SpanningUnion, Interval_Empty. cbn in *. zcases; cbn in *; zcases; f_equal; lia. Qed.

(** The loop of [Add], from an interval that does not end before the union. *)
Lemma absorb_spec lo u s : ok lo s -> imin u < imax u -> match s with x :: _ => imin u <= imax x | [] => True end ->
  exists v r, absorb u s = (v, r) /\ add_ref u s = v :: r.
Proof.
  revert lo u. induction s as [|x s IH]; intros lo u; cbn; [by eauto|]. intros [Hx Hs] Hu Hh.
  rewrite Separated_spec, SpanningUnion_spec by lia. zcases; cbn; try lia; [by eauto..|].
  apply (IH _ _ Hs); [cbn; lia|]. destruct s as [|y s]; [done|]. cbn in *. lia.
Qed.

Lemma Add_ref lo u s : ok lo s -> lo < imin u < imax u -> Add u s = add_ref u s.
Proof.
  intros Hs Hu. unfold Add, Interval_Empty. zcases; [lia|].
  destruct (lower_bound (imin u) s) as [a b] eqn:E. apply span_spec in E as (-> & Ha & Hb).
  (* what precedes the iterator, less the interval stepped back to *)
  assert (Hgo : forall a' b', a' ++ b' = a ++ b -> Forall (fun i => imax i < imin u) a' ->
            match b' with x :: _ => imin u <= imax x | [] => True end ->
            (let '(v, r) := absorb u b' in fst (set_insert v (a' ++ r))) = add_ref u (a ++ b)).
  { intros a' b' E Ha' Hb'. rewrite <- E in Hs |- *. pose proof (proj1 (ok_app _ _ _) Hs) as [_ Hs'].
    destruct (absorb_spec _ u b' Hs' (proj2 Hu) Hb') as (v & r & -> & Er).
    rewrite (add_ref_skip lo) by done. rewrite Er. rewrite (set_insert_ok lo); [done|]. rewrite <- Er.
    rewrite <- (add_ref_skip lo) by done. by apply add_ref_ok. }
  assert (Hsep : forall a0 x, a = a0 ++ [x] -> Forall (fun i => imax i < imin u) a0).
  { intros a0 x ->. rewrite <- app_assoc in Hs. pose proof (proj1 (ok_app _ _ _) Hs) as [_ [Hx _]].
    apply Forall_app in Ha as [_ Ha]. apply Forall_inv in Ha. apply Z.ltb_lt in Ha.
    eapply Forall_impl; [apply (ok_before lo a0 _ (bound lo a0) Hs); lia|]. cbn. lia. }
  destruct (step_back_cases a) as [[-> ->]|(a0 & x & -> & ->)].
  - apply Hgo; [done|done|]. destruct b as [|y b]; [done|]. cbn in Hs. zcases; lia.
  - specialize (Hsep a0 x eq_refl). pose proof Hs as Hs1. rewrite <- app_assoc in Hs1.
    pose proof (proj2 (proj1 (ok_app _ _ _) Hs1)) as [Hx Hb1]. rewrite Separated_spec by lia.
    apply Forall_app in Ha as [_ Ha]. apply Forall_inv in Ha. zcases; try lia.
    + cbn [orb]. apply Hgo; [done|apply Forall_app; split; [done|by constructor]|].
      destruct b as [|y b]; [done|]. cbn in Hb1. lia.
    + cbn [orb]. apply Hgo; [by rewrite <- app_assoc|done|]. lia.
Qed.

Lemma Add_spec lo u s : ok lo s -> lo < imin u ->
  ok lo (Add u s) /\ forall p, mem (Add u s) p <-> imin u <= p < imax u \/ mem s p.
Proof.
  intros Hs Hu. destruct (Z.le_gt_cases (imax u) (imin u)).
  - unfold Add, Interval_Empty. zcases; [|lia]. split; [done|]. intros p. split; [by right|]. intros [?|?]; [lia|done].
  - rewrite (Add_ref lo) by (done || lia). split; [apply add_ref_ok; done || lia|]. intros p. by apply add_ref_mem with lo.
Qed.

Lemma Add_length lo u s : ok lo s -> lo < imin u -> (length (Add u s) <= S (length s))%nat.
Proof.
  intros Hs Hu. destruct (Z.le_gt_cases (imax u) (imin u)); [unfold Add, Interval_Empty; zcases; lia|].
  rewrite (Add_ref lo) by (done || lia). clear. revert u. induction s as [|x s IH]; intros u; cbn; [done|]. zcases; cbn; [|lia|].
  - specialize (IH u). lia.
  - specialize (IH (mkInterval (Z.min (imin u) (imin x)) (Z.max (imax u) (imax x)))). lia.
Qed.

Lemma Add_empty lo u : lo < imin u -> ok lo (Add u []) /\ forall p, mem (Add u []) p <-> imin u <= p < imax u.
Proof. intros Hu. destruct (Add_spec lo u [] I Hu) as [H1 H2]. split; [done|]. intros p. rewrite H2. cbn. tauto. Qed.

Lemma AddOptimizedForAppend_Add lo u s : ok lo s -> lo < imin u <= imax u -> AddOptimizedForAppend u s = Add u s.
Proof.
  intros Hs Hu. unfold AddOptimizedForAppend. destruct (step_back_cases s) as [[-> ->]|(a & x & -> & ->)]; [done|].
  zcases; try done; apply (ok_unique lo); try apply Add_spec; try done; try lia.
  - intros p. rewrite (proj2 (Add_spec lo u _ Hs (proj1 Hu)) p), mem_app. cbn.
    assert (imin u <= p < imax u -> imin x <= p < imax x) by lia. tauto.
  - apply ok_app in Hs as [Ha Hx]. apply ok_app. split; [done|]. cbn in *. lia.
  - intros p. rewrite (proj2 (Add_spec lo u _ Hs (proj1 Hu)) p), !mem_app. cbn.
    apply ok_app in Hs as [_ Hx]. cbn in Hx.
    assert (imin x <= p < imax u <-> imin u <= p < imax u \/ imin x <= p < imax x) by lia. tauto.
Qed.

Lemma Set_Union_spec lo s t : ok lo s -> ok lo t ->
  ok lo (Set_Union s t) /\ forall p, mem (Set_Union s t) p <-> mem s p \/ mem t p.
Proof.
  unfold Set_Union. intros Hs Ht. assert (Hlo : Forall (fun i => lo < imin i) t).
  { clear Hs. assert (Hle : lo <= lo) by lia. revert Hle Ht. generalize lo at 2 3. induction t as [|i t IH]; intros l Hl; cbn; [constructor|].
    intros [Hi Ht]. constructor; [lia|]. apply (IH (imax i)); [lia|done]. }
  clear Ht. revert s Hs. induction Hlo as [|i t Hi _ IH]; intros s Hs; cbn; [split; [done|tauto]|].
  destruct (Add_spec lo i s Hs Hi) as [H1 H2]. destruct (IH _ H1) as [H3 H4]. split; [done|].
  intros p. rewrite H4, H2. tauto.
Qed.

Lemma TrimLessThan_spec lo v s : ok lo s ->
  ok lo (fst (TrimLessThan v s)) /\ (forall p, mem (fst (TrimLessThan v s)) p <-> mem s p /\ v <= p) /\
  (snd (TrimLessThan v s) = false -> fst (TrimLessThan v s) = s).
Proof.
  revert lo. induction s as [|i s IH]; intros lo; cbn; [tauto|]. intros [Hi Hs]. destruct (IH _ Hs) as (H1 & H2 & H3).
  assert (Hgt : forall p, mem s p -> imax i < p) by (intros p Hp; apply (ok_mem _ _ _ Hs) in Hp; lia).
  zcases; cbn.
  - split; [done|]. split; [|done]. intros p. specialize (Hgt p). assert (imin i <= p < imax i -> v <= p) by lia.
    assert (imax i < p -> v <= p) by lia. tauto.
  - split; [by eapply ok_mono; [|apply H1]; lia|]. split; [|done]. intros p. rewrite H2. assert (imin i <= p < imax i -> ~ v <= p) by lia. tauto.
  - split; [split; [lia|done]|]. split; [|done]. intros p. specialize (Hgt p).
    assert (v <= p < imax i <-> imin i <= p < imax i /\ v <= p) by lia. assert (imax i < p -> v <= p) by lia. tauto.
Qed.

(** The interval before the first one that starts after [p] is the only one that
    may hold [p]. *)
Lemma upper_bound_spec lo p s a b : ok lo s -> upper_bound p s = (a, b) ->
  s = a ++ b /\ (forall q, mem b q -> p < q) /\
  (forall q x r, b = x :: r -> p < q -> q < imin x -> ~ mem b q) /\
  forall a' x, a = a' ++ [x] -> imin x <= p /\ imin x < imax x /\ (forall q, mem a' q -> q < imin x) /\ (forall q, mem b q -> imax x < q).
Proof.
  intros Hs E. apply span_spec in E as (-> & Ha & Hb). split; [done|]. pose proof (proj1 (ok_app _ _ _) Hs) as [H1 H2].
  split; [|split].
  - intros q Hq. destruct b as [|x b]; [done|]. apply negb_false_iff, Z.ltb_lt in Hb. destruct H2 as [Hx H2]. destruct Hq as [?|Hq]; [lia|].
    apply (ok_mem _ _ _ H2) in Hq. lia.
  - intros q x r -> ? ? [?|Hq]; [lia|]. destruct H2 as [? H2]. apply (ok_mem _ _ _ H2) in Hq. lia.
  - intros a' x ->. apply Forall_app in Ha as [_ Ha]. apply Forall_inv, negb_true_iff, Z.ltb_ge in Ha.
    apply ok_app in H1 as [H1 [Hx _]]. rewrite bound_app in H2. cbn in H2. split; [lia|]. split; [lia|]. split; intros q Hq.
    + apply (ok_mem _ _ _ H1) in Hq. lia.
    + apply (ok_mem _ _ _ H2) in Hq. lia.
Qed.

Lemma Contains_spec lo s p : ok lo s -> Contains s p = true <-> mem s p.
Proof.
  intros Hs. unfold Contains. destruct (upper_bound p s) as [a b] eqn:E.
  destruct (upper_bound_spec _ _ _ _ _ Hs E) as (-> & Hb & _ & Ha). cbn [fst]. rewrite mem_app.
  assert (Hnb : ~ mem b p) by (intros Hm; apply Hb in Hm; lia).
  destruct (step_back_cases a) as [[-> ->]|(a' & x & -> & ->)]; [cbn; split; [done|tauto]|].
  destruct (Ha _ _ eq_refl) as (H1 & H2 & H3 & H4). assert (Hna : ~ mem a' p) by (intros Hm; apply H3 in Hm; lia).
  rewrite mem_app. unfold contains_point. cbn. assert (Hiff : (imin x <=? p) && (p <? imax x) = true <-> imin x <= p < imax x) by lia.
  tauto.
Qed.

Lemma Contains_interval_spec lo s u : ok lo s ->
  Contains_interval s u = true <-> imin u < imax u /\ forall p, imin u <= p < imax u -> mem s p.
Proof.
  intros Hs. unfold Contains_interval. destruct (upper_bound (imin u) s) as [a b] eqn:E.
  destruct (upper_bound_spec _ _ _ _ _ Hs E) as (-> & Hb & _ & Ha). cbn [fst].
  destruct (step_back_cases a) as [[-> ->]|(a' & x & -> & ->)].
  - split; [done|]. intros [H1 H2]. specialize (H2 (imin u) ltac:(lia)). cbn in H2. apply Hb in H2. lia.
  - destruct (Ha _ _ eq_refl) as (H1 & H2 & H3 & H4). unfold contains_interval, Interval_Empty. split.
    + intros H. zcases; try done. split; [done|]. intros p Hp. rewrite !mem_app. left. right. cbn. left. lia.
    + intros [H5 H6]. destruct (Z.le_gt_cases (imax u) (imax x)); [zcases; lia || done|]. exfalso.
      (* the first number beyond the interval is in no other *)
      specialize (H6 (Z.max (imin u) (imax x)) ltac:(lia)). rewrite !mem_app in H6. cbn in H6.
      destruct H6 as [[H6|[H6|[]]]|H6]; [apply H3 in H6; lia|lia|].
      pose proof (Hb _ H6). pose proof (H4 _ H6). lia.
Qed.

Lemma IsDisjoint_spec lo s u : ok lo s ->
  IsDisjoint s u = true <-> forall p, imin u <= p < imax u -> ~ mem s p.
Proof.
  intros Hs. unfold IsDisjoint, Interval_Empty. zcases; [split; [intros _ p ?; lia|done]|].
  destruct (upper_bound (imin u) s) as [a b] eqn:E. destruct (upper_bound_spec _ _ _ _ _ Hs E) as (-> & Hb & Hb' & Ha).
  pose proof (proj1 (ok_app _ _ _) Hs) as [_ Hok].
  assert (Hx : forall p, imin u <= p < imax u -> match b with x :: _ => (imin x <? imax u) = false | [] => True end -> ~ mem b p).
  { intros p Hp Hh. destruct b as [|x b]; [by intros []|]. apply Z.ltb_ge in Hh. intros [?|Hm]; [lia|].
    destruct Hok as [? Hok]. apply (ok_mem _ _ _ Hok) in Hm. lia. }
  assert (Hhit : match b with x :: _ => (imin x <? imax u) = true | [] => False end -> exists p, imin u <= p < imax u /\ mem b p).
  { destruct b as [|x b]; [done|]. intros Hh. apply Z.ltb_lt in Hh. specialize (Hb (imin x)). exists (imin x). cbn in *. split; [|lia].
    destruct Hok. split; [|done]. enough (imin u < imin x) by lia. apply Hb. lia. }
  destruct (match b with x :: _ => imin x <? imax u | [] => false end) eqn:Eb.
  - split; [done|]. intros Hno. destruct Hhit as (p & Hp & Hm); [by destruct b|]. destruct (Hno p Hp). rewrite mem_app. by right.
  - assert (Hnb : forall p, imin u <= p < imax u -> ~ mem b p) by (intros p Hp; apply Hx; [done|]; by destruct b).
    destruct (step_back_cases a) as [[-> ->]|(a' & x & -> & ->)]; [by split|].
    destruct (Ha _ _ eq_refl) as (H1 & H2 & H3 & H4). split.
    + intros Hle p Hp. rewrite !mem_app. cbn. intros [[Hm|[?|[]]]|Hm]; [apply H3 in Hm; lia|lia|]. by apply (Hnb p).
    + intros Hno. zcases; [done|]. destruct (Hno (imin u)); [lia|]. rewrite !mem_app. cbn. left. right. left. lia.
Qed.

Lemma set_insert_last lo res u : ok lo res -> bound lo res < imin u < imax u ->
  fst (set_insert u res) = res ++ [u] /\ ok lo (res ++ [u]) /\ bound lo (res ++ [u]) = imax u.
Proof.
  intros Hr Hu. assert (Ho : ok lo (res ++ [u])) by (apply ok_app; cbn; tauto).
  rewrite <- (app_nil_r res) at 1. rewrite (set_insert_ok lo) by done. rewrite bound_app. done.
Qed.

(** The fuel that an iteration of the loop may use: two units per interval, one
    of them spent once the first of [theirs] lies behind. *)
Definition difference_fuel (my : QuicInterval) (mine theirs : list QuicInterval) : nat :=
  2 * (length mine + length theirs) -
  match theirs with x :: _ => if imax x <=? imin my then 1 else 0 | [] => 0 end.

Lemma difference_fuel_le my mine theirs : (difference_fuel my mine theirs <= 2 * (length mine + length theirs))%nat.
Proof. unfold difference_fuel. lia. Qed.

Lemma difference_nil fuel my theirs res : difference_loop fuel my [] theirs res = Ok res.
Proof. by destruct fuel. Qed.

Lemma difference_loop_spec fuel : forall lo lt my m mine theirs res,
  (difference_fuel my (m :: mine) theirs <= fuel)%nat ->
  imin my < imax my -> imax my = imax m -> ok (imax m) mine -> ok lt theirs -> ok lo res -> bound lo res < imin my ->
  exists r, difference_loop fuel my (m :: mine) theirs res = Ok r /\ ok lo r /\
    forall p, mem r p <-> mem res p \/ (imin my <= p < imax my \/ mem mine p) /\ ~ mem theirs p.
Proof.
  induction fuel as [|fuel IH]; intros lo lt my m mine theirs res Hf Hmy Em Hm Ht Hr Hb.
  { exfalso. unfold difference_fuel in Hf. destruct theirs as [|x theirs]; [cbn in Hf; lia|]. cbn in Hf. zcases; lia. }
  assert (Hgt : forall p, mem mine p -> imax my < p) by (intros p Hp; apply (ok_mem _ _ _ Hm) in Hp; lia).
  (* the rest of the loop once [my] is done with *)
  assert (Hnext : forall lt' theirs' res' my', (2 * (length mine + length theirs') <= fuel)%nat -> ok lt' theirs' -> ok lo res' -> bound lo res' <= imax my ->
    exists r, difference_loop fuel (match mine with y :: _ => y | [] => my' end) mine theirs' res' = Ok r /\ ok lo r /\
      forall p, mem r p <-> mem res' p \/ mem mine p /\ ~ mem theirs' p).
  { intros lt' theirs' res' my' Hf' Ht' Hr' Hb'. destruct mine as [|y mine]; [exists res'; rewrite difference_nil; cbn; tauto|].
    destruct Hm as [Hy Hm]. destruct (IH lo lt' y y mine theirs' res') as (r & E & H1 & H2); try done; try lia.
    - etrans; [apply difference_fuel_le|done].
    - exists r. done. }
  assert (Ne : Interval_Empty my = false) by (unfold Interval_Empty; lia).
  cbn [difference_loop]. rewrite Ne, (proj2 (Z.eqb_eq _ _) Em). cbn [negb CHECK rbind].
  destruct (set_insert_last lo res my Hr ltac:(lia)) as (I1 & I2 & I3).
  unfold difference_fuel in Hf. cbn [length] in Hf. destruct theirs as [|x theirs]; cbn [length] in Hf.
  { rewrite I1. cbn [Interval_Empty Interval_Clear imin imax Z.leb Z.compare]. destruct (Hnext lt [] (res ++ [my]) Interval_Clear) as (r & E & H1 & H2); try done; try (cbn; lia).
    exists r. split; [done|]. split; [done|]. intros p. rewrite H2, mem_app. cbn. tauto. }
  destruct Ht as [Hx Ht]. destruct (Z.leb_spec (imax my) (imin x)) as [Hc|Hc].
  { rewrite I1. cbn [Interval_Empty Interval_Clear imin imax Z.leb Z.compare]. destruct (Hnext lt (x :: theirs) (res ++ [my]) Interval_Clear) as (r & E & H1 & H2); try done.
    - cbn [length]. zcases; lia.
    - lia.
    - exists r. split; [done|]. split; [done|]. intros p. rewrite H2, mem_app. cbn.
      assert (imin my <= p < imax my -> ~ (imin x <= p < imax x)) by lia.
      assert (imin my <= p < imax my -> ~ mem theirs p) by (intros ? Hp; apply (ok_mem _ _ _ Ht) in Hp; lia). tauto. }
  destruct (Z.leb_spec (imax x) (imin my)) as [Hc2|Hc2].
  { rewrite Ne. destruct (IH lo (imax x) my m mine theirs res) as (r & E & H1 & H2); try done.
    - pose proof (difference_fuel_le my (m :: mine) theirs) as Hd. cbn [length] in Hd. lia.
    - exists r. split; [done|]. split; [done|]. intros p. rewrite H2. cbn. specialize (Hgt p).
      assert (imin my <= p < imax my -> ~ (imin x <= p < imax x)) by lia.
      assert (imax my < p -> ~ (imin x <= p < imax x)) by lia. tauto. }
  (* the interval is cut *)
  assert (Hcut : forall res', ok lo res' -> bound lo res' < imax x -> bound lo res' <= imax my ->
    (forall p, mem res' p <-> mem res p \/ imin my <= p < imin x) ->
    exists r, (if Interval_Empty (mkInterval (imax x) (imax my))
               then difference_loop fuel (match mine with y :: _ => y | [] => mkInterval (imax x) (imax my) end) mine (x :: theirs) res'
               else difference_loop fuel (mkInterval (imax x) (imax my)) (m :: mine) (x :: theirs) res') = Ok r /\ ok lo r /\
      forall p, mem r p <-> mem res p \/ (imin my <= p < imax my \/ mem mine p) /\ ~ mem (x :: theirs) p).
  { intros res' Hr' Hb1 Hb2 Hm'. unfold Interval_Empty. cbn [imin imax]. destruct (Z.leb_spec (imax my) (imax x)).
    - destruct (Hnext lt (x :: theirs) res' (mkInterval (imax x) (imax my))) as (r & E & H1 & H2); try done; [cbn [length]; zcases; lia|].
      exists r. split; [done|]. split; [done|]. intros p. rewrite H2, Hm'. cbn. specialize (Hgt p).
      assert (imin my <= p < imin x -> ~ mem theirs p) by (intros ? Hp; apply (ok_mem _ _ _ Ht) in Hp; lia).
      assert (imin my <= p < imax my /\ ~ (imin x <= p < imax x) <-> imin my <= p < imin x) by lia. tauto.
    - destruct (IH lo lt (mkInterval (imax x) (imax my)) m mine (x :: theirs) res') as (r & E & H1 & H2); try done; try (cbn; lia).
      + unfold difference_fuel. cbn [length imin imax]. zcases; lia.
      + exists r. split; [done|]. split; [done|]. intros p. rewrite H2, Hm'. cbn. specialize (Hgt p).
        assert (imin my <= p < imin x -> ~ mem theirs p) by (intros ? Hp; apply (ok_mem _ _ _ Ht) in Hp; lia).
        assert (imin my <= p < imax my /\ ~ (imin x <= p < imax x) <-> imin my <= p < imin x \/ imax x <= p < imax my) by lia.
        assert (imin my <= p < imin x -> ~ (imin x <= p < imax x)) by lia. tauto. }
  destruct (Z.ltb_spec (imin my) (imin x)).
  - destruct (set_insert_last lo res (mkInterval (imin my) (imin x)) Hr ltac:(cbn; lia)) as (-> & J2 & J3).
    apply Hcut; try done; [rewrite J3; cbn; lia..|]. intros p. rewrite mem_app. cbn. tauto.
  - apply Hcut; try done; [lia..|]. intros p. assert (~ (imin my <= p < imin x)) by lia. tauto.
Qed.

Lemma Set_Difference_spec lo lt s t : ok lo s -> ok lt t ->
  exists r, Set_Difference s t = Ok r /\ ok lo r /\ forall p, mem r p <-> mem s p /\ ~ mem t p.
Proof.
  intros Hs Ht. destruct s as [|m s]; [exists []; cbn; tauto|]. destruct Hs as [Hm Hs]. unfold Set_Difference.
  destruct (difference_loop_spec (2 * (length (m :: s) + length t)) lo lt m m s t []) as (r & -> & H1 & H2); try done;
    [apply difference_fuel_le|cbn; lia..|]. cbn [rbind]. rewrite (Valid_ok lo) by done. cbn [CHECK rbind]. exists r. split; [done|]. split; [done|].
  intros p. rewrite H2. cbn. tauto.
Qed.

Lemma SpanningInterval_spec lo s p : ok lo s -> mem s p -> imin (SpanningInterval s) <= p < imax (SpanningInterval s).
Proof.
  intros Hs Hp. unfold SpanningInterval. destruct s as [|i s]; [done|]. cbn [head].
  assert (E : exists j, last (i :: s) = Some j /\ imax j = bound lo (i :: s)).
  { clear. revert i lo. induction s as [|k s IH]; intros i lo; [by exists i|]. destruct (IH k (imax i)) as (j & E & Ej).
    exists j. split; [exact E|exact Ej]. }
  destruct E as (j & -> & Ej). cbn [imin imax]. pose proof (ok_mem _ _ _ Hs Hp). destruct Hs as [Hi Hs]. split; [|lia].
  destruct Hp as [?|Hp]; [lia|]. apply (ok_mem _ _ _ Hs) in Hp. lia.
Qed.

Lemma Difference_interval_spec lo s u : ok lo s -> lo < imin u ->
  exists r, Difference_interval s u = Ok r /\ ok lo r /\ forall p, mem r p <-> mem s p /\ ~ imin u <= p < imax u.
Proof.
  intros Hs Hu. unfold Difference_interval. destruct (Add_empty lo u Hu) as [H1 H2].
  destruct (Interval_Intersects (SpanningInterval s) u) eqn:E; cbn [negb].
  - destruct (Set_Difference_spec lo lo s _ Hs H1) as (r & -> & H3 & H4). exists r. split; [done|]. split; [done|].
    intros p. by rewrite H4, H2.
  - exists s. split; [done|]. split; [done|]. intros p. split; [|tauto]. intros Hp. split; [done|]. intros Hi.
    pose proof (SpanningInterval_spec lo s p Hs Hp). unfold Interval_Intersects, Interval_Empty in E. zcases; try done; lia.
Qed.

Lemma Complement_spec lo s a b : ok lo s -> lo < a ->
  exists r, Complement s a b = Ok r /\ ok lo r /\ forall p, mem r p <-> a <= p < b /\ ~ mem s p.
Proof.
  intros Hs Ha. destruct (Add_empty lo (mkInterval a b) Ha) as [H1 H2].
  destruct (Set_Difference_spec lo lo _ s H1 Hs) as (r & E & H3 & H4). exists r. split; [done|]. split; [done|].
  intros p. by rewrite H4, H2.
Qed.

Lemma intersects_loop_spec fuel : forall lo lt s t, (length s + length t <= fuel)%nat -> ok lo s -> ok lt t ->
  exists b, intersects_loop fuel s t = Ok b /\ (b = true <-> exists p, mem s p /\ mem t p).
Proof.
  induction fuel as [|fuel IH]; intros lo lt s t Hf Hs Ht.
  { destruct s as [|m s], t as [|x t]; try (cbn in Hf; lia). exists false. split; [done|]. split; [done|]. by intros (p & [] & _). }
  destruct s as [|m s]; [exists false; split; [by destruct t|]; split; [done|]; by intros (p & [] & _)|].
  destruct t as [|x t]; [exists false; split; [done|]; split; [done|]; by intros (p & _ & [])|].
  destruct Hs as [Hm Hs], Ht as [Hx Ht]. cbn [intersects_loop length] in *. unfold Interval_Intersects, Interval_Empty, Interval_lt.
  assert (Gs : forall p, mem s p -> imax m < p) by (intros p Hp; apply (ok_mem _ _ _ Hs) in Hp; lia).
  assert (Gt : forall p, mem t p -> imax x < p) by (intros p Hp; apply (ok_mem _ _ _ Ht) in Hp; lia).
  destruct (decide (imin m < imax x /\ imin x < imax m)) as [Hi|Hi].
  { replace (_ && _ && _ && _) with true by lia. exists true. split; [done|]. split; [|done]. intros _.
    exists (Z.max (imin m) (imin x)). cbn. lia. }
  replace (_ && _ && _ && _) with false by lia. destruct (Z.ltb_spec (imin m) (imin x)) as [Hlt|Hge]; cbn [orb].
  - destruct (IH (imax m) lt s (x :: t)) as (b & E & Hb); [cbn; lia|done|by split|]. exists b. split; [done|]. rewrite Hb.
    split; intros (p & H1 & H2); exists p; split; try done; [by right|]. destruct H1 as [?|?]; [|done].
    destruct H2 as [?|H2]; [lia|]. apply Gt in H2. lia.
  - replace (negb (imin x <? imin m) && (imax x <? imax m)) with false by lia.
    destruct (IH lo (imax x) (m :: s) t) as (b & E & Hb); [cbn; lia|by split|done|]. exists b. split; [done|]. rewrite Hb.
    split; intros (p & H1 & H2); exists p; split; try done; [by right|]. destruct H2 as [?|?]; [|done].
    destruct H1 as [?|H1]; [lia|]. apply Gs in H1. lia.
Qed.

Lemma Intersects_spec lo lt s t : ok lo s -> ok lt t ->
  exists b, Intersects s t = Ok b /\ (b = true <-> exists p, mem s p /\ mem t p).
Proof. intros Hs Ht. by eapply intersects_loop_spec. Qed.

(** Iterators: the interval found holds the value and is followed by the rest. *)
Lemma Find_spec lo s p : ok lo s ->
  match Find s p with
  | [] => ~ mem s p
  | x :: r => imin x <= p < imax x /\ exists a, s = a ++ x :: r
  end.
Proof.
  intros Hs. pose proof (Contains_spec lo s p Hs) as Hc. unfold Contains, Find in *.
  destruct (upper_bound p s) as [a b] eqn:E. destruct (upper_bound_spec _ _ _ _ _ Hs E) as (-> & _). cbn [fst] in Hc.
  destruct (step_back_cases a) as [[-> Es]|(a' & x & -> & Es)]; rewrite Es in *; [by rewrite <- Hc|].
  destruct (contains_point x p) eqn:Ex; [|by rewrite <- Hc]. unfold contains_point in Ex. split; [lia|].
  exists a'. by rewrite <- app_assoc.
Qed.

Lemma LowerBound_spec lo s p : ok lo s ->
  exists a, s = a ++ LowerBound s p /\ (forall q, mem a q -> q < p) /\
    match LowerBound s p with x :: _ => p < imax x | [] => True end.
Proof.
  intros Hs. unfold LowerBound. destruct (lower_bound p s) as [a b] eqn:E. apply span_spec in E as (-> & Ha & Hb).
  pose proof (proj1 (ok_app _ _ _) Hs) as [H1 H2].
  assert (Hb' : match b with x :: _ => p < imax x | [] => True end).
  { destruct b as [|x b]; [done|]. destruct H2 as [Hx _]. apply Z.ltb_ge in Hb. lia. }
  destruct (step_back_cases a) as [[-> ->]|(a' & x & -> & ->)]; [by exists []|].
  apply Forall_app in Ha as [_ Ha]. apply Forall_inv, Z.ltb_lt in Ha. apply ok_app in H1 as [H1 [Hx _]].
  assert (Ga : forall q, mem a' q -> q < imin x) by (intros q Hq; apply (ok_mem _ _ _ H1) in Hq; lia).
  unfold contains_point. destruct (decide (p < imax x)).
  - replace (_ && _) with true by lia. exists a'. split; [by rewrite <- app_assoc|]. split; [|done]. intros q Hq. apply Ga in Hq. lia.
  - replace (_ && _) with false by lia. exists (a' ++ [x]). split; [done|]. split; [|done]. intros q [Hq|[?|[]]]%mem_app; [|lia].
    apply Ga in Hq. lia.
Qed.

(** * Counting *)

#[export] Instance mem_dec s p : Decision (mem s p).
Proof. induction s as [|i s IH]; cbn; apply _. Defined.

(** How many numbers a set has. *)
Fixpoint measure (s : list QuicInterval) : Z :=
  match s with
  | [] => 0
  | i :: r => (imax i - imin i) + measure r
  end.
(** How many of them are less than [n]. *)
Fixpoint below (s : list QuicInterval) (n : Z) : Z :=
  match s with
  | [] => 0
  | i :: r => Z.max 0 (Z.min (imax i) n - imin i) + below r n
  end.

Lemma below_step lo s n : ok lo s -> below s (n + 1) = below s n + (if decide (mem s n) then 1 else 0).
Proof.
  revert lo. induction s as [|i s IH]; intros lo; cbn [below ok]; [intros _; by rewrite decide_False by (intros [])|].
  intros [Hi Hs]. rewrite (IH _ Hs). destruct (decide (mem s n)) as [Hm|Hm].
  - rewrite (decide_True (P := mem (i :: s) n)) by (by right). apply (ok_mem _ _ _ Hs) in Hm. lia.
  - destruct (decide (imin i <= n < imax i)); [rewrite (decide_True (P := mem (i :: s) n)) by (by left)|rewrite (decide_False (P := mem (i :: s) n)) by (intros [?|?]; done)]; lia.
Qed.

Lemma below_measure lo s n : ok lo s -> bound lo s <= n -> below s n = measure s.
Proof.
  revert lo. induction s as [|i s IH]; intros lo; cbn; [done|]. intros [Hi Hs] Hn. rewrite (IH _ Hs Hn).
  pose proof (ok_bound _ _ Hs). lia.
Qed.

Lemma below_none lo s n : ok lo s -> n <= lo + 1 -> below s n = 0.
Proof. revert lo. induction s as [|i s IH]; intros lo; cbn; [done|]. intros [Hi Hs] Hn. rewrite (IH _ Hs) by lia. lia. Qed.

Lemma below_le lo s n : ok lo s -> below s n <= measure s.
Proof. revert lo. induction s as [|i s IH]; intros lo; cbn; [done|]. intros [Hi Hs]. specialize (IH _ Hs). lia. Qed.

Lemma measure_range lo s : ok lo s -> 0 <= measure s <= bound lo s - lo.
Proof. revert lo. induction s as [|i s IH]; intros lo; cbn; [lia|]. intros [Hi Hs]. specialize (IH _ Hs). lia. Qed.

Lemma measure_union s t r : ok (-1) s -> ok (-1) t -> ok (-1) r -> (forall p, mem r p <-> mem s p \/ mem t p) ->
  (forall p, mem s p -> ~ mem t p) -> measure r = measure s + measure t.
Proof.
  intros Hs Ht Hr Hu Hd.
  assert (Hb : forall n, 0 <= n -> below r n = below s n + below t n).
  { apply natlike_ind; [by rewrite !(below_none (-1))|]. intros n _ IH. rewrite <- Z.add_1_r, !(below_step (-1)), IH by done.
    specialize (Hu n). specialize (Hd n). destruct (decide (mem s n)), (decide (mem t n)), (decide (mem r n)); first [lia|exfalso; tauto]. }
  set (n := Z.max 0 (Z.max (bound (-1) r) (Z.max (bound (-1) s) (bound (-1) t)))).
  rewrite <- (below_measure (-1) r n), <- (below_measure (-1) s n), <- (below_measure (-1) t n) by (done || lia). apply Hb. lia.
Qed.

(** A set that has all numbers up to [n]. *)
Lemma measure_prefix s n : ok (-1) s -> 0 <= n -> (forall p, 0 <= p < n -> mem s p) -> n <= measure s.
Proof.
  intros Hs Hn Hp. rewrite <- (below_le (-1) s n) by done. assert (E : forall m, 0 <= m -> m <= n -> below s m = m).
  { apply (natlike_ind (fun m => m <= n -> below s m = m)); [intros _; by rewrite (below_none (-1))|]. intros m Hm IH Hle.
    rewrite <- Z.add_1_r, (below_step (-1)), IH, decide_True by (done || lia || apply Hp; lia). lia. }
  rewrite E by lia. lia.
Qed.

(** The end of a set that is not empty is one past its largest number. *)
Lemma bound_last lo s : bound lo s = match last s with Some i => imax i | None => lo end.
Proof. revert lo. induction s as [|i s IH]; intros lo; [done|]. cbn [bound]. rewrite IH, last_cons. by destruct (last s). Qed.

Lemma mem_last lo s i : ok lo s -> last s = Some i -> mem s (imax i - 1).
Proof.
  intros Hs Hl. apply last_Some in Hl as [a ->]. apply ok_app in Hs as [_ [Hi _]]. apply mem_app. right. left. lia.
Qed.

(** C8. An interval set refines a set of numbers: adding, joining, subtracting,
    complementing and trimming compute the set operation of their name, the
    append-optimised addition is addition, the loops return, and the queries
    decide membership, inclusion and disjointness.  Every result is again in
    the one representation its numbers have, so that equality of the sequences
    is equality of the sets. *)
Theorem interval_set_refines lo s t u : ok lo s -> ok lo t -> lo < imin u <= imax u ->
  (ok lo (Add u s) /\ forall p, mem (Add u s) p <-> imin u <= p < imax u \/ mem s p) /\
  AddOptimizedForAppend u s = Add u s /\
  (ok lo (Set_Union s t) /\ forall p, mem (Set_Union s t) p <-> mem s p \/ mem t p) /\
  (exists r, Set_Difference s t = Ok r /\ ok lo r /\ forall p, mem r p <-> mem s p /\ ~ mem t p) /\
  (exists r, Difference_interval s u = Ok r /\ ok lo r /\ forall p, mem r p <-> mem s p /\ ~ imin u <= p < imax u) /\
  (exists r, Complement s (imin u) (imax u) = Ok r /\ ok lo r /\ forall p, mem r p <-> imin u <= p < imax u /\ ~ mem s p) /\
  (forall v, ok lo (fst (TrimLessThan v s)) /\ forall p, mem (fst (TrimLessThan v s)) p <-> mem s p /\ v <= p) /\
  (forall p, Contains s p = true <-> mem s p) /\
  (Contains_interval s u = true <-> imin u < imax u /\ forall p, imin u <= p < imax u -> mem s p) /\
  (IsDisjoint s u = true <-> forall p, imin u <= p < imax u -> ~ mem s p) /\
  (exists b, Intersects s t = Ok b /\ (b = true <-> exists p, mem s p /\ mem t p)) /\
  Valid s = true /\ ((forall p, mem s p <-> mem t p) -> s = t).
Proof.
  intros Hs Ht Hu. assert (lo < imin u) by lia.
  split; [by apply Add_spec|]. split; [by apply AddOptimizedForAppend_Add with lo|]. split; [by apply Set_Union_spec|].
  split; [by eapply Set_Difference_spec|]. split; [by apply Difference_interval_spec|]. split; [by apply Complement_spec|].
  split; [intros v; destruct (TrimLessThan_spec lo v s Hs) as (? & ? & _); done|].
  split; [intros p; by apply Contains_spec with lo|]. split; [by apply Contains_interval_spec with lo|].
  split; [by apply IsDisjoint_spec with lo|]. split; [by eapply Intersects_spec|]. split; [by apply Valid_ok with lo|].
  by apply ok_unique with lo.
Qed.

Lemma interval_set_refines_witness :
  exists r, Set_Difference [mkInterval 0 10; mkInterval 20 30] [mkInterval 5 25] = Ok r /\
    r = [mkInterval 0 5; mkInterval 25 30] /\ ok (-1) r /\
    Add (mkInterval 10 20) [mkInterval 0 10; mkInterval 20 30] = [mkInterval 0 30].
Proof.
  destruct (interval_set_refines (-1) [mkInterval 0 10; mkInterval 20 30] [mkInterval 5 25] (mkInterval 10 20))
    as (_ & _ & _ & (r & E & H & _) & _); cbn; try lia.
  exists r. split; [exact E|]. vm_compute in E. injection E as <-. split; [reflexivity|]. split; [exact H|]. reflexivity.
Defined.
