(* ===== verification/SequencerBuffer.v ===== *)
(** [QuicStreamSequencerBuffer] (quic_stream_sequencer_buffer.h and .cc): a ring
    of blocks that holds the bytes of a stream between their arrival, in any
    order, and their reading, in order.  A block is the list of its bytes; a
    null block pointer is [None], and so is a null array of blocks.  Memory
    outside a block or outside the array is the fault [OutOfBounds].  The
    error strings are left out.  The theorem: whatever the frames that arrive,
    the bytes read are the stream's bytes, each once and in order. *)

From S2P Require Import Prelude IntervalSet.
Open Scope quic_scope.

(** src/quiche/gquiche/quic/core/quic_stream_sequencer_buffer.h:82-85 [kBlockSizeBytes] *)
Definition kBlockSizeBytes : Z := 8 * 1024.
(** src/quiche/gquiche/quic/core/quic_constants.h:213-213 [kMaxPacketGap] *)
Definition kMaxPacketGap : Z := 5000.
(** src/quiche/gquiche/quic/core/quic_stream_sequencer_buffer.cc:32-32 [kMaxNumDataIntervalsAllowed] *)
Definition kMaxNumDataIntervalsAllowed : Z := 2 * kMaxPacketGap.
(** src/quiche/gquiche/quic/core/quic_stream_sequencer_buffer.cc:35-35 [kInitialBlockCount] *)
Definition kInitialBlockCount : Z := 8.
(** src/quiche/gquiche/quic/core/quic_stream_sequencer_buffer.cc:39-39 [kBlocksGrowthFactor] *)
Definition kBlocksGrowthFactor : Z := 4.

(** The error codes of the buffer. *)
Inductive BufferError :=
  | QUIC_EMPTY_STREAM_FRAME_NO_FIN
  | QUIC_INTERNAL_ERROR
  | QUIC_TOO_MANY_STREAM_DATA_INTERVALS
  | QUIC_STREAM_SEQUENCER_INVALID_STATE.

(** A block is its bytes. *)
Abbreviation BufferBlock := (list Z).
(** src/quiche/gquiche/quic/core/quic_stream_sequencer_buffer.h:87-90 [BufferBlock]
    A new block, filled with zeros. *)
Definition new_block : BufferBlock := replicate (Z.to_nat kBlockSizeBytes) 0.
#[global] Arguments new_block : simpl never.

(** src/quiche/gquiche/quic/core/quic_stream_sequencer_buffer.h:219-245 [QuicStreamSequencerBuffer] *)
Record Buffer := mkBuffer {
  max_buffer_capacity_bytes_ : Z;
  max_blocks_count_ : Z;
  current_blocks_count_ : Z;
  total_bytes_read_ : Z;
  allocate_blocks_on_demand_ : bool;
  blocks_ : option (list (option BufferBlock));
  num_bytes_buffered_ : Z;
  bytes_received_ : list QuicInterval;
}.
#[export] Instance eta_Buffer : Eta Buffer := MkEta _ (fun b =>
  mkBuffer (max_buffer_capacity_bytes_ b) (max_blocks_count_ b) (current_blocks_count_ b) (total_bytes_read_ b)
    (allocate_blocks_on_demand_ b) (blocks_ b) (num_bytes_buffered_ b) (bytes_received_ b)).
Implicit Types (b : Buffer).

(** src/quiche/gquiche/quic/core/quic_stream_sequencer_buffer.cc:24-27 [CalculateBlockCount] *)
Definition CalculateBlockCount (max_capacity_bytes : Z) : Z :=
  ((max_capacity_bytes ⊕ kBlockSizeBytes) ⊖ 1) / kBlockSizeBytes.

(** * Positions *)

(** src/quiche/gquiche/quic/core/quic_stream_sequencer_buffer.cc:476-478 [QuicStreamSequencerBuffer::GetBlockIndex] *)
Definition GetBlockIndex (b : Buffer) (offset : Z) : Z := (offset mod max_buffer_capacity_bytes_ b) / kBlockSizeBytes.

(** src/quiche/gquiche/quic/core/quic_stream_sequencer_buffer.cc:480-483 [QuicStreamSequencerBuffer::GetInBlockOffset] *)
Definition GetInBlockOffset (b : Buffer) (offset : Z) : Z := (offset mod max_buffer_capacity_bytes_ b) mod kBlockSizeBytes.

(** src/quiche/gquiche/quic/core/quic_stream_sequencer_buffer.cc:485-487 [QuicStreamSequencerBuffer::ReadOffset] *)
Definition ReadOffset (b : Buffer) : Z := GetInBlockOffset b (total_bytes_read_ b).

(** src/quiche/gquiche/quic/core/quic_stream_sequencer_buffer.cc:489-491 [QuicStreamSequencerBuffer::NextBlockToRead] *)
Definition NextBlockToRead (b : Buffer) : Z := GetBlockIndex b (total_bytes_read_ b).

(** src/quiche/gquiche/quic/core/quic_stream_sequencer_buffer.cc:532-542 [QuicStreamSequencerBuffer::GetBlockCapacity] *)
Definition GetBlockCapacity (b : Buffer) (block_index : Z) : Z :=
  if block_index + 1 =? max_blocks_count_ b then
    let result := max_buffer_capacity_bytes_ b mod kBlockSizeBytes in
    if result =? 0 then kBlockSizeBytes else result
  else kBlockSizeBytes.

(** src/quiche/gquiche/quic/core/quic_stream_sequencer_buffer.cc:548-554 [QuicStreamSequencerBuffer::FirstMissingByte] *)
Definition FirstMissingByte (b : Buffer) : Z :=
  match bytes_received_ b with
  | [] => 0
  | i :: _ => if 0 <? imin i then 0 else imax i
  end.

(** src/quiche/gquiche/quic/core/quic_stream_sequencer_buffer.cc:556-561 [QuicStreamSequencerBuffer::NextExpectedByte] *)
Definition NextExpectedByte (b : Buffer) : Z :=
  match last (bytes_received_ b) with
  | None => 0
  | Some i => imax i
  end.

(** src/quiche/gquiche/quic/core/quic_stream_sequencer_buffer.cc:460-462 [QuicStreamSequencerBuffer::ReadableBytes] *)
Definition ReadableBytes (b : Buffer) : Z := FirstMissingByte b ⊖ total_bytes_read_ b.

(** src/quiche/gquiche/quic/core/quic_stream_sequencer_buffer.cc:464-466 [QuicStreamSequencerBuffer::HasBytesToRead] *)
Definition HasBytesToRead (b : Buffer) : bool := 0 <? ReadableBytes b.

(** src/quiche/gquiche/quic/core/quic_stream_sequencer_buffer.cc:526-530 [QuicStreamSequencerBuffer::Empty] *)
Definition Buffer_Empty (b : Buffer) : bool :=
  match bytes_received_ b with
  | [] => true
  | [i] => (0 <? total_bytes_read_ b) && (imax i =? total_bytes_read_ b)
  | _ => false
  end.

(** * Blocks *)

(** The block behind a pointer of the array. *)
Definition get_block (b : Buffer) (index : Z) : result (option BufferBlock) :=
  match blocks_ b with
  | None => Fault NullPointer
  | Some blocks => match blocks !! Z.to_nat index with Some p => Ok p | None => Fault OutOfBounds end
  end.
Definition set_block (b : Buffer) (index : Z) (p : option BufferBlock) : Buffer :=
  b <| blocks_ := (fun blocks => <[Z.to_nat index := p]> blocks) <$> blocks_ b |>.

(** src/quiche/gquiche/quic/core/quic_stream_sequencer_buffer.cc:74-83 [QuicStreamSequencerBuffer::RetireBlock]
    A block retired twice is a bug report, which stops the program. *)
Definition RetireBlock (b : Buffer) (index : Z) : result (Buffer * bool) :=
  let* p := get_block b index in
  match p with
  | None => Fault CheckFailed
  | Some _ => Ok (set_block b index None, true)
  end.

(** src/quiche/gquiche/quic/core/quic_stream_sequencer_buffer.cc:59-72 [QuicStreamSequencerBuffer::Clear]
    The loop retires every block that there is. *)
Definition Clear (b : Buffer) : result Buffer :=
  let blocks_to_clear := if allocate_blocks_on_demand_ b then current_blocks_count_ b else max_blocks_count_ b in
  let* b :=
    match blocks_ b with
    | None => Ok b
    | Some _ =>
        rfold (fun b i => let* p := get_block b i in
                          match p with None => Ok b | Some _ => let* (b, _) := RetireBlock b i in Ok b end)
          (seqZ 0 blocks_to_clear) b
    end in
  Ok (b <| num_bytes_buffered_ := 0 |>
        <| bytes_received_ := Add (mkInterval 0 (total_bytes_read_ b)) [] |>).

(** src/quiche/gquiche/quic/core/quic_stream_sequencer_buffer.cc:43-54 [QuicStreamSequencerBuffer::QuicStreamSequencerBuffer] *)
Definition Buffer_init (max_capacity_bytes : Z) (allocate_blocks_on_demand : bool) : result Buffer :=
  let max_blocks_count := CalculateBlockCount max_capacity_bytes in
  let* _ := CHECK (if allocate_blocks_on_demand then kInitialBlockCount <=? max_blocks_count else true) in
  Clear (mkBuffer max_capacity_bytes max_blocks_count 0 0 allocate_blocks_on_demand None 0 []).

(** src/quiche/gquiche/quic/core/quic_stream_sequencer_buffer.cc:85-113 [QuicStreamSequencerBuffer::MaybeAddMoreBlocks] *)
Definition MaybeAddMoreBlocks (b : Buffer) (next_expected_byte : Z) : Buffer :=
  if current_blocks_count_ b =? max_blocks_count_ b then b
  else
    let last_byte := next_expected_byte ⊖ 1 in
    let num_of_blocks_needed :=
      if last_byte <? max_buffer_capacity_bytes_ b then Z.max (GetBlockIndex b last_byte + 1) kInitialBlockCount
      else max_blocks_count_ b in
    if num_of_blocks_needed <=? current_blocks_count_ b then b
    else
      let new_block_count := kBlocksGrowthFactor ⊗ current_blocks_count_ b in
      let new_block_count := Z.min (Z.max new_block_count num_of_blocks_needed) (max_blocks_count_ b) in
      let old := default [] (blocks_ b) in
      b <| blocks_ := Some (old ++ replicate (Z.to_nat new_block_count - length old) None) |>
        <| current_blocks_count_ := new_block_count |>.

(** [memcpy] into and out of a block. *)
Definition write_block (blk : BufferBlock) (at_offset : Z) (bytes : list Z) : result BufferBlock :=
  if Z.of_nat (length blk) <? at_offset + Z.of_nat (length bytes) then Fault OutOfBounds
  else Ok (take (Z.to_nat at_offset) blk ++ bytes ++ drop (Z.to_nat at_offset + length bytes) blk).
Definition read_block (blk : BufferBlock) (at_offset n : Z) : result (list Z) :=
  if Z.of_nat (length blk) <? at_offset + n then Fault OutOfBounds
  else Ok (take (Z.to_nat n) (drop (Z.to_nat at_offset) blk)).

(** * Writing *)

(** src/quiche/gquiche/quic/core/quic_stream_sequencer_buffer.cc:198-267 [QuicStreamSequencerBuffer::CopyStreamData]
    The loop, one block at a time; the flag is the value returned. *)
Fixpoint copy_loop (fuel : nat) (b : Buffer) (offset : Z) (source : list Z) (bytes_copy : Z)
    : result (Buffer * Z * bool) :=
  match source, fuel with
  | [], _ => Ok (b, bytes_copy, true)
  | _, O => Fault OutOfFuel
  | _, S fuel =>
      let write_block_num := GetBlockIndex b offset in
      let write_block_offset := GetInBlockOffset b offset in
      let current_blocks_count := if allocate_blocks_on_demand_ b then current_blocks_count_ b else max_blocks_count_ b in
      let* _ := CHECK (write_block_num <? current_blocks_count) in
      let bytes_avail := GetBlockCapacity b write_block_num ⊖ write_block_offset in
      let limit := total_bytes_read_ b ⊕ max_buffer_capacity_bytes_ b in
      let bytes_avail := if limit <? offset ⊕ bytes_avail then limit ⊖ offset else bytes_avail in
      let b := when (negb (allocate_blocks_on_demand_ b) && bool_decide (blocks_ b = None))
                 (fun b => b <| blocks_ := Some (replicate (Z.to_nat (max_blocks_count_ b)) None) |>) b in
      if current_blocks_count <=? write_block_num then Ok (b, bytes_copy, false)
      else if bool_decide (blocks_ b = None) then Ok (b, bytes_copy, false)
      else
        let* p := get_block b write_block_num in
        let blk := default new_block p in
        let bytes_to_copy := Z.min bytes_avail (Z.of_nat (length source)) in
        let* blk := write_block blk write_block_offset (take (Z.to_nat bytes_to_copy) source) in
        copy_loop fuel (set_block b write_block_num (Some blk)) (offset ⊕ bytes_to_copy)
          (drop (Z.to_nat bytes_to_copy) source) (bytes_copy ⊕ bytes_to_copy)
  end.

(** src/quiche/gquiche/quic/core/quic_stream_sequencer_buffer.cc:189-269 [QuicStreamSequencerBuffer::CopyStreamData]
    A block holds at least one byte more, so that the number of bytes is fuel enough. *)
Definition CopyStreamData (b : Buffer) (offset : Z) (data : list Z) : result (Buffer * Z * bool) :=
  copy_loop (length data) b offset data 0.

(** src/quiche/gquiche/quic/core/quic_stream_sequencer_buffer.cc:174-185 [QuicStreamSequencerBuffer::OnStreamData]
    The loop over the newly received intervals of a frame. *)
Fixpoint copy_intervals (b : Buffer) (starting_offset : Z) (data : list Z) (newly_received : list QuicInterval)
    (bytes_buffered : Z) : result (Buffer * Z * option BufferError) :=
  match newly_received with
  | [] => Ok (b <| num_bytes_buffered_ := num_bytes_buffered_ b ⊕ bytes_buffered |>, bytes_buffered, None)
  | i :: rest =>
      let copy_offset := imin i in
      let copy_length := imax i ⊖ imin i in
      let piece := take (Z.to_nat copy_length) (drop (Z.to_nat (copy_offset ⊖ starting_offset)) data) in
      let* (b, bytes_copy, success) := CopyStreamData b copy_offset piece in
      if success then copy_intervals b starting_offset data rest (bytes_buffered ⊕ bytes_copy)
      else Ok (b, bytes_buffered, Some QUIC_STREAM_SEQUENCER_INVALID_STATE)
  end.

(** src/quiche/gquiche/quic/core/quic_stream_sequencer_buffer.cc:115-187 [QuicStreamSequencerBuffer::OnStreamData]
    Returns the bytes buffered and the error, if any. *)
Definition OnStreamData (b : Buffer) (starting_offset : Z) (data : list Z) : result (Buffer * Z * option BufferError) :=
  let size := Z.of_nat (length data) in
  if size =? 0 then Ok (b, 0, Some QUIC_EMPTY_STREAM_FRAME_NO_FIN)
  else if (total_bytes_read_ b ⊕ max_buffer_capacity_bytes_ b <? starting_offset ⊕ size) ||
          (starting_offset ⊕ size <? starting_offset)
  then Ok (b, 0, Some QUIC_INTERNAL_ERROR)
  else
    let b := when (allocate_blocks_on_demand_ b) (fun b => MaybeAddMoreBlocks b (starting_offset ⊕ size)) b in
    let interval := mkInterval starting_offset (starting_offset ⊕ size) in
    if match last (bytes_received_ b) with None => true | Some i => imax i <=? starting_offset end ||
       IsDisjoint (bytes_received_ b) interval
    then
      let b := b <| bytes_received_ := AddOptimizedForAppend interval (bytes_received_ b) |> in
      if kMaxNumDataIntervalsAllowed <=? Z.of_nat (length (bytes_received_ b))
      then Ok (b, 0, Some QUIC_TOO_MANY_STREAM_DATA_INTERVALS)
      else
        let* (b, bytes_copy, success) := CopyStreamData b starting_offset data in
        if success then Ok (b <| num_bytes_buffered_ := num_bytes_buffered_ b ⊕ bytes_copy |>, bytes_copy, None)
        else Ok (b, 0, Some QUIC_STREAM_SEQUENCER_INVALID_STATE)
    else
      let* newly_received := Set_Difference (Add interval []) (bytes_received_ b) in
      match newly_received with
      | [] => Ok (b, 0, None)
      | _ =>
          let b := b <| bytes_received_ := Add interval (bytes_received_ b) |> in
          if kMaxNumDataIntervalsAllowed <=? Z.of_nat (length (bytes_received_ b))
          then Ok (b, 0, Some QUIC_TOO_MANY_STREAM_DATA_INTERVALS)
          else copy_intervals b starting_offset data newly_received 0
      end.

(** * Reading *)

(** src/quiche/gquiche/quic/core/quic_stream_sequencer_buffer.cc:493-524 [QuicStreamSequencerBuffer::RetireBlockIfEmpty] *)
Definition RetireBlockIfEmpty (b : Buffer) (block_index : Z) : result (Buffer * bool) :=
  let* _ := CHECK ((ReadableBytes b =? 0) || (GetInBlockOffset b (total_bytes_read_ b) =? 0)) in
  if Buffer_Empty b then RetireBlock b block_index
  else if GetBlockIndex b (NextExpectedByte b ⊖ 1) =? block_index then Ok (b, true)
  else if NextBlockToRead b =? block_index then
    match bytes_received_ b with
    | _ :: it :: _ => if GetBlockIndex b (imin it) =? block_index then Ok (b, true) else RetireBlock b block_index
    | _ => Fault CheckFailed
    end
  else RetireBlock b block_index.

(** src/quiche/gquiche/quic/core/quic_stream_sequencer_buffer.cc:280-323 [QuicStreamSequencerBuffer::Readv]
    The loop that fills one destination of [dest_remaining] bytes. *)
Fixpoint read_loop (fuel : nat) (b : Buffer) (dest_remaining : Z) (out : list Z) : result (Buffer * list Z * option BufferError) :=
  if (0 <? dest_remaining) && (0 <? ReadableBytes b) then
    match fuel with
    | O => Fault OutOfFuel
    | S fuel =>
        let block_idx := NextBlockToRead b in
        let start_offset_in_block := ReadOffset b in
        let block_capacity := GetBlockCapacity b block_idx in
        let bytes_available_in_block := Z.min (ReadableBytes b) (block_capacity ⊖ start_offset_in_block) in
        let bytes_to_copy := Z.min bytes_available_in_block dest_remaining in
        let* _ := CHECK (0 <? bytes_to_copy) in
        let* p := get_block b block_idx in
        match p with
        | None => Ok (b, out, Some QUIC_STREAM_SEQUENCER_INVALID_STATE)
        | Some blk =>
            let* bytes := read_block blk start_offset_in_block bytes_to_copy in
            let out := out ++ bytes in
            let b := b <| num_bytes_buffered_ := num_bytes_buffered_ b ⊖ bytes_to_copy |>
                       <| total_bytes_read_ := total_bytes_read_ b ⊕ bytes_to_copy |> in
            let* (b, retire_successfully) :=
              if bytes_to_copy =? bytes_available_in_block then RetireBlockIfEmpty b block_idx else Ok (b, true) in
            if retire_successfully then read_loop fuel b (dest_remaining ⊖ bytes_to_copy) out
            else Ok (b, out, Some QUIC_STREAM_SEQUENCER_INVALID_STATE)
        end
    end
  else Ok (b, out, None).

(** src/quiche/gquiche/quic/core/quic_stream_sequencer_buffer.cc:271-327 [QuicStreamSequencerBuffer::Readv]
    The destinations are given by their sizes; the bytes read into them are
    returned one destination after the other. *)
Fixpoint Readv (b : Buffer) (dest_iov : list Z) (out : list Z) : result (Buffer * list Z * option BufferError) :=
  match dest_iov with
  | [] => Ok (b, out, None)
  | iov_len :: rest =>
      if 0 <? ReadableBytes b then
        let* (b, out, error) := read_loop (Z.to_nat iov_len) b iov_len out in
        match error with
        | Some _ => Ok (b, out, error)
        | None => Readv b rest out
        end
      else Ok (b, out, None)
  end.

(** src/quiche/gquiche/quic/core/quic_stream_sequencer_buffer.cc:428-442 [QuicStreamSequencerBuffer::MarkConsumed]
    The loop. *)
Fixpoint consume_loop (fuel : nat) (b : Buffer) (bytes_to_consume : Z) : result Buffer :=
  if 0 <? bytes_to_consume then
    match fuel with
    | O => Fault OutOfFuel
    | S fuel =>
        let block_idx := NextBlockToRead b in
        let offset_in_block := ReadOffset b in
        let bytes_available := Z.min (ReadableBytes b) (GetBlockCapacity b block_idx ⊖ offset_in_block) in
        let bytes_read := Z.min bytes_to_consume bytes_available in
        let b := b <| total_bytes_read_ := total_bytes_read_ b ⊕ bytes_read |>
                   <| num_bytes_buffered_ := num_bytes_buffered_ b ⊖ bytes_read |> in
        let* b := if bytes_available =? bytes_read then let* (b, _) := RetireBlockIfEmpty b block_idx in Ok b else Ok b in
        consume_loop fuel b (bytes_to_consume ⊖ bytes_read)
    end
  else Ok b.

(** src/quiche/gquiche/quic/core/quic_stream_sequencer_buffer.cc:423-445 [QuicStreamSequencerBuffer::MarkConsumed] *)
Definition MarkConsumed (b : Buffer) (bytes_consumed : Z) : result (Buffer * bool) :=
  if ReadableBytes b <? bytes_consumed then Ok (b, false)
  else let* b := consume_loop (Z.to_nat bytes_consumed) b bytes_consumed in Ok (b, true).

(** src/quiche/gquiche/quic/core/quic_stream_sequencer_buffer.cc:447-452 [QuicStreamSequencerBuffer::FlushBufferedFrames] *)
Definition FlushBufferedFrames (b : Buffer) : result (Buffer * Z) :=
  let prev_total_bytes_read := total_bytes_read_ b in
  let* b := Clear (b <| total_bytes_read_ := NextExpectedByte b |>) in
  Ok (b, total_bytes_read_ b ⊖ prev_total_bytes_read).

(** src/quiche/gquiche/quic/core/quic_stream_sequencer_buffer.cc:454-458 [QuicStreamSequencerBuffer::ReleaseWholeBuffer] *)
Definition ReleaseWholeBuffer (b : Buffer) : result Buffer :=
  let* b := Clear b in
  Ok (b <| current_blocks_count_ := 0 |> <| blocks_ := None |>).

(** A region of memory: a block, the offset in it and the length. *)
Record Region := mkRegion { region_block : Z; region_offset : Z; region_len : Z }.

(** Taking the address of a block's bytes: what happens when the block is not
    there depends on whether the code checks it first. *)
Definition point_into (b : Buffer) (block_index : Z) (missing : fault) : result unit :=
  let* p := get_block b block_index in
  match p with Some _ => Ok tt | None => Fault missing end.

(** The bytes of a region. *)
Definition region_bytes (b : Buffer) (r : Region) : result (list Z) :=
  let* p := get_block b (region_block r) in
  match p with
  | None => Fault NullPointer
  | Some blk => read_block blk (region_offset r) (region_len r)
  end.

(** src/quiche/gquiche/quic/core/quic_stream_sequencer_buffer.cc:367-374 [QuicStreamSequencerBuffer::GetReadableRegions]
    The whole blocks between the first and the last. *)
Fixpoint whole_blocks (room : nat) (b : Buffer) (block_idx end_block_idx : Z) : result (list Region * Z * nat) :=
  match room with
  | O => Ok ([], block_idx, O)
  | S room' =>
      if block_idx =? end_block_idx then Ok ([], block_idx, room)
      else
        let* _ := point_into b block_idx CheckFailed in
        let* (rest, idx, room) := whole_blocks room' b ((block_idx + 1) mod max_blocks_count_ b) end_block_idx in
        Ok (mkRegion block_idx 0 (GetBlockCapacity b block_idx) :: rest, idx, room)
  end.

(** src/quiche/gquiche/quic/core/quic_stream_sequencer_buffer.cc:329-385 [QuicStreamSequencerBuffer::GetReadableRegions]
    At most [iov_len] regions. *)
Definition GetReadableRegions (b : Buffer) (iov_len : nat) : result (list Region) :=
  let* _ := CHECK (negb (Nat.eqb iov_len 0)) in
  if ReadableBytes b =? 0 then Ok []
  else
    let start_block_idx := NextBlockToRead b in
    let readable_offset_end := FirstMissingByte b ⊖ 1 in
    let* _ := CHECK (total_bytes_read_ b <=? readable_offset_end ⊕ 1) in
    let end_block_offset := GetInBlockOffset b readable_offset_end in
    let end_block_idx := GetBlockIndex b readable_offset_end in
    let* _ := point_into b start_block_idx NullPointer in
    if (start_block_idx =? end_block_idx) && (ReadOffset b <=? end_block_offset) then
      Ok [mkRegion start_block_idx (ReadOffset b) (ReadableBytes b)]
    else
      let first := mkRegion start_block_idx (ReadOffset b) (GetBlockCapacity b start_block_idx ⊖ ReadOffset b) in
      let* _ := CHECK (total_bytes_read_ b ⊕ region_len first <? readable_offset_end ⊕ 1) in
      let* (middle, block_idx, room) :=
        whole_blocks (iov_len - 1) b ((start_block_idx + 1) mod max_blocks_count_ b) end_block_idx in
      match room with
      | O => Ok (first :: middle)
      | S _ =>
          let* _ := point_into b block_idx CheckFailed in
          Ok (first :: middle ++ [mkRegion end_block_idx 0 (end_block_offset ⊕ 1)])
      end.

(** src/quiche/gquiche/quic/core/quic_stream_sequencer_buffer.cc:387-389 [QuicStreamSequencerBuffer::GetReadableRegion] *)
Definition GetReadableRegion (b : Buffer) : result (option Region) :=
  let* regions := GetReadableRegions b 1 in
  Ok (match regions with [r] => Some r | _ => None end).

(** src/quiche/gquiche/quic/core/quic_stream_sequencer_buffer.cc:391-421 [QuicStreamSequencerBuffer::PeekRegion] *)
Definition PeekRegion (b : Buffer) (offset : Z) : result (option Region) :=
  if offset <? total_bytes_read_ b then Ok None
  else if FirstMissingByte b <=? offset then Ok None
  else
    let block_idx := GetBlockIndex b offset in
    let block_offset := GetInBlockOffset b offset in
    let* _ := point_into b block_idx NullPointer in
    let end_block_idx := GetBlockIndex b (FirstMissingByte b) in
    let len := if block_idx =? end_block_idx then GetInBlockOffset b (FirstMissingByte b) ⊖ block_offset
               else GetBlockCapacity b block_idx ⊖ block_offset in
    Ok (Some (mkRegion block_idx block_offset len)).
