(* ===== verification/BufferRing.v ===== *)
(** The ring of blocks of the sequencer's buffer: where an offset of the stream
    is kept, that offsets closer than the capacity do not share a place, and
    what copying into the blocks changes. *)

From S2P Require Import Prelude IntervalSet SequencerBuffer.
Open Scope quic_scope.

Ltac euclid := Z.to_euclidean_division_equations; lia.

(** A buffer of a usable size, with the number of blocks that size needs. *)
Record sized (b : Buffer) : Prop := {
  sz_cap : 0 < max_buffer_capacity_bytes_ b <= 2 ^ 40;
  sz_count : max_blocks_count_ b = CalculateBlockCount (max_buffer_capacity_bytes_ b);
  sz_initial : allocate_blocks_on_demand_ b = true -> kInitialBlockCount <= max_blocks_count_ b;
}.

Section Ring.
Context (b : Buffer) (Hb : sized b).
Abbreviation cap := (max_buffer_capacity_bytes_ b).
Abbreviation idx := (GetBlockIndex b).
Abbreviation inoff := (GetInBlockOffset b).

Lemma blocks_count : max_blocks_count_ b = (cap + 8191) / 8192.
Proof.
  destruct Hb as [H1 -> _]. unfold CalculateBlockCount, kBlockSizeBytes. rewrite (u64_small (_ + _)) by lia.
  rewrite u64_small by lia. f_equal. lia.
Qed.

Lemma block_capacity i : 0 <= i < max_blocks_count_ b -> GetBlockCapacity b i = Z.min 8192 (cap - i * 8192) /\ 0 < GetBlockCapacity b i.
Proof.
  pose proof blocks_count as E. destruct Hb as [H1 _ _]. intros Hi. unfold GetBlockCapacity, kBlockSizeBytes.
  change (8 * 1024) with 8192. rewrite E in *. zcases; euclid.
Qed.

Lemma position p : p mod cap = idx p * 8192 + inoff p /\ 0 <= p mod cap < cap /\ 0 <= idx p < max_blocks_count_ b /\
  0 <= inoff p < GetBlockCapacity b (idx p).
Proof.
  pose proof blocks_count as E. pose proof (sz_cap _ Hb) as H1.
  assert (H2 : 0 <= p mod cap < cap) by (apply Z.mod_pos_bound; lia).
  unfold GetBlockIndex, GetInBlockOffset, kBlockSizeBytes. change (8 * 1024) with 8192. set (m := p mod cap) in *.
  assert (H3 : 0 <= m / 8192 < max_blocks_count_ b) by (rewrite E; euclid).
  destruct (block_capacity _ H3) as [-> _]. split; [euclid|]. split; [done|]. split; [done|]. euclid.
Qed.

(** The place decides the offset among any [cap] consecutive ones. *)
Lemma same_place p q : idx p = idx q -> inoff p = inoff q -> - cap < p - q < cap -> p = q.
Proof.
  intros E1 E2 Hd. destruct (position p) as [Ep _], (position q) as [Eq _]. pose proof (sz_cap _ Hb).
  assert (E : p mod cap = q mod cap) by lia. pose proof (Z.div_mod p cap ltac:(lia)). pose proof (Z.div_mod q cap ltac:(lia)).
  assert (p - q = cap * (p / cap - q / cap)) by lia. assert (p / cap - q / cap = 0) by nia. lia.
Qed.

(** Two offsets of one block are in the same pass over the ring or in the next. *)
Lemma same_block p q : idx p = idx q -> p <= q < p + cap ->
  (inoff p <= inoff q /\ q = p + (inoff q - inoff p)) \/ (inoff q < inoff p /\ q = p + cap + (inoff q - inoff p)).
Proof.
  intros E Hq. destruct (position p) as (Ep & Bp & _ & _), (position q) as (Eq & Bq & _ & _). pose proof (sz_cap _ Hb).
  pose proof (Z.div_mod p cap ltac:(lia)). pose proof (Z.div_mod q cap ltac:(lia)).
  assert (q - p = cap * (q / cap - p / cap) + (inoff q - inoff p)) by lia.
  assert (q / cap - p / cap = 0 \/ q / cap - p / cap = 1) as [?|?] by nia; [left|right]; nia.
Qed.

Lemma within_block p k : 0 <= k -> inoff p + k < GetBlockCapacity b (idx p) -> idx (p + k) = idx p /\ inoff (p + k) = inoff p + k.
Proof.
  intros Hk Hi. destruct (position p) as (Ep & Bp & Hidx & Hin). destruct (block_capacity _ Hidx) as [Ec _]. rewrite Ec in *.
  assert (Em : (p + k) mod cap = p mod cap + k).
  { rewrite <- Z.add_mod_idemp_l by lia. apply Z.mod_small. lia. }
  unfold GetBlockIndex, GetInBlockOffset, kBlockSizeBytes in *. change (8 * 1024) with 8192 in *. rewrite Em. euclid.
Qed.

Lemma block_end p k : 0 <= k -> inoff p + k = GetBlockCapacity b (idx p) -> inoff (p + k) = 0 /\ (idx (p + k) = idx p -> max_blocks_count_ b = 1).
Proof.
  intros Hk Hi. pose proof blocks_count as E. destruct (position p) as (Ep & Bp & Hidx & Hin). destruct (block_capacity _ Hidx) as [Ec _]. rewrite Ec in *.
  assert (Em : (p + k) mod cap = if p mod cap + k =? cap then 0 else p mod cap + k).
  { rewrite <- Z.add_mod_idemp_l by lia. zcases.
    - rewrite e. apply Z.mod_same. lia.
    - apply Z.mod_small. lia. }
  unfold GetBlockIndex, GetInBlockOffset, kBlockSizeBytes in *. change (8 * 1024) with 8192 in *. rewrite Em. zcases; [|euclid].
  split; [done|]. intros H0. rewrite E. change (0 / 8192) with 0 in H0. euclid.
Qed.

Lemma block_next p k : 0 <= k -> inoff p + k = GetBlockCapacity b (idx p) -> idx (p + k) = (idx p + 1) mod max_blocks_count_ b.
Proof.
  intros Hk Hi. pose proof blocks_count as E. destruct (position p) as (Ep & Bp & Hidx & Hin). destruct (block_capacity _ Hidx) as [Ec _]. rewrite Ec in *.
  assert (Em : (p + k) mod cap = if p mod cap + k =? cap then 0 else p mod cap + k).
  { rewrite <- Z.add_mod_idemp_l by lia. zcases.
    - rewrite e. apply Z.mod_same. lia.
    - apply Z.mod_small. lia. }
  assert (Eg : idx (p + k) = (if p mod cap + k =? cap then 0 else p mod cap + k) / 8192)
    by (unfold GetBlockIndex at 1, kBlockSizeBytes; by rewrite Em).
  rewrite Eg. clear Eg Em. revert Ep Bp Hi Hidx Hin. generalize (p mod cap), (inoff p). intros m o Ep Bp Hi Hidx Hin. zcases.
  - assert (idx p + 1 = max_blocks_count_ b) as -> by (rewrite E; euclid). rewrite Z.mod_same by lia. done.
  - rewrite Z.mod_small by (rewrite E in *; euclid). euclid.
Qed.

End Ring.

(** * What the blocks hold *)

(** The number of pointers in the array, once there is one. *)
Definition block_slots (b : Buffer) : Z := if allocate_blocks_on_demand_ b then current_blocks_count_ b else max_blocks_count_ b.

Definition whole_block (p : option BufferBlock) : Prop := match p with Some blk => Z.of_nat (length blk) = kBlockSizeBytes | None => True end.

Record shaped (b : Buffer) : Prop := {
  sh_count : 0 <= current_blocks_count_ b <= max_blocks_count_ b;
  sh_blocks : match blocks_ b with
              | Some l => Z.of_nat (length l) = block_slots b /\ Forall whole_block l
              | None => current_blocks_count_ b = 0
              end;
}.

(** The byte in the place of an offset. *)
Definition cell (b : Buffer) (p : Z) : option Z :=
  match blocks_ b with
  | Some l => match l !! Z.to_nat (GetBlockIndex b p) with
              | Some (Some blk) => blk !! Z.to_nat (GetInBlockOffset b p)
              | _ => None
              end
  | None => None
  end.

Lemma write_block_spec blk o bytes : Z.of_nat (length blk) = kBlockSizeBytes -> 0 <= o -> o + Z.of_nat (length bytes) <= kBlockSizeBytes ->
  exists blk', write_block blk o bytes = Ok blk' /\ Z.of_nat (length blk') = kBlockSizeBytes /\
    forall k, 0 <= k -> blk' !! Z.to_nat k = if (o <=? k) && (k <? o + Z.of_nat (length bytes)) then bytes !! Z.to_nat (k - o) else blk !! Z.to_nat k.
Proof.
  intros Hl Ho Hn. unfold write_block. zcases; [lia|]. eexists. split; [done|].
  split; [rewrite !length_app, length_take, length_drop; lia|]. intros k Hk. zcases.
  all: first [lia|by rewrite lookup_app_l, lookup_take_lt by (rewrite ?length_take; lia)
             |rewrite lookup_app_r, length_take, lookup_app_l by (rewrite ?length_take; lia); f_equal; lia
             |rewrite lookup_app_r, length_take, lookup_app_r, lookup_drop by (rewrite ?length_take; lia); f_equal; lia].
Qed.

Lemma new_block_whole : Z.of_nat (length new_block) = kBlockSizeBytes.
Proof. unfold new_block. rewrite length_replicate. done. Qed.

(** A copy changes the blocks only. *)
Lemma sized_blocks b l : sized b -> sized (b <| blocks_ := l |>).
Proof. intros []. by constructor. Qed.

Lemma set_block_shaped b i p l : shaped b -> blocks_ b = Some l -> whole_block p -> shaped (set_block b i p).
Proof.
  intros [H1 H2] El Hp. rewrite El in H2. destruct H2 as [H2 H3]. constructor; [done|]. unfold set_block. cbn. rewrite El. cbn.
  rewrite length_insert. split; [done|]. by apply Forall_insert.
Qed.

Lemma cell_set_block b i blk l p : sized b -> blocks_ b = Some l -> 0 <= i < Z.of_nat (length l) ->
  cell (set_block b i (Some blk)) p = if GetBlockIndex b p =? i then blk !! Z.to_nat (GetInBlockOffset b p) else cell b p.
Proof.
  intros Hb El Hi. unfold cell, set_block. cbn. rewrite El. cbn. destruct (position b Hb p) as (_ & _ & Hidx & _).
  change (GetBlockIndex _ p) with (GetBlockIndex b p) at 1. change (GetInBlockOffset _ p) with (GetInBlockOffset b p) at 1. zcases.
  - subst i. by rewrite list_lookup_insert_eq by lia.
  - rewrite list_lookup_insert_ne by lia. done.
Qed.

(** The array is allocated with the first copy. *)
Lemma alloc_spec b (b1 := when (negb (allocate_blocks_on_demand_ b) && bool_decide (blocks_ b = None))
    (fun b => b <| blocks_ := Some (replicate (Z.to_nat (max_blocks_count_ b)) None) |>) b) :
  sized b -> shaped b -> 0 < block_slots b ->
  exists l, b1 = b <| blocks_ := Some l |> /\ shaped b1 /\ Z.of_nat (length l) = block_slots b /\ forall p, cell b1 p = cell b p.
Proof.
  intros Hb Hs Hpos. unfold b1, when. destruct Hs as [H1 H2]. destruct (blocks_ b) as [l|] eqn:El.
  - rewrite bool_decide_eq_false_2, andb_false_r by done. destruct H2 as [H2 H3]. exists l.
    split; [destruct b; cbn in *; by subst|]. split; [by constructor; [|rewrite El]|done].
  - unfold block_slots in Hpos. destruct (allocate_blocks_on_demand_ b) eqn:Ea; [lia|].
    rewrite bool_decide_eq_true_2 by done. cbn [negb andb]. eexists. split; [done|]. unfold block_slots. rewrite Ea.
    assert (El' : Z.of_nat (length (replicate (Z.to_nat (max_blocks_count_ b)) (@None BufferBlock))) = max_blocks_count_ b)
      by (rewrite length_replicate; lia).
    split; [|split; [done|]].
    + constructor; [done|]. cbn. split; [unfold block_slots; cbn; by rewrite Ea|]. by apply Forall_replicate.
    + intros p. unfold cell. cbn. rewrite El. destruct (_ !! _) as [x|] eqn:E; [|done]. apply lookup_replicate in E as [-> _]. done.
Qed.

(** How many bytes an iteration copies. *)
Lemma avail_spec b off n (avail := GetBlockCapacity b (GetBlockIndex b off) ⊖ GetInBlockOffset b off)
    (limit := total_bytes_read_ b ⊕ max_buffer_capacity_bytes_ b) :
  sized b -> 0 <= total_bytes_read_ b <= off -> off + n <= total_bytes_read_ b + max_buffer_capacity_bytes_ b ->
  total_bytes_read_ b <= 2 ^ 62 -> 0 <= n ->
  Z.min (if limit <? off ⊕ avail then limit ⊖ off else avail) n =
  Z.min (GetBlockCapacity b (GetBlockIndex b off) - GetInBlockOffset b off) n.
Proof.
  intros Hb Ht Hn Hs Hp. unfold avail, limit. pose proof (sz_cap _ Hb). destruct (position b Hb off) as (_ & _ & H1 & H2).
  destruct (block_capacity b Hb _ H1) as [Ec _]. rewrite (u64_small (_ - GetInBlockOffset b off)) by lia.
  rewrite (u64_small (total_bytes_read_ b + _)), (u64_small (off + _)) by lia. zcases; [rewrite u64_small by lia|]; lia.
Qed.

(** One iteration: the piece is in its block, and what was around it still is. *)
Lemma copy_piece b off piece (k := Z.of_nat (length piece))
    (b1 := when (negb (allocate_blocks_on_demand_ b) && bool_decide (blocks_ b = None))
             (fun b => b <| blocks_ := Some (replicate (Z.to_nat (max_blocks_count_ b)) None) |>) b) :
  sized b -> shaped b -> 1 <= k <= GetBlockCapacity b (GetBlockIndex b off) - GetInBlockOffset b off ->
  GetBlockIndex b off < block_slots b ->
  exists q blk bl (b2 := b <| blocks_ := bl |>), blocks_ b1 <> None /\ get_block b1 (GetBlockIndex b off) = Ok q /\
    write_block (default new_block q) (GetInBlockOffset b off) piece = Ok blk /\
    set_block b1 (GetBlockIndex b off) (Some blk) = b2 /\ shaped b2 /\
    (forall p, off <= p < off + k -> cell b2 p = piece !! Z.to_nat (p - off)) /\
    (forall lo p v, lo <= p < lo + max_buffer_capacity_bytes_ b -> lo <= off -> off + k <= lo + max_buffer_capacity_bytes_ b ->
       ~ off <= p < off + k -> cell b p = Some v -> cell b2 p = Some v).
Proof.
  intros Hb Hs Hk Hoff. destruct (position b Hb off) as (_ & _ & H1 & H2). destruct (block_capacity b Hb _ H1) as [Ec _].
  destruct (alloc_spec b Hb Hs ltac:(lia)) as (l & E1 & Hs1 & El & Hcell). cbn zeta in *. fold b1 in E1, Hs1, Hcell.
  destruct (lookup_lt_is_Some_2 l (Z.to_nat (GetBlockIndex b off)) ltac:(lia)) as [q Hq].
  assert (Hw : Z.of_nat (length (default new_block q)) = kBlockSizeBytes).
  { rewrite E1 in Hs1. destruct Hs1 as [_ [_ Hs1]]. pose proof (proj1 (Forall_lookup _ _) Hs1 _ _ Hq) as Hq'.
    destruct q; [exact Hq'|apply new_block_whole]. }
  destruct (write_block_spec (default new_block q) (GetInBlockOffset b off) piece Hw ltac:(lia)) as (blk & Ew & Hbl & Hcells).
  { fold k. unfold kBlockSizeBytes. lia. }
  exists q, blk, (Some (<[Z.to_nat (GetBlockIndex b off) := Some blk]> l)).
  split; [by rewrite E1|]. split; [rewrite E1; unfold get_block; cbn; by rewrite Hq|]. split; [done|].
  assert (E2 : set_block b1 (GetBlockIndex b off) (Some blk) = b <| blocks_ := Some (<[Z.to_nat (GetBlockIndex b off) := Some blk]> l) |>)
    by (by rewrite E1). split; [done|].
  assert (Hb1 : sized b1) by (rewrite E1; by apply sized_blocks). assert (El1 : blocks_ b1 = Some l) by (by rewrite E1).
  split; [rewrite <- E2; by eapply set_block_shaped|].
  assert (Hc2 : forall p, cell (set_block b1 (GetBlockIndex b off) (Some blk)) p =
            if GetBlockIndex b p =? GetBlockIndex b off then blk !! Z.to_nat (GetInBlockOffset b p) else cell b p).
  { intros p. rewrite (cell_set_block b1 _ _ l), Hcell by (done || lia). rewrite E1. done. }
  rewrite <- E2. split.
  - intros p Hp. destruct (within_block b Hb off (p - off)) as [E3 E4]; [lia|lia|]. replace (off + (p - off)) with p in * by lia.
    rewrite Hc2, E3, Z.eqb_refl, Hcells by lia. fold k. replace (_ && _) with true by lia. f_equal. lia.
  - intros lo p v Hp Hlo Hhi Hno Hv. rewrite Hc2. destruct (Z.eqb_spec (GetBlockIndex b p) (GetBlockIndex b off)) as [E3|]; [|done].
    destruct (position b Hb p) as (_ & _ & H3 & H4). rewrite E3 in H4. rewrite Hcells by lia. fold k.
    destruct (decide (GetInBlockOffset b off <= GetInBlockOffset b p < GetInBlockOffset b off + k)) as [Hd|Hd].
    + exfalso. apply Hno. destruct (within_block b Hb off (GetInBlockOffset b p - GetInBlockOffset b off)) as [E5 E6]; [lia|lia|].
      assert (p = off + (GetInBlockOffset b p - GetInBlockOffset b off)) as ->; [|lia].
      apply (same_place b Hb); [congruence|rewrite E6; lia|lia].
    + replace (_ && _) with false by lia. rewrite <- Hcell, E1 in Hv.
      change (match l !! Z.to_nat (GetBlockIndex b p) with Some (Some old) => old !! Z.to_nat (GetInBlockOffset b p) | _ => None end = Some v) in Hv.
      rewrite E3, Hq in Hv. destruct q; [exact Hv|done].
Qed.

Lemma copy_nothing fuel b off n : copy_loop fuel b off [] n = Ok (b, n, true).
Proof. by destruct fuel. Qed.

(** The loop copies all bytes, and changes no other place of the window. *)
Lemma copy_loop_spec fuel : forall b off src n (len := Z.of_nat (length src)),
  (length src <= fuel)%nat -> sized b -> shaped b -> 0 <= total_bytes_read_ b <= off ->
  off + len <= total_bytes_read_ b + max_buffer_capacity_bytes_ b -> total_bytes_read_ b <= 2 ^ 62 ->
  (forall p, off <= p < off + len -> GetBlockIndex b p < block_slots b) -> 0 <= n -> n + len <= 2 ^ 62 ->
  exists bl (b' := b <| blocks_ := bl |>), copy_loop fuel b off src n = Ok (b', n + len, true) /\ shaped b' /\
    (forall p, off <= p < off + len -> cell b' p = src !! Z.to_nat (p - off)) /\
    (forall p v, total_bytes_read_ b <= p < total_bytes_read_ b + max_buffer_capacity_bytes_ b -> ~ off <= p < off + len ->
       cell b p = Some v -> cell b' p = Some v).
Proof.
  induction fuel as [|fuel IH]; intros b off src n len Hf Hb Hs Ht Hl Hsm Hi Hn Hnl.
  all: destruct (decide (src = [])) as [->|Hne].
  all: try (exists (blocks_ b); replace (b <| blocks_ := blocks_ b |>) with b by (by destruct b); rewrite copy_nothing;
            replace (n + len) with n by (unfold len; cbn; lia); unfold len; cbn; split; [done|]; split; [done|]; split; [lia|done]).
  { destruct src; [done|cbn in Hf; lia]. }
  assert (Hpos : 0 < len) by (destruct src; [done|unfold len; cbn; lia]).
  pose proof (avail_spec b off len Hb Ht Hl Hsm ltac:(lia)) as Ea. cbn zeta in Ea.
  destruct (position b Hb off) as (_ & _ & H1 & H2). destruct (block_capacity b Hb _ H1) as [Ec _]. pose proof (sz_cap _ Hb) as Hcap.
  set (k := Z.min (GetBlockCapacity b _ - _) len) in *. assert (Hk : 1 <= k <= len) by lia.
  pose proof (Hi off ltac:(lia)) as Hoff. set (piece := take (Z.to_nat k) src). set (rest := drop (Z.to_nat k) src).
  assert (Hpl : Z.of_nat (length piece) = k) by (unfold piece; rewrite length_take; unfold len in *; lia).
  assert (Hrl : Z.of_nat (length rest) = len - k) by (unfold rest; rewrite length_drop; unfold len in *; lia).
  destruct (copy_piece b off piece Hb Hs ltac:(lia) Hoff) as (q & blk & bl & Nb & Eg & Ew & E2 & Hs2 & Hpiece & Hkeep). rewrite Hpl in *.
  set (b2 := b <| blocks_ := bl |>) in *.
  destruct (IH b2 (off + k) rest (n + k)) as (bl' & Er & Hs3 & Hin & Hout); rewrite ?Hrl; try done;
    try (unfold len in *; cbn; lia); [by apply sized_blocks|intros p Hp; apply (Hi p); lia|].
  exists bl'. change (b2 <| blocks_ := bl' |>) with (b <| blocks_ := bl' |>) in *. rewrite Hrl in *.
  split; [|split; [done|split]].
  - assert (Es : exists x src', src = x :: src') by (destruct src; [done|eauto]). destruct Es as (x & src' & Es).
    unfold copy_loop. rewrite Es at 1. fold copy_loop. fold len. rewrite Ea, (u64_small (off + k)), (u64_small (n + k)) by lia.
    fold (block_slots b). replace (GetBlockIndex b off <? block_slots b) with true by lia.
    replace (block_slots b <=? GetBlockIndex b off) with false by lia. cbn [CHECK rbind].
    rewrite bool_decide_eq_false_2, Eg by done. cbn [rbind]. fold piece rest. rewrite Ew. cbn [rbind]. rewrite E2, Er. do 3 f_equal. lia.
  - intros p Hp. destruct (decide (p < off + k)).
    + specialize (Hpiece p ltac:(lia)). destruct (lookup_lt_is_Some_2 piece (Z.to_nat (p - off)) ltac:(lia)) as [v Hv]. rewrite Hv in Hpiece.
      rewrite (Hout p v); [|cbn; lia|lia|done]. unfold piece in Hv. rewrite lookup_take_lt in Hv by lia. done.
    + rewrite Hin by lia. unfold rest. rewrite lookup_drop. f_equal. lia.
  - intros p v Hp Hno Hv. apply Hout; [done|lia|]. apply (Hkeep (total_bytes_read_ b)); lia || done.
Qed.
