(* ===== verification/BufferDelivery.v ===== *)
(** The sequencer's buffer delivers a stream: the invariant that ties its blocks
    to the bytes of the stream, its preservation by arrivals and reads, and the
    theorem on every run of both. *)

From S2P Require Import Prelude IntervalSet SequencerBuffer BufferRing.
Open Scope quic_scope.

Section Stream.

(** The stream: its byte at each offset. *)
Variable stream : Z -> Z.

(** Its bytes from [o] on. *)
Definition bytes_at (o n : Z) : list Z := map stream (seqZ o n).

Record buf_ok (b : Buffer) : Prop := {
  bk_sized : sized b;
  bk_shaped : shaped b;
  bk_read : 0 <= total_bytes_read_ b;
  bk_recv : ok (-1) (bytes_received_ b);
  bk_prefix : forall p, 0 <= p < total_bytes_read_ b -> mem (bytes_received_ b) p;
  bk_range : forall p, mem (bytes_received_ b) p -> p < total_bytes_read_ b + max_buffer_capacity_bytes_ b /\ p < 2 ^ 61;
  bk_stored : forall p, total_bytes_read_ b <= p -> mem (bytes_received_ b) p -> cell b p = Some (stream p);
  bk_count : num_bytes_buffered_ b = measure (bytes_received_ b) - total_bytes_read_ b;
}.

Lemma bytes_at_length o n : Z.of_nat (length (bytes_at o n)) = Z.max 0 n.
Proof. unfold bytes_at. rewrite length_map, length_seqZ. lia. Qed.

Lemma bytes_at_lookup o n k : 0 <= k < n -> bytes_at o n !! Z.to_nat k = Some (stream (o + k)).
Proof.
  intros Hk. unfold bytes_at. rewrite list_lookup_fmap. rewrite (lookup_seqZ_lt o n (Z.to_nat k)) by lia. cbn. do 2 f_equal. lia.
Qed.

Lemma bytes_at_app o n m : 0 <= n -> 0 <= m -> bytes_at o n ++ bytes_at (o + n) m = bytes_at o (n + m).
Proof. intros Hn Hm. unfold bytes_at. by rewrite seqZ_app, map_app by lia. Qed.

(** A list with the stream's bytes is a piece of the stream. *)
Lemma bytes_at_eq l o n : Z.of_nat (length l) = n -> (forall k, 0 <= k < n -> l !! Z.to_nat k = Some (stream (o + k))) -> l = bytes_at o n.
Proof.
  intros Hn Hl. apply list_eq. intros k. destruct (decide (Z.of_nat k < n)).
  - rewrite <- (Nat2Z.id k), Hl, bytes_at_lookup by lia. done.
  - rewrite !lookup_ge_None_2; [done| |lia]. apply Nat2Z.inj_le. rewrite bytes_at_length. lia.
Qed.

Lemma bytes_at_sub o n o' n' : 0 <= n' -> o <= o' -> o' + n' <= o + n ->
  take (Z.to_nat n') (drop (Z.to_nat (o' - o)) (bytes_at o n)) = bytes_at o' n'.
Proof.
  intros Hn Ho He. pose proof (bytes_at_length o n) as Hl. apply bytes_at_eq.
  - rewrite length_take, length_drop. lia.
  - intros k Hk. rewrite lookup_take_lt, lookup_drop by lia.
    replace (Z.to_nat (o' - o) + Z.to_nat k)%nat with (Z.to_nat (o' - o + k)) by lia. rewrite bytes_at_lookup by lia. do 2 f_equal. lia.
Qed.

(** What has been received starts with what was read. *)
Lemma first_missing b : buf_ok b ->
  total_bytes_read_ b <= FirstMissingByte b <= 2 ^ 61 /\ FirstMissingByte b <= total_bytes_read_ b + max_buffer_capacity_bytes_ b /\
  (forall p, 0 <= p < FirstMissingByte b -> mem (bytes_received_ b) p) /\ ~ mem (bytes_received_ b) (FirstMissingByte b).
Proof.
  intros [Hz Hsh Ht Hr Hp Hrg _ _]. pose proof (sz_cap _ Hz). unfold FirstMissingByte. destruct (bytes_received_ b) as [|i r] eqn:E.
  { split; [|split; [lia|split; [lia|by intros []]]]. destruct (Z.eq_dec (total_bytes_read_ b) 0); [lia|]. destruct (Hp 0 ltac:(lia)). }
  destruct Hr as [Hi Hr]. assert (Hg : forall p, mem r p -> imax i < p) by (intros p Hm; apply (ok_mem _ _ _ Hr) in Hm; lia).
  zcases.
  - assert (total_bytes_read_ b = 0). { destruct (Z.eq_dec (total_bytes_read_ b) 0); [lia|]. destruct (Hp 0 ltac:(lia)) as [?|Hm]; [lia|]. apply Hg in Hm. lia. }
    split; [lia|]. split; [lia|]. split; [lia|]. intros [?|Hm]; [lia|]. apply Hg in Hm. lia.
  - destruct (Hrg (imax i - 1)) as [? ?]; [left; lia|]. split; [|split; [lia|split; [intros p ?; left; lia|]]].
    + split; [|lia]. destruct (Z.le_gt_cases (total_bytes_read_ b) (imax i)); [done|].
      destruct (Hp (imax i) ltac:(lia)) as [?|Hm]; [lia|]. apply Hg in Hm. lia.
    + intros [?|Hm]; [lia|]. apply Hg in Hm. lia.
Qed.

Lemma readable b : buf_ok b -> ReadableBytes b = FirstMissingByte b - total_bytes_read_ b /\ 0 <= ReadableBytes b.
Proof.
  intros Hb. destruct (first_missing b Hb) as (H1 & H2 & _). pose proof (bk_read _ Hb). unfold ReadableBytes. rewrite u64_small by lia. lia.
Qed.

(** What has been read is small. *)
Lemma read_small b : buf_ok b -> 0 <= total_bytes_read_ b <= 2 ^ 61.
Proof. intros Hb. destruct (first_missing b Hb) as (H1 & _). pose proof (bk_read _ Hb). lia. Qed.

(** * Arrival *)

Lemma more_blocks b n : sized b -> shaped b -> allocate_blocks_on_demand_ b = true -> 0 < n <= 2 ^ 62 ->
  exists bl cnt (b' := b <| blocks_ := bl |> <| current_blocks_count_ := cnt |>), MaybeAddMoreBlocks b n = b' /\
    shaped b' /\ (forall p, 0 <= p < n -> GetBlockIndex b p < block_slots b') /\ (forall p v, cell b p = Some v -> cell b' p = Some v).
Proof.
  intros Hz Hs Ha Hn. pose proof (sz_cap _ Hz) as Hcap. pose proof (blocks_count b Hz) as Hc. pose proof (sz_initial _ Hz Ha) as Hi.
  assert (Hsame : forall c, current_blocks_count_ b = c -> b <| blocks_ := blocks_ b |> <| current_blocks_count_ := c |> = b) by (intros c <-; by destruct b).
  assert (Hmx : max_blocks_count_ b <= 2 ^ 30) by (rewrite Hc; euclid).
  unfold MaybeAddMoreBlocks. destruct (Z.eqb_spec (current_blocks_count_ b) (max_blocks_count_ b)) as [E|E].
  { exists (blocks_ b), (current_blocks_count_ b). rewrite Hsame by done. split; [done|]. split; [done|]. split; [|done].
    intros p _. unfold block_slots. rewrite Ha, E. apply (position b Hz p). }
  rewrite (u64_small (n - 1)) by lia. set (needed := if n - 1 <? _ then _ else _).
  assert (Hneed : 0 < needed <= max_blocks_count_ b /\ forall p, 0 <= p < n -> GetBlockIndex b p < needed).
  { unfold needed. destruct (position b Hz (n - 1)) as (_ & _ & H1 & _). unfold kInitialBlockCount in *. zcases.
    - split; [lia|]. intros p Hp. enough (GetBlockIndex b p <= GetBlockIndex b (n - 1)) by lia.
      unfold GetBlockIndex, kBlockSizeBytes. rewrite !Z.mod_small by lia. apply Z.div_le_mono; lia.
    - split; [lia|]. intros p _. apply (position b Hz p). }
  destruct Hneed as [Hn1 Hn2]. destruct Hs as [Hs1 Hs2]. destruct (Z.leb_spec needed (current_blocks_count_ b)) as [Hle|Hgt].
  { exists (blocks_ b), (current_blocks_count_ b). rewrite Hsame by done. split; [done|]. split; [done|]. split; [|done].
    intros p Hp. unfold block_slots. rewrite Ha. specialize (Hn2 p Hp). lia. }
  rewrite (u64_small (kBlocksGrowthFactor * _)) by (unfold kBlocksGrowthFactor; lia). set (cnt := Z.min (Z.max _ needed) _).
  assert (Hcnt : needed <= cnt <= max_blocks_count_ b) by (unfold cnt; lia).
  set (old := default [] (blocks_ b)). assert (Hold : Z.of_nat (length old) = current_blocks_count_ b /\ Forall whole_block old).
  { unfold old. destruct (blocks_ b); [|split; [cbn; lia|constructor]]. unfold block_slots in Hs2. by rewrite Ha in Hs2. }
  destruct Hold as [Ho1 Ho2]. eexists _, cnt. split; [done|]. split; [|split].
  - constructor; [cbn; lia|]. cbn. unfold block_slots. cbn. rewrite Ha, length_app, length_replicate. split; [lia|].
    apply Forall_app. split; [done|]. by apply Forall_replicate.
  - intros p Hp. unfold block_slots. cbn. rewrite Ha. specialize (Hn2 p Hp). lia.
  - intros p v. unfold cell. cbn. unfold old in *. destruct (blocks_ b) as [l|]; [|done]. cbn [default] in *.
    change (GetBlockIndex _ p) with (GetBlockIndex b p) at 2. destruct (l !! Z.to_nat (GetBlockIndex b p)) as [q|] eqn:El; [|done].
    cbn. rewrite lookup_app_l by (by apply lookup_lt_Some in El). rewrite El. done.
Qed.

(** The blocks and their number may change as long as the bytes stored stay. *)
Lemma buf_ok_blocks b bl cnt (b' := b <| blocks_ := bl |> <| current_blocks_count_ := cnt |>) :
  buf_ok b -> shaped b' -> (forall p v, cell b p = Some v -> cell b' p = Some v) -> buf_ok b'.
Proof. intros [[] ? ? ? ? ? Hst ?] Hs Hc. constructor; try done. intros p H1 H2. by apply Hc, Hst. Qed.

(** Room is made for a frame. *)
Lemma make_room b n (b0 := when (allocate_blocks_on_demand_ b) (fun b => MaybeAddMoreBlocks b n) b) : buf_ok b -> 0 < n <= 2 ^ 62 ->
  exists bl cnt, b0 = b <| blocks_ := bl |> <| current_blocks_count_ := cnt |> /\ buf_ok b0 /\
    forall p, 0 <= p < n -> GetBlockIndex b0 p < block_slots b0.
Proof.
  intros Hb Hn. pose proof (bk_sized _ Hb) as Hz. unfold b0, when. destruct (allocate_blocks_on_demand_ b) eqn:Ea.
  - destruct (more_blocks b n Hz (bk_shaped _ Hb) Ea Hn) as (bl & cnt & -> & Hs & Hi & Hc). exists bl, cnt. split; [done|].
    split; [by apply buf_ok_blocks|]. exact Hi.
  - exists (blocks_ b), (current_blocks_count_ b). split; [by destruct b|]. split; [done|]. intros p _. unfold block_slots. rewrite Ea.
    apply (position b Hz p).
Qed.

(** The loop over the parts of a frame that are new. *)
Lemma copy_intervals_spec o n r : forall b lo k,
  sized b -> shaped b -> 0 <= total_bytes_read_ b <= 2 ^ 61 -> ok lo r -> total_bytes_read_ b - 1 <= lo -> 0 <= o -> o - 1 <= lo ->
  bound lo r <= o + n -> o + n <= total_bytes_read_ b + max_buffer_capacity_bytes_ b -> o + n <= 2 ^ 61 ->
  (forall p, 0 <= p < o + n -> GetBlockIndex b p < block_slots b) -> 0 <= k -> k + measure r <= 2 ^ 61 ->
  exists bl (b' := b <| blocks_ := bl |>), shaped b' /\
    copy_intervals b o (bytes_at o n) r k = Ok (b' <| num_bytes_buffered_ := num_bytes_buffered_ b ⊕ (k + measure r) |>, k + measure r, None) /\
    (forall p, mem r p -> cell b' p = Some (stream p)) /\
    (forall p v, total_bytes_read_ b <= p < total_bytes_read_ b + max_buffer_capacity_bytes_ b -> ~ mem r p -> cell b p = Some v -> cell b' p = Some v).
Proof.
  induction r as [|i r IH]; intros b lo k Hz Hs Ht Hr Hlo Ho Hlo2 Hbd Hcap Hsm Hi Hk Hkm; cbn [copy_intervals measure].
  { exists (blocks_ b). replace (b <| blocks_ := blocks_ b |>) with b by (by destruct b). rewrite Z.add_0_r. done. }
  destruct Hr as [Hi1 Hr]. cbn [measure bound] in *. pose proof (ok_bound _ _ Hr) as Hib. pose proof (measure_range _ _ Hr) as Hmr.
  rewrite (u64_small (imax i - imin i)), (u64_small (imin i - o)) by lia.
  rewrite bytes_at_sub by lia. set (m := imax i - imin i) in *.
  pose proof (bytes_at_length (imin i) m) as Hl. rewrite Z.max_r in Hl by lia. unfold CopyStreamData.
  destruct (copy_loop_spec (length (bytes_at (imin i) m)) b (imin i) (bytes_at (imin i) m) 0) as (bl & -> & Hs1 & Hin & Hout);
    rewrite ?Hl; try done; try lia; [intros p Hp; apply Hi; lia|]. rewrite Hl in *. cbn [rbind]. rewrite Z.add_0_l.
  rewrite (u64_small (k + m)) by lia. set (b1 := b <| blocks_ := bl |>) in *.
  destruct (IH b1 (imax i) (k + m)) as (bl' & Hs2 & E & Hin2 & Hout2); try done; try (cbn; lia); [by apply sized_blocks|].
  exists bl'. change (b1 <| blocks_ := bl' |>) with (b <| blocks_ := bl' |>) in *. split; [done|].
  replace (k + (m + measure r)) with (k + m + measure r) by lia. split; [done|].
  assert (Hg : forall p, mem r p -> imax i < p) by (intros p Hm; apply (ok_mem _ _ _ Hr) in Hm; lia). split.
  - intros p [Hp|Hp]; [|by apply Hin2]. apply Hout2; [cbn; lia|intros Hm; apply Hg in Hm; lia|].
    rewrite Hin by (unfold m; lia). rewrite bytes_at_lookup by lia. do 2 f_equal. lia.
  - intros p v Hp Hno Hv. apply Hout2; [done|intros Hm; apply Hno; by right|]. apply Hout; [done| |done]. intros ?. apply Hno. left. unfold m in *. lia.
Qed.

(** A frame that brings something new. *)
Lemma buf_ok_arrive b o n u bl (b' := b <| bytes_received_ := u |> <| blocks_ := bl |> <| num_bytes_buffered_ := measure u - total_bytes_read_ b |>) :
  buf_ok b -> ok (-1) u -> (forall p, mem u p <-> o <= p < o + n \/ mem (bytes_received_ b) p) -> shaped (b <| blocks_ := bl |>) ->
  o + n <= total_bytes_read_ b + max_buffer_capacity_bytes_ b -> o + n <= 2 ^ 61 ->
  (forall p, total_bytes_read_ b <= p -> o <= p < o + n -> ~ mem (bytes_received_ b) p -> cell (b <| blocks_ := bl |>) p = Some (stream p)) ->
  (forall p v, total_bytes_read_ b <= p < total_bytes_read_ b + max_buffer_capacity_bytes_ b -> mem (bytes_received_ b) p ->
     cell b p = Some v -> cell (b <| blocks_ := bl |>) p = Some v) ->
  buf_ok b'.
Proof.
  intros [Hz Hsh Ht Hr Hp Hrg Hst Hct] Hu Hm Hs Hcap Hsm Hnew Hold. constructor; try done.
  - by destruct Hz.
  - by destruct Hs.
  - intros p Hlt. apply Hm. right. by apply Hp.
  - intros p [?|Hq]%Hm; [cbn; lia|by apply Hrg].
  - intros p Hge Hmp. change (cell (b <| blocks_ := bl |>) p = Some (stream p)).
    destruct (decide (mem (bytes_received_ b) p)) as [Hin|Hin]; [|apply Hm in Hmp as [?|?]; [by apply Hnew|done]].
    apply Hold; [split; [done|by apply Hrg]|done|by apply Hst].
Qed.

(** The last interval received ends the highest one. *)
Lemma beyond_last b o : ok (-1) (bytes_received_ b) ->
  match last (bytes_received_ b) with None => true | Some i => imax i <=? o end = true -> forall p, o <= p -> ~ mem (bytes_received_ b) p.
Proof.
  intros Hr Hl p Hp Hm. apply (ok_mem _ _ _ Hr) in Hm. rewrite bound_last in Hm. destruct (last _) as [i|] eqn:E.
  - apply Z.leb_le in Hl. lia.
  - apply last_None in E. rewrite E in *. cbn in *. lia.
Qed.

Section Arrival.
Context (b : Buffer) (Hb : buf_ok b) (o n : Z).
Hypothesis Ho : 0 <= o.
Hypothesis Hn : 0 < n.
Hypothesis Hfit : o + n <= total_bytes_read_ b + max_buffer_capacity_bytes_ b.
Hypothesis Hsmall : o + n <= 2 ^ 61.
Let u := Add (mkInterval o (o + n)) (bytes_received_ b).

Lemma union_spec : ok (-1) u /\ (forall p, mem u p <-> o <= p < o + n \/ mem (bytes_received_ b) p) /\ 0 <= measure u <= 2 ^ 62 /\
  total_bytes_read_ b <= measure (bytes_received_ b).
Proof.
  destruct (Add_spec (-1) (mkInterval o (o + n)) _ (bk_recv _ Hb) ltac:(cbn; lia)) as [Hu Hum]. split; [done|]. split; [done|].
  split; [|apply measure_prefix; apply Hb]. pose proof (measure_range _ _ Hu) as Hmu. rewrite bound_last in Hmu. fold u in Hmu. destruct (last u) as [i|] eqn:El; [|lia].
  apply (mem_last _ _ _ Hu), Hum in El as [?|Hm]; [cbn in *; lia|]. apply (bk_range _ Hb) in Hm. lia.
Qed.

(** What a frame leaves, its [k] new bytes stored and counted. *)
Definition takes_in (b' : Buffer) (k : Z) : Prop :=
  buf_ok b' /\ bytes_received_ b' = u /\ total_bytes_read_ b' = total_bytes_read_ b /\
  max_buffer_capacity_bytes_ b' = max_buffer_capacity_bytes_ b /\ k = measure u - measure (bytes_received_ b).

Lemma takes_in_blocks bl k : shaped (b <| blocks_ := bl |>) -> measure u = measure (bytes_received_ b) + k -> 0 <= k ->
  (forall p, total_bytes_read_ b <= p -> o <= p < o + n -> ~ mem (bytes_received_ b) p -> cell (b <| blocks_ := bl |>) p = Some (stream p)) ->
  (forall p v, total_bytes_read_ b <= p < total_bytes_read_ b + max_buffer_capacity_bytes_ b -> mem (bytes_received_ b) p ->
     cell b p = Some v -> cell (b <| blocks_ := bl |>) p = Some v) ->
  takes_in (b <| bytes_received_ := u |> <| blocks_ := bl |> <| num_bytes_buffered_ := num_bytes_buffered_ b ⊕ k |>) k.
Proof.
  intros Hs Em Hk Hnew Hold. destruct union_spec as (Hu & Hum & Hmu & Hmp). pose proof (bk_read _ Hb). rewrite (bk_count _ Hb), u64_small by lia.
  replace (measure (bytes_received_ b) - total_bytes_read_ b + k) with (measure u - total_bytes_read_ b) by lia.
  split; [by apply (buf_ok_arrive b o n u bl)|]. split; [done|]. split; [done|]. split; [done|lia].
Qed.

Hypothesis Hslots : forall p, 0 <= p < o + n -> GetBlockIndex b p < block_slots b.

(** All of the frame is new. *)
Lemma arrive_new : (forall p, o <= p < o + n -> ~ mem (bytes_received_ b) p) ->
  exists b', CopyStreamData (b <| bytes_received_ := u |>) o (bytes_at o n) = Ok (b', n, true) /\
    takes_in (b' <| num_bytes_buffered_ := num_bytes_buffered_ b' ⊕ n |>) n.
Proof.
  intros Hdis. destruct union_spec as (Hu & Hum & Hmu & Hmp). pose proof (read_small b Hb) as Ht. pose proof (bk_sized _ Hb) as Hz. pose proof (bk_shaped _ Hb) as Hs.
  assert (Hto : total_bytes_read_ b <= o) by (destruct (Z.le_gt_cases (total_bytes_read_ b) o); [done|]; destruct (Hdis o ltac:(lia)); apply (bk_prefix _ Hb); lia).
  unfold CopyStreamData. pose proof (bytes_at_length o n) as Hl. rewrite Z.max_r in Hl by lia.
  destruct (copy_loop_spec (length (bytes_at o n)) (b <| bytes_received_ := u |>) o (bytes_at o n) 0) as (bl & -> & Hs1 & Hin & Hout);
    rewrite ?Hl; try done; try (cbn; lia); [by destruct Hz|by destruct Hs|intros p Hp; apply (Hslots p); lia|]. rewrite Hl in *. rewrite Z.add_0_l.
  eexists. split; [done|]. apply (takes_in_blocks bl n); [by destruct Hs1| |lia| |].
  - rewrite (measure_union (bytes_received_ b) [mkInterval o (o + n)] u); [cbn; lia|apply Hb|cbn; lia|done| |].
    + intros p. rewrite Hum. cbn. tauto.
    + intros p Hm [?|[]]. cbn in *. by apply (Hdis p).
  - intros p _ Hp _. change (cell (b <| bytes_received_ := u |> <| blocks_ := bl |>) p = Some (stream p)).
    rewrite Hin by lia. rewrite bytes_at_lookup by lia. do 2 f_equal. lia.
  - intros p v Hp Hm Hv. apply (Hout p v); [cbn; lia|intros ?; by apply (Hdis p)|done].
Qed.

(** Only [r] of it is new. *)
Lemma arrive_overlap r : ok (-1) r -> (forall p, mem r p <-> o <= p < o + n /\ ~ mem (bytes_received_ b) p) -> r <> [] ->
  exists b', copy_intervals (b <| bytes_received_ := u |>) o (bytes_at o n) r 0 = Ok (b', measure r, None) /\ takes_in b' (measure r).
Proof.
  intros Hr Hrm Hne. destruct union_spec as (Hu & Hum & Hmu & Hmp). pose proof (read_small b Hb) as Ht. pose proof (bk_sized _ Hb) as Hz. pose proof (bk_shaped _ Hb) as Hs.
  set (lo := Z.max (total_bytes_read_ b) o - 1).
  assert (Hlow : forall p, mem r p -> lo < p < o + n).
  { intros p Hm. apply Hrm in Hm as [Hm1 Hm2]. unfold lo. destruct (Z.le_gt_cases (total_bytes_read_ b) p); [lia|]. destruct Hm2. apply (bk_prefix _ Hb). lia. }
  assert (Hlo : ok lo r) by (destruct r as [|i r]; [done|]; destruct Hr as [Hr1 Hr2]; split; [specialize (Hlow (imin i) ltac:(left; lia)); lia|done]).
  assert (Hbd : bound lo r <= o + n) by (rewrite bound_last; destruct (last r) as [j|] eqn:El; [apply (mem_last _ _ _ Hr), Hlow in El; lia|by apply last_None in El]).
  assert (Hmr : 0 <= measure r <= 2 ^ 61).
  { clear Hrm. destruct r as [|i r]; [done|]. destruct Hlo as [Hl1 Hl2]. pose proof (measure_range _ _ Hl2). cbn in Hbd |- *. unfold lo in *. lia. }
  destruct (copy_intervals_spec o n r (b <| bytes_received_ := u |>) lo 0) as (bl & Hs1 & -> & Hin & Hout);
    try done; try (unfold lo in *; cbn; lia); [by destruct Hz|by destruct Hs|]. rewrite Z.add_0_l.
  eexists. split; [done|]. apply (takes_in_blocks bl (measure r)); [by destruct Hs1| |lia| |].
  - apply measure_union; try done; [apply Hb| |].
    + intros p. rewrite Hum, Hrm. destruct (decide (mem (bytes_received_ b) p)); tauto.
    + intros p Hm Hm'. apply Hrm in Hm' as [_ Hm']. done.
  - intros p _ Hp Hno. apply (Hin p). by apply Hrm.
  - intros p v Hp Hm Hv. apply (Hout p v); [cbn; lia| |done]. intros Hm'. apply Hrm in Hm' as [_ Hm']. done.
Qed.

End Arrival.

(** A frame of the stream that fits the window is taken in: what it brings is
    stored and counted, and what was there before stays.  The only error is the
    one for too many gaps. *)
Lemma OnStreamData_ok b o n (u := Add (mkInterval o (o + n)) (bytes_received_ b)) :
  buf_ok b -> 0 <= o -> 0 < n -> o + n <= total_bytes_read_ b + max_buffer_capacity_bytes_ b -> o + n <= 2 ^ 61 ->
  exists b' k err, OnStreamData b o (bytes_at o n) = Ok (b', k, err) /\
    ((err = None /\ takes_in b o n b' k) \/
     (err = Some QUIC_TOO_MANY_STREAM_DATA_INTERVALS /\ kMaxNumDataIntervalsAllowed <= Z.of_nat (length u))).
Proof.
  intros Hb Ho Hn Hcap Hsm. pose proof (read_small b Hb) as Ht. pose proof (sz_cap _ (bk_sized _ Hb)) as Hc.
  unfold OnStreamData. rewrite bytes_at_length, Z.max_r by lia. replace (n =? 0) with false by lia.
  rewrite (u64_small (total_bytes_read_ b + _)), (u64_small (o + n)) by lia. replace (_ || _) with false by lia.
  destruct (make_room b (o + n) Hb ltac:(lia)) as (bl & cnt & E0 & Hb0 & Hi). set (b0 := when _ _ b) in *.
  assert (Er : bytes_received_ b0 = bytes_received_ b) by (by rewrite E0). assert (Et : total_bytes_read_ b0 = total_bytes_read_ b) by (by rewrite E0).
  assert (Ec : max_buffer_capacity_bytes_ b0 = max_buffer_capacity_bytes_ b) by (by rewrite E0).
  assert (Hto : forall b' k, takes_in b0 o n b' k -> takes_in b o n b' k) by (unfold takes_in; by rewrite Er, Et, Ec).
  unfold u. rewrite <- Er in *. rewrite <- Et, <- Ec in Hcap. clear u. pose proof (bk_recv _ Hb0) as Hr0.
  destruct (union_spec b0 Hb0 o n Ho) as (Hu & Hum & _); [done|].
  destruct (_ || IsDisjoint _ _) eqn:Efast.
  - assert (Hdis : forall p, o <= p < o + n -> ~ mem (bytes_received_ b0) p).
    { apply orb_prop in Efast as [Hl|Hd]; [|by apply (IsDisjoint_spec (-1) _ (mkInterval o (o + n)) Hr0)].
      intros p Hp. apply (beyond_last b0 o); [done|done|lia]. }
    rewrite (AddOptimizedForAppend_Add (-1)) by (done || cbn; lia). cbn [bytes_received_ set_field].
    destruct (Z.leb_spec kMaxNumDataIntervalsAllowed (Z.of_nat (length (Add (mkInterval o (o + n)) (bytes_received_ b0))))) as [Hle|_].
    { eexists _, _, _. split; [done|]. by right. }
    destruct (arrive_new b0 Hb0 o n Ho Hn Hcap Hsm Hi Hdis) as (b' & E & Hin).
    match goal with |- context [CopyStreamData ?x o _] => change x with (b0 <| bytes_received_ := Add (mkInterval o (o + n)) (bytes_received_ b0) |>) end.
    rewrite E. cbn [rbind]. eexists _, n, None. split; [done|]. left. split; [done|]. by apply Hto.
  - destruct (Add_empty (-1) (mkInterval o (o + n)) ltac:(cbn; lia)) as [Ha1 Ha2]. cbn [imin imax] in Ha2.
    destruct (Set_Difference_spec (-1) (-1) _ (bytes_received_ b0) Ha1 Hr0) as (r & -> & Hr & Hrm). cbn [rbind].
    assert (Hrm' : forall p, mem r p <-> o <= p < o + n /\ ~ mem (bytes_received_ b0) p) by (intros p; by rewrite Hrm, Ha2). destruct r as [|i r'].
    { eexists b0, 0, None. split; [done|]. left. split; [done|]. apply Hto. unfold takes_in.
      assert (Eu : Add (mkInterval o (o + n)) (bytes_received_ b0) = bytes_received_ b0).
      { apply (ok_unique (-1)); [done|done|]. intros p. rewrite Hum. split; [|by right]. intros [Hp|?]; [|done].
        destruct (decide (mem (bytes_received_ b0) p)); [done|]. by destruct (proj2 (Hrm' p)). }
      rewrite Eu. split; [done|]. split; [done|]. split; [done|]. split; [done|lia]. }
    cbn [bytes_received_ set_field].
    destruct (Z.leb_spec kMaxNumDataIntervalsAllowed (Z.of_nat (length (Add (mkInterval o (o + n)) (bytes_received_ b0))))) as [Hle|_].
    { eexists _, _, _. split; [done|]. by right. }
    destruct (arrive_overlap b0 Hb0 o n Ho Hcap Hsm Hi (i :: r') Hr Hrm') as (b' & E & Hin); [done|].
    match goal with |- context [copy_intervals ?x o _] => change x with (b0 <| bytes_received_ := Add (mkInterval o (o + n)) (bytes_received_ b0) |>) end.
    rewrite E. eexists _, _, None. split; [done|]. left. split; [done|]. by apply Hto.
Qed.

(** * Reading *)

Lemma buf_ok_read b k (b1 := b <| num_bytes_buffered_ := num_bytes_buffered_ b ⊖ k |> <| total_bytes_read_ := total_bytes_read_ b ⊕ k |>) :
  buf_ok b -> 0 <= k <= ReadableBytes b ->
  b1 = b <| num_bytes_buffered_ := num_bytes_buffered_ b - k |> <| total_bytes_read_ := total_bytes_read_ b + k |> /\ buf_ok b1 /\
  ReadableBytes b1 = ReadableBytes b - k.
Proof.
  intros Hb Hk. destruct (first_missing b Hb) as (F1 & F2 & F3 & F4). destruct (readable b Hb) as [Er _]. pose proof (read_small b Hb) as Ht.
  pose proof (bk_count _ Hb) as Hct. pose proof (sz_cap _ (bk_sized _ Hb)) as Hc.
  assert (Hm : FirstMissingByte b <= measure (bytes_received_ b)) by (apply measure_prefix; [apply Hb|lia|done]).
  assert (Hmx : measure (bytes_received_ b) <= 2 ^ 62).
  { pose proof (measure_range _ _ (bk_recv _ Hb)) as Hmr. rewrite bound_last in Hmr. destruct (last _) as [i|] eqn:El; [|lia].
    apply (mem_last _ _ _ (bk_recv _ Hb)), (bk_range _ Hb) in El. lia. }
  assert (E : b1 = b <| num_bytes_buffered_ := num_bytes_buffered_ b - k |> <| total_bytes_read_ := total_bytes_read_ b + k |>)
    by (unfold b1; rewrite !u64_small by lia; done).
  assert (Hb1 : buf_ok b1).
  { rewrite E. destruct Hb as [[] [] ? ? ? Hrg Hst ?]. constructor; try done.
    - cbn. lia.
    - intros p Hp. cbn in *. apply F3. lia.
    - intros p Hp. apply Hrg in Hp. cbn. lia.
    - intros p Hp Hm'. cbn in Hp. apply Hst; [lia|done].
    - cbn. lia. }
  split; [done|]. split; [done|]. destruct (readable b1 Hb1) as [-> _]. rewrite Er, E. change (FirstMissingByte (_ <| total_bytes_read_ := _ |>)) with (FirstMissingByte b). cbn. lia.
Qed.

(** Retiring a block that holds nothing unread. *)
Lemma retire_unused b i blk : buf_ok b -> 0 <= i -> get_block b i = Ok (Some blk) ->
  (forall q, total_bytes_read_ b <= q -> mem (bytes_received_ b) q -> GetBlockIndex b q <> i) ->
  exists bl, RetireBlock b i = Ok (b <| blocks_ := bl |>, true) /\ buf_ok (b <| blocks_ := bl |>).
Proof.
  intros Hb Hi Hg Hno. unfold RetireBlock. rewrite Hg. cbn [rbind]. unfold get_block in Hg. destruct (blocks_ b) as [l|] eqn:El; [|done].
  exists (Some (<[Z.to_nat i := None]> l)). unfold set_block. rewrite El. split; [done|].
  pose proof Hb as [Hz Hs ? ? ? ? Hst ?]. destruct (l !! Z.to_nat i) as [x|] eqn:Ex; [|done]. constructor; try done.
  - by destruct Hz.
  - pose proof (set_block_shaped b i None l Hs El I) as Hs'. unfold set_block in Hs'. by rewrite El in Hs'.
  - intros q Hq Hm. specialize (Hno q Hq Hm). rewrite <- (Hst q Hq Hm). unfold cell. cbn. rewrite El.
    change (GetBlockIndex _ q) with (GetBlockIndex b q) at 1. destruct (position b Hz q) as (_ & _ & Hx & _).
    rewrite list_lookup_insert_ne by lia. done.
Qed.

Section Retire.
Context (b : Buffer) (Hb : buf_ok b) (k : Z).
Abbreviation t := (total_bytes_read_ b).
Abbreviation B := (NextBlockToRead b).
Hypothesis Hk : k = Z.min (ReadableBytes b) (GetBlockCapacity b B - ReadOffset b).
Hypothesis Hk1 : 1 <= k.

(** An unread byte in the block just read is in the ring's next pass, and then
    so is the last byte received; or there is a gap before it in the block. *)
Lemma unread_in_block q : t + k <= q -> mem (bytes_received_ b) q -> GetBlockIndex b q = B ->
  GetBlockIndex b (NextExpectedByte b - 1) = B \/
  (k = ReadableBytes b /\ GetBlockIndex b (t + k) = B /\ forall m, t <= m <= q -> GetBlockIndex b m = B).
Proof.
  intros Hq Hm Eq. pose proof (bk_sized _ Hb) as Hz. destruct (bk_range _ Hb q Hm) as [Hr _].
  destruct (position b Hz q) as (_ & _ & _ & Pq). rewrite Eq in Pq.
  destruct (same_block b Hz t q) as [[H1 H2]|[H1 H2]]; [done|lia| |].
  - right. assert (Hin : forall m, t <= m <= q -> GetBlockIndex b m = B).
    { intros m Hm'. destruct (within_block b Hz t (m - t)) as [E _]; [lia| |replace (t + (m - t)) with m in E by lia; done].
      change (GetBlockIndex b t) with B. lia. }
    split; [unfold ReadOffset in Hk; lia|]. split; [apply Hin; lia|done].
  - left. unfold NextExpectedByte. pose proof (ok_mem _ _ _ (bk_recv _ Hb) Hm) as Hbd. rewrite bound_last in Hbd.
    destruct (last (bytes_received_ b)) as [i|] eqn:El; [|lia]. pose proof (mem_last _ _ _ (bk_recv _ Hb) El) as Hl.
    destruct (bk_range _ Hb _ Hl) as [Hl2 _]. destruct (position b Hz t) as (_ & _ & _ & Pt). change (GetBlockIndex b t) with B in Pt.
    destruct (within_block b Hz q (imax i - 1 - q)) as [E _]; [lia|rewrite Eq; lia|]. replace (q + (imax i - 1 - q)) with (imax i - 1) in E by lia. congruence.
Qed.

Lemma retire_ok b1 blk : b1 = b <| num_bytes_buffered_ := num_bytes_buffered_ b - k |> <| total_bytes_read_ := t + k |> ->
  buf_ok b1 -> ReadableBytes b1 = ReadableBytes b - k -> get_block b B = Ok (Some blk) ->
  exists bl, RetireBlockIfEmpty b1 B = Ok (b1 <| blocks_ := bl |>, true) /\ buf_ok (b1 <| blocks_ := bl |>).
Proof.
  intros E1 Hb1 Er Hg. pose proof (bk_sized _ Hb) as Hz. destruct (first_missing b Hb) as (F1 & F2 & F3 & F4). destruct (readable b Hb) as [Erd _].
  pose proof (bk_read _ Hb) as Ht.
  assert (Hkeep : exists bl, Ok (b1, true) = Ok (b1 <| blocks_ := bl |>, true) /\ buf_ok (b1 <| blocks_ := bl |>)).
  { exists (blocks_ b1). replace (b1 <| blocks_ := blocks_ b1 |>) with b1 by (by destruct b1). done. }
  destruct (position b Hz t) as (_ & _ & HB & _). change (GetBlockIndex b t) with B in HB.
  assert (Hret : (forall q, t + k <= q -> mem (bytes_received_ b) q -> GetBlockIndex b q <> B) ->
            exists bl, RetireBlock b1 B = Ok (b1 <| blocks_ := bl |>, true) /\ buf_ok (b1 <| blocks_ := bl |>)).
  { intros Hno. apply retire_unused with blk; [done|lia|by rewrite E1|]. rewrite E1. exact Hno. }
  unfold RetireBlockIfEmpty. rewrite Er.
  assert (Hcheck : (ReadableBytes b - k =? 0) || (GetInBlockOffset b1 (total_bytes_read_ b1) =? 0) = true).
  { destruct (Z.eq_dec k (ReadableBytes b)) as [Ek|Ek]; [apply orb_true_intro; left; lia|]. apply orb_true_intro. right. rewrite E1. apply Z.eqb_eq.
    apply (block_end b Hz t k); [lia|]. unfold ReadOffset in Hk. change (GetBlockIndex b t) with B. lia. }
  rewrite Hcheck. cbn [CHECK rbind].
  assert (H0 : mem (bytes_received_ b) 0) by (apply F3; lia).
  destruct (Buffer_Empty b1) eqn:Ee.
  { apply Hret. intros q Hq Hm. exfalso. rewrite E1 in Ee. unfold Buffer_Empty in Ee. cbn in Ee. destruct (bytes_received_ b) as [|i [|j r]]; [done| |done].
    destruct Hm as [?|[]]. lia. }
  replace (GetBlockIndex b1 (NextExpectedByte b1 ⊖ 1)) with (GetBlockIndex b (NextExpectedByte b - 1)).
  2: { rewrite E1. change (NextExpectedByte (_ <| total_bytes_read_ := _ |>)) with (NextExpectedByte b). f_equal. symmetry. apply u64_small.
       unfold NextExpectedByte. destruct (last _) as [i|] eqn:El; [|apply last_None in El; by rewrite El in H0].
       apply (mem_last _ _ _ (bk_recv _ Hb)) in El. pose proof (ok_mem _ _ _ (bk_recv _ Hb) El). apply (bk_range _ Hb) in El. lia. }
  destruct (Z.eqb_spec (GetBlockIndex b (NextExpectedByte b - 1)) B) as [|Hlast]; [done|].
  replace (NextBlockToRead b1) with (GetBlockIndex b (t + k)) by (by rewrite E1).
  replace (bytes_received_ b1) with (bytes_received_ b) by (by rewrite E1).
  replace (GetBlockIndex b1) with (GetBlockIndex b) by (by rewrite E1).
  destruct (Z.eqb_spec (GetBlockIndex b (t + k)) B) as [Enext|Enext].
  2: { apply Hret. intros q Hq Hm Eq. destruct (unread_in_block q Hq Hm Eq) as [?|(? & ? & ?)]; done. }
  unfold FirstMissingByte in *. pose proof (bk_recv _ Hb) as Hrok. unfold Buffer_Empty in Ee. replace (bytes_received_ b1) with (bytes_received_ b) in Ee by (by rewrite E1).
  destruct (bytes_received_ b) as [|i [|j r]] eqn:Erecv; [done| |].
  - (* the whole readable part ends here, yet there is more to read *)
    exfalso. destruct H0 as [H0|[]]. replace (0 <? imin i) with false in * by lia. rewrite E1 in Ee. cbn in Ee.
    assert (Hend : ReadOffset b + k = GetBlockCapacity b B) by lia. destruct (block_end b Hz t k ltac:(lia) Hend) as [_ Hone].
    specialize (Hone Enext). apply Hlast. destruct (position b Hz (NextExpectedByte b - 1)) as (_ & _ & H1 & _). lia.
  - destruct (Z.eqb_spec (GetBlockIndex b (imin j)) B) as [|Hj]; [done|]. apply Hret. intros q Hq Hm Eq.
    rewrite <- Erecv in Hm. destruct (unread_in_block q Hq Hm Eq) as [?|(Ek & _ & Hin)]; [done|]. apply Hj, Hin.
    destruct Hrok as (Hi & Hj1 & Hr). assert (Hi0 : imin i <= 0). { destruct H0 as [?|[?|H0]]; [lia|lia|]. apply (ok_mem _ _ _ Hr) in H0. lia. }
    replace (0 <? imin i) with false in * by lia. rewrite Erecv in Hm. destruct Hm as [?|[?|Hm]]; [lia|lia|]. apply (ok_mem _ _ _ Hr) in Hm. lia.
Qed.

End Retire.

Lemma cell_block b p v : cell b p = Some v ->
  exists blk, get_block b (GetBlockIndex b p) = Ok (Some blk) /\ blk !! Z.to_nat (GetInBlockOffset b p) = Some v.
Proof.
  unfold cell, get_block. destruct (blocks_ b) as [l|]; [|done]. destruct (l !! _) as [[blk|]|]; [|done..]. intros Hv. by exists blk.
Qed.

(** Readable bytes that lie in one block. *)
Lemma piece_at b p k : buf_ok b -> total_bytes_read_ b <= p -> 1 <= k -> p + k <= FirstMissingByte b ->
  GetInBlockOffset b p + k <= GetBlockCapacity b (GetBlockIndex b p) ->
  exists blk, get_block b (GetBlockIndex b p) = Ok (Some blk) /\ read_block blk (GetInBlockOffset b p) k = Ok (bytes_at p k).
Proof.
  intros Hb Hp Hk Hf Hc. pose proof (bk_sized _ Hb) as Hz. destruct (first_missing b Hb) as (F1 & F2 & F3 & F4). pose proof (bk_read _ Hb) as Ht.
  assert (Hcell : forall d, 0 <= d < k -> cell b (p + d) = Some (stream (p + d))) by (intros d Hd; apply (bk_stored _ Hb); [lia|apply F3; lia]).
  destruct (cell_block b (p + 0) _ (Hcell 0 ltac:(lia))) as (blk & Hg & _). rewrite Z.add_0_r in Hg. exists blk. split; [done|].
  destruct (position b Hz p) as (_ & _ & H1 & H2). destruct (block_capacity b Hz _ H1) as [Ec _].
  assert (Hlen : Z.of_nat (length blk) = 8192).
  { pose proof (bk_shaped _ Hb) as [_ Hs]. unfold get_block in Hg. destruct (blocks_ b) as [l|]; [|done]. destruct (l !! _) as [x|] eqn:Ex; [|done].
    injection Hg as ->. exact (proj1 (Forall_lookup _ _) (proj2 Hs) _ _ Ex). }
  unfold read_block. replace (_ <? _) with false by lia. f_equal. apply bytes_at_eq; [rewrite length_take, length_drop; lia|].
  intros d Hd. rewrite lookup_take_lt, lookup_drop by lia. destruct (cell_block b (p + d) _ (Hcell d Hd)) as (blk' & Hg' & Hv).
  destruct (within_block b Hz p d) as [Ei Eo]; [lia|lia|]. rewrite Ei, Hg in Hg'. injection Hg' as <-. rewrite Eo in Hv. rewrite <- Hv. f_equal. lia.
Qed.

Lemma read_piece b k : buf_ok b -> 1 <= k <= ReadableBytes b -> k <= GetBlockCapacity b (NextBlockToRead b) - ReadOffset b ->
  exists blk, get_block b (NextBlockToRead b) = Ok (Some blk) /\
    read_block blk (ReadOffset b) k = Ok (bytes_at (total_bytes_read_ b) k).
Proof.
  intros Hb Hk Hc. destruct (readable b Hb) as [Erd _]. unfold ReadOffset, NextBlockToRead in *. apply piece_at; try done; lia.
Qed.

(** A part of what is readable is taken from one block. *)
Lemma take_block b k (avail := Z.min (ReadableBytes b) (GetBlockCapacity b (NextBlockToRead b) - ReadOffset b))
    (b1 := b <| num_bytes_buffered_ := num_bytes_buffered_ b ⊖ k |> <| total_bytes_read_ := total_bytes_read_ b ⊕ k |>) :
  buf_ok b -> 1 <= k <= avail ->
  exists bl (b' := b1 <| blocks_ := bl |>),
    (if k =? avail then RetireBlockIfEmpty b1 (NextBlockToRead b) else Ok (b1, true)) = Ok (b', true) /\ buf_ok b' /\
    ReadableBytes b' = ReadableBytes b - k /\ total_bytes_read_ b' = total_bytes_read_ b + k.
Proof.
  intros Hb Hk. destruct (buf_ok_read b k Hb ltac:(lia)) as (E & Hb1 & Hr1). fold b1 in E, Hb1, Hr1. destruct (Z.eqb_spec k avail) as [Ek|Ek].
  - destruct (read_piece b k Hb ltac:(lia) ltac:(lia)) as (blk & Hg & _).
    destruct (retire_ok b Hb k Ek ltac:(lia) b1 blk E Hb1 Hr1 Hg) as (bl & -> & Hb2). exists bl. split; [done|]. split; [done|].
    split; [exact Hr1|]. rewrite E. done.
  - exists (blocks_ b1). replace (b1 <| blocks_ := blocks_ b1 |>) with b1 by (by destruct b1). split; [done|]. split; [done|]. split; [done|].
    by rewrite E.
Qed.

Lemma avail_pos b : buf_ok b -> 0 < ReadableBytes b ->
  GetBlockCapacity b (NextBlockToRead b) ⊖ ReadOffset b = GetBlockCapacity b (NextBlockToRead b) - ReadOffset b /\
  1 <= GetBlockCapacity b (NextBlockToRead b) - ReadOffset b.
Proof.
  intros Hb Hr. pose proof (bk_sized _ Hb) as Hz. destruct (position b Hz (total_bytes_read_ b)) as (_ & _ & H1 & H2).
  destruct (block_capacity b Hz _ H1) as [Ec _]. unfold NextBlockToRead, ReadOffset in *. rewrite u64_small by lia. lia.
Qed.

(** What a read leaves: [m] bytes more have been read. *)
Definition reads (b b' : Buffer) (m : Z) : Prop :=
  buf_ok b' /\ total_bytes_read_ b' = total_bytes_read_ b + m /\ ReadableBytes b' = ReadableBytes b - m /\
  bytes_received_ b' = bytes_received_ b /\ max_buffer_capacity_bytes_ b' = max_buffer_capacity_bytes_ b.

Lemma read_loop_spec fuel : forall b dest out, buf_ok b -> 0 <= dest <= 2 ^ 60 -> (Z.to_nat dest <= fuel)%nat ->
  exists b' (m := Z.min dest (ReadableBytes b)), read_loop fuel b dest out = Ok (b', out ++ bytes_at (total_bytes_read_ b) m, None) /\ reads b b' m.
Proof.
  induction fuel as [|fuel IH]; intros b dest out Hb Hd Hf; destruct (readable b Hb) as [_ Hr]; cbn [read_loop].
  { assert (dest = 0) as -> by lia. exists b. cbn. rewrite Z.min_l by lia. cbn. rewrite app_nil_r. split; [done|]. split; [done|].
    split; [lia|]. split; [lia|done]. }
  destruct ((0 <? dest) && (0 <? ReadableBytes b)) eqn:Ego.
  2: { exists b. assert (Z.min dest (ReadableBytes b) = 0) as -> by lia. cbn. rewrite app_nil_r. split; [done|]. split; [done|]. split; [lia|]. split; [lia|done]. }
  destruct (avail_pos b Hb ltac:(lia)) as [-> Hpos]. set (avail := Z.min (ReadableBytes b) _). set (k := Z.min avail dest).
  replace (0 <? k) with true by lia. cbn [CHECK rbind].
  destruct (read_piece b k Hb ltac:(lia) ltac:(lia)) as (blk & -> & Erd). cbn [rbind]. rewrite Erd. cbn [rbind].
  destruct (take_block b k Hb ltac:(lia)) as (bl & Et & Hb2 & Hr2 & Ht2). fold avail in Et. cbn zeta in *. rewrite Et. cbn [rbind].
  rewrite (u64_small (dest - k)) by lia. set (b2 := _ <| blocks_ := bl |>) in *.
  destruct (IH b2 (dest - k) (out ++ bytes_at (total_bytes_read_ b) k) Hb2 ltac:(lia) ltac:(lia)) as (b' & E & H1 & H2 & H3 & H4 & H5).
  exists b'. rewrite E, Hr2, Ht2 in *. assert (Em : Z.min dest (ReadableBytes b) = k + Z.min (dest - k) (ReadableBytes b - k)) by lia. rewrite Em.
  split; [|split; [done|split; [lia|split; [lia|done]]]]. rewrite <- app_assoc, bytes_at_app by lia. done.
Qed.

Lemma Readv_spec dest : forall b out, buf_ok b -> Forall (fun n => 0 <= n <= 2 ^ 60) dest ->
  exists b' (m := Z.min (foldr Z.add 0 dest) (ReadableBytes b)), Readv b dest out = Ok (b', out ++ bytes_at (total_bytes_read_ b) m, None) /\ reads b b' m.
Proof.
  induction dest as [|n dest IH]; intros b out Hb Hd; destruct (readable b Hb) as [_ Hr]; cbn [Readv foldr].
  { exists b. rewrite Z.min_l by lia. cbn. rewrite app_nil_r. split; [done|]. split; [done|]. split; [lia|]. split; [lia|done]. }
  apply Forall_cons in Hd as [Hn Hd]. assert (Hpos : 0 <= foldr Z.add 0 dest) by (clear -Hd; induction Hd; cbn; lia).
  destruct (Z.ltb_spec 0 (ReadableBytes b)).
  2: { exists b. rewrite Z.min_r by lia. replace (ReadableBytes b) with 0 by lia. cbn. rewrite app_nil_r. split; [done|]. split; [done|]. split; [lia|]. split; [lia|done]. }
  destruct (read_loop_spec (Z.to_nat n) b n out Hb Hn ltac:(lia)) as (b1 & -> & R1 & R2 & R3 & R4 & R5). cbn [rbind].
  destruct (IH b1 (out ++ bytes_at (total_bytes_read_ b) (Z.min n (ReadableBytes b))) R1 Hd) as (b' & -> & H1 & H2 & H3 & H4 & H5).
  exists b'. rewrite R2, R3 in *. set (m1 := Z.min n (ReadableBytes b)) in *. destruct (readable b1 R1) as [_ Hr1].
  assert (Em : Z.min (n + foldr Z.add 0 dest) (ReadableBytes b) = m1 + Z.min (foldr Z.add 0 dest) (ReadableBytes b - m1)) by lia. rewrite Em.
  split; [rewrite <- app_assoc, bytes_at_app by lia; done|]. split; [done|]. split; [lia|]. split; [lia|]. split; congruence.
Qed.

Lemma consume_loop_spec fuel : forall b n, buf_ok b -> 0 <= n <= ReadableBytes b -> n <= 2 ^ 60 -> (Z.to_nat n <= fuel)%nat ->
  exists b', consume_loop fuel b n = Ok b' /\ reads b b' n.
Proof.
  induction fuel as [|fuel IH]; intros b n Hb Hn Hs Hf; cbn [consume_loop].
  { assert (n = 0) as -> by lia. exists b. split; [done|]. split; [done|]. split; [lia|]. split; [lia|done]. }
  destruct (Z.ltb_spec 0 n) as [Hlt|Hge].
  2: { assert (n = 0) as -> by lia. exists b. split; [done|]. split; [done|]. split; [lia|]. split; [lia|done]. }
  destruct (avail_pos b Hb ltac:(lia)) as [-> Hpos]. set (avail := Z.min (ReadableBytes b) _). set (k := Z.min n avail).
  destruct (take_block b k Hb ltac:(lia)) as (bl & Et & Hb2 & Hr2 & Ht2). fold avail in Et. cbn zeta in *.
  set (b1 := b <| num_bytes_buffered_ := _ |> <| total_bytes_read_ := _ |>) in *.
  change (b <| total_bytes_read_ := _ |> <| num_bytes_buffered_ := _ |>) with b1. rewrite Z.eqb_sym. set (b2 := b1 <| blocks_ := bl |>) in *.
  assert (Estep : (if k =? avail then let* (b, _) := RetireBlockIfEmpty b1 (NextBlockToRead b) in Ok b else Ok b1) = Ok b2)
    by (destruct (k =? avail); [by rewrite Et|f_equal; exact (f_equal fst (Ok_inj _ _ Et))]).
  rewrite Estep. cbn [rbind]. rewrite (u64_small (n - k)) by lia.
  destruct (IH b2 (n - k) Hb2 ltac:(lia) ltac:(lia) ltac:(lia)) as (b' & -> & H1 & H2 & H3 & H4 & H5). exists b'. split; [done|]. split; [done|].
  split; [lia|]. split; [lia|done].
Qed.

Lemma MarkConsumed_spec b n : buf_ok b -> 0 <= n <= 2 ^ 60 ->
  exists b', MarkConsumed b n = Ok (b', n <=? ReadableBytes b) /\ reads b b' (if n <=? ReadableBytes b then n else 0).
Proof.
  intros Hb Hn. unfold MarkConsumed. destruct (Z.ltb_spec (ReadableBytes b) n) as [Hlt|Hge].
  - exists b. replace (n <=? ReadableBytes b) with false by lia. split; [done|]. split; [done|]. split; [lia|]. split; [lia|done].
  - destruct (consume_loop_spec (Z.to_nat n) b n Hb ltac:(lia) ltac:(lia) ltac:(lia)) as (b' & -> & H). exists b'.
    replace (n <=? ReadableBytes b) with true by lia. done.
Qed.

(** * Clearing *)

Lemma Clear_blocks b : sized b -> shaped b ->
  exists bl (b' := b <| blocks_ := bl |>), shaped b' /\
    Clear b = Ok (b' <| num_bytes_buffered_ := 0 |> <| bytes_received_ := Add (mkInterval 0 (total_bytes_read_ b)) [] |>).
Proof.
  intros Hz Hs. unfold Clear. destruct (blocks_ b) as [l|] eqn:El.
  2: { exists (blocks_ b). replace (b <| blocks_ := blocks_ b |>) with b by (by destruct b). done. }
  fold (block_slots b).
  destruct (rfold_total (fun b' => exists bl, b' = b <| blocks_ := Some bl |> /\ shaped b')
    (fun b i => let* p := get_block b i in match p with None => Ok b | Some _ => let* (b, _) := RetireBlock b i in Ok b end)
    (seqZ 0 (block_slots b)) b) as (b' & E & bl & -> & Hs').
  - intros i b' Hi (bl & -> & Hsh). apply elem_of_seqZ in Hi. destruct (sh_blocks _ Hsh) as [Hl _].
    change (Z.of_nat (length bl) = block_slots b) in Hl.
    destruct (lookup_lt_is_Some_2 bl (Z.to_nat i) ltac:(lia)) as [q Hq].
    assert (Hg : get_block (b <| blocks_ := Some bl |>) i = Ok q) by (unfold get_block; cbn; by rewrite Hq). rewrite Hg. cbn [rbind].
    destruct q as [blk|]; [|by eexists; split; [|exists bl]]. unfold RetireBlock. rewrite Hg. cbn [rbind].
    eexists. split; [done|]. exists (<[Z.to_nat i := None]> bl). split; [done|]. by apply (set_block_shaped (b <| blocks_ := Some bl |>) i None bl).
  - exists l. split; [destruct b; cbn in *; by subst|done].
  - rewrite E. cbn [rbind]. exists (Some bl). done.
Qed.

Lemma buf_ok_cleared b bl (b' := b <| blocks_ := bl |> <| num_bytes_buffered_ := 0 |> <| bytes_received_ := Add (mkInterval 0 (total_bytes_read_ b)) [] |>) :
  sized b -> shaped (b <| blocks_ := bl |>) -> 0 <= total_bytes_read_ b <= 2 ^ 61 -> buf_ok b'.
Proof.
  intros [] [] Ht. destruct (Add_empty (-1) (mkInterval 0 (total_bytes_read_ b)) ltac:(cbn; lia)) as [H1 H2]. cbn [imin imax] in H2.
  constructor; try done.
  - cbn. lia.
  - intros p Hp. cbn in *. apply H2. lia.
  - intros p Hp. apply H2 in Hp. cbn. lia.
  - intros p Hp Hm. apply H2 in Hm. cbn in Hp. lia.
  - cbn [num_bytes_buffered_ bytes_received_ total_bytes_read_ set_field b'].
    unfold Add, Interval_Empty. cbn. zcases; cbn; lia.
Qed.

(** All that was received counts as read. *)
Lemma FlushBufferedFrames_spec b : buf_ok b ->
  exists b', FlushBufferedFrames b = Ok (b', Z.max (NextExpectedByte b) (total_bytes_read_ b) - total_bytes_read_ b) /\ buf_ok b' /\
    total_bytes_read_ b' = NextExpectedByte b /\ ReadableBytes b' = 0 /\ max_buffer_capacity_bytes_ b' = max_buffer_capacity_bytes_ b.
Proof.
  intros Hb. unfold FlushBufferedFrames. pose proof (bk_sized _ Hb) as Hz. pose proof (bk_shaped _ Hb) as Hs. pose proof (bk_read _ Hb).
  assert (Hn : total_bytes_read_ b <= NextExpectedByte b <= 2 ^ 61).
  { unfold NextExpectedByte. destruct (last (bytes_received_ b)) as [i|] eqn:El.
    - pose proof (mem_last _ _ _ (bk_recv _ Hb) El) as Hm. apply (bk_range _ Hb) in Hm. split; [|lia].
      destruct (Z.le_gt_cases (total_bytes_read_ b) (imax i)); [done|]. pose proof (bk_prefix _ Hb (imax i)) as Hp.
      pose proof (fun p => ok_mem _ _ p (bk_recv _ Hb)) as Hbd. rewrite bound_last, El in Hbd. pose proof (mem_last _ _ _ (bk_recv _ Hb) El) as Hm'.
      specialize (Hbd (imax i) (Hp ltac:(apply Hbd in Hm'; lia))). lia.
    - apply last_None in El. destruct (Z.eq_dec (total_bytes_read_ b) 0); [lia|]. pose proof (bk_prefix _ Hb 0 ltac:(lia)) as Hp. by rewrite El in Hp. }
  destruct (Clear_blocks (b <| total_bytes_read_ := NextExpectedByte b |>)) as (bl & Hs' & ->); [by destruct Hz|by destruct Hs|]. cbn [rbind].
  set (b' := b <| total_bytes_read_ := NextExpectedByte b |> <| blocks_ := bl |> <| num_bytes_buffered_ := 0 |>
      <| bytes_received_ := Add (mkInterval 0 (NextExpectedByte b)) [] |>).
  assert (Hb' : buf_ok b').
  { refine (buf_ok_cleared (b <| total_bytes_read_ := NextExpectedByte b |>) bl _ _ _); [by destruct Hz|done|cbn; lia]. }
  exists b'. split; [do 2 f_equal; cbn; rewrite u64_small by lia; lia|split; [exact Hb'|split; [done|split; [|done]]]].
  destruct (readable _ Hb') as [-> _]. destruct (Add_empty (-1) (mkInterval 0 (NextExpectedByte b)) ltac:(cbn; lia)) as [_ Hm].
  destruct (first_missing _ Hb') as (F1 & _ & F3 & _). cbn [imin imax] in Hm. change (total_bytes_read_ b') with (NextExpectedByte b) in *.
  destruct (Z.eq_dec (FirstMissingByte b') (NextExpectedByte b)) as [->|Hne]; [lia|].
  specialize (F3 (NextExpectedByte b) ltac:(lia)). apply Hm in F3. lia.
Qed.

Lemma Buffer_init_spec cap on_demand : 0 < cap <= 2 ^ 40 -> (on_demand = true -> 7 * kBlockSizeBytes < cap) ->
  exists b, Buffer_init cap on_demand = Ok b /\ buf_ok b /\ total_bytes_read_ b = 0 /\ max_buffer_capacity_bytes_ b = cap /\ bytes_received_ b = [].
Proof.
  intros Hc Ho. unfold Buffer_init. assert (Hcnt : CalculateBlockCount cap = (cap + 8191) / 8192).
  { unfold CalculateBlockCount, kBlockSizeBytes. rewrite (u64_small (_ + _)), u64_small by lia. f_equal. lia. }
  assert (Hi : on_demand = true -> kInitialBlockCount <= CalculateBlockCount cap).
  { intros E. specialize (Ho E). rewrite Hcnt. unfold kInitialBlockCount, kBlockSizeBytes in *. euclid. }
  replace (if on_demand then _ else _) with true by (destruct on_demand; [symmetry; apply Z.leb_le; auto|done]). cbn [CHECK rbind].
  eexists. split; [done|]. split; [|done].
  apply (buf_ok_cleared (mkBuffer cap (CalculateBlockCount cap) 0 0 on_demand None 0 []) None); [by constructor| |cbn; lia].
  constructor; [cbn; rewrite Hcnt; euclid|done].
Qed.

(** * Regions *)

(** The bytes of some regions, one after the other. *)
Fixpoint regions_bytes (b : Buffer) (rs : list Region) : result (list Z) :=
  match rs with
  | [] => Ok []
  | r :: rs => let* x := region_bytes b r in let* y := regions_bytes b rs in Ok (x ++ y)
  end.

Lemma regions_bytes_app b rs rs' x y : regions_bytes b rs = Ok x -> regions_bytes b rs' = Ok y -> regions_bytes b (rs ++ rs') = Ok (x ++ y).
Proof.
  revert x. induction rs as [|r rs IH]; intros x; cbn; [by intros [= <-] ->|]. intros H Hy. inv_ok.
  rewrite H0. cbn. rewrite (IH _ H1 Hy). cbn. by rewrite app_assoc.
Qed.

Lemma region_at b p k : buf_ok b -> total_bytes_read_ b <= p -> 1 <= k -> p + k <= FirstMissingByte b ->
  GetInBlockOffset b p + k <= GetBlockCapacity b (GetBlockIndex b p) ->
  region_bytes b (mkRegion (GetBlockIndex b p) (GetInBlockOffset b p) k) = Ok (bytes_at p k).
Proof. intros Hb Hp Hk Hf Hc. destruct (piece_at b p k Hb Hp Hk Hf Hc) as (blk & E1 & E2). unfold region_bytes. cbn. by rewrite E1. Qed.

Lemma point_into_at b p e : buf_ok b -> total_bytes_read_ b <= p < FirstMissingByte b -> point_into b (GetBlockIndex b p) e = Ok tt.
Proof.
  intros Hb Hp. pose proof (bk_sized _ Hb) as Hz. destruct (position b Hz p) as (_ & _ & P1 & P2).
  destruct (block_capacity b Hz _ P1) as [_ Pc]. destruct (piece_at b p 1 Hb ltac:(lia) ltac:(lia) ltac:(lia) ltac:(lia)) as (blk & E & _).
  unfold point_into. by rewrite E.
Qed.

(** The whole blocks from [p], where a block starts, up to the last one. *)
Lemma whole_blocks_spec b room : forall p (last_byte := FirstMissingByte b - 1), buf_ok b ->
  total_bytes_read_ b <= p <= last_byte -> GetInBlockOffset b p = 0 ->
  exists rs idx room' p', whole_blocks room b (GetBlockIndex b p) (GetBlockIndex b last_byte) = Ok (rs, idx, room') /\
    (length rs + room')%nat = room /\ p <= p' <= FirstMissingByte b /\ regions_bytes b rs = Ok (bytes_at p (p' - p)) /\
    (room' <> O -> idx = GetBlockIndex b p' /\ p' <= last_byte /\ GetInBlockOffset b p' = 0 /\ GetBlockIndex b p' = GetBlockIndex b last_byte /\
                   last_byte = p' + GetInBlockOffset b last_byte).
Proof.
  induction room as [|room IH]; intros p last_byte Hb Hp H0; cbn [whole_blocks].
  { exists [], (GetBlockIndex b p), O, p. rewrite Z.sub_diag. split; [done|]. split; [done|]. split; [lia|done]. }
  pose proof (bk_sized _ Hb) as Hz. destruct (first_missing b Hb) as (F1 & F2 & _).
  destruct (position b Hz p) as (_ & _ & P1 & P2). destruct (block_capacity b Hz _ P1) as [Ec Pc].
  destruct (position b Hz last_byte) as (_ & _ & L1 & L2).
  destruct (Z.eqb_spec (GetBlockIndex b p) (GetBlockIndex b last_byte)) as [E|E].
  - exists [], (GetBlockIndex b p), (S room), p. rewrite Z.sub_diag. split; [done|]. split; [done|]. split; [lia|]. split; [done|].
    intros _. split; [done|]. split; [lia|]. split; [done|]. split; [done|]. destruct (same_block b Hz p last_byte) as [[? ?]|[? ?]]; lia || done.
  - set (c := GetBlockCapacity b (GetBlockIndex b p)) in *. assert (Hlt : p + c <= last_byte).
    { destruct (Z.le_gt_cases (p + c) last_byte); [done|]. destruct E. symmetry.
      destruct (within_block b Hz p (last_byte - p)) as [E' _]; [lia|lia|]. replace (p + (last_byte - p)) with last_byte in E' by lia. done. }
    rewrite (point_into_at b p) by (done || lia). cbn [rbind]. rewrite <- (block_next b Hz p c) by (fold c; lia). destruct (block_end b Hz p c) as [H0' _]; [lia|fold c; lia|].
    destruct (IH (p + c) Hb ltac:(lia) H0') as (rs & idx & room' & p' & Ew & N & Hr & Eb & Hlast).
    fold last_byte in Ew. rewrite Ew. cbn [rbind]. eexists _, idx, room', p'. split; [done|]. split; [cbn; lia|]. split; [lia|]. split; [|done]. cbn [regions_bytes].
    rewrite <- H0 at 1. rewrite region_at by (done || fold c; lia). cbn [rbind]. rewrite Eb. cbn [rbind]. f_equal.
    replace (p' - p) with (c + (p' - (p + c))) by lia. apply bytes_at_app; lia.
Qed.

(** The regions hold the readable bytes in order, all of them when there is room
    for another region. *)
Lemma GetReadableRegions_spec b n : buf_ok b -> n <> O ->
  exists rs m, GetReadableRegions b n = Ok rs /\ (length rs <= n)%nat /\ 0 <= m <= ReadableBytes b /\
    regions_bytes b rs = Ok (bytes_at (total_bytes_read_ b) m) /\ (m = ReadableBytes b \/ length rs = n).
Proof.
  intros Hb Hn. unfold GetReadableRegions. replace (negb (Nat.eqb n 0)) with true by (symmetry; apply negb_true_iff, Nat.eqb_neq; done). cbn [CHECK rbind].
  destruct (readable b Hb) as [Er Hr]. destruct (Z.eqb_spec (ReadableBytes b) 0) as [E0|Hpos].
  { exists [], 0. rewrite E0. split; [done|]. split; [cbn; lia|]. split; [lia|]. split; [done|by left]. }
  pose proof (bk_sized _ Hb) as Hz. destruct (first_missing b Hb) as (F1 & F2 & _). pose proof (bk_read _ Hb) as Ht. set (t := total_bytes_read_ b) in *.
  rewrite (u64_small (FirstMissingByte b - 1)), (u64_small (FirstMissingByte b - 1 + 1)) by lia. set (last_byte := FirstMissingByte b - 1).
  replace (t <=? last_byte + 1) with true by lia. cbn [CHECK rbind]. change (NextBlockToRead b) with (GetBlockIndex b t). change (ReadOffset b) with (GetInBlockOffset b t).
  destruct (position b Hz t) as (_ & _ & P1 & P2). destruct (block_capacity b Hz _ P1) as [Ec Pc]. destruct (position b Hz last_byte) as (_ & _ & L1 & L2).
  rewrite (point_into_at b t) by (done || fold t; lia). cbn [rbind]. destruct (_ && _) eqn:Eone.
  { apply andb_prop in Eone as [E1 E2]. apply Z.eqb_eq in E1. rewrite <- E1 in L2. destruct (same_block b Hz t last_byte E1) as [[? ?]|[? ?]]; [lia| |lia].
    eexists _, (ReadableBytes b). split; [done|]. split; [cbn; lia|]. split; [lia|]. split; [|by left]. cbn [regions_bytes].
    rewrite region_at by (done || fold t; lia). cbn [rbind]. by rewrite app_nil_r. }
  set (c := GetBlockCapacity b (GetBlockIndex b t) - GetInBlockOffset b t). rewrite (u64_small c) by lia. cbn [region_len].
  rewrite (u64_small (t + c)) by lia.
  assert (Hlt : t + c <= last_byte).
  { destruct (Z.le_gt_cases (t + c) last_byte); [done|]. destruct (within_block b Hz t (last_byte - t)) as [E1 E2]; [lia|lia|].
    replace (t + (last_byte - t)) with last_byte in * by lia. apply andb_false_iff in Eone as [Eone|Eone]; lia. }
  replace (t + c <? last_byte + 1) with true by lia. cbn [CHECK rbind].
  rewrite <- (block_next b Hz t c) by lia. destruct (block_end b Hz t c) as [H0 _]; [lia|lia|].
  destruct (whole_blocks_spec b (n - 1) (t + c) Hb ltac:(fold t; lia) H0) as (rs & idx & room' & p' & Ew & N & Hp & Eb & Hlast).
  fold last_byte in Ew. rewrite Ew. cbn [rbind].
  assert (Ef : region_bytes b (mkRegion (GetBlockIndex b t) (GetInBlockOffset b t) c) = Ok (bytes_at t c)) by (apply region_at; done || fold t; lia).
  destruct room' as [|room'].
  - eexists _, (p' - t). split; [done|]. split; [cbn; lia|]. split; [lia|]. split; [|right; cbn; lia]. cbn [regions_bytes].
    rewrite Ef, Eb. cbn [rbind]. f_equal. replace (p' - t) with (c + (p' - (t + c))) by lia. apply bytes_at_app; lia.
  - destruct (Hlast ltac:(lia)) as (-> & Hl1 & Hl2 & Hl3 & Hl4). fold last_byte in Hl1, Hl3, Hl4. rewrite (u64_small (_ + 1)) by lia.
    rewrite (point_into_at b p') by (done || (fold t; lia)). cbn [rbind].
    eexists _, (ReadableBytes b). split; [done|]. split; [cbn; rewrite length_app; cbn; lia|]. split; [lia|]. split; [|by left]. cbn [regions_bytes].
    rewrite Ef. cbn [rbind]. rewrite (regions_bytes_app b rs _ _ (bytes_at p' (FirstMissingByte b - p')) Eb).
    + cbn [rbind]. f_equal. replace p' with (t + c + (p' - (t + c))) at 2 by lia. rewrite !bytes_at_app by lia. f_equal. lia.
    + cbn [regions_bytes]. rewrite <- Hl3, <- Hl2 at 1. replace (GetInBlockOffset b last_byte + 1) with (FirstMissingByte b - p') by lia.
      rewrite region_at by (done || (fold t; rewrite ?Hl3; lia)). cbn [rbind]. by rewrite app_nil_r.
Qed.

(** * Runs *)

(** A frame of the stream arrives; the application reads into destinations of
    given sizes, or looks at regions of memory and marks them consumed. *)
Inductive BufOp :=
  | Arrive (o n : Z)
  | ReadInto (dest : list Z)
  | ReadRegions (iov_len : nat).

Definition op_valid (op : BufOp) : Prop :=
  match op with
  | Arrive o n => 0 <= o /\ 0 <= n /\ o + n <= 2 ^ 61
  | ReadInto dest => Forall (fun n => 0 <= n <= 2 ^ 60) dest
  | ReadRegions iov_len => iov_len <> O
  end.

Definition buf_step (b : Buffer) (out : list Z) (op : BufOp) : result (Buffer * list Z * option BufferError) :=
  match op with
  | Arrive o n => let* (b, _, err) := OnStreamData b o (bytes_at o n) in Ok (b, out, err)
  | ReadInto dest => Readv b dest out
  | ReadRegions iov_len =>
      let* rs := GetReadableRegions b iov_len in
      let* bytes := regions_bytes b rs in
      let* (b, _) := MarkConsumed b (Z.of_nat (length bytes)) in
      Ok (b, out ++ bytes, None)
  end.

(** An error closes the connection. *)
Fixpoint buf_run (ops : list BufOp) (b : Buffer) (out : list Z) : result (Buffer * list Z * option BufferError) :=
  match ops with
  | [] => Ok (b, out, None)
  | op :: ops =>
      let* (b, out, err) := buf_step b out op in
      match err with
      | None => buf_run ops b out
      | Some _ => Ok (b, out, err)
      end
  end.

(** An offset that some frame of the run has brought. *)
Definition arrived (ops : list BufOp) (p : Z) : Prop := exists o n, Arrive o n ∈ ops /\ o <= p < o + n.

Lemma arrived_cons op ops p : arrived (op :: ops) p <-> (exists o n, op = Arrive o n /\ o <= p < o + n) \/ arrived ops p.
Proof. unfold arrived. split; [intros (o & n & H1 & H2)|intros [(o & n & -> & H2)|(o & n & H1 & H2)]]; set_solver. Qed.

(** What is known between two operations. *)
Record delivered (b : Buffer) (out : list Z) : Prop := {
  dl_ok : buf_ok b;
  dl_out : out = bytes_at 0 (total_bytes_read_ b);
}.

(** A frame that the buffer has no reason to refuse. *)
Definition welcome (b : Buffer) (op : BufOp) : Prop :=
  match op with
  | Arrive o n => 0 < n /\ o + n <= total_bytes_read_ b + max_buffer_capacity_bytes_ b /\
                  Z.of_nat (length (bytes_received_ b)) + 1 < kMaxNumDataIntervalsAllowed
  | _ => True
  end.

Lemma buf_step_ok b out op : delivered b out -> op_valid op ->
  exists b' out' err, buf_step b out op = Ok (b', out', err) /\ err <> Some QUIC_STREAM_SEQUENCER_INVALID_STATE /\ (welcome b op -> err = None) /\
    ((err = None /\ delivered b' out' /\ max_buffer_capacity_bytes_ b' = max_buffer_capacity_bytes_ b /\
      (length (bytes_received_ b') <= S (length (bytes_received_ b)))%nat /\
      forall p, mem (bytes_received_ b') p <-> (exists o n, op = Arrive o n /\ o <= p < o + n) \/ mem (bytes_received_ b) p) \/
     (err <> None /\ out' = out)).
Proof.
  intros [Hb Ho] Hv.
  assert (Hread : forall b' m, 0 <= m -> reads b b' m -> (forall o n, op <> Arrive o n) ->
    delivered b' (out ++ bytes_at (total_bytes_read_ b) m) /\ max_buffer_capacity_bytes_ b' = max_buffer_capacity_bytes_ b /\
    (length (bytes_received_ b') <= S (length (bytes_received_ b)))%nat /\
    forall p, mem (bytes_received_ b') p <-> (exists o n, op = Arrive o n /\ o <= p < o + n) \/ mem (bytes_received_ b) p).
  { intros b' m Hm (R1 & R2 & R3 & R4 & R5) Hop. split; [constructor; [done|]|].
    - rewrite Ho, R2. replace (total_bytes_read_ b) with (0 + total_bytes_read_ b) at 2 by lia. apply bytes_at_app; [apply Hb|done].
    - split; [done|]. rewrite R4. split; [lia|]. intros p. split; [by right|]. intros [(o & n & -> & _)|?]; [by destruct (Hop o n)|done]. }
  destruct op as [o n|dest|iov]; cbn [buf_step op_valid welcome] in *.
  - destruct Hv as (H1 & H2 & H3). destruct (read_small b Hb) as [H4 H5]. pose proof (sz_cap _ (bk_sized _ Hb)) as Hc. pose proof (bytes_at_length o n) as Hl.
    rewrite Z.max_r in Hl by lia. destruct (decide (0 < n /\ o + n <= total_bytes_read_ b + max_buffer_capacity_bytes_ b)) as [Hfit|Hfit].
    + destruct (OnStreamData_ok b o n Hb) as (b' & k & err & -> & Hor); [lia..|]. cbn [rbind]. exists b', out, err. split; [done|].
      pose proof (Add_spec (-1) (mkInterval o (o + n)) _ (bk_recv _ Hb) ltac:(cbn; lia)) as [_ Hm].
      pose proof (Add_length (-1) (mkInterval o (o + n)) _ (bk_recv _ Hb) ltac:(cbn; lia)) as Hlen.
      destruct Hor as [[-> (Hb' & Er & Et & Ec & _)]|[-> Htoo]]; [|split; [done|]; split; [intros; unfold kMaxNumDataIntervalsAllowed in *; lia|]; by right].
      split; [done|]. split; [done|]. left. split; [done|]. split; [constructor; [done|by rewrite Et]|]. rewrite Er. split; [done|]. split; [done|].
      intros p. rewrite Hm. cbn. split; (intros [Hp|Hp]; [left|by right]); [by eexists _, _|]. destruct Hp as (o' & n' & [= <- <-] & ?). done.
    + unfold OnStreamData. rewrite Hl. destruct (Z.eqb_spec n 0); cbn [rbind].
      { eexists _, _, _. split; [done|]. split; [done|]. split; [lia|]. by right. }
      rewrite (u64_small (total_bytes_read_ b + _)), (u64_small (o + n)) by lia. replace (_ || _) with true by lia. cbn [rbind].
      eexists _, _, _. split; [done|]. split; [done|]. split; [lia|]. by right.
  - destruct (Readv_spec dest b out Hb Hv) as (b' & E & R). eexists _, _, _. split; [exact E|]. split; [done|]. split; [done|]. left. split; [done|].
    apply Hread; [|done|done]. destruct (readable b Hb). assert (0 <= foldr Z.add 0 dest) by (clear -Hv; induction Hv; cbn; lia). lia.
  - destruct (GetReadableRegions_spec b iov Hb Hv) as (rs & m & -> & _ & Hm & Eb & _). cbn [rbind]. rewrite Eb. cbn [rbind].
    rewrite bytes_at_length, Z.max_r by lia. pose proof (sz_cap _ (bk_sized _ Hb)) as Hc. destruct (readable b Hb) as [Er _]. destruct (first_missing b Hb) as (_ & F2 & _).
    destruct (MarkConsumed_spec b m Hb ltac:(lia)) as (b' & -> & R). replace (m <=? ReadableBytes b) with true in R by lia. cbn [rbind].
    eexists _, _, _. split; [done|]. split; [done|]. split; [done|]. left. split; [done|]. apply Hread; [lia|done|done].
Qed.

(** The operations of a run that is never refused: no frame is empty or beyond
    the buffer's capacity, and there are fewer than the gaps allowed. *)
Definition modest (cap : Z) (ops : list BufOp) : Prop :=
  (forall o n, Arrive o n ∈ ops -> 0 < n /\ o + n <= cap) /\ Z.of_nat (length ops) < kMaxNumDataIntervalsAllowed.

Lemma buf_run_ok ops : forall b out, delivered b out -> Forall op_valid ops ->
  exists b' out' err, buf_run ops b out = Ok (b', out', err) /\ err <> Some QUIC_STREAM_SEQUENCER_INVALID_STATE /\
    (exists k, 0 <= k /\ out' = bytes_at 0 k) /\
    ((forall o n, Arrive o n ∈ ops -> 0 < n /\ o + n <= max_buffer_capacity_bytes_ b) ->
     Z.of_nat (length (bytes_received_ b) + length ops) < kMaxNumDataIntervalsAllowed -> err = None) /\
    (err = None -> delivered b' out' /\ forall p, mem (bytes_received_ b') p <-> arrived ops p \/ mem (bytes_received_ b) p).
Proof.
  induction ops as [|op ops IH]; intros b out Hd Hv; cbn [buf_run].
  { exists b, out, None. split; [done|]. split; [done|]. split; [exists (total_bytes_read_ b); split; [apply Hd|apply Hd]|]. split; [done|].
    intros _. split; [done|]. intros p. split; [by right|]. intros [(o & n & Hin & _)|?]; [by apply elem_of_nil in Hin|done]. }
  apply Forall_cons in Hv as [Hv1 Hv]. destruct (buf_step_ok b out op Hd Hv1) as (b1 & out1 & err & -> & Hne & Hw & Hor). cbn [rbind].
  assert (Hwel : (forall o n, Arrive o n ∈ op :: ops -> 0 < n /\ o + n <= max_buffer_capacity_bytes_ b) ->
    Z.of_nat (length (bytes_received_ b) + S (length ops)) < kMaxNumDataIntervalsAllowed -> welcome b op).
  { intros Hall Hlen. destruct op as [o n| |]; [|done..]. destruct (Hall o n ltac:(set_solver)) as [? ?]. pose proof (bk_read _ (dl_ok _ _ Hd)). cbn. split; [done|]. split; [lia|].
    unfold kMaxNumDataIntervalsAllowed in *. lia. }
  destruct Hor as [(-> & Hd1 & Ec & Hlen & Hm)|[He ->]].
  - destruct (IH b1 out1 Hd1 Hv) as (b' & out' & err & -> & He & Hk & Hok & Hfin). exists b', out', err. split; [done|]. split; [done|]. split; [done|]. split.
    + intros Hall Hl. apply Hok; [intros o n Hin; rewrite Ec; apply Hall; set_solver|]. cbn in Hl. lia.
    + intros E. destruct (Hfin E) as [Hd' Hm']. split; [done|]. intros p. rewrite Hm', Hm, arrived_cons. tauto.
  - exists b1, out, err. destruct err as [e|]; [|done]. split; [done|]. split; [done|]. split; [exists (total_bytes_read_ b); split; [apply Hd|apply Hd]|].
    split; [intros Hall Hl; apply Hw, Hwel; done|done].
Qed.

End Stream.

(** C7. The stream is delivered: from an empty buffer, whatever frames of the
    stream arrive, in any order, overlapping and repeated, and however they are
    read in between, by copying or from regions of memory, all that was handed
    out is a prefix of the stream, each byte once and in order.  The buffer never
    finds itself in an invalid state; while no frame was refused it has received
    exactly the bytes that arrived, and a read gets as many bytes as it has room
    for up to the first one missing.  Frames within the capacity, fewer than
    the gaps allowed, are not refused. *)
Theorem buffer_delivers stream cap on_demand ops :
  0 < cap <= 2 ^ 40 -> (on_demand = true -> 7 * kBlockSizeBytes < cap) -> Forall op_valid ops ->
  exists b0 b out err, Buffer_init cap on_demand = Ok b0 /\ buf_run stream ops b0 [] = Ok (b, out, err) /\
    err <> Some QUIC_STREAM_SEQUENCER_INVALID_STATE /\ out = bytes_at stream 0 (Z.of_nat (length out)) /\ (modest cap ops -> err = None) /\
    (err = None ->
      (forall p, mem (bytes_received_ b) p <-> arrived ops p) /\
      (forall p, 0 <= p < FirstMissingByte b -> arrived ops p) /\ ~ arrived ops (FirstMissingByte b) /\
      forall dest, Forall (fun n => 0 <= n <= 2 ^ 60) dest ->
        exists b', Readv b dest out = Ok (b', bytes_at stream 0 (Z.min (Z.of_nat (length out) + foldr Z.add 0 dest) (FirstMissingByte b)), None)).
Proof.
  intros Hc Ho Hv. destruct (Buffer_init_spec stream cap on_demand Hc Ho) as (b0 & E0 & Hb0 & Ht0 & Ec0 & Er0).
  destruct (buf_run_ok stream ops b0 [] ltac:(by constructor; [|rewrite Ht0]) Hv) as (b & out & err & E & Hne & (k & Hk & Eout) & Hmod & Hfin).
  exists b0, b, out, err. split; [done|]. split; [done|]. split; [done|].
  split; [rewrite Eout, bytes_at_length, Z.max_r by lia; done|].
  split; [intros [Hall Hlen]; apply Hmod; [by rewrite Ec0|by rewrite Er0]|]. intros Ee. destruct (Hfin Ee) as [[Hb Hout] Hm].
  assert (Hm' : forall p, mem (bytes_received_ b) p <-> arrived ops p) by (intros p; rewrite Hm, Er0; cbn; tauto).
  destruct (first_missing stream b Hb) as (F1 & F2 & F3 & F4). split; [done|]. split; [intros p Hp; by apply Hm', F3|]. split; [by rewrite <- Hm'|].
  intros dest Hd. destruct (Readv_spec stream dest b out Hb Hd) as (b' & Erd & _). exists b'. rewrite Erd. do 3 f_equal.
  destruct (readable stream b Hb) as [Er Hr]. assert (0 <= foldr Z.add 0 dest) by (clear -Hd; induction Hd; cbn; lia).
  pose proof (bk_read _ _ Hb). rewrite Hout at 1. replace (total_bytes_read_ b) with (0 + total_bytes_read_ b) at 2 by lia.
  rewrite bytes_at_app by lia. f_equal. rewrite Hout, bytes_at_length, Z.max_r by lia. lia.
Qed.

(** Frames out of order: they fit a buffer of 200 bytes and go round one of 100. *)
Definition sample_stream_bytes (p : Z) : Z := p mod 251.
Definition sample_ops : list BufOp :=
  [Arrive 50 40; Arrive 0 60; ReadInto [30; 45]; Arrive 85 85; ReadRegions 1; Arrive 150 10].

Lemma buffer_delivers_witness : exists b0 b out, Buffer_init 200 false = Ok b0 /\
  buf_run sample_stream_bytes sample_ops b0 [] = Ok (b, out, None) /\ out = bytes_at sample_stream_bytes 0 (Z.of_nat (length out)) /\
  mem (bytes_received_ b) 169 /\ ~ mem (bytes_received_ b) 170.
Proof.
  destruct (buffer_delivers sample_stream_bytes 200 false sample_ops) as (b0 & b & out & err & E0 & E & Hne & Hout & Hmod & Hfin); [lia|done| |].
  { repeat (apply Forall_cons_2; [cbn [op_valid]|]); try apply Forall_nil_2; lia || done. }
  assert (err = None) as ->.
  { apply Hmod. split; [|vm_compute; reflexivity]. intros o n Hin. unfold sample_ops in Hin. set_unfold in Hin. intuition (simplify_eq; lia). }
  destruct (Hfin eq_refl) as (F0 & _). exists b0, b, out. split; [exact E0|]. split; [exact E|]. split; [exact Hout|]. rewrite !F0. split.
  - exists 85, 85. split; [apply (list_elem_of_lookup_2 sample_ops 3%nat); reflexivity|lia].
  - intros (o & n & Hin & Hp). unfold sample_ops in Hin. set_unfold in Hin. intuition (simplify_eq; lia).
Defined.

(** Out of order, over the end of the ring and back, as computed: the last
    region ends where the ring does. *)
Example sample_run_reads : match Buffer_init 100 false with
  | Ok b0 => match buf_run sample_stream_bytes sample_ops b0 [] with
             | Ok (b, out, None) => bool_decide (out = bytes_at sample_stream_bytes 0 100) && (FirstMissingByte b =? 170)
             | _ => false
             end
  | Fault _ => false
  end = true.
Proof. vm_compute. reflexivity. Qed.

(** [PeekRegion] takes the readable part of a block to end at the first missing
    byte whenever that byte has the same block index: once the readable bytes
    reach round the ring into the block of the offset asked for, the length is
    the difference of two places in the wrong order, which wraps around. *)
Definition peek_run : result (option Region) :=
  let* b := Buffer_init 100 false in
  let* (b, _, _) := OnStreamData b 0 (bytes_at sample_stream_bytes 0 75) in
  let* (b, _, _) := Readv b [75] [] in
  let* (b, _, _) := OnStreamData b 75 (bytes_at sample_stream_bytes 75 95) in
  PeekRegion b 76.
Lemma peek_region_wraps : peek_run = Ok (Some (mkRegion 0 76 (two64 - 6))).
Proof. vm_compute. reflexivity. Qed.
