(* ===== verification/Float.v ===== *)
(** IEEE-754 arithmetic as the C++ code uses it: [float] is binary32, [double]
    is binary64, every operation rounds to nearest even.  The operations are
    the Standard Library's executable specification [SpecFloat]; this file adds
    the conversions between integers and floats, [std::llround], and the
    magnitude calculus that bounds the result of a chain of operations. *)

From Stdlib Require Import SpecFloat.
From S2P Require Import Prelude.

(** * Formats and operations *)

Definition f64_of_Z (z : Z) : spec_float := binary_normalize 53 1024 z 0 false.
Definition f32_of_Z (z : Z) : spec_float := binary_normalize 24 128 z 0 false.

(** A literal [m * 2^e] of type [double] or [float]. *)
Definition f64_lit (m e : Z) : spec_float := binary_normalize 53 1024 m e false.
Definition f32_lit (m e : Z) : spec_float := binary_normalize 24 128 m e false.

Definition f64_add := SFadd 53 1024.
Definition f64_sub := SFsub 53 1024.
Definition f64_mul := SFmul 53 1024.
Definition f64_div := SFdiv 53 1024.
Definition f64_sqrt := SFsqrt 53 1024.
Definition f32_add := SFadd 24 128.
Definition f32_sub := SFsub 24 128.
Definition f32_mul := SFmul 24 128.
Definition f32_div := SFdiv 24 128.

(** Widening [float] to [double] and narrowing back. *)
Definition float_convert (prec emax : Z) (x : spec_float) : spec_float :=
  match x with
  | S754_finite s m e => binary_round prec emax s m e
  | _ => x
  end.
Definition f64_of_f32 := float_convert 53 1024.
Definition f32_of_f64 := float_convert 24 128.

(** Truncation toward zero; [None] for an infinity or a NaN. *)
Definition float_trunc (x : spec_float) : option Z :=
  match x with
  | S754_zero _ => Some 0
  | S754_finite s m e =>
      let a := if 0 <=? e then Zpos m * 2 ^ e else Zpos m / 2 ^ (- e) in
      Some (if s then - a else a)
  | _ => None
  end.

(** [std::llround]: nearest integer, halfway cases away from zero. *)
Definition float_round (x : spec_float) : option Z :=
  match x with
  | S754_zero _ => Some 0
  | S754_finite s m e =>
      let a := if 0 <=? e then Zpos m * 2 ^ e
               else (2 * Zpos m + 2 ^ (- e)) / 2 ^ (- e + 1) in
      Some (if s then - a else a)
  | _ => None
  end.

(** A float-to-integer conversion is undefined when the truncated value does
    not fit the destination type. *)
Definition cast_range (lo hi : Z) (o : option Z) : result Z :=
  match o with
  | Some z => if (lo <=? z) && (z <? hi) then Ok z else Fault BadFloatCast
  | None => Fault BadFloatCast
  end.
Definition float_to_u64 (x : spec_float) : result Z := cast_range 0 two64 (float_trunc x).
Definition float_to_u32 (x : spec_float) : result Z := cast_range 0 two32 (float_trunc x).
Definition float_to_i64 (x : spec_float) : result Z := cast_range (- two63) two63 (float_trunc x).
Definition float_to_i32 (x : spec_float) : result Z := cast_range (- two31) two31 (float_trunc x).
Definition float_llround (x : spec_float) : result Z := cast_range (- two63) two63 (float_round x).

Lemma cast_range_Ok lo hi o z : cast_range lo hi o = Ok z -> lo <= z < hi.
Proof.
  destruct o as [w|]; cbn; [|done]. zcases; intros; simplify_eq; lia.
Qed.

Lemma float_to_u64_range x z : float_to_u64 x = Ok z -> 0 <= z < two64.
Proof. apply cast_range_Ok. Qed.

Example f64_ratio : float_to_i64 (f64_div (f64_of_Z 1460000000) (f64_mul (f64_lit 1 (-1)) (f64_of_Z 3))) = Ok 973333333.
Proof. vm_compute. reflexivity. Qed.

(** * Magnitudes

    [mag m e] is the exponent of the smallest power of two above [m * 2^e].
    Rounding keeps the magnitude or raises it by one, so the magnitude of the
    result of an expression follows from those of its operands. *)

Definition mag (m : positive) (e : Z) : Z := Zpos (digits2_pos m) + e.

(** [x] is positive, finite, of at most 53 significant bits, and of magnitude
    between [lo] and [hi]. *)
Definition mag_in (x : spec_float) (lo hi : Z) : Prop :=
  match x with
  | S754_finite false m e => lo <= mag m e <= hi /\ Zpos (digits2_pos m) <= 53
  | _ => False
  end.

Lemma digits2_pos_spec p :
  2 ^ (Zpos (digits2_pos p) - 1) <= Zpos p < 2 ^ Zpos (digits2_pos p).
Proof.
  induction p as [p IH|p IH|]; cbn [digits2_pos]; [| |cbn; lia].
  all: rewrite Pos2Z.inj_succ;
    replace (Z.succ (Zpos (digits2_pos p)) - 1)
      with (Z.succ (Zpos (digits2_pos p) - 1)) by lia;
    rewrite !Z.pow_succ_r by lia; lia.
Qed.

Lemma digits2_pos_le p k : 0 <= k -> Zpos p < 2 ^ k -> Zpos (digits2_pos p) <= k.
Proof.
  intros Hk Hp. destruct (Z.le_gt_cases (Zpos (digits2_pos p)) k) as [|Hgt]; [done|].
  pose proof (digits2_pos_spec p) as [Hlo _].
  assert (2 ^ k <= 2 ^ (Zpos (digits2_pos p) - 1)) by (apply Z.pow_le_mono_r; lia). lia.
Qed.

Lemma digits2_pos_ge p k : 2 ^ k <= Zpos p -> k + 1 <= Zpos (digits2_pos p).
Proof.
  intros Hp. destruct (Z.le_gt_cases (k + 1) (Zpos (digits2_pos p))) as [|Hgt]; [done|].
  pose proof (digits2_pos_spec p) as [_ Hhi].
  assert (2 ^ Zpos (digits2_pos p) <= 2 ^ k) by (apply Z.pow_le_mono_r; lia). lia.
Qed.

Lemma digits2_pos_mul p q :
  Zpos (digits2_pos p) + Zpos (digits2_pos q) - 1 <= Zpos (digits2_pos (p * q)) <= Zpos (digits2_pos p) + Zpos (digits2_pos q).
Proof.
  pose proof (digits2_pos_spec p). pose proof (digits2_pos_spec q).
  set (d1 := Zpos (digits2_pos p)) in *. set (d2 := Zpos (digits2_pos q)) in *.
  assert (0 < 2 ^ (d1 - 1)) by (apply Z.pow_pos_nonneg; lia). assert (0 < 2 ^ (d2 - 1)) by (apply Z.pow_pos_nonneg; lia). split.
  - replace (d1 + d2 - 1) with (d1 - 1 + (d2 - 1) + 1) by lia. apply digits2_pos_ge.
    rewrite Z.pow_add_r, Pos2Z.inj_mul by lia. nia.
  - apply digits2_pos_le; [lia|]. rewrite Z.pow_add_r, Pos2Z.inj_mul by lia. nia.
Qed.

(** ** Shifting right *)

Lemma shr_1_m r : 0 <= shr_m r -> shr_m (shr_1 r) = shr_m r / 2.
Proof.
  destruct r as [[|[p|p|]|p] ? ?]; cbn [shr_m shr_1]; intros; try lia; try done.
  - rewrite (Pos2Z.inj_xI p). apply (Z.div_unique _ _ _ 1); lia.
  - rewrite (Pos2Z.inj_xO p). apply (Z.div_unique _ _ _ 0); lia.
Qed.

Lemma iter_shr_1_m p r :
  0 <= shr_m r -> shr_m (SpecFloat.iter_pos shr_1 p r) = shr_m r / 2 ^ Zpos p.
Proof.
  revert r; induction p as [p IH|p IH|]; intros r Hr; cbn [SpecFloat.iter_pos].
  - assert (0 <= shr_m (shr_1 r)) by (rewrite shr_1_m by done; apply Z.div_pos; lia).
    rewrite IH by (rewrite IH by done; apply Z.div_pos; lia).
    rewrite IH by done. rewrite shr_1_m by done.
    rewrite !Z.div_div by lia. f_equal.
    replace (Zpos p~1) with (1 + Zpos p + Zpos p) by lia.
    rewrite !Z.pow_add_r by lia. lia.
  - rewrite IH by (rewrite IH by done; apply Z.div_pos; lia).
    rewrite IH by done. rewrite Z.div_div by lia. f_equal.
    replace (Zpos p~0) with (Zpos p + Zpos p) by lia.
    by rewrite Z.pow_add_r by lia.
  - rewrite shr_1_m by done. done.
Qed.

Lemma shr_mantissa r e n :
  0 <= shr_m r ->
  shr_m (fst (shr r e n)) = shr_m r / 2 ^ Z.max 0 n /\ snd (shr r e n) = e + Z.max 0 n.
Proof.
  intros Hr. destruct n as [|p|p]; cbn [shr fst snd].
  - rewrite Z.max_id. cbn. rewrite Z.div_1_r. lia.
  - rewrite iter_shr_1_m by done. rewrite Z.max_r by lia. done.
  - rewrite Z.max_l by lia. cbn. rewrite Z.div_1_r. lia.
Qed.

Lemma shr_record_of_loc_m m l : shr_m (shr_record_of_loc m l) = m.
Proof. by destruct l as [|[]]. Qed.

Lemma round_nearest_even_bounds m l : m <= round_nearest_even m l <= m + 1.
Proof. destruct l as [|[]]; cbn; try destruct (Z.even m); lia. Qed.

Lemma Zdigits2_pos m : 0 < m -> Zdigits2 m = Zpos (digits2_pos (Z.to_pos m)).
Proof. destruct m; cbn; lia. Qed.

Lemma Zdigits2_val m d : 0 < d -> 2 ^ (d - 1) <= m < 2 ^ d -> Zdigits2 m = d.
Proof.
  intros Hd Hm. assert (0 < 2 ^ (d - 1)) by (apply Z.pow_pos_nonneg; lia).
  rewrite Zdigits2_pos by lia. assert (Hp : Zpos (Z.to_pos m) = m) by lia.
  pose proof (digits2_pos_le (Z.to_pos m) d). pose proof (digits2_pos_ge (Z.to_pos m) (d - 1)).
  lia.
Qed.

Lemma scale_bounds k d j :
  0 < d -> 0 <= j -> 2 ^ (d - 1) <= k < 2 ^ d -> 2 ^ (d + j - 1) <= k * 2 ^ j < 2 ^ (d + j).
Proof.
  intros Hd Hj Hk. assert (0 < 2 ^ j) by (apply Z.pow_pos_nonneg; lia).
  replace (d + j - 1) with (d - 1 + j) by lia. rewrite !Z.pow_add_r by lia.
  split; [apply Z.mul_le_mono_nonneg_r | apply Z.mul_lt_mono_pos_r]; lia.
Qed.

(** Dividing by a power of two below the leading bit keeps the magnitude. *)
Lemma shift_bounds m d n :
  0 <= n < d -> 2 ^ (d - 1) <= m < 2 ^ d -> 2 ^ (d - n - 1) <= m / 2 ^ n < 2 ^ (d - n).
Proof.
  intros Hn [Hlo Hhi].
  assert (0 < 2 ^ n) by (apply Z.pow_pos_nonneg; lia).
  split.
  - apply Z.div_le_lower_bound; [done|].
    rewrite <- Z.pow_add_r by lia. by replace (n + (d - n - 1)) with (d - 1) by lia.
  - apply Z.div_lt_upper_bound; [done|].
    rewrite <- Z.pow_add_r by lia. by replace (n + (d - n)) with d by lia.
Qed.

(** ** Rounding *)

Section rounding.
Context (prec emax : Z) (Hprec : 1 < prec) (Hemax : prec < emax).

Let emin' := emin prec emax.

(** The shifted mantissa of a normal value has the leading bit where the
    value had it, at an exponent that is canonical for it. *)
Lemma shr_fexp_mag m e l d :
  2 ^ (d - 1) <= m < 2 ^ d -> 0 < d ->
  emin' < d + e ->
  let r := shr_fexp prec emax m e l in
  let e' := snd r in
  2 ^ (d + e - e' - 1) <= shr_m (fst r) < 2 ^ (d + e - e') /\
  e' = Z.max e (fexp prec emax (d + e)) /\ 0 < d + e - e'.
Proof.
  intros Hm Hd He. cbn zeta. unfold shr_fexp.
  assert (0 < 2 ^ (d - 1)) by (apply Z.pow_pos_nonneg; lia).
  rewrite (Zdigits2_val m d) by done.
  destruct (shr_mantissa (shr_record_of_loc m l) e (fexp prec emax (d + e) - e)) as [-> ->];
    rewrite shr_record_of_loc_m; [lia|].
  set (n := Z.max 0 (fexp prec emax (d + e) - e)).
  assert (Hn : 0 <= n < d) by (unfold n, fexp; unfold emin' in *; lia).
  replace (d + e - (e + n)) with (d - n) by lia.
  split; [by apply shift_bounds|]. unfold n. lia.
Qed.

Lemma binary_round_aux_mag s m e l d :
  2 ^ (d - 1) <= m < 2 ^ d -> 0 < d ->
  emin' < d + e -> d + e < emax -> e <= emax - prec ->
  exists m' e', binary_round_aux prec emax s m e l = S754_finite s m' e' /\
    d + e <= mag m' e' <= d + e + 1 /\ Zpos (digits2_pos m') <= prec.
Proof.
  intros Hm Hd He Hov Hee. unfold binary_round_aux.
  pose proof (shr_fexp_mag m e l d Hm Hd He) as H1.
  destruct (shr_fexp prec emax m e l) as [r1 e1]; cbn [fst snd] in H1.
  destruct H1 as (Hb1 & He1 & Hpos1).
  set (m1 := round_nearest_even (shr_m r1) (loc_of_shr_record r1)).
  pose proof (round_nearest_even_bounds (shr_m r1) (loc_of_shr_record r1)) as Hr.
  fold m1 in Hr.
  assert (Hp : 0 < 2 ^ (d + e - e1 - 1)) by (apply Z.pow_pos_nonneg; lia).
  set (d1 := Zpos (digits2_pos (Z.to_pos m1))).
  assert (Hm1 : Zpos (Z.to_pos m1) = m1) by lia.
  assert (Hd1 : d + e - e1 <= d1 <= d + e - e1 + 1).
  { split.
    - replace (d + e - e1) with (d + e - e1 - 1 + 1) by lia.
      apply digits2_pos_ge. lia.
    - apply digits2_pos_le; [lia|]. rewrite Z.pow_add_r by lia. lia. }
  assert (Hs1 : 2 ^ (d1 - 1) <= m1 < 2 ^ d1).
  { rewrite <- Hm1. apply digits2_pos_spec. }
  pose proof (shr_fexp_mag m1 e1 loc_Exact d1 Hs1 ltac:(lia) ltac:(lia)) as H2.
  destruct (shr_fexp prec emax m1 e1 loc_Exact) as [r2 e2]; cbn [fst snd] in H2.
  destruct H2 as (Hb2 & He2 & Hpos2).
  assert (0 < 2 ^ (d1 + e1 - e2 - 1)) by (apply Z.pow_pos_nonneg; lia).
  destruct (shr_m r2) as [|m2|m2] eqn:Em2; [lia| |lia].
  assert (He2le : e2 <= emax - prec) by (unfold fexp in *; unfold emin', emin in *; lia).
  rewrite (proj2 (Z.leb_le _ _)) by exact He2le.
  exists m2, e2. split; [done|]. unfold mag.
  assert (Zpos (digits2_pos m2) = d1 + e1 - e2).
  { apply Z.le_antisymm; [apply digits2_pos_le; lia|].
    replace (d1 + e1 - e2) with (d1 + e1 - e2 - 1 + 1) by lia.
    apply digits2_pos_ge; lia. }
  unfold fexp in He2. lia.
Qed.
End rounding.

(** ** Magnitudes of binary64 expressions *)

Lemma pos_iter_xO m d : Zpos (Pos.iter xO m d) = Zpos m * 2 ^ Zpos d.
Proof.
  induction d as [|d IH] using Pos.peano_ind.
  - cbn. lia.
  - rewrite Pos.iter_succ. rewrite Pos2Z.inj_xO, IH, Pos2Z.inj_succ, Z.pow_succ_r by lia. lia.
Qed.

(** Aligning left keeps the magnitude. *)
Lemma shl_align_mag m e e' d :
  2 ^ (d - 1) <= Zpos m < 2 ^ d -> 0 < d ->
  let r := shl_align m e e' in
  2 ^ (d + e - snd r - 1) <= Zpos (fst r) < 2 ^ (d + e - snd r) /\
  snd r = Z.min e e'.
Proof.
  intros Hm Hd. unfold shl_align. cbn zeta.
  destruct (e' - e) as [|p|p] eqn:E; cbn [fst snd].
  - replace (d + e - e) with d by lia. split; [done|lia].
  - replace (d + e - e) with d by lia. split; [done|lia].
  - rewrite pos_iter_xO. split; [|lia].
    replace (d + e - e' - 1) with (d - 1 + Zpos p) by lia.
    replace (d + e - e') with (d + Zpos p) by lia.
    rewrite !Z.pow_add_r by lia.
    assert (0 < 2 ^ Zpos p) by (apply Z.pow_pos_nonneg; lia). nia.
Qed.

(** The magnitude of a rounded value, of a converted integer, of a product and
    of a sum, for any format whose exponent range exceeds [B] comfortably. *)
Section format.
Context (prec emax B : Z) (Hprec : 1 < prec <= 53) (Hrange : B + prec < emax).

Lemma binary_round_mag s m e d :
  2 ^ (d - 1) <= Zpos m < 2 ^ d -> 0 < d -> - B < d + e <= B ->
  exists m' e', binary_round prec emax s m e = S754_finite s m' e' /\
    d + e <= mag m' e' <= d + e + 1 /\ Zpos (digits2_pos m') <= 53.
Proof.
  intros Hm Hd He. unfold binary_round.
  pose proof (shl_align_mag m e (fexp prec emax (Zpos (digits2_pos m) + e)) d Hm Hd) as H.
  destruct (shl_align m e _) as [m1 e1]; cbn [fst snd] in H. destruct H as [Hm1 He1].
  assert (Hdm : Zpos (digits2_pos m) = d).
  { pose proof (digits2_pos_le m d). pose proof (digits2_pos_ge m (d - 1)). lia. }
  rewrite Hdm in He1. unfold fexp, emin in He1.
  destruct (binary_round_aux_mag prec emax ltac:(lia) ltac:(lia)
              s (Zpos m1) e1 loc_Exact (d + e - e1)) as (m' & e' & -> & Hmag);
    unfold emin; try lia.
  exists m', e'. split; [done|lia].
Qed.

Lemma binary_normalize_mag z e lo hi :
  0 <= lo -> - B < lo + e -> hi + e <= B -> 2 ^ lo <= z < 2 ^ hi ->
  mag_in (binary_normalize prec emax z e false) (lo + e + 1) (hi + e + 1).
Proof.
  intros Hlo Hle Hhi Hz. assert (0 < 2 ^ lo) by (apply Z.pow_pos_nonneg; lia).
  destruct z as [|p|p]; try lia. unfold binary_normalize.
  pose proof (digits2_pos_spec p) as Hs.
  assert (0 < hi) by (destruct (Z.le_gt_cases hi 0); [|lia];
    assert (2 ^ hi <= 2 ^ 0) by (apply Z.pow_le_mono_r; lia); lia).
  pose proof (digits2_pos_le p hi ltac:(lia) ltac:(lia)).
  pose proof (digits2_pos_ge p lo ltac:(lia)).
  destruct (binary_round_mag false p e (Zpos (digits2_pos p))) as (m' & e' & -> & Hm);
    [done|lia|lia|]. cbn. lia.
Qed.

Lemma SFmul_mag x y a b c d :
  mag_in x a b -> mag_in y c d ->
  - B < a + c -> b + d < B ->
  mag_in (SFmul prec emax x y) (a + c - 1) (b + d + 1).
Proof.
  destruct x as [| | |[] mx ex], y as [| | |[] my ey]; cbn [mag_in]; try done.
  intros Hx Hy Hlo Hhi. unfold SFmul. cbn [xorb].
  pose proof (digits2_pos_spec mx). pose proof (digits2_pos_spec my).
  unfold mag in *.
  set (d1 := Zpos (digits2_pos mx)) in *. set (d2 := Zpos (digits2_pos my)) in *.
  pose proof (digits2_pos_mul mx my : d1 + d2 - 1 <= _ <= d1 + d2) as HD. set (D := Zpos (digits2_pos (mx * my))) in *.
  destruct (binary_round_aux_mag prec emax ltac:(lia) ltac:(lia)
    false (Zpos (mx * my)) (ex + ey) loc_Exact D) as (m' & e' & -> & Hm);
    [apply digits2_pos_spec | unfold emin; lia.. |].
  cbn. lia.
Qed.

Lemma SFadd_mag x y a b c d :
  mag_in x a b -> mag_in y c d ->
  - B < a - 1 -> - B < c - 1 -> b + 1 <= B -> d + 1 <= B ->
  mag_in (SFadd prec emax x y) (Z.min a c) (Z.max b d + 2).
Proof.
  destruct x as [| | |[] mx ex], y as [| | |[] my ey]; cbn [mag_in]; try done.
  intros Hx Hy Ha Hc Hb Hd. unfold SFadd. cbn [cond_Zopp].
  unfold mag in *. set (ez := Z.min ex ey).
  pose proof (shl_align_mag mx ex ez _ (digits2_pos_spec mx) ltac:(lia)) as [H1 E1].
  pose proof (shl_align_mag my ey ez _ (digits2_pos_spec my) ltac:(lia)) as [H2 E2].
  set (d1 := Zpos (digits2_pos mx)) in *. set (d2 := Zpos (digits2_pos my)) in *.
  replace (snd (shl_align mx ex ez)) with ez in H1 by lia.
  replace (snd (shl_align my ey ez)) with ez in H2 by lia.
  set (p := Zpos (fst (shl_align mx ex ez))) in *.
  set (q := Zpos (fst (shl_align my ey ez))) in *.
  set (D := Z.max (d1 + ex) (d2 + ey)).
  assert (HD : D = Z.max (d1 + ex) (d2 + ey)) by done. clearbody D.
  assert (Hez : ez = Z.min ex ey) by done. clearbody ez.
  assert (Hsum : 2 ^ (d1 + ex - ez - 1) <= p + q < 2 ^ (D - ez + 1)).
  { assert (2 ^ (d1 + ex - ez) <= 2 ^ (D - ez)) by (apply Z.pow_le_mono_r; lia).
    assert (2 ^ (d2 + ey - ez) <= 2 ^ (D - ez)) by (apply Z.pow_le_mono_r; lia).
    rewrite Z.pow_add_r by lia. lia. }
  pose proof (binary_normalize_mag (p + q) ez (d1 + ex - ez - 1) (D - ez + 1)
                ltac:(lia) ltac:(lia) ltac:(lia) Hsum) as Hm.
  destruct (binary_normalize _ _ _ _ _) as [| | |[] m' e']; try done.
  cbn [mag_in] in *. unfold mag in *. lia.
Qed.
End format.

Lemma f64_of_Z_mag z lo hi :
  0 <= lo -> hi < 900 -> 2 ^ lo <= z < 2 ^ hi -> mag_in (f64_of_Z z) (lo + 1) (hi + 1).
Proof.
  intros. pose proof (binary_normalize_mag 53 1024 900 ltac:(lia) ltac:(lia) z 0 lo hi) as H'.
  rewrite !Z.add_0_r in H'. apply H'; lia.
Qed.

Lemma f64_mul_mag x y a b c d :
  mag_in x a b -> mag_in y c d -> -900 < a + c -> b + d < 900 ->
  mag_in (f64_mul x y) (a + c - 1) (b + d + 1).
Proof. apply (SFmul_mag 53 1024 900); lia. Qed.

Lemma f64_add_mag x y a b c d :
  mag_in x a b -> mag_in y c d -> -899 < a -> -899 < c -> b < 899 -> d < 899 ->
  mag_in (f64_add x y) (Z.min a c) (Z.max b d + 2).
Proof. intros. apply (SFadd_mag 53 1024 900); lia || done. Qed.

Lemma f32_of_Z_mag z lo hi :
  0 <= lo -> hi < 100 -> 2 ^ lo <= z < 2 ^ hi -> mag_in (f32_of_Z z) (lo + 1) (hi + 1).
Proof.
  intros. pose proof (binary_normalize_mag 24 128 100 ltac:(lia) ltac:(lia) z 0 lo hi) as H'.
  rewrite !Z.add_0_r in H'. apply H'; lia.
Qed.

Lemma f32_mul_mag x y a b c d :
  mag_in x a b -> mag_in y c d -> -100 < a + c -> b + d < 100 ->
  mag_in (f32_mul x y) (a + c - 1) (b + d + 1).
Proof. apply (SFmul_mag 24 128 100); lia. Qed.

Lemma f32_add_mag x y a b c d :
  mag_in x a b -> mag_in y c d -> -99 < a -> -99 < c -> b < 99 -> d < 99 ->
  mag_in (f32_add x y) (Z.min a c) (Z.max b d + 2).
Proof. intros. apply (SFadd_mag 24 128 100); lia || done. Qed.

(** [x] is zero, or positive with its magnitude between [lo] and [hi]. *)
Definition mag0_in (x : spec_float) (lo hi : Z) : Prop :=
  x = S754_zero false \/ mag_in x lo hi.

Lemma f32_of_Z_mag0 z hi :
  0 < hi < 100 -> 0 <= z < 2 ^ hi -> mag0_in (f32_of_Z z) 1 (hi + 1).
Proof.
  intros Hhi Hz. destruct (Z.eq_dec z 0) as [->|]; [by left|].
  right. replace 1 with (0 + 1) by lia. apply f32_of_Z_mag; lia.
Qed.

Lemma f32_mul_mag0 x y a b c d :
  mag_in x a b -> mag0_in y c d -> -100 < a + c -> b + d < 100 ->
  mag0_in (f32_mul x y) (a + c - 1) (b + d + 1).
Proof.
  intros Hx [->|Hy] Hl Hh.
  - left. destruct x as [| | |[] ? ?]; done.
  - right. by apply f32_mul_mag.
Qed.

Lemma f32_add_mag0 x y a b c d :
  mag0_in x a b -> mag0_in y c d -> -99 < a -> -99 < c -> b < 99 -> d < 99 ->
  mag0_in (f32_add x y) (Z.min a c) (Z.max b d + 2).
Proof.
  intros [->|Hx] [->|Hy] ? ? ? ?; [by left|right..].
  - destruct y as [| | |[] ? ?]; cbn in *; try done. lia.
  - destruct x as [| | |[] ? ?]; cbn in *; try done. lia.
  - by apply f32_add_mag.
Qed.

Lemma quotient_lower n d q r dmax k :
  n = d * q + r -> 0 <= r < d -> d <= dmax -> 0 <= k -> k * dmax <= n -> k <= q.
Proof. intros. destruct (Z.le_gt_cases k q); [done|]. nia. Qed.

Lemma quotient_upper n d q r dmin k :
  n = d * q + r -> 0 <= r < d -> 0 < dmin <= d -> 0 <= k -> n < k * dmin -> q < k.
Proof. intros. destruct (Z.lt_ge_cases q k); [done|]. nia. Qed.

Lemma SFdiv_mag prec emax B x y a b c d :
  1 < prec <= 53 -> B + prec < emax ->
  mag_in x a b -> mag_in y c d ->
  - B < a - d -> b - c + 1 < B -> B + prec < - emin prec emax ->
  mag_in (SFdiv prec emax x y) (a - d) (b - c + 2).
Proof.
  intros Hprec HB.
  destruct x as [| | |[] m1 e1], y as [| | |[] m2 e2]; cbn [mag_in]; try done.
  intros Hx Hy Hlo Hhi Hmin. unfold SFdiv, SFdiv_core_binary. cbn [xorb].
  pose proof (digits2_pos_spec m1) as [Hm1l Hm1h].
  pose proof (digits2_pos_spec m2) as [Hm2l Hm2h].
  unfold mag in *. cbn [Zdigits2].
  set (d1 := Zpos (digits2_pos m1)) in *. set (d2 := Zpos (digits2_pos m2)) in *.
  set (e' := Z.min (fexp prec emax (d1 + e1 - (d2 + e2))) (e1 - e2)).
  set (s := e1 - e2 - e').
  assert (Hs : 0 <= s) by lia.
  assert (Hs1 : d2 - d1 + prec <= s) by (unfold s, e', fexp; lia).
  replace (match s with 0 => Zpos m1 | Zpos _ => Z.shiftl (Zpos m1) s | Zneg _ => 0 end)
    with (Zpos m1 * 2 ^ s)
    by (destruct s eqn:Es; [cbn; lia | rewrite Z.shiftl_mul_pow2 by lia; done | lia]).
  pose proof (Z_div_mod (Zpos m1 * 2 ^ s) (Zpos m2) ltac:(lia)) as Hdm.
  destruct (Z.div_eucl (Zpos m1 * 2 ^ s) (Zpos m2)) as [q r]. destruct Hdm as [Hq Hr].
  assert (Hql : 2 ^ (d1 + s - d2 - 1) <= q).
  { assert (2 ^ (d1 - 1) * 2 ^ s = 2 ^ (d1 + s - d2 - 1) * 2 ^ d2)
      by (rewrite <- !Z.pow_add_r by lia; f_equal; lia).
    assert (0 < 2 ^ s) by (apply Z.pow_pos_nonneg; lia).
    assert (0 < 2 ^ (d1 + s - d2 - 1)) by (apply Z.pow_pos_nonneg; lia).
    apply (quotient_lower (Zpos m1 * 2 ^ s) (Zpos m2) q r (2 ^ d2)); try lia.
    transitivity (2 ^ (d1 - 1) * 2 ^ s); [lia|]. apply Z.mul_le_mono_nonneg_r; lia. }
  assert (Hqh : q < 2 ^ (d1 + s - d2 + 1)).
  { assert (2 ^ d1 * 2 ^ s = 2 ^ (d1 + s - d2 + 1) * 2 ^ (d2 - 1))
      by (rewrite <- !Z.pow_add_r by lia; f_equal; lia).
    assert (0 < 2 ^ s) by (apply Z.pow_pos_nonneg; lia).
    assert (0 < 2 ^ (d2 - 1)) by (apply Z.pow_pos_nonneg; lia).
    apply (quotient_upper (Zpos m1 * 2 ^ s) (Zpos m2) q r (2 ^ (d2 - 1))); try lia.
    eapply Z.lt_le_trans; [apply Z.mul_lt_mono_pos_r; [lia|exact Hm1h]|lia]. }
  assert (0 < 2 ^ (d1 + s - d2 - 1)) by (apply Z.pow_pos_nonneg; lia).
  set (D := Zpos (digits2_pos (Z.to_pos q))).
  assert (HqZ : Zpos (Z.to_pos q) = q) by lia.
  assert (HD : d1 + s - d2 <= D <= d1 + s - d2 + 1).
  { split.
    - replace (d1 + s - d2) with (d1 + s - d2 - 1 + 1) by lia. apply digits2_pos_ge. lia.
    - apply digits2_pos_le; lia. }
  destruct (binary_round_aux_mag prec emax ltac:(lia) ltac:(lia)
    false q e' (new_location (Zpos m2) r) D) as (m' & e'' & -> & Hm);
    [rewrite <- HqZ; apply digits2_pos_spec | unfold s, e', fexp in *; lia.. |].
  cbn. unfold s in *. lia.
Qed.

Lemma f64_div_mag x y a b c d :
  mag_in x a b -> mag_in y c d ->
  -400 < a -> b < 400 -> -400 < c -> d < 400 ->
  mag_in (f64_div x y) (a - d) (b - c + 2).
Proof. intros. apply (SFdiv_mag 53 1024 900); unfold emin; lia || done. Qed.

Lemma f32_div_mag x y a b c d :
  mag_in x a b -> mag_in y c d -> -100 < a - d -> b - c < 99 ->
  mag_in (f32_div x y) (a - d) (b - c + 2).
Proof. intros. apply (SFdiv_mag 24 128 100); unfold emin; lia || done. Qed.

Lemma f32_div_mag0 x y a b c d :
  mag0_in x a b -> mag_in y c d -> -100 < a - d -> b - c < 99 ->
  mag0_in (f32_div x y) (a - d) (b - c + 2).
Proof.
  intros [->|Hx] Hy ? ?; [left; by destruct y as [| | |[] ? ?]|right; by apply f32_div_mag].
Qed.

Lemma float_trunc_mag x lo hi :
  mag_in x lo hi -> 0 <= hi -> exists z, float_trunc x = Some z /\ 0 <= z < 2 ^ hi.
Proof.
  destruct x as [| | |[] m e]; cbn [mag_in]; try done.
  intros [[_ Hhi] _] H0. cbn [float_trunc]. eexists; split; [done|].
  pose proof (digits2_pos_spec m) as [_ Hm]. unfold mag in *.
  set (d := Zpos (digits2_pos m)) in *.
  destruct (Z.leb_spec 0 e).
  - assert (0 < 2 ^ e) by (apply Z.pow_pos_nonneg; lia). split; [lia|].
    apply Z.lt_le_trans with (2 ^ d * 2 ^ e); [apply Z.mul_lt_mono_pos_r; lia|].
    rewrite <- Z.pow_add_r by lia. apply Z.pow_le_mono_r; lia.
  - assert (0 < 2 ^ (- e)) by (apply Z.pow_pos_nonneg; lia).
    split; [apply Z.div_pos; lia|]. apply Z.div_lt_upper_bound; [done|].
    apply Z.lt_le_trans with (2 ^ d); [done|]. rewrite <- Z.pow_add_r by lia.
    apply Z.pow_le_mono_r; lia.
Qed.

Lemma float_to_i64_mag x lo hi :
  mag_in x lo hi -> 0 <= hi <= 63 -> exists z, float_to_i64 x = Ok z /\ 0 <= z < 2 ^ hi.
Proof.
  intros Hx Hhi. destruct (float_trunc_mag x lo hi) as (z & Hz & Hr); [done|lia|].
  exists z. unfold float_to_i64. rewrite Hz. cbn.
  assert (2 ^ hi <= 2 ^ 63) by (apply Z.pow_le_mono_r; lia). zcases; [done|lia..].
Qed.

Lemma float_to_u64_mag x lo hi :
  mag_in x lo hi -> 0 <= hi <= 64 -> exists z, float_to_u64 x = Ok z /\ 0 <= z < 2 ^ hi.
Proof.
  intros Hx Hhi. destruct (float_trunc_mag x lo hi) as (z & Hz & Hr); [done|lia|].
  exists z. unfold float_to_u64. rewrite Hz. cbn.
  assert (2 ^ hi <= 2 ^ 64) by (apply Z.pow_le_mono_r; lia). zcases; [done|lia..].
Qed.

Lemma float_to_i64_mag0 x lo hi :
  mag0_in x lo hi -> 0 <= hi <= 63 -> exists z, float_to_i64 x = Ok z /\ 0 <= z < 2 ^ hi.
Proof.
  intros [->|Hx] Hhi.
  - exists 0. split; [done|]. split; [lia|]. apply Z.pow_pos_nonneg; lia.
  - by eapply float_to_i64_mag.
Qed.

#[export] Hint Resolve f64_of_Z_mag f64_mul_mag f64_div_mag : quic.

(** * Exact results

    A value with at most 53 significant bits is represented exactly, whatever
    the trailing zeros of the mantissa it is computed with. *)

Lemma shr_1_exact m :
  0 <= m -> shr_1 (Build_shr_record (2 * m) false false) = Build_shr_record m false false.
Proof. destruct m as [|p|p]; cbn; lia || done. Qed.

Lemma iter_shr_1_exact p m :
  0 <= m ->
  SpecFloat.iter_pos shr_1 p (Build_shr_record (m * 2 ^ Zpos p) false false)
    = Build_shr_record m false false.
Proof.
  revert m; induction p as [p IH|p IH|]; intros m Hm; cbn [SpecFloat.iter_pos].
  - replace (m * 2 ^ Zpos p~1) with (2 * (m * 2 ^ Zpos p * 2 ^ Zpos p)).
    + rewrite shr_1_exact by lia. rewrite !IH by lia. done.
    + replace (Zpos p~1) with (1 + Zpos p + Zpos p) by lia. rewrite !Z.pow_add_r by lia. lia.
  - replace (m * 2 ^ Zpos p~0) with (m * 2 ^ Zpos p * 2 ^ Zpos p).
    + rewrite !IH by lia. done.
    + replace (Zpos p~0) with (Zpos p + Zpos p) by lia. rewrite !Z.pow_add_r by lia. lia.
  - rewrite Z.mul_comm. by apply shr_1_exact.
Qed.

Lemma shr_exact m e n :
  0 <= m -> shr (Build_shr_record (m * 2 ^ Z.max 0 n) false false) e n
    = (Build_shr_record m false false, e + Z.max 0 n).
Proof.
  intros Hm. destruct n as [|p|p]; cbn [shr].
  - rewrite Z.max_id, Z.pow_0_r, Z.mul_1_r. f_equal. lia.
  - rewrite Z.max_r by lia. by rewrite iter_shr_1_exact.
  - rewrite Z.max_l by lia. rewrite Z.pow_0_r, Z.mul_1_r. f_equal. lia.
Qed.

(** [k * 2^j * 2^e] with [k] of at most 53 bits is rounded to itself: the
    result is [m'] at the canonical exponent of its magnitude. *)
Lemma binary_round_aux_exact64 k j e d :
  2 ^ (d - 1) <= k < 2 ^ d -> 0 < d <= 53 -> 0 <= j ->
  -1000 < e < 900 -> d + j + e < 1000 ->
  exists m' e', binary_round_aux 53 1024 false (k * 2 ^ j) e loc_Exact = S754_finite false m' e' /\
    e <= e' <= e + j /\ Zpos m' * 2 ^ (e' - e) = k * 2 ^ j /\
    e' = Z.max e (d + j + e - 53).
Proof.
  intros Hk Hd Hj He Hhi. unfold binary_round_aux, shr_fexp.
  assert (0 < 2 ^ (d - 1)) by (apply Z.pow_pos_nonneg; lia).
  assert (0 < 2 ^ j) by (apply Z.pow_pos_nonneg; lia).
  rewrite (Zdigits2_val (k * 2 ^ j) (d + j)) by (lia || by apply scale_bounds; lia).
  cbn [shr_record_of_loc].
  set (n := fexp 53 1024 (d + j + e) - e).
  assert (Hn : Z.max 0 n <= j) by (unfold n, fexp, emin; lia).
  set (m' := k * 2 ^ (j - Z.max 0 n)).
  assert (0 < 2 ^ (j - Z.max 0 n)) by (apply Z.pow_pos_nonneg; lia).
  assert (Hm' : 0 < m') by (apply Z.mul_pos_pos; lia).
  assert (Hprod : k * 2 ^ j = m' * 2 ^ Z.max 0 n).
  { unfold m'. rewrite <- Z.mul_assoc, <- Z.pow_add_r by lia. do 2 f_equal. lia. }
  rewrite Hprod, shr_exact by lia.
  cbn [loc_of_shr_record shr_m round_nearest_even shr_record_of_loc].
  rewrite (Zdigits2_val m' (d + (j - Z.max 0 n))) by (lia || by apply scale_bounds; lia).
  replace (d + (j - Z.max 0 n) + (e + Z.max 0 n)) with (d + j + e) by lia.
  set (n2 := fexp 53 1024 (d + j + e) - (e + Z.max 0 n)).
  assert (Hn2 : Z.max 0 n2 = 0) by (unfold n2, n; lia).
  pose proof (shr_exact m' (e + Z.max 0 n) n2 ltac:(lia)) as Hshr.
  rewrite Hn2, Z.pow_0_r, Z.mul_1_r in Hshr. rewrite Hshr. cbn [shr_m].
  destruct m' as [|p|p]; [lia| |lia].
  rewrite (proj2 (Z.leb_le _ _)) by (unfold n, fexp, emin; lia).
  exists p, (e + Z.max 0 n + 0). split; [done|]. split_and!; [lia|lia| |].
  - replace (e + Z.max 0 n + 0 - e) with (Z.max 0 n) by lia. done.
  - unfold n, fexp, emin. lia.
Qed.

(** The canonical form of an integer of at most 53 bits. *)
Lemma f64_of_Z_canon z (d := Zpos (digits2_pos (Z.to_pos z))) : 0 < z < 2 ^ 53 ->
  exists m, f64_of_Z z = S754_finite false m (d - 53) /\ Zpos m = z * 2 ^ (53 - d).
Proof.
  intros Hz. destruct z as [|p|p]; try lia. cbn [Z.to_pos] in d. unfold f64_of_Z, binary_normalize, binary_round.
  pose proof (digits2_pos_spec p) as Hs. pose proof (digits2_pos_le p 53 ltac:(lia) ltac:(lia)) as Hd. fold d in Hs, Hd. fold d. rewrite Z.add_0_r.
  assert (Hf : fexp 53 1024 d = d - 53) by (unfold fexp, emin; lia). rewrite Hf.
  assert (Hal : exists q, shl_align p 0 (d - 53) = (q, d - 53) /\ Zpos q = Zpos p * 2 ^ (53 - d)).
  { unfold shl_align. destruct (d - 53 - 0) as [|x|x] eqn:E.
    - exists p. split; [f_equal; lia|]. replace (53 - d) with 0 by lia. cbn; lia.
    - lia.
    - exists (Pos.iter xO p x). split; [done|]. rewrite pos_iter_xO. replace (53 - d) with (Zpos x) by lia. done. }
  destruct Hal as (q & -> & Hq). rewrite Hq.
  destruct (binary_round_aux_exact64 (Zpos p) (53 - d) (d - 53) d) as (m & e & -> & He & Hv & Ee); [exact Hs|lia|lia|lia|lia|].
  assert (e = d - 53) as -> by lia. exists m. split; [done|]. by rewrite Z.sub_diag, Z.mul_1_r in Hv.
Qed.
(** An integer of at most 53 bits converts exactly. *)
Lemma f64_of_Z_exact z :
  0 < z < 2 ^ 53 ->
  exists m e, f64_of_Z z = S754_finite false m e /\
    -53 <= e <= 0 /\ Zpos m = z * 2 ^ (- e).
Proof.
  intros Hz. destruct (f64_of_Z_canon z Hz) as (m & E & Em). set (d := Zpos (digits2_pos (Z.to_pos z))) in *.
  assert (Hd : d <= 53) by (apply digits2_pos_le; lia). exists m, (d - 53). split; [done|]. split; [lia|].
  by replace (- (d - 53)) with (53 - d) by lia.
Qed.

(** Multiplying by one or two. *)
Lemma f64_mul_pow k z : 0 <= k <= 1 -> 0 <= z < 2 ^ 52 -> f64_mul (f64_of_Z (2 ^ k)) (f64_of_Z z) = f64_of_Z (2 ^ k * z).
Proof.
  intros Hk Hz. destruct (Z.eq_dec z 0) as [->|Hn]; [assert (k = 0 \/ k = 1) as [-> | ->] by lia; done|]. destruct z as [|p|p]; try lia.
  destruct (f64_of_Z_canon (Zpos p) ltac:(lia)) as (m & E & Em). cbn [Z.to_pos] in E, Em. set (d := Zpos (digits2_pos p)) in *.
  assert (E' : exists m', f64_of_Z (2 ^ k * Zpos p) = S754_finite false m' (d + k - 53) /\ Zpos m' = Zpos m).
  { assert (k = 0 \/ k = 1) as [-> | ->] by lia; [exists m; by rewrite Z.add_0_r|]. destruct (f64_of_Z_canon (2 * Zpos p) ltac:(lia)) as (m' & E' & Em').
    change (Zpos (digits2_pos (Z.to_pos (2 * Zpos p)))) with (Zpos (Pos.succ (digits2_pos p))) in E', Em'. rewrite Pos2Z.inj_succ in E', Em'. fold d in E', Em'.
    exists m'. split; [exact E'|]. rewrite Em, Em'. replace (53 - d) with (Z.succ (53 - Z.succ d)) by lia.
    rewrite Z.pow_succ_r by (pose proof (digits2_pos_le p 52 ltac:(lia) ltac:(lia)); lia). ring. }
  destruct E' as (m' & -> & E'). assert (Ek : f64_of_Z (2 ^ k) = S754_finite false 4503599627370496 (k - 52)) by (assert (k = 0 \/ k = 1) as [-> | ->] by lia; done).
  rewrite E, Ek. unfold f64_mul, SFmul. cbn [xorb]. pose proof (digits2_pos_spec p) as Hd. fold d in Hd. assert (Hd52 : d <= 52) by (apply digits2_pos_le; lia).
  assert (Hp : Zpos (4503599627370496 * m) = Zpos p * 2 ^ (105 - d)).
  { rewrite Pos2Z.inj_mul, Em. change 4503599627370496 with (2 ^ 52). replace (105 - d) with (52 + (53 - d)) by lia. rewrite (Z.pow_add_r 2 52) by lia. ring. }
  rewrite Hp. destruct (binary_round_aux_exact64 (Zpos p) (105 - d) (k - 52 + (d - 53)) d) as (m2 & e2 & -> & He & Hv & Ee); [done|lia|lia|lia|lia|].
  assert (e2 = d + k - 53) as -> by lia. f_equal. apply Pos2Z.inj. rewrite E', Em. replace (105 - d) with (53 - d + 52) in Hv by lia.
  replace (d + k - 53 - (k - 52 + (d - 53))) with 52 in Hv by lia. rewrite (Z.pow_add_r 2 (53 - d)), Z.mul_assoc in Hv by lia. by apply Z.mul_reg_r in Hv.
Qed.
(** The order of integers is that of their conversions. *)
Lemma f64_of_Z_leb a b : 0 <= a <= b -> b < 2 ^ 53 -> SFleb (f64_of_Z a) (f64_of_Z b) = true.
Proof.
  intros Ha Hb. destruct (Z.eq_dec a 0) as [->|Hn].
  { destruct (Z.eq_dec b 0) as [->|Hn]; [done|]. destruct (f64_of_Z_canon b ltac:(lia)) as (m & -> & _). done. }
  destruct (f64_of_Z_canon a ltac:(lia)) as (m & -> & Em). destruct (f64_of_Z_canon b ltac:(lia)) as (m' & -> & Em').
  pose proof (digits2_pos_spec (Z.to_pos a)) as Hd. pose proof (digits2_pos_spec (Z.to_pos b)) as Hd'. rewrite Z2Pos.id in Hd, Hd' by lia.
  set (d := Zpos (digits2_pos (Z.to_pos a))) in *. set (d' := Zpos (digits2_pos (Z.to_pos b))) in *.
  assert (Hdd : d <= d'). { destruct (Z.le_gt_cases d d') as [|Hlt]; [done|]. assert (2 ^ d' <= 2 ^ (d - 1)) by (apply Z.pow_le_mono_r; lia). lia. }
  unfold SFleb, SFcompare. destruct (Z.compare_spec (d - 53) (d' - 53)) as [He|He|He]; [|done|lia].
  assert (d = d') as <- by lia. assert (Hm : Zpos m <= Zpos m').
  { rewrite Em, Em'. apply Z.mul_le_mono_nonneg_r; [apply Z.pow_nonneg; lia|lia]. }
  change (match (m ?= m')%positive with Lt => true | Eq => true | Gt => false end = true). destruct (Pos.compare_spec m m') as [?|?|Hlt]; (done || lia).
Qed.

(** Scaling an integer by [c / 2^k] in [double] and rounding to nearest is the
    integer quotient rounded half up, as long as [c * z] has at most 50 bits. *)
Lemma f64_scale_round z c k mc ec :
  0 < z -> 0 < c -> z * c < 2 ^ 50 -> 1 <= k <= 10 ->
  -60 <= ec <= 0 -> f64_lit c (- k) = S754_finite false mc ec -> Zpos mc = c * 2 ^ (- k - ec) ->
  ec <= - k ->
  float_round (f64_mul (f64_of_Z z) (f64_lit c (- k))) = Some ((2 * (z * c) + 2 ^ k) / 2 ^ (k + 1)).
Proof.
  intros Hz Hc Hzc Hk Hec Hlit Hmc Heck.
  destruct (f64_of_Z_exact z) as (m & e & -> & He & Hm); [nia|].
  rewrite Hlit. unfold f64_mul, SFmul. cbn [xorb].
  set (a := z * c) in *. assert (Ha : 0 < a) by nia.
  set (j := - e - k - ec).
  assert (Ej : j = - e - k - ec) by done. clearbody j.
  assert (Hj : 0 <= j) by lia.
  assert (Hprod : Zpos (m * mc) = a * 2 ^ j).
  { rewrite Pos2Z.inj_mul, Hm, Hmc. rewrite Ej. unfold a.
    replace (- e - k - ec) with (- e + (- k - ec)) by lia. rewrite Z.pow_add_r by lia. ring. }
  rewrite Hprod.
  set (d := Zpos (digits2_pos (Z.to_pos a))).
  assert (HaZ : Zpos (Z.to_pos a) = a) by lia.
  assert (Hd : 2 ^ (d - 1) <= a < 2 ^ d) by (rewrite <- HaZ; apply digits2_pos_spec).
  assert (Hd50 : 0 < d <= 50) by (split; [lia|]; apply digits2_pos_le; lia).
  destruct (binary_round_aux_exact64 a j (e + ec) d Hd ltac:(lia) Hj ltac:(lia) ltac:(lia))
    as (m' & e' & -> & He' & Hv & Hce).
  cbn [float_round]. destruct (Z.leb_spec 0 e'); [lia|]. f_equal.
  set (t := - e' - k). assert (Et : t = - e' - k) by done. clearbody t.
  assert (Ht : 0 <= t) by lia.
  assert (Hm' : Zpos m' = a * 2 ^ t).
  { replace j with (t + (e' - (e + ec))) in Hv by lia.
    rewrite Z.pow_add_r, Z.mul_assoc in Hv by lia.
    apply Z.mul_reg_r in Hv; [done|]. apply Z.pow_nonzero; lia. }
  rewrite Hm'. replace (- e') with (k + t) by lia.
  replace (k + t + 1) with (k + 1 + t) by lia. rewrite !(Z.pow_add_r _ _ t) by lia.
  replace (2 * (a * 2 ^ t) + 2 ^ k * 2 ^ t) with ((2 * a + 2 ^ k) * 2 ^ t) by ring.
  apply Z.div_mul_cancel_r; apply Z.pow_nonzero; lia.
Qed.

(** * Monotonicity of rounding

    Rounding to nearest never takes a value above a representable bound, so a
    bound [c * 2^E] with a short [c] survives every operation.  Values are
    compared as integers after scaling by [2^bias]. *)

Abbreviation bias := 2000 (only parsing).

(** [x] is zero, or positive and at most [c * 2^E]. *)
Definition fle (x : spec_float) (c E : Z) : Prop :=
  match x with
  | S754_zero _ => True
  | S754_finite false m e => - bias <= e /\ Zpos m * 2 ^ (e + bias) <= c * 2 ^ (E + bias)
  | _ => False
  end.

Lemma shr_round_le m e n c E :
  0 <= m -> 0 <= e -> 0 <= n -> n = 0 \/ e + n <= E -> m * 2 ^ e <= c * 2 ^ E ->
  let r := fst (shr (Build_shr_record m false false) e n) in
  round_nearest_even (shr_m r) (loc_of_shr_record r) * 2 ^ (e + n) <= c * 2 ^ E.
Proof.
  intros Hm He Hn [->|HE] Hle; cbn zeta; [by rewrite Z.add_0_r|].
  set (B := c * 2 ^ (E - e - n)).
  assert (Hp : 0 < 2 ^ n) by (apply Z.pow_pos_nonneg; lia).
  assert (Hpe : 0 < 2 ^ e) by (apply Z.pow_pos_nonneg; lia).
  assert (HB : c * 2 ^ E = B * 2 ^ (e + n)).
  { unfold B. rewrite <- Z.mul_assoc, <- Z.pow_add_r by lia. do 2 f_equal. lia. }
  rewrite HB, Z.pow_add_r in Hle by lia.
  assert (HmB : m <= B * 2 ^ n).
  { apply (Z.mul_le_mono_pos_r _ _ (2 ^ e)); [done|]. lia. }
  rewrite HB. apply Z.mul_le_mono_nonneg_r; [apply Z.pow_nonneg; lia|].
  destruct (Z.eq_dec m (B * 2 ^ n)) as [->|Hne].
  - assert (HB0 : 0 <= B) by nia. pose proof (shr_exact B e n HB0) as Hx.
    rewrite Z.max_r in Hx by done. rewrite Hx. cbn. lia.
  - destruct (shr_mantissa (Build_shr_record m false false) e n Hm) as [Hs _].
    cbn [shr_m] in Hs. rewrite Z.max_r in Hs by done.
    pose proof (round_nearest_even_bounds (shr_m (fst (shr (Build_shr_record m false false) e n)))
      (loc_of_shr_record (fst (shr (Build_shr_record m false false) e n)))) as Hr.
    assert (m / 2 ^ n < B) by (apply Z.div_lt_upper_bound; lia). lia.
Qed.

Section monotone.
Context (prec emax B : Z) (Hprec : 1 < prec <= 53) (Hrange : B + prec < emax) (Hemax : emax <= 1024).

Lemma shr_nonneg_shift m e n : e <= snd (shr (Build_shr_record m false false) e n).
Proof. destruct n; cbn; lia. Qed.

Lemma binary_round_aux_fle m e c E d :
  2 ^ (d - 1) <= m < 2 ^ d -> 0 < d ->
  - bias <= e -> fexp prec emax (d + e) <= E ->
  m * 2 ^ (e + bias) <= c * 2 ^ (E + bias) ->
  match binary_round_aux prec emax false m e loc_Exact with
  | S754_finite false m' e' => fle (S754_finite false m' e') c E
  | S754_finite true _ _ => False
  | _ => True
  end.
Proof.
  intros Hm Hd He HE Hle. unfold binary_round_aux, shr_fexp. cbn [shr_record_of_loc].
  assert (0 < 2 ^ (d - 1)) by (apply Z.pow_pos_nonneg; lia).
  rewrite (Zdigits2_val m d) by done.
  set (n := fexp prec emax (d + e) - e).
  assert (Hn : shr (Build_shr_record m false false) e n
             = (fst (shr (Build_shr_record m false false) (e + bias) (Z.max 0 n)), e + Z.max 0 n)).
  { destruct n as [|p|p]; cbn; f_equal; lia. }
  pose proof (shr_round_le m (e + bias) (Z.max 0 n) c (E + bias)
    ltac:(lia) ltac:(lia) ltac:(lia) ltac:(unfold n; lia) Hle) as H1.
  cbn zeta in H1. rewrite Hn.
  set (r1 := fst (shr (Build_shr_record m false false) (e + bias) (Z.max 0 n))) in *.
  set (m1 := round_nearest_even (shr_m r1) (loc_of_shr_record r1)) in *.
  assert (Hm1 : 0 <= m1).
  { pose proof (round_nearest_even_bounds (shr_m r1) (loc_of_shr_record r1)).
    assert (0 <= shr_m r1); [|lia]. unfold r1.
    destruct (shr_mantissa (Build_shr_record m false false) (e + bias) (Z.max 0 n)) as [-> _];
      cbn [shr_m]; [lia|].
    apply Z.div_pos; [lia|]. apply Z.pow_pos_nonneg; lia. }
  set (n2 := fexp prec emax (Zdigits2 m1 + (e + Z.max 0 n)) - (e + Z.max 0 n)).
  destruct (shr_mantissa (Build_shr_record m1 false false) (e + Z.max 0 n) n2 Hm1) as [Hs1 Hs2].
  destruct (shr (Build_shr_record m1 false false) (e + Z.max 0 n) n2) as [r2 e2].
  cbn [fst snd shr_m] in Hs1, Hs2.
  destruct (shr_m r2) as [|m2|m2]; [done| |done].
  destruct (e2 <=? emax - prec); [|done]. cbn [fle]. split; [lia|]. rewrite Hs1.
  transitivity (m1 * 2 ^ (e + bias + Z.max 0 n)); [|done].
  replace (e2 + bias) with (Z.max 0 n2 + (e + bias + Z.max 0 n)) by lia.
  rewrite Z.pow_add_r, Z.mul_assoc by lia.
  apply Z.mul_le_mono_nonneg_r; [apply Z.pow_nonneg; lia|].
  pose proof (Z.mul_div_le m1 (2 ^ Z.max 0 n2)). assert (0 < 2 ^ Z.max 0 n2) by (apply Z.pow_pos_nonneg; lia).
  lia.
Qed.

(** A short [c] makes every exponent the operations use at most [E]. *)
Lemma fexp_short m e c E d :
  2 ^ (d - 1) <= m -> 0 < d -> - bias <= e -> - 60 <= E -> 0 < c < 2 ^ (prec - 1) ->  emin prec emax <= -60 ->
  m * 2 ^ (e + bias) <= c * 2 ^ (E + bias) -> fexp prec emax (d + e) <= E.
Proof.
  intros Hm Hd He HE Hc Hemin Hle. unfold fexp. apply Z.max_lub; [|lia].
  assert (d - 1 + e + bias < prec - 1 + E + bias); [|lia].
  apply (Z.pow_lt_mono_r_iff 2); [lia|lia|].
  replace (d - 1 + e + bias) with (d - 1 + (e + bias)) by lia.
  replace (prec - 1 + E + bias) with (prec - 1 + (E + bias)) by lia.
  rewrite (Z.pow_add_r 2 (d - 1)), (Z.pow_add_r 2 (prec - 1)) by lia.
  assert (0 < 2 ^ (e + bias)) by (apply Z.pow_pos_nonneg; lia).
  assert (0 < 2 ^ (E + bias)) by (apply Z.pow_pos_nonneg; lia).
  apply Z.le_lt_trans with (m * 2 ^ (e + bias)); [apply Z.mul_le_mono_nonneg_r; lia|].
  eapply Z.le_lt_trans; [exact Hle|]. apply Z.mul_lt_mono_pos_r; lia.
Qed.

Context (Hemin : emin prec emax <= -60).

Lemma binary_round_fle m e c E :
  - bias <= e - 60 -> -60 <= E -> 0 < c < 2 ^ (prec - 1) ->
  - bias <= emin prec emax ->
  Zpos m * 2 ^ (e + bias) <= c * 2 ^ (E + bias) ->
  match binary_round prec emax false m e with
  | S754_finite false m' e' => fle (S754_finite false m' e') c E
  | S754_finite true _ _ => False
  | _ => True
  end.
Proof.
  intros He HE Hc Hmin Hle. unfold binary_round.
  pose proof (digits2_pos_spec m) as Hd. set (d := Zpos (digits2_pos m)) in *.
  pose proof (shl_align_mag m e (fexp prec emax (d + e)) d Hd ltac:(lia)) as H.
  assert (Hv : forall e', - bias <= e' -> Zpos (fst (shl_align m e e')) * 2 ^ (snd (shl_align m e e') + bias)
                       = Zpos m * 2 ^ (e + bias)).
  { intros e' He'. unfold shl_align. destruct (e' - e) as [|p|p] eqn:Ep; cbn [fst snd]; [done|done|].
    rewrite pos_iter_xO, <- Z.mul_assoc, <- Z.pow_add_r by lia. do 2 f_equal. lia. }
  assert (Hf : - bias <= fexp prec emax (d + e)) by (unfold fexp; lia).
  specialize (Hv _ Hf).
  destruct (shl_align m e (fexp prec emax (d + e))) as [m1 e1]; cbn [fst snd] in H, Hv.
  destruct H as [Hm1 He1].
  apply (binary_round_aux_fle (Zpos m1) e1 c E (d + e - e1)); [done|unfold fexp in *; lia|lia| |lia].
  replace (d + e - e1 + e1) with (d + e) by lia.
  apply (fexp_short (Zpos m) e c E d); lia || done.
Qed.

Lemma binary_normalize_fle z e c E :
  0 <= z -> - bias <= e - 60 -> -60 <= E -> 0 < c < 2 ^ (prec - 1) -> - bias <= emin prec emax ->
  z * 2 ^ (e + bias) <= c * 2 ^ (E + bias) ->
  mag0_in (binary_normalize prec emax z e false) (-500) 500 ->
  fle (binary_normalize prec emax z e false) c E.
Proof.
  intros Hz He HE Hc Hmin Hle Hmag. destruct z as [|p|p]; [done| |lia].
  pose proof (binary_round_fle p e c E He HE Hc Hmin Hle) as H. cbn [binary_normalize] in *.
  destruct (binary_round _ _ _ _ _) as [| | |[] m' e']; try done;
    destruct Hmag as [Hm|Hm]; discriminate || done.
Qed.

Lemma SFmul_fle x y c E c' E' :
  fle x c E -> fle y c' E' -> 0 < c -> 0 < c' -> c * c' < 2 ^ (prec - 1) -> -60 <= E + E' ->
  - bias <= E -> - bias <= E' ->
  mag0_in x (-500) 500 -> mag0_in y (-500) 500 ->
  mag0_in (SFmul prec emax x y) (-500) 500 -> fle (SFmul prec emax x y) (c * c') (E + E').
Proof.
  destruct x as [| | |[] mx ex], y as [| | |[] my ey]; try done; cbn [fle].
  intros [Hex Hx] [Hey Hy] Hc Hc' Hcc HE HE1 HE2 [|[Mx Dx]] [|[My Dy]] Hmag; try done.
  unfold SFmul in *. cbn [xorb] in *.
  assert (HP : forall a, 0 < 2 ^ (a + bias) \/ a < - bias)
    by (intros a; destruct (Z.le_gt_cases (- bias) a); [left; apply Z.pow_pos_nonneg; lia|right; lia]).
  pose proof (HP ex). pose proof (HP ey). pose proof (HP E). pose proof (HP E').
  assert (Hle : Zpos (mx * my) * 2 ^ (ex + ey + bias) <= c * c' * 2 ^ (E + E' + bias)).
  { apply (Z.mul_le_mono_pos_r _ _ (2 ^ bias)); [done|].
    unfold mag in Mx, My.
    assert (HS : forall a b, - bias <= a -> - bias <= b -> 0 <= a + b + bias ->
      2 ^ (a + b + bias) * 2 ^ bias = 2 ^ (a + bias) * 2 ^ (b + bias)).
    { intros a b Ha Hb Hab. rewrite <- (Z.pow_add_r 2 (a + b + bias)) by lia.
      rewrite <- (Z.pow_add_r 2 (a + bias)) by lia. f_equal. lia. }
    rewrite <- !Z.mul_assoc, !HS, Pos2Z.inj_mul by lia.
    transitivity ((Zpos mx * 2 ^ (ex + bias)) * (Zpos my * 2 ^ (ey + bias))); [lia|].
    transitivity ((c * 2 ^ (E + bias)) * (c' * 2 ^ (E' + bias))); [|lia].
    apply Z.mul_le_mono_nonneg; lia. }
  pose proof (binary_round_aux_fle (Zpos (mx * my)) (ex + ey) (c * c') (E + E')
    (Zpos (digits2_pos (mx * my))) (digits2_pos_spec _) ltac:(lia)
    ltac:(unfold mag in *; lia)) as H'.
  pose proof (digits2_pos_spec (mx * my)).
  specialize (H' ltac:(apply (fexp_short (Zpos (mx * my)) (ex + ey) (c * c') (E + E'));
    unfold mag in *; lia || nia || done) Hle).
  destruct (binary_round_aux _ _ _ _ _ _) as [| | |[] m' e']; try done;
    destruct Hmag as [Hm|Hm]; discriminate || done.
Qed.

Lemma SFadd_fle x y c c' E :
  fle x c E -> fle y c' E -> 0 < c -> 0 < c' -> c + c' < 2 ^ (prec - 1) -> -60 <= E ->
  - bias <= emin prec emax ->
  mag0_in x (-500) 500 -> mag0_in y (-500) 500 ->
  mag0_in (SFadd prec emax x y) (-500) 500 -> fle (SFadd prec emax x y) (c + c') E.
Proof.
  intros Hx Hy Hc Hc' Hcc HE Hmin.
  assert (0 < 2 ^ (E + bias)) by (apply Z.pow_pos_nonneg; lia).
  destruct x as [| | |[] mx ex], y as [| | |[] my ey]; try done; cbn [fle] in Hx, Hy;
    intros Hmx Hmy Hmag.
  - cbn. destruct s, s0; done.
  - cbn. nia.
  - cbn. nia.
  - destruct Hmx as [|[Mx Dx]]; [done|]. destruct Hmy as [|[My Dy]]; [done|]. unfold mag in *.
    unfold SFadd in *. cbn [cond_Zopp] in *. set (ez := Z.min ex ey) in *.
    assert (Hez : ez <= ex /\ ez <= ey /\ - bias <= ez - 60) by lia.
    assert (Hv : forall m e, ez <= e -> Zpos (fst (shl_align m e ez)) * 2 ^ (ez + bias)
                       = Zpos m * 2 ^ (e + bias)).
    { intros m e He. unfold shl_align. destruct (ez - e) as [|p|p] eqn:Ep; cbn [fst snd].
      - by replace e with ez by lia.
      - lia.
      - rewrite pos_iter_xO, <- Z.mul_assoc, <- Z.pow_add_r by lia. do 2 f_equal. lia. }
    apply binary_normalize_fle; try done; try lia.
    rewrite Z.mul_add_distr_r, !Hv by lia. lia.
Qed.
End monotone.

Lemma fle_of_Z32 z c E :
  0 <= z -> z <= c * 2 ^ E -> 0 <= E -> 0 < c < 2 ^ 23 -> z < 2 ^ 90 -> fle (f32_of_Z z) c E.
Proof.
  intros Hz Hle HE Hc Hz2.
  apply binary_normalize_fle; try lia; try done.
  - rewrite Z.add_0_l, (Z.pow_add_r 2 E), Z.mul_assoc by lia.
    apply Z.mul_le_mono_nonneg_r; [done|lia].
  - destruct (f32_of_Z_mag0 z 90) as [H'|H']; [lia|lia|by left|right].
    unfold f32_of_Z in H'. destruct (binary_normalize _ _ _ _ _) as [| | |[] ? ?]; cbn in *; try done; lia.
Qed.

Lemma mag0_widen x a b a' b' : mag0_in x a b -> a' <= a -> b <= b' -> mag0_in x a' b'.
Proof.
  intros [->|H] ? ?; [by left|right]. destruct x as [| | |[] ? ?]; cbn in *; try done. lia.
Qed.

Lemma mag_in_wide x a b : mag_in x a b -> -500 <= a -> b <= 500 -> mag0_in x (-500) 500.
Proof. intros. right. destruct x as [| | |[] ? ?]; cbn in *; try done; lia. Qed.

Lemma fle_trunc x c E :
  fle x c E -> 0 <= E -> 0 < c -> exists z, float_trunc x = Some z /\ 0 <= z <= c * 2 ^ E.
Proof.
  intros Hx HE Hc. assert (0 < 2 ^ E) by (apply Z.pow_pos_nonneg; lia).
  destruct x as [| | |[] m e]; try done; cbn [fle float_trunc] in *.
  - exists 0. split; [done|]. nia.
  - destruct Hx as [He Hle]. eexists; split; [done|].
    rewrite (Z.pow_add_r 2 E) in Hle by lia.
    destruct (Z.leb_spec 0 e).
    + rewrite Z.pow_add_r, !Z.mul_assoc in Hle by lia.
      apply Z.mul_le_mono_pos_r in Hle; [|done].
      assert (0 < 2 ^ e) by (apply Z.pow_pos_nonneg; lia). lia.
    + assert (Hp : 0 < 2 ^ (- e)) by (apply Z.pow_pos_nonneg; lia).
      split; [apply Z.div_pos; lia|]. apply Z.div_le_upper_bound; [done|].
      assert (Hb : 2 ^ bias = 2 ^ (e + bias) * 2 ^ (- e))
        by (rewrite <- Z.pow_add_r by lia; f_equal; lia).
      assert (0 < 2 ^ (e + bias)) by (apply Z.pow_pos_nonneg; lia).
      apply (Z.mul_le_mono_pos_r _ _ (2 ^ (e + bias))); [done|]. rewrite Hb in Hle. lia.
Qed.

(** ** Lower bounds *)

(** [x] is positive and at least [c * 2^E]. *)
Definition fge (x : spec_float) (c E : Z) : Prop :=
  match x with
  | S754_finite false m e => - bias <= e /\ c * 2 ^ (E + bias) <= Zpos m * 2 ^ (e + bias)
  | _ => False
  end.

Section lower.
Context (prec emax : Z) (Hprec : 1 < prec <= 53) (Hemax : prec < emax).
Context (Hmin : - bias <= emin prec emax).

(** Dropping bits down to the format's precision never goes below a bound the
    format can represent. *)
Lemma shr_fexp_ge m e l c E d :
  2 ^ (d - 1) <= m < 2 ^ d -> 0 < d -> - bias <= e -> emin prec emax < d + e ->
  0 < c < 2 ^ prec -> emin prec emax <= E -> c * 2 ^ (E + bias) <= m * 2 ^ (e + bias) ->
  c * 2 ^ (E + bias) <= shr_m (fst (shr_fexp prec emax m e l)) * 2 ^ (snd (shr_fexp prec emax m e l) + bias).
Proof.
  intros Hm Hd He Hde Hc HE Hle.
  destruct (shr_fexp_mag prec emax ltac:(lia) m e l d Hm Hd Hde) as ([Hlo _] & He' & Hpos).
  unfold shr_fexp in *. rewrite (Zdigits2_val m d) in * by done.
  assert (0 < 2 ^ (d - 1)) by (apply Z.pow_pos_nonneg; lia).
  destruct (shr_mantissa (shr_record_of_loc m l) e (fexp prec emax (d + e) - e)) as [Es Ee];
    [rewrite shr_record_of_loc_m; lia|]. rewrite shr_record_of_loc_m in Es.
  set (n := Z.max 0 (fexp prec emax (d + e) - e)) in *. rewrite Es, Ee in *.
  assert (Hn : n = 0 \/ e + n <= E \/ E < d + e - prec) by (unfold n, fexp in *; lia).
  assert (0 < 2 ^ n) by (apply Z.pow_pos_nonneg; lia).
  assert (0 < 2 ^ (e + n + bias)) by (apply Z.pow_pos_nonneg; lia).
  destruct Hn as [E0|[HnE|HnE]].
  - rewrite E0 in *. by rewrite Z.div_1_r, Z.add_0_r.
  - set (k := c * 2 ^ (E - (e + n))).
    assert (Hk : c * 2 ^ (E + bias) = k * 2 ^ (e + n + bias)).
    { unfold k. rewrite <- Z.mul_assoc, <- Z.pow_add_r by lia. do 2 f_equal. lia. }
    rewrite Hk in *. apply Z.mul_le_mono_nonneg_r; [lia|]. apply Z.div_le_lower_bound; [done|].
    replace (e + n + bias) with (n + (e + bias)) in Hle by lia. rewrite Z.pow_add_r, Z.mul_assoc in Hle by lia.
    apply Z.mul_le_mono_pos_r in Hle; [lia|]. apply Z.pow_pos_nonneg; lia.
  - transitivity (2 ^ (d + e - (e + n) - 1) * 2 ^ (e + n + bias)); [|apply Z.mul_le_mono_nonneg_r; lia].
    rewrite <- Z.pow_add_r by lia. transitivity (2 ^ prec * 2 ^ (E + bias)).
    + apply Z.mul_le_mono_nonneg_r; [apply Z.pow_nonneg; lia|lia].
    + rewrite <- Z.pow_add_r by lia. apply Z.pow_le_mono_r; lia.
Qed.

Lemma binary_round_aux_fge m e l c E d :
  2 ^ (d - 1) <= m < 2 ^ d -> 0 < d -> - bias <= e -> emin prec emax < d + e -> d + e < emax -> e <= emax - prec ->
  0 < c < 2 ^ prec -> emin prec emax <= E -> c * 2 ^ (E + bias) <= m * 2 ^ (e + bias) ->
  fge (binary_round_aux prec emax false m e l) c E.
Proof.
  intros Hm Hd He Hde Hdm Hee Hc HE Hle.
  destruct (binary_round_aux_mag prec emax ltac:(lia) ltac:(lia) false m e l d Hm Hd Hde Hdm Hee) as (m' & e' & Eq & _).
  pose proof (shr_fexp_ge m e l c E d Hm Hd He Hde Hc HE Hle) as H1.
  destruct (shr_fexp_mag prec emax ltac:(lia) m e l d Hm Hd Hde) as (Hb1 & He1 & Hp1).
  rewrite Eq. unfold binary_round_aux in Eq. destruct (shr_fexp prec emax m e l) as [r1 e1]. cbn [fst snd] in *.
  set (m1 := round_nearest_even (shr_m r1) (loc_of_shr_record r1)) in *.
  pose proof (round_nearest_even_bounds (shr_m r1) (loc_of_shr_record r1)) as Hr. fold m1 in Hr.
  assert (0 < 2 ^ (d + e - e1 - 1)) by (apply Z.pow_pos_nonneg; lia).
  set (d1 := Zpos (digits2_pos (Z.to_pos m1))).
  assert (Hs1 : 2 ^ (d1 - 1) <= m1 < 2 ^ d1) by (pose proof (digits2_pos_spec (Z.to_pos m1)) as H'; rewrite Z2Pos.id in H' by lia; exact H').
  assert (Hd1 : d + e - e1 <= d1).
  { replace (d + e - e1) with (d + e - e1 - 1 + 1) by lia. apply digits2_pos_ge. lia. }
  assert (0 < 2 ^ (e1 + bias)) by (apply Z.pow_pos_nonneg; lia).
  pose proof (shr_fexp_ge m1 e1 loc_Exact c E d1 Hs1 ltac:(lia) ltac:(lia) ltac:(lia) Hc HE ltac:(nia)) as H2.
  destruct (shr_fexp_mag prec emax ltac:(lia) m1 e1 loc_Exact d1 Hs1 ltac:(lia) ltac:(lia)) as (_ & He2 & _).
  destruct (shr_fexp prec emax m1 e1 loc_Exact) as [r2 e2]. cbn [fst snd] in *.
  destruct (shr_m r2) as [|m2|m2]; try done. destruct (e2 <=? emax - prec); [|done].
  injection Eq as -> ->. cbn [fge]. split; [lia|done].
Qed.

Lemma shl_align_value m e e' :
  - bias <= e' -> - bias <= e ->
  Zpos (fst (shl_align m e e')) * 2 ^ (snd (shl_align m e e') + bias) = Zpos m * 2 ^ (e + bias).
Proof.
  intros He' He. unfold shl_align. destruct (e' - e) as [|p|p] eqn:Ep; cbn [fst snd]; [done|done|].
  rewrite pos_iter_xO, <- Z.mul_assoc, <- Z.pow_add_r by lia. do 2 f_equal. lia.
Qed.

Lemma binary_normalize_fge z e c E hi :
  0 <= z < 2 ^ hi -> 0 < hi -> hi + e < emax - 1 -> - bias <= e -> emin prec emax < e ->
  0 < c < 2 ^ prec -> emin prec emax <= E -> c * 2 ^ (E + bias) <= z * 2 ^ (e + bias) ->
  fge (binary_normalize prec emax z e false) c E.
Proof.
  intros Hz Hhi Hov He Hee Hc HE Hle.
  assert (0 < 2 ^ (E + bias)) by (apply Z.pow_pos_nonneg; lia).
  destruct z as [|p|p]; [nia| |lia]. cbn [binary_normalize]. unfold binary_round.
  pose proof (digits2_pos_spec p) as Hd. pose proof (digits2_pos_le p hi ltac:(lia) ltac:(lia)).
  set (d := Zpos (digits2_pos p)) in *.
  pose proof (shl_align_mag p e (fexp prec emax (d + e)) d Hd ltac:(lia)) as Ha.
  pose proof (shl_align_value p e (fexp prec emax (d + e)) ltac:(unfold fexp; lia) He) as Hv.
  destruct (shl_align p e (fexp prec emax (d + e))) as [m1 e1]. cbn [fst snd] in *. destruct Ha as [Ha1 Ha2].
  apply (binary_round_aux_fge (Zpos m1) e1 loc_Exact c E (d + e - e1)); unfold fexp, emin in *; (done || lia).
Qed.

Lemma SFadd_fge x y c E a b :
  fge x c E -> mag_in x a b -> mag0_in y a b -> emin prec emax < a - 53 -> b < emax - 2 ->
  0 < c < 2 ^ prec -> emin prec emax <= E -> fge (SFadd prec emax x y) c E.
Proof.
  destruct x as [| | |[] mx ex]; try done. intros Hx Hmx [->|Hmy] Ha Hb Hc HE; [done|].
  destruct y as [| | |[] my ey]; try done. cbn [fge mag_in] in *. unfold mag in *. unfold SFadd. cbn [cond_Zopp].
  set (ez := Z.min ex ey).
  pose proof (shl_align_mag mx ex ez _ (digits2_pos_spec mx) ltac:(lia)) as [Hs1 Es1].
  pose proof (shl_align_mag my ey ez _ (digits2_pos_spec my) ltac:(lia)) as [Hs2 Es2].
  pose proof (shl_align_value mx ex ez ltac:(lia) ltac:(lia)) as Hv.
  replace (snd (shl_align mx ex ez)) with ez in * by lia. replace (snd (shl_align my ey ez)) with ez in * by lia.
  set (D := Z.max (Zpos (digits2_pos mx) + ex) (Zpos (digits2_pos my) + ey)) in *.
  assert (2 ^ (Zpos (digits2_pos mx) + ex - ez) <= 2 ^ (D - ez)) by (apply Z.pow_le_mono_r; lia).
  assert (2 ^ (Zpos (digits2_pos my) + ey - ez) <= 2 ^ (D - ez)) by (apply Z.pow_le_mono_r; lia).
  assert (0 < 2 ^ (ez + bias)) by (apply Z.pow_pos_nonneg; lia).
  apply binary_normalize_fge with (hi := D - ez + 1); try lia.
  split; [lia|]. rewrite Z.pow_add_r by lia. lia.
Qed.

Lemma SFmul_fge x y c E c' E' a b a' b' :
  fge x c E -> fge y c' E' -> mag_in x a b -> mag_in y a' b' -> emin prec emax < a + a' - 1 -> b + b' < emax - prec ->
  0 < c -> 0 < c' -> c * c' < 2 ^ prec -> emin prec emax <= E + E' -> - bias <= E -> - bias <= E' -> 0 <= E + E' + bias ->
  -1800 <= a + a' ->
  fge (SFmul prec emax x y) (c * c') (E + E').
Proof.
  destruct x as [| | |[] mx ex], y as [| | |[] my ey]; try done; cbn [fge mag_in].
  intros [Hex Hx] [Hey Hy] Mx My Ha Hb Hc Hc' Hcc HE HE1 HE2 HE3 Ha9.
  unfold SFmul. cbn [xorb]. unfold mag in *.
  pose proof (digits2_pos_mul mx my) as HD.
  apply (binary_round_aux_fge (Zpos (mx * my)) (ex + ey) loc_Exact (c * c') (E + E') (Zpos (digits2_pos (mx * my)))
    (digits2_pos_spec _)); [lia|lia|lia|lia|lia|nia|lia|].
  apply (Z.mul_le_mono_pos_r _ _ (2 ^ bias)); [done|].
  assert (HS : forall i j, - bias <= i -> - bias <= j -> 0 <= i + j + bias ->
    2 ^ (i + j + bias) * 2 ^ bias = 2 ^ (i + bias) * 2 ^ (j + bias))
    by (intros i j Hi Hj Hij; rewrite <- !Z.pow_add_r by lia; f_equal; lia).
  rewrite <- !Z.mul_assoc, !HS, Pos2Z.inj_mul by lia.
  transitivity ((c * 2 ^ (E + bias)) * (c' * 2 ^ (E' + bias))); [lia|].
  transitivity ((Zpos mx * 2 ^ (ex + bias)) * (Zpos my * 2 ^ (ey + bias))); [|lia].
  apply Z.mul_le_mono_nonneg; (lia || (apply Z.mul_nonneg_nonneg; [lia|apply Z.pow_nonneg; lia])).
Qed.
End lower.

Lemma f32_of_Z_fge z c : 0 < c <= z -> c < 2 ^ 24 -> z < 2 ^ 90 -> fge (f32_of_Z z) c 0.
Proof.
  intros Hc Hc2 Hz. apply (binary_normalize_fge 24 128) with (hi := 90); unfold emin; lia.
Qed.

Lemma f32_add_fge x y c a b :
  fge x c 0 -> mag_in x a b -> mag0_in y a b -> -90 < a -> b < 126 -> 0 < c < 2 ^ 24 -> fge (f32_add x y) c 0.
Proof. intros. apply (SFadd_fge 24 128) with (a := a) (b := b); unfold emin; (done || lia). Qed.

(** Truncation stays below the value, also for a bound with a negative exponent. *)
Lemma fle_trunc_scaled x c E z : fle x c E -> 0 <= c -> 0 <= E + bias -> float_trunc x = Some z -> z * 2 ^ bias <= c * 2 ^ (E + bias).
Proof.
  intros Hx Hc HE Hz. destruct x as [| | |[] m e]; try done; cbn [fle float_trunc] in *.
  - injection Hz as <-. apply Z.mul_nonneg_nonneg; [done|apply Z.pow_nonneg; lia].
  - destruct Hx as [He Hle]. injection Hz as <-. eapply Z.le_trans; [|exact Hle]. destruct (Z.leb_spec 0 e).
    + rewrite Z.pow_add_r by lia. lia.
    + rewrite <- (Z.mul_1_r (2 ^ bias)). replace (2 ^ bias * 1) with (2 ^ (- e) * 2 ^ (e + bias)) by (rewrite <- Z.pow_add_r by lia; rewrite Z.mul_1_r; f_equal; lia).
      rewrite Z.mul_assoc. apply Z.mul_le_mono_nonneg_r; [apply Z.pow_nonneg; lia|].
      pose proof (Z.mul_div_le (Zpos m) (2 ^ (- e)) ltac:(apply Z.pow_pos_nonneg; lia)). lia.
Qed.

Lemma fge_scale x c E k : fge x c E -> k * 2 ^ bias <= c * 2 ^ (E + bias) -> fge x k 0.
Proof. destruct x as [| | |[] m e]; try done. cbn [fge]. intros [He Hle] Hk. split; [done|]. rewrite Z.add_0_l. lia. Qed.

Lemma fge_trunc x c z : fge x c 0 -> float_trunc x = Some z -> c <= z.
Proof.
  destruct x as [| | |[] m e]; try done. cbn [fge float_trunc]. intros [He Hle] [= <-].
  destruct (Z.leb_spec 0 e).
  - rewrite !Z.pow_add_r in Hle by lia. change (2 ^ 0) with 1 in Hle. rewrite Z.mul_1_l, Z.mul_assoc in Hle.
    by apply Z.mul_le_mono_pos_r in Hle.
  - apply Z.div_le_lower_bound; [apply Z.pow_pos_nonneg; lia|].
    assert (Hb : 2 ^ (0 + bias) = 2 ^ (- e) * 2 ^ (e + bias)) by (rewrite <- Z.pow_add_r by lia; f_equal; lia).
    rewrite Hb, Z.mul_assoc in Hle. apply Z.mul_le_mono_pos_r in Hle; [lia|]. apply Z.pow_pos_nonneg; lia.
Qed.
