(* ===== verification/QuicTime.v ===== *)
(** The scalar types every component shares: [QuicTime] and [QuicTime::Delta]
    (quic_time.h), [QuicWallTime] (quic_time.cc), [QuicBandwidth]
    (quic_bandwidth.h) and [QuicPacketNumber] (quic_packet_number.h).  Each of
    these classes wraps one 64-bit integer, so each is that integer here, with
    one definition per operation. *)

From S2P Require Import Prelude Float.

(** * Constants, quic_constants.h *)

(** src/quiche/gquiche/quic/core/quic_constants.h:26-26 [kNumMicrosPerSecond] *)
Definition kNumMicrosPerSecond : Z := 1000 * 1000.
(** src/quiche/gquiche/quic/core/quic_constants.h:58-58 [kDefaultTCPMSS] *)
Definition kDefaultTCPMSS : Z := 1460.
(** src/quiche/gquiche/quic/core/quic_constants.h:59-59 [kMaxSegmentSize] *)
Definition kMaxSegmentSize : Z := kDefaultTCPMSS.
(** src/quiche/gquiche/quic/core/quic_constants.h:29-29 [kDefaultNumConnections] *)
Definition kDefaultNumConnections : Z := 2.
(** src/quiche/gquiche/quic/core/quic_constants.h:259-259 [kInitialRttMs] *)
Definition kInitialRttMs : Z := 100.

(** * QuicTime::Delta, a signed offset in microseconds *)

Abbreviation Delta := Z (only parsing).

(** src/quiche/gquiche/quic/core/quic_time.h:45-45 [Delta::Zero] *)
Definition Delta_Zero : Delta := 0.
(** src/quiche/gquiche/quic/core/quic_time.h:48-48 [Delta::Infinite] *)
Definition Delta_Infinite : Delta := INT64_MAX.
(** src/quiche/gquiche/quic/core/quic_time.h:51-53 [Delta::FromSeconds] *)
Definition Delta_FromSeconds (secs : Z) : Delta := i64 (i64 (secs * 1000) * 1000).
(** src/quiche/gquiche/quic/core/quic_time.h:56-58 [Delta::FromMilliseconds] *)
Definition Delta_FromMilliseconds (ms : Z) : Delta := i64 (ms * 1000).
(** src/quiche/gquiche/quic/core/quic_time.h:61-61 [Delta::FromMicroseconds] *)
Definition Delta_FromMicroseconds (us : Z) : Delta := i64 us.
(** src/quiche/gquiche/quic/core/quic_time.h:64-64 [Delta::ToSeconds] *)
Definition Delta_ToSeconds (d : Delta) : Z := Z.quot (Z.quot d 1000) 1000.
(** src/quiche/gquiche/quic/core/quic_time.h:67-67 [Delta::ToMilliseconds] *)
Definition Delta_ToMilliseconds (d : Delta) : Z := Z.quot d 1000.
(** src/quiche/gquiche/quic/core/quic_time.h:70-70 [Delta::ToMicroseconds] *)
Definition Delta_ToMicroseconds (d : Delta) : Z := d.
(** src/quiche/gquiche/quic/core/quic_time.h:72-72 [Delta::IsZero] *)
Definition Delta_IsZero (d : Delta) : bool := d =? 0.
(** src/quiche/gquiche/quic/core/quic_time.h:74-76 [Delta::IsInfinite] *)
Definition Delta_IsInfinite (d : Delta) : bool := d =? INT64_MAX.
(** src/quiche/gquiche/quic/core/quic_time.h:255-257 [operator+(Delta, Delta)] *)
Definition Delta_add (l r : Delta) : Delta := i64 (l + r).
(** src/quiche/gquiche/quic/core/quic_time.h:258-260 [operator-(Delta, Delta)] *)
Definition Delta_sub (l r : Delta) : Delta := i64 (l - r).
(** src/quiche/gquiche/quic/core/quic_time.h:261-263 [operator*(Delta, int)] *)
Definition Delta_mul_int (l : Delta) (r : Z) : Delta := i64 (l * r).
(** src/quiche/gquiche/quic/core/quic_time.h:264-267 [operator*(Delta, double)] *)
Definition Delta_mul_double (l : Delta) (r : SpecFloat.spec_float) : result Delta :=
  float_llround (f64_mul (f64_of_Z l) r).
(** src/quiche/gquiche/quic/core/quic_time.h:221-223 [operator<<(Delta, size_t)] *)
Definition Delta_shl (l : Delta) (r : Z) : Delta := i64 (Z.shiftl l r).
(** src/quiche/gquiche/quic/core/quic_time.h:224-226 [operator>>(Delta, size_t)] *)
Definition Delta_shr (l : Delta) (r : Z) : Delta := Z.shiftr l r.

(** * QuicTime, microseconds since the epoch; 0 is the uninitialized value *)

Abbreviation QuicTime := Z (only parsing).

(** src/quiche/gquiche/quic/core/quic_time.h:108-108 [QuicTime::Zero] *)
Definition QuicTime_Zero : QuicTime := 0.
(** src/quiche/gquiche/quic/core/quic_time.h:111-113 [QuicTime::Infinite] *)
Definition QuicTime_Infinite : QuicTime := INT64_MAX.
(** src/quiche/gquiche/quic/core/quic_time.h:128-128 [QuicTime::IsInitialized] *)
Definition QuicTime_IsInitialized (t : QuicTime) : bool := negb (t =? 0).
(** src/quiche/gquiche/quic/core/quic_time.h:276-278 [operator+(QuicTime, Delta)] *)
Definition QuicTime_add (t : QuicTime) (d : Delta) : QuicTime := i64 (t + d).
(** src/quiche/gquiche/quic/core/quic_time.h:279-281 [operator-(QuicTime, Delta)] *)
Definition QuicTime_sub (t : QuicTime) (d : Delta) : QuicTime := i64 (t - d).
(** src/quiche/gquiche/quic/core/quic_time.h:282-284 [operator-(QuicTime, QuicTime)] *)
Definition QuicTime_diff (l r : QuicTime) : Delta := i64 (l - r).

(** * QuicWallTime, unsigned microseconds since the UNIX epoch *)

(** src/quiche/gquiche/quic/core/quic_time.h:151-153 [QuicWallTime::FromUNIXSeconds] *)
Definition WallTime_FromUNIXSeconds (s : Z) : Z := s ⊗ 1000000.
(** src/quiche/gquiche/quic/core/quic_time.cc:35-37 [QuicWallTime::ToUNIXSeconds] *)
Definition WallTime_ToUNIXSeconds (w : Z) : Z := w / 1000000.
(** src/quiche/gquiche/quic/core/quic_time.cc:43-45 [QuicWallTime::IsAfter] *)
Definition WallTime_IsAfter (w other : Z) : bool := other <? w.
(** src/quiche/gquiche/quic/core/quic_time.cc:47-49 [QuicWallTime::IsBefore] *)
Definition WallTime_IsBefore (w other : Z) : bool := w <? other.
(** src/quiche/gquiche/quic/core/quic_time.cc:55-68 [QuicWallTime::AbsoluteDifference] *)
Definition WallTime_AbsoluteDifference (w other : Z) : Delta :=
  let d := if other <? w then w ⊖ other else other ⊖ w in
  let d := if INT64_MAX <? d then INT64_MAX else d in
  Delta_FromMicroseconds d.
(** src/quiche/gquiche/quic/core/quic_time.cc:70-76 [QuicWallTime::Add] *)
Definition WallTime_Add (w : Z) (delta : Delta) : Z :=
  let microseconds := w ⊕ delta in
  if microseconds <? w then UINT64_MAX else microseconds.
(** src/quiche/gquiche/quic/core/quic_time.cc:79-85 [QuicWallTime::Subtract] *)
Definition WallTime_Subtract (w : Z) (delta : Delta) : Z :=
  let microseconds := w ⊖ delta in
  if w <? microseconds then 0 else microseconds.

(** * QuicBandwidth, bits per second *)

(** src/quiche/gquiche/quic/core/quic_bandwidth.h:105-106 [QuicBandwidth::QuicBandwidth] *)
Definition QuicBandwidth_mk (bits_per_second : Z) : Z :=
  if 0 <=? bits_per_second then bits_per_second else 0.
(** src/quiche/gquiche/quic/core/quic_bandwidth.h:27-27 [QuicBandwidth::Zero] *)
Definition QuicBandwidth_Zero : Z := QuicBandwidth_mk 0.
(** src/quiche/gquiche/quic/core/quic_bandwidth.h:30-32 [QuicBandwidth::Infinite] *)
Definition QuicBandwidth_Infinite : Z := QuicBandwidth_mk INT64_MAX.
(** src/quiche/gquiche/quic/core/quic_bandwidth.h:35-37 [QuicBandwidth::FromBitsPerSecond] *)
Definition FromBitsPerSecond (b : Z) : Z := QuicBandwidth_mk b.
(** src/quiche/gquiche/quic/core/quic_bandwidth.h:40-42 [QuicBandwidth::FromKBitsPerSecond] *)
Definition FromKBitsPerSecond (b : Z) : Z := QuicBandwidth_mk (i64 (b * 1000)).
(** src/quiche/gquiche/quic/core/quic_bandwidth.h:45-47 [QuicBandwidth::FromBytesPerSecond] *)
Definition FromBytesPerSecond (b : Z) : Z := QuicBandwidth_mk (i64 (b * 8)).
(** src/quiche/gquiche/quic/core/quic_bandwidth.h:50-53 [QuicBandwidth::FromKBytesPerSecond] *)
Definition FromKBytesPerSecond (b : Z) : Z := QuicBandwidth_mk (i64 (b * 8000)).
(** src/quiche/gquiche/quic/core/quic_bandwidth.h:56-69 [QuicBandwidth::FromBytesAndTimeDelta] *)
Definition FromBytesAndTimeDelta (bytes : Z) (delta : Delta) : result Z :=
  if bytes =? 0 then Ok (QuicBandwidth_mk 0)
  else
    let num_micro_bits := i64 ((8 ⊗ bytes) ⊗ kNumMicrosPerSecond) in
    if num_micro_bits <? delta then Ok (QuicBandwidth_mk 1)
    else if delta =? 0 then Fault DivByZero
    else Ok (QuicBandwidth_mk (i64 (Z.quot num_micro_bits delta))).
(** src/quiche/gquiche/quic/core/quic_bandwidth.h:71-71 [QuicBandwidth::ToBitsPerSecond] *)
Definition ToBitsPerSecond (b : Z) : Z := b.
(** src/quiche/gquiche/quic/core/quic_bandwidth.h:73-73 [QuicBandwidth::ToKBitsPerSecond] *)
Definition ToKBitsPerSecond (b : Z) : Z := Z.quot b 1000.
(** src/quiche/gquiche/quic/core/quic_bandwidth.h:75-75 [QuicBandwidth::ToBytesPerSecond] *)
Definition ToBytesPerSecond (b : Z) : Z := Z.quot b 8.
(** src/quiche/gquiche/quic/core/quic_bandwidth.h:79-82 [QuicBandwidth::ToBytesPerPeriod].
    The product and the first quotient are [int64_t]; the second division is by
    a [uint64_t]. *)
Definition ToBytesPerPeriod (b : Z) (time_period : Delta) : Z :=
  u64 (Z.quot (i64 (b * time_period)) 8) / kNumMicrosPerSecond.
(** src/quiche/gquiche/quic/core/quic_bandwidth.h:84-87 [QuicBandwidth::ToKBytesPerPeriod] *)
Definition ToKBytesPerPeriod (b : Z) (time_period : Delta) : Z :=
  i64 (u64 (Z.quot (i64 (b * time_period)) 8000) / kNumMicrosPerSecond).
(** src/quiche/gquiche/quic/core/quic_bandwidth.h:94-100 [QuicBandwidth::TransferTime] *)
Definition TransferTime (b : Z) (bytes : Z) : Delta :=
  if b =? 0 then Delta_Zero
  else Delta_FromMicroseconds (((bytes ⊗ 8) ⊗ kNumMicrosPerSecond) / u64 b).
(** src/quiche/gquiche/quic/core/quic_bandwidth.h:136-138 [operator+(QuicBandwidth, QuicBandwidth)] *)
Definition QuicBandwidth_add (l r : Z) : Z := QuicBandwidth_mk (i64 (l + r)).
(** src/quiche/gquiche/quic/core/quic_bandwidth.h:139-141 [operator-(QuicBandwidth, QuicBandwidth)] *)
Definition QuicBandwidth_sub (l r : Z) : Z := QuicBandwidth_mk (i64 (l - r)).
(** src/quiche/gquiche/quic/core/quic_bandwidth.h:142-145 [operator*(QuicBandwidth, float)] *)
Definition QuicBandwidth_mul (l : Z) (r : SpecFloat.spec_float) : result Z :=
  let* v := float_llround (f32_mul (f32_of_Z l) r) in
  Ok (QuicBandwidth_mk v).

(** * Properties *)

Lemma ToBytesPerPeriod_bound b d : 0 <= ToBytesPerPeriod b d < 2 ^ 45.
Proof.
  unfold ToBytesPerPeriod. pose proof (u64_range (Z.quot (i64 (b * d)) 8)) as Hu. change kNumMicrosPerSecond with 1000000.
  split; [apply Z.div_pos; lia|]. apply Z.div_lt_upper_bound; lia.
Qed.

Lemma QuicBandwidth_mk_range b : b < two63 -> 0 <= QuicBandwidth_mk b < two63.
Proof. unfold QuicBandwidth_mk. zcases; lia. Qed.

(** Inside the range where no intermediate product wraps, the bandwidth of
    [bytes] over [delta] is the truncated quotient, and never zero. *)
Lemma FromBytesAndTimeDelta_val bytes delta :
  0 < bytes < 2 ^ 40 -> 0 < delta < two63 ->
  FromBytesAndTimeDelta bytes delta = Ok (Z.max 1 (8000000 * bytes / delta)).
Proof.
  intros Hb Hd. unfold FromBytesAndTimeDelta, kNumMicrosPerSecond, QuicBandwidth_mk.
  wrap_small.
  assert (Hq : 0 <= 8 * bytes * (1000 * 1000) / delta <= 8 * bytes * (1000 * 1000)).
  { split; [apply Z.div_pos; lia|]. apply Z.div_le_upper_bound; nia. }
  rewrite Z.quot_div_nonneg by lia.
  replace (8000000 * bytes) with (8 * bytes * (1000 * 1000)) by lia.
  destruct (Z.eqb_spec bytes 0); [lia|].
  destruct (Z.ltb_spec (8 * bytes * (1000 * 1000)) delta).
  - rewrite Z.div_small by lia. done.
  - destruct (Z.eqb_spec delta 0); [lia|]. rewrite i64_small by lia.
    assert (1 <= 8 * bytes * (1000 * 1000) / delta) by (apply Z.div_le_lower_bound; lia).
    zcases; f_equal; lia.
Qed.

Lemma TransferTime_bound rate bytes :
  0 <= bytes < 2 ^ 36 -> 0 <= TransferTime rate bytes < 2 ^ 61.
Proof.
  intros Hb. unfold TransferTime, Delta_FromMicroseconds, Delta_Zero, kNumMicrosPerSecond.
  destruct (rate =? 0); [lia|]. rewrite (u64_small (bytes * 8)), (u64_small (bytes * 8 * _)) by lia.
  pose proof (u64_range rate).
  assert (0 <= bytes * 8 * (1000 * 1000) / u64 rate <= bytes * 8 * (1000 * 1000)).
  { destruct (Z.eq_dec (u64 rate) 0) as [->|]; [rewrite Zdiv_0_r; lia|].
    split; [apply Z.div_pos; lia|]. apply Z.div_le_upper_bound; nia. }
  rewrite i64_small by lia. lia.
Qed.

Lemma TransferTime_val rate bytes :
  0 < rate < two63 -> 0 <= bytes < 2 ^ 40 ->
  TransferTime rate bytes = 8000000 * bytes / rate.
Proof.
  intros Hr Hb. unfold TransferTime, Delta_FromMicroseconds, kNumMicrosPerSecond.
  destruct (Z.eqb_spec rate 0); [lia|]. wrap_small.
  replace (bytes * 8 * (1000 * 1000)) with (8000000 * bytes) by lia.
  assert (0 <= 8000000 * bytes / rate <= 8000000 * bytes).
  { split; [apply Z.div_pos; lia|]. apply Z.div_le_upper_bound; nia. }
  by rewrite i64_small by lia.
Qed.

(** The rate computed from [bytes] sent over [delta] is the largest integer
    rate at which sending [bytes] takes at least [delta]: at that rate the
    transfer lasts [delta] or longer, and at any larger rate it is no longer
    than [delta]. *)
Theorem bandwidth_transfer_roundtrip bytes delta rate faster :
  0 < bytes < 2 ^ 40 -> 0 < delta <= 8000000 * bytes ->
  FromBytesAndTimeDelta bytes delta = Ok rate -> rate < faster < two63 ->
  delta <= TransferTime rate bytes /\ TransferTime faster bytes <= delta.
Proof.
  intros Hb Hd Hr Hf. rewrite FromBytesAndTimeDelta_val in Hr by lia. simplify_eq.
  set (n := 8000000 * bytes) in *.
  assert (H1 : 1 <= n / delta) by (apply Z.div_le_lower_bound; lia).
  rewrite Z.max_r in * by done.
  assert (n / delta <= n) by (apply Z.div_le_upper_bound; nia).
  pose proof (Z.mul_div_le n delta ltac:(lia)).
  pose proof (Z.mul_succ_div_gt n delta ltac:(lia)).
  rewrite !TransferTime_val by lia. fold n. split.
  - apply Z.div_le_lower_bound; nia.
  - apply Z.div_le_upper_bound; nia.
Qed.

(** Wall-clock arithmetic with a nonnegative offset saturates. *)
Lemma WallTime_Add_saturates w d :
  0 <= w < two64 -> 0 <= d < two63 -> WallTime_Add w d = Z.min (w + d) UINT64_MAX.
Proof.
  intros Hw Hd. unfold WallTime_Add, u64. zcases.
  - destruct (Z.lt_ge_cases (w + d) two64) as [|Hge].
    + rewrite Z.mod_small in * by lia. lia.
    + lia.
  - destruct (Z.lt_ge_cases (w + d) two64) as [|Hge].
    + rewrite Z.mod_small in * by lia. lia.
    + rewrite <- (Z_mod_plus_full _ (-1)) in *. rewrite Z.mod_small in * by lia. lia.
Qed.

Lemma WallTime_Subtract_saturates w d :
  0 <= w < two64 -> 0 <= d < two63 -> WallTime_Subtract w d = Z.max (w - d) 0.
Proof.
  intros Hw Hd. unfold WallTime_Subtract, u64. zcases.
  - destruct (Z.le_gt_cases d w) as [|Hge]; [rewrite Z.mod_small in * by lia; lia|lia].
  - destruct (Z.le_gt_cases d w) as [|Hge]; [rewrite Z.mod_small in * by lia; lia|].
    rewrite <- (Z_mod_plus_full _ 1) in *. rewrite Z.mod_small in * by lia. lia.
Qed.

(** Wall-clock addition and subtraction of a nonnegative offset never wrap:
    they saturate at the largest and the smallest representable time, and
    subtraction undoes an addition that did not saturate. *)
Theorem walltime_saturation w d :
  0 <= w < two64 -> 0 <= d < two63 ->
  WallTime_Add w d = Z.min (w + d) UINT64_MAX /\
  WallTime_Subtract w d = Z.max (w - d) 0 /\
  (w + d < two64 -> WallTime_Subtract (WallTime_Add w d) d = w /\
                    WallTime_AbsoluteDifference (WallTime_Add w d) w = d).
Proof.
  intros Hw Hd. split_and!; [by apply WallTime_Add_saturates | by apply WallTime_Subtract_saturates|].
  intros Hwd. rewrite WallTime_Add_saturates by done. rewrite Z.min_l by lia.
  rewrite WallTime_Subtract_saturates by lia. split; [lia|].
  unfold WallTime_AbsoluteDifference, Delta_FromMicroseconds.
  destruct (Z.ltb_spec w (w + d)); wrap_small; zcases; wrap_small; lia.
Qed.
