(* ===== verification/PacketNumber.v ===== *)
(** [QuicPacketNumber] (quic_packet_number.h, quic_packet_number.cc): a 64-bit
    ordinal with a sentinel for the uninitialized value.  The comparison and
    arithmetic operators check that their operands are initialized, so they
    return a [result]. *)

From S2P Require Import Prelude.

Abbreviation QuicPacketNumber := Z (only parsing).

(** src/quiche/gquiche/quic/core/quic_packet_number.h:34-36 [QuicPacketNumber::UninitializedPacketNumber] *)
Definition UninitializedPacketNumber : Z := UINT64_MAX.
(** src/quiche/gquiche/quic/core/quic_packet_number.h:23-23 [QuicPacketNumber::QuicPacketNumber] *)
Definition QuicPacketNumber_default : QuicPacketNumber := UninitializedPacketNumber.
(** src/quiche/gquiche/quic/core/quic_packet_number.h:27-31 [QuicPacketNumber::QuicPacketNumber(uint64_t)] *)
Definition QuicPacketNumber_mk (packet_number : Z) : result QuicPacketNumber :=
  let* _ := CHECK (negb (UninitializedPacketNumber =? packet_number)) in
  Ok packet_number.
(** src/quiche/gquiche/quic/core/quic_packet_number.cc:14-16 [QuicPacketNumber::Clear] *)
Definition PN_Clear : QuicPacketNumber := UninitializedPacketNumber.
(** src/quiche/gquiche/quic/core/quic_packet_number.cc:39-41 [QuicPacketNumber::IsInitialized] *)
Definition PN_IsInitialized (p : QuicPacketNumber) : bool :=
  negb (p =? UninitializedPacketNumber).
(** src/quiche/gquiche/quic/core/quic_packet_number.cc:34-37 [QuicPacketNumber::ToUint64] *)
Definition PN_ToUint64 (p : QuicPacketNumber) : result Z :=
  let* _ := CHECK (PN_IsInitialized p) in Ok p.
(** src/quiche/gquiche/quic/core/quic_packet_number.cc:29-32 [QuicPacketNumber::Hash] *)
Definition PN_Hash (p : QuicPacketNumber) : result Z :=
  let* _ := CHECK (PN_IsInitialized p) in Ok p.
(** src/quiche/gquiche/quic/core/quic_packet_number.cc:18-27 [QuicPacketNumber::UpdateMax] *)
Definition PN_UpdateMax (p new_value : QuicPacketNumber) : QuicPacketNumber :=
  if negb (PN_IsInitialized new_value) then p
  else if negb (PN_IsInitialized p) then new_value
  else Z.max p new_value.

Definition PN_both (l r : QuicPacketNumber) : result unit :=
  CHECK (PN_IsInitialized l && PN_IsInitialized r).

(** src/quiche/gquiche/quic/core/quic_packet_number.h:104-108 [operator==] *)
Definition PN_eq (l r : QuicPacketNumber) : result bool :=
  let* _ := PN_both l r in Ok (l =? r).
(** src/quiche/gquiche/quic/core/quic_packet_number.h:110-114 [operator!=] *)
Definition PN_ne (l r : QuicPacketNumber) : result bool :=
  let* _ := PN_both l r in Ok (negb (l =? r)).
(** src/quiche/gquiche/quic/core/quic_packet_number.h:116-120 [operator<] *)
Definition PN_lt (l r : QuicPacketNumber) : result bool :=
  let* _ := PN_both l r in Ok (l <? r).
(** src/quiche/gquiche/quic/core/quic_packet_number.h:122-126 [operator<=] *)
Definition PN_le (l r : QuicPacketNumber) : result bool :=
  let* _ := PN_both l r in Ok (l <=? r).
(** src/quiche/gquiche/quic/core/quic_packet_number.h:128-132 [operator>] *)
Definition PN_gt (l r : QuicPacketNumber) : result bool :=
  let* _ := PN_both l r in Ok (r <? l).
(** src/quiche/gquiche/quic/core/quic_packet_number.h:134-138 [operator>=] *)
Definition PN_ge (l r : QuicPacketNumber) : result bool :=
  let* _ := PN_both l r in Ok (r <=? l).
(** src/quiche/gquiche/quic/core/quic_packet_number.h:140-147 [operator+] *)
Definition PN_add (l : QuicPacketNumber) (delta : Z) : result QuicPacketNumber :=
  let* _ := CHECK (PN_IsInitialized l) in
  let* v := PN_ToUint64 l in
  let* _ := CHECK (delta <? (UINT64_MAX ⊖ v)) in
  QuicPacketNumber_mk (l ⊕ delta).
(** src/quiche/gquiche/quic/core/quic_packet_number.h:149-155 [operator-(uint64_t)] *)
Definition PN_sub (l : QuicPacketNumber) (delta : Z) : result QuicPacketNumber :=
  let* _ := CHECK (PN_IsInitialized l) in
  let* v := PN_ToUint64 l in
  let* _ := CHECK (delta <=? v) in
  QuicPacketNumber_mk (l ⊖ delta).
(** src/quiche/gquiche/quic/core/quic_packet_number.h:157-161 [operator-(QuicPacketNumber)] *)
Definition PN_diff (l r : QuicPacketNumber) : result Z :=
  let* _ := PN_both l r in
  let* ge := PN_ge l r in
  let* _ := CHECK ge in
  Ok (l ⊖ r).
(** src/quiche/gquiche/quic/core/quic_packet_number.cc:43-50 [operator++] *)
Definition PN_incr (p : QuicPacketNumber) : result QuicPacketNumber :=
  let* v := PN_ToUint64 p in
  let* _ := CHECK (v <? UINT64_MAX - 1) in
  Ok (p ⊕ 1).
(** src/quiche/gquiche/quic/core/quic_packet_number.cc:62-69 [operator--] *)
Definition PN_decr (p : QuicPacketNumber) : result QuicPacketNumber :=
  let* v := PN_ToUint64 p in
  let* _ := CHECK (1 <=? v) in
  Ok (p ⊖ 1).
(** src/quiche/gquiche/quic/core/quic_packet_number.cc:81-88 [operator+=] *)
Definition PN_add_assign (p : QuicPacketNumber) (delta : Z) : result QuicPacketNumber :=
  let* v := PN_ToUint64 p in
  let* _ := CHECK (delta <? (UINT64_MAX ⊖ v)) in
  Ok (p ⊕ delta).
(** src/quiche/gquiche/quic/core/quic_packet_number.cc:90-97 [operator-=] *)
Definition PN_sub_assign (p : QuicPacketNumber) (delta : Z) : result QuicPacketNumber :=
  let* v := PN_ToUint64 p in
  let* _ := CHECK (delta <=? v) in
  Ok (p ⊖ delta).

(** A packet number a sender can hold: the sentinel, or an ordinal below it. *)
Definition PN_wf (p : QuicPacketNumber) : Prop := 0 <= p < two64.

Lemma PN_IsInitialized_spec p : PN_IsInitialized p = true <-> p <> UINT64_MAX.
Proof. unfold PN_IsInitialized, UninitializedPacketNumber. zcases; naive_solver. Qed.

Lemma PN_both_Ok l r u :
  PN_both l r = Ok u <-> PN_IsInitialized l = true /\ PN_IsInitialized r = true.
Proof. unfold PN_both. rewrite CHECK_Ok. apply andb_true_iff. Qed.

Lemma PN_le_init l r :
  PN_IsInitialized l = true -> PN_IsInitialized r = true -> PN_le l r = Ok (l <=? r).
Proof. unfold PN_le, PN_both. intros -> ->. done. Qed.

Lemma PN_ge_init l r :
  PN_IsInitialized l = true -> PN_IsInitialized r = true -> PN_ge l r = Ok (r <=? l).
Proof. unfold PN_ge, PN_both. intros -> ->. done. Qed.

Lemma PN_lt_init l r :
  PN_IsInitialized l = true -> PN_IsInitialized r = true -> PN_lt l r = Ok (l <? r).
Proof. unfold PN_lt, PN_both. intros -> ->. done. Qed.

Lemma PN_UpdateMax_init p q :
  PN_IsInitialized q = true -> PN_wf p -> PN_wf q ->
  PN_IsInitialized (PN_UpdateMax p q) = true.
Proof.
  unfold PN_UpdateMax, PN_wf. rewrite !PN_IsInitialized_spec. intros Hq Hp Hwq.
  destruct (PN_IsInitialized q) eqn:E1; cbn.
  - destruct (PN_IsInitialized p) eqn:E2; cbn; [|done].
    apply PN_IsInitialized_spec in E2. lia.
  - apply PN_IsInitialized_spec in Hq. congruence.
Qed.

Lemma PN_UpdateMax_wf p q : PN_wf p -> PN_wf q -> PN_wf (PN_UpdateMax p q).
Proof.
  unfold PN_UpdateMax, PN_wf. intros.
  destruct (PN_IsInitialized q), (PN_IsInitialized p); cbn; lia.
Qed.

(** Packet numbers that occur are far below the sentinel: there the operators are those of [Z]. *)
Lemma PN_init_small p : 0 <= p <= 2 ^ 48 -> PN_IsInitialized p = true.
Proof. intros. apply PN_IsInitialized_spec. lia. Qed.

Lemma PN_add_small p d : 0 <= p -> 0 <= d -> p + d <= 2 ^ 48 -> PN_add p d = Ok (p + d).
Proof.
  intros Hp Hd Hs. unfold PN_add, PN_ToUint64, QuicPacketNumber_mk. rewrite PN_init_small by lia. cbn [CHECK rbind].
  rewrite !u64_small by lia. rewrite (proj2 (Z.ltb_lt _ _)) by lia. cbn [CHECK rbind].
  unfold UninitializedPacketNumber. destruct (Z.eqb_spec UINT64_MAX (p + d)); [lia|]. done.
Qed.

Lemma PN_incr_small p : 0 <= p < 2 ^ 48 -> PN_incr p = Ok (p + 1).
Proof.
  intros Hp. unfold PN_incr, PN_ToUint64. rewrite PN_init_small by lia. cbn [CHECK rbind].
  rewrite (proj2 (Z.ltb_lt _ _)) by lia. cbn. by rewrite u64_small by lia.
Qed.

Lemma PN_diff_small p q : 0 <= q <= p -> p <= 2 ^ 48 -> PN_diff p q = Ok (p - q).
Proof.
  intros. unfold PN_diff. rewrite PN_ge_init by (apply PN_init_small; lia). unfold PN_both.
  rewrite !PN_init_small by lia. cbn [andb CHECK rbind]. rewrite (proj2 (Z.leb_le _ _)) by lia. cbn.
  by rewrite u64_small by lia.
Qed.

Lemma PN_gt_init l r :
  PN_IsInitialized l = true -> PN_IsInitialized r = true -> PN_gt l r = Ok (r <? l).
Proof. unfold PN_gt, PN_both. intros -> ->. done. Qed.

Lemma PN_sub_small q d : 0 <= d <= q -> q <= 2 ^ 48 -> PN_sub q d = Ok (q - d).
Proof.
  intros Hd Hp. unfold PN_sub, PN_ToUint64, QuicPacketNumber_mk. rewrite PN_init_small by lia. cbn [CHECK rbind].
  rewrite (proj2 (Z.leb_le _ _)), u64_small by lia. cbn [CHECK rbind].
  unfold UninitializedPacketNumber. by destruct (Z.eqb_spec UINT64_MAX (q - d)); [lia|].
Qed.

#[export] Hint Resolve PN_UpdateMax_wf PN_UpdateMax_init : quic.

(** [UpdateMax] computes maxima regardless of order: starting from an
    uninitialized number, the result over any sequence of initialized numbers
    is initialized, is one of them, and is at least each of them. *)
Theorem UpdateMax_fold_is_maximum (ps : list QuicPacketNumber) :
  ps <> [] -> Forall (fun p => 0 <= p < UINT64_MAX) ps ->
  let m := foldl PN_UpdateMax QuicPacketNumber_default ps in
  PN_IsInitialized m = true /\ m ∈ ps /\ Forall (fun p => p <= m) ps.
Proof.
  intros Hne Hall. cbn zeta.
  induction ps as [|p ps IH] using rev_ind; [done|].
  rewrite foldl_app. cbn [foldl].
  apply Forall_app in Hall as [Hall [Hp _]%Forall_cons].
  assert (Hip : PN_IsInitialized p = true) by (apply PN_IsInitialized_spec; lia).
  unfold PN_UpdateMax at 1 3 5. rewrite Hip. cbn [negb].
  destruct ps as [|q ps].
  { cbn. split_and!; [done|set_solver|repeat constructor; lia]. }
  destruct IH as (Hi & Hin & Hmax); [done|done|].
  set (m := foldl PN_UpdateMax _ (q :: ps)) in *. rewrite Hi. cbn [negb].
  assert (0 <= m < UINT64_MAX) by (rewrite Forall_forall in Hall; by apply Hall).
  split_and!.
  - apply PN_IsInitialized_spec. lia.
  - destruct (Z.max_spec m p) as [[_ ->]|[_ ->]]; set_solver.
  - apply Forall_app. split; [|repeat constructor; lia].
    eapply Forall_impl; [exact Hmax|]. intros; cbn in *; lia.
Qed.
