(* ===== verification/WindowedFilter.v ===== *)
(** [WindowedFilter] (windowed_filter.h): Kathleen Nichols' estimate of the
    minimum or maximum of a stream over a sliding window, kept as three samples.
    The template's [Compare] argument is a parameter here, with the two
    comparators of the source as instances of the order the algorithm relies on;
    [TimeT] and [TimeDeltaT] are [uint64_t], as in both senders that use it. *)

From S2P Require Import Prelude QuicTime.

(** src/quiche/gquiche/quic/core/congestion_control/windowed_filter.h:41-43 [MinFilter::operator()] *)
Definition MinFilter (lhs rhs : Z) : bool := lhs <=? rhs.
(** src/quiche/gquiche/quic/core/congestion_control/windowed_filter.h:48-50 [MaxFilter::operator()] *)
Definition MaxFilter (lhs rhs : Z) : bool := rhs <=? lhs.

(** What [Update] needs of its comparator: a total preorder. *)
Class FilterOrder (cmp : Z -> Z -> bool) : Prop := {
  cmp_refl x : cmp x x = true;
  cmp_trans x y z : cmp x y = true -> cmp y z = true -> cmp x z = true;
  cmp_total x y : cmp x y = false -> cmp y x = true;
}.

#[export] Instance MinFilter_order : FilterOrder MinFilter.
Proof. split; unfold MinFilter; intros; zcases; try lia; done. Qed.

#[export] Instance MaxFilter_order : FilterOrder MaxFilter.
Proof. split; unfold MaxFilter; intros; zcases; try lia; done. Qed.

(** src/quiche/gquiche/quic/core/congestion_control/windowed_filter.h:146-151 [WindowedFilter::Sample] *)
Record Sample := mkSample { sample : Z; time : Z }.

(** src/quiche/gquiche/quic/core/congestion_control/windowed_filter.h:153-155 [WindowedFilter] *)
Record WindowedFilter := mkWindowedFilter {
  window_length_ : Z;
  zero_value_ : Z;
  estimate0 : Sample;
  estimate1 : Sample;
  estimate2 : Sample;
}.
#[export] Instance eta_WindowedFilter : Eta WindowedFilter := MkEta _ (fun f =>
  mkWindowedFilter (window_length_ f) (zero_value_ f) (estimate0 f) (estimate1 f) (estimate2 f)).

#[export] Instance Sample_eq_dec : EqDecision Sample.
Proof. solve_decision. Defined.
#[export] Instance WindowedFilter_eq_dec : EqDecision WindowedFilter.
Proof. solve_decision. Defined.

(** src/quiche/gquiche/quic/core/congestion_control/windowed_filter.h:71-76 [WindowedFilter::WindowedFilter] *)
Definition WindowedFilter_init (window_length zero_value zero_time : Z) : WindowedFilter :=
  let s := mkSample zero_value zero_time in
  mkWindowedFilter window_length zero_value s s s.

(** src/quiche/gquiche/quic/core/congestion_control/windowed_filter.h:79-81 [WindowedFilter::SetWindowLength] *)
Definition SetWindowLength (f : WindowedFilter) (window_length : Z) : WindowedFilter :=
  f <| window_length_ := window_length |>.

(** src/quiche/gquiche/quic/core/congestion_control/windowed_filter.h:136-139 [WindowedFilter::Reset] *)
Definition Reset (f : WindowedFilter) (new_sample new_time : Z) : WindowedFilter :=
  let s := mkSample new_sample new_time in
  f <| estimate0 := s |> <| estimate1 := s |> <| estimate2 := s |>.

(** src/quiche/gquiche/quic/core/congestion_control/windowed_filter.h:141-141 [WindowedFilter::GetBest] *)
Definition GetBest (f : WindowedFilter) : Z := sample (estimate0 f).
(** src/quiche/gquiche/quic/core/congestion_control/windowed_filter.h:142-142 [WindowedFilter::GetSecondBest] *)
Definition GetSecondBest (f : WindowedFilter) : Z := sample (estimate1 f).
(** src/quiche/gquiche/quic/core/congestion_control/windowed_filter.h:143-143 [WindowedFilter::GetThirdBest] *)
Definition GetThirdBest (f : WindowedFilter) : Z := sample (estimate2 f).

Section filter.
Context (Compare : Z -> Z -> bool).

(** Has more than [limit] passed between a recorded estimate and [now]? *)
Definition older (now : Z) (s : Sample) (limit : Z) : bool := limit <? (now ⊖ time s).

(** src/quiche/gquiche/quic/core/congestion_control/windowed_filter.h:95-99 [WindowedFilter::Update, recording] *)
Definition record_sample (f : WindowedFilter) (new_sample new_time : Z) : WindowedFilter :=
  let s := mkSample new_sample new_time in
  if Compare new_sample (sample (estimate1 f)) then
    f <| estimate1 := s |> <| estimate2 := s |>
  else if Compare new_sample (sample (estimate2 f)) then
    f <| estimate2 := s |>
  else f.

(** src/quiche/gquiche/quic/core/congestion_control/windowed_filter.h:103-117 [WindowedFilter::Update, promotion] *)
Definition promote (f : WindowedFilter) (new_sample new_time : Z) : WindowedFilter :=
  let f1 := f <| estimate0 := estimate1 f |> <| estimate1 := estimate2 f |>
              <| estimate2 := mkSample new_sample new_time |> in
  if older new_time (estimate0 f1) (window_length_ f1) then
    f1 <| estimate0 := estimate1 f1 |> <| estimate1 := estimate2 f1 |>
  else f1.

(** src/quiche/gquiche/quic/core/congestion_control/windowed_filter.h:85-133 [WindowedFilter::Update] *)
Definition Update (f : WindowedFilter) (new_sample new_time : Z) : WindowedFilter :=
  let s := mkSample new_sample new_time in
  if (sample (estimate0 f) =? zero_value_ f)
     || Compare new_sample (sample (estimate0 f))
     || older new_time (estimate2 f) (window_length_ f)
  then Reset f new_sample new_time
  else
    let f := record_sample f new_sample new_time in
    if older new_time (estimate0 f) (window_length_ f) then
      promote f new_sample new_time
    else if (sample (estimate1 f) =? sample (estimate0 f))
            && older new_time (estimate1 f) (Z.shiftr (window_length_ f) 2) then
      f <| estimate1 := s |> <| estimate2 := s |>
    else if (sample (estimate2 f) =? sample (estimate1 f))
            && older new_time (estimate2 f) (Z.shiftr (window_length_ f) 1) then
      f <| estimate2 := s |>
    else f.
End filter.

(** * The estimates and the sample that was just taken *)

Section properties.
Context (cmp : Z -> Z -> bool) `{!FilterOrder cmp}.

(** Every estimate is at least as good as [s]. *)
Definition all_better (f : WindowedFilter) (s : Z) : Prop :=
  cmp (GetBest f) s = true /\ cmp (GetSecondBest f) s = true /\ cmp (GetThirdBest f) s = true.

(** The estimates are ordered, and so are their times, up to [now]. *)
Definition ordered (f : WindowedFilter) (now : Z) : Prop :=
  cmp (GetBest f) (GetSecondBest f) = true /\
  cmp (GetSecondBest f) (GetThirdBest f) = true /\
  0 <= time (estimate0 f) <= time (estimate1 f) /\
  time (estimate1 f) <= time (estimate2 f) <= now /\ now < two64.

(** Split on the tests of [Update] and reduce the record updates. *)
Local Ltac split_update :=
  unfold Update, record_sample, promote, Reset, SetWindowLength,
    GetBest, GetSecondBest, GetThirdBest in *;
  repeat match goal with
  | |- context [if ?b then _ else _] => destruct b eqn:?
  | H : context [if ?b then _ else _] |- _ => destruct b eqn:?
  end; cbn in *.

Local Ltac use_order :=
  repeat match goal with
  | H : (_ || _) = false |- _ => apply orb_false_iff in H as [? ?]
  | H : (_ && _) = true |- _ => apply andb_true_iff in H as [? ?]
  end; eauto using cmp_refl, cmp_total.

Lemma Update_all_better f s t : all_better (Update cmp f s t) s.
Proof. unfold all_better. split_update; split_and!; use_order. Qed.

Lemma older_false now s limit :
  older now s limit = false -> 0 <= time s <= now -> now < two64 -> now - time s <= limit.
Proof. unfold older. intros. rewrite u64_small in * by lia. zcases; lia. Qed.

(** The invariant the source's comment states. *)
Lemma Update_ordered f now s t :
  ordered f now -> now <= t < two64 -> ordered (Update cmp f s t) t.
Proof.
  intros (H1 & H2 & Ht1 & Ht2 & _) Ht. unfold ordered.
  split_update; split_and!; use_order; try lia.
Qed.

(** After an update the best estimate is inside the window. *)
Lemma Update_fresh f now s t :
  ordered f now -> now <= t < two64 -> 0 <= window_length_ f ->
  t - time (estimate0 (Update cmp f s t)) <= window_length_ f.
Proof.
  intros (_ & _ & Ht1 & Ht2 & _) Ht Hw.
  split_update; use_order; try lia.
  all: try (apply older_false; [done|cbn; lia|lia]).
  all: match goal with H : older ?t ?e ?w = false |- ?t - time ?e <= ?w =>
         apply older_false; [exact H|lia|lia] end.
Qed.

(** * The filter against the whole history of samples

    [h] is the list of samples fed to the filter, newest last.  An estimate
    is justified when it is one of them and nothing better came after it. *)
Definition justified (h : list (Z * Z)) (e : Sample) : Prop :=
  exists before after, h = before ++ (sample e, time e) :: after /\
    Forall (fun x => cmp (sample e) x.1 = true) after.

Definition filter_inv (h : list (Z * Z)) (f : WindowedFilter) : Prop :=
  justified h (estimate0 f) /\ justified h (estimate1 f) /\ justified h (estimate2 f).

Lemma justified_snoc h e s t :
  justified h e -> cmp (sample e) s = true -> justified (h ++ [(s, t)]) e.
Proof.
  intros (b & a & -> & Ha) Hs. exists b, (a ++ [(s, t)]). split.
  - by rewrite <- app_assoc.
  - apply Forall_app. split; [done|]. by repeat constructor.
Qed.

Lemma justified_new h s t : justified (h ++ [(s, t)]) (mkSample s t).
Proof. exists h, []. split; [done|constructor]. Qed.

Lemma Update_filter_inv h f s t :
  filter_inv h f -> filter_inv (h ++ [(s, t)]) (Update cmp f s t).
Proof.
  intros (H0 & H1 & H2). pose proof (Update_all_better f s t) as Hb.
  unfold all_better in Hb. unfold filter_inv.
  split_update; destruct Hb as (? & ? & ?);
    split_and!; eauto using justified_new, justified_snoc.
Qed.

Lemma Update_first_inv w z t0 s t :
  filter_inv [(s, t)] (Update cmp (WindowedFilter_init w z t0) s t).
Proof.
  unfold Update, WindowedFilter_init. cbn. rewrite Z.eqb_refl. cbn.
  split_and!; apply (justified_new []).
Qed.

Lemma Update_window f s t : window_length_ (Update cmp f s t) = window_length_ f.
Proof. split_update; done. Qed.

(** ** Runs of the filter

    A sender interleaves updates with changes of the window length. *)
Inductive filter_op :=
  | OpUpdate (s t : Z)
  | OpSetWindow (w : Z).

Definition run_op (f : WindowedFilter) (o : filter_op) : WindowedFilter :=
  match o with
  | OpUpdate s t => Update cmp f s t
  | OpSetWindow w => SetWindowLength f w
  end.

Fixpoint samples_of (ops : list filter_op) : list (Z * Z) :=
  match ops with
  | [] => []
  | OpUpdate s t :: ops => (s, t) :: samples_of ops
  | OpSetWindow _ :: ops => samples_of ops
  end.

(** Update times never decrease and window lengths are unsigned. *)
Fixpoint timed (now : Z) (ops : list filter_op) : Prop :=
  match ops with
  | [] => True
  | OpUpdate _ t :: ops => now <= t < two64 /\ timed t ops
  | OpSetWindow w :: ops => 0 <= w /\ timed now ops
  end.

Lemma samples_of_app o1 o2 : samples_of (o1 ++ o2) = samples_of o1 ++ samples_of o2.
Proof. induction o1 as [|[] ? IH]; cbn; [done|by rewrite IH|done]. Qed.

(** The state of the filter in the middle of a run. *)
Definition run_inv (h : list (Z * Z)) (now : Z) (f : WindowedFilter) : Prop :=
  ordered f now /\ 0 <= window_length_ f /\
  (filter_inv h f \/ h = [] /\ sample (estimate0 f) = zero_value_ f).

Lemma run_inv_update h now f s t :
  run_inv h now f -> now <= t < two64 -> run_inv (h ++ [(s, t)]) t (Update cmp f s t).
Proof.
  intros (Ho & Hw & Hi) Ht. split_and!.
  - by eapply Update_ordered.
  - by rewrite Update_window.
  - left. destruct Hi as [Hi|[-> Hz]]; [by apply Update_filter_inv|].
    unfold Update. rewrite Hz, Z.eqb_refl. cbn.
    split_and!; apply (justified_new []).
Qed.

Lemma run_inv_init w zero : 0 <= w -> run_inv [] 0 (WindowedFilter_init w zero 0).
Proof.
  intros Hw. split_and!; cbn; auto. unfold ordered, GetBest, GetSecondBest, GetThirdBest.
  cbn. split_and!; auto using cmp_refl; lia.
Qed.

Lemma run_inv_run ops rest h now f :
  run_inv h now f -> timed now (ops ++ rest) ->
  exists now', run_inv (h ++ samples_of ops) now' (foldl run_op f ops) /\ timed now' rest.
Proof.
  revert h now f; induction ops as [|[s t|w] ops IH]; intros h now f Hf Ht; cbn in *.
  - exists now. by rewrite app_nil_r.
  - destruct Ht as [Ht Hrest].
    rewrite cons_middle, app_assoc. eapply IH; [|exact Hrest].
    by eapply run_inv_update.
  - destruct Ht as [Hw Hrest]. eapply IH; [|exact Hrest].
    destruct Hf as (Ho & _ & Hi). split_and!; [exact Ho|done|exact Hi].
Qed.

(** C29. Whatever samples and window changes a filter has seen, right after an
    update at time [t]: the three estimates are ordered from best to third
    best and their times from oldest to newest; the best estimate was really
    observed, no more than one window length ago, and no sample observed
    after it was better. *)
Theorem filter_best_of_history w zero ops s t :
  0 <= w -> timed 0 (ops ++ [OpUpdate s t]) ->
  let f := foldl run_op (WindowedFilter_init w zero 0) (ops ++ [OpUpdate s t]) in
  ordered f t /\
  t - time (estimate0 f) <= window_length_ f /\
  exists before after,
    samples_of ops ++ [(s, t)] = before ++ (GetBest f, time (estimate0 f)) :: after /\
    Forall (fun x => cmp (GetBest f) x.1 = true) after.
Proof.
  intros Hw Hops. cbn zeta. rewrite foldl_app. cbn [foldl run_op].
  destruct (run_inv_run ops _ [] 0 _ (run_inv_init w zero Hw) Hops) as (now & Hinv & Ht & _).
  destruct (run_inv_update _ _ _ s t Hinv Ht) as (Ho & _ & Hi).
  split_and!; [done| |].
  - rewrite Update_window. destruct Hinv as (Ho' & Hw' & _). by eapply Update_fresh.
  - destruct Hi as [(Hj & _)|[Hn _]]; [exact Hj|]. by destruct (samples_of ops).
Qed.
End properties.

Lemma filter_best_of_history_witness :
  let ops := [OpUpdate 50 1000; OpUpdate 40 2000; OpSetWindow 3000; OpUpdate 60 4000] in
  let f := foldl (run_op MinFilter) (WindowedFilter_init 10000 0 0) (ops ++ [OpUpdate 70 5500]) in
  GetBest f = 60 /\ 5500 - time (estimate0 f) <= 3000.
Proof.
  cbn zeta. split; [vm_compute; reflexivity|].
  pose proof (filter_best_of_history MinFilter 10000 0
    [OpUpdate 50 1000; OpUpdate 40 2000; OpSetWindow 3000; OpUpdate 60 4000] 70 5500) as H.
  cbn zeta in H. destruct H as (_ & H & _); [lia|cbn; lia|exact H].
Defined.

(** * The filter as the senders use it: the least of a stream of RTTs *)

(** An RTT filter: no sample yet, or three positive samples. *)
Definition rtt_filter_inv (f : WindowedFilter) : Prop :=
  zero_value_ f = 0 /\
  (sample (estimate0 f) = 0 \/
   0 < sample (estimate0 f) < 2 ^ 62 /\ 0 < sample (estimate1 f) < 2 ^ 62 /\
   0 < sample (estimate2 f) < 2 ^ 62).

Lemma rtt_filter_update f r t :
  rtt_filter_inv f -> 0 < r < 2 ^ 62 ->
  rtt_filter_inv (Update MinFilter f r t) /\ 0 < GetBest (Update MinFilter f r t) <= r.
Proof.
  intros [Hz Hf] Hr.
  assert (Hle : GetBest (Update MinFilter f r t) <= r).
  { destruct (Update_all_better MinFilter f r t) as [H _]. unfold MinFilter in H. by apply Z.leb_le. }
  cut (rtt_filter_inv (Update MinFilter f r t) /\ 0 < GetBest (Update MinFilter f r t)); [tauto|].
  clear Hle. unfold Update, record_sample, promote, Reset, GetBest, rtt_filter_inv. rewrite Hz.
  destruct Hf as [H0|Hf]; [rewrite H0; cbn; lia|].
  repeat match goal with |- context [if ?b then _ else _] => destruct b end; cbn; lia.
Qed.

Lemma rtt_filter_window f w : rtt_filter_inv f -> rtt_filter_inv (SetWindowLength f w).
Proof. done. Qed.

(** While the best estimate is inside the window, the filter is the minimum. *)
Lemma Update_unexpired f now r t :
  ordered MinFilter f now -> now <= t < two64 -> t - time (estimate0 f) <= window_length_ f ->
  sample (estimate0 f) <> zero_value_ f ->
  GetBest (Update MinFilter f r t) = Z.min (GetBest f) r.
Proof.
  intros (H1 & H2 & Ht1 & Ht2 & _) Ht Hw Hz. unfold Update, older, GetBest.
  rewrite (u64_small (t - time (estimate2 f))) by lia.
  destruct (Z.eqb_spec (sample (estimate0 f)) (zero_value_ f)); [done|].
  destruct (Z.ltb_spec (window_length_ f) (t - time (estimate2 f))); [lia|].
  unfold MinFilter at 1. destruct (Z.leb_spec r (sample (estimate0 f))); cbn; [lia|].
  assert (E : estimate0 (record_sample MinFilter f r t) = estimate0 f /\
              window_length_ (record_sample MinFilter f r t) = window_length_ f)
    by (unfold record_sample; by repeat case_match).
  set (g := record_sample MinFilter f r t) in *. clearbody g. destruct E as [E0 Ew].
  rewrite E0, Ew, (u64_small (t - time (estimate0 f))) by lia.
  destruct (Z.ltb_spec (window_length_ f) (t - time (estimate0 f))); [lia|].
  repeat match goal with |- context [if ?b then _ else _] => destruct b end; cbn; rewrite ?E0; lia.
Qed.

(** What holds of every sample fed to a filter holds of its estimates. *)
Definition filter_all (Q : Z -> Prop) (f : WindowedFilter) : Prop :=
  zero_value_ f = 0 /\ Q (sample (estimate0 f)) /\ Q (sample (estimate1 f)) /\ Q (sample (estimate2 f)).
Lemma filter_all_update Q f b t : filter_all Q f -> Q b -> filter_all Q (Update MaxFilter f b t).
Proof.
  intros (F0 & F1 & F2 & F3) Hb. unfold Update, Reset, promote, record_sample. repeat case_match; unfold filter_all; cbn; split_and!; try done.
Qed.
