(* ===== verification/RttStats.v ===== *)
(** [RttStats] (rtt_stats.h, rtt_stats.cc): the round-trip-time estimator every
    sender reads.  The smoothed average is computed in [double] through
    [operator*(double, Delta)], the mean deviation in [float]. *)

From Stdlib Require Import SpecFloat.
From S2P Require Import Prelude Float QuicTime.

(** * State *)

(** src/quiche/gquiche/quic/core/congestion_control/rtt_stats.h:29-42 [StandardDeviationCaculator] *)
Record StandardDeviationCaculator := mkStdDev {
  has_valid_standard_deviation : bool;
  m2 : spec_float;
}.
#[export] Instance eta_StdDev : Eta StandardDeviationCaculator := MkEta _ (fun s =>
  mkStdDev (has_valid_standard_deviation s) (m2 s)).

(** src/quiche/gquiche/quic/core/congestion_control/rtt_stats.h:119-134 [RttStats] *)
Record RttStats := mkRttStats {
  latest_rtt_ : Delta;
  min_rtt_ : Delta;
  smoothed_rtt_ : Delta;
  previous_srtt_ : Delta;
  mean_deviation_ : Delta;
  standard_deviation_calculator_ : StandardDeviationCaculator;
  calculate_standard_deviation_ : bool;
  initial_rtt_ : Delta;
  last_update_time_ : QuicTime;
  ignore_max_ack_delay_ : bool;
}.
#[export] Instance eta_RttStats : Eta RttStats := MkEta _ (fun s =>
  mkRttStats (latest_rtt_ s) (min_rtt_ s) (smoothed_rtt_ s) (previous_srtt_ s)
    (mean_deviation_ s) (standard_deviation_calculator_ s) (calculate_standard_deviation_ s)
    (initial_rtt_ s) (last_update_time_ s) (ignore_max_ack_delay_ s)).

(** src/quiche/gquiche/quic/core/congestion_control/rtt_stats.cc:17-17 [kAlpha] *)
Definition kAlpha : spec_float := f32_lit 1 (-3).
(** src/quiche/gquiche/quic/core/congestion_control/rtt_stats.cc:18-18 [kOneMinusAlpha] *)
Definition kOneMinusAlpha : spec_float := f32_sub (f32_of_Z 1) kAlpha.
(** src/quiche/gquiche/quic/core/congestion_control/rtt_stats.cc:19-19 [kBeta] *)
Definition kBeta : spec_float := f32_lit 1 (-2).
(** src/quiche/gquiche/quic/core/congestion_control/rtt_stats.cc:20-20 [kOneMinusBeta] *)
Definition kOneMinusBeta : spec_float := f32_sub (f32_of_Z 1) kBeta.

(** * Operations *)

(** src/quiche/gquiche/quic/core/congestion_control/rtt_stats.cc:24-33 [RttStats::RttStats] *)
Definition RttStats_init : RttStats :=
  mkRttStats Delta_Zero Delta_Zero Delta_Zero Delta_Zero Delta_Zero
    (mkStdDev false (S754_zero false)) false
    (Delta_FromMilliseconds kInitialRttMs) QuicTime_Zero false.

(** src/quiche/gquiche/quic/core/congestion_control/rtt_stats.cc:35-40 [RttStats::ExpireSmoothedMetrics] *)
Definition ExpireSmoothedMetrics (s : RttStats) : RttStats :=
  let s := s <| mean_deviation_ :=
    Z.max (mean_deviation_ s)
      (Delta_FromMicroseconds (Z.abs (Delta_sub (smoothed_rtt_ s) (latest_rtt_ s)))) |> in
  s <| smoothed_rtt_ := Z.max (smoothed_rtt_ s) (latest_rtt_ s) |>.

(** src/quiche/gquiche/quic/core/congestion_control/rtt_stats.cc:113-123 [StandardDeviationCaculator::OnNewRttSample].
    [pow(delta, 2)] is the correctly rounded square. *)
Definition OnNewRttSample (c : StandardDeviationCaculator) (rtt_sample smoothed_rtt : Delta)
    : StandardDeviationCaculator :=
  let new_value := f64_of_Z rtt_sample in
  if Delta_IsZero smoothed_rtt then c
  else
    let delta := f64_sub new_value (f64_of_Z smoothed_rtt) in
    c <| has_valid_standard_deviation := true |>
      <| m2 := f64_add (f64_mul (f64_of_f32 kOneMinusBeta) (m2 c))
                       (f64_mul (f64_of_f32 kBeta) (f64_mul delta delta)) |>.

(** src/quiche/gquiche/quic/core/congestion_control/rtt_stats.cc:126-129 [StandardDeviationCaculator::CalculateStandardDeviation] *)
Definition CalculateStandardDeviation (c : StandardDeviationCaculator) : result Delta :=
  let* _ := CHECK (has_valid_standard_deviation c) in
  let* us := float_to_i64 (f64_sqrt (m2 c)) in
  Ok (Delta_FromMicroseconds us).

(** src/quiche/gquiche/quic/core/congestion_control/rtt_stats.cc:73-77 [RttStats::UpdateRtt, ack-delay correction] *)
Definition correct_for_ack_delay (rtt_sample min_rtt ack_delay : Delta) : Delta :=
  if (ack_delay <? rtt_sample) && (ack_delay <=? Delta_sub rtt_sample min_rtt)
  then Delta_sub rtt_sample ack_delay else rtt_sample.

(** src/quiche/gquiche/quic/core/congestion_control/rtt_stats.cc:88-90 [RttStats::UpdateRtt, mean deviation] *)
Definition next_mean_deviation (mean_deviation smoothed_rtt rtt_sample : Delta) : result Delta :=
  let* us := float_to_i64
    (f32_add (f32_mul kOneMinusBeta (f32_of_Z mean_deviation))
             (f32_mul kBeta (f32_of_Z (Z.abs (Delta_sub smoothed_rtt rtt_sample))))) in
  Ok (Delta_FromMicroseconds us).

(** src/quiche/gquiche/quic/core/congestion_control/rtt_stats.cc:91-91 [RttStats::UpdateRtt, smoothed RTT] *)
Definition next_smoothed_rtt (smoothed_rtt rtt_sample : Delta) : result Delta :=
  let* old := Delta_mul_double smoothed_rtt (f64_of_f32 kOneMinusAlpha) in
  let* new := Delta_mul_double rtt_sample (f64_of_f32 kAlpha) in
  Ok (Delta_add old new).

(** src/quiche/gquiche/quic/core/congestion_control/rtt_stats.cc:43-95 [RttStats::UpdateRtt] *)
Definition UpdateRtt (s : RttStats) (send_delta ack_delay : Delta) (now : QuicTime)
    : result RttStats :=
  if Delta_IsInfinite send_delta || (send_delta <=? Delta_Zero) then Ok s
  else
    let s := s <| last_update_time_ := now |> in
    let s := if Delta_IsZero (min_rtt_ s) || (send_delta <? min_rtt_ s)
             then s <| min_rtt_ := send_delta |> else s in
    let s := s <| previous_srtt_ := smoothed_rtt_ s |> in
    let ack_delay := if ignore_max_ack_delay_ s then Delta_Zero else ack_delay in
    let rtt_sample := correct_for_ack_delay send_delta (min_rtt_ s) ack_delay in
    let s := s <| latest_rtt_ := rtt_sample |> in
    let s := if calculate_standard_deviation_ s
             then s <| standard_deviation_calculator_ :=
                    OnNewRttSample (standard_deviation_calculator_ s) rtt_sample (smoothed_rtt_ s) |>
             else s in
    if Delta_IsZero (smoothed_rtt_ s) then
      Ok (s <| smoothed_rtt_ := rtt_sample |>
            <| mean_deviation_ := Delta_FromMicroseconds (Z.quot rtt_sample 2) |>)
    else
      let* md := next_mean_deviation (mean_deviation_ s) (smoothed_rtt_ s) rtt_sample in
      let* sr := next_smoothed_rtt (smoothed_rtt_ s) rtt_sample in
      Ok (s <| mean_deviation_ := md |> <| smoothed_rtt_ := sr |>).

(** src/quiche/gquiche/quic/core/congestion_control/rtt_stats.cc:97-103 [RttStats::OnConnectionMigration] *)
Definition RttStats_OnConnectionMigration (s : RttStats) : RttStats :=
  s <| latest_rtt_ := Delta_Zero |> <| min_rtt_ := Delta_Zero |>
    <| smoothed_rtt_ := Delta_Zero |> <| mean_deviation_ := Delta_Zero |>
    <| initial_rtt_ := Delta_FromMilliseconds kInitialRttMs |>.

(** src/quiche/gquiche/quic/core/congestion_control/rtt_stats.cc:105-111 [RttStats::GetStandardOrMeanDeviation] *)
Definition GetStandardOrMeanDeviation (s : RttStats) : result Delta :=
  let* _ := CHECK (calculate_standard_deviation_ s) in
  if negb (has_valid_standard_deviation (standard_deviation_calculator_ s))
  then Ok (mean_deviation_ s)
  else CalculateStandardDeviation (standard_deviation_calculator_ s).

(** src/quiche/gquiche/quic/core/congestion_control/rtt_stats.cc:131-142 [RttStats::CloneFrom] *)
Definition CloneFrom (s stats : RttStats) : RttStats :=
  s <| latest_rtt_ := latest_rtt_ stats |> <| min_rtt_ := min_rtt_ stats |>
    <| smoothed_rtt_ := smoothed_rtt_ stats |> <| previous_srtt_ := previous_srtt_ stats |>
    <| mean_deviation_ := mean_deviation_ stats |>
    <| standard_deviation_calculator_ := standard_deviation_calculator_ stats |>
    <| calculate_standard_deviation_ := calculate_standard_deviation_ stats |>
    <| initial_rtt_ := initial_rtt_ stats |> <| last_update_time_ := last_update_time_ stats |>
    <| ignore_max_ack_delay_ := ignore_max_ack_delay_ stats |>.

(** src/quiche/gquiche/quic/core/congestion_control/rtt_stats.h:71-73 [RttStats::SmoothedOrInitialRtt] *)
Definition SmoothedOrInitialRtt (s : RttStats) : Delta :=
  if Delta_IsZero (smoothed_rtt_ s) then initial_rtt_ s else smoothed_rtt_ s.
(** src/quiche/gquiche/quic/core/congestion_control/rtt_stats.h:75-77 [RttStats::MinOrInitialRtt] *)
Definition MinOrInitialRtt (s : RttStats) : Delta :=
  if Delta_IsZero (min_rtt_ s) then initial_rtt_ s else min_rtt_ s.
(** src/quiche/gquiche/quic/core/congestion_control/rtt_stats.h:80-86 [RttStats::set_initial_rtt].
    Its [QUIC_BUG] is fatal in this build. *)
Definition set_initial_rtt (s : RttStats) (initial_rtt : Delta) : result RttStats :=
  if initial_rtt <=? 0 then Fault CheckFailed else Ok (s <| initial_rtt_ := initial_rtt |>).
(** src/quiche/gquiche/quic/core/congestion_control/rtt_stats.h:106-108 [RttStats::set_ignore_max_ack_delay] *)
Definition set_ignore_max_ack_delay (s : RttStats) (b : bool) : RttStats :=
  s <| ignore_max_ack_delay_ := b |>.
(** src/quiche/gquiche/quic/core/congestion_control/rtt_stats.h:110-112 [RttStats::EnableStandardDeviationCalculation] *)
Definition EnableStandardDeviationCalculation (s : RttStats) : RttStats :=
  s <| calculate_standard_deviation_ := true |>.

(** * The arithmetic of one update *)

(** The bound on RTTs under which no conversion can overflow: 2^45 us is over
    a year. *)
Abbreviation rtt_bound := (2 ^ 45) (only parsing).

Lemma kOneMinusAlpha_val : f64_of_f32 kOneMinusAlpha = f64_lit 7 (-3).
Proof. vm_compute. reflexivity. Qed.
Lemma kAlpha_val : f64_of_f32 kAlpha = f64_lit 1 (-3).
Proof. vm_compute. reflexivity. Qed.

Lemma llround_small x z : float_round x = Some z -> - two63 <= z < two63 -> float_llround x = Ok z.
Proof. unfold float_llround. intros -> Hz. cbn. zcases; [done|lia..]. Qed.

Lemma div16_bounds n : 0 <= n -> 0 <= n / 16 <= n.
Proof. intros. split; [apply Z.div_pos; lia|]. apply Z.div_le_upper_bound; lia. Qed.

(** The smoothed average, as the integers compute it. *)
Lemma next_smoothed_rtt_val s r :
  0 < s <= rtt_bound + 1 -> 0 < r <= rtt_bound ->
  next_smoothed_rtt s r = Ok ((14 * s + 8) / 16 + (2 * r + 8) / 16).
Proof.
  intros Hs Hr. unfold next_smoothed_rtt, Delta_mul_double.
  rewrite kOneMinusAlpha_val, kAlpha_val.
  pose proof (div16_bounds (14 * s + 8) ltac:(lia)). pose proof (div16_bounds (2 * r + 8) ltac:(lia)).
  assert (H1 : float_round (f64_mul (f64_of_Z s) (f64_lit 7 (- (3)))) = Some ((14 * s + 8) / 16)).
  { rewrite (f64_scale_round s 7 3 7881299347898368 (-53)); try done; try lia. do 2 f_equal. lia. }
  assert (H2 : float_round (f64_mul (f64_of_Z r) (f64_lit 1 (- (3)))) = Some ((2 * r + 8) / 16)).
  { rewrite (f64_scale_round r 1 3 4503599627370496 (-55)); try done; try lia. do 2 f_equal. lia. }
  change (- (3)) with (-3) in H1, H2. rewrite (llround_small _ _ H1), (llround_small _ _ H2) by lia. cbn [rbind].
  unfold Delta_add. rewrite i64_small by lia. done.
Qed.

(** The average stays between the bounds of its arguments, up to one
    microsecond of rounding above. *)
Lemma next_smoothed_rtt_bounds lo hi s r :
  0 < lo <= hi -> hi <= rtt_bound -> lo <= s <= hi + 1 -> lo <= r <= hi ->
  exists s', next_smoothed_rtt s r = Ok s' /\ lo <= s' <= hi + 1.
Proof.
  intros Hlo Hhi Hs Hr. rewrite next_smoothed_rtt_val by lia. eexists; split; [done|].
  pose proof (Z.div_mod (14 * s + 8) 16 ltac:(lia)). pose proof (Z.mod_pos_bound (14 * s + 8) 16).
  pose proof (Z.div_mod (2 * r + 8) 16 ltac:(lia)). pose proof (Z.mod_pos_bound (2 * r + 8) 16).
  lia.
Qed.

Lemma mean_deviation_term k a c lo hi :
  mag_in k lo hi -> -2 <= lo -> hi <= 0 -> fle k c (-2) -> 0 < c <= 3 -> 0 <= a <= 2 ^ 46 ->
  mag0_in (f32_mul k (f32_of_Z a)) (-60) 60 /\ fle (f32_mul k (f32_of_Z a)) c 44.
Proof.
  intros Hk Hlo Hhi Hfk Hc Ha.
  pose proof (f32_of_Z_mag0 a 47 ltac:(lia) ltac:(lia)) as Hm.
  assert (Hp : mag0_in (f32_mul k (f32_of_Z a)) (-60) 60).
  { eapply mag0_widen; [eapply f32_mul_mag0; [exact Hk|exact Hm|lia|lia]|lia|lia]. }
  split; [done|]. replace c with (c * 1) by lia. replace 44 with (-2 + 46) by lia.
  apply SFmul_fle; try done; try lia.
  - apply fle_of_Z32; lia.
  - right. destruct k as [| | |[] ? ?]; cbn in *; try done. lia.
  - eapply mag0_widen; [exact Hm|lia|lia].
  - eapply mag0_widen; [exact Hp|lia|lia].
Qed.

Lemma next_mean_deviation_bounds md s r :
  0 <= md <= 2 ^ 46 -> 0 <= s <= 2 ^ 46 -> 0 <= r <= 2 ^ 46 ->
  exists md', next_mean_deviation md s r = Ok md' /\ 0 <= md' <= 2 ^ 46.
Proof.
  intros Hm Hs Hr. unfold next_mean_deviation, Delta_sub. rewrite i64_small by lia.
  destruct (mean_deviation_term kOneMinusBeta md 3 0 0) as [M1 L1]; [done|lia|lia|done|lia|lia|].
  destruct (mean_deviation_term kBeta (Z.abs (s - r)) 1 (-1) (-1)) as [M2 L2];
    [done|lia|lia|done|lia|lia|].
  set (x := f32_mul kOneMinusBeta _) in *. set (y := f32_mul kBeta _) in *.
  assert (Ma : mag0_in (f32_add x y) (-60) 62).
  { eapply mag0_widen; [apply (f32_add_mag0 _ _ _ _ _ _ M1 M2)|..]; lia. }
  assert (La : fle (f32_add x y) (3 + 1) 44).
  { apply SFadd_fle; try done; try lia; eapply mag0_widen; eauto; lia. }
  destruct (fle_trunc _ _ _ La ltac:(lia) ltac:(lia)) as (z & Hz & Hzr).
  unfold float_to_i64. rewrite Hz. cbn [cast_range].
  exists z. destruct (Z.leb_spec (- two63) z); [|lia]. destruct (Z.ltb_spec z two63); [|lia].
  cbn. unfold Delta_FromMicroseconds. rewrite i64_small by lia. split; [done|lia].
Qed.

(** * Runs of the estimator *)

Inductive rtt_op :=
  | OpUpdateRtt (send_delta ack_delay : Delta) (now : QuicTime)
  | OpExpireSmoothedMetrics
  | OpConnectionMigration
  | OpSetInitialRtt (d : Delta)
  | OpSetIgnoreMaxAckDelay (b : bool)
  | OpEnableStandardDeviation.

Definition rtt_step (s : RttStats) (o : rtt_op) : result RttStats :=
  match o with
  | OpUpdateRtt d a t => UpdateRtt s d a t
  | OpExpireSmoothedMetrics => Ok (ExpireSmoothedMetrics s)
  | OpConnectionMigration => Ok (RttStats_OnConnectionMigration s)
  | OpSetInitialRtt d => set_initial_rtt s d
  | OpSetIgnoreMaxAckDelay b => Ok (set_ignore_max_ack_delay s b)
  | OpEnableStandardDeviation => Ok (EnableStandardDeviationCalculation s)
  end.

(** A send delta the estimator accepts. *)
Definition valid_delta (d : Delta) : bool := negb (Delta_IsInfinite d || (d <=? Delta_Zero)).

(** The accepted send deltas since the last migration. *)
Definition rtt_history (h : list Delta) (o : rtt_op) : list Delta :=
  match o with
  | OpUpdateRtt d _ _ => if valid_delta d then h ++ [d] else h
  | OpConnectionMigration => []
  | _ => h
  end.

(** Accepted deltas are below the bound, reported ack delays are not
    negative, and an initial RTT is positive. *)
Definition rtt_op_ok (o : rtt_op) : Prop :=
  match o with
  | OpUpdateRtt d a _ => (valid_delta d = true -> d <= rtt_bound) /\ 0 <= a < two63
  | OpSetInitialRtt d => 0 < d
  | _ => True
  end.

Definition rtt_measured (h : list Delta) (s : RttStats) : Prop :=
  (min_rtt_ s ∈ h) /\ Forall (fun d => min_rtt_ s <= d) h /\
  exists hi, (hi ∈ h) /\ Forall (fun d => d <= hi) h /\
    0 < min_rtt_ s /\ hi <= rtt_bound /\
    min_rtt_ s <= latest_rtt_ s <= hi /\ min_rtt_ s <= smoothed_rtt_ s <= hi + 1 /\
    0 <= mean_deviation_ s <= 2 ^ 46.

Definition rtt_inv (h : list Delta) (s : RttStats) : Prop :=
  (h = [] /\ min_rtt_ s = 0 /\ smoothed_rtt_ s = 0 /\ latest_rtt_ s = 0 /\ mean_deviation_ s = 0)
  \/ rtt_measured h s.

Lemma correct_for_ack_delay_bounds d m a :
  0 < m <= d -> d <= rtt_bound -> 0 <= a < two63 ->
  m <= correct_for_ack_delay d m a <= d.
Proof.
  intros Hm Hd Ha. unfold correct_for_ack_delay, Delta_sub.
  rewrite (i64_small (d - m)) by lia. zcases; try lia. rewrite i64_small by lia. lia.
Qed.

(** The extreme samples of a history extended by one. *)
Lemma min_snoc h m d :
  (m ∈ h) -> Forall (fun x => m <= x) h ->
  (Z.min m d ∈ h ++ [d]) /\ Forall (fun x => Z.min m d <= x) (h ++ [d]).
Proof.
  intros Hin Hall. split.
  - destruct (Z.min_spec m d) as [[_ ->]|[_ ->]]; set_solver.
  - apply Forall_app. split; [|repeat constructor; lia].
    eapply Forall_impl; [exact Hall|]. cbn; lia.
Qed.

Lemma max_snoc h m d :
  (m ∈ h) -> Forall (fun x => x <= m) h ->
  (Z.max m d ∈ h ++ [d]) /\ Forall (fun x => x <= Z.max m d) (h ++ [d]).
Proof.
  intros Hin Hall. split.
  - destruct (Z.max_spec m d) as [[_ ->]|[_ ->]]; set_solver.
  - apply Forall_app. split; [|repeat constructor; lia].
    eapply Forall_impl; [exact Hall|]. cbn; lia.
Qed.

(** What an accepted sample does to the three estimates. *)
Lemma UpdateRtt_accepted s d a t :
  valid_delta d = true ->
  let m := if Delta_IsZero (min_rtt_ s) || (d <? min_rtt_ s) then d else min_rtt_ s in
  let r := correct_for_ack_delay d m (if ignore_max_ack_delay_ s then 0 else a) in
  (smoothed_rtt_ s = 0 -> exists s', UpdateRtt s d a t = Ok s' /\ min_rtt_ s' = m /\
     latest_rtt_ s' = r /\ smoothed_rtt_ s' = r /\ mean_deviation_ s' = i64 (Z.quot r 2)) /\
  (forall md sr, smoothed_rtt_ s <> 0 ->
     next_mean_deviation (mean_deviation_ s) (smoothed_rtt_ s) r = Ok md ->
     next_smoothed_rtt (smoothed_rtt_ s) r = Ok sr ->
     exists s', UpdateRtt s d a t = Ok s' /\ min_rtt_ s' = m /\
       latest_rtt_ s' = r /\ smoothed_rtt_ s' = sr /\ mean_deviation_ s' = md).
Proof.
  intros Hd. unfold valid_delta in Hd. apply negb_true_iff in Hd. cbn zeta.
  unfold UpdateRtt. rewrite Hd. unfold Delta_IsZero, Delta_Zero in *. cbn.
  destruct (_ || (d <? min_rtt_ s)); destruct (calculate_standard_deviation_ s) eqn:Ec; cbn;
    rewrite ?Ec; cbn.
  all: split; [intros -> | intros md sr Hne Hmd Hsr; rewrite (proj2 (Z.eqb_neq _ _)) by done].
  all: try (rewrite Hmd, Hsr); cbn; eauto 10.
Qed.

Lemma UpdateRtt_inv h s d a t :
  rtt_inv h s -> rtt_op_ok (OpUpdateRtt d a t) ->
  exists s', UpdateRtt s d a t = Ok s' /\ rtt_inv (rtt_history h (OpUpdateRtt d a t)) s'.
Proof.
  intros Hinv [Hb Ha]. cbn [rtt_history]. destruct (valid_delta d) eqn:Hv.
  2:{ unfold valid_delta in Hv. apply negb_false_iff in Hv. unfold UpdateRtt. rewrite Hv. eauto. }
  specialize (Hb eq_refl). pose proof (UpdateRtt_accepted s d a t Hv) as [Hfirst Hnext].
  unfold valid_delta, Delta_IsInfinite, Delta_Zero in Hv.
  assert (0 < d) by (zcases; try discriminate; lia). clear Hv.
  set (m := if Delta_IsZero (min_rtt_ s) || (d <? min_rtt_ s) then d else min_rtt_ s) in *.
  set (a' := if ignore_max_ack_delay_ s then 0 else a) in *.
  set (r := correct_for_ack_delay d m a') in *.
  assert (Ha' : 0 <= a' < two63) by (unfold a'; destruct (ignore_max_ack_delay_ s); lia).
  destruct Hinv as [(-> & Hm0 & Hs0 & _)|(Hmin & Hall & hi & Hhi & Hallhi & Hpos & Hhib & Hl & Hs & Hmd)].
  - assert (Em : m = d) by (unfold m, Delta_IsZero; rewrite Hm0; done).
    pose proof (correct_for_ack_delay_bounds d m a' ltac:(lia) Hb Ha') as Hr. fold r in Hr.
    destruct (Hfirst Hs0) as (s' & -> & E1 & E2 & E3 & E4). eexists; split; [done|]. right.
    assert (0 <= Z.quot r 2 <= r) by (split; [apply Z.quot_pos; lia|apply Z.quot_le_upper_bound; lia]).
    rewrite i64_small in E4 by lia.
    unfold rtt_measured. rewrite E1, E2, E3, E4, Em. cbn [app].
    split_and!; [set_solver|repeat constructor; lia|].
    exists d. split_and!; [set_solver|repeat constructor; lia|lia..].
  - assert (Em : m = Z.min (min_rtt_ s) d) by (unfold m, Delta_IsZero; zcases; lia).
    pose proof (correct_for_ack_delay_bounds d m a' ltac:(lia) Hb Ha') as Hr. fold r in Hr.
    destruct (next_mean_deviation_bounds (mean_deviation_ s) (smoothed_rtt_ s) r)
      as (md & Emd & Bmd); [lia|lia|lia|].
    destruct (next_smoothed_rtt_bounds m (Z.max hi d) (smoothed_rtt_ s) r) as (sr & Esr & Bsr);
      [lia|lia|lia|lia|].
    destruct (Hnext md sr ltac:(lia) Emd Esr) as (s' & -> & E1 & E2 & E3 & E4).
    eexists; split; [done|]. right. unfold rtt_measured. rewrite E1, E2, E3, E4.
    destruct (min_snoc h (min_rtt_ s) d Hmin Hall) as [? ?].
    destruct (max_snoc h hi d Hhi Hallhi) as [? ?]. rewrite <- Em in *.
    split_and!; [done|done|]. exists (Z.max hi d). split_and!; [done|done|lia..].
Qed.

Lemma rtt_step_inv h s o :
  rtt_inv h s -> rtt_op_ok o ->
  exists s', rtt_step s o = Ok s' /\ rtt_inv (rtt_history h o) s'.
Proof.
  intros Hinv Hok. destruct o as [d a t| | |d|b|]; cbn [rtt_step rtt_history].
  - by apply UpdateRtt_inv.
  - eexists; split; [done|].
    unfold rtt_inv, rtt_measured, ExpireSmoothedMetrics, Delta_sub, Delta_FromMicroseconds. cbn.
    destruct Hinv as [(-> & -> & -> & -> & ->)|(? & ? & hi & ? & ? & ? & ? & ? & ? & ?)]; [by left|right].
    wrap_small. split_and!; [done|done|]. exists hi. split_and!; [done|done|lia..].
  - eexists; split; [done|]. by left.
  - cbn in Hok. unfold set_initial_rtt. rewrite (proj2 (Z.leb_gt _ _) Hok). by eexists.
  - eexists; split; [done|]. done.
  - eexists; split; [done|]. done.
Qed.

(** C28. The estimates are bracketed by the samples: over any sequence of
    operations with accepted send deltas up to 2^45 us, ack delays that are not
    negative and positive initial RTTs, no operation faults, [min_rtt_] is the
    least send delta accepted since the last connection migration, the latest
    RTT lies between it and the largest one, and the smoothed RTT between it and
    one microsecond (of rounding) above the largest one.  Before any sample, all three
    are zero.  An initial RTT that is not positive is the one call that is fatal
    whatever the state. *)
Theorem rtt_estimates_bracketed ops :
  Forall rtt_op_ok ops ->
  let h := foldl rtt_history [] ops in
  (forall s d, d <= 0 -> rtt_step s (OpSetInitialRtt d) = Fault CheckFailed) /\
  exists s, rfold rtt_step ops RttStats_init = Ok s /\
    (h = [] -> min_rtt_ s = 0 /\ latest_rtt_ s = 0 /\ smoothed_rtt_ s = 0) /\
    (h <> [] -> (min_rtt_ s ∈ h) /\ Forall (fun d => min_rtt_ s <= d) h /\
       exists hi, (hi ∈ h) /\ Forall (fun d => d <= hi) h /\
         min_rtt_ s <= latest_rtt_ s <= hi /\ min_rtt_ s <= smoothed_rtt_ s <= hi + 1).
Proof.
  intros Hok. cbn zeta. split.
  { intros s d Hd. cbn. unfold set_initial_rtt. by rewrite (proj2 (Z.leb_le _ _) Hd). }
  assert (Hrun : forall ops h s, Forall rtt_op_ok ops -> rtt_inv h s ->
    exists s', rfold rtt_step ops s = Ok s' /\ rtt_inv (foldl rtt_history h ops) s').
  { clear ops Hok. induction ops as [|o ops IH]; intros h s Ho Hs; cbn; [eauto|].
    apply Forall_cons in Ho as [Ho1 Ho].
    destruct (rtt_step_inv h s o Hs Ho1) as (s' & -> & Hs'). cbn. by apply IH. }
  destruct (Hrun ops [] RttStats_init Hok) as (s & Hs & Hinv); [by left|].
  exists s. split; [done|]. destruct Hinv as [(-> & ? & ? & ? & ?)|(Hm & Hall & hi & ? & ? & ? & ? & ?)].
  - done.
  - split; [intros E; rewrite E in Hm; set_solver|]. intros _. split_and!; [done|done|].
    exists hi. naive_solver.
Qed.

Lemma rtt_estimates_bracketed_witness :
  exists s, rfold rtt_step
    [OpSetInitialRtt 200000; OpUpdateRtt 300000 0 10; OpConnectionMigration; OpEnableStandardDeviation;
     OpUpdateRtt 100000 5000 20; OpUpdateRtt (-7) 0 30; OpUpdateRtt 60000 0 40;
     OpExpireSmoothedMetrics; OpUpdateRtt 90000 25000 50] RttStats_init = Ok s /\
    Forall (fun d => min_rtt_ s <= d) [100000; 60000; 90000] /\
    min_rtt_ s = 60000 /\ latest_rtt_ s = 65000 /\ smoothed_rtt_ s = 91250.
Proof.
  pose proof (rtt_estimates_bracketed
    [OpSetInitialRtt 200000; OpUpdateRtt 300000 0 10; OpConnectionMigration; OpEnableStandardDeviation;
     OpUpdateRtt 100000 5000 20; OpUpdateRtt (-7) 0 30; OpUpdateRtt 60000 0 40;
     OpExpireSmoothedMetrics; OpUpdateRtt 90000 25000 50]) as H.
  cbn zeta in H. destruct H as (_ & s & Hs & _ & H).
  - repeat constructor; cbn; try lia.
  - exists s. split; [exact Hs|]. split; [apply H; discriminate|].
    vm_compute in Hs. injection Hs as <-. split_and!; reflexivity.
Defined.
