(* ===== verification/SendAlgorithm.v ===== *)
(** What the congestion controllers have in common: the packet vectors they are
    told about and the statistics they update (quic_types.h,
    quic_connection_stats.h, quic_time_accumulator.h), the interface they
    implement (send_algorithm_interface.h) as a class of operations, and the
    laws a client of that interface relies on as a second class. *)

From S2P Require Import Prelude QuicTime PacketNumber RttStats.

(** * Data *)

(** src/quiche/gquiche/quic/core/quic_types.h:561-580 [AckedPacket] *)
Record AckedPacket := mkAcked {
  acked_packet_number : QuicPacketNumber;
  bytes_acked : Z;
  receive_timestamp : QuicTime;
}.

(** src/quiche/gquiche/quic/core/quic_types.h:586-597 [LostPacket] *)
Record LostPacket := mkLost {
  lost_packet_number : QuicPacketNumber;
  bytes_lost : Z;
}.

(** src/quiche/gquiche/quic/core/quic_types.h:197-200 [HasRetransmittableData] *)
Inductive HasRetransmittableData := NO_RETRANSMITTABLE_DATA | HAS_RETRANSMITTABLE_DATA.
#[export] Instance HasRetransmittableData_eq_dec : EqDecision HasRetransmittableData.
Proof. solve_decision. Defined.

(** src/quiche/gquiche/quic/core/quic_types.h:443-444 [CongestionControlType].
    The experiment's own controllers extend the enumeration, so a type is its
    integer value. *)
Definition kCubicBytes : Z := 0.
(** src/quiche/gquiche/quic/core/quic_types.h:445-445 [CongestionControlType] *)
Definition kRenoBytes : Z := 1.
(** src/quiche/gquiche/quic/core/quic_types.h:446-446 [CongestionControlType] *)
Definition kBBR : Z := 2.
(** src/quiche/gquiche/quic/core/quic_types.h:447-447 [CongestionControlType] *)
Definition kPCC : Z := 3.
(** src/quiche/gquiche/quic/core/quic_types.h:448-448 [CongestionControlType] *)
Definition kGoogCC : Z := 4.
(** src/quiche/gquiche/quic/core/quic_types.h:449-449 [CongestionControlType] *)
Definition kBBRv2 : Z := 5.
(** src/src/quic/model/ns3-quic-private.h:5-6 [CongestionControlType2] *)
Definition kCopa : Z := kBBRv2 + 1.
(** src/src/quic/model/ns3-quic-private.h:7-7 [CongestionControlType2] *)
Definition kVegas : Z := kBBRv2 + 2.

(** ** QuicTimeAccumulator *)

(** src/quiche/gquiche/quic/core/quic_time_accumulator.h:63-64 [QuicTimeAccumulator] *)
Record QuicTimeAccumulator := mkAccumulator {
  total_elapsed_ : Delta;
  last_start_time_ : QuicTime;
}.

(** src/quiche/gquiche/quic/core/quic_time_accumulator.h:17-19 [QuicTimeAccumulator::NotRunningSentinel] *)
Definition NotRunningSentinel : QuicTime := QuicTime_Infinite.
Definition QuicTimeAccumulator_init : QuicTimeAccumulator :=
  mkAccumulator Delta_Zero NotRunningSentinel.
(** src/quiche/gquiche/quic/core/quic_time_accumulator.h:23-23 [QuicTimeAccumulator::IsRunning] *)
Definition IsRunning (a : QuicTimeAccumulator) : bool :=
  negb (last_start_time_ a =? NotRunningSentinel).
(** src/quiche/gquiche/quic/core/quic_time_accumulator.h:25-29 [QuicTimeAccumulator::Start] *)
Definition Accumulator_Start (a : QuicTimeAccumulator) (now : QuicTime) : result QuicTimeAccumulator :=
  let* _ := CHECK (negb (IsRunning a)) in
  let a := mkAccumulator (total_elapsed_ a) now in
  let* _ := CHECK (IsRunning a) in
  Ok a.
(** src/quiche/gquiche/quic/core/quic_time_accumulator.h:31-38 [QuicTimeAccumulator::Stop] *)
Definition Accumulator_Stop (a : QuicTimeAccumulator) (now : QuicTime) : result QuicTimeAccumulator :=
  let* _ := CHECK (IsRunning a) in
  let total := if last_start_time_ a <? now
    then Delta_add (total_elapsed_ a) (QuicTime_diff now (last_start_time_ a))
    else total_elapsed_ a in
  let a := mkAccumulator total NotRunningSentinel in
  let* _ := CHECK (negb (IsRunning a)) in
  Ok a.
(** src/quiche/gquiche/quic/core/quic_time_accumulator.h:45-53 [QuicTimeAccumulator::GetTotalElapsedTime] *)
Definition GetTotalElapsedTime (a : QuicTimeAccumulator) (now : QuicTime) : Delta :=
  if negb (IsRunning a) then total_elapsed_ a
  else if now <=? last_start_time_ a then total_elapsed_ a
  else Delta_add (total_elapsed_ a) (QuicTime_diff now (last_start_time_ a)).

(** ** QuicConnectionStats, the members congestion control writes *)

(** src/quiche/gquiche/quic/core/quic_connection_stats.h:66-87 [QuicConnectionStats], with the members of lines 105, 127, 150, 154 and 157. *)
Record QuicConnectionStats := mkStats {
  slowstart_count : Z;
  slowstart_num_rtts : Z;
  slowstart_packets_sent : Z;
  slowstart_bytes_sent : Z;
  slowstart_packets_lost : Z;
  slowstart_bytes_lost : Z;
  slowstart_duration : QuicTimeAccumulator;
  bbr_num_cycles : Z;
  bbr_num_short_cycles_for_reno_coexistence : Z;
  bbr_exit_startup_due_to_loss : bool;
  tcp_loss_events : Z;
  cwnd_bootstrapping_rtt_us : Z;
  stats_num_ack_aggregation_epochs : Z;
  overshooting_detected_with_network_parameters_adjusted : bool;
  has_non_app_limited_sample : bool;
}.
#[export] Instance eta_Stats : Eta QuicConnectionStats := MkEta _ (fun s =>
  mkStats (slowstart_count s) (slowstart_num_rtts s) (slowstart_packets_sent s) (slowstart_bytes_sent s)
    (slowstart_packets_lost s) (slowstart_bytes_lost s) (slowstart_duration s) (bbr_num_cycles s) (bbr_num_short_cycles_for_reno_coexistence s)
    (bbr_exit_startup_due_to_loss s) (tcp_loss_events s) (cwnd_bootstrapping_rtt_us s) (stats_num_ack_aggregation_epochs s)
    (overshooting_detected_with_network_parameters_adjusted s) (has_non_app_limited_sample s)).
Definition QuicConnectionStats_init : QuicConnectionStats :=
  mkStats 0 0 0 0 0 0 QuicTimeAccumulator_init 0 0 false 0 0 0 false false.

(** * The interface *)

(** [InRecovery] is the same expression in every sender: acknowledgments have
    not yet passed the largest packet sent when the window was last cut.  The
    two tests before the comparison discharge the check in its operator. *)
Definition packets_in_recovery (largest_acked largest_sent_at_last_cutback : QuicPacketNumber) : bool :=
  PN_IsInitialized largest_acked && PN_IsInitialized largest_sent_at_last_cutback &&
  (largest_acked <=? largest_sent_at_last_cutback).

(** src/quiche/gquiche/quic/core/congestion_control/send_algorithm_interface.h:52-55 [SendAlgorithmInterface::NetworkParams] *)
Record NetworkParams := mkNetworkParams {
  params_bandwidth : Z;
  params_rtt : Delta;
  max_initial_congestion_window : Z;
  allow_cwnd_to_decrease : bool;
}.

(** src/quiche/gquiche/quic/core/congestion_control/send_algorithm_interface.h:76-167 [SendAlgorithmInterface].
    [SetFromConfig] takes the options of each sender, and [GetDebugState] only prints; both are left out. *)
Class SendAlgorithmInterface (S : Type) := {
  sa_SetInitialCongestionWindowInPackets : S -> Z -> S;
  sa_OnCongestionEvent : RttStats -> S -> bool -> Z -> QuicTime ->
    list AckedPacket -> list LostPacket -> result S;
  sa_OnPacketSent : S -> QuicTime -> Z -> QuicPacketNumber -> Z -> HasRetransmittableData -> result S;
  sa_OnPacketNeutered : S -> QuicPacketNumber -> result S;
  sa_OnRetransmissionTimeout : S -> bool -> S;
  sa_OnConnectionMigration : S -> S;
  sa_CanSend : S -> Z -> bool;
  sa_PacingRate : RttStats -> S -> Z -> result Z;
  sa_BandwidthEstimate : RttStats -> S -> result Z;
  sa_GetCongestionWindow : S -> Z;
  sa_InSlowStart : S -> bool;
  sa_InRecovery : S -> bool;
  sa_ShouldSendProbingPacket : S -> bool;
  sa_GetSlowStartThreshold : S -> Z;
  sa_GetCongestionControlType : S -> Z;
  sa_AdjustNetworkParameters : RttStats -> S -> NetworkParams -> result S;
  sa_OnApplicationLimited : S -> Z -> S;
}.

(** What a client may rely on: a state invariant that every event preserves
    while the window is far from the end of the [uint64_t] range, and under which
    the window is never below one segment and an idle connection may always
    send. *)
Class SendAlgorithmLaws (S : Type) `{SendAlgorithmInterface S} := {
  sender_inv : S -> Prop;
  event_inv rtt s upd inflight t acked lost s' :
    sender_inv s -> sa_GetCongestionWindow s < 2 ^ 62 -> Z.of_nat (length acked) < 2 ^ 40 ->
    sa_OnCongestionEvent rtt s upd inflight t acked lost = Ok s' -> sender_inv s';
  sent_inv s t inflight pn bytes d s' :
    sender_inv s -> sa_OnPacketSent s t inflight pn bytes d = Ok s' -> sender_inv s';
  timeout_inv s b : sender_inv s -> sender_inv (sa_OnRetransmissionTimeout s b);
  window_floor s : sender_inv s -> kDefaultTCPMSS <= sa_GetCongestionWindow s < two64;
  idle_can_send s : sender_inv s -> sa_CanSend s 0 = true;
}.

(** ** Runs of a sender *)

Inductive sender_event :=
  | EvCongestion (rtt : RttStats) (rtt_updated : bool) (prior_in_flight : Z) (event_time : QuicTime)
      (acked : list AckedPacket) (lost : list LostPacket)
  | EvSent (sent_time : QuicTime) (bytes_in_flight : Z) (pn : QuicPacketNumber) (bytes : Z)
      (d : HasRetransmittableData)
  | EvTimeout (packets_retransmitted : bool).

Section runs.
Context {S : Type} `{SendAlgorithmInterface S}.

Definition sender_step (s : S) (e : sender_event) : result S :=
  match e with
  | EvCongestion rtt upd inflight t acked lost => sa_OnCongestionEvent rtt s upd inflight t acked lost
  | EvSent t inflight pn bytes d => sa_OnPacketSent s t inflight pn bytes d
  | EvTimeout b => Ok (sa_OnRetransmissionTimeout s b)
  end.

(** The number of packets an event acknowledges. *)
Definition event_acks (e : sender_event) : Z :=
  match e with
  | EvCongestion _ _ _ _ acked _ => Z.of_nat (length acked)
  | _ => 0
  end.

Definition run_acks (es : list sender_event) : Z := foldr (fun e n => event_acks e + n) 0 es.

Lemma run_acks_cons e es : run_acks (e :: es) = event_acks e + run_acks es.
Proof. done. Qed.

Lemma run_acks_nonneg es : 0 <= run_acks es.
Proof.
  induction es as [|e es IH]; [done|]. rewrite run_acks_cons. destruct e; cbn; lia.
Qed.
End runs.

Lemma packets_in_recovery_spec a c :
  packets_in_recovery a c = true <->
  PN_IsInitialized a = true /\ PN_IsInitialized c = true /\ a <= c.
Proof. unfold packets_in_recovery. rewrite !andb_true_iff, Z.leb_le. tauto. Qed.

Lemma Accumulator_total a t0 t1 a1 a2 :
  is_i64 t0 -> is_i64 t1 -> t0 <= t1 -> 0 <= total_elapsed_ a -> total_elapsed_ a + (t1 - t0) < two63 -> 0 <= t0 ->
  Accumulator_Start a t0 = Ok a1 -> Accumulator_Stop a1 t1 = Ok a2 ->
  total_elapsed_ a2 = total_elapsed_ a + (t1 - t0).
Proof.
  unfold Accumulator_Start, Accumulator_Stop, is_i64, Delta_add, QuicTime_diff.
  intros. inv_ok. cbn in *. zcases; cbn; [|lia].
  rewrite (i64_small (t1 - t0)) by lia. by rewrite i64_small by lia.
Qed.
