(* ===== verification/Copa.v ===== *)
(** [CopaSender] (cc-algo/copa_sender.h, cc-algo/copa_sender.cc): delay-based
    congestion control.  The sender compares the rate it is sending at with a
    target rate computed from the queueing delay, and moves its window toward
    the target with a velocity that doubles while the direction stays the same.

    The RTT estimator the sender points to is an argument of the operations
    that read it.  [lastRecordedCwndBytes] has no initializer in the source, so
    it is an option here and reading it before it is written is a fault. *)

From Stdlib Require Import SpecFloat.
From S2P Require Import Prelude Float QuicTime PacketNumber WindowedFilter RttStats SendAlgorithm.

(** * State *)

(** src/src/quic/model/cc-algo/copa_sender.h:75-79 [VelocityState::Direction] *)
Inductive Direction := DNone | DUp | DDown.
#[export] Instance Direction_eq_dec : EqDecision Direction.
Proof. solve_decision. Defined.

(** src/src/quic/model/cc-algo/copa_sender.h:73-86 [VelocityState] *)
Record VelocityState := mkVelocity {
  velocity : Z;
  direction : Direction;
  numTimesDirectionSame : Z;
  lastRecordedCwndBytes : option Z;
  lastCwndRecordTime : QuicTime;
}.
#[export] Instance eta_Velocity : Eta VelocityState := MkEta _ (fun v =>
  mkVelocity (velocity v) (direction v) (numTimesDirectionSame v)
    (lastRecordedCwndBytes v) (lastCwndRecordTime v)).
Definition VelocityState_init : VelocityState := mkVelocity 1 DNone 0 None QuicTime_Zero.

(** src/src/quic/model/cc-algo/copa_sender.h:104-125 [CopaSender] *)
Record CopaSender := mkCopa {
  largest_sent_packet_number_ : QuicPacketNumber;
  largest_acked_packet_number_ : QuicPacketNumber;
  largest_sent_at_last_cutback_ : QuicPacketNumber;
  congestion_window_ : Z;
  initial_congestion_window_ : Z;
  max_congestion_window_ : Z;
  min_congestion_window_ : Z;
  pacing_rate_ : Z;
  isSlowStart_ : bool;
  lastCwndDoubleTime_ : QuicTime;
  minRTTFilter_ : WindowedFilter;
  standingRTTFilter_ : WindowedFilter;
  velocityState_ : VelocityState;
}.
#[export] Instance eta_Copa : Eta CopaSender := MkEta _ (fun s =>
  mkCopa (largest_sent_packet_number_ s) (largest_acked_packet_number_ s)
    (largest_sent_at_last_cutback_ s) (congestion_window_ s) (initial_congestion_window_ s)
    (max_congestion_window_ s) (min_congestion_window_ s) (pacing_rate_ s) (isSlowStart_ s)
    (lastCwndDoubleTime_ s) (minRTTFilter_ s) (standingRTTFilter_ s) (velocityState_ s)).

(** src/src/quic/model/cc-algo/copa_sender.cc:18-18 [kDefaultMinimumCongestionWindow] *)
Definition kDefaultMinimumCongestionWindow : Z := 4 ⊗ kDefaultTCPMSS.
(** src/src/quic/model/cc-algo/copa_sender.cc:19-19 [kMinRTTWindowLength] *)
Definition kMinRTTWindowLength : Delta := Delta_FromSeconds 10.
(** src/src/quic/model/cc-algo/copa_sender.h:131-131 [CopaSender::latencyFactor_] *)
Definition latencyFactor_ : spec_float := f64_lit 1 (-1).
(** * Operations *)

(** src/src/quic/model/cc-algo/copa_sender.cc:40-66 [CopaSender::CopaSender] *)
Definition CopaSender_init (initial_tcp_congestion_window max_tcp_congestion_window : Z)
    (stats_ : option QuicConnectionStats) : CopaSender * option QuicConnectionStats :=
  (mkCopa QuicPacketNumber_default QuicPacketNumber_default QuicPacketNumber_default
     (initial_tcp_congestion_window ⊗ kDefaultTCPMSS)
     (initial_tcp_congestion_window ⊗ kDefaultTCPMSS)
     (max_tcp_congestion_window ⊗ kDefaultTCPMSS)
     kDefaultMinimumCongestionWindow
     QuicBandwidth_Zero true QuicTime_Zero
     (WindowedFilter_init (u64 kMinRTTWindowLength) Delta_Zero 0)
     (WindowedFilter_init 100000 Delta_Zero 0)
     VelocityState_init,
   match stats_ with
   | Some st => Some (st <| slowstart_count := 0 |>
                         <| slowstart_duration := QuicTimeAccumulator_init |>)
   | None => None
   end).

(** src/src/quic/model/cc-algo/copa_sender.cc:22-29 [addAndCheckOverflow] *)
Definition addAndCheckOverflow (value toAdd : Z) : result Z :=
  if UINT64_MAX ⊖ toAdd <? value then Fault RuntimeError else Ok (value ⊕ toAdd).
(** src/src/quic/model/cc-algo/copa_sender.cc:31-37 [subtractAndCheckUnderflow] *)
Definition subtractAndCheckUnderflow (value toSub : Z) : result Z :=
  if value <? toSub then Fault RuntimeError else Ok (value ⊖ toSub).

(** src/src/quic/model/cc-algo/copa_sender.cc:69-71 [CopaSender::InSlowStart] *)
Definition InSlowStart (s : CopaSender) : bool := isSlowStart_ s.
(** src/src/quic/model/cc-algo/copa_sender.cc:72-76 [CopaSender::InRecovery] *)
Definition InRecovery (s : CopaSender) : bool :=
  packets_in_recovery (largest_acked_packet_number_ s) (largest_sent_at_last_cutback_ s).
(** src/src/quic/model/cc-algo/copa_sender.cc:77-79 [CopaSender::ShouldSendProbingPacket] *)
Definition ShouldSendProbingPacket (s : CopaSender) : bool := false.
(** src/src/quic/model/cc-algo/copa_sender.cc:80-85 [CopaSender::SetInitialCongestionWindowInPackets] *)
Definition SetInitialCongestionWindowInPackets (s : CopaSender) (congestion_window : Z) : CopaSender :=
  if isSlowStart_ s then
    s <| initial_congestion_window_ := congestion_window ⊗ kDefaultTCPMSS |>
      <| congestion_window_ := congestion_window ⊗ kDefaultTCPMSS |>
  else s.
(** src/src/quic/model/cc-algo/copa_sender.cc:125-127 [CopaSender::GetCongestionWindow] *)
Definition GetCongestionWindow (s : CopaSender) : Z := congestion_window_ s.
(** src/src/quic/model/cc-algo/copa_sender.cc:128-130 [CopaSender::GetSlowStartThreshold] *)
Definition GetSlowStartThreshold (s : CopaSender) : Z := 0.
(** src/src/quic/model/cc-algo/copa_sender.cc:131-133 [CopaSender::GetCongestionControlType] *)
Definition GetCongestionControlType (s : CopaSender) : Z := kCopa.
(** src/src/quic/model/cc-algo/copa_sender.cc:134-136 [CopaSender::GetDebugState] *)
Definition GetDebugState (s : CopaSender) : string := "copa".

(** src/src/quic/model/cc-algo/copa_sender.cc:99-107 [CopaSender::OnPacketSent] *)
Definition OnPacketSent (s : CopaSender) (sent_time : QuicTime) (bytes_in_flight : Z)
    (packet_number : QuicPacketNumber) (bytes : Z) (is_retransmittable : HasRetransmittableData)
    : result CopaSender :=
  let* increasing := if PN_IsInitialized (largest_sent_packet_number_ s)
    then PN_lt (largest_sent_packet_number_ s) packet_number else Ok true in
  let* _ := CHECK increasing in
  Ok (s <| largest_sent_packet_number_ := packet_number |>).
(** src/src/quic/model/cc-algo/copa_sender.cc:108-110 [CopaSender::CanSend] *)
Definition CanSend (s : CopaSender) (bytes_in_flight : Z) : bool :=
  bytes_in_flight <? GetCongestionWindow s.
(** src/src/quic/model/cc-algo/copa_sender.cc:111-116 [CopaSender::PacingRate] *)
Definition PacingRate (rtt_stats_ : RttStats) (s : CopaSender) (bytes_in_flight : Z) : result Z :=
  let srtt := SmoothedOrInitialRtt rtt_stats_ in
  let* bandwidth := FromBytesAndTimeDelta (GetCongestionWindow s) srtt in
  QuicBandwidth_mul bandwidth
    (f32_of_f64 (if InSlowStart s then f64_of_Z 2
                 else if InRecovery s then f64_of_Z 1 else f64_lit 5 (-2))).
(** src/src/quic/model/cc-algo/copa_sender.cc:117-124 [CopaSender::BandwidthEstimate] *)
Definition BandwidthEstimate (rtt_stats_ : RttStats) (s : CopaSender) : result Z :=
  let srtt := smoothed_rtt_ rtt_stats_ in
  if Delta_IsZero srtt then Ok QuicBandwidth_Zero
  else FromBytesAndTimeDelta (GetCongestionWindow s) srtt.

(** src/src/quic/model/cc-algo/copa_sender.cc:137-144 [CopaSender::OnPacketLost] *)
Definition OnPacketLost (s : CopaSender) (packet_number : QuicPacketNumber)
    (lost_bytes prior_in_flight : Z) : result CopaSender :=
  let* old := if PN_IsInitialized (largest_sent_at_last_cutback_ s)
    then PN_le packet_number (largest_sent_at_last_cutback_ s) else Ok false in
  if old then Ok s
  else Ok (s <| largest_sent_at_last_cutback_ := largest_sent_packet_number_ s |>).

(** src/src/quic/model/cc-algo/copa_sender.cc:281-294 [CopaSender::ChangeDirection] *)
Definition ChangeDirection (s : CopaSender) (newDirection : Direction) (ackTime : QuicTime)
    : CopaSender :=
  if decide (direction (velocityState_ s) = newDirection) then s
  else s <| velocityState_ := mkVelocity 1 newDirection 0 (Some (GetCongestionWindow s)) ackTime |>.

(** src/src/quic/model/cc-algo/copa_sender.cc:247-280 [CopaSender::CheckAndUpdateDirection] *)
Definition CheckAndUpdateDirection (rtt_stats_ : RttStats) (s : CopaSender) (ackTime : QuicTime)
    : result CopaSender :=
  let v := velocityState_ s in
  if negb (QuicTime_IsInitialized (lastCwndRecordTime v)) then
    Ok (s <| velocityState_ := v <| lastCwndRecordTime := ackTime |>
                                 <| lastRecordedCwndBytes := Some (GetCongestionWindow s) |> |>)
  else
    let srtt := smoothed_rtt_ rtt_stats_ in
    let elapsed_time := QuicTime_diff ackTime (lastCwndRecordTime v) in
    if srtt <=? elapsed_time then
      match lastRecordedCwndBytes v with
      | None => Fault UninitializedRead
      | Some last =>
          let newDirection := if last <? GetCongestionWindow s then DUp else DDown in
          let v := if decide (newDirection <> direction v) then
                     v <| velocity := 1 |> <| numTimesDirectionSame := 0 |>
                   else
                     let v := v <| numTimesDirectionSame := numTimesDirectionSame v ⊕ 1 |> in
                     if 3 <=? numTimesDirectionSame v then v <| velocity := 2 ⊗ velocity v |> else v in
          Ok (s <| velocityState_ := v <| direction := newDirection |>
                  <| lastCwndRecordTime := ackTime |>
                  <| lastRecordedCwndBytes := Some (GetCongestionWindow s) |> |>)
      end
    else Ok s.

(** src/src/quic/model/cc-algo/copa_sender.cc:183-184 [CopaSender::OnPacketAcked, targetRate] *)
Definition targetRate (delayInMicroSec : Z) : result Z :=
  float_to_i64 (f64_div (f64_mul (f64_mul (f64_of_Z 1) (f64_of_Z kDefaultTCPMSS)) (f64_of_Z 1000000))
                        (f64_mul latencyFactor_ (f64_of_Z delayInMicroSec))).
(** src/src/quic/model/cc-algo/copa_sender.cc:185-185 [CopaSender::OnPacketAcked, currentRate] *)
Definition currentRate (cwnd rttStanding : Z) : result Z :=
  float_to_i64 (f64_div (f64_mul (f64_mul (f64_of_Z 1) (f64_of_Z cwnd)) (f64_of_Z 1000000))
                        (f64_of_Z rttStanding)).
(** src/src/quic/model/cc-algo/copa_sender.cc:218-220 [CopaSender::OnPacketAcked, addition and reduction] *)
Definition window_change (acked_packets_size velocity cwnd : Z) : result Z :=
  float_to_u64 (f64_div
    (f64_of_Z (((acked_packets_size ⊗ kDefaultTCPMSS) ⊗ kDefaultTCPMSS) ⊗ velocity))
    (f64_mul latencyFactor_ (f64_of_Z cwnd))).

(** src/src/quic/model/cc-algo/copa_sender.cc:177-189 [CopaSender::OnPacketAcked, increaseCwnd] *)
Definition should_increase (delayInMicroSec cwnd rttStanding : Z) : result bool :=
  if delayInMicroSec =? 0 then Ok true
  else
    let* target := targetRate delayInMicroSec in
    let* current := currentRate cwnd rttStanding in
    Ok (current <=? target).

(** src/src/quic/model/cc-algo/copa_sender.cc:198-223 [CopaSender::OnPacketAcked, increase] *)
Definition increase_window (s : CopaSender) (acked_packets_size : Z) (srtt : Delta)
    (event_time : QuicTime) : result CopaSender :=
  if isSlowStart_ s then
    if negb (QuicTime_IsInitialized (lastCwndDoubleTime_ s)) then
      Ok (s <| lastCwndDoubleTime_ := event_time |>)
    else if srtt <? QuicTime_diff event_time (lastCwndDoubleTime_ s) then
      let* w := addAndCheckOverflow (congestion_window_ s) (congestion_window_ s) in
      Ok (s <| congestion_window_ := w |> <| lastCwndDoubleTime_ := event_time |>)
    else Ok s
  else
    let s := if bool_decide (direction (velocityState_ s) <> DUp) && (1 <? velocity (velocityState_ s))
             then ChangeDirection s DUp event_time else s in
    let* addition := window_change acked_packets_size (velocity (velocityState_ s)) (congestion_window_ s) in
    let* w := addAndCheckOverflow (congestion_window_ s) addition in
    Ok (s <| congestion_window_ := w |>).

(** src/src/quic/model/cc-algo/copa_sender.cc:226-244 [CopaSender::OnPacketAcked, decrease] *)
Definition decrease_window (s : CopaSender) (acked_packets_size : Z) (event_time : QuicTime)
    : result CopaSender :=
  let s := if bool_decide (direction (velocityState_ s) <> DDown) && (1 <? velocity (velocityState_ s))
           then ChangeDirection s DDown event_time else s in
  let* reduction := window_change acked_packets_size (velocity (velocityState_ s)) (congestion_window_ s) in
  let s := s <| isSlowStart_ := false |> in
  let* w := subtractAndCheckUnderflow (congestion_window_ s)
              (Z.min reduction (congestion_window_ s ⊖ min_congestion_window_ s)) in
  Ok (s <| congestion_window_ := w |>).

(** src/src/quic/model/cc-algo/copa_sender.cc:148-158 [CopaSender::OnPacketAcked, filters] *)
Definition update_filters (rtt_stats_ : RttStats) (s : CopaSender) (acked_packets : list AckedPacket)
    (event_time : QuicTime) : CopaSender :=
  let s := s <| largest_acked_packet_number_ :=
    foldl (fun p a => PN_UpdateMax p (acked_packet_number a)) (largest_acked_packet_number_ s) acked_packets |> in
  let wall_time := QuicTime_diff event_time QuicTime_Zero in
  let lrtt := latest_rtt_ rtt_stats_ in
  let srtt := smoothed_rtt_ rtt_stats_ in
  let s := s <| minRTTFilter_ := Update MinFilter (minRTTFilter_ s) lrtt (u64 wall_time) |> in
  let s := s <| standingRTTFilter_ := SetWindowLength (standingRTTFilter_ s) (u64 (Z.quot srtt 2)) |> in
  s <| standingRTTFilter_ := Update MinFilter (standingRTTFilter_ s) lrtt (u64 wall_time) |>.

(** src/src/quic/model/cc-algo/copa_sender.cc:145-246 [CopaSender::OnPacketAcked] *)
Definition OnPacketAcked (rtt_stats_ : RttStats) (s : CopaSender) (acked_packets : list AckedPacket)
    (prior_in_flight : Z) (event_time : QuicTime) : result CopaSender :=
  let s := update_filters rtt_stats_ s acked_packets event_time in
  let lrtt := latest_rtt_ rtt_stats_ in
  let srtt := smoothed_rtt_ rtt_stats_ in
  let rttMin := GetBest (minRTTFilter_ s) in
  let rttStanding := GetBest (standingRTTFilter_ s) in
  let delayInMicroSec := i64 (lrtt - rttMin) in
  let* _ := CHECK (negb (delayInMicroSec <? 0)) in
  let* _ := CHECK (negb (Delta_IsZero rttStanding)) in
  let* increaseCwnd := should_increase delayInMicroSec (GetCongestionWindow s) rttStanding in
  let* s := if negb (increaseCwnd && isSlowStart_ s)
            then CheckAndUpdateDirection rtt_stats_ s event_time else Ok s in
  let n := Z.of_nat (length acked_packets) in
  if increaseCwnd then increase_window s n srtt event_time else decrease_window s n event_time.

(** src/src/quic/model/cc-algo/copa_sender.cc:87-98 [CopaSender::OnCongestionEvent] *)
Definition OnCongestionEvent (rtt_stats_ : RttStats) (s : CopaSender) (rtt_updated : bool)
    (prior_in_flight : Z) (event_time : QuicTime)
    (acked_packets : list AckedPacket) (lost_packets : list LostPacket) : result CopaSender :=
  let* s := rfold (fun s l => OnPacketLost s (lost_packet_number l) (bytes_lost l) prior_in_flight)
              lost_packets s in
  OnPacketAcked rtt_stats_ s acked_packets prior_in_flight event_time.

(** src/src/quic/model/cc-algo/copa_sender.h:23-70 [CopaSender, SendAlgorithmInterface] *)
#[export] Instance CopaSender_interface : SendAlgorithmInterface CopaSender := {|
  sa_SetInitialCongestionWindowInPackets := SetInitialCongestionWindowInPackets;
  sa_OnCongestionEvent := OnCongestionEvent;
  sa_OnPacketSent := OnPacketSent;
  sa_OnPacketNeutered s _ := Ok s;
  sa_OnRetransmissionTimeout s _ := s;
  sa_OnConnectionMigration s := s;
  sa_CanSend := CanSend;
  sa_PacingRate := PacingRate;
  sa_BandwidthEstimate := BandwidthEstimate;
  sa_GetCongestionWindow := GetCongestionWindow;
  sa_InSlowStart := InSlowStart;
  sa_InRecovery := InRecovery;
  sa_ShouldSendProbingPacket := ShouldSendProbingPacket;
  sa_GetSlowStartThreshold := GetSlowStartThreshold;
  sa_GetCongestionControlType := GetCongestionControlType;
  sa_AdjustNetworkParameters _ s _ := Ok s;
  sa_OnApplicationLimited s _ := s;
|}.

(** * Invariants *)

(** The window part: a [uint64_t] at or above the fixed minimum. *)
Definition window_inv (s : CopaSender) : Prop :=
  min_congestion_window_ s = 5840 /\ 5840 <= congestion_window_ s < two64.

(** The velocity record: a recorded time implies a recorded window. *)
Definition velocity_inv (v : VelocityState) : Prop :=
  is_u64 (velocity v) /\ (lastRecordedCwndBytes v = None -> lastCwndRecordTime v = 0).

Definition Copa_inv (s : CopaSender) : Prop :=
  window_inv s /\ velocity_inv (velocityState_ s) /\
  rtt_filter_inv (minRTTFilter_ s) /\ rtt_filter_inv (standingRTTFilter_ s).

(** The estimator holds a measurement. *)
Definition rtt_valid (r : RttStats) : Prop :=
  0 < latest_rtt_ r < 2 ^ 62 /\ 0 <= smoothed_rtt_ r < 2 ^ 62.

(** * Arithmetic *)

Lemma addAndCheckOverflow_Ok v a w :
  0 <= v < two64 -> 0 <= a < two64 -> addAndCheckOverflow v a = Ok w -> w = v + a /\ w < two64.
Proof.
  unfold addAndCheckOverflow. intros Hv Ha. rewrite (u64_small (_ - a)) by lia.
  zcases; intros; simplify_eq. rewrite u64_small by lia. lia.
Qed.

Lemma addAndCheckOverflow_total v a :
  0 <= v -> 0 <= a -> v + a < two64 -> addAndCheckOverflow v a = Ok (v + a).
Proof.
  unfold addAndCheckOverflow. intros. rewrite (u64_small (_ - a)) by lia.
  zcases; [lia|]. by rewrite u64_small by lia.
Qed.

(** Subtracting at most the excess over the floor keeps the floor. *)
Lemma subtract_floor v m r :
  0 <= m <= v -> v < two64 -> 0 <= r ->
  subtractAndCheckUnderflow v (Z.min r (v ⊖ m)) = Ok (Z.max m (v - r)).
Proof.
  intros Hm Hv Hr. unfold subtractAndCheckUnderflow. rewrite (u64_small (v - m)) by lia.
  zcases; [lia|]. rewrite u64_small by lia. f_equal. lia.
Qed.

Lemma targetRate_total d : 1 <= d < 2 ^ 62 -> exists z, targetRate d = Ok z.
Proof.
  intros Hd. unfold targetRate.
  pose proof (f64_of_Z_mag d 0 62 ltac:(lia) ltac:(lia) ltac:(lia)) as H1.
  assert (H2 : mag_in latencyFactor_ 0 0) by (vm_compute; repeat split; discriminate).
  pose proof (f64_mul_mag _ _ _ _ _ _ H2 H1 ltac:(lia) ltac:(lia)) as H3.
  set (n := f64_mul (f64_mul _ _) _).
  assert (H4 : mag_in n 31 31) by (vm_compute; repeat split; discriminate).
  pose proof (f64_div_mag _ _ _ _ _ _ H4 H3 ltac:(lia) ltac:(lia) ltac:(lia) ltac:(lia)) as H5.
  destruct (float_to_i64_mag _ _ _ H5) as (z & Hz & _); [lia|]. eauto.
Qed.

Lemma currentRate_total w r :
  5840 <= w < 2 ^ 36 -> 0 < r < 2 ^ 62 -> exists z, currentRate w r = Ok z.
Proof.
  intros Hw Hr. unfold currentRate.
  pose proof (f64_of_Z_mag w 12 36 ltac:(lia) ltac:(lia) ltac:(lia)) as H1.
  pose proof (f64_of_Z_mag r 0 62 ltac:(lia) ltac:(lia) ltac:(lia)) as H2.
  assert (H3 : mag_in (f64_of_Z 1) 1 1) by (vm_compute; repeat split; discriminate).
  assert (H4 : mag_in (f64_of_Z 1000000) 20 20) by (vm_compute; repeat split; discriminate).
  pose proof (f64_mul_mag _ _ _ _ _ _ H3 H1 ltac:(lia) ltac:(lia)) as H5.
  pose proof (f64_mul_mag _ _ _ _ _ _ H5 H4 ltac:(lia) ltac:(lia)) as H6.
  pose proof (f64_div_mag _ _ _ _ _ _ H6 H2 ltac:(lia) ltac:(lia) ltac:(lia) ltac:(lia)) as H7.
  destruct (float_to_i64_mag _ _ _ H7) as (z & Hz & _); [lia|]. eauto.
Qed.

Lemma window_change_zero n w : 0 < w < 2 ^ 64 -> window_change n 0 w = Ok 0.
Proof.
  intros Hw. unfold window_change. rewrite Z.mul_0_r. change (u64 0) with 0.
  pose proof (f64_of_Z_mag w 0 64 ltac:(lia) ltac:(lia) ltac:(lia)) as H1.
  assert (H2 : mag_in latencyFactor_ 0 0) by (vm_compute; repeat split; discriminate).
  pose proof (f64_mul_mag _ _ _ _ _ _ H2 H1 ltac:(lia) ltac:(lia)) as H3.
  destruct (f64_mul latencyFactor_ (f64_of_Z w)) as [| | |[] ? ?]; done.
Qed.

Lemma window_change_total n v w :
  5840 <= w < two64 -> exists z, window_change n v w = Ok z /\ 0 <= z < 2 ^ 55.
Proof.
  intros Hw. unfold window_change.
  set (p := u64 (_ * v)). pose proof (u64_range (((n ⊗ kDefaultTCPMSS) ⊗ kDefaultTCPMSS) * v)) as Hp. fold p in Hp.
  pose proof (f64_of_Z_mag w 12 64 ltac:(lia) ltac:(lia) ltac:(lia)) as H1.
  assert (H2 : mag_in latencyFactor_ 0 0) by (vm_compute; repeat split; discriminate).
  pose proof (f64_mul_mag _ _ _ _ _ _ H2 H1 ltac:(lia) ltac:(lia)) as H3.
  destruct (Z.eq_dec p 0) as [->|Hne].
  { exists 0. destruct (f64_mul latencyFactor_ (f64_of_Z w)) as [| | |[] ? ?]; try done. }
  pose proof (f64_of_Z_mag p 0 64 ltac:(lia) ltac:(lia) ltac:(lia)) as H4.
  pose proof (f64_div_mag _ _ _ _ _ _ H4 H3 ltac:(lia) ltac:(lia) ltac:(lia) ltac:(lia)) as H5.
  apply (float_to_u64_mag _ _ _ H5). lia.
Qed.

(** * One event, piece by piece *)

(** The losses only record the cutback point. *)
Record same_control (s s' : CopaSender) : Prop := {
  same_window : congestion_window_ s' = congestion_window_ s;
  same_min : min_congestion_window_ s' = min_congestion_window_ s;
  same_slow_start : isSlowStart_ s' = isSlowStart_ s;
  same_double_time : lastCwndDoubleTime_ s' = lastCwndDoubleTime_ s;
  same_min_filter : minRTTFilter_ s' = minRTTFilter_ s;
  same_standing_filter : standingRTTFilter_ s' = standingRTTFilter_ s;
  same_velocity : velocityState_ s' = velocityState_ s;
}.

#[export] Instance same_control_preorder : PreOrder same_control.
Proof. split; [by split|]. intros s1 s2 s3 [] []. split; congruence. Qed.

Lemma lost_packets_control lost f s s' :
  rfold (fun s l => OnPacketLost s (lost_packet_number l) (bytes_lost l) f) lost s = Ok s' ->
  same_control s s'.
Proof.
  apply rfold_rel; [apply _|]. intros l t t' H. unfold OnPacketLost in H. inv_ok.
  case_match; inv_ok; by split.
Qed.

Lemma lost_packets_total lost f s :
  Forall (fun l => PN_IsInitialized (lost_packet_number l) = true) lost ->
  exists s', rfold (fun s l => OnPacketLost s (lost_packet_number l) (bytes_lost l) f) lost s = Ok s'.
Proof.
  intros Hl. destruct (rfold_total (fun _ => True)
    (fun s l => OnPacketLost s (lost_packet_number l) (bytes_lost l) f) lost s) as (s' & H & _); eauto.
  intros l t Hin _. rewrite Forall_forall in Hl. specialize (Hl _ Hin).
  unfold OnPacketLost. destruct (PN_IsInitialized (largest_sent_at_last_cutback_ t)) eqn:E; cbn; [|eauto].
  rewrite PN_le_init by done. cbn. case_match; eauto.
Qed.

(** What an acknowledgment reads off the filters. *)
Definition queueing_delay (r : RttStats) (s : CopaSender) : Z :=
  i64 (latest_rtt_ r - GetBest (minRTTFilter_ s)).

Lemma update_filters_control r s acked t :
  congestion_window_ (update_filters r s acked t) = congestion_window_ s /\
  min_congestion_window_ (update_filters r s acked t) = min_congestion_window_ s /\
  isSlowStart_ (update_filters r s acked t) = isSlowStart_ s /\
  lastCwndDoubleTime_ (update_filters r s acked t) = lastCwndDoubleTime_ s /\
  velocityState_ (update_filters r s acked t) = velocityState_ s.
Proof. done. Qed.

Lemma update_filters_inv r s acked t :
  Copa_inv s -> rtt_valid r ->
  let s' := update_filters r s acked t in
  Copa_inv s' /\ 0 < GetBest (standingRTTFilter_ s') <= latest_rtt_ r /\
  0 < GetBest (minRTTFilter_ s') <= latest_rtt_ r.
Proof.
  intros (Hw & Hv & H1 & H2) [Hr _]. cbn zeta. unfold update_filters. cbn.
  destruct (rtt_filter_update (minRTTFilter_ s) (latest_rtt_ r) (u64 (QuicTime_diff t QuicTime_Zero)) H1 Hr).
  destruct (rtt_filter_update (SetWindowLength (standingRTTFilter_ s) (u64 (Z.quot (smoothed_rtt_ r) 2)))
    (latest_rtt_ r) (u64 (QuicTime_diff t QuicTime_Zero)) H2 Hr).
  split; [|tauto]. by split_and!.
Qed.

(** The direction check changes nothing but the velocity record. *)
Lemma CheckAndUpdateDirection_frame r s t s' :
  CheckAndUpdateDirection r s t = Ok s' -> s' = s <| velocityState_ := velocityState_ s' |>.
Proof.
  unfold CheckAndUpdateDirection. intros H.
  repeat (case_match; try discriminate); inv_ok; try reflexivity.
  all: match goal with |- ?x = _ => destruct x; reflexivity end.
Qed.

Lemma CheckAndUpdateDirection_total r s t :
  velocity_inv (velocityState_ s) -> is_u64 (congestion_window_ s) ->
  exists s', CheckAndUpdateDirection r s t = Ok s' /\ velocity_inv (velocityState_ s').
Proof.
  intros [Hv Hrec] Hw. unfold CheckAndUpdateDirection.
  destruct (QuicTime_IsInitialized _) eqn:Ei; cbn [negb].
  2:{ eexists; split; [done|]. by split. }
  destruct (_ <=? _) eqn:El; [|by eexists; split; [done|split]].
  destruct (lastRecordedCwndBytes (velocityState_ s)) as [last|] eqn:E.
  - eexists; split; [done|]. split; [|done]. unfold is_u64 in *.
    repeat case_match; cbn; first [lia | apply u64_range].
  - unfold QuicTime_IsInitialized in Ei. rewrite Hrec in Ei by done. done.
Qed.

(** A successful acknowledgment: a decision, then a move of the window from a
    state that differs from the start in filters and velocity only. *)
Lemma OnPacketAcked_split r s acked f t s' :
  OnPacketAcked r s acked f t = Ok s' ->
  exists inc s1,
    should_increase (queueing_delay r (update_filters r s acked t)) (congestion_window_ s)
      (GetBest (standingRTTFilter_ (update_filters r s acked t))) = Ok inc /\
    (if negb (inc && isSlowStart_ s)
     then CheckAndUpdateDirection r (update_filters r s acked t) t = Ok s1
     else s1 = update_filters r s acked t) /\
    s1 = update_filters r s acked t <| velocityState_ := velocityState_ s1 |> /\
    (if inc then increase_window s1 (Z.of_nat (length acked)) (smoothed_rtt_ r) t
     else decrease_window s1 (Z.of_nat (length acked)) t) = Ok s'.
Proof.
  intros H. unfold OnPacketAcked in H.
  apply rbind_Ok in H as (_ & _ & H). apply rbind_Ok in H as (_ & _ & H).
  apply rbind_Ok in H as (inc & Hinc & H). apply rbind_Ok in H as (s1 & Hs1 & H).
  exists inc, s1. destruct (update_filters_control r s acked t) as (_ & _ & E & _).
  rewrite E in Hs1. split; [exact Hinc|].
  destruct (negb (inc && isSlowStart_ s)).
  - split_and!; [done|by eapply CheckAndUpdateDirection_frame|done].
  - injection Hs1 as <-. split_and!; [done|by destruct (update_filters _ _ _ _)|done].
Qed.

Lemma ChangeDirection_window s d t :
  congestion_window_ (ChangeDirection s d t) = congestion_window_ s /\
  min_congestion_window_ (ChangeDirection s d t) = min_congestion_window_ s /\
  isSlowStart_ (ChangeDirection s d t) = isSlowStart_ s /\
  minRTTFilter_ (ChangeDirection s d t) = minRTTFilter_ s /\
  standingRTTFilter_ (ChangeDirection s d t) = standingRTTFilter_ s.
Proof. unfold ChangeDirection. by case_decide. Qed.

Lemma ChangeDirection_inv s d t :
  velocity_inv (velocityState_ s) -> velocity_inv (velocityState_ (ChangeDirection s d t)).
Proof. unfold ChangeDirection. case_decide; [done|]. intros _. by split. Qed.

Lemma increase_window_spec s n srtt t s' :
  window_inv s -> increase_window s n srtt t = Ok s' ->
  window_inv s' /\ congestion_window_ s <= congestion_window_ s' /\
  isSlowStart_ s' = isSlowStart_ s /\
  (isSlowStart_ s = true ->
     congestion_window_ s' = congestion_window_ s \/
     congestion_window_ s' = 2 * congestion_window_ s /\
     srtt < QuicTime_diff t (lastCwndDoubleTime_ s) /\ lastCwndDoubleTime_ s' = t) /\
  (minRTTFilter_ s' = minRTTFilter_ s /\ standingRTTFilter_ s' = standingRTTFilter_ s) /\
  (velocity_inv (velocityState_ s) -> velocity_inv (velocityState_ s')).
Proof.
  intros [Hm Hw] H. unfold increase_window in H. destruct (isSlowStart_ s) eqn:Es.
  - destruct (negb _); [inv_ok; split_and!; cbn; auto; try done; lia|].
    destruct (srtt <? _) eqn:El; inv_ok; [|split_and!; auto; try done; lia].
    match goal with H : addAndCheckOverflow _ _ = Ok _ |- _ => apply addAndCheckOverflow_Ok in H; [|lia|lia] end.
    apply Z.ltb_lt in El. unfold window_inv. cbn. split_and!; auto; lia.
  - set (s1 := if _ && _ then _ else s) in H.
    assert (E1 : congestion_window_ s1 = congestion_window_ s /\ min_congestion_window_ s1 = min_congestion_window_ s /\
      isSlowStart_ s1 = isSlowStart_ s /\ minRTTFilter_ s1 = minRTTFilter_ s /\ standingRTTFilter_ s1 = standingRTTFilter_ s)
      by (unfold s1; case_match; [apply ChangeDirection_window|done]).
    destruct E1 as (E1 & E2 & E3 & E4 & E5).
    destruct (window_change_total n (velocity (velocityState_ s1)) (congestion_window_ s1)) as (z & Hz & Hzr); [lia|].
    rewrite Hz in H. cbn [rbind] in H. inv_ok.
    match goal with H : addAndCheckOverflow _ _ = Ok _ |- _ => apply addAndCheckOverflow_Ok in H; [|lia|lia] end.
    unfold window_inv. cbn. rewrite E2, E3, E4, E5, Es. split_and!; auto; try lia; try done.
    unfold s1. case_match; [apply ChangeDirection_inv|done].
Qed.

Lemma increase_window_total s n srtt t :
  window_inv s -> congestion_window_ s < 2 ^ 36 -> exists s', increase_window s n srtt t = Ok s'.
Proof.
  intros [Hm Hw] Hb. unfold increase_window. destruct (isSlowStart_ s).
  - destruct (negb _); [eauto|]. destruct (srtt <? _); [|eauto].
    rewrite addAndCheckOverflow_total by lia. cbn. eauto.
  - set (s1 := if _ && _ then _ else s).
    assert (E1 : congestion_window_ s1 = congestion_window_ s)
      by (unfold s1; case_match; [apply ChangeDirection_window|done]).
    destruct (window_change_total n (velocity (velocityState_ s1)) (congestion_window_ s1))
      as (z & -> & Hzr); [lia|]. cbn [rbind].
    rewrite addAndCheckOverflow_total by lia. cbn. eauto.
Qed.

(** The decrease always succeeds; it never goes below the floor and it ends
    slow start. *)
Lemma decrease_window_spec s n t :
  window_inv s -> exists s', decrease_window s n t = Ok s' /\
  window_inv s' /\ congestion_window_ s' <= congestion_window_ s /\ isSlowStart_ s' = false /\
  (minRTTFilter_ s' = minRTTFilter_ s /\ standingRTTFilter_ s' = standingRTTFilter_ s) /\
  (velocity_inv (velocityState_ s) -> velocity_inv (velocityState_ s')).
Proof.
  intros [Hm Hw]. unfold decrease_window. set (s1 := if _ && _ then _ else s).
  assert (E1 : congestion_window_ s1 = congestion_window_ s /\ min_congestion_window_ s1 = min_congestion_window_ s /\
    isSlowStart_ s1 = isSlowStart_ s /\ minRTTFilter_ s1 = minRTTFilter_ s /\ standingRTTFilter_ s1 = standingRTTFilter_ s)
    by (unfold s1; case_match; [apply ChangeDirection_window|done]).
  destruct E1 as (E1 & E2 & E3 & E4 & E5).
  destruct (window_change_total n (velocity (velocityState_ s1)) (congestion_window_ s1)) as (z & -> & Hzr); [lia|].
  cbn [rbind]. cbn. rewrite subtract_floor by lia. cbn. eexists; split; [done|].
  unfold window_inv. cbn. rewrite E1, E2, E4, E5. split_and!; auto; try lia.
  unfold s1. case_match; [apply ChangeDirection_inv|done].
Qed.

(** A whole event on the window: losses are bookkeeping, the acknowledgment
    moves the window in the decided direction. *)
Lemma OnCongestionEvent_split r s upd f t acked lost s' :
  OnCongestionEvent r s upd f t acked lost = Ok s' ->
  exists s0, rfold (fun s l => OnPacketLost s (lost_packet_number l) (bytes_lost l) f) lost s = Ok s0 /\
    same_control s s0 /\ OnPacketAcked r s0 acked f t = Ok s'.
Proof.
  unfold OnCongestionEvent. intros H. apply rbind_Ok in H as (s0 & H0 & H).
  exists s0. eauto using lost_packets_control.
Qed.

Lemma OnPacketAcked_window r s acked f t s' :
  window_inv s -> OnPacketAcked r s acked f t = Ok s' ->
  window_inv s' /\
  exists inc, should_increase (queueing_delay r (update_filters r s acked t)) (congestion_window_ s)
      (GetBest (standingRTTFilter_ (update_filters r s acked t))) = Ok inc /\
    (if inc then congestion_window_ s <= congestion_window_ s' /\ isSlowStart_ s' = isSlowStart_ s /\
       (isSlowStart_ s = true -> congestion_window_ s' = congestion_window_ s \/
          congestion_window_ s' = 2 * congestion_window_ s /\
          smoothed_rtt_ r < QuicTime_diff t (lastCwndDoubleTime_ s) /\ lastCwndDoubleTime_ s' = t)
     else congestion_window_ s' <= congestion_window_ s /\ isSlowStart_ s' = false).
Proof.
  intros Hw H. apply OnPacketAcked_split in H as (inc & s1 & Hinc & _ & E & H).
  assert (Hw1 : window_inv s1) by (rewrite E; exact Hw).
  assert (Ec : congestion_window_ s1 = congestion_window_ s) by (rewrite E; done).
  assert (Es : isSlowStart_ s1 = isSlowStart_ s) by (rewrite E; done).
  assert (Ed : lastCwndDoubleTime_ s1 = lastCwndDoubleTime_ s) by (rewrite E; done).
  destruct inc.
  - apply increase_window_spec in H as (Hw' & Hle & Hs & Hd & _); [|done].
    rewrite Ec, Es, Ed in *. split; [done|]. exists true. auto.
  - destruct (decrease_window_spec s1 (Z.of_nat (length acked)) t Hw1) as (s2 & H2 & Hw' & Hle & Hs & _).
    rewrite H2 in H. injection H as <-. rewrite Ec in *. split; [done|]. exists false. auto.
Qed.

(** * Properties *)

Lemma OnCongestionEvent_window r s upd f t acked lost s' :
  window_inv s -> OnCongestionEvent r s upd f t acked lost = Ok s' -> window_inv s'.
Proof.
  intros Hw H. apply OnCongestionEvent_split in H as (s0 & _ & Hc & H).
  eapply OnPacketAcked_window; [|exact H]. destruct Hc. unfold window_inv in *. congruence.
Qed.

#[export] Instance CopaSender_laws : SendAlgorithmLaws CopaSender.
Proof.
  refine {| sender_inv := window_inv |}; cbn.
  - intros * Hw _ _ H. by eapply OnCongestionEvent_window.
  - intros * Hw H. unfold OnPacketSent in H. inv_ok. exact Hw.
  - done.
  - unfold window_inv, GetCongestionWindow, kDefaultTCPMSS. lia.
  - unfold window_inv, CanSend, GetCongestionWindow. intros s [_ Hw]. apply Z.ltb_lt. lia.
Defined.

Lemma CopaSender_init_inv n m st :
  4 <= n < 2 ^ 50 -> Copa_inv (CopaSender_init n m st).1.
Proof.
  intros Hn. split; [|split_and!; [by split|split; [done|by left]..]].
  split; [done|]. change (5840 <= n ⊗ 1460 < two64). rewrite u64_small by lia. lia.
Qed.

Lemma OnPacketAcked_total r s acked f t :
  Copa_inv s -> rtt_valid r -> congestion_window_ s < 2 ^ 36 ->
  exists s', OnPacketAcked r s acked f t = Ok s' /\ Copa_inv s'.
Proof.
  intros Hinv Hr Hb. unfold OnPacketAcked.
  destruct (update_filters_inv r s acked t Hinv Hr) as (Hi1 & Hst & Hmn).
  set (s1 := update_filters r s acked t) in *. destruct Hi1 as (Hw & Hv & Hf1 & Hf2).
  assert (Hb1 : GetCongestionWindow s1 < 2 ^ 36) by exact Hb.
  pose proof Hr as [Hl Hs]. rewrite i64_small by lia.
  destruct (Z.ltb_spec (latest_rtt_ r - GetBest (minRTTFilter_ s1)) 0); [lia|]. cbn [negb CHECK rbind].
  unfold Delta_IsZero. destruct (Z.eqb_spec (GetBest (standingRTTFilter_ s1)) 0); [lia|]. cbn [negb CHECK rbind].
  assert (Hinc : exists b, should_increase (latest_rtt_ r - GetBest (minRTTFilter_ s1))
    (GetCongestionWindow s1) (GetBest (standingRTTFilter_ s1)) = Ok b).
  { unfold should_increase. destruct (Z.eqb_spec (latest_rtt_ r - GetBest (minRTTFilter_ s1)) 0); [eauto|].
    destruct (targetRate_total (latest_rtt_ r - GetBest (minRTTFilter_ s1))) as [z1 ->]; [lia|].
    destruct (currentRate_total (GetCongestionWindow s1) (GetBest (standingRTTFilter_ s1))) as [z2 ->];
      [destruct Hw; unfold GetCongestionWindow in *; lia|lia|]. cbn. eauto. }
  destruct Hinc as [inc ->]. cbn [rbind].
  assert (Hdir : exists s2, (if negb (inc && isSlowStart_ s1) then CheckAndUpdateDirection r s1 t else Ok s1) = Ok s2
    /\ velocity_inv (velocityState_ s2) /\ s2 = s1 <| velocityState_ := velocityState_ s2 |>).
  { destruct (negb _).
    - destruct (CheckAndUpdateDirection_total r s1 t Hv) as (s2 & H2 & Hv2);
        [destruct Hw; unfold is_u64; lia|].
      exists s2. eauto using CheckAndUpdateDirection_frame.
    - exists s1. split_and!; [done|done|by destruct s1]. }
  destruct Hdir as (s2 & -> & Hv2 & E2). cbn [rbind].
  assert (Hw2 : window_inv s2) by (rewrite E2; exact Hw).
  assert (Hb2 : congestion_window_ s2 < 2 ^ 36) by (rewrite E2; exact Hb).
  assert (F2 : minRTTFilter_ s2 = minRTTFilter_ s1 /\ standingRTTFilter_ s2 = standingRTTFilter_ s1) by (rewrite E2; done).
  destruct F2 as [F1 F2].
  destruct inc.
  - destruct (increase_window_total s2 (Z.of_nat (length acked)) (smoothed_rtt_ r) t Hw2 Hb2) as (s3 & H3).
    exists s3. split; [done|]. apply increase_window_spec in H3 as (Hw3 & _ & _ & _ & [G1 G2] & Hv3); [|done].
    split_and!; [done|by apply Hv3|congruence|congruence].
  - destruct (decrease_window_spec s2 (Z.of_nat (length acked)) t Hw2) as (s3 & H3 & Hw3 & _ & _ & [G1 G2] & Hv3).
    exists s3. split; [done|]. split_and!; [done|by apply Hv3|congruence|congruence].
Qed.

Lemma same_control_inv s s' : same_control s s' -> Copa_inv s -> Copa_inv s'.
Proof. intros []. unfold Copa_inv, window_inv. by rewrite same_window0, same_min0, same_min_filter0, same_standing_filter0, same_velocity0. Qed.

(** C1. Copa never aborts on a connection that has an RTT sample: with a valid
    RTT, initialized packet numbers in the loss report and a window below
    64 GB, every congestion event completes -- no failed check (in particular
    the queueing delay is never negative and the standing RTT never zero), no
    overflow exception, no undefined conversion, no read of uninitialized
    velocity state -- and leaves a state from which the same holds again. *)
Theorem copa_event_succeeds r s upd f t acked lost :
  Copa_inv s -> rtt_valid r -> congestion_window_ s < 2 ^ 36 ->
  Forall (fun l => PN_IsInitialized (lost_packet_number l) = true) lost ->
  exists s', OnCongestionEvent r s upd f t acked lost = Ok s' /\ Copa_inv s'.
Proof.
  intros Hs Hr Hb Hl. destruct (lost_packets_total lost f s Hl) as (s0 & H0).
  pose proof (lost_packets_control _ _ _ _ H0) as Hc.
  unfold OnCongestionEvent. rewrite H0. cbn [rbind]. apply OnPacketAcked_total; [|done|].
  - by eapply same_control_inv.
  - by rewrite (same_window _ _ Hc).
Qed.

(** A measured estimator, for concrete runs. *)
Definition measured (latest smoothed : Delta) : RttStats :=
  RttStats_init <| latest_rtt_ := latest |> <| min_rtt_ := latest |> <| smoothed_rtt_ := smoothed |>.

Lemma copa_event_succeeds_witness :
  exists s', OnCongestionEvent (measured 50000 48000) (CopaSender_init 10 2000 None).1 true 14600 1000000
    [mkAcked 1 1460 0; mkAcked 2 1460 0] [mkLost 3 1460] = Ok s' /\ Copa_inv s'.
Proof.
  apply copa_event_succeeds.
  - apply CopaSender_init_inv. lia.
  - unfold rtt_valid, measured; cbn; lia.
  - vm_compute. reflexivity.
  - repeat constructor.
Defined.

(** The congestion window is never below four segments: along every run of
    sent packets, congestion events and timeouts that starts from a sender
    created with at least four packets, at whatever RTTs and losses. *)
Theorem copa_window_floor n m st es s' :
  4 <= n < 2 ^ 50 -> rfold sender_step es (CopaSender_init n m st).1 = Ok s' ->
  kDefaultMinimumCongestionWindow <= GetCongestionWindow s' < two64.
Proof.
  intros Hn H. apply (rfold_inv window_inv) in H; [exact (proj2 H)| |exact (proj1 (CopaSender_init_inv n m st Hn))].
  intros [r upd f t acked lost|t f pn b d|b] u u' _ Hu He; cbn in He.
  - by eapply OnCongestionEvent_window.
  - unfold OnPacketSent in He. inv_ok. exact Hu.
  - by inv_ok.
Qed.

(** Slow start is a phase that is left once and for all.  While it lasts the
    window either stays or exactly doubles, and a doubling needs more than one
    smoothed RTT since the previous one; the event that ends it does not grow
    the window; once it is over no event brings it back. *)
Theorem copa_slow_start_phase r s upd f t acked lost s' :
  window_inv s -> OnCongestionEvent r s upd f t acked lost = Ok s' ->
  (isSlowStart_ s = false -> isSlowStart_ s' = false) /\
  (isSlowStart_ s = true -> isSlowStart_ s' = true ->
     congestion_window_ s' = congestion_window_ s \/
     congestion_window_ s' = 2 * congestion_window_ s /\
     smoothed_rtt_ r < QuicTime_diff t (lastCwndDoubleTime_ s) /\ lastCwndDoubleTime_ s' = t) /\
  (isSlowStart_ s = true -> isSlowStart_ s' = false -> congestion_window_ s' <= congestion_window_ s).
Proof.
  intros Hw H. apply OnCongestionEvent_split in H as (s0 & _ & Hc & H). destruct Hc.
  assert (Hw0 : window_inv s0) by (unfold window_inv in *; congruence).
  apply OnPacketAcked_window in H as (_ & inc & _ & H); [|done].
  rewrite same_window0, same_slow_start0, same_double_time0 in H.
  destruct inc; naive_solver congruence.
Qed.

(** C2. The window moves toward the target rate.  A successful event takes the
    decision from the filtered RTTs and the window it started with, and the
    window then moves only in the decided direction: it does not shrink when
    the target rate allows more, and it does not grow (nor fall below the
    floor) otherwise. *)
Theorem copa_moves_toward_target r s upd f t acked lost s' :
  window_inv s -> OnCongestionEvent r s upd f t acked lost = Ok s' ->
  exists increase,
    should_increase (queueing_delay r (update_filters r s acked t)) (congestion_window_ s)
      (GetBest (standingRTTFilter_ (update_filters r s acked t))) = Ok increase /\
    if increase then congestion_window_ s <= congestion_window_ s'
    else kDefaultMinimumCongestionWindow <= congestion_window_ s' <= congestion_window_ s.
Proof.
  intros Hw H. apply OnCongestionEvent_split in H as (s0 & _ & Hc & H). destruct Hc.
  assert (Hw0 : window_inv s0) by (unfold window_inv in *; congruence).
  apply OnPacketAcked_window in H as ([_ Hw'] & inc & Hinc & H); [|done].
  exists inc. split.
  - rewrite <- Hinc. unfold queueing_delay, update_filters. cbn.
    by rewrite same_min_filter0, same_standing_filter0, same_window0.
  - rewrite same_window0 in H. change kDefaultMinimumCongestionWindow with 5840.
    destruct inc; [tauto|]. destruct H. split; [lia|done].
Qed.

Lemma copa_moves_toward_target_witness :
  let s := (CopaSender_init 10 2000 None).1 <| isSlowStart_ := false |>
             <| minRTTFilter_ := Reset (WindowedFilter_init 10000000 0 0) 5000 900000 |> in
  exists s', OnCongestionEvent (measured 50000 48000) s true 14600 1000000 [mkAcked 1 1460 0] [] = Ok s' /\
  exists increase : bool,
    if increase then 14600 <= congestion_window_ s'
    else kDefaultMinimumCongestionWindow <= congestion_window_ s' <= 14600.
Proof.
  cbn zeta. eexists. split; [vm_compute; reflexivity|].
  edestruct (copa_moves_toward_target (measured 50000 48000)
    ((CopaSender_init 10 2000 None).1 <| isSlowStart_ := false |>
       <| minRTTFilter_ := Reset (WindowedFilter_init 10000000 0 0) 5000 900000 |>) true 14600 1000000 [mkAcked 1 1460 0] [])
    as (inc & _ & H);
    [split; [reflexivity|vm_compute; split; [discriminate|reflexivity]] | vm_compute; reflexivity |].
  exists inc. exact H.
Defined.

(** ** The velocity *)

(** The velocity after [n] consecutive updates in the same direction. *)
Definition velocity_schedule (n : Z) : Z := u64 (2 ^ Z.max 0 (n - 2)).

Definition velocity_law (v : VelocityState) : Prop :=
  0 <= numTimesDirectionSame v < two64 /\ velocity v = velocity_schedule (numTimesDirectionSame v).

Lemma velocity_schedule_succ n :
  0 <= n -> velocity_schedule (n + 1) =
    if 3 <=? n + 1 then 2 ⊗ velocity_schedule n else velocity_schedule n.
Proof.
  intros Hn. unfold velocity_schedule. destruct (Z.leb_spec 3 (n + 1)).
  - replace (Z.max 0 (n + 1 - 2)) with (Z.succ (Z.max 0 (n - 2))) by lia.
    rewrite Z.pow_succ_r by lia. unfold u64. by rewrite Zmult_mod_idemp_r.
  - do 2 f_equal. lia.
Qed.

Lemma CheckAndUpdateDirection_velocity r s t s' :
  velocity_law (velocityState_ s) -> numTimesDirectionSame (velocityState_ s) < two64 - 1 ->
  CheckAndUpdateDirection r s t = Ok s' -> velocity_law (velocityState_ s').
Proof.
  intros [Hn Hv] Hlt H. unfold CheckAndUpdateDirection in H.
  destruct (negb _); [by inv_ok|]. destruct (smoothed_rtt_ r <=? _); [|by inv_ok].
  destruct (lastRecordedCwndBytes _) as [last|]; inv_ok. unfold velocity_law.
  cbn. case_decide; cbn; [split; [lia|done]|].
  rewrite (u64_small (_ + 1)) by lia.
  pose proof (velocity_schedule_succ (numTimesDirectionSame (velocityState_ s)) ltac:(lia)) as E.
  destruct (3 <=? _); cbn; rewrite ?Hv, <- E; split; lia || done.
Qed.

Lemma ChangeDirection_velocity s d t :
  velocity_law (velocityState_ s) -> velocity_law (velocityState_ (ChangeDirection s d t)).
Proof. unfold ChangeDirection. case_decide; [done|]. intros _. split; [cbn; lia|done]. Qed.

Lemma move_window_velocity s n srtt t s' :
  increase_window s n srtt t = Ok s' \/ decrease_window s n t = Ok s' ->
  velocityState_ s' = velocityState_ s \/
  exists d, velocityState_ s' = velocityState_ (ChangeDirection s d t) /\ 1 < velocity (velocityState_ s).
Proof.
  unfold increase_window, decrease_window. intros [H|H].
  - destruct (isSlowStart_ s).
    + repeat case_match; inv_ok; auto.
    + destruct (bool_decide _ && (1 <? _)) eqn:E; inv_ok; cbn; [|auto].
      apply andb_true_iff in E as [_ E%Z.ltb_lt]. eauto.
  - destruct (bool_decide _ && (1 <? _)) eqn:E; inv_ok; cbn; [|auto].
    apply andb_true_iff in E as [_ E%Z.ltb_lt]. eauto.
Qed.

(** The velocity is a function of the number of consecutive direction checks
    that agreed: 1 for the first two, then doubling with each one, and back to
    1 whenever the direction changes -- as a [uint64_t], so without a cap.
    Every successful event preserves the correspondence. *)
Theorem copa_velocity_schedule r s upd f t acked lost s' :
  velocity_law (velocityState_ s) -> numTimesDirectionSame (velocityState_ s) < two64 - 1 ->
  OnCongestionEvent r s upd f t acked lost = Ok s' -> velocity_law (velocityState_ s').
Proof.
  intros Hv Hn H. apply OnCongestionEvent_split in H as (s0 & _ & Hc & H).
  rewrite <- (same_velocity _ _ Hc) in Hv, Hn.
  apply OnPacketAcked_split in H as (inc & s1 & _ & Hdir & _ & H).
  assert (Hv1 : velocity_law (velocityState_ s1)).
  { destruct (negb _); [|by rewrite Hdir].
    by apply (CheckAndUpdateDirection_velocity r (update_filters r s0 acked t) t). }
  destruct (move_window_velocity s1 (Z.of_nat (length acked)) (smoothed_rtt_ r) t s') as [E|(d & E & _)].
  - destruct inc; [by left|by right].
  - by rewrite E.
  - rewrite E. by apply ChangeDirection_velocity.
Qed.

(** ** A velocity of zero

    Sixty-four doublings take the velocity to zero.  While the recorded
    direction is down, nothing resets it: the reset on a change of direction
    needs a velocity above one, and a window that cannot move keeps the
    direction down. *)
Definition velocity_stuck (s : CopaSender) : Prop :=
  window_inv s /\ isSlowStart_ s = false /\ velocity (velocityState_ s) = 0 /\
  direction (velocityState_ s) = DDown /\ 0 <= numTimesDirectionSame (velocityState_ s) /\
  exists last, lastRecordedCwndBytes (velocityState_ s) = Some last /\ congestion_window_ s <= last.

Lemma CheckAndUpdateDirection_stuck r s t s' :
  velocity_stuck s -> CheckAndUpdateDirection r s t = Ok s' -> velocity_stuck s'.
Proof.
  intros (Hw & Hs & Hv & Hd & Hn & last & Hl & Hle) H. unfold CheckAndUpdateDirection in H.
  destruct (negb _).
  { inv_ok. unfold velocity_stuck. cbn. split_and!; auto. eexists; split; [done|]. unfold GetCongestionWindow. lia. }
  destruct (smoothed_rtt_ r <=? _); [|injection H as <-; unfold velocity_stuck; eauto 10].
  rewrite Hl in H. unfold GetCongestionWindow in H.
  rewrite (proj2 (Z.ltb_ge last (congestion_window_ s)) Hle) in H.
  rewrite decide_False in H by (rewrite Hd; tauto). inv_ok.
  pose proof (u64_range (numTimesDirectionSame (velocityState_ s) + 1)).
  unfold velocity_stuck. cbn. destruct (3 <=? _); cbn; rewrite ?Hv; split_and!; auto; try lia; eauto with lia.
Qed.

Lemma velocity_stuck_event r s upd f t acked lost s' :
  velocity_stuck s -> OnCongestionEvent r s upd f t acked lost = Ok s' ->
  velocity_stuck s' /\ congestion_window_ s' = congestion_window_ s.
Proof.
  intros Hst H. apply OnCongestionEvent_split in H as (s0 & _ & [] & H).
  assert (Hst0 : velocity_stuck s0).
  { unfold velocity_stuck, window_inv in *.
    by rewrite same_window0, same_min0, same_slow_start0, same_velocity0. }
  rewrite <- same_window0.
  apply OnPacketAcked_split in H as (inc & s1 & _ & Hdir & E & H).
  assert (Hw1 : congestion_window_ s1 = congestion_window_ s0) by (rewrite E; done).
  assert (Hst1 : velocity_stuck s1).
  { replace (negb (inc && isSlowStart_ s0)) with true in Hdir
      by (destruct Hst0 as (_ & -> & _); by rewrite andb_false_r).
    eapply CheckAndUpdateDirection_stuck; [|exact Hdir]. exact Hst0. }
  rewrite <- Hw1. clear E Hdir. pose proof Hst1 as ([Hm Hw] & Hs & Hv & Hd & Hn & Hl).
  assert (Hc : forall n, window_change n 0 (congestion_window_ s1) = Ok 0) by (intros; apply window_change_zero; lia).
  destruct inc; [unfold increase_window in H | unfold decrease_window in H];
    rewrite ?Hs, Hv, andb_false_r, Hv, Hc in H; cbn [rbind] in H.
  - rewrite addAndCheckOverflow_total in H by lia. inv_ok. rewrite Z.add_0_r.
    split; [|done]. unfold velocity_stuck, window_inv; cbn. auto 10.
  - cbn in H. rewrite subtract_floor in H by lia. inv_ok.
    replace (Z.max (min_congestion_window_ s1) (congestion_window_ s1 - 0)) with (congestion_window_ s1) by lia.
    split; [|done]. unfold velocity_stuck, window_inv; cbn. auto 10.
Qed.

(** Once the velocity has wrapped to zero with the direction down, the
    window is frozen: along every further run of the sender, whatever the RTTs
    (an empty queue included), the congestion window keeps its value and the
    sender stays in that state.  The witness reaches it from a fresh sender by
    70 round trips at the minimum window behind a standing queue. *)
Theorem copa_zero_velocity_freezes es s s' :
  velocity_stuck s -> rfold sender_step es s = Ok s' ->
  velocity_stuck s' /\ GetCongestionWindow s' = GetCongestionWindow s.
Proof.
  intros Hs H. unfold GetCongestionWindow.
  apply (rfold_inv (fun u => velocity_stuck u /\ congestion_window_ u = congestion_window_ s) sender_step es s s');
    [|done|exact H].
  intros e u u' _ [Hu Hcw] He. destruct e as [r upd f t acked lost|t f pn b d|b]; cbn in He.
  - destruct (velocity_stuck_event _ _ _ _ _ _ _ _ Hu He). split; [done|congruence].
  - unfold OnPacketSent in He. inv_ok. done.
  - by inv_ok.
Qed.

(** One first sample of 5 ms, then round trips of 20 ms. *)
Definition standing_queue_run : list sender_event :=
  EvCongestion (measured 5000 5000) true 5840 1000000 [mkAcked 1 1460 0] [] ::
  map (fun i => EvCongestion (measured 20000 20000) true 5840 (1000000 + 21000 * Z.of_nat i)
                  [mkAcked (1 + Z.of_nat i) 1460 0] []) (seq 1 70).

