(* ===== verification/Vegas.v ===== *)
(** [VegasSender] (cc-algo/vegas_sender.h, cc-algo/vegas_sender.cc): the window
    follows the backlog estimated once per round trip from the difference
    between the round's least RTT and the base RTT; Reno growth during
    recovery. *)

From Stdlib Require Import SpecFloat.
From S2P Require Import Prelude Float QuicTime PacketNumber WindowedFilter RttStats SendAlgorithm.

(** * State *)

(** src/src/quic/model/cc-algo/vegas_sender.h:86-110 [VegasSender] *)
Record VegasSender := mkVegas {
  largest_sent_packet_number_ : QuicPacketNumber;
  largest_acked_packet_number_ : QuicPacketNumber;
  largest_sent_at_last_cutback_ : QuicPacketNumber;
  congestion_window_ : Z;
  initial_congestion_window_ : Z;
  max_congestion_window_ : Z;
  min_congestion_window_ : Z;
  slowstart_threshold_ : Z;
  pacing_rate_ : Z;
  baseRTTFilter_ : WindowedFilter;
  min_rtt_ : Delta;
  rtt_count_ : Z;
  beg_send_next_ : QuicPacketNumber;
  num_acked_packets_ : Z;
  vegas_mode_ : bool;
}.
#[export] Instance eta_Vegas : Eta VegasSender := MkEta _ (fun s =>
  mkVegas (largest_sent_packet_number_ s) (largest_acked_packet_number_ s)
    (largest_sent_at_last_cutback_ s) (congestion_window_ s) (initial_congestion_window_ s)
    (max_congestion_window_ s) (min_congestion_window_ s) (slowstart_threshold_ s)
    (pacing_rate_ s) (baseRTTFilter_ s) (min_rtt_ s) (rtt_count_ s) (beg_send_next_ s)
    (num_acked_packets_ s) (vegas_mode_ s)).

(** src/src/quic/model/cc-algo/vegas_sender.cc:20-20 [kDefaultMinimumCongestionWindow] *)
Definition kDefaultMinimumCongestionWindow : Z := 4 ⊗ kDefaultTCPMSS.
(** src/src/quic/model/cc-algo/vegas_sender.cc:21-21 [kAlphaCongestionWindow] *)
Definition kAlphaCongestionWindow : Z := 2 ⊗ kDefaultTCPMSS.
(** src/src/quic/model/cc-algo/vegas_sender.cc:22-22 [kBetaCongestionWindow] *)
Definition kBetaCongestionWindow : Z := 4 ⊗ kDefaultTCPMSS.
(** src/src/quic/model/cc-algo/vegas_sender.cc:23-23 [kGammaCongestionWindow] *)
Definition kGammaCongestionWindow : Z := 1 ⊗ kDefaultTCPMSS.
(** src/src/quic/model/cc-algo/vegas_sender.cc:24-24 [kMinRTTWindowLength] *)
Definition kMinRTTWindowLength : Delta := Delta_FromSeconds 10.

(** * Operations *)

(** src/src/quic/model/cc-algo/vegas_sender.cc:27-56 [VegasSender::VegasSender] *)
Definition VegasSender_init (initial_tcp_congestion_window max_tcp_congestion_window : Z)
    (stats_ : option QuicConnectionStats) : VegasSender * option QuicConnectionStats :=
  (mkVegas QuicPacketNumber_default QuicPacketNumber_default QuicPacketNumber_default
     (initial_tcp_congestion_window ⊗ kDefaultTCPMSS)
     (initial_tcp_congestion_window ⊗ kDefaultTCPMSS)
     (max_tcp_congestion_window ⊗ kDefaultTCPMSS)
     kDefaultMinimumCongestionWindow
     (max_tcp_congestion_window ⊗ kDefaultTCPMSS)
     QuicBandwidth_Zero
     (WindowedFilter_init (u64 kMinRTTWindowLength) Delta_Zero 0)
     Delta_Infinite 0 QuicPacketNumber_default 0 true,
   match stats_ with
   | Some st => Some (st <| slowstart_count := 0 |>
                         <| slowstart_duration := QuicTimeAccumulator_init |>)
   | None => None
   end).

(** src/src/quic/model/cc-algo/vegas_sender.cc:167-170 [VegasSender::GetCongestionWindow] *)
Definition GetCongestionWindow (s : VegasSender) : Z := congestion_window_ s.
(** src/src/quic/model/cc-algo/vegas_sender.cc:171-174 [VegasSender::GetSlowStartThreshold] *)
Definition GetSlowStartThreshold (s : VegasSender) : Z := slowstart_threshold_ s.
(** src/src/quic/model/cc-algo/vegas_sender.cc:59-62 [VegasSender::InSlowStart] *)
Definition InSlowStart (s : VegasSender) : bool := GetCongestionWindow s <? GetSlowStartThreshold s.
(** src/src/quic/model/cc-algo/vegas_sender.cc:63-68 [VegasSender::InRecovery] *)
Definition InRecovery (s : VegasSender) : bool :=
  packets_in_recovery (largest_acked_packet_number_ s) (largest_sent_at_last_cutback_ s).
(** src/src/quic/model/cc-algo/vegas_sender.cc:69-72 [VegasSender::ShouldSendProbingPacket] *)
Definition ShouldSendProbingPacket (s : VegasSender) : bool := false.
(** src/src/quic/model/cc-algo/vegas_sender.cc:73-80 [VegasSender::SetInitialCongestionWindowInPackets] *)
Definition SetInitialCongestionWindowInPackets (s : VegasSender) (congestion_window : Z) : VegasSender :=
  if InSlowStart s then
    s <| initial_congestion_window_ := congestion_window ⊗ kDefaultTCPMSS |>
      <| congestion_window_ := congestion_window ⊗ kDefaultTCPMSS |>
  else s.
(** src/src/quic/model/cc-algo/vegas_sender.cc:175-178 [VegasSender::GetCongestionControlType] *)
Definition GetCongestionControlType (s : VegasSender) : Z := kVegas.
(** src/src/quic/model/cc-algo/vegas_sender.cc:179-182 [VegasSender::GetDebugState] *)
Definition GetDebugState (s : VegasSender) : string := "copa".
(** src/src/quic/model/cc-algo/vegas_sender.cc:143-145 [VegasSender::OnRetransmissionTimeout] *)
Definition OnRetransmissionTimeout (s : VegasSender) (packets_retransmitted : bool) : VegasSender := s.
(** src/src/quic/model/cc-algo/vegas_sender.cc:146-149 [VegasSender::CanSend] *)
Definition CanSend (s : VegasSender) (bytes_in_flight : Z) : bool :=
  bytes_in_flight <? GetCongestionWindow s.
(** src/src/quic/model/cc-algo/vegas_sender.cc:150-156 [VegasSender::PacingRate] *)
Definition PacingRate (rtt_stats_ : RttStats) (s : VegasSender) (bytes_in_flight : Z) : result Z :=
  let srtt := SmoothedOrInitialRtt rtt_stats_ in
  let* bandwidth := FromBytesAndTimeDelta (GetCongestionWindow s) srtt in
  QuicBandwidth_mul bandwidth
    (f32_of_f64 (if InSlowStart s then f64_of_Z 2
                 else if InRecovery s then f64_of_Z 1 else f64_lit 5 (-2))).
(** src/src/quic/model/cc-algo/vegas_sender.cc:157-166 [VegasSender::BandwidthEstimate] *)
Definition BandwidthEstimate (rtt_stats_ : RttStats) (s : VegasSender) : result Z :=
  let srtt := smoothed_rtt_ rtt_stats_ in
  if Delta_IsZero srtt then Ok QuicBandwidth_Zero
  else FromBytesAndTimeDelta (GetCongestionWindow s) srtt.

(** src/src/quic/model/cc-algo/vegas_sender.cc:129-142 [VegasSender::OnPacketSent] *)
Definition OnPacketSent (s : VegasSender) (sent_time : QuicTime) (bytes_in_flight : Z)
    (packet_number : QuicPacketNumber) (bytes : Z) (is_retransmittable : HasRetransmittableData)
    : result VegasSender :=
  let* increasing := if PN_IsInitialized (largest_sent_packet_number_ s)
    then PN_lt (largest_sent_packet_number_ s) packet_number else Ok true in
  let* _ := CHECK increasing in
  let s := s <| largest_sent_packet_number_ := packet_number |> in
  Ok (if negb (PN_IsInitialized (beg_send_next_ s))
      then s <| beg_send_next_ := largest_sent_packet_number_ s |> else s).

(** src/src/quic/model/cc-algo/vegas_sender.cc:183-196 [VegasSender::OnPacketLost] *)
Definition OnPacketLost (s : VegasSender) (packet_number : QuicPacketNumber)
    (lost_bytes prior_in_flight : Z) : result VegasSender :=
  let* old := if PN_IsInitialized (largest_sent_at_last_cutback_ s)
    then PN_le packet_number (largest_sent_at_last_cutback_ s) else Ok false in
  if old then Ok s
  else
    let s := s <| congestion_window_ := congestion_window_ s / 2 |> in
    let s := s <| congestion_window_ := Z.max (congestion_window_ s) (min_congestion_window_ s) |> in
    Ok (s <| slowstart_threshold_ := congestion_window_ s |>
          <| largest_sent_at_last_cutback_ := largest_sent_packet_number_ s |>
          <| num_acked_packets_ := 0 |>).

(** src/src/quic/model/cc-algo/vegas_sender.cc:274-289 [VegasSender::IncreaseCongestionWindowAsReno] *)
Definition IncreaseCongestionWindowAsReno (s : VegasSender) : VegasSender :=
  if InSlowStart s then s <| congestion_window_ := congestion_window_ s ⊕ kDefaultTCPMSS |>
  else
    let s := s <| num_acked_packets_ := num_acked_packets_ s ⊕ 1 |> in
    if congestion_window_ s <=? num_acked_packets_ s ⊗ kDefaultTCPMSS then
      s <| congestion_window_ := congestion_window_ s ⊕ kDefaultTCPMSS |>
        <| num_acked_packets_ := 0 |>
    else s.

(** src/src/quic/model/cc-algo/vegas_sender.cc:224-261 [VegasSender::OnPacketAcked, window adjustment] *)
Definition adjust_window (s : VegasSender) (diff target_cwnd : Z) : VegasSender :=
  if (kGammaCongestionWindow <? diff) && InSlowStart s then
    let s := s <| congestion_window_ := Z.min (congestion_window_ s) target_cwnd |> in
    s <| slowstart_threshold_ := congestion_window_ s |>
  else if InSlowStart s then
    s <| congestion_window_ := congestion_window_ s ⊕ kDefaultTCPMSS |>
  else if kBetaCongestionWindow <? diff then
    if min_congestion_window_ s <? congestion_window_ s then
      let s := s <| congestion_window_ := congestion_window_ s ⊖ kDefaultTCPMSS |> in
      s <| slowstart_threshold_ := congestion_window_ s |>
    else s
  else if diff <? kAlphaCongestionWindow then
    s <| congestion_window_ := congestion_window_ s ⊕ kDefaultTCPMSS |>
  else s.

(** src/src/quic/model/cc-algo/vegas_sender.cc:212-266 [VegasSender::OnPacketAcked, end of a round] *)
Definition end_of_round (s : VegasSender) : result VegasSender :=
  let s := s <| beg_send_next_ := largest_sent_packet_number_ s |> in
  let* s :=
    if rtt_count_ s <=? 2 then Ok (IncreaseCongestionWindowAsReno s)
    else
      let base_rtt := GetBest (baseRTTFilter_ s) in
      let* _ := (if u64 (min_rtt_ s) =? 0 then Fault DivByZero else Ok tt) in
      let target_cwnd := (congestion_window_ s ⊗ base_rtt) / u64 (min_rtt_ s) in
      let target_cwnd := ((((target_cwnd ⊕ kDefaultTCPMSS) ⊖ 1) / kDefaultTCPMSS) ⊗ kDefaultTCPMSS) in
      let* _ := CHECK (base_rtt <=? min_rtt_ s) in
      let* _ := (if u64 base_rtt =? 0 then Fault DivByZero else Ok tt) in
      let diff := (congestion_window_ s ⊗ i64 (min_rtt_ s - base_rtt)) / u64 base_rtt in
      Ok (adjust_window s diff target_cwnd) in
  Ok (s <| min_rtt_ := Delta_Infinite |> <| rtt_count_ := 0 |>).

(** src/src/quic/model/cc-algo/vegas_sender.cc:197-273 [VegasSender::OnPacketAcked] *)
Definition OnPacketAcked (s : VegasSender) (acked_packet_number : QuicPacketNumber)
    (acked_bytes prior_in_flight : Z) (event_time : QuicTime) : result VegasSender :=
  let s := s <| largest_acked_packet_number_ :=
    PN_UpdateMax (largest_acked_packet_number_ s) acked_packet_number |> in
  if negb (vegas_mode_ s) then Ok (IncreaseCongestionWindowAsReno s)
  else
    let* _ := CHECK (PN_IsInitialized (beg_send_next_ s)) in
    let* ends := PN_ge acked_packet_number (beg_send_next_ s) in
    let* s :=
      if ends then end_of_round s
      else if InSlowStart s then Ok (s <| congestion_window_ := congestion_window_ s ⊕ kDefaultTCPMSS |>)
      else Ok s in
    Ok (s <| congestion_window_ := Z.max (congestion_window_ s) (min_congestion_window_ s) |>).

(** src/src/quic/model/cc-algo/vegas_sender.cc:88-98 [VegasSender::OnCongestionEvent, RTT sample] *)
Definition take_rtt_sample (rtt_stats_ : RttStats) (s : VegasSender) (event_time : QuicTime)
    (acked_packets : list AckedPacket) : VegasSender :=
  match acked_packets with
  | [] => s
  | _ =>
      let vrtt := Delta_add (latest_rtt_ rtt_stats_) (Delta_FromMicroseconds 1) in
      let wall_time := QuicTime_diff event_time QuicTime_Zero in
      let s := s <| baseRTTFilter_ := Update MinFilter (baseRTTFilter_ s) vrtt (u64 wall_time) |> in
      let s := if vrtt <? min_rtt_ s then s <| min_rtt_ := vrtt |> else s in
      s <| rtt_count_ := i32 (rtt_count_ s + 1) |>
  end.

(** src/src/quic/model/cc-algo/vegas_sender.cc:111-127 [VegasSender::OnCongestionEvent, mode switch] *)
Definition switch_mode (s : VegasSender) (before : bool) : VegasSender :=
  if negb (Bool.eqb (InRecovery s) before) then
    if InRecovery s then s <| vegas_mode_ := false |>
    else s <| vegas_mode_ := true |> <| beg_send_next_ := largest_sent_packet_number_ s |>
           <| min_rtt_ := Delta_Infinite |> <| rtt_count_ := 0 |>
  else s.

(** src/src/quic/model/cc-algo/vegas_sender.cc:82-128 [VegasSender::OnCongestionEvent] *)
Definition OnCongestionEvent (rtt_stats_ : RttStats) (s : VegasSender) (rtt_updated : bool)
    (prior_in_flight : Z) (event_time : QuicTime)
    (acked_packets : list AckedPacket) (lost_packets : list LostPacket) : result VegasSender :=
  let s := take_rtt_sample rtt_stats_ s event_time acked_packets in
  let before := InRecovery s in
  let* s := rfold (fun s l => OnPacketLost s (lost_packet_number l) (bytes_lost l) prior_in_flight)
              lost_packets s in
  let* s := rfold (fun s a => OnPacketAcked s (acked_packet_number a) (bytes_acked a) prior_in_flight event_time)
              acked_packets s in
  Ok (switch_mode s before).

(** src/src/quic/model/cc-algo/vegas_sender.h:19-66 [VegasSender, SendAlgorithmInterface] *)
#[export] Instance VegasSender_interface : SendAlgorithmInterface VegasSender := {|
  sa_SetInitialCongestionWindowInPackets := SetInitialCongestionWindowInPackets;
  sa_OnCongestionEvent := OnCongestionEvent;
  sa_OnPacketSent := OnPacketSent;
  sa_OnPacketNeutered s _ := Ok s;
  sa_OnRetransmissionTimeout := OnRetransmissionTimeout;
  sa_OnConnectionMigration s := s;
  sa_CanSend := CanSend;
  sa_PacingRate := PacingRate;
  sa_BandwidthEstimate := BandwidthEstimate;
  sa_GetCongestionWindow := GetCongestionWindow;
  sa_InSlowStart := InSlowStart;
  sa_InRecovery := InRecovery;
  sa_ShouldSendProbingPacket := ShouldSendProbingPacket;
  sa_GetSlowStartThreshold := GetSlowStartThreshold;
  sa_GetCongestionControlType := GetCongestionControlType;
  sa_AdjustNetworkParameters _ s _ := Ok s;
  sa_OnApplicationLimited s _ := s;
|}.

(** * The window: floor, and at most one segment per acknowledged packet *)

Definition window_in (B : Z) (s : VegasSender) : Prop :=
  min_congestion_window_ s = 5840 /\ 5840 <= congestion_window_ s <= B.

Lemma IncreaseReno_window B s :
  window_in B s -> B + 1460 < two64 -> window_in (B + 1460) (IncreaseCongestionWindowAsReno s).
Proof.
  intros [Hm Hw] HB. unfold IncreaseCongestionWindowAsReno, window_in, kDefaultTCPMSS.
  destruct (InSlowStart s); cbn; [rewrite u64_small by lia; lia|].
  destruct (_ <=? _); cbn; [rewrite u64_small by lia|]; lia.
Qed.

Lemma adjust_window_bound B s diff target :
  window_in B s -> B + 1460 < two64 ->
  min_congestion_window_ (adjust_window s diff target) = 5840 /\
  congestion_window_ (adjust_window s diff target) <= B + 1460.
Proof.
  intros [Hm Hw] HB. unfold adjust_window, kDefaultTCPMSS.
  repeat match goal with |- context [if ?b then _ else _] => destruct b eqn:? end; cbn;
    rewrite ?u64_small by lia; lia.
Qed.

Lemma end_of_round_bound B s s' :
  window_in B s -> B + 1460 < two64 -> end_of_round s = Ok s' ->
  min_congestion_window_ s' = 5840 /\ congestion_window_ s' <= B + 1460.
Proof.
  intros Hw HB H. unfold end_of_round in H. cbn in H. inv_ok. cbn.
  destruct (rtt_count_ s <=? 2); inv_ok.
  - assert (Hw' : window_in B (s <| beg_send_next_ := largest_sent_packet_number_ s |>)) by exact Hw.
    destruct (IncreaseReno_window B _ Hw' HB) as [H1 H2].
    exact (conj H1 (proj2 H2)).
  - apply adjust_window_bound; done.
Qed.

Lemma Vegas_OnPacketAcked_window B s p b f t s' :
  window_in B s -> B + 1460 < two64 -> OnPacketAcked s p b f t = Ok s' -> window_in (B + 1460) s'.
Proof.
  intros Hw HB H. unfold OnPacketAcked in H. cbn in H. destruct (vegas_mode_ s); cbn in H; inv_ok.
  2:{ by apply IncreaseReno_window. }
  match goal with H : (if ?e then _ else _) = Ok _ |- _ => destruct e; rename H into Hs end.
  - apply (end_of_round_bound B) in Hs; [|done|done]. unfold window_in in *; cbn; lia.
  - destruct Hw as [Hm Hw]. unfold window_in.
    destruct (InSlowStart _); inv_ok; cbn; unfold kDefaultTCPMSS; rewrite ?u64_small by lia; lia.
Qed.

Lemma OnPacketLost_window B s p b f s' :
  window_in B s -> OnPacketLost s p b f = Ok s' -> window_in B s'.
Proof.
  intros [Hm Hw] H. unfold OnPacketLost in H. inv_ok. case_match; inv_ok; [by split|].
  unfold window_in. cbn. assert (congestion_window_ s / 2 <= congestion_window_ s)
    by (apply Z.div_le_upper_bound; lia). lia.
Qed.

Lemma switch_mode_window s b :
  congestion_window_ (switch_mode s b) = congestion_window_ s /\
  min_congestion_window_ (switch_mode s b) = min_congestion_window_ s.
Proof. unfold switch_mode. by repeat case_match. Qed.

Lemma take_rtt_sample_window r s t acked :
  congestion_window_ (take_rtt_sample r s t acked) = congestion_window_ s /\
  min_congestion_window_ (take_rtt_sample r s t acked) = min_congestion_window_ s /\
  slowstart_threshold_ (take_rtt_sample r s t acked) = slowstart_threshold_ s.
Proof. unfold take_rtt_sample. destruct acked; [done|]. by case_match. Qed.

Lemma acked_loop_window acked f t B s s' :
  window_in B s -> B + 1460 * Z.of_nat (length acked) < two64 ->
  rfold (fun s a => OnPacketAcked s (acked_packet_number a) (bytes_acked a) f t) acked s = Ok s' ->
  window_in (B + 1460 * Z.of_nat (length acked)) s'.
Proof.
  revert B s. induction acked as [|a acked IH]; intros B s Hw HB H; cbn [rfold] in H.
  - injection H as <-. by rewrite Z.mul_0_r, Z.add_0_r.
  - apply rbind_Ok in H as (s1 & H1 & H). cbn [length] in *.
    apply (Vegas_OnPacketAcked_window B) in H1; [|done|lia].
    replace (B + 1460 * Z.of_nat (S (length acked))) with (B + 1460 + 1460 * Z.of_nat (length acked)) by lia.
    eapply IH; [exact H1|lia|exact H].
Qed.

Lemma Vegas_OnCongestionEvent_window B r s upd f t acked lost s' :
  window_in B s -> B + 1460 * Z.of_nat (length acked) < two64 ->
  OnCongestionEvent r s upd f t acked lost = Ok s' ->
  window_in (B + 1460 * Z.of_nat (length acked)) s'.
Proof.
  intros Hw HB H. unfold OnCongestionEvent in H.
  apply rbind_Ok in H as (s1 & H1 & H). apply rbind_Ok in H as (s2 & H2 & H). injection H as <-.
  assert (Hw1 : window_in B s1).
  { eapply (rfold_inv (window_in B)); [|  |exact H1].
    - intros l u u' _ Hu Hl. eapply OnPacketLost_window; [exact Hu|exact Hl].
    - destruct (take_rtt_sample_window r s t acked) as (E1 & E2 & _).
      unfold window_in. by rewrite E1, E2. }
  apply (acked_loop_window _ _ _ B) in H2; [|done|done].
  unfold window_in. by destruct (switch_mode_window s2 (InRecovery (take_rtt_sample r s t acked))) as [-> ->].
Qed.

Lemma OnPacketSent_frame s t f pn b d s' :
  OnPacketSent s t f pn b d = Ok s' ->
  congestion_window_ s' = congestion_window_ s /\ min_congestion_window_ s' = min_congestion_window_ s /\
  largest_acked_packet_number_ s' = largest_acked_packet_number_ s /\
  largest_sent_at_last_cutback_ s' = largest_sent_at_last_cutback_ s /\ vegas_mode_ s' = vegas_mode_ s.
Proof. unfold OnPacketSent. intros H. inv_ok. by destruct (negb _). Qed.

Lemma sender_run_window es B s s' :
  window_in B s -> B + 1460 * run_acks es < two64 ->
  rfold sender_step es s = Ok s' -> window_in (B + 1460 * run_acks es) s'.
Proof.
  revert B s. induction es as [|e es IH]; intros B s Hw HB H; cbn [rfold] in H.
  - injection H as <-. cbn. by rewrite Z.add_0_r.
  - apply rbind_Ok in H as (s1 & H1 & H). rewrite run_acks_cons in *.
    pose proof (run_acks_nonneg es).
    assert (Hw1 : window_in (B + 1460 * event_acks e) s1).
    { destruct e as [r upd f t acked lost|t f pn b d|b]; cbn [sender_step event_acks] in *.
      - apply (Vegas_OnCongestionEvent_window B r s upd f t acked lost); [done|cbn in HB; lia|exact H1].
      - rewrite Z.mul_0_r, Z.add_0_r. apply OnPacketSent_frame in H1 as (E1 & E2 & _).
        unfold window_in. by rewrite E1, E2.
      - rewrite Z.mul_0_r, Z.add_0_r. by injection H1 as <-. }
    replace (B + 1460 * (event_acks e + run_acks es)) with (B + 1460 * event_acks e + 1460 * run_acks es) by lia.
    eapply IH; [exact Hw1|lia|exact H].
Qed.

#[export] Instance VegasSender_laws : SendAlgorithmLaws VegasSender.
Proof.
  refine {| sender_inv s := min_congestion_window_ s = 5840 /\ 5840 <= congestion_window_ s < two64 |};
    cbn.
  - unfold GetCongestionWindow. intros r s upd f t acked lost s' [Hm Hw] Hb Ha H.
    assert (Hw0 : window_in (congestion_window_ s) s) by (unfold window_in; lia).
    destruct (Vegas_OnCongestionEvent_window _ r s upd f t acked lost s' Hw0 ltac:(lia) H). lia.
  - intros * Hw H. apply OnPacketSent_frame in H as (E1 & E2 & _). by rewrite E1, E2.
  - done.
  - unfold GetCongestionWindow, kDefaultTCPMSS. intros. lia.
  - unfold CanSend, GetCongestionWindow. intros s [_ Hw]. apply Z.ltb_lt. lia.
Defined.

(** Along every run that starts from a sender created with [n >= 4] packets
    and acknowledges [N] packets in all, the window is never below four segments
    and never above [n + N] segments: each acknowledgment adds at most one
    segment, in every mode, and cutbacks stop at the floor. *)
Theorem vegas_window_bounds n m st es s' :
  4 <= n -> 1460 * (n + run_acks es) < two64 ->
  rfold sender_step es (VegasSender_init n m st).1 = Ok s' ->
  kDefaultMinimumCongestionWindow <= GetCongestionWindow s' <= 1460 * (n + run_acks es).
Proof.
  intros Hn HB H. pose proof (run_acks_nonneg es). apply (sender_run_window es (1460 * n)) in H; [destruct H as [_ H]|..].
  - change kDefaultMinimumCongestionWindow with 5840. unfold GetCongestionWindow. lia.
  - split; [done|]. change (5840 <= n ⊗ 1460 <= 1460 * n). rewrite u64_small by lia. lia.
  - lia.
Qed.

Definition vegas_example_run : list sender_event :=
  [EvSent 900000 0 1 1460 HAS_RETRANSMITTABLE_DATA;
   EvSent 900000 1460 2 1460 HAS_RETRANSMITTABLE_DATA;
   EvCongestion (RttStats_init <| latest_rtt_ := 50000 |>) true 2920 1000000 [mkAcked 1 1460 0] [];
   EvSent 1000000 1460 3 1460 HAS_RETRANSMITTABLE_DATA;
   EvCongestion (RttStats_init <| latest_rtt_ := 52000 |>) true 2920 1052000 [mkAcked 3 1460 0] [mkLost 2 1460]].

(** * The mode flag *)

Definition mode_inv (s : VegasSender) : Prop := vegas_mode_ s = negb (InRecovery s).

Lemma IncreaseReno_mode s :
  vegas_mode_ (IncreaseCongestionWindowAsReno s) = vegas_mode_ s.
Proof. unfold IncreaseCongestionWindowAsReno. by repeat case_match. Qed.

Lemma end_of_round_mode s s' : end_of_round s = Ok s' -> vegas_mode_ s' = vegas_mode_ s.
Proof.
  unfold end_of_round. cbn. intros H. inv_ok. cbn. destruct (rtt_count_ s <=? 2); inv_ok.
  - by rewrite IncreaseReno_mode.
  - unfold adjust_window. by repeat match goal with |- context [if ?b then _ else _] => destruct b end.
Qed.

Lemma OnPacketAcked_mode s p b f t s' :
  OnPacketAcked s p b f t = Ok s' -> vegas_mode_ s' = vegas_mode_ s.
Proof.
  unfold OnPacketAcked. cbn. intros H. destruct (vegas_mode_ s) eqn:E; cbn in H; inv_ok; cbn.
  - match goal with H : (if ?e then _ else _) = Ok _ |- _ => destruct e; rename H into Hs end.
    + apply end_of_round_mode in Hs. by rewrite Hs.
    + destruct (InSlowStart _); inv_ok; done.
  - by rewrite IncreaseReno_mode.
Qed.

Lemma OnPacketLost_mode s p b f s' : OnPacketLost s p b f = Ok s' -> vegas_mode_ s' = vegas_mode_ s.
Proof. unfold OnPacketLost. intros H. inv_ok. case_match; by inv_ok. Qed.

Lemma OnCongestionEvent_mode r s upd f t acked lost s' :
  mode_inv s -> OnCongestionEvent r s upd f t acked lost = Ok s' -> mode_inv s'.
Proof.
  unfold mode_inv. intros Hm H. unfold OnCongestionEvent in H.
  set (s0 := take_rtt_sample r s t acked) in *.
  assert (E0 : InRecovery s0 = InRecovery s /\ vegas_mode_ s0 = vegas_mode_ s).
  { unfold s0, take_rtt_sample, InRecovery. destruct acked; [done|]. by case_match. }
  destruct E0 as [Er Em].
  apply rbind_Ok in H as (s1 & H1 & H). apply rbind_Ok in H as (s2 & H2 & H). injection H as <-.
  assert (E1 : vegas_mode_ s1 = vegas_mode_ s0).
  { refine (rfold_inv (fun u => vegas_mode_ u = vegas_mode_ s0) _ _ _ _ _ eq_refl H1).
    intros l u u' _ Hu Hl. cbn in Hl. apply OnPacketLost_mode in Hl. congruence. }
  assert (E2 : vegas_mode_ s2 = vegas_mode_ s1).
  { refine (rfold_inv (fun u => vegas_mode_ u = vegas_mode_ s1) _ _ _ _ _ eq_refl H2).
    intros l u u' _ Hu Hl. cbn in Hl. apply OnPacketAcked_mode in Hl. congruence. }
  unfold switch_mode. rewrite Er.
  destruct (InRecovery s2) eqn:R2, (InRecovery s) eqn:R; cbn; cbn in Hm.
  - unfold InRecovery in *. rewrite R2. cbn. congruence.
  - unfold InRecovery in *. cbn. by rewrite R2.
  - unfold InRecovery in *. cbn. by rewrite R2.
  - unfold InRecovery in *. rewrite R2. cbn. congruence.
Qed.

(** After every event the sender is in Vegas mode exactly when it is not in
    loss recovery, so the two window laws alternate at the recovery boundaries
    and nowhere else. *)
Theorem vegas_mode_tracks_recovery n m st es s' :
  rfold sender_step es (VegasSender_init n m st).1 = Ok s' ->
  vegas_mode_ s' = negb (InRecovery s').
Proof.
  intros H. apply (rfold_inv mode_inv) in H; [exact H| |done].
  intros [r upd f t acked lost|t f pn b d|b] u u' _ Hu He; cbn in He.
  - by apply (OnCongestionEvent_mode r u upd f t acked lost).
  - apply OnPacketSent_frame in He as (_ & _ & E1 & E2 & E3).
    unfold mode_inv, InRecovery in *. by rewrite E1, E2, E3.
  - by inv_ok.
Qed.

(** * One round *)

(** The backlog [num / base] truncated, compared with a threshold. *)
Lemma backlog_above num base k : 0 < base -> 0 <= num -> 0 <= k -> (k <? num / base) = ((k + 1) * base <=? num).
Proof.
  intros Hb Hn Hk. apply eq_true_iff_eq. rewrite Z.ltb_lt, Z.leb_le. split; intros H.
  - pose proof (Z.mul_div_le num base Hb). nia.
  - apply Z.lt_le_trans with (k + 1); [lia|]. apply Z.div_le_lower_bound; lia.
Qed.
Lemma backlog_below num base k : 0 < base -> (num / base <? k) = (num <? k * base).
Proof.
  intros Hb. apply eq_true_iff_eq. rewrite !Z.ltb_lt. split; intros H.
  - pose proof (Z.mul_succ_div_gt num base Hb). nia.
  - apply Z.div_lt_upper_bound; lia.
Qed.

(** What the end of a round with enough samples does, before the floor. *)
Lemma end_of_round_adjusts s (base := GetBest (baseRTTFilter_ s)) (w := congestion_window_ s) :
  0 <= w < 2 ^ 30 -> 0 < base <= min_rtt_ s -> min_rtt_ s < 2 ^ 32 -> 2 < rtt_count_ s ->
  end_of_round s = Ok (adjust_window (s <| beg_send_next_ := largest_sent_packet_number_ s |>) (w * (min_rtt_ s - base) / base)
      ((w * base / min_rtt_ s + 1459) / 1460 * 1460) <| min_rtt_ := Delta_Infinite |> <| rtt_count_ := 0 |>) /\
  0 <= w * (min_rtt_ s - base) < 2 ^ 62 /\ 0 <= (w * base / min_rtt_ s + 1459) / 1460 * 1460.
Proof.
  intros Hw Hb Hmr Hc. unfold end_of_round. set (s1 := s <| beg_send_next_ := _ |>).
  change (rtt_count_ s1) with (rtt_count_ s). rewrite (proj2 (Z.leb_gt _ _) Hc).
  change (GetBest (baseRTTFilter_ s1)) with base. change (congestion_window_ s1) with w. change (min_rtt_ s1) with (min_rtt_ s).
  rewrite (u64_small (min_rtt_ s)), (u64_small base) by lia.
  destruct (Z.eqb_spec (min_rtt_ s) 0); [lia|]. destruct (Z.eqb_spec base 0); [lia|]. cbn [rbind].
  rewrite (proj2 (Z.leb_le _ _) (proj2 Hb)). cbn [CHECK rbind]. rewrite (i64_small (min_rtt_ s - base)) by lia.
  assert (Hnum : 0 <= w * (min_rtt_ s - base) < 2 ^ 62) by nia. assert (Hwb : 0 <= w * base < 2 ^ 62) by nia.
  rewrite (u64_small (w * (min_rtt_ s - base))), (u64_small (w * base)) by lia.
  assert (0 <= w * base / min_rtt_ s < 2 ^ 62) by (split; [apply Z.div_pos; lia|apply Z.div_lt_upper_bound; nia]).
  set (q := w * base / min_rtt_ s) in *. unfold kDefaultTCPMSS. rewrite (u64_small (q + 1460)), (u64_small (q + 1460 - 1)) by lia.
  replace (q + 1460 - 1) with (q + 1459) by lia.
  assert (0 <= (q + 1459) / 1460 <= q + 1459) by (split; [apply Z.div_pos; lia|apply Z.div_le_upper_bound; lia]).
  pose proof (Z.mul_div_le (q + 1459) 1460 ltac:(lia)). rewrite (u64_small ((q + 1459) / 1460 * 1460)) by lia. split; [done|lia].
Qed.

(** C16. A round with at least three RTT samples compares the backlog
    [cwnd * (min - base) / base] with thresholds.  In congestion avoidance: below two
    segments the window grows by one segment, above four it shrinks by one (not
    below the floor), in between it is held.  In slow start: above one segment
    slow start ends, with the window at the rate of the base RTT
    rounded up to segments, if that is less; otherwise the window grows by one
    segment.  The statement is in products, so it holds of the rational backlog; the next
    round starts clean. *)
Theorem vegas_round_adjustment s acked bytes f t :
  let base := GetBest (baseRTTFilter_ s) in
  let w := congestion_window_ s in
  let backlog_num := w * (min_rtt_ s - base) in
  let target := (w * base / min_rtt_ s + 1459) / 1460 * 1460 in
  min_congestion_window_ s = 5840 -> 5840 <= w < 2 ^ 30 ->
  0 < base <= min_rtt_ s -> min_rtt_ s < 2 ^ 32 -> 2 < rtt_count_ s -> vegas_mode_ s = true ->
  PN_IsInitialized acked = true -> PN_IsInitialized (beg_send_next_ s) = true -> beg_send_next_ s <= acked ->
  exists s', OnPacketAcked s acked bytes f t = Ok s' /\
    (slowstart_threshold_ s <= w -> congestion_window_ s' =
      (if backlog_num <? 2 * 1460 * base then w + 1460
       else if (4 * 1460 + 1) * base <=? backlog_num then Z.max 5840 (w - 1460)
       else w)) /\
    (w < slowstart_threshold_ s ->
      if (1460 + 1) * base <=? backlog_num
      then congestion_window_ s' = Z.max 5840 (Z.min w target) /\ slowstart_threshold_ s' = Z.min w target
      else congestion_window_ s' = w + 1460 /\ slowstart_threshold_ s' = slowstart_threshold_ s) /\
    min_rtt_ s' = Delta_Infinite /\ rtt_count_ s' = 0 /\ beg_send_next_ s' = largest_sent_packet_number_ s.
Proof.
  cbn zeta. intros Hm Hw Hb Hmr Hc Hv Ha Hbeg Hge. unfold OnPacketAcked. set (s0 := s <| largest_acked_packet_number_ := _ |>).
  change (vegas_mode_ s0) with (vegas_mode_ s). change (beg_send_next_ s0) with (beg_send_next_ s). rewrite Hv, Hbeg. cbn [negb CHECK rbind].
  rewrite PN_ge_init by done. cbn [rbind]. rewrite (proj2 (Z.leb_le _ _) Hge).
  destruct (end_of_round_adjusts s0) as (-> & Hnum & Ht); [cbn; lia|done|done|done|]. cbn [rbind].
  change (baseRTTFilter_ s0) with (baseRTTFilter_ s) in *. change (congestion_window_ s0) with (congestion_window_ s) in *.
  change (min_rtt_ s0) with (min_rtt_ s) in *. change (largest_sent_packet_number_ s0) with (largest_sent_packet_number_ s).
  set (base := GetBest (baseRTTFilter_ s)) in *. set (w := congestion_window_ s) in *. set (num := w * (min_rtt_ s - base)) in *.
  set (target := (_ + 1459) / 1460 * 1460) in *. eexists; split; [done|].
  unfold adjust_window, InSlowStart, GetCongestionWindow, GetSlowStartThreshold.
  change (congestion_window_ (s0 <| beg_send_next_ := _ |>)) with w. change (slowstart_threshold_ (s0 <| beg_send_next_ := _ |>)) with (slowstart_threshold_ s).
  change (min_congestion_window_ (s0 <| beg_send_next_ := _ |>)) with (min_congestion_window_ s).
  change kBetaCongestionWindow with 5840. change kAlphaCongestionWindow with 2920. change kGammaCongestionWindow with 1460.
  rewrite !backlog_above, backlog_below by lia. unfold kDefaultTCPMSS.
  destruct (Z.ltb_spec w (slowstart_threshold_ s)) as [Hss|Hss]; rewrite ?andb_true_r, ?andb_false_r.
  - split_and!; [lia| |by destruct (_ <=? _)..]. intros _. destruct (Z.leb_spec ((1460 + 1) * base) num); cbn; rewrite Hm; fold w; rewrite ?u64_small by lia; lia.
  - change (5840 + 1) with (4 * 1460 + 1). change 2920 with (2 * 1460). rewrite Hm.
    assert (E : forall u, min_congestion_window_ u = 5840 -> Z.max (congestion_window_ u) (min_congestion_window_ u) = Z.max 5840 (congestion_window_ u)) by (intros u ->; lia).
    destruct (Z.leb_spec ((4 * 1460 + 1) * base) num), (Z.ltb_spec num (2 * 1460 * base)); try lia.
    + destruct (Z.ltb_spec 5840 w); cbn; rewrite Hm, ?u64_small by lia; fold w; split_and!; done || lia.
    + cbn. rewrite Hm, u64_small by lia. fold w. split_and!; done || lia.
    + cbn. rewrite Hm. fold w. split_and!; done || lia.
Qed.

Definition vegas_avoidance_state : VegasSender :=
  mkVegas 40 30 20 29200 14600 2920000 5840 20000 0
    (Reset (WindowedFilter_init 10000000 0 0) 50000 900000) 62000 5 31 0 true.

Lemma vegas_round_adjustment_witness :
  exists s', OnPacketAcked vegas_avoidance_state 35 1460 29200 1000000 = Ok s' /\
    congestion_window_ s' = 29200 - 1460.
Proof.
  destruct (vegas_round_adjustment vegas_avoidance_state 35 1460 29200 1000000) as (s' & H & Hw & _);
    [reflexivity|cbn; lia|cbn; lia|reflexivity|reflexivity|reflexivity|reflexivity|reflexivity|cbn; lia|].
  exists s'. split; [exact H|]. rewrite Hw; [reflexivity|cbn; lia].
Defined.

(** * When an event completes *)

(** The base-RTT filter at time [now]: a ten-second window over positive RTTs. *)
Definition base_filter_inv (now : Z) (f : WindowedFilter) : Prop :=
  rtt_filter_inv f /\ ordered MinFilter f now /\ window_length_ f = 10000000.

(** Before an event: packets have been sent, and the base RTT is at most the
    least RTT of the current round. *)
Definition Vegas_inv (now : Z) (s : VegasSender) : Prop :=
  PN_IsInitialized (beg_send_next_ s) = true /\
  PN_IsInitialized (largest_sent_packet_number_ s) = true /\
  base_filter_inv now (baseRTTFilter_ s) /\ GetBest (baseRTTFilter_ s) <= min_rtt_ s <= INT64_MAX /\
  (sample (estimate0 (baseRTTFilter_ s)) = 0 -> min_rtt_ s = INT64_MAX).

(** While acknowledgments are processed the base RTT is known. *)
Definition round_ready (s : VegasSender) : Prop :=
  PN_IsInitialized (beg_send_next_ s) = true /\
  PN_IsInitialized (largest_sent_packet_number_ s) = true /\
  0 < GetBest (baseRTTFilter_ s) <= min_rtt_ s /\ min_rtt_ s <= INT64_MAX.

(** The best estimate has not left the filter's window. *)
Definition base_unexpired (s : VegasSender) (t : QuicTime) : Prop :=
  sample (estimate0 (baseRTTFilter_ s)) = 0 \/ t - time (estimate0 (baseRTTFilter_ s)) <= 10000000.

Lemma base_filter_best now f v t (M : Z) :
  base_filter_inv now f -> 0 < v < 2 ^ 62 -> now <= t < two63 -> GetBest f <= M ->
  (sample (estimate0 f) = 0 -> v <= M) ->
  sample (estimate0 f) = 0 \/ t - time (estimate0 f) <= 10000000 ->
  GetBest (Update MinFilter f v t) <= Z.min M v.
Proof.
  intros (Hf & Ho & Hw) Hv Ht HM Hun Hfr. pose proof Hf as [Hz _].
  destruct (Z.eq_dec (sample (estimate0 f)) 0) as [E|E].
  - specialize (Hun E). destruct (rtt_filter_update f v t Hf Hv). lia.
  - destruct Hfr as [?|Hfr]; [done|].
    rewrite (Update_unexpired f now) by (done || lia || congruence). lia.
Qed.

Lemma take_rtt_sample_ready now r s t acked :
  Vegas_inv now s -> acked <> [] -> 0 <= latest_rtt_ r < 2 ^ 61 -> now <= t < two63 ->
  base_unexpired s t ->
  let s' := take_rtt_sample r s t acked in
  round_ready s' /\ base_filter_inv t (baseRTTFilter_ s').
Proof.
  intros (Hb & Hl & Hfi & Hm & Hun) Ha Hr Ht Hfresh. cbn zeta. unfold take_rtt_sample.
  destruct acked as [|a0 acked]; [done|]. unfold Delta_add, Delta_FromMicroseconds, QuicTime_diff, QuicTime_Zero.
  pose proof Hfi as (Hf & Ho & Hw).
  assert (H0t : 0 <= now <= t) by (destruct Ho as (_ & _ & ? & ? & _); lia).
  change (i64 1) with 1. rewrite (i64_small (latest_rtt_ r + 1)), (i64_small (t - 0)) by lia.
  rewrite (u64_small (t - 0)), Z.sub_0_r by lia.
  set (v := latest_rtt_ r + 1). assert (Hv : 0 < v < 2 ^ 62) by lia.
  destruct (rtt_filter_update (baseRTTFilter_ s) v t Hf Hv) as [Hf' Hbest].
  assert (Hle : GetBest (Update MinFilter (baseRTTFilter_ s) v t) <= Z.min (min_rtt_ s) v).
  { apply (base_filter_best now); [done|done|lia|lia| |exact Hfresh].
    intros E. specialize (Hun E). lia. }
  assert (Hfi' : base_filter_inv t (Update MinFilter (baseRTTFilter_ s) v t)).
  { split_and!; [done|apply (Update_ordered MinFilter _ now); [done|lia]|by rewrite Update_window]. }
  unfold round_ready. cbn. destruct (Z.ltb_spec v (min_rtt_ s)); cbn; split_and!; try done; lia.
Qed.

Lemma IncreaseReno_ready s : round_ready s -> round_ready (IncreaseCongestionWindowAsReno s).
Proof. unfold IncreaseCongestionWindowAsReno. by repeat case_match. Qed.

Lemma adjust_window_ready s d t : round_ready s -> round_ready (adjust_window s d t).
Proof. unfold adjust_window. by repeat match goal with |- context [if ?b then _ else _] => destruct b end. Qed.

Lemma round_ready_new s :
  round_ready s -> round_ready (s <| min_rtt_ := Delta_Infinite |> <| rtt_count_ := 0 |>).
Proof. unfold round_ready. cbn. unfold Delta_Infinite. intros (? & ? & ? & ?). split_and!; try done; lia. Qed.

Lemma end_of_round_total s :
  round_ready s -> exists s', end_of_round s = Ok s' /\ round_ready s' /\ baseRTTFilter_ s' = baseRTTFilter_ s.
Proof.
  intros Hs. unfold end_of_round. set (s0 := s <| beg_send_next_ := _ |>).
  assert (Hs0 : round_ready s0) by (unfold round_ready, s0 in *; cbn; tauto).
  assert (E0 : baseRTTFilter_ s0 = baseRTTFilter_ s) by done. clearbody s0.
  destruct (rtt_count_ s0 <=? 2).
  { eexists; split; [done|]. split; [by apply round_ready_new, IncreaseReno_ready|].
    cbn. rewrite <- E0. unfold IncreaseCongestionWindowAsReno. by repeat case_match. }
  pose proof Hs0 as (_ & _ & Hb & Hm). rewrite (u64_small (min_rtt_ s0)), (u64_small (GetBest _)) by lia.
  rewrite (proj2 (Z.eqb_neq (min_rtt_ s0) 0)), (proj2 (Z.eqb_neq (GetBest (baseRTTFilter_ s0)) 0)) by lia.
  cbn [rbind]. rewrite (proj2 (Z.leb_le _ _)) by lia. cbn [CHECK rbind].
  eexists; split; [done|]. split; [by apply round_ready_new, adjust_window_ready|].
  cbn. rewrite <- E0. unfold adjust_window.
  by repeat match goal with |- context [if ?b then _ else _] => destruct b end.
Qed.

Lemma Vegas_OnPacketAcked_total s p b f t :
  round_ready s -> PN_IsInitialized p = true ->
  exists s', OnPacketAcked s p b f t = Ok s' /\ round_ready s' /\ baseRTTFilter_ s' = baseRTTFilter_ s.
Proof.
  intros Hs Hp. unfold OnPacketAcked. set (s0 := s <| largest_acked_packet_number_ := _ |>).
  assert (Hs0 : round_ready s0) by exact Hs.
  assert (E0 : baseRTTFilter_ s0 = baseRTTFilter_ s) by done. clearbody s0. rewrite <- E0.
  destruct (vegas_mode_ s0); cbn [negb].
  - pose proof Hs0 as (Hbeg & _). rewrite Hbeg, PN_ge_init by done. cbn [CHECK rbind].
    destruct (beg_send_next_ s0 <=? p).
    + destruct (end_of_round_total s0 Hs0) as (s1 & -> & H1 & E1). cbn. eauto.
    + destruct (InSlowStart s0); cbn; eauto.
  - eexists; split; [done|]. split; [by apply IncreaseReno_ready|].
    unfold IncreaseCongestionWindowAsReno. by repeat case_match.
Qed.

Lemma OnPacketLost_total s p b f :
  PN_IsInitialized p = true ->
  exists s', OnPacketLost s p b f = Ok s' /\ beg_send_next_ s' = beg_send_next_ s /\
    largest_sent_packet_number_ s' = largest_sent_packet_number_ s /\
    baseRTTFilter_ s' = baseRTTFilter_ s /\ min_rtt_ s' = min_rtt_ s /\
    vegas_mode_ s' = vegas_mode_ s /\ rtt_count_ s' = rtt_count_ s.
Proof.
  intros Hp. unfold OnPacketLost.
  destruct (PN_IsInitialized (largest_sent_at_last_cutback_ s)) eqn:E; cbn; [|eauto 10].
  rewrite PN_le_init by done. cbn. destruct (p <=? _); eauto 10.
Qed.

Lemma lost_loop_total lost f s :
  Forall (fun l => PN_IsInitialized (lost_packet_number l) = true) lost ->
  exists s', rfold (fun s l => OnPacketLost s (lost_packet_number l) (bytes_lost l) f) lost s = Ok s' /\
    beg_send_next_ s' = beg_send_next_ s /\
    largest_sent_packet_number_ s' = largest_sent_packet_number_ s /\
    baseRTTFilter_ s' = baseRTTFilter_ s /\ min_rtt_ s' = min_rtt_ s /\
    vegas_mode_ s' = vegas_mode_ s /\ rtt_count_ s' = rtt_count_ s.
Proof.
  intros Hl. rewrite Forall_forall in Hl.
  apply (rfold_total (fun u => beg_send_next_ u = beg_send_next_ s /\
    largest_sent_packet_number_ u = largest_sent_packet_number_ s /\
    baseRTTFilter_ u = baseRTTFilter_ s /\ min_rtt_ u = min_rtt_ s /\
    vegas_mode_ u = vegas_mode_ s /\ rtt_count_ u = rtt_count_ s)); [|done].
  intros l u Hin (E1 & E2 & E3 & E4 & E5 & E6).
  destruct (OnPacketLost_total u (lost_packet_number l) (bytes_lost l) f (Hl _ Hin)) as (u' & H & ? & ? & ? & ? & ? & ?).
  exists u'. split; [exact H|]. split_and!; congruence.
Qed.

Lemma acked_loop_total acked f t s :
  Forall (fun a => PN_IsInitialized (acked_packet_number a) = true) acked -> round_ready s ->
  exists s', rfold (fun s a => OnPacketAcked s (acked_packet_number a) (bytes_acked a) f t) acked s = Ok s' /\
    round_ready s' /\ baseRTTFilter_ s' = baseRTTFilter_ s.
Proof.
  intros Ha Hs. rewrite Forall_forall in Ha.
  apply (rfold_total (fun u => round_ready u /\ baseRTTFilter_ u = baseRTTFilter_ s)); [|done].
  intros a u Hin (Hu & E).
  destruct (Vegas_OnPacketAcked_total u (acked_packet_number a) (bytes_acked a) f t Hu (Ha _ Hin)) as (u' & H & ? & ?).
  exists u'. split; [exact H|]. split; congruence.
Qed.

Lemma switch_mode_ready s b :
  round_ready s -> round_ready (switch_mode s b) /\ baseRTTFilter_ (switch_mode s b) = baseRTTFilter_ s.
Proof.
  intros Hs. unfold switch_mode. repeat case_match; try done.
  split; [|done]. destruct Hs as (? & ? & ? & ?). unfold round_ready. cbn. unfold Delta_Infinite.
  split_and!; try done; lia.
Qed.

(** An acknowledgment event completes, and establishes its precondition for
    the next one, whenever the base-RTT estimate is still inside its ten-second
    window: with a packet sent, initialized packet numbers and an RTT that the
    estimator can hold, no check fails (the round's least RTT is at least the
    base RTT) and neither division is by zero. *)
Theorem vegas_event_succeeds now r s upd f t acked lost :
  Vegas_inv now s -> acked <> [] -> 0 <= latest_rtt_ r < 2 ^ 61 -> now <= t < two63 ->
  base_unexpired s t ->
  Forall (fun a => PN_IsInitialized (acked_packet_number a) = true) acked ->
  Forall (fun l => PN_IsInitialized (lost_packet_number l) = true) lost ->
  exists s', OnCongestionEvent r s upd f t acked lost = Ok s' /\ Vegas_inv t s'.
Proof.
  intros Hs Hne Hr Ht Hfr Ha Hl.
  destruct (take_rtt_sample_ready now r s t acked Hs Hne Hr Ht Hfr) as [Hr0 Hf0].
  unfold OnCongestionEvent. set (s0 := take_rtt_sample r s t acked) in *.
  destruct (lost_loop_total lost f s0 Hl) as (s1 & -> & E1 & E2 & E3 & E4 & _). cbn [rbind].
  assert (Hr1 : round_ready s1) by (unfold round_ready in *; by rewrite E1, E2, E3, E4).
  destruct (acked_loop_total acked f t s1 Ha Hr1) as (s2 & -> & Hr2 & E5). cbn [rbind].
  eexists; split; [done|].
  destruct (switch_mode_ready s2 (InRecovery s0) Hr2) as [(H1 & H2 & H3 & H4) E6].
  unfold Vegas_inv. rewrite E6, E5, E3 in *. split_and!; try done; try lia.
  unfold GetBest in *. lia.
Qed.

(** ** After an outage

    Acknowledgments of one round on both sides of a gap longer than the window:
    the filter drops the samples the round's minimum still remembers. *)

(** A round whose least RTT is below the base RTT. *)
Record doomed (s : VegasSender) : Prop := {
  dm_mode : vegas_mode_ s = true;
  dm_beg : PN_IsInitialized (beg_send_next_ s) = true;
  dm_count : 2 < rtt_count_ s;
  dm_min : 0 < min_rtt_ s < GetBest (baseRTTFilter_ s) /\ min_rtt_ s < two63;
}.

Lemma end_of_round_doomed s : doomed s -> end_of_round s = Fault CheckFailed.
Proof.
  intros [_ _ Hc [Hm Hm2]]. unfold end_of_round. set (s1 := s <| beg_send_next_ := _ |>).
  change (rtt_count_ s1) with (rtt_count_ s). change (min_rtt_ s1) with (min_rtt_ s). change (baseRTTFilter_ s1) with (baseRTTFilter_ s).
  rewrite (proj2 (Z.leb_gt _ _) Hc), u64_small by lia. destruct (Z.eqb_spec (min_rtt_ s) 0); [lia|]. cbn [rbind].
  rewrite (proj2 (Z.leb_gt _ _) (proj2 Hm)). done.
Qed.

(** Its first acknowledgment that ends the round fails the check. *)
Lemma acked_loop_doomed acked f t : forall s, doomed s ->
  Forall (fun a => PN_IsInitialized (acked_packet_number a) = true) acked ->
  Exists (fun a => beg_send_next_ s <= acked_packet_number a) acked ->
  rfold (fun s a => OnPacketAcked s (acked_packet_number a) (bytes_acked a) f t) acked s = Fault CheckFailed.
Proof.
  induction acked as [|a acked IH]; intros s Hs Ha Hex; [by apply Exists_nil in Hex|].
  apply Forall_cons in Ha as [Ha1 Ha]. cbn [rfold]. unfold OnPacketAcked at 1. set (s0 := s <| largest_acked_packet_number_ := _ |>).
  assert (H0 : doomed s0) by (destruct Hs; by split). pose proof H0 as [Hm Hb _ _].
  rewrite Hm, Hb. cbn [negb CHECK rbind]. rewrite PN_ge_init by done. cbn [rbind]. change (beg_send_next_ s0) with (beg_send_next_ s).
  destruct (Z.leb_spec (beg_send_next_ s) (acked_packet_number a)) as [Hle|Hlt]; [by rewrite end_of_round_doomed|].
  apply Exists_cons in Hex as [?|Hex]; [lia|].
  destruct (InSlowStart s0); cbn [rbind]; (apply IH; [destruct H0; by split|done|exact Hex]).
Qed.


(** Ten packets sent, and five acknowledgments of the first round at 50 ms. *)
Definition vegas_outage_run : list sender_event :=
  map (fun i => EvSent 900000 (1460 * Z.of_nat i) (1 + Z.of_nat i) 1460 HAS_RETRANSMITTABLE_DATA) (seq 0 10) ++
  map (fun i => EvCongestion (RttStats_init <| latest_rtt_ := 50000 |>) true 14600 (1000000 + 1000 * Z.of_nat i)
                  [mkAcked (1 + Z.of_nat i) 1460 0] []) (seq 0 5).
Definition vegas_before_outage : VegasSender :=
  match rfold sender_step vegas_outage_run (VegasSender_init 10 2000 None).1 with
  | Ok s => s
  | Fault _ => (VegasSender_init 10 2000 None).1
  end.

