(* ===== verification/Pacing.v ===== *)
(** [PacingSender] (pacing_sender.h, pacing_sender.cc): wraps a congestion
    controller and spaces its packets at the controller's pacing rate, with
    burst tokens when a connection leaves quiescence and lumpy tokens while it
    is paced.  The wrapped sender is any implementation of
    [SendAlgorithmInterface]; the theorems use only the laws of that class, and
    the Copa, Vegas and cubic senders discharge them. *)

From Stdlib Require Import SpecFloat.
From S2P Require Import Prelude Float QuicTime PacketNumber RttStats SendAlgorithm Copa.

(** src/quiche/gquiche/quic/core/congestion_control/pacing_sender.cc:17-17 [kInitialUnpacedBurst] *)
Definition kInitialUnpacedBurst : Z := 10.
(** src/quiche/gquiche/quic/core/quic_constants.h:283-283 [kAlarmGranularity] *)
Definition kAlarmGranularity : Delta := Delta_FromMilliseconds 1.

(** The process-wide flags the sender reads. *)
Record PacingFlags := mkPacingFlags {
  flag_donot_reset_ideal_next_packet_send_time : bool;
  flag_lumpy_pacing_size : Z;
  flag_lumpy_pacing_cwnd_fraction : spec_float;
}.
(** src/quiche/gquiche/quic/core/quic_protocol_flags_list.h:67-78 [quic_lumpy_pacing_size, quic_lumpy_pacing_cwnd_fraction] *)
Definition default_pacing_flags : PacingFlags :=
  mkPacingFlags false 2 (f64_of_f32 (f32_lit 1 (-2))).

(** src/quiche/gquiche/quic/core/congestion_control/pacing_sender.h:89-109 [PacingSender] *)
Record PacingSender (S : Type) := mkPacing {
  sender_ : option S;
  max_pacing_rate_ : Z;
  burst_tokens_ : Z;
  ideal_next_packet_send_time_ : QuicTime;
  initial_burst_size_ : Z;
  lumpy_tokens_ : Z;
  alarm_granularity_ : Delta;
  pacing_limited_ : bool;
}.
Arguments mkPacing {S}.
Arguments sender_ {S}.
Arguments max_pacing_rate_ {S}.
Arguments burst_tokens_ {S}.
Arguments ideal_next_packet_send_time_ {S}.
Arguments initial_burst_size_ {S}.
Arguments lumpy_tokens_ {S}.
Arguments alarm_granularity_ {S}.
Arguments pacing_limited_ {S}.
#[export] Instance eta_Pacing S : Eta (PacingSender S) := MkEta _ (fun s =>
  mkPacing (sender_ s) (max_pacing_rate_ s) (burst_tokens_ s) (ideal_next_packet_send_time_ s)
    (initial_burst_size_ s) (lumpy_tokens_ s) (alarm_granularity_ s) (pacing_limited_ s)).

Section pacing.
Context {S : Type} `{SendAlgorithmInterface S} (flags : PacingFlags).

(** src/quiche/gquiche/quic/core/congestion_control/pacing_sender.cc:21-33 [PacingSender::PacingSender] *)
Definition PacingSender_init : PacingSender S :=
  mkPacing None QuicBandwidth_Zero kInitialUnpacedBurst QuicTime_Zero kInitialUnpacedBurst
    0 kAlarmGranularity false.

(** src/quiche/gquiche/quic/core/congestion_control/pacing_sender.cc:37-40 [PacingSender::set_sender] *)
Definition set_sender (p : PacingSender S) (sender : option S) : result (PacingSender S) :=
  let* _ := CHECK (bool_decide (is_Some sender)) in
  Ok (p <| sender_ := sender |>).

(** src/quiche/gquiche/quic/core/congestion_control/pacing_sender.h:43-45 [PacingSender::set_max_pacing_rate] *)
Definition set_max_pacing_rate (p : PacingSender S) (rate : Z) : PacingSender S :=
  p <| max_pacing_rate_ := rate |>.
(** src/quiche/gquiche/quic/core/congestion_control/pacing_sender.h:47-49 [PacingSender::set_alarm_granularity] *)
Definition set_alarm_granularity (p : PacingSender S) (d : Delta) : PacingSender S :=
  p <| alarm_granularity_ := d |>.

(** [QUICHE_DCHECK(sender_ != nullptr)] and the dereference that follows. *)
Definition the_sender (p : PacingSender S) : result S :=
  match sender_ p with
  | Some s => Ok s
  | None => Fault CheckFailed
  end.

(** src/quiche/gquiche/quic/core/congestion_control/pacing_sender.cc:42-54 [PacingSender::OnCongestionEvent] *)
Definition Pacing_OnCongestionEvent (rtt : RttStats) (p : PacingSender S) (rtt_updated : bool)
    (bytes_in_flight : Z) (event_time : QuicTime)
    (acked_packets : list AckedPacket) (lost_packets : list LostPacket) : result (PacingSender S) :=
  let* s := the_sender p in
  let p := match lost_packets with [] => p | _ => p <| burst_tokens_ := 0 |> end in
  let* s := sa_OnCongestionEvent rtt s rtt_updated bytes_in_flight event_time acked_packets lost_packets in
  Ok (p <| sender_ := Some s |>).

(** src/quiche/gquiche/quic/core/congestion_control/pacing_sender.cc:160-168 [PacingSender::PacingRate] *)
Definition Pacing_PacingRate (rtt : RttStats) (p : PacingSender S) (bytes_in_flight : Z) : result Z :=
  let* s := the_sender p in
  let* rate := sa_PacingRate rtt s bytes_in_flight in
  if negb (max_pacing_rate_ p =? 0) then Ok (FromBitsPerSecond (Z.min (max_pacing_rate_ p) rate))
  else Ok rate.

(** src/quiche/gquiche/quic/core/congestion_control/pacing_sender.cc:92-98 [PacingSender::OnPacketSent, lumpy tokens] *)
Definition fresh_lumpy_tokens (cwnd : Z) : result Z :=
  let* share := float_to_u32 (f64_div (f64_mul (f64_of_Z cwnd) (flag_lumpy_pacing_cwnd_fraction flags))
                                      (f64_of_Z kDefaultTCPMSS)) in
  Ok (Z.max 1 (Z.min (u32 (flag_lumpy_pacing_size flags)) share)).

(** src/quiche/gquiche/quic/core/congestion_control/pacing_sender.cc:89-106 [PacingSender::OnPacketSent, lumpy token use] *)
Definition spend_lumpy_token (rtt : RttStats) (p : PacingSender S) (s : S) : result (PacingSender S) :=
  let* p :=
    if negb (pacing_limited_ p) || (lumpy_tokens_ p =? 0) then
      let* tokens := fresh_lumpy_tokens (sa_GetCongestionWindow s) in
      let* bw := sa_BandwidthEstimate rtt s in
      Ok (p <| lumpy_tokens_ := if bw <? FromKBitsPerSecond 1200 then 1 else tokens |>)
    else Ok p in
  Ok (p <| lumpy_tokens_ := u32 (lumpy_tokens_ p - 1) |>).

(** src/quiche/gquiche/quic/core/congestion_control/pacing_sender.cc:69-76 [PacingSender::OnPacketSent, burst tokens] *)
Definition refill_burst_tokens (p : PacingSender S) (s : S) (bytes_in_flight : Z) : PacingSender S :=
  if (bytes_in_flight =? 0) && negb (sa_InRecovery s) then
    p <| burst_tokens_ := Z.min (initial_burst_size_ p) (u32 (sa_GetCongestionWindow s / kDefaultTCPMSS)) |>
  else p.

(** src/quiche/gquiche/quic/core/congestion_control/pacing_sender.cc:56-116 [PacingSender::OnPacketSent] *)
Definition Pacing_OnPacketSent (rtt : RttStats) (p : PacingSender S) (sent_time : QuicTime)
    (bytes_in_flight : Z) (packet_number : QuicPacketNumber) (bytes : Z)
    (has_retransmittable_data : HasRetransmittableData) : result (PacingSender S) :=
  let* s := the_sender p in
  let* s := sa_OnPacketSent s sent_time bytes_in_flight packet_number bytes has_retransmittable_data in
  let p := p <| sender_ := Some s |> in
  if decide (has_retransmittable_data <> HAS_RETRANSMITTABLE_DATA) then Ok p
  else
    let p := refill_burst_tokens p s bytes_in_flight in
    if 0 <? burst_tokens_ p then
      let p := p <| burst_tokens_ := u32 (burst_tokens_ p - 1) |> in
      let p := if negb (flag_donot_reset_ideal_next_packet_send_time flags)
               then p <| ideal_next_packet_send_time_ := QuicTime_Zero |> else p in
      Ok (p <| pacing_limited_ := false |>)
    else
      let* rate := Pacing_PacingRate rtt p (bytes_in_flight ⊕ bytes) in
      let delay := TransferTime rate bytes in
      let* p := spend_lumpy_token rtt p s in
      let next := QuicTime_add (ideal_next_packet_send_time_ p) delay in
      let p := p <| ideal_next_packet_send_time_ :=
        if pacing_limited_ p then next else Z.max next (QuicTime_add sent_time delay) |> in
      Ok (p <| pacing_limited_ := sa_CanSend s (bytes_in_flight ⊕ bytes) |>).

(** src/quiche/gquiche/quic/core/congestion_control/pacing_sender.cc:118-121 [PacingSender::OnApplicationLimited] *)
Definition Pacing_OnApplicationLimited (p : PacingSender S) : PacingSender S :=
  p <| pacing_limited_ := false |>.

(** src/quiche/gquiche/quic/core/congestion_control/pacing_sender.cc:123-128 [PacingSender::SetBurstTokens] *)
Definition SetBurstTokens (p : PacingSender S) (burst_tokens : Z) : result (PacingSender S) :=
  let p := p <| initial_burst_size_ := burst_tokens |> in
  let* s := the_sender p in
  Ok (p <| burst_tokens_ := Z.min (initial_burst_size_ p) (u32 (sa_GetCongestionWindow s / kDefaultTCPMSS)) |>).

(** src/quiche/gquiche/quic/core/congestion_control/pacing_sender.cc:130-158 [PacingSender::TimeUntilSend] *)
Definition TimeUntilSend (p : PacingSender S) (now : QuicTime) (bytes_in_flight : Z) : result Delta :=
  let* s := the_sender p in
  if negb (sa_CanSend s bytes_in_flight) then Ok Delta_Infinite
  else if (0 <? burst_tokens_ p) || (bytes_in_flight =? 0) || (0 <? lumpy_tokens_ p) then Ok Delta_Zero
  else if QuicTime_add now (alarm_granularity_ p) <? ideal_next_packet_send_time_ p then
    Ok (QuicTime_diff (ideal_next_packet_send_time_ p) now)
  else Ok Delta_Zero.

(** src/quiche/gquiche/quic/core/congestion_control/pacing_sender.h:77-80 [PacingSender::GetNextReleaseTime] *)
Definition GetNextReleaseTime (p : PacingSender S) : QuicTime * bool :=
  (ideal_next_packet_send_time_ p, (0 <? burst_tokens_ p) || (0 <? lumpy_tokens_ p)).

(** * Properties *)

Context `{!SendAlgorithmLaws S}.

Definition pacing_inv (p : PacingSender S) : Prop :=
  (exists s, sender_ p = Some s /\ sender_inv s) /\
  0 <= burst_tokens_ p < two32 /\ 0 <= initial_burst_size_ p < two32 /\ 0 <= lumpy_tokens_ p.

Lemma the_sender_inv p : pacing_inv p -> exists s, the_sender p = Ok s /\ sender_inv s.
Proof. intros ((s & E & Hs) & _). exists s. unfold the_sender. by rewrite E. Qed.

Lemma u32_pred z : 0 < z < two32 -> u32 (z - 1) = z - 1.
Proof. intros. apply u32_small. lia. Qed.

Lemma refill_burst_tokens_spec p s f :
  0 <= burst_tokens_ p < two32 -> 0 <= initial_burst_size_ p < two32 ->
  let p' := refill_burst_tokens p s f in
  p' = p <| burst_tokens_ := burst_tokens_ p' |> /\ 0 <= burst_tokens_ p' < two32.
Proof.
  intros Hb Hi. unfold refill_burst_tokens.
  destruct (_ && _); cbn; [|split; [by destruct p|done]].
  pose proof (u32_range (sa_GetCongestionWindow s / kDefaultTCPMSS)). split; [done|]. cbn. lia.
Qed.

(** How many packets leave together while pacing. *)
Definition max_lump : Z := Z.max 1 (u32 (flag_lumpy_pacing_size flags)).

Lemma spend_lumpy_token_spec rtt p s p' :
  spend_lumpy_token rtt p s = Ok p' ->
  p' = p <| lumpy_tokens_ := lumpy_tokens_ p' |> /\ (0 <= lumpy_tokens_ p < max_lump -> 0 <= lumpy_tokens_ p' < max_lump).
Proof.
  intros H1. unfold spend_lumpy_token in H1. apply rbind_Ok in H1 as (q & Hq & [= <-]).
  pose proof (u32_range (flag_lumpy_pacing_size flags)).
  assert (E : q = p <| lumpy_tokens_ := lumpy_tokens_ q |> /\ (0 <= lumpy_tokens_ p < max_lump -> 1 <= lumpy_tokens_ q <= max_lump)).
  { destruct (_ || (lumpy_tokens_ p =? 0)) eqn:Ef.
    - apply rbind_Ok in Hq as (tk & Htk & Hq). apply rbind_Ok in Hq as (bw & _ & [= <-]). split; [done|]. intros _.
      unfold fresh_lumpy_tokens in Htk. apply rbind_Ok in Htk as (share & _ & [= <-]). unfold max_lump. cbn. destruct (_ <? _); lia.
    - injection Hq as <-. split; [by destruct p|]. apply orb_false_iff in Ef as [_ Ef]. apply Z.eqb_neq in Ef. lia. }
  destruct E as [E1 E2]. split; [rewrite E1; done|]. intros Hl. specialize (E2 Hl). cbn.
  unfold max_lump in *. rewrite u32_small by lia. lia.
Qed.

(** The outcome of sending a paced packet. *)
Lemma Pacing_OnPacketSent_paced rtt p t f pn b p' :
  Pacing_OnPacketSent rtt p t f pn b HAS_RETRANSMITTABLE_DATA = Ok p' -> f <> 0 -> burst_tokens_ p = 0 ->
  exists s rate, sender_ p' = Some s /\ Pacing_PacingRate rtt p' (f ⊕ b) = Ok rate /\
    ideal_next_packet_send_time_ p' =
      (let delay := TransferTime rate b in
       let next := QuicTime_add (ideal_next_packet_send_time_ p) delay in
       if pacing_limited_ p then next else Z.max next (QuicTime_add t delay)) /\
    alarm_granularity_ p' = alarm_granularity_ p /\ burst_tokens_ p' = 0 /\
    pacing_limited_ p' = sa_CanSend s (f ⊕ b) /\
    (0 <= lumpy_tokens_ p < max_lump -> 0 <= lumpy_tokens_ p' < max_lump).
Proof.
  intros Hs Hf Hb. unfold Pacing_OnPacketSent in Hs.
  apply rbind_Ok in Hs as (s0 & _ & Hs). apply rbind_Ok in Hs as (s1 & _ & Hs).
  rewrite decide_False in Hs by tauto.
  assert (E : forall q, refill_burst_tokens q s1 f = q).
  { intros q. unfold refill_burst_tokens. by rewrite (proj2 (Z.eqb_neq f 0) Hf). }
  rewrite E in Hs. set (p1 := p <| sender_ := Some s1 |>) in *. change (burst_tokens_ p1) with (burst_tokens_ p) in Hs. rewrite Hb in Hs.
  cbn [Z.ltb Z.compare] in Hs. apply rbind_Ok in Hs as (rate & Hr & Hs). apply rbind_Ok in Hs as (q & Hq & [= <-]).
  apply spend_lumpy_token_spec in Hq as [Eq Hl]. exists s1, rate. rewrite Eq in *. cbn in *. by split_and!.
Qed.

Lemma pacing_inv_sent rtt p t f pn b d p' :
  pacing_inv p -> Pacing_OnPacketSent rtt p t f pn b d = Ok p' -> pacing_inv p'.
Proof.
  intros Hp Hs. destruct (the_sender_inv p Hp) as (s & Es & Hs0).
  destruct Hp as (_ & Hb & Hi & Hl). unfold Pacing_OnPacketSent in Hs. rewrite Es in Hs. cbn [rbind] in Hs.
  apply rbind_Ok in Hs as (s1 & H1 & Hs). apply sent_inv in H1; [|done].
  destruct (decide _); [injection Hs as <-; split_and!; cbn; eauto; lia|].
  set (p1 := p <| sender_ := Some s1 |>) in Hs.
  destruct (refill_burst_tokens_spec p1 s1 f) as [E1 E2]; [done|done|].
  set (p2 := refill_burst_tokens p1 s1 f) in *.
  assert (Hq : sender_ p2 = Some s1 /\ initial_burst_size_ p2 = initial_burst_size_ p /\ lumpy_tokens_ p2 = lumpy_tokens_ p)
    by (rewrite E1; done). clearbody p2. destruct Hq as (Q1 & Q2 & Q3).
  destruct (Z.ltb_spec 0 (burst_tokens_ p2)).
  - injection Hs as <-. unfold pacing_inv. rewrite u32_pred by lia.
    destruct (flag_donot_reset_ideal_next_packet_send_time flags); cbn;
      rewrite Q1, Q2, Q3; split_and!; eauto; lia.
  - apply rbind_Ok in Hs as (rate & _ & Hs). apply rbind_Ok in Hs as (p3 & H3 & Hs). injection Hs as <-.
    unfold spend_lumpy_token in H3. apply rbind_Ok in H3 as (q & Hq & H3). injection H3 as <-.
    assert (Q : sender_ q = Some s1 /\ burst_tokens_ q = burst_tokens_ p2 /\ initial_burst_size_ q = initial_burst_size_ p).
    { destruct (_ || _); [|injection Hq as <-; done]. apply rbind_Ok in Hq as (tk & _ & Hq).
      apply rbind_Ok in Hq as (bw & _ & Hq). injection Hq as <-. done. }
    destruct Q as (R1 & R2 & R3). unfold pacing_inv. cbn. rewrite R1, R2, R3.
    pose proof (u32_range (lumpy_tokens_ q - 1)). split_and!; eauto; lia.
Qed.

Lemma pacing_inv_event rtt p upd f t acked lost p' :
  pacing_inv p -> (forall s, sender_ p = Some s -> sa_GetCongestionWindow s < 2 ^ 62) ->
  Z.of_nat (length acked) < 2 ^ 40 ->
  Pacing_OnCongestionEvent rtt p upd f t acked lost = Ok p' -> pacing_inv p'.
Proof.
  intros Hp Hw Ha Hs. destruct (the_sender_inv p Hp) as (s & Es & Hs0).
  destruct Hp as ((s0 & E0 & _) & Hb & Hi & Hl). unfold Pacing_OnCongestionEvent in Hs.
  rewrite Es in Hs. unfold the_sender in Es. rewrite E0 in Es. injection Es as ->.
  cbn [rbind] in Hs. apply rbind_Ok in Hs as (s1 & H1 & Hs). injection Hs as <-.
  apply event_inv in H1; [|done|by apply Hw|done]. destruct lost; split_and!; cbn; eauto; lia.
Qed.

(** The packets sent by a pacing sender, and the events it is told of. *)
Inductive pacing_op :=
  | PSent (rtt : RttStats) (t : QuicTime) (f : Z) (pn : QuicPacketNumber) (b : Z) (d : HasRetransmittableData)
  | PEvent (rtt : RttStats) (upd : bool) (f : Z) (t : QuicTime) (acked : list AckedPacket) (lost : list LostPacket)
  | PAppLimited
  | PSetMaxRate (rate : Z).

(** One operation; a step is only taken while the window is far from the end
    of its range and the acknowledgment vector is of a feasible length. *)
Inductive pacing_step : PacingSender S -> pacing_op -> PacingSender S -> Prop :=
  | step_sent p rtt t f pn b d p' :
      Pacing_OnPacketSent rtt p t f pn b d = Ok p' -> pacing_step p (PSent rtt t f pn b d) p'
  | step_event p rtt upd f t acked lost p' :
      (forall s, sender_ p = Some s -> sa_GetCongestionWindow s < 2 ^ 62) ->
      Z.of_nat (length acked) < 2 ^ 40 ->
      Pacing_OnCongestionEvent rtt p upd f t acked lost = Ok p' ->
      pacing_step p (PEvent rtt upd f t acked lost) p'
  | step_app_limited p : pacing_step p PAppLimited (Pacing_OnApplicationLimited p)
  | step_max_rate p rate : pacing_step p (PSetMaxRate rate) (set_max_pacing_rate p rate).

Inductive pacing_run : PacingSender S -> list pacing_op -> PacingSender S -> Prop :=
  | run_nil p : pacing_run p [] p
  | run_cons p o p' os p'' : pacing_step p o p' -> pacing_run p' os p'' -> pacing_run p (o :: os) p''.

Lemma pacing_run_inv p os p' : pacing_run p os p' -> pacing_inv p -> pacing_inv p'.
Proof.
  induction 1 as [|p o p1 os p2 Hstep _ IH]; [done|]. intros Hp. apply IH.
  inversion Hstep; subst; eauto using pacing_inv_sent, pacing_inv_event.
  all: destruct Hp as ((s & ? & ?) & ? & ? & ?); split_and!; cbn; eauto; lia.
Qed.

(** Pacing never stalls an idle connection: over every controller that obeys
    the interface's laws, after any run of sends, congestion events,
    application-limited notices and rate caps from a freshly attached sender,
    a connection with nothing in flight may send at once. *)
Theorem pacing_idle_sends_now s os p now :
  sender_inv s -> pacing_run (PacingSender_init <| sender_ := Some s |>) os p ->
  TimeUntilSend p now 0 = Ok Delta_Zero.
Proof.
  intros Hs Hrun. apply pacing_run_inv in Hrun as Hp.
  - destruct (the_sender_inv p Hp) as (s' & Es & Hs'). unfold TimeUntilSend. rewrite Es. cbn [rbind].
    rewrite idle_can_send by done. cbn. by rewrite orb_true_r.
  - split_and!; cbn; unfold kInitialUnpacedBurst; eauto; lia.
Qed.

(** ** The schedule *)

(** An operation that sends no data. *)
Definition carries_no_data (o : pacing_op) : Prop :=
  match o with PSent _ _ _ _ _ d => d <> HAS_RETRANSMITTABLE_DATA | _ => True end.

(** A stretch of a connection that has packets in flight whenever it sends data,
    with the transfer time of each of its packets at the pacing rate in force
    when it was sent.  In a [backlogged] stretch the window always has room
    for another packet, and the application has not said that it has none. *)
Inductive paced_run (backlogged : bool) : PacingSender S -> list Delta -> PacingSender S -> Prop :=
  | paced_nil p : paced_run backlogged p [] p
  | paced_send p rtt t f pn b p1 rate ds p2 :
      f <> 0 -> 0 <= t < 2 ^ 61 -> 0 <= b < 2 ^ 36 ->
      Pacing_OnPacketSent rtt p t f pn b HAS_RETRANSMITTABLE_DATA = Ok p1 ->
      Pacing_PacingRate rtt p1 (f ⊕ b) = Ok rate -> (backlogged = true -> pacing_limited_ p1 = true) ->
      paced_run backlogged p1 ds p2 -> paced_run backlogged p (TransferTime rate b :: ds) p2
  | paced_other p o p1 ds p2 :
      carries_no_data o -> pacing_step p o p1 -> (backlogged = true -> pacing_limited_ p1 = true) ->
      paced_run backlogged p1 ds p2 -> paced_run backlogged p ds p2.

Lemma no_data_keeps p o p1 :
  carries_no_data o -> pacing_step p o p1 ->
  ideal_next_packet_send_time_ p1 = ideal_next_packet_send_time_ p /\ alarm_granularity_ p1 = alarm_granularity_ p /\
  lumpy_tokens_ p1 = lumpy_tokens_ p /\ (burst_tokens_ p = 0 -> burst_tokens_ p1 = 0).
Proof.
  intros Ho Hstep. inversion Hstep as [? rtt t f pn b d ? Hs|? rtt upd f t acked lost ? _ _ Hs| |]; subst; try done.
  - unfold Pacing_OnPacketSent in Hs. apply rbind_Ok in Hs as (s0 & _ & Hs). apply rbind_Ok in Hs as (s1 & _ & Hs).
    cbn in Ho. rewrite decide_True in Hs by done. by injection Hs as <-.
  - unfold Pacing_OnCongestionEvent in Hs. apply rbind_Ok in Hs as (s0 & _ & Hs). apply rbind_Ok in Hs as (s1 & _ & [= <-]).
    by destruct lost.
Qed.

Definition total_delay (ds : list Delta) : Z := foldr Z.add 0 ds.

Lemma paced_run_delays backlogged p ds p' : paced_run backlogged p ds p' -> 0 <= total_delay ds.
Proof.
  induction 1 as [|p rtt t f pn b p1 rate ds p2 _ _ Hb _ _ _ _ IH|]; [done| |done].
  pose proof (TransferTime_bound rate b Hb). cbn. unfold total_delay in IH. lia.
Qed.

(** The ideal time moves on by the transfer times, and in a backlogged
    stretch by nothing else. *)
Lemma paced_run_ideal backlogged p ds p' :
  paced_run backlogged p ds p' -> burst_tokens_ p = 0 -> 0 <= lumpy_tokens_ p < max_lump ->
  0 <= ideal_next_packet_send_time_ p -> Z.max (2 ^ 61) (ideal_next_packet_send_time_ p) + total_delay ds <= 2 ^ 62 ->
  0 <= total_delay ds /\
  ideal_next_packet_send_time_ p + total_delay ds <= ideal_next_packet_send_time_ p' <=
    Z.max (2 ^ 61) (ideal_next_packet_send_time_ p) + total_delay ds /\
  (backlogged = true -> pacing_limited_ p = true ->
     ideal_next_packet_send_time_ p' = ideal_next_packet_send_time_ p + total_delay ds) /\
  burst_tokens_ p' = 0 /\ 0 <= lumpy_tokens_ p' < max_lump /\ alarm_granularity_ p' = alarm_granularity_ p.
Proof.
  induction 1 as [p|p rtt t f pn b p1 rate ds p2 Hf Ht Hb Hs Hr Hlim Hrun IH|p o p1 ds p2 Ho Hstep Hlim _ IH]; intros Hbt Hl H0 Hmax.
  - cbn in *. split_and!; lia || done.
  - apply Pacing_OnPacketSent_paced in Hs as (s & rate' & _ & Hr' & Ei & Eg & Eb & _ & El); [|done|done].
    rewrite Hr in Hr'. injection Hr' as <-. pose proof (TransferTime_bound rate b Hb) as Hd. set (d := TransferTime rate b) in *.
    cbn [total_delay foldr] in *. fold (total_delay ds) in *. cbn zeta in Ei. unfold QuicTime_add in Ei.
    pose proof (paced_run_delays _ _ _ _ Hrun) as Hnn.
    rewrite !i64_small in Ei by lia. destruct IH as (I0 & I1 & I2 & I3 & I4 & I5); [done|auto|destruct (pacing_limited_ p); lia|destruct (pacing_limited_ p); lia|].
    split; [lia|]. split; [destruct (pacing_limited_ p); lia|]. split.
    + intros Hbl Hpl. rewrite Hpl in Ei. rewrite (I2 Hbl (Hlim Hbl)). lia.
    + split; [done|]. split; [done|]. congruence.
  - destruct (no_data_keeps p o p1 Ho Hstep) as (E1 & E2 & E3 & E4). rewrite E1, E2, E3 in IH.
    destruct IH as (I0 & I1 & I2 & I3 & I4 & I5); [auto|done|done|done|]. split; [done|]. split; [done|]. split; [|done].
    intros Hbl _. apply I2; [done|auto].
Qed.

(** C30. Packets are released on schedule.  Let a packet be sent with others in
    flight and no burst tokens when pacing was not the limit, and follow any
    stretch with packets in flight, of data packets, acknowledgments, losses and changes of
    the rate limit.  The ideal time of the next packet is then at least the
    start (the packet's sending time, or an ideal time still to come)
    plus the transfer times of all packets sent since at their pacing rates,
    and exactly that if the connection was backlogged; at most a lump of packets
    leaves without waiting.  So once the lump is spent, the next packet is released only when that
    time has come, up to the alarm granularity, and a backlogged connection waits
    exactly until then. *)
Theorem pacing_on_schedule backlogged rtt p t f pn b p1 rate ds p' :
  let start := Z.max (ideal_next_packet_send_time_ p) t in
  let total := TransferTime rate b + total_delay ds in
  burst_tokens_ p = 0 -> pacing_limited_ p = false -> 0 <= lumpy_tokens_ p < max_lump ->
  0 <= ideal_next_packet_send_time_ p < 2 ^ 61 -> f <> 0 -> 0 <= t < 2 ^ 61 -> 0 <= b < 2 ^ 36 -> total <= 2 ^ 61 ->
  Pacing_OnPacketSent rtt p t f pn b HAS_RETRANSMITTABLE_DATA = Ok p1 -> Pacing_PacingRate rtt p1 (f ⊕ b) = Ok rate ->
  (backlogged = true -> pacing_limited_ p1 = true) -> paced_run backlogged p1 ds p' ->
  start + total <= ideal_next_packet_send_time_ p' /\
  (backlogged = true -> ideal_next_packet_send_time_ p' = start + total) /\
  0 <= lumpy_tokens_ p' < max_lump /\
  forall now f' s, 0 <= now < 2 ^ 61 -> 0 <= alarm_granularity_ p < 2 ^ 61 -> f' <> 0 ->
    sender_ p' = Some s -> sa_CanSend s f' = true -> lumpy_tokens_ p' = 0 ->
    (TimeUntilSend p' now f' = Ok Delta_Zero -> start + total <= now + alarm_granularity_ p) /\
    (backlogged = true -> TimeUntilSend p' now f' =
       Ok (if start + total <=? now + alarm_granularity_ p then Delta_Zero else start + total - now)).
Proof.
  cbn zeta. intros Hbt Hpl Hl Hi Hf Ht Hb Htot Hs Hr Hlim Hrun.
  apply Pacing_OnPacketSent_paced in Hs as (s1 & rate' & _ & Hr' & Ei & Eg & Eb & _ & El); [|done|done].
  rewrite Hr in Hr'. injection Hr' as <-. pose proof (TransferTime_bound rate b Hb) as Hd. set (d := TransferTime rate b) in *.
  rewrite Hpl in Ei. cbn zeta in Ei. unfold QuicTime_add in Ei. rewrite !i64_small in Ei by lia.
  pose proof (paced_run_delays _ _ _ _ Hrun) as Hnn.
  destruct (paced_run_ideal _ _ _ _ Hrun) as (_ & I1 & I2 & I3 & I4 & I5); [done|auto|lia|lia|].
  assert (Hex : backlogged = true -> ideal_next_packet_send_time_ p' = Z.max (ideal_next_packet_send_time_ p) t + (d + total_delay ds))
    by (intros E; rewrite (I2 E (Hlim E)); lia).
  split; [lia|]. split; [done|]. split; [done|]. intros now f' s Hn Hg Hf' Es Hcan Hz.
  unfold TimeUntilSend, the_sender. rewrite Es. cbn [rbind]. rewrite Hcan, I3, Hz, (proj2 (Z.eqb_neq f' 0) Hf'), I5, Eg. cbn [negb Z.ltb Z.compare orb].
  unfold QuicTime_add, QuicTime_diff, Delta_Zero. rewrite (i64_small (now + _)), (i64_small (_ - now)) by lia. split.
  - destruct (Z.ltb_spec (now + alarm_granularity_ p) (ideal_next_packet_send_time_ p')) as [Hlt|Hge]; [|lia]. intros [= E]. lia.
  - intros E. rewrite (Hex E). destruct (Z.ltb_spec (now + alarm_granularity_ p) (Z.max (ideal_next_packet_send_time_ p) t + (d + total_delay ds))),
      (Z.leb_spec (Z.max (ideal_next_packet_send_time_ p) t + (d + total_delay ds)) (now + alarm_granularity_ p)); lia || done.
Qed.
End pacing.

(** A Copa sender of ten segments whose burst tokens are spent sends three packets. *)
Definition paced_copa : PacingSender CopaSender :=
  PacingSender_init <| sender_ := Some (CopaSender_init 10 2000 None).1 |> <| burst_tokens_ := 0 |>.
Definition paced_rtt : RttStats := measured 100000 100000.
Definition paced_copa_send (p : PacingSender CopaSender) (t f pn : Z) : PacingSender CopaSender :=
  match Pacing_OnPacketSent default_pacing_flags paced_rtt p t f pn 1460 HAS_RETRANSMITTABLE_DATA with
  | Ok p => p
  | Fault _ => p
  end.
Definition paced_copa1 : PacingSender CopaSender := paced_copa_send paced_copa 1000000 2920 3.
Definition paced_copa3 : PacingSender CopaSender := paced_copa_send (paced_copa_send paced_copa1 1001000 4380 4) 1009000 5840 5.

Lemma pacing_on_schedule_witness :
  ideal_next_packet_send_time_ paced_copa3 = 1000000 + 3 * 5000 /\
  TimeUntilSend paced_copa3 1010000 7300 = Ok 5000 /\ TimeUntilSend paced_copa3 1014000 7300 = Ok Delta_Zero.
Proof.
  destruct (pacing_on_schedule default_pacing_flags true paced_rtt paced_copa 1000000 2920 3 1460 paced_copa1 2336000 [5000; 5000] paced_copa3)
    as (_ & H1 & _ & H2); [reflexivity|reflexivity|vm_compute; split; congruence|vm_compute; split; congruence|lia|lia|lia|vm_compute; congruence
    |vm_compute; reflexivity|vm_compute; reflexivity|intros _; vm_compute; reflexivity| |].
  - eapply (paced_send default_pacing_flags true paced_copa1 paced_rtt 1001000 4380 4 1460 _ 2336000 [5000]);
      [lia|lia|lia|vm_compute; reflexivity|vm_compute; reflexivity|vm_compute; reflexivity|].
    eapply (paced_send default_pacing_flags true _ paced_rtt 1009000 5840 5 1460 _ 2336000 []);
      [lia|lia|lia|vm_compute; reflexivity|vm_compute; reflexivity|vm_compute; reflexivity|]. apply paced_nil.
  - split; [rewrite H1 by reflexivity; reflexivity|]. split.
    + rewrite (proj2 (H2 1010000 7300 (default (CopaSender_init 10 2000 None).1 (sender_ paced_copa3)) ltac:(lia) ltac:(vm_compute; split; congruence) ltac:(lia)
        ltac:(vm_compute; reflexivity) ltac:(vm_compute; reflexivity) ltac:(vm_compute; reflexivity)) eq_refl). vm_compute. reflexivity.
    + rewrite (proj2 (H2 1014000 7300 (default (CopaSender_init 10 2000 None).1 (sender_ paced_copa3)) ltac:(lia) ltac:(vm_compute; split; congruence) ltac:(lia)
        ltac:(vm_compute; reflexivity) ltac:(vm_compute; reflexivity) ltac:(vm_compute; reflexivity)) eq_refl). vm_compute. reflexivity.
Defined.
