(* ===== verification/AlarmEngine.v ===== *)
(** The alarm engine (ns3-quic-alarm-engine.h, ns3-quic-alarm-engine.cc) and the
    alarms it drives (quic_alarm.cc): a multimap from deadlines to alarms and
    one simulator timer armed for the first of them.

    An iterator of the multimap is a token: each entry carries a fresh number,
    an alarm remembers the number of its entry, and using a number whose entry
    is gone is the fault [DanglingIterator].  The simulator is its clock and the
    expiry of the engine's timer; the timer is not running while its own event
    executes.  What an alarm's delegate does when it fires is a parameter: a
    list of commands on alarms. *)

From Stdlib Require Import Sorted.
From stdpp Require Import gmap.
From S2P Require Import Prelude QuicTime.

(** * State *)

(** src/src/quic/model/ns3-quic-alarm-engine.h:17-18 [TimeToAlarmCBMap, AlarmRegToken] *)
Record Entry := mkEntry { timeout : Z; cb : nat; token : nat }.

(** src/src/quic/model/ns3-quic-alarm-engine.h:89-91 [BaseAlarm, and QuicAlarm::deadline_] *)
Record Ns3Alarm := mkAlarm {
  deadline_ : QuicTime;
  token_ : option nat;
  attached_ : bool;
  registered_ : bool;
}.
#[export] Instance eta_Ns3Alarm : Eta Ns3Alarm := MkEta _ (fun a =>
  mkAlarm (deadline_ a) (token_ a) (attached_ a) (registered_ a)).

(** src/src/quic/model/ns3-quic-alarm-engine.cc:170-170 [BaseAlarm::BaseAlarm] *)
Definition Ns3Alarm_init : Ns3Alarm := mkAlarm QuicTime_Zero None false false.

(** src/src/quic/model/ns3-quic-alarm-engine.h:43-46 [Ns3QuicAlarmEngine].
    With the engine, the clock, the alarms it points to, and a log of what fired. *)
Record World := mkWorld {
  now_us : Z;
  alarm_map_ : list Entry;
  all_alarms_ : gset nat;
  timer_ : option Z;
  visitor_ : bool;
  next_token : nat;
  alarms : gmap nat Ns3Alarm;
  fired : list nat;
  post_processings : Z;
}.
#[export] Instance eta_World : Eta World := MkEta _ (fun w =>
  mkWorld (now_us w) (alarm_map_ w) (all_alarms_ w) (timer_ w) (visitor_ w) (next_token w)
    (alarms w) (fired w) (post_processings w)).

Definition get_alarm (w : World) (a : nat) : result Ns3Alarm :=
  match alarms w !! a with Some x => Ok x | None => Fault NullPointer end.
Definition set_alarm (w : World) (a : nat) (x : Ns3Alarm) : World :=
  w <| alarms := <[a := x]> (alarms w) |>.

(** [std::multimap::insert]: after every entry with the same key. *)
Fixpoint insert_entry (e : Entry) (m : list Entry) : list Entry :=
  match m with
  | [] => [e]
  | x :: m => if timeout e <? timeout x then e :: x :: m else x :: insert_entry e m
  end.

(** Dereferencing and erasing an iterator. *)
Definition find_entry (tok : nat) (m : list Entry) : result Entry :=
  match List.find (fun e => Nat.eqb (token e) tok) m with
  | Some e => Ok e
  | None => Fault DanglingIterator
  end.
Definition erase_entry (tok : nat) (m : list Entry) : list Entry :=
  List.filter (fun e => negb (Nat.eqb (token e) tok)) m.

(** * The engine *)

(** src/src/quic/model/ns3-quic-alarm-engine.cc:104-120 [Ns3QuicAlarmEngine::UpdateTimer] *)
Definition UpdateTimer (w : World) : result World :=
  let w := w <| timer_ := None |> in
  match alarm_map_ w with
  | [] => Ok w
  | i :: _ =>
      let* _ := CHECK (now_us w <=? timeout i) in
      Ok (w <| timer_ := Some (now_us w + (timeout i - now_us w)) |>)
  end.

(** src/src/quic/model/ns3-quic-alarm-engine.cc:180-188 [BaseAlarm::OnRegistration] *)
Definition OnRegistration (w : World) (a : nat) (tok : nat) : result World :=
  let* x := get_alarm w a in
  let* _ := CHECK (negb (registered_ x)) in
  Ok (set_alarm w a (x <| token_ := Some tok |> <| attached_ := true |> <| registered_ := true |>)).

(** src/src/quic/model/ns3-quic-alarm-engine.cc:190-190 [BaseAlarm::OnUnregistration] *)
Definition OnUnregistration (w : World) (a : nat) : result World :=
  let* x := get_alarm w a in Ok (set_alarm w a (x <| registered_ := false |>)).

(** src/src/quic/model/ns3-quic-alarm-engine.cc:192-196 [BaseAlarm::OnShutdown] *)
Definition OnShutdown (w : World) (a : nat) : result World :=
  let* x := get_alarm w a in
  Ok (set_alarm w a (x <| registered_ := false |> <| attached_ := false |>)).

(** src/src/quic/model/ns3-quic-alarm-engine.cc:27-35 [Ns3QuicAlarmEngine::Shutdown, loop].
    The loop erases the first entry until the map is empty. *)
Fixpoint Shutdown_loop (m : list Entry) (w : World) : result World :=
  match m with
  | [] => Ok w
  | e :: m =>
      let w := w <| alarm_map_ := m |> <| all_alarms_ := all_alarms_ w ∖ {[ cb e ]} |> in
      let* w := OnShutdown w (cb e) in
      Shutdown_loop m w
  end.
(** src/src/quic/model/ns3-quic-alarm-engine.cc:24-36 [Ns3QuicAlarmEngine::Shutdown] *)
Definition Shutdown (w : World) : result World := Shutdown_loop (alarm_map_ w) w.

(** src/src/quic/model/ns3-quic-alarm-engine.cc:37-72 [Ns3QuicAlarmEngine::RegisterAlarm] *)
Definition RegisterAlarm (w : World) (timeout_us : Z) (ac : nat) : result World :=
  let timeout_us := if timeout_us <? now_us w then now_us w else timeout_us in
  let update := match alarm_map_ w with
                | [] => true
                | i :: _ => timeout_us <? timeout i
                end in
  let* w :=
    if bool_decide (ac ∈ all_alarms_ w) then Ok w
    else
      let tok := next_token w in
      let w := w <| alarm_map_ := insert_entry (mkEntry timeout_us ac tok) (alarm_map_ w) |>
                 <| next_token := S tok |> in
      let w := w <| all_alarms_ := all_alarms_ w ∪ {[ ac ]} |> in
      OnRegistration w ac tok in
  if bool_decide (timer_ w = None) || update then UpdateTimer w else Ok w.

(** src/src/quic/model/ns3-quic-alarm-engine.cc:73-79 [Ns3QuicAlarmEngine::UnregisterAlarm] *)
Definition UnregisterAlarm (w : World) (tok : nat) : result World :=
  let* e := find_entry tok (alarm_map_ w) in
  let w := w <| alarm_map_ := erase_entry tok (alarm_map_ w) |>
             <| all_alarms_ := all_alarms_ w ∖ {[ cb e ]} |> in
  OnUnregistration w (cb e).

(** src/src/quic/model/ns3-quic-alarm-engine.cc:80-103 [Ns3QuicAlarmEngine::ReregisterAlarm] *)
Definition ReregisterAlarm (w : World) (tok : nat) (timeout_us : Z) : result (World * nat) :=
  let* e := find_entry tok (alarm_map_ w) in
  let w := w <| alarm_map_ := erase_entry tok (alarm_map_ w) |> in
  match alarm_map_ w with
  | [] => Fault CheckFailed
  | i :: _ =>
      let next_timeout_us := timeout i in
      let ret := next_token w in
      let w := w <| alarm_map_ := insert_entry (mkEntry timeout_us (cb e) ret) (alarm_map_ w) |>
                 <| next_token := S ret |> in
      let* w := if bool_decide (timer_ w = None) || (timeout_us <? next_timeout_us)
                then UpdateTimer w else Ok w in
      let* _ := CHECK (bool_decide (timer_ w <> None)) in
      Ok (w, ret)
  end.

(** * BaseAlarm *)

(** src/src/quic/model/ns3-quic-alarm-engine.cc:199-207 [BaseAlarm::UnregisterIfRegistered] *)
Definition UnregisterIfRegistered (w : World) (a : nat) : result World :=
  let* x := get_alarm w a in
  if negb (registered_ x) then Ok w
  else
    let* _ := (if attached_ x then Ok tt else Fault NullPointer) in
    match token_ x with
    | Some tok => UnregisterAlarm w tok
    | None => Fault DanglingIterator
    end.

(** src/src/quic/model/ns3-quic-alarm-engine.cc:209-213 [BaseAlarm::ReregisterAlarm] *)
Definition BaseAlarm_ReregisterAlarm (w : World) (a : nat) (timeout_time_in_us : Z) : result World :=
  let* x := get_alarm w a in
  let* _ := CHECK (registered_ x) in
  let* _ := (if attached_ x then Ok tt else Fault NullPointer) in
  match token_ x with
  | Some tok =>
      let* r := ReregisterAlarm w tok timeout_time_in_us in
      let* x := get_alarm r.1 a in
      Ok (set_alarm r.1 a (x <| token_ := Some r.2 |>))
  | None => Fault DanglingIterator
  end.

(** * Ns3Alarm and QuicAlarm *)

(** src/src/quic/model/ns3-quic-alarm-engine.cc:225-230 [Ns3Alarm::SetImpl] *)
Definition SetImpl (w : World) (a : nat) : result World :=
  let* x := get_alarm w a in
  let* _ := CHECK (QuicTime_IsInitialized (deadline_ x)) in
  RegisterAlarm w (QuicTime_diff (deadline_ x) QuicTime_Zero) a.

(** src/src/quic/model/ns3-quic-alarm-engine.cc:232-236 [Ns3Alarm::CancelImpl] *)
Definition CancelImpl (w : World) (a : nat) : result World :=
  let* x := get_alarm w a in
  let* _ := CHECK (negb (QuicTime_IsInitialized (deadline_ x))) in
  UnregisterIfRegistered w a.

(** src/src/quic/model/ns3-quic-alarm-engine.cc:238-250 [Ns3Alarm::UpdateImpl] *)
Definition UpdateImpl (w : World) (a : nat) : result World :=
  let* x := get_alarm w a in
  let* _ := CHECK (QuicTime_IsInitialized (deadline_ x)) in
  let timeout_us := QuicTime_diff (deadline_ x) QuicTime_Zero in
  if registered_ x then BaseAlarm_ReregisterAlarm w a timeout_us
  else RegisterAlarm w timeout_us a.

(** src/quiche/gquiche/quic/core/quic_alarm.cc:48-50 [QuicAlarm::IsSet] *)
Definition IsSet (x : Ns3Alarm) : bool := QuicTime_IsInitialized (deadline_ x).

(** src/quiche/gquiche/quic/core/quic_alarm.cc:14-19 [QuicAlarm::Set] *)
Definition QuicAlarm_Set (w : World) (a : nat) (new_deadline : QuicTime) : result World :=
  let* x := get_alarm w a in
  let* _ := CHECK (negb (IsSet x)) in
  let* _ := CHECK (QuicTime_IsInitialized new_deadline) in
  SetImpl (set_alarm w a (x <| deadline_ := new_deadline |>)) a.

(** src/quiche/gquiche/quic/core/quic_alarm.cc:21-28 [QuicAlarm::Cancel] *)
Definition QuicAlarm_Cancel (w : World) (a : nat) : result World :=
  let* x := get_alarm w a in
  if negb (IsSet x) then Ok w
  else CancelImpl (set_alarm w a (x <| deadline_ := QuicTime_Zero |>)) a.

(** src/quiche/gquiche/quic/core/quic_alarm.cc:30-46 [QuicAlarm::Update] *)
Definition QuicAlarm_Update (w : World) (a : nat) (new_deadline : QuicTime) (granularity : Delta)
    : result World :=
  if negb (QuicTime_IsInitialized new_deadline) then QuicAlarm_Cancel w a
  else
    let* x := get_alarm w a in
    if Z.abs (QuicTime_diff new_deadline (deadline_ x)) <? granularity then Ok w
    else
      let was_set := IsSet x in
      let w := set_alarm w a (x <| deadline_ := new_deadline |>) in
      if was_set then UpdateImpl w a else SetImpl w a.

(** What a delegate may do when its alarm fires. *)
Inductive alarm_cmd :=
  | CmdSet (a : nat) (deadline : QuicTime)
  | CmdCancel (a : nat)
  | CmdUpdate (a : nat) (deadline : QuicTime) (granularity : Delta).

Definition run_cmd (w : World) (c : alarm_cmd) : result World :=
  match c with
  | CmdSet a d => QuicAlarm_Set w a d
  | CmdCancel a => QuicAlarm_Cancel w a
  | CmdUpdate a d g => QuicAlarm_Update w a d g
  end.

Section delegates.
Context (delegate : nat -> Z -> list alarm_cmd).

(** src/quiche/gquiche/quic/core/quic_alarm.cc:52-59 [QuicAlarm::Fire] *)
Definition Fire (w : World) (a : nat) : result World :=
  let* x := get_alarm w a in
  if negb (IsSet x) then Ok w
  else
    let w := set_alarm w a (x <| deadline_ := QuicTime_Zero |>) in
    rfold run_cmd (delegate a (now_us w)) (w <| fired := fired w ++ [a] |>).

(** src/src/quic/model/ns3-quic-alarm-engine.cc:259-265 [Ns3AlarmImpl::OnAlarm, BaseAlarm::OnAlarm].
    It always returns 0, so the loop around it in [OnTimeout] runs once and
    never re-registers. *)
Definition OnAlarm (w : World) (a : nat) : result (World * Z) :=
  let* x := get_alarm w a in
  let* w := Fire (set_alarm w a (x <| registered_ := false |>)) a in
  Ok (w, 0).

(** src/src/quic/model/ns3-quic-alarm-engine.cc:130-143 [Ns3QuicAlarmEngine::OnTimeout, collecting] *)
Fixpoint collect_due (m : list Entry) (w : World) : World * list nat :=
  match m with
  | [] => (w, [])
  | e :: m' =>
      if now_us w <? timeout e then (w, [])
      else
        let w := w <| alarm_map_ := m' |> <| all_alarms_ := all_alarms_ w ∖ {[ cb e ]} |> in
        let r := collect_due m' w in
        (r.1, cb e :: r.2)
  end.

(** src/src/quic/model/ns3-quic-alarm-engine.cc:144-163 [Ns3QuicAlarmEngine::OnTimeout, firing] *)
Definition fire_one (w : World) (a : nat) : result World :=
  let* r := OnAlarm w a in
  if (0 <? r.2) then RegisterAlarm r.1 r.2 a else Ok r.1.

(** src/src/quic/model/ns3-quic-alarm-engine.cc:121-169 [Ns3QuicAlarmEngine::OnTimeout].
    The simulator runs it when the timer expires, so the timer is not running. *)
Definition OnTimeout (w : World) : result World :=
  let w := w <| timer_ := None |> in
  let '(w, cbs) := collect_due (alarm_map_ w) w in
  let* w := rfold fire_one cbs w in
  let w := if bool_decide (cbs <> []) && visitor_ w
           then w <| post_processings := post_processings w + 1 |> else w in
  UpdateTimer w.
End delegates.

(** * The multimap *)

Definition by_timeout (e f : Entry) : Prop := timeout e <= timeout f.

Lemma insert_entry_perm e m : insert_entry e m ≡ₚ e :: m.
Proof.
  induction m as [|x m IH]; cbn; [done|]. destruct (timeout e <? timeout x); [done|].
  rewrite IH. constructor.
Qed.

Lemma insert_entry_sorted e m :
  StronglySorted by_timeout m -> StronglySorted by_timeout (insert_entry e m).
Proof.
  induction 1 as [|x m Hm IH Hx]; cbn.
  - repeat constructor.
  - destruct (Z.ltb_spec (timeout e) (timeout x)).
    + constructor; [by constructor|]. constructor; [unfold by_timeout; lia|].
      eapply Forall_impl; [exact Hx|]. unfold by_timeout. lia.
    + constructor; [exact IH|]. rewrite insert_entry_perm. constructor; [unfold by_timeout; lia|exact Hx].
Qed.

(** The first entry after an insertion. *)
Lemma insert_entry_head e m :
  exists i m', insert_entry e m = i :: m' /\
    timeout i = match m with [] => timeout e | x :: _ => Z.min (timeout e) (timeout x) end.
Proof.
  destruct m as [|x m]; cbn; [eauto|]. destruct (Z.ltb_spec (timeout e) (timeout x)); eexists _, _;
    (split; [done|]); cbn; lia.
Qed.

Lemma erase_entry_elem tok m e : e ∈ erase_entry tok m <-> (e ∈ m) /\ token e <> tok.
Proof.
  unfold erase_entry. rewrite !list_elem_of_In, filter_In, negb_true_iff, Nat.eqb_neq. tauto.
Qed.

Lemma erase_entry_sorted tok m :
  StronglySorted by_timeout m -> StronglySorted by_timeout (erase_entry tok m).
Proof.
  induction 1 as [|x m Hm IH Hx]; cbn; [constructor|]. destruct (negb _); [|done].
  constructor; [done|]. rewrite Forall_forall in *. intros y Hy. apply Hx.
  by apply erase_entry_elem in Hy as [? _].
Qed.

Lemma erase_entry_NoDup {A} (f : Entry -> A) tok m :
  NoDup (map f m) -> NoDup (map f (erase_entry tok m)).
Proof.
  induction m as [|x m IH]; cbn; [done|]. intros [Hx Hm]%NoDup_cons.
  destruct (negb _); cbn; [|by apply IH]. apply NoDup_cons. split; [|by apply IH].
  rewrite list_elem_of_fmap. intros (y & Ey & Hy). apply Hx. rewrite list_elem_of_fmap.
  exists y. apply erase_entry_elem in Hy. tauto.
Qed.

Lemma find_entry_unique e m :
  NoDup (map token m) -> e ∈ m -> find_entry (token e) m = Ok e.
Proof.
  unfold find_entry. induction m as [|x m IH]; cbn; [set_solver|].
  intros [Hx Hm]%NoDup_cons [->|He]%elem_of_cons.
  - by rewrite Nat.eqb_refl.
  - destruct (Nat.eqb_spec (token x) (token e)) as [E|_]; [|by apply IH].
    exfalso. apply Hx. rewrite list_elem_of_fmap. exists e. split; [done|done].
Qed.

Lemma elem_of_map {A B} (f : A -> B) y l : y ∈ map f l <-> exists x, y = f x /\ x ∈ l.
Proof. apply list_elem_of_fmap. Qed.

(** * The invariant

    [D] are the alarms [OnTimeout] has taken out of the map and not fired yet:
    they still believe they are registered and hold the tokens of entries that are
    gone.  Between simulator events it is empty. *)
Definition stale (w : World) (x : Ns3Alarm) : Prop :=
  registered_ x = true /\
  forall tok, token_ x = Some tok -> (tok < next_token w)%nat /\ forall e, e ∈ alarm_map_ w -> token e <> tok.

Record engine_inv (D : list nat) (w : World) : Prop := {
  ei_sorted : StronglySorted by_timeout (alarm_map_ w);
  ei_future e : e ∈ alarm_map_ w -> now_us w <= timeout e;
  ei_tokens : NoDup (map token (alarm_map_ w));
  ei_fresh e : e ∈ alarm_map_ w -> (token e < next_token w)%nat;
  ei_cbs : NoDup (map cb (alarm_map_ w));
  ei_all a : a ∈ all_alarms_ w <-> a ∈ map cb (alarm_map_ w);
  ei_entry e : e ∈ alarm_map_ w -> exists x, alarms w !! cb e = Some x /\
    registered_ x = true /\ attached_ x = true /\ token_ x = Some (token e);
  ei_registered a x : alarms w !! a = Some x -> registered_ x = true ->
    a ∈ D \/ a ∈ map cb (alarm_map_ w);
  ei_due a : a ∈ D -> a ∉ map cb (alarm_map_ w) /\
    exists x, alarms w !! a = Some x /\ stale w x;
}.

(** The timer, if running, is armed at or before every deadline. *)
Definition timer_early (w : World) : Prop :=
  forall x, timer_ w = Some x -> now_us w <= x /\ forall e, e ∈ alarm_map_ w -> x <= timeout e.

(** And it is running whenever there is something to wait for. *)
Definition timer_armed (w : World) : Prop :=
  timer_early w /\ (timer_ w = None -> alarm_map_ w = []).

(** An alarm has a deadline exactly when it is registered. *)
Definition deadlines_ok (w : World) : Prop :=
  forall a x, alarms w !! a = Some x -> IsSet x = registered_ x.

Lemma first_is_least i m e :
  StronglySorted by_timeout (i :: m) -> e ∈ i :: m -> timeout i <= timeout e.
Proof.
  intros [_ H]%StronglySorted_inv [->|He]%elem_of_cons; [lia|].
  rewrite Forall_forall in H. by apply H.
Qed.

Lemma UpdateTimer_head w i m :
  alarm_map_ w = i :: m -> now_us w <= timeout i ->
  UpdateTimer w = Ok (w <| timer_ := Some (now_us w + (timeout i - now_us w)) |>).
Proof.
  intros Em Hi. unfold UpdateTimer. cbn. rewrite Em. by rewrite (proj2 (Z.leb_le _ _) Hi).
Qed.

Lemma UpdateTimer_spec D w :
  engine_inv D w ->
  exists w', UpdateTimer w = Ok w' /\ w' = w <| timer_ := timer_ w' |> /\ timer_armed w'.
Proof.
  intros Hw. unfold UpdateTimer. destruct (alarm_map_ w) as [|i m] eqn:Em.
  - cbn. rewrite Em. eexists; split; [done|]. split; [done|]. by split.
  - cbn. rewrite Em. pose proof (ei_future _ _ Hw i) as Hi. rewrite Em in Hi.
    specialize (Hi ltac:(set_solver)). rewrite (proj2 (Z.leb_le _ _) Hi). cbn [CHECK rbind].
    eexists; split; [done|]. split; [done|]. split; [|done].
    intros x [= <-]. cbn. split; [lia|]. intros e He. try rewrite Em in He.
    pose proof (ei_sorted _ _ Hw) as Hs. rewrite Em in Hs. pose proof (first_is_least i m e Hs He). lia.
Qed.

(** The engine's view of a world does not depend on the timer, the log or the
    deadlines kept by the alarms. *)
Lemma engine_inv_ext D w w' :
  engine_inv D w -> now_us w' = now_us w -> alarm_map_ w' = alarm_map_ w ->
  all_alarms_ w' = all_alarms_ w -> next_token w' = next_token w -> alarms w' = alarms w ->
  engine_inv D w'.
Proof. intros [] E1 E2 E3 E4 E5. split; unfold stale; rewrite ?E1, ?E2, ?E3, ?E4, ?E5; done. Qed.

Lemma engine_inv_deadline D w a x d :
  engine_inv D w -> alarms w !! a = Some x -> engine_inv D (set_alarm w a (x <| deadline_ := d |>)).
Proof.
  intros [] Hx. split; cbn; try done.
  - intros e He. destruct (decide (cb e = a)) as [<-|].
    + rewrite lookup_insert. destruct (ei_entry0 e He) as (y & Hy & ?).
      rewrite Hx in Hy. injection Hy as <-. rewrite decide_True by done. eauto.
    + rewrite lookup_insert_ne by done. eauto.
  - intros b y. destruct (decide (b = a)) as [->|].
    + rewrite lookup_insert, decide_True by done. intros [= <-]. eauto.
    + rewrite lookup_insert_ne by done. eauto.
  - intros b Hb. destruct (ei_due0 b Hb) as (? & y & Hy & ?). split; [done|].
    destruct (decide (b = a)) as [->|].
    + rewrite lookup_insert, decide_True by done. rewrite Hx in Hy. injection Hy as <-. eauto.
    + rewrite lookup_insert_ne by done. eauto.
Qed.

Lemma RegisterAlarm_spec D w t a x :
  engine_inv D w -> timer_early w -> alarms w !! a = Some x -> registered_ x = false ->
  exists w', RegisterAlarm w t a = Ok w' /\ engine_inv D w' /\ timer_armed w' /\
    now_us w' = now_us w /\ fired w' = fired w /\
    alarm_map_ w' = insert_entry (mkEntry (Z.max t (now_us w)) a (next_token w)) (alarm_map_ w) /\
    alarms w' = <[a := x <| token_ := Some (next_token w) |> <| attached_ := true |>
                        <| registered_ := true |>]> (alarms w) /\
    next_token w' = S (next_token w).
Proof.
  intros Hw Ht Hx Hr. unfold RegisterAlarm.
  replace (if t <? now_us w then now_us w else t) with (Z.max t (now_us w)) by (zcases; lia).
  set (t' := Z.max t (now_us w)).
  assert (Ha : a ∉ map cb (alarm_map_ w)).
  { rewrite elem_of_map. intros (e & -> & He). destruct (ei_entry _ _ Hw e He) as (y & Hy & Hy' & _). congruence. }
  rewrite bool_decide_eq_false_2 by (by rewrite (ei_all _ _ Hw)).
  unfold OnRegistration, get_alarm. cbn. rewrite Hx. cbn. rewrite Hr. cbn [negb CHECK rbind].
  set (e' := mkEntry t' a (next_token w)).
  match goal with |- context [UpdateTimer ?u] => set (w1 := u) end.
  assert (Hw1 : engine_inv D w1).
  { unfold w1. destruct Hw. split; cbn.
    - by apply insert_entry_sorted.
    - intros e. rewrite insert_entry_perm. intros [->|He]%elem_of_cons; [unfold e', t'; cbn; lia|by apply ei_future0].
    - rewrite insert_entry_perm. cbn. apply NoDup_cons. split; [|done].
      rewrite elem_of_map. intros (e & E & He). apply ei_fresh0 in He. cbn in E. lia.
    - intros e. rewrite insert_entry_perm. intros [->|He]%elem_of_cons; [cbn; lia|]. apply ei_fresh0 in He. lia.
    - rewrite insert_entry_perm. cbn. by apply NoDup_cons.
    - intros b. rewrite insert_entry_perm. cbn. rewrite elem_of_cons, elem_of_union, ei_all0. set_solver.
    - intros e. rewrite insert_entry_perm. intros [->|He]%elem_of_cons.
      + cbn. rewrite lookup_insert, decide_True by done. eauto.
      + rewrite lookup_insert_ne; [eauto|]. intros E. apply Ha. rewrite elem_of_map. eauto.
    - intros b y. rewrite insert_entry_perm. cbn. rewrite elem_of_cons.
      destruct (decide (b = a)) as [->|]; [auto|]. rewrite lookup_insert_ne by done. intros Hb Hry.
      destruct (ei_registered0 b y Hb Hry); auto.
    - intros b Hb. destruct (ei_due0 b Hb) as (Hn & y & Hy & Hry & Hst). rewrite insert_entry_perm. cbn.
      assert (b <> a) by (intros ->; congruence).
      rewrite lookup_insert_ne by done. split; [rewrite elem_of_cons; tauto|]. exists y. split; [done|]. split; [done|].
      intros tok Htok. destruct (Hst tok Htok) as [H1 H2]. cbn. split; [lia|]. intros e. rewrite insert_entry_perm.
      intros [->|He]%elem_of_cons; [cbn; lia|by apply H2]. }
  match goal with |- context [if ?b then UpdateTimer _ else _] => destruct b eqn:Eu end.
  - destruct (UpdateTimer_spec D w1 Hw1) as (w' & H1 & E' & H2). exists w'. split; [exact H1|].
    rewrite E' in *. split_and!; try done. eapply engine_inv_ext; [exact Hw1|done..].
  - exists w1. apply orb_false_iff in Eu as [Et Eu]. apply bool_decide_eq_false in Et.
    split_and!; try done. split; [|by intros ?]. intros y Hy. cbn in Hy.
    destruct (Ht y Hy) as [Hny Hall]. split; [done|]. cbn. intros e. rewrite insert_entry_perm.
    intros [->|He]%elem_of_cons; [|by apply Hall]. cbn.
    destruct (alarm_map_ w) as [|i m]; [discriminate|]. apply Z.ltb_ge in Eu.
    specialize (Hall i ltac:(set_solver)). lia.
Qed.

Lemma UnregisterAlarm_spec D w e x :
  engine_inv D w -> e ∈ alarm_map_ w -> alarms w !! cb e = Some x ->
  exists w', UnregisterAlarm w (token e) = Ok w' /\ engine_inv D w' /\
    now_us w' = now_us w /\ timer_ w' = timer_ w /\ fired w' = fired w /\
    alarm_map_ w' = erase_entry (token e) (alarm_map_ w) /\
    alarms w' = <[cb e := x <| registered_ := false |>]> (alarms w).
Proof.
  intros Hw He Hx. unfold UnregisterAlarm.
  rewrite find_entry_unique by (done || apply (ei_tokens _ _ Hw)). cbn [rbind].
  unfold OnUnregistration, get_alarm. cbn. rewrite Hx. cbn.
  eexists; split; [done|]. split_and!; try done. destruct Hw.
  assert (Htok : forall f, f ∈ alarm_map_ w -> token f = token e -> f = e).
  { intros f Hf E. pose proof (find_entry_unique f _ ei_tokens0 Hf).
    pose proof (find_entry_unique e _ ei_tokens0 He). congruence. }
  assert (Hcb : forall f, f ∈ alarm_map_ w -> cb f = cb e -> f = e).
  { intros f Hf E. apply Htok; [done|]. destruct (ei_entry0 f Hf) as (y & Hy & _ & _ & Hty).
    destruct (ei_entry0 e He) as (z & Hz & _ & _ & Htz). rewrite E in Hy. congruence. }
  assert (Hin : forall a, a ∈ map cb (erase_entry (token e) (alarm_map_ w)) <-> a ∈ map cb (alarm_map_ w) /\ a <> cb e).
  { intros a. rewrite !elem_of_map. split.
    - intros (f & -> & [Hf Ht]%erase_entry_elem). split; [eauto|]. intros E. by apply Ht, f_equal, Hcb.
    - intros [(f & -> & Hf) Hne]. exists f. split; [done|]. apply erase_entry_elem. split; [done|].
      intros E. apply Hne, f_equal. by apply Htok. }
  split; cbn.
  - by apply erase_entry_sorted.
  - intros f [Hf _]%erase_entry_elem. eauto.
  - by apply erase_entry_NoDup.
  - intros f [Hf _]%erase_entry_elem. eauto.
  - by apply erase_entry_NoDup.
  - intros a. rewrite Hin, elem_of_difference, ei_all0. set_solver.
  - intros f [Hf Ht]%erase_entry_elem. rewrite lookup_insert_ne; [eauto|]. intros E. by apply Ht, f_equal, Hcb.
  - intros a y. rewrite Hin. destruct (decide (a = cb e)) as [->|].
    + rewrite lookup_insert, decide_True by done. intros [= <-]. done.
    + rewrite lookup_insert_ne by done. intros Hy Hr. destruct (ei_registered0 a y Hy Hr); auto.
  - intros a Ha. destruct (ei_due0 a Ha) as (Hn & y & Hy & Hr & Hst). rewrite Hin. split; [tauto|].
    rewrite lookup_insert_ne by (intros <-; apply Hn; rewrite elem_of_map; eauto). exists y. split; [done|]. split; [done|].
    intros tok Ht. destruct (Hst tok Ht) as [? H2]. split; [done|]. intros f [Hf _]%erase_entry_elem. by apply H2.
Qed.

Lemma deadlines_ok_insert w a x :
  deadlines_ok w -> IsSet x = registered_ x -> forall b y, <[a := x]> (alarms w) !! b = Some y -> IsSet y = registered_ y.
Proof.
  intros Hw Hx b y. destruct (decide (b = a)) as [->|].
  - rewrite lookup_insert, decide_True by done. by intros [= <-].
  - rewrite lookup_insert_ne by done. apply Hw.
Qed.

(** Setting an alarm: never faults, and files it at its deadline, or now if the
    deadline has passed. *)
Lemma QuicAlarm_Set_spec D w a x d :
  engine_inv D w -> timer_early w -> deadlines_ok w -> alarms w !! a = Some x ->
  IsSet x = false -> d <> 0 ->
  exists w', QuicAlarm_Set w a d = Ok w' /\ engine_inv D w' /\ timer_armed w' /\ deadlines_ok w' /\
    now_us w' = now_us w /\ fired w' = fired w /\
    alarm_map_ w' = insert_entry (mkEntry (Z.max (i64 d) (now_us w)) a (next_token w)) (alarm_map_ w) /\
    (forall b, b <> a -> alarms w' !! b = alarms w !! b).
Proof.
  intros Hw Ht Hd Hx Hs Hd0. unfold QuicAlarm_Set, get_alarm. rewrite Hx. cbn [rbind].
  rewrite Hs. cbn [negb CHECK rbind].
  assert (Hi : QuicTime_IsInitialized d = true) by (unfold QuicTime_IsInitialized; apply negb_true_iff, Z.eqb_neq; done).
  rewrite Hi. cbn [CHECK rbind]. unfold SetImpl, get_alarm, set_alarm. cbn. rewrite lookup_insert, decide_True by done.
  cbn. rewrite Hi. cbn [CHECK rbind].
  set (x1 := x <| deadline_ := d |>).
  pose proof (engine_inv_deadline D w a x d Hw Hx) as Hw1. fold x1 in Hw1.
  destruct (RegisterAlarm_spec D (set_alarm w a x1) (QuicTime_diff d QuicTime_Zero) a x1)
    as (w' & H1 & H2 & H3 & H4 & H5 & H6 & H7 & _); [done|exact Ht| | |].
  - cbn. by rewrite lookup_insert, decide_True.
  - unfold x1. cbn. by rewrite <- (Hd a x Hx).
  - exists w'. split; [exact H1|]. cbn in *. rewrite H6, H7.
    unfold QuicTime_diff, QuicTime_Zero. rewrite Z.sub_0_r.
    split_and!; try done.
    + intros b y Hb. rewrite H7, insert_insert, decide_True in Hb by done.
      eapply (deadlines_ok_insert w a); [exact Hd| |exact Hb]. cbn. done.
    + intros b Hb. rewrite !lookup_insert_ne by done. done.
Qed.

(** Cancelling an alarm that is not about to fire: never faults, and removes
    exactly that alarm. *)
Lemma QuicAlarm_Cancel_spec D w a x :
  engine_inv D w -> timer_early w -> deadlines_ok w -> alarms w !! a = Some x -> (a ∉ D) ->
  exists w', QuicAlarm_Cancel w a = Ok w' /\ engine_inv D w' /\ deadlines_ok w' /\ timer_early w' /\
    now_us w' = now_us w /\ fired w' = fired w /\ (timer_armed w -> timer_armed w') /\
    alarm_map_ w' = List.filter (fun e => negb (Nat.eqb (cb e) a)) (alarm_map_ w).
Proof.
  intros Hw Ht Hd Hx HD. unfold QuicAlarm_Cancel, get_alarm. rewrite Hx. cbn [rbind].
  assert (Hnone : (a ∉ map cb (alarm_map_ w)) ->
    List.filter (fun e => negb (Nat.eqb (cb e) a)) (alarm_map_ w) = alarm_map_ w).
  { clear. induction (alarm_map_ w) as [|e m IH]; cbn; [done|]. rewrite elem_of_cons. intros Hni.
    destruct (Nat.eqb_spec (cb e) a) as [<-|]; [tauto|]. cbn. by rewrite IH by tauto. }
  destruct (IsSet x) eqn:Es; cbn [negb].
  2:{ exists w. rewrite Hnone; [split_and!; auto|]. rewrite elem_of_map. intros (e & -> & He).
      destruct (ei_entry _ _ Hw e He) as (y & Hy & Hr & _). rewrite (Hd _ _ Hx) in Es. congruence. }
  assert (Hr : registered_ x = true) by (by rewrite <- (Hd a x Hx)).
  destruct (ei_registered _ _ Hw a x Hx Hr) as [Hin|Hin]; [done|].
  apply elem_of_map in Hin as (e & -> & He).
  destruct (ei_entry _ _ Hw e He) as (y & Hy & _ & Hat & Htok). rewrite Hx in Hy. injection Hy as <-.
  set (x1 := x <| deadline_ := QuicTime_Zero |>).
  assert (EC : CancelImpl (set_alarm w (cb e) x1) (cb e) = UnregisterAlarm (set_alarm w (cb e) x1) (token e)).
  { unfold CancelImpl, UnregisterIfRegistered, get_alarm.
    change (alarms (set_alarm w (cb e) x1)) with (<[cb e := x1]> (alarms w)).
    rewrite lookup_insert, decide_True by done. cbn [rbind].
    change (deadline_ x1) with QuicTime_Zero. change (registered_ x1) with (registered_ x).
    change (attached_ x1) with (attached_ x). change (token_ x1) with (token_ x).
    by rewrite Hr, Hat, Htok. }
  rewrite EC.
  pose proof (engine_inv_deadline D w (cb e) x QuicTime_Zero Hw Hx) as Hw1. fold x1 in Hw1.
  destruct (UnregisterAlarm_spec D (set_alarm w (cb e) x1) e x1) as (w' & H1 & H2 & H3 & H4 & H5 & H6 & H7);
    [done|done|cbn; by rewrite lookup_insert, decide_True|].
  exists w'. split; [exact H1|]. unfold set_alarm in H3, H4, H5, H6, H7. cbn in H3, H4, H5, H6, H7.
  assert (Hsub : forall f, f ∈ alarm_map_ w' -> f ∈ alarm_map_ w) by (rewrite H6; intros f [? _]%erase_entry_elem; done).
  split_and!; try done.
  - intros b y. rewrite H7, insert_insert, decide_True by done. by apply deadlines_ok_insert.
  - intros z Hz. rewrite H4 in Hz. destruct (Ht z Hz) as [? Hall]. split; [lia|]. intros f Hf. by apply Hall, Hsub.
  - intros [_ Hn]. split; [|rewrite H4; intros E; rewrite H6, (Hn E); done].
    intros z Hz. rewrite H4 in Hz. destruct (Ht z Hz) as [? Hall]. split; [lia|]. intros f Hf. by apply Hall, Hsub.
  - rewrite H6. unfold erase_entry. apply List.filter_ext_in. intros f Hf%list_elem_of_In. f_equal.
    apply eq_true_iff_eq. rewrite !Nat.eqb_eq. split; intros E.
    + assert (f = e); [|by subst]. pose proof (ei_tokens _ _ Hw) as Hnd.
      pose proof (find_entry_unique f _ Hnd Hf). pose proof (find_entry_unique e _ Hnd He). congruence.
    + destruct (ei_entry _ _ Hw f Hf) as (y & Hy & _ & _ & Hty). rewrite E, Hx in Hy. injection Hy as <-. congruence.
Qed.

(** * Rescheduling *)

Lemma ReregisterAlarm_alone w e d :
  alarm_map_ w = [e] -> ReregisterAlarm w (token e) d = Fault CheckFailed.
Proof.
  intros E. unfold ReregisterAlarm, find_entry. rewrite E. cbn. by rewrite Nat.eqb_refl.
Qed.

(** Re-registering is unregistering followed by registering, except for the
    timer and the assertion. *)
Lemma ReregisterAlarm_spec D w e x d f :
  engine_inv D w -> timer_early w -> e ∈ alarm_map_ w -> alarms w !! cb e = Some x ->
  f ∈ alarm_map_ w -> token f <> token e -> now_us w <= d ->
  exists w', ReregisterAlarm w (token e) d = Ok (w', next_token w) /\
    engine_inv D (set_alarm w' (cb e) (x <| token_ := Some (next_token w) |>)) /\ timer_armed w' /\
    alarms w' = alarms w /\ now_us w' = now_us w /\ fired w' = fired w /\
    alarm_map_ w' = insert_entry (mkEntry d (cb e) (next_token w)) (erase_entry (token e) (alarm_map_ w)).
Proof.
  intros Hw Ht He Hx Hf Hfe Hd.
  destruct (ei_entry _ _ Hw e He) as (x' & Hx' & Hr & Hat & Htok). rewrite Hx in Hx'. injection Hx' as <-.
  destruct (UnregisterAlarm_spec D w e x Hw He Hx) as (w1 & U1 & U2 & U3 & U4 & U5 & U6 & U7).
  assert (Htm : timer_early w1).
  { intros y Hy. rewrite U4 in Hy. destruct (Ht y Hy) as [? Hall]. split; [lia|].
    intros h Hh. rewrite U6 in Hh. apply erase_entry_elem in Hh as [? _]. by apply Hall. }
  destruct (RegisterAlarm_spec D w1 d (cb e) (x <| registered_ := false |>)) as (w2 & R1 & R2 & _ & R4 & _ & R6 & R7 & R8);
    [done|done|rewrite U7; by rewrite lookup_insert, decide_True|done|].
  assert (Ent : next_token w1 = next_token w).
  { unfold UnregisterAlarm, OnUnregistration in U1. inv_ok. done. }
  unfold ReregisterAlarm. rewrite find_entry_unique by (done || apply (ei_tokens _ _ Hw)). cbn [rbind].
  change (alarm_map_ (w <| alarm_map_ := _ |>)) with (erase_entry (token e) (alarm_map_ w)).
  destruct (erase_entry (token e) (alarm_map_ w)) as [|i m] eqn:Em.
  { assert (Hfi : f ∈ erase_entry (token e) (alarm_map_ w)) by (by apply erase_entry_elem). rewrite Em in Hfi. set_solver. }
  set (w3 := w <| alarm_map_ := insert_entry (mkEntry d (cb e) (next_token w)) (i :: m) |> <| next_token := S (next_token w) |>).
  assert (Hs3 : forall w', now_us w' = now_us w -> alarm_map_ w' = alarm_map_ w3 -> all_alarms_ w' = all_alarms_ w ->
     next_token w' = S (next_token w) -> alarms w' = alarms w ->
     engine_inv D (set_alarm w' (cb e) (x <| token_ := Some (next_token w) |>))).
  { intros w' E1 E2 E3 E4 E5. eapply engine_inv_ext; [exact R2|..]; cbn.
    - by rewrite E1, R4, U3.
    - rewrite E2, R6, U6, U3, Ent, Z.max_l by lia. done.
    - rewrite E3. apply set_eq. intros b. rewrite (ei_all _ _ R2), R6, insert_entry_perm, U6, <- Em. cbn.
      rewrite elem_of_cons, (ei_all _ _ Hw), !elem_of_map. split.
      + intros (h & -> & Hh). destruct (decide (token h = token e)) as [Eq|].
        * left. pose proof (find_entry_unique h _ (ei_tokens _ _ Hw) Hh). pose proof (find_entry_unique e _ (ei_tokens _ _ Hw) He). congruence.
        * right. exists h. split; [done|]. by apply erase_entry_elem.
      + intros [->|(h & -> & [Hh _]%erase_entry_elem)]; eauto.
    - by rewrite E4, R8, Ent.
    - rewrite E5, R7, U7, insert_insert, decide_True, Ent by done. f_equal. destruct x; cbn in *. by subst. }
  assert (Hcheck : (forall e', e' ∈ alarm_map_ w3 -> now_us w3 <= timeout e') /\ StronglySorted by_timeout (alarm_map_ w3)).
  { pose proof (Hs3 w3 eq_refl eq_refl eq_refl eq_refl eq_refl) as H3. split; [apply (ei_future _ _ H3)|apply (ei_sorted _ _ H3)]. }
  match goal with |- context [if ?b then UpdateTimer _ else _] => destruct b eqn:Eu end.
  - match goal with |- context [UpdateTimer ?u] => change u with w3 end. destruct (insert_entry_head (mkEntry d (cb e) (next_token w)) (i :: m)) as (j & m' & Ej & _).
    assert (Ew3 : alarm_map_ w3 = j :: m') by exact Ej. destruct Hcheck as [Hc1 Hc2]. rewrite Ew3 in Hc1, Hc2.
    pose proof (Hc1 j ltac:(set_solver)) as Hj. rewrite (UpdateTimer_head w3 j m' Ew3 Hj). cbn [rbind].
    rewrite bool_decide_eq_true_2 by done. cbn [CHECK rbind].
    eexists; split; [done|]. split_and!; try done.
    + by apply Hs3.
    + split; [|done]. intros y [= <-]. split; [change (now_us w3 <= now_us w3 + (timeout j - now_us w3)); lia|].
      intros h Hh. change (h ∈ alarm_map_ w3) in Hh. rewrite Ew3 in Hh.
      pose proof (first_is_least j m' h Hc2 Hh). lia.
  - apply orb_false_iff in Eu as [Et Eu]. apply bool_decide_eq_false in Et. apply Z.ltb_ge in Eu.
    cbn [rbind]. rewrite bool_decide_eq_true_2 by exact Et. cbn [CHECK rbind].
    eexists; split; [done|]. split_and!; try done.
    + by apply Hs3.
    + split; [|intros E; by cbn in E]. intros y Hy. destruct (Ht y Hy) as [Hny Hall]. split; [done|].
      intros h Hh. change (h ∈ insert_entry (mkEntry d (cb e) (next_token w)) (i :: m)) in Hh.
      rewrite insert_entry_perm in Hh. apply elem_of_cons in Hh as [->|Hh].
      * cbn. assert (i ∈ alarm_map_ w); [|specialize (Hall i ltac:(done)); lia].
        assert (Hi : i ∈ erase_entry (token e) (alarm_map_ w)) by (rewrite Em; set_solver).
        by apply erase_entry_elem in Hi as [? _].
      * rewrite <- Em in Hh. apply erase_entry_elem in Hh as [? _]. by apply Hall.
Qed.

(** The new time is not moved up to the present: re-registering for the past
    fails one of the two assertions. *)
Lemma ReregisterAlarm_past D w e d :
  engine_inv D w -> e ∈ alarm_map_ w -> d < now_us w -> ReregisterAlarm w (token e) d = Fault CheckFailed.
Proof.
  intros Hw He Hd. unfold ReregisterAlarm. rewrite find_entry_unique by (done || apply (ei_tokens _ _ Hw)). cbn [rbind].
  change (alarm_map_ (w <| alarm_map_ := _ |>)) with (erase_entry (token e) (alarm_map_ w)).
  destruct (erase_entry (token e) (alarm_map_ w)) as [|i m] eqn:Em; [done|].
  assert (Hi : now_us w <= timeout i).
  { apply (ei_future _ _ Hw). assert (Hin : i ∈ erase_entry (token e) (alarm_map_ w)) by (rewrite Em; set_solver).
    by apply erase_entry_elem in Hin as [? _]. }
  rewrite (proj2 (Z.ltb_lt d (timeout i))), orb_true_r by lia. unfold UpdateTimer. cbn.
  rewrite (proj2 (Z.ltb_lt d (timeout i))) by lia. cbn. by rewrite (proj2 (Z.leb_gt _ _) Hd).
Qed.

Lemma timer_armed_ext w w' :
  timer_armed w -> now_us w' = now_us w -> timer_ w' = timer_ w -> alarm_map_ w' = alarm_map_ w -> timer_armed w'.
Proof. intros [H1 H2] E1 E2 E3. unfold timer_armed, timer_early in *. by rewrite E1, E2, E3. Qed.

(** [Update] on a registered alarm with a new deadline comes down to
    [ReregisterAlarm]. *)
Lemma QuicAlarm_Update_registered w a x tok d g :
  alarms w !! a = Some x -> IsSet x = true -> registered_ x = true -> attached_ x = true ->
  token_ x = Some tok -> d <> 0 -> g <= Z.abs (QuicTime_diff d (deadline_ x)) ->
  QuicAlarm_Update w a d g =
    let* r := ReregisterAlarm (set_alarm w a (x <| deadline_ := d |>)) tok (i64 d) in
    let* y := get_alarm r.1 a in
    Ok (set_alarm r.1 a (y <| token_ := Some r.2 |>)).
Proof.
  intros Hx Hs Hr Hat Htok Hd0 Hg. unfold QuicAlarm_Update.
  assert (Hi : QuicTime_IsInitialized d = true) by (unfold QuicTime_IsInitialized; apply negb_true_iff, Z.eqb_neq; done).
  rewrite Hi. cbn [negb]. unfold get_alarm at 1. rewrite Hx. cbn [rbind].
  rewrite (proj2 (Z.ltb_ge _ _) Hg), Hs. unfold UpdateImpl, BaseAlarm_ReregisterAlarm.
  set (x1 := x <| deadline_ := d |>). set (w1 := set_alarm w a x1).
  assert (E : get_alarm w1 a = Ok x1)
    by (unfold get_alarm; change (alarms w1) with (<[a := x1]> (alarms w)); by rewrite lookup_insert, decide_True).
  rewrite E. cbn [rbind]. change (deadline_ x1) with d. change (registered_ x1) with (registered_ x).
  change (attached_ x1) with (attached_ x). change (token_ x1) with (token_ x).
  rewrite Hi, Hr, Hat, Htok. cbn [CHECK rbind].
  unfold QuicTime_diff, QuicTime_Zero. by rewrite Z.sub_0_r.
Qed.

(** ** Commands, whatever the delegates ask for

    An alarm that is about to fire cannot be set, and cancelling or moving it
    uses an erased iterator; every other command that returns keeps the
    invariant. *)

(** What a command that returns keeps. *)
Definition kept (D : list nat) (w w' : World) : Prop :=
  engine_inv D w' /\ timer_early w' /\ deadlines_ok w' /\ now_us w' = now_us w /\ fired w' = fired w /\
  (timer_armed w -> timer_armed w').

Lemma get_alarm_Ok w a x : get_alarm w a = Ok x -> alarms w !! a = Some x.
Proof. unfold get_alarm. destruct (alarms w !! a); [by intros [= ->]|done]. Qed.

Lemma find_stale D w a x tok :
  engine_inv D w -> a ∈ D -> alarms w !! a = Some x -> token_ x = Some tok ->
  find_entry tok (alarm_map_ w) = Fault DanglingIterator.
Proof.
  intros Hw Ha Hx Htok. destruct (ei_due _ _ Hw a Ha) as (_ & y & Hy & _ & Hst). rewrite Hx in Hy. injection Hy as <-.
  destruct (Hst tok Htok) as [_ Hne]. unfold find_entry. destruct (List.find _ _) as [e|] eqn:E; [|done].
  apply List.find_some in E as [He%list_elem_of_In E]. apply Nat.eqb_eq in E. by destruct (Hne e He).
Qed.

Section commands.
Context (D : list nat) (w : World) (Hw : engine_inv D w) (Ht : timer_early w) (Hd : deadlines_ok w).

Lemma Set_kept a d w' : QuicAlarm_Set w a d = Ok w' -> kept D w w'.
Proof.
  intros H. pose proof H as H'. unfold QuicAlarm_Set in H'. apply rbind_Ok in H' as (x & Hx%get_alarm_Ok & H').
  apply rbind_Ok in H' as (u & Hs & H'). apply rbind_Ok in H' as (u' & Hi & _).
  destruct (IsSet x) eqn:Es; [done|]. destruct (Z.eq_dec d 0) as [->|Hd0]; [done|].
  destruct (QuicAlarm_Set_spec D w a x d Hw Ht Hd Hx Es Hd0) as (w1 & E & H1 & H2 & H3 & H4 & H5 & _).
  rewrite H in E. injection E as <-. split_and!; try done. exact (proj1 H2).
Qed.

Lemma Cancel_kept a w' : QuicAlarm_Cancel w a = Ok w' -> kept D w w'.
Proof.
  intros H. pose proof H as H'. unfold QuicAlarm_Cancel in H'. apply rbind_Ok in H' as (x & Hx%get_alarm_Ok & H').
  destruct (decide (a ∈ D)) as [Ha|Ha].
  - destruct (ei_due _ _ Hw a Ha) as (_ & y & Hy & Hr & _). rewrite Hx in Hy. injection Hy as <-.
    rewrite (Hd a x Hx), Hr in H'. cbn [negb] in H'. unfold CancelImpl, UnregisterIfRegistered in H'.
    set (x1 := x <| deadline_ := QuicTime_Zero |>) in *. set (w1 := set_alarm w a x1) in *.
    assert (E : get_alarm w1 a = Ok x1)
      by (unfold get_alarm; change (alarms w1) with (<[a := x1]> (alarms w)); by rewrite lookup_insert, decide_True).
    rewrite E in H'. cbn [rbind] in H'. apply rbind_Ok in H' as (_ & _ & H').
    change (registered_ x1) with (registered_ x) in H'. rewrite Hr in H'. cbn [negb] in H'. apply rbind_Ok in H' as (_ & _ & H').
    change (token_ x1) with (token_ x) in H'. destruct (token_ x) as [tok|] eqn:Etok; [|done].
    unfold UnregisterAlarm in H'. change (alarm_map_ w1) with (alarm_map_ w) in H'. by rewrite (find_stale D w a x tok) in H'.
  - destruct (QuicAlarm_Cancel_spec D w a x Hw Ht Hd Hx Ha) as (w1 & E & H1 & H2 & H3 & H4 & H5 & H6 & _).
    rewrite H in E. injection E as <-. by split_and!.
Qed.

(** Moving a registered alarm that is not about to fire. *)
Lemma Reregister_kept a x e d g w' :
  alarms w !! a = Some x -> e ∈ alarm_map_ w -> cb e = a -> d <> 0 -> g <= Z.abs (QuicTime_diff d (deadline_ x)) ->
  QuicAlarm_Update w a d g = Ok w' -> kept D w w' /\ timer_armed w' /\ now_us w <= i64 d /\
    exists tok, alarm_map_ w' = insert_entry (mkEntry (i64 d) a tok) (erase_entry (token e) (alarm_map_ w)).
Proof.
  intros Hx He <- Hd0 Hg H. destruct (ei_entry _ _ Hw e He) as (y & Hy & Hr & Hat & Htok). rewrite Hx in Hy. injection Hy as <-.
  assert (Hs : IsSet x = true) by (by rewrite (Hd _ _ Hx)).
  rewrite (QuicAlarm_Update_registered w (cb e) x (token e)) in H by done. set (x1 := x <| deadline_ := d |>) in *.
  pose proof (engine_inv_deadline D w (cb e) x d Hw Hx) as Hw1. fold x1 in Hw1.
  assert (Hx1 : alarms (set_alarm w (cb e) x1) !! cb e = Some x1) by (cbn; by rewrite lookup_insert, decide_True).
  destruct (Z.le_gt_cases (now_us w) (i64 d)) as [Hnow|Hnow];
    [|by rewrite (ReregisterAlarm_past D) in H].
  destruct (erase_entry (token e) (alarm_map_ w)) as [|f m] eqn:Em.
  { unfold ReregisterAlarm in H. change (alarm_map_ (set_alarm w (cb e) x1)) with (alarm_map_ w) in H.
    rewrite find_entry_unique in H by (done || apply (ei_tokens _ _ Hw)). cbn [rbind] in H.
    change (alarm_map_ (_ <| alarm_map_ := ?m |>)) with m in H. by rewrite Em in H. }
  assert (Hf : f ∈ erase_entry (token e) (alarm_map_ w)) by (rewrite Em; set_solver). apply erase_entry_elem in Hf as [Hf Hfe].
  destruct (ReregisterAlarm_spec D (set_alarm w (cb e) x1) e x1 (i64 d) f) as (w1 & E & H1 & H2 & H3 & H4 & H5 & H6); try done.
  rewrite E in H. cbn [rbind fst snd] in H. unfold get_alarm in H. rewrite H3, Hx1 in H. cbn [rbind] in H. injection H as <-.
  assert (Harm : timer_armed (set_alarm w1 (cb e) (x1 <| token_ := Some (next_token (set_alarm w (cb e) x1)) |>))) by (by eapply timer_armed_ext).
  rewrite <- Em. split; [|split; [done|split; [done|eexists; exact H6]]]. split_and!; [exact H1|exact (proj1 Harm)| |done|done|done].
  intros c z. cbn. rewrite H3. cbn. rewrite insert_insert, decide_True by done. apply (deadlines_ok_insert w); [done|].
  change (negb (d =? 0) = registered_ x). rewrite Hr. by apply negb_true_iff, Z.eqb_neq.
Qed.

Lemma Update_kept a d g w' : QuicAlarm_Update w a d g = Ok w' -> kept D w w'.
Proof.
  intros H. pose proof H as H'. unfold QuicAlarm_Update in H'.
  destruct (Z.eq_dec d 0) as [->|Hd0]; [by apply (Cancel_kept a)|].
  assert (Hi : QuicTime_IsInitialized d = true) by (unfold QuicTime_IsInitialized; apply negb_true_iff, Z.eqb_neq; done).
  rewrite Hi in H'. cbn [negb] in H'. apply rbind_Ok in H' as (x & Hx%get_alarm_Ok & H').
  destruct (Z.ltb_spec (Z.abs (QuicTime_diff d (deadline_ x))) g) as [_|Hg]; [injection H' as <-; by split_and!|].
  destruct (IsSet x) eqn:Es.
  - assert (Hr : registered_ x = true) by (by rewrite <- (Hd _ _ Hx)). destruct (ei_registered _ _ Hw a x Hx Hr) as [Ha|Ha].
    + exfalso. unfold UpdateImpl, BaseAlarm_ReregisterAlarm in H'. set (x1 := x <| deadline_ := d |>) in *. set (w1 := set_alarm w a x1) in *.
      assert (E : get_alarm w1 a = Ok x1)
        by (unfold get_alarm; change (alarms w1) with (<[a := x1]> (alarms w)); by rewrite lookup_insert, decide_True).
      rewrite E in H'. cbn [rbind] in H'. apply rbind_Ok in H' as (_ & _ & H').
      change (registered_ x1) with (registered_ x) in H'. rewrite Hr in H'. cbn [CHECK rbind] in H'. apply rbind_Ok in H' as (_ & _ & H').
      change (token_ x1) with (token_ x) in H'. destruct (token_ x) as [tok|] eqn:Etok; [|done].
      unfold ReregisterAlarm in H'. change (alarm_map_ w1) with (alarm_map_ w) in H'. by rewrite (find_stale D w a x tok) in H'.
    + apply elem_of_map in Ha as (e & -> & He). by apply (Reregister_kept (cb e) x e d g).
  - apply (Set_kept a d). unfold QuicAlarm_Set, get_alarm. rewrite Hx. cbn [rbind]. rewrite Es. cbn [negb CHECK rbind]. rewrite Hi. exact H'.
Qed.

Lemma run_cmd_kept c w' : run_cmd w c = Ok w' -> kept D w w'.
Proof. destruct c; [apply Set_kept|apply Cancel_kept|apply Update_kept]. Qed.
End commands.

Lemma run_cmds_kept D cs : forall w w', engine_inv D w -> timer_early w -> deadlines_ok w -> rfold run_cmd cs w = Ok w' -> kept D w w'.
Proof.
  induction cs as [|c cs IH]; intros w w' Hw Ht Hd H; cbn [rfold] in H; [injection H as <-; by split_and!|].
  apply rbind_Ok in H as (w1 & H1 & H). apply (run_cmd_kept D) in H1 as (K1 & K2 & K3 & K4 & K5 & K6); [|done..].
  apply IH in H as (L1 & L2 & L3 & L4 & L5 & L6); [|done..]. split_and!; try done; [congruence|congruence|auto].
Qed.

(** * Expiry *)

Lemma pop_first D w e m :
  engine_inv D w -> alarm_map_ w = e :: m ->
  engine_inv (D ++ [cb e]) (w <| alarm_map_ := m |> <| all_alarms_ := all_alarms_ w ∖ {[ cb e ]} |>) /\
  (cb e ∉ D).
Proof.
  intros Hw Em. destruct Hw. rewrite Em in *. cbn in *.
  apply NoDup_cons in ei_tokens0 as [Ht1 Ht2]. apply NoDup_cons in ei_cbs0 as [Hc1 Hc2].
  apply StronglySorted_inv in ei_sorted0 as [Hs _].
  split; [split; cbn|].
  - done.
  - intros f Hf. apply ei_future0. set_solver.
  - done.
  - intros f Hf. apply ei_fresh0. set_solver.
  - done.
  - intros a. rewrite elem_of_difference, ei_all0, elem_of_cons, elem_of_singleton.
    split; [tauto|]. intros Ha. split; [auto|]. intros ->. done.
  - intros f Hf. apply ei_entry0. set_solver.
  - intros a x Hx Hr. destruct (ei_registered0 a x Hx Hr) as [?|[->|?]%elem_of_cons]; [left; set_solver..|auto].
  - intros a [Ha|Ha%list_elem_of_singleton]%elem_of_app.
    + destruct (ei_due0 a Ha) as (Hn & x & Hx & Hr & Hst). split; [intros Hin; apply Hn; set_solver|]. exists x. split; [done|]. split; [done|].
      intros tok Ht. rewrite Em in Hst. destruct (Hst tok Ht) as [? H2]. split; [done|]. intros f Hf. apply H2. set_solver.
    + subst a. split; [done|]. destruct (ei_entry0 e) as (x & Hx & Hr & _ & Htok); [set_solver|]. exists x. split; [done|]. split; [done|].
      rewrite Htok. intros tok [= <-]. split; [apply ei_fresh0; set_solver|]. intros f Hf E. apply Ht1. rewrite <- E, elem_of_map. eauto.
  - intros HD. destruct (ei_due0 _ HD) as [Hn _]. apply Hn. set_solver.
Qed.

Lemma collect_due_spec m : forall D w,
  engine_inv D w -> alarm_map_ w = m -> NoDup D ->
  exists due rest, m = due ++ rest /\
    (collect_due m w).2 = map cb due /\
    alarm_map_ (collect_due m w).1 = rest /\
    Forall (fun e => timeout e <= now_us w) due /\
    (forall e, e ∈ rest -> now_us w < timeout e) /\
    engine_inv (D ++ map cb due) (collect_due m w).1 /\ NoDup (D ++ map cb due) /\
    now_us (collect_due m w).1 = now_us w /\ alarms (collect_due m w).1 = alarms w /\
    fired (collect_due m w).1 = fired w /\ timer_ (collect_due m w).1 = timer_ w.
Proof.
  induction m as [|e m IH]; intros D w Hw Em HD; cbn [collect_due].
  - exists [], []. cbn. rewrite app_nil_r. split_and!; try done. set_solver.
  - destruct (Z.ltb_spec (now_us w) (timeout e)) as [Hlt|Hle].
    + exists [], (e :: m). cbn. rewrite app_nil_r. split_and!; try done.
      intros f Hf. pose proof (ei_sorted _ _ Hw) as Hs. rewrite Em in Hs.
      pose proof (first_is_least e m f Hs Hf). lia.
    + destruct (pop_first D w e m Hw Em) as [Hw1 Hni].
      set (w1 := w <| alarm_map_ := m |> <| all_alarms_ := _ |>) in *.
      destruct (IH (D ++ [cb e]) w1 Hw1 eq_refl) as (due & rest & Hm & H2 & H3 & H4 & H5 & H6 & H7 & H8 & H9 & H10 & H11).
      { apply NoDup_app. split_and!; [done| |apply NoDup_singleton]. set_solver. }
      rewrite <- app_assoc in H6, H7. cbn in H6, H7.
      exists (e :: due), rest. cbn zeta. fold w1. cbn [fst snd map]. rewrite H2.
      split_and!; try done; [cbn; by rewrite <- Hm|]. constructor; done.
Qed.

Lemma fire_registered D w a x :
  engine_inv (a :: D) w -> NoDup (a :: D) -> alarms w !! a = Some x ->
  engine_inv D (set_alarm w a (x <| registered_ := false |> <| deadline_ := QuicTime_Zero |>)).
Proof.
  intros Hw [Ha _]%NoDup_cons Hx. destruct Hw.
  destruct (ei_due0 a ltac:(set_solver)) as [Hn _].
  split; cbn; try done.
  - intros e He. rewrite lookup_insert_ne; [eauto|]. intros ->. apply Hn. rewrite elem_of_map. eauto.
  - intros b y. destruct (decide (b = a)) as [->|].
    + rewrite lookup_insert, decide_True by done. by intros [= <-].
    + rewrite lookup_insert_ne by done. intros Hb Hr. destruct (ei_registered0 b y Hb Hr); [left; set_solver|auto].
  - intros b Hb. destruct (ei_due0 b ltac:(set_solver)) as [? ?]. split; [done|].
    rewrite lookup_insert_ne; [done|]. intros ->. done.
Qed.

(** Firing a due alarm, whatever its delegate asks for. *)
Lemma fire_one_cmds delegate D w a :
  engine_inv (a :: D) w -> NoDup (a :: D) -> deadlines_ok w -> timer_early w ->
  exists w1, fire_one delegate w a = (let* w' := rfold run_cmd (delegate a (now_us w)) w1 in Ok w') /\
    engine_inv D w1 /\ timer_early w1 /\ deadlines_ok w1 /\ now_us w1 = now_us w /\ fired w1 = fired w ++ [a] /\
    exists x, alarms w1 !! a = Some x /\ IsSet x = false.
Proof.
  intros Hw HD Hd Ht. destruct (ei_due _ _ Hw a ltac:(set_solver)) as (_ & x & Hx & Hr & _).
  pose proof (fire_registered D w a x Hw HD Hx) as Hw1.
  set (x1 := x <| registered_ := false |> <| deadline_ := QuicTime_Zero |>) in *.
  set (w1 := set_alarm w a x1) in *. exists (w1 <| fired := fired w1 ++ [a] |>). split.
  - unfold fire_one, OnAlarm, Fire, get_alarm. rewrite Hx. cbn [rbind].
    change (alarms (set_alarm w a (x <| registered_ := false |>))) with (<[a := x <| registered_ := false |>]> (alarms w)).
    rewrite lookup_insert, decide_True by done. cbn [rbind].
    change (IsSet (x <| registered_ := false |>)) with (IsSet x). rewrite (Hd a x Hx), Hr. cbn [negb].
    unfold set_alarm at 1. cbn. rewrite insert_insert, decide_True by done.
    change (rfold run_cmd (delegate a (now_us w)) _) with (rfold run_cmd (delegate a (now_us w)) (w1 <| fired := fired w1 ++ [a] |>)).
    by destruct (rfold run_cmd (delegate a (now_us w)) _).
  - split_and!; [eapply engine_inv_ext; [exact Hw1|done..]|done|intros b y Hb; eapply (deadlines_ok_insert w a x1 Hd); [done|exact Hb]|done|done|].
    exists x1. split; [cbn; by rewrite lookup_insert, decide_True|done].
Qed.

Lemma fire_one_kept delegate D w a w' :
  engine_inv (a :: D) w -> NoDup (a :: D) -> timer_early w -> deadlines_ok w -> fire_one delegate w a = Ok w' ->
  engine_inv D w' /\ timer_early w' /\ deadlines_ok w' /\ now_us w' = now_us w /\ fired w' = fired w ++ [a].
Proof.
  intros Hw HD Ht Hd H. destruct (fire_one_cmds delegate D w a Hw HD Hd Ht) as (w1 & E & K1 & K2 & K3 & K4 & K5 & _).
  rewrite E in H. apply rbind_Ok in H as (w2 & H & [= <-]).
  apply (run_cmds_kept D) in H as (L1 & L2 & L3 & L4 & L5 & _); [|done..]. split_and!; try done; congruence.
Qed.

Lemma fire_all_kept delegate cbs : forall w w',
  engine_inv cbs w -> NoDup cbs -> timer_early w -> deadlines_ok w -> rfold (fire_one delegate) cbs w = Ok w' ->
  engine_inv [] w' /\ timer_early w' /\ deadlines_ok w' /\ now_us w' = now_us w /\ fired w' = fired w ++ cbs.
Proof.
  induction cbs as [|a cbs IH]; intros w w' Hw HD Ht Hd H; cbn [rfold] in H.
  - injection H as <-. rewrite app_nil_r. by split_and!.
  - apply rbind_Ok in H as (w1 & H1 & H). apply (fire_one_kept delegate cbs) in H1 as (K1 & K2 & K3 & K4 & K5); [|done..].
    apply NoDup_cons in HD as [_ HD]. apply IH in H as (L1 & L2 & L3 & L4 & L5); [|done..].
    rewrite L4, L5, K4, K5, <- app_assoc. by split_and!.
Qed.

(** Delegates that at most set their own alarm again. *)
Definition rearms_itself (delegate : nat -> Z -> list alarm_cmd) : Prop :=
  forall a t, delegate a t = [] \/ exists d, delegate a t = [CmdSet a d] /\ d <> 0.

Lemma fire_all_total delegate cbs : forall w, rearms_itself delegate ->
  engine_inv cbs w -> NoDup cbs -> timer_early w -> deadlines_ok w -> exists w', rfold (fire_one delegate) cbs w = Ok w'.
Proof.
  induction cbs as [|a cbs IH]; intros w Hdel Hw HD Ht Hd; cbn [rfold]; [eauto|].
  assert (H1 : exists w1, fire_one delegate w a = Ok w1).
  { destruct (fire_one_cmds delegate cbs w a Hw HD Hd Ht) as (w1 & -> & K1 & K2 & K3 & _ & _ & x & Hx & Hs).
    destruct (Hdel a (now_us w)) as [->|(d & -> & Hd0)]; cbn [rfold run_cmd]; [cbn; eauto|].
    destruct (QuicAlarm_Set_spec cbs w1 a x d K1 K2 K3 Hx Hs Hd0) as (w2 & -> & _). cbn. eauto. }
  destruct H1 as [w1 E1]. rewrite E1. cbn [rbind].
  apply (fire_one_kept delegate cbs) in E1 as (K1 & K2 & K3 & _); [|done..]. apply NoDup_cons in HD as [_ HD]. by apply IH.
Qed.

(** * What the engine promises: a map from alarms to firing times *)

Definition pending (w : World) : gmap nat Z :=
  list_to_map (map (fun e => (cb e, timeout e)) (alarm_map_ w)).

Definition engine_ok (w : World) : Prop := engine_inv [] w /\ timer_armed w /\ deadlines_ok w.

Lemma pending_lookup D w a t :
  engine_inv D w -> pending w !! a = Some t <-> exists e, e ∈ alarm_map_ w /\ cb e = a /\ timeout e = t.
Proof.
  intros Hw. unfold pending. rewrite <- elem_of_list_to_map.
  - rewrite elem_of_map. split.
    + intros (e & E & He). injection E as -> ->. eauto.
    + intros (e & He & <- & <-). eauto.
  - replace ((map (fun e => (cb e, timeout e)) (alarm_map_ w)).*1) with (map cb (alarm_map_ w)).
    + apply (ei_cbs _ _ Hw).
    + induction (alarm_map_ w); cbn; congruence.
Qed.

Lemma pending_insert D w w' a t tok :
  engine_inv D w -> engine_inv D w' -> (a ∉ map cb (alarm_map_ w)) ->
  alarm_map_ w' = insert_entry (mkEntry t a tok) (alarm_map_ w) -> pending w' = <[a := t]> (pending w).
Proof.
  intros Hw Hw' Ha E. apply map_eq. intros b. apply option_eq. intros u.
  rewrite (pending_lookup D w' b u Hw'), E. setoid_rewrite insert_entry_perm.
  destruct (decide (b = a)) as [->|Hne].
  - rewrite lookup_insert, decide_True by done. split.
    + intros (e & [->|He]%elem_of_cons & Hc & <-); [done|]. destruct Ha. rewrite elem_of_map. eauto.
    + intros [= ->]. eexists. split; [apply elem_of_cons; by left|done].
  - rewrite lookup_insert_ne, (pending_lookup D w b u Hw) by done. split.
    + intros (e & [->|He]%elem_of_cons & Hc & <-); [by cbn in Hc|eauto].
    + intros (e & He & Hc & Ht). exists e. rewrite elem_of_cons. auto.
Qed.

Lemma pending_filter D w w' a :
  engine_inv D w -> engine_inv D w' ->
  alarm_map_ w' = List.filter (fun e => negb (Nat.eqb (cb e) a)) (alarm_map_ w) ->
  pending w' = delete a (pending w).
Proof.
  intros Hw Hw' E. apply map_eq. intros b. apply option_eq. intros u.
  rewrite (pending_lookup D w' b u Hw'), E.
  assert (Hf : forall e, e ∈ List.filter (fun e => negb (Nat.eqb (cb e) a)) (alarm_map_ w) <-> e ∈ alarm_map_ w /\ cb e <> a).
  { intros e. rewrite !list_elem_of_In, filter_In, negb_true_iff, Nat.eqb_neq. tauto. }
  setoid_rewrite Hf. destruct (decide (b = a)) as [->|Hne].
  - rewrite lookup_delete, decide_True by done. naive_solver.
  - rewrite lookup_delete_ne, (pending_lookup D w b u Hw) by done. naive_solver.
Qed.

Lemma unset_not_pending D w a x :
  engine_inv D w -> deadlines_ok w -> alarms w !! a = Some x -> IsSet x = false -> a ∉ map cb (alarm_map_ w).
Proof.
  intros Hw Hd Hx Hs. rewrite elem_of_map. intros (e & -> & He).
  destruct (ei_entry _ _ Hw e He) as (y & Hy & Hr & _). rewrite (Hd _ _ Hx) in Hs. congruence.
Qed.

Lemma set_refines w a x d :
  engine_ok w -> alarms w !! a = Some x -> IsSet x = false -> d <> 0 -> is_i64 d ->
  exists w', QuicAlarm_Set w a d = Ok w' /\ engine_ok w' /\
    pending w' = <[a := Z.max d (now_us w)]> (pending w).
Proof.
  intros (Hw & Ht & Hd) Hx Hs Hd0 Hdi.
  destruct (QuicAlarm_Set_spec [] w a x d Hw (proj1 Ht) Hd Hx Hs Hd0) as (w' & H & H1 & H2 & H3 & _ & _ & H6 & _).
  rewrite i64_small in H6 by (unfold is_i64 in Hdi; lia).
  exists w'. split_and!; try done. eapply pending_insert; eauto using unset_not_pending.
Qed.

Lemma cancel_refines w a x :
  engine_ok w -> alarms w !! a = Some x ->
  exists w', QuicAlarm_Cancel w a = Ok w' /\ engine_ok w' /\ pending w' = delete a (pending w).
Proof.
  intros (Hw & Ht & Hd) Hx.
  destruct (QuicAlarm_Cancel_spec [] w a x Hw (proj1 Ht) Hd Hx ltac:(set_solver)) as (w' & H & H1 & H2 & H3 & _ & _ & H6 & H7).
  exists w'. split; [done|]. split; [split_and!; auto|]. by apply (pending_filter [] w).
Qed.

(** C25. Between expiries the engine implements a map from alarms to firing times:
    setting an idle alarm adds it at its deadline (or at the present, if that
    has passed), cancelling removes it, setting and cancelling never fault,
    and both keep the engine's invariant with the timer armed for the first
    firing time. *)
Theorem alarm_set_cancel_refine_map w a x d :
  engine_ok w -> alarms w !! a = Some x ->
  (IsSet x = false -> d <> 0 -> is_i64 d ->
     exists w', QuicAlarm_Set w a d = Ok w' /\ engine_ok w' /\
       pending w' = <[a := Z.max d (now_us w)]> (pending w)) /\
  (exists w', QuicAlarm_Cancel w a = Ok w' /\ engine_ok w' /\ pending w' = delete a (pending w)).
Proof. eauto using set_refines, cancel_refines. Qed.

Lemma only_entry w a e :
  engine_inv [] w -> dom (pending w) = {[ a ]} -> e ∈ alarm_map_ w -> cb e = a -> alarm_map_ w = [e].
Proof.
  intros Hw Hdom He Ha.
  assert (Hall : forall f, f ∈ alarm_map_ w -> cb f = a).
  { intros f Hf. assert (cb f ∈ dom (pending w)); [|set_solver]. apply elem_of_dom.
    exists (timeout f). apply (pending_lookup [] w _ _ Hw). eauto. }
  pose proof (ei_cbs _ _ Hw) as Hnd.
  destruct (alarm_map_ w) as [|f [|h m]]; [set_solver| |].
  - by apply list_elem_of_singleton in He as ->.
  - cbn in Hnd. apply NoDup_cons in Hnd as [Hn _]. destruct Hn.
    rewrite (Hall f), <- (Hall h) by set_solver. set_solver.
Qed.

(** C40. [Update] on a registered alarm: a change below the granularity is ignored.
    Otherwise the alarm is moved only if some other alarm is
    registered too and the new deadline is not in the past: then it succeeds, keeps
    the invariant and changes the map at that key alone.  When the alarm is the only one
    in the engine, [Ns3QuicAlarmEngine::ReregisterAlarm] fails its assertion that
    the map without it is not empty; when the deadline is in the past,
    which [RegisterAlarm] would move up to the present, [UpdateTimer] fails its
    assertion. *)
Theorem alarm_update_needs_another w a x d g :
  engine_ok w -> alarms w !! a = Some x -> IsSet x = true -> d <> 0 -> is_i64 d ->
  (Z.abs (QuicTime_diff d (deadline_ x)) < g -> QuicAlarm_Update w a d g = Ok w) /\
  (g <= Z.abs (QuicTime_diff d (deadline_ x)) ->
    (dom (pending w) = {[ a ]} -> QuicAlarm_Update w a d g = Fault CheckFailed) /\
    (d < now_us w -> QuicAlarm_Update w a d g = Fault CheckFailed) /\
    (forall b, b <> a -> b ∈ dom (pending w) -> now_us w <= d ->
       exists w', QuicAlarm_Update w a d g = Ok w' /\ engine_ok w' /\ pending w' = <[a := d]> (pending w))).
Proof.
  intros (Hw & Ht & Hd) Hx Hs Hd0 Hdi.
  assert (Hr : registered_ x = true) by (by rewrite <- (Hd a x Hx)).
  destruct (ei_registered _ _ Hw a x Hx Hr) as [?|Hin]; [set_solver|].
  apply elem_of_map in Hin as (e & -> & He).
  destruct (ei_entry _ _ Hw e He) as (y & Hy & _ & Hat & Htok). rewrite Hx in Hy. injection Hy as <-. split.
  { intros Hg. unfold QuicAlarm_Update, QuicTime_IsInitialized, get_alarm. rewrite Hx, (proj2 (Z.eqb_neq _ _) Hd0). cbn [negb rbind].
    by rewrite (proj2 (Z.ltb_lt _ _) Hg). }
  intros Hg. set (x1 := x <| deadline_ := d |>). set (w1 := set_alarm w (cb e) x1).
  pose proof (engine_inv_deadline [] w (cb e) x d Hw Hx : engine_inv [] w1) as Hw1.
  pose proof (QuicAlarm_Update_registered w (cb e) x (token e) d g Hx Hs Hr Hat Htok Hd0 Hg) as EU. fold x1 w1 in EU.
  rewrite i64_small in EU by (unfold is_i64 in Hdi; lia). split; [|split].
  - intros Hdom. by rewrite EU, ReregisterAlarm_alone by exact (only_entry w (cb e) e Hw Hdom He eq_refl).
  - intros Hpast. by rewrite EU, (ReregisterAlarm_past []) by done.
  - intros b Hb [t Hbt]%elem_of_dom Hnow. apply (pending_lookup [] w _ _ Hw) in Hbt as (f & Hf & <- & _).
    destruct (ReregisterAlarm_spec [] w1 e x1 d f) as (w2 & E & _ & _ & H3 & _);
      [done|exact (proj1 Ht)|done|cbn; by rewrite lookup_insert, decide_True|done| |done|].
    { intros E. apply Hb. pose proof (find_entry_unique e _ (ei_tokens _ _ Hw) He).
      pose proof (find_entry_unique f _ (ei_tokens _ _ Hw) Hf). congruence. }
    rewrite E in EU. cbn [rbind fst snd] in EU. unfold get_alarm in EU. rewrite H3 in EU. cbn [alarms set_field] in EU.
    unfold w1 in EU. cbn in EU. rewrite lookup_insert, decide_True in EU by done. cbn [rbind] in EU.
    eexists. split; [exact EU|].
    destruct (Reregister_kept [] w Hw (proj1 Ht) Hd (cb e) x e d g _ Hx He eq_refl Hd0 Hg EU) as ((K1 & _ & K3 & _) & K2 & _ & tok & K4).
    split; [by split_and!|]. rewrite i64_small in K4 by (unfold is_i64 in Hdi; lia).
    destruct (QuicAlarm_Cancel_spec [] w (cb e) x Hw (proj1 Ht) Hd Hx ltac:(set_solver)) as (wc & _ & C1 & _ & _ & _ & _ & _ & C7).
    rewrite <- (insert_delete_eq (pending w)), <- (pending_filter [] w wc (cb e) Hw C1 C7).
    eapply (pending_insert []); [exact C1|exact K1| |].
    + rewrite C7, elem_of_map. intros (h & Eh & Hh). apply list_elem_of_In, filter_In in Hh as [_ Hh].
      by rewrite Eh, Nat.eqb_refl in Hh.
    + rewrite K4. f_equal. rewrite C7. unfold erase_entry. apply List.filter_ext_in.
      intros h Hh%list_elem_of_In. f_equal. apply eq_true_iff_eq. rewrite !Nat.eqb_eq. split; intros Eh.
      * pose proof (find_entry_unique e _ (ei_tokens _ _ Hw) He).
        pose proof (find_entry_unique h _ (ei_tokens _ _ Hw) Hh). congruence.
      * destruct (ei_entry _ _ Hw h Hh) as (z & Hz & _ & _ & Hzt). rewrite Eh, Hx in Hz. congruence.
Qed.

(** ** Runs *)

(** What happens to an engine: a command on an alarm returns, the clock moves on
    but not past the expiry of a running timer, and an expired timer calls
    [OnTimeout], which returns.  The delegates are arbitrary. *)
Inductive engine_step (delegate : nat -> Z -> list alarm_cmd) : World -> World -> Prop :=
  | step_cmd w c w' : run_cmd w c = Ok w' -> engine_step delegate w w'
  | step_advance w t :
      now_us w <= t -> (forall y, timer_ w = Some y -> t <= y) ->
      engine_step delegate w (w <| now_us := t |>)
  | step_expire w w' :
      timer_ w = Some (now_us w) -> OnTimeout delegate w = Ok w' -> engine_step delegate w w'.

Lemma advance_ok w t :
  engine_ok w -> now_us w <= t -> (forall y, timer_ w = Some y -> t <= y) ->
  engine_ok (w <| now_us := t |>).
Proof.
  intros (Hw & [Ht Hn] & Hd) Hnow Hy. split_and!; [|split; [|done]|done].
  - destruct Hw; split; cbn; try done. intros e He. destruct (timer_ w) as [y|] eqn:E.
    + specialize (Hy y eq_refl). destruct (Ht y E) as [_ Hall]. specialize (Hall e He). lia.
    + rewrite (Hn eq_refl) in He. set_solver.
  - intros y E. split; [by apply Hy|]. by destruct (Ht y E).
Qed.

(** The first half of [OnTimeout]: the alarms it takes out are those due. *)
Lemma OnTimeout_collects delegate w : engine_ok w ->
  exists w1 due, OnTimeout delegate w =
      (let* w2 := rfold (fire_one delegate) due w1 in
       UpdateTimer (if bool_decide (due <> []) && visitor_ w2 then w2 <| post_processings := post_processings w2 + 1 |> else w2)) /\
    engine_inv due w1 /\ NoDup due /\ timer_early w1 /\ deadlines_ok w1 /\ now_us w1 = now_us w /\ fired w1 = fired w /\
    forall a, a ∈ due <-> pending w !! a = Some (now_us w).
Proof.
  intros (Hw & Ht & Hd). set (w0 := w <| timer_ := None |>).
  assert (Hw0 : engine_inv [] w0) by (eapply engine_inv_ext; [exact Hw|done..]).
  destruct (collect_due_spec (alarm_map_ w0) [] w0 Hw0 eq_refl (NoDup_nil_2))
    as (due & rest & Hm & H2 & H3 & H4 & H5 & H6 & H7 & H8 & H9 & H10 & H11).
  unfold OnTimeout. fold w0. destruct (collect_due (alarm_map_ w0) w0) as [w1 cbs]. cbn [fst snd] in *. subst cbs.
  cbn in H6, H7. exists w1, (map cb due). split; [done|]. split_and!; [done|done|intros y; by rewrite H11|intros a x; rewrite H9; apply Hd|done|done|].
  intros a. rewrite (pending_lookup [] w a _ Hw), elem_of_map. change (alarm_map_ w) with (alarm_map_ w0).
  rewrite Hm. setoid_rewrite elem_of_app. rewrite Forall_forall in H4. split.
  - intros (e & -> & He). exists e. split_and!; [by left|done|]. specialize (H4 e He).
    pose proof (ei_future _ _ Hw0 e) as F. rewrite Hm, elem_of_app in F. specialize (F (or_introl He)).
    change (now_us w0) with (now_us w) in *. lia.
  - intros (e & [He|He] & <- & Htm); [eauto|]. specialize (H5 e He).
    change (now_us w0) with (now_us w) in *. lia.
Qed.

Lemma OnTimeout_ends D w2 (due : list nat) : engine_inv D w2 -> deadlines_ok w2 ->
  exists w', UpdateTimer (if bool_decide (due <> []) && visitor_ w2 then w2 <| post_processings := post_processings w2 + 1 |> else w2) = Ok w' /\
    engine_inv D w' /\ timer_armed w' /\ deadlines_ok w' /\ fired w' = fired w2.
Proof.
  intros Hw Hd. set (w3 := if _ && _ then _ else w2).
  assert (Hw3 : engine_inv D w3 /\ fired w3 = fired w2 /\ alarms w3 = alarms w2).
  { unfold w3. destruct (_ && _); [|done]. split_and!; try done. eapply engine_inv_ext; [exact Hw|done..]. }
  clearbody w3. destruct Hw3 as (K1 & K2 & K3). destruct (UpdateTimer_spec D w3 K1) as (w' & E & E' & U). exists w'. split; [done|].
  rewrite E' in *. split_and!; [eapply engine_inv_ext; [exact K1|done..]|done| |done]. intros a x. cbn. rewrite K3. apply Hd.
Qed.

(** An expiry that returns has fired the due alarms, each once. *)
Lemma OnTimeout_kept delegate w w' : engine_ok w -> OnTimeout delegate w = Ok w' ->
  engine_ok w' /\ exists due, fired w' = fired w ++ due /\ NoDup due /\ forall a, a ∈ due <-> pending w !! a = Some (now_us w).
Proof.
  intros Hw H. destruct (OnTimeout_collects delegate w Hw) as (w1 & due & E & C1 & C2 & C3 & C4 & C5 & C6 & C7).
  rewrite E in H. apply rbind_Ok in H as (w2 & H1 & H). apply fire_all_kept in H1 as (K1 & K2 & K3 & _ & K5); [|done..].
  destruct (OnTimeout_ends [] w2 due K1 K3) as (w3 & E3 & L1 & L2 & L3 & L4). rewrite H in E3. injection E3 as <-.
  split; [by split_and!|]. exists due. rewrite L4, K5, C6. by split_and!.
Qed.

Lemma OnTimeout_total delegate w : rearms_itself delegate -> engine_ok w -> exists w', OnTimeout delegate w = Ok w'.
Proof.
  intros Hdel Hw. destruct (OnTimeout_collects delegate w Hw) as (w1 & due & -> & C1 & C2 & C3 & C4 & _).
  destruct (fire_all_total delegate due w1 Hdel C1 C2 C3 C4) as [w2 E2]. rewrite E2. cbn [rbind].
  apply fire_all_kept in E2 as (K1 & _ & K3 & _); [|done..]. destruct (OnTimeout_ends [] w2 due K1 K3) as (w3 & -> & _). eauto.
Qed.

Lemma engine_run_ok delegate w w' : engine_ok w -> rtc (engine_step delegate) w w' -> engine_ok w'.
Proof.
  intros Hw Hrun. induction Hrun as [|w1 w2 w3 Hstep _ IH]; [done|]. apply IH. clear IH.
  destruct Hstep as [w c w' H|w t Hnow Hy|w w' _ H].
  - destruct Hw as (Hw & Ht & Hd). apply (run_cmd_kept [] w Hw (proj1 Ht) Hd) in H as (K1 & _ & K3 & _ & _ & K6). split_and!; auto.
  - by apply advance_ok.
  - by apply (OnTimeout_kept delegate w w').
Qed.

(** C14. Alarms fire on time.  In every state a run of the engine reaches, by
    setting, cancelling and updating alarms and by expiries of the timer, all of which
    return, and with any delegates, the timer is running
    whenever an alarm is pending, armed at or before its firing time, so the
    clock cannot pass the firing time before [OnTimeout] runs; and when
    [OnTimeout] returns, it has fired exactly the alarms whose time has
    come, each once, and leaves the engine in a good state.  It does return when
    a delegate at most sets its own alarm again; a delegate that cancels
    another alarm that is due at the same time makes it fail
    ([alarm_batch_cancel_dangles]). *)
Theorem alarms_fire_on_time delegate w0 w :
  engine_ok w0 -> rtc (engine_step delegate) w0 w ->
  (forall a t, pending w !! a = Some t ->
     exists y, timer_ w = Some y /\ now_us w <= y <= t) /\
  (forall w', OnTimeout delegate w = Ok w' ->
     engine_ok w' /\ exists due, fired w' = fired w ++ due /\ NoDup due /\
       forall a, a ∈ due <-> pending w !! a = Some (now_us w)) /\
  (rearms_itself delegate -> exists w', OnTimeout delegate w = Ok w').
Proof.
  intros Hw0 Hrun. pose proof (engine_run_ok delegate w0 w Hw0 Hrun) as Hok. split; [|split].
  - intros a t Hp. destruct Hok as (Hw & [Ht Hn] & _).
    apply (pending_lookup [] w _ _ Hw) in Hp as (e & He & _ & <-).
    destruct (timer_ w) as [y|] eqn:E; [|rewrite (Hn eq_refl) in He; set_solver].
    exists y. split; [done|]. destruct (Ht y E) as [? Hall]. specialize (Hall e He). lia.
  - intros w'. by apply OnTimeout_kept.
  - intros Hdel. by apply OnTimeout_total.
Qed.

(** ** Concrete engines *)

(** An engine at time [now] with [n] alarms created and none set. *)
Definition idle_engine (now : Z) (n : nat) : World :=
  mkWorld now [] ∅ None true 0 (list_to_map (map (fun i => (i, Ns3Alarm_init)) (seq 0 n))) [] 0.

Lemma idle_alarm now n b x : alarms (idle_engine now n) !! b = Some x -> x = Ns3Alarm_init.
Proof.
  intros H. apply elem_of_list_to_map_2 in H. apply elem_of_map in H as (i & E & _). congruence.
Qed.

Lemma idle_engine_ok now n : engine_ok (idle_engine now n).
Proof.
  split_and!; [split|split; [intros ?; discriminate|done]|].
  10: intros b x Hx%idle_alarm; by subst.
  8: intros b x Hx%idle_alarm; by subst.
  all: cbn; try (intros; set_solver); constructor.
Qed.

Definition after (w : World) (r : result World) : World :=
  match r with Ok w' => w' | Fault _ => w end.

Lemma after_set_ok w a x d :
  engine_ok w -> alarms w !! a = Some x -> IsSet x = false -> d <> 0 -> is_i64 d ->
  engine_ok (after w (QuicAlarm_Set w a d)).
Proof. intros. destruct (set_refines w a x d) as (w' & -> & ? & _); done. Qed.

(** Alarms 0 and 1 set for 500 and [t]. *)
Definition one_alarm : World := let w := idle_engine 100 3 in after w (QuicAlarm_Set w 0 500).
Definition two_alarms (t : Z) : World := after one_alarm (QuicAlarm_Set one_alarm 1 t).

Lemma one_alarm_ok : engine_ok one_alarm.
Proof.
  apply (after_set_ok _ _ Ns3Alarm_init); [apply idle_engine_ok|vm_compute; reflexivity|vm_compute; reflexivity|lia|unfold is_i64; lia].
Qed.
Lemma two_alarms_ok t : t <> 0 -> is_i64 t -> engine_ok (two_alarms t).
Proof. intros. apply (after_set_ok _ _ Ns3Alarm_init); [apply one_alarm_ok|vm_compute; reflexivity|vm_compute; reflexivity|done|done]. Qed.

Lemma alarm_set_cancel_refine_map_witness :
  pending one_alarm !! 0%nat = Some 500 /\
  (exists w', QuicAlarm_Set one_alarm 1 50 = Ok w' /\ engine_ok w' /\
     pending w' = <[1%nat := 100]> (pending one_alarm)) /\
  (exists w', QuicAlarm_Cancel one_alarm 0 = Ok w' /\ engine_ok w' /\ pending w' = delete 0%nat (pending one_alarm)).
Proof.
  split; [vm_compute; reflexivity|]. split.
  - apply (alarm_set_cancel_refine_map one_alarm 1 Ns3Alarm_init 50 one_alarm_ok); [vm_compute; reflexivity|vm_compute; reflexivity|lia|unfold is_i64; lia].
  - apply (alarm_set_cancel_refine_map one_alarm 0 (mkAlarm 500 (Some 0%nat) true true) 50 one_alarm_ok).
    vm_compute; reflexivity.
Defined.

Lemma alarm_update_needs_another_witness :
  QuicAlarm_Update one_alarm 0 700 1 = Fault CheckFailed /\
  QuicAlarm_Update (two_alarms 900) 0 50 1 = Fault CheckFailed /\
  (exists w', QuicAlarm_Update (two_alarms 900) 0 700 1 = Ok w' /\ engine_ok w' /\
     pending w' = <[0%nat := 700]> (pending (two_alarms 900))).
Proof.
  pose (x := mkAlarm 500 (Some 0%nat) true true).
  assert (H2 : engine_ok (two_alarms 900)) by (apply two_alarms_ok; [lia|unfold is_i64; lia]).
  split; [|split].
  - refine (proj1 (proj2 (alarm_update_needs_another one_alarm 0 x 700 1 one_alarm_ok _ _ _ _) _) _);
      [vm_compute; reflexivity|vm_compute; reflexivity|lia|unfold is_i64; lia|vm_compute; discriminate|].
    apply set_eq. intros b. vm_compute (pending _). set_solver.
  - refine (proj1 (proj2 (proj2 (alarm_update_needs_another (two_alarms 900) 0 x 50 1 H2 _ _ _ _) _)) _);
      [vm_compute; reflexivity|vm_compute; reflexivity|lia|unfold is_i64; lia|vm_compute; discriminate|vm_compute; reflexivity].
  - apply (alarm_update_needs_another (two_alarms 900) 0 x 700 1 H2)
      with (b := 1%nat); [vm_compute; reflexivity|vm_compute; reflexivity|lia|unfold is_i64; lia
      |vm_compute; discriminate|lia| |vm_compute; discriminate].
    apply elem_of_dom. exists 900. vm_compute. reflexivity.
Defined.

(** A delegate that sets its own alarm again 250 us later. *)
Definition periodic (a : nat) (now : Z) : list alarm_cmd := [CmdSet a 750].

(** Two alarms are set for 500; one of them is moved to 900 and back. *)
Definition moved_alarms : World :=
  let w := after (two_alarms 500) (QuicAlarm_Update (two_alarms 500) 1 900 1) in after w (QuicAlarm_Update w 1 500 1).

Lemma alarms_fire_on_time_witness :
  let w := moved_alarms <| now_us := 500 |> in
  exists w' due, OnTimeout periodic w = Ok w' /\ engine_ok w' /\
    fired w' = fired w ++ due /\ NoDup due /\
    forall a, a ∈ due <-> pending w !! a = Some (now_us w).
Proof.
  destruct (alarms_fire_on_time periodic (two_alarms 500) (moved_alarms <| now_us := 500 |>)) as (_ & H1 & H2).
  - apply two_alarms_ok; [lia|unfold is_i64; lia].
  - eapply rtc_l; [apply (step_cmd _ _ (CmdUpdate 1 900 1)); vm_compute; reflexivity|].
    eapply rtc_l; [apply (step_cmd _ _ (CmdUpdate 1 500 1)); vm_compute; reflexivity|].
    apply rtc_once, step_advance; [vm_compute; discriminate|]. intros y E. vm_compute in E.
    injection E as <-. lia.
  - destruct H2 as [w' E]; [intros a t; right; exists 750; split; [done|lia]|].
    destruct (H1 w' E) as (K1 & due & K2 & K3 & K4). exists w', due. split; [exact E|]. split; [exact K1|]. split; [exact K2|]. split; [exact K3|exact K4].
Defined.

(** Two alarms due together: [OnTimeout] erases both entries before firing the
    first, whose delegate then cancels the second; the second alarm still holds
    its erased iterator and believes it is registered. *)
Example alarm_batch_cancel_dangles :
  OnTimeout (fun a _ => if Nat.eqb a 0 then [CmdCancel 1] else [])
    (two_alarms 500 <| now_us := 500 |>) = Fault DanglingIterator.
Proof. vm_compute. reflexivity. Qed.
