(* ===== verification/HybridSlowStart.v ===== *)
(** [HybridSlowStart] (hybrid_slow_start.h, hybrid_slow_start.cc): the sender
    leaves slow start when the least RTT of a round's first eight samples
    exceeds the session's least RTT by an eighth, clamped to [4 ms, 16 ms]. *)

From S2P Require Import Prelude QuicTime PacketNumber.

(** src/quiche/gquiche/quic/core/congestion_control/hybrid_slow_start.h:64-67 [HybridSlowStart::HystartState] *)
Inductive HystartState := NOT_FOUND | DELAY.
#[export] Instance HystartState_eq_dec : EqDecision HystartState.
Proof. solve_decision. Defined.

(** src/quiche/gquiche/quic/core/congestion_control/hybrid_slow_start.h:70-78 [HybridSlowStart] *)
Record HybridSlowStart := mkHystart {
  started_ : bool;
  hystart_found_ : HystartState;
  last_sent_packet_number_ : QuicPacketNumber;
  end_packet_number_ : QuicPacketNumber;
  rtt_sample_count_ : Z;
  current_min_rtt_ : Delta;
}.
#[export] Instance eta_Hystart : Eta HybridSlowStart := MkEta _ (fun s =>
  mkHystart (started_ s) (hystart_found_ s) (last_sent_packet_number_ s) (end_packet_number_ s)
    (rtt_sample_count_ s) (current_min_rtt_ s)).

(** src/quiche/gquiche/quic/core/congestion_control/hybrid_slow_start.cc:15-15 [kHybridStartLowWindow] *)
Definition kHybridStartLowWindow : Z := 16.
(** src/quiche/gquiche/quic/core/congestion_control/hybrid_slow_start.cc:17-17 [kHybridStartMinSamples] *)
Definition kHybridStartMinSamples : Z := 8.
(** src/quiche/gquiche/quic/core/congestion_control/hybrid_slow_start.cc:19-19 [kHybridStartDelayFactorExp] *)
Definition kHybridStartDelayFactorExp : Z := 3.
(** src/quiche/gquiche/quic/core/congestion_control/hybrid_slow_start.cc:21-21 [kHybridStartDelayMinThresholdUs] *)
Definition kHybridStartDelayMinThresholdUs : Z := 4000.
(** src/quiche/gquiche/quic/core/congestion_control/hybrid_slow_start.cc:22-22 [kHybridStartDelayMaxThresholdUs] *)
Definition kHybridStartDelayMaxThresholdUs : Z := 16000.

(** src/quiche/gquiche/quic/core/congestion_control/hybrid_slow_start.cc:24-28 [HybridSlowStart::HybridSlowStart] *)
Definition HybridSlowStart_init : HybridSlowStart :=
  mkHystart false NOT_FOUND QuicPacketNumber_default QuicPacketNumber_default 0 Delta_Zero.

(** src/quiche/gquiche/quic/core/congestion_control/hybrid_slow_start.cc:56-58 [HybridSlowStart::IsEndOfRound] *)
Definition IsEndOfRound (s : HybridSlowStart) (ack : QuicPacketNumber) : result bool :=
  if negb (PN_IsInitialized (end_packet_number_ s)) then Ok true
  else PN_le (end_packet_number_ s) ack.

(** src/quiche/gquiche/quic/core/congestion_control/hybrid_slow_start.cc:30-37 [HybridSlowStart::OnPacketAcked] *)
Definition Hystart_OnPacketAcked (s : HybridSlowStart) (acked_packet_number : QuicPacketNumber)
    : result HybridSlowStart :=
  let* ends := IsEndOfRound s acked_packet_number in
  Ok (if ends then s <| started_ := false |> else s).

(** src/quiche/gquiche/quic/core/congestion_control/hybrid_slow_start.cc:39-41 [HybridSlowStart::OnPacketSent] *)
Definition Hystart_OnPacketSent (s : HybridSlowStart) (packet_number : QuicPacketNumber) : HybridSlowStart :=
  s <| last_sent_packet_number_ := packet_number |>.

(** src/quiche/gquiche/quic/core/congestion_control/hybrid_slow_start.cc:43-46 [HybridSlowStart::Restart] *)
Definition Restart (s : HybridSlowStart) : HybridSlowStart :=
  s <| started_ := false |> <| hystart_found_ := NOT_FOUND |>.

(** src/quiche/gquiche/quic/core/congestion_control/hybrid_slow_start.cc:48-54 [HybridSlowStart::StartReceiveRound] *)
Definition StartReceiveRound (s : HybridSlowStart) (last_sent : QuicPacketNumber) : HybridSlowStart :=
  s <| end_packet_number_ := last_sent |> <| current_min_rtt_ := Delta_Zero |>
    <| rtt_sample_count_ := 0 |> <| started_ := true |>.

(** src/quiche/gquiche/quic/core/congestion_control/hybrid_slow_start.cc:85-92 [HybridSlowStart::ShouldExitSlowStart, threshold] *)
Definition min_rtt_increase_threshold (min_rtt : Delta) : Delta :=
  let us := Z.shiftr (Delta_ToMicroseconds min_rtt) kHybridStartDelayFactorExp in
  let us := Z.min us kHybridStartDelayMaxThresholdUs in
  Delta_FromMicroseconds (Z.max us kHybridStartDelayMinThresholdUs).

(** src/quiche/gquiche/quic/core/congestion_control/hybrid_slow_start.cc:60-102 [HybridSlowStart::ShouldExitSlowStart] *)
Definition ShouldExitSlowStart (s : HybridSlowStart) (latest_rtt min_rtt : Delta) (congestion_window : Z)
    : HybridSlowStart * bool :=
  let s := if negb (started_ s) then StartReceiveRound s (last_sent_packet_number_ s) else s in
  if bool_decide (hystart_found_ s <> NOT_FOUND) then (s, true)
  else
    let s := s <| rtt_sample_count_ := u32 (rtt_sample_count_ s + 1) |> in
    let s := if rtt_sample_count_ s <=? kHybridStartMinSamples then
        if Delta_IsZero (current_min_rtt_ s) || (latest_rtt <? current_min_rtt_ s)
        then s <| current_min_rtt_ := latest_rtt |> else s
      else s in
    let s := if (rtt_sample_count_ s =? kHybridStartMinSamples) &&
                (Delta_add min_rtt (min_rtt_increase_threshold min_rtt) <? current_min_rtt_ s)
             then s <| hystart_found_ := DELAY |> else s in
    (s, (kHybridStartLowWindow <=? congestion_window) && bool_decide (hystart_found_ s <> NOT_FOUND)).

(** * One round *)

(** The samples of a round, in order, with the answer to the last of them. *)
Definition hystart_round (min_rtt : Delta) (w : Z) (s : HybridSlowStart) (l : list Delta) : HybridSlowStart * bool :=
  foldl (fun r rtt => ShouldExitSlowStart r.1 rtt min_rtt w) (s, false) l.

(** Every one of the first eight samples is above the threshold. *)
Definition round_delayed (min_rtt : Delta) (l : list Delta) : Prop :=
  (8 <= length l)%nat /\ Forall (fun x => min_rtt + Z.max (Z.min (min_rtt / 8) 16000) 4000 < x) (take 8 l).

Lemma threshold_value min_rtt :
  0 <= min_rtt < 2 ^ 62 ->
  Delta_add min_rtt (min_rtt_increase_threshold min_rtt) = min_rtt + Z.max (Z.min (min_rtt / 8) 16000) 4000.
Proof.
  intros H. unfold min_rtt_increase_threshold, Delta_FromMicroseconds, Delta_ToMicroseconds,
    kHybridStartDelayFactorExp, kHybridStartDelayMaxThresholdUs, kHybridStartDelayMinThresholdUs, Delta_add.
  rewrite Z.shiftr_div_pow2 by lia. change (2 ^ 3) with 8.
  rewrite (i64_small (Z.max _ _)) by lia. apply i64_small. lia.
Qed.

(** The least of a list of positive samples, zero when there is none. *)
Fixpoint least (l : list Delta) : Delta :=
  match l with
  | [] => 0
  | x :: l => if (least l =? 0) || (x <? least l) then x else least l
  end.

Lemma least_pos l : Forall (fun x => 0 < x) l -> l <> [] -> 0 < least l.
Proof.
  induction 1 as [|x l Hx Hl IH]; [done|]. intros _. cbn. zcases; cbn; try done.
  destruct l; [done|]. by apply IH.
Qed.

Lemma least_above l t : Forall (fun x => 0 < x) l -> l <> [] -> (t < least l <-> Forall (fun x => t < x) l).
Proof.
  induction 1 as [|x l Hx Hl IH]; [done|]. intros _. rewrite Forall_cons. cbn.
  destruct l as [|y l]; [cbn; naive_solver|].
  pose proof (least_pos (y :: l) Hl ltac:(done)). specialize (IH ltac:(done)).
  rewrite <- IH. set (m := least (y :: l)) in *. clearbody m. clear IH. zcases; lia.
Qed.

Lemma least_snoc l x :
  Forall (fun x => 0 < x) l -> 0 < x ->
  least (l ++ [x]) = if (least l =? 0) || (x <? least l) then x else least l.
Proof.
  induction 1 as [|y l Hy Hl IH]; intros Hx; cbn [app least]; [done|].
  rewrite IH by done. clear IH. destruct l as [|z l]; [cbn; zcases; lia|].
  pose proof (least_pos (z :: l) Hl ltac:(done)). set (m := least (z :: l)) in *. clearbody m.
  repeat (zcases; cbn [orb]); lia.
Qed.

(** What the state says about the samples of the round seen so far. *)
Definition round_state (min_rtt : Delta) (l : list Delta) (s : HybridSlowStart) : Prop :=
  match l with
  | [] => started_ s = false /\ hystart_found_ s = NOT_FOUND
  | _ => started_ s = true /\
      ((hystart_found_ s = DELAY /\ round_delayed min_rtt l) \/
       (hystart_found_ s = NOT_FOUND /\ ~ round_delayed min_rtt l /\
        rtt_sample_count_ s = Z.of_nat (length l) /\ current_min_rtt_ s = least (take 8 l)))
  end.

Lemma round_delayed_snoc min_rtt l x : (8 <= length l)%nat -> round_delayed min_rtt (l ++ [x]) <-> round_delayed min_rtt l.
Proof.
  intros H. unfold round_delayed. rewrite length_app, take_app_le by lia. cbn. split; intros [? ?]; split; (done || lia).
Qed.

Lemma round_delayed_eighth min_rtt l x :
  length l = 7%nat -> Forall (fun x => 0 < x) (l ++ [x]) ->
  round_delayed min_rtt (l ++ [x]) <-> min_rtt + Z.max (Z.min (min_rtt / 8) 16000) 4000 < least (l ++ [x]).
Proof.
  intros H Hl. rewrite least_above by (done || by destruct l). unfold round_delayed.
  rewrite length_app, H, take_ge by (rewrite length_app; cbn; lia). cbn. split; [tauto|]. intros; split; [lia|done].
Qed.

(** A sample taken while the detector has found nothing. *)
Lemma sample_step min_rtt w l s x :
  started_ s = true -> hystart_found_ s = NOT_FOUND -> ~ round_delayed min_rtt l ->
  rtt_sample_count_ s = Z.of_nat (length l) -> current_min_rtt_ s = least (take 8 l) ->
  Forall (fun x => 0 < x) (l ++ [x]) -> 0 <= min_rtt < 2 ^ 62 -> Z.of_nat (length l) + 1 < two32 ->
  round_state min_rtt (l ++ [x]) (ShouldExitSlowStart s x min_rtt w).1 /\
  (ShouldExitSlowStart s x min_rtt w).2 =
    (kHybridStartLowWindow <=? w) && bool_decide (hystart_found_ (ShouldExitSlowStart s x min_rtt w).1 <> NOT_FOUND).
Proof.
  intros Hst Hf Hnd Hc Hmin Hl Hm Hlen. unfold ShouldExitSlowStart. rewrite Hst. cbn [negb]. rewrite Hf.
  rewrite bool_decide_eq_false_2 by naive_solver. cbn. split; [|done].
  rewrite Hc, Hmin, u32_small, threshold_value by (done || lia). unfold kHybridStartMinSamples, Delta_IsZero.
  pose proof Hl as [Hl' Hx]%Forall_app. apply Forall_inv in Hx.
  assert (Hcases : forall r, started_ r = true ->
    ((hystart_found_ r = DELAY /\ round_delayed min_rtt (l ++ [x])) \/
       (hystart_found_ r = NOT_FOUND /\ ~ round_delayed min_rtt (l ++ [x]) /\
        rtt_sample_count_ r = Z.of_nat (length (l ++ [x])) /\ current_min_rtt_ r = least (take 8 (l ++ [x])))) ->
    round_state min_rtt (l ++ [x]) r) by (intros; unfold round_state; by destruct l).
  assert (El : Z.of_nat (length (l ++ [x])) = Z.of_nat (length l) + 1) by (rewrite length_app; cbn; lia).
  destruct (decide (length l < 8)%nat) as [Hlt|Hge].
  - rewrite (proj2 (Z.leb_le _ _)) by lia. rewrite (take_ge l) by lia.
    pose proof (least_snoc l x Hl' Hx) as Es.
    match goal with |- context [current_min_rtt_ ?s1] => set (s1' := s1) end.
    assert (E1 : started_ s1' = true /\ hystart_found_ s1' = NOT_FOUND /\ rtt_sample_count_ s1' = Z.of_nat (length l) + 1 /\
       current_min_rtt_ s1' = least (l ++ [x])).
    { unfold s1'. rewrite Es. destruct (_ || _); cbn; split_and!; try done; by rewrite Hmin, take_ge by lia. }
    clearbody s1'. destruct E1 as (E1 & E2 & E3 & E4). rewrite E3, E4.
    destruct (Z.eqb_spec (Z.of_nat (length l) + 1) 8) as [E8|E8]; cbn [andb].
    + pose proof (round_delayed_eighth min_rtt l x ltac:(lia) Hl) as Hd.
      destruct (Z.ltb_spec (min_rtt + Z.max (Z.min (min_rtt / 8) 16000) 4000) (least (l ++ [x]))); apply Hcases; cbn; try done.
      * left. tauto.
      * right. rewrite El, take_ge by (rewrite length_app; cbn; lia). split_and!; try done. rewrite Hd. lia.
    + apply Hcases; [done|]. right. rewrite El, take_ge by (rewrite length_app; cbn; lia). split_and!; try done.
      intros [H8 _]. rewrite length_app in H8. cbn in H8. lia.
  - destruct (Z.leb_spec (Z.of_nat (length l) + 1) 8); [lia|].
    cbn. destruct (Z.eqb_spec (Z.of_nat (length l) + 1) 8); [lia|]. cbn [andb]. apply Hcases; [done|]. right. cbn.
    rewrite El, (round_delayed_snoc min_rtt l x ltac:(lia)), take_app_le by lia. done.
Qed.

Lemma ShouldExit_step min_rtt w l s x :
  round_state min_rtt l s -> Forall (fun x => 0 < x) (l ++ [x]) -> 0 <= min_rtt < 2 ^ 62 ->
  Z.of_nat (length l) + 1 < two32 -> kHybridStartLowWindow <= w ->
  round_state min_rtt (l ++ [x]) (ShouldExitSlowStart s x min_rtt w).1 /\
  (ShouldExitSlowStart s x min_rtt w).2 = bool_decide (hystart_found_ (ShouldExitSlowStart s x min_rtt w).1 <> NOT_FOUND).
Proof.
  intros Hs Hl Hm Hlen Hw. pose proof (proj2 (Z.leb_le _ _) Hw) as Ew. destruct l as [|y l].
  - destruct Hs as [Hst Hf]. set (s0 := StartReceiveRound s (last_sent_packet_number_ s)).
    assert (E : ShouldExitSlowStart s x min_rtt w = ShouldExitSlowStart s0 x min_rtt w)
      by (unfold ShouldExitSlowStart; by rewrite Hst).
    rewrite E. destruct (sample_step min_rtt w [] s0 x) as [H1 H2]; try done; [intros [H8 _]; cbn in H8; lia|].
    by rewrite H2, Ew.
  - destruct Hs as [Hst [[Hf Hd]|(Hf & Hnd & Hc & Hmin)]].
    + unfold ShouldExitSlowStart. rewrite Hst. cbn [negb]. rewrite Hf, bool_decide_eq_true_2 by done. cbn [fst snd].
      rewrite Hf, bool_decide_eq_true_2 by done. split; [|done]. cbn [app round_state]. split; [done|]. left.
      split; [done|]. apply (round_delayed_snoc min_rtt (y :: l)); [apply Hd|done].
    + destruct (sample_step min_rtt w (y :: l) s x) as [H1 H2]; try done. by rewrite H2, Ew.
Qed.

Lemma hystart_round_state min_rtt w s l :
  started_ s = false -> hystart_found_ s = NOT_FOUND ->
  Forall (fun x => 0 < x) l -> 0 <= min_rtt < 2 ^ 62 -> Z.of_nat (length l) < two32 -> kHybridStartLowWindow <= w ->
  round_state min_rtt l (hystart_round min_rtt w s l).1 /\
  (hystart_round min_rtt w s l).2 = bool_decide (hystart_found_ (hystart_round min_rtt w s l).1 <> NOT_FOUND).
Proof.
  intros Hs Hf. induction l as [|x l IH] using rev_ind; intros Hl Hm Hlen Hw.
  - cbn. rewrite Hf. split; [done|]. by rewrite bool_decide_eq_false_2 by naive_solver.
  - rewrite length_app in Hlen. cbn in Hlen. pose proof Hl as [Hl' _]%Forall_app.
    destruct (IH Hl' Hm ltac:(lia) Hw) as [IH1 _]. unfold hystart_round. rewrite foldl_snoc.
    fold (hystart_round min_rtt w s l). apply ShouldExit_step; (done || lia).
Qed.

(** A round of slow start ends it exactly when delay has built up: fed the
    positive RTT samples of a round, with a window of at least 16 packets, the
    detector's last answer is "exit" if and only if the round has at least eight
    samples and each of its first eight exceeds the session's least RTT by more
    than an eighth of it, clamped to between 4 and 16 ms. *)
Theorem hystart_exits_on_delay min_rtt w s l :
  started_ s = false -> hystart_found_ s = NOT_FOUND ->
  Forall (fun x => 0 < x) l -> 0 <= min_rtt < 2 ^ 62 -> Z.of_nat (length l) < two32 -> kHybridStartLowWindow <= w ->
  (hystart_round min_rtt w s l).2 = true <-> round_delayed min_rtt l.
Proof.
  intros Hs Hf Hl Hm Hlen Hw. destruct (hystart_round_state min_rtt w s l Hs Hf Hl Hm Hlen Hw) as [H ->].
  rewrite bool_decide_eq_true. destruct l as [|x l].
  - destruct H as [_ ->]. split; [done|]. intros [H8 _]. cbn in H8. lia.
  - destruct H as [_ [[-> Hd]|(-> & Hnd & _)]]; naive_solver.
Qed.

