(* ===== verification/Prr.v ===== *)
(** [PrrSender] (prr_sender.h, prr_sender.cc): Proportional Rate Reduction, which
    decides during a recovery period whether a packet may be sent. *)

From S2P Require Import Prelude QuicTime.

(** src/quiche/gquiche/quic/core/congestion_control/prr_sender.h:33-38 [PrrSender] *)
Record PrrSender := mkPrr {
  bytes_sent_since_loss_ : Z;
  bytes_delivered_since_loss_ : Z;
  ack_count_since_loss_ : Z;
  bytes_in_flight_before_loss_ : Z;
}.
#[export] Instance eta_Prr : Eta PrrSender := MkEta _ (fun s =>
  mkPrr (bytes_sent_since_loss_ s) (bytes_delivered_since_loss_ s) (ack_count_since_loss_ s)
    (bytes_in_flight_before_loss_ s)).

(** src/quiche/gquiche/quic/core/congestion_control/prr_sender.cc:11-15 [PrrSender::PrrSender] *)
Definition PrrSender_init : PrrSender := mkPrr 0 0 0 0.

(** src/quiche/gquiche/quic/core/congestion_control/prr_sender.cc:17-19 [PrrSender::OnPacketSent] *)
Definition Prr_OnPacketSent (s : PrrSender) (sent_bytes : Z) : PrrSender :=
  s <| bytes_sent_since_loss_ := bytes_sent_since_loss_ s ⊕ sent_bytes |>.

(** src/quiche/gquiche/quic/core/congestion_control/prr_sender.cc:21-26 [PrrSender::OnPacketLost] *)
Definition Prr_OnPacketLost (s : PrrSender) (prior_in_flight : Z) : PrrSender :=
  s <| bytes_sent_since_loss_ := 0 |> <| bytes_in_flight_before_loss_ := prior_in_flight |>
    <| bytes_delivered_since_loss_ := 0 |> <| ack_count_since_loss_ := 0 |>.

(** src/quiche/gquiche/quic/core/congestion_control/prr_sender.cc:28-31 [PrrSender::OnPacketAcked] *)
Definition Prr_OnPacketAcked (s : PrrSender) (acked_bytes : Z) : PrrSender :=
  s <| bytes_delivered_since_loss_ := bytes_delivered_since_loss_ s ⊕ acked_bytes |>
    <| ack_count_since_loss_ := ack_count_since_loss_ s ⊕ 1 |>.

(** src/quiche/gquiche/quic/core/congestion_control/prr_sender.cc:33-60 [PrrSender::CanSend] *)
Definition Prr_CanSend (s : PrrSender) (congestion_window bytes_in_flight slowstart_threshold : Z) : bool :=
  if (bytes_sent_since_loss_ s =? 0) || (bytes_in_flight <? kMaxSegmentSize) then true
  else if bytes_in_flight <? congestion_window then
    negb (bytes_delivered_since_loss_ s ⊕ (ack_count_since_loss_ s ⊗ kMaxSegmentSize)
          <=? bytes_sent_since_loss_ s)
  else bytes_sent_since_loss_ s ⊗ bytes_in_flight_before_loss_ s
         <? bytes_delivered_since_loss_ s ⊗ slowstart_threshold.

(** * A recovery period *)

(** Counters for which none of the products of [CanSend] wraps. *)
Definition prr_small (ssthresh : Z) (s : PrrSender) : Prop :=
  0 <= bytes_sent_since_loss_ s < 2 ^ 31 /\ 0 <= bytes_delivered_since_loss_ s < 2 ^ 31 /\
  0 <= ack_count_since_loss_ s < 2 ^ 31 /\ 0 < bytes_in_flight_before_loss_ s < 2 ^ 31 /\ 0 <= ssthresh < 2 ^ 31.

(** Packets of at most a segment, sent only when allowed and with at least [lim]
    bytes in flight, and acknowledgments, in any order. *)
Inductive prr_run (cwnd ssthresh lim : Z) : PrrSender -> PrrSender -> Prop :=
  | prr_done s : prr_run cwnd ssthresh lim s s
  | prr_ack s bytes s' :
      0 <= bytes -> prr_small ssthresh (Prr_OnPacketAcked s bytes) -> bytes < 2 ^ 31 ->
      prr_run cwnd ssthresh lim (Prr_OnPacketAcked s bytes) s' -> prr_run cwnd ssthresh lim s s'
  | prr_send s inflight bytes s' :
      0 <= bytes <= kMaxSegmentSize -> lim <= inflight ->
      Prr_CanSend s cwnd inflight ssthresh = true ->
      prr_small ssthresh (Prr_OnPacketSent s bytes) ->
      prr_run cwnd ssthresh lim (Prr_OnPacketSent s bytes) s' -> prr_run cwnd ssthresh lim s s'.

(** RFC 6937's two limits on what may have been sent. *)
Definition prr_proportional (ssthresh : Z) (s : PrrSender) : Prop :=
  bytes_sent_since_loss_ s * bytes_in_flight_before_loss_ s <=
    bytes_delivered_since_loss_ s * ssthresh + kMaxSegmentSize * bytes_in_flight_before_loss_ s.
Definition prr_conservative (s : PrrSender) : Prop :=
  bytes_sent_since_loss_ s <=
    bytes_delivered_since_loss_ s + (ack_count_since_loss_ s + 1) * kMaxSegmentSize.

Lemma CanSend_limits ssthresh cwnd inflight s :
  prr_small ssthresh s -> kMaxSegmentSize <= inflight -> Prr_CanSend s cwnd inflight ssthresh = true ->
  bytes_sent_since_loss_ s = 0 \/
  (inflight < cwnd /\
   bytes_sent_since_loss_ s < bytes_delivered_since_loss_ s + ack_count_since_loss_ s * kMaxSegmentSize) \/
  (cwnd <= inflight /\
   bytes_sent_since_loss_ s * bytes_in_flight_before_loss_ s < bytes_delivered_since_loss_ s * ssthresh).
Proof.
  intros (H1 & H2 & H3 & H4 & H5) Hin. unfold Prr_CanSend, kMaxSegmentSize, kDefaultTCPMSS in *.
  assert (0 <= bytes_sent_since_loss_ s * bytes_in_flight_before_loss_ s < 2 ^ 62) by nia.
  assert (0 <= bytes_delivered_since_loss_ s * ssthresh < 2 ^ 62) by nia.
  rewrite (u64_small (_ * 1460)), (u64_small (_ + _)), !u64_small by lia. zcases; intros; try done; lia.
Qed.

Lemma ack_small ssthresh s bytes :
  prr_small ssthresh s -> 0 <= bytes < 2 ^ 31 -> let s' := Prr_OnPacketAcked s bytes in
  bytes_sent_since_loss_ s' = bytes_sent_since_loss_ s /\
  bytes_delivered_since_loss_ s' = bytes_delivered_since_loss_ s + bytes /\
  ack_count_since_loss_ s' = ack_count_since_loss_ s + 1 /\
  bytes_in_flight_before_loss_ s' = bytes_in_flight_before_loss_ s.
Proof. intros (H1 & H2 & H3 & H4 & H5) Hb. cbn. rewrite !u64_small by lia. done. Qed.

(** One send keeps whichever limit allowed it. *)
Lemma send_limits ssthresh cwnd inflight s bytes :
  prr_small ssthresh s -> 0 <= bytes <= kMaxSegmentSize -> kMaxSegmentSize <= inflight ->
  Prr_CanSend s cwnd inflight ssthresh = true ->
  prr_proportional ssthresh (Prr_OnPacketSent s bytes) \/
  (inflight < cwnd /\ prr_conservative (Prr_OnPacketSent s bytes)).
Proof.
  intros Hs Hb Hin Hc. pose proof (CanSend_limits _ _ _ _ Hs Hin Hc) as H.
  destruct Hs as (H1 & H2 & H3 & H4 & H5). unfold prr_proportional, prr_conservative, Prr_OnPacketSent.
  unfold kMaxSegmentSize, kDefaultTCPMSS in *. cbn. rewrite u64_small by lia.
  destruct H as [E|[[Hi H]|[Hi H]]].
  - left. rewrite E. nia.
  - right. lia.
  - left. nia.
Qed.

Lemma prr_run_limits cwnd ssthresh lim s s' :
  prr_run cwnd ssthresh lim s s' -> kMaxSegmentSize <= lim -> prr_small ssthresh s ->
  prr_proportional ssthresh s \/ (lim < cwnd /\ prr_conservative s) ->
  prr_proportional ssthresh s' \/ (lim < cwnd /\ prr_conservative s').
Proof.
  intros Hrun Hlim. induction Hrun as [s|s bytes s' Hb Hs' Hb2 _ IH|s inflight bytes s' Hb Hin Hc Hs' _ IH]; intros Hs H; [done| |].
  - apply IH; [done|]. destruct (ack_small ssthresh s bytes Hs ltac:(lia)) as (E1 & E2 & E3 & E4).
    destruct Hs as (? & ? & ? & ? & ?). unfold prr_proportional, prr_conservative in *.
    rewrite E1, E2, E3, E4. unfold kMaxSegmentSize, kDefaultTCPMSS in *. destruct H as [H|[? H]]; [left; nia|right; lia].
  - apply IH; [done|]. destruct (send_limits ssthresh cwnd inflight s bytes) as [?|[? ?]]; (done || lia || auto).
    right. split; [lia|done].
Qed.

(** Proportional rate reduction: from the loss that starts a recovery
    period, packets sent only when [CanSend] allows it (with at least a segment
    in flight, so that the exception for a nearly idle connection does not
    apply) respect RFC 6937's limits up to one segment.  What was sent is at
    most the share [ssthresh / in-flight-at-loss] of what was delivered; or,
    only if the flight can be below the window, at most what was delivered
    plus a segment per acknowledgment. *)
Theorem prr_limits_recovery cwnd ssthresh lim prior_in_flight s s' :
  kMaxSegmentSize <= lim -> 0 < prior_in_flight < 2 ^ 31 -> 0 <= ssthresh < 2 ^ 31 ->
  prr_run cwnd ssthresh lim (Prr_OnPacketLost s prior_in_flight) s' ->
  prr_proportional ssthresh s' \/ (lim < cwnd /\ prr_conservative s').
Proof.
  intros Hlim Hp Hss Hrun. eapply prr_run_limits; [exact Hrun|done| |].
  - unfold prr_small, Prr_OnPacketLost. cbn. lia.
  - left. unfold prr_proportional, Prr_OnPacketLost, kMaxSegmentSize, kDefaultTCPMSS. cbn. nia.
Qed.

