(* ===== verification/CubicBytes.v ===== *)
(** [CubicBytes] (cubic_bytes.h, cubic_bytes.cc): the window of the CUBIC
    algorithm, a cubic function of the time since the last loss, bounded below by
    an estimate of what Reno would have reached.  [cbrt] is the C library's: how
    it rounds is not specified, so it is a parameter, with the accuracy the
    code relies on as a law. *)

From Stdlib Require Import SpecFloat.
From S2P Require Import Prelude Float QuicTime.

Class Libm := { cbrt : spec_float -> spec_float }.

(** The cube root of an exactly representable non-negative integer, converted to
    [uint32_t], is the cube root rounded down, or the next integer when the
    argument is just below that integer's cube. *)
Class LibmLaws `{Libm} := {
  cbrt_integer n : 0 <= n < 2 ^ 53 ->
    exists r, float_to_u32 (cbrt (f64_of_Z n)) = Ok r /\ 0 <= r /\ r ^ 3 <= n + 2 ^ 10;
}.

(** src/quiche/gquiche/quic/core/congestion_control/cubic_bytes.cc:24-24 [kCubeScale] *)
Definition kCubeScale : Z := 40.
(** src/quiche/gquiche/quic/core/congestion_control/cubic_bytes.cc:27-27 [kCubeCongestionWindowScale] *)
Definition kCubeCongestionWindowScale : Z := 410.
(** src/quiche/gquiche/quic/core/congestion_control/cubic_bytes.cc:29-30 [kCubeFactor] *)
Definition kCubeFactor : Z := Z.shiftl 1 kCubeScale / kCubeCongestionWindowScale / kDefaultTCPMSS.
(** src/quiche/gquiche/quic/core/congestion_control/cubic_bytes.cc:32-32 [kDefaultCubicBackoffFactor].
    The nearest binary32 number to 0.7. *)
Definition kDefaultCubicBackoffFactor : spec_float := f32_lit 11744051 (-24).
(** src/quiche/gquiche/quic/core/congestion_control/cubic_bytes.cc:36-36 [kBetaLastMax].  The nearest to 0.85. *)
Definition kBetaLastMax : spec_float := f32_lit 14260634 (-24).

(** src/quiche/gquiche/quic/core/congestion_control/cubic_bytes.h:74-97 [CubicBytes] *)
Record CubicBytes := mkCubic {
  num_connections_ : Z;
  epoch_ : QuicTime;
  last_max_congestion_window_ : Z;
  acked_bytes_count_ : Z;
  estimated_tcp_congestion_window_ : Z;
  origin_point_congestion_window_ : Z;
  time_to_origin_point_ : Z;
  last_target_congestion_window_ : Z;
}.
#[export] Instance eta_Cubic : Eta CubicBytes := MkEta _ (fun s =>
  mkCubic (num_connections_ s) (epoch_ s) (last_max_congestion_window_ s) (acked_bytes_count_ s)
    (estimated_tcp_congestion_window_ s) (origin_point_congestion_window_ s) (time_to_origin_point_ s)
    (last_target_congestion_window_ s)).

(** src/quiche/gquiche/quic/core/congestion_control/cubic_bytes.cc:75-83 [CubicBytes::ResetCubicState] *)
Definition ResetCubicState (c : CubicBytes) : CubicBytes :=
  c <| epoch_ := QuicTime_Zero |> <| last_max_congestion_window_ := 0 |> <| acked_bytes_count_ := 0 |>
    <| estimated_tcp_congestion_window_ := 0 |> <| origin_point_congestion_window_ := 0 |>
    <| time_to_origin_point_ := 0 |> <| last_target_congestion_window_ := 0 |>.

(** src/quiche/gquiche/quic/core/congestion_control/cubic_bytes.cc:40-45 [CubicBytes::CubicBytes] *)
Definition CubicBytes_init : CubicBytes :=
  ResetCubicState (mkCubic kDefaultNumConnections QuicTime_Zero 0 0 0 0 0 0).

(** src/quiche/gquiche/quic/core/congestion_control/cubic_bytes.cc:47-49 [CubicBytes::SetNumConnections] *)
Definition SetNumConnections (c : CubicBytes) (num_connections : Z) : CubicBytes :=
  c <| num_connections_ := num_connections |>.

(** src/quiche/gquiche/quic/core/congestion_control/cubic_bytes.cc:59-65 [CubicBytes::Beta] *)
Definition Beta (c : CubicBytes) : spec_float :=
  f32_div (f32_add (f32_of_Z (i32 (num_connections_ c - 1))) kDefaultCubicBackoffFactor)
    (f32_of_Z (num_connections_ c)).

(** src/quiche/gquiche/quic/core/congestion_control/cubic_bytes.cc:51-57 [CubicBytes::Alpha] *)
Definition Alpha (c : CubicBytes) : spec_float :=
  let beta := Beta c in
  f32_div (f32_mul (f32_of_Z (i32 (i32 (3 * num_connections_ c) * num_connections_ c)))
             (f32_sub (f32_of_Z 1) beta))
    (f32_add (f32_of_Z 1) beta).

(** src/quiche/gquiche/quic/core/congestion_control/cubic_bytes.cc:67-73 [CubicBytes::BetaLastMax] *)
Definition BetaLastMax (c : CubicBytes) : spec_float :=
  f32_div (f32_add (f32_of_Z (i32 (num_connections_ c - 1))) kBetaLastMax)
    (f32_of_Z (num_connections_ c)).

(** src/quiche/gquiche/quic/core/congestion_control/cubic_bytes.cc:85-95 [CubicBytes::OnApplicationLimited] *)
Definition Cubic_OnApplicationLimited (c : CubicBytes) : CubicBytes := c <| epoch_ := QuicTime_Zero |>.

(** src/quiche/gquiche/quic/core/congestion_control/cubic_bytes.cc:97-114 [CubicBytes::CongestionWindowAfterPacketLoss] *)
Definition CongestionWindowAfterPacketLoss (c : CubicBytes) (current_congestion_window : Z)
    : result (CubicBytes * Z) :=
  let* last_max :=
    if current_congestion_window ⊕ kDefaultTCPMSS <? last_max_congestion_window_ c then
      let* v := float_to_i32 (f32_mul (BetaLastMax c) (f32_of_Z current_congestion_window)) in Ok (u64 v)
    else Ok current_congestion_window in
  let c := c <| last_max_congestion_window_ := last_max |> <| epoch_ := QuicTime_Zero |> in
  let* v := float_to_i32 (f32_mul (f32_of_Z current_congestion_window) (Beta c)) in
  Ok (c, u64 v).

(** src/quiche/gquiche/quic/core/congestion_control/cubic_bytes.cc:123-139 [CubicBytes::CongestionWindowAfterAck, start of an epoch] *)
Definition start_epoch `{Libm} (c : CubicBytes) (acked_bytes current_congestion_window : Z) (event_time : QuicTime)
    : result CubicBytes :=
  if negb (QuicTime_IsInitialized (epoch_ c)) then
    let c := c <| epoch_ := event_time |> <| acked_bytes_count_ := acked_bytes |>
               <| estimated_tcp_congestion_window_ := current_congestion_window |> in
    if last_max_congestion_window_ c <=? current_congestion_window then
      Ok (c <| time_to_origin_point_ := 0 |>
            <| origin_point_congestion_window_ := current_congestion_window |>)
    else
      let* t := float_to_u32 (cbrt (f64_of_Z
        (kCubeFactor ⊗ (last_max_congestion_window_ c ⊖ current_congestion_window)))) in
      Ok (c <| time_to_origin_point_ := t |>
            <| origin_point_congestion_window_ := last_max_congestion_window_ c |>)
  else Ok c.

(** src/quiche/gquiche/quic/core/congestion_control/cubic_bytes.cc:143-145 [CubicBytes::CongestionWindowAfterAck, elapsed_time].
    The divisor is unsigned, so the division is. *)
Definition elapsed_time (c : CubicBytes) (delay_min : Delta) (event_time : QuicTime) : Z :=
  i64 (u64 (i64 (Z.shiftl (QuicTime_diff (QuicTime_add event_time delay_min) (epoch_ c)) 10))
       / kNumMicrosPerSecond).

(** src/quiche/gquiche/quic/core/congestion_control/cubic_bytes.cc:149-164 [CubicBytes::CongestionWindowAfterAck, cubic target] *)
Definition cubic_target (c : CubicBytes) (current_congestion_window elapsed_time : Z) : result Z :=
  let offset := u64 (Z.abs (i64 (time_to_origin_point_ c - elapsed_time))) in
  let delta_congestion_window :=
    Z.shiftr (kCubeCongestionWindowScale ⊗ offset ⊗ offset ⊗ offset ⊗ kDefaultTCPMSS) kCubeScale in
  let add_delta := time_to_origin_point_ c <? elapsed_time in
  let* _ := CHECK (add_delta || (delta_congestion_window <? origin_point_congestion_window_ c)) in
  let target_congestion_window :=
    if add_delta then origin_point_congestion_window_ c ⊕ delta_congestion_window
    else origin_point_congestion_window_ c ⊖ delta_congestion_window in
  Ok (Z.min target_congestion_window (current_congestion_window ⊕ acked_bytes_count_ c / 2)).

(** src/quiche/gquiche/quic/core/congestion_control/cubic_bytes.cc:172-174 [CubicBytes::CongestionWindowAfterAck, Reno estimate] *)
Definition next_tcp_estimate (c : CubicBytes) : result Z :=
  float_to_u64 (f32_add (f32_of_Z (estimated_tcp_congestion_window_ c))
    (f32_div (f32_mul (f32_of_Z (acked_bytes_count_ c)) (f32_mul (Alpha c) (f32_of_Z kDefaultTCPMSS)))
       (f32_of_Z (estimated_tcp_congestion_window_ c)))).

(** src/quiche/gquiche/quic/core/congestion_control/cubic_bytes.cc:116-189 [CubicBytes::CongestionWindowAfterAck] *)
Definition CongestionWindowAfterAck `{Libm} (c : CubicBytes) (acked_bytes current_congestion_window : Z)
    (delay_min : Delta) (event_time : QuicTime) : result (CubicBytes * Z) :=
  let c := c <| acked_bytes_count_ := acked_bytes_count_ c ⊕ acked_bytes |> in
  let* c := start_epoch c acked_bytes current_congestion_window event_time in
  let* target_congestion_window :=
    cubic_target c current_congestion_window (elapsed_time c delay_min event_time) in
  let* _ := CHECK (0 <? estimated_tcp_congestion_window_ c) in
  let* estimate := next_tcp_estimate c in
  let c := c <| estimated_tcp_congestion_window_ := estimate |> <| acked_bytes_count_ := 0 |>
             <| last_target_congestion_window_ := target_congestion_window |> in
  Ok (c, if target_congestion_window <? estimated_tcp_congestion_window_ c
         then estimated_tcp_congestion_window_ c else target_congestion_window).

(** * The Reno estimate *)

Lemma f32_mul_mag0_l x y a b c d :
  mag0_in x a b -> mag_in y c d -> -100 < a + c -> b + d < 100 ->
  mag0_in (f32_mul x y) (a + c - 1) (b + d + 1).
Proof.
  intros [->|Hx] Hy Hl Hh.
  - left. by destruct y as [| | |[] ? ?].
  - right. by apply f32_mul_mag.
Qed.

(** With the default number of connections, Alpha segments is about 1420 bytes. *)
Lemma alpha_mss_mag c :
  num_connections_ c = kDefaultNumConnections ->
  mag_in (f32_mul (Alpha c) (f32_of_Z kDefaultTCPMSS)) 11 11.
Proof. unfold Alpha, Beta. intros ->. vm_compute. intuition congruence. Qed.

(** The estimate never falls below a bound it was above: it grows by a
    non-negative amount, and rounding keeps it above every bound of 24 bits. *)
Lemma estimate_float c lo k :
  num_connections_ c = kDefaultNumConnections -> 24 <= k <= 64 ->
  kDefaultTCPMSS <= lo < 2 ^ 24 -> lo <= estimated_tcp_congestion_window_ c < 2 ^ k ->
  0 <= acked_bytes_count_ c < 2 ^ k ->
  let x := f32_add (f32_of_Z (estimated_tcp_congestion_window_ c))
    (f32_div (f32_mul (f32_of_Z (acked_bytes_count_ c)) (f32_mul (Alpha c) (f32_of_Z kDefaultTCPMSS)))
       (f32_of_Z (estimated_tcp_congestion_window_ c))) in
  fge x lo 0 /\ mag_in x (10 - k) (k + 6).
Proof.
  intros Hn Hk Hlo He Ha. cbn zeta. unfold kDefaultTCPMSS in *.
  set (est := f32_of_Z (estimated_tcp_congestion_window_ c)).
  assert (Hest : mag_in est 11 (k + 1)) by (apply (f32_of_Z_mag _ 10 k); lia).
  pose proof (f32_of_Z_mag0 _ k ltac:(lia) Ha) as Hack.
  pose proof (f32_mul_mag0_l _ _ _ _ _ _ Hack (alpha_mss_mag c Hn) ltac:(lia) ltac:(lia)) as Hmul.
  pose proof (f32_div_mag0 _ _ _ _ _ _ Hmul Hest ltac:(lia) ltac:(lia)) as Hdiv.
  unfold kDefaultTCPMSS in *. set (inc := f32_div _ est) in *.
  assert (Hest' : mag_in est (10 - k) (k + 4)) by (destruct est as [| | |[] ? ?]; cbn in *; try done; lia).
  apply (mag0_widen _ _ _ (10 - k) (k + 4)) in Hdiv; [|lia|lia].
  assert (Hge : fge (f32_add est inc) lo 0).
  { apply (f32_add_fge est inc lo (10 - k) (k + 4)); try done; try lia.
    assert (2 ^ k <= 2 ^ 64) by (apply Z.pow_le_mono_r; lia). apply f32_of_Z_fge; lia. }
  split; [done|].
  pose proof (f32_add_mag0 est inc _ _ _ _ (or_intror Hest') Hdiv ltac:(lia) ltac:(lia) ltac:(lia) ltac:(lia)) as Hsum.
  destruct Hsum as [Hz|Hsum]; [by rewrite Hz in Hge|].
  by rewrite Z.min_id, Z.max_id, <- Z.add_assoc in Hsum.
Qed.

Lemma next_tcp_estimate_spec c lo :
  num_connections_ c = kDefaultNumConnections ->
  kDefaultTCPMSS <= lo < 2 ^ 24 -> lo <= estimated_tcp_congestion_window_ c < 2 ^ 40 ->
  0 <= acked_bytes_count_ c < 2 ^ 40 ->
  exists e, next_tcp_estimate c = Ok e /\ lo <= e < 2 ^ 46.
Proof.
  intros Hn Hlo He Ha. destruct (estimate_float c lo 40 Hn ltac:(lia) Hlo He Ha) as [Hge Hsum].
  destruct (float_to_u64_mag _ _ _ Hsum ltac:(lia)) as (e & Eq & Hr). exists e. split; [done|].
  split; [|lia]. unfold float_to_u64, cast_range in Eq.
  destruct (float_trunc _) as [z|] eqn:Ez; [|done]. pose proof (fge_trunc _ _ _ Hge Ez).
  destruct (_ && _); [|done]. congruence.
Qed.

Lemma next_tcp_estimate_floor c lo e :
  num_connections_ c = kDefaultNumConnections ->
  kDefaultTCPMSS <= lo < 2 ^ 24 -> lo <= estimated_tcp_congestion_window_ c < two64 ->
  0 <= acked_bytes_count_ c < two64 -> next_tcp_estimate c = Ok e -> lo <= e < two64.
Proof.
  intros Hn Hlo He Ha Eq. destruct (estimate_float c lo 64 Hn ltac:(lia) Hlo He Ha) as [Hge _].
  unfold next_tcp_estimate in Eq. pose proof (float_to_u64_range _ _ Eq). split; [|lia].
  unfold float_to_u64, cast_range in Eq.
  destruct (float_trunc _) as [z|] eqn:Ez; [|done]. pose proof (fge_trunc _ _ _ Hge Ez).
  destruct (_ && _); [|done]. congruence.
Qed.

(** * The cubic curve *)

(** [C * |t - K|^3] in bytes, for times in 1/1024 s. *)
Definition cube_bytes (x : Z) : Z := 598600 * x ^ 3 / 2 ^ 40.

(** The curve through the origin point. *)
Definition cubic_curve (c : CubicBytes) (t : Z) : Z :=
  let K := time_to_origin_point_ c in
  if K <? t then origin_point_congestion_window_ c + cube_bytes (t - K)
  else origin_point_congestion_window_ c - cube_bytes (K - t).

(** The curve starts above zero, and its products fit 64 bits. *)
Definition curve_ok (c : CubicBytes) : Prop :=
  0 <= time_to_origin_point_ c < 31000 /\
  cube_bytes (time_to_origin_point_ c) < origin_point_congestion_window_ c < 2 ^ 40.

Lemma cube_bytes_mono x y : 0 <= x <= y -> 0 <= cube_bytes x <= cube_bytes y.
Proof.
  intros H. unfold cube_bytes. assert (0 <= x ^ 3 <= y ^ 3) by (split; [apply Z.pow_nonneg|apply Z.pow_le_mono_l]; lia).
  split; [apply Z.div_pos; lia|]. apply Z.div_le_mono; lia.
Qed.

Lemma delta_exact x :
  0 <= x < 31000 ->
  Z.shiftr (kCubeCongestionWindowScale ⊗ x ⊗ x ⊗ x ⊗ kDefaultTCPMSS) kCubeScale = cube_bytes x /\
  0 <= cube_bytes x < 2 ^ 24.
Proof.
  intros H. unfold kCubeCongestionWindowScale, kDefaultTCPMSS, kCubeScale.
  assert (0 <= x ^ 3 < 31000 ^ 3) by (split; [apply Z.pow_nonneg; lia|apply Z.pow_lt_mono_l; lia]).
  replace (x ^ 3) with (x * x * x) in H0 by lia.
  rewrite (u64_small (410 * x)), (u64_small (410 * x * x)), (u64_small (410 * x * x * x)), u64_small by nia.
  rewrite Z.shiftr_div_pow2 by lia. unfold cube_bytes. replace (x ^ 3) with (x * x * x) by lia.
  split; [f_equal; lia|]. split; [apply Z.div_pos; lia|]. apply Z.div_lt_upper_bound; lia.
Qed.

(** Within the range, the target is the curve, limited to half the acknowledged
    bytes above the present window. *)
Lemma cubic_target_spec c w t :
  curve_ok c -> 0 <= t < 31000 -> 0 <= w < 2 ^ 40 -> 0 <= acked_bytes_count_ c < 2 ^ 40 ->
  cubic_target c w t = Ok (Z.min (cubic_curve c t) (w + acked_bytes_count_ c / 2)) /\ 0 < cubic_curve c t < 2 ^ 41.
Proof.
  intros [HK HW] Ht Hw Ha. unfold cubic_target, cubic_curve.
  set (K := time_to_origin_point_ c) in *. set (W := origin_point_congestion_window_ c) in *.
  rewrite (i64_small (K - t)), (u64_small (Z.abs _)) by lia.
  destruct (delta_exact (Z.abs (K - t)) ltac:(lia)) as [-> Hd].
  assert (0 <= acked_bytes_count_ c / 2 < 2 ^ 40) by (split; [apply Z.div_pos; lia|apply Z.div_lt_upper_bound; lia]).
  rewrite (u64_small (w + _)) by lia. pose proof (cube_bytes_mono 0 K ltac:(lia)).
  destruct (Z.ltb_spec K t); cbn [orb CHECK rbind].
  - replace (Z.abs (K - t)) with (t - K) in * by lia. rewrite u64_small by lia. split; [done|lia].
  - replace (Z.abs (K - t)) with (K - t) in * by lia. pose proof (cube_bytes_mono (K - t) K ltac:(lia)).
    rewrite (proj2 (Z.ltb_lt _ _)) by lia. cbn [CHECK rbind]. rewrite u64_small by lia. split; [done|lia].
Qed.

Lemma curve_increases c t : 0 <= t -> 0 <= time_to_origin_point_ c ->
  origin_point_congestion_window_ c - cube_bytes (time_to_origin_point_ c) <= cubic_curve c t.
Proof.
  intros Ht HK. unfold cubic_curve. pose proof (cube_bytes_mono 0 (time_to_origin_point_ c) ltac:(lia)).
  destruct (Z.ltb_spec (time_to_origin_point_ c) t).
  - pose proof (cube_bytes_mono 0 (t - time_to_origin_point_ c) ltac:(lia)). lia.
  - pose proof (cube_bytes_mono (time_to_origin_point_ c - t) (time_to_origin_point_ c) ltac:(lia)). lia.
Qed.

Lemma elapsed_time_spec c d t :
  0 <= epoch_ c <= t -> t < 2 ^ 50 -> 0 <= d -> t - epoch_ c + d < 30 * 1000 * 1000 ->
  elapsed_time c d t = (t - epoch_ c + d) * 1024 / 1000000 /\ 0 <= elapsed_time c d t < 31000.
Proof.
  intros He Ht Hd Hr. unfold elapsed_time, QuicTime_diff, QuicTime_add, kNumMicrosPerSecond.
  rewrite (i64_small (t + d)), (i64_small (t + d - epoch_ c)) by lia. rewrite Z.shiftl_mul_pow2 by lia.
  change (2 ^ 10) with 1024. rewrite (i64_small (_ * 1024)), u64_small by lia.
  change (1000 * 1000) with 1000000.
  assert (0 <= (t + d - epoch_ c) * 1024 / 1000000 < 31000)
    by (split; [apply Z.div_pos; lia|apply Z.div_lt_upper_bound; lia]).
  rewrite i64_small by lia. replace (t - epoch_ c + d) with (t + d - epoch_ c) by lia. done.
Qed.

(** * Acknowledgments *)

(** What holds between calls; [lo] is a lower bound on the windows the estimate
    was started from. *)
Record cubic_inv (lo : Z) (c : CubicBytes) : Prop := {
  ci_connections : num_connections_ c = kDefaultNumConnections;
  ci_acked : acked_bytes_count_ c = 0;
  ci_last_max : 0 <= last_max_congestion_window_ c < 2 ^ 23;
  ci_epoch : epoch_ c <> 0 -> curve_ok c /\ lo <= estimated_tcp_congestion_window_ c;
}.

Section acks.
Context `{LibmLaws}.

(** Starting an epoch puts the curve's start at or above the present window. *)
Lemma start_epoch_new c acked w t :
  epoch_ c = 0 -> 0 <= last_max_congestion_window_ c < 2 ^ 23 -> 0 < w < 2 ^ 23 ->
  exists c', start_epoch c acked w t = Ok c' /\ curve_ok c' /\ epoch_ c' = t /\
    acked_bytes_count_ c' = acked /\ estimated_tcp_congestion_window_ c' = w /\
    num_connections_ c' = num_connections_ c /\ last_max_congestion_window_ c' = last_max_congestion_window_ c /\
    w <= origin_point_congestion_window_ c' - cube_bytes (time_to_origin_point_ c').
Proof.
  intros He Hm Hw. unfold start_epoch. rewrite He. cbn -[f64_of_Z float_to_u32 kCubeFactor u64 cube_bytes].
  destruct (Z.leb_spec (last_max_congestion_window_ c) w).
  - eexists; split; [done|]. unfold curve_ok, cube_bytes. cbn. rewrite Z.div_0_l by lia. split_and!; try done; lia.
  - set (D := last_max_congestion_window_ c - w). assert (HD : 0 < D < 2 ^ 23) by lia. rewrite (u64_small D) by lia.
    assert (HF : 0 < kCubeFactor < 1840000) by (vm_compute; intuition congruence).
    assert (HF' : 598600 * kCubeFactor <= 2 ^ 40) by (vm_compute; congruence).
    rewrite u64_small by nia.
    destruct (cbrt_integer (kCubeFactor * D) ltac:(nia)) as (r & -> & Hr0 & Hr). cbn [rbind].
    assert (Hr31 : r < 31000).
    { destruct (Z.lt_ge_cases r 31000); [done|]. assert (31000 ^ 3 <= r ^ 3) by (apply Z.pow_le_mono_l; lia). nia. }
    assert (Hc : cube_bytes r <= D).
    { unfold cube_bytes. apply Z.lt_succ_r. apply Z.div_lt_upper_bound; [lia|]. nia. }
    eexists; split; [done|]. unfold curve_ok. cbn. fold D. split_and!; try done; lia.
Qed.

(** The state the rest of [CongestionWindowAfterAck] works on. *)
Lemma epoch_started lo c acked w t :
  cubic_inv lo c -> 0 <= acked < 2 ^ 32 -> 0 < w < 2 ^ 23 -> lo <= w ->
  estimated_tcp_congestion_window_ c < 2 ^ 40 ->
  exists c', start_epoch (c <| acked_bytes_count_ := acked_bytes_count_ c ⊕ acked |>) acked w t = Ok c' /\
    curve_ok c' /\ acked_bytes_count_ c' = acked /\ num_connections_ c' = num_connections_ c /\
    last_max_congestion_window_ c' = last_max_congestion_window_ c /\
    lo <= estimated_tcp_congestion_window_ c' < 2 ^ 40 /\
    epoch_ c' = (if epoch_ c =? 0 then t else epoch_ c) /\
    (epoch_ c = 0 -> w <= origin_point_congestion_window_ c' - cube_bytes (time_to_origin_point_ c')).
Proof.
  intros [Hn Ha Hm Hep] Hack Hw Hlo Hest. rewrite Ha, Z.add_0_l, u64_small by lia.
  destruct (Z.eqb_spec (epoch_ c) 0) as [E|E].
  - set (c0 := c <| acked_bytes_count_ := acked |>).
    destruct (start_epoch_new c0 acked w t E Hm Hw)
      as (c' & H1 & H2 & H3 & H4 & H5 & H6 & H7 & H8). exists c'. rewrite H5. split_and!; try done. lia.
  - destruct (Hep E) as [Hc He]. exists (c <| acked_bytes_count_ := acked |>).
    unfold start_epoch, QuicTime_IsInitialized. cbn. destruct (Z.eqb_spec (epoch_ c) 0); [done|].
    cbn. split_and!; done.
Qed.

(** C26. CUBIC's response to an acknowledgment.  Within 30 s of the start of its
    epoch (beyond that the 64-bit product wraps) the call succeeds and its
    result is the cubic curve at the elapsed time, limited to half the
    acknowledged bytes above the present window, and raised to the Reno
    estimate if that is larger; the estimate never falls below a bound it was
    above, and the acknowledgment that starts an epoch never lowers the
    window. *)
Theorem cubic_ack_follows_curve lo c acked w delay t :
  cubic_inv lo c -> kDefaultTCPMSS <= lo <= w -> w < 2 ^ 23 -> 0 <= acked < 2 ^ 32 ->
  estimated_tcp_congestion_window_ c < 2 ^ 40 -> 0 <= epoch_ c <= t -> 0 < t < 2 ^ 50 -> 0 <= delay ->
  (let start := if epoch_ c =? 0 then t else epoch_ c in t - start + delay < 30 * 1000 * 1000) ->
  exists c' w', CongestionWindowAfterAck c acked w delay t = Ok (c', w') /\ cubic_inv lo c' /\
    w' = Z.max (Z.min (cubic_curve c' ((t - epoch_ c' + delay) * 1024 / 1000000)) (w + acked / 2))
               (estimated_tcp_congestion_window_ c') /\
    lo <= w' /\ (epoch_ c = 0 -> w <= w').
Proof.
  intros Hinv Hlo Hw Hack Hest Hep Ht Hdel Hel. cbn zeta in Hel.
  destruct (epoch_started lo c acked w t Hinv Hack ltac:(unfold kDefaultTCPMSS in *; lia) ltac:(lia) Hest)
    as (c1 & Hs & Hcv & Ha & Hn & Hm & He & Hepoch & Hstart).
  assert (Hep1 : 0 < epoch_ c1 <= t) by (rewrite Hepoch; zcases; lia).
  destruct (elapsed_time_spec c1 delay t ltac:(lia) ltac:(lia) Hdel ltac:(by rewrite Hepoch)) as [Et Hr].
  destruct (cubic_target_spec c1 w (elapsed_time c1 delay t) Hcv Hr ltac:(unfold kDefaultTCPMSS in *; lia) ltac:(lia)) as [Etg Hcurve].
  assert (Hn1 : num_connections_ c1 = kDefaultNumConnections) by (rewrite Hn; apply (ci_connections _ _ Hinv)).
  destruct (next_tcp_estimate_spec c1 lo Hn1 ltac:(lia) He ltac:(lia)) as (e & Ee & Hlo').
  unfold CongestionWindowAfterAck. rewrite Hs. cbn [rbind]. rewrite Etg. cbn [rbind].
  destruct (Z.ltb_spec 0 (estimated_tcp_congestion_window_ c1)); [|unfold kDefaultTCPMSS in *; lia]. cbn [CHECK rbind].
  rewrite Ee. cbn [rbind]. set (tg := Z.min _ _) in *. eexists _, _. split; [done|].
  match goal with |- context [cubic_inv lo ?x] => set (X := x); change (epoch_ X) with (epoch_ c1) end.
  rewrite <- Et. set (el := elapsed_time c1 delay t) in *. split_and!.
  - split; cbn; [done|done|rewrite Hm; apply (ci_last_max _ _ Hinv)|]. intros _. split; [exact Hcv|lia].
  - unfold cubic_curve in *. cbn -[tg]. rewrite <- Ha.
    change (Z.min _ (w + acked_bytes_count_ c1 / 2)) with tg. destruct (Z.ltb_spec tg e); lia.
  - cbn -[tg]. destruct (Z.ltb_spec tg e); lia.
  - intros E. specialize (Hstart E). pose proof (curve_increases c1 el ltac:(lia) ltac:(destruct Hcv; lia)).
    assert (0 <= acked / 2) by (apply Z.div_pos; lia).
    cbn -[tg]. assert (w <= tg) by (unfold tg; rewrite Ha; lia). destruct (Z.ltb_spec tg e); lia.
Qed.
End acks.

(** * Loss *)

(** Every integer lies between two neighbouring multiples of a power of two with
    16-bit mantissas, or is one itself. *)
Lemma short_bounds z :
  0 < z -> exists lo hi E, 0 <= E /\ 0 < lo <= hi /\ hi <= 2 ^ 16 /\ lo * 2 ^ E <= z <= hi * 2 ^ E /\
    10900 * (hi * 2 ^ E) <= 11008 * z /\ 2688 * z <= 2700 * (lo * 2 ^ E).
Proof.
  intros Hz. destruct (Z.lt_ge_cases z (2 ^ 16)) as [Hs|Hl]; [exists z, z, 0; lia|].
  set (E := Z.log2 z - 15). pose proof (Z.log2_spec z Hz) as [Hl1 Hl2].
  assert (HE : 0 < E) by (assert (16 <= Z.log2 z) by (apply Z.log2_le_pow2; lia); lia).
  assert (HpE : 0 < 2 ^ E) by (apply Z.pow_pos_nonneg; lia).
  pose proof (Z.div_mod z (2 ^ E) ltac:(lia)) as Hdm. pose proof (Z.mod_pos_bound z (2 ^ E) ltac:(lia)) as Hmb.
  assert (H15 : 2 ^ 15 * 2 ^ E <= z) by (rewrite <- Z.pow_add_r by lia; replace (15 + E) with (Z.log2 z) by lia; done).
  assert (Hlo : 2 ^ 15 <= z / 2 ^ E) by (apply Z.div_le_lower_bound; lia).
  assert (Hhi : z / 2 ^ E < 2 ^ 16).
  { apply Z.div_lt_upper_bound; [done|]. rewrite <- Z.pow_add_r by lia. by replace (E + 16) with (Z.succ (Z.log2 z)) by lia. }
  exists (z / 2 ^ E), (z / 2 ^ E + 1), E. split_and!; lia || nia.
Qed.

(** A back-off factor of 0.85, up to the precision of binary32. *)
Definition backoff_factor (b : spec_float) : Prop := fle b 109 (-7) /\ fge b 27 (-5) /\ mag_in b (-1) 1.

(** Multiplying by it in binary32 and truncating takes 14 to 16 percent off. *)
Lemma backoff_bounds b z :
  backoff_factor b -> 0 < z < 2 ^ 60 ->
  exists v, float_trunc (f32_mul (f32_of_Z z) b) = Some v /\ 84 * z / 100 <= v <= 86 * z / 100.
Proof.
  intros (Hb & Hbg & Hbm) Hz. destruct (short_bounds z ltac:(lia)) as (lo & hi & E & HE & Hc & Hhi & Hzc & H1 & H2).
  assert (HE16 : E < 61) by (apply (Z.pow_lt_mono_r_iff 2); nia).
  pose proof (fle_of_Z32 z hi E ltac:(lia) ltac:(lia) HE ltac:(lia) ltac:(lia)) as Hx.
  assert (Hy : fge (f32_of_Z z) lo E).
  { apply (binary_normalize_fge 24 128) with (hi := 90); unfold emin; try lia.
    rewrite Z.add_0_l, (Z.pow_add_r 2 E), Z.mul_assoc by lia. apply Z.mul_le_mono_nonneg_r; [done|lia]. }
  assert (Hzm : mag_in (f32_of_Z z) 1 61) by (apply (f32_of_Z_mag z 0 60); lia).
  pose proof (f32_mul_mag _ _ _ _ _ _ Hzm Hbm ltac:(lia) ltac:(lia)) as Hm.
  assert (Hp : fle (f32_mul (f32_of_Z z) b) (hi * 109) (E + -7)).
  { apply (SFmul_fle 24 128); try done; try lia; (eapply mag_in_wide; [eassumption|lia|lia]). }
  assert (Hq : fge (f32_mul (f32_of_Z z) b) (lo * 27) (E + -5)).
  { apply (SFmul_fge 24 128) with (a := 1) (b := 61) (a' := -1) (b' := 1); unfold emin; done || lia. }
  assert (P5 : 2 ^ 5 * 2 ^ (E + -5 + bias) = 2 ^ E * 2 ^ bias) by (rewrite <- !Z.pow_add_r by lia; f_equal; lia).
  assert (P7 : 2 ^ 7 * 2 ^ (E + -7 + bias) = 2 ^ E * 2 ^ bias) by (rewrite <- !Z.pow_add_r by lia; f_equal; lia).
  change (2 ^ 5) with 32 in P5. change (2 ^ 7) with 128 in P7.
  destruct (float_trunc (f32_mul (f32_of_Z z) b)) as [v|] eqn:Ev; [|destruct (f32_mul (f32_of_Z z) b) as [| | |[] ? ?]; done].
  assert (HW : 0 < 2 ^ bias) by done. exists v. split; [done|]. split.
  - apply (fge_trunc (f32_mul (f32_of_Z z) b)); [|done]. apply (fge_scale _ _ _ _ Hq).
    apply (Z.mul_le_mono_pos_l _ _ 32); [lia|]. replace (32 * (lo * 27 * 2 ^ (E + -5 + bias))) with (27 * (lo * 2 ^ E) * 2 ^ bias) by nia.
    rewrite Z.mul_assoc. apply Z.mul_le_mono_nonneg_r; [lia|]. pose proof (Z.mul_div_le (84 * z) 100 ltac:(lia)). lia.
  - pose proof (fle_trunc_scaled _ _ _ _ Hp ltac:(lia) ltac:(lia) Ev) as Hv. apply Z.div_le_lower_bound; [lia|].
    assert (128 * v <= 109 * (hi * 2 ^ E)); [|lia]. apply (Z.mul_le_mono_pos_r _ _ (2 ^ bias)); [done|]. lia.
Qed.

Lemma Beta_range c : num_connections_ c = kDefaultNumConnections -> backoff_factor (Beta c).
Proof. unfold Beta. intros ->. split_and!; vm_compute; intuition congruence. Qed.

(** The window after a loss. *)
Lemma CongestionWindowAfterPacketLoss_cut c w c' w' :
  num_connections_ c = kDefaultNumConnections -> 0 < w < 2 ^ 60 ->
  CongestionWindowAfterPacketLoss c w = Ok (c', w') ->
  84 * w / 100 <= w' <= 86 * w / 100 /\ num_connections_ c' = num_connections_ c /\ epoch_ c' = 0 /\
  acked_bytes_count_ c' = acked_bytes_count_ c.
Proof.
  intros Hn Hw H. unfold CongestionWindowAfterPacketLoss in H.
  apply rbind_Ok in H as (lm & _ & H). apply rbind_Ok in H as (x & Hv & H). injection H as <- <-.
  destruct (backoff_bounds _ w (Beta_range c Hn) Hw) as (v & Ev & Hr).
  change (cast_range (- two31) two31 (float_trunc (f32_mul (f32_of_Z w) (Beta c))) = Ok x) in Hv.
  rewrite Ev in Hv. pose proof (cast_range_Ok _ _ _ _ Hv). unfold cast_range in Hv.
  assert (0 <= 84 * w / 100) by (apply Z.div_pos; lia).
  destruct (_ && _); [|done]. injection Hv as <-. rewrite u64_small by lia. cbn. split_and!; try done; lia.
Qed.

(** * A concrete library *)

(** The integer cube root, bit by bit. *)
Fixpoint icbrt_from (k : nat) (n r : Z) : Z :=
  match k with
  | O => r
  | S k => let s := r + 2 ^ Z.of_nat k in icbrt_from k n (if s ^ 3 <=? n then s else r)
  end.
Definition icbrt (n : Z) : Z := icbrt_from 18 n 0.

Lemma icbrt_from_spec k : forall n r, 0 <= r -> r ^ 3 <= n ->
  0 <= icbrt_from k n r < r + 2 ^ Z.of_nat k /\ icbrt_from k n r ^ 3 <= n.
Proof.
  induction k as [|k IH]; intros n r Hr Hn; cbn [icbrt_from]; [cbn; lia|].
  assert (0 < 2 ^ Z.of_nat k) by (apply Z.pow_pos_nonneg; lia).
  rewrite Nat2Z.inj_succ, Z.pow_succ_r by lia.
  destruct (Z.leb_spec ((r + 2 ^ Z.of_nat k) ^ 3) n).
  - destruct (IH n (r + 2 ^ Z.of_nat k) ltac:(lia) ltac:(done)). lia.
  - destruct (IH n r Hr Hn). lia.
Qed.

(** A C library that truncates its argument and the root. *)
Definition truncating_libm : Libm := {|
  cbrt x := match float_trunc x with Some n => f64_of_Z (icbrt n) | None => S754_nan end;
|}.

Lemma float_trunc_f64_of_Z z : 0 <= z < 2 ^ 53 -> float_trunc (f64_of_Z z) = Some z.
Proof.
  intros Hz. destruct (Z.eq_dec z 0) as [->|]; [done|].
  destruct (f64_of_Z_exact z ltac:(lia)) as (m & e & -> & He & Hm). cbn [float_trunc].
  assert (0 < 2 ^ (- e)) by (apply Z.pow_pos_nonneg; lia). f_equal. destruct (Z.leb_spec 0 e).
  - replace e with 0 in * by lia. change (2 ^ (- 0)) with 1 in Hm. cbn. lia.
  - rewrite Hm, Z.div_mul by lia. done.
Qed.

Lemma truncating_libm_laws : @LibmLaws truncating_libm.
Proof.
  constructor. intros n Hn. exists (icbrt n). cbn [cbrt truncating_libm].
  rewrite float_trunc_f64_of_Z by done.
  assert (Hi : 0 <= icbrt n < 262144 /\ icbrt n ^ 3 <= n) by (apply (icbrt_from_spec 18 n 0); lia).
  destruct Hi as [Hr Hc]. generalize dependent (icbrt n). intros r Hr Hc.
  unfold float_to_u32. rewrite float_trunc_f64_of_Z by lia. unfold cast_range.
  destruct (Z.leb_spec 0 r); [|lia]. destruct (Z.ltb_spec r two32); [|lia].
  cbn [andb]. split; [done|lia].
Qed.

(** A flow that was cut from 292000 to 248200 bytes, at the first
    acknowledgment of the epoch. *)
Definition cut_cubic : CubicBytes := CubicBytes_init <| last_max_congestion_window_ := 292000 |>.

Lemma cubic_ack_follows_curve_witness :
  exists c' w', @CongestionWindowAfterAck truncating_libm cut_cubic 1460 248200 40000 1000000 = Ok (c', w') /\
    cubic_inv 1460 c' /\
    w' = Z.max (Z.min (cubic_curve c' ((1000000 - epoch_ c' + 40000) * 1024 / 1000000)) (248200 + 1460 / 2))
               (estimated_tcp_congestion_window_ c') /\
    1460 <= w' /\ (epoch_ cut_cubic = 0 -> 248200 <= w').
Proof.
  apply (@cubic_ack_follows_curve truncating_libm truncating_libm_laws 1460 cut_cubic 1460 248200 40000 1000000);
    try (vm_compute; intuition congruence).
  split; [reflexivity|reflexivity|cbn; lia|]. intros E. exfalso. by apply E.
Defined.
