(* ===== verification/TcpCubic.v ===== *)
(** [TcpCubicSenderBytes] (tcp_cubic_sender_bytes.h, tcp_cubic_sender_bytes.cc):
    the CUBIC and Reno sender, composed of hybrid slow start, proportional rate
    reduction and the cubic window. *)

From Stdlib Require Import SpecFloat.
From S2P Require Import Prelude Float QuicTime PacketNumber RttStats SendAlgorithm.
From S2P Require Import HybridSlowStart Prr CubicBytes.

(** src/quiche/gquiche/quic/core/congestion_control/tcp_cubic_sender_bytes.cc:23-23 [kMaxBurstBytes] *)
Definition kMaxBurstBytes : Z := 3 ⊗ kDefaultTCPMSS.
(** src/quiche/gquiche/quic/core/congestion_control/tcp_cubic_sender_bytes.cc:24-24 [kRenoBeta].  The nearest binary32 number to 0.7. *)
Definition kRenoBeta : spec_float := f32_lit 11744051 (-24).
(** src/quiche/gquiche/quic/core/congestion_control/tcp_cubic_sender_bytes.cc:27-27 [kDefaultMinimumCongestionWindow] *)
Definition kDefaultMinimumCongestionWindow : Z := 2 ⊗ kDefaultTCPMSS.
(** src/quiche/gquiche/quic/core/congestion_control/tcp_cubic_sender_bytes.h:28-28 [kMaxResumptionCongestionWindow] *)
Definition kMaxResumptionCongestionWindow : Z := 200.

(** src/quiche/gquiche/quic/core/congestion_control/tcp_cubic_sender_bytes.h:111-170 [TcpCubicSenderBytes].
    The connection's statistics are a member here; [RttStats], which the sender
    only reads, is an argument of its operations. *)
Record TcpCubicSender := mkTcp {
  hybrid_slow_start_ : HybridSlowStart;
  prr_ : PrrSender;
  stats_ : QuicConnectionStats;
  reno_ : bool;
  num_connections_ : Z;
  largest_sent_packet_number_ : QuicPacketNumber;
  largest_acked_packet_number_ : QuicPacketNumber;
  largest_sent_at_last_cutback_ : QuicPacketNumber;
  min4_mode_ : bool;
  last_cutback_exited_slowstart_ : bool;
  slow_start_large_reduction_ : bool;
  no_prr_ : bool;
  cubic_ : CubicBytes;
  num_acked_packets_ : Z;
  congestion_window_ : Z;
  min_congestion_window_ : Z;
  max_congestion_window_ : Z;
  slowstart_threshold_ : Z;
  initial_tcp_congestion_window_ : Z;
  initial_max_tcp_congestion_window_ : Z;
  min_slow_start_exit_window_ : Z;
}.
#[export] Instance eta_Tcp : Eta TcpCubicSender := MkEta _ (fun s =>
  mkTcp (hybrid_slow_start_ s) (prr_ s) (stats_ s) (reno_ s) (num_connections_ s)
    (largest_sent_packet_number_ s) (largest_acked_packet_number_ s) (largest_sent_at_last_cutback_ s)
    (min4_mode_ s) (last_cutback_exited_slowstart_ s) (slow_start_large_reduction_ s) (no_prr_ s)
    (cubic_ s) (num_acked_packets_ s) (congestion_window_ s) (min_congestion_window_ s)
    (max_congestion_window_ s) (slowstart_threshold_ s) (initial_tcp_congestion_window_ s)
    (initial_max_tcp_congestion_window_ s) (min_slow_start_exit_window_ s)).

(** src/quiche/gquiche/quic/core/congestion_control/tcp_cubic_sender_bytes.cc:30-55 [TcpCubicSenderBytes::TcpCubicSenderBytes] *)
Definition TcpCubicSender_init (reno : bool) (initial_tcp_congestion_window max_congestion_window : Z)
    (stats : QuicConnectionStats) : TcpCubicSender :=
  mkTcp HybridSlowStart_init PrrSender_init stats reno kDefaultNumConnections
    QuicPacketNumber_default QuicPacketNumber_default QuicPacketNumber_default
    false false false false CubicBytes_init 0
    (initial_tcp_congestion_window ⊗ kDefaultTCPMSS)
    kDefaultMinimumCongestionWindow
    (max_congestion_window ⊗ kDefaultTCPMSS)
    (max_congestion_window ⊗ kDefaultTCPMSS)
    (initial_tcp_congestion_window ⊗ kDefaultTCPMSS)
    (max_congestion_window ⊗ kDefaultTCPMSS)
    kDefaultMinimumCongestionWindow.

(** * Queries *)

(** src/quiche/gquiche/quic/core/congestion_control/tcp_cubic_sender_bytes.cc:349-351 [TcpCubicSenderBytes::GetCongestionWindow] *)
Definition GetCongestionWindow (s : TcpCubicSender) : Z := congestion_window_ s.
(** src/quiche/gquiche/quic/core/congestion_control/tcp_cubic_sender_bytes.cc:353-355 [TcpCubicSenderBytes::GetSlowStartThreshold] *)
Definition GetSlowStartThreshold (s : TcpCubicSender) : Z := slowstart_threshold_ s.
(** src/quiche/gquiche/quic/core/congestion_control/tcp_cubic_sender_bytes.cc:222-224 [TcpCubicSenderBytes::InSlowStart] *)
Definition InSlowStart (s : TcpCubicSender) : bool := GetCongestionWindow s <? GetSlowStartThreshold s.
(** src/quiche/gquiche/quic/core/congestion_control/tcp_cubic_sender_bytes.cc:237-241 [TcpCubicSenderBytes::InRecovery] *)
Definition InRecovery (s : TcpCubicSender) : bool :=
  packets_in_recovery (largest_acked_packet_number_ s) (largest_sent_at_last_cutback_ s).
(** src/quiche/gquiche/quic/core/congestion_control/tcp_cubic_sender_bytes.cc:243-245 [TcpCubicSenderBytes::ShouldSendProbingPacket] *)
Definition ShouldSendProbingPacket (s : TcpCubicSender) : bool := false.
(** src/quiche/gquiche/quic/core/congestion_control/tcp_cubic_sender_bytes.cc:256-258 [TcpCubicSenderBytes::GetDebugState] *)
Definition GetDebugState (s : TcpCubicSender) : string := EmptyString.
(** src/quiche/gquiche/quic/core/congestion_control/tcp_cubic_sender_bytes.cc:427-429 [TcpCubicSenderBytes::GetCongestionControlType] *)
Definition GetCongestionControlType (s : TcpCubicSender) : Z := if reno_ s then kRenoBytes else kCubicBytes.

(** src/quiche/gquiche/quic/core/congestion_control/tcp_cubic_sender_bytes.cc:115-121 [TcpCubicSenderBytes::RenoBeta] *)
Definition RenoBeta (s : TcpCubicSender) : spec_float :=
  f32_div (f32_add (f32_of_Z (u32 (num_connections_ s - 1))) kRenoBeta) (f32_of_Z (num_connections_ s)).

(** src/quiche/gquiche/quic/core/congestion_control/tcp_cubic_sender_bytes.cc:187-200 [TcpCubicSenderBytes::CanSend] *)
Definition CanSend (s : TcpCubicSender) (bytes_in_flight : Z) : bool :=
  if negb (no_prr_ s) && InRecovery s then
    Prr_CanSend (prr_ s) (GetCongestionWindow s) bytes_in_flight (GetSlowStartThreshold s)
  else if bytes_in_flight <? GetCongestionWindow s then true
  else min4_mode_ s && (bytes_in_flight <? 4 ⊗ kDefaultTCPMSS).

(** src/quiche/gquiche/quic/core/congestion_control/tcp_cubic_sender_bytes.cc:202-211 [TcpCubicSenderBytes::PacingRate] *)
Definition PacingRate (rtt_stats_ : RttStats) (s : TcpCubicSender) (bytes_in_flight : Z) : result Z :=
  let srtt := SmoothedOrInitialRtt rtt_stats_ in
  let* bandwidth := FromBytesAndTimeDelta (GetCongestionWindow s) srtt in
  QuicBandwidth_mul bandwidth
    (f32_of_f64 (if InSlowStart s then f64_of_Z 2
                 else if no_prr_ s && InRecovery s then f64_of_Z 1 else f64_lit 5 (-2))).

(** src/quiche/gquiche/quic/core/congestion_control/tcp_cubic_sender_bytes.cc:213-220 [TcpCubicSenderBytes::BandwidthEstimate] *)
Definition BandwidthEstimate (rtt_stats_ : RttStats) (s : TcpCubicSender) : result Z :=
  let srtt := smoothed_rtt_ rtt_stats_ in
  if Delta_IsZero srtt then Ok QuicBandwidth_Zero
  else FromBytesAndTimeDelta (GetCongestionWindow s) srtt.

(** src/quiche/gquiche/quic/core/congestion_control/tcp_cubic_sender_bytes.cc:226-235 [TcpCubicSenderBytes::IsCwndLimited] *)
Definition IsCwndLimited (s : TcpCubicSender) (bytes_in_flight : Z) : bool :=
  let congestion_window := GetCongestionWindow s in
  if congestion_window <=? bytes_in_flight then true
  else
    let available_bytes := congestion_window ⊖ bytes_in_flight in
    let slow_start_limited := InSlowStart s && (congestion_window / 2 <? bytes_in_flight) in
    slow_start_limited || (available_bytes <=? kMaxBurstBytes).

(** * Configuration *)

(** src/quiche/gquiche/quic/core/congestion_control/tcp_cubic_sender_bytes.cc:274-277 [TcpCubicSenderBytes::SetInitialCongestionWindowInPackets] *)
Definition SetInitialCongestionWindowInPackets (s : TcpCubicSender) (congestion_window : Z) : TcpCubicSender :=
  s <| congestion_window_ := congestion_window ⊗ kDefaultTCPMSS |>.
(** src/quiche/gquiche/quic/core/congestion_control/tcp_cubic_sender_bytes.cc:279-282 [TcpCubicSenderBytes::SetMinCongestionWindowInPackets] *)
Definition SetMinCongestionWindowInPackets (s : TcpCubicSender) (congestion_window : Z) : TcpCubicSender :=
  s <| min_congestion_window_ := congestion_window ⊗ kDefaultTCPMSS |>.
(** src/quiche/gquiche/quic/core/congestion_control/tcp_cubic_sender_bytes.cc:284-287 [TcpCubicSenderBytes::SetNumEmulatedConnections] *)
Definition SetNumEmulatedConnections (s : TcpCubicSender) (num_connections : Z) : TcpCubicSender :=
  let s := s <| num_connections_ := Z.max 1 num_connections |> in
  s <| cubic_ := SetNumConnections (cubic_ s) (num_connections_ s) |>.
(** src/quiche/gquiche/quic/core/congestion_control/tcp_cubic_sender_bytes.cc:263-272 [TcpCubicSenderBytes::SetCongestionWindowFromBandwidthAndRtt] *)
Definition SetCongestionWindowFromBandwidthAndRtt (s : TcpCubicSender) (bandwidth : Z) (rtt : Delta) : TcpCubicSender :=
  let new_congestion_window := ToBytesPerPeriod bandwidth rtt in
  s <| congestion_window_ := Z.max (min_congestion_window_ s)
         (Z.min new_congestion_window (kMaxResumptionCongestionWindow ⊗ kDefaultTCPMSS)) |>.
(** src/quiche/gquiche/quic/core/congestion_control/tcp_cubic_sender_bytes.cc:108-113 [TcpCubicSenderBytes::AdjustNetworkParameters] *)
Definition AdjustNetworkParameters (s : TcpCubicSender) (params : NetworkParams) : TcpCubicSender :=
  if (params_bandwidth params =? 0) || Delta_IsZero (params_rtt params) then s
  else SetCongestionWindowFromBandwidthAndRtt s (params_bandwidth params) (params_rtt params).

(** The connection options [SetFromConfig] looks for. *)
Inductive connection_option := kIW03 | kIW10 | kIW20 | kIW50 | kMIN1 | kMIN4 | kSSLR | kNPRR.

(** src/quiche/gquiche/quic/core/congestion_control/tcp_cubic_sender_bytes.cc:59-106 [TcpCubicSenderBytes::SetFromConfig].
    [received] tells whether an option was received, [unified_iw] is the flag. *)
Definition SetFromConfig (s : TcpCubicSender) (received : connection_option -> bool)
    (is_server unified_iw : bool) : TcpCubicSender :=
  if negb is_server then s
  else
    let s := if negb unified_iw then
        let s := if received kIW03 then SetInitialCongestionWindowInPackets s 3 else s in
        let s := if received kIW10 then SetInitialCongestionWindowInPackets s 10 else s in
        let s := if received kIW20 then SetInitialCongestionWindowInPackets s 20 else s in
        let s := if received kIW50 then SetInitialCongestionWindowInPackets s 50 else s in
        if received kMIN1 then SetMinCongestionWindowInPackets s 1 else s
      else s in
    let s := if received kMIN4 then SetMinCongestionWindowInPackets (s <| min4_mode_ := true |>) 1 else s in
    let s := if received kSSLR then s <| slow_start_large_reduction_ := true |> else s in
    if received kNPRR then s <| no_prr_ := true |> else s.

(** * Events *)

(** src/quiche/gquiche/quic/core/congestion_control/tcp_cubic_sender_bytes.cc:289-291 [TcpCubicSenderBytes::ExitSlowstart] *)
Definition ExitSlowstart (s : TcpCubicSender) : TcpCubicSender :=
  s <| slowstart_threshold_ := congestion_window_ s |>.

(** src/quiche/gquiche/quic/core/congestion_control/tcp_cubic_sender_bytes.cc:300-306 [TcpCubicSenderBytes::OnPacketLost, loss already accounted for] *)
Definition old_loss (s : TcpCubicSender) (lost_bytes : Z) : TcpCubicSender :=
  if last_cutback_exited_slowstart_ s then
    let s := s <| stats_ := stats_ s <| slowstart_packets_lost := slowstart_packets_lost (stats_ s) ⊕ 1 |>
                                     <| slowstart_bytes_lost := slowstart_bytes_lost (stats_ s) ⊕ lost_bytes |> |> in
    if slow_start_large_reduction_ s then
      let s := s <| congestion_window_ := Z.max (congestion_window_ s ⊖ lost_bytes) (min_slow_start_exit_window_ s) |> in
      s <| slowstart_threshold_ := congestion_window_ s |>
    else s
  else s.

(** src/quiche/gquiche/quic/core/congestion_control/tcp_cubic_sender_bytes.cc:325-335 [TcpCubicSenderBytes::OnPacketLost, window reduction] *)
Definition reduce_window (s : TcpCubicSender) : result TcpCubicSender :=
  if slow_start_large_reduction_ s && InSlowStart s then
    let* _ := CHECK (kDefaultTCPMSS <? congestion_window_ s) in
    let s := if 2 ⊗ initial_tcp_congestion_window_ s <=? congestion_window_ s
             then s <| min_slow_start_exit_window_ := congestion_window_ s / 2 |> else s in
    Ok (s <| congestion_window_ := congestion_window_ s ⊖ kDefaultTCPMSS |>)
  else if reno_ s then
    let* w := float_to_u64 (f32_mul (f32_of_Z (congestion_window_ s)) (RenoBeta s)) in
    Ok (s <| congestion_window_ := w |>)
  else
    let* r := CongestionWindowAfterPacketLoss (cubic_ s) (congestion_window_ s) in
    Ok (s <| cubic_ := r.1 |> <| congestion_window_ := r.2 |>).

(** src/quiche/gquiche/quic/core/congestion_control/tcp_cubic_sender_bytes.cc:293-347 [TcpCubicSenderBytes::OnPacketLost] *)
Definition OnPacketLost (s : TcpCubicSender) (packet_number : QuicPacketNumber)
    (lost_bytes prior_in_flight : Z) : result TcpCubicSender :=
  let* old := if PN_IsInitialized (largest_sent_at_last_cutback_ s)
    then PN_le packet_number (largest_sent_at_last_cutback_ s) else Ok false in
  if old then Ok (old_loss s lost_bytes)
  else
    let s := s <| stats_ := stats_ s <| tcp_loss_events := u32 (tcp_loss_events (stats_ s) + 1) |> |> in
    let s := s <| last_cutback_exited_slowstart_ := InSlowStart s |> in
    let s := if InSlowStart s
      then s <| stats_ := stats_ s <| slowstart_packets_lost := slowstart_packets_lost (stats_ s) ⊕ 1 |> |>
      else s in
    let s := if negb (no_prr_ s) then s <| prr_ := Prr_OnPacketLost (prr_ s) prior_in_flight |> else s in
    let* s := reduce_window s in
    let s := if congestion_window_ s <? min_congestion_window_ s
             then s <| congestion_window_ := min_congestion_window_ s |> else s in
    Ok (s <| slowstart_threshold_ := congestion_window_ s |>
          <| largest_sent_at_last_cutback_ := largest_sent_packet_number_ s |>
          <| num_acked_packets_ := 0 |>).

Section sender.
Context `{Libm}.

(** src/quiche/gquiche/quic/core/congestion_control/tcp_cubic_sender_bytes.cc:359-405 [TcpCubicSenderBytes::MaybeIncreaseCwnd].
    Its [QUIC_BUG_IF] is fatal in this build. *)
Definition MaybeIncreaseCwnd (rtt_stats_ : RttStats) (s : TcpCubicSender) (acked_packet_number : QuicPacketNumber)
    (acked_bytes prior_in_flight : Z) (event_time : QuicTime) : result TcpCubicSender :=
  let* _ := CHECK (negb (InRecovery s)) in
  if negb (IsCwndLimited s prior_in_flight) then
    Ok (s <| cubic_ := Cubic_OnApplicationLimited (cubic_ s) |>)
  else if max_congestion_window_ s <=? congestion_window_ s then Ok s
  else if InSlowStart s then
    Ok (s <| congestion_window_ := congestion_window_ s ⊕ kDefaultTCPMSS |>)
  else if reno_ s then
    let s := s <| num_acked_packets_ := num_acked_packets_ s ⊕ 1 |> in
    if congestion_window_ s / kDefaultTCPMSS <=? num_acked_packets_ s ⊗ num_connections_ s then
      Ok (s <| congestion_window_ := congestion_window_ s ⊕ kDefaultTCPMSS |> <| num_acked_packets_ := 0 |>)
    else Ok s
  else
    let* r := CongestionWindowAfterAck (cubic_ s) acked_bytes (congestion_window_ s)
                (min_rtt_ rtt_stats_) event_time in
    Ok (s <| cubic_ := r.1 |> <| congestion_window_ := Z.min (max_congestion_window_ s) r.2 |>).

(** src/quiche/gquiche/quic/core/congestion_control/tcp_cubic_sender_bytes.cc:145-162 [TcpCubicSenderBytes::OnPacketAcked] *)
Definition OnPacketAcked (rtt_stats_ : RttStats) (s : TcpCubicSender) (acked_packet_number : QuicPacketNumber)
    (acked_bytes prior_in_flight : Z) (event_time : QuicTime) : result TcpCubicSender :=
  let s := s <| largest_acked_packet_number_ :=
    PN_UpdateMax (largest_acked_packet_number_ s) acked_packet_number |> in
  if InRecovery s then
    Ok (if negb (no_prr_ s) then s <| prr_ := Prr_OnPacketAcked (prr_ s) acked_bytes |> else s)
  else
    let* s := MaybeIncreaseCwnd rtt_stats_ s acked_packet_number acked_bytes prior_in_flight event_time in
    if InSlowStart s then
      let* h := Hystart_OnPacketAcked (hybrid_slow_start_ s) acked_packet_number in
      Ok (s <| hybrid_slow_start_ := h |>)
    else Ok s.

(** src/quiche/gquiche/quic/core/congestion_control/tcp_cubic_sender_bytes.cc:129-133 [TcpCubicSenderBytes::OnCongestionEvent, slow start exit] *)
Definition maybe_exit_slow_start (rtt_stats_ : RttStats) (s : TcpCubicSender) (rtt_updated : bool) : TcpCubicSender :=
  if rtt_updated && InSlowStart s then
    let r := ShouldExitSlowStart (hybrid_slow_start_ s) (latest_rtt_ rtt_stats_) (min_rtt_ rtt_stats_)
               (GetCongestionWindow s / kDefaultTCPMSS) in
    let s := s <| hybrid_slow_start_ := r.1 |> in
    if r.2 then ExitSlowstart s else s
  else s.

(** src/quiche/gquiche/quic/core/congestion_control/tcp_cubic_sender_bytes.cc:123-143 [TcpCubicSenderBytes::OnCongestionEvent].
    [bytes_acked] is a [uint16_t]. *)
Definition OnCongestionEvent (rtt_stats_ : RttStats) (s : TcpCubicSender) (rtt_updated : bool)
    (prior_in_flight : Z) (event_time : QuicTime)
    (acked_packets : list AckedPacket) (lost_packets : list LostPacket) : result TcpCubicSender :=
  let s := maybe_exit_slow_start rtt_stats_ s rtt_updated in
  let* s := rfold (fun s l => OnPacketLost s (lost_packet_number l) (bytes_lost l) prior_in_flight) lost_packets s in
  rfold (fun s a => OnPacketAcked rtt_stats_ s (acked_packet_number a) (u16 (bytes_acked a))
                      prior_in_flight event_time) acked_packets s.
End sender.

(** src/quiche/gquiche/quic/core/congestion_control/tcp_cubic_sender_bytes.cc:164-185 [TcpCubicSenderBytes::OnPacketSent] *)
Definition OnPacketSent (s : TcpCubicSender) (sent_time : QuicTime) (bytes_in_flight : Z)
    (packet_number : QuicPacketNumber) (bytes : Z) (is_retransmittable : HasRetransmittableData)
    : result TcpCubicSender :=
  let s := if InSlowStart s
    then s <| stats_ := stats_ s <| slowstart_packets_sent := slowstart_packets_sent (stats_ s) ⊕ 1 |> |> else s in
  if bool_decide (is_retransmittable <> HAS_RETRANSMITTABLE_DATA) then Ok s
  else
    let s := if InRecovery s then s <| prr_ := Prr_OnPacketSent (prr_ s) bytes |> else s in
    let* increasing := if PN_IsInitialized (largest_sent_packet_number_ s)
      then PN_lt (largest_sent_packet_number_ s) packet_number else Ok true in
    let* _ := CHECK increasing in
    let s := s <| largest_sent_packet_number_ := packet_number |> in
    Ok (s <| hybrid_slow_start_ := Hystart_OnPacketSent (hybrid_slow_start_ s) packet_number |>).

(** src/quiche/gquiche/quic/core/congestion_control/tcp_cubic_sender_bytes.cc:407-411 [TcpCubicSenderBytes::HandleRetransmissionTimeout] *)
Definition HandleRetransmissionTimeout (s : TcpCubicSender) : TcpCubicSender :=
  let s := s <| cubic_ := ResetCubicState (cubic_ s) |> in
  let s := s <| slowstart_threshold_ := congestion_window_ s / 2 |> in
  s <| congestion_window_ := min_congestion_window_ s |>.

(** src/quiche/gquiche/quic/core/congestion_control/tcp_cubic_sender_bytes.cc:247-254 [TcpCubicSenderBytes::OnRetransmissionTimeout] *)
Definition OnRetransmissionTimeout (s : TcpCubicSender) (packets_retransmitted : bool) : TcpCubicSender :=
  let s := s <| largest_sent_at_last_cutback_ := PN_Clear |> in
  if negb packets_retransmitted then s
  else HandleRetransmissionTimeout (s <| hybrid_slow_start_ := Restart (hybrid_slow_start_ s) |>).

(** src/quiche/gquiche/quic/core/congestion_control/tcp_cubic_sender_bytes.cc:413-425 [TcpCubicSenderBytes::OnConnectionMigration] *)
Definition OnConnectionMigration (s : TcpCubicSender) : TcpCubicSender :=
  s <| hybrid_slow_start_ := Restart (hybrid_slow_start_ s) |>
    <| prr_ := PrrSender_init |>
    <| largest_sent_packet_number_ := PN_Clear |>
    <| largest_acked_packet_number_ := PN_Clear |>
    <| largest_sent_at_last_cutback_ := PN_Clear |>
    <| last_cutback_exited_slowstart_ := false |>
    <| cubic_ := ResetCubicState (cubic_ s) |>
    <| num_acked_packets_ := 0 |>
    <| congestion_window_ := initial_tcp_congestion_window_ s |>
    <| max_congestion_window_ := initial_max_tcp_congestion_window_ s |>
    <| slowstart_threshold_ := initial_max_tcp_congestion_window_ s |>.

(** src/quiche/gquiche/quic/core/congestion_control/tcp_cubic_sender_bytes.h:34-80 [TcpCubicSenderBytes, SendAlgorithmInterface] *)
#[export] Instance TcpCubicSender_interface `{Libm} : SendAlgorithmInterface TcpCubicSender := {|
  sa_SetInitialCongestionWindowInPackets := SetInitialCongestionWindowInPackets;
  sa_OnCongestionEvent := OnCongestionEvent;
  sa_OnPacketSent := OnPacketSent;
  sa_OnPacketNeutered s _ := Ok s;
  sa_OnRetransmissionTimeout := OnRetransmissionTimeout;
  sa_OnConnectionMigration := OnConnectionMigration;
  sa_CanSend := CanSend;
  sa_PacingRate := PacingRate;
  sa_BandwidthEstimate := BandwidthEstimate;
  sa_GetCongestionWindow := GetCongestionWindow;
  sa_InSlowStart := InSlowStart;
  sa_InRecovery := InRecovery;
  sa_ShouldSendProbingPacket := ShouldSendProbingPacket;
  sa_GetSlowStartThreshold := GetSlowStartThreshold;
  sa_GetCongestionControlType := GetCongestionControlType;
  sa_AdjustNetworkParameters _ s params := Ok (AdjustNetworkParameters s params);
  sa_OnApplicationLimited s _ := s;
|}.

(** * The window *)

(** What the window's bounds need of the cubic state: an estimate that was
    started is at least [lo]. *)
Record cubic_floor (lo : Z) (c : CubicBytes) : Prop := {
  cf_connections : CubicBytes.num_connections_ c = kDefaultNumConnections;
  cf_acked : 0 <= acked_bytes_count_ c < two64;
  cf_estimate : epoch_ c <> 0 -> lo <= estimated_tcp_congestion_window_ c < two64;
}.

Lemma cubic_floor_stopped lo c :
  CubicBytes.num_connections_ c = kDefaultNumConnections -> 0 <= acked_bytes_count_ c < two64 -> epoch_ c = 0 ->
  cubic_floor lo c.
Proof. intros. by split. Qed.

Lemma start_epoch_floor `{Libm} lo c acked w t c' :
  cubic_floor lo c -> lo <= w < two64 -> 0 <= acked < two64 ->
  start_epoch c acked w t = Ok c' ->
  CubicBytes.num_connections_ c' = kDefaultNumConnections /\ 0 <= acked_bytes_count_ c' < two64 /\
  lo <= estimated_tcp_congestion_window_ c' < two64.
Proof.
  intros [Hn Ha He] Hw Hack Hs. unfold start_epoch, QuicTime_IsInitialized in Hs.
  destruct (Z.eqb_spec (epoch_ c) 0) as [E|E]; cbn [negb] in Hs.
  - destruct (_ <=? w); inv_ok; cbn; (split; [done|lia]).
  - injection Hs as <-. auto.
Qed.

Lemma cubic_target_range c w t r : cubic_target c w t = Ok r -> r < two64.
Proof.
  unfold cubic_target. intros Hr. inv_ok.
  match goal with |- Z.min ?a ?b < _ => assert (b < two64) by apply u64_range; lia end.
Qed.

Lemma CongestionWindowAfterAck_floor `{Libm} lo c acked w d t c' w' :
  kDefaultTCPMSS <= lo < 2 ^ 24 -> cubic_floor lo c -> lo <= w < two64 -> 0 <= acked < two64 ->
  CongestionWindowAfterAck c acked w d t = Ok (c', w') -> cubic_floor lo c' /\ lo <= w' < two64.
Proof.
  intros Hlo Hc Hw Hack Heq. unfold CongestionWindowAfterAck in Heq.
  apply rbind_Ok in Heq as (c1 & Hs & Heq). apply rbind_Ok in Heq as (tg & Ht & Heq).
  apply rbind_Ok in Heq as (_ & _ & Heq). apply rbind_Ok in Heq as (e & He & Heq).
  apply (start_epoch_floor lo) in Hs as (Hn & Ha & Hest); [| |done|done].
  2:{ destruct Hc as [? ? ?]. split; [done|apply u64_range|done]. }
  apply (next_tcp_estimate_floor c1 lo) in He; [|done..]. apply cubic_target_range in Ht.
  injection Heq as <- <-. cbn. split; [split; cbn; (done || lia)|]. destruct (Z.ltb_spec tg e); lia.
Qed.

(** The invariant behind the floor of one segment. *)
Record tcp_inv (s : TcpCubicSender) : Prop := {
  ti_min : kDefaultTCPMSS <= min_congestion_window_ s < 2 ^ 24;
  ti_window : kDefaultTCPMSS <= congestion_window_ s < two64;
  ti_exit : kDefaultTCPMSS <= min_slow_start_exit_window_ s < two64;
  ti_initial : kDefaultTCPMSS <= initial_tcp_congestion_window_ s < 2 ^ 62;
  ti_max : kDefaultTCPMSS <= max_congestion_window_ s < 2 ^ 62;
  ti_cubic : cubic_floor kDefaultTCPMSS (cubic_ s);
}.

(** The reduction itself touches the window, the exit window and the cubic
    state only. *)
Lemma reduce_window_inv s s' :
  tcp_inv s -> reduce_window s = Ok s' ->
  tcp_inv (s' <| congestion_window_ := min_congestion_window_ s' |>) /\ 0 <= congestion_window_ s' < two64.
Proof.
  intros Hs H. pose proof Hs as []. unfold reduce_window, kDefaultTCPMSS in *.
  destruct (slow_start_large_reduction_ s && InSlowStart s); [|destruct (reno_ s)].
  - apply rbind_Ok in H as (_ & _ & H). injection H as <-.
    destruct (Z.leb_spec (u64 (2 * initial_tcp_congestion_window_ s)) (congestion_window_ s)) as [Hi|_].
    + rewrite u64_small in Hi by lia.
      assert (1460 <= congestion_window_ s / 2 < two64)
        by (split; [apply Z.div_le_lower_bound|apply Z.div_lt_upper_bound]; lia).
      split; [split; unfold kDefaultTCPMSS; cbn; (done || lia)|apply u64_range].
    + split; [split; unfold kDefaultTCPMSS; cbn; (done || lia)|apply u64_range].
  - apply rbind_Ok in H as (w & Hw & H). injection H as <-. apply float_to_u64_range in Hw.
    split; [split; unfold kDefaultTCPMSS; cbn; (done || lia)|done].
  - apply rbind_Ok in H as ([c w] & Hw & H). injection H as <-. unfold CongestionWindowAfterPacketLoss in Hw.
    apply rbind_Ok in Hw as (lm & _ & Hw). apply rbind_Ok in Hw as (v & _ & Hw). injection Hw as <- <-.
    split; [|apply u64_range]. destruct ti_cubic0. split; unfold kDefaultTCPMSS; cbn; (done || lia || by apply cubic_floor_stopped).
Qed.

Lemma tcp_inv_window s w :
  tcp_inv (s <| congestion_window_ := min_congestion_window_ s |>) -> kDefaultTCPMSS <= w < two64 ->
  tcp_inv (s <| congestion_window_ := w |>).
Proof. intros [] Hw. by split. Qed.

(** Only these members matter to the invariant. *)
Lemma tcp_inv_ext s s' :
  tcp_inv s -> min_congestion_window_ s' = min_congestion_window_ s ->
  congestion_window_ s' = congestion_window_ s -> min_slow_start_exit_window_ s' = min_slow_start_exit_window_ s ->
  initial_tcp_congestion_window_ s' = initial_tcp_congestion_window_ s ->
  max_congestion_window_ s' = max_congestion_window_ s -> cubic_ s' = cubic_ s -> tcp_inv s'.
Proof. intros [] E1 E2 E3 E4 E5 E6. split; rewrite ?E1, ?E2, ?E3, ?E4, ?E5, ?E6; done. Qed.

Lemma OnPacketLost_inv s p b f s' : tcp_inv s -> OnPacketLost s p b f = Ok s' -> tcp_inv s'.
Proof.
  intros Hs H. unfold OnPacketLost in H. apply rbind_Ok in H as (old & _ & H). destruct old.
  - injection H as <-. unfold old_loss. destruct (last_cutback_exited_slowstart_ s); [|done].
    cbn. destruct (slow_start_large_reduction_ s).
    + destruct Hs. pose proof (u64_range (congestion_window_ s - b)). unfold kDefaultTCPMSS in *.
      split; unfold kDefaultTCPMSS; cbn; try done; lia.
    + by eapply tcp_inv_ext.
  - apply rbind_Ok in H as (s1 & H1 & H). injection H as <-.
    apply reduce_window_inv in H1 as [H1 Hw].
    2:{ eapply tcp_inv_ext; [exact Hs|..]; by repeat (cbn; case_match). }
    destruct (Z.ltb_spec (congestion_window_ s1) (min_congestion_window_ s1)).
    + eapply tcp_inv_ext; [exact H1|done..].
    + eapply tcp_inv_ext; [eapply (tcp_inv_window s1 (congestion_window_ s1)); [exact H1|]|done..].
      pose proof (ti_min _ H1) as Hm. cbn in Hm. lia.
Qed.

Section laws.
Context `{Libm}.

Lemma MaybeIncreaseCwnd_inv r s p b f t s' :
  tcp_inv s -> 0 <= b < two64 -> MaybeIncreaseCwnd r s p b f t = Ok s' -> tcp_inv s'.
Proof.
  intros Hs Hb Heq. pose proof Hs as []. unfold MaybeIncreaseCwnd, kDefaultTCPMSS in *.
  apply rbind_Ok in Heq as (_ & _ & Heq).
  destruct (negb _).
  { injection Heq as <-. split; unfold kDefaultTCPMSS; cbn; try done. destruct ti_cubic0. by apply cubic_floor_stopped. }
  destruct (Z.leb_spec (max_congestion_window_ s) (congestion_window_ s)); [by injection Heq as <-|].
  destruct (InSlowStart s).
  { injection Heq as <-. split; unfold kDefaultTCPMSS; cbn; try done. rewrite u64_small by lia. lia. }
  destruct (reno_ s).
  { cbn in Heq. destruct (_ <=? _); injection Heq as <-; split; unfold kDefaultTCPMSS; cbn; try done. rewrite u64_small by lia. lia. }
  apply rbind_Ok in Heq as ([c w] & Hc & Heq). injection Heq as <-.
  apply (CongestionWindowAfterAck_floor 1460) in Hc as [Hc Hw]; [|unfold kDefaultTCPMSS; lia|done|lia|done].
  split; unfold kDefaultTCPMSS; cbn; try done. lia.
Qed.

Lemma OnPacketAcked_inv r s p b f t s' :
  tcp_inv s -> 0 <= b < two64 -> OnPacketAcked r s p b f t = Ok s' -> tcp_inv s'.
Proof.
  intros Hs Hb Heq. unfold OnPacketAcked in Heq. set (s0 := s <| largest_acked_packet_number_ := _ |>) in *.
  assert (H0 : tcp_inv s0) by (eapply tcp_inv_ext; [exact Hs|done..]). destruct (InRecovery s0).
  { injection Heq as <-. destruct (negb _); [|done]. eapply tcp_inv_ext; [exact H0|done..]. }
  apply rbind_Ok in Heq as (s1 & H1 & Heq). apply MaybeIncreaseCwnd_inv in H1; [|done|done].
  destruct (InSlowStart s1); [|by injection Heq as <-]. apply rbind_Ok in Heq as (h & _ & Heq).
  injection Heq as <-. eapply tcp_inv_ext; [exact H1|done..].
Qed.

Lemma maybe_exit_inv r s u : tcp_inv s -> tcp_inv (maybe_exit_slow_start r s u).
Proof.
  intros Hs. unfold maybe_exit_slow_start. destruct (_ && _); [|done]. cbn. destruct (_.2); (eapply tcp_inv_ext; [exact Hs|done..]).
Qed.

Lemma OnCongestionEvent_inv r s u f t acked lost s' :
  tcp_inv s -> OnCongestionEvent r s u f t acked lost = Ok s' -> tcp_inv s'.
Proof.
  intros Hs Heq. unfold OnCongestionEvent in Heq. apply rbind_Ok in Heq as (s1 & H1 & Heq).
  eapply (rfold_inv tcp_inv) in H1; [|intros; by eapply OnPacketLost_inv|by apply maybe_exit_inv].
  eapply (rfold_inv tcp_inv) in Heq; [done| |exact H1].
  intros a x x' _ Hx Ha. eapply OnPacketAcked_inv; [exact Hx| |exact Ha]. pose proof (u16_range (bytes_acked a)). lia.
Qed.

Lemma OnPacketSent_inv s t f p b d s' : tcp_inv s -> OnPacketSent s t f p b d = Ok s' -> tcp_inv s'.
Proof.
  intros Hs Heq. unfold OnPacketSent in Heq.
  set (s0 := if InSlowStart s then _ else s) in *.
  assert (H0 : tcp_inv s0) by (unfold s0; destruct (InSlowStart s); [eapply tcp_inv_ext; [exact Hs|done..]|done]).
  destruct (bool_decide _); [by injection Heq as <-|].
  apply rbind_Ok in Heq as (? & _ & Heq). apply rbind_Ok in Heq as (? & _ & Heq). injection Heq as <-.
  destruct (InRecovery s0); (eapply tcp_inv_ext; [exact H0|done..]).
Qed.

Lemma OnRetransmissionTimeout_inv s b : tcp_inv s -> tcp_inv (OnRetransmissionTimeout s b).
Proof.
  intros Hs. destruct b; cbn; [|by eapply tcp_inv_ext]. destruct Hs as [].
  unfold kDefaultTCPMSS in *. split; unfold kDefaultTCPMSS; cbn; try done; [lia|]. destruct ti_cubic0.
  apply cubic_floor_stopped; cbn; (done || lia).
Qed.

#[export] Instance TcpCubicSender_laws : SendAlgorithmLaws TcpCubicSender.
Proof.
  refine {| sender_inv := tcp_inv |}; cbn.
  - intros. by eapply OnCongestionEvent_inv.
  - intros. by eapply OnPacketSent_inv.
  - intros. by apply OnRetransmissionTimeout_inv.
  - intros s []. done.
  - intros s []. unfold CanSend, Prr_CanSend, GetCongestionWindow, kMaxSegmentSize, kDefaultTCPMSS in *.
    destruct (_ && _); [by rewrite orb_true_r|]. destruct (Z.ltb_spec 0 (congestion_window_ s)); [done|lia].
Defined.
End laws.

(** ** Bounds with the default configuration *)

Record tcp_bounds (M : Z) (s : TcpCubicSender) : Prop := {
  tb_min : min_congestion_window_ s = 2920;
  tb_max : max_congestion_window_ s = M;
  tb_window : 2920 <= congestion_window_ s <= M + 1459;
  tb_reduction : slow_start_large_reduction_ s = false;
  tb_connections : num_connections_ s = kDefaultNumConnections;
  tb_cubic : cubic_floor 2920 (cubic_ s);
}.

Lemma tcp_bounds_ext M s s' :
  tcp_bounds M s -> min_congestion_window_ s' = min_congestion_window_ s ->
  max_congestion_window_ s' = max_congestion_window_ s -> congestion_window_ s' = congestion_window_ s ->
  slow_start_large_reduction_ s' = slow_start_large_reduction_ s -> num_connections_ s' = num_connections_ s ->
  cubic_ s' = cubic_ s -> tcp_bounds M s'.
Proof. intros [] E1 E2 E3 E4 E5 E6. split; rewrite ?E1, ?E2, ?E3, ?E4, ?E5, ?E6; done. Qed.

Lemma RenoBeta_range s :
  num_connections_ s = kDefaultNumConnections -> backoff_factor (RenoBeta s).
Proof. unfold RenoBeta. intros ->. split_and!; vm_compute; intuition congruence. Qed.

(** A reduction takes 14 to 16 percent off the window. *)
Lemma reduce_window_cut M s s' :
  tcp_bounds M s -> M < 2 ^ 40 -> reduce_window s = Ok s' ->
  84 * congestion_window_ s / 100 <= congestion_window_ s' <= 86 * congestion_window_ s / 100 /\
  tcp_bounds M (s' <| congestion_window_ := 2920 |>) /\
  largest_sent_packet_number_ s' = largest_sent_packet_number_ s.
Proof.
  intros Hs HM Heq. pose proof Hs as []. unfold reduce_window in Heq. rewrite tb_reduction0 in Heq. cbn [andb] in Heq.
  destruct (reno_ s).
  - apply rbind_Ok in Heq as (w & Hw & Heq). injection Heq as <-.
    destruct (backoff_bounds _ (congestion_window_ s) (RenoBeta_range s tb_connections0) ltac:(lia)) as (v & Ev & Hr).
    unfold float_to_u64 in Hw. rewrite Ev in Hw. unfold cast_range in Hw. destruct (_ && _); [|done].
    injection Hw as <-. split; [done|]. split; [|done]. split; cbn; (done || lia).
  - apply rbind_Ok in Heq as ([c w] & Hw & Heq). injection Heq as <-.
    apply CongestionWindowAfterPacketLoss_cut in Hw as (Hw & Hn & He & Ha); [|apply tb_cubic0|lia].
    split; [done|]. split; [|done]. split; cbn; try (done || lia). destruct tb_cubic0.
    apply cubic_floor_stopped; [congruence|by rewrite Ha|done].
Qed.

(** ** One reduction per flight *)

(** A loss that opens a recovery period. *)
Lemma OnPacketLost_cut M s p b f s' :
  tcp_bounds M s -> M < 2 ^ 40 ->
  (PN_IsInitialized (largest_sent_at_last_cutback_ s) = false \/
   PN_le p (largest_sent_at_last_cutback_ s) = Ok false) ->
  OnPacketLost s p b f = Ok s' ->
  tcp_bounds M s' /\
  Z.max 2920 (84 * congestion_window_ s / 100) <= congestion_window_ s' <= Z.max 2920 (86 * congestion_window_ s / 100) /\
  slowstart_threshold_ s' = congestion_window_ s' /\
  largest_sent_at_last_cutback_ s' = largest_sent_packet_number_ s.
Proof.
  intros Hs HM Hnew Heq. unfold OnPacketLost in Heq.
  assert (Eold : (if PN_IsInitialized (largest_sent_at_last_cutback_ s)
    then PN_le p (largest_sent_at_last_cutback_ s) else Ok false) = Ok false)
    by (destruct Hnew as [E|E]; rewrite E; [done|by destruct (PN_IsInitialized _)]).
  rewrite Eold in Heq. cbn [rbind] in Heq. apply rbind_Ok in Heq as (s1 & H1 & Heq). injection Heq as <-.
  match type of H1 with reduce_window ?u = _ => assert (Hu : tcp_bounds M u /\ congestion_window_ u = congestion_window_ s /\
    largest_sent_packet_number_ u = largest_sent_packet_number_ s) end.
  { split; [eapply tcp_bounds_ext; [exact Hs|..]|split]; by repeat (cbn; case_match). }
  destruct Hu as (Hu & Ew & El). apply (reduce_window_cut M) in H1 as (Hw & Hb & Hl); [|done|done].
  rewrite Ew in Hw. assert (86 * congestion_window_ s / 100 <= congestion_window_ s) by (pose proof (tb_window _ _ Hs); apply Z.div_le_upper_bound; lia).
  destruct Hb as []. destruct Hs as []. cbn in *. rewrite tb_min0.
  destruct (Z.ltb_spec (congestion_window_ s1) 2920); cbn; rewrite ?tb_min0, Hl, El.
  - split; [split; cbn; (done || lia)|]. split_and!; try done; lia.
  - split; [split; cbn; (done || lia)|]. split_and!; try done; lia.
Qed.

(** A loss of a packet sent before the last reduction. *)
Lemma OnPacketLost_old M s p b f :
  tcp_bounds M s -> PN_IsInitialized (largest_sent_at_last_cutback_ s) = true ->
  PN_IsInitialized p = true -> p <= largest_sent_at_last_cutback_ s ->
  exists s', OnPacketLost s p b f = Ok s' /\ tcp_bounds M s' /\ congestion_window_ s' = congestion_window_ s /\
    slowstart_threshold_ s' = slowstart_threshold_ s /\
    largest_sent_at_last_cutback_ s' = largest_sent_at_last_cutback_ s.
Proof.
  intros Hs Hc Hp Hle. unfold OnPacketLost. rewrite Hc, PN_le_init, (proj2 (Z.leb_le _ _) Hle) by done. cbn [rbind].
  eexists; split; [done|]. unfold old_loss. destruct (last_cutback_exited_slowstart_ s); [|done].
  pose proof (tb_reduction _ _ Hs) as El. cbn. rewrite El. split; [|done]. eapply tcp_bounds_ext; [exact Hs|done..].
Qed.

Lemma float_to_i32_mag x lo hi :
  mag_in x lo hi -> 0 <= hi <= 31 -> exists z, float_to_i32 x = Ok z /\ 0 <= z < 2 ^ hi.
Proof.
  intros Hx Hhi. destruct (float_trunc_mag x lo hi) as (z & Hz & Hr); [done|lia|].
  exists z. unfold float_to_i32. rewrite Hz. cbn.
  assert (2 ^ hi <= 2 ^ 31) by (apply Z.pow_le_mono_r; lia). zcases; [done|lia..].
Qed.

Lemma reduce_window_total M s : tcp_bounds M s -> M < 2 ^ 26 -> exists s', reduce_window s = Ok s'.
Proof.
  intros [] HM. unfold reduce_window. rewrite tb_reduction0. cbn [andb].
  assert (Hw : mag_in (f32_of_Z (congestion_window_ s)) 1 28) by (apply (f32_of_Z_mag _ 0 27); lia).
  destruct (reno_ s).
  - destruct (RenoBeta_range s tb_connections0) as (_ & _ & Hb).
    pose proof (f32_mul_mag _ _ _ _ _ _ Hw Hb ltac:(lia) ltac:(lia)) as Hm.
    destruct (float_to_u64_mag _ _ _ Hm ltac:(lia)) as (v & -> & _). cbn. eauto.
  - unfold CongestionWindowAfterPacketLoss. destruct tb_cubic0 as [Hn _ _].
    destruct (Beta_range (cubic_ s) Hn) as (_ & _ & Hb).
    assert (Hl : mag_in (BetaLastMax (cubic_ s)) (-1) 1)
      by (unfold BetaLastMax; rewrite Hn; vm_compute; intuition congruence).
    pose proof (f32_mul_mag _ _ _ _ _ _ Hw Hb ltac:(lia) ltac:(lia)) as Hm.
    pose proof (f32_mul_mag _ _ _ _ _ _ Hl Hw ltac:(lia) ltac:(lia)) as Hm'.
    destruct (float_to_i32_mag _ _ _ Hm ltac:(lia)) as (v & Ev & _).
    destruct (float_to_i32_mag _ _ _ Hm' ltac:(lia)) as (v' & Ev' & _).
    destruct (_ <? _); [rewrite Ev'|]; cbn [rbind];
      (match goal with |- context [Beta ?c] => change (Beta c) with (Beta (cubic_ s)) end); rewrite Ev; cbn; eauto.
Qed.

Lemma OnPacketLost_cut_total M s p b f :
  tcp_bounds M s -> M < 2 ^ 26 ->
  (PN_IsInitialized (largest_sent_at_last_cutback_ s) = false \/
   PN_le p (largest_sent_at_last_cutback_ s) = Ok false) ->
  exists s', OnPacketLost s p b f = Ok s'.
Proof.
  intros Hs HM Hnew. unfold OnPacketLost.
  assert (Eold : (if PN_IsInitialized (largest_sent_at_last_cutback_ s)
    then PN_le p (largest_sent_at_last_cutback_ s) else Ok false) = Ok false)
    by (destruct Hnew as [E|E]; rewrite E; [done|by destruct (PN_IsInitialized _)]).
  rewrite Eold. cbn [rbind]. match goal with |- context [reduce_window ?u] => destruct (reduce_window_total M u) as (s1 & ->) end;
    [|done|cbn; eauto]. eapply tcp_bounds_ext; [exact Hs|..]; by repeat (cbn; case_match).
Qed.

Lemma old_losses M f ls : forall s,
  tcp_bounds M s -> PN_IsInitialized (largest_sent_at_last_cutback_ s) = true ->
  Forall (fun l => PN_IsInitialized (lost_packet_number l) = true /\
                   lost_packet_number l <= largest_sent_at_last_cutback_ s) ls ->
  exists s', rfold (fun s l => OnPacketLost s (lost_packet_number l) (bytes_lost l) f) ls s = Ok s' /\
    tcp_bounds M s' /\ congestion_window_ s' = congestion_window_ s /\ slowstart_threshold_ s' = slowstart_threshold_ s.
Proof.
  induction ls as [|l ls IH]; intros s Hs Hc Hls; cbn [rfold]; [by exists s|].
  apply Forall_cons in Hls as [[Hl1 Hl2] Hls].
  destruct (OnPacketLost_old M s _ (bytes_lost l) f Hs Hc Hl1 Hl2) as (s1 & -> & H1 & E1 & E2 & E3). cbn [rbind].
  destruct (IH s1 H1) as (s' & E & H2 & E4 & E5); [by rewrite E3|by rewrite E3|].
  exists s'. rewrite E4, E5, E1, E2. done.
Qed.


(** ** Runs *)

Section runs.
Context `{Libm}.

Lemma OnPacketLost_bounds M s p b f s' :
  tcp_bounds M s -> M < 2 ^ 40 -> OnPacketLost s p b f = Ok s' -> tcp_bounds M s'.
Proof.
  intros Hs HM Heq. pose proof Heq as Heq'. unfold OnPacketLost in Heq'. apply rbind_Ok in Heq' as (old & Hold & _).
  destruct old.
  - destruct (PN_IsInitialized (largest_sent_at_last_cutback_ s)) eqn:Ec; [|done].
    unfold PN_le in Hold. apply rbind_Ok in Hold as (u & Hu & Hle). apply PN_both_Ok in Hu as [Hp _].
    injection Hle as Hle. apply Z.leb_le in Hle.
    destruct (OnPacketLost_old M s p b f Hs Ec Hp Hle) as (s2 & E & ? & _). congruence.
  - eapply OnPacketLost_cut; [exact Hs|done| |exact Heq].
    destruct (PN_IsInitialized (largest_sent_at_last_cutback_ s)); auto.
Qed.

Lemma MaybeIncreaseCwnd_bounds M r s p b f t s' :
  tcp_bounds M s -> 2920 <= M < 2 ^ 40 -> 0 <= b < two64 -> MaybeIncreaseCwnd r s p b f t = Ok s' -> tcp_bounds M s'.
Proof.
  intros Hs HM Hb Heq. pose proof Hs as []. unfold MaybeIncreaseCwnd, kDefaultTCPMSS in *.
  apply rbind_Ok in Heq as (_ & _ & Heq).
  destruct (negb _).
  { injection Heq as <-. split; cbn; try done. destruct tb_cubic0. by apply cubic_floor_stopped. }
  destruct (Z.leb_spec (max_congestion_window_ s) (congestion_window_ s)); [by injection Heq as <-|].
  destruct (InSlowStart s).
  { injection Heq as <-. split; cbn; try done. rewrite u64_small by lia. lia. }
  destruct (reno_ s).
  { cbn in Heq. destruct (_ <=? _); injection Heq as <-; split; cbn; try done. rewrite u64_small by lia. lia. }
  apply rbind_Ok in Heq as ([c w] & Hc & Heq). injection Heq as <-.
  apply (CongestionWindowAfterAck_floor 2920) in Hc as [Hc Hw]; [|unfold kDefaultTCPMSS; lia|done|lia|done].
  split; cbn; try done. lia.
Qed.

Lemma OnPacketAcked_bounds M r s p b f t s' :
  tcp_bounds M s -> 2920 <= M < 2 ^ 40 -> 0 <= b < two64 -> OnPacketAcked r s p b f t = Ok s' -> tcp_bounds M s'.
Proof.
  intros Hs HM Hb Heq. unfold OnPacketAcked in Heq. set (s0 := s <| largest_acked_packet_number_ := _ |>) in *.
  assert (H0 : tcp_bounds M s0) by (eapply tcp_bounds_ext; [exact Hs|done..]). destruct (InRecovery s0).
  { injection Heq as <-. destruct (negb _); [|done]. eapply tcp_bounds_ext; [exact H0|done..]. }
  apply rbind_Ok in Heq as (s1 & H1 & Heq). apply (MaybeIncreaseCwnd_bounds M) in H1; [|done|done|done].
  destruct (InSlowStart s1); [|by injection Heq as <-]. apply rbind_Ok in Heq as (h & _ & Heq).
  injection Heq as <-. eapply tcp_bounds_ext; [exact H1|done..].
Qed.

Lemma sender_step_bounds M s e s' :
  tcp_bounds M s -> 2920 <= M < 2 ^ 40 -> sender_step s e = Ok s' -> tcp_bounds M s'.
Proof.
  intros Hs HM Heq. destruct e as [r u f t acked lost|t f p b d|b]; cbn in Heq.
  - unfold OnCongestionEvent in Heq. apply rbind_Ok in Heq as (s1 & H1 & Heq).
    assert (H0 : tcp_bounds M (maybe_exit_slow_start r s u)).
    { unfold maybe_exit_slow_start. destruct (_ && _); [|done]. cbn. destruct (_.2); (eapply tcp_bounds_ext; [exact Hs|done..]). }
    eapply (rfold_inv (tcp_bounds M)) in H1; [|intros l x x' _ Hx Hl; eapply OnPacketLost_bounds; [exact Hx|lia|exact Hl]|exact H0].
    eapply (rfold_inv (tcp_bounds M)) in Heq; [done| |exact H1].
    intros a x x' _ Hx Ha. eapply OnPacketAcked_bounds; [exact Hx|done| |exact Ha]. pose proof (u16_range (bytes_acked a)). lia.
  - unfold OnPacketSent in Heq. set (s0 := if InSlowStart s then _ else s) in *.
    assert (H0 : tcp_bounds M s0) by (unfold s0; destruct (InSlowStart s); [eapply tcp_bounds_ext; [exact Hs|done..]|done]).
    destruct (bool_decide _); [by injection Heq as <-|].
    apply rbind_Ok in Heq as (? & _ & Heq). apply rbind_Ok in Heq as (? & _ & Heq). injection Heq as <-.
    destruct (InRecovery s0); (eapply tcp_bounds_ext; [exact H0|done..]).
  - injection Heq as <-. destruct b; cbn; [|eapply tcp_bounds_ext; [exact Hs|done..]]. destruct Hs as [].
    split; cbn; try (done || lia). destruct tb_cubic0. apply cubic_floor_stopped; cbn; (done || lia).
Qed.

End runs.

(** A flow that sends 40 packets, has twelve of them acknowledged, and then loses
    two. *)
Definition example_rtt : RttStats := RttStats_init.
Definition example_events : list sender_event :=
  map (fun i => EvSent 1000 (1460 * Z.of_nat i) (Z.of_nat i + 1) 1460 HAS_RETRANSMITTABLE_DATA) (seq 0 40) ++
  [EvCongestion example_rtt true 58400 60000 (map (fun i => mkAcked (Z.of_nat i + 1) 1460 0) (seq 0 12)) [];
   EvCongestion example_rtt true 40880 70000 [mkAcked 15 1460 0] [mkLost 13 1460; mkLost 14 1460]].
Definition example_sender (reno : bool) : TcpCubicSender :=
  match @rfold _ _ (@sender_step _ (@TcpCubicSender_interface truncating_libm)) example_events
          (TcpCubicSender_init reno 32 2000 QuicConnectionStats_init) with
  | Ok s => s
  | Fault _ => TcpCubicSender_init reno 32 2000 QuicConnectionStats_init
  end.


(** The same flow before its losses are reported. *)
Definition flying_sender : TcpCubicSender :=
  TcpCubicSender_init true 32 2000 QuicConnectionStats_init <| largest_sent_packet_number_ := 40 |>.

