(* ===== verification/QuicTag.v ===== *)
(** [Ns3QuicTag] (ns3-quic-tag.h, ns3-quic-tag.cc): the sequence number and
    send time a packet carries through the simulated network, as two
    variable-length integers of seven bits a byte, low bits first. *)

From S2P Require Import Prelude.

(** src/src/quic/model/ns3-quic-tag.h:22-23 [Ns3QuicTag] *)
Record Ns3QuicTag := mkTag { seq_ : Z; time_ : Z }.

(** src/src/quic/model/ns3-quic-tag.cc:9-12 [varint_length, loop].  [next] is an [int64_t]. *)
Fixpoint varint_length_loop (fuel : nat) (next key : Z) : result Z :=
  match fuel with
  | O => Fault OutOfFuel
  | S fuel =>
      let next := Z.quot next 128 in
      let key := key + 1 in
      if 0 <? next then varint_length_loop fuel next key else Ok key
  end.
(** src/src/quic/model/ns3-quic-tag.cc:5-15 [varint_length] *)
Definition varint_length (number : Z) : result Z :=
  let next := i64 number in
  if negb (next =? 0) then varint_length_loop 10 next 0 else Ok 0.

(** src/src/quic/model/ns3-quic-tag.cc:51-60 [Ns3QuicTag::VarintEncode, loop].  The bytes it appends. *)
Fixpoint VarintEncode_loop (fuel : nat) (next : Z) : result (list Z) :=
  match fuel with
  | O => Fault OutOfFuel
  | S fuel =>
      let first := next mod 128 in
      let next := next / 128 in
      let byte := if 0 <? next then Z.lor first 128 else first in
      let* rest := if 0 <? next then VarintEncode_loop fuel next else Ok [] in
      Ok (byte :: rest)
  end.
(** src/src/quic/model/ns3-quic-tag.cc:47-62 [Ns3QuicTag::VarintEncode] *)
Definition VarintEncode (i : list Z) (value : Z) : result (list Z) :=
  if negb (value =? 0) then let* bytes := VarintEncode_loop 10 value in Ok (i ++ bytes) else Ok i.

(** src/src/quic/model/ns3-quic-tag.cc:67-71 [Ns3QuicTag::VarientDecode, loop].
    The buffer asserts that it is not read beyond its end. *)
Fixpoint VarientDecode_loop (i : list Z) (remain remain_multi : Z) : result (Z * list Z) :=
  match i with
  | [] => Fault CheckFailed
  | byte :: i =>
      let remain := remain ⊕ (Z.land byte 127 ⊗ remain_multi) in
      let remain_multi := remain_multi ⊗ 128 in
      if negb (Z.land byte 128 =? 0) then VarientDecode_loop i remain remain_multi
      else Ok (remain, i)
  end.
(** src/src/quic/model/ns3-quic-tag.cc:63-73 [Ns3QuicTag::VarientDecode] *)
Definition VarientDecode (i : list Z) : result (Z * list Z) := VarientDecode_loop i 0 1.

(** src/src/quic/model/ns3-quic-tag.cc:36-38 [Ns3QuicTag::GetSerializedSize] *)
Definition GetSerializedSize (t : Ns3QuicTag) : result Z :=
  let* a := varint_length (seq_ t) in
  let* b := varint_length (time_ t) in
  Ok (u32 (a + b)).
(** src/src/quic/model/ns3-quic-tag.cc:39-42 [Ns3QuicTag::Serialize] *)
Definition Serialize (t : Ns3QuicTag) (i : list Z) : result (list Z) :=
  let* i := VarintEncode i (seq_ t) in
  VarintEncode i (time_ t).
(** src/src/quic/model/ns3-quic-tag.cc:43-46 [Ns3QuicTag::Deserialize] *)
Definition Deserialize (i : list Z) : result Ns3QuicTag :=
  let* a := VarientDecode i in
  let* b := VarientDecode a.2 in
  Ok (mkTag a.1 b.1).

(** * Round trip *)

Lemma continuation_bits f :
  0 <= f < 128 ->
  Z.land (Z.lor f 128) 127 = f /\ Z.land (Z.lor f 128) 128 = 128 /\ Z.land f 127 = f /\ Z.land f 128 = 0.
Proof.
  intros H.
  assert (Hall : forallb (fun f => (Z.land (Z.lor f 128) 127 =? f) && (Z.land (Z.lor f 128) 128 =? 128) &&
    (Z.land f 127 =? f) && (Z.land f 128 =? 0)) (map Z.of_nat (seq 0 128)) = true) by (vm_compute; reflexivity).
  rewrite forallb_forall in Hall. specialize (Hall f). rewrite !andb_true_iff, !Z.eqb_eq in Hall.
  destruct Hall as [[[? ?] ?] ?]; [|done]. apply in_map_iff. exists (Z.to_nat f). rewrite Z2Nat.id by lia.
  split; [done|]. apply in_seq. lia.
Qed.

(** A value below [128^n] takes at most [n] iterations, and reading the bytes
    back adds [v * multi] to the accumulator, modulo [2^64]. *)
Lemma encode_decode_loop n : forall v,
  0 <= v < 128 ^ Z.of_nat n -> (0 < n)%nat ->
  exists l, VarintEncode_loop n v = Ok l /\
    forall rest remain multi,
      VarientDecode_loop (l ++ rest) (u64 remain) (u64 multi) = Ok (u64 (remain + v * multi), rest).
Proof.
  induction n as [|n IH]; intros v Hv Hn; [lia|]. cbn [VarintEncode_loop].
  pose proof (Z.mod_pos_bound v 128 ltac:(lia)) as Hf. pose proof (Z.div_mod v 128 ltac:(lia)) as Hdm.
  destruct (continuation_bits (v mod 128) Hf) as (B1 & B2 & B3 & B4).
  assert (Hacc : forall remain multi, u64 remain ⊕ ((v mod 128) ⊗ u64 multi) = u64 (remain + v mod 128 * multi)).
  { intros. unfold u64. by rewrite Z.mul_mod_idemp_r, Z.add_mod_idemp_r, Z.add_mod_idemp_l by lia. }
  destruct (Z.ltb_spec 0 (v / 128)) as [Hnext|Hlast].
  - rewrite Nat2Z.inj_succ, Z.pow_succ_r in Hv by lia.
    assert (Hlt : v / 128 < 128 ^ Z.of_nat n) by (apply Z.div_lt_upper_bound; lia).
    assert (n <> 0%nat) by (intros ->; cbn in Hlt; lia).
    destruct (IH (v / 128) ltac:(lia) ltac:(lia)) as (l & -> & Hl). cbn [rbind].
    exists (Z.lor (v mod 128) 128 :: l). split; [done|]. intros rest remain multi. cbn [app VarientDecode_loop].
    rewrite B1, B2, Hacc. cbn [Z.eqb negb].
    assert (Em : u64 multi ⊗ 128 = u64 (multi * 128)) by (unfold u64; by rewrite Z.mul_mod_idemp_l by lia).
    rewrite Em, Hl. do 3 f_equal. nia.
  - exists [v mod 128]. split; [done|]. intros rest remain multi. cbn [app VarientDecode_loop].
    rewrite B3, B4, Hacc. cbn [Z.eqb negb].
    assert (0 <= v / 128) by (apply Z.div_pos; lia). by replace (v mod 128) with v by lia.
Qed.

Lemma encode_decode v :
  0 < v < two64 ->
  exists l, (forall i, VarintEncode i v = Ok (i ++ l)) /\ forall rest, VarientDecode (l ++ rest) = Ok (v, rest).
Proof.
  intros Hv. destruct (encode_decode_loop 10 v) as (l & El & Hl); [|lia|].
  { split; [lia|]. eapply Z.lt_trans; [apply Hv|vm_compute; reflexivity]. }
  exists l. split.
  - intros i. unfold VarintEncode. destruct (Z.eqb_spec v 0); [lia|]. cbn [negb]. by rewrite El.
  - intros rest. unfold VarientDecode. specialize (Hl rest 0 1).
    change (u64 0) with 0 in Hl. change (u64 1) with 1 in Hl. rewrite Hl, Z.add_0_l, Z.mul_1_r, u64_small by lia. done.
Qed.

(** The length computed for a value of at most 63 bits is the number of bytes
    written. *)
Lemma length_encode_loop n : forall v key,
  0 <= v < 128 ^ Z.of_nat n -> (0 < n)%nat ->
  exists l, VarintEncode_loop n v = Ok l /\ varint_length_loop n v key = Ok (key + Z.of_nat (length l)).
Proof.
  induction n as [|n IH]; intros v key Hv Hn; [lia|]. cbn [VarintEncode_loop varint_length_loop].
  rewrite Z.quot_div_nonneg by lia. pose proof (Z.div_mod v 128 ltac:(lia)).
  destruct (Z.ltb_spec 0 (v / 128)) as [Hnext|Hlast].
  - rewrite Nat2Z.inj_succ, Z.pow_succ_r in Hv by lia.
    assert (Hlt : v / 128 < 128 ^ Z.of_nat n) by (apply Z.div_lt_upper_bound; lia).
    assert (n <> 0%nat) by (intros ->; cbn in Hlt; lia).
    destruct (IH (v / 128) (key + 1) ltac:(lia) ltac:(lia)) as (l & -> & ->). cbn [rbind].
    eexists; split; [done|]. f_equal. cbn [length]. lia.
  - eexists; split; [done|]. done.
Qed.

Lemma length_encode v :
  0 < v < two63 ->
  exists n l, varint_length v = Ok n /\ (forall i, VarintEncode i v = Ok (i ++ l)) /\ n = Z.of_nat (length l) /\ n <= 10.
Proof.
  intros Hv. destruct (length_encode_loop 10 v 0) as (l & El & Hl); [|lia|].
  { split; [lia|]. eapply Z.lt_trans; [apply Hv|vm_compute; reflexivity]. }
  exists (0 + Z.of_nat (length l)), l. unfold varint_length, VarintEncode. rewrite i64_small by lia.
  destruct (Z.eqb_spec v 0); [lia|]. cbn [negb]. rewrite Hl. split_and!; [done|intros i; by rewrite El|lia|].
  assert (Hb : forall n v l, VarintEncode_loop n v = Ok l -> (length l <= n)%nat).
  { clear. induction n as [|n IH]; intros v l E; [done|]. cbn in E. apply rbind_Ok in E as (r & Hr & E).
    injection E as <-. cbn. destruct (0 <? v / 128); [apply IH in Hr; lia|injection Hr as <-; cbn; lia]. }
  apply Hb in El. lia.
Qed.

(** C32. A tag survives its trip through the network: for a positive sequence
    number and send time of at most 63 bits, serializing succeeds, fills
    exactly the size announced by [GetSerializedSize], and deserializing the
    bytes gives back the tag. *)
Theorem tag_roundtrip t :
  0 < seq_ t < two63 -> 0 < time_ t < two63 ->
  exists bytes, Serialize t [] = Ok bytes /\ GetSerializedSize t = Ok (Z.of_nat (length bytes)) /\
    Deserialize bytes = Ok t.
Proof.
  intros Hs Ht. destruct (encode_decode (seq_ t) ltac:(lia)) as (l1 & E1 & D1).
  destruct (encode_decode (time_ t) ltac:(lia)) as (l2 & E2 & D2).
  destruct (length_encode (seq_ t) Hs) as (n1 & l1' & L1 & E1' & -> & B1).
  destruct (length_encode (time_ t) Ht) as (n2 & l2' & L2 & E2' & -> & B2).
  assert (l1' = l1) as -> by (specialize (E1 []); rewrite E1' in E1; by injection E1).
  assert (l2' = l2) as -> by (specialize (E2 []); rewrite E2' in E2; by injection E2).
  exists (l1 ++ l2). unfold Serialize, GetSerializedSize, Deserialize.
  rewrite E1, L1, L2, D1. cbn [rbind fst snd app]. rewrite E2. specialize (D2 []). rewrite app_nil_r in D2.
  rewrite D2, length_app, Nat2Z.inj_add, u32_small by lia. cbn. split_and!; try done. by destruct t.
Qed.

Lemma tag_roundtrip_witness :
  exists bytes, Serialize (mkTag 300 12345) [] = Ok bytes /\
    GetSerializedSize (mkTag 300 12345) = Ok (Z.of_nat (length bytes)) /\
    Deserialize bytes = Ok (mkTag 300 12345).
Proof. apply (tag_roundtrip (mkTag 300 12345)); cbn; lia. Defined.

(** The value 0 is written in no byte at all but read back from at least one: a
    packet sent in the first millisecond carries a tag that cannot be read. *)
Lemma tag_zero_time_unreadable s :
  0 < s < two64 ->
  exists bytes, Serialize (mkTag s 0) [] = Ok bytes /\ Deserialize bytes = Fault CheckFailed.
Proof.
  intros Hs. destruct (encode_decode s Hs) as (l & E & D). exists l. unfold Serialize, Deserialize. cbn [seq_ time_].
  rewrite E. split; [done|]. specialize (D []). rewrite app_nil_r in D. by rewrite D.
Qed.
