(* ===== verification/Address.v ===== *)
(** Addresses (ns3-quic-util.cc, ns3-quic-addr-pair.h): the conversion between
    ns-3's and the QUIC library's socket addresses, the names under which
    traces of a pair of endpoints are filed, and the order on pairs that keys
    the server's table of traces. *)

From Stdlib Require Import Ascii.
From stdpp Require Import pretty.
From S2P Require Import Prelude.

(** * Socket addresses *)

(** An IPv4 address in host order with a port, ns-3's [InetSocketAddress]. *)
Record InetSocketAddress := mkInet { GetIpv4 : Z; GetPort : Z }.
(** The library's [QuicSocketAddress]: an [in_addr], four bytes in network order, with a port. *)
Record QuicSocketAddress := mkQuicAddr { host : list Z; port : Z }.

(** The four bytes of a [uint32_t] in the memory of a little-endian machine. *)
Definition bytes_of (x : Z) : list Z := [x mod 256; Z.shiftr x 8 mod 256; Z.shiftr x 16 mod 256; Z.shiftr x 24 mod 256].
Definition value_of (bs : list Z) : Z := foldr (fun b v => b + 256 * v) 0 bs.
(** [htonl] and [ntohl] reverse the bytes. *)
Definition htonl (x : Z) : Z := value_of (reverse (bytes_of x)).
Definition ntohl (x : Z) : Z := value_of (reverse (bytes_of x)).

(** src/src/quic/model/ns3-quic-util.cc:117-126 [GetQuicSocketAddr] *)
Definition GetQuicSocketAddr (addr : InetSocketAddress) : QuicSocketAddress :=
  let ip_host_order := GetIpv4 addr in
  let ip_net_order := htonl ip_host_order in
  mkQuicAddr (bytes_of ip_net_order) (GetPort addr).
(** src/src/quic/model/ns3-quic-util.cc:128-137 [GetNs3SocketAddr] *)
Definition GetNs3SocketAddr (addr : QuicSocketAddress) : InetSocketAddress :=
  let ip_net_order := value_of (host addr) in
  let ip_host_order := ntohl ip_net_order in
  mkInet ip_host_order (port addr).

(** * Names *)

(** src/src/quic/model/ns3-quic-util.cc:184-196 [GetIp2String] *)
Definition GetIp2String (ip_host_order : Z) : string :=
  pretty (Z.land (Z.shiftr ip_host_order 24) 255) +:+ "."%string +:+
  pretty (Z.land (Z.shiftr ip_host_order 16) 255) +:+ "."%string +:+
  pretty (Z.land (Z.shiftr ip_host_order 8) 255) +:+ "."%string +:+
  pretty (Z.land (Z.shiftr ip_host_order 0) 255).

(** src/src/quic/model/ns3-quic-addr-pair.h:4-13 [Ns3QuicAddressPair] *)
Record Ns3QuicAddressPair := mkPair { client_ip : Z; server_ip : Z; client_port : Z; server_port : Z }.
#[export] Instance AddressPair_eq_dec : EqDecision Ns3QuicAddressPair.
Proof. solve_decision. Defined.
(** src/src/quic/model/ns3-quic-addr-pair.h:5-9 [Ns3QuicAddressPair::Ns3QuicAddressPair] *)
Definition AddressPair (c s : InetSocketAddress) : Ns3QuicAddressPair :=
  mkPair (GetIpv4 c) (GetIpv4 s) (GetPort c) (GetPort s).
(** src/src/quic/model/ns3-quic-addr-pair.h:14-17 [Ns3QuicAddressPair::operator<] *)
Definition pair_lt (a o : Ns3QuicAddressPair) : bool :=
  (client_ip a <? client_ip o) || (server_ip a <? server_ip o) || (client_port a <? client_port o) || (server_port a <? server_port o).

(** src/src/quic/model/ns3-quic-util.cc:198-207 [Ns3QuicAddressPair2String] *)
Definition Ns3QuicAddressPair2String (addr_pair : Ns3QuicAddressPair) : string :=
  GetIp2String (client_ip addr_pair) +:+ ":"%string +:+ pretty (client_port addr_pair) +:+ "_"%string +:+
  GetIp2String (server_ip addr_pair) +:+ ":"%string +:+ pretty (server_port addr_pair).

(** * Properties *)

Lemma bytes_value x : 0 <= x < two32 -> value_of (bytes_of x) = x.
Proof.
  intros Hx. unfold value_of, bytes_of. cbn [foldr]. rewrite !Z.shiftr_div_pow2 by lia.
  change (2 ^ 8) with 256. change (2 ^ 16) with (256 * 256). change (2 ^ 24) with (256 * 256 * 256).
  rewrite <- !Z.div_div by lia. pose proof (Z.div_mod x 256 ltac:(lia)). pose proof (Z.div_mod (x / 256) 256 ltac:(lia)).
  pose proof (Z.div_mod (x / 256 / 256) 256 ltac:(lia)).
  assert (x / 256 / 256 / 256 < 256) by (rewrite !Z.div_div by lia; apply Z.div_lt_upper_bound; lia).
  assert (0 <= x / 256 / 256 / 256) by (repeat (apply Z.div_pos; [|lia]); lia).
  rewrite (Z.mod_small (x / 256 / 256 / 256)) by lia. lia.
Qed.
Definition byte (b : Z) : Prop := 0 <= b < 256.
Lemma value_bytes a b c d : byte a -> byte b -> byte c -> byte d -> bytes_of (value_of [a; b; c; d]) = [a; b; c; d].
Proof.
  unfold byte. intros Ha Hb Hc Hd. unfold value_of, bytes_of. cbn [foldr]. rewrite !Z.shiftr_div_pow2 by lia.
  change (2 ^ 8) with 256. change (2 ^ 16) with (256 * 256). change (2 ^ 24) with (256 * 256 * 256). rewrite <- !Z.div_div by lia.
  assert (E : forall x y, 0 <= x < 256 -> (x + 256 * y) / 256 = y /\ (x + 256 * y) mod 256 = x).
  { intros x y Hx. split; [symmetry; apply (Z.div_unique _ _ _ x); lia|symmetry; apply (Z.mod_unique _ _ y); lia]. }
  destruct (E a (b + 256 * (c + 256 * (d + 256 * 0))) Ha) as [-> ->].
  destruct (E b (c + 256 * (d + 256 * 0)) Hb) as [-> ->]. destruct (E c (d + 256 * 0) Hc) as [-> ->].
  destruct (E d 0 Hd) as [_ ->]. done.
Qed.
Lemma bytes_of_bytes x : Forall byte (bytes_of x).
Proof. unfold bytes_of, byte. repeat constructor; apply Z.mod_pos_bound; lia. Qed.
Lemma bytes_reversed x : bytes_of (htonl x) = reverse (bytes_of x).
Proof.
  pose proof (bytes_of_bytes x) as Hb. unfold htonl, bytes_of in Hb |- *. change (reverse [?a; ?b; ?c; ?d]) with [d; c; b; a].
  rewrite !Forall_cons in Hb. destruct Hb as (? & ? & ? & ? & _). by apply value_bytes.
Qed.
Lemma htonl_range x : 0 <= htonl x < two32.
Proof.
  unfold htonl, value_of. pose proof (bytes_of_bytes x) as Hb. unfold bytes_of in *. change (reverse [?a; ?b; ?c; ?d]) with [d; c; b; a].
  rewrite !Forall_cons in Hb. unfold byte in Hb. cbn [foldr]. lia.
Qed.

(** Addresses survive the conversion to the library's form and back, in both
    directions, and the library sees the four bytes of the address in network
    order. *)
Theorem address_roundtrip (a : InetSocketAddress) (q : QuicSocketAddress) b0 b1 b2 b3 :
  0 <= GetIpv4 a < two32 -> host q = [b0; b1; b2; b3] -> Forall byte (host q) ->
  GetNs3SocketAddr (GetQuicSocketAddr a) = a /\ GetQuicSocketAddr (GetNs3SocketAddr q) = q /\
  host (GetQuicSocketAddr a) = reverse (bytes_of (GetIpv4 a)).
Proof.
  intros Ha Hq Hb. destruct a as [ip p], q as [h p']. cbn [host port GetIpv4 GetPort] in *. subst h. unfold GetNs3SocketAddr, GetQuicSocketAddr. cbv zeta. cbn [host port GetIpv4 GetPort].
  rewrite bytes_reversed. split; [|split; [|done]].
  - f_equal. assert (E : value_of (reverse (bytes_of ip)) = htonl ip) by done. rewrite E. change (ntohl (htonl ip)) with (value_of (reverse (bytes_of (htonl ip)))).
    by rewrite bytes_reversed, reverse_involutive, bytes_value.
  - f_equal. change (ntohl (value_of [b0; b1; b2; b3])) with (htonl (value_of [b0; b1; b2; b3])).
    rewrite !Forall_cons in Hb. destruct Hb as (? & ? & ? & ? & _). by rewrite !bytes_reversed, reverse_involutive, value_bytes.
Qed.

(** ** Trace names *)

Definition is_digit (c : Ascii.ascii) : bool :=
  match c with "0" | "1" | "2" | "3" | "4" | "5" | "6" | "7" | "8" | "9" => true | _ => false end%char.
Fixpoint all_digits (s : string) : bool :=
  match s with EmptyString => true | String c s => is_digit c && all_digits s end.

Lemma pretty_N_go_digits x : forall s, all_digits s = true -> all_digits (pretty_N_go x s) = true.
Proof.
  induction (N.lt_wf_0 x) as [x _ IH]; intros s Hs. destruct (decide (0 < x)%N) as [Hx|Hx].
  - rewrite pretty_N_go_step by done. apply IH; [by apply N.div_lt|]. cbn. rewrite Hs, andb_true_r.
    unfold pretty_N_char. by repeat case_match.
  - assert (x = 0%N) as -> by lia. done.
Qed.
Lemma pretty_digits z : 0 <= z -> all_digits (pretty z) = true.
Proof. intros Hz. destruct z as [|p|p]; [done| |lia]. by apply pretty_N_go_digits. Qed.

(** A text of digits ends where the first other character is. *)
Lemma digits_sep c a : forall b s t, is_digit c = false -> all_digits a = true -> all_digits b = true ->
  a +:+ String c s = b +:+ String c t -> a = b /\ s = t.
Proof.
  induction a as [|x a IH]; intros [|y b] s t Hc Ha Hb E; cbn in *.
  - by injection E.
  - injection E as -> E. by rewrite Hc in Hb.
  - injection E as -> E. by rewrite Hc in Ha.
  - apply andb_prop in Ha as [_ Ha]. apply andb_prop in Hb as [_ Hb]. injection E as -> E. destruct (IH b s t) as [-> ->]; done.
Qed.
Lemma number_sep c x y s t : is_digit c = false -> 0 <= x -> 0 <= y ->
  pretty x +:+ String c s = pretty y +:+ String c t -> x = y /\ s = t.
Proof.
  intros Hc Hx Hy E. destruct (digits_sep c _ _ _ _ Hc (pretty_digits x Hx) (pretty_digits y Hy) E) as [E1 E2]. split; [by apply (inj pretty)|done].
Qed.

Lemma land_255 x k : 0 <= x -> 0 <= k -> Z.land (Z.shiftr x k) 255 = Z.shiftr x k mod 256.
Proof. intros. change 255 with (Z.ones 8). by rewrite Z.land_ones. Qed.
Lemma ip_bytes_inj x y : 0 <= x < two32 -> 0 <= y < two32 ->
  Z.land (Z.shiftr x 24) 255 = Z.land (Z.shiftr y 24) 255 -> Z.land (Z.shiftr x 16) 255 = Z.land (Z.shiftr y 16) 255 ->
  Z.land (Z.shiftr x 8) 255 = Z.land (Z.shiftr y 8) 255 -> Z.land (Z.shiftr x 0) 255 = Z.land (Z.shiftr y 0) 255 -> x = y.
Proof.
  intros Hx Hy. rewrite !land_255 by lia. rewrite !Z.shiftr_0_r. intros E1 E2 E3 E4.
  rewrite <- (bytes_value x), <- (bytes_value y) by done. unfold bytes_of. by rewrite E1, E2, E3, E4.
Qed.
Lemma byte_nonneg x k : 0 <= x -> 0 <= k -> 0 <= Z.land (Z.shiftr x k) 255.
Proof. intros. rewrite land_255 by lia. apply Z.mod_pos_bound. lia. Qed.

Lemma append_assoc (a b c : string) : (a +:+ b) +:+ c = a +:+ b +:+ c.
Proof. induction a as [|x a IH]; [done|]. change (String x ((a +:+ b) +:+ c) = String x (a +:+ b +:+ c)). by rewrite IH. Qed.
Lemma ip_sep x y s t : 0 <= x < two32 -> 0 <= y < two32 ->
  GetIp2String x +:+ String ":" s = GetIp2String y +:+ String ":" t -> x = y /\ s = t.
Proof.
  intros Hx Hy. unfold GetIp2String. rewrite !append_assoc. cbn [String.append].
  intros (E1 & E)%number_sep; [|done|apply byte_nonneg; lia..]. apply number_sep in E as (E2 & E); [|done|apply byte_nonneg; lia..].
  apply number_sep in E as (E3 & E); [|done|apply byte_nonneg; lia..]. apply number_sep in E as (E4 & E); [|done|apply byte_nonneg; lia..].
  split; [by apply ip_bytes_inj|done].
Qed.

Definition valid_pair (a : Ns3QuicAddressPair) : Prop :=
  0 <= client_ip a < two32 /\ 0 <= server_ip a < two32 /\ 0 <= client_port a < two16 /\ 0 <= server_port a < two16.

(** Each pair of endpoints has its own trace: the name made from the two
    addresses determines them. *)
Theorem trace_names_distinct (a b : Ns3QuicAddressPair) : valid_pair a -> valid_pair b ->
  Ns3QuicAddressPair2String a = Ns3QuicAddressPair2String b -> a = b.
Proof.
  destruct a as [ci si cp sp], b as [ci' si' cp' sp']. unfold valid_pair, Ns3QuicAddressPair2String. cbn [client_ip server_ip client_port server_port String.append].
  intros (A1 & A2 & A3 & A4) (B1 & B2 & B3 & B4) (-> & E)%ip_sep; [|done|done].
  apply number_sep in E as (-> & E); [|done|lia|lia]. apply ip_sep in E as (-> & E); [|done|done]. by apply (inj pretty) in E as ->.
Qed.

(** ** The order on pairs *)

(** [std::map] requires a strict weak order; this is what remains of it. *)
Definition comparable (a b : Ns3QuicAddressPair) : bool := negb (pair_lt a b && pair_lt b a).

Lemma pair_lt_false a b : pair_lt a b = false <->
  client_ip b <= client_ip a /\ server_ip b <= server_ip a /\ client_port b <= client_port a /\ server_port b <= server_port a.
Proof. unfold pair_lt. rewrite !orb_false_iff, !Z.ltb_ge. tauto. Qed.
(** Two pairs neither of which is smaller are equal. *)
Lemma pair_lt_equiv a b : pair_lt a b = false -> pair_lt b a = false -> a = b.
Proof. rewrite !pair_lt_false. destruct a, b. cbn. intros. f_equal; lia. Qed.
Lemma comparable_spec a b : comparable a b = true <-> pair_lt a b = false \/ pair_lt b a = false.
Proof. unfold comparable. destruct (pair_lt a b), (pair_lt b a); cbn; intuition congruence. Qed.
Lemma pair_lt_trans a b c : comparable a b = true -> comparable b c = true -> comparable a c = true ->
  pair_lt a b = true -> pair_lt b c = true -> pair_lt a c = true.
Proof.
  rewrite !comparable_spec. intros Hab Hbc Hac H1 H2. destruct (pair_lt a c) eqn:E; [done|]. exfalso.
  destruct Hab as [?|Hab]; [congruence|]. destruct Hbc as [?|Hbc]; [congruence|].
  rewrite pair_lt_false in Hab, Hbc, E. apply not_false_iff_true in H1. apply H1. apply pair_lt_false. lia.
Qed.

(** Two flows whose addresses and ports are not ordered the same way precede each other. *)
Lemma pair_lt_not_asymmetric : exists a b, valid_pair a /\ valid_pair b /\ pair_lt a b = true /\ pair_lt b a = true.
Proof. exists (mkPair 1 7 50000 1234), (mkPair 2 7 49999 1234). repeat split; cbn; lia || reflexivity. Qed.

