(* ===== verification/TcpClient.v ===== *)
(** The TCP side of the experiment: the bulk sender (tcp-client.h,
    tcp-client.cc), the sink (tcp-sink.cc) and the accounting of the tracer
    (tcp-tracer.cc).  The socket is ns-3's, so it is an interface with the laws of
    [ns3::Socket] the client relies on.  Simulator times are nanoseconds. *)

From Stdlib Require Import SpecFloat.
From stdpp Require Import relations.
From S2P Require Import Prelude Float.

(** * The socket *)

Class TcpSocket (S : Type) := {
  GetTxAvailable : S -> Z;
  Send : S -> Z -> S * Z;
  Close : S -> S;
}.

(** Sending no more than the space available queues all of it or, on an error,
    nothing, and reports which; closing sends nothing.  [queued] counts
    the bytes handed to the socket so far. *)
Class TcpSocketLaws (S : Type) `{TcpSocket S} := {
  queued : S -> Z;
  available_u32 s : 0 <= GetTxAvailable s < two32;
  send_law s n : 0 < n <= GetTxAvailable s -> n < two31 ->
    ((Send s n).2 = n /\ queued (Send s n).1 = queued s + n /\
     GetTxAvailable (Send s n).1 = GetTxAvailable s - n) \/
    ((Send s n).2 = -1 /\ queued (Send s n).1 = queued s);
  close_law s : queued (Close s) = queued s;
}.

(** * The client *)

(** src/src/tcp-client/model/tcp-client.h:47-58 [TcpClient].
    With the file-level [kMSS] and [kRateCountGap], and what the tracer was told. *)
Record TcpClient := mkClient {
  m_targetBytes : Z;
  m_currentTxBytes : Z;
  m_traceFlag : Z;
  m_uuid : Z;
  m_connected : bool;
  m_algo : string;
  m_trace : bool;
  m_lastCountRateTime : Z;
  m_lastTxBytes : Z;
  m_totalTxBytes : Z;
  kMSS : Z;
  kRateCountGap : Z;
  rates : list (Z * Z);
}.
#[export] Instance eta_TcpClient : Eta TcpClient := MkEta _ (fun c =>
  mkClient (m_targetBytes c) (m_currentTxBytes c) (m_traceFlag c) (m_uuid c) (m_connected c) (m_algo c)
    (m_trace c) (m_lastCountRateTime c) (m_lastTxBytes c) (m_totalTxBytes c) (kMSS c) (kRateCountGap c)
    (rates c)).

(** src/src/tcp-client/model/tcp-client.cc:15-21 [TcpClient::TcpClient].  [TcpClientIdCounter] is threaded through. *)
Definition TcpClient_init (bytes flag TcpClientIdCounter : Z) : TcpClient * Z :=
  (mkClient bytes 0 flag TcpClientIdCounter false "linux-reno" false 0 0 0 1400 1000000000 [],
   u32 (TcpClientIdCounter + 1)).
(** src/src/tcp-client/model/tcp-client.cc:23-26 [TcpClient::SetSegmentSize] *)
Definition SetSegmentSize (c : TcpClient) (mss : Z) : TcpClient := c <| kMSS := mss |>.
(** src/src/tcp-client/model/tcp-client.cc:27-30 [TcpClient::SetRateCountGap] *)
Definition SetRateCountGap (c : TcpClient) (gap : Z) : TcpClient := c <| kRateCountGap := gap |>.
(** src/src/tcp-client/model/tcp-client.cc:31-34 [TcpClient::SetCongestionAlgo] *)
Definition SetCongestionAlgo (c : TcpClient) (algo : string) : TcpClient := c <| m_algo := algo |>.

(** src/src/tcp-client/model/tcp-client.h:14-14 [TcpClient::TraceEnable] *)
Definition E_TRACE_CWND : Z := 1.
(** src/src/tcp-client/model/tcp-client.h:15-15 [TcpClient::TraceEnable] *)
Definition E_TRACE_INFLIGHT : Z := 2.
(** src/src/tcp-client/model/tcp-client.h:16-16 [TcpClient::TraceEnable] *)
Definition E_TRACE_RTT : Z := 4.
(** src/src/tcp-client/model/tcp-client.h:17-17 [TcpClient::TraceEnable] *)
Definition E_TRACE_RATE : Z := 8.
(** src/src/tcp-client/model/tcp-client.h:18-18 [TcpClient::TraceEnable] *)
Definition E_PACKET_AMOUT : Z := 22.
(** src/src/tcp-client/model/tcp-client.h:19-19 [TcpClient::E_TRACE_ALL] *)
Definition E_TRACE_ALL : Z := Z.lor (Z.lor (Z.lor E_TRACE_CWND E_TRACE_INFLIGHT) E_TRACE_RTT) E_TRACE_RATE.

Inductive TypeId :=
  TcpNewReno | TcpLinuxReno | TcpVegas | TcpBic | TcpCubic | TcpWestwood | TcpBbr | TcpCopa | TcpCopa2 | TcpRenoAgent.
#[export] Instance TypeId_eq_dec : EqDecision TypeId.
Proof. solve_decision. Defined.

(** src/src/tcp-client/model/tcp-client.cc:35-92 [TcpClient::ConfigureCongstionAlgo].
    The algorithm created, and whether pacing is switched on. *)
Definition ConfigureCongstionAlgo (c : TcpClient) : TypeId * bool :=
  let algo := m_algo c in
  (if String.eqb algo "reno" then TcpNewReno
   else if String.eqb algo "linux-reno" then TcpLinuxReno
   else if String.eqb algo "vegas" then TcpVegas
   else if String.eqb algo "bic" then TcpBic
   else if String.eqb algo "cubic" then TcpCubic
   else if String.eqb algo "westwood" then TcpWestwood
   else if String.eqb algo "bbr" then TcpBbr
   else if String.eqb algo "copa" then TcpCopa
   else if String.eqb algo "copa2" then TcpCopa2
   else if String.eqb algo "renoagent" then TcpRenoAgent
   else TcpLinuxReno,
   String.eqb algo "bbr" || String.eqb algo "copa" || String.eqb algo "copa2").

Inductive trace_source := SrcTx | SrcCongestionWindow | SrcBytesInFlight | SrcRTT.
Inductive trace_file := FileCwnd | FileInflight | FileRtt | FileSendRate.

Definition flagged (c : TcpClient) (bit : Z) : bool := negb (Z.land (m_traceFlag c) bit =? 0).

(** src/src/tcp-client/model/tcp-client.cc:179-233 [TcpClient::RegisterTraceFunctions].
    The trace sources connected and the files opened; [has_socket] is
    [m_socket != nullptr].  The file names, and the registration of the session
    with the tracer, are not modelled. *)
Definition RegisterTraceFunctions (c : TcpClient) (has_socket loss_rate : bool)
    : TcpClient * list trace_source * list trace_file :=
  if negb has_socket || m_trace c then (c, [], [])
  else
    let tx := if loss_rate || flagged c E_TRACE_RATE then [SrcTx] else [] in
    if m_traceFlag c =? 0 then (c, tx, [])
    else
      (c <| m_trace := true |>,
       tx ++ (if flagged c E_TRACE_CWND then [SrcCongestionWindow] else [])
          ++ (if flagged c E_TRACE_INFLIGHT then [SrcBytesInFlight] else [])
          ++ (if flagged c E_TRACE_RTT then [SrcRTT] else []),
       (if flagged c E_TRACE_CWND then [FileCwnd] else [])
          ++ (if flagged c E_TRACE_INFLIGHT then [FileInflight] else [])
          ++ (if flagged c E_TRACE_RTT then [FileRtt] else [])
          ++ (if flagged c E_TRACE_RATE then [FileSendRate] else [])).

(** src/src/tcp-client/model/tcp-client.cc:234-242 [TcpClient::TraceCwndCallback].  The value traced. *)
Definition TraceCwndCallback (c : TcpClient) (newval : Z) : result (option Z) :=
  if m_trace c then
    if kMSS c =? 0 then Fault DivByZero else Ok (Some (newval / kMSS c))
  else Ok None.
(** src/src/tcp-client/model/tcp-client.cc:243-251 [TcpClient::TraceBytesInflightCallback] *)
Definition TraceBytesInflightCallback (c : TcpClient) (newval : Z) : result (option Z) :=
  if m_trace c then
    if kMSS c =? 0 then Fault DivByZero else Ok (Some (newval / kMSS c))
  else Ok None.

(** [Time::GetMilliSeconds]. *)
Definition GetMilliSeconds (t : Z) : Z := Z.quot t 1000000.

(** src/src/tcp-client/model/tcp-client.cc:274-274 [TcpClient::TraceTxCallback, rate].
    [DataRate] takes the [double] as a [uint64_t]. *)
Definition rate_bps (bytes ms : Z) : result Z :=
  float_to_u64 (f64_div (f64_mul (f64_mul (f64_of_Z 1) (f64_of_Z bytes)) (f64_of_Z 8000)) (f64_of_Z ms)).

(** src/src/tcp-client/model/tcp-client.cc:260-281 [TcpClient::TraceTxCallback] *)
Definition TraceTxCallback (c : TcpClient) (now size : Z) : result TcpClient :=
  let c := c <| m_totalTxBytes := m_totalTxBytes c ⊕ size |> in
  if m_trace c then
    let c := if m_lastCountRateTime c =? 0 then c <| m_lastCountRateTime := now |> else c in
    if m_lastCountRateTime c + kRateCountGap c <=? now then
      let* rate := rate_bps (m_totalTxBytes c ⊖ m_lastTxBytes c) (GetMilliSeconds (now - m_lastCountRateTime c)) in
      Ok (c <| m_lastTxBytes := m_totalTxBytes c |> <| m_lastCountRateTime := now |>
            <| rates := rates c ++ [(now, rate)] |>)
    else Ok c
  else Ok c.

(** src/src/tcp-client/model/tcp-client.cc:282-295 [TcpClient::LogLossInfo].  What is logged, if anything. *)
Definition LogLossInfo (c : TcpClient) (loss_rate_enabled : bool) : option (Z * spec_float) :=
  if loss_rate_enabled then
    let max_val := m_totalTxBytes c in
    let min_val := m_targetBytes c in
    let loss_rate := if min_val <? max_val
      then f64_div (f64_mul (f64_mul (f64_of_Z 1) (f64_of_Z (max_val ⊖ min_val))) (f64_of_Z 100)) (f64_of_Z max_val)
      else S754_zero false in
    Some (m_uuid c, f32_of_f64 loss_rate)
  else None.
(** src/src/tcp-client/model/tcp-client.cc:142-146 [TcpClient::HandlePeerClose] *)
Definition HandlePeerClose := LogLossInfo.

Section client.
Context {S : Type} `{TcpSocket S}.

(** src/src/tcp-client/model/tcp-client.cc:153-171 [TcpClient::NotifiSendData, loop].
    Ends with [false] when a send fails, which returns from the caller. *)
Fixpoint send_loop (fuel : nat) (c : TcpClient) (s : S) : result (TcpClient * S * bool) :=
  match fuel with
  | O => Fault OutOfFuel
  | Datatypes.S fuel =>
      if (m_currentTxBytes c <? m_targetBytes c) && (0 <? GetTxAvailable s) then
        let left := m_targetBytes c ⊖ m_currentTxBytes c in
        let to_write := u32 (Z.min (kMSS c) left) in
        let to_write := Z.min to_write (GetTxAvailable s) in
        if 0 <? to_write then
          let '(s, ret) := Send s to_write in
          if ret <? 0 then Ok (c, s, false)
          else send_loop fuel (c <| m_currentTxBytes := m_currentTxBytes c ⊕ ret |>) s
        else send_loop fuel c s
      else Ok (c, s, true)
  end.

(** src/src/tcp-client/model/tcp-client.cc:151-178 [TcpClient::NotifiSendData] *)
Definition NotifiSendData (fuel : nat) (c : TcpClient) (s : S) : result (TcpClient * S) :=
  let* r := send_loop fuel c s in
  let '(c, s, finished) := r in
  if negb finished then Ok (c, s)
  else if m_targetBytes c <=? m_currentTxBytes c then Ok (c, Close s) else Ok (c, s).

(** src/src/tcp-client/model/tcp-client.cc:128-133 [TcpClient::ConnectionSucceeded] *)
Definition ConnectionSucceeded (fuel : nat) (c : TcpClient) (s : S) : result (TcpClient * S) :=
  NotifiSendData fuel (c <| m_connected := true |>) s.
(** src/src/tcp-client/model/tcp-client.cc:135-141 [TcpClient::OnCanWrite] *)
Definition OnCanWrite (fuel : nat) (c : TcpClient) (s : S) : result (TcpClient * S) :=
  if m_connected c then NotifiSendData fuel c s else Ok (c, s).
(** src/src/tcp-client/model/tcp-client.cc:120-127 [TcpClient::StopApplication] *)
Definition StopApplication (c : TcpClient) (s : S) : TcpClient * S :=
  (c <| m_connected := false |>, Close s).
End client.

(** * The sink *)

(** src/src/tcp-client/model/tcp-sink.h:21-24 [TcpSink] *)
Record TcpSink := mkSink {
  sink_lastCountRateTime : Z;
  m_lastRxBytes : Z;
  m_rxBytes : Z;
  m_totalBytes : Z;
  sink_trace : bool;
  sink_gap : Z;
  goodputs : list (Z * Z);
}.
#[export] Instance eta_TcpSink : Eta TcpSink := MkEta _ (fun c =>
  mkSink (sink_lastCountRateTime c) (m_lastRxBytes c) (m_rxBytes c) (m_totalBytes c) (sink_trace c)
    (sink_gap c) (goodputs c)).

(** src/src/tcp-client/model/tcp-sink.cc:63-68 [TcpSink::HandleRead, reading].
    The sizes of the packets the socket holds; an empty packet ends the loop. *)
Fixpoint read_packets (k : TcpSink) (sizes : list Z) : TcpSink :=
  match sizes with
  | [] => k
  | size :: sizes => if size =? 0 then k else read_packets (k <| m_rxBytes := m_rxBytes k ⊕ size |>) sizes
  end.

(** src/src/tcp-client/model/tcp-sink.cc:58-88 [TcpSink::HandleRead].
    With the bytes reported to [TcpTracer::OnSessionStop], if it is called. *)
Definition HandleRead (k : TcpSink) (now : Z) (sizes : list Z) : result (TcpSink * option Z) :=
  let k := read_packets k sizes in
  let* k :=
    if sink_trace k then
      let k := if sink_lastCountRateTime k =? 0 then k <| sink_lastCountRateTime := now |> else k in
      if sink_lastCountRateTime k + sink_gap k <=? now then
        let* rate := rate_bps (m_rxBytes k ⊖ m_lastRxBytes k) (GetMilliSeconds (now - sink_lastCountRateTime k)) in
        Ok (k <| m_lastRxBytes := m_rxBytes k |> <| sink_lastCountRateTime := now |>
              <| goodputs := goodputs k ++ [(now, rate)] |>)
      else Ok k
    else Ok k in
  Ok (k, if (0 <? m_totalBytes k) && (u64 (m_totalBytes k) =? m_rxBytes k) then Some (u32 (m_rxBytes k)) else None).

(** * The tracer's accounting *)

(** src/src/tcp-client/model/tcp-tracer.cc:96-101 [InfoPriv].
    The map of registered sessions is left out: its comparator is not an
    ordering, see [session_key_lt_not_asymmetric]. *)
Record InfoPriv := mkInfo {
  m_flows : Z;
  m_bandwidth : Z;
  m_flowCount : Z;
  m_stopStamp : Z;
  m_bytes : Z;
  m_lossFlag : bool;
  utils : list (Z * Z * spec_float);
}.
#[export] Instance eta_Info : Eta InfoPriv := MkEta _ (fun i =>
  mkInfo (m_flows i) (m_bandwidth i) (m_flowCount i) (m_stopStamp i) (m_bytes i) (m_lossFlag i) (utils i)).

(** src/src/tcp-client/model/tcp-tracer.cc:110-114 [InfoPriv::SetExperimentInfo] *)
Definition SetExperimentInfo (i : InfoPriv) (flow_num bottleneck_bw : Z) : InfoPriv :=
  i <| m_flows := flow_num |> <| m_bandwidth := bottleneck_bw |>.
(** src/src/tcp-client/model/tcp-tracer.cc:115-118 [InfoPriv::SetLossRateFlag] *)
Definition SetLossRateFlag (i : InfoPriv) (flag : bool) : InfoPriv := i <| m_lossFlag := flag |>.
(** src/src/tcp-client/model/tcp-tracer.cc:119-122 [InfoPriv::IsEnableBandwidthUtility] *)
Definition IsEnableBandwidthUtility (i : InfoPriv) : bool := 0 <? m_flows i.

(** src/src/tcp-client/model/tcp-tracer.cc:151-177 [InfoPriv::OnSessionStop] *)
Definition OnSessionStop (i : InfoPriv) (bytes stop : Z) : InfoPriv :=
  if m_flows i =? 0 then i
  else
    let i := i <| m_bytes := m_bytes i ⊕ bytes |> <| m_flowCount := u32 (m_flowCount i + 1) |> in
    let i := if (m_stopStamp i =? 0) || (m_stopStamp i <? stop) then i <| m_stopStamp := stop |> else i in
    if (m_flowCount i =? m_flows i) && negb (m_stopStamp i =? 0) then
      let average_bps := f64_div (f64_mul (f64_mul (f64_of_Z 1) (f64_of_Z (m_bytes i))) (f64_of_Z 8000))
                           (f64_of_Z (GetMilliSeconds (m_stopStamp i))) in
      let util := f64_div (f64_mul average_bps (f64_of_Z 100)) (f64_of_Z (m_bandwidth i)) in
      i <| utils := utils i ++ [(m_stopStamp i, m_bytes i, util)] |>
    else i.

(** src/src/tcp-client/model/tcp-tracer.h:15-18 [TcpSessionKey] *)
Record TcpSessionKey := mkKey { ip1 : Z; ip2 : Z; port1 : Z; port2 : Z }.
(** src/src/tcp-client/model/tcp-tracer.h:19-22 [TcpSessionKey::operator<] *)
Definition session_key_lt (k other : TcpSessionKey) : bool :=
  (ip1 k <? ip1 other) || (ip2 k <? ip2 other) || (port1 k <? port1 other) || (port2 k <? port2 other).

(** * What the client sends *)

Section sending.
Context {S : Type} `{TcpSocketLaws S}.

(** The parameters the loop needs: a segment size, and a target of at most 63
    bits not yet exceeded. *)
Definition client_ok (c : TcpClient) : Prop :=
  0 < kMSS c < two31 /\ 0 <= m_currentTxBytes c <= m_targetBytes c /\ m_targetBytes c < two63.

Lemma send_loop_spec fuel : forall c s,
  client_ok c -> m_targetBytes c - m_currentTxBytes c < Z.of_nat fuel ->
  exists c' s' b, send_loop fuel c s = Ok (c', s', b) /\
    c' = c <| m_currentTxBytes := m_currentTxBytes c' |> /\
    m_currentTxBytes c <= m_currentTxBytes c' <= m_targetBytes c /\
    queued s' = queued s + (m_currentTxBytes c' - m_currentTxBytes c) /\
    (b = true -> m_currentTxBytes c' = m_targetBytes c \/ GetTxAvailable s' = 0).
Proof.
  induction fuel as [|fuel IH]; intros c s (Hk & Hc & Ht) Hf; [lia|]. cbn [send_loop].
  pose proof (available_u32 s) as Ha. pose proof (send_law s) as Hlaw.
  destruct (Z.ltb_spec (m_currentTxBytes c) (m_targetBytes c)) as [Hlt|Hge]; cbn [andb].
  2:{ exists c, s, true. split_and!; [done|by destruct c|lia|lia|lia|]. intros _. left. lia. }
  destruct (Z.ltb_spec 0 (GetTxAvailable s)) as [Hav|Hav]; cbn [andb].
  2:{ exists c, s, true. split_and!; [done|by destruct c|lia|lia|lia|]. intros _. right. lia. }
  rewrite (u64_small (_ - _)) by lia. set (left := m_targetBytes c - m_currentTxBytes c).
  assert (Hleft : 0 < left) by lia. rewrite (u32_small (Z.min _ left)) by lia.
  set (n := Z.min _ (GetTxAvailable s)). assert (Hn : 0 < n <= left /\ n <= GetTxAvailable s /\ n < two31) by lia.
  destruct (Z.ltb_spec 0 n); [|lia]. destruct (Hlaw n ltac:(lia) ltac:(lia)) as [(Er & Eq & Eav)|(Er & Eq)];
    destruct (Send s n) as [s1 ret]; cbn [fst snd] in *; subst ret.
  - destruct (Z.ltb_spec n 0); [lia|]. rewrite u64_small by lia.
    set (c1 := c <| m_currentTxBytes := m_currentTxBytes c + n |>).
    destruct (IH c1 s1) as (c' & s' & b & E1 & E2 & E3 & E4 & E5); [split_and!; cbn; lia|cbn; lia|].
    exists c', s', b. split; [done|]. cbn in E2, E3, E4, E5. split_and!; [by rewrite E2|lia|lia|lia|done].
  - exists c, s1, false. cbn. split_and!; [done|by destruct c|lia|lia|lia|done].
Qed.

(** What happens to a client and its socket: the socket asks for data, or the
    network frees buffer space without anything being queued. *)
Inductive client_step (fuel : nat) : TcpClient * S -> TcpClient * S -> Prop :=
  | step_connected c s r : ConnectionSucceeded fuel c s = Ok r -> client_step fuel (c, s) r
  | step_can_write c s r : OnCanWrite fuel c s = Ok r -> client_step fuel (c, s) r
  | step_network c s s' : queued s' = queued s -> client_step fuel (c, s) (c, s')
  | step_stop c s : client_step fuel (c, s) (StopApplication c s).

Lemma NotifiSendData_spec fuel c s :
  client_ok c -> m_targetBytes c < Z.of_nat fuel ->
  exists c' s', NotifiSendData fuel c s = Ok (c', s') /\ client_ok c' /\ m_targetBytes c' = m_targetBytes c /\
    m_currentTxBytes c <= m_currentTxBytes c' /\
    queued s' = queued s + (m_currentTxBytes c' - m_currentTxBytes c).
Proof.
  intros Hc Hf. destruct (send_loop_spec fuel c s Hc) as (c' & s' & b & E & E' & Hcur & Hq & _);
    [destruct Hc; lia|]. unfold NotifiSendData. rewrite E. cbn [rbind].
  assert (Hok : client_ok c' /\ m_targetBytes c' = m_targetBytes c)
    by (rewrite E'; destruct Hc as (? & ? & ?); unfold client_ok; cbn; lia).
  destruct Hok as [Hok Ht]. destruct b; cbn [negb]; [destruct (_ <=? _)|]; eexists _, _; (split; [done|]);
    rewrite ?close_law; done || (split_and!; (done || lia)).
Qed.

(** The client's account of what it has queued. *)
Definition accounted (bytes q0 : Z) (x : TcpClient * S) : Prop :=
  client_ok x.1 /\ m_targetBytes x.1 = bytes /\ queued x.2 = q0 + m_currentTxBytes x.1.

Lemma NotifiSendData_accounted fuel bytes q0 c s r :
  bytes < Z.of_nat fuel -> accounted bytes q0 (c, s) -> NotifiSendData fuel c s = Ok r -> accounted bytes q0 r.
Proof.
  intros Hf (Hc & Ht & Hq) E. cbn in *.
  destruct (NotifiSendData_spec fuel c s Hc ltac:(lia)) as (c' & s' & E' & H1 & H2 & H3 & H4).
  rewrite E in E'. injection E' as ->. split_and!; cbn; (done || lia).
Qed.

Lemma client_step_accounted fuel bytes q0 x y :
  bytes < Z.of_nat fuel -> client_step fuel x y -> accounted bytes q0 x -> accounted bytes q0 y.
Proof.
  intros Hf Hstep Hx. destruct Hstep as [c s r E|c s r E|c s s' Eq|c s].
  - eapply (NotifiSendData_accounted fuel bytes q0 (c <| m_connected := true |>)); [done|exact Hx|exact E].
  - unfold OnCanWrite in E. destruct (m_connected c); [by eapply NotifiSendData_accounted|by injection E as <-].
  - destruct Hx as (? & ? & ?). split_and!; cbn in *; (done || lia).
  - destruct Hx as (? & ? & ?). split_and!; cbn in *; rewrite ?close_law; done.
Qed.

Lemma client_run_accounted fuel bytes q0 x y :
  bytes < Z.of_nat fuel -> rtc (client_step fuel) x y -> accounted bytes q0 x -> accounted bytes q0 y.
Proof. intros Hf Hrun. induction Hrun; eauto using client_step_accounted. Qed.

(** C35. The bulk sender hands over its target and no more: in every state a run
    of the client reaches (connection, write callbacks, buffer space freed by the
    network, stop), the bytes it has queued on the socket are exactly
    [m_currentTxBytes], at most the target; and [NotifiSendData] terminates
    there within a number of iterations bounded by the target. *)
Theorem tcp_client_sends_target fuel bytes flag id s0 c s :
  0 <= bytes < two63 -> bytes < Z.of_nat fuel ->
  rtc (client_step fuel) ((TcpClient_init bytes flag id).1, s0) (c, s) ->
  m_targetBytes c = bytes /\ queued s = queued s0 + m_currentTxBytes c /\ m_currentTxBytes c <= bytes /\
  exists r, NotifiSendData fuel c s = Ok r.
Proof.
  intros Hb Hf Hrun. assert (HP : accounted bytes (queued s0) (c, s)).
  { eapply client_run_accounted; [exact Hf|exact Hrun|]. unfold accounted, client_ok. cbn. lia. }
  destruct HP as (Hc & Ht & Hq). cbn in *. split_and!; [done|done|destruct Hc; lia|].
  destruct (NotifiSendData_spec fuel c s Hc ltac:(lia)) as (c' & s' & E & _). eauto.
Qed.
End sending.

(** A socket with a send buffer: the free space and the bytes queued. *)
#[export] Instance BufferSocket : TcpSocket (Z * Z) := {|
  GetTxAvailable s := u32 s.1;
  Send s n := if n <=? u32 s.1 then ((u32 s.1 - n, s.2 + n), n) else (s, -1);
  Close s := s;
|}.
#[export] Instance BufferSocket_laws : TcpSocketLaws (Z * Z).
Proof.
  refine {| queued s := s.2 |}; cbn.
  - intros s. apply u32_range.
  - intros s n Hn Hn2. left. destruct (Z.leb_spec n (u32 s.1)); [|lia]. cbn. split_and!; [done|done|].
    pose proof (u32_range s.1). apply u32_small. lia.
  - done.
Defined.

(** 5000 bytes through a buffer of 4000: a first batch, then the network frees
    4000 bytes and the rest follows. *)
Lemma tcp_client_sends_target_witness :
  let c0 := (TcpClient_init 5000 0 0).1 in
  let c := c0 <| m_connected := true |> <| m_currentTxBytes := 5000 |> in
  m_targetBytes c = 5000 /\ @queued _ _ BufferSocket_laws (3000, 5000) = @queued _ _ BufferSocket_laws (4000, 0) + m_currentTxBytes c /\
  m_currentTxBytes c <= 5000 /\ exists r, NotifiSendData (Z.to_nat 5001) c (3000, 5000) = Ok r.
Proof.
  apply (tcp_client_sends_target (Z.to_nat 5001) 5000 0 0 (4000, 0)); [lia|lia|].
  eapply rtc_l; [apply step_connected; vm_compute; reflexivity|].
  eapply rtc_l; [apply (step_network _ _ (0, 4000) (4000, 4000)); reflexivity|].
  eapply rtc_l; [apply step_can_write; vm_compute; reflexivity|apply rtc_refl].
Defined.

(** * Observations *)

(** [TcpSessionKey]'s comparison, used as the order of a [std::map], is not one:
    two keys can each be less than the other. *)
Lemma session_key_lt_not_asymmetric :
  let k := mkKey 167772161 167772418 49153 80 in
  let k' := mkKey 167772162 167772417 49153 80 in
  session_key_lt k k' = true /\ session_key_lt k' k = true.
Proof. done. Qed.

(** [E_PACKET_AMOUT] is 0x16, which overlaps the flags for the flight and the RTT. *)
Lemma packet_amount_overlaps :
  Z.land E_PACKET_AMOUT E_TRACE_INFLIGHT <> 0 /\ Z.land E_PACKET_AMOUT E_TRACE_RTT <> 0.
Proof. done. Qed.
