(* ===== verification/UnackedMap.v ===== *)
(** [QuicUnackedPacketMap] (quic_unacked_packet_map.h,
    quic_unacked_packet_map.cc): the packets a connection has sent and not
    finished with, in a deque indexed by packet number, and the accounting of
    bytes in flight the congestion controllers are told about.

    The session that is notified of acknowledged and lost frames is the
    interface [SessionNotifier].  [QUIC_BUG] is fatal in a debug build, so it is a
    failed check. *)

From stdpp Require Import relations.
From S2P Require Import Prelude QuicTime PacketNumber.

(** * Data *)

(** src/quiche/gquiche/quic/core/quic_types.h:456-463 [EncryptionLevel] *)
Inductive EncryptionLevel :=
  | ENCRYPTION_INITIAL | ENCRYPTION_HANDSHAKE | ENCRYPTION_ZERO_RTT | ENCRYPTION_FORWARD_SECURE
  | NUM_ENCRYPTION_LEVELS.
(** src/quiche/gquiche/quic/core/quic_types.h:691-697 [PacketNumberSpace] *)
Inductive PacketNumberSpace :=
  | INITIAL_DATA | HANDSHAKE_DATA | APPLICATION_DATA | NUM_PACKET_NUMBER_SPACES.
(** src/quiche/gquiche/quic/core/quic_types.h:204-204 [Perspective] *)
Inductive Perspective := IS_SERVER | IS_CLIENT.
(** src/quiche/gquiche/quic/core/quic_types.h:516-549 [SentPacketState] *)
Inductive SentPacketState :=
  | OUTSTANDING | NEVER_SENT | ACKED | UNACKABLE | NEUTERED
  | HANDSHAKE_RETRANSMITTED | LOST | TLP_RETRANSMITTED | RTO_RETRANSMITTED
  | PTO_RETRANSMITTED | PROBE_RETRANSMITTED | NOT_CONTRIBUTING_RTT.
(** src/quiche/gquiche/quic/core/quic_types.h:172-188 [TransmissionType] *)
Inductive TransmissionType :=
  | NOT_RETRANSMISSION | HANDSHAKE_RETRANSMISSION | ALL_ZERO_RTT_RETRANSMISSION
  | LOSS_RETRANSMISSION | RTO_RETRANSMISSION | TLP_RETRANSMISSION | PTO_RETRANSMISSION
  | PROBING_RETRANSMISSION | PATH_RETRANSMISSION | ALL_INITIAL_RETRANSMISSION.
(** src/quiche/gquiche/quic/core/quic_types.h:232-270 [QuicFrameType] *)
Inductive QuicFrameType :=
  | PADDING_FRAME | RST_STREAM_FRAME | CONNECTION_CLOSE_FRAME | GOAWAY_FRAME
  | WINDOW_UPDATE_FRAME | BLOCKED_FRAME | STOP_WAITING_FRAME | PING_FRAME | CRYPTO_FRAME
  | HANDSHAKE_DONE_FRAME | STREAM_FRAME | ACK_FRAME | MTU_DISCOVERY_FRAME
  | NEW_CONNECTION_ID_FRAME | MAX_STREAMS_FRAME | STREAMS_BLOCKED_FRAME | PATH_RESPONSE_FRAME
  | PATH_CHALLENGE_FRAME | STOP_SENDING_FRAME | MESSAGE_FRAME | NEW_TOKEN_FRAME
  | RETIRE_CONNECTION_ID_FRAME | ACK_FREQUENCY_FRAME | NUM_FRAME_TYPES.

#[export] Instance EncryptionLevel_eq_dec : EqDecision EncryptionLevel.
Proof. solve_decision. Defined.
#[export] Instance PacketNumberSpace_eq_dec : EqDecision PacketNumberSpace.
Proof. solve_decision. Defined.
#[export] Instance Perspective_eq_dec : EqDecision Perspective.
Proof. solve_decision. Defined.
#[export] Instance SentPacketState_eq_dec : EqDecision SentPacketState.
Proof. solve_decision. Defined.
#[export] Instance TransmissionType_eq_dec : EqDecision TransmissionType.
Proof. solve_decision. Defined.
#[export] Instance QuicFrameType_eq_dec : EqDecision QuicFrameType.
Proof. solve_decision. Defined.

(** The stream id [static_cast<QuicStreamId>(-1)]. *)
Abbreviation invalid_stream_id := 4294967295 (only parsing).

(** src/quiche/gquiche/quic/core/frames/quic_stream_frame.h:38-45 [QuicStreamFrame].  The data pointer is left out. *)
Record QuicStreamFrame := mkStreamFrame {
  stream_id : Z;
  fin : bool;
  offset : Z;
  data_length : Z;
}.
#[export] Instance eta_StreamFrame : Eta QuicStreamFrame := MkEta _ (fun s =>
  mkStreamFrame (stream_id s) (fin s) (offset s) (data_length s)).

(** A frame: a stream frame, or a frame of another type, whose content only the
    session looks at. *)
Inductive QuicFrame :=
  | StreamFrame (f : QuicStreamFrame)
  | OtherFrame (t : QuicFrameType) (content : Z).

Definition frame_type (f : QuicFrame) : QuicFrameType :=
  match f with StreamFrame _ => STREAM_FRAME | OtherFrame t _ => t end.

(** src/quiche/gquiche/quic/core/quic_transmission_info.h:18-57 [QuicTransmissionInfo] *)
Record QuicTransmissionInfo := mkInfo {
  retransmittable_frames : list QuicFrame;
  sent_time : QuicTime;
  bytes_sent : Z;
  encryption_level : EncryptionLevel;
  transmission_type : TransmissionType;
  in_flight : bool;
  state : SentPacketState;
  has_crypto_handshake : bool;
  has_ack_frequency : bool;
  first_sent_after_loss : QuicPacketNumber;
  largest_acked : QuicPacketNumber;
}.
#[export] Instance eta_Info : Eta QuicTransmissionInfo := MkEta _ (fun i =>
  mkInfo (retransmittable_frames i) (sent_time i) (bytes_sent i) (encryption_level i)
    (transmission_type i) (in_flight i) (state i) (has_crypto_handshake i) (has_ack_frequency i)
    (first_sent_after_loss i) (largest_acked i)).

(** src/quiche/gquiche/quic/core/quic_transmission_info.cc:10-18 [QuicTransmissionInfo::QuicTransmissionInfo()] *)
Definition QuicTransmissionInfo_default : QuicTransmissionInfo :=
  mkInfo [] QuicTime_Zero 0 ENCRYPTION_INITIAL NOT_RETRANSMISSION false OUTSTANDING false false
    QuicPacketNumber_default QuicPacketNumber_default.
(** src/quiche/gquiche/quic/core/quic_transmission_info.cc:20-33 [QuicTransmissionInfo::QuicTransmissionInfo] *)
Definition QuicTransmissionInfo_mk (level : EncryptionLevel) (transmission_type : TransmissionType)
    (sent_time : QuicTime) (bytes_sent : Z) (has_crypto_handshake has_ack_frequency : bool)
    : QuicTransmissionInfo :=
  mkInfo [] sent_time bytes_sent level transmission_type false OUTSTANDING has_crypto_handshake
    has_ack_frequency QuicPacketNumber_default QuicPacketNumber_default.

(** src/quiche/gquiche/quic/core/quic_packets.h:364-407 [SerializedPacket].  The fields the map reads. *)
Record SerializedPacket := mkPacket {
  packet_number : QuicPacketNumber;
  encrypted_length : Z;
  packet_has_crypto_handshake : bool;
  packet_encryption_level : EncryptionLevel;
  packet_has_ack_frequency : bool;
  packet_largest_acked : QuicPacketNumber;
  packet_retransmittable_frames : list QuicFrame;
}.

(** An array indexed by [PacketNumberSpace]. *)
Record PerSpace (A : Type) := mkPer { at_initial : A; at_handshake : A; at_application : A }.
Arguments mkPer {A}.
Arguments at_initial {A}.
Arguments at_handshake {A}.
Arguments at_application {A}.

Definition per_get {A} (p : PerSpace A) (s : PacketNumberSpace) : result A :=
  match s with
  | INITIAL_DATA => Ok (at_initial p)
  | HANDSHAKE_DATA => Ok (at_handshake p)
  | APPLICATION_DATA => Ok (at_application p)
  | NUM_PACKET_NUMBER_SPACES => Fault OutOfBounds
  end.
Definition per_set {A} (p : PerSpace A) (s : PacketNumberSpace) (v : A) : result (PerSpace A) :=
  match s with
  | INITIAL_DATA => Ok (mkPer v (at_handshake p) (at_application p))
  | HANDSHAKE_DATA => Ok (mkPer (at_initial p) v (at_application p))
  | APPLICATION_DATA => Ok (mkPer (at_initial p) (at_handshake p) v)
  | NUM_PACKET_NUMBER_SPACES => Fault OutOfBounds
  end.
Arguments per_get {A} p s : simpl never.
Arguments per_set {A} p s v : simpl never.
Definition per_all {A} (v : A) : PerSpace A := mkPer v v v.

(** src/quiche/gquiche/quic/core/session_notifier_interface.h:16-45 [SessionNotifierInterface] *)
Class SessionNotifier (N : Type) := {
  OnFrameAcked : N -> QuicFrame -> Delta -> QuicTime -> N * bool;
  OnFrameLost : N -> QuicFrame -> N;
  notifier_RetransmitFrames : N -> list QuicFrame -> TransmissionType -> N;
  IsFrameOutstanding : N -> QuicFrame -> bool;
  HasUnackedCryptoData : N -> bool;
  notifier_HasUnackedStreamData : N -> bool;
}.

(** src/quiche/gquiche/quic/core/quic_unacked_packet_map.h:281-330 [QuicUnackedPacketMap].  [simple_inflight_time_] is never used. *)
Record QuicUnackedPacketMap (N : Type) := mkMap {
  perspective_ : Perspective;
  largest_sent_packet_ : QuicPacketNumber;
  largest_sent_retransmittable_packets_ : PerSpace QuicPacketNumber;
  largest_sent_largest_acked_ : QuicPacketNumber;
  largest_acked_ : QuicPacketNumber;
  largest_acked_packets_ : PerSpace QuicPacketNumber;
  unacked_packets_ : list QuicTransmissionInfo;
  least_unacked_ : QuicPacketNumber;
  bytes_in_flight_ : Z;
  bytes_in_flight_per_packet_number_space_ : PerSpace Z;
  packets_in_flight_ : Z;
  last_inflight_packet_sent_time_ : QuicTime;
  last_inflight_packets_sent_time_ : PerSpace QuicTime;
  last_crypto_packet_sent_time_ : QuicTime;
  aggregated_stream_frame_ : QuicStreamFrame;
  session_notifier_ : option N;
  supports_multiple_packet_number_spaces_ : bool;
}.
Arguments mkMap {N}.
Arguments perspective_ {N}.
Arguments largest_sent_packet_ {N}.
Arguments largest_sent_retransmittable_packets_ {N}.
Arguments largest_sent_largest_acked_ {N}.
Arguments largest_acked_ {N}.
Arguments largest_acked_packets_ {N}.
Arguments unacked_packets_ {N}.
Arguments least_unacked_ {N}.
Arguments bytes_in_flight_ {N}.
Arguments bytes_in_flight_per_packet_number_space_ {N}.
Arguments packets_in_flight_ {N}.
Arguments last_inflight_packet_sent_time_ {N}.
Arguments last_inflight_packets_sent_time_ {N}.
Arguments last_crypto_packet_sent_time_ {N}.
Arguments aggregated_stream_frame_ {N}.
Arguments session_notifier_ {N}.
Arguments supports_multiple_packet_number_spaces_ {N}.
#[export] Instance eta_Map N : Eta (QuicUnackedPacketMap N) := MkEta _ (fun m =>
  mkMap (perspective_ m) (largest_sent_packet_ m) (largest_sent_retransmittable_packets_ m)
    (largest_sent_largest_acked_ m) (largest_acked_ m) (largest_acked_packets_ m) (unacked_packets_ m)
    (least_unacked_ m) (bytes_in_flight_ m) (bytes_in_flight_per_packet_number_space_ m)
    (packets_in_flight_ m) (last_inflight_packet_sent_time_ m) (last_inflight_packets_sent_time_ m)
    (last_crypto_packet_sent_time_ m) (aggregated_stream_frame_ m) (session_notifier_ m)
    (supports_multiple_packet_number_spaces_ m)).

(** src/quiche/gquiche/quic/core/quic_constants.cc:20-23 [FirstSendingPacketNumber] *)
Definition FirstSendingPacketNumber : QuicPacketNumber := 1.

(** src/quiche/gquiche/quic/core/quic_unacked_packet_map.cc:114-127 [QuicUnackedPacketMap::QuicUnackedPacketMap] *)
Definition QuicUnackedPacketMap_init {N} (perspective : Perspective) : QuicUnackedPacketMap N :=
  mkMap perspective QuicPacketNumber_default (per_all QuicPacketNumber_default)
    QuicPacketNumber_default QuicPacketNumber_default (per_all QuicPacketNumber_default) []
    FirstSendingPacketNumber 0 (per_all 0) 0 QuicTime_Zero (per_all QuicTime_Zero) QuicTime_Zero
    (mkStreamFrame invalid_stream_id false 0 0) None false.

(** * Operations *)

(** src/quiche/gquiche/quic/core/quic_unacked_packet_map.cc:21-27 [WillStreamFrameLengthSumWrapAround] *)
Definition WillStreamFrameLengthSumWrapAround (lhs rhs : Z) : bool := (65535 - lhs) <? rhs.

(** src/quiche/gquiche/quic/core/quic_unacked_packet_map.cc:56-110 [GetFrameTypeBitfield] with the values of [QuicFrameTypeBitfield]. *)
Definition GetFrameTypeBitfield (type : QuicFrameType) : result Z :=
  match type with
  | PADDING_FRAME => Ok 1
  | RST_STREAM_FRAME => Ok (Z.shiftl 1 1)
  | CONNECTION_CLOSE_FRAME => Ok (Z.shiftl 1 2)
  | GOAWAY_FRAME => Ok (Z.shiftl 1 3)
  | WINDOW_UPDATE_FRAME => Ok (Z.shiftl 1 4)
  | BLOCKED_FRAME => Ok (Z.shiftl 1 5)
  | STOP_WAITING_FRAME => Ok (Z.shiftl 1 6)
  | PING_FRAME => Ok (Z.shiftl 1 7)
  | CRYPTO_FRAME => Ok (Z.shiftl 1 8)
  | HANDSHAKE_DONE_FRAME => Ok (Z.shiftl 1 9)
  | STREAM_FRAME => Ok (Z.shiftl 1 10)
  | ACK_FRAME => Ok (Z.shiftl 1 11)
  | MTU_DISCOVERY_FRAME => Ok (Z.shiftl 1 12)
  | NEW_CONNECTION_ID_FRAME => Ok (Z.shiftl 1 13)
  | MAX_STREAMS_FRAME => Ok (Z.shiftl 1 14)
  | STREAMS_BLOCKED_FRAME => Ok (Z.shiftl 1 15)
  | PATH_RESPONSE_FRAME => Ok (Z.shiftl 1 16)
  | PATH_CHALLENGE_FRAME => Ok (Z.shiftl 1 17)
  | STOP_SENDING_FRAME => Ok (Z.shiftl 1 18)
  | MESSAGE_FRAME => Ok (Z.shiftl 1 19)
  | NEW_TOKEN_FRAME => Ok (Z.shiftl 1 20)
  | RETIRE_CONNECTION_ID_FRAME => Ok (Z.shiftl 1 21)
  | ACK_FREQUENCY_FRAME => Ok (Z.shiftl 1 22)
  | NUM_FRAME_TYPES => Fault CheckFailed
  end.

(** src/quiche/gquiche/quic/core/quic_utils.cc:298-300 [QuicUtils::IsAckable] *)
Definition IsAckable (s : SentPacketState) : bool :=
  bool_decide (s <> NEVER_SENT) && bool_decide (s <> ACKED) && bool_decide (s <> UNACKABLE).
(** src/quiche/gquiche/quic/core/quic_utils.cc:650-666 [QuicUtils::GetPacketNumberSpace] *)
Definition QuicUtils_GetPacketNumberSpace (l : EncryptionLevel) : result PacketNumberSpace :=
  match l with
  | ENCRYPTION_INITIAL => Ok INITIAL_DATA
  | ENCRYPTION_HANDSHAKE => Ok HANDSHAKE_DATA
  | ENCRYPTION_ZERO_RTT | ENCRYPTION_FORWARD_SECURE => Ok APPLICATION_DATA
  | NUM_ENCRYPTION_LEVELS => Fault CheckFailed
  end.

Section Map.
Context {N : Type} `{SessionNotifier N}.
Implicit Types (m : QuicUnackedPacketMap N) (info : QuicTransmissionInfo).

Definition the_notifier m : result N :=
  match session_notifier_ m with Some n => Ok n | None => Fault NullPointer end.

Definition deque_size m : Z := Z.of_nat (length (unacked_packets_ m)).

(** src/quiche/gquiche/quic/core/quic_unacked_packet_map.cc:548-559 [QuicUnackedPacketMap::GetPacketNumberSpace(EncryptionLevel)] *)
Definition GetPacketNumberSpace m (level : EncryptionLevel) : result PacketNumberSpace :=
  if supports_multiple_packet_number_spaces_ m then QuicUtils_GetPacketNumberSpace level
  else if bool_decide (perspective_ m = IS_CLIENT) then
    Ok (if bool_decide (level = ENCRYPTION_INITIAL) then HANDSHAKE_DATA else APPLICATION_DATA)
  else Ok (if bool_decide (level = ENCRYPTION_FORWARD_SECURE) then APPLICATION_DATA else HANDSHAKE_DATA).

(** src/quiche/gquiche/quic/core/quic_unacked_packet_map.cc:384-387 [QuicUnackedPacketMap::GetTransmissionInfo].  The deque checks its index. *)
Definition GetTransmissionInfo m (pn : QuicPacketNumber) : result QuicTransmissionInfo :=
  let* i := PN_diff pn (least_unacked_ m) in
  match unacked_packets_ m !! Z.to_nat i with Some info => Ok info | None => Fault CheckFailed end.

(** The deque with the entry of a packet number that [GetTransmissionInfo] finds replaced. *)
Definition set_info m (pn : QuicPacketNumber) info : QuicUnackedPacketMap N :=
  m <| unacked_packets_ := <[Z.to_nat (pn - least_unacked_ m) := info]> (unacked_packets_ m) |>.

(** src/quiche/gquiche/quic/core/quic_unacked_packet_map.cc:542-546 [QuicUnackedPacketMap::GetPacketNumberSpace(QuicPacketNumber)] *)
Definition GetPacketNumberSpaceOf m (pn : QuicPacketNumber) : result PacketNumberSpace :=
  let* info := GetTransmissionInfo m pn in GetPacketNumberSpace m (encryption_level info).

(** The two checks that open the operations on a packet number. *)
Definition check_in_deque m (pn : QuicPacketNumber) : result unit :=
  let* ge := PN_ge pn (least_unacked_ m) in
  let* _ := CHECK ge in
  let* e := PN_add (least_unacked_ m) (deque_size m) in
  let* lt := PN_lt pn e in
  CHECK lt.

(** src/quiche/gquiche/quic/core/quic_unacked_packet_map.cc:148-151 [QuicUnackedPacketMap::AddSentPacket, loop] *)
Fixpoint fill_never_sent (fuel : nat) m (pn : QuicPacketNumber) : result (QuicUnackedPacketMap N) :=
  match fuel with
  | O => Fault OutOfFuel
  | S fuel =>
      let* e := PN_add (least_unacked_ m) (deque_size m) in
      let* lt := PN_lt e pn in
      if lt then
        fill_never_sent fuel
          (m <| unacked_packets_ := unacked_packets_ m ++ [QuicTransmissionInfo_default <| state := NEVER_SENT |>] |>) pn
      else Ok m
  end.

(** src/quiche/gquiche/quic/core/quic_unacked_packet_map.cc:166-176 [QuicUnackedPacketMap::AddSentPacket, in flight] *)
Definition account_in_flight m info (pn : QuicPacketNumber) : result (QuicUnackedPacketMap N * QuicTransmissionInfo) :=
  let* packet_number_space := GetPacketNumberSpace m (encryption_level info) in
  let m := m <| bytes_in_flight_ := bytes_in_flight_ m ⊕ bytes_sent info |> in
  let* b := per_get (bytes_in_flight_per_packet_number_space_ m) packet_number_space in
  let* bs := per_set (bytes_in_flight_per_packet_number_space_ m) packet_number_space (b ⊕ bytes_sent info) in
  let m := m <| bytes_in_flight_per_packet_number_space_ := bs |> in
  let m := m <| packets_in_flight_ := packets_in_flight_ m ⊕ 1 |> in
  let info := info <| in_flight := true |> in
  let* ls := per_set (largest_sent_retransmittable_packets_ m) packet_number_space pn in
  let m := m <| largest_sent_retransmittable_packets_ := ls |> in
  let m := m <| last_inflight_packet_sent_time_ := sent_time info |> in
  let* ts := per_set (last_inflight_packets_sent_time_ m) packet_number_space (sent_time info) in
  Ok (m <| last_inflight_packets_sent_time_ := ts |>, info).

(** src/quiche/gquiche/quic/core/quic_unacked_packet_map.cc:135-186 [QuicUnackedPacketMap::AddSentPacket] *)
Definition AddSentPacket m (packet : SerializedPacket) (transmission_type : TransmissionType)
    (sent_time : QuicTime) (set_in_flight measure_rtt : bool) : result (QuicUnackedPacketMap N) :=
  let pn := packet_number packet in
  let* bug := if PN_IsInitialized (largest_sent_packet_ m) then PN_ge (largest_sent_packet_ m) pn else Ok false in
  let* _ := CHECK (negb bug) in
  let* e := PN_add (least_unacked_ m) (deque_size m) in
  let* ge := PN_ge pn e in
  let* _ := CHECK ge in
  let* m := fill_never_sent (S (Z.to_nat (pn - e))) m pn in
  let info := QuicTransmissionInfo_mk (packet_encryption_level packet) transmission_type sent_time
                (encrypted_length packet) (packet_has_crypto_handshake packet) (packet_has_ack_frequency packet) in
  let info := info <| largest_acked := packet_largest_acked packet |> in
  let m := m <| largest_sent_largest_acked_ :=
             PN_UpdateMax (largest_sent_largest_acked_ m) (packet_largest_acked packet) |> in
  let* info := if negb measure_rtt
    then let* _ := CHECK (negb set_in_flight) in Ok (info <| state := NOT_CONTRIBUTING_RTT |>)
    else Ok info in
  let m := m <| largest_sent_packet_ := pn |> in
  let* mi := if set_in_flight then account_in_flight m info pn else Ok (m, info) in
  let '(m, info) := mi in
  let m := if packet_has_crypto_handshake packet then m <| last_crypto_packet_sent_time_ := sent_time |> else m in
  Ok (m <| unacked_packets_ := unacked_packets_ m ++
         [info <| retransmittable_frames := packet_retransmittable_frames packet |>] |>).

(** src/quiche/gquiche/quic/core/quic_unacked_packet_map.cc:249-257 [QuicUnackedPacketMap::IsPacketUsefulForMeasuringRtt] *)
Definition IsPacketUsefulForMeasuringRtt m (pn : QuicPacketNumber) info : result bool :=
  if negb (IsAckable (state info)) then Ok false
  else
    let* newer := if PN_IsInitialized (largest_acked_ m) then PN_gt pn (largest_acked_ m) else Ok true in
    Ok (newer && bool_decide (state info <> NOT_CONTRIBUTING_RTT)).
(** src/quiche/gquiche/quic/core/quic_unacked_packet_map.cc:259-263 [QuicUnackedPacketMap::IsPacketUsefulForCongestionControl] *)
Definition IsPacketUsefulForCongestionControl info : bool := in_flight info.
(** src/quiche/gquiche/quic/core/quic_unacked_packet_map.cc:265-271 [QuicUnackedPacketMap::IsPacketUsefulForRetransmittableData] *)
Definition IsPacketUsefulForRetransmittableData m info : result bool :=
  if negb (PN_IsInitialized (first_sent_after_loss info)) then Ok false
  else if PN_IsInitialized (largest_acked_ m) then PN_gt (first_sent_after_loss info) (largest_acked_ m)
  else Ok true.
(** src/quiche/gquiche/quic/core/quic_unacked_packet_map.cc:273-279 [QuicUnackedPacketMap::IsPacketUseless] *)
Definition IsPacketUseless m (pn : QuicPacketNumber) info : result bool :=
  let* rtt := IsPacketUsefulForMeasuringRtt m pn info in
  if rtt then Ok false
  else if IsPacketUsefulForCongestionControl info then Ok false
  else let* data := IsPacketUsefulForRetransmittableData m info in Ok (negb data).
(** src/quiche/gquiche/quic/core/quic_unacked_packet_map.cc:281-288 [QuicUnackedPacketMap::IsUnacked] *)
Definition IsUnacked m (pn : QuicPacketNumber) : result bool :=
  let* lt := PN_lt pn (least_unacked_ m) in
  if lt then Ok false
  else
    let* e := PN_add (least_unacked_ m) (deque_size m) in
    let* ge := PN_ge pn e in
    if ge then Ok false
    else
      let* info := GetTransmissionInfo m pn in
      let* useless := IsPacketUseless m pn info in
      Ok (negb useless).

(** src/quiche/gquiche/quic/core/quic_unacked_packet_map.cc:189-196 [QuicUnackedPacketMap::RemoveObsoletePackets, loop] on the deque's entries. *)
Fixpoint remove_obsolete (l : list QuicTransmissionInfo) m : result (QuicUnackedPacketMap N) :=
  match l with
  | [] => Ok m
  | info :: l =>
      let* useless := IsPacketUseless m (least_unacked_ m) info in
      if negb useless then Ok m
      else
        let* least := PN_incr (least_unacked_ m) in
        remove_obsolete l (m <| unacked_packets_ := l |> <| least_unacked_ := least |>)
  end.
(** src/quiche/gquiche/quic/core/quic_unacked_packet_map.cc:188-197 [QuicUnackedPacketMap::RemoveObsoletePackets] *)
Definition RemoveObsoletePackets m : result (QuicUnackedPacketMap N) := remove_obsolete (unacked_packets_ m) m.

(** src/quiche/gquiche/quic/core/quic_unacked_packet_map.cc:207-219 [QuicUnackedPacketMap::HasRetransmittableFrames(const QuicTransmissionInfo&)] *)
Definition InfoHasRetransmittableFrames m info : result bool :=
  if negb (IsAckable (state info)) then Ok false
  else match retransmittable_frames info with
       | [] => Ok false
       | frames => let* n := the_notifier m in Ok (existsb (IsFrameOutstanding n) frames)
       end.
(** src/quiche/gquiche/quic/core/quic_unacked_packet_map.cc:199-205 [QuicUnackedPacketMap::HasRetransmittableFrames(QuicPacketNumber)] *)
Definition HasRetransmittableFrames m (pn : QuicPacketNumber) : result bool :=
  let* _ := check_in_deque m pn in
  let* info := GetTransmissionInfo m pn in
  InfoHasRetransmittableFrames m info.
(** src/quiche/gquiche/quic/core/quic_unacked_packet_map.cc:227-234 [QuicUnackedPacketMap::RemoveRetransmittability], with the overload of lines 221-225 it calls. *)
Definition RemoveRetransmittability m (pn : QuicPacketNumber) : result (QuicUnackedPacketMap N) :=
  let* _ := check_in_deque m pn in
  let* info := GetTransmissionInfo m pn in
  Ok (set_info m pn (info <| retransmittable_frames := [] |> <| first_sent_after_loss := PN_Clear |>)).

(** src/quiche/gquiche/quic/core/quic_unacked_packet_map.cc:236-241 [QuicUnackedPacketMap::IncreaseLargestAcked] *)
Definition IncreaseLargestAcked m (la : QuicPacketNumber) : result (QuicUnackedPacketMap N) :=
  let* ok := if PN_IsInitialized (largest_acked_ m) then PN_le (largest_acked_ m) la else Ok true in
  let* _ := CHECK ok in
  Ok (m <| largest_acked_ := la |>).
(** src/quiche/gquiche/quic/core/quic_unacked_packet_map.cc:243-247 [QuicUnackedPacketMap::MaybeUpdateLargestAckedOfPacketNumberSpace] *)
Definition MaybeUpdateLargestAckedOfPacketNumberSpace m (s : PacketNumberSpace) (pn : QuicPacketNumber)
    : result (QuicUnackedPacketMap N) :=
  let* p := per_get (largest_acked_packets_ m) s in
  let* ps := per_set (largest_acked_packets_ m) s (PN_UpdateMax p pn) in
  Ok (m <| largest_acked_packets_ := ps |>).

(** src/quiche/gquiche/quic/core/quic_unacked_packet_map.cc:290-318 [QuicUnackedPacketMap::RemoveFromInFlight(QuicTransmissionInfo pointer)] *)
Definition RemoveInfoFromInFlight m info : result (QuicUnackedPacketMap N * QuicTransmissionInfo) :=
  if in_flight info then
    let* _ := CHECK (bytes_sent info <=? bytes_in_flight_ m) in
    let* _ := CHECK (negb (packets_in_flight_ m =? 0)) in
    let m := m <| bytes_in_flight_ := bytes_in_flight_ m ⊖ bytes_sent info |> in
    let m := m <| packets_in_flight_ := packets_in_flight_ m ⊖ 1 |> in
    let* packet_number_space := GetPacketNumberSpace m (encryption_level info) in
    let* b := per_get (bytes_in_flight_per_packet_number_space_ m) packet_number_space in
    let* _ := CHECK (bytes_sent info <=? b) in
    let* bs := per_set (bytes_in_flight_per_packet_number_space_ m) packet_number_space (b ⊖ bytes_sent info) in
    let m := m <| bytes_in_flight_per_packet_number_space_ := bs |> in
    let* ts := if b ⊖ bytes_sent info =? 0
      then per_set (last_inflight_packets_sent_time_ m) packet_number_space QuicTime_Zero
      else Ok (last_inflight_packets_sent_time_ m) in
    Ok (m <| last_inflight_packets_sent_time_ := ts |>, info <| in_flight := false |>)
  else Ok (m, info).
(** src/quiche/gquiche/quic/core/quic_unacked_packet_map.cc:320-326 [QuicUnackedPacketMap::RemoveFromInFlight(QuicPacketNumber)] *)
Definition RemoveFromInFlight m (pn : QuicPacketNumber) : result (QuicUnackedPacketMap N) :=
  let* _ := check_in_deque m pn in
  let* info := GetTransmissionInfo m pn in
  let* r := RemoveInfoFromInFlight m info in
  Ok (set_info r.1 pn r.2).

(** src/quiche/gquiche/quic/core/quic_unacked_packet_map.cc:451-464 [QuicUnackedPacketMap::NotifyFramesAcked] *)
Definition NotifyFramesAcked m info (ack_delay : Delta) (receive_timestamp : QuicTime)
    : QuicUnackedPacketMap N * bool :=
  match session_notifier_ m with
  | None => (m, false)
  | Some n =>
      let r := foldl (fun (r : N * bool) frame =>
                  let a := OnFrameAcked r.1 frame ack_delay receive_timestamp in
                  (a.1, if a.2 then true else r.2)) (n, false) (retransmittable_frames info) in
      (m <| session_notifier_ := Some r.1 |>, r.2)
  end.
(** src/quiche/gquiche/quic/core/quic_unacked_packet_map.cc:466-471 [QuicUnackedPacketMap::NotifyFramesLost] *)
Definition NotifyFramesLost m info : result (QuicUnackedPacketMap N) :=
  match retransmittable_frames info with
  | [] => Ok m
  | frames => let* n := the_notifier m in Ok (m <| session_notifier_ := Some (foldl OnFrameLost n frames) |>)
  end.
(** src/quiche/gquiche/quic/core/quic_unacked_packet_map.cc:473-476 [QuicUnackedPacketMap::RetransmitFrames] *)
Definition RetransmitFrames m (frames : list QuicFrame) (type : TransmissionType) : result (QuicUnackedPacketMap N) :=
  let* n := the_notifier m in
  Ok (m <| session_notifier_ := Some (notifier_RetransmitFrames n frames type) |>).

(** src/quiche/gquiche/quic/core/quic_unacked_packet_map.cc:526-540 [QuicUnackedPacketMap::NotifyAggregatedStreamFrameAcked] *)
Definition NotifyAggregatedStreamFrameAcked m (ack_delay : Delta) : QuicUnackedPacketMap N :=
  match session_notifier_ m with
  | None => m
  | Some n =>
      if stream_id (aggregated_stream_frame_ m) =? invalid_stream_id then m
      else
        let a := OnFrameAcked n (StreamFrame (aggregated_stream_frame_ m)) ack_delay QuicTime_Zero in
        m <| session_notifier_ := Some a.1 |>
          <| aggregated_stream_frame_ := aggregated_stream_frame_ m <| stream_id := invalid_stream_id |> |>
  end.

(** src/quiche/gquiche/quic/core/quic_unacked_packet_map.cc:487-497 [QuicUnackedPacketMap::MaybeAggregateAckedStreamFrame, can_aggregate] *)
Definition can_aggregate (agg : QuicStreamFrame) (frame : QuicFrame) : bool :=
  match frame with
  | StreamFrame f =>
      (stream_id f =? stream_id agg) && (offset f =? offset agg ⊕ data_length agg)
      && negb (WillStreamFrameLengthSumWrapAround (data_length agg) (data_length f))
  | OtherFrame _ _ => false
  end.
(** src/quiche/gquiche/quic/core/quic_unacked_packet_map.cc:485-523 [QuicUnackedPacketMap::MaybeAggregateAckedStreamFrame, loop body].  [stream_frame] is read
    only of stream frames. *)
Definition aggregate_frame (ack_delay : Delta) (receive_timestamp : QuicTime) m (frame : QuicFrame)
    : QuicUnackedPacketMap N :=
  let agg := aggregated_stream_frame_ m in
  match frame with
  | StreamFrame f =>
      if can_aggregate agg frame then
        let m := m <| aggregated_stream_frame_ :=
                   agg <| data_length := u16 (data_length agg + data_length f) |> <| fin := fin f |> |> in
        if fin f then NotifyAggregatedStreamFrameAcked m ack_delay else m
      else
        let m := NotifyAggregatedStreamFrameAcked m ack_delay in
        if fin f then
          match session_notifier_ m with
          | None => m
          | Some n => m <| session_notifier_ := Some (OnFrameAcked n frame ack_delay receive_timestamp).1 |>
          end
        else m <| aggregated_stream_frame_ := mkStreamFrame (stream_id f) (fin f) (offset f) (data_length f) |>
  | OtherFrame _ _ =>
      let m := NotifyAggregatedStreamFrameAcked m ack_delay in
      match session_notifier_ m with
      | None => m
      | Some n => m <| session_notifier_ := Some (OnFrameAcked n frame ack_delay receive_timestamp).1 |>
      end
  end.
(** src/quiche/gquiche/quic/core/quic_unacked_packet_map.cc:478-524 [QuicUnackedPacketMap::MaybeAggregateAckedStreamFrame] *)
Definition MaybeAggregateAckedStreamFrame m info (ack_delay : Delta) (receive_timestamp : QuicTime)
    : QuicUnackedPacketMap N :=
  match session_notifier_ m with
  | None => m
  | Some _ => foldl (aggregate_frame ack_delay receive_timestamp) m (retransmittable_frames info)
  end.

(** src/quiche/gquiche/quic/core/quic_unacked_packet_map.cc:334-346 [QuicUnackedPacketMap::NeuterUnencryptedPackets, loop body], also of lines 362-372: remove from
    flight, mark and notify. *)
Definition neuter_packet m (pn : QuicPacketNumber) : result (QuicUnackedPacketMap N) :=
  let* m := RemoveFromInFlight m pn in
  let* info := GetTransmissionInfo m pn in
  let info := info <| state := NEUTERED |> in
  let m := set_info m pn info in
  Ok (NotifyFramesAcked m info Delta_Zero QuicTime_Zero).1.
(** src/quiche/gquiche/quic/core/quic_unacked_packet_map.cc:332-349 [QuicUnackedPacketMap::NeuterUnencryptedPackets, loop], over the [k] entries from [pn] on. *)
Fixpoint neuter_unencrypted_loop (k : nat) m (pn : QuicPacketNumber) (neutered : list QuicPacketNumber)
    : result (QuicUnackedPacketMap N * list QuicPacketNumber) :=
  match k with
  | O => Ok (m, neutered)
  | S k =>
      let* info := GetTransmissionInfo m pn in
      let* mn :=
        if negb (bool_decide (retransmittable_frames info = [])) && bool_decide (encryption_level info = ENCRYPTION_INITIAL)
        then
          let* m := neuter_packet m pn in
          let* info := GetTransmissionInfo m pn in
          let* outstanding := InfoHasRetransmittableFrames m info in
          let* _ := CHECK (negb outstanding) in
          Ok (m, neutered ++ [pn])
        else Ok (m, neutered) in
      let* pn := PN_incr pn in
      neuter_unencrypted_loop k mn.1 pn mn.2
  end.
(** src/quiche/gquiche/quic/core/quic_unacked_packet_map.cc:328-354 [QuicUnackedPacketMap::NeuterUnencryptedPackets] *)
Definition NeuterUnencryptedPackets m : result (QuicUnackedPacketMap N * list QuicPacketNumber) :=
  let* mn := neuter_unencrypted_loop (length (unacked_packets_ m)) m (least_unacked_ m) [] in
  let* t := per_get (last_inflight_packets_sent_time_ mn.1) INITIAL_DATA in
  let* _ := CHECK (negb (supports_multiple_packet_number_spaces_ mn.1) || (t =? QuicTime_Zero)) in
  Ok mn.
(** src/quiche/gquiche/quic/core/quic_unacked_packet_map.cc:360-373 [QuicUnackedPacketMap::NeuterHandshakePackets, loop] *)
Fixpoint neuter_handshake_loop (k : nat) m (pn : QuicPacketNumber) (neutered : list QuicPacketNumber)
    : result (QuicUnackedPacketMap N * list QuicPacketNumber) :=
  match k with
  | O => Ok (m, neutered)
  | S k =>
      let* info := GetTransmissionInfo m pn in
      let* selected :=
        if bool_decide (retransmittable_frames info = []) then Ok false
        else let* s := GetPacketNumberSpace m (encryption_level info) in Ok (bool_decide (s = HANDSHAKE_DATA)) in
      let* mn :=
        if selected then let* m := neuter_packet m pn in Ok (m, neutered ++ [pn])
        else Ok (m, neutered) in
      let* pn := PN_incr pn in
      neuter_handshake_loop k mn.1 pn mn.2
  end.
(** src/quiche/gquiche/quic/core/quic_unacked_packet_map.cc:356-378 [QuicUnackedPacketMap::NeuterHandshakePackets] *)
Definition NeuterHandshakePackets m : result (QuicUnackedPacketMap N * list QuicPacketNumber) :=
  let* mn := neuter_handshake_loop (length (unacked_packets_ m)) m (least_unacked_ m) [] in
  let* t := per_get (last_inflight_packets_sent_time_ mn.1) HANDSHAKE_DATA in
  let* _ := CHECK (negb (supports_multiple_packet_number_spaces_ mn.1) || (t =? QuicTime_Zero)) in
  Ok mn.

(** src/quiche/gquiche/quic/core/quic_unacked_packet_map.cc:380-382 [QuicUnackedPacketMap::HasInFlightPackets] *)
Definition HasInFlightPackets m : bool := 0 <? bytes_in_flight_ m.

(** src/quiche/gquiche/quic/core/quic_unacked_packet_map.cc:417-426 [QuicUnackedPacketMap::HasMultipleInFlightPackets, loop] *)
Fixpoint more_than_one_in_flight (num_in_flight : Z) (l : list QuicTransmissionInfo) : bool :=
  match l with
  | [] => false
  | info :: l =>
      let num_in_flight := if in_flight info then num_in_flight + 1 else num_in_flight in
      if 1 <? num_in_flight then true else more_than_one_in_flight num_in_flight l
  end.
(** src/quiche/gquiche/quic/core/quic_unacked_packet_map.cc:413-427 [QuicUnackedPacketMap::HasMultipleInFlightPackets] *)
Definition HasMultipleInFlightPackets m : bool :=
  if kDefaultTCPMSS <? bytes_in_flight_ m then true
  else more_than_one_in_flight 0 (reverse (unacked_packets_ m)).
(** src/quiche/gquiche/quic/core/quic_unacked_packet_map.cc:429-431 [QuicUnackedPacketMap::HasPendingCryptoPackets] *)
Definition HasPendingCryptoPackets m : result bool :=
  let* n := the_notifier m in Ok (HasUnackedCryptoData n).
(** src/quiche/gquiche/quic/core/quic_unacked_packet_map.cc:434-439 [QuicUnackedPacketMap::HasUnackedRetransmittableFrames, loop] *)
Fixpoint has_unacked_retransmittable m (l : list QuicTransmissionInfo) : result bool :=
  match l with
  | [] => Ok false
  | info :: l =>
      let* b := if in_flight info then InfoHasRetransmittableFrames m info else Ok false in
      if b then Ok true else has_unacked_retransmittable m l
  end.
(** src/quiche/gquiche/quic/core/quic_unacked_packet_map.cc:433-440 [QuicUnackedPacketMap::HasUnackedRetransmittableFrames] *)
Definition HasUnackedRetransmittableFrames m : result bool :=
  has_unacked_retransmittable m (reverse (unacked_packets_ m)).
(** src/quiche/gquiche/quic/core/quic_unacked_packet_map.cc:442-444 [QuicUnackedPacketMap::GetLeastUnacked] *)
Definition GetLeastUnacked m : QuicPacketNumber := least_unacked_ m.
(** src/quiche/gquiche/quic/core/quic_unacked_packet_map.cc:446-449 [QuicUnackedPacketMap::SetSessionNotifier] *)
Definition SetSessionNotifier m (n : option N) : QuicUnackedPacketMap N := m <| session_notifier_ := n |>.
(** src/quiche/gquiche/quic/core/quic_unacked_packet_map.cc:402-411 [QuicUnackedPacketMap::GetNumUnackedPacketsDebugOnly], over the entries from packet number [pn]. *)
Fixpoint GetNumUnackedPacketsDebugOnly m (pn : QuicPacketNumber) (l : list QuicTransmissionInfo) : result Z :=
  match l with
  | [] => Ok 0
  | info :: l =>
      let* useless := IsPacketUseless m pn info in
      let* pn := PN_incr pn in
      let* n := GetNumUnackedPacketsDebugOnly m pn l in
      Ok (if useless then n else n + 1)
  end.
(** src/quiche/gquiche/quic/core/quic_unacked_packet_map.cc:561-569 [QuicUnackedPacketMap::GetLargestAckedOfPacketNumberSpace] *)
Definition GetLargestAckedOfPacketNumberSpace m (s : PacketNumberSpace) : result QuicPacketNumber :=
  if bool_decide (s = NUM_PACKET_NUMBER_SPACES) then Fault CheckFailed
  else per_get (largest_acked_packets_ m) s.
(** src/quiche/gquiche/quic/core/quic_unacked_packet_map.cc:571-579 [QuicUnackedPacketMap::GetLastInFlightPacketSentTime(PacketNumberSpace)] *)
Definition GetLastInFlightPacketSentTime m (s : PacketNumberSpace) : result QuicTime :=
  if bool_decide (s = NUM_PACKET_NUMBER_SPACES) then Fault CheckFailed
  else per_get (last_inflight_packets_sent_time_ m) s.
(** src/quiche/gquiche/quic/core/quic_unacked_packet_map.cc:581-590 [QuicUnackedPacketMap::GetLargestSentRetransmittableOfPacketNumberSpace] *)
Definition GetLargestSentRetransmittableOfPacketNumberSpace m (s : PacketNumberSpace) : result QuicPacketNumber :=
  if bool_decide (s = NUM_PACKET_NUMBER_SPACES) then Fault CheckFailed
  else per_get (largest_sent_retransmittable_packets_ m) s.
(** src/quiche/gquiche/quic/core/quic_unacked_packet_map.cc:592-602 [QuicUnackedPacketMap::GetFirstInFlightTransmissionInfo] *)
Definition GetFirstInFlightTransmissionInfo m : result QuicTransmissionInfo :=
  let* _ := CHECK (HasInFlightPackets m) in
  match filter (fun i => in_flight i = true) (unacked_packets_ m) with
  | info :: _ => Ok info
  | [] => Fault CheckFailed
  end.
(** src/quiche/gquiche/quic/core/quic_unacked_packet_map.cc:604-616 [QuicUnackedPacketMap::GetFirstInFlightTransmissionInfoOfSpace], over the deque's entries. *)
Fixpoint GetFirstInFlightTransmissionInfoOfSpace m (l : list QuicTransmissionInfo) (s : PacketNumberSpace)
    : result (option QuicTransmissionInfo) :=
  match l with
  | [] => Ok None
  | info :: l =>
      let* here := if in_flight info
        then let* s' := GetPacketNumberSpace m (encryption_level info) in Ok (bool_decide (s' = s))
        else Ok false in
      if here then Ok (Some info) else GetFirstInFlightTransmissionInfoOfSpace m l s
  end.
(** src/quiche/gquiche/quic/core/quic_unacked_packet_map.cc:618-632 [QuicUnackedPacketMap::EnableMultiplePacketNumberSpacesSupport] *)
Definition EnableMultiplePacketNumberSpacesSupport m : result (QuicUnackedPacketMap N) :=
  let* _ := CHECK (negb (supports_multiple_packet_number_spaces_ m)) in
  let* _ := CHECK (negb (PN_IsInitialized (largest_sent_packet_ m))) in
  Ok (m <| supports_multiple_packet_number_spaces_ := true |>).
(** src/quiche/gquiche/quic/core/quic_unacked_packet_map.cc:634-649 [QuicUnackedPacketMap::GetLastPacketContent] *)
Definition GetLastPacketContent m : result Z :=
  match last (unacked_packets_ m) with
  | None => Ok (-1)
  | Some last_packet =>
      let* content := rfold (fun c frame => let* b := GetFrameTypeBitfield (frame_type frame) in Ok (Z.lor c b))
                        (retransmittable_frames last_packet) 0 in
      if PN_IsInitialized (largest_acked last_packet)
      then let* b := GetFrameTypeBitfield ACK_FRAME in Ok (Z.lor content b)
      else Ok content
  end.

(** * Accounting

    What the counters of the map should be: totals over the deque. *)

Definition total (w : QuicTransmissionInfo -> Z) (l : list QuicTransmissionInfo) : Z :=
  foldr (fun i z => w i + z) 0 l.
Arguments total _ _ : simpl never.
Definition flight_bytes (i : QuicTransmissionInfo) : Z := if in_flight i then bytes_sent i else 0.
Definition flight_count (i : QuicTransmissionInfo) : Z := if in_flight i then 1 else 0.
Definition space_bytes m (s : PacketNumberSpace) (i : QuicTransmissionInfo) : Z :=
  if bool_decide (GetPacketNumberSpace m (encryption_level i) = Ok s) then flight_bytes i else 0.

Definition info_ok m (i : QuicTransmissionInfo) : Prop :=
  0 <= bytes_sent i < 65536 /\ exists s, GetPacketNumberSpace m (encryption_level i) = Ok s.

(** Packet numbers below 2^48 keep the sum of the 16-bit lengths inside 64 bits. *)
Record map_ok m : Prop := {
  ok_least : 1 <= least_unacked_ m;
  ok_end : if PN_IsInitialized (largest_sent_packet_ m)
           then least_unacked_ m + deque_size m = largest_sent_packet_ m + 1
           else least_unacked_ m = 1 /\ unacked_packets_ m = [];
  ok_small : least_unacked_ m + deque_size m <= 2 ^ 48;
  ok_infos : Forall (info_ok m) (unacked_packets_ m);
  ok_bytes : bytes_in_flight_ m = total flight_bytes (unacked_packets_ m);
  ok_count : packets_in_flight_ m = total flight_count (unacked_packets_ m);
  ok_space : forall s, s <> NUM_PACKET_NUMBER_SPACES ->
    per_get (bytes_in_flight_per_packet_number_space_ m) s = Ok (total (space_bytes m s) (unacked_packets_ m));
}.

Lemma flight_total_app w l1 l2 : total w (l1 ++ l2) = total w l1 + total w l2.
Proof. unfold total. induction l1 as [|i l1 IH]; cbn; lia. Qed.

Lemma total_ext w w' l : (forall i, w i = w' i) -> total w l = total w' l.
Proof. intros E. unfold total. induction l as [|i l IH]; cbn; [done|]. by rewrite E, IH. Qed.

Lemma total_insert w l k i i' : l !! k = Some i -> total w (<[k := i']> l) = total w l - w i + w i'.
Proof.
  unfold total. revert k. induction l as [|j l IH]; intros [|k] Hk; cbn in *; simplify_eq; [lia|].
  rewrite IH by done. lia.
Qed.

Lemma total_range w b l : 0 <= b -> Forall (fun i => 0 <= w i <= b) l ->
  0 <= total w l <= b * Z.of_nat (length l).
Proof. intros Hb. unfold total. induction 1; cbn; lia. Qed.

Lemma total_lookup w l k i : Forall (fun i => 0 <= w i) l -> l !! k = Some i -> w i <= total w l.
Proof.
  intros Hl. revert k. unfold total. induction Hl as [|j l Hj Hl IH]; intros [|k] Hk; cbn in *; simplify_eq.
  - assert (0 <= foldr (fun i z => w i + z) 0 l) by (clear -Hl; induction Hl; cbn; lia). lia.
  - specialize (IH _ Hk). lia.
Qed.

Lemma GetPacketNumberSpace_valid m l : GetPacketNumberSpace m l <> Ok NUM_PACKET_NUMBER_SPACES.
Proof.
  unfold GetPacketNumberSpace. destruct (supports_multiple_packet_number_spaces_ m); [by destruct l|].
  repeat case_bool_decide; done.
Qed.

Lemma per_get_valid {A} (p : PerSpace A) s : s <> NUM_PACKET_NUMBER_SPACES -> exists v, per_get p s = Ok v.
Proof. unfold per_get. destruct s; try done; eauto. Qed.

Lemma per_set_valid {A} (p : PerSpace A) s v : s <> NUM_PACKET_NUMBER_SPACES ->
  exists p', per_set p s v = Ok p' /\ forall s', per_get p' s' = if bool_decide (s' = s) then Ok v else per_get p s'.
Proof.
  intros Hs. unfold per_set, per_get. destruct s; try done; eexists; (split; [done|]); intros []; by case_bool_decide.
Qed.

Lemma flight_bytes_range m i : info_ok m i -> 0 <= flight_bytes i <= 65535.
Proof. intros [Hb _]. unfold flight_bytes. destruct (in_flight i); lia. Qed.
Lemma space_bytes_range m s i : info_ok m i -> 0 <= space_bytes m s i <= 65535.
Proof. intros Hi%flight_bytes_range. unfold space_bytes. case_bool_decide; lia. Qed.
Lemma flight_count_range i : 0 <= flight_count i <= 1.
Proof. unfold flight_count. destruct (in_flight i); lia. Qed.

(** The totals of a good map, with their widths. *)
Lemma map_ok_ranges m : map_ok m ->
  0 <= total flight_bytes (unacked_packets_ m) < 2 ^ 64 - 65536 /\
  0 <= total flight_count (unacked_packets_ m) < 2 ^ 48 /\
  forall s, 0 <= total (space_bytes m s) (unacked_packets_ m) < 2 ^ 64 - 65536.
Proof.
  intros [Hl _ Hs Hi _ _ _]. unfold deque_size in Hs.
  assert (Hn : Z.of_nat (length (unacked_packets_ m)) <= 2 ^ 48 - 1) by lia.
  assert (Hw : forall w b, 0 <= b -> Forall (fun i => 0 <= w i <= b) (unacked_packets_ m) ->
    0 <= total w (unacked_packets_ m) <= b * (2 ^ 48 - 1)).
  { intros w b Hb Hf. pose proof (total_range w b _ Hb Hf). nia. }
  split; [|split; [|intros s]].
  - pose proof (Hw flight_bytes 65535 ltac:(lia)
      ltac:(eapply Forall_impl; [exact Hi|]; intros; by eapply flight_bytes_range)). lia.
  - pose proof (Hw flight_count 1 ltac:(lia) ltac:(apply Forall_true; intros; apply flight_count_range)). lia.
  - pose proof (Hw (space_bytes m s) 65535 ltac:(lia)
      ltac:(eapply Forall_impl; [exact Hi|]; intros; by eapply space_bytes_range)). lia.
Qed.

Definition in_deque m (pn : QuicPacketNumber) : Prop :=
  least_unacked_ m <= pn < least_unacked_ m + deque_size m.

Lemma check_in_deque_Ok m pn : map_ok m -> in_deque m pn -> check_in_deque m pn = Ok tt.
Proof.
  intros [Hl _ Hs _ _ _ _] [Hp1 Hp2]. unfold check_in_deque, deque_size in *.
  rewrite PN_ge_init by (apply PN_init_small; lia). cbn. rewrite (proj2 (Z.leb_le _ _)) by lia. cbn.
  rewrite PN_add_small by lia. cbn. rewrite PN_lt_init by (apply PN_init_small; lia). cbn.
  by rewrite (proj2 (Z.ltb_lt _ _)) by lia.
Qed.

Lemma GetTransmissionInfo_Ok m pn : map_ok m -> in_deque m pn ->
  exists i, GetTransmissionInfo m pn = Ok i /\
    unacked_packets_ m !! Z.to_nat (pn - least_unacked_ m) = Some i /\ info_ok m i.
Proof.
  intros [Hl _ Hs Hi _ _ _] [Hp1 Hp2]. unfold GetTransmissionInfo, deque_size in *.
  rewrite PN_diff_small by lia. cbn.
  destruct (unacked_packets_ m !! Z.to_nat (pn - least_unacked_ m)) as [i|] eqn:E.
  - exists i. split; [done|split; [done|]]. by eapply Forall_lookup in Hi.
  - apply lookup_ge_None in E. lia.
Qed.

(** An operation that keeps the deque and its counters keeps the map good. *)
Lemma map_ok_ext m m' :
  perspective_ m' = perspective_ m ->
  supports_multiple_packet_number_spaces_ m' = supports_multiple_packet_number_spaces_ m ->
  largest_sent_packet_ m' = largest_sent_packet_ m -> least_unacked_ m' = least_unacked_ m ->
  unacked_packets_ m' = unacked_packets_ m -> bytes_in_flight_ m' = bytes_in_flight_ m ->
  packets_in_flight_ m' = packets_in_flight_ m ->
  bytes_in_flight_per_packet_number_space_ m' = bytes_in_flight_per_packet_number_space_ m ->
  map_ok m -> map_ok m'.
Proof.
  destruct m, m'; cbn; intros; subst.
  match goal with H : map_ok _ |- _ => destruct H as [H1 H2 H3 H4 H5 H6 H7]; split; cbn in *; done end.
Qed.

(** Replacing an entry by one that counts the same. *)
Lemma set_info_ok m pn i i' : map_ok m -> in_deque m pn ->
  unacked_packets_ m !! Z.to_nat (pn - least_unacked_ m) = Some i ->
  bytes_sent i' = bytes_sent i -> in_flight i' = in_flight i -> encryption_level i' = encryption_level i ->
  map_ok (set_info m pn i').
Proof.
  intros [H1 H2 H3 H4 H5 H6 H7] Hp Hi Eb Ef El.
  assert (Hw : forall w, w i' = w i -> total w (<[Z.to_nat (pn - least_unacked_ m) := i']> (unacked_packets_ m))
    = total w (unacked_packets_ m)) by (intros w Ew; rewrite (total_insert w _ _ i) by done; lia).
  split; unfold deque_size in *; cbn -[insert]; rewrite ?length_insert; try done.
  - destruct (PN_IsInitialized _); [done|]. destruct H2 as [-> E]. by rewrite E.
  - apply Forall_insert; [done|]. eapply Forall_lookup in H4; [|done]. unfold info_ok in *. by rewrite Eb, El.
  - rewrite Hw; [done|]. unfold flight_bytes. by rewrite Ef, Eb.
  - rewrite Hw; [done|]. unfold flight_count. by rewrite Ef.
  - intros s Hs. change (space_bytes _ s) with (space_bytes m s). rewrite Hw; [by apply H7|]. unfold space_bytes, flight_bytes. by rewrite Ef, Eb, El.
Qed.

Lemma RemoveInfo_in_flight m i s b : in_flight i = true ->
  GetPacketNumberSpace m (encryption_level i) = Ok s ->
  per_get (bytes_in_flight_per_packet_number_space_ m) s = Ok b ->
  bytes_sent i <= bytes_in_flight_ m -> packets_in_flight_ m <> 0 -> bytes_sent i <= b ->
  exists bs ts, per_set (bytes_in_flight_per_packet_number_space_ m) s (b ⊖ bytes_sent i) = Ok bs /\
    RemoveInfoFromInFlight m i =
      Ok (m <| bytes_in_flight_ := bytes_in_flight_ m ⊖ bytes_sent i |>
            <| packets_in_flight_ := packets_in_flight_ m ⊖ 1 |>
            <| bytes_in_flight_per_packet_number_space_ := bs |>
            <| last_inflight_packets_sent_time_ := ts |>, i <| in_flight := false |>).
Proof.
  intros Ef Es Eb H1 H2 H3.
  assert (Hs : s <> NUM_PACKET_NUMBER_SPACES) by (intros ->; by eapply GetPacketNumberSpace_valid).
  destruct (per_set_valid (bytes_in_flight_per_packet_number_space_ m) s (b ⊖ bytes_sent i) Hs) as (bs & Ebs & _).
  destruct (per_set_valid (last_inflight_packets_sent_time_ m) s QuicTime_Zero Hs) as (ts & Ets & _).
  exists bs, (if b ⊖ bytes_sent i =? 0 then ts else last_inflight_packets_sent_time_ m). split; [done|].
  unfold RemoveInfoFromInFlight. rewrite Ef, (proj2 (Z.leb_le _ _)) by lia. cbn [CHECK rbind].
  destruct (Z.eqb_spec (packets_in_flight_ m) 0) as [|_]; [done|]. cbn [negb CHECK rbind].
  match goal with |- context [GetPacketNumberSpace ?mm _] =>
    change (GetPacketNumberSpace mm (encryption_level i)) with (GetPacketNumberSpace m (encryption_level i)) end.
  rewrite Es. cbn [rbind].
  match goal with |- context [per_get ?p s] =>
    change (per_get p s) with (per_get (bytes_in_flight_per_packet_number_space_ m) s) end.
  rewrite Eb. cbn [rbind]. rewrite (proj2 (Z.leb_le _ _)) by lia. cbn [CHECK rbind].
  match goal with |- context [per_set ?p s (b ⊖ bytes_sent i)] =>
    change (per_set p s (b ⊖ bytes_sent i)) with
      (per_set (bytes_in_flight_per_packet_number_space_ m) s (b ⊖ bytes_sent i)) end.
  rewrite Ebs. cbn [rbind].
  match goal with |- context [per_set ?p s QuicTime_Zero] =>
    change (per_set p s QuicTime_Zero) with (per_set (last_inflight_packets_sent_time_ m) s QuicTime_Zero) end.
  rewrite Ets. by destruct (_ =? 0).
Qed.

Lemma RemoveFromInFlight_spec m pn : map_ok m -> in_deque m pn ->
  exists m' i, unacked_packets_ m !! Z.to_nat (pn - least_unacked_ m) = Some i /\
    RemoveFromInFlight m pn = Ok m' /\ map_ok m' /\
    unacked_packets_ m' = <[Z.to_nat (pn - least_unacked_ m) := i <| in_flight := false |>]> (unacked_packets_ m) /\
    m' = m <| unacked_packets_ := unacked_packets_ m' |> <| bytes_in_flight_ := bytes_in_flight_ m' |>
           <| packets_in_flight_ := packets_in_flight_ m' |>
           <| bytes_in_flight_per_packet_number_space_ := bytes_in_flight_per_packet_number_space_ m' |>
           <| last_inflight_packets_sent_time_ := last_inflight_packets_sent_time_ m' |>.
Proof.
  intros Hm Hp. destruct (GetTransmissionInfo_Ok m pn Hm Hp) as (i & Eg & El & Hi).
  unfold RemoveFromInFlight. rewrite check_in_deque_Ok, Eg by done. cbn [rbind].
  destruct (map_ok_ranges m Hm) as (Rb & Rc & Rs).
  destruct (in_flight i) eqn:Ef.
  2:{ exists (set_info m pn i), i. split; [done|split; [by unfold RemoveInfoFromInFlight; rewrite Ef|]].
      split; [by eapply set_info_ok|]. split; [|by destruct m]. by destruct i; cbn in Ef; subst. }
  destruct (proj2 Hi) as (s & Es). destruct Hm as [H1 H2 H3 H4 H5 H6 H7].
  assert (Hs : s <> NUM_PACKET_NUMBER_SPACES) by (intros ->; by eapply GetPacketNumberSpace_valid).
  assert (Hb : flight_bytes i <= total flight_bytes (unacked_packets_ m)).
  { eapply total_lookup; [|done]. eapply Forall_impl; [exact H4|]. intros j Hj%flight_bytes_range. lia. }
  assert (Hc : flight_count i <= total flight_count (unacked_packets_ m)).
  { eapply total_lookup; [|done]. apply Forall_true. intros j. pose proof (flight_count_range j). lia. }
  assert (Hbs : space_bytes m s i <= total (space_bytes m s) (unacked_packets_ m)).
  { eapply total_lookup; [|done]. eapply Forall_impl; [exact H4|]. intros j Hj%(space_bytes_range m s). lia. }
  assert (Wb : flight_bytes i = bytes_sent i) by (unfold flight_bytes; by rewrite Ef).
  assert (Wc : flight_count i = 1) by (unfold flight_count; by rewrite Ef).
  assert (Ws : forall s', space_bytes m s' i = if bool_decide (s' = s) then bytes_sent i else 0).
  { intros s'. unfold space_bytes. rewrite Es, Wb. repeat case_bool_decide; naive_solver. }
  rewrite Ws, bool_decide_true in Hbs by done.
  destruct (RemoveInfo_in_flight m i s _ Ef Es (H7 s Hs)) as (bs & ts & Ebs & ->); [lia..|].
  cbn [rbind fst snd]. eexists _, i. split; [done|]. split; [done|]. split; [|by split].
  destruct (per_set_valid (bytes_in_flight_per_packet_number_space_ m) s
    (total (space_bytes m s) (unacked_packets_ m) ⊖ bytes_sent i) Hs) as (bs' & Ebs' & Gbs).
  assert (bs' = bs) as -> by congruence.
  specialize (Rs s). destruct Hi as [Hi Hsp].
  split; unfold deque_size in *; cbn -[insert u64]; rewrite ?length_insert; try done.
  - destruct (PN_IsInitialized _); [done|]. destruct H2 as [-> E]. by rewrite E.
  - apply Forall_insert; [exact H4|]. by split.
  - rewrite (total_insert _ _ _ i) by done. rewrite Wb, u64_small by lia. unfold flight_bytes at 2. cbn [in_flight set_field]. lia.
  - rewrite (total_insert _ _ _ i) by done. rewrite Wc, u64_small by lia. unfold flight_count at 2. cbn [in_flight set_field]. lia.
  - intros s' Hs'. rewrite Gbs. change (space_bytes _ s') with (space_bytes m s').
    rewrite (total_insert _ _ _ i) by done.
    assert (E0 : forall j, in_flight j = false -> space_bytes m s' j = 0)
      by (intros j Ej; unfold space_bytes, flight_bytes; rewrite Ej; by case_bool_decide).
    rewrite Ws, E0 by done. case_bool_decide; [subst; rewrite u64_small by lia|rewrite H7 by done]; f_equal; lia.
Qed.

Definition never_sent : QuicTransmissionInfo := QuicTransmissionInfo_default <| state := NEVER_SENT |>.

Lemma fill_never_sent_spec n : forall m pn, 0 <= least_unacked_ m -> pn < 2 ^ 48 ->
  pn = least_unacked_ m + deque_size m + Z.of_nat n ->
  fill_never_sent (S n) m pn = Ok (m <| unacked_packets_ := unacked_packets_ m ++ replicate n never_sent |>).
Proof.
  induction n as [|n IH]; intros m pn Hl Hs Hp; cbn [fill_never_sent]; unfold deque_size in *;
    rewrite PN_add_small by lia; cbn [rbind]; rewrite PN_lt_init by (apply PN_init_small; lia); cbn [rbind].
  - rewrite (proj2 (Z.ltb_ge _ _)) by lia. cbn. rewrite app_nil_r. by destruct m.
  - rewrite (proj2 (Z.ltb_lt _ _)) by lia.
    set (m1 := m <| unacked_packets_ := unacked_packets_ m ++ [QuicTransmissionInfo_default <| state := NEVER_SENT |>] |>).
    change (fill_never_sent (S n) m1 pn = Ok (m <| unacked_packets_ := unacked_packets_ m ++ replicate (S n) never_sent |>)).
    rewrite IH; unfold m1, deque_size; cbn -[length Z.of_nat]; rewrite ?length_app; cbn [length]; [|lia..].
    by rewrite <- app_assoc.
Qed.

Lemma never_sent_ok m : info_ok m never_sent.
Proof.
  split; [done|]. unfold GetPacketNumberSpace. destruct (supports_multiple_packet_number_spaces_ m); [by eexists|].
  case_bool_decide; by eexists.
Qed.

Lemma total_never_sent w n : w never_sent = 0 -> total w (replicate n never_sent) = 0.
Proof. intros Hw. unfold total. induction n as [|n IH]; cbn [replicate foldr]; lia. Qed.

(** A packet as the connection hands it over: numbered after every packet sent
    so far, of a 16-bit length and at a valid encryption level. *)
Definition sendable m (packet : SerializedPacket) : Prop :=
  least_unacked_ m + deque_size m <= packet_number packet < 2 ^ 48 /\
  0 <= encrypted_length packet < 65536 /\
  exists s, GetPacketNumberSpace m (packet_encryption_level packet) = Ok s.

Lemma account_in_flight_spec m i pn s b :
  GetPacketNumberSpace m (encryption_level i) = Ok s ->
  per_get (bytes_in_flight_per_packet_number_space_ m) s = Ok b ->
  exists bs ls ts,
    (forall s', per_get bs s' = if bool_decide (s' = s) then Ok (b ⊕ bytes_sent i)
                                else per_get (bytes_in_flight_per_packet_number_space_ m) s') /\
    account_in_flight m i pn =
      Ok (m <| bytes_in_flight_ := bytes_in_flight_ m ⊕ bytes_sent i |>
            <| bytes_in_flight_per_packet_number_space_ := bs |>
            <| packets_in_flight_ := packets_in_flight_ m ⊕ 1 |>
            <| largest_sent_retransmittable_packets_ := ls |>
            <| last_inflight_packet_sent_time_ := sent_time i |>
            <| last_inflight_packets_sent_time_ := ts |>, i <| in_flight := true |>).
Proof.
  intros Es Eb.
  assert (Hs : s <> NUM_PACKET_NUMBER_SPACES) by (intros ->; by eapply GetPacketNumberSpace_valid).
  destruct (per_set_valid (bytes_in_flight_per_packet_number_space_ m) s (b ⊕ bytes_sent i) Hs) as (bs & Ebs & Gbs).
  destruct (per_set_valid (largest_sent_retransmittable_packets_ m) s pn Hs) as (ls & Els & _).
  destruct (per_set_valid (last_inflight_packets_sent_time_ m) s (sent_time i) Hs) as (ts & Ets & _).
  exists bs, ls, ts. split; [done|]. unfold account_in_flight. rewrite Es. cbn [rbind].
  match goal with |- context [per_get ?p s] =>
    change (per_get p s) with (per_get (bytes_in_flight_per_packet_number_space_ m) s) end.
  rewrite Eb. cbn [rbind].
  match goal with |- context [per_set ?p s (b ⊕ bytes_sent i)] =>
    change (per_set p s (b ⊕ bytes_sent i)) with
      (per_set (bytes_in_flight_per_packet_number_space_ m) s (b ⊕ bytes_sent i)) end.
  rewrite Ebs. cbn -[u64]. rewrite Els. cbn -[u64]. by rewrite Ets.
Qed.

(** A map is good after the deque has grown by a gap of packets never sent and
    an entry that the counters take into account. *)
Lemma append_ok m m' i n : map_ok m -> info_ok m i ->
  perspective_ m' = perspective_ m ->
  supports_multiple_packet_number_spaces_ m' = supports_multiple_packet_number_spaces_ m ->
  least_unacked_ m' = least_unacked_ m ->
  unacked_packets_ m' = (unacked_packets_ m ++ replicate n never_sent) ++ [i] ->
  largest_sent_packet_ m' = least_unacked_ m + deque_size m + Z.of_nat n -> largest_sent_packet_ m' < 2 ^ 48 ->
  bytes_in_flight_ m' = bytes_in_flight_ m + flight_bytes i ->
  packets_in_flight_ m' = packets_in_flight_ m + flight_count i ->
  (forall s, s <> NUM_PACKET_NUMBER_SPACES -> per_get (bytes_in_flight_per_packet_number_space_ m') s =
     Ok (total (space_bytes m s) (unacked_packets_ m) + space_bytes m s i)) ->
  map_ok m'.
Proof.
  intros [H1 H2 H3 H4 H5 H6 H7] Hi Ep Esu El Eu Es Hs Eb Ec Hsp.
  assert (Eg : forall l, GetPacketNumberSpace m' l = GetPacketNumberSpace m l)
    by (intros; unfold GetPacketNumberSpace; by rewrite Ep, Esu).
  assert (Ew : forall w, w never_sent = 0 -> total w (unacked_packets_ m') = total w (unacked_packets_ m) + w i).
  { intros w Hw. rewrite Eu, !flight_total_app, total_never_sent by done. unfold total at 2. cbn. lia. }
  assert (Esz : deque_size m' = deque_size m + Z.of_nat n + 1)
    by (unfold deque_size; rewrite Eu, !length_app, length_replicate; cbn; lia).
  split.
  - lia.
  - rewrite PN_init_small by (unfold deque_size in *; lia). lia.
  - lia.
  - rewrite Eu. unfold info_ok in *. setoid_rewrite Eg. apply Forall_app; split; [apply Forall_app; split|].
    + done.
    + apply Forall_replicate, (never_sent_ok m).
    + by constructor.
  - by rewrite Ew, <- H5.
  - by rewrite Ew, <- H6.
  - intros s' Hs'. rewrite (total_ext (space_bytes m' s') (space_bytes m s')).
    + rewrite Ew; [by apply Hsp|]. unfold space_bytes. by case_bool_decide.
    + intros j. unfold space_bytes. by rewrite Eg.
Qed.

(** Sending: the deque grows by a gap of packets never sent and the packet. *)
Lemma AddSentPacket_spec m p tt_ t fl rtt : map_ok m -> sendable m p -> (fl = true -> rtt = true) ->
  exists m' i, AddSentPacket m p tt_ t fl rtt = Ok m' /\ map_ok m' /\
    unacked_packets_ m' = (unacked_packets_ m ++
      replicate (Z.to_nat (packet_number p - (least_unacked_ m + deque_size m))) never_sent) ++ [i] /\
    sent_time i = t /\ in_flight i = fl /\ encryption_level i = packet_encryption_level p /\
    bytes_sent i = encrypted_length p /\
    least_unacked_ m' = least_unacked_ m /\ largest_sent_packet_ m' = packet_number p /\
    perspective_ m' = perspective_ m /\
    supports_multiple_packet_number_spaces_ m' = supports_multiple_packet_number_spaces_ m /\
    largest_acked_packets_ m' = largest_acked_packets_ m.
Proof.
  intros Hm (Hp & Hlen & s & Es) Hfl. pose proof (map_ok_ranges m Hm) as (Rb & Rc & Rs).
  pose proof Hm as [H1 H2 H3 H4 H5 H6 H7]. unfold AddSentPacket.
  set (pn := packet_number p) in *. set (n := Z.to_nat (pn - (least_unacked_ m + deque_size m))).
  match goal with |- context [rbind (if ?b then ?x else ?y) _] =>
    assert (Ebug : (if b then x else y) = Ok false) end.
  { destruct (PN_IsInitialized (largest_sent_packet_ m)) eqn:Ei; [|done].
    rewrite PN_ge_init; [|done|apply PN_init_small; unfold deque_size in *; lia].
    f_equal. apply Z.leb_gt. lia. }
  rewrite Ebug. cbn [rbind CHECK negb].
  rewrite PN_add_small by (unfold deque_size in *; lia). cbn [rbind].
  rewrite PN_ge_init by (apply PN_init_small; unfold deque_size in *; lia). cbn [rbind].
  rewrite (proj2 (Z.leb_le _ _)) by lia. cbn [rbind CHECK]. fold n.
  rewrite fill_never_sent_spec by (unfold deque_size in *; lia). cbn [rbind].
  set (i0 := (QuicTransmissionInfo_mk (packet_encryption_level p) tt_ t (encrypted_length p)
    (packet_has_crypto_handshake p) (packet_has_ack_frequency p)) <| largest_acked := packet_largest_acked p |>).
  match goal with |- context [rbind (if negb rtt then ?x else ?y) _] =>
    assert (Ei : exists st, (if negb rtt then x else y) = Ok (i0 <| state := st |>)) end.
  { destruct rtt; cbn; [by exists OUTSTANDING|].
    destruct fl; [by specialize (Hfl eq_refl)|]. by exists NOT_CONTRIBUTING_RTT. }
  destruct Ei as (st & ->). cbn [rbind]. set (i1 := i0 <| state := st |>).
  match goal with |- context [rbind (if fl then account_in_flight ?mm _ _ else _) _] => set (m1 := mm) end.
  destruct fl.
  - edestruct (account_in_flight_spec m1 i1 pn s) as (bs & ls & ts & Gbs & ->); [exact Es|exact (H7 s ltac:(intros ->; by eapply GetPacketNumberSpace_valid))|].
    cbn [rbind].
    eexists _, _. split; [done|]. split; [|repeat split; by destruct (packet_has_crypto_handshake p)].
    specialize (Rs s). change (bytes_sent i1) with (encrypted_length p) in Gbs. rewrite u64_small in Gbs by lia.
    eapply (append_ok m _ _ n); [done|..]; destruct (packet_has_crypto_handshake p) in *; try done.
    all: unfold info_ok, space_bytes, flight_bytes, flight_count; cbn -[Z.pow u64]; rewrite ?u64_small by lia; try lia.
    all: try (split; [lia|by eauto]).
    all: intros s' Hs'; rewrite Gbs; cbn; rewrite Es; repeat case_bool_decide; simplify_eq;
      [done|rewrite H7 by done; f_equal; by rewrite Z.add_0_r].
  - cbn [rbind]. eexists _, _. split; [done|]. split; [|repeat split; by destruct (packet_has_crypto_handshake p)].
    eapply (append_ok m _ _ n); [done|..]; destruct (packet_has_crypto_handshake p) in *; try done.
    all: unfold info_ok, space_bytes, flight_bytes, flight_count; cbn -[Z.pow u64]; try lia; try (by eauto).
    all: intros s' Hs'; rewrite H7 by done; case_bool_decide; f_equal; by rewrite Z.add_0_r.
Qed.

(** ** Obsolete packets *)

Lemma IsPacketUseless_total m pn i : PN_IsInitialized pn = true -> exists b, IsPacketUseless m pn i = Ok b.
Proof.
  intros Hp. unfold IsPacketUseless, IsPacketUsefulForMeasuringRtt, IsPacketUsefulForRetransmittableData.
  assert (Hg : forall q, PN_IsInitialized q = true ->
    exists b, (if PN_IsInitialized (largest_acked_ m) then PN_gt q (largest_acked_ m) else Ok true) = Ok b).
  { intros q Hq. destruct (PN_IsInitialized (largest_acked_ m)) eqn:E; [|by eauto].
    eexists. by apply PN_gt_init. }
  destruct (Hg pn Hp) as (b & Eb). destruct (negb (IsAckable (state i))); cbn.
  - destruct (IsPacketUsefulForCongestionControl i); [by eauto|].
    destruct (PN_IsInitialized (first_sent_after_loss i)) eqn:Ef; cbn; [|by eauto].
    destruct (Hg _ Ef) as (b' & ->). cbn. eauto.
  - rewrite Eb. cbn. destruct (b && _); [by eauto|].
    destruct (IsPacketUsefulForCongestionControl i); [by eauto|].
    destruct (PN_IsInitialized (first_sent_after_loss i)) eqn:Ef; cbn; [|by eauto].
    destruct (Hg _ Ef) as (b' & ->). cbn. eauto.
Qed.

Lemma useless_not_in_flight m pn i : IsPacketUseless m pn i = Ok true -> in_flight i = false.
Proof.
  unfold IsPacketUseless, IsPacketUsefulForCongestionControl. intros (rtt & _ & Hu)%rbind_Ok.
  destruct rtt; [done|]. by destruct (in_flight i).
Qed.

Lemma pop_ok m i l : map_ok m -> unacked_packets_ m = i :: l -> in_flight i = false ->
  map_ok (m <| unacked_packets_ := l |> <| least_unacked_ := least_unacked_ m + 1 |>).
Proof.
  intros [H1 H2 H3 H4 H5 H6 H7] El Ei.
  assert (Ew : forall w, w i = 0 -> total w (unacked_packets_ m) = total w l)
    by (intros w Hw; rewrite El; unfold total; cbn; lia).
  split; unfold deque_size in *; cbn -[Z.of_nat].
  - lia.
  - rewrite El in H2. cbn in H2. destruct (PN_IsInitialized _); [lia|]. by destruct H2.
  - rewrite El in H3. cbn [length] in H3. lia.
  - rewrite El in H4. by inversion H4.
  - rewrite H5. apply Ew. unfold flight_bytes. by rewrite Ei.
  - rewrite H6. apply Ew. unfold flight_count. by rewrite Ei.
  - intros s Hs. change (space_bytes _ s) with (space_bytes m s). rewrite H7 by done. f_equal. apply Ew.
    unfold space_bytes, flight_bytes. rewrite Ei. by case_bool_decide.
Qed.

(** What the deque says of a packet number, and the operations that only read it. *)
Lemma IsUnacked_spec m p : map_ok m -> PN_IsInitialized p = true ->
  IsUnacked m p =
    if (least_unacked_ m <=? p) && (p <? least_unacked_ m + deque_size m)
    then match unacked_packets_ m !! Z.to_nat (p - least_unacked_ m) with
         | Some i => let* useless := IsPacketUseless m p i in Ok (negb useless)
         | None => Fault CheckFailed
         end
    else Ok false.
Proof.
  intros [H1 H2 H3 H4 H5 H6 H7] Hp. unfold IsUnacked, GetTransmissionInfo, deque_size in *.
  rewrite PN_lt_init by (done || (apply PN_init_small; lia)). cbn [rbind].
  destruct (Z.leb_spec (least_unacked_ m) p); cbn [andb].
  2:{ by rewrite (proj2 (Z.ltb_lt _ _)) by lia. }
  rewrite (proj2 (Z.ltb_ge _ _)) by lia. rewrite PN_add_small by lia. cbn [rbind].
  rewrite PN_ge_init by (done || (apply PN_init_small; lia)). cbn [rbind].
  destruct (Z.ltb_spec p (least_unacked_ m + Z.of_nat (length (unacked_packets_ m)))).
  - rewrite (proj2 (Z.leb_gt _ _)) by lia. rewrite PN_diff_small by lia. cbn [rbind]. by destruct (_ !! _).
  - by rewrite (proj2 (Z.leb_le _ _)) by lia.
Qed.

Lemma IsUnacked_pop m i l p : map_ok m -> unacked_packets_ m = i :: l ->
  IsPacketUseless m (least_unacked_ m) i = Ok true -> PN_IsInitialized p = true ->
  IsUnacked (m <| unacked_packets_ := l |> <| least_unacked_ := least_unacked_ m + 1 |>) p = IsUnacked m p.
Proof.
  intros Hm El Hu Hp. pose proof (pop_ok m i l Hm El (useless_not_in_flight _ _ _ Hu)) as Hm'.
  rewrite !IsUnacked_spec by done. unfold deque_size. cbn -[Z.of_nat lookup]. rewrite El. cbn [length].
  destruct (decide (p = least_unacked_ m)) as [->|Hne].
  - rewrite (proj2 (Z.leb_gt _ _)) by lia. cbn [andb].
    rewrite (proj2 (Z.leb_le _ _)), (proj2 (Z.ltb_lt _ _)) by lia. cbn [andb].
    replace (Z.to_nat (least_unacked_ m - least_unacked_ m)) with 0%nat by lia. cbn. by rewrite Hu.
  - replace (least_unacked_ m + 1 <=? p) with (least_unacked_ m <=? p) by (zcases; lia).
    replace (least_unacked_ m + 1 + Z.of_nat (length l)) with (least_unacked_ m + Z.of_nat (S (length l))) by lia.
    destruct (Z.leb_spec (least_unacked_ m) p); [|done]. cbn [andb]. case_match; [|done].
    replace (Z.to_nat (p - least_unacked_ m)) with (S (Z.to_nat (p - (least_unacked_ m + 1)))) by lia. done.
Qed.

Lemma remove_obsolete_spec l : forall m, map_ok m -> unacked_packets_ m = l ->
  exists m' (k : nat), remove_obsolete l m = Ok m' /\ map_ok m' /\
    m' = m <| unacked_packets_ := drop k l |> <| least_unacked_ := least_unacked_ m + Z.of_nat k |> /\
    Forall (fun i => in_flight i = false) (take k l) /\ (k <= length l)%nat /\
    (forall p, PN_IsInitialized p = true -> IsUnacked m' p = IsUnacked m p) /\
    (forall i, head (unacked_packets_ m') = Some i -> IsPacketUseless m' (least_unacked_ m') i = Ok false).
Proof.
  induction l as [|i l IH]; intros m Hm El; cbn [remove_obsolete].
  { exists m, 0%nat. rewrite Z.add_0_r. split; [done|split; [done|]].
    split; [rewrite <- El; by destruct m|]. split; [constructor|]. split; [done|]. by rewrite El. }
  assert (Hp : PN_IsInitialized (least_unacked_ m) = true).
  { apply PN_init_small. destruct Hm. unfold deque_size in *. lia. }
  destruct (IsPacketUseless_total m (least_unacked_ m) i Hp) as ([] & Eu); rewrite Eu; cbn [rbind negb].
  - rewrite PN_incr_small by (destruct Hm as [? _ Hs _ _ _ _]; unfold deque_size in *; rewrite El in Hs; cbn in Hs; lia).
    cbn [rbind]. pose proof (pop_ok m i l Hm El (useless_not_in_flight _ _ _ Eu)) as Hm1.
    set (m1 := m <| unacked_packets_ := l |> <| least_unacked_ := least_unacked_ m + 1 |>) in *.
    destruct (IH m1 Hm1 eq_refl) as (m' & k & E1 & Hm' & E2 & Hf & Hk & Hun & Hh).
    exists m', (S k). split; [exact E1|]. split; [done|]. split; [rewrite E2; unfold m1; cbn; f_equal; lia|].
    split; [constructor; [by eapply useless_not_in_flight|done]|]. split; [cbn; lia|].
    split; [|done]. intros p Hpi. rewrite Hun by done. by eapply IsUnacked_pop.
  - exists m, 0%nat. rewrite Z.add_0_r. split; [done|split; [done|]].
    split; [rewrite <- El; by destruct m|]. split; [constructor|]. split; [lia|]. rewrite El. naive_solver.
Qed.

(** Dropping obsolete packets is unobservable: it returns, no packet number
    changes its answer to [IsUnacked], the bytes in flight stay, and afterwards
    the deque is empty or starts with a packet that is still useful. *)
Theorem obsolete_packets_unobservable m : map_ok m ->
  exists m', RemoveObsoletePackets m = Ok m' /\ map_ok m' /\
    (forall p, PN_IsInitialized p = true -> IsUnacked m' p = IsUnacked m p) /\
    bytes_in_flight_ m' = bytes_in_flight_ m /\
    (unacked_packets_ m' = [] \/ IsUnacked m' (least_unacked_ m') = Ok true).
Proof.
  intros Hm. destruct (remove_obsolete_spec _ m Hm eq_refl) as (m' & k & E & Hm' & E2 & _ & _ & Hun & Hh).
  exists m'. split; [exact E|]. split; [done|]. split; [done|]. split; [by rewrite E2|].
  destruct (unacked_packets_ m') as [|i l] eqn:El; [by left|right].
  pose proof Hm' as [H1 _ H3 _ _ _ _]. unfold deque_size in H3. rewrite El in H3. cbn [length] in H3.
  rewrite IsUnacked_spec by (done || (apply PN_init_small; lia)). unfold deque_size. rewrite El. cbn [length].
  rewrite (proj2 (Z.leb_le _ _)), (proj2 (Z.ltb_lt _ _)) by lia. cbn [andb].
  rewrite Z.sub_diag. change ((i :: l) !! Z.to_nat 0) with (Some i). cbv match. by rewrite (Hh i eq_refl).
Qed.

(** ** Runs *)

Inductive map_op :=
  | OpSend (p : SerializedPacket) (ty : TransmissionType) (t : QuicTime) (fl rtt : bool)
  | OpRemoveFromInFlight (pn : QuicPacketNumber)
  | OpNeuter (pn : QuicPacketNumber)
  | OpRemoveRetransmittability (pn : QuicPacketNumber)
  | OpIncreaseLargestAcked (pn : QuicPacketNumber)
  | OpUpdateLargestAckedOf (s : PacketNumberSpace) (pn : QuicPacketNumber)
  | OpRemoveObsolete
  | OpAggregate (i : QuicTransmissionInfo) (d : Delta) (t : QuicTime)
  | OpFlushAggregate (d : Delta)
  | OpEnableSpaces.

Definition apply_op m (op : map_op) : result (QuicUnackedPacketMap N) :=
  match op with
  | OpSend p ty t fl rtt => AddSentPacket m p ty t fl rtt
  | OpRemoveFromInFlight pn => RemoveFromInFlight m pn
  | OpNeuter pn => neuter_packet m pn
  | OpRemoveRetransmittability pn => RemoveRetransmittability m pn
  | OpIncreaseLargestAcked pn => IncreaseLargestAcked m pn
  | OpUpdateLargestAckedOf s pn => MaybeUpdateLargestAckedOfPacketNumberSpace m s pn
  | OpRemoveObsolete => RemoveObsoletePackets m
  | OpAggregate i d t => Ok (MaybeAggregateAckedStreamFrame m i d t)
  | OpFlushAggregate d => Ok (NotifyAggregatedStreamFrameAcked m d)
  | OpEnableSpaces => EnableMultiplePacketNumberSpacesSupport m
  end.

Definition valid_op m (op : map_op) : Prop :=
  match op with
  | OpSend p _ _ fl rtt => sendable m p /\ (fl = true -> rtt = true)
  | OpRemoveFromInFlight pn | OpNeuter pn | OpRemoveRetransmittability pn => in_deque m pn
  | OpIncreaseLargestAcked pn => PN_IsInitialized pn = true /\
      (PN_IsInitialized (largest_acked_ m) = true -> largest_acked_ m <= pn)
  | OpUpdateLargestAckedOf s _ => s <> NUM_PACKET_NUMBER_SPACES
  | OpRemoveObsolete | OpAggregate _ _ _ | OpFlushAggregate _ => True
  | OpEnableSpaces => supports_multiple_packet_number_spaces_ m = false /\
      PN_IsInitialized (largest_sent_packet_ m) = false
  end.

Definition map_step m m' : Prop := exists op, valid_op m op /\ apply_op m op = Ok m'.

(** The fields the accounting is about. *)
Definition same_counters m m' : Prop :=
  perspective_ m' = perspective_ m /\
  supports_multiple_packet_number_spaces_ m' = supports_multiple_packet_number_spaces_ m /\
  largest_sent_packet_ m' = largest_sent_packet_ m /\ least_unacked_ m' = least_unacked_ m /\
  unacked_packets_ m' = unacked_packets_ m /\ bytes_in_flight_ m' = bytes_in_flight_ m /\
  packets_in_flight_ m' = packets_in_flight_ m /\
  bytes_in_flight_per_packet_number_space_ m' = bytes_in_flight_per_packet_number_space_ m.

Lemma same_counters_ok m m' : same_counters m m' -> map_ok m -> map_ok m'.
Proof. intros (?&?&?&?&?&?&?&?). by apply map_ok_ext. Qed.

Lemma notify_aggregated_same m d : same_counters m (NotifyAggregatedStreamFrameAcked m d).
Proof. unfold NotifyAggregatedStreamFrameAcked. destruct (session_notifier_ m); [|done]. by case_match. Qed.

Lemma aggregate_frame_same d t m f : same_counters m (aggregate_frame d t m f).
Proof.
  pose proof (notify_aggregated_same m d) as Hs. unfold aggregate_frame. destruct f as [f|].
  - destruct (can_aggregate _ _); destruct (fin f); try done.
    + match goal with |- same_counters _ (NotifyAggregatedStreamFrameAcked ?mm _) =>
        exact (notify_aggregated_same mm d) end.
    + by destruct (session_notifier_ (NotifyAggregatedStreamFrameAcked m d)).
  - by destruct (session_notifier_ (NotifyAggregatedStreamFrameAcked m d)).
Qed.

Lemma aggregate_same m i d t : same_counters m (MaybeAggregateAckedStreamFrame m i d t).
Proof.
  unfold MaybeAggregateAckedStreamFrame. destruct (session_notifier_ m); [|done].
  generalize (retransmittable_frames i) as fs. intros fs. revert m. induction fs as [|f fs IH]; intros m; [done|].
  cbn. pose proof (aggregate_frame_same d t m f) as (?&?&?&?&?&?&?&?).
  destruct (IH (aggregate_frame d t m f)) as (?&?&?&?&?&?&?&?). unfold same_counters. repeat split; congruence.
Qed.

Lemma notify_acked_same m i d t : same_counters m (NotifyFramesAcked m i d t).1.
Proof. unfold NotifyFramesAcked. by destruct (session_notifier_ m). Qed.

Lemma neuter_packet_ok m pn : map_ok m -> in_deque m pn -> exists m', neuter_packet m pn = Ok m' /\ map_ok m'.
Proof.
  intros Hm Hp. destruct (RemoveFromInFlight_spec m pn Hm Hp) as (m1 & i & Ei & E1 & Hm1 & Eu & E2).
  assert (El : least_unacked_ m1 = least_unacked_ m) by (by rewrite E2).
  assert (Hp1 : in_deque m1 pn) by (unfold in_deque, deque_size in *; by rewrite El, Eu, length_insert).
  destruct (GetTransmissionInfo_Ok m1 pn Hm1 Hp1) as (i1 & Eg & El1 & _).
  unfold neuter_packet. rewrite E1. cbn [rbind]. rewrite Eg. cbn [rbind]. eexists. split; [done|].
  eapply same_counters_ok; [apply notify_acked_same|]. by eapply set_info_ok.
Qed.

Lemma valid_op_ok m op : map_ok m -> valid_op m op -> exists m', apply_op m op = Ok m' /\ map_ok m'.
Proof.
  intros Hm Hv. destruct op; cbn in *.
  - destruct Hv as [Hs Hf]. destruct (AddSentPacket_spec m p ty t fl rtt Hm Hs Hf) as (m' & i & E & Hm' & _). eauto.
  - destruct (RemoveFromInFlight_spec m pn Hm Hv) as (m' & i & _ & E & Hm' & _). eauto.
  - by apply neuter_packet_ok.
  - unfold RemoveRetransmittability. rewrite check_in_deque_Ok by done. cbn [rbind].
    destruct (GetTransmissionInfo_Ok m pn Hm Hv) as (i & -> & Ei & _). cbn [rbind].
    eexists. split; [done|]. by eapply set_info_ok.
  - unfold IncreaseLargestAcked. destruct Hv as [Hpn Hle]. destruct (PN_IsInitialized (largest_acked_ m)) eqn:E.
    + rewrite PN_le_init by done. cbn. rewrite (proj2 (Z.leb_le _ _)) by (by apply Hle). cbn.
      eexists. split; [done|]. by apply (same_counters_ok m).
    + eexists. split; [done|]. by apply (same_counters_ok m).
  - unfold MaybeUpdateLargestAckedOfPacketNumberSpace.
    destruct (per_get_valid (largest_acked_packets_ m) s Hv) as (v & ->). cbn [rbind].
    destruct (per_set_valid (largest_acked_packets_ m) s (PN_UpdateMax v pn) Hv) as (p' & -> & _). cbn [rbind].
    eexists. split; [done|]. by apply (same_counters_ok m).
  - destruct (remove_obsolete_spec _ m Hm eq_refl) as (m' & k & E & Hm' & _). eauto.
  - eexists. split; [done|]. eapply same_counters_ok; [apply aggregate_same|done].
  - eexists. split; [done|]. eapply same_counters_ok; [apply notify_aggregated_same|done].
  - unfold EnableMultiplePacketNumberSpacesSupport. destruct Hv as [-> Hn]. rewrite Hn. cbn.
    eexists. split; [done|]. destruct Hm as [H1 H2 H3 H4 H5 H6 H7]. rewrite Hn in H2. destruct H2 as [E1 E2].
    rewrite E2 in *. split; unfold deque_size in *; cbn; rewrite ?E2, ?Hn; cbn; try done; try lia.
Qed.

Lemma init_ok p : map_ok (QuicUnackedPacketMap_init p).
Proof.
  split; try done. intros []; done.
Qed.

Lemma run_ok p m : rtc map_step (QuicUnackedPacketMap_init p) m -> map_ok m.
Proof.
  intros Hr. pose proof (init_ok p) as H0.
  induction Hr as [|m1 m2 m3 (op & Hv & E) _ IH]; [done|]. apply IH.
  destruct (valid_op_ok _ op H0 Hv) as (m' & E' & ?). rewrite E in E'. by injection E' as ->.
Qed.

(** C17. The bytes in flight that the congestion controllers are told about are
    right: after any valid sequence of operations on a fresh map, the totals kept
    -- of bytes, of packets, and of bytes per packet number space -- are those
    of the packets marked in flight in the deque; the deque ends at the largest
    packet sent; and every further valid operation succeeds, so no accounting
    bug is ever reported. *)
Theorem in_flight_accounting p m :
  rtc map_step (QuicUnackedPacketMap_init p) m ->
  bytes_in_flight_ m = total flight_bytes (unacked_packets_ m) /\
  packets_in_flight_ m = total flight_count (unacked_packets_ m) /\
  (forall s, s <> NUM_PACKET_NUMBER_SPACES -> per_get (bytes_in_flight_per_packet_number_space_ m) s =
     Ok (total (space_bytes m s) (unacked_packets_ m))) /\
  (PN_IsInitialized (largest_sent_packet_ m) = true ->
     least_unacked_ m + deque_size m = largest_sent_packet_ m + 1) /\
  (forall op, valid_op m op -> exists m', apply_op m op = Ok m').
Proof.
  intros Hm%run_ok.
  pose proof Hm as [H1 H2 H3 H4 H5 H6 H7]. repeat split; try done.
  - intros Hi. by rewrite Hi in H2.
  - intros op Hv. destruct (valid_op_ok m op Hm Hv) as (m' & E & _). eauto.
Qed.

End Map.

(** * Aggregation of acknowledged stream frames

    The map merges contiguous acknowledged stream frames before it notifies the
    session.  What the session learns from a sequence of notifications: which
    bytes of which stream are acknowledged, at which offset a stream has
    finished, and which other frames are acknowledged, in order. *)

Definition acked_byte (fs : list QuicFrame) (s o : Z) : Prop :=
  exists f, StreamFrame f ∈ fs /\ stream_id f = s /\ offset f <= o < offset f + data_length f.
Definition acked_fin (fs : list QuicFrame) (s e : Z) : Prop :=
  exists f, StreamFrame f ∈ fs /\ stream_id f = s /\ fin f = true /\ offset f + data_length f = e.
Definition is_other (f : QuicFrame) : bool := match f with StreamFrame _ => false | OtherFrame _ _ => true end.
Definition other_frames (fs : list QuicFrame) : list QuicFrame := filter (fun f => is_other f = true) fs.

Definition same_acks (fs gs : list QuicFrame) : Prop :=
  (forall s o, acked_byte fs s o <-> acked_byte gs s o) /\
  (forall s e, acked_fin fs s e <-> acked_fin gs s e) /\
  other_frames fs = other_frames gs.

#[export] Instance same_acks_equivalence : Equivalence same_acks.
Proof.
  split.
  - done.
  - intros x y (H1 & H2 & H3). split; [|split]; [intros; by rewrite H1|intros; by rewrite H2|done].
  - intros x y z (H1 & H2 & H3) (G1 & G2 & G3).
    split; [|split]; [intros; by rewrite H1|intros; by rewrite H2|congruence].
Qed.

Lemma acked_byte_app fs gs s o : acked_byte (fs ++ gs) s o <-> acked_byte fs s o \/ acked_byte gs s o.
Proof. unfold acked_byte. setoid_rewrite elem_of_app. naive_solver. Qed.
Lemma acked_fin_app fs gs s e : acked_fin (fs ++ gs) s e <-> acked_fin fs s e \/ acked_fin gs s e.
Proof. unfold acked_fin. setoid_rewrite elem_of_app. naive_solver. Qed.

Lemma acked_byte_one f s o :
  acked_byte [StreamFrame f] s o <-> stream_id f = s /\ offset f <= o < offset f + data_length f.
Proof. unfold acked_byte. setoid_rewrite list_elem_of_singleton. naive_solver. Qed.
Lemma acked_fin_one f s e :
  acked_fin [StreamFrame f] s e <-> stream_id f = s /\ fin f = true /\ offset f + data_length f = e.
Proof. unfold acked_fin. setoid_rewrite list_elem_of_singleton. naive_solver. Qed.

#[export] Instance same_acks_app : Proper (same_acks ==> same_acks ==> same_acks) app.
Proof.
  intros f1 f2 (H1 & H2 & H3) g1 g2 (G1 & G2 & G3). split; [|split].
  - intros. by rewrite !acked_byte_app, H1, G1.
  - intros. by rewrite !acked_fin_app, H2, G2.
  - unfold other_frames in *. rewrite !filter_app. congruence.
Qed.

(** A frame as the session sends it. *)
Definition stream_frame_ok (f : QuicStreamFrame) : Prop :=
  0 <= stream_id f < invalid_stream_id /\ 0 <= offset f < 2 ^ 62 /\ 0 <= data_length f < 65536.
Definition frame_ok (f : QuicFrame) : Prop := match f with StreamFrame f => stream_frame_ok f | _ => True end.

(** The frame that is waiting to be notified, if there is one. *)
Definition waiting (a : QuicStreamFrame) : list QuicFrame :=
  if stream_id a =? invalid_stream_id then [] else [StreamFrame a].
Definition waiting_ok (a : QuicStreamFrame) : Prop :=
  stream_id a = invalid_stream_id \/ stream_frame_ok a /\ fin a = false.

Definition merged (a f : QuicStreamFrame) : QuicStreamFrame :=
  a <| data_length := u16 (data_length a + data_length f) |> <| fin := fin f |>.

Lemma merge_same_acks a f : waiting_ok a -> stream_frame_ok f -> can_aggregate a (StreamFrame f) = true ->
  stream_id a <> invalid_stream_id /\ stream_frame_ok (merged a f) /\
  same_acks [StreamFrame (merged a f)] [StreamFrame a; StreamFrame f].
Proof.
  intros Ha Hf Hc. unfold can_aggregate, WillStreamFrameLengthSumWrapAround in Hc.
  apply andb_true_iff in Hc as [Hc Hw]. apply andb_true_iff in Hc as [Hi Ho].
  apply Z.eqb_eq in Hi, Ho. apply negb_true_iff, Z.ltb_ge in Hw.
  destruct Hf as (F1 & F2 & F3). destruct Ha as [Ha|((A1 & A2 & A3) & A4)]; [lia|].
  rewrite u64_small in Ho by lia. unfold merged.
  assert (El : u16 (data_length a + data_length f) = data_length a + data_length f) by (apply Z.mod_small; lia).
  rewrite El. split; [lia|]. split; [unfold stream_frame_ok; cbn; lia|]. split; [|split].
  - intros s o. change [StreamFrame a; StreamFrame f] with ([StreamFrame a] ++ [StreamFrame f]).
    rewrite acked_byte_app, !acked_byte_one. cbn. lia.
  - intros s e. change [StreamFrame a; StreamFrame f] with ([StreamFrame a] ++ [StreamFrame f]).
    rewrite acked_fin_app, !acked_fin_one. cbn. rewrite A4. destruct (fin f); intuition (try done; lia).
  - done.
Qed.

(** A session that records what it is notified of. *)
#[export] Instance recording_notifier : SessionNotifier (list QuicFrame) := {|
  OnFrameAcked n f _ _ := (n ++ [f], true);
  OnFrameLost n _ := n;
  notifier_RetransmitFrames n _ _ := n;
  IsFrameOutstanding _ _ := false;
  HasUnackedCryptoData _ := false;
  notifier_HasUnackedStreamData _ := false;
|}.

Implicit Types m : QuicUnackedPacketMap (list QuicFrame).

Lemma flush_waiting m log d : session_notifier_ m = Some log ->
  session_notifier_ (NotifyAggregatedStreamFrameAcked m d) = Some (log ++ waiting (aggregated_stream_frame_ m)) /\
  stream_id (aggregated_stream_frame_ (NotifyAggregatedStreamFrameAcked m d)) = invalid_stream_id.
Proof.
  intros El. unfold NotifyAggregatedStreamFrameAcked, waiting. rewrite El.
  destruct (Z.eqb_spec (stream_id (aggregated_stream_frame_ m)) invalid_stream_id); cbn;
    [by rewrite app_nil_r|by split].
Qed.

Lemma waiting_none a : stream_id a = invalid_stream_id -> waiting a = [].
Proof. unfold waiting. by intros ->. Qed.
Lemma waiting_some a : stream_id a <> invalid_stream_id -> waiting a = [StreamFrame a].
Proof. unfold waiting. intros ?%Z.eqb_neq. by rewrite H. Qed.

Lemma aggregate_frame_spec d t m log f :
  session_notifier_ m = Some log -> waiting_ok (aggregated_stream_frame_ m) -> frame_ok f ->
  exists log', session_notifier_ (aggregate_frame d t m f) = Some log' /\
    waiting_ok (aggregated_stream_frame_ (aggregate_frame d t m f)) /\
    same_acks (log' ++ waiting (aggregated_stream_frame_ (aggregate_frame d t m f)))
              ((log ++ waiting (aggregated_stream_frame_ m)) ++ [f]).
Proof.
  intros El Ha Hf. destruct (flush_waiting m log d El) as [En Ei]. unfold aggregate_frame. destruct f as [f|ty c].
  - destruct (can_aggregate (aggregated_stream_frame_ m) (StreamFrame f)) eqn:Ec.
    + destruct (merge_same_acks _ _ Ha Hf Ec) as (Hi & Hok & Hm).
      rewrite (waiting_some _ Hi), <- app_assoc. cbn [app]. fold (merged (aggregated_stream_frame_ m) f).
      set (m1 := m <| aggregated_stream_frame_ := merged (aggregated_stream_frame_ m) f |>).
      assert (Hi1 : stream_id (merged (aggregated_stream_frame_ m) f) <> invalid_stream_id) by (destruct Hok; lia).
      destruct (fin f) eqn:Ef.
      * destruct (flush_waiting m1 log d El) as [En1 Ei1]. eexists. split; [exact En1|]. split; [by left|].
        rewrite (waiting_none _ Ei1), app_nil_r. unfold m1. cbn [aggregated_stream_frame_ set_field].
        rewrite waiting_some by done. by rewrite Hm.
      * exists log. split; [done|]. unfold m1. cbn [aggregated_stream_frame_ set_field].
        split; [right; by split|]. rewrite waiting_some by done. by rewrite Hm.
    + destruct (fin f) eqn:Ef; rewrite ?En.
      * eexists. split; [done|]. split; [by left|]. cbn [aggregated_stream_frame_ set_field].
        by rewrite (waiting_none _ Ei), app_nil_r.
      * eexists. split; [exact En|]. cbn [aggregated_stream_frame_ set_field].
        assert (Ee : mkStreamFrame (stream_id f) false (offset f) (data_length f) = f) by (destruct f; cbn in *; by subst).
        rewrite Ee. split; [by right|]. rewrite (waiting_some f); [done|]. destruct Hf. lia.
  - rewrite En. eexists. split; [done|]. cbn [aggregated_stream_frame_ set_field]. split; [by left|].
    by rewrite (waiting_none _ Ei), app_nil_r.
Qed.

Lemma aggregate_frames_spec d t fs : forall m log,
  session_notifier_ m = Some log -> waiting_ok (aggregated_stream_frame_ m) -> Forall frame_ok fs ->
  let m' := foldl (aggregate_frame d t) m fs in
  exists log', session_notifier_ m' = Some log' /\ waiting_ok (aggregated_stream_frame_ m') /\
    same_acks (log' ++ waiting (aggregated_stream_frame_ m')) ((log ++ waiting (aggregated_stream_frame_ m)) ++ fs).
Proof.
  induction fs as [|f fs IH]; intros m log El Ha Hfs; cbn [foldl].
  - exists log. by rewrite app_nil_r.
  - inversion Hfs as [|? ? Hf Hfs']; subst.
    destruct (aggregate_frame_spec d t m log f El Ha Hf) as (log1 & E1 & H1 & S1).
    destruct (IH _ log1 E1 H1 Hfs') as (log2 & E2 & H2 & S2). exists log2. split; [done|split; [done|]].
    rewrite S2, S1. by rewrite <- (app_assoc _ [f]).
Qed.

(** C31. Aggregating acknowledgments loses and invents nothing: when the frames of a
    sequence of acknowledged packets are processed and the frame left waiting
    is flushed, a session that started with no frame waiting has been
    notified of exactly the acknowledged bytes of each stream, of exactly the
    ends of finished streams, and of every other frame in order. *)
Theorem aggregated_acks_same m infos d t :
  session_notifier_ m = Some [] -> stream_id (aggregated_stream_frame_ m) = invalid_stream_id ->
  Forall (fun i => Forall frame_ok (retransmittable_frames i)) infos ->
  exists log, session_notifier_ (NotifyAggregatedStreamFrameAcked
      (foldl (fun m i => MaybeAggregateAckedStreamFrame m i d t) m infos) d) = Some log /\
    same_acks log (concat (map retransmittable_frames infos)).
Proof.
  intros El Ei Hi.
  assert (Hloop : forall m log, session_notifier_ m = Some log -> waiting_ok (aggregated_stream_frame_ m) ->
    let m' := foldl (fun m i => MaybeAggregateAckedStreamFrame m i d t) m infos in
    exists log', session_notifier_ m' = Some log' /\
      same_acks (log' ++ waiting (aggregated_stream_frame_ m'))
                ((log ++ waiting (aggregated_stream_frame_ m)) ++ concat (map retransmittable_frames infos))).
  { clear El Ei m. induction Hi as [|i infos Hf Hi IH]; intros m log El Ha; cbn.
    - exists log. by rewrite app_nil_r.
    - unfold MaybeAggregateAckedStreamFrame at 2 4. rewrite El.
      destruct (aggregate_frames_spec d t (retransmittable_frames i) m log El Ha Hf) as (log1 & E1 & H1 & S1).
      destruct (IH _ log1 E1 H1) as (log2 & E2 & S2). exists log2. split; [done|]. rewrite S2, S1. by rewrite app_assoc. }
  destruct (Hloop m [] El ltac:(by left)) as (log & E & Hs). rewrite (waiting_none _ Ei) in Hs. cbn in Hs.
  destruct (flush_waiting _ log d E) as [En _]. eexists. split; [exact En|done].
Qed.

(** * Witnesses *)

Definition demo_map : QuicUnackedPacketMap (list QuicFrame) := QuicUnackedPacketMap_init IS_CLIENT.
Definition demo_ops : list map_op :=
  [OpSend (mkPacket 1 1200 false ENCRYPTION_FORWARD_SECURE false QuicPacketNumber_default
             [StreamFrame (mkStreamFrame 4 false 0 1000)]) NOT_RETRANSMISSION 1000 true true;
   OpSend (mkPacket 3 700 false ENCRYPTION_FORWARD_SECURE false QuicPacketNumber_default
             [StreamFrame (mkStreamFrame 4 true 1000 500)]) NOT_RETRANSMISSION 2000 true true;
   OpRemoveFromInFlight 1; OpIncreaseLargestAcked 1].
Definition after_ops (n : nat) : QuicUnackedPacketMap (list QuicFrame) :=
  match rfold apply_op (take n demo_ops) demo_map with Ok m' => m' | Fault _ => demo_map end.

Lemma demo_step n op : demo_ops !! n = Some op -> valid_op (after_ops n) op ->
  apply_op (after_ops n) op = Ok (after_ops (S n)) -> map_step (after_ops n) (after_ops (S n)).
Proof. intros _ Hv E. by exists op. Qed.

Lemma demo_run : rtc map_step demo_map (after_ops 4).
Proof.
  change demo_map with (after_ops 0).
  eapply rtc_l; [eapply (demo_step 0); [done| |by vm_compute]|].
  { split; [|done]. split; [by vm_compute|split; [by vm_compute|by eexists]]. }
  eapply rtc_l; [eapply (demo_step 1); [done| |by vm_compute]|].
  { split; [|done]. split; [by vm_compute|split; [by vm_compute|by eexists]]. }
  eapply rtc_l; [eapply (demo_step 2); [done|by vm_compute|by vm_compute]|].
  eapply rtc_l; [eapply (demo_step 3); [done|by vm_compute|by vm_compute]|].
  done.
Qed.

Lemma in_flight_accounting_witness :
  bytes_in_flight_ (after_ops 4) = total flight_bytes (unacked_packets_ (after_ops 4)) /\
  bytes_in_flight_ (after_ops 4) = 700 /\
  exists m', apply_op (after_ops 4) (OpRemoveFromInFlight 3) = Ok m'.
Proof.
  destruct (in_flight_accounting IS_CLIENT (after_ops 4) demo_run) as (Hb & _ & _ & _ & Hop).
  split; [exact Hb|]. split; [vm_compute; reflexivity|]. apply Hop. vm_compute. split; [discriminate|reflexivity].
Defined.

Definition demo_infos : list QuicTransmissionInfo :=
  map (fun fs => QuicTransmissionInfo_default <| retransmittable_frames := fs |>)
    [[StreamFrame (mkStreamFrame 4 false 0 1000)]; [StreamFrame (mkStreamFrame 4 true 1000 500)]].

Lemma aggregated_acks_same_witness :
  exists log, session_notifier_ (NotifyAggregatedStreamFrameAcked
      (foldl (fun m i => MaybeAggregateAckedStreamFrame m i 0 5000) (demo_map <| session_notifier_ := Some [] |>)
         demo_infos) 0) = Some log /\
    length log = 1%nat /\ acked_byte log 4 1499 /\ acked_fin log 4 1500.
Proof.
  destruct (aggregated_acks_same (demo_map <| session_notifier_ := Some [] |>) demo_infos 0 5000)
    as (log & E & Hb & Hf & _); [done|done| |].
  { repeat (constructor; cbn); unfold frame_ok, stream_frame_ok; cbn; lia. }
  exists log. split; [exact E|]. vm_compute in E. injection E as <-. split; [done|].
  split; [apply Hb|apply Hf]; exists (mkStreamFrame 4 true 1000 500); (split; [set_solver|]); cbn; repeat split; lia.
Defined.
