(* ===== verification/GeneralLoss.v ===== *)
(** [GeneralLossAlgorithm] (general_loss_algorithm.h, general_loss_algorithm.cc):
    loss detection by packet and time thresholds over the unacked packets of one
    packet number space.  [least_in_flight_] lets a detection start where the
    last one stopped; the main theorem is that this never changes its outcome.

    The parent that is told of reordering may change this object's thresholds
    (it tunes all of its algorithms), so its callback is a parameter that
    takes and returns both states. *)

From Stdlib Require Import SpecFloat Sorted.
From stdpp Require Import relations.
From S2P Require Import Prelude Float QuicTime PacketNumber RttStats SendAlgorithm Pacing UnackedMap.

(** src/quiche/gquiche/quic/core/quic_constants.h:262-262 [kDefaultPacketReorderingThreshold] *)
Definition kDefaultPacketReorderingThreshold : Z := 3.
(** src/quiche/gquiche/quic/core/quic_constants.h:266-266 [kDefaultLossDelayShift] *)
Definition kDefaultLossDelayShift : Z := 2.

(** src/quiche/gquiche/quic/core/congestion_control/general_loss_algorithm.h:115-134 [GeneralLossAlgorithm].  Of the pointer [parent_], whether it is set. *)
Record GeneralLossAlgorithm := mkLoss {
  parent_ : bool;
  loss_detection_timeout_ : QuicTime;
  reordering_shift_ : Z;
  reordering_threshold_ : Z;
  use_adaptive_reordering_threshold_ : bool;
  use_adaptive_time_threshold_ : bool;
  use_packet_threshold_for_runt_packets_ : bool;
  least_in_flight_ : QuicPacketNumber;
  packet_number_space_ : PacketNumberSpace;
}.
#[export] Instance eta_Loss : Eta GeneralLossAlgorithm := MkEta _ (fun g =>
  mkLoss (parent_ g) (loss_detection_timeout_ g) (reordering_shift_ g) (reordering_threshold_ g)
    (use_adaptive_reordering_threshold_ g) (use_adaptive_time_threshold_ g)
    (use_packet_threshold_for_runt_packets_ g) (least_in_flight_ g) (packet_number_space_ g)).

(** src/quiche/gquiche/quic/core/congestion_control/general_loss_algorithm.h:25-25 [GeneralLossAlgorithm::GeneralLossAlgorithm], with the initializers of lines 116-133. *)
Definition GeneralLossAlgorithm_init : GeneralLossAlgorithm :=
  mkLoss false QuicTime_Zero kDefaultLossDelayShift kDefaultPacketReorderingThreshold true false true 1
    NUM_PACKET_NUMBER_SPACES.

(** src/quiche/gquiche/quic/core/congestion_control/loss_detection_interface.h:29-36 [DetectionStats] *)
Record DetectionStats := mkDetection {
  sent_packets_max_sequence_reordering : Z;
  sent_packets_num_borderline_time_reorderings : Z;
  total_loss_detection_response_time : spec_float;
}.
#[export] Instance eta_Detection : Eta DetectionStats := MkEta _ (fun s =>
  mkDetection (sent_packets_max_sequence_reordering s) (sent_packets_num_borderline_time_reorderings s)
    (total_loss_detection_response_time s)).
Definition DetectionStats_init : DetectionStats := mkDetection 0 0 (f32_of_Z 0).

(** src/quiche/gquiche/quic/core/congestion_control/general_loss_algorithm.cc:16-26 [DetectionResponseTime] *)
Definition DetectionResponseTime (rtt : Delta) (send_time detection_time : QuicTime) : spec_float :=
  if (detection_time <=? send_time) || Delta_IsZero rtt then f32_of_Z 1
  else f32_div (f32_of_Z (QuicTime_diff detection_time send_time)) (f32_of_Z rtt).

(** src/quiche/gquiche/quic/core/congestion_control/general_loss_algorithm.cc:28-31 [GetMaxRtt] *)
Definition GetMaxRtt (rtt_stats : RttStats) : Delta :=
  Z.max kAlarmGranularity (Z.max (previous_srtt_ rtt_stats) (latest_rtt_ rtt_stats)).

(** src/quiche/gquiche/quic/core/congestion_control/general_loss_algorithm.h:51-74 [GeneralLossAlgorithm::OnConfigNegotiated, OnMinRttAvailable, OnUserAgentIdKnown, OnConnectionClosed, OnReorderingDetected].
    Each fails its check. *)
Definition unexpected_call (g : GeneralLossAlgorithm) : result GeneralLossAlgorithm := Fault CheckFailed.

Section Loss.
Context {N : Type} `{SessionNotifier N}.
Context {P : Type} (parent_OnReorderingDetected : P -> GeneralLossAlgorithm -> result (P * GeneralLossAlgorithm)).
Implicit Types (m : QuicUnackedPacketMap N) (g : GeneralLossAlgorithm) (p : P).

(** The variables of the detection loop. *)
Record detection := mkDet {
  det_parent : P;
  det_self : GeneralLossAlgorithm;
  det_stats : DetectionStats;
  packets_lost : list LostPacket;
}.
#[local] Instance eta_det : Eta detection := MkEta _ (fun d =>
  mkDet (det_parent d) (det_self d) (det_stats d) (packets_lost d)).

(** src/quiche/gquiche/quic/core/congestion_control/general_loss_algorithm.cc:114-116 [GeneralLossAlgorithm::DetectLosses, packet lost], also lines 135-137. *)
Definition declare_lost (d : detection) (pn : QuicPacketNumber) (info : QuicTransmissionInfo)
    (max_rtt : Delta) (time : QuicTime) : detection :=
  d <| packets_lost := packets_lost d ++ [mkLost pn (bytes_sent info)] |>
    <| det_stats := det_stats d <| total_loss_detection_response_time :=
         f32_add (total_loss_detection_response_time (det_stats d))
           (DetectionResponseTime max_rtt (sent_time info) time) |> |>.

(** src/quiche/gquiche/quic/core/congestion_control/general_loss_algorithm.cc:96-104 [GeneralLossAlgorithm::DetectLosses, reordering] *)
Definition note_reordering (d : detection) (largest_newly_acked pn : QuicPacketNumber) : result detection :=
  let* d :=
    if parent_ (det_self d) then
      let* ne := PN_ne largest_newly_acked pn in
      if ne then
        let* r := parent_OnReorderingDetected (det_parent d) (det_self d) in
        Ok (d <| det_parent := r.1 |> <| det_self := r.2 |>)
      else Ok d
    else Ok d in
  let* gap := PN_diff largest_newly_acked pn in
  Ok (if sent_packets_max_sequence_reordering (det_stats d) <? gap
      then d <| det_stats := det_stats d <| sent_packets_max_sequence_reordering := gap |> |> else d).

(** src/quiche/gquiche/quic/core/congestion_control/general_loss_algorithm.cc:108-113 [GeneralLossAlgorithm::DetectLosses, packet threshold] *)
Definition over_packet_threshold m g (info : QuicTransmissionInfo) (largest_newly_acked pn : QuicPacketNumber)
    : result bool :=
  let* skip :=
    if negb (use_packet_threshold_for_runt_packets_ g) then
      let* largest := GetTransmissionInfo m largest_newly_acked in Ok (bytes_sent largest <? bytes_sent info)
    else Ok false in
  if skip then Ok false
  else let* gap := PN_diff largest_newly_acked pn in Ok (reordering_threshold_ g <=? gap).

(** src/quiche/gquiche/quic/core/congestion_control/general_loss_algorithm.cc:121-121 [GeneralLossAlgorithm::DetectLosses, loss delay] *)
Definition loss_delay g (max_rtt : Delta) : Delta := Delta_add max_rtt (Delta_shr max_rtt (reordering_shift_ g)).

(** src/quiche/gquiche/quic/core/congestion_control/general_loss_algorithm.cc:124-133 [GeneralLossAlgorithm::DetectLosses, not lost yet] *)
Definition arm_timeout (d : detection) (pn : QuicPacketNumber) (info : QuicTransmissionInfo)
    (max_rtt : Delta) (time when_lost : QuicTime) : detection :=
  let g := det_self d in
  let d := if QuicTime_add (QuicTime_add (sent_time info) max_rtt) (Delta_shr max_rtt (reordering_shift_ g + 1)) <=? time
    then d <| det_stats := det_stats d <| sent_packets_num_borderline_time_reorderings :=
           sent_packets_num_borderline_time_reorderings (det_stats d) ⊕ 1 |> |>
    else d in
  let g := g <| loss_detection_timeout_ := when_lost |> in
  let g := if negb (PN_IsInitialized (least_in_flight_ g)) then g <| least_in_flight_ := pn |> else g in
  d <| det_self := g |>.

(** src/quiche/gquiche/quic/core/congestion_control/general_loss_algorithm.cc:84-138 [GeneralLossAlgorithm::DetectLosses, loop] over the entries [rest] from packet number [pn] on. *)
Fixpoint detect_loop m (time : QuicTime) (max_rtt : Delta) (largest_newly_acked : QuicPacketNumber)
    (rest : list QuicTransmissionInfo) (pn : QuicPacketNumber) (d : detection) : result detection :=
  match rest with
  | [] => Ok d
  | info :: rest =>
      let* le := PN_le pn largest_newly_acked in
      if negb le then Ok d
      else
        let continue d :=
          let* pn := PN_incr pn in detect_loop m time max_rtt largest_newly_acked rest pn d in
        let* space := GetPacketNumberSpace m (encryption_level info) in
        if bool_decide (space <> packet_number_space_ (det_self d)) then continue d
        else if negb (in_flight info) then continue d
        else
          let* d := note_reordering d largest_newly_acked pn in
          let* over := over_packet_threshold m (det_self d) info largest_newly_acked pn in
          if over then continue (declare_lost d pn info max_rtt time)
          else
            let when_lost := QuicTime_add (sent_time info) (loss_delay (det_self d) max_rtt) in
            if time <? when_lost then Ok (arm_timeout d pn info max_rtt time when_lost)
            else continue (declare_lost d pn info max_rtt time)
  end.

(** src/quiche/gquiche/quic/core/congestion_control/general_loss_algorithm.cc:58-63 [GeneralLossAlgorithm::DetectLosses, hole in the acked packets] *)
Fixpoint skip_acked (packets_acked : list AckedPacket) (least : QuicPacketNumber) : result QuicPacketNumber :=
  match packets_acked with
  | [] => Ok least
  | acked :: packets_acked =>
      let* ne := PN_ne (acked_packet_number acked) least in
      if ne then Ok least
      else let* least := PN_incr least in skip_acked packets_acked least
  end.

(** src/quiche/gquiche/quic/core/congestion_control/general_loss_algorithm.cc:46-64 [GeneralLossAlgorithm::DetectLosses, acked packets].  [inl] is the return of line 55. *)
Definition advance_least g (largest_newly_acked : QuicPacketNumber) (packets_acked : list AckedPacket)
    : result (GeneralLossAlgorithm + GeneralLossAlgorithm) :=
  match packets_acked, last packets_acked with
  | front :: _, Some back =>
      if PN_IsInitialized (least_in_flight_ g) then
        let* first := PN_eq (acked_packet_number front) (least_in_flight_ g) in
        if first then
          let* back_largest := PN_eq (acked_packet_number back) largest_newly_acked in
          let* contiguous :=
            if back_largest then
              let* e := PN_add (least_in_flight_ g) (Z.of_nat (length packets_acked)) in
              let* e := PN_sub e 1 in PN_eq e largest_newly_acked
            else Ok false in
          if contiguous then
            let* least := PN_add largest_newly_acked 1 in Ok (inl (g <| least_in_flight_ := least |>))
          else
            let* least := skip_acked packets_acked (least_in_flight_ g) in
            Ok (inr (g <| least_in_flight_ := least |>))
        else Ok (inr g)
      else Ok (inr g)
  | _, _ => Ok (inr g)
  end.

(** src/quiche/gquiche/quic/core/congestion_control/general_loss_algorithm.cc:68-79 [GeneralLossAlgorithm::DetectLosses, start of the scan].  The packet number to start at and the
    entries from there on; the deque's iterator checks that it stays inside. *)
Definition scan_start m g : result (QuicPacketNumber * list QuicTransmissionInfo) :=
  let pn := GetLeastUnacked m in
  let* skip := if PN_IsInitialized (least_in_flight_ g) then PN_ge (least_in_flight_ g) pn else Ok false in
  if skip then
    let* e := PN_add (largest_sent_packet_ m) 1 in
    let* bug := PN_gt (least_in_flight_ g) e in
    let* _ := CHECK (negb bug) in
    let* k := PN_diff (least_in_flight_ g) pn in
    let* _ := CHECK (k <=? deque_size m) in
    Ok (least_in_flight_ g, drop (Z.to_nat k) (unacked_packets_ m))
  else Ok (pn, unacked_packets_ m).

(** src/quiche/gquiche/quic/core/congestion_control/general_loss_algorithm.cc:36-145 [GeneralLossAlgorithm::DetectLosses] *)
Definition DetectLosses m (p : P) g (time : QuicTime) (rtt_stats : RttStats)
    (largest_newly_acked : QuicPacketNumber) (packets_acked : list AckedPacket) (lost : list LostPacket)
    : result detection :=
  let g := g <| loss_detection_timeout_ := QuicTime_Zero |> in
  let* a := advance_least g largest_newly_acked packets_acked in
  match a with
  | inl g => Ok (mkDet p g DetectionStats_init lost)
  | inr g =>
      let max_rtt := GetMaxRtt rtt_stats in
      let* start := scan_start m g in
      let g := g <| least_in_flight_ := PN_Clear |> in
      let* space := GetPacketNumberSpaceOf m largest_newly_acked in
      let* _ := CHECK (bool_decide (packet_number_space_ g = space)) in
      let* d := detect_loop m time max_rtt largest_newly_acked start.2 start.1
                  (mkDet p g DetectionStats_init lost) in
      if negb (PN_IsInitialized (least_in_flight_ (det_self d))) then
        let* least := PN_add largest_newly_acked 1 in
        Ok (d <| det_self := det_self d <| least_in_flight_ := least |> |>)
      else Ok d
  end.

(** src/quiche/gquiche/quic/core/congestion_control/general_loss_algorithm.cc:147-149 [GeneralLossAlgorithm::GetLossTimeout] *)
Definition GetLossTimeout g : QuicTime := loss_detection_timeout_ g.

(** src/quiche/gquiche/quic/core/congestion_control/general_loss_algorithm.cc:165-168 [GeneralLossAlgorithm::SpuriousLossDetected, loop].  The shift bounds the iterations. *)
Fixpoint adapt_shift (fuel : nat) (max_rtt time_needed : Delta) (shift : Z) : result Z :=
  match fuel with
  | O => Fault OutOfFuel
  | S fuel =>
      if (Delta_add max_rtt (Delta_shr max_rtt shift) <? time_needed) && (0 <? shift)
      then adapt_shift fuel max_rtt time_needed (shift - 1)
      else Ok shift
  end.
(** src/quiche/gquiche/quic/core/congestion_control/general_loss_algorithm.cc:151-178 [GeneralLossAlgorithm::SpuriousLossDetected] *)
Definition SpuriousLossDetected m g (rtt_stats : RttStats) (ack_receive_time : QuicTime)
    (pn previous_largest_acked : QuicPacketNumber) : result GeneralLossAlgorithm :=
  let* g :=
    if use_adaptive_time_threshold_ g && (0 <? reordering_shift_ g) then
      let* info := GetTransmissionInfo m pn in
      let time_needed := QuicTime_diff ack_receive_time (sent_time info) in
      let max_rtt := Z.max (previous_srtt_ rtt_stats) (latest_rtt_ rtt_stats) in
      let* shift := adapt_shift (S (Z.to_nat (reordering_shift_ g))) max_rtt time_needed (reordering_shift_ g) in
      Ok (g <| reordering_shift_ := shift |>)
    else Ok g in
  if use_adaptive_reordering_threshold_ g then
    let* lt := PN_lt pn previous_largest_acked in
    let* _ := CHECK lt in
    let* gap := PN_diff previous_largest_acked pn in
    Ok (g <| reordering_threshold_ := Z.max (reordering_threshold_ g) (gap ⊕ 1) |>)
  else Ok g.

(** src/quiche/gquiche/quic/core/congestion_control/general_loss_algorithm.cc:180-189 [GeneralLossAlgorithm::Initialize] *)
Definition Initialize g (space : PacketNumberSpace) (parent : bool) : result GeneralLossAlgorithm :=
  let g := g <| parent_ := parent |> in
  let* _ := CHECK (bool_decide (packet_number_space_ g = NUM_PACKET_NUMBER_SPACES)) in
  Ok (g <| packet_number_space_ := space |>).

(** src/quiche/gquiche/quic/core/congestion_control/general_loss_algorithm.cc:191-194 [GeneralLossAlgorithm::Reset] *)
Definition Reset g : GeneralLossAlgorithm :=
  g <| loss_detection_timeout_ := QuicTime_Zero |> <| least_in_flight_ := PN_Clear |>.

(** * The reference

    Loss detection without the shortcut: of the packets in flight in the
    algorithm's packet number space up to the largest acknowledged one, those are
    lost that are far enough below it or were sent long enough ago. *)

Fixpoint numbered (pn : QuicPacketNumber) (l : list QuicTransmissionInfo) : list (QuicPacketNumber * QuicTransmissionInfo) :=
  match l with
  | [] => []
  | i :: l => (pn, i) :: numbered (pn + 1) l
  end.

Definition relevant m g (i : QuicTransmissionInfo) : Prop :=
  in_flight i = true /\ GetPacketNumberSpace m (encryption_level i) = Ok (packet_number_space_ g).
#[local] Instance relevant_dec m g i : Decision (relevant m g i).
Proof. unfold relevant. apply _. Defined.

Definition eligible m g (largest : QuicPacketNumber) (x : QuicPacketNumber * QuicTransmissionInfo) : Prop :=
  x.1 <= largest /\ relevant m g x.2.
#[local] Instance eligible_dec m g largest x : Decision (eligible m g largest x).
Proof. unfold eligible. apply _. Defined.

Definition candidates m g (largest : QuicPacketNumber) : list (QuicPacketNumber * QuicTransmissionInfo) :=
  filter (eligible m g largest) (numbered (least_unacked_ m) (unacked_packets_ m)).

Definition is_lost g (time : QuicTime) (max_rtt : Delta) (largest : QuicPacketNumber)
    (x : QuicPacketNumber * QuicTransmissionInfo) : Prop :=
  reordering_threshold_ g <= largest - x.1 \/
  sent_time x.2 + (max_rtt + Z.shiftr max_rtt (reordering_shift_ g)) <= time.
#[local] Instance is_lost_dec g time max_rtt largest x : Decision (is_lost g time max_rtt largest x).
Proof. unfold is_lost. apply _. Defined.

Definition as_lost (x : QuicPacketNumber * QuicTransmissionInfo) : LostPacket := mkLost x.1 (bytes_sent x.2).

(** * The loop *)

Lemma elem_of_numbered x l : forall pn,
  x ∈ numbered pn l <-> exists k : nat, x.1 = pn + Z.of_nat k /\ l !! k = Some x.2.
Proof.
  induction l as [|i l IH]; intros pn; cbn.
  - split; [by intros ?%elem_of_nil|]. by intros (k & _ & ?).
  - rewrite elem_of_cons, IH. split.
    + intros [->|(k & E & Hk)]; [exists 0%nat; cbn; split; [lia|done]|exists (S k); cbn; split; [lia|done]].
    + intros ([|k] & E & Hk); cbn in *; [left; destruct x; simplify_eq/=; f_equal; lia|right; exists k; split; [lia|done]].
Qed.

Lemma numbered_app l1 l2 : forall pn, numbered pn (l1 ++ l2) = numbered pn l1 ++ numbered (pn + Z.of_nat (length l1)) l2.
Proof.
  induction l1 as [|i l1 IH]; intros pn; cbn [numbered app length]; [by rewrite Z.add_0_r|].
  rewrite IH. do 3 f_equal. lia.
Qed.

Lemma filter_none {A} (P' : A -> Prop) `{!forall x, Decision (P' x)} l : (forall x, x ∈ l -> ~ P' x) -> filter P' l = [].
Proof.
  induction l as [|x l IH]; intros Hl; [done|]. rewrite filter_cons_False by (apply Hl; set_solver).
  apply IH. set_solver.
Qed.

(** A parent with nothing to tune: while it is calm, the callback leaves this
    object alone. *)
Context (calm : P -> Prop).
Definition quiet : Prop :=
  forall p g, calm p -> exists p', parent_OnReorderingDetected p g = Ok (p', g) /\ calm p'.

(** Sizes that keep packet numbers and times inside 64 bits. *)
Definition sizes_ok m (max_rtt : Delta) (shift : Z) : Prop :=
  0 <= max_rtt < 2 ^ 61 /\ 0 <= shift /\
  Forall (fun i => in_flight i = true -> 0 <= sent_time i < 2 ^ 61) (unacked_packets_ m).

Lemma when_lost_val t max_rtt shift : 0 <= max_rtt < 2 ^ 61 -> 0 <= shift -> 0 <= t < 2 ^ 61 ->
  QuicTime_add t (Delta_add max_rtt (Delta_shr max_rtt shift)) = t + (max_rtt + Z.shiftr max_rtt shift).
Proof.
  intros Hr Hs Ht. unfold QuicTime_add, Delta_add, Delta_shr.
  assert (0 <= Z.shiftr max_rtt shift <= max_rtt).
  { rewrite Z.shiftr_div_pow2 by done. split; [apply Z.div_pos; lia|]. apply Z.div_le_upper_bound; nia. }
  by rewrite !i64_small by (rewrite ?i64_small; lia).
Qed.

Lemma note_reordering_quiet d largest pn : quiet -> calm (det_parent d) -> 0 <= pn <= largest -> largest <= 2 ^ 48 ->
  exists d', note_reordering d largest pn = Ok d' /\ det_self d' = det_self d /\ packets_lost d' = packets_lost d /\
    calm (det_parent d').
Proof.
  intros Hq Hc Hp Hl. unfold note_reordering.
  match goal with |- context [rbind (if parent_ _ then ?x else ?y) _] =>
    assert (Hpar : exists d', (if parent_ (det_self d) then x else y) = Ok d' /\
      det_self d' = det_self d /\ packets_lost d' = packets_lost d /\ calm (det_parent d')) end.
  { destruct (parent_ (det_self d)); [|by eauto].
    unfold PN_ne, PN_both. rewrite !PN_init_small by lia. cbn [andb CHECK rbind].
    destruct (negb (largest =? pn)); [|by eauto].
    destruct (Hq (det_parent d) (det_self d) Hc) as (p' & -> & ?). cbn. eauto. }
  destruct Hpar as (d1 & -> & E1 & E2 & E3). cbn [rbind]. rewrite PN_diff_small by lia. cbn [rbind].
  eexists. split; [done|]. by destruct (_ <? _).
Qed.

Definition sent_before (x y : QuicPacketNumber * QuicTransmissionInfo) : Prop := sent_time x.2 <= sent_time y.2.

(** The state of the algorithm after a scan of the candidates [cs]. *)
Definition scanned g (time : QuicTime) (max_rtt : Delta) (largest : QuicPacketNumber)
    (cs : list (QuicPacketNumber * QuicTransmissionInfo)) : GeneralLossAlgorithm :=
  match filter (fun x => ~ is_lost g time max_rtt largest x) cs with
  | [] => g
  | x :: _ => g <| loss_detection_timeout_ := sent_time x.2 + (max_rtt + Z.shiftr max_rtt (reordering_shift_ g)) |>
                <| least_in_flight_ := x.1 |>
  end.

(** Past the first candidate that is not lost there is none that is. *)
Lemma none_lost_after g time max_rtt largest x cs :
  ~ is_lost g time max_rtt largest x -> Forall (fun y => x.1 <= y.1) cs -> Forall (sent_before x) cs ->
  filter (is_lost g time max_rtt largest) cs = [].
Proof.
  unfold is_lost, sent_before. rewrite !Forall_forall. intros Hx H1 H2. apply filter_none.
  intros y Hy. specialize (H1 y Hy). specialize (H2 y Hy). lia.
Qed.

Lemma numbered_ge pn l : Forall (fun x => pn <= x.1) (numbered pn l).
Proof. apply Forall_forall. intros x (k & -> & _)%elem_of_numbered. lia. Qed.

Lemma detect_loop_spec m time max_rtt largest rest : forall pn d,
  quiet -> calm (det_parent d) -> Forall (info_ok m) rest -> Forall (fun i => in_flight i = true -> 0 <= sent_time i < 2 ^ 61) rest ->
  0 <= max_rtt < 2 ^ 61 -> 0 <= reordering_shift_ (det_self d) ->
  use_packet_threshold_for_runt_packets_ (det_self d) = true ->
  PN_IsInitialized (least_in_flight_ (det_self d)) = false ->
  0 <= pn -> pn + Z.of_nat (length rest) <= 2 ^ 48 -> 0 <= largest < 2 ^ 48 ->
  let cs := filter (eligible m (det_self d) largest) (numbered pn rest) in
  StronglySorted sent_before cs ->
  exists d', detect_loop m time max_rtt largest rest pn d = Ok d' /\
    packets_lost d' = packets_lost d ++ map as_lost (filter (is_lost (det_self d) time max_rtt largest) cs) /\
    det_self d' = scanned (det_self d) time max_rtt largest cs /\ calm (det_parent d').
Proof.
  induction rest as [|i rest IH]; intros pn d Hq Hc Hi Ht Hr Hs Hrunt Hun Hpn Hlen Hla cs Hso.
  { exists d. cbn. by rewrite app_nil_r. }
  apply Forall_cons in Hi as [Hi0 Hi], Ht as [Ht0 Ht]. cbn [detect_loop]. cbn [length] in Hlen.
  rewrite PN_le_init by (apply PN_init_small; lia). cbn [rbind].
  destruct (Z.leb_spec pn largest) as [Hle|Hgt]; cbn [negb].
  2:{ exists d. assert (cs = []) as ->; [|cbn; by rewrite app_nil_r].
      apply filter_none. intros x Hx [? _]. pose proof (numbered_ge pn (i :: rest)) as Hg.
      rewrite Forall_forall in Hg. specialize (Hg x Hx). lia. }
  destruct Hi0 as [_ (sp & Esp)]. rewrite Esp. cbn [rbind].
  rewrite !(PN_incr_small pn) by lia. cbn [rbind].
  destruct (decide (relevant m (det_self d) i)) as [[Hf Hsp]|Hnr].
  2:{ assert (cs = filter (eligible m (det_self d) largest) (numbered (pn + 1) rest)) as Ecs.
      { unfold cs. cbn [numbered]. rewrite filter_cons_False; [done|]. by intros [_ ?]. }
      rewrite Ecs in *.
      destruct (IH (pn + 1) d Hq Hc Hi Ht Hr Hs Hrunt Hun ltac:(lia) ltac:(lia) Hla Hso) as (d' & E & ?).
      exists d'. split; [|done]. unfold relevant in Hnr. rewrite Esp in Hnr.
      case_bool_decide; [done|]. destruct (in_flight i); [|done]. naive_solver. }
  assert (sp = packet_number_space_ (det_self d)) as -> by congruence.
  rewrite bool_decide_false by (intros Hx; done). rewrite Hf. cbn [negb].
  assert (Ecs : cs = (pn, i) :: filter (eligible m (det_self d) largest) (numbered (pn + 1) rest)).
  { unfold cs. cbn [numbered]. by rewrite filter_cons_True. }
  rewrite Ecs in *. clear Ecs cs. set (cs := filter _ (numbered (pn + 1) rest)) in *.
  apply StronglySorted_inv in Hso as [Hso Hall].
  destruct (note_reordering_quiet d largest pn Hq Hc ltac:(lia) ltac:(lia)) as (d1 & -> & Eg & El & Hc1). cbn [rbind].
  unfold over_packet_threshold. rewrite Eg, Hrunt. cbn [negb rbind]. rewrite PN_diff_small by lia. cbn [rbind].
  unfold loss_delay. rewrite when_lost_val by (auto || lia).
  assert (Hcont : is_lost (det_self d) time max_rtt largest (pn, i) -> exists d',
    detect_loop m time max_rtt largest rest (pn + 1) (declare_lost d1 pn i max_rtt time) = Ok d' /\
    packets_lost d' = packets_lost d ++ map as_lost (filter (is_lost (det_self d) time max_rtt largest) ((pn, i) :: cs)) /\
    det_self d' = scanned (det_self d) time max_rtt largest ((pn, i) :: cs) /\ calm (det_parent d')).
  { intros Hlost. set (d2 := declare_lost d1 pn i max_rtt time).
    assert (Eg2 : det_self d2 = det_self d) by exact Eg.
    assert (El2 : packets_lost d2 = packets_lost d ++ [as_lost (pn, i)]) by (unfold d2; cbn; by rewrite El).
    destruct (IH (pn + 1) d2) as (d' & E & E1 & E2 & E3); rewrite ?Eg2; try done; try lia.
    exists d'. split; [done|]. rewrite E1, E2, El2, Eg2. rewrite filter_cons_True by done. split; [by rewrite <- app_assoc|].
    split; [|done]. unfold scanned. by rewrite filter_cons_False by tauto. }
  destruct (Z.leb_spec (reordering_threshold_ (det_self d)) (largest - pn)) as [Hthr|Hthr];
    [apply Hcont; by left|].
  destruct (Z.ltb_spec time (sent_time i + (max_rtt + Z.shiftr max_rtt (reordering_shift_ (det_self d))))) as [Htm|Htm];
    [|apply Hcont; by right].
  assert (Hnl : ~ is_lost (det_self d) time max_rtt largest (pn, i)) by (unfold is_lost; cbn; lia).
  eexists. split; [done|]. rewrite filter_cons_False by done.
  rewrite (none_lost_after _ _ _ _ (pn, i)); [|done| |done].
  2:{ apply Forall_forall. intros x (_ & Hx)%list_elem_of_filter. pose proof (numbered_ge (pn + 1) rest) as Hg.
      rewrite Forall_forall in Hg. specialize (Hg x Hx). cbn. lia. }
  unfold scanned. rewrite filter_cons_True by done. unfold arm_timeout. rewrite Eg.
  cbn [packets_lost det_self set_field]. cbn [least_in_flight_ set_field]. rewrite Hun. cbn [negb map].
  split; [|split; [done|]]; [rewrite app_nil_r|]; by destruct (_ <=? _).
Qed.

(** * The invariant

    No packet of the space below [least_in_flight_] is in flight; packets in flight were
    sent in the order of their numbers. *)

Record loss_inv m g : Prop := {
  li_map : map_ok m;
  li_least : PN_IsInitialized (least_in_flight_ g) = true ->
    0 <= least_in_flight_ g <= least_unacked_ m + deque_size m;
  li_below : PN_IsInitialized (least_in_flight_ g) = true -> forall k i,
    unacked_packets_ m !! k = Some i -> relevant m g i -> least_in_flight_ g <= least_unacked_ m + Z.of_nat k;
  li_times : forall k1 k2 i1 i2, (k1 < k2)%nat ->
    unacked_packets_ m !! k1 = Some i1 -> unacked_packets_ m !! k2 = Some i2 ->
    in_flight i1 = true -> in_flight i2 = true -> sent_time i1 <= sent_time i2;
  li_bound : Forall (fun i => in_flight i = true -> 0 <= sent_time i < 2 ^ 61) (unacked_packets_ m);
  li_shift : 0 <= reordering_shift_ g;
  li_runt : use_packet_threshold_for_runt_packets_ g = true;
}.

(** What the connection passes to a detection: packets just acknowledged, in
    order and no longer in flight, and a largest one of the algorithm's space. *)
Record acks_ok m g (largest : QuicPacketNumber) (acked : list AckedPacket) : Prop := {
  ao_largest : in_deque m largest;
  ao_space : GetPacketNumberSpaceOf m largest = Ok (packet_number_space_ g);
  ao_sorted : StronglySorted Z.lt (map acked_packet_number acked);
  ao_range : Forall (fun q => 0 <= q < least_unacked_ m + deque_size m) (map acked_packet_number acked);
  ao_landed : forall k i, unacked_packets_ m !! k = Some i ->
    least_unacked_ m + Z.of_nat k ∈ map acked_packet_number acked -> in_flight i = false;
}.

Lemma sorted_last_bound x l z : StronglySorted Z.lt (x :: l) -> last (x :: l) = Some z ->
  x + Z.of_nat (length l) <= z.
Proof.
  revert x. induction l as [|y l IH]; intros x Hs Hl.
  - cbn in *. simplify_eq. lia.
  - apply StronglySorted_inv in Hs as [Hs Hx]. apply Forall_cons in Hx as [Hx _].
    specialize (IH y Hs Hl). cbn [length]. lia.
Qed.

(** A sorted run of as many numbers as its span has no gap. *)
Lemma sorted_contiguous l : forall x z q, StronglySorted Z.lt (x :: l) -> last (x :: l) = Some z ->
  z = x + Z.of_nat (length l) -> x <= q <= z -> q ∈ x :: l.
Proof.
  induction l as [|y l IH]; intros x z q Hs Hl Hz Hq.
  - cbn in *. replace q with x by lia. apply list_elem_of_here.
  - pose proof Hs as [Hs' Hx]%StronglySorted_inv. apply Forall_cons in Hx as [Hx _].
    pose proof (sorted_last_bound y l z Hs' Hl). cbn [length] in *.
    destruct (decide (q = x)) as [->|]; [apply list_elem_of_here|]. apply list_elem_of_further.
    apply (IH y z); (done || lia).
Qed.

Lemma skip_acked_spec acked : forall least, 0 <= least <= 2 ^ 48 ->
  Forall (fun q => 0 <= q < 2 ^ 48) (map acked_packet_number acked) ->
  exists least', skip_acked acked least = Ok least' /\ least <= least' /\
    forall q, least <= q < least' -> q ∈ map acked_packet_number acked.
Proof.
  induction acked as [|a acked IH]; intros least Hl Ha; cbn [skip_acked].
  - exists least. split; [done|]. split; [lia|]. lia.
  - apply Forall_cons in Ha as [Ha0 Ha].
    unfold PN_ne, PN_both. rewrite !PN_init_small by lia. cbn [andb CHECK rbind].
    destruct (Z.eqb_spec (acked_packet_number a) least) as [E|E]; cbn [negb].
    + rewrite PN_incr_small by lia. cbn [rbind]. destruct (IH (least + 1) ltac:(lia) Ha) as (l' & E' & Hle & Hq).
      exists l'. split; [done|]. split; [lia|]. intros q Hq'. cbn.
      destruct (decide (q = acked_packet_number a)) as [->|]; [apply list_elem_of_here|].
      apply list_elem_of_further, Hq. lia.
    + exists least. split; [done|]. split; [lia|]. lia.
Qed.

(** Moving [least_in_flight_] over acknowledged packets keeps the invariant. *)
Lemma loss_inv_advance m g least : loss_inv m g -> PN_IsInitialized (least_in_flight_ g) = true ->
  least_in_flight_ g <= least <= least_unacked_ m + deque_size m ->
  (forall k i, unacked_packets_ m !! k = Some i -> least_in_flight_ g <= least_unacked_ m + Z.of_nat k < least ->
     in_flight i = false) ->
  loss_inv m (g <| least_in_flight_ := least |>).
Proof.
  intros [H1 H2 H3 H4 H5 H6 H7] Hi Hle Hland. specialize (H2 Hi). split; try done.
  - intros _. cbn. lia.
  - intros _ k i Hk Hr. cbn. specialize (H3 Hi k i Hk Hr).
    destruct (Z.lt_ge_cases (least_unacked_ m + Z.of_nat k) least); [|done].
    destruct Hr as [Hf _]. rewrite (Hland k i Hk ltac:(lia)) in Hf. done.
Qed.

Lemma map_ok_small m : map_ok m -> 1 <= least_unacked_ m /\ 0 <= deque_size m /\ least_unacked_ m + deque_size m <= 2 ^ 48.
Proof. intros [H1 _ H3 _ _ _ _]. unfold deque_size in *. lia. Qed.

Lemma advance_least_spec m g largest acked : loss_inv m g -> acks_ok m g largest acked ->
  exists r least, advance_least g largest acked = Ok r /\
    (r = inr (g <| least_in_flight_ := least |>) /\ loss_inv m (g <| least_in_flight_ := least |>) \/
     r = inl (g <| least_in_flight_ := largest + 1 |>) /\
       forall k i, unacked_packets_ m !! k = Some i -> relevant m g i -> largest < least_unacked_ m + Z.of_nat k).
Proof.
  intros Hg [A1 A2 A3 A4 A5]. pose proof (map_ok_small m (li_map m g Hg)) as (M1 & M2 & M3).
  assert (Hsame : loss_inv m (g <| least_in_flight_ := least_in_flight_ g |>)) by (by destruct g).
  assert (Esame : g <| least_in_flight_ := least_in_flight_ g |> = g) by (by destruct g).
  unfold advance_least. destruct acked as [|a acked]; [eexists _, _; split; [done|left; by rewrite Esame]|].
  destruct (last (a :: acked)) as [b|] eqn:Eb; [|eexists _, _; split; [done|left; by rewrite Esame]].
  destruct (PN_IsInitialized (least_in_flight_ g)) eqn:Ei; [|eexists _, _; split; [done|left; by rewrite Esame]].
  pose proof (li_least m g Hg Ei) as Hl.
  pose proof A4 as Ha%Forall_cons_1; destruct Ha as [Ha _].
  unfold PN_eq at 1, PN_both. rewrite Ei, PN_init_small by lia. cbn [andb CHECK rbind].
  destruct (Z.eqb_spec (acked_packet_number a) (least_in_flight_ g)) as [Ea|Ea];
    [|eexists _, _; split; [done|left; by rewrite Esame]].
  assert (Elast : last (map acked_packet_number (a :: acked)) = Some (acked_packet_number b)).
  { change (map acked_packet_number (a :: acked)) with (acked_packet_number <$> a :: acked). by rewrite fmap_last, Eb. }
  assert (Hb : 0 <= acked_packet_number b < least_unacked_ m + deque_size m).
  { rewrite Forall_forall in A4. apply A4. by apply last_Some_elem_of. }
  cbn [map] in A3, Elast, A5. pose proof (sorted_last_bound _ _ _ A3 Elast) as Hspan. rewrite length_map in Hspan.
  destruct A1 as [A1 A1']. unfold PN_eq at 1, PN_both. rewrite !PN_init_small by lia. cbn [andb CHECK rbind].
  assert (Hskip : exists r least, (let* least := skip_acked (a :: acked) (least_in_flight_ g) in
      Ok (inr (g <| least_in_flight_ := least |>))) = Ok r /\
      r = inr (A := GeneralLossAlgorithm) (g <| least_in_flight_ := least |>) /\ loss_inv m (g <| least_in_flight_ := least |>)).
  { destruct (skip_acked_spec (a :: acked) (least_in_flight_ g)) as (l' & -> & Hle & Hq); [lia| |].
    { eapply Forall_impl; [exact A4|]. cbn. lia. }
    cbn [rbind]. eexists _, l'. split; [done|]. split; [done|].
    apply loss_inv_advance; [done|done| |].
    - split; [done|]. destruct (Z.lt_ge_cases (least_in_flight_ g) l') as [Hlt|]; [|lia].
      specialize (Hq (l' - 1) ltac:(lia)). rewrite Forall_forall in A4. specialize (A4 _ Hq). lia.
    - intros k i Hk Hr. apply (A5 k i Hk). by apply Hq. }
  destruct (Z.eqb_spec (acked_packet_number b) largest) as [El|El]; cbn [rbind].
  2:{ destruct Hskip as (r & l' & E & Hr & Hi). exists r, l'. split; [exact E|by left]. }
  cbn [length]. rewrite PN_add_small by lia. cbn [rbind].
  rewrite PN_sub_small by lia. cbn [rbind]. unfold PN_eq, PN_both. rewrite !PN_init_small by lia. cbn [andb CHECK rbind].
  destruct (Z.eqb_spec (least_in_flight_ g + Z.of_nat (S (length acked)) - 1) largest) as [Ec|Ec].
  2:{ destruct Hskip as (r & l' & E & Hr & Hi). exists r, l'. split; [exact E|by left]. }
  rewrite PN_add_small by lia. cbn [rbind]. eexists _, 0. split; [done|]. right. split; [done|].
  intros k i Hk Hr. pose proof (li_below m g Hg Ei k i Hk Hr) as Hb'.
  destruct (Z.lt_ge_cases largest (least_unacked_ m + Z.of_nat k)) as [|Hge]; [done|].
  assert (Hin : least_unacked_ m + Z.of_nat k ∈ acked_packet_number a :: map acked_packet_number acked)
    by (apply (sorted_contiguous _ _ (acked_packet_number b)); rewrite ?length_map; (done || lia)).
  destruct Hr as [Hf _]. by rewrite (A5 k i Hk Hin) in Hf.
Qed.

Lemma candidates_sorted m g largest l : forall pn,
  (forall k1 k2 i1 i2, (k1 < k2)%nat -> l !! k1 = Some i1 -> l !! k2 = Some i2 ->
     in_flight i1 = true -> in_flight i2 = true -> sent_time i1 <= sent_time i2) ->
  StronglySorted sent_before (filter (eligible m g largest) (numbered pn l)).
Proof.
  induction l as [|i l IH]; intros pn Ht; [constructor|]. cbn [numbered].
  assert (Hl : StronglySorted sent_before (filter (eligible m g largest) (numbered (pn + 1) l))).
  { apply IH. intros k1 k2 i1 i2 Hk E1 E2. apply (Ht (S k1) (S k2)); (done || lia). }
  destruct (decide (eligible m g largest (pn, i))) as [He|He];
    [rewrite filter_cons_True by done|by rewrite filter_cons_False].
  constructor; [done|]. apply Forall_forall. intros y ((_ & Hf & _) & Hy)%list_elem_of_filter.
  apply elem_of_numbered in Hy as (k & _ & Ek). apply (Ht 0%nat (S k) i y.2); [lia|done|done| |done].
  destruct He as (_ & ? & _). done.
Qed.

(** Starting at [least_in_flight_] misses no candidate. *)
Lemma scan_start_spec m g largest : loss_inv m g -> in_deque m largest ->
  exists pn rest, scan_start m g = Ok (pn, rest) /\ 0 <= pn /\
    pn + Z.of_nat (length rest) = least_unacked_ m + deque_size m /\ suffix rest (unacked_packets_ m) /\
    filter (eligible m g largest) (numbered pn rest) = candidates m g largest.
Proof.
  intros Hg [Hd1 Hd2]. pose proof (map_ok_small m (li_map m g Hg)) as (M1 & M2 & M3).
  pose proof (ok_end m (li_map m g Hg)) as Hend. unfold scan_start, GetLeastUnacked.
  assert (Hwhole : exists pn rest, Ok (least_unacked_ m, unacked_packets_ m) = Ok (pn, rest) /\ 0 <= pn /\
    pn + Z.of_nat (length rest) = least_unacked_ m + deque_size m /\ suffix rest (unacked_packets_ m) /\
    filter (eligible m g largest) (numbered pn rest) = candidates m g largest).
  { eexists _, _. split; [done|]. split; [lia|]. split; [done|]. by split; [exists []|]. }
  destruct (PN_IsInitialized (least_in_flight_ g)) eqn:Ei; [|done].
  pose proof (li_least m g Hg Ei) as Hl. rewrite PN_ge_init by (done || (apply PN_init_small; lia)). cbn [rbind].
  destruct (Z.leb_spec (least_unacked_ m) (least_in_flight_ g)) as [Hle|]; [|done].
  destruct (PN_IsInitialized (largest_sent_packet_ m)) eqn:Els.
  2:{ destruct Hend as [_ E]. unfold deque_size in *. rewrite E in *. cbn in *. lia. }
  rewrite PN_add_small by lia. cbn [rbind]. rewrite PN_gt_init by (apply PN_init_small; lia). cbn [rbind].
  rewrite (proj2 (Z.ltb_ge _ _)) by lia. cbn [negb CHECK rbind]. rewrite PN_diff_small by lia. cbn [rbind].
  rewrite (proj2 (Z.leb_le _ _)) by lia. cbn [CHECK rbind].
  set (k := Z.to_nat (least_in_flight_ g - least_unacked_ m)).
  eexists _, _. split; [done|]. split; [lia|].
  split; [rewrite length_drop; unfold deque_size in *; lia|]. split; [apply suffix_drop|].
  unfold candidates. rewrite <- (take_drop k (unacked_packets_ m)) at 2.
  rewrite numbered_app, filter_app, (filter_none _ (numbered _ (take k _))).
  - cbn [app]. do 2 f_equal. rewrite length_take. unfold k, deque_size in *. lia.
  - intros x (j & E & Hj)%elem_of_numbered (_ & Hr). apply lookup_take_Some in Hj as [Hj Hjk].
    pose proof (li_below m g Hg Ei j _ Hj Hr). lia.
Qed.

(** The outcome of the reference detection. *)
Definition reference_state g (time : QuicTime) (max_rtt : Delta) (largest : QuicPacketNumber)
    (cs : list (QuicPacketNumber * QuicTransmissionInfo)) : GeneralLossAlgorithm :=
  match filter (fun x => ~ is_lost g time max_rtt largest x) cs with
  | [] => g <| loss_detection_timeout_ := QuicTime_Zero |> <| least_in_flight_ := largest + 1 |>
  | x :: _ => g <| loss_detection_timeout_ := sent_time x.2 + (max_rtt + Z.shiftr max_rtt (reordering_shift_ g)) |>
                <| least_in_flight_ := x.1 |>
  end.

Lemma eligible_space m g' g largest (l : list (QuicPacketNumber * QuicTransmissionInfo)) : packet_number_space_ g' = packet_number_space_ g ->
  filter (eligible m g' largest) l = filter (eligible m g largest) l.
Proof. intros E. apply list_filter_iff. intros x. unfold eligible, relevant. by rewrite E. Qed.
Lemma is_lost_params g' g time max_rtt largest (l : list (QuicPacketNumber * QuicTransmissionInfo)) :
  reordering_threshold_ g' = reordering_threshold_ g ->
  reordering_shift_ g' = reordering_shift_ g ->
  filter (is_lost g' time max_rtt largest) l = filter (is_lost g time max_rtt largest) l.
Proof. intros E1 E2. apply list_filter_iff. intros x. unfold is_lost. by rewrite E1, E2. Qed.
Lemma not_lost_params g' g time max_rtt largest (l : list (QuicPacketNumber * QuicTransmissionInfo)) :
  reordering_threshold_ g' = reordering_threshold_ g ->
  reordering_shift_ g' = reordering_shift_ g ->
  filter (fun x => ~ is_lost g' time max_rtt largest x) l = filter (fun x => ~ is_lost g time max_rtt largest x) l.
Proof. intros E1 E2. apply list_filter_iff. intros x. unfold is_lost. by rewrite E1, E2. Qed.

Lemma DetectLosses_reference m p g time r largest acked lost :
  quiet -> calm p -> loss_inv m g -> acks_ok m g largest acked -> GetMaxRtt r < 2 ^ 61 ->
  exists d, DetectLosses m p g time r largest acked lost = Ok d /\ calm (det_parent d) /\
    packets_lost d = lost ++ map as_lost (filter (is_lost g time (GetMaxRtt r) largest) (candidates m g largest)) /\
    det_self d = reference_state g time (GetMaxRtt r) largest (candidates m g largest).
Proof.
  intros Hq Hc Hg Ha Hr. unfold DetectLosses.
  assert (Hr0 : 0 <= GetMaxRtt r) by (unfold GetMaxRtt; change kAlarmGranularity with 1000; lia).
  pose proof (map_ok_small m (li_map m g Hg)) as (M1 & M2 & M3).
  pose proof (ao_largest m g largest acked Ha) as Hd.
  assert (Hg0 : loss_inv m (g <| loss_detection_timeout_ := QuicTime_Zero |>)) by (by destruct Hg).
  assert (Ha0 : acks_ok m (g <| loss_detection_timeout_ := QuicTime_Zero |>) largest acked) by (by destruct Ha).
  destruct (advance_least_spec m _ largest acked Hg0 Ha0) as (a & least & -> & [(-> & Hg1)|(-> & Hnone)]); cbn [rbind].
  - destruct (scan_start_spec m _ largest Hg1 Hd) as (pn & rest & -> & Hpn & Hlen & Hsuf & Hcs). cbn [rbind fst snd].
    assert (Hcs' : filter (eligible m g largest) (numbered pn rest) = candidates m g largest) by exact Hcs.
    clear Hcs. rename Hcs' into Hcs.
    rewrite (ao_space m g largest acked Ha). cbn [rbind]. rewrite bool_decide_true by done. cbn [CHECK rbind].
    set (g1 := g <| loss_detection_timeout_ := QuicTime_Zero |> <| least_in_flight_ := least |> <| least_in_flight_ := PN_Clear |>).
    destruct Hsuf as (pre & Esuf).
    destruct (detect_loop_spec m time (GetMaxRtt r) largest rest pn (mkDet p g1 DetectionStats_init lost))
      as (d & -> & Elost & Eself & Hcd); try done.
    + pose proof (ok_infos m (li_map m g Hg)) as Hi. rewrite Esuf in Hi. by apply Forall_app in Hi as [_ Hi].
    + pose proof (li_bound m g Hg) as Hi. rewrite Esuf in Hi. by apply Forall_app in Hi as [_ Hi].
    + apply (li_shift m g Hg).
    + apply (li_runt m g Hg).
    + lia.
    + destruct Hd. lia.
    + rewrite (eligible_space m g1 g) by done. rewrite Hcs. apply candidates_sorted, (li_times m g Hg).
    + cbn [rbind]. cbn [det_self packets_lost] in Elost, Eself. rewrite (eligible_space m g1 g), Hcs in Elost, Eself by done.
      rewrite (is_lost_params g1 g) in Elost by done. unfold scanned in Eself. rewrite (not_lost_params g1 g) in Eself by done.
      unfold reference_state.
      destruct (filter (fun x => ~ is_lost g time (GetMaxRtt r) largest x) (candidates m g largest)) as [|x xs] eqn:Ex.
      * rewrite Eself. cbn. rewrite PN_add_small by (destruct Hd; lia). cbn. eexists. split; [done|]. by split; [|split].
      * assert (Hx : PN_IsInitialized x.1 = true).
        { assert (Hin : x ∈ candidates m g largest).
          { apply (list_elem_of_filter (fun x => ~ is_lost g time (GetMaxRtt r) largest x)). rewrite Ex. apply list_elem_of_here. }
          apply list_elem_of_filter in Hin as ((Hle & _) & (k & Ek & Hk)%elem_of_numbered).
          apply PN_init_small. destruct Hd. lia. }
        rewrite Eself. cbn -[PN_IsInitialized]. rewrite Hx. cbn. eexists. split; [done|]. by split; [|split].
  - eexists. split; [done|]. split; [done|]. cbn. unfold reference_state.
    assert (candidates m g largest = []) as ->.
    { apply filter_none. intros x (k & Ek & Hk)%elem_of_numbered (Hle & Hrel).
      specialize (Hnone k _ Hk Hrel). lia. }
    cbn. by rewrite app_nil_r.
Qed.

(** * Runs

    What happens between detections: packets are sent, leave flight when they
    are acknowledged, are forgotten when obsolete; the packets a detection
    declares lost leave flight. *)

Definition remove_all m (pns : list QuicPacketNumber) : result (QuicUnackedPacketMap N) := rfold RemoveFromInFlight pns m.

(** [m'] is [m] with some packets taken out of flight. *)
Record landed m m' : Prop := {
  la_least : least_unacked_ m' = least_unacked_ m;
  la_size : deque_size m' = deque_size m;
  la_space : forall l, GetPacketNumberSpace m' l = GetPacketNumberSpace m l;
  la_lookup : forall k i', unacked_packets_ m' !! k = Some i' ->
    exists i, unacked_packets_ m !! k = Some i /\ (i' = i \/ in_flight i' = false);
}.

Lemma landed_trans m1 m2 m3 : landed m1 m2 -> landed m2 m3 -> landed m1 m3.
Proof.
  intros [A1 A2 A3 A4] [B1 B2 B3 B4]. split; [congruence|congruence|intros; by rewrite B3|].
  intros k i3 Hk. destruct (B4 k i3 Hk) as (i2 & H2 & [->|]); [by eauto|].
  destruct (A4 k i2 H2) as (i1 & H1 & _). eauto.
Qed.

Lemma remove_landed m pn m' : map_ok m -> in_deque m pn -> RemoveFromInFlight m pn = Ok m' ->
  map_ok m' /\ landed m m' /\
  forall i, unacked_packets_ m' !! Z.to_nat (pn - least_unacked_ m) = Some i -> in_flight i = false.
Proof.
  intros Hm Hd E. destruct (RemoveFromInFlight_spec m pn Hm Hd) as (m1 & i & Ei & E1 & Hm1 & Eu & Er).
  rewrite E in E1. injection E1 as <-. split; [done|]. split.
  - split; try (by rewrite Er).
    + unfold deque_size. by rewrite Eu, length_insert.
    + intros k i' Hk. rewrite Eu in Hk.
      destruct (decide (k = Z.to_nat (pn - least_unacked_ m))) as [->|Hne].
      * exists i. split; [done|]. rewrite list_lookup_insert_eq in Hk by (by eapply lookup_lt_Some). injection Hk as <-. by right.
      * rewrite list_lookup_insert_ne in Hk by done. eauto.
  - intros i'. rewrite Eu, list_lookup_insert_eq by (by eapply lookup_lt_Some). intros [= <-]. done.
Qed.

Lemma in_deque_landed m m' pn : landed m m' -> in_deque m pn -> in_deque m' pn.
Proof. intros [A1 A2 _ _]. unfold in_deque. by rewrite A1, A2. Qed.

Lemma remove_all_spec pns : forall m, map_ok m -> Forall (in_deque m) pns ->
  exists m', remove_all m pns = Ok m' /\ map_ok m' /\ landed m m' /\
    forall k i, unacked_packets_ m' !! k = Some i -> least_unacked_ m + Z.of_nat k ∈ pns -> in_flight i = false.
Proof.
  unfold remove_all. induction pns as [|pn pns IH]; intros m Hm Hd; cbn [rfold].
  - exists m. split; [done|]. split; [done|]. split; [split; [done..|]; eauto|]. by intros k i _ ?%elem_of_nil.
  - apply Forall_cons in Hd as [Hd0 Hd].
    destruct (RemoveFromInFlight_spec m pn Hm Hd0) as (m1 & _ & _ & E1 & _).
    destruct (remove_landed m pn m1 Hm Hd0 E1) as (Hm1 & L1 & Hout). rewrite E1. cbn [rbind].
    destruct (IH m1 Hm1) as (m2 & -> & Hm2 & L2 & Hout2);
      [eapply Forall_impl; [exact Hd|]; intros; by eapply in_deque_landed|].
    exists m2. split; [done|]. split; [done|]. split; [by eapply landed_trans|].
    intros k i Hk [<-|Hin]%elem_of_cons.
    + destruct (la_lookup _ _ L2 k i Hk) as (i1 & Hk1 & [->|]); [|done].
      apply (Hout i1). replace (Z.to_nat _) with k by (unfold in_deque in *; lia). done.
    + apply (Hout2 k i Hk). by rewrite (la_least _ _ L1).
Qed.

Lemma loss_inv_landed m m' g : loss_inv m g -> map_ok m' -> landed m m' -> loss_inv m' g.
Proof.
  intros [H1 H2 H3 H4 H5 H6 H7] Hm' [L1 L2 L3 L4].
  assert (Hfl : forall k i', unacked_packets_ m' !! k = Some i' -> in_flight i' = true -> unacked_packets_ m !! k = Some i').
  { intros k i' Hk Hf. destruct (L4 k i' Hk) as (i & Hi & [->|]); [done|congruence]. }
  split; try done.
  - by rewrite L1, L2.
  - intros Hi k i Hk [Hf Hs]. rewrite L1. apply (H3 Hi k i); [by apply Hfl|]. split; [done|]. by rewrite <- L3.
  - intros k1 k2 i1 i2 Hk E1 E2 F1 F2. apply (H4 k1 k2); auto.
  - apply Forall_lookup. intros k i Hk Hf. rewrite Forall_lookup in H5. by apply (H5 k i); [apply Hfl|].
Qed.

Lemma loss_inv_send m g pkt ty t fl rtt m' : loss_inv m g -> sendable m pkt -> (fl = true -> rtt = true) ->
  0 <= t < 2 ^ 61 -> Forall (fun i => in_flight i = true -> sent_time i <= t) (unacked_packets_ m) ->
  AddSentPacket m pkt ty t fl rtt = Ok m' -> loss_inv m' g.
Proof.
  intros [H1 H2 H3 H4 H5 H6 H7] Hs Hf Ht Hlast E.
  destruct (AddSentPacket_spec m pkt ty t fl rtt H1 Hs Hf) as (m1 & i & E1 & Hm1 & Eu & Et & Ef & _ & _ & El & _ & Ep & Es & _).
  rewrite E in E1. injection E1 as <-.
  set (gap := replicate (Z.to_nat (packet_number pkt - (least_unacked_ m + deque_size m))) never_sent) in *.
  assert (Hsp : forall l, GetPacketNumberSpace m' l = GetPacketNumberSpace m l)
    by (intros; unfold GetPacketNumberSpace; by rewrite Ep, Es).
  assert (Hsz : deque_size m' = deque_size m + Z.of_nat (length gap) + 1)
    by (unfold deque_size; rewrite Eu, !length_app; cbn; lia).
  assert (Hlk : forall k j, unacked_packets_ m' !! k = Some j -> in_flight j = true ->
    unacked_packets_ m !! k = Some j \/ (length (unacked_packets_ m) <= k)%nat /\ (j = i /\ (k = length (unacked_packets_ m ++ gap)))).
  { intros k j Hk Hj. rewrite Eu in Hk. apply lookup_app_Some in Hk as [Hk|[Hlen Hk]].
    - apply lookup_app_Some in Hk as [Hk|[_ Hk]]; [by left|]. unfold gap in Hk. apply lookup_replicate in Hk as [-> _]. done.
    - right. apply list_lookup_singleton_Some in Hk as [Hk <-]. rewrite length_app in *.
      split; [lia|split; [done|lia]]. }
  split; try done.
  - intros Hi. specialize (H2 Hi). lia.
  - intros Hi k j Hk [Hj Hjs]. rewrite Hsp in Hjs. rewrite El.
    destruct (Hlk k j Hk Hj) as [Hk'|[Hle _]]; [by apply (H3 Hi k j)|]. specialize (H2 Hi). unfold deque_size in *. lia.
  - intros k1 k2 i1 i2 Hk E1 E2 F1 F2. destruct (Hlk k1 i1 E1 F1) as [K1|(K1 & -> & K1')];
      destruct (Hlk k2 i2 E2 F2) as [K2|(K2 & -> & K2')].
    + by apply (H4 k1 k2).
    + rewrite Forall_lookup in Hlast. rewrite Et. by apply (Hlast k1 i1).
    + apply lookup_lt_Some in K2. lia.
    + lia.
  - apply Forall_lookup. intros k j Hk Hj. destruct (Hlk k j Hk Hj) as [K|(_ & -> & _)].
    + rewrite Forall_lookup in H5. by apply (H5 k j).
    + by rewrite Et.
Qed.

Lemma loss_inv_obsolete m g m' : loss_inv m g -> RemoveObsoletePackets m = Ok m' -> loss_inv m' g.
Proof.
  intros [H1 H2 H3 H4 H5 H6 H7] E.
  destruct (remove_obsolete_spec _ m H1 eq_refl) as (m1 & k0 & E1 & Hm1 & Er & _ & Hk0 & _).
  unfold RemoveObsoletePackets in E. rewrite E in E1. injection E1 as <-.
  assert (Eu : unacked_packets_ m' = drop k0 (unacked_packets_ m)) by (by rewrite Er).
  assert (El : least_unacked_ m' = least_unacked_ m + Z.of_nat k0) by (by rewrite Er).
  assert (Hsp : forall l, GetPacketNumberSpace m' l = GetPacketNumberSpace m l) by (intros; by rewrite Er).
  split; try done.
  - intros Hi. specialize (H2 Hi). unfold deque_size in *. rewrite Eu, length_drop, El. lia.
  - intros Hi k i Hk [Hf Hs]. rewrite Eu, lookup_drop in Hk. rewrite Hsp in Hs.
    specialize (H3 Hi (k0 + k)%nat i Hk (conj Hf Hs)). lia.
  - intros k1 k2 i1 i2 Hk E1 E2. rewrite Eu, lookup_drop in E1, E2. apply (H4 (k0 + k1)%nat (k0 + k2)%nat); (done || lia).
  - rewrite Eu. by apply Forall_drop.
Qed.

Lemma numbered_sorted l : forall pn, StronglySorted (fun x y => x.1 <= y.1) (numbered pn l).
Proof.
  induction l as [|i l IH]; intros pn; constructor; [apply IH|].
  eapply Forall_impl; [apply numbered_ge|]. cbn. lia.
Qed.

Lemma filter_sorted {A} (R : A -> A -> Prop) (Q : A -> Prop) `{!forall x, Decision (Q x)} l :
  StronglySorted R l -> StronglySorted R (filter Q l).
Proof.
  induction 1 as [|x l Hl IH Hx]; [constructor|].
  destruct (decide (Q x)); [rewrite filter_cons_True by done|by rewrite filter_cons_False].
  constructor; [done|]. apply Forall_forall. intros y (_ & Hy)%list_elem_of_filter.
  rewrite Forall_forall in Hx. by apply Hx.
Qed.

Lemma candidates_lookup m g largest x : x ∈ candidates m g largest <->
  exists k : nat, x.1 = least_unacked_ m + Z.of_nat k /\ unacked_packets_ m !! k = Some x.2 /\
    x.1 <= largest /\ relevant m g x.2.
Proof.
  unfold candidates. rewrite list_elem_of_filter, elem_of_numbered. unfold eligible. naive_solver.
Qed.

(** After a detection and the removal of what it declared lost, nothing in
    flight is below the new [least_in_flight_]. *)
Lemma loss_inv_detected m g time max_rtt largest m' : loss_inv m g -> in_deque m largest ->
  remove_all m (map lost_packet_number (map as_lost (filter (is_lost g time max_rtt largest) (candidates m g largest)))) = Ok m' ->
  loss_inv m' (reference_state g time max_rtt largest (candidates m g largest)).
Proof.
  intros Hg [Hd1 Hd2] E. pose proof (map_ok_small m (li_map m g Hg)) as (M1 & M2 & M3).
  rewrite map_map in E. set (lost := filter (is_lost g time max_rtt largest) (candidates m g largest)) in *.
  assert (Hdq : Forall (in_deque m) (map (fun x => lost_packet_number (as_lost x)) lost)).
  { apply Forall_forall. intros q (x & -> & Hx)%list_elem_of_fmap.
    apply list_elem_of_filter in Hx as (_ & (k & Ek & Hk & _)%candidates_lookup). cbn. apply lookup_lt_Some in Hk.
    unfold in_deque, deque_size. lia. }
  destruct (remove_all_spec _ m (li_map m g Hg) Hdq) as (m1 & E1 & Hm1 & L & Hout). rewrite E in E1. injection E1 as <-.
  assert (Hleft : forall k i, unacked_packets_ m' !! k = Some i -> relevant m' g i ->
    least_unacked_ m + Z.of_nat k <= largest ->
    (least_unacked_ m + Z.of_nat k, i) ∈ filter (fun x => ~ is_lost g time max_rtt largest x) (candidates m g largest)).
  { intros k i Hk [Hf Hs] Hle. destruct (la_lookup _ _ L k i Hk) as (i0 & Hi0 & [->|]); [|congruence].
    assert (Hc : (least_unacked_ m + Z.of_nat k, i0) ∈ candidates m g largest).
    { apply candidates_lookup. exists k. cbn. split; [done|]. split; [done|]. split; [done|].
      split; [done|]. by rewrite <- (la_space _ _ L). }
    apply list_elem_of_filter. split; [|done]. intros Hlost.
    rewrite (Hout k i0 Hk) in Hf; [done|]. apply list_elem_of_fmap. eexists (_, i0). split; [done|].
    by apply list_elem_of_filter. }
  pose proof (loss_inv_landed m m' g Hg Hm1 L) as [G1 _ _ G4 G5 G6 G7].
  pose proof (la_least _ _ L) as EL. pose proof (la_size _ _ L) as ES.
  unfold reference_state.
  destruct (filter (fun x => ~ is_lost g time max_rtt largest x) (candidates m g largest)) as [|x xs] eqn:Ex.
  - split; try done.
    + intros _. cbn. lia.
    + intros _ k i Hk Hr. cbn. destruct (Z.le_gt_cases (least_unacked_ m + Z.of_nat k) largest) as [Hle|]; [|lia].
      specialize (Hleft k i Hk Hr Hle). by apply elem_of_nil in Hleft.
  - assert (Hx : x ∈ candidates m g largest).
    { apply (list_elem_of_filter (fun x => ~ is_lost g time max_rtt largest x)). rewrite Ex. apply list_elem_of_here. }
    apply candidates_lookup in Hx as (kx & Exk & Hkx & Hxl & _). apply lookup_lt_Some in Hkx.
    split; try done.
    + intros _. cbn. unfold deque_size in *. lia.
    + intros _ k i Hk Hr. cbn. destruct (Z.le_gt_cases (least_unacked_ m + Z.of_nat k) largest) as [Hle|]; [|lia].
      specialize (Hleft k i Hk Hr Hle).
      assert (Hso : StronglySorted (fun x y => x.1 <= y.1) (x :: xs)).
      { rewrite <- Ex. apply filter_sorted, filter_sorted, numbered_sorted. }
      apply StronglySorted_inv in Hso as [_ Hso]. rewrite Forall_forall in Hso.
      apply elem_of_cons in Hleft as [<-|Hin]; [cbn; lia|]. specialize (Hso _ Hin). cbn in Hso. lia.
Qed.

Lemma adapt_shift_spec fuel : forall max_rtt need shift, 0 <= shift < Z.of_nat fuel ->
  exists shift', adapt_shift fuel max_rtt need shift = Ok shift' /\ 0 <= shift' <= shift /\
    (shift' = 0 \/ need <= Delta_add max_rtt (Delta_shr max_rtt shift')).
Proof.
  induction fuel as [|fuel IH]; intros max_rtt need shift Hs; [lia|]. cbn [adapt_shift].
  destruct (Z.ltb_spec (Delta_add max_rtt (Delta_shr max_rtt shift)) need) as [Hlt|Hge]; cbn [andb].
  - destruct (Z.ltb_spec 0 shift).
    + destruct (IH max_rtt need (shift - 1) ltac:(lia)) as (s' & -> & Hr & Ho). exists s'. split; [done|].
      split; [lia|done].
    + exists shift. split; [done|]. split; [lia|]. left. lia.
  - exists shift. split; [done|]. split; [lia|]. by right.
Qed.

(** The outcome of a spurious loss: only the thresholds move, and the shift stays non-negative. *)
Lemma SpuriousLoss_frame m g r t pn prev g' : SpuriousLossDetected m g r t pn prev = Ok g' -> 0 <= reordering_shift_ g ->
  exists shift thr, g' = g <| reordering_shift_ := shift |> <| reordering_threshold_ := thr |> /\ 0 <= shift.
Proof.
  unfold SpuriousLossDetected. intros (g1 & E1 & E2)%rbind_Ok Hs.
  assert (Hg1 : exists shift, g1 = g <| reordering_shift_ := shift |> /\ 0 <= shift).
  { destruct (_ && _) in E1; [|exists (reordering_shift_ g); split; [|done]; injection E1 as <-; by destruct g].
    apply rbind_Ok in E1 as (info & _ & E1). apply rbind_Ok in E1 as (s' & Es & E1). injection E1 as <-.
    edestruct adapt_shift_spec as (s2 & Es2 & Hr & _); [|rewrite Es in Es2; injection Es2 as <-; exists s'; split; [done|lia]].
    lia. }
  destruct Hg1 as (shift & -> & Hsh). destruct (use_adaptive_reordering_threshold_ _).
  - apply rbind_Ok in E2 as (lt & _ & E2). apply rbind_Ok in E2 as (u & _ & E2). apply rbind_Ok in E2 as (gap & _ & E2).
    injection E2 as <-. eexists shift, _. split; [done|done].
  - injection E2 as <-. exists shift, (reordering_threshold_ g). split; [by destruct g|done].
Qed.

Inductive loss_step : QuicUnackedPacketMap N * GeneralLossAlgorithm -> QuicUnackedPacketMap N * GeneralLossAlgorithm -> Prop :=
  | ls_send m g pkt ty t fl rtt m' : sendable m pkt -> (fl = true -> rtt = true) -> 0 <= t < 2 ^ 61 ->
      Forall (fun i => in_flight i = true -> sent_time i <= t) (unacked_packets_ m) ->
      AddSentPacket m pkt ty t fl rtt = Ok m' -> loss_step (m, g) (m', g)
  | ls_acked m g pn m' : in_deque m pn -> RemoveFromInFlight m pn = Ok m' -> loss_step (m, g) (m', g)
  | ls_largest m g pn m' : IncreaseLargestAcked m pn = Ok m' -> loss_step (m, g) (m', g)
  | ls_obsolete m g m' : RemoveObsoletePackets m = Ok m' -> loss_step (m, g) (m', g)
  | ls_detect m g p time r largest acked d m' : calm p -> acks_ok m g largest acked -> GetMaxRtt r < 2 ^ 61 ->
      DetectLosses m p g time r largest acked [] = Ok d ->
      remove_all m (map lost_packet_number (packets_lost d)) = Ok m' -> loss_step (m, g) (m', det_self d)
  | ls_spurious m g r t pn prev g' : SpuriousLossDetected m g r t pn prev = Ok g' -> loss_step (m, g) (m, g')
  | ls_reset m g : loss_step (m, g) (m, Reset g).

Lemma loss_step_inv s s' : quiet -> loss_inv s.1 s.2 -> loss_step s s' -> loss_inv s'.1 s'.2.
Proof.
  intros Hq Hg Hs. destruct Hs; cbn in *.
  - by eapply loss_inv_send.
  - destruct (remove_landed m pn m' (li_map m g Hg)) as (Hm' & L & _); [done|done|]. by eapply loss_inv_landed.
  - unfold IncreaseLargestAcked in *. apply rbind_Ok in H0 as (ok & _ & E). apply rbind_Ok in E as (u & _ & E).
    injection E as <-. destruct Hg as [H1 H2 H3 H4 H5 H6 H7]. split; try done. by apply (same_counters_ok m).
  - by eapply loss_inv_obsolete.
  - destruct (DetectLosses_reference m p g time r largest acked [] Hq) as (d' & E & _ & El & Es); [done..|].
    assert (d' = d) as -> by congruence. rewrite Es. rewrite El in *. cbn [app] in *.
    eapply loss_inv_detected; [done|by eapply ao_largest|done].
  - destruct (SpuriousLoss_frame m g r t pn prev g') as (sh & thr & -> & Hsh); [done|by apply (li_shift m g)|].
    by destruct Hg.
  - destruct Hg. split; done.
Qed.

Lemma loss_run_inv s s' : quiet -> rtc loss_step s s' -> loss_inv s.1 s.2 -> loss_inv s'.1 s'.2.
Proof. intros Hq. induction 1 as [|s1 s2 s3 Hs _ IH]; [done|]. intros H0. by eapply IH, loss_step_inv. Qed.

Lemma loss_run_pair m g m' g' : quiet -> rtc loss_step (m, g) (m', g') -> loss_inv m g -> loss_inv m' g'.
Proof. intros Hq Hr. exact (loss_run_inv _ _ Hq Hr). Qed.

Lemma loss_inv_init persp space :
  loss_inv (QuicUnackedPacketMap_init persp) (GeneralLossAlgorithm_init <| packet_number_space_ := space |>).
Proof. split; try done. apply init_ok. Qed.

(** C13. The shortcut of loss detection is invisible.  Whatever packets were sent,
    acknowledged and forgotten, and however earlier detections moved
    [least_in_flight_], a detection gives exactly what a scan of all unacked
    packets gives: lost are the packets in flight, in this packet number space and
    not above the largest acknowledged one, that are at least the reordering
    threshold below it or were sent a loss delay ago; the timeout is armed for
    the first of them that is not lost, and off if there is none.  The
    detection always returns.  (The parent is one whose callback leaves the
    thresholds alone; see the multi-space algorithm for when that is so.) *)
Theorem loss_detection_reference persp space m g p time r largest acked :
  quiet -> calm p ->
  rtc loss_step (QuicUnackedPacketMap_init persp, GeneralLossAlgorithm_init <| packet_number_space_ := space |>) (m, g) ->
  acks_ok m g largest acked -> GetMaxRtt r < 2 ^ 61 ->
  exists d, DetectLosses m p g time r largest acked [] = Ok d /\
    packets_lost d = map as_lost (filter (is_lost g time (GetMaxRtt r) largest) (candidates m g largest)) /\
    GetLossTimeout (det_self d) =
      match filter (fun x => ~ is_lost g time (GetMaxRtt r) largest x) (candidates m g largest) with
      | [] => QuicTime_Zero
      | x :: _ => sent_time x.2 + (GetMaxRtt r + Z.shiftr (GetMaxRtt r) (reordering_shift_ g))
      end.
Proof.
  intros Hq Hc Hr Ha Hrtt.
  pose proof (loss_run_pair _ _ _ _ Hq Hr (loss_inv_init persp space)) as Hg.
  destruct (DetectLosses_reference m p g time r largest acked [] Hq Hc Hg Ha Hrtt) as (d & E & _ & El & Es).
  exists d. split; [done|]. split; [done|]. rewrite Es. unfold reference_state, GetLossTimeout.
  by destruct (filter (fun x => ~ is_lost g time (GetMaxRtt r) largest x) (candidates m g largest)).
Qed.

(** After a spurious loss the thresholds have moved far enough: with both
    adaptations on, the packet would not be declared lost again under the same
    acknowledgments at any time before its own arrived, provided twice the
    RTT is as long as it took (the loop that shrinks the shift stops at zero). *)
Theorem spurious_loss_adapts m g r t pn prev info :
  map_ok m -> in_deque m pn -> GetTransmissionInfo m pn = Ok info ->
  use_adaptive_time_threshold_ g = true -> use_adaptive_reordering_threshold_ g = true ->
  0 < reordering_shift_ g -> pn < prev < 2 ^ 48 ->
  0 <= sent_time info < 2 ^ 61 -> 0 <= t < 2 ^ 61 -> GetMaxRtt r < 2 ^ 61 ->
  kAlarmGranularity <= Z.max (previous_srtt_ r) (latest_rtt_ r) ->
  t - sent_time info <= 2 * GetMaxRtt r ->
  exists g', SpuriousLossDetected m g r t pn prev = Ok g' /\
    reordering_threshold_ g <= reordering_threshold_ g' /\ reordering_shift_ g' <= reordering_shift_ g /\
    forall now, now < t -> ~ is_lost g' now (GetMaxRtt r) prev (pn, info).
Proof.
  intros Hm Hd Hi Hta Hra Hsh Hpn Hst Ht Hmr Hgr H2.
  pose proof (map_ok_small m Hm) as (M1 & M2 & M3). destruct Hd as [Hd1 Hd2].
  assert (Emax : GetMaxRtt r = Z.max (previous_srtt_ r) (latest_rtt_ r)) by (unfold GetMaxRtt; lia).
  unfold SpuriousLossDetected. rewrite Hta, (proj2 (Z.ltb_lt _ _)) by done. cbn [andb]. rewrite Hi. cbn [rbind].
  rewrite <- Emax. unfold QuicTime_diff. rewrite i64_small by lia.
  destruct (adapt_shift_spec (S (Z.to_nat (reordering_shift_ g))) (GetMaxRtt r) (t - sent_time info) (reordering_shift_ g)
    ltac:(lia)) as (s' & -> & Hr & Ho). cbn [rbind].
  change (use_adaptive_reordering_threshold_ (g <| reordering_shift_ := s' |>)) with (use_adaptive_reordering_threshold_ g).
  rewrite Hra. rewrite PN_lt_init by (apply PN_init_small; lia). cbn [rbind]. rewrite (proj2 (Z.ltb_lt _ _)) by lia. cbn [CHECK rbind].
  rewrite PN_diff_small by lia. cbn [rbind]. rewrite u64_small by lia.
  eexists. split; [done|]. cbn. split; [lia|]. split; [lia|]. intros now Hnow [Hl|Hl]; cbn in Hl; [lia|].
  change kAlarmGranularity with 1000 in *.
  destruct Ho as [->|Ho].
  - rewrite Z.shiftr_0_r in Hl. lia.
  - unfold Delta_add, Delta_shr in Ho.
    assert (0 <= Z.shiftr (GetMaxRtt r) s' <= GetMaxRtt r).
    { rewrite Z.shiftr_div_pow2 by lia. split; [apply Z.div_pos; lia|]. apply Z.div_le_upper_bound; nia. }
    rewrite i64_small in Ho by lia. lia.
Qed.

End Loss.

(** * Witnesses *)

Definition silent (p : unit) (g : GeneralLossAlgorithm) : result (unit * GeneralLossAlgorithm) := Ok (p, g).
Definition always (_ : unit) : Prop := True.
Lemma silent_quiet : quiet silent always.
Proof. intros p g _. by exists p. Qed.

Definition two_packets : list map_op :=
  [OpSend (mkPacket 1 1200 false ENCRYPTION_FORWARD_SECURE false QuicPacketNumber_default []) NOT_RETRANSMISSION 1000 true true;
   OpSend (mkPacket 4 700 false ENCRYPTION_FORWARD_SECURE false QuicPacketNumber_default []) NOT_RETRANSMISSION 2000 true true;
   OpRemoveFromInFlight 4].
Definition two_packets_after (n : nat) : QuicUnackedPacketMap (list QuicFrame) :=
  match rfold apply_op (take n two_packets) (QuicUnackedPacketMap_init IS_CLIENT) with
  | Ok m => m | Fault _ => QuicUnackedPacketMap_init IS_CLIENT end.
Definition app_data_loss : GeneralLossAlgorithm := GeneralLossAlgorithm_init <| packet_number_space_ := APPLICATION_DATA |>.

Lemma two_packets_run space (g := GeneralLossAlgorithm_init <| packet_number_space_ := space |>) :
  rtc (loss_step silent always) (QuicUnackedPacketMap_init IS_CLIENT, g) (two_packets_after 3, g).
Proof.
  eapply (rtc_l _ _ (two_packets_after 1, g)).
  { eapply (ls_send silent always _ _ (mkPacket 1 1200 false ENCRYPTION_FORWARD_SECURE false QuicPacketNumber_default [])
      NOT_RETRANSMISSION 1000 true true); [|done|lia|by constructor|by vm_compute].
    split; [by vm_compute|split; [by vm_compute|by eexists]]. }
  eapply (rtc_l _ _ (two_packets_after 2, g)).
  { eapply (ls_send silent always _ _ (mkPacket 4 700 false ENCRYPTION_FORWARD_SECURE false QuicPacketNumber_default [])
      NOT_RETRANSMISSION 2000 true true); [|done|lia| |by vm_compute].
    - split; [by vm_compute|split; [by vm_compute|by eexists]].
    - vm_compute. constructor; [done|constructor]. }
  eapply (rtc_l _ _ (two_packets_after 3, g)); [|done].
  apply (ls_acked silent always _ _ 4); by vm_compute.
Qed.

Lemma two_packets_acks : acks_ok (two_packets_after 3) app_data_loss 4 [mkAcked 4 700 3000].
Proof.
  split; [by vm_compute|by vm_compute|by repeat constructor| |].
  - constructor; [by vm_compute|constructor].
  - intros [|[|[|[|k]]]] i Hk Hin; vm_compute in Hk; simplify_eq; try done; exfalso; revert Hin; cbn;
      rewrite list_elem_of_singleton; vm_compute; done.
Qed.

Lemma loss_detection_reference_witness :
  exists d, DetectLosses silent (two_packets_after 3) tt app_data_loss 3000 (RttStats_init <| latest_rtt_ := 100000 |>) 4
      [mkAcked 4 700 3000] [] = Ok d /\ packets_lost d = [mkLost 1 1200] /\ GetLossTimeout (det_self d) = 0.
Proof.
  destruct (loss_detection_reference silent always IS_CLIENT APPLICATION_DATA (two_packets_after 3) app_data_loss tt 3000
    (RttStats_init <| latest_rtt_ := 100000 |>) 4 [mkAcked 4 700 3000] silent_quiet I (two_packets_run _) two_packets_acks)
    as (d & E & El & Et); [by vm_compute|].
  exists d. split; [exact E|]. rewrite El, Et. split; vm_compute; reflexivity.
Defined.

Lemma two_packets_map : map_ok (two_packets_after 3).
Proof.
  exact (li_map _ _ (loss_run_pair silent always _ _ _ _ silent_quiet (two_packets_run APPLICATION_DATA) (loss_inv_init IS_CLIENT APPLICATION_DATA))).
Qed.

Definition first_packet : QuicTransmissionInfo :=
  (QuicTransmissionInfo_mk ENCRYPTION_FORWARD_SECURE NOT_RETRANSMISSION 1000 1200 false false) <| in_flight := true |>.
Definition tuned_loss : GeneralLossAlgorithm := app_data_loss <| use_adaptive_time_threshold_ := true |>.

Lemma first_packet_sent : GetTransmissionInfo (two_packets_after 3) 1 = Ok first_packet.
Proof. vm_compute. reflexivity. Qed.

