(* ===== verification/UberLoss.v ===== *)
(** [UberLossAlgorithm] (uber_loss_algorithm.h, uber_loss_algorithm.cc): one
    loss algorithm per packet number space, and the tuner that may set their
    thresholds once reordering has been seen.

    A general algorithm calls back into this object while it is running, so the
    callback writes the running algorithm's state into its slot, runs
    [OnReorderingDetected], and reads the slot back: that is how a tuner changes
    the thresholds of a detection in progress.  The tuner is an interface. *)

From Stdlib Require Import SpecFloat.
From S2P Require Import Prelude Float QuicTime PacketNumber RttStats SendAlgorithm UnackedMap GeneralLoss.

(** src/quiche/gquiche/quic/core/congestion_control/uber_loss_algorithm.h:21-25 [LossDetectionParameters] *)
Record LossDetectionParameters := mkParams {
  reordering_shift : option Z;
  reordering_threshold : option Z;
}.

(** src/quiche/gquiche/quic/core/congestion_control/uber_loss_algorithm.h:27-41 [LossDetectionTunerInterface] *)
Class LossDetectionTuner (T : Type) := {
  tuner_Start : T -> LossDetectionParameters -> T * LossDetectionParameters * bool;
  tuner_Finish : T -> LossDetectionParameters -> T;
}.

(** src/quiche/gquiche/quic/core/congestion_control/uber_loss_algorithm.h:123-135 [UberLossAlgorithm] *)
Record UberLossAlgorithm (T : Type) := mkUber {
  general_loss_algorithms_ : PerSpace GeneralLossAlgorithm;
  tuner_ : option T;
  tuned_parameters_ : LossDetectionParameters;
  tuner_started_ : bool;
  min_rtt_available_ : bool;
  user_agent_known_ : bool;
  tuning_configured_ : bool;
  reorder_happened_ : bool;
}.
Arguments mkUber {T}.
Arguments general_loss_algorithms_ {T}.
Arguments tuner_ {T}.
Arguments tuned_parameters_ {T}.
Arguments tuner_started_ {T}.
Arguments min_rtt_available_ {T}.
Arguments user_agent_known_ {T}.
Arguments tuning_configured_ {T}.
Arguments reorder_happened_ {T}.
#[export] Instance eta_Uber T : Eta (UberLossAlgorithm T) := MkEta _ (fun u =>
  mkUber (general_loss_algorithms_ u) (tuner_ u) (tuned_parameters_ u) (tuner_started_ u)
    (min_rtt_available_ u) (user_agent_known_ u) (tuning_configured_ u) (reorder_happened_ u)).

(** The values of the loops over packet number spaces, [INITIAL_DATA] to [APPLICATION_DATA]. *)
Definition spaces : list PacketNumberSpace := [INITIAL_DATA; HANDSHAKE_DATA; APPLICATION_DATA].

Definition per_map {A B} (f : A -> B) (p : PerSpace A) : PerSpace B :=
  mkPer (f (at_initial p)) (f (at_handshake p)) (f (at_application p)).

Section Uber.
Context {N : Type} `{SessionNotifier N} {T : Type} `{LossDetectionTuner T}.
Implicit Types (u : UberLossAlgorithm T) (m : QuicUnackedPacketMap N).

(** src/quiche/gquiche/quic/core/congestion_control/uber_loss_algorithm.cc:14-19 [UberLossAlgorithm::UberLossAlgorithm] *)
Definition UberLossAlgorithm_init : result (UberLossAlgorithm T) :=
  let* algorithms :=
    rfold (fun p i =>
        let* g := per_get p i in
        let* g := Initialize g i true in
        per_set p i g) spaces (per_all GeneralLossAlgorithm_init) in
  Ok (mkUber algorithms None (mkParams None None) false false false false false).

(** src/quiche/gquiche/quic/core/congestion_control/uber_loss_algorithm.cc:162-166 [UberLossAlgorithm::SetReorderingShift] *)
Definition SetReorderingShift u (shift : Z) : UberLossAlgorithm T :=
  u <| general_loss_algorithms_ := per_map (fun g => g <| reordering_shift_ := shift |>) (general_loss_algorithms_ u) |>.
(** src/quiche/gquiche/quic/core/congestion_control/uber_loss_algorithm.cc:168-173 [UberLossAlgorithm::SetReorderingThreshold] *)
Definition SetReorderingThreshold u (threshold : Z) : UberLossAlgorithm T :=
  u <| general_loss_algorithms_ := per_map (fun g => g <| reordering_threshold_ := threshold |>) (general_loss_algorithms_ u) |>.
(** src/quiche/gquiche/quic/core/congestion_control/uber_loss_algorithm.cc:175-179 [UberLossAlgorithm::EnableAdaptiveReorderingThreshold] *)
Definition EnableAdaptiveReorderingThreshold u : UberLossAlgorithm T :=
  u <| general_loss_algorithms_ := per_map (fun g => g <| use_adaptive_reordering_threshold_ := true |>) (general_loss_algorithms_ u) |>.
(** src/quiche/gquiche/quic/core/congestion_control/uber_loss_algorithm.cc:181-185 [UberLossAlgorithm::DisableAdaptiveReorderingThreshold] *)
Definition DisableAdaptiveReorderingThreshold u : UberLossAlgorithm T :=
  u <| general_loss_algorithms_ := per_map (fun g => g <| use_adaptive_reordering_threshold_ := false |>) (general_loss_algorithms_ u) |>.
(** src/quiche/gquiche/quic/core/congestion_control/uber_loss_algorithm.cc:187-191 [UberLossAlgorithm::EnableAdaptiveTimeThreshold] *)
Definition EnableAdaptiveTimeThreshold u : UberLossAlgorithm T :=
  u <| general_loss_algorithms_ := per_map (fun g => g <| use_adaptive_time_threshold_ := true |>) (general_loss_algorithms_ u) |>.
(** src/quiche/gquiche/quic/core/congestion_control/uber_loss_algorithm.cc:201-205 [UberLossAlgorithm::DisablePacketThresholdForRuntPackets] *)
Definition DisablePacketThresholdForRuntPackets u : UberLossAlgorithm T :=
  u <| general_loss_algorithms_ := per_map (fun g => g <| use_packet_threshold_for_runt_packets_ := false |>) (general_loss_algorithms_ u) |>.
(** src/quiche/gquiche/quic/core/congestion_control/uber_loss_algorithm.cc:193-195 [UberLossAlgorithm::GetPacketReorderingThreshold] *)
Definition GetPacketReorderingThreshold u : Z := reordering_threshold_ (at_application (general_loss_algorithms_ u)).
(** src/quiche/gquiche/quic/core/congestion_control/uber_loss_algorithm.cc:197-199 [UberLossAlgorithm::GetPacketReorderingShift] *)
Definition GetPacketReorderingShift u : Z := reordering_shift_ (at_application (general_loss_algorithms_ u)).
(** src/quiche/gquiche/quic/core/congestion_control/uber_loss_algorithm.cc:207-213 [UberLossAlgorithm::ResetLossDetection] *)
Definition ResetLossDetection u (space : PacketNumberSpace) : result (UberLossAlgorithm T) :=
  let* _ := CHECK (bool_decide (space <> NUM_PACKET_NUMBER_SPACES)) in
  let* g := per_get (general_loss_algorithms_ u) space in
  let* ps := per_set (general_loss_algorithms_ u) space (Reset g) in
  Ok (u <| general_loss_algorithms_ := ps |>).

(** src/quiche/gquiche/quic/core/congestion_control/uber_loss_algorithm.cc:93-101 [UberLossAlgorithm::SetLossDetectionTuner] *)
Definition SetLossDetectionTuner u (tuner : option T) : result (UberLossAlgorithm T) :=
  match tuner_ u with
  | Some _ => Fault CheckFailed
  | None => Ok (u <| tuner_ := tuner |>)
  end.
(** src/quiche/gquiche/quic/core/congestion_control/uber_loss_algorithm.cc:103-126 [UberLossAlgorithm::MaybeStartTuning] *)
Definition MaybeStartTuning u : result (UberLossAlgorithm T) :=
  if tuner_started_ u || negb (tuning_configured_ u) || negb (min_rtt_available_ u)
     || negb (user_agent_known_ u) || negb (reorder_happened_ u) then Ok u
  else
    let* t := match tuner_ u with Some t => Ok t | None => Fault NullPointer end in
    let '(t, params, started) := tuner_Start t (tuned_parameters_ u) in
    let u := u <| tuner_ := Some t |> <| tuned_parameters_ := params |> <| tuner_started_ := started |> in
    if negb (tuner_started_ u) then Ok u
    else match reordering_shift (tuned_parameters_ u), reordering_threshold (tuned_parameters_ u) with
         | Some shift, Some threshold => Ok (SetReorderingThreshold (SetReorderingShift u shift) threshold)
         | _, _ => Fault CheckFailed
         end.
(** src/quiche/gquiche/quic/core/congestion_control/uber_loss_algorithm.cc:21-28 [UberLossAlgorithm::SetFromConfig].  [eldt]: the client requested the option kELDT. *)
Definition SetFromConfig u (eldt : bool) : result (UberLossAlgorithm T) :=
  if eldt && bool_decide (is_Some (tuner_ u)) then MaybeStartTuning (u <| tuning_configured_ := true |>) else Ok u.
(** src/quiche/gquiche/quic/core/congestion_control/uber_loss_algorithm.cc:128-128 [UberLossAlgorithm::OnConfigNegotiated] *)
Definition OnConfigNegotiated u : UberLossAlgorithm T := u.
(** src/quiche/gquiche/quic/core/congestion_control/uber_loss_algorithm.cc:130-133 [UberLossAlgorithm::OnMinRttAvailable] *)
Definition OnMinRttAvailable u : result (UberLossAlgorithm T) := MaybeStartTuning (u <| min_rtt_available_ := true |>).
(** src/quiche/gquiche/quic/core/congestion_control/uber_loss_algorithm.cc:135-138 [UberLossAlgorithm::OnUserAgentIdKnown] *)
Definition OnUserAgentIdKnown u : result (UberLossAlgorithm T) := MaybeStartTuning (u <| user_agent_known_ := true |>).
(** src/quiche/gquiche/quic/core/congestion_control/uber_loss_algorithm.cc:140-144 [UberLossAlgorithm::OnConnectionClosed] *)
Definition OnConnectionClosed u : UberLossAlgorithm T :=
  match tuner_ u with
  | Some t => if tuner_started_ u then u <| tuner_ := Some (tuner_Finish t (tuned_parameters_ u)) |> else u
  | None => u
  end.
(** src/quiche/gquiche/quic/core/congestion_control/uber_loss_algorithm.cc:146-160 [UberLossAlgorithm::OnReorderingDetected].  The code counters are left out. *)
Definition OnReorderingDetected u : result (UberLossAlgorithm T) := MaybeStartTuning (u <| reorder_happened_ := true |>).

(** The callback of the algorithm of space [i], whose running state is [g]. *)
Definition reordering_callback (i : PacketNumberSpace) u (g : GeneralLossAlgorithm)
    : result (UberLossAlgorithm T * GeneralLossAlgorithm) :=
  let* ps := per_set (general_loss_algorithms_ u) i g in
  let* u := OnReorderingDetected (u <| general_loss_algorithms_ := ps |>) in
  let* g := per_get (general_loss_algorithms_ u) i in
  Ok (u, g).

(** The variables of the loop of [DetectLosses]. *)
Record uber_detection := mkUberDet {
  ud_self : UberLossAlgorithm T;
  overall_stats : DetectionStats;
  ud_lost : list LostPacket;
}.

(** src/quiche/gquiche/quic/core/congestion_control/uber_loss_algorithm.cc:39-61 [UberLossAlgorithm::DetectLosses, loop body] *)
Definition detect_in_space m (time : QuicTime) (rtt_stats : RttStats) (packets_acked : list AckedPacket)
    (d : uber_detection) (i : PacketNumberSpace) : result uber_detection :=
  let* largest_acked := GetLargestAckedOfPacketNumberSpace m i in
  let* skip := if PN_IsInitialized largest_acked then PN_gt (GetLeastUnacked m) largest_acked else Ok true in
  if skip then Ok d
  else
    let* g := per_get (general_loss_algorithms_ (ud_self d)) i in
    let* r := DetectLosses (reordering_callback i) m (ud_self d) g time rtt_stats largest_acked packets_acked (ud_lost d) in
    let* ps := per_set (general_loss_algorithms_ (det_parent r)) i (det_self r) in
    let stats := det_stats r in
    let overall := overall_stats d in
    Ok (mkUberDet (det_parent r <| general_loss_algorithms_ := ps |>)
          (mkDetection
             (Z.max (sent_packets_max_sequence_reordering overall) (sent_packets_max_sequence_reordering stats))
             (sent_packets_num_borderline_time_reorderings overall ⊕ sent_packets_num_borderline_time_reorderings stats)
             (f32_add (total_loss_detection_response_time overall) (total_loss_detection_response_time stats)))
          (packets_lost r)).

(** src/quiche/gquiche/quic/core/congestion_control/uber_loss_algorithm.cc:30-64 [UberLossAlgorithm::DetectLosses] *)
Definition Uber_DetectLosses m u (time : QuicTime) (rtt_stats : RttStats) (packets_acked : list AckedPacket)
    (lost : list LostPacket) : result uber_detection :=
  rfold (detect_in_space m time rtt_stats packets_acked) spaces (mkUberDet u DetectionStats_init lost).

(** src/quiche/gquiche/quic/core/congestion_control/uber_loss_algorithm.cc:66-80 [UberLossAlgorithm::GetLossTimeout] *)
Definition Uber_GetLossTimeout u : result QuicTime :=
  rfold (fun loss_timeout i =>
      let* g := per_get (general_loss_algorithms_ u) i in
      let timeout := GetLossTimeout g in
      if negb (QuicTime_IsInitialized loss_timeout) then Ok timeout
      else if QuicTime_IsInitialized timeout then Ok (Z.min loss_timeout timeout)
      else Ok loss_timeout) spaces QuicTime_Zero.

(** src/quiche/gquiche/quic/core/congestion_control/uber_loss_algorithm.cc:82-91 [UberLossAlgorithm::SpuriousLossDetected] *)
Definition Uber_SpuriousLossDetected m u (rtt_stats : RttStats) (ack_receive_time : QuicTime)
    (pn previous_largest_acked : QuicPacketNumber) : result (UberLossAlgorithm T) :=
  let* i := GetPacketNumberSpaceOf m pn in
  let* g := per_get (general_loss_algorithms_ u) i in
  let* g := SpuriousLossDetected m g rtt_stats ack_receive_time pn previous_largest_acked in
  let* ps := per_set (general_loss_algorithms_ u) i g in
  Ok (u <| general_loss_algorithms_ := ps |>).

(** * The spaces do not interfere *)

Definition algorithm u (i : PacketNumberSpace) : GeneralLossAlgorithm :=
  match per_get (general_loss_algorithms_ u) i with Ok g => g | Fault _ => GeneralLossAlgorithm_init end.
Definition largest_of m (i : PacketNumberSpace) : QuicPacketNumber :=
  match per_get (largest_acked_packets_ m) i with Ok q => q | Fault _ => PN_Clear end.
(** The spaces a detection looks at. *)
Definition examined m (i : PacketNumberSpace) : Prop :=
  PN_IsInitialized (largest_of m i) = true /\ least_unacked_ m <= largest_of m i.
#[local] Instance examined_dec m i : Decision (examined m i).
Proof. unfold examined. apply _. Defined.

(** The reference outcome for one space. *)
Definition lost_in m u (time : QuicTime) (max_rtt : Delta) (i : PacketNumberSpace) : list LostPacket :=
  if decide (examined m i)
  then map as_lost (filter (is_lost (algorithm u i) time max_rtt (largest_of m i)) (candidates m (algorithm u i) (largest_of m i)))
  else [].
Definition state_in m u (time : QuicTime) (max_rtt : Delta) (i : PacketNumberSpace) : GeneralLossAlgorithm :=
  if decide (examined m i)
  then reference_state (algorithm u i) time max_rtt (largest_of m i) (candidates m (algorithm u i) (largest_of m i))
  else algorithm u i.

Definition valid_space (i : PacketNumberSpace) : Prop := i <> NUM_PACKET_NUMBER_SPACES.

Lemma algorithm_get u i : valid_space i -> per_get (general_loss_algorithms_ u) i = Ok (algorithm u i).
Proof. intros Hi. unfold algorithm. by destruct (per_get_valid (general_loss_algorithms_ u) i Hi) as (g & ->). Qed.
Lemma largest_get m i : valid_space i -> GetLargestAckedOfPacketNumberSpace m i = Ok (largest_of m i).
Proof.
  intros Hi. unfold GetLargestAckedOfPacketNumberSpace, largest_of. rewrite bool_decide_false by done.
  by destruct (per_get_valid (largest_acked_packets_ m) i Hi) as (q & ->).
Qed.

(** Nothing to tune, and only slot [i] may differ from [u0]'s. *)
Definition calm_in u0 (i : PacketNumberSpace) u : Prop :=
  tuning_configured_ u = false /\ forall j, valid_space j -> j <> i -> algorithm u j = algorithm u0 j.

Lemma algorithm_set u i g ps : valid_space i -> per_set (general_loss_algorithms_ u) i g = Ok ps -> forall j, valid_space j ->
  algorithm (u <| general_loss_algorithms_ := ps |>) j = if bool_decide (j = i) then g else algorithm u j.
Proof.
  intros Hi E j Hj. destruct (per_set_valid (general_loss_algorithms_ u) i g Hi) as (ps' & E' & G).
  assert (ps' = ps) as -> by congruence. unfold algorithm. cbn. rewrite G. by case_bool_decide.
Qed.

Lemma callback_quiet u0 i : valid_space i -> quiet (reordering_callback i) (calm_in u0 i).
Proof.
  intros Hi u g [Hc Hu]. unfold reordering_callback.
  destruct (per_set_valid (general_loss_algorithms_ u) i g Hi) as (ps & E & G). rewrite E. cbn [rbind].
  unfold OnReorderingDetected, MaybeStartTuning. cbn. rewrite Hc. cbn. rewrite orb_true_r. cbn [orb rbind].
  cbn. rewrite G, bool_decide_true by done. cbn. eexists. split; [done|]. split; [done|].
  intros j Hj Hne. unfold algorithm in *. cbn. rewrite G, bool_decide_false by done. by apply Hu.
Qed.

(** What a detection relies on, per space. *)
Record uber_ok m u (acked : list AckedPacket) : Prop := {
  uo_tuning : tuning_configured_ u = false;
  uo_space : forall i, valid_space i -> packet_number_space_ (algorithm u i) = i;
  uo_inv : forall i, valid_space i -> loss_inv m (algorithm u i);
  uo_acks : forall i, valid_space i -> examined m i -> acks_ok m (algorithm u i) (largest_of m i) acked;
}.

Lemma detect_in_space_spec m u0 time r acked d i done_ : uber_ok m u0 acked -> GetMaxRtt r < 2 ^ 61 -> valid_space i ->
  i ∉ done_ -> tuning_configured_ (ud_self d) = false ->
  (forall j, valid_space j -> algorithm (ud_self d) j = if decide (j ∈ done_) then state_in m u0 time (GetMaxRtt r) j else algorithm u0 j) ->
  exists d', detect_in_space m time r acked d i = Ok d' /\ tuning_configured_ (ud_self d') = false /\
    ud_lost d' = ud_lost d ++ lost_in m u0 time (GetMaxRtt r) i /\
    forall j, valid_space j -> algorithm (ud_self d') j =
      if decide (j ∈ i :: done_) then state_in m u0 time (GetMaxRtt r) j else algorithm u0 j.
Proof.
  intros [U1 U2 U3 U4] Hr Hi Hnew Ht Hst. unfold detect_in_space. rewrite largest_get by done. cbn [rbind].
  pose proof (map_ok_small m (li_map _ _ (U3 i Hi))) as (M1 & M2 & M3).
  assert (Hkeep : ~ examined m i -> forall j, valid_space j -> algorithm (ud_self d) j =
      if decide (j ∈ i :: done_) then state_in m u0 time (GetMaxRtt r) j else algorithm u0 j).
  { intros Hx j Hj. rewrite Hst by done. destruct (decide (j = i)) as [->|Hne].
    - rewrite decide_False by done. rewrite decide_True by set_solver. unfold state_in. by rewrite decide_False.
    - destruct (decide (j ∈ done_)); [rewrite decide_True by set_solver|rewrite decide_False by set_solver]; done. }
  destruct (decide (examined m i)) as [Hx|Hx].
  2:{ exists d. unfold lost_in. rewrite decide_False, app_nil_r by done. split; [|by split; [|split; [|apply Hkeep]]].
      unfold examined, GetLeastUnacked in *. destruct (PN_IsInitialized (largest_of m i)) eqn:E; [|done].
      rewrite PN_gt_init by (done || (apply PN_init_small; lia)). cbn [rbind].
      rewrite (proj2 (Z.ltb_lt _ _)) by (destruct (Z.lt_ge_cases (largest_of m i) (least_unacked_ m)); [lia|exfalso; auto]). done. }
  pose proof Hx as [Hx1 Hx2]. rewrite Hx1. unfold GetLeastUnacked.
  rewrite PN_gt_init by (done || (apply PN_init_small; lia)). cbn [rbind].
  rewrite (proj2 (Z.ltb_ge _ _)) by lia. rewrite algorithm_get by done. cbn [rbind].
  assert (Ei : algorithm (ud_self d) i = algorithm u0 i) by (rewrite Hst, decide_False by done; done).
  rewrite Ei.
  destruct (DetectLosses_reference (reordering_callback i) (calm_in (ud_self d) i) m (ud_self d) (algorithm u0 i) time r
    (largest_of m i) acked (ud_lost d)) as (r1 & -> & [Hc1 Hc2] & El & Es);
    [by apply callback_quiet|done|by apply U3|by apply U4|done|].
  cbn [rbind]. destruct (per_set_valid (general_loss_algorithms_ (det_parent r1)) i (det_self r1) Hi) as (ps & Eps & _).
  rewrite Eps. cbn [rbind]. eexists. split; [done|]. cbn [ud_self ud_lost]. split; [done|].
  split; [rewrite El; unfold lost_in; by rewrite decide_True|].
  intros j Hj. rewrite (algorithm_set _ i (det_self r1) ps Hi Eps j Hj). destruct (decide (j = i)) as [->|Hne].
  - rewrite bool_decide_true by done. rewrite decide_True by set_solver. rewrite Es. unfold state_in. by rewrite decide_True.
  - rewrite bool_decide_false by done. rewrite Hc2, Hst by done.
    destruct (decide (j ∈ done_)); [rewrite decide_True by set_solver|rewrite decide_False by set_solver]; done.
Qed.

(** The earliest of the timeouts that are set. *)
Definition earliest (t : QuicTime) (ts : list QuicTime) : Prop :=
  (t = 0 /\ Forall (fun x => x = 0) ts) \/ (t <> 0 /\ t ∈ ts /\ Forall (fun x => x = 0 \/ t <= x) ts).

Lemma earliest_snoc t ts x : earliest t ts ->
  earliest (if negb (QuicTime_IsInitialized t) then x else if QuicTime_IsInitialized x then Z.min t x else t) (ts ++ [x]).
Proof.
  unfold earliest, QuicTime_IsInitialized. intros [(-> & Hz)|(Ht & Hin & Hle)].
  - cbn. destruct (decide (x = 0)) as [->|Hx].
    + left. split; [done|]. apply Forall_app. split; [done|]. by constructor.
    + right. split; [done|]. split; [set_solver|]. apply Forall_app. split; [|constructor; [by right|done]].
      eapply Forall_impl; [exact Hz|]. naive_solver.
  - right. destruct (Z.eqb_spec t 0); [done|]. cbn. destruct (Z.eqb_spec x 0) as [->|Hx]; cbn.
    + split; [done|]. split; [set_solver|]. apply Forall_app. split; [done|]. constructor; [by left|done].
    + split; [lia|]. split; [destruct (Z.min_spec t x) as [[_ ->]|[_ ->]]; set_solver|].
      apply Forall_app. split; [|constructor; [right; lia|done]].
      eapply Forall_impl; [exact Hle|]. cbn. intros y [?|?]; [by left|right; lia].
Qed.

Lemma GetLossTimeout_earliest u :
  exists t, Uber_GetLossTimeout u = Ok t /\ earliest t (map (fun i => loss_detection_timeout_ (algorithm u i)) spaces).
Proof.
  assert (Hloop : forall js ts t, Forall valid_space js -> earliest t ts -> exists t',
    rfold (fun loss_timeout i =>
      let* g := per_get (general_loss_algorithms_ u) i in
      let timeout := GetLossTimeout g in
      if negb (QuicTime_IsInitialized loss_timeout) then Ok timeout
      else if QuicTime_IsInitialized timeout then Ok (Z.min loss_timeout timeout)
      else Ok loss_timeout) js t = Ok t' /\
    earliest t' (ts ++ map (fun i => loss_detection_timeout_ (algorithm u i)) js)).
  { induction js as [|i js IH]; intros ts t Hv He; cbn [rfold map].
    - exists t. by rewrite app_nil_r.
    - apply Forall_cons in Hv as [Hi Hv]. rewrite algorithm_get by done. cbn [rbind].
      apply (earliest_snoc t ts (GetLossTimeout (algorithm u i))) in He.
      destruct (IH _ _ Hv He) as (t' & E & He'). exists t'. rewrite <- app_assoc in He'. split; [|exact He'].
      rewrite <- E. by destruct (negb (QuicTime_IsInitialized t)), (QuicTime_IsInitialized (GetLossTimeout (algorithm u i))). }
  apply (Hloop spaces [] 0); [by repeat constructor|]. left. by split.
Qed.

(** Packets of different spaces, or of different numbers, are different packets. *)
Lemma lost_in_elem m u time max_rtt i q : q ∈ map lost_packet_number (lost_in m u time max_rtt i) ->
  exists k info, q = least_unacked_ m + Z.of_nat k /\ unacked_packets_ m !! k = Some info /\
    GetPacketNumberSpace m (encryption_level info) = Ok (packet_number_space_ (algorithm u i)).
Proof.
  unfold lost_in. destruct (decide (examined m i)); [|by intros ?%elem_of_nil].
  intros (x & -> & Hx)%list_elem_of_fmap. apply list_elem_of_fmap in Hx as (y & -> & Hy).
  apply list_elem_of_filter in Hy as (_ & (k & Ek & Hk & _ & _ & Hs)%candidates_lookup). by exists k, y.2.
Qed.

Lemma strictly_numbered l : forall pn, NoDup (map fst (numbered pn l)).
Proof.
  induction l as [|i l IH]; intros pn; cbn; constructor; [|apply IH].
  intros (x & Ex & Hx)%list_elem_of_fmap. pose proof (numbered_ge (pn + 1) l) as Hg.
  rewrite Forall_forall in Hg. specialize (Hg x Hx). lia.
Qed.

Lemma NoDup_map_filter {A B} (f : A -> B) (Q : A -> Prop) `{!forall x, Decision (Q x)} (l : list A) :
  NoDup (map f l) -> NoDup (map f (filter Q l)).
Proof.
  induction l as [|x l IH]; [done|]. cbn [map]. intros [Hx Hl]%NoDup_cons.
  destruct (decide (Q x)); [rewrite filter_cons_True by done|rewrite filter_cons_False by done; by apply IH].
  cbn. apply NoDup_cons. split; [|by apply IH]. intros (y & Ey & Hy)%list_elem_of_fmap.
  apply list_elem_of_filter in Hy as [_ Hy]. apply Hx, list_elem_of_fmap. eauto.
Qed.

Lemma lost_in_NoDup m u time max_rtt i : NoDup (map lost_packet_number (lost_in m u time max_rtt i)).
Proof.
  unfold lost_in. destruct (decide (examined m i)); [|constructor]. rewrite map_map.
  apply NoDup_map_filter, NoDup_map_filter, strictly_numbered.
Qed.

(** C19. Detection over all packet number spaces is the union of independent
    detections.  Without a tuner configured, a call returns; it reports, space by
    space, exactly the packets the reference detection of that space declares
    lost under the largest packet acknowledged in it, each once; it leaves every
    space's algorithm in its reference state, and those of spaces without
    acknowledged packets alone; and the loss timeout is then the earliest of the
    timeouts set. *)
Theorem uber_detects_per_space m u time r acked :
  uber_ok m u acked -> GetMaxRtt r < 2 ^ 61 ->
  exists d t, Uber_DetectLosses m u time r acked [] = Ok d /\
    ud_lost d = concat (map (lost_in m u time (GetMaxRtt r)) spaces) /\
    NoDup (map lost_packet_number (ud_lost d)) /\
    (forall i, valid_space i -> algorithm (ud_self d) i = state_in m u time (GetMaxRtt r) i) /\
    Uber_GetLossTimeout (ud_self d) = Ok t /\
    earliest t (map (fun i => loss_detection_timeout_ (state_in m u time (GetMaxRtt r) i)) spaces).
Proof.
  intros Hu Hr. unfold Uber_DetectLosses, spaces. cbn [rfold].
  destruct (detect_in_space_spec m u time r acked (mkUberDet u DetectionStats_init []) INITIAL_DATA [] Hu Hr)
    as (d1 & -> & T1 & L1 & S1); [done|set_solver|by destruct Hu|done|]. cbn [rbind].
  destruct (detect_in_space_spec m u time r acked d1 HANDSHAKE_DATA [INITIAL_DATA] Hu Hr)
    as (d2 & -> & T2 & L2 & S2); [done|set_solver|done|done|]. cbn [rbind].
  destruct (detect_in_space_spec m u time r acked d2 APPLICATION_DATA [HANDSHAKE_DATA; INITIAL_DATA] Hu Hr)
    as (d3 & -> & T3 & L3 & S3); [done|set_solver|done|done|]. cbn [rbind].
  assert (Hall : forall i, valid_space i -> algorithm (ud_self d3) i = state_in m u time (GetMaxRtt r) i).
  { intros i Hi. rewrite S3, decide_True by (destruct i; (done || set_solver)). done. }
  destruct (GetLossTimeout_earliest (ud_self d3)) as (t & Et & He).
  exists d3, t. split; [done|]. rewrite L3, L2, L1. cbn [ud_lost map concat app]. rewrite app_nil_r.
  split; [by rewrite app_assoc|]. split; [|split; [done|split; [done|]]].
  - rewrite !map_app. apply NoDup_app. split; [|split; [|apply lost_in_NoDup]].
    + apply NoDup_app. split; [apply lost_in_NoDup|split; [|apply lost_in_NoDup]].
      intros q (k & i & -> & Hk & Hs)%lost_in_elem (k' & i' & E & Hk' & Hs')%lost_in_elem.
      rewrite (uo_space m u acked Hu) in Hs, Hs' by done. assert (k' = k) as -> by lia. congruence.
    + intros q [(k & i & -> & Hk & Hs)%lost_in_elem|(k & i & -> & Hk & Hs)%lost_in_elem]%elem_of_app
        (k' & i' & E & Hk' & Hs')%lost_in_elem;
        rewrite (uo_space m u acked Hu) in Hs, Hs' by done; assert (k' = k) as -> by lia; congruence.
  - unfold spaces in He. cbn [map] in He. rewrite !Hall in He by done. exact He.
Qed.

End Uber.

(** * Witness *)

(** A tuner that never starts. *)
#[export] Instance unit_tuner : LossDetectionTuner unit :=
  {| tuner_Start := fun t p => (t, p, false); tuner_Finish := fun t _ => t |}.

Definition uber_start : UberLossAlgorithm unit :=
  match UberLossAlgorithm_init with
  | Ok u => u
  | Fault _ => mkUber (per_all GeneralLossAlgorithm_init) None (mkParams None None) false false false false false
  end.
Definition four_acked : QuicUnackedPacketMap (list QuicFrame) :=
  match MaybeUpdateLargestAckedOfPacketNumberSpace (two_packets_after 3) APPLICATION_DATA 4 with
  | Ok m => m | Fault _ => two_packets_after 3 end.

Lemma four_acked_frame : four_acked = two_packets_after 3 <| largest_acked_packets_ := largest_acked_packets_ four_acked |>.
Proof. vm_compute. reflexivity. Qed.

Lemma uber_start_ok : uber_ok four_acked uber_start [mkAcked 4 700 3000].
Proof.
  split; [by vm_compute|by intros []| |].
  - intros i Hi. assert (E : algorithm uber_start i = GeneralLossAlgorithm_init <| packet_number_space_ := i |> <| parent_ := true |>).
    { destruct i; vm_compute; try reflexivity. by destruct Hi. }
    rewrite E. pose proof (loss_run_pair silent always _ _ _ _ silent_quiet (two_packets_run i) (loss_inv_init IS_CLIENT i)) as [L1 L2 L3 L4 L5 L6 L7].
    rewrite four_acked_frame. revert L1 L2 L3 L4 L5 L6 L7. generalize (two_packets_after 3) (largest_acked_packets_ four_acked).
    intros m ps L1 L2 L3 L4 L5 L6 L7. split; [by apply (same_counters_ok m)|done..].
  - intros i Hi [Hx _]. destruct i; try (vm_compute in Hx; discriminate Hx).
    assert (El : largest_of four_acked APPLICATION_DATA = 4) by (vm_compute; reflexivity).
    assert (Ea : algorithm uber_start APPLICATION_DATA = app_data_loss <| parent_ := true |>) by (vm_compute; reflexivity).
    rewrite El, Ea. pose proof two_packets_acks as [A1 A2 A3 A4 A5]. revert A1 A2 A3 A4 A5. rewrite four_acked_frame.
    generalize (two_packets_after 3) (largest_acked_packets_ four_acked). intros m ps A1 A2 A3 A4 A5. by split.
Qed.

Lemma uber_detects_per_space_witness :
  exists d, Uber_DetectLosses four_acked uber_start 3000 (RttStats_init <| latest_rtt_ := 100000 |>)
      [mkAcked 4 700 3000] [] = Ok d /\ ud_lost d = [mkLost 1 1200].
Proof.
  destruct (uber_detects_per_space four_acked uber_start 3000 (RttStats_init <| latest_rtt_ := 100000 |>) [mkAcked 4 700 3000]
    uber_start_ok) as (d & t & E & El & _); [by vm_compute|].
  exists d. split; [exact E|]. rewrite El. vm_compute. reflexivity.
Defined.
