(* ===== verification/IndexedQueue.v ===== *)
(** [PacketNumberIndexedQueue] (packet_number_indexed_queue.h): entries indexed
    by packet number, kept in a deque with holes that starts at the least
    packet present.  The main theorem is that the queue is a finite map from
    packet numbers to entries. *)

From stdpp Require Import gmap.
From S2P Require Import Prelude PacketNumber.

(** src/quiche/gquiche/quic/core/packet_number_indexed_queue.h:96-107 [PacketNumberIndexedQueue::EntryWrapper] *)
Record EntryWrapper (T : Type) := mkEntry { entry : T; present : bool }.
Arguments mkEntry {T}.
Arguments entry {T}.
Arguments present {T}.

(** src/quiche/gquiche/quic/core/packet_number_indexed_queue.h:118-123 [PacketNumberIndexedQueue] *)
Record PacketNumberIndexedQueue (T : Type) := mkQueue {
  entries_ : list (EntryWrapper T);
  number_of_present_entries_ : Z;
  first_packet_ : QuicPacketNumber;
}.
Arguments mkQueue {T}.
Arguments entries_ {T}.
Arguments number_of_present_entries_ {T}.
Arguments first_packet_ {T}.
#[export] Instance eta_Queue T : Eta (PacketNumberIndexedQueue T) := MkEta _ (fun q =>
  mkQueue (entries_ q) (number_of_present_entries_ q) (first_packet_ q)).

(** src/quiche/gquiche/quic/core/packet_number_indexed_queue.h:42-42 [PacketNumberIndexedQueue::PacketNumberIndexedQueue] *)
Definition Queue_init {T} : PacketNumberIndexedQueue T := mkQueue [] 0 QuicPacketNumber_default.

(** The default constructor of the entries' type, which fills the holes. *)
Class Default (T : Type) := default_value : T.

Section Queue.
Context {T : Type} `{Default T}.
Implicit Types (q : PacketNumberIndexedQueue T) (es : list (EntryWrapper T)).

Definition hole : EntryWrapper T := mkEntry default_value false.

(** src/quiche/gquiche/quic/core/packet_number_indexed_queue.h:70-70 [PacketNumberIndexedQueue::IsEmpty] *)
Definition IsEmpty q : bool := number_of_present_entries_ q =? 0.
(** src/quiche/gquiche/quic/core/packet_number_indexed_queue.h:79-79 [PacketNumberIndexedQueue::entry_slots_used] *)
Definition entry_slots_used q : Z := Z.of_nat (length (entries_ q)).
(** src/quiche/gquiche/quic/core/packet_number_indexed_queue.h:82-82 [PacketNumberIndexedQueue::first_packet] *)
Definition first_packet q : QuicPacketNumber := first_packet_ q.
(** src/quiche/gquiche/quic/core/packet_number_indexed_queue.h:87-92 [PacketNumberIndexedQueue::last_packet] *)
Definition last_packet q : result QuicPacketNumber :=
  if IsEmpty q then Ok QuicPacketNumber_default
  else let* e := PN_add (first_packet_ q) (entry_slots_used q) in PN_sub e 1.

(** src/quiche/gquiche/quic/core/packet_number_indexed_queue.h:230-248 [PacketNumberIndexedQueue::GetEntryWrapper].  The pointer is the entry's index in the deque. *)
Definition GetEntryWrapper q (packet_number : QuicPacketNumber) : result (option nat) :=
  if negb (PN_IsInitialized packet_number) || IsEmpty q then Ok None
  else
    let* before := PN_lt packet_number (first_packet_ q) in
    if before then Ok None
    else
      let* offset := PN_diff packet_number (first_packet_ q) in
      if entry_slots_used q <=? offset then Ok None
      else match entries_ q !! Z.to_nat offset with
           | Some e => Ok (if present e then Some (Z.to_nat offset) else None)
           | None => Fault OutOfBounds
           end.
(** src/quiche/gquiche/quic/core/packet_number_indexed_queue.h:127-143 [PacketNumberIndexedQueue::GetEntry].  The entry the pointer is to. *)
Definition GetEntry q (packet_number : QuicPacketNumber) : result (option T) :=
  let* k := GetEntryWrapper q packet_number in
  Ok (match k with Some k => entry <$> entries_ q !! k | None => None end).

(** src/quiche/gquiche/quic/core/packet_number_indexed_queue.h:147-180 [PacketNumberIndexedQueue::Emplace] of an entry constructed from the arguments. *)
Definition Emplace q (packet_number : QuicPacketNumber) (x : T) : result (PacketNumberIndexedQueue T * bool) :=
  let* _ := CHECK (PN_IsInitialized packet_number) in
  if IsEmpty q then
    let* _ := CHECK (match entries_ q with [] => true | _ => false end) in
    let* _ := CHECK (negb (PN_IsInitialized (first_packet_ q))) in
    Ok (mkQueue (entries_ q ++ [mkEntry x true]) 1 packet_number, true)
  else
    let* last := last_packet q in
    let* le := PN_le packet_number last in
    if le then Ok (q, false)
    else
      let* offset := PN_diff packet_number (first_packet_ q) in
      let q := if entry_slots_used q <? offset
        then q <| entries_ := entries_ q ++ replicate (Z.to_nat (offset - entry_slots_used q)) hole |>
        else q in
      let q := q <| number_of_present_entries_ := number_of_present_entries_ q ⊕ 1 |> in
      let q := q <| entries_ := entries_ q ++ [mkEntry x true] |> in
      let* last := last_packet q in
      let* eq := PN_eq packet_number last in
      let* _ := CHECK eq in
      Ok (q, true).

(** src/quiche/gquiche/quic/core/packet_number_indexed_queue.h:220-223 [PacketNumberIndexedQueue::Cleanup, loop] *)
Fixpoint drop_holes es q : result (PacketNumberIndexedQueue T) :=
  match es with
  | e :: es =>
      if present e then Ok q
      else let* p := PN_incr (first_packet_ q) in
           drop_holes es (q <| entries_ := es |> <| first_packet_ := p |>)
  | [] => Ok q
  end.
(** src/quiche/gquiche/quic/core/packet_number_indexed_queue.h:219-227 [PacketNumberIndexedQueue::Cleanup] *)
Definition Cleanup q : result (PacketNumberIndexedQueue T) :=
  let* q := drop_holes (entries_ q) q in
  Ok (match entries_ q with [] => q <| first_packet_ := PN_Clear |> | _ => q end).

(** src/quiche/gquiche/quic/core/packet_number_indexed_queue.h:189-203 [PacketNumberIndexedQueue::Remove].  The entry removed, to which the caller applies [f]. *)
Definition Remove q (packet_number : QuicPacketNumber) : result (PacketNumberIndexedQueue T * option T) :=
  let* k := GetEntryWrapper q packet_number in
  match k with
  | None => Ok (q, None)
  | Some k =>
      match entries_ q !! k with
      | None => Fault OutOfBounds
      | Some e =>
          let q := q <| entries_ := <[k := mkEntry (entry e) false]> (entries_ q) |> in
          let q := q <| number_of_present_entries_ := number_of_present_entries_ q ⊖ 1 |> in
          let* eq := PN_eq packet_number (first_packet q) in
          let* q := if eq then Cleanup q else Ok q in
          Ok (q, Some (entry e))
      end
  end.

(** src/quiche/gquiche/quic/core/packet_number_indexed_queue.h:207-214 [PacketNumberIndexedQueue::RemoveUpTo, loop] *)
Fixpoint drop_below es q (packet_number : QuicPacketNumber) : result (PacketNumberIndexedQueue T) :=
  match es with
  | [] => Ok q
  | e :: es =>
      if negb (PN_IsInitialized (first_packet_ q)) then Ok q
      else
        let* below := PN_lt (first_packet_ q) packet_number in
        if negb below then Ok q
        else
          let q := if present e
            then q <| number_of_present_entries_ := number_of_present_entries_ q ⊖ 1 |> else q in
          let* p := PN_incr (first_packet_ q) in
          drop_below es (q <| entries_ := es |> <| first_packet_ := p |>) packet_number
  end.
(** src/quiche/gquiche/quic/core/packet_number_indexed_queue.h:206-216 [PacketNumberIndexedQueue::RemoveUpTo] *)
Definition RemoveUpTo q (packet_number : QuicPacketNumber) : result (PacketNumberIndexedQueue T) :=
  let* q := drop_below (entries_ q) q packet_number in Cleanup q.

(** * The finite map *)

Definition as_present (e : EntryWrapper T) : option T := if present e then Some (entry e) else None.
Definition table_of (first : Z) es : gmap Z T := omap as_present (map_seqZ first es : gmap Z (EntryWrapper T)).
Definition present_count es : Z := Z.of_nat (length (filter (fun e => present e = true) es)).

Lemma table_lookup first es i :
  table_of first es !! i = (if decide (first <= i) then es !! Z.to_nat (i - first) else None) ≫= as_present.
Proof. unfold table_of. rewrite lookup_omap, lookup_map_seqZ.
  destruct (decide (first <= i)); [by rewrite option_guard_True|by rewrite option_guard_False].
Qed.

Lemma table_cons first e es :
  table_of first (e :: es) = match as_present e with Some x => <[first := x]> (table_of (first + 1) es) | None => table_of (first + 1) es end.
Proof.
  apply map_eq. intros i. rewrite table_lookup.
  assert (Hr : i <> first -> (if decide (first <= i) then (e :: es) !! Z.to_nat (i - first) else None) ≫= as_present =
      table_of (first + 1) es !! i).
  { intros Hne. rewrite table_lookup. destruct (decide (first <= i)).
    - rewrite decide_True by lia. replace (Z.to_nat (i - first)) with (S (Z.to_nat (i - (first + 1)))) by lia. done.
    - by rewrite decide_False by lia. }
  destruct (decide (i = first)) as [->|Hne].
  - rewrite decide_True by lia. rewrite Z.sub_diag. change ((e :: es) !! Z.to_nat 0) with (Some e). cbn.
    destruct (as_present e) eqn:E; [by rewrite lookup_insert_eq|]. rewrite table_lookup. by rewrite decide_False by lia.
  - rewrite Hr by done. destruct (as_present e); [by rewrite lookup_insert_ne by done|done].
Qed.

Lemma table_keys first es i x : table_of first es !! i = Some x -> first <= i < first + Z.of_nat (length es).
Proof.
  rewrite table_lookup. destruct (decide (first <= i)); [|done]. intros (e & He & _)%bind_Some.
  apply lookup_lt_Some in He. lia.
Qed.

Lemma present_count_cons e es : present_count (e :: es) = (if present e then 1 else 0) + present_count es.
Proof.
  unfold present_count. rewrite filter_cons. destruct (present e); [rewrite decide_True by done|rewrite decide_False by done]; cbn [length]; lia.
Qed.
Lemma present_count_app es es' : present_count (es ++ es') = present_count es + present_count es'.
Proof. unfold present_count. rewrite filter_app, length_app. lia. Qed.
Lemma present_count_holes k : present_count (replicate k hole) = 0.
Proof. induction k as [|k IH]; [done|]. cbn [replicate]. by rewrite present_count_cons, IH. Qed.
Lemma present_count_bound es : 0 <= present_count es <= Z.of_nat (length es).
Proof. unfold present_count. pose proof (length_filter (fun e => present e = true) es). lia. Qed.

Lemma table_snoc first es k x :
  table_of first (es ++ replicate k hole ++ [mkEntry x true]) =
  <[first + Z.of_nat (length es) + Z.of_nat k := x]> (table_of first es).
Proof.
  revert first. induction es as [|e es IH]; intros first; cbn [app length].
  - revert first. induction k as [|k IH]; intros first; cbn [replicate app].
    + rewrite table_cons. cbn [as_present present entry]. f_equal. lia.
    + rewrite table_cons. cbn [as_present present hole]. rewrite IH.
      replace (first + 1 + Z.of_nat 0 + Z.of_nat k) with (first + Z.of_nat 0 + Z.of_nat (S k)) by lia. done.
  - rewrite !table_cons, IH. replace (first + 1 + Z.of_nat (length es) + Z.of_nat k) with
      (first + Z.of_nat (S (length es)) + Z.of_nat k) by lia.
    destruct (as_present e); [|done]. rewrite insert_insert_ne by lia. done.
Qed.

Lemma table_erase first es k e : es !! k = Some e ->
  table_of first (<[k := mkEntry (entry e) false]> es) = delete (first + Z.of_nat k) (table_of first es).
Proof.
  intros Hk. apply map_eq. intros i. rewrite table_lookup. destruct (decide (i = first + Z.of_nat k)) as [->|Hne].
  - rewrite lookup_delete_eq, decide_True by lia. replace (Z.to_nat (first + Z.of_nat k - first)) with k by lia.
    by rewrite list_lookup_insert_eq by (by eapply lookup_lt_Some).
  - rewrite lookup_delete_ne, table_lookup by done. destruct (decide (first <= i)); [|done].
    by rewrite list_lookup_insert_ne by lia.
Qed.

Lemma count_erase es k e : es !! k = Some e -> present e = true ->
  present_count (<[k := mkEntry (entry e) false]> es) = present_count es - 1.
Proof.
  intros Hk He. pose proof (take_drop_middle es k e Hk) as E. rewrite <- E at 2.
  rewrite insert_take_drop by (by eapply lookup_lt_Some).
  rewrite !present_count_app, !present_count_cons. cbn [present]. rewrite He. lia.
Qed.

(** The deque starts with a present entry, counts its present entries, and
    stays clear of the end of the packet numbers. *)
Record queue_ok q : Prop := {
  qo_count : number_of_present_entries_ q = present_count (entries_ q);
  qo_first : match entries_ q with
             | [] => first_packet_ q = PN_Clear
             | e :: _ => present e = true /\ 0 <= first_packet_ q
             end;
  qo_end : entries_ q <> [] -> first_packet_ q + entry_slots_used q <= 2 ^ 48;
}.

Definition contents q : gmap Z T := table_of (first_packet_ q) (entries_ q).

Lemma queue_ok_init : queue_ok Queue_init.
Proof. by split. Qed.

(** The two shapes of a queue. *)
Lemma queue_cases q : queue_ok q ->
  (q = Queue_init /\ IsEmpty q = true /\ contents q = ∅) \/
  (IsEmpty q = false /\ entries_ q <> [] /\ 0 <= first_packet_ q < first_packet_ q + entry_slots_used q /\
   first_packet_ q + entry_slots_used q <= 2 ^ 48 /\ is_Some (contents q !! first_packet_ q)).
Proof.
  intros [Hc Hf He]. destruct q as [[|e es] n first]; cbn [entries_ number_of_present_entries_ first_packet_] in *.
  - left. subst. by split.
  - right. specialize (He ltac:(done)). unfold IsEmpty, entry_slots_used in *. cbn [entries_ number_of_present_entries_ first_packet_ length] in *.
    destruct Hf as [Hp Hf]. rewrite present_count_cons, Hp in Hc. pose proof (present_count_bound es).
    split; [apply Z.eqb_neq; lia|]. split; [done|]. split; [lia|]. split; [lia|].
    unfold contents. cbn [first_packet_ entries_]. rewrite table_cons. unfold as_present. rewrite Hp, lookup_insert_eq. eauto.
Qed.

(** What the loop of [Cleanup] does to any deque. *)
Lemma drop_holes_spec es : forall first n, 0 <= first -> first + Z.of_nat (length es) <= 2 ^ 48 ->
  exists es' first', drop_holes es (mkQueue es n first) = Ok (mkQueue es' n first') /\
    table_of first' es' = table_of first es /\ present_count es' = present_count es /\
    first <= first' /\ first' + Z.of_nat (length es') = first + Z.of_nat (length es) /\
    match es' with [] => True | e :: _ => present e = true end.
Proof.
  induction es as [|e es IH]; intros first n Hf He; cbn [drop_holes].
  - exists [], first. split_and!; (done || lia).
  - destruct (present e) eqn:Ep; [exists (e :: es), first; split_and!; (done || lia)|].
    cbn [first_packet_ length] in *. rewrite PN_incr_small by lia. cbn [rbind].
    destruct (IH (first + 1) n ltac:(lia) ltac:(lia)) as (es' & first' & E & Ht & Hc & Hl & He' & Hh).
    exists es', first'. split; [exact E|]. rewrite Ht, Hc, table_cons, present_count_cons. unfold as_present. rewrite Ep.
    split_and!; (done || lia).
Qed.

Lemma Cleanup_spec es n first : 0 <= first -> first + Z.of_nat (length es) <= 2 ^ 48 -> n = present_count es ->
  exists q', Cleanup (mkQueue es n first) = Ok q' /\ queue_ok q' /\ contents q' = table_of first es /\
    (IsEmpty q' = false -> first_packet_ q' + entry_slots_used q' = first + Z.of_nat (length es)).
Proof.
  intros Hf He ->. unfold Cleanup. cbn [entries_].
  destruct (drop_holes_spec es first (present_count es) Hf He) as (es' & first' & -> & Ht & Hc & Hl & He' & Hh).
  cbn [rbind entries_]. destruct es' as [|e es']; (eexists; split; [done|]).
  - split; [|split; [exact Ht|intros E; exfalso; revert E; unfold IsEmpty; cbn; rewrite <- Hc; done]].
    split; [by rewrite <- Hc|done|done].
  - cbn [length] in He'. split; [|split; [exact Ht|intros _; unfold entry_slots_used; cbn; lia]].
    split; [by rewrite <- Hc|split; [exact Hh|cbn; lia]|intros _; unfold entry_slots_used; cbn; lia].
Qed.

Lemma GetEntryWrapper_spec q pn : queue_ok q -> 0 <= pn <= 2 ^ 48 ->
  match contents q !! pn with
  | Some x => exists k e, GetEntryWrapper q pn = Ok (Some k) /\ pn = first_packet_ q + Z.of_nat k /\
                entries_ q !! k = Some e /\ present e = true /\ entry e = x
  | None => GetEntryWrapper q pn = Ok None
  end.
Proof.
  intros Hq Hpn. unfold GetEntryWrapper. rewrite PN_init_small by lia. cbn [negb orb].
  destruct (queue_cases q Hq) as [(-> & -> & ->)|(-> & _ & Hf & He & _)]; [by rewrite lookup_empty|].
  rewrite PN_lt_init by (apply PN_init_small; lia). cbn [rbind].
  unfold contents. rewrite table_lookup. destruct (Z.ltb_spec pn (first_packet_ q)); [by rewrite decide_False by lia|].
  rewrite decide_True, PN_diff_small by lia. cbn [rbind]. unfold entry_slots_used in *.
  destruct (Z.leb_spec (Z.of_nat (length (entries_ q))) (pn - first_packet_ q)).
  - by rewrite lookup_ge_None_2 by lia.
  - destruct (lookup_lt_is_Some_2 (entries_ q) (Z.to_nat (pn - first_packet_ q)) ltac:(lia)) as (e & Ee). rewrite Ee. cbn.
    unfold as_present. destruct (present e) eqn:Ep; [|done]. exists (Z.to_nat (pn - first_packet_ q)), e. split_and!; (done || lia).
Qed.

Lemma GetEntry_spec q pn : queue_ok q -> 0 <= pn <= 2 ^ 48 -> GetEntry q pn = Ok (contents q !! pn).
Proof.
  intros Hq Hpn. pose proof (GetEntryWrapper_spec q pn Hq Hpn) as Hg. unfold GetEntry.
  destruct (contents q !! pn) as [x|]; [destruct Hg as (k & e & -> & _ & Ee & _ & <-); cbn; by rewrite Ee|by rewrite Hg].
Qed.

Lemma last_packet_spec q : queue_ok q -> IsEmpty q = false ->
  last_packet q = Ok (first_packet_ q + entry_slots_used q - 1).
Proof.
  intros Hq He. destruct (queue_cases q Hq) as [(_ & E & _)|(_ & _ & Hf & Hl & _)]; [congruence|].
  unfold last_packet. rewrite He, PN_add_small by (unfold entry_slots_used in *; lia). cbn [rbind]. by rewrite PN_sub_small by lia.
Qed.

(** The abstract table: the entries, and the packet number last inserted since the table was empty. *)
Record packet_table := mkTable { table : gmap Z T; newest : option Z }.
Definition abs q : packet_table :=
  mkTable (contents q) (if IsEmpty q then None else Some (first_packet_ q + entry_slots_used q - 1)).
Definition trim (m : gmap Z T) (n : option Z) : packet_table := mkTable m (if decide (m = ∅) then None else n).

Inductive queue_op := QEmplace (pn : QuicPacketNumber) (x : T) | QRemove (pn : QuicPacketNumber) | QRemoveUpTo (pn : QuicPacketNumber).
Definition apply_queue_op q (op : queue_op) : result (PacketNumberIndexedQueue T * bool) :=
  match op with
  | QEmplace pn x => Emplace q pn x
  | QRemove pn => let* r := Remove q pn in Ok (r.1, bool_decide (is_Some r.2))
  | QRemoveUpTo pn => let* q := RemoveUpTo q pn in Ok (q, true)
  end.
Definition queue_op_number (op : queue_op) : Z := match op with QEmplace pn _ | QRemove pn | QRemoveUpTo pn => pn end.
Definition spec_op (t : packet_table) (op : queue_op) : packet_table * bool :=
  match op with
  | QEmplace pn x =>
      if match newest t with None => true | Some n => n <? pn end
      then (mkTable (<[pn := x]> (table t)) (Some pn), true) else (t, false)
  | QRemove pn => if decide (is_Some (table t !! pn)) then (trim (delete pn (table t)) (newest t), true) else (t, false)
  | QRemoveUpTo pn => (trim (filter (fun kx => pn <= kx.1) (table t)) (newest t), true)
  end.

Lemma contents_empty q : queue_ok q -> IsEmpty q = bool_decide (contents q = ∅).
Proof.
  intros Hq. destruct (queue_cases q Hq) as [(_ & -> & ->)|(-> & _ & _ & _ & Hx)]; [by rewrite bool_decide_true|].
  rewrite bool_decide_false; [done|]. intros E. rewrite E, lookup_empty in Hx. by destruct Hx.
Qed.

Lemma abs_trim q m n : queue_ok q -> contents q = m ->
  (IsEmpty q = false -> n = Some (first_packet_ q + entry_slots_used q - 1)) -> abs q = trim m n.
Proof.
  intros Hq <- Hn. unfold abs, trim. rewrite contents_empty in * by done. f_equal.
  destruct (decide (contents q = ∅)); [by rewrite bool_decide_true|rewrite bool_decide_false in * by done; by rewrite Hn].
Qed.

Lemma Emplace_spec q pn x : queue_ok q -> 0 <= pn < 2 ^ 48 ->
  exists q' b, Emplace q pn x = Ok (q', b) /\ queue_ok q' /\ (abs q', b) = spec_op (abs q) (QEmplace pn x).
Proof.
  intros Hq Hpn. unfold Emplace. rewrite PN_init_small by lia. cbn [CHECK rbind spec_op abs newest table].
  destruct (queue_cases q Hq) as [(-> & -> & _)|(He & Hne & Hf & Hl & _)].
  - assert (Ec : contents (mkQueue [mkEntry x true] 1 pn) = <[pn := x]> (contents Queue_init))
      by (unfold contents; cbn [first_packet_ entries_]; by rewrite table_cons).
    exists (mkQueue [mkEntry x true] 1 pn), true. split; [done|].
    split; [split; cbn; try (done || lia); intros _; unfold entry_slots_used; cbn; lia|].
    unfold abs. rewrite Ec. unfold entry_slots_used. cbn [first_packet_ entries_ length].
    replace (pn + Z.of_nat 1 - 1) with pn by lia. done.
  - rewrite He. rewrite last_packet_spec by done. cbn [rbind]. rewrite PN_le_init by (apply PN_init_small; lia). cbn [rbind].
    destruct (Z.leb_spec pn (first_packet_ q + entry_slots_used q - 1)) as [Hle|Hgt].
    { exists q, false. split; [done|]. split; [done|]. rewrite (proj2 (Z.ltb_ge _ _)) by lia. unfold abs. by rewrite He. }
    rewrite (proj2 (Z.ltb_lt _ _)) by lia. rewrite PN_diff_small by lia. cbn [rbind].
    set (k := Z.to_nat (pn - first_packet_ q - entry_slots_used q)).
    set (q' := mkQueue (entries_ q ++ replicate k hole ++ [mkEntry x true]) (number_of_present_entries_ q ⊕ 1) (first_packet_ q)).
    assert (E : (if entry_slots_used q <? pn - first_packet_ q
        then q <| entries_ := entries_ q ++ replicate k hole |> else q) = q <| entries_ := entries_ q ++ replicate k hole |>).
    { destruct (Z.ltb_spec (entry_slots_used q) (pn - first_packet_ q)); [done|].
      replace k with 0%nat by lia. cbn. rewrite app_nil_r. by destruct q. }
    rewrite E. clear E. match goal with |- context [last_packet ?z] => assert (Ez : z = q') by (unfold q'; cbn; by rewrite <- app_assoc); rewrite Ez end.
    clear Ez. pose proof (present_count_bound (entries_ q)) as Hb. unfold entry_slots_used in *.
    assert (Hq' : queue_ok q').
    { destruct Hq as [Hc Hfi Hen]. split; cbn.
      - rewrite !present_count_app, present_count_holes, present_count_cons, Hc, u64_small by lia.
        change (present_count []) with 0. cbn [present]. lia.
      - by destruct (entries_ q).
      - intros _. unfold entry_slots_used. cbn. rewrite !length_app, length_replicate. cbn. lia. }
    assert (El : first_packet_ q' + entry_slots_used q' - 1 = pn).
    { unfold entry_slots_used. cbn. rewrite !length_app, length_replicate. cbn. lia. }
    assert (He' : IsEmpty q' = false).
    { destruct (queue_cases q' Hq') as [(Eq & _)|(? & _)]; [|done]. exfalso. apply (f_equal entries_) in Eq. cbn in Eq.
      by destruct (entries_ q). }
    rewrite last_packet_spec by done. rewrite El. cbn [rbind]. unfold PN_eq, PN_both. rewrite !PN_init_small by lia. cbn [andb CHECK rbind].
    rewrite Z.eqb_refl. cbn [CHECK rbind]. exists q', true. split; [done|]. split; [done|].
    unfold abs. rewrite He', El. f_equal. f_equal. unfold contents, q'. cbn [first_packet_ entries_]. rewrite table_snoc. f_equal. lia.
Qed.

Lemma Remove_spec q pn : queue_ok q -> 0 <= pn < 2 ^ 48 ->
  exists q' r, Remove q pn = Ok (q', r) /\ r = contents q !! pn /\ queue_ok q' /\
    (abs q', bool_decide (is_Some r)) = spec_op (abs q) (QRemove pn).
Proof.
  intros Hq Hpn. pose proof (GetEntryWrapper_spec q pn Hq ltac:(lia)) as Hg. unfold Remove. cbn [spec_op table abs].
  destruct (contents q !! pn) as [x|] eqn:Ex.
  2:{ rewrite Hg. cbn. exists q, None. split_and!; done. }
  destruct Hg as (k & e & -> & -> & Ee & Hp & <-). cbn [rbind]. rewrite Ee.
  rewrite decide_True by eauto.
  destruct (queue_cases q Hq) as [(_ & _ & Ec)|(He & _ & Hf & Hl & _)]; [by rewrite Ec, lookup_empty in Ex|].
  pose proof (qo_count q Hq) as Hc. pose proof (count_erase _ _ _ Ee Hp) as Hc'. pose proof (table_erase (first_packet_ q) _ _ _ Ee) as Ht.
  pose proof (present_count_bound (<[k := mkEntry (entry e) false]> (entries_ q))) as Hb. rewrite length_insert in Hb.
  pose proof (lookup_lt_Some _ _ _ Ee) as Hk. unfold entry_slots_used in *. cbn [newest abs]. rewrite He.
  set (q1 := mkQueue (<[k := mkEntry (entry e) false]> (entries_ q)) (number_of_present_entries_ q ⊖ 1) (first_packet_ q)).
  match goal with |- context [first_packet ?z] => change z with q1 end.
  assert (Hn : number_of_present_entries_ q ⊖ 1 = present_count (entries_ q1)) by (cbn; rewrite Hc, Hc', u64_small by lia; done).
  unfold PN_eq, PN_both, first_packet. rewrite !PN_init_small by (cbn; lia). change (first_packet_ q1) with (first_packet_ q). cbn [andb CHECK rbind].
  destruct (Z.eqb_spec (first_packet_ q + Z.of_nat k) (first_packet_ q)) as [E0|E0].
  - destruct (Cleanup_spec (entries_ q1) (number_of_present_entries_ q ⊖ 1) (first_packet_ q)) as (q' & E & Hq' & Ec' & El);
      [lia|cbn; rewrite length_insert; lia|done|]. 
    change (Cleanup q1 = Ok q') in E. rewrite E. cbn [rbind].
    exists q', (Some (entry e)). split; [done|]. split; [done|]. split; [done|]. rewrite bool_decide_true by eauto. f_equal.
    apply abs_trim; [done|rewrite Ec'; exact Ht|]. intros Hne. rewrite (El Hne). cbn. by rewrite length_insert.
  - assert (Hq1 : queue_ok q1).
    { destruct Hq as [_ Hfi Hen]. split; [exact Hn| |].
      - cbn. destruct (entries_ q); [done|]. destruct k; [lia|]. done.
      - intros _. unfold entry_slots_used. cbn. rewrite length_insert. lia. }
    exists q1, (Some (entry e)). split; [done|]. split; [done|]. split; [done|]. rewrite bool_decide_true by eauto. f_equal.
    apply abs_trim; [done|exact Ht|]. intros _. unfold entry_slots_used. cbn. by rewrite length_insert.
Qed.

Lemma filter_table_above first es pn : pn <= first ->
  filter (fun kx : Z * T => pn <= kx.1) (table_of first es) = table_of first es.
Proof.
  intros Hp. apply map_filter_id. intros i x Hi. apply table_keys in Hi. cbn. lia.
Qed.

(** What the loop of [RemoveUpTo] does to any deque. *)
Lemma drop_below_spec pn es : forall first, 0 <= first -> first + Z.of_nat (length es) <= 2 ^ 48 -> 0 <= pn < 2 ^ 48 ->
  exists es' first', drop_below es (mkQueue es (present_count es) first) pn = Ok (mkQueue es' (present_count es') first') /\
    table_of first' es' = filter (fun kx => pn <= kx.1) (table_of first es) /\
    first <= first' /\ first' + Z.of_nat (length es') = first + Z.of_nat (length es).
Proof.
  induction es as [|e es IH]; intros first Hf He Hp; cbn [drop_below].
  - exists [], first. split_and!; (done || lia).
  - cbn [first_packet_ length] in *. rewrite PN_init_small by lia. cbn [negb].
    rewrite PN_lt_init by (apply PN_init_small; lia). cbn [rbind].
    destruct (Z.ltb_spec first pn) as [Hlt|Hge]; cbn [negb].
    2:{ exists (e :: es), first. split_and!; try (done || lia). by rewrite filter_table_above. }
    pose proof (present_count_bound es) as Hb.
    destruct (IH (first + 1) ltac:(lia) ltac:(lia) Hp) as (es' & first' & E & Ht & Hl & He').
    exists es', first'. split; [|split; [|lia]].
    + rewrite <- E. destruct (present e) eqn:Ep; cbn; rewrite PN_incr_small by lia; cbn; rewrite present_count_cons, Ep;
        [rewrite u64_small by lia|]; do 2 f_equal; lia.
    + rewrite Ht, table_cons. destruct (as_present e); [|done]. rewrite map_filter_insert_False by (cbn; lia).
      rewrite delete_id; [done|]. destruct (table_of (first + 1) es !! first) eqn:Ex; [apply table_keys in Ex; lia|done].
Qed.

Lemma RemoveUpTo_spec q pn : queue_ok q -> 0 <= pn < 2 ^ 48 ->
  exists q', RemoveUpTo q pn = Ok q' /\ queue_ok q' /\ (abs q', true) = spec_op (abs q) (QRemoveUpTo pn).
Proof.
  intros Hq Hpn. unfold RemoveUpTo. cbn [spec_op abs table newest].
  destruct (queue_cases q Hq) as [(-> & _ & Ec)|(He & Hne & Hf & Hl & _)].
  { exists Queue_init. split; [done|]. split; [apply queue_ok_init|]. rewrite Ec, map_filter_empty. done. }
  unfold entry_slots_used in *. rewrite He.
  destruct (drop_below_spec pn (entries_ q) (first_packet_ q)) as (es' & first' & E & Ht & Hl' & He'); [lia..|].
  rewrite <- (qo_count q Hq) in E. destruct q as [es n first]. cbn [entries_ number_of_present_entries_ first_packet_] in *. rewrite E. cbn [rbind].
  destruct (Cleanup_spec es' (present_count es') first') as (q' & -> & Hq' & Ec' & El); [lia|lia|done|].
  exists q'. split; [done|]. split; [done|]. f_equal. apply abs_trim; [done|by rewrite Ec'|].
  intros Hx. rewrite (El Hx). f_equal. lia.
Qed.

Lemma queue_op_refines q op : queue_ok q -> 0 <= queue_op_number op < 2 ^ 48 ->
  exists q' b, apply_queue_op q op = Ok (q', b) /\ queue_ok q' /\ (abs q', b) = spec_op (abs q) op.
Proof.
  intros Hq Hn. destruct op as [pn x|pn|pn]; cbn [queue_op_number apply_queue_op] in *.
  - by apply Emplace_spec.
  - destruct (Remove_spec q pn Hq Hn) as (q' & r & -> & _ & Hq' & E). exists q', (bool_decide (is_Some r)). done.
  - destruct (RemoveUpTo_spec q pn Hq Hn) as (q' & -> & Hq' & E). exists q', true. done.
Qed.

(** ** Runs *)

Fixpoint run_queue q (ops : list queue_op) : result (PacketNumberIndexedQueue T * list bool) :=
  match ops with
  | [] => Ok (q, [])
  | op :: ops => let* r := apply_queue_op q op in let* r' := run_queue r.1 ops in Ok (r'.1, r.2 :: r'.2)
  end.
Fixpoint run_table (t : packet_table) (ops : list queue_op) : packet_table * list bool :=
  match ops with
  | [] => (t, [])
  | op :: ops => let r := spec_op t op in let r' := run_table r.1 ops in (r'.1, r.2 :: r'.2)
  end.

(** C24. The queue is a finite map: after any sequence of insertions and removals
    from the empty queue, no operation has failed a check, each has reported
    the success that the operation on a finite map reports (insertions
    succeed exactly above the last number inserted since the map was empty), and
    [GetEntry] finds exactly the entries of that map. *)
Theorem queue_refines_table ops : Forall (fun op => 0 <= queue_op_number op < 2 ^ 48) ops ->
  exists q bs, run_queue Queue_init ops = Ok (q, bs) /\ (abs q, bs) = run_table (mkTable ∅ None) ops /\
    forall pn, 0 <= pn <= 2 ^ 48 -> GetEntry q pn = Ok (table (run_table (mkTable ∅ None) ops).1 !! pn).
Proof.
  intros Hops.
  assert (Hrun : forall q, queue_ok q -> exists q' bs, run_queue q ops = Ok (q', bs) /\ queue_ok q' /\ (abs q', bs) = run_table (abs q) ops).
  { induction Hops as [|op ops Hn _ IH]; intros q Hq; cbn [run_queue run_table]; [by exists q, []|].
    destruct (queue_op_refines q op Hq Hn) as (q1 & b & -> & Hq1 & E1). cbn [rbind fst snd].
    destruct (IH q1 Hq1) as (q2 & bs & -> & Hq2 & E2). cbn [rbind fst snd]. exists q2, (b :: bs).
    rewrite <- E1. cbn [fst snd]. by rewrite <- E2. }
  destruct (Hrun Queue_init queue_ok_init) as (q & bs & E & Hq & Es). change (abs Queue_init) with (mkTable ∅ None) in Es.
  exists q, bs. split; [done|]. split; [done|]. intros pn Hpn. rewrite GetEntry_spec by done. by rewrite <- Es.
Qed.

End Queue.

#[local] Instance Z_default : Default Z := 0.

Lemma queue_refines_table_witness :
  exists q, run_queue Queue_init [QEmplace 3 30; QEmplace 6 60; QEmplace 4 40; QRemove 3; QRemove 3; QEmplace 9 90; QRemoveUpTo 5] =
      Ok (q, [true; true; false; true; false; true; true]) /\
    GetEntry q 6 = Ok (Some 60) /\ GetEntry q 7 = Ok None.
Proof.
  destruct (queue_refines_table [QEmplace 3 30; QEmplace 6 60; QEmplace 4 40; QRemove 3; QRemove 3; QEmplace 9 90; QRemoveUpTo 5])
    as (q & bs & E & Es & Hg); [do 7 (apply Forall_cons; split; [cbn; lia|]); constructor|].
  exists q. rewrite E, !Hg by lia. split; [f_equal; f_equal; exact (f_equal snd Es)|]. split; reflexivity.
Defined.
