(* ===== verification/BandwidthSampler.v ===== *)
(** [BandwidthSampler] (bandwidth_sampler.h, bandwidth_sampler.cc): a bandwidth
    sample for every packet acknowledged, the lower of the rate at which data was
    sent and the rate at which it was acknowledged since the last
    acknowledgment before the packet was sent.

    The unacked packet map the sampler holds is used in a log message only and
    is left out. *)

From stdpp Require Import gmap relations.
From Stdlib Require Import SpecFloat.
From S2P Require Import Prelude MapSum Float QuicTime PacketNumber WindowedFilter RttStats SendAlgorithm IndexedQueue.

(** src/quiche/gquiche/quic/core/quic_protocol_flags_list.h:107-109 [quic_max_tracked_packet_count] *)
Definition FLAGS_quic_max_tracked_packet_count : Z := 10000.
(** src/quiche/gquiche/quic/core/quic_protocol_flags_list.h:171-175 [quic_ack_aggregation_bandwidth_threshold] *)
Definition FLAGS_quic_ack_aggregation_bandwidth_threshold : spec_float := f64_of_Z 1.

(** src/quiche/gquiche/quic/core/congestion_control/bandwidth_sampler.h:54-76 [SendTimeState] *)
Record SendTimeState := mkSendState {
  is_valid : bool;
  is_app_limited : bool;
  total_bytes_sent : Z;
  total_bytes_acked : Z;
  total_bytes_lost : Z;
  bytes_in_flight : Z;
}.
#[export] Instance eta_SendTimeState : Eta SendTimeState := MkEta _ (fun s =>
  mkSendState (is_valid s) (is_app_limited s) (total_bytes_sent s) (total_bytes_acked s) (total_bytes_lost s) (bytes_in_flight s)).
(** src/quiche/gquiche/quic/core/congestion_control/bandwidth_sampler.h:29-35 [SendTimeState::SendTimeState] *)
Definition SendTimeState_default : SendTimeState := mkSendState false false 0 0 0 0.
(** src/quiche/gquiche/quic/core/congestion_control/bandwidth_sampler.h:37-47 [SendTimeState::SendTimeState(bool, QuicByteCount...)] *)
Definition SendTimeState_mk (app_limited : bool) (sent acked lost in_flight : Z) : SendTimeState :=
  mkSendState true app_limited sent acked lost in_flight.

(** src/quiche/gquiche/quic/core/congestion_control/bandwidth_sampler.h:79-93 [BandwidthSample] *)
Record BandwidthSample := mkBwSample {
  bandwidth : Z;
  sample_packet_rtt : Delta;
  state_at_send : SendTimeState;
}.
Definition BandwidthSample_default : BandwidthSample := mkBwSample QuicBandwidth_Zero Delta_Zero SendTimeState_default.

(** * MaxAckHeightTracker *)

(** src/quiche/gquiche/quic/core/congestion_control/bandwidth_sampler.h:136-145 [MaxAckHeightTracker] *)
Record MaxAckHeightTracker := mkTracker {
  max_ack_height_filter_ : WindowedFilter;
  aggregation_epoch_start_time_ : QuicTime;
  aggregation_epoch_bytes_ : Z;
  num_ack_aggregation_epochs_ : Z;
  ack_aggregation_bandwidth_threshold_ : spec_float;
}.
#[export] Instance eta_Tracker : Eta MaxAckHeightTracker := MkEta _ (fun t =>
  mkTracker (max_ack_height_filter_ t) (aggregation_epoch_start_time_ t) (aggregation_epoch_bytes_ t)
    (num_ack_aggregation_epochs_ t) (ack_aggregation_bandwidth_threshold_ t)).
(** src/quiche/gquiche/quic/core/congestion_control/bandwidth_sampler.h:99-100 [MaxAckHeightTracker::MaxAckHeightTracker] *)
Definition MaxAckHeightTracker_init (initial_filter_window : Z) : MaxAckHeightTracker :=
  mkTracker (WindowedFilter_init initial_filter_window 0 0) QuicTime_Zero 0 0
    FLAGS_quic_ack_aggregation_bandwidth_threshold.
(** src/quiche/gquiche/quic/core/congestion_control/bandwidth_sampler.h:102-102 [MaxAckHeightTracker::Get] *)
Definition Tracker_Get (t : MaxAckHeightTracker) : Z := GetBest (max_ack_height_filter_ t).
(** src/quiche/gquiche/quic/core/congestion_control/bandwidth_sampler.h:109-111 [MaxAckHeightTracker::SetFilterWindowLength] *)
Definition SetFilterWindowLength (t : MaxAckHeightTracker) (length : Z) : MaxAckHeightTracker :=
  t <| max_ack_height_filter_ := SetWindowLength (max_ack_height_filter_ t) length |>.
(** src/quiche/gquiche/quic/core/congestion_control/bandwidth_sampler.h:113-115 [MaxAckHeightTracker::Reset] *)
Definition Tracker_Reset (t : MaxAckHeightTracker) (new_height new_time : Z) : MaxAckHeightTracker :=
  t <| max_ack_height_filter_ := WindowedFilter.Reset (max_ack_height_filter_ t) new_height new_time |>.
(** src/quiche/gquiche/quic/core/congestion_control/bandwidth_sampler.h:117-119 [MaxAckHeightTracker::SetAckAggregationBandwidthThreshold] *)
Definition SetAckAggregationBandwidthThreshold (t : MaxAckHeightTracker) (threshold : spec_float) : MaxAckHeightTracker :=
  t <| ack_aggregation_bandwidth_threshold_ := threshold |>.

(** src/quiche/gquiche/quic/core/congestion_control/bandwidth_sampler.cc:57-61 [MaxAckHeightTracker::Update, new epoch], also lines 31-35. *)
Definition new_epoch (t : MaxAckHeightTracker) (ack_time : QuicTime) (bytes_acked : Z) : MaxAckHeightTracker :=
  t <| aggregation_epoch_bytes_ := bytes_acked |> <| aggregation_epoch_start_time_ := ack_time |>
    <| num_ack_aggregation_epochs_ := num_ack_aggregation_epochs_ t ⊕ 1 |>.
(** src/quiche/gquiche/quic/core/congestion_control/bandwidth_sampler.cc:26-78 [MaxAckHeightTracker::Update] *)
Definition Tracker_Update (t : MaxAckHeightTracker) (bandwidth_estimate round_trip_count : Z) (ack_time : QuicTime) (bytes_acked : Z)
    : MaxAckHeightTracker * Z :=
  if aggregation_epoch_start_time_ t =? QuicTime_Zero then (new_epoch t ack_time bytes_acked, 0)
  else
    let expected_bytes_acked := ToBytesPerPeriod bandwidth_estimate (QuicTime_diff ack_time (aggregation_epoch_start_time_ t)) in
    if SFleb (f64_of_Z (aggregation_epoch_bytes_ t))
         (f64_mul (ack_aggregation_bandwidth_threshold_ t) (f64_of_Z expected_bytes_acked))
    then (new_epoch t ack_time bytes_acked, 0)
    else
      let t := t <| aggregation_epoch_bytes_ := aggregation_epoch_bytes_ t ⊕ bytes_acked |> in
      let extra_bytes_acked := aggregation_epoch_bytes_ t ⊖ expected_bytes_acked in
      (t <| max_ack_height_filter_ := Update MaxFilter (max_ack_height_filter_ t) extra_bytes_acked round_trip_count |>,
       extra_bytes_acked).

(** * Ack points *)

(** src/quiche/gquiche/quic/core/congestion_control/bandwidth_sampler.h:358-366 [BandwidthSampler::AckPoint] *)
Record AckPoint := mkAckPoint { point_ack_time : QuicTime; point_total_bytes_acked : Z }.
Definition AckPoint_default : AckPoint := mkAckPoint QuicTime_Zero 0.

(** src/quiche/gquiche/quic/core/congestion_control/bandwidth_sampler.h:400-400 [BandwidthSampler::RecentAckPoints] *)
Record RecentAckPoints := mkRecent { ack_points_0 : AckPoint; ack_points_1 : AckPoint }.
(** src/quiche/gquiche/quic/core/congestion_control/bandwidth_sampler.h:371-385 [RecentAckPoints::Update] *)
Definition Recent_Update (r : RecentAckPoints) (ack_time : QuicTime) (total_bytes_acked : Z) : result RecentAckPoints :=
  let* _ := CHECK (point_total_bytes_acked (ack_points_1 r) <=? total_bytes_acked) in
  let p0 := if point_ack_time (ack_points_1 r) <? ack_time then ack_points_1 r else ack_points_0 r in
  Ok (mkRecent p0 (mkAckPoint ack_time total_bytes_acked)).
(** src/quiche/gquiche/quic/core/congestion_control/bandwidth_sampler.h:387-387 [RecentAckPoints::Clear] *)
Definition Recent_Clear : RecentAckPoints := mkRecent AckPoint_default AckPoint_default.
(** src/quiche/gquiche/quic/core/congestion_control/bandwidth_sampler.h:389-389 [RecentAckPoints::MostRecentPoint] *)
Definition MostRecentPoint (r : RecentAckPoints) : AckPoint := ack_points_1 r.
(** src/quiche/gquiche/quic/core/congestion_control/bandwidth_sampler.h:391-397 [RecentAckPoints::LessRecentPoint] *)
Definition LessRecentPoint (r : RecentAckPoints) : AckPoint :=
  if negb (point_total_bytes_acked (ack_points_0 r) =? 0) then ack_points_0 r else ack_points_1 r.

(** * The sampler *)

(** src/quiche/gquiche/quic/core/congestion_control/bandwidth_sampler.h:415-436 [BandwidthSampler::ConnectionStateOnSentPacket] *)
Record ConnectionStateOnSentPacket := mkSentPacket {
  packet_sent_time : QuicTime;
  size : Z;
  total_bytes_sent_at_last_acked_packet : Z;
  last_acked_packet_sent_time : QuicTime;
  last_acked_packet_ack_time : QuicTime;
  send_time_state : SendTimeState;
}.
(** src/quiche/gquiche/quic/core/congestion_control/bandwidth_sampler.h:459-464 [ConnectionStateOnSentPacket::ConnectionStateOnSentPacket] *)
#[export] Instance ConnectionStateOnSentPacket_default : Default ConnectionStateOnSentPacket :=
  mkSentPacket QuicTime_Zero 0 0 QuicTime_Zero QuicTime_Zero SendTimeState_default.

(** src/quiche/gquiche/quic/core/congestion_control/bandwidth_sampler.h:504-564 [BandwidthSampler] *)
Record BandwidthSampler := mkSampler {
  total_bytes_sent_ : Z;
  total_bytes_acked_ : Z;
  total_bytes_lost_ : Z;
  total_bytes_neutered_ : Z;
  total_bytes_sent_at_last_acked_packet_ : Z;
  last_acked_packet_sent_time_ : QuicTime;
  last_acked_packet_ack_time_ : QuicTime;
  last_sent_packet_ : QuicPacketNumber;
  is_app_limited_ : bool;
  end_of_app_limited_phase_ : QuicPacketNumber;
  connection_state_map_ : PacketNumberIndexedQueue ConnectionStateOnSentPacket;
  recent_ack_points_ : RecentAckPoints;
  a0_candidates_ : list AckPoint;
  max_tracked_packets_ : Z;
  max_ack_height_tracker_ : MaxAckHeightTracker;
  total_bytes_acked_after_last_ack_event_ : Z;
  overestimate_avoidance_ : bool;
}.
#[export] Instance eta_Sampler : Eta BandwidthSampler := MkEta _ (fun s =>
  mkSampler (total_bytes_sent_ s) (total_bytes_acked_ s) (total_bytes_lost_ s) (total_bytes_neutered_ s)
    (total_bytes_sent_at_last_acked_packet_ s) (last_acked_packet_sent_time_ s) (last_acked_packet_ack_time_ s)
    (last_sent_packet_ s) (is_app_limited_ s) (end_of_app_limited_phase_ s) (connection_state_map_ s)
    (recent_ack_points_ s) (a0_candidates_ s) (max_tracked_packets_ s) (max_ack_height_tracker_ s)
    (total_bytes_acked_after_last_ack_event_ s) (overestimate_avoidance_ s)).

(** src/quiche/gquiche/quic/core/congestion_control/bandwidth_sampler.cc:80-96 [BandwidthSampler::BandwidthSampler] *)
Definition BandwidthSampler_init (max_height_tracker_window_length : Z) : BandwidthSampler :=
  mkSampler 0 0 0 0 0 QuicTime_Zero QuicTime_Zero QuicPacketNumber_default true QuicPacketNumber_default Queue_init
    Recent_Clear [] FLAGS_quic_max_tracked_packet_count (MaxAckHeightTracker_init max_height_tracker_window_length) 0 false.
(** src/quiche/gquiche/quic/core/congestion_control/bandwidth_sampler.cc:98-118 [BandwidthSampler::BandwidthSampler(const BandwidthSampler&)] *)
Definition BandwidthSampler_copy (other : BandwidthSampler) : BandwidthSampler :=
  mkSampler (total_bytes_sent_ other) (total_bytes_acked_ other) (total_bytes_lost_ other) (total_bytes_neutered_ other)
    (total_bytes_sent_at_last_acked_packet_ other) (last_acked_packet_sent_time_ other) (last_acked_packet_ack_time_ other)
    (last_sent_packet_ other) (is_app_limited_ other) (end_of_app_limited_phase_ other) (connection_state_map_ other)
    (recent_ack_points_ other) (a0_candidates_ other) (max_tracked_packets_ other) (max_ack_height_tracker_ other)
    (total_bytes_acked_after_last_ack_event_ other) (overestimate_avoidance_ other).

(** src/quiche/gquiche/quic/core/congestion_control/bandwidth_sampler.cc:120-129 [BandwidthSampler::EnableOverestimateAvoidance] *)
Definition EnableOverestimateAvoidance (s : BandwidthSampler) : BandwidthSampler :=
  if overestimate_avoidance_ s then s
  else s <| overestimate_avoidance_ := true |>
         <| max_ack_height_tracker_ := SetAckAggregationBandwidthThreshold (max_ack_height_tracker_ s) (f64_of_Z 2) |>.

(** src/quiche/gquiche/quic/core/congestion_control/bandwidth_sampler.h:441-455 [ConnectionStateOnSentPacket::ConnectionStateOnSentPacket(QuicTime, QuicByteCount, QuicByteCount, const BandwidthSampler&)] *)
Definition ConnectionStateOnSentPacket_mk (sent_time : QuicTime) (size in_flight : Z) (sampler : BandwidthSampler)
    : ConnectionStateOnSentPacket :=
  mkSentPacket sent_time size (total_bytes_sent_at_last_acked_packet_ sampler) (last_acked_packet_sent_time_ sampler)
    (last_acked_packet_ack_time_ sampler)
    (SendTimeState_mk (is_app_limited_ sampler) (total_bytes_sent_ sampler) (total_bytes_acked_ sampler)
       (total_bytes_lost_ sampler) in_flight).

(** src/quiche/gquiche/quic/core/congestion_control/bandwidth_sampler.cc:147-165 [BandwidthSampler::OnPacketSent, leaving quiescence] *)
Definition start_of_flight (s : BandwidthSampler) (sent_time : QuicTime) : result BandwidthSampler :=
  let s := s <| last_acked_packet_ack_time_ := sent_time |> in
  let* s :=
    if overestimate_avoidance_ s then
      let* points := Recent_Update Recent_Clear sent_time (total_bytes_acked_ s) in
      Ok (s <| recent_ack_points_ := points |> <| a0_candidates_ := [MostRecentPoint points] |>)
    else Ok s in
  Ok (s <| total_bytes_sent_at_last_acked_packet_ := total_bytes_sent_ s |>
        <| last_acked_packet_sent_time_ := sent_time |>).

(** src/quiche/gquiche/quic/core/congestion_control/bandwidth_sampler.cc:133-211 [BandwidthSampler::OnPacketSent].  Both branches of the report of too many tracked packets fail. *)
Definition Sampler_OnPacketSent (s : BandwidthSampler) (sent_time : QuicTime) (packet_number : QuicPacketNumber)
    (bytes in_flight : Z) (has_retransmittable_data : HasRetransmittableData) : result BandwidthSampler :=
  let s := s <| last_sent_packet_ := packet_number |> in
  if bool_decide (has_retransmittable_data <> HAS_RETRANSMITTABLE_DATA) then Ok s
  else
    let s := s <| total_bytes_sent_ := total_bytes_sent_ s ⊕ bytes |> in
    let* s := if in_flight =? 0 then start_of_flight s sent_time else Ok s in
    let* too_many :=
      if negb (IsEmpty (connection_state_map_ s)) then
        let* last := last_packet (connection_state_map_ s) in
        let* limit := PN_add last (max_tracked_packets_ s) in
        PN_gt packet_number limit
      else Ok false in
    let* _ := CHECK (negb too_many) in
    let* r := Emplace (connection_state_map_ s) packet_number
                (ConnectionStateOnSentPacket_mk sent_time bytes (in_flight ⊕ bytes) s) in
    let* _ := CHECK r.2 in
    Ok (s <| connection_state_map_ := r.1 |>).

(** src/quiche/gquiche/quic/core/congestion_control/bandwidth_sampler.cc:213-219 [BandwidthSampler::OnPacketNeutered] *)
Definition Sampler_OnPacketNeutered (s : BandwidthSampler) (packet_number : QuicPacketNumber) : result BandwidthSampler :=
  let* r := Remove (connection_state_map_ s) packet_number in
  let s := match r.2 with
    | Some sent_packet => s <| total_bytes_neutered_ := total_bytes_neutered_ s ⊕ size sent_packet |>
    | None => s end in
  Ok (s <| connection_state_map_ := r.1 |>).

(** src/quiche/gquiche/quic/core/congestion_control/bandwidth_sampler.cc:475-480 [BandwidthSampler::SentPacketToSendTimeState] *)
Definition SentPacketToSendTimeState (sent_packet : ConnectionStateOnSentPacket) : SendTimeState :=
  send_time_state sent_packet <| is_valid := true |>.

(** src/quiche/gquiche/quic/core/congestion_control/bandwidth_sampler.cc:458-473 [BandwidthSampler::OnPacketLost] *)
Definition Sampler_OnPacketLost (s : BandwidthSampler) (packet_number : QuicPacketNumber) (lost_bytes : Z)
    : result (BandwidthSampler * SendTimeState) :=
  let s := s <| total_bytes_lost_ := total_bytes_lost_ s ⊕ lost_bytes |> in
  let* sent_packet := GetEntry (connection_state_map_ s) packet_number in
  Ok (s, match sent_packet with
         | Some p => SentPacketToSendTimeState p
         | None => SendTimeState_default end).

(** src/quiche/gquiche/quic/core/congestion_control/bandwidth_sampler.cc:442-454 [BandwidthSampler::ChooseA0Point, loop].  [prev] is the candidate before the rest; with the point chosen, the
    candidates that stay: those before it are popped. *)
Fixpoint choose_a0 (total_bytes_acked : Z) (prev : AckPoint) (rest : list AckPoint) : AckPoint * list AckPoint :=
  match rest with
  | [] => (prev, [prev])
  | next :: rest' =>
      if total_bytes_acked <? point_total_bytes_acked next then (prev, prev :: rest)
      else choose_a0 total_bytes_acked next rest'
  end.
(** src/quiche/gquiche/quic/core/congestion_control/bandwidth_sampler.cc:429-456 [BandwidthSampler::ChooseA0Point] *)
Definition ChooseA0Point (s : BandwidthSampler) (total_bytes_acked : Z) : result (BandwidthSampler * AckPoint) :=
  match a0_candidates_ s with
  | [] => Fault CheckFailed
  | front :: rest =>
      let r := choose_a0 total_bytes_acked front rest in
      Ok (s <| a0_candidates_ := r.2 |>, r.1)
  end.

(** src/quiche/gquiche/quic/core/congestion_control/bandwidth_sampler.cc:334-352 [BandwidthSampler::OnPacketAcknowledgedInner, totals] *)
Definition record_ack (s : BandwidthSampler) (ack_time : QuicTime) (packet_number : QuicPacketNumber)
    (sent_packet : ConnectionStateOnSentPacket) : result BandwidthSampler :=
  let s := s <| total_bytes_acked_ := total_bytes_acked_ s ⊕ size sent_packet |>
             <| total_bytes_sent_at_last_acked_packet_ := total_bytes_sent (send_time_state sent_packet) |>
             <| last_acked_packet_sent_time_ := packet_sent_time sent_packet |>
             <| last_acked_packet_ack_time_ := ack_time |> in
  let* s :=
    if overestimate_avoidance_ s then
      let* points := Recent_Update (recent_ack_points_ s) ack_time (total_bytes_acked_ s) in
      Ok (s <| recent_ack_points_ := points |>)
    else Ok s in
  if is_app_limited_ s then
    let* leave :=
      if negb (PN_IsInitialized (end_of_app_limited_phase_ s)) then Ok true
      else PN_gt packet_number (end_of_app_limited_phase_ s) in
    Ok (if leave then s <| is_app_limited_ := false |> else s)
  else Ok s.

(** src/quiche/gquiche/quic/core/congestion_control/bandwidth_sampler.cc:330-427 [BandwidthSampler::OnPacketAcknowledgedInner] *)
Definition OnPacketAcknowledgedInner (s : BandwidthSampler) (ack_time : QuicTime) (packet_number : QuicPacketNumber)
    (sent_packet : ConnectionStateOnSentPacket) : result (BandwidthSampler * BandwidthSample) :=
  let* s := record_ack s ack_time packet_number sent_packet in
  let* _ := CHECK (negb (last_acked_packet_sent_time sent_packet =? QuicTime_Zero)) in
  let* send_rate :=
    if last_acked_packet_sent_time sent_packet <? packet_sent_time sent_packet then
      FromBytesAndTimeDelta
        (total_bytes_sent (send_time_state sent_packet) ⊖ total_bytes_sent_at_last_acked_packet sent_packet)
        (QuicTime_diff (packet_sent_time sent_packet) (last_acked_packet_sent_time sent_packet))
    else Ok QuicBandwidth_Infinite in
  let* r :=
    if overestimate_avoidance_ s then ChooseA0Point s (total_bytes_acked (send_time_state sent_packet))
    else Ok (s, mkAckPoint (last_acked_packet_ack_time sent_packet) (total_bytes_acked (send_time_state sent_packet))) in
  let '(s, a0) := r in
  if ack_time <=? point_ack_time a0 then Ok (s, BandwidthSample_default)
  else
    let* ack_rate := FromBytesAndTimeDelta (total_bytes_acked_ s ⊖ point_total_bytes_acked a0)
                       (QuicTime_diff ack_time (point_ack_time a0)) in
    Ok (s, mkBwSample (Z.min send_rate ack_rate) (QuicTime_diff ack_time (packet_sent_time sent_packet))
             (SentPacketToSendTimeState sent_packet)).

(** src/quiche/gquiche/quic/core/congestion_control/bandwidth_sampler.cc:316-328 [BandwidthSampler::OnPacketAcknowledged] *)
Definition OnPacketAcknowledged (s : BandwidthSampler) (ack_time : QuicTime) (packet_number : QuicPacketNumber)
    : result (BandwidthSampler * BandwidthSample) :=
  let* sent_packet := GetEntry (connection_state_map_ s) packet_number in
  match sent_packet with
  | None => Ok (s, BandwidthSample_default)
  | Some sent_packet => OnPacketAcknowledgedInner s ack_time packet_number sent_packet
  end.

(** src/quiche/gquiche/quic/core/congestion_control/bandwidth_sampler.cc:292-314 [BandwidthSampler::OnAckEventEnd] *)
Definition OnAckEventEnd (s : BandwidthSampler) (bandwidth_estimate round_trip_count : Z) : BandwidthSampler * Z :=
  let newly_acked_bytes := total_bytes_acked_ s ⊖ total_bytes_acked_after_last_ack_event_ s in
  if newly_acked_bytes =? 0 then (s, 0)
  else
    let s := s <| total_bytes_acked_after_last_ack_event_ := total_bytes_acked_ s |> in
    let '(tracker, extra_acked) := Tracker_Update (max_ack_height_tracker_ s) bandwidth_estimate round_trip_count
                                     (last_acked_packet_ack_time_ s) newly_acked_bytes in
    let s := s <| max_ack_height_tracker_ := tracker |> in
    (if overestimate_avoidance_ s && (extra_acked =? 0)
     then s <| a0_candidates_ := a0_candidates_ s ++ [LessRecentPoint (recent_ack_points_ s)] |> else s,
     extra_acked).

(** src/quiche/gquiche/quic/core/congestion_control/bandwidth_sampler.h:167-187 [BandwidthSamplerInterface::CongestionEventSample] *)
Record CongestionEventSample := mkEventSample {
  sample_max_bandwidth : Z;
  sample_is_app_limited : bool;
  sample_rtt : Delta;
  sample_max_inflight : Z;
  last_packet_send_state : SendTimeState;
  extra_acked : Z;
}.
#[export] Instance eta_EventSample : Eta CongestionEventSample := MkEta _ (fun e =>
  mkEventSample (sample_max_bandwidth e) (sample_is_app_limited e) (sample_rtt e) (sample_max_inflight e)
    (last_packet_send_state e) (extra_acked e)).
Definition CongestionEventSample_init : CongestionEventSample :=
  mkEventSample QuicBandwidth_Zero false Delta_Infinite 0 SendTimeState_default 0.

(** src/quiche/gquiche/quic/core/congestion_control/bandwidth_sampler.cc:232-238 [BandwidthSampler::OnCongestionEvent, lost packets] *)
Definition event_lost (st : BandwidthSampler * SendTimeState) (packet : LostPacket) : result (BandwidthSampler * SendTimeState) :=
  let* r := Sampler_OnPacketLost st.1 (lost_packet_number packet) (bytes_lost packet) in
  Ok (r.1, if is_valid r.2 then r.2 else st.2).

(** The variables of the loop over acked packets. *)
Record ack_loop := mkAckLoop { al_sampler : BandwidthSampler; al_event : CongestionEventSample; al_last : SendTimeState }.
(** src/quiche/gquiche/quic/core/congestion_control/bandwidth_sampler.cc:247-268 [BandwidthSampler::OnCongestionEvent, acked packets] *)
Definition event_acked (ack_time : QuicTime) (st : ack_loop) (packet : AckedPacket) : result ack_loop :=
  let* r := OnPacketAcknowledged (al_sampler st) ack_time (acked_packet_number packet) in
  let '(s, smp) := r in
  if negb (is_valid (state_at_send smp)) then Ok (mkAckLoop s (al_event st) (al_last st))
  else
    let e := al_event st in
    let e := if negb (Delta_IsZero (sample_packet_rtt smp)) then e <| sample_rtt := Z.min (sample_rtt e) (sample_packet_rtt smp) |> else e in
    let e := if sample_max_bandwidth e <? bandwidth smp
      then e <| sample_max_bandwidth := bandwidth smp |> <| sample_is_app_limited := is_app_limited (state_at_send smp) |> else e in
    let inflight_sample := total_bytes_acked_ s ⊖ total_bytes_acked (state_at_send smp) in
    let e := if sample_max_inflight e <? inflight_sample then e <| sample_max_inflight := inflight_sample |> else e in
    Ok (mkAckLoop s e (state_at_send smp)).

(** src/quiche/gquiche/quic/core/congestion_control/bandwidth_sampler.cc:270-282 [BandwidthSampler::OnCongestionEvent, send state] *)
Definition event_send_state (acked : list AckedPacket) (lost : list LostPacket) (last_lost last_acked : SendTimeState)
    : result SendTimeState :=
  if negb (is_valid last_lost) then Ok last_acked
  else if negb (is_valid last_acked) then Ok last_lost
  else match last lost, last acked with
       | Some l, Some a =>
           let* gt := PN_gt (lost_packet_number l) (acked_packet_number a) in
           Ok (if gt then last_lost else last_acked)
       | _, _ => Fault OutOfBounds
       end.

(** src/quiche/gquiche/quic/core/congestion_control/bandwidth_sampler.cc:222-290 [BandwidthSampler::OnCongestionEvent] *)
Definition Sampler_OnCongestionEvent (s : BandwidthSampler) (ack_time : QuicTime) (acked : list AckedPacket)
    (lost : list LostPacket) (max_bandwidth est_bandwidth_upper_bound round_trip_count : Z)
    : result (BandwidthSampler * CongestionEventSample) :=
  let* r := rfold event_lost lost (s, SendTimeState_default) in
  let '(s, last_lost) := r in
  match acked with
  | [] => Ok (s, CongestionEventSample_init <| last_packet_send_state := last_lost |>)
  | _ :: _ =>
      let* st := rfold (event_acked ack_time) acked (mkAckLoop s CongestionEventSample_init SendTimeState_default) in
      let* send_state := event_send_state acked lost last_lost (al_last st) in
      let e := al_event st <| last_packet_send_state := send_state |> in
      let max_bandwidth := Z.max max_bandwidth (sample_max_bandwidth e) in
      let '(s, extra) := OnAckEventEnd (al_sampler st) (Z.min est_bandwidth_upper_bound max_bandwidth) round_trip_count in
      Ok (s, e <| extra_acked := extra |>)
  end.

(** src/quiche/gquiche/quic/core/congestion_control/bandwidth_sampler.cc:482-485 [BandwidthSampler::OnAppLimited] *)
Definition OnAppLimited (s : BandwidthSampler) : BandwidthSampler :=
  s <| is_app_limited_ := true |> <| end_of_app_limited_phase_ := last_sent_packet_ s |>.
(** src/quiche/gquiche/quic/core/congestion_control/bandwidth_sampler.cc:487-494 [BandwidthSampler::RemoveObsoletePackets] *)
Definition Sampler_RemoveObsoletePackets (s : BandwidthSampler) (least_unacked : QuicPacketNumber) : result BandwidthSampler :=
  let* q := RemoveUpTo (connection_state_map_ s) least_unacked in
  Ok (s <| connection_state_map_ := q |>).
(** src/quiche/gquiche/quic/core/congestion_control/bandwidth_sampler.h:342-342 [BandwidthSampler::max_ack_height] *)
Definition max_ack_height (s : BandwidthSampler) : Z := Tracker_Get (max_ack_height_tracker_ s).
(** src/quiche/gquiche/quic/core/congestion_control/bandwidth_sampler.h:344-346 [BandwidthSampler::num_ack_aggregation_epochs] *)
Definition num_ack_aggregation_epochs (s : BandwidthSampler) : Z := num_ack_aggregation_epochs_ (max_ack_height_tracker_ s).
(** src/quiche/gquiche/quic/core/congestion_control/bandwidth_sampler.h:348-350 [BandwidthSampler::SetMaxAckHeightTrackerWindowLength] *)
Definition SetMaxAckHeightTrackerWindowLength (s : BandwidthSampler) (length : Z) : BandwidthSampler :=
  s <| max_ack_height_tracker_ := SetFilterWindowLength (max_ack_height_tracker_ s) length |>.
(** src/quiche/gquiche/quic/core/congestion_control/bandwidth_sampler.h:352-355 [BandwidthSampler::ResetMaxAckHeightTracker] *)
Definition ResetMaxAckHeightTracker (s : BandwidthSampler) (new_height new_time : Z) : BandwidthSampler :=
  s <| max_ack_height_tracker_ := Tracker_Reset (max_ack_height_tracker_ s) new_height new_time |>.

(** * Samples are exact

    A connection sends packets in order, acknowledges or loses each tracked packet
    at most once, and its clock does not go back.  The ghost state [g] maps
    the packets neither acknowledged, lost nor neutered yet to their sizes. *)

(** What is known of a tracked packet. *)
Record packet_ok (s : BandwidthSampler) (now : QuicTime) (e : ConnectionStateOnSentPacket) : Prop := {
  po_size : 0 < size e;
  po_sent : 0 < last_acked_packet_sent_time e <= packet_sent_time e /\ packet_sent_time e <= now;
  po_acked : 0 < last_acked_packet_ack_time e <= packet_sent_time e;
  po_bytes_sent : 0 <= total_bytes_sent_at_last_acked_packet e <= total_bytes_sent (send_time_state e) /\
    total_bytes_sent (send_time_state e) <= total_bytes_sent_ s;
  po_bytes_acked : 0 <= total_bytes_acked (send_time_state e) <= total_bytes_acked_ s;
  po_valid : is_valid (send_time_state e) = true;
  po_in_flight : 0 <= bytes_in_flight (send_time_state e) < two64;
}.
Definition point_ok (s : BandwidthSampler) (now : QuicTime) (p : AckPoint) : Prop :=
  0 <= point_ack_time p <= now /\ 0 <= point_total_bytes_acked p <= total_bytes_acked_ s.

Record sampler_core (s : BandwidthSampler) (now : QuicTime) : Prop := {
  sc_queue : queue_ok (connection_state_map_ s);
  sc_entries : map_Forall (fun _ e => packet_ok s now e) (contents (connection_state_map_ s));
  sc_now : 0 <= now < 2 ^ 61;
  sc_bytes : 0 <= total_bytes_acked_ s <= total_bytes_sent_ s /\ total_bytes_sent_ s < 2 ^ 40;
  sc_quiet : total_bytes_sent_ s = 0 -> contents (connection_state_map_ s) = ∅;
  sc_at_last : 0 <= total_bytes_sent_at_last_acked_packet_ s <= total_bytes_sent_ s;
  sc_times : 0 < total_bytes_sent_ s ->
    0 < last_acked_packet_sent_time_ s <= now /\ 0 < last_acked_packet_ack_time_ s <= now;
  sc_recent : point_ok s now (ack_points_0 (recent_ack_points_ s)) /\ point_ok s now (ack_points_1 (recent_ack_points_ s));
  sc_candidates : Forall (point_ok s now) (a0_candidates_ s);
  sc_started : overestimate_avoidance_ s = true -> 0 < total_bytes_sent_ s -> a0_candidates_ s <> [];
  sc_limit : max_tracked_packets_ s = 10000;
}.

Record sampler_ghost (s : BandwidthSampler) (g : gmap Z Z) : Prop := {
  sg_tracked : forall pn sz, g !! pn = Some sz ->
    exists e, contents (connection_state_map_ s) !! pn = Some e /\ size e = sz;
  sg_lost : 0 <= total_bytes_lost_ s;
  sg_neutered : 0 <= total_bytes_neutered_ s;
  sg_total : total_bytes_acked_ s + total_bytes_lost_ s + total_bytes_neutered_ s + sum_sizes g <= total_bytes_sent_ s;
}.

Lemma sampler_ghost_pos s now g : sampler_core s now -> sampler_ghost s g -> map_Forall (fun _ v => 0 < v) g.
Proof.
  intros Hc Hg pn v Hv. destruct (sg_tracked s g Hg pn v Hv) as (e & He & <-). by apply (po_size s now), (sc_entries s now Hc pn).
Qed.

Lemma packet_ok_mono s s' now now' e : packet_ok s now e -> now <= now' ->
  total_bytes_sent_ s <= total_bytes_sent_ s' -> total_bytes_acked_ s <= total_bytes_acked_ s' -> packet_ok s' now' e.
Proof. intros [] ???. split; (done || lia). Qed.
Lemma point_ok_mono s s' now now' p : point_ok s now p -> now <= now' ->
  total_bytes_acked_ s <= total_bytes_acked_ s' -> point_ok s' now' p.
Proof. unfold point_ok. lia. Qed.

(** The other members do not matter, nor does a change of the candidates that leaves some. *)
Definition same_sampling (s s' : BandwidthSampler) : Prop :=
  connection_state_map_ s' = connection_state_map_ s /\ total_bytes_sent_ s' = total_bytes_sent_ s /\
  total_bytes_acked_ s' = total_bytes_acked_ s /\
  total_bytes_sent_at_last_acked_packet_ s' = total_bytes_sent_at_last_acked_packet_ s /\
  last_acked_packet_sent_time_ s' = last_acked_packet_sent_time_ s /\
  last_acked_packet_ack_time_ s' = last_acked_packet_ack_time_ s /\ recent_ack_points_ s' = recent_ack_points_ s /\
  overestimate_avoidance_ s' = overestimate_avoidance_ s /\ max_tracked_packets_ s' = max_tracked_packets_ s.
Lemma sampler_core_frame s s' now : sampler_core s now -> same_sampling s s' ->
  Forall (point_ok s now) (a0_candidates_ s') -> (a0_candidates_ s <> [] -> a0_candidates_ s' <> []) -> sampler_core s' now.
Proof.
  intros [] (E1 & E2 & E3 & E4 & E5 & E6 & E7 & E8 & E9) Hf Hne. split; rewrite ?E1, ?E2, ?E3, ?E4, ?E5, ?E6, ?E7, ?E8, ?E9; try done.
  - intros k e Hk. eapply packet_ok_mono; [by apply (sc_entries0 k)|lia|lia|lia].
  - unfold point_ok in *. by rewrite E3.
  - unfold point_ok in *. by rewrite E3.
  - intros ??. by apply Hne, sc_started0.
Qed.

(** The rate of [bytes] in [delta] microseconds, in bits per second. *)
Definition rate (bytes delta : Z) : Z := if bytes =? 0 then 0 else Z.max 1 (8000000 * bytes / delta).
Lemma rate_spec bytes delta : 0 <= bytes < 2 ^ 40 -> 0 < delta < two63 -> FromBytesAndTimeDelta bytes delta = Ok (rate bytes delta).
Proof.
  intros Hb Hd. unfold rate. destruct (Z.eqb_spec bytes 0) as [->|]; [done|]. apply FromBytesAndTimeDelta_val; lia.
Qed.

Lemma choose_a0_elem total l : forall p, (choose_a0 total p l).1 ∈ p :: l /\
  (choose_a0 total p l).2 <> [] /\ (choose_a0 total p l).2 ⊆ p :: l.
Proof.
  induction l as [|c l IH]; intros p; cbn [choose_a0]; [set_solver|]. destruct (_ <? _); [set_solver|].
  destruct (IH c) as (H1 & H2 & H3). set_solver.
Qed.

(** The point the ack rate is measured from. *)
Definition a0_point (s : BandwidthSampler) (e : ConnectionStateOnSentPacket) : AckPoint :=
  if overestimate_avoidance_ s then
    match a0_candidates_ s with
    | [] => AckPoint_default
    | front :: rest => (choose_a0 (total_bytes_acked (send_time_state e)) front rest).1
    end
  else mkAckPoint (last_acked_packet_ack_time e) (total_bytes_acked (send_time_state e)).

Lemma record_ack_spec s now t pn e : sampler_core s now -> contents (connection_state_map_ s) !! pn = Some e ->
  now <= t < 2 ^ 61 -> 0 <= pn < 2 ^ 47 -> total_bytes_acked_ s + size e <= total_bytes_sent_ s ->
  exists s', record_ack s t pn e = Ok s' /\ sampler_core s' t /\
    total_bytes_acked_ s' = total_bytes_acked_ s + size e /\ total_bytes_sent_ s' = total_bytes_sent_ s /\
    total_bytes_lost_ s' = total_bytes_lost_ s /\ total_bytes_neutered_ s' = total_bytes_neutered_ s /\
    connection_state_map_ s' = connection_state_map_ s /\ a0_candidates_ s' = a0_candidates_ s /\
    overestimate_avoidance_ s' = overestimate_avoidance_ s.
Proof.
  intros Hc He Ht Hpn Htot. pose proof (sc_entries s now Hc pn e He) as Hp. pose proof Hc as [].
  destruct Hp as [P1 P2 P3 P4 P5 P6 P7].
  set (s1 := s <| total_bytes_acked_ := total_bytes_acked_ s + size e |>
             <| total_bytes_sent_at_last_acked_packet_ := total_bytes_sent (send_time_state e) |>
             <| last_acked_packet_sent_time_ := packet_sent_time e |> <| last_acked_packet_ack_time_ := t |>).
  set (points := if overestimate_avoidance_ s
    then mkRecent (if point_ack_time (ack_points_1 (recent_ack_points_ s)) <? t then ack_points_1 (recent_ack_points_ s)
                   else ack_points_0 (recent_ack_points_ s)) (mkAckPoint t (total_bytes_acked_ s + size e))
    else recent_ack_points_ s).
  assert (Hlim : exists b, (if is_app_limited_ s then
      let* leave := if negb (PN_IsInitialized (end_of_app_limited_phase_ s)) then Ok true else PN_gt pn (end_of_app_limited_phase_ s) in
      Ok (if leave then false else true) else Ok false) = Ok b).
  { destruct (is_app_limited_ s); [|eauto]. destruct (PN_IsInitialized (end_of_app_limited_phase_ s)) eqn:E; cbn; [|eauto].
    rewrite PN_gt_init by (done || (apply PN_init_small; lia)). cbn. eauto. }
  destruct Hlim as (b & Hb).
  assert (E : record_ack s t pn e = Ok (s1 <| recent_ack_points_ := points |> <| is_app_limited_ := b |>)).
  { unfold record_ack. cbn. rewrite u64_small by lia. unfold Recent_Update, point_ok in *.
    assert (Hpt : (if overestimate_avoidance_ s
      then let* ps := let* _ := CHECK (point_total_bytes_acked (ack_points_1 (recent_ack_points_ s)) <=? total_bytes_acked_ s + size e) in
             Ok (mkRecent (if point_ack_time (ack_points_1 (recent_ack_points_ s)) <? t then ack_points_1 (recent_ack_points_ s)
               else ack_points_0 (recent_ack_points_ s)) (mkAckPoint t (total_bytes_acked_ s + size e))) in Ok (s1 <| recent_ack_points_ := ps |>)
      else Ok s1) = Ok (s1 <| recent_ack_points_ := points |>)).
    { unfold points. destruct (overestimate_avoidance_ s); [|by destruct s]. rewrite (proj2 (Z.leb_le _ _)) by lia. done. }
    unfold s1 in Hpt. cbn in Hpt. cbn. rewrite Hpt. cbn. clear Hpt. unfold s1. cbn.
    destruct (is_app_limited_ s); cbn in Hb.
    - destruct (PN_IsInitialized (end_of_app_limited_phase_ s)); cbn in *.
      + destruct (PN_gt pn (end_of_app_limited_phase_ s)) as [l|]; cbn in *; [|done]. injection Hb as <-. by destruct l.
      + by injection Hb as <-.
    - by injection Hb as <-. }
  rewrite E. eexists. split; [done|]. split; [|by cbn]. unfold points, point_ok in *.
  split; cbn; try (done || lia).
  - intros k e' Hk. eapply packet_ok_mono; [by apply (sc_entries0 k)|lia|cbn; lia|cbn; lia].
  - destruct (overestimate_avoidance_ s); cbn; [destruct (_ <? t)|]; unfold point_ok; cbn; lia.
  - eapply Forall_impl; [exact sc_candidates0|]. unfold point_ok. cbn. lia.
Qed.

(** What a sample is made of. *)
Definition sample_of (s : BandwidthSampler) (t : QuicTime) (e : ConnectionStateOnSentPacket) : BandwidthSample :=
  let a0 := a0_point s e in
  if t <=? point_ack_time a0 then BandwidthSample_default
  else
    let send_rate := if last_acked_packet_sent_time e <? packet_sent_time e
      then rate (total_bytes_sent (send_time_state e) - total_bytes_sent_at_last_acked_packet e)
             (packet_sent_time e - last_acked_packet_sent_time e)
      else QuicBandwidth_Infinite in
    let ack_rate := rate (total_bytes_acked_ s + size e - point_total_bytes_acked a0) (t - point_ack_time a0) in
    mkBwSample (Z.min send_rate ack_rate) (t - packet_sent_time e) (send_time_state e).

Lemma valid_state st : is_valid st = true -> st <| is_valid := true |> = st.
Proof. destruct st. cbn. by intros ->. Qed.

Lemma a0_point_ok s now e : sampler_core s now -> packet_ok s now e -> 0 < total_bytes_sent_ s -> point_ok s now (a0_point s e).
Proof.
  intros [] [] Hs. unfold a0_point. destruct (overestimate_avoidance_ s) eqn:Eo; [|unfold point_ok; cbn; lia].
  destruct (a0_candidates_ s) as [|p l] eqn:Ea; [by destruct (sc_started0 eq_refl Hs)|].
  eapply Forall_forall; [exact sc_candidates0|]. apply choose_a0_elem.
Qed.

Lemma acked_inner_spec s now t pn e : sampler_core s now -> contents (connection_state_map_ s) !! pn = Some e ->
  now <= t < 2 ^ 61 -> 0 <= pn < 2 ^ 47 -> total_bytes_acked_ s + size e <= total_bytes_sent_ s ->
  exists s', OnPacketAcknowledgedInner s t pn e = Ok (s', sample_of s t e) /\ sampler_core s' t /\
    total_bytes_acked_ s' = total_bytes_acked_ s + size e /\ total_bytes_sent_ s' = total_bytes_sent_ s /\
    total_bytes_lost_ s' = total_bytes_lost_ s /\ total_bytes_neutered_ s' = total_bytes_neutered_ s /\
    connection_state_map_ s' = connection_state_map_ s.
Proof.
  intros Hc He Ht Hpn Htot. pose proof (sc_entries s now Hc pn e He) as Hp. pose proof Hp as [P1 P2 P3 P4 P5 P6 P7].
  pose proof (a0_point_ok s now e Hc Hp ltac:(lia)) as Ha.
  pose proof (sc_bytes s now Hc) as Hb. pose proof (sc_now s now Hc) as Hn.
  destruct (record_ack_spec s now t pn e Hc He Ht Hpn Htot) as (s1 & E & Hc1 & Ea & Es & El & En & Em & Eca & Eo).
  unfold OnPacketAcknowledgedInner. rewrite E. cbn [rbind]. destruct (Z.eqb_spec (last_acked_packet_sent_time e) QuicTime_Zero) as [E0|_];
    [change QuicTime_Zero with 0 in E0; lia|]. cbn [negb CHECK rbind].
  assert (Er : (if last_acked_packet_sent_time e <? packet_sent_time e then
      FromBytesAndTimeDelta (total_bytes_sent (send_time_state e) ⊖ total_bytes_sent_at_last_acked_packet e)
        (QuicTime_diff (packet_sent_time e) (last_acked_packet_sent_time e)) else Ok QuicBandwidth_Infinite) =
    Ok (if last_acked_packet_sent_time e <? packet_sent_time e
      then rate (total_bytes_sent (send_time_state e) - total_bytes_sent_at_last_acked_packet e)
             (packet_sent_time e - last_acked_packet_sent_time e) else QuicBandwidth_Infinite)).
  { destruct (Z.ltb_spec (last_acked_packet_sent_time e) (packet_sent_time e)); [|done].
    unfold QuicTime_diff. rewrite u64_small, i64_small by lia. apply rate_spec; lia. }
  rewrite Er. cbn [rbind]. clear Er.
  assert (Hch : exists cs, (if overestimate_avoidance_ s1 then ChooseA0Point s1 (total_bytes_acked (send_time_state e))
      else Ok (s1, mkAckPoint (last_acked_packet_ack_time e) (total_bytes_acked (send_time_state e)))) =
      Ok (s1 <| a0_candidates_ := cs |>, a0_point s e) /\ cs ⊆ a0_candidates_ s /\ (a0_candidates_ s <> [] -> cs <> [])).
  { unfold a0_point, ChooseA0Point. rewrite Eo, Eca. destruct (overestimate_avoidance_ s) eqn:Eov.
    - destruct (a0_candidates_ s) as [|p l] eqn:Ea0; [by destruct (sc_started s now Hc Eov ltac:(lia))|].
      destruct (choose_a0_elem (total_bytes_acked (send_time_state e)) l p) as (_ & Hne & Hsub). eauto.
    - exists (a0_candidates_ s). split; [|done]. rewrite <- Eca. by destruct s1. }
  destruct Hch as (cs & -> & Hsub & Hne). cbn [rbind].
  assert (Hc2 : sampler_core (s1 <| a0_candidates_ := cs |>) t).
  { apply (sampler_core_frame s1); [done|done| |].
    - apply Forall_forall. intros p Hin. pose proof (sc_candidates s1 t Hc1) as Hf. rewrite Forall_forall, Eca in Hf. by apply Hf, Hsub.
    - rewrite Eca. exact Hne. }
  unfold sample_of. destruct (Z.leb_spec t (point_ack_time (a0_point s e))) as [Hle|Hgt]; [eexists; split; [done|]; by split_and!|].
  unfold point_ok in Ha. unfold QuicTime_diff, SentPacketToSendTimeState. rewrite valid_state by done.
  change (total_bytes_acked_ (s1 <| a0_candidates_ := cs |>)) with (total_bytes_acked_ s1).
  rewrite Ea, u64_small, !i64_small, rate_spec by lia. cbn [rbind].
  eexists. split; [done|]. by split_and!.
Qed.

Lemma sampler_core_later s now t : sampler_core s now -> now <= t < 2 ^ 61 -> sampler_core s t.
Proof.
  intros [] Ht. split; try (done || lia).
  - intros k e Hk. eapply packet_ok_mono; [by apply (sc_entries0 k)|lia..].
  - unfold point_ok in *. lia.
  - eapply Forall_impl; [exact sc_candidates0|]. unfold point_ok. lia.
Qed.

(** ** Events *)

Definition forget (pns : list Z) (g : gmap Z Z) : gmap Z Z := foldl (fun g pn => delete pn g) g pns.
Lemma lookup_forget pns : forall g pn, pn ∉ pns -> forget pns g !! pn = g !! pn.
Proof.
  induction pns as [|p pns IH]; intros g pn Hn; cbn; [done|]. rewrite not_elem_of_cons in Hn. destruct Hn as [Hn1 Hn2].
  fold (forget pns (delete p g)). rewrite IH by done. by rewrite lookup_delete_ne by done.
Qed.

(** A rate is at most that of all bytes sent within a microsecond. *)
Lemma rate_bound bytes delta n : 0 <= bytes <= n -> 0 < n -> 0 < delta -> 0 <= rate bytes delta <= 8000000 * n.
Proof.
  intros Hb Hn Hd. unfold rate. destruct (Z.eqb_spec bytes 0); [lia|].
  assert (0 <= 8000000 * bytes / delta <= 8000000 * n) by (split; [apply Z.div_pos; lia|apply Z.div_le_upper_bound; nia]). lia.
Qed.
(** A send state whose counters are those of a sampler with at most [a] bytes acknowledged. *)
Definition state_fine (a : Z) (st : SendTimeState) : Prop :=
  is_valid st = true -> 0 <= bytes_in_flight st < two64 /\ 0 <= total_bytes_acked st <= a.
Lemma state_fine_mono a b st : state_fine a st -> a <= b -> state_fine b st.
Proof. intros Hs Hab Hv. destruct (Hs Hv). lia. Qed.
Lemma packet_state_fine s now e : packet_ok s now e -> state_fine (total_bytes_acked_ s) (send_time_state e).
Proof. intros [] _. done. Qed.
Definition sample_fine (n a : Z) (smp : BandwidthSample) : Prop :=
  0 <= bandwidth smp <= 8000000 * n /\ 0 <= sample_packet_rtt smp /\ (is_valid (state_at_send smp) = false -> bandwidth smp = 0) /\
  state_fine a (state_at_send smp).
Lemma sample_of_fine s now t e : sampler_core s now -> packet_ok s now e -> now <= t ->
  total_bytes_acked_ s + size e <= total_bytes_sent_ s -> sample_fine (total_bytes_sent_ s) (total_bytes_acked_ s) (sample_of s t e).
Proof.
  intros Hc Hp Ht Hs. pose proof Hp as [P1 P2 P3 P4 P5 P6 P7]. pose proof (sc_bytes s now Hc).
  pose proof (a0_point_ok s now e Hc Hp ltac:(lia)) as Ha. unfold point_ok in Ha. unfold sample_of.
  destruct (Z.leb_spec t (point_ack_time (a0_point s e))); [split; [cbn; change QuicBandwidth_Zero with 0; lia|done]|].
  split; [|split; cbn; [lia|split; [congruence|by eapply packet_state_fine]]]. cbn.
  pose proof (rate_bound (total_bytes_acked_ s + size e - point_total_bytes_acked (a0_point s e)) (t - point_ack_time (a0_point s e)) (total_bytes_sent_ s)
    ltac:(lia) ltac:(lia) ltac:(lia)).
  destruct (Z.ltb_spec (last_acked_packet_sent_time e) (packet_sent_time e)); [|change QuicBandwidth_Infinite with 9223372036854775807; lia].
  pose proof (rate_bound (total_bytes_sent (send_time_state e) - total_bytes_sent_at_last_acked_packet e)
    (packet_sent_time e - last_acked_packet_sent_time e) (total_bytes_sent_ s) ltac:(lia) ltac:(lia) ltac:(lia)). lia.
Qed.

(** Acknowledging one packet. *)
Lemma ack_one_spec s g now t pn : sampler_core s now -> sampler_ghost s g -> now <= t < 2 ^ 61 -> 0 <= pn < 2 ^ 47 ->
  (is_Some (g !! pn) \/ contents (connection_state_map_ s) !! pn = None) ->
  exists s' smp, OnPacketAcknowledged s t pn = Ok (s', smp) /\ sampler_core s' t /\ sampler_ghost s' (delete pn g) /\
    connection_state_map_ s' = connection_state_map_ s /\ total_bytes_sent_ s' = total_bytes_sent_ s /\
    sample_fine (total_bytes_sent_ s) (total_bytes_acked_ s) smp /\ total_bytes_acked_ s <= total_bytes_acked_ s'.
Proof.
  intros Hc Hg Ht Hpn Hin. unfold OnPacketAcknowledged. rewrite GetEntry_spec by (apply Hc || lia). cbn [rbind].
  destruct (g !! pn) as [sz|] eqn:Egp.
  - destruct (sg_tracked s g Hg pn sz Egp) as (e & He & Hsz). rewrite He.
    pose proof (sampler_ghost_pos s now g Hc Hg) as Hpos. pose proof Hg as [G1 G2 G3 G4].
    pose proof (sum_sizes_delete g pn sz Egp) as Hsum.
    assert (0 <= sum_sizes (delete pn g)) by (apply sum_sizes_nonneg; by apply map_Forall_delete).
    destruct (acked_inner_spec s now t pn e Hc He Ht Hpn) as (s' & -> & Hc' & Ea & Es & El & En & Em); [lia|].
    exists s', (sample_of s t e). split; [done|]. split; [done|].
    split; [|pose proof (Hpos pn sz Egp : 0 < sz); (split; [done|]); (split; [done|]); (split; [|lia]); apply (sample_of_fine s now); [done|by apply (sc_entries s now Hc pn)|lia|lia]].
    split; rewrite ?Em, ?Ea, ?Es, ?El, ?En; [|done|done|lia].
    intros k v Hk. apply lookup_delete_Some in Hk as [_ Hk]. by apply G1.
  - destruct Hin as [[? ?]|Hin]; [done|]. rewrite Hin. exists s, BandwidthSample_default. split; [done|].
    split; [by eapply sampler_core_later|]. pose proof (sc_bytes s now Hc).
    split; [by rewrite delete_id by done|]. split_and!; try done. unfold sample_fine. change (bandwidth BandwidthSample_default) with 0. split_and!; (done || lia).
Qed.

(** What the loop knows of the samples it has seen. *)
Definition event_fine (n a : Z) (ev : CongestionEventSample) (last : SendTimeState) : Prop :=
  0 <= sample_max_bandwidth ev <= 8000000 * n /\ 0 < sample_rtt ev /\ (is_valid last = false -> sample_max_bandwidth ev = 0) /\
  0 <= sample_max_inflight ev < two64 /\ state_fine a last.
Lemma event_fine_init n a st st' : 0 <= n -> state_fine a st' -> event_fine n a (CongestionEventSample_init <| last_packet_send_state := st |>) st'.
Proof. intros Hn Hs. unfold event_fine. cbn -[Z.mul]. change QuicBandwidth_Zero with 0. split_and!; (done || lia). Qed.
Lemma event_acked_fine t s s1 smp n b ev st a : OnPacketAcknowledged s t (acked_packet_number a) = Ok (s1, smp) ->
  sample_fine n b smp -> event_fine n b ev st ->
  exists ev' st', event_acked t (mkAckLoop s ev st) a = Ok (mkAckLoop s1 ev' st') /\ event_fine n b ev' st'.
Proof.
  intros E (S1 & S2 & S3 & S4) (F1 & F2 & F3 & F4 & F5). unfold event_acked. cbn [al_sampler al_event al_last]. rewrite E. cbn [rbind].
  destruct (is_valid (state_at_send smp)) eqn:Ev; cbn [negb]; [|by exists ev, st].
  set (e1 := if negb (Delta_IsZero (sample_packet_rtt smp)) then ev <| sample_rtt := Z.min (sample_rtt ev) (sample_packet_rtt smp) |> else ev).
  assert (H1 : sample_max_bandwidth e1 = sample_max_bandwidth ev /\ 0 < sample_rtt e1 /\ sample_max_inflight e1 = sample_max_inflight ev).
  { unfold e1, Delta_IsZero. destruct (Z.eqb_spec (sample_packet_rtt smp) 0); cbn; split_and!; (done || lia). }
  clearbody e1. destruct H1 as (H1 & H2 & H3). rewrite H1.
  eexists _, _. split; [done|]. unfold event_fine. rewrite Ev.
  pose proof (u64_range (total_bytes_acked_ s1 - total_bytes_acked (state_at_send smp))).
  destruct (Z.ltb_spec (sample_max_bandwidth ev) (bandwidth smp)); destruct (_ <? _ ⊖ _); cbn; split_and!; (done || lia).
Qed.

Lemma acked_loop_spec t acked : forall s g now ev st, sampler_core s now -> sampler_ghost s g -> now <= t < 2 ^ 61 ->
  event_fine (total_bytes_sent_ s) (total_bytes_acked_ s) ev st ->
  NoDup (map acked_packet_number acked) ->
  Forall (fun p => 0 <= p < 2 ^ 47 /\ (is_Some (g !! p) \/ contents (connection_state_map_ s) !! p = None)) (map acked_packet_number acked) ->
  exists st', rfold (event_acked t) acked (mkAckLoop s ev st) = Ok st' /\ sampler_core (al_sampler st') t /\
    sampler_ghost (al_sampler st') (forget (map acked_packet_number acked) g) /\
    total_bytes_sent_ (al_sampler st') = total_bytes_sent_ s /\
    event_fine (total_bytes_sent_ s) (total_bytes_acked_ (al_sampler st')) (al_event st') (al_last st') /\
    total_bytes_acked_ s <= total_bytes_acked_ (al_sampler st').
Proof.
  induction acked as [|a acked IH]; intros s g now ev st Hc Hg Ht He Hnd Hf; cbn [rfold map].
  - eexists. split; [done|]. split; [by eapply sampler_core_later|done].
  - apply NoDup_cons in Hnd as [Hnew Hnd]. apply Forall_cons in Hf as [[Hp Hin] Hf].
    destruct (ack_one_spec s g now t (acked_packet_number a) Hc Hg Ht Hp Hin) as (s1 & smp & E & Hc1 & Hg1 & Em & Es & Hs & Hge).
    assert (Hf1 : Forall (fun p => 0 <= p < 2 ^ 47 /\ (is_Some (delete (acked_packet_number a) g !! p) \/
      contents (connection_state_map_ s1) !! p = None)) (map acked_packet_number acked)).
    { rewrite Em. rewrite Forall_forall in *. intros p Hpin. specialize (Hf p Hpin).
      rewrite lookup_delete_ne; [exact Hf|]. intros Heq. apply Hnew. by rewrite Heq. }
    destruct (event_acked_fine t s s1 smp _ _ ev st a E Hs He) as (ev' & st' & -> & He'). cbn [rbind]. rewrite <- Es in *.
    destruct (IH s1 _ t ev' st' Hc1 Hg1 ltac:(lia)) as (r & Er & R1 & R2 & R3 & R4 & R5); [|done..|exists r; split_and!; (done || lia)].
    destruct He' as (F1 & F2 & F3 & F4 & F5). split_and!; try done; [apply F1..|apply F4|apply F4|by eapply state_fine_mono].
Qed.

Lemma lost_loop_spec now lost : forall s g st, sampler_core s now -> sampler_ghost s g ->
  NoDup (map lost_packet_number lost) -> Forall (fun l => 0 <= lost_packet_number l < 2 ^ 47 /\ g !! lost_packet_number l = Some (bytes_lost l)) lost ->
  exists s' st', rfold event_lost lost (s, st) = Ok (s', st') /\ sampler_core s' now /\
    sampler_ghost s' (forget (map lost_packet_number lost) g) /\ connection_state_map_ s' = connection_state_map_ s /\
    (lost = [] -> st' = st) /\ total_bytes_sent_ s' = total_bytes_sent_ s /\ total_bytes_acked_ s' = total_bytes_acked_ s /\
    (state_fine (total_bytes_acked_ s) st -> state_fine (total_bytes_acked_ s) st').
Proof.
  induction lost as [|l lost IH]; intros s g st Hc Hg Hnd Hf; cbn [rfold map]; [by exists s, st|].
  apply NoDup_cons in Hnd as [Hnew Hnd]. apply Forall_cons in Hf as [[Hp Hl] Hf].
  pose proof (sampler_ghost_pos s now g Hc Hg) as Hpos. pose proof Hg as [G1 G2 G3 G4].
  pose proof (sum_sizes_delete g _ _ Hl) as Hsum. pose proof (Hpos _ _ Hl : 0 < bytes_lost l) as Hlp. pose proof (sc_bytes s now Hc) as Hb.
  assert (0 <= sum_sizes (delete (lost_packet_number l) g)) by (apply sum_sizes_nonneg; by apply map_Forall_delete).
  set (s1 := s <| total_bytes_lost_ := total_bytes_lost_ s + bytes_lost l |>).
  assert (Hc1 : sampler_core s1 now) by (apply (sampler_core_frame s); [done|done|apply Hc|done]).
  assert (Hg1 : sampler_ghost s1 (delete (lost_packet_number l) g)).
  { split; cbn -[sum_sizes delete]; try lia. intros k v Hk. apply lookup_delete_Some in Hk as [_ Hk]. by apply G1. }
  assert (Estep : exists st', event_lost (s, st) l = Ok (s1, st') /\ (state_fine (total_bytes_acked_ s) st -> state_fine (total_bytes_acked_ s) st')).
  { unfold event_lost, Sampler_OnPacketLost. cbn [fst snd]. rewrite u64_small by lia. fold s1.
    rewrite GetEntry_spec by (apply Hc1 || lia). cbn [rbind fst snd]. eexists. split; [done|]. intros Hst.
    destruct (contents (connection_state_map_ s1) !! lost_packet_number l) as [e|] eqn:Ee; [|done]. cbn -[SentPacketToSendTimeState].
    pose proof (sc_entries s1 now Hc1 _ e Ee) as Hpk. unfold SentPacketToSendTimeState. rewrite valid_state by apply Hpk.
    destruct (is_valid _); [|done]. exact (packet_state_fine s1 now e Hpk). }
  destruct Estep as (st1 & -> & Hst1). cbn [rbind]. destruct (IH s1 _ st1 Hc1 Hg1 Hnd) as (s2 & st2 & E & Hc2 & Hg2 & Em & _ & Es & Ea & Hst2).
  { rewrite Forall_forall in *. intros x Hx. specialize (Hf x Hx). rewrite lookup_delete_ne; [exact Hf|].
    intros Heq. apply Hnew. rewrite Heq. apply list_elem_of_fmap. eauto. }
  exists s2, st2. split_and!; try done. intros Hst. by apply Hst2, Hst1.
Qed.

Lemma ack_event_end_spec s g t bw rnd : sampler_core s t -> sampler_ghost s g ->
  sampler_core (OnAckEventEnd s bw rnd).1 t /\ sampler_ghost (OnAckEventEnd s bw rnd).1 g /\
  total_bytes_sent_ (OnAckEventEnd s bw rnd).1 = total_bytes_sent_ s /\ total_bytes_acked_ (OnAckEventEnd s bw rnd).1 = total_bytes_acked_ s.
Proof.
  intros Hc Hg. unfold OnAckEventEnd. destruct (_ =? 0); [done|]. cbn.
  destruct (Tracker_Update _ _ _ _ _) as [tr ex]. cbn. split.
  - destruct (overestimate_avoidance_ s && (ex =? 0)) eqn:Eo; (apply (sampler_core_frame s); [done|by split_and!| |]); cbn.
    + apply Forall_app. split; [apply Hc|]. constructor; [|constructor]. unfold LessRecentPoint. destruct (negb _); apply Hc.
    + intros _ [_ ?]%app_eq_nil. done.
    + apply Hc.
    + done.
  - destruct Hg. destruct (_ && _); (split; [by split|done]).
Qed.

Lemma event_spec s g now t acked lost bw est rnd : sampler_core s now -> sampler_ghost s g -> now <= t < 2 ^ 61 ->
  NoDup (map acked_packet_number acked ++ map lost_packet_number lost) ->
  Forall (fun p => 0 <= p < 2 ^ 47 /\ (is_Some (g !! p) \/ contents (connection_state_map_ s) !! p = None)) (map acked_packet_number acked) ->
  Forall (fun l => 0 <= lost_packet_number l < 2 ^ 47 /\ g !! lost_packet_number l = Some (bytes_lost l)) lost ->
  exists s' ev, Sampler_OnCongestionEvent s t acked lost bw est rnd = Ok (s', ev) /\ sampler_core s' t /\
    sampler_ghost s' (forget (map acked_packet_number acked) (forget (map lost_packet_number lost) g)) /\
    total_bytes_sent_ s' = total_bytes_sent_ s /\
    event_fine (total_bytes_sent_ s) (total_bytes_acked_ s') ev (last_packet_send_state ev) /\ total_bytes_acked_ s <= total_bytes_acked_ s'.
Proof.
  intros Hc Hg Ht (Hna & Hdis & Hnl)%NoDup_app Ha Hl. unfold Sampler_OnCongestionEvent.
  destruct (lost_loop_spec now lost s g SendTimeState_default Hc Hg Hnl Hl) as (s1 & st1 & -> & Hc1 & Hg1 & Em & Hst & Es1 & Ea1 & Hsf). cbn [rbind]. specialize (Hsf ltac:(done)).
  pose proof (sc_bytes s now Hc) as Hb.
  destruct acked as [|a acked'] eqn:Eacked.
  { eexists _, _. split; [done|]. split; [by eapply sampler_core_later|].
    split; [done|]. split; [done|]. rewrite Ea1. split; [|lia]. apply event_fine_init; [lia|done]. }
  rewrite <- Eacked in *.
  destruct (acked_loop_spec t acked s1 _ now CongestionEventSample_init SendTimeState_default Hc1 Hg1 Ht) as (st2 & -> & Hc2 & Hg2 & Es2 & He2 & Hge); [|done| |].
  { by apply event_fine_init; [lia|]. }
  { rewrite Em. rewrite Forall_forall in *. intros p Hp. specialize (Ha p Hp).
    rewrite lookup_forget by (by apply Hdis). done. }
  cbn [rbind].
  destruct He2 as (F1 & F2 & F3 & F4 & F5). rewrite Ea1 in Hge. pose proof (state_fine_mono _ _ _ Hsf Hge) as Hsf2.
  assert (Es : exists st, event_send_state acked lost st1 (al_last st2) = Ok st /\ (is_valid st = false -> is_valid (al_last st2) = false) /\
    state_fine (total_bytes_acked_ (al_sampler st2)) st).
  { unfold event_send_state. destruct (is_valid st1) eqn:Ev; cbn [negb]; [|eauto]. destruct (is_valid (al_last st2)) eqn:Ev2; cbn [negb]; [|eauto].
    destruct (last lost) as [l|] eqn:Ell; [|apply last_None in Ell; by rewrite (Hst Ell) in Ev].
    destruct (last acked) as [b|] eqn:Ela; [|apply last_None in Ela; by subst].
    apply last_Some in Ell as (l0 & ->). apply last_Some in Ela as (a0 & Eq). rewrite Eq in Ha.
    rewrite map_app in Ha. apply Forall_app in Ha as [_ Ha]. apply Forall_app in Hl as [_ Hl].
    apply Forall_inv in Ha as [Ha _]. apply Forall_inv in Hl as [Hl _].
    rewrite PN_gt_init by (apply PN_init_small; lia). cbn. eexists. split; [done|]. destruct (_ <? _); (split; [congruence|done]). }
  destruct Es as (st & -> & Hv & Hst3). cbn [rbind].
  match goal with |- context [OnAckEventEnd ?x ?y ?z] => pose proof (ack_event_end_spec x _ t y z Hc2 Hg2) as (Hc3 & Hg3 & Es3 & Ea3); destruct (OnAckEventEnd x y z) as [s3 ex] end.
  eexists _, _. split; [done|]. split; [done|]. split; [done|]. rewrite Es1 in *. cbn [fst] in Es3, Ea3. split; [congruence|].
  rewrite Ea3. split; [|done]. split; [exact F1|]. split; [exact F2|]. split; [intros Hx; by apply F3, Hv|]. done.
Qed.

(** ** Ack heights *)

(** The height of an aggregation epoch is part of the bytes acknowledged. *)
Definition height_ok (h : Z) : Prop := 0 <= h < 2 ^ 40.
Definition tracker_ok (a : Z) (t : MaxAckHeightTracker) : Prop :=
  (ack_aggregation_bandwidth_threshold_ t = f64_of_Z 1 \/ ack_aggregation_bandwidth_threshold_ t = f64_of_Z 2) /\ 0 <= aggregation_epoch_bytes_ t <= a /\ filter_all height_ok (max_ack_height_filter_ t).
Definition heights_ok (s : BandwidthSampler) : Prop :=
  tracker_ok (total_bytes_acked_after_last_ack_event_ s) (max_ack_height_tracker_ s) /\ total_bytes_acked_after_last_ack_event_ s <= total_bytes_acked_ s.
Lemma tracker_update_ok a t bw rnd ack_time b : tracker_ok a t -> 0 <= b -> a + b < 2 ^ 40 -> tracker_ok (a + b) (Tracker_Update t bw rnd ack_time b).1.
Proof.
  intros (T1 & T2 & T3) Hb Hab. unfold Tracker_Update. destruct (_ =? QuicTime_Zero); [by split; [|split; [cbn; lia|]]|]. cbv zeta.
  set (expected := ToBytesPerPeriod _ _). pose proof (ToBytesPerPeriod_bound bw (QuicTime_diff ack_time (aggregation_epoch_start_time_ t)) : 0 <= expected < 2 ^ 45) as He.
  assert (Ht : exists c, 1 <= c <= 2 /\ f64_mul (ack_aggregation_bandwidth_threshold_ t) (f64_of_Z expected) = f64_of_Z (c * expected)).
  { destruct T1 as [-> | ->]; [exists (2 ^ 0)|exists (2 ^ 1)]; (split; [done|]); [apply (f64_mul_pow 0)|apply (f64_mul_pow 1)]; lia. }
  destruct Ht as (c & Hc & ->). destruct (SFleb _ _) eqn:El; [by split; [|split; [cbn; lia|]]|].
  assert (Hlt : expected < aggregation_epoch_bytes_ t).
  { destruct (Z.lt_ge_cases expected (aggregation_epoch_bytes_ t)) as [|Hge]; [done|]. rewrite f64_of_Z_leb in El by nia. done. }
  cbn. rewrite !u64_small by (rewrite ?u64_small; lia). split; [done|]. split; [cbn; lia|]. apply filter_all_update; [done|]. unfold height_ok. lia.
Qed.
Definition same_heights (s s' : BandwidthSampler) : Prop :=
  max_ack_height_tracker_ s' = max_ack_height_tracker_ s /\ total_bytes_acked_after_last_ack_event_ s' = total_bytes_acked_after_last_ack_event_ s.
#[local] Instance same_heights_preorder : PreOrder same_heights.
Proof. split; [done|]. unfold same_heights. intros ???. naive_solver congruence. Qed.
Lemma record_ack_heights s t pn e s' : record_ack s t pn e = Ok s' -> same_heights s s'.
Proof.
  unfold record_ack. cbv zeta. intros (s1 & E1 & E)%rbind_Ok. assert (S1 : same_heights s s1).
  { destruct (overestimate_avoidance_ _); [apply rbind_Ok in E1 as (ps & _ & E1)|]; apply Ok_inj in E1 as <-; done. }
  destruct (is_app_limited_ s1); [|by apply Ok_inj in E as <-]. apply rbind_Ok in E as (b & _ & E). apply Ok_inj in E as <-. by destruct b.
Qed.
Lemma ack_one_heights s t pn r : OnPacketAcknowledged s t pn = Ok r -> same_heights s r.1.
Proof.
  unfold OnPacketAcknowledged. intros ([e|] & _ & E)%rbind_Ok; [|by apply Ok_inj in E as <-]. unfold OnPacketAcknowledgedInner in E.
  apply rbind_Ok in E as (s1 & S1%record_ack_heights & E). apply rbind_Ok in E as (u & _ & E). apply rbind_Ok in E as (sr & _ & E).
  apply rbind_Ok in E as ([s2 a0] & E2 & E). assert (S2 : same_heights s1 s2).
  { destruct (overestimate_avoidance_ s1); [|by injection E2 as <- _]. unfold ChooseA0Point in E2. destruct (a0_candidates_ s1); [done|]. by injection E2 as <- _. }
  assert (S3 : same_heights s s2) by (by etrans). destruct (_ <=? _); [by apply Ok_inj in E as <-|]. apply rbind_Ok in E as (ar & _ & E). by apply Ok_inj in E as <-.
Qed.
Lemma event_heights s t acked lost bw up rnd s' ev : Sampler_OnCongestionEvent s t acked lost bw up rnd = Ok (s', ev) ->
  heights_ok s -> total_bytes_acked_ s <= total_bytes_acked_ s' < 2 ^ 40 -> heights_ok s'.
Proof.
  unfold Sampler_OnCongestionEvent. intros ([s1 st1] & E1 & E)%rbind_Ok [H1 H2] Ht.
  assert (S1 : same_heights s s1).
  { apply (rfold_inv (fun y : BandwidthSampler * SendTimeState => same_heights s y.1)) in E1; [done| |done].
    intros p x y _ Hx (r & Er & Ey)%rbind_Ok. apply Ok_inj in Ey as <-. unfold Sampler_OnPacketLost in Er. inv_ok. etrans; [exact Hx|done]. }
  assert (Hk : forall x, same_heights s x -> total_bytes_acked_ s <= total_bytes_acked_ x -> heights_ok x).
  { intros x [X1 X2] Hx. unfold heights_ok. rewrite X1, X2. split; [done|lia]. }
  destruct acked as [|a acked]; [injection E as <- <-; apply Hk; [done|lia]|]. apply rbind_Ok in E as (st2 & E2 & E).
  assert (S2 : same_heights s (al_sampler st2)).
  { apply (rfold_inv (fun y => same_heights s (al_sampler y))) in E2; [done| |exact S1].
    intros p x y _ Hx ([s2 smp] & Er%ack_one_heights & Ey)%rbind_Ok. destruct (negb _); apply Ok_inj in Ey as <-; (etrans; [exact Hx|exact Er]). }
  apply rbind_Ok in E as (st & _ & E). cbv zeta in E. destruct (OnAckEventEnd _ _ _) as [s3 ex] eqn:E3. injection E as <- _.
  unfold OnAckEventEnd in E3. destruct (_ =? 0); [injection E3 as <- _; apply Hk; [done|lia]|].
  set (x := al_sampler st2) in *. clearbody x. destruct S2 as [X1 X2]. destruct H1 as (T1 & T2 & T3).
  assert (Ea : total_bytes_acked_ s3 = total_bytes_acked_ x) by (cbv zeta in E3; destruct (Tracker_Update _ _ _ _ _); destruct (_ && _); by injection E3 as <- _).
  rewrite Ea in Ht. rewrite u64_small in E3 by (rewrite X2; lia). cbv zeta in E3.
  destruct (Tracker_Update _ _ _ _ _) as [tr e] eqn:Etr.
  pose proof (tracker_update_ok (total_bytes_acked_after_last_ack_event_ s) (max_ack_height_tracker_ s) (Z.min up (bw `max` sample_max_bandwidth (al_event st2 <| last_packet_send_state := st |>)))
    rnd (last_acked_packet_ack_time_ x) (total_bytes_acked_ x - total_bytes_acked_after_last_ack_event_ s) (conj T1 (conj T2 T3)) ltac:(lia) ltac:(lia)) as Htr.
  rewrite <- X1, <- X2 in Htr. change (max_ack_height_tracker_ x) with (max_ack_height_tracker_ (x <| total_bytes_acked_after_last_ack_event_ := total_bytes_acked_ x |>)) in Htr.
  cbn in Htr, Etr. rewrite Etr in Htr. cbn [fst] in Htr. replace (total_bytes_acked_after_last_ack_event_ x + _) with (total_bytes_acked_ x) in Htr by lia.
  destruct (_ && _); injection E3 as <- _; (split; [exact Htr|cbn; lia]).
Qed.
Lemma heights_ok_frame s s' : heights_ok s -> same_heights s s' -> total_bytes_acked_ s' = total_bytes_acked_ s -> heights_ok s'.
Proof. intros [H1 H2] [E1 E2] Ea. unfold heights_ok. by rewrite E1, E2, Ea. Qed.
Lemma heights_ok_bound s : heights_ok s -> height_ok (max_ack_height s).
Proof. intros ((_ & _ & _ & H1 & _) & _). exact H1. Qed.
Lemma heights_ok_enable s : heights_ok s -> heights_ok (EnableOverestimateAvoidance s).
Proof. intros [(T1 & T2) T3]. unfold EnableOverestimateAvoidance. destruct (overestimate_avoidance_ s); [done|]. split; [|done]. split; [by right|done]. Qed.
Lemma heights_ok_init w : heights_ok (BandwidthSampler_init w).
Proof. split; [|done]. split; [by left|]. split; [done|]. unfold filter_all, height_ok. cbn. done. Qed.

(** ** Sending *)

Lemma contents_newest q pn (e : ConnectionStateOnSentPacket) : queue_ok q -> contents q !! pn = Some e ->
  exists n, newest (abs q) = Some n /\ pn <= n.
Proof.
  intros Hq He. pose proof (table_keys _ _ _ _ He) as Hk. unfold abs. cbn [newest].
  rewrite contents_empty, bool_decide_false by (done || (intros E; by rewrite E, lookup_empty in He)).
  eexists. split; [done|]. unfold entry_slots_used. lia.
Qed.

Definition follows (q : PacketNumberIndexedQueue ConnectionStateOnSentPacket) (pn : Z) : Prop :=
  forall n, newest (abs q) = Some n -> n < pn <= n + 10000.

Lemma Recent_first t n : 0 < t -> 0 <= n -> Recent_Update Recent_Clear t n = Ok (mkRecent AckPoint_default (mkAckPoint t n)).
Proof.
  intros Ht Hn. unfold Recent_Update. change (point_total_bytes_acked (ack_points_1 Recent_Clear)) with 0.
  change (point_ack_time (ack_points_1 Recent_Clear)) with 0. by rewrite (proj2 (Z.leb_le _ _)), (proj2 (Z.ltb_lt _ _)).
Qed.

(** The sampler when the packet is recorded: more bytes sent, and a new start if nothing was in flight. *)
Definition about_to_send (s : BandwidthSampler) (pn bytes : Z) : BandwidthSampler :=
  s <| last_sent_packet_ := pn |> <| total_bytes_sent_ := total_bytes_sent_ s + bytes |>.

Lemma flight_spec s now t pn bytes fl : sampler_core s now -> now <= t < 2 ^ 61 -> 0 < t -> 0 < bytes ->
  total_bytes_sent_ s + bytes < 2 ^ 40 -> (total_bytes_sent_ s = 0 -> fl = 0) ->
  exists s', (if fl =? 0 then start_of_flight (about_to_send s pn bytes) t else Ok (about_to_send s pn bytes)) = Ok s' /\
    sampler_core s' t /\ total_bytes_sent_ s' = total_bytes_sent_ s + bytes /\ total_bytes_acked_ s' = total_bytes_acked_ s /\
    total_bytes_lost_ s' = total_bytes_lost_ s /\ total_bytes_neutered_ s' = total_bytes_neutered_ s /\
    connection_state_map_ s' = connection_state_map_ s.
Proof.
  intros Hc Ht Hpos Hb Hbound Hfl. pose proof Hc as []. unfold point_ok in *.
  assert (Hent : forall s', total_bytes_sent_ s <= total_bytes_sent_ s' -> total_bytes_acked_ s' = total_bytes_acked_ s ->
    map_Forall (fun _ e => packet_ok s' t e) (contents (connection_state_map_ s))).
  { intros s' H1 H2 k e Hk. eapply packet_ok_mono; [by apply (sc_entries0 k)|lia..]. }
  assert (Hcand : forall s', total_bytes_acked_ s' = total_bytes_acked_ s -> Forall (point_ok s' t) (a0_candidates_ s)).
  { intros s' H2. eapply Forall_impl; [exact sc_candidates0|]. unfold point_ok. lia. }
  destruct (Z.eqb_spec fl 0) as [E0|E0].
  - unfold start_of_flight. cbn -[Recent_Update]. rewrite Recent_first by lia. cbn.
    destruct (overestimate_avoidance_ s) eqn:Eo; cbn; (eexists; split; [done|]); (split; [|done]);
      split; cbn -[contents]; try (done || lia || (apply Hent; cbn; lia) || (by apply Hcand)); unfold point_ok; cbn; try lia.
    + change QuicTime_Zero with 0. lia.
    + constructor; [cbn; lia|constructor].
  - eexists. split; [done|]. split; [|done].
    assert (total_bytes_sent_ s <> 0) by (intros ?; auto). specialize (sc_times0 ltac:(lia)).
    split; cbn -[contents]; try (done || lia || (apply Hent; cbn; lia) || (by apply Hcand)); unfold point_ok; cbn; try lia.
    intros Eo _. apply sc_started0; [done|lia].
Qed.

(** The packet is recorded with the state the sampler has then. *)
Lemma track_spec s g t pn bytes fl : sampler_core s t -> sampler_ghost s g -> 0 < t -> 0 <= pn < 2 ^ 47 -> 0 < bytes ->
  0 < total_bytes_sent_ s -> 0 <= fl < two64 ->
  follows (connection_state_map_ s) pn -> total_bytes_acked_ s + total_bytes_lost_ s + total_bytes_neutered_ s + sum_sizes g + bytes <= total_bytes_sent_ s ->
  exists q', Emplace (connection_state_map_ s) pn (ConnectionStateOnSentPacket_mk t bytes fl s) = Ok (q', true) /\
    sampler_core (s <| connection_state_map_ := q' |>) t /\
    sampler_ghost (s <| connection_state_map_ := q' |>) (<[pn := bytes]> g).
Proof.
  intros Hc Hg Ht Hpn Hb Hs Hfl Hf Htot. pose proof Hc as []. pose proof Hg as [G1 G2 G3 G4].
  destruct (Emplace_spec (connection_state_map_ s) pn (ConnectionStateOnSentPacket_mk t bytes fl s) sc_queue0 ltac:(lia)) as (q' & b & E & Hq' & Es).
  cbn [spec_op] in Es.
  assert (Hn : (match newest (abs (connection_state_map_ s)) with None => true | Some n => n <? pn end) = true).
  { destruct (newest _) eqn:En; [|done]. apply Z.ltb_lt. specialize (Hf _ En). lia. }
  rewrite Hn in Es. injection Es as Eq _ Eb. subst b. exists q'. split; [done|].
  assert (Hfresh : contents (connection_state_map_ s) !! pn = None).
  { destruct (contents (connection_state_map_ s) !! pn) eqn:Ec; [|done]. apply contents_newest in Ec as (n & En & Hle); [|done].
    specialize (Hf _ En). lia. }
  assert (Hgf : g !! pn = None).
  { destruct (g !! pn) eqn:Egp; [|done]. destruct (G1 _ _ Egp) as (e & He & _). congruence. }
  specialize (sc_times0 Hs). split.
  - split; cbn -[contents]; try done.
    + rewrite Eq. intros k e Hk. apply lookup_insert_Some in Hk as [[<- <-]|[_ Hk]].
      * split; cbn; (done || lia).
      * eapply packet_ok_mono; [by apply (sc_entries0 k)|cbn; lia..].
    + lia.
  - split; cbn -[contents sum_sizes]; try done.
    + rewrite Eq. intros k v Hk. apply lookup_insert_Some in Hk as [[<- <-]|[Hne Hk]].
      * rewrite lookup_insert_eq. eauto.
      * rewrite lookup_insert_ne by done. by apply G1.
    + rewrite sum_sizes_insert by done. lia.
Qed.

Lemma sent_spec s g now t pn bytes fl : sampler_core s now -> sampler_ghost s g -> now <= t < 2 ^ 61 -> 0 < t ->
  0 <= pn < 2 ^ 47 -> 0 < bytes -> total_bytes_sent_ s + bytes < 2 ^ 40 -> (total_bytes_sent_ s = 0 -> fl = 0) ->
  follows (connection_state_map_ s) pn ->
  exists s', Sampler_OnPacketSent s t pn bytes fl HAS_RETRANSMITTABLE_DATA = Ok s' /\ sampler_core s' t /\
    sampler_ghost s' (<[pn := bytes]> g) /\ total_bytes_sent_ s' = total_bytes_sent_ s + bytes.
Proof.
  intros Hc Hg Ht Htp Hpn Hb Hbound Hfl Hfol. pose proof (sc_bytes s now Hc) as Hbs. pose proof Hg as [G1 G2 G3 G4].
  pose proof (sum_sizes_nonneg g (sampler_ghost_pos s now g Hc Hg)) as Hsum.
  unfold Sampler_OnPacketSent. rewrite bool_decide_false by (intros Hx; by apply Hx).
  cbn -[IsEmpty last_packet Emplace ConnectionStateOnSentPacket_mk start_of_flight]. rewrite u64_small by lia.
  destruct (flight_spec s now t pn bytes fl Hc Ht Htp Hb Hbound Hfl) as (s2 & E0 & Hc2 & E1 & E2 & E3 & E4 & E5).
  unfold about_to_send in E0. cbn -[start_of_flight] in E0. rewrite E0. cbn [rbind].
  assert (Hlim : (if negb (IsEmpty (connection_state_map_ s2)) then
      let* last := last_packet (connection_state_map_ s2) in
      let* limit := PN_add last (max_tracked_packets_ s2) in PN_gt pn limit else Ok false) = Ok false).
  { pose proof (sc_queue s2 t Hc2) as Hq. rewrite E5 in *. destruct (IsEmpty (connection_state_map_ s)) eqn:Ee; [done|]. cbn [negb].
    rewrite last_packet_spec by done. cbn [rbind]. rewrite (sc_limit s2 t Hc2).
    destruct (queue_cases _ Hq) as [(_ & ? & _)|(_ & _ & Hf & Hle & _)]; [congruence|].
    assert (Hn : newest (abs (connection_state_map_ s)) = Some (first_packet_ (connection_state_map_ s) + entry_slots_used (connection_state_map_ s) - 1))
      by (unfold abs; cbn [newest]; by rewrite Ee).
    specialize (Hfol _ Hn). rewrite PN_add_small by lia. cbn [rbind]. rewrite PN_gt_init by (apply PN_init_small; lia).
    f_equal. apply Z.ltb_ge. lia. }
  rewrite Hlim. cbn [rbind negb CHECK].
  destruct (track_spec s2 g t pn bytes (fl ⊕ bytes)) as (q' & -> & Hc3 & Hg3); [done| |done|done|done|lia|apply u64_range| |lia|].
  - split; rewrite ?E1, ?E2, ?E3, ?E4, ?E5; (done || lia).
  - by rewrite E5.
  - cbn [rbind fst snd CHECK]. eexists. split; [done|]. done.
Qed.

(** Shrinking the queue keeps the invariant. *)
Lemma shrink_core s now q : sampler_core s now -> queue_ok q -> contents q ⊆ contents (connection_state_map_ s) ->
  sampler_core (s <| connection_state_map_ := q |>) now.
Proof.
  intros [] Hq Hsub. split; cbn -[contents]; try done.
  - intros k e Hk. eapply packet_ok_mono; [apply (sc_entries0 k); by eapply lookup_weaken|cbn; lia..].
  - intros E0. rewrite (sc_quiet0 E0) in Hsub. apply map_empty. intros i.
    destruct (contents q !! i) eqn:E; [|done]. eapply lookup_weaken in E; [|exact Hsub]. by rewrite lookup_empty in E.
Qed.

Lemma neutered_spec s g now pn : sampler_core s now -> sampler_ghost s g -> 0 <= pn < 2 ^ 47 ->
  (is_Some (g !! pn) \/ contents (connection_state_map_ s) !! pn = None) ->
  exists s', Sampler_OnPacketNeutered s pn = Ok s' /\ sampler_core s' now /\ sampler_ghost s' (delete pn g) /\
    total_bytes_sent_ s' = total_bytes_sent_ s.
Proof.
  intros Hc Hg Hpn Hin. pose proof (sampler_ghost_pos s now g Hc Hg) as Hpos. pose proof Hg as [G1 G2 G3 G4]. pose proof (sc_bytes s now Hc) as Hb.
  unfold Sampler_OnPacketNeutered.
  destruct (Remove_spec (connection_state_map_ s) pn (sc_queue s now Hc) ltac:(lia)) as (q' & r & -> & Er & Hq' & Es). cbn [rbind fst snd].
  cbn [spec_op abs table] in Es. destruct (g !! pn) as [sz|] eqn:Egp.
  - destruct (G1 pn sz Egp) as (e & He & Hsz). rewrite He in Er. subst r. rewrite He, decide_True in Es by eauto.
    injection Es as Ec _. pose proof (sum_sizes_delete g pn sz Egp) as Hsum.
    assert (0 <= sum_sizes (delete pn g)) by (apply sum_sizes_nonneg; by apply map_Forall_delete).
    pose proof (Hpos pn sz Egp : 0 < sz). rewrite u64_small by lia. eexists. split; [done|].
    set (s1 := s <| total_bytes_neutered_ := total_bytes_neutered_ s + size e |>).
    split; [apply shrink_core; [apply (sampler_core_frame s); [done|done|apply Hc|done]|done|rewrite Ec; apply delete_subseteq]|].
    split; [|done]. split; cbn -[contents sum_sizes delete]; [|done|lia|lia].
    intros k v Hk. apply lookup_delete_Some in Hk as [Hne Hk]. rewrite Ec, lookup_delete_ne by done. by apply G1.
  - destruct Hin as [[? ?]|Hin]; [done|]. rewrite Hin in Er. subst r. rewrite Hin, decide_False in Es by (by intros []).
    injection Es as Ec _. eexists. split; [done|]. split; [apply shrink_core; [done|done|by rewrite Ec]|].
    rewrite delete_id by done. split; [|done]. split; cbn -[contents sum_sizes]; rewrite ?Ec; done.
Qed.

Lemma obsolete_spec s g now pn : sampler_core s now -> sampler_ghost s g -> 0 <= pn < 2 ^ 47 ->
  exists s', Sampler_RemoveObsoletePackets s pn = Ok s' /\ sampler_core s' now /\
    sampler_ghost s' (filter (fun kv => pn <= kv.1) g) /\ total_bytes_sent_ s' = total_bytes_sent_ s.
Proof.
  intros Hc Hg Hpn. pose proof (sampler_ghost_pos s now g Hc Hg) as Hpos. pose proof Hg as [G1 G2 G3 G4].
  unfold Sampler_RemoveObsoletePackets.
  destruct (RemoveUpTo_spec (connection_state_map_ s) pn (sc_queue s now Hc) ltac:(lia)) as (q' & -> & Hq' & Es). cbn [rbind].
  cbn [spec_op abs table] in Es. injection Es as Ec _. eexists. split; [done|].
  split; [apply shrink_core; [done|done|rewrite Ec; apply map_filter_subseteq]|].
  split; [|done]. split; cbn -[contents sum_sizes filter]; [|done|done|].
  - intros k v Hk. apply map_lookup_filter_Some in Hk as [Hk Hle]. destruct (G1 k v Hk) as (e & He & Hsz). exists e. split; [|done].
    rewrite Ec. by apply map_lookup_filter_Some.
  - pose proof (sum_sizes_filter (fun kv => pn <= kv.1) g Hpos). lia.
Qed.

(** ** Runs *)

Inductive sampler_op :=
  | SSent (t : QuicTime) (pn : QuicPacketNumber) (bytes fl : Z) (d : HasRetransmittableData)
  | SEvent (t : QuicTime) (acked : list AckedPacket) (lost : list LostPacket) (max_bw upper rounds : Z)
  | SNeutered (pn : QuicPacketNumber)
  | SObsolete (least_unacked : QuicPacketNumber)
  | SAppLimited
  | SEnable.

Definition apply_sampler_op (s : BandwidthSampler) (op : sampler_op) : result BandwidthSampler :=
  match op with
  | SSent t pn bytes fl d => Sampler_OnPacketSent s t pn bytes fl d
  | SEvent t acked lost bw up rnd => let* r := Sampler_OnCongestionEvent s t acked lost bw up rnd in Ok r.1
  | SNeutered pn => Sampler_OnPacketNeutered s pn
  | SObsolete pn => Sampler_RemoveObsoletePackets s pn
  | SAppLimited => Ok (OnAppLimited s)
  | SEnable => Ok (EnableOverestimateAvoidance s)
  end.

(** What the connection keeps to. *)
Definition valid_sampler_op (s : BandwidthSampler) (g : gmap Z Z) (now : QuicTime) (op : sampler_op) : Prop :=
  match op with
  | SSent t pn bytes fl d => now <= t < 2 ^ 61 /\ 0 < t /\ 0 <= pn < 2 ^ 47 /\
      (d = HAS_RETRANSMITTABLE_DATA -> 0 < bytes /\ total_bytes_sent_ s + bytes < 2 ^ 40 /\
         (total_bytes_sent_ s = 0 -> fl = 0) /\ follows (connection_state_map_ s) pn)
  | SEvent t acked lost _ _ _ => now <= t < 2 ^ 61 /\
      NoDup (map acked_packet_number acked ++ map lost_packet_number lost) /\
      Forall (fun p => 0 <= p < 2 ^ 47 /\ (is_Some (g !! p) \/ contents (connection_state_map_ s) !! p = None)) (map acked_packet_number acked) /\
      Forall (fun l => 0 <= lost_packet_number l < 2 ^ 47 /\ g !! lost_packet_number l = Some (bytes_lost l)) lost
  | SNeutered pn => 0 <= pn < 2 ^ 47 /\ (is_Some (g !! pn) \/ contents (connection_state_map_ s) !! pn = None)
  | SObsolete pn => 0 <= pn < 2 ^ 47
  | SAppLimited => True
  | SEnable => total_bytes_sent_ s = 0
  end.
Definition outstanding (g : gmap Z Z) (op : sampler_op) : gmap Z Z :=
  match op with
  | SSent _ pn bytes _ HAS_RETRANSMITTABLE_DATA => <[pn := bytes]> g
  | SEvent _ acked lost _ _ _ => forget (map acked_packet_number acked) (forget (map lost_packet_number lost) g)
  | SNeutered pn => delete pn g
  | SObsolete pn => filter (fun kv => pn <= kv.1) g
  | _ => g
  end.
Definition clock (now : QuicTime) (op : sampler_op) : QuicTime :=
  match op with SSent t _ _ _ _ | SEvent t _ _ _ _ _ => t | _ => now end.

Inductive sampler_step : BandwidthSampler * gmap Z Z * QuicTime -> BandwidthSampler * gmap Z Z * QuicTime -> Prop :=
  sampler_step_intro s g now op s' : valid_sampler_op s g now op -> apply_sampler_op s op = Ok s' ->
    sampler_step (s, g, now) (s', outstanding g op, clock now op).

Lemma sent_any_spec s g now t pn bytes fl d : sampler_core s now -> sampler_ghost s g -> valid_sampler_op s g now (SSent t pn bytes fl d) ->
  exists s', Sampler_OnPacketSent s t pn bytes fl d = Ok s' /\ sampler_core s' t /\ sampler_ghost s' (outstanding g (SSent t pn bytes fl d)) /\
    (total_bytes_sent_ s' = total_bytes_sent_ s \/ total_bytes_sent_ s' = total_bytes_sent_ s + bytes).
Proof.
  intros Hc Hg (Ht & Htp & Hpn & Hd). destruct d.
  - eexists. split; [done|]. split; [apply (sampler_core_frame s); [by eapply sampler_core_later|done|apply (sampler_core_later s now t Hc Ht)|done]|]. split; [by destruct Hg|by left].
  - destruct (Hd eq_refl) as (? & ? & ? & ?). destruct (sent_spec s g now t pn bytes fl Hc Hg Ht) as (s' & -> & ? & ? & ?); [done..|]. exists s'. auto.
Qed.
Lemma valid_sampler_op_ok s g now op : sampler_core s now -> sampler_ghost s g -> valid_sampler_op s g now op ->
  exists s', apply_sampler_op s op = Ok s' /\ sampler_core s' (clock now op) /\ sampler_ghost s' (outstanding g op).
Proof.
  intros Hc Hg Hv. destruct op as [t pn bytes fl d|t acked lost bw up rnd|pn|pn| |]; cbn [apply_sampler_op clock outstanding valid_sampler_op] in *.
  - destruct (sent_any_spec s g now t pn bytes fl d Hc Hg Hv) as (s' & -> & ? & ? & _). eauto.
  - destruct Hv as (Ht & Hn & Ha & Hl). destruct (event_spec s g now t acked lost bw up rnd Hc Hg Ht Hn Ha Hl) as (s' & ev & -> & ? & ? & _). cbn. eauto.
  - destruct Hv as [Hpn Hin]. destruct (neutered_spec s g now pn Hc Hg Hpn Hin) as (s' & -> & ? & ? & _). eauto.
  - destruct (obsolete_spec s g now pn Hc Hg Hv) as (s' & -> & ? & ? & _). eauto.
  - eexists. split; [done|]. split; [by apply (sampler_core_frame s); [|done|apply Hc|]|by destruct Hg].
  - eexists. split; [done|]. unfold EnableOverestimateAvoidance. destruct (overestimate_avoidance_ s) eqn:Eo; [done|].
    split; [|by destruct Hg]. pose proof Hc as []. split; cbn -[contents]; try done.
    + intros k e Hk. rewrite (sc_quiet0 Hv) in Hk. by rewrite lookup_empty in Hk.
    + lia.
Qed.

Lemma sampler_init_ok w : sampler_core (BandwidthSampler_init w) 0 /\ sampler_ghost (BandwidthSampler_init w) ∅.
Proof.
  split; split; cbn; unfold point_ok; cbn; change QuicTime_Zero with 0; try (done || lia).
Qed.

Lemma sampler_run_ok w s g now : rtc sampler_step (BandwidthSampler_init w, ∅, 0) (s, g, now) -> sampler_core s now /\ sampler_ghost s g.
Proof.
  intros Hr. pose proof (sampler_init_ok w) as H0.
  remember (BandwidthSampler_init w, ∅, 0) as x eqn:Ex. remember (s, g, now) as y eqn:Ey.
  assert (Hx : sampler_core x.1.1 x.2 /\ sampler_ghost x.1.1 x.1.2) by (by subst x).
  clear Ex H0. revert Hx. induction Hr as [z|z1 z2 z3 Hs _ IH]; intros Hx; [by subst|]. apply IH; [done|].
  destruct Hs as [s0 g0 n0 op s1 Hv E]. cbn in *. destruct Hx as [Hc Hg].
  destruct (valid_sampler_op_ok s0 g0 n0 op Hc Hg Hv) as (s2 & E2 & ? & ?). by rewrite E in E2; injection E2 as ->.
Qed.

(** C21. Bandwidth samples are exact.  Along every run in which packets are sent in
    order and each tracked packet is acknowledged, lost or neutered at most
    once, no check of the sampler fails and the bytes acknowledged, lost and
    neutered never exceed the bytes sent.  The acknowledgment of an outstanding
    packet gives the lower of the send rate between the packet and the last one
    acknowledged before it was sent and the rate of acknowledgments since then (or
    since the chosen point when overestimates are avoided), no subtraction
    of totals wrapping around, with the packet's own RTT and the state recorded
    when it was sent; if no time has passed since that point there is no sample. *)
Theorem sampler_sample_exact w s g now t pn sz :
  rtc sampler_step (BandwidthSampler_init w, ∅, 0) (s, g, now) ->
  g !! pn = Some sz -> now <= t < 2 ^ 61 -> 0 <= pn < 2 ^ 47 ->
  total_bytes_acked_ s + total_bytes_lost_ s + total_bytes_neutered_ s + sum_sizes g <= total_bytes_sent_ s /\
  (forall op, valid_sampler_op s g now op -> exists s', apply_sampler_op s op = Ok s') /\
  exists e s', GetEntry (connection_state_map_ s) pn = Ok (Some e) /\ size e = sz /\
    OnPacketAcknowledged s t pn = Ok (s', sample_of s t e) /\
    total_bytes_acked_ s' = total_bytes_acked_ s + sz /\
    point_total_bytes_acked (a0_point s e) <= total_bytes_acked_ s /\
    total_bytes_sent_at_last_acked_packet e <= total_bytes_sent (send_time_state e).
Proof.
  intros [Hc Hg]%sampler_run_ok Hpn Ht Hb. pose proof Hg as [G1 G2 G3 G4].
  split; [done|]. split; [intros op Hv; destruct (valid_sampler_op_ok s g now op Hc Hg Hv) as (s' & E & _); eauto|].
  destruct (G1 pn sz Hpn) as (e & He & Hsz). pose proof (sum_sizes_delete g pn sz Hpn) as Hsum.
  assert (0 <= sum_sizes (delete pn g)) by (apply sum_sizes_nonneg, map_Forall_delete, (sampler_ghost_pos s now g Hc Hg)).
  destruct (acked_inner_spec s now t pn e Hc He Ht Hb ltac:(lia)) as (s' & E & _ & Ea & _).
  pose proof (sc_entries s now Hc pn e He) as Hp. pose proof (po_size s now e Hp). pose proof (sc_bytes s now Hc).
  exists e, s'. unfold OnPacketAcknowledged. rewrite GetEntry_spec by (apply Hc || lia). rewrite He. cbn [rbind].
  split_and!; try done; [lia|apply (a0_point_ok s now e Hc Hp); lia|apply Hp].
Qed.

(** * Witness *)

Definition sampler_after (ops : list sampler_op) : BandwidthSampler :=
  match rfold apply_sampler_op ops (BandwidthSampler_init 10) with Ok s => s | Fault _ => BandwidthSampler_init 10 end.
Definition two_sends : list sampler_op :=
  [SSent 1000 1 1200 0 HAS_RETRANSMITTABLE_DATA; SSent 2000 2 1000 1200 HAS_RETRANSMITTABLE_DATA].

Lemma two_sends_run : rtc sampler_step (BandwidthSampler_init 10, ∅, 0)
  (sampler_after two_sends, <[2 := 1000]> (<[1 := 1200]> ∅), 2000).
Proof.
  eapply (rtc_l _ _ (sampler_after (take 1 two_sends), <[1 := 1200]> ∅, 1000)).
  { apply (sampler_step_intro _ _ _ (SSent 1000 1 1200 0 HAS_RETRANSMITTABLE_DATA)); [|by vm_compute].
    split; [lia|]. split; [lia|]. split; [lia|]. intros _. split; [lia|]. split; [cbn; lia|]. split; [done|]. intros n Hn. done. }
  eapply (rtc_l _ _ (sampler_after two_sends, <[2 := 1000]> (<[1 := 1200]> ∅), 2000)); [|done].
  apply (sampler_step_intro _ _ _ (SSent 2000 2 1000 1200 HAS_RETRANSMITTABLE_DATA)); [|by vm_compute].
  split; [lia|]. split; [lia|]. split; [lia|]. intros _. split; [lia|].
  split; [by vm_compute|]. split; [vm_compute; discriminate|]. intros n Hn. vm_compute in Hn. injection Hn as <-. lia.
Qed.

Lemma sampler_sample_exact_witness :
  exists s' smp, OnPacketAcknowledged (sampler_after two_sends) 101000 1 = Ok (s', smp) /\ bandwidth smp = 96000 /\ sample_packet_rtt smp = 100000.
Proof.
  destruct (sampler_sample_exact 10 (sampler_after two_sends) _ _ 101000 1 1200 two_sends_run)
    as (_ & _ & e & s' & He & _ & E & _); [reflexivity|lia|lia|].
  exists s', (sample_of (sampler_after two_sends) 101000 e). split; [exact E|].
  vm_compute in He. injection He as <-. split; vm_compute; reflexivity.
Defined.
