(* ===== verification/Bbr.v ===== *)
(** [BbrSender] (bbr_sender.h, bbr_sender.cc): the BBR congestion controller,
    over the bandwidth sampler.  The sender works in one of four modes: it
    probes for bandwidth exponentially ([STARTUP]), drains the queue that left
    ([DRAIN]), cycles its pacing gain ([PROBE_BW]) and now and then empties the
    path to measure the RTT ([PROBE_RTT]).

    The unacked packet map and the RTT estimator the sender points to are
    arguments of the operations that read them; the statistics are a member (the
    factory always passes them); the random number generator is an
    interface. *)

From Stdlib Require Import SpecFloat.
From stdpp Require Import relations.
From S2P Require Import Prelude Float QuicTime PacketNumber WindowedFilter RttStats SendAlgorithm UnackedMap IndexedQueue BandwidthSampler.

(** * Constants *)

(** src/quiche/gquiche/quic/core/quic_constants.h:40-40 [kMaxV6PacketSize] *)
Definition kMaxV6PacketSize : Z := 1452.
(** src/quiche/gquiche/quic/core/quic_constants.h:47-47 [kMaxOutgoingPacketSize] *)
Definition kMaxOutgoingPacketSize : Z := kMaxV6PacketSize.
(** src/quiche/gquiche/quic/core/quic_constants.h:68-68 [kMaxInitialCongestionWindow] *)
Definition kMaxInitialCongestionWindow : Z := 200.
(** src/quiche/gquiche/quic/core/quic_constants.h:71-71 [kMinInitialCongestionWindow] *)
Definition kMinInitialCongestionWindow : Z := 10.
(** src/quiche/gquiche/quic/core/congestion_control/bbr_sender.cc:27-27 [kDefaultMinimumCongestionWindow] *)
Definition kDefaultMinimumCongestionWindow : Z := 4 * kMaxSegmentSize.
(** src/quiche/gquiche/quic/core/congestion_control/bbr_sender.cc:30-30 [kDefaultHighGain] *)
Definition kDefaultHighGain : spec_float := f32_div (f32_of_Z 2885) (f32_of_Z 1000).
(** src/quiche/gquiche/quic/core/congestion_control/bbr_sender.cc:32-32 [kDerivedHighGain] *)
Definition kDerivedHighGain : spec_float := f32_div (f32_of_Z 2773) (f32_of_Z 1000).
(** src/quiche/gquiche/quic/core/congestion_control/bbr_sender.cc:34-34 [kDerivedHighCWNDGain] *)
Definition kDerivedHighCWNDGain : spec_float := f32_of_Z 2.
(** src/quiche/gquiche/quic/core/congestion_control/bbr_sender.cc:36-36 [kPacingGain] *)
Definition kPacingGain : list spec_float :=
  [f32_lit 5 (-2); f32_lit 3 (-2); f32_of_Z 1; f32_of_Z 1; f32_of_Z 1; f32_of_Z 1; f32_of_Z 1; f32_of_Z 1].
(** src/quiche/gquiche/quic/core/congestion_control/bbr_sender.cc:39-39 [kGainCycleLength] *)
Definition kGainCycleLength : Z := Z.of_nat (length kPacingGain).
(** src/quiche/gquiche/quic/core/congestion_control/bbr_sender.cc:41-41 [kBandwidthWindowSize] *)
Definition kBandwidthWindowSize : Z := kGainCycleLength + 2.
(** src/quiche/gquiche/quic/core/congestion_control/bbr_sender.cc:44-44 [kMinRttExpiry] *)
Definition kMinRttExpiry : Delta := Delta_FromSeconds 10.
(** src/quiche/gquiche/quic/core/congestion_control/bbr_sender.cc:46-46 [kProbeRttTime] *)
Definition kProbeRttTime : Delta := Delta_FromMilliseconds 200.
(** src/quiche/gquiche/quic/core/congestion_control/bbr_sender.cc:50-50 [kStartupGrowthTarget] *)
Definition kStartupGrowthTarget : spec_float := f32_lit 5 (-2).
(** src/quiche/gquiche/quic/core/congestion_control/bbr_sender.cc:51-51 [kRoundTripsWithoutGrowthBeforeExitingStartup] *)
Definition kRoundTripsWithoutGrowthBeforeExitingStartup : Z := 3.
(** src/quiche/gquiche/quic/core/quic_protocol_flags_list.h:48-50 [quic_bbr_cwnd_gain] *)
Definition FLAGS_quic_bbr_cwnd_gain : spec_float := f64_of_Z 2.
(** src/quiche/gquiche/quic/core/quic_protocol_flags_list.h:139-142 [quic_bbr2_default_loss_threshold] *)
Definition FLAGS_quic_bbr2_default_loss_threshold : spec_float := f64_div (f64_of_Z 2) (f64_of_Z 100).
(** src/quiche/gquiche/quic/core/quic_protocol_flags_list.h:146-148 [quic_bbr2_default_startup_full_loss_count] *)
Definition FLAGS_quic_bbr2_default_startup_full_loss_count : Z := 8.
(** src/quiche/gquiche/quic/core/quic_flags_list.h:23-23 [quic_conservative_cwnd_and_pacing_gains] *)
Definition FLAGS_quic_conservative_cwnd_and_pacing_gains : bool := false.

(** src/quiche/gquiche/quic/core/crypto/quic_random.h:28-28 [QuicRandom].  A number in the range of [uint64_t]. *)
Class QuicRandom (R : Type) := {
  RandUint64 : R -> Z * R;
  RandUint64_range r : 0 <= (RandUint64 r).1 < two64;
}.

(** src/quiche/gquiche/quic/core/congestion_control/bbr_sender.h:41-52 [BbrSender::Mode] *)
Inductive Mode := STARTUP | DRAIN | PROBE_BW | PROBE_RTT.
#[export] Instance Mode_eq_dec : EqDecision Mode.
Proof. solve_decision. Defined.
(** src/quiche/gquiche/quic/core/congestion_control/bbr_sender.h:55-63 [BbrSender::RecoveryState] *)
Inductive RecoveryState := NOT_IN_RECOVERY | CONSERVATION | GROWTH.
#[export] Instance RecoveryState_eq_dec : EqDecision RecoveryState.
Proof. solve_decision. Defined.

(** src/quiche/gquiche/quic/core/congestion_control/bbr_sender.h:254-391 [BbrSender].  Members that nothing reads are left out ([is_app_limited_recovery_],
    [slower_startup_], [rate_based_startup_]). *)
Record BbrSender (R : Type) := mkBbr {
  random_ : R;
  stats_ : QuicConnectionStats;
  mode_ : Mode;
  sampler_ : BandwidthSampler;
  round_trip_count_ : Z;
  last_sent_packet_ : QuicPacketNumber;
  current_round_trip_end_ : QuicPacketNumber;
  num_loss_events_in_round_ : Z;
  bytes_lost_in_round_ : Z;
  max_bandwidth_ : WindowedFilter;
  min_rtt_ : Delta;
  min_rtt_timestamp_ : QuicTime;
  congestion_window_ : Z;
  initial_congestion_window_ : Z;
  max_congestion_window_ : Z;
  min_congestion_window_ : Z;
  high_gain_ : spec_float;
  high_cwnd_gain_ : spec_float;
  drain_gain_ : spec_float;
  pacing_rate_ : Z;
  pacing_gain_ : spec_float;
  congestion_window_gain_ : spec_float;
  congestion_window_gain_constant_ : spec_float;
  num_startup_rtts_ : Z;
  cycle_current_offset_ : Z;
  last_cycle_start_ : QuicTime;
  is_at_full_bandwidth_ : bool;
  rounds_without_bandwidth_gain_ : Z;
  bandwidth_at_last_round_ : Z;
  exiting_quiescence_ : bool;
  exit_probe_rtt_at_ : QuicTime;
  probe_rtt_round_passed_ : bool;
  last_sample_is_app_limited_ : bool;
  has_non_app_limited_sample_ : bool;
  recovery_state_ : RecoveryState;
  end_recovery_at_ : QuicPacketNumber;
  recovery_window_ : Z;
  enable_ack_aggregation_during_startup_ : bool;
  expire_ack_aggregation_in_startup_ : bool;
  drain_to_target_ : bool;
  detect_overshooting_ : bool;
  bytes_lost_while_detecting_overshooting_ : Z;
  bytes_lost_multiplier_while_detecting_overshooting_ : Z;
  cwnd_to_calculate_min_pacing_rate_ : Z;
  max_congestion_window_with_network_parameters_adjusted_ : Z;
}.
Arguments mkBbr {R}.
Arguments random_ {R}.
Arguments stats_ {R}.
Arguments mode_ {R}.
Arguments sampler_ {R}.
Arguments round_trip_count_ {R}.
Arguments last_sent_packet_ {R}.
Arguments current_round_trip_end_ {R}.
Arguments num_loss_events_in_round_ {R}.
Arguments bytes_lost_in_round_ {R}.
Arguments max_bandwidth_ {R}.
Arguments min_rtt_ {R}.
Arguments min_rtt_timestamp_ {R}.
Arguments congestion_window_ {R}.
Arguments initial_congestion_window_ {R}.
Arguments max_congestion_window_ {R}.
Arguments min_congestion_window_ {R}.
Arguments high_gain_ {R}.
Arguments high_cwnd_gain_ {R}.
Arguments drain_gain_ {R}.
Arguments pacing_rate_ {R}.
Arguments pacing_gain_ {R}.
Arguments congestion_window_gain_ {R}.
Arguments congestion_window_gain_constant_ {R}.
Arguments num_startup_rtts_ {R}.
Arguments cycle_current_offset_ {R}.
Arguments last_cycle_start_ {R}.
Arguments is_at_full_bandwidth_ {R}.
Arguments rounds_without_bandwidth_gain_ {R}.
Arguments bandwidth_at_last_round_ {R}.
Arguments exiting_quiescence_ {R}.
Arguments exit_probe_rtt_at_ {R}.
Arguments probe_rtt_round_passed_ {R}.
Arguments last_sample_is_app_limited_ {R}.
Arguments has_non_app_limited_sample_ {R}.
Arguments recovery_state_ {R}.
Arguments end_recovery_at_ {R}.
Arguments recovery_window_ {R}.
Arguments enable_ack_aggregation_during_startup_ {R}.
Arguments expire_ack_aggregation_in_startup_ {R}.
Arguments drain_to_target_ {R}.
Arguments detect_overshooting_ {R}.
Arguments bytes_lost_while_detecting_overshooting_ {R}.
Arguments bytes_lost_multiplier_while_detecting_overshooting_ {R}.
Arguments cwnd_to_calculate_min_pacing_rate_ {R}.
Arguments max_congestion_window_with_network_parameters_adjusted_ {R}.
#[export] Instance eta_Bbr R : Eta (BbrSender R) := MkEta _ (fun s =>
  mkBbr (random_ s) (stats_ s) (mode_ s) (sampler_ s) (round_trip_count_ s) (last_sent_packet_ s)
    (current_round_trip_end_ s) (num_loss_events_in_round_ s) (bytes_lost_in_round_ s) (max_bandwidth_ s) (min_rtt_ s)
    (min_rtt_timestamp_ s) (congestion_window_ s) (initial_congestion_window_ s) (max_congestion_window_ s)
    (min_congestion_window_ s) (high_gain_ s) (high_cwnd_gain_ s) (drain_gain_ s) (pacing_rate_ s) (pacing_gain_ s)
    (congestion_window_gain_ s) (congestion_window_gain_constant_ s) (num_startup_rtts_ s) (cycle_current_offset_ s)
    (last_cycle_start_ s) (is_at_full_bandwidth_ s) (rounds_without_bandwidth_gain_ s) (bandwidth_at_last_round_ s)
    (exiting_quiescence_ s) (exit_probe_rtt_at_ s) (probe_rtt_round_passed_ s) (last_sample_is_app_limited_ s)
    (has_non_app_limited_sample_ s) (recovery_state_ s) (end_recovery_at_ s) (recovery_window_ s)
    (enable_ack_aggregation_during_startup_ s) (expire_ack_aggregation_in_startup_ s) (drain_to_target_ s)
    (detect_overshooting_ s) (bytes_lost_while_detecting_overshooting_ s)
    (bytes_lost_multiplier_while_detecting_overshooting_ s) (cwnd_to_calculate_min_pacing_rate_ s)
    (max_congestion_window_with_network_parameters_adjusted_ s)).

Definition gain_gt1 (gain : spec_float) : bool := SFltb (f64_of_Z 1) (f64_of_f32 gain).
Definition gain_lt1 (gain : spec_float) : bool := SFltb (f64_of_f32 gain) (f64_of_Z 1).

(** [kPacingGain] at an index. *)
Definition pacing_gain_at (offset : Z) : result spec_float :=
  match kPacingGain !! Z.to_nat offset with Some g => Ok g | None => Fault OutOfBounds end.

Section Sender.
Context {R : Type} `{QuicRandom R} {N : Type} `{SessionNotifier N}.
Implicit Types (s : BbrSender R) (m : QuicUnackedPacketMap N) (rtt_stats : RttStats).

(** src/quiche/gquiche/quic/core/congestion_control/bbr_sender.h:145-151 [BbrSender::set_high_gain] *)
Definition set_high_gain s (high_gain : spec_float) : result (BbrSender R) :=
  let* _ := CHECK (SFltb (f32_of_Z 1) high_gain) in
  let s := s <| high_gain_ := high_gain |> in
  Ok (if decide (mode_ s = STARTUP) then s <| pacing_gain_ := high_gain |> else s).
(** src/quiche/gquiche/quic/core/congestion_control/bbr_sender.h:154-160 [BbrSender::set_high_cwnd_gain] *)
Definition set_high_cwnd_gain s (high_cwnd_gain : spec_float) : result (BbrSender R) :=
  let* _ := CHECK (SFltb (f32_of_Z 1) high_cwnd_gain) in
  let s := s <| high_cwnd_gain_ := high_cwnd_gain |> in
  Ok (if decide (mode_ s = STARTUP) then s <| congestion_window_gain_ := high_cwnd_gain |> else s).
(** src/quiche/gquiche/quic/core/congestion_control/bbr_sender.h:163-166 [BbrSender::set_drain_gain] *)
Definition set_drain_gain s (drain_gain : spec_float) : result (BbrSender R) :=
  let* _ := CHECK (SFltb drain_gain (f32_of_Z 1)) in
  Ok (s <| drain_gain_ := drain_gain |>).

(** * Queries *)

(** src/quiche/gquiche/quic/core/congestion_control/bbr_sender.cc:150-152 [BbrSender::InSlowStart] *)
Definition InSlowStart s : bool := bool_decide (mode_ s = STARTUP).
(** src/quiche/gquiche/quic/core/congestion_control/bbr_sender.cc:210-212 [BbrSender::InRecovery] *)
Definition InRecovery s : bool := bool_decide (recovery_state_ s <> NOT_IN_RECOVERY).
(** src/quiche/gquiche/quic/core/congestion_control/bbr_sender.cc:214-222 [BbrSender::ShouldSendProbingPacket] *)
Definition ShouldSendProbingPacket s : bool := negb (SFleb (pacing_gain_ s) (f32_of_Z 1)).
(** src/quiche/gquiche/quic/core/congestion_control/bbr_sender.cc:442-450 [BbrSender::GetMinRtt] *)
Definition GetMinRtt rtt_stats s : Delta :=
  if negb (Delta_IsZero (min_rtt_ s)) then min_rtt_ s else MinOrInitialRtt rtt_stats.
(** src/quiche/gquiche/quic/core/congestion_control/bbr_sender.cc:190-192 [BbrSender::BandwidthEstimate] *)
Definition BandwidthEstimate s : Z := GetBest (max_bandwidth_ s).
(** src/quiche/gquiche/quic/core/congestion_control/bbr_sender.cc:182-188 [BbrSender::PacingRate] *)
Definition PacingRate rtt_stats s : result Z :=
  if pacing_rate_ s =? 0 then
    let* b := FromBytesAndTimeDelta (initial_congestion_window_ s) (GetMinRtt rtt_stats s) in
    QuicBandwidth_mul b (high_gain_ s)
  else Ok (pacing_rate_ s).
(** src/quiche/gquiche/quic/core/congestion_control/bbr_sender.cc:464-466 [BbrSender::ProbeRttCongestionWindow] *)
Definition ProbeRttCongestionWindow s : Z := min_congestion_window_ s.
(** src/quiche/gquiche/quic/core/congestion_control/bbr_sender.cc:194-204 [BbrSender::GetCongestionWindow] *)
Definition GetCongestionWindow s : Z :=
  if decide (mode_ s = PROBE_RTT) then ProbeRttCongestionWindow s
  else if InRecovery s then Z.min (congestion_window_ s) (recovery_window_ s)
  else congestion_window_ s.
(** src/quiche/gquiche/quic/core/congestion_control/bbr_sender.cc:178-180 [BbrSender::CanSend] *)
Definition CanSend s (in_flight : Z) : bool := in_flight <? GetCongestionWindow s.
(** src/quiche/gquiche/quic/core/congestion_control/bbr_sender.cc:206-208 [BbrSender::GetSlowStartThreshold] *)
Definition GetSlowStartThreshold s : Z := 0.
(** src/quiche/gquiche/quic/core/congestion_control/bbr_sender.cc:438-440 [BbrSender::GetCongestionControlType] *)
Definition GetCongestionControlType s : Z := kBBR.
(** src/quiche/gquiche/quic/core/congestion_control/bbr_sender.cc:452-462 [BbrSender::GetTargetCongestionWindow] *)
Definition GetTargetCongestionWindow rtt_stats s (gain : spec_float) : result Z :=
  let bdp := ToBytesPerPeriod (BandwidthEstimate s) (GetMinRtt rtt_stats s) in
  let* congestion_window := float_to_u64 (f32_mul gain (f32_of_Z bdp)) in
  let* congestion_window :=
    if congestion_window =? 0 then float_to_u64 (f32_mul gain (f32_of_Z (initial_congestion_window_ s)))
    else Ok congestion_window in
  Ok (Z.max congestion_window (min_congestion_window_ s)).

(** * Modes *)

(** src/quiche/gquiche/quic/core/congestion_control/bbr_sender.cc:468-476 [BbrSender::EnterStartupMode] *)
Definition EnterStartupMode s (now : QuicTime) : result (BbrSender R) :=
  let st := stats_ s <| slowstart_count := u32 (slowstart_count (stats_ s) + 1) |> in
  let* d := Accumulator_Start (slowstart_duration st) now in
  Ok (s <| stats_ := st <| slowstart_duration := d |> |> <| mode_ := STARTUP |>
        <| pacing_gain_ := high_gain_ s |> <| congestion_window_gain_ := high_cwnd_gain_ s |>).

(** src/quiche/gquiche/quic/core/congestion_control/bbr_sender.cc:478-492 [BbrSender::EnterProbeBandwidthMode] *)
Definition EnterProbeBandwidthMode s (now : QuicTime) : result (BbrSender R) :=
  let '(x, r) := RandUint64 (random_ s) in
  let offset := x mod (kGainCycleLength - 1) in
  let offset := if 1 <=? offset then offset + 1 else offset in
  let* gain := pacing_gain_at offset in
  Ok (s <| random_ := r |> <| mode_ := PROBE_BW |> <| congestion_window_gain_ := congestion_window_gain_constant_ s |>
        <| cycle_current_offset_ := offset |> <| last_cycle_start_ := now |> <| pacing_gain_ := gain |>).

(** src/quiche/gquiche/quic/core/congestion_control/bbr_sender.cc:607-612 [BbrSender::OnExitStartup] *)
Definition OnExitStartup s (now : QuicTime) : result (BbrSender R) :=
  let* _ := CHECK (bool_decide (mode_ s = STARTUP)) in
  let* d := Accumulator_Stop (slowstart_duration (stats_ s)) now in
  Ok (s <| stats_ := stats_ s <| slowstart_duration := d |> |>).

(** src/quiche/gquiche/quic/core/congestion_control/bbr_sender.cc:72-136 [BbrSender::BbrSender] *)
Definition BbrSender_init (now : QuicTime) (initial_tcp_congestion_window max_tcp_congestion_window : Z)
    (random : R) (stats : QuicConnectionStats) : result (BbrSender R) :=
  let initial := initial_tcp_congestion_window ⊗ kDefaultTCPMSS in
  let maximal := max_tcp_congestion_window ⊗ kDefaultTCPMSS in
  let stats := stats <| slowstart_count := 0 |> <| slowstart_duration := QuicTimeAccumulator_init |> in
  let s := mkBbr random stats STARTUP (BandwidthSampler_init kBandwidthWindowSize) 0 QuicPacketNumber_default
    QuicPacketNumber_default 0 0 (WindowedFilter_init kBandwidthWindowSize QuicBandwidth_Zero 0) Delta_Zero QuicTime_Zero
    initial initial maximal kDefaultMinimumCongestionWindow kDefaultHighGain kDefaultHighGain
    (f32_div (f32_of_Z 1) kDefaultHighGain) QuicBandwidth_Zero (f32_of_Z 1) (f32_of_Z 1)
    (f32_of_f64 FLAGS_quic_bbr_cwnd_gain) kRoundTripsWithoutGrowthBeforeExitingStartup 0 QuicTime_Zero false 0
    QuicBandwidth_Zero false QuicTime_Zero false false false NOT_IN_RECOVERY QuicPacketNumber_default maximal
    false false false false 0 2 initial (kMaxInitialCongestionWindow * kDefaultTCPMSS) in
  let* s := EnterStartupMode s now in
  set_high_cwnd_gain s kDerivedHighCWNDGain.

(** src/quiche/gquiche/quic/core/congestion_control/bbr_sender.cc:140-148 [BbrSender::SetInitialCongestionWindowInPackets] *)
Definition SetInitialCongestionWindowInPackets s (congestion_window : Z) : BbrSender R :=
  if decide (mode_ s = STARTUP) then
    let w := congestion_window ⊗ kDefaultTCPMSS in
    s <| initial_congestion_window_ := w |> <| congestion_window_ := w |>
      <| cwnd_to_calculate_min_pacing_rate_ := Z.min w (cwnd_to_calculate_min_pacing_rate_ s) |>
  else s.

(** src/quiche/gquiche/quic/core/congestion_control/bbr_sender.cc:154-172 [BbrSender::OnPacketSent] *)
Definition OnPacketSent s (sent_time : QuicTime) (in_flight : Z) (packet_number : QuicPacketNumber) (bytes : Z)
    (is_retransmittable : HasRetransmittableData) : result (BbrSender R) :=
  let s := when (InSlowStart s)
    (fun s => s <| stats_ := stats_ s <| slowstart_packets_sent := slowstart_packets_sent (stats_ s) ⊕ 1 |>
                                      <| slowstart_bytes_sent := slowstart_bytes_sent (stats_ s) ⊕ bytes |> |>) s in
  let s := s <| last_sent_packet_ := packet_number |> in
  let s := when ((in_flight =? 0) && is_app_limited_ (sampler_ s)) (fun s => s <| exiting_quiescence_ := true |>) s in
  let* smp := Sampler_OnPacketSent (sampler_ s) sent_time packet_number bytes in_flight is_retransmittable in
  Ok (s <| sampler_ := smp |>).

(** src/quiche/gquiche/quic/core/congestion_control/bbr_sender.cc:174-176 [BbrSender::OnPacketNeutered] *)
Definition OnPacketNeutered s (packet_number : QuicPacketNumber) : result (BbrSender R) :=
  let* smp := Sampler_OnPacketNeutered (sampler_ s) packet_number in Ok (s <| sampler_ := smp |>).
(** src/quiche/gquiche/quic/core/congestion_control/bbr_sender.cc:845-853 [BbrSender::OnApplicationLimited] *)
Definition OnApplicationLimited s (in_flight : Z) : BbrSender R :=
  if GetCongestionWindow s <=? in_flight then s else s <| sampler_ := OnAppLimited (sampler_ s) |>.
(** src/quiche/gquiche/quic/core/congestion_control/bbr_sender.cc:855-857 [BbrSender::PopulateConnectionStats] *)
Definition PopulateConnectionStats s (stats : QuicConnectionStats) : QuicConnectionStats :=
  stats <| stats_num_ack_aggregation_epochs := num_ack_aggregation_epochs (sampler_ s) |>.
(** src/quiche/gquiche/quic/core/congestion_control/bbr_sender.h:125-125 [BbrSender::OnRetransmissionTimeout] *)
Definition OnRetransmissionTimeout s (packets_retransmitted : bool) : BbrSender R := s.
(** src/quiche/gquiche/quic/core/congestion_control/bbr_sender.h:126-126 [BbrSender::OnConnectionMigration] *)
Definition OnConnectionMigration s : BbrSender R := s.

(** * Configuration *)

(** src/quiche/gquiche/quic/core/congestion_control/bbr_sender.cc:226-270 [BbrSender::SetFromConfig].  The options the client may request, with BSAO of [ApplyConnectionOptions]. *)
Record BbrOptions := mkBbrOptions {
  k1RTT : bool; k2RTT : bool; kBBR3 : bool; kBWM3 : bool; kBWM4 : bool; kBBR4 : bool; kBBR5 : bool; kBBQ1 : bool;
  kBBQ3 : bool; kBBQ5 : bool; kMIN1 : bool; kICW1 : bool; kDTOS : bool; kBSAO : bool;
}.
(** src/quiche/gquiche/quic/core/congestion_control/bbr_sender.cc:276-281 [BbrSender::ApplyConnectionOptions] *)
Definition ApplyConnectionOptions s (o : BbrOptions) : BbrSender R :=
  when (kBSAO o) (fun s => s <| sampler_ := EnableOverestimateAvoidance (sampler_ s) |>) s.
(** src/quiche/gquiche/quic/core/congestion_control/bbr_sender.cc:224-274 [BbrSender::SetFromConfig] *)
Definition SetFromConfig s (o : BbrOptions) : result (BbrSender R) :=
  let s := when (k1RTT o) (fun s => s <| num_startup_rtts_ := 1 |>) s in
  let s := when (k2RTT o) (fun s => s <| num_startup_rtts_ := 2 |>) s in
  let s := when (kBBR3 o) (fun s => s <| drain_to_target_ := true |>) s in
  let s := when (kBWM3 o) (fun s => s <| bytes_lost_multiplier_while_detecting_overshooting_ := 3 |>) s in
  let s := when (kBWM4 o) (fun s => s <| bytes_lost_multiplier_while_detecting_overshooting_ := 4 |>) s in
  let s := when (kBBR4 o) (fun s => s <| sampler_ := SetMaxAckHeightTrackerWindowLength (sampler_ s) (2 * kBandwidthWindowSize) |>) s in
  let s := when (kBBR5 o) (fun s => s <| sampler_ := SetMaxAckHeightTrackerWindowLength (sampler_ s) (4 * kBandwidthWindowSize) |>) s in
  let* s :=
    if kBBQ1 o then
      let* s := set_high_gain s kDerivedHighGain in
      let* s := set_high_cwnd_gain s kDerivedHighGain in
      set_drain_gain s (f32_div (f32_of_Z 1) kDerivedHighGain)
    else Ok s in
  let s := when (kBBQ3 o) (fun s => s <| enable_ack_aggregation_during_startup_ := true |>) s in
  let s := when (kBBQ5 o) (fun s => s <| expire_ack_aggregation_in_startup_ := true |>) s in
  let s := when (kMIN1 o) (fun s => s <| min_congestion_window_ := kMaxSegmentSize |>) s in
  let s := when (kICW1 o) (fun s => s <| max_congestion_window_with_network_parameters_adjusted_ := 100 * kDefaultTCPMSS |>) s in
  let s := when (kDTOS o) (fun s => s <| detect_overshooting_ := true |>
             <| cwnd_to_calculate_min_pacing_rate_ := Z.min (initial_congestion_window_ s) (10 * kDefaultTCPMSS) |>) s in
  Ok (ApplyConnectionOptions s o).

(** src/quiche/gquiche/quic/core/congestion_control/bbr_sender.cc:283-335 [BbrSender::AdjustNetworkParameters].  The code counters are left out. *)
Definition AdjustNetworkParameters rtt_stats s (params : NetworkParams) : result (BbrSender R) :=
  let rtt := params_rtt params in
  let s := if negb (Delta_IsZero rtt) && ((rtt <? min_rtt_ s) || Delta_IsZero (min_rtt_ s))
    then s <| min_rtt_ := rtt |> else s in
  if decide (mode_ s = STARTUP) then
    if params_bandwidth params =? 0 then Ok s
    else
      let cwnd_bootstrapping_rtt := GetMinRtt rtt_stats s in
      let s := if 0 <? max_initial_congestion_window params
        then s <| max_congestion_window_with_network_parameters_adjusted_ := max_initial_congestion_window params ⊗ kDefaultTCPMSS |>
        else s in
      let new_cwnd := Z.max (kMinInitialCongestionWindow * kDefaultTCPMSS)
        (Z.min (max_congestion_window_with_network_parameters_adjusted_ s)
               (ToBytesPerPeriod (params_bandwidth params) cwnd_bootstrapping_rtt)) in
      let s := s <| stats_ := stats_ s <| cwnd_bootstrapping_rtt_us := Delta_ToMicroseconds cwnd_bootstrapping_rtt |> |> in
      if (new_cwnd <? congestion_window_ s) && negb (allow_cwnd_to_decrease params) then Ok s
      else
        let* s :=
          if FLAGS_quic_conservative_cwnd_and_pacing_gains then
            let* s := set_high_gain s kDerivedHighCWNDGain in set_high_cwnd_gain s kDerivedHighCWNDGain
          else Ok s in
        let s := s <| congestion_window_ := new_cwnd |> in
        let* new_pacing_rate := FromBytesAndTimeDelta (congestion_window_ s) (GetMinRtt rtt_stats s) in
        Ok (s <| pacing_rate_ := Z.max (pacing_rate_ s) new_pacing_rate |> <| detect_overshooting_ := true |>)
  else Ok s.

(** * Congestion events *)

(** src/quiche/gquiche/quic/core/congestion_control/bbr_sender.cc:494-506 [BbrSender::UpdateRoundTripCounter] *)
Definition UpdateRoundTripCounter s (last_acked_packet : QuicPacketNumber) : result (BbrSender R * bool) :=
  let* ended :=
    if negb (PN_IsInitialized (current_round_trip_end_ s)) then Ok true
    else PN_gt last_acked_packet (current_round_trip_end_ s) in
  if ended then
    let s := s <| round_trip_count_ := round_trip_count_ s ⊕ 1 |> <| current_round_trip_end_ := last_sent_packet_ s |> in
    let s := if InSlowStart s
      then s <| stats_ := stats_ s <| slowstart_num_rtts := u32 (slowstart_num_rtts (stats_ s) + 1) |> |> else s in
    Ok (s, true)
  else Ok (s, false).

(** src/quiche/gquiche/quic/core/congestion_control/bbr_sender.cc:715-718 [BbrSender::UpdateRecoveryState, GROWTH] *)
Definition maybe_exit_recovery s (last_acked_packet : QuicPacketNumber) (has_losses : bool) : result (BbrSender R) :=
  if has_losses then Ok s
  else let* after := PN_gt last_acked_packet (end_recovery_at_ s) in
       Ok (if after then s <| recovery_state_ := NOT_IN_RECOVERY |> else s).
(** src/quiche/gquiche/quic/core/congestion_control/bbr_sender.cc:682-723 [BbrSender::UpdateRecoveryState] *)
Definition UpdateRecoveryState s (last_acked_packet : QuicPacketNumber) (has_losses is_round_start : bool) : result (BbrSender R) :=
  if negb (is_at_full_bandwidth_ s) then Ok s
  else
    let s := if has_losses then s <| end_recovery_at_ := last_sent_packet_ s |> else s in
    match recovery_state_ s with
    | NOT_IN_RECOVERY =>
        Ok (if has_losses
            then s <| recovery_state_ := CONSERVATION |> <| recovery_window_ := 0 |>
                   <| current_round_trip_end_ := last_sent_packet_ s |>
            else s)
    | CONSERVATION =>
        let s := if is_round_start then s <| recovery_state_ := GROWTH |> else s in
        maybe_exit_recovery s last_acked_packet has_losses
    | GROWTH => maybe_exit_recovery s last_acked_packet has_losses
    end.

(** src/quiche/gquiche/quic/core/congestion_control/bbr_sender.cc:508-525 [BbrSender::MaybeUpdateMinRtt] *)
Definition MaybeUpdateMinRtt s (now : QuicTime) (sample_min_rtt : Delta) : result (BbrSender R * bool) :=
  let min_rtt_expired := negb (Delta_IsZero (min_rtt_ s)) && (QuicTime_add (min_rtt_timestamp_ s) kMinRttExpiry <? now) in
  let s := if min_rtt_expired || (sample_min_rtt <? min_rtt_ s) || Delta_IsZero (min_rtt_ s)
    then s <| min_rtt_ := sample_min_rtt |> <| min_rtt_timestamp_ := now |> else s in
  let* _ := CHECK (negb (Delta_IsZero (min_rtt_ s))) in
  Ok (s, min_rtt_expired).

(** src/quiche/gquiche/quic/core/congestion_control/bbr_sender.cc:531-550 [BbrSender::UpdateGainCyclePhase, decision] *)
Definition should_advance rtt_stats m s (now : QuicTime) (prior_in_flight : Z) (has_losses : bool) : result bool :=
  let advance := GetMinRtt rtt_stats s <? QuicTime_diff now (last_cycle_start_ s) in
  let* advance :=
    if gain_gt1 (pacing_gain_ s) && negb has_losses then
      let* target := GetTargetCongestionWindow rtt_stats s (pacing_gain_ s) in
      Ok (if prior_in_flight <? target then false else advance)
    else Ok advance in
  if gain_lt1 (pacing_gain_ s) then
    let* target := GetTargetCongestionWindow rtt_stats s (f32_of_Z 1) in
    Ok (if bytes_in_flight_ m <=? target then true else advance)
  else Ok advance.
(** src/quiche/gquiche/quic/core/congestion_control/bbr_sender.cc:527-567 [BbrSender::UpdateGainCyclePhase] *)
Definition UpdateGainCyclePhase rtt_stats m s (now : QuicTime) (prior_in_flight : Z) (has_losses : bool) : result (BbrSender R) :=
  let* advance := should_advance rtt_stats m s now prior_in_flight has_losses in
  if advance then
    let offset := (cycle_current_offset_ s + 1) mod kGainCycleLength in
    let s := s <| cycle_current_offset_ := offset |> in
    let s := if offset =? 0 then s <| stats_ := stats_ s <| bbr_num_cycles := u32 (bbr_num_cycles (stats_ s) + 1) |> |> else s in
    let s := s <| last_cycle_start_ := now |> in
    let* gain := pacing_gain_at offset in
    let* stay :=
      if drain_to_target_ s && gain_lt1 (pacing_gain_ s) && SFeqb gain (f32_of_Z 1) then
        let* target := GetTargetCongestionWindow rtt_stats s (f32_of_Z 1) in Ok (target <? bytes_in_flight_ m)
      else Ok false in
    Ok (if stay then s else s <| pacing_gain_ := gain |>)
  else Ok s.

(** src/quiche/gquiche/quic/core/congestion_control/bbr_sender.cc:614-635 [BbrSender::ShouldExitStartupDueToLoss] *)
Definition ShouldExitStartupDueToLoss s (send_state : SendTimeState) : BbrSender R * bool :=
  if (num_loss_events_in_round_ s <? FLAGS_quic_bbr2_default_startup_full_loss_count) || negb (is_valid send_state) then (s, false)
  else
    let inflight_at_send := bytes_in_flight send_state in
    if (0 <? inflight_at_send) && (0 <? bytes_lost_in_round_ s) then
      if SFltb (f64_mul (f64_of_Z inflight_at_send) FLAGS_quic_bbr2_default_loss_threshold) (f64_of_Z (bytes_lost_in_round_ s))
      then (s <| stats_ := stats_ s <| bbr_exit_startup_due_to_loss := true |> |>, true)
      else (s, false)
    else (s, false).

(** src/quiche/gquiche/quic/core/congestion_control/bbr_sender.cc:569-592 [BbrSender::CheckIfFullBandwidthReached] *)
Definition CheckIfFullBandwidthReached s (send_state : SendTimeState) : result (BbrSender R) :=
  if last_sample_is_app_limited_ s then Ok s
  else
    let* target := QuicBandwidth_mul (bandwidth_at_last_round_ s) kStartupGrowthTarget in
    if target <=? BandwidthEstimate s then
      let s := s <| bandwidth_at_last_round_ := BandwidthEstimate s |> <| rounds_without_bandwidth_gain_ := 0 |> in
      Ok (if expire_ack_aggregation_in_startup_ s
          then s <| sampler_ := ResetMaxAckHeightTracker (sampler_ s) 0 (round_trip_count_ s) |> else s)
    else
      let s := s <| rounds_without_bandwidth_gain_ := rounds_without_bandwidth_gain_ s ⊕ 1 |> in
      let '(s, exit) :=
        if num_startup_rtts_ s <=? rounds_without_bandwidth_gain_ s then (s, true) else ShouldExitStartupDueToLoss s send_state in
      if exit then
        let* _ := CHECK (has_non_app_limited_sample_ s) in
        Ok (s <| is_at_full_bandwidth_ := true |>)
      else Ok s.

(** src/quiche/gquiche/quic/core/congestion_control/bbr_sender.cc:594-605 [BbrSender::MaybeExitStartupOrDrain] *)
Definition MaybeExitStartupOrDrain rtt_stats m s (now : QuicTime) : result (BbrSender R) :=
  let* s :=
    if decide (mode_ s = STARTUP) then
      if is_at_full_bandwidth_ s then
        let* s := OnExitStartup s now in
        Ok (s <| mode_ := DRAIN |> <| pacing_gain_ := drain_gain_ s |> <| congestion_window_gain_ := high_cwnd_gain_ s |>)
      else Ok s
    else Ok s in
  if decide (mode_ s = DRAIN) then
    let* target := GetTargetCongestionWindow rtt_stats s (f32_of_Z 1) in
    if bytes_in_flight_ m <=? target then EnterProbeBandwidthMode s now else Ok s
  else Ok s.

(** src/quiche/gquiche/quic/core/congestion_control/bbr_sender.cc:640-649 [BbrSender::MaybeEnterOrExitProbeRtt, entering] *)
Definition maybe_enter_probe_rtt s (now : QuicTime) (min_rtt_expired : bool) : result (BbrSender R) :=
  if min_rtt_expired && negb (exiting_quiescence_ s) && bool_decide (mode_ s <> PROBE_RTT) then
    let* s := if InSlowStart s then OnExitStartup s now else Ok s in
    Ok (s <| mode_ := PROBE_RTT |> <| pacing_gain_ := f32_of_Z 1 |> <| exit_probe_rtt_at_ := QuicTime_Zero |>)
  else Ok s.
(** src/quiche/gquiche/quic/core/congestion_control/bbr_sender.cc:651-677 [BbrSender::MaybeEnterOrExitProbeRtt, in PROBE_RTT] *)
Definition in_probe_rtt m s (now : QuicTime) (is_round_start : bool) : result (BbrSender R) :=
  let s := s <| sampler_ := OnAppLimited (sampler_ s) |> in
  if exit_probe_rtt_at_ s =? QuicTime_Zero then
    Ok (if bytes_in_flight_ m <? ProbeRttCongestionWindow s ⊕ kMaxOutgoingPacketSize
        then s <| exit_probe_rtt_at_ := QuicTime_add now kProbeRttTime |> <| probe_rtt_round_passed_ := false |>
        else s)
  else
    let s := if is_round_start then s <| probe_rtt_round_passed_ := true |> else s in
    if (exit_probe_rtt_at_ s <=? now) && probe_rtt_round_passed_ s then
      let s := s <| min_rtt_timestamp_ := now |> in
      if negb (is_at_full_bandwidth_ s) then EnterStartupMode s now else EnterProbeBandwidthMode s now
    else Ok s.
(** src/quiche/gquiche/quic/core/congestion_control/bbr_sender.cc:637-680 [BbrSender::MaybeEnterOrExitProbeRtt] *)
Definition MaybeEnterOrExitProbeRtt m s (now : QuicTime) (is_round_start min_rtt_expired : bool) : result (BbrSender R) :=
  let* s := maybe_enter_probe_rtt s now min_rtt_expired in
  let* s := if decide (mode_ s = PROBE_RTT) then in_probe_rtt m s now is_round_start else Ok s in
  Ok (s <| exiting_quiescence_ := false |>).

(** src/quiche/gquiche/quic/core/congestion_control/bbr_sender.cc:745-767 [BbrSender::CalculatePacingRate, overshooting] *)
Definition check_overshooting rtt_stats s (lost_bytes target_rate : Z) : result (BbrSender R) :=
  let s := s <| bytes_lost_while_detecting_overshooting_ := bytes_lost_while_detecting_overshooting_ s ⊕ lost_bytes |> in
  if (target_rate <? pacing_rate_ s) && (0 <? bytes_lost_while_detecting_overshooting_ s) &&
     (has_non_app_limited_sample_ s ||
      (initial_congestion_window_ s <?
       bytes_lost_while_detecting_overshooting_ s ⊗ bytes_lost_multiplier_while_detecting_overshooting_ s)) then
    let* floor := FromBytesAndTimeDelta (cwnd_to_calculate_min_pacing_rate_ s) (GetMinRtt rtt_stats s) in
    Ok (s <| pacing_rate_ := Z.max target_rate floor |>
          <| stats_ := stats_ s <| overshooting_detected_with_network_parameters_adjusted := true |> |>
          <| bytes_lost_while_detecting_overshooting_ := 0 |> <| detect_overshooting_ := false |>)
  else Ok s.
(** src/quiche/gquiche/quic/core/congestion_control/bbr_sender.cc:725-771 [BbrSender::CalculatePacingRate] *)
Definition CalculatePacingRate rtt_stats s (lost_bytes : Z) : result (BbrSender R) :=
  if BandwidthEstimate s =? 0 then Ok s
  else
    let* target_rate := QuicBandwidth_mul (BandwidthEstimate s) (pacing_gain_ s) in
    if is_at_full_bandwidth_ s then Ok (s <| pacing_rate_ := target_rate |>)
    else if (pacing_rate_ s =? 0) && negb (Delta_IsZero (RttStats.min_rtt_ rtt_stats)) then
      let* rate := FromBytesAndTimeDelta (initial_congestion_window_ s) (RttStats.min_rtt_ rtt_stats) in
      Ok (s <| pacing_rate_ := rate |>)
    else
      let* s := if detect_overshooting_ s then check_overshooting rtt_stats s lost_bytes target_rate else Ok s in
      Ok (s <| pacing_rate_ := Z.max (pacing_rate_ s) target_rate |>).

(** src/quiche/gquiche/quic/core/congestion_control/bbr_sender.cc:773-806 [BbrSender::CalculateCongestionWindow] *)
Definition CalculateCongestionWindow rtt_stats s (acked_bytes excess_acked : Z) : result (BbrSender R) :=
  if decide (mode_ s = PROBE_RTT) then Ok s
  else
    let* target_window := GetTargetCongestionWindow rtt_stats s (congestion_window_gain_ s) in
    let target_window :=
      if is_at_full_bandwidth_ s then target_window ⊕ max_ack_height (sampler_ s)
      else if enable_ack_aggregation_during_startup_ s then target_window ⊕ excess_acked
      else target_window in
    let w :=
      if is_at_full_bandwidth_ s then Z.min target_window (congestion_window_ s ⊕ acked_bytes)
      else if (congestion_window_ s <? target_window) || (total_bytes_acked_ (sampler_ s) <? initial_congestion_window_ s)
      then congestion_window_ s ⊕ acked_bytes
      else congestion_window_ s in
    let w := Z.max w (min_congestion_window_ s) in
    Ok (s <| congestion_window_ := Z.min w (max_congestion_window_ s) |>).

(** src/quiche/gquiche/quic/core/congestion_control/bbr_sender.cc:808-837 [BbrSender::CalculateRecoveryWindow] *)
Definition CalculateRecoveryWindow m s (acked_bytes lost_bytes : Z) : BbrSender R :=
  if decide (recovery_state_ s = NOT_IN_RECOVERY) then s
  else if recovery_window_ s =? 0 then
    s <| recovery_window_ := Z.max (min_congestion_window_ s) (bytes_in_flight_ m ⊕ acked_bytes) |>
  else
    let w := if lost_bytes <=? recovery_window_ s then recovery_window_ s ⊖ lost_bytes else kMaxSegmentSize in
    let w := if decide (recovery_state_ s = GROWTH) then w ⊕ acked_bytes else w in
    let w := Z.max w (bytes_in_flight_ m ⊕ acked_bytes) in
    s <| recovery_window_ := Z.max (min_congestion_window_ s) w |>.

(** src/quiche/gquiche/quic/core/congestion_control/bbr_sender.cc:355-359 [BbrSender::OnCongestionEvent, rounds and recovery] *)
Definition event_round s (acked : list AckedPacket) (lost : list LostPacket) : result (BbrSender R * bool) :=
  match last acked with
  | Some a =>
      let* r := UpdateRoundTripCounter s (acked_packet_number a) in
      let* s := UpdateRecoveryState r.1 (acked_packet_number a) (bool_decide (lost <> [])) r.2 in
      Ok (s, r.2)
  | None => Ok (s, false)
  end.

(** src/quiche/gquiche/quic/core/congestion_control/bbr_sender.cc:366-384 [BbrSender::OnCongestionEvent, bandwidth sample] *)
Definition take_bandwidth_sample s (total_bytes_acked_before : Z) (sample : CongestionEventSample) : BbrSender R :=
  let s := if is_valid (last_packet_send_state sample) then
      let limited := is_app_limited (last_packet_send_state sample) in
      let has := has_non_app_limited_sample_ s || negb limited in
      s <| last_sample_is_app_limited_ := limited |> <| has_non_app_limited_sample_ := has |>
        <| stats_ := stats_ s <| has_non_app_limited_sample := has |> |>
    else s in
  if negb (total_bytes_acked_before =? total_bytes_acked_ (sampler_ s)) &&
     (negb (sample_is_app_limited sample) || (GetBest (max_bandwidth_ s) <? sample_max_bandwidth sample))
  then s <| max_bandwidth_ := Update MaxFilter (max_bandwidth_ s) (sample_max_bandwidth sample) (round_trip_count_ s) |>
  else s.

(** src/quiche/gquiche/quic/core/congestion_control/bbr_sender.cc:391-403 [BbrSender::OnCongestionEvent, losses] *)
Definition count_losses s (lost : list LostPacket) (lost_bytes : Z) : BbrSender R :=
  let s := if decide (mode_ s = STARTUP)
    then s <| stats_ := stats_ s <| slowstart_packets_lost := slowstart_packets_lost (stats_ s) ⊕ Z.of_nat (length lost) |>
                                 <| slowstart_bytes_lost := slowstart_bytes_lost (stats_ s) ⊕ lost_bytes |> |>
    else s in
  match lost with
  | [] => s
  | _ :: _ => s <| num_loss_events_in_round_ := i64 (num_loss_events_in_round_ s + 1) |>
                <| bytes_lost_in_round_ := bytes_lost_in_round_ s ⊕ lost_bytes |>
  end.

(** src/quiche/gquiche/quic/core/congestion_control/bbr_sender.cc:406-418 [BbrSender::OnCongestionEvent, modes] *)
Definition update_modes rtt_stats m s (event_time : QuicTime) (prior_in_flight : Z) (has_losses is_round_start min_rtt_expired : bool)
    (send_state : SendTimeState) : result (BbrSender R) :=
  let* s := if decide (mode_ s = PROBE_BW) then UpdateGainCyclePhase rtt_stats m s event_time prior_in_flight has_losses else Ok s in
  let* s := if is_round_start && negb (is_at_full_bandwidth_ s) then CheckIfFullBandwidthReached s send_state else Ok s in
  let* s := MaybeExitStartupOrDrain rtt_stats m s event_time in
  MaybeEnterOrExitProbeRtt m s event_time is_round_start min_rtt_expired.

(** src/quiche/gquiche/quic/core/congestion_control/bbr_sender.cc:424-428 [BbrSender::OnCongestionEvent, pacing rate and windows] *)
Definition recalculate rtt_stats m s (acked_bytes lost_bytes excess_acked : Z) : result (BbrSender R) :=
  let* s := CalculatePacingRate rtt_stats s lost_bytes in
  let* s := CalculateCongestionWindow rtt_stats s acked_bytes excess_acked in
  Ok (CalculateRecoveryWindow m s acked_bytes lost_bytes).

(** src/quiche/gquiche/quic/core/congestion_control/bbr_sender.cc:337-436 [BbrSender::OnCongestionEvent] *)
Definition OnCongestionEvent rtt_stats m s (prior_in_flight : Z) (event_time : QuicTime) (acked : list AckedPacket)
    (lost : list LostPacket) : result (BbrSender R) :=
  let total_bytes_acked_before := total_bytes_acked_ (sampler_ s) in
  let total_bytes_lost_before := total_bytes_lost_ (sampler_ s) in
  let* r := event_round s acked lost in
  let '(s, is_round_start) := r in
  let* r := Sampler_OnCongestionEvent (sampler_ s) event_time acked lost (GetBest (max_bandwidth_ s)) QuicBandwidth_Infinite
              (round_trip_count_ s) in
  let '(smp, sample) := r in
  let s := take_bandwidth_sample (s <| sampler_ := smp |>) total_bytes_acked_before sample in
  let* r := if negb (Delta_IsInfinite (sample_rtt sample)) then MaybeUpdateMinRtt s event_time (sample_rtt sample) else Ok (s, false) in
  let '(s, min_rtt_expired) := r in
  let lost_bytes := total_bytes_lost_ (sampler_ s) ⊖ total_bytes_lost_before in
  let s := count_losses s lost lost_bytes in
  let* s := update_modes rtt_stats m s event_time prior_in_flight (bool_decide (lost <> [])) is_round_start min_rtt_expired
              (last_packet_send_state sample) in
  let acked_bytes := total_bytes_acked_ (sampler_ s) ⊖ total_bytes_acked_before in
  let* s := recalculate rtt_stats m s acked_bytes lost_bytes (extra_acked sample) in
  let* smp := Sampler_RemoveObsoletePackets (sampler_ s) (GetLeastUnacked m) in
  let s := s <| sampler_ := smp |> in
  Ok (if is_round_start then s <| num_loss_events_in_round_ := 0 |> <| bytes_lost_in_round_ := 0 |> else s).

(** * Frames

    What the parts of a congestion event leave alone: the windows, and the mode
    with the gains that go with it. *)

Definition same_windows s s' : Prop :=
  congestion_window_ s' = congestion_window_ s /\ min_congestion_window_ s' = min_congestion_window_ s /\
  max_congestion_window_ s' = max_congestion_window_ s /\ recovery_state_ s' = recovery_state_ s /\
  recovery_window_ s' = recovery_window_ s.
Definition same_constants s s' : Prop :=
  high_gain_ s' = high_gain_ s /\ high_cwnd_gain_ s' = high_cwnd_gain_ s /\ drain_gain_ s' = drain_gain_ s /\
  congestion_window_gain_constant_ s' = congestion_window_gain_constant_ s.
Definition same_mode s s' : Prop :=
  mode_ s' = mode_ s /\ pacing_gain_ s' = pacing_gain_ s /\ congestion_window_gain_ s' = congestion_window_gain_ s /\
  cycle_current_offset_ s' = cycle_current_offset_ s /\ is_at_full_bandwidth_ s' = is_at_full_bandwidth_ s /\ same_constants s s'.

#[local] Instance same_windows_preorder : PreOrder same_windows.
Proof. split; [done|]. unfold same_windows. intros ???. naive_solver congruence. Qed.
#[local] Instance same_constants_preorder : PreOrder same_constants.
Proof. split; [done|]. unfold same_constants. intros ???. naive_solver congruence. Qed.
#[local] Instance same_mode_preorder : PreOrder same_mode.
Proof. split; [done|]. unfold same_mode, same_constants. intros ???. naive_solver congruence. Qed.

(** Take a successful call apart, branch by branch. *)
Ltac open_ok :=
  repeat first
    [ progress inv_ok
    | match goal with
      | E : context [match ?x with _ => _ end] |- _ =>
          lazymatch type of E with _ = Ok _ => destruct x eqn:? | _ = (_, _) => destruct x eqn:? end
      | E : (_, _) = (_, _) |- _ => injection E as E; subst
      end ].
(** A part whose branches update other members only. *)
Ltac frame := intros; open_ok; repeat (case_match; subst); subst; cbn; unfold same_windows, same_mode, same_constants; cbn; split_and!; done.

Lemma UpdateRoundTripCounter_frame s p r : UpdateRoundTripCounter s p = Ok r -> same_windows s r.1 /\ same_mode s r.1.
Proof. unfold UpdateRoundTripCounter. frame. Qed.
Lemma take_sample_frame s n e : same_windows s (take_bandwidth_sample s n e) /\ same_mode s (take_bandwidth_sample s n e).
Proof. unfold take_bandwidth_sample. frame. Qed.
Lemma MaybeUpdateMinRtt_frame s t d r : MaybeUpdateMinRtt s t d = Ok r -> same_windows s r.1 /\ same_mode s r.1.
Proof. unfold MaybeUpdateMinRtt. frame. Qed.
Lemma count_losses_frame s l n : same_windows s (count_losses s l n) /\ same_mode s (count_losses s l n).
Proof. unfold count_losses. frame. Qed.
Lemma measured_frame s smp n e (b : bool) t d r :
  (if b then MaybeUpdateMinRtt (take_bandwidth_sample (s <| sampler_ := smp |>) n e) t d
   else Ok (take_bandwidth_sample (s <| sampler_ := smp |>) n e, false)) = Ok r -> same_windows s r.1 /\ same_mode s r.1.
Proof.
  destruct (take_sample_frame (s <| sampler_ := smp |>) n e) as [W M]. destruct b.
  - intros [W' M']%MaybeUpdateMinRtt_frame. split; etrans; [exact W|exact W'|exact M|exact M'].
  - by intros [= <-].
Qed.
Lemma UpdateRecoveryState_mode s p b c s' : UpdateRecoveryState s p b c = Ok s' -> same_mode s s'.
Proof. unfold UpdateRecoveryState, maybe_exit_recovery. frame. Qed.
Lemma CalculatePacingRate_frame rtt_stats s n s' : CalculatePacingRate rtt_stats s n = Ok s' -> same_windows s s' /\ same_mode s s'.
Proof. unfold CalculatePacingRate, check_overshooting. frame. Qed.


Lemma UpdateGainCyclePhase_windows rtt_stats m s t n b s' : UpdateGainCyclePhase rtt_stats m s t n b = Ok s' -> same_windows s s'.
Proof. unfold UpdateGainCyclePhase. frame. Qed.
Lemma CheckIfFullBandwidthReached_windows s e s' : CheckIfFullBandwidthReached s e = Ok s' -> same_windows s s'.
Proof. unfold CheckIfFullBandwidthReached, ShouldExitStartupDueToLoss. frame. Qed.
Lemma EnterProbeBandwidthMode_windows s t s' : EnterProbeBandwidthMode s t = Ok s' -> same_windows s s'.
Proof. unfold EnterProbeBandwidthMode. frame. Qed.
Lemma MaybeExitStartupOrDrain_windows rtt_stats m s t s' : MaybeExitStartupOrDrain rtt_stats m s t = Ok s' -> same_windows s s'.
Proof. unfold MaybeExitStartupOrDrain, OnExitStartup, EnterProbeBandwidthMode. frame. Qed.
Lemma EnterStartupMode_windows s t s' : EnterStartupMode s t = Ok s' -> same_windows s s'.
Proof. unfold EnterStartupMode. frame. Qed.
Lemma maybe_enter_probe_rtt_windows s t b s' : maybe_enter_probe_rtt s t b = Ok s' -> same_windows s s'.
Proof. unfold maybe_enter_probe_rtt, OnExitStartup. frame. Qed.
Lemma in_probe_rtt_windows m s t b s' : in_probe_rtt m s t b = Ok s' -> same_windows s s'.
Proof.
  unfold in_probe_rtt. destruct (_ =? _); [frame|]. destruct (_ && _); [|frame].
  destruct (negb _); [intros E%EnterStartupMode_windows|intros E%EnterProbeBandwidthMode_windows]; (etrans; [|exact E]); by destruct b.
Qed.
Lemma MaybeEnterOrExitProbeRtt_windows m s t b c s' : MaybeEnterOrExitProbeRtt m s t b c = Ok s' -> same_windows s s'.
Proof.
  unfold MaybeEnterOrExitProbeRtt. intros (s1 & E1%maybe_enter_probe_rtt_windows & (s2 & E2 & [= <-])%rbind_Ok)%rbind_Ok.
  etrans; [exact E1|]. destruct (decide _); [|by injection E2 as <-]. apply in_probe_rtt_windows in E2. etrans; [exact E2|done].
Qed.


Lemma update_modes_windows rtt_stats m s t n b c d e s' : update_modes rtt_stats m s t n b c d e = Ok s' -> same_windows s s'.
Proof.
  unfold update_modes. intros (s1 & E1 & (s2 & E2 & (s3 & E3%MaybeExitStartupOrDrain_windows & E4%MaybeEnterOrExitProbeRtt_windows)%rbind_Ok)%rbind_Ok)%rbind_Ok.
  etrans; [|exact E4]. etrans; [|exact E3]. trans s1.
  - destruct (decide _); [by apply UpdateGainCyclePhase_windows in E1|by injection E1 as <-].
  - destruct (_ && _); [by apply CheckIfFullBandwidthReached_windows in E2|by injection E2 as <-].
Qed.

(** * The window is bounded *)

Record windows_ok (mx : Z) s : Prop := {
  wo_min : kMaxSegmentSize <= min_congestion_window_ s;
  wo_window : min_congestion_window_ s <= congestion_window_ s <= max_congestion_window_ s;
  wo_max : max_congestion_window_ s = mx;
  wo_recovery : recovery_state_ s <> NOT_IN_RECOVERY -> min_congestion_window_ s <= recovery_window_ s;
}.

Lemma windows_ok_same mx s s' : same_windows s s' -> windows_ok mx s -> windows_ok mx s'.
Proof. intros (E1 & E2 & E3 & E4 & E5) []. split; rewrite ?E1, ?E2, ?E3, ?E4, ?E5; done. Qed.

(** During an event the recovery window may have been cleared; it is set before the event ends. *)
Definition windows_mid (mx : Z) s : Prop :=
  kMaxSegmentSize <= min_congestion_window_ s /\ min_congestion_window_ s <= congestion_window_ s <= max_congestion_window_ s /\
  max_congestion_window_ s = mx.
Lemma windows_mid_same mx s s' : same_windows s s' -> windows_mid mx s -> windows_mid mx s'.
Proof. unfold windows_mid. intros (E1 & E2 & E3 & E4 & E5). by rewrite E1, E2, E3. Qed.

Lemma event_round_mid mx s a l r : windows_mid mx s -> event_round s a l = Ok r -> windows_mid mx r.1.
Proof.
  unfold event_round. intros Hw. destruct (last a); [|by intros [= <-]].
  intros (r1 & [Ew _]%UpdateRoundTripCounter_frame & (s2 & E & [= <-])%rbind_Ok)%rbind_Ok. cbn.
  apply (windows_mid_same _ _ _ Ew) in Hw. clear Ew. revert E. unfold UpdateRecoveryState, maybe_exit_recovery.
  intros E. open_ok; repeat (case_match; subst); subst; exact Hw.
Qed.

Lemma recalculate_windows mx rtt_stats m s a l e s' : windows_mid mx s -> recalculate rtt_stats m s a l e = Ok s' -> windows_ok mx s'.
Proof.
  intros Hw. unfold recalculate. intros (s1 & [Ew _]%CalculatePacingRate_frame & (s2 & E & [= <-])%rbind_Ok)%rbind_Ok.
  apply (windows_mid_same _ _ _ Ew) in Hw. clear Ew.
  assert (Hw2 : windows_mid mx s2).
  { unfold CalculateCongestionWindow in E. destruct (decide _); [by injection E as <-|].
    apply rbind_Ok in E as (t & _ & E). injection E as <-. unfold windows_mid in *. cbn. lia. }
  destruct Hw2 as (H1 & H2 & H3). unfold CalculateRecoveryWindow. destruct (decide (recovery_state_ s2 = NOT_IN_RECOVERY)); [by split|].
  destruct (_ =? 0); split; cbn; try done; lia.
Qed.

Lemma event_windows mx rtt_stats m s n t a l s' : windows_ok mx s -> OnCongestionEvent rtt_stats m s n t a l = Ok s' -> windows_ok mx s'.
Proof.
  intros [W1 W2 W3 _] E. unfold OnCongestionEvent in E. assert (Hw : windows_mid mx s) by done. clear W1 W2 W3.
  apply rbind_Ok in E as ([s1 rs] & E1 & E). apply (event_round_mid _ _ _ _ _ Hw) in E1. cbn in E1. clear Hw.
  apply rbind_Ok in E as ([smp sample] & _ & E). apply rbind_Ok in E as ([s2 ex] & E2 & E).
  assert (H2 : windows_mid mx s2).
  { eapply windows_mid_same; [|exact E1]. exact (proj1 (measured_frame _ _ _ _ _ _ _ _ E2)). }
  apply rbind_Ok in E as (s3 & E3%update_modes_windows & E). apply rbind_Ok in E as (s4 & E4 & E).
  apply (recalculate_windows mx) in E4.
  2:{ eapply windows_mid_same; [exact E3|]. eapply windows_mid_same; [apply count_losses_frame|done]. }
  apply rbind_Ok in E as (smp' & _ & E). injection E as <-. eapply windows_ok_same; [|exact E4]. by destruct rs.
Qed.

(** ** Runs *)

Inductive bbr_event :=
  | BEvent (rtt_stats : RttStats) (m : QuicUnackedPacketMap N) (prior_in_flight : Z) (t : QuicTime)
      (acked : list AckedPacket) (lost : list LostPacket)
  | BSent (t : QuicTime) (in_flight : Z) (pn : QuicPacketNumber) (bytes : Z) (d : HasRetransmittableData)
  | BNeutered (pn : QuicPacketNumber)
  | BAppLimited (in_flight : Z)
  | BTimeout (packets_retransmitted : bool)
  | BConfig (o : BbrOptions).

Definition bbr_step s (e : bbr_event) : result (BbrSender R) :=
  match e with
  | BEvent rtt_stats m n t a l => OnCongestionEvent rtt_stats m s n t a l
  | BSent t n pn bytes d => OnPacketSent s t n pn bytes d
  | BNeutered pn => OnPacketNeutered s pn
  | BAppLimited n => Ok (OnApplicationLimited s n)
  | BTimeout b => Ok (OnRetransmissionTimeout s b)
  | BConfig o => SetFromConfig s o
  end.

Lemma when_windows (b : bool) (f : BbrSender R -> BbrSender R) s s0 :
  (forall s, same_windows s (f s)) -> same_windows s0 s -> same_windows s0 (when b f s).
Proof. intros Hf Hs. destruct b; [etrans; [exact Hs|apply Hf]|exact Hs]. Qed.
Lemma when_windows_ok mx (b : bool) (f : BbrSender R -> BbrSender R) s : (forall s, windows_ok mx s -> windows_ok mx (f s)) ->
  windows_ok mx s -> windows_ok mx (when b f s).
Proof. intros Hf Hs. destruct b; [by apply Hf|done]. Qed.
Ltac when_frames := repeat (apply when_windows; [intros ?; unfold same_windows; split_and!; reflexivity|]).

Lemma set_high_gain_windows s g s' : set_high_gain s g = Ok s' -> same_windows s s'.
Proof. unfold set_high_gain. frame. Qed.
Lemma set_high_cwnd_gain_windows s g s' : set_high_cwnd_gain s g = Ok s' -> same_windows s s'.
Proof. unfold set_high_cwnd_gain. frame. Qed.
Lemma config_windows mx s o s' : windows_ok mx s -> SetFromConfig s o = Ok s' -> windows_ok mx s'.
Proof.
  intros Hw E. unfold SetFromConfig in E. apply rbind_Ok in E as (s1 & E1 & E). injection E as <-.
  assert (H1 : windows_ok mx s1).
  { eapply windows_ok_same; [|exact Hw]. destruct (kBBQ1 o).
    - apply rbind_Ok in E1 as (s2 & E2%set_high_gain_windows & E1). apply rbind_Ok in E1 as (s3 & E3%set_high_cwnd_gain_windows & E1).
      apply rbind_Ok in E1 as (? & _ & E1). injection E1 as <-. etrans; [|exact (transitivity E2 E3)]. by when_frames.
    - injection E1 as <-. by when_frames. }
  unfold ApplyConnectionOptions. eapply windows_ok_same; [when_frames; reflexivity|].
  eapply (when_windows_ok mx (kMIN1 o)); [|eapply windows_ok_same; [when_frames; reflexivity|done]].
  intros s2 [W1 W2 W3 W4]. split; cbn; [done|lia|done|]. intros Hr. specialize (W4 Hr). lia.
Qed.

Lemma bbr_step_windows mx s e s' : windows_ok mx s -> bbr_step s e = Ok s' -> windows_ok mx s'.
Proof.
  intros Hw. destruct e as [r m n t a l|t n pn b d|pn|n|b|o]; cbn [bbr_step].
  - by apply event_windows.
  - unfold OnPacketSent. intros (smp & _ & E)%rbind_Ok. apply Ok_inj in E as <-. eapply windows_ok_same; [|exact Hw].
    match goal with |- same_windows _ (?x <| sampler_ := _ |>) => trans x; [|done] end. by when_frames.
  - unfold OnPacketNeutered. intros (smp & _ & [= <-])%rbind_Ok. by eapply windows_ok_same; [|exact Hw].
  - intros [= <-]. unfold OnApplicationLimited. destruct (_ <=? _); [done|]. by eapply windows_ok_same; [|exact Hw].
  - by intros [= <-].
  - by apply config_windows.
Qed.


Lemma bbr_run_windows mx es : forall s s', windows_ok mx s -> rfold bbr_step es s = Ok s' -> windows_ok mx s'.
Proof. intros s s' Hs. apply rfold_inv; [|done]. intros e s1 s2 _. apply bbr_step_windows. Qed.

Lemma BbrSender_init_ok now n mx r st : now <> QuicTime_Infinite ->
  exists s, BbrSender_init now n mx r st = Ok s /\ mode_ s = STARTUP /\ is_at_full_bandwidth_ s = false /\
    congestion_window_ s = n ⊗ kDefaultTCPMSS /\ initial_congestion_window_ s = n ⊗ kDefaultTCPMSS /\
    max_congestion_window_ s = mx ⊗ kDefaultTCPMSS /\ min_congestion_window_ s = 5840 /\
    recovery_state_ s = NOT_IN_RECOVERY /\ pacing_gain_ s = high_gain_ s /\ congestion_window_gain_ s = high_cwnd_gain_ s /\
    high_gain_ s = kDefaultHighGain /\ high_cwnd_gain_ s = kDerivedHighCWNDGain /\ drain_gain_ s = f32_div (f32_of_Z 1) kDefaultHighGain /\
    congestion_window_gain_constant_ s = f32_of_Z 2.
Proof.
  intros Hn. unfold BbrSender_init, EnterStartupMode, Accumulator_Start. cbn -[kDefaultHighGain kDerivedHighCWNDGain].
  unfold IsRunning. cbn -[kDefaultHighGain kDerivedHighCWNDGain]. destruct (Z.eqb_spec now NotRunningSentinel); [done|].
  cbn -[kDefaultHighGain kDerivedHighCWNDGain]. unfold set_high_cwnd_gain.
  change (SFltb (f32_of_Z 1) kDerivedHighCWNDGain) with true. cbn -[kDefaultHighGain kDerivedHighCWNDGain].
  eexists. split; [done|]. by split_and!.
Qed.

(** ** The sender behind the interface *)

(** A sender with the unacked packet map it points to; the connection changes the map between calls. *)
Record BbrOnMap := mkBbrOnMap { bbr : BbrSender R; bbr_unacked : QuicUnackedPacketMap N }.
Definition on_bbr (b : BbrOnMap) (r : result (BbrSender R)) : result BbrOnMap := let* s := r in Ok (mkBbrOnMap s (bbr_unacked b)).

#[export] Instance BbrOnMap_interface : SendAlgorithmInterface BbrOnMap := {|
  sa_SetInitialCongestionWindowInPackets b n := mkBbrOnMap (SetInitialCongestionWindowInPackets (bbr b) n) (bbr_unacked b);
  sa_OnCongestionEvent rtt_stats b _ n t acked lost := on_bbr b (OnCongestionEvent rtt_stats (bbr_unacked b) (bbr b) n t acked lost);
  sa_OnPacketSent b t n pn bytes d := on_bbr b (OnPacketSent (bbr b) t n pn bytes d);
  sa_OnPacketNeutered b pn := on_bbr b (OnPacketNeutered (bbr b) pn);
  sa_OnRetransmissionTimeout b x := mkBbrOnMap (OnRetransmissionTimeout (bbr b) x) (bbr_unacked b);
  sa_OnConnectionMigration b := mkBbrOnMap (OnConnectionMigration (bbr b)) (bbr_unacked b);
  sa_CanSend b n := CanSend (bbr b) n;
  sa_PacingRate rtt_stats b _ := PacingRate rtt_stats (bbr b);
  sa_BandwidthEstimate _ b := Ok (BandwidthEstimate (bbr b));
  sa_GetCongestionWindow b := GetCongestionWindow (bbr b);
  sa_InSlowStart b := InSlowStart (bbr b);
  sa_InRecovery b := InRecovery (bbr b);
  sa_ShouldSendProbingPacket b := ShouldSendProbingPacket (bbr b);
  sa_GetSlowStartThreshold b := GetSlowStartThreshold (bbr b);
  sa_GetCongestionControlType b := GetCongestionControlType (bbr b);
  sa_AdjustNetworkParameters rtt_stats b params := on_bbr b (AdjustNetworkParameters rtt_stats (bbr b) params);
  sa_OnApplicationLimited b n := mkBbrOnMap (OnApplicationLimited (bbr b) n) (bbr_unacked b);
|}.

Definition bbr_inv (b : BbrOnMap) : Prop := exists mx, mx < two64 /\ windows_ok mx (bbr b).
Lemma windows_ok_window mx s : windows_ok mx s -> kMaxSegmentSize <= min_congestion_window_ s <= GetCongestionWindow s /\ GetCongestionWindow s <= mx.
Proof.
  intros [W1 W2 W3 W4]. unfold GetCongestionWindow, ProbeRttCongestionWindow, InRecovery. destruct (decide _); [lia|].
  case_bool_decide; [|lia]. specialize (W4 ltac:(done)). lia.
Qed.
Lemma windows_ok_idle mx s : windows_ok mx s -> CanSend s 0 = true.
Proof.
  intros Hw%windows_ok_window. unfold CanSend. change kMaxSegmentSize with 1460 in Hw. apply Z.ltb_lt. lia.
Qed.

(** BBR is a lawful send algorithm. *)
#[export] Instance BbrOnMap_laws : SendAlgorithmLaws BbrOnMap.
Proof.
  refine {| sender_inv := bbr_inv |}; cbn.
  - intros rtt b _ n t a l b' (mx & Hmx & Hw) _ _ (s' & E & Eb)%rbind_Ok. apply Ok_inj in Eb as <-. exists mx. split; [done|].
    exact (bbr_step_windows mx (bbr b) (BEvent rtt (bbr_unacked b) n t a l) s' Hw E).
  - intros b t n pn bytes d b' (mx & Hmx & Hw) (s' & E & Eb)%rbind_Ok. apply Ok_inj in Eb as <-. exists mx. split; [done|].
    exact (bbr_step_windows mx (bbr b) (BSent t n pn bytes d) s' Hw E).
  - done.
  - intros b (mx & Hmx & Hw%windows_ok_window). change kMaxSegmentSize with kDefaultTCPMSS in Hw. lia.
  - intros b (mx & _ & Hw). by eapply windows_ok_idle.
Defined.

(** C20. BBR's window stays within its bounds.  A sender can be created, and along every
    run of events, sent and neutered packets, timeouts and configuration
    changes the window offered to the connection is at least the minimum window
    (four segments, or one if so configured), at most the configured maximum,
    and equal to the minimum while the RTT is probed; an idle connection may
    always send. *)
Theorem bbr_window_bounds now n mx r st es :
  now <> QuicTime_Infinite -> 4 <= n <= mx -> mx < 2 ^ 50 ->
  exists s0, BbrSender_init now n mx r st = Ok s0 /\
    forall s, rfold bbr_step es s0 = Ok s ->
      kMaxSegmentSize <= min_congestion_window_ s <= GetCongestionWindow s /\
      GetCongestionWindow s <= mx * kDefaultTCPMSS /\
      (mode_ s = PROBE_RTT -> GetCongestionWindow s = min_congestion_window_ s) /\
      CanSend s 0 = true.
Proof.
  intros Hnow Hn Hmx. change kDefaultTCPMSS with 1460.
  destruct (BbrSender_init_ok now n mx r st Hnow) as (s0 & E0 & _ & _ & E1 & _ & E2 & E3 & E4 & _).
  exists s0. split; [done|]. intros s Es.
  change kDefaultTCPMSS with 1460 in *. rewrite u64_small in E1, E2 by lia.
  assert (Hw0 : windows_ok (mx * 1460) s0).
  { split; rewrite ?E1, ?E2, ?E3, ?E4; change kMaxSegmentSize with 1460; (done || lia). }
  apply (bbr_run_windows _ es s0 s Hw0) in Es.
  pose proof (windows_ok_window _ _ Es) as Hb. split; [lia|]. split; [lia|]. split; [|by eapply windows_ok_idle].
  intros Hm. unfold GetCongestionWindow. by rewrite decide_True.
Qed.


(** * The mode machine *)

Definition same_probe s s' : Prop :=
  exit_probe_rtt_at_ s' = exit_probe_rtt_at_ s /\ probe_rtt_round_passed_ s' = probe_rtt_round_passed_ s /\
  exiting_quiescence_ s' = exiting_quiescence_ s /\ drain_to_target_ s' = drain_to_target_ s /\
  min_congestion_window_ s' = min_congestion_window_ s.
#[local] Instance same_probe_preorder : PreOrder same_probe.
Proof. split; [done|]. unfold same_probe. intros ???. naive_solver congruence. Qed.
(** What only the mode decisions of an event change. *)
Definition same_modes s s' : Prop := same_mode s s' /\ same_probe s s'.
#[export] Instance same_modes_preorder : PreOrder same_modes.
Proof. split; [done|]. unfold same_modes. intros ??? [] []. split; by etrans. Qed.
Ltac mode_frame := intros; open_ok; repeat (case_match; subst); subst; cbn;
  unfold same_modes, same_mode, same_constants, same_probe; cbn; split_and!; done.

Lemma UpdateRoundTripCounter_modes s p r : UpdateRoundTripCounter s p = Ok r ->
  same_modes s r.1 /\ min_rtt_ r.1 = min_rtt_ s /\ min_rtt_timestamp_ r.1 = min_rtt_timestamp_ s.
Proof. unfold UpdateRoundTripCounter. mode_frame. Qed.
Lemma UpdateRecoveryState_modes s p b c s' : UpdateRecoveryState s p b c = Ok s' ->
  same_modes s s' /\ min_rtt_ s' = min_rtt_ s /\ min_rtt_timestamp_ s' = min_rtt_timestamp_ s.
Proof. unfold UpdateRecoveryState, maybe_exit_recovery. mode_frame. Qed.
Lemma event_round_modes s a l r : event_round s a l = Ok r ->
  same_modes s r.1 /\ min_rtt_ r.1 = min_rtt_ s /\ min_rtt_timestamp_ r.1 = min_rtt_timestamp_ s.
Proof.
  unfold event_round. destruct (last a); [|by intros [= <-]].
  intros (r1 & (M1 & R1 & T1)%UpdateRoundTripCounter_modes & (s2 & (M2 & R2 & T2)%UpdateRecoveryState_modes & E)%rbind_Ok)%rbind_Ok.
  apply Ok_inj in E as <-. cbn [fst]. split; [by etrans|]. by rewrite R2, T2.
Qed.
Lemma take_sample_modes s n e : same_modes s (take_bandwidth_sample s n e) /\
  min_rtt_ (take_bandwidth_sample s n e) = min_rtt_ s /\ min_rtt_timestamp_ (take_bandwidth_sample s n e) = min_rtt_timestamp_ s.
Proof. unfold take_bandwidth_sample. mode_frame. Qed.
Lemma count_losses_modes s l n : same_modes s (count_losses s l n) /\ min_rtt_timestamp_ (count_losses s l n) = min_rtt_timestamp_ s.
Proof. unfold count_losses. mode_frame. Qed.

(** The RTT estimate has expired. *)
Definition expired s (t : QuicTime) : bool :=
  negb (Delta_IsZero (min_rtt_ s)) && (QuicTime_add (min_rtt_timestamp_ s) kMinRttExpiry <? t).
Lemma MaybeUpdateMinRtt_modes s t d r : MaybeUpdateMinRtt s t d = Ok r ->
  same_modes s r.1 /\ r.2 = expired s t /\ (r.2 = true -> min_rtt_timestamp_ r.1 = t).
Proof. unfold MaybeUpdateMinRtt, expired. intros (u & _ & E)%rbind_Ok. apply Ok_inj in E as <-. cbn [fst snd].
  destruct (_ || Delta_IsZero (min_rtt_ s)) eqn:Eb; cbn.
  - done.
  - split; [done|]. split; [done|]. intros Hx. by rewrite Hx in Eb.
Qed.
Lemma measured_modes s smp n e (b : bool) t d r :
  (if b then MaybeUpdateMinRtt (take_bandwidth_sample (s <| sampler_ := smp |>) n e) t d
   else Ok (take_bandwidth_sample (s <| sampler_ := smp |>) n e, false)) = Ok r ->
  same_modes s r.1 /\ (r.2 = true -> expired s t = true /\ min_rtt_timestamp_ r.1 = t) /\
  (r.2 = false -> expired s t = true -> min_rtt_timestamp_ r.1 = min_rtt_timestamp_ s).
Proof.
  destruct (take_sample_modes (s <| sampler_ := smp |>) n e) as (M & Rt & T). destruct b.
  - intros (M' & Ex & T')%MaybeUpdateMinRtt_modes. unfold expired in *. rewrite Rt, T in Ex. change (min_rtt_ (s <| sampler_ := smp |>)) with (min_rtt_ s) in *.
    change (min_rtt_timestamp_ (s <| sampler_ := smp |>)) with (min_rtt_timestamp_ s) in *.
    split; [etrans; [exact M|exact M']|]. rewrite Ex. split; [|congruence]. intros Hx. split; [done|]. apply T'. by rewrite Ex.
  - intros E. apply Ok_inj in E as <-. cbn [fst snd]. done.
Qed.

Lemma CalculatePacingRate_modes rtt_stats s n s' : CalculatePacingRate rtt_stats s n = Ok s' ->
  same_modes s s' /\ min_rtt_timestamp_ s' = min_rtt_timestamp_ s.
Proof. unfold CalculatePacingRate, check_overshooting. mode_frame. Qed.
Lemma recalculate_modes rtt_stats m s a l e s' : recalculate rtt_stats m s a l e = Ok s' ->
  same_modes s s' /\ min_rtt_timestamp_ s' = min_rtt_timestamp_ s.
Proof.
  unfold recalculate. intros (s1 & (M1 & T1)%CalculatePacingRate_modes & (s2 & E2 & E)%rbind_Ok)%rbind_Ok. apply Ok_inj in E as <-.
  assert (H2 : same_modes s1 s2 /\ min_rtt_timestamp_ s2 = min_rtt_timestamp_ s1).
  { unfold CalculateCongestionWindow in E2. destruct (decide _); [by apply Ok_inj in E2 as <-|].
    apply rbind_Ok in E2 as (w & _ & E2). by apply Ok_inj in E2 as <-. }
  destruct H2 as [M2 T2]. assert (H3 : forall s, same_modes s (CalculateRecoveryWindow m s a l) /\
    min_rtt_timestamp_ (CalculateRecoveryWindow m s a l) = min_rtt_timestamp_ s).
  { intros s0. unfold CalculateRecoveryWindow. destruct (decide _); [done|]. by destruct (_ =? 0). }
  destruct (H3 s2) as [M3 T3]. split; [etrans; [exact M1|]; by etrans|congruence].
Qed.

(** An event decides on the mode once, between parts that leave it alone. *)
Lemma event_split rtt_stats m s n t a l s' : OnCongestionEvent rtt_stats m s n t a l = Ok s' ->
  exists s0 s1 s2 rs ex st, event_round s a l = Ok (s0, rs) /\ same_modes s s1 /\
    update_modes rtt_stats m s1 t n (bool_decide (l <> [])) rs ex st = Ok s2 /\
    same_modes s2 s' /\ min_rtt_timestamp_ s' = min_rtt_timestamp_ s2 /\
    (ex = true -> expired s t = true /\ min_rtt_timestamp_ s1 = t) /\
    (ex = false -> expired s t = true -> min_rtt_timestamp_ s1 = min_rtt_timestamp_ s).
Proof.
  unfold OnCongestionEvent. intros ([s1 rs] & E1 & ([smp sample] & _ & ([s2 ex] & E2 & (s3 & E3 & (s4 & E4 & (smp' & _ & E)%rbind_Ok)%rbind_Ok)%rbind_Ok)%rbind_Ok)%rbind_Ok)%rbind_Ok.
  apply Ok_inj in E as <-. pose proof E1 as (M1 & R1 & T1)%event_round_modes. cbn [fst] in M1, R1, T1.
  apply measured_modes in E2 as (M2 & T2 & T2'). cbn [fst snd] in M2, T2, T2'.
  destruct (count_losses_modes s2 l (total_bytes_lost_ (sampler_ s2) ⊖ total_bytes_lost_ (sampler_ s))) as [M3 T3].
  apply recalculate_modes in E4 as [M4 T4].
  assert (Ee : expired s1 t = expired s t) by (unfold expired; by rewrite R1, T1).
  eexists s1, _, s3, rs, ex, _. split; [exact E1|]. split; [etrans; [exact M1|]; etrans; [exact M2|exact M3]|]. split; [exact E3|].
  split; [etrans; [exact M4|]; by destruct rs|]. split; [rewrite <- T4; by destruct rs|].
  rewrite T3, <- Ee. split; [exact T2|]. intros Hx Hy. rewrite <- T1. by apply T2'.
Qed.


(** The gains that go with a mode, in the middle of an event and at its end. *)
Definition cycle_ok s : Prop :=
  0 <= cycle_current_offset_ s < 8 /\ pacing_gain_ s ∈ kPacingGain /\
  (drain_to_target_ s = false -> kPacingGain !! Z.to_nat (cycle_current_offset_ s) = Some (pacing_gain_ s)).
Definition gains_mid s : Prop :=
  match mode_ s with
  | STARTUP => pacing_gain_ s = high_gain_ s /\ congestion_window_gain_ s = high_cwnd_gain_ s
  | DRAIN => pacing_gain_ s = drain_gain_ s /\ congestion_window_gain_ s = high_cwnd_gain_ s /\ is_at_full_bandwidth_ s = true
  | PROBE_BW => congestion_window_gain_ s = congestion_window_gain_constant_ s /\ is_at_full_bandwidth_ s = true /\ cycle_ok s
  | PROBE_RTT => pacing_gain_ s = f32_of_Z 1
  end.
Definition gains_ok s : Prop := gains_mid s /\ (mode_ s = STARTUP -> is_at_full_bandwidth_ s = false).

Lemma gains_mid_same s s' : same_modes s s' -> gains_mid s -> gains_mid s'.
Proof.
  intros [(E1 & E2 & E3 & E4 & E5 & E6 & E7 & E8 & E9) (_ & _ & _ & F4 & _)]. unfold gains_mid, cycle_ok.
  by rewrite E1, E2, E3, E4, E5, E6, E7, E8, E9, F4.
Qed.

(** The moves of an event, [full] telling whether the full bandwidth has been reached when it ends. *)
Definition mode_move (full : bool) (old new : Mode) : bool :=
  match old, new with
  | STARTUP, STARTUP | PROBE_RTT, STARTUP => negb full
  | STARTUP, (DRAIN | PROBE_BW) | PROBE_RTT, PROBE_BW => full
  | (STARTUP | DRAIN | PROBE_BW | PROBE_RTT), PROBE_RTT | DRAIN, (DRAIN | PROBE_BW) | PROBE_BW, PROBE_BW => true
  | _, _ => false
  end.

Lemma pacing_gain_at_Ok o g : pacing_gain_at o = Ok g -> kPacingGain !! Z.to_nat o = Some g /\ g ∈ kPacingGain.
Proof.
  unfold pacing_gain_at. destruct (kPacingGain !! _) eqn:E; [|done]. intros E'. apply Ok_inj in E' as <-. split; [done|].
  by eapply list_elem_of_lookup_2.
Qed.

(** The gain cycle stays where it is or moves to the next phase. *)
Lemma gain_cycle_spec rtt_stats m s t n b s' : UpdateGainCyclePhase rtt_stats m s t n b = Ok s' -> cycle_ok s ->
  cycle_ok s' /\ (cycle_current_offset_ s' = cycle_current_offset_ s \/ cycle_current_offset_ s' = (cycle_current_offset_ s + 1) mod 8) /\
  same_constants s s' /\ same_probe s s' /\ mode_ s' = mode_ s /\ congestion_window_gain_ s' = congestion_window_gain_ s /\
  is_at_full_bandwidth_ s' = is_at_full_bandwidth_ s /\ min_rtt_timestamp_ s' = min_rtt_timestamp_ s.
Proof.
  unfold UpdateGainCyclePhase. intros (adv & _ & E)%rbind_Ok Hc. destruct adv; [|apply Ok_inj in E as <-; split_and!; (done || by left)].
  apply rbind_Ok in E as (g & Eg & E). apply rbind_Ok in E as (stay & Es & E). apply Ok_inj in E as <-.
  destruct (pacing_gain_at_Ok _ _ Eg) as [Hg Hin]. destruct Hc as (Ho & Hp & Hd).
  pose proof (Z.mod_pos_bound (cycle_current_offset_ s + 1) kGainCycleLength ltac:(done)) as Hb. change kGainCycleLength with 8 in *.
  assert (Hc : cycle_ok (if stay then s <| cycle_current_offset_ := (cycle_current_offset_ s + 1) mod 8 |>
      else s <| cycle_current_offset_ := (cycle_current_offset_ s + 1) mod 8 |> <| pacing_gain_ := g |>)).
  { destruct stay; (split; [cbn; lia|]); (split; [done|]); cbn; intros Hf; [|done].
    destruct ((cycle_current_offset_ s + 1) mod 8 =? 0); cbn in Es; rewrite Hf in Es; done. }
  destruct ((cycle_current_offset_ s + 1) mod 8 =? 0), stay; cbn in *; (split; [exact Hc|]); (split; [by right|]); by split_and!.
Qed.

Lemma CheckIfFull_spec s e s' : CheckIfFullBandwidthReached s e = Ok s' ->
  same_constants s s' /\ same_probe s s' /\ mode_ s' = mode_ s /\ pacing_gain_ s' = pacing_gain_ s /\
  congestion_window_gain_ s' = congestion_window_gain_ s /\ cycle_current_offset_ s' = cycle_current_offset_ s /\
  min_rtt_timestamp_ s' = min_rtt_timestamp_ s.
Proof.
  unfold CheckIfFullBandwidthReached, ShouldExitStartupDueToLoss. intros; open_ok; repeat (case_match; subst); subst; cbn;
    unfold same_constants, same_probe; cbn; split_and!; done.
Qed.
Lemma CheckIfFull_mono s e s' : CheckIfFullBandwidthReached s e = Ok s' -> is_at_full_bandwidth_ s = true -> is_at_full_bandwidth_ s' = true.
Proof.
  unfold CheckIfFullBandwidthReached, ShouldExitStartupDueToLoss. intros; open_ok; repeat (case_match; subst); subst; cbn; done.
Qed.

Lemma enter_probe_bw_spec s t s' : EnterProbeBandwidthMode s t = Ok s' ->
  mode_ s' = PROBE_BW /\ congestion_window_gain_ s' = congestion_window_gain_constant_ s' /\ cycle_ok s' /\
  is_at_full_bandwidth_ s' = is_at_full_bandwidth_ s /\ same_constants s s' /\ same_probe s s' /\
  min_rtt_timestamp_ s' = min_rtt_timestamp_ s /\ cycle_current_offset_ s' <> 1.
Proof.
  unfold EnterProbeBandwidthMode. pose proof (RandUint64_range (random_ s)) as Hr. destruct (RandUint64 (random_ s)) as [x r]. cbn [fst] in Hr.
  intros (g & Eg & E)%rbind_Ok. apply Ok_inj in E as <-. destruct (pacing_gain_at_Ok _ _ Eg) as [Hg Hin].
  change (kGainCycleLength - 1) with 7 in *. pose proof (Z.mod_pos_bound x 7 ltac:(done)) as Hb.
  unfold cycle_ok, same_constants, same_probe. cbn -[Z.modulo]. split_and!; try done; destruct (Z.leb_spec 1 (x mod 7)); lia.
Qed.


Lemma exit_startup_spec s t s' : OnExitStartup s t = Ok s' -> same_modes s s' /\ min_rtt_timestamp_ s' = min_rtt_timestamp_ s.
Proof. unfold OnExitStartup. mode_frame. Qed.

(** After [MaybeExitStartupOrDrain] the startup mode means that more bandwidth is sought. *)
Lemma exit_startup_or_drain_spec rtt_stats m s t s' : MaybeExitStartupOrDrain rtt_stats m s t = Ok s' -> gains_mid s ->
  gains_ok s' /\ same_probe s s' /\ is_at_full_bandwidth_ s' = is_at_full_bandwidth_ s /\ same_constants s s' /\
  min_rtt_timestamp_ s' = min_rtt_timestamp_ s /\
  (mode_ s' = mode_ s \/ mode_ s = STARTUP /\ mode_ s' = DRAIN \/ (mode_ s = STARTUP \/ mode_ s = DRAIN) /\ mode_ s' = PROBE_BW).
Proof.
  unfold MaybeExitStartupOrDrain. intros (s1 & E1 & E)%rbind_Ok Hg.
  assert (H1 : gains_mid s1 /\ same_probe s s1 /\ is_at_full_bandwidth_ s1 = is_at_full_bandwidth_ s /\ same_constants s s1 /\
    min_rtt_timestamp_ s1 = min_rtt_timestamp_ s /\ (mode_ s1 = STARTUP -> is_at_full_bandwidth_ s1 = false) /\
    (mode_ s1 = mode_ s \/ mode_ s = STARTUP /\ mode_ s1 = DRAIN)).
  { destruct (decide (mode_ s = STARTUP)) as [Hm|Hm]; [|apply Ok_inj in E1 as <-; split_and!; try done; by left].
    destruct (is_at_full_bandwidth_ s) eqn:Ef; [|apply Ok_inj in E1 as <-; split_and!; try done; by left].
    apply rbind_Ok in E1 as (s2 & E2%exit_startup_spec & E1). apply Ok_inj in E1 as <-.
    destruct E2 as [[(M1 & M2 & M3 & M4 & M5 & M6) P] T]. unfold gains_mid. cbn. rewrite M5, Ef. split_and!; try done; by right. }
  destruct H1 as (G1 & P1 & F1 & C1 & T1 & N1 & X1). destruct (decide (mode_ s1 = DRAIN)) as [Hd|Hd].
  2:{ apply Ok_inj in E as <-. split_and!; try done. destruct X1 as [?|[? ?]]; [by left|right; by left]. }
  assert (Hm1 : mode_ s = STARTUP \/ mode_ s = DRAIN) by (destruct X1 as [X1|[? ?]]; [right; congruence|by left]).
  apply rbind_Ok in E as (w & _ & E). destruct (_ <=? w).
  - apply enter_probe_bw_spec in E as (M & W & Cy & F & Cs & P & T & _). unfold gains_mid in G1. rewrite Hd in G1. destruct G1 as (_ & _ & Ff).
    split; [unfold gains_ok, gains_mid; rewrite M; split; [split_and!; congruence|done]|].
    split; [by etrans|]. split; [congruence|]. split; [by etrans|]. split; [congruence|]. right. right. done.
  - apply Ok_inj in E as <-. split_and!; try done. destruct X1 as [?|[? ?]]; [by left|right; by left].
Qed.

(** Entering the probe: the estimate has expired and the connection was not idle. *)
Lemma enter_probe_rtt_spec s t ex s' : maybe_enter_probe_rtt s t ex = Ok s' ->
  let enters := ex && negb (exiting_quiescence_ s) && bool_decide (mode_ s <> PROBE_RTT) in
  is_at_full_bandwidth_ s' = is_at_full_bandwidth_ s /\ same_constants s s' /\ min_rtt_timestamp_ s' = min_rtt_timestamp_ s /\
  min_congestion_window_ s' = min_congestion_window_ s /\
  if enters then mode_ s' = PROBE_RTT /\ pacing_gain_ s' = f32_of_Z 1 /\ exit_probe_rtt_at_ s' = 0 else s' = s.
Proof.
  unfold maybe_enter_probe_rtt. cbn zeta. destruct (_ && _ && _); [|intros E; by apply Ok_inj in E as <-].
  intros (s1 & E1 & E)%rbind_Ok. apply Ok_inj in E as <-.
  assert (H1 : same_modes s s1 /\ min_rtt_timestamp_ s1 = min_rtt_timestamp_ s).
  { destruct (InSlowStart s); [by eapply exit_startup_spec|by apply Ok_inj in E1 as <-]. }
  destruct H1 as [[(M1 & M2 & M3 & M4 & M5 & M6) (P1 & P2 & P3 & P4 & P5)] T]. by split_and!.
Qed.

(** Inside the probe: wait until the path has drained, then for 200 ms and a round trip. *)
Lemma in_probe_rtt_spec m s t rs s' : in_probe_rtt m s t rs = Ok s' -> mode_ s = PROBE_RTT -> pacing_gain_ s = f32_of_Z 1 ->
  is_at_full_bandwidth_ s' = is_at_full_bandwidth_ s /\ same_constants s s' /\ gains_ok s' /\
  if exit_probe_rtt_at_ s =? 0 then
    mode_ s' = PROBE_RTT /\ min_rtt_timestamp_ s' = min_rtt_timestamp_ s /\
    exit_probe_rtt_at_ s' = (if bytes_in_flight_ m <? min_congestion_window_ s ⊕ kMaxOutgoingPacketSize then QuicTime_add t kProbeRttTime else 0)
  else if (exit_probe_rtt_at_ s <=? t) && (rs || probe_rtt_round_passed_ s) then
    mode_ s' = (if is_at_full_bandwidth_ s then PROBE_BW else STARTUP) /\ min_rtt_timestamp_ s' = t
  else mode_ s' = PROBE_RTT /\ min_rtt_timestamp_ s' = min_rtt_timestamp_ s /\ exit_probe_rtt_at_ s' = exit_probe_rtt_at_ s.
Proof.
  unfold in_probe_rtt. intros E Hm Hg. change QuicTime_Zero with 0 in E.
  assert (Hstay : forall s1, same_modes s s1 -> gains_ok s1).
  { intros s1 [(M1 & M2 & M3 & M4 & M5 & M6) P]. unfold gains_ok, gains_mid. rewrite M1, Hm. split; [congruence|done]. }
  assert (Hstay2 : forall s1, mode_ s1 = PROBE_RTT -> pacing_gain_ s1 = f32_of_Z 1 -> gains_ok s1).
  { intros s1 M1 M2. unfold gains_ok, gains_mid. by rewrite M1. }
  change (exit_probe_rtt_at_ (s <| sampler_ := OnAppLimited (sampler_ s) |>)) with (exit_probe_rtt_at_ s) in E.
  destruct (Z.eqb_spec (exit_probe_rtt_at_ s) 0) as [E0|E0].
  { apply Ok_inj in E as <-. unfold ProbeRttCongestionWindow. cbn. destruct (_ <? _); cbn; split_and!; try done; by apply Hstay2. }
  set (s1 := if rs then s <| sampler_ := OnAppLimited (sampler_ s) |> <| probe_rtt_round_passed_ := true |> else s <| sampler_ := OnAppLimited (sampler_ s) |>) in E.
  assert (H1 : mode_ s1 = PROBE_RTT /\ pacing_gain_ s1 = f32_of_Z 1 /\ exit_probe_rtt_at_ s1 = exit_probe_rtt_at_ s /\
    probe_rtt_round_passed_ s1 = rs || probe_rtt_round_passed_ s /\ is_at_full_bandwidth_ s1 = is_at_full_bandwidth_ s /\
    same_constants s s1 /\ min_rtt_timestamp_ s1 = min_rtt_timestamp_ s) by (unfold s1; destruct rs; by split_and!).
  clearbody s1. destruct H1 as (H1 & H2 & H3 & H4 & H5 & H6 & H7). rewrite H3, H4 in E.
  destruct (_ && _); [|apply Ok_inj in E as <-; split_and!; try done; by apply Hstay2].
  change (is_at_full_bandwidth_ (s1 <| min_rtt_timestamp_ := t |>)) with (is_at_full_bandwidth_ s1) in E. rewrite H5 in E.
  destruct (is_at_full_bandwidth_ s) eqn:Ef; cbn [negb] in E.
  - apply enter_probe_bw_spec in E as (M & W & Cy & F & Cs & P & T & _). cbn in F, T.
    split; [by rewrite F|]. split; [etrans; [exact H6|exact Cs]|]. split; [|by rewrite T].
    unfold gains_ok, gains_mid. rewrite M. split; [|done]. split_and!; [done| |done]. by rewrite F.
  - unfold EnterStartupMode in E. apply rbind_Ok in E as (d & _ & E). apply Ok_inj in E as <-. unfold gains_ok, gains_mid. cbn.
    rewrite H5. split_and!; try done.
Qed.

Lemma exit_startup_or_drain_id rtt_stats m s t s' : MaybeExitStartupOrDrain rtt_stats m s t = Ok s' -> mode_ s = PROBE_BW -> s' = s.
Proof.
  unfold MaybeExitStartupOrDrain. intros E Hm. rewrite decide_False in E by congruence. cbn in E.
  rewrite decide_False in E by congruence. by apply Ok_inj in E.
Qed.

(** The first two steps of the mode decisions keep the mode. *)
Lemma cycle_and_full_spec rtt_stats m s t n b rs e s' :
  (let* s := if decide (mode_ s = PROBE_BW) then UpdateGainCyclePhase rtt_stats m s t n b else Ok s in
   if rs && negb (is_at_full_bandwidth_ s) then CheckIfFullBandwidthReached s e else Ok s) = Ok s' ->
  gains_mid s ->
  gains_mid s' /\ same_probe s s' /\ min_rtt_timestamp_ s' = min_rtt_timestamp_ s /\ mode_ s' = mode_ s /\
  (is_at_full_bandwidth_ s = true -> is_at_full_bandwidth_ s' = true) /\
  (cycle_current_offset_ s' = cycle_current_offset_ s \/ cycle_current_offset_ s' = (cycle_current_offset_ s + 1) mod 8).
Proof.
  intros (s1 & E1 & E)%rbind_Ok Hg.
  assert (H1 : gains_mid s1 /\ same_probe s s1 /\ min_rtt_timestamp_ s1 = min_rtt_timestamp_ s /\ mode_ s1 = mode_ s /\
    is_at_full_bandwidth_ s1 = is_at_full_bandwidth_ s /\
    (cycle_current_offset_ s1 = cycle_current_offset_ s \/ cycle_current_offset_ s1 = (cycle_current_offset_ s + 1) mod 8)).
  { destruct (decide (mode_ s = PROBE_BW)) as [Hm|Hm]; [|apply Ok_inj in E1 as <-; split_and!; (done || by left)].
    unfold gains_mid in Hg. rewrite Hm in Hg. destruct Hg as (G1 & G2 & G3).
    apply gain_cycle_spec in E1 as (C & O & (K1 & K2 & K3 & K4) & P & M & W & F & T); [|done].
    unfold gains_mid. rewrite M, Hm. split_and!; (done || congruence). }
  clear E1. destruct H1 as (G1 & P1 & T1 & M1 & F1 & O1).
  destruct (rs && negb (is_at_full_bandwidth_ s1)) eqn:Eb; [|apply Ok_inj in E as <-; split_and!; (done || congruence)].
  pose proof (CheckIfFull_mono _ _ _ E) as Hmono.
  apply CheckIfFull_spec in E as ((K1 & K2 & K3 & K4) & P & M & Pg & W & O & T). apply andb_prop in Eb as [_ Eb].
  split; [|split_and!; [by etrans|congruence|congruence| |by rewrite O]; by rewrite <- F1].
  unfold gains_mid in *. rewrite M. destruct (mode_ s1); try (split_and!; congruence); try congruence.
  - destruct G1 as (? & ? & Hf). by rewrite Hf in Eb.
  - destruct G1 as (? & Hf & ?). by rewrite Hf in Eb.
Qed.

(** What the steps before the probe of the RTT do. *)
Lemma before_probe_spec rtt_stats m s t n b rs e s' :
  (let* s := if decide (mode_ s = PROBE_BW) then UpdateGainCyclePhase rtt_stats m s t n b else Ok s in
   let* s := if rs && negb (is_at_full_bandwidth_ s) then CheckIfFullBandwidthReached s e else Ok s in
   MaybeExitStartupOrDrain rtt_stats m s t) = Ok s' ->
  gains_mid s ->
  gains_ok s' /\ same_probe s s' /\ min_rtt_timestamp_ s' = min_rtt_timestamp_ s /\
  (is_at_full_bandwidth_ s = true -> is_at_full_bandwidth_ s' = true) /\
  (mode_ s = PROBE_BW -> cycle_current_offset_ s' = cycle_current_offset_ s \/ cycle_current_offset_ s' = (cycle_current_offset_ s + 1) mod 8) /\
  (mode_ s' = mode_ s \/ mode_ s = STARTUP /\ mode_ s' = DRAIN \/ (mode_ s = STARTUP \/ mode_ s = DRAIN) /\ mode_ s' = PROBE_BW).
Proof.
  intros (s1 & E1 & (s2 & E2 & E)%rbind_Ok)%rbind_Ok Hg.
  assert (E12 : (let* s := if decide (mode_ s = PROBE_BW) then UpdateGainCyclePhase rtt_stats m s t n b else Ok s in
    if rs && negb (is_at_full_bandwidth_ s) then CheckIfFullBandwidthReached s e else Ok s) = Ok s2) by (rewrite E1; exact E2).
  apply cycle_and_full_spec in E12 as (G & P & T & M & F & O); [|done]. clear E1 E2.
  pose proof (exit_startup_or_drain_id _ _ _ _ _ E) as Hid.
  apply exit_startup_or_drain_spec in E as (G' & P' & F' & _ & T' & X); [|done]. rewrite M in X, Hid.
  split_and!; try done; [by etrans|congruence|intros Hf; rewrite F'; by apply F|]. intros Hm. by rewrite (Hid Hm).
Qed.

(** What the probe of the RTT starts or ends. *)
Definition probe_started m s (t : QuicTime) s' : Prop :=
  mode_ s' = PROBE_RTT /\
  exit_probe_rtt_at_ s' = (if bytes_in_flight_ m <? min_congestion_window_ s ⊕ kMaxOutgoingPacketSize then QuicTime_add t kProbeRttTime else 0).
Definition probe_continued m s (t : QuicTime) (rs : bool) s' : Prop :=
  if exit_probe_rtt_at_ s =? 0 then probe_started m s t s'
  else if (exit_probe_rtt_at_ s <=? t) && (rs || probe_rtt_round_passed_ s) then
    mode_ s' = (if is_at_full_bandwidth_ s' then PROBE_BW else STARTUP) /\ min_rtt_timestamp_ s' = t
  else mode_ s' = PROBE_RTT /\ exit_probe_rtt_at_ s' = exit_probe_rtt_at_ s.

Lemma probe_rtt_spec m s t rs ex s' : MaybeEnterOrExitProbeRtt m s t rs ex = Ok s' -> gains_ok s ->
  gains_ok s' /\ is_at_full_bandwidth_ s' = is_at_full_bandwidth_ s /\ exiting_quiescence_ s' = false /\
  if decide (mode_ s = PROBE_RTT) then probe_continued m s t rs s'
  else if ex && negb (exiting_quiescence_ s) then probe_started m s t s' /\ min_rtt_timestamp_ s' = min_rtt_timestamp_ s
  else s' = s <| exiting_quiescence_ := false |>.
Proof.
  unfold MaybeEnterOrExitProbeRtt. intros (s1 & E1 & (s2 & E2 & E)%rbind_Ok)%rbind_Ok [Hg Hf]. apply Ok_inj in E as <-.
  change (gains_ok (s2 <| exiting_quiescence_ := false |>)) with (gains_ok s2).
  change (is_at_full_bandwidth_ (s2 <| exiting_quiescence_ := false |>)) with (is_at_full_bandwidth_ s2).
  change (probe_continued m s t rs (s2 <| exiting_quiescence_ := false |>)) with (probe_continued m s t rs s2).
  change (probe_started m s t (s2 <| exiting_quiescence_ := false |>)) with (probe_started m s t s2).
  apply enter_probe_rtt_spec in E1 as (F1 & _ & T1 & N1 & E1). unfold probe_continued, probe_started.
  destruct (decide (mode_ s = PROBE_RTT)) as [Hm|Hm].
  - rewrite bool_decide_false, andb_false_r in E1 by (intros Hn; by apply Hn). subst s1. rewrite decide_True in E2 by done.
    unfold gains_mid in Hg. rewrite Hm in Hg. apply in_probe_rtt_spec in E2 as (F2 & _ & G2 & X2); [|done|done].
    split_and!; try done. destruct (_ =? 0); [naive_solver|]. destruct (_ && _); [|naive_solver]. by rewrite F2.
  - rewrite bool_decide_true, andb_true_r in E1 by done. destruct (ex && negb (exiting_quiescence_ s)).
    + destruct E1 as (M1 & G1 & X1). rewrite decide_True in E2 by done. apply in_probe_rtt_spec in E2 as (F2 & _ & G2 & X2); [|done|done].
      rewrite X1 in X2. cbn [Z.eqb] in X2. destruct X2 as (M2 & T2 & X2). rewrite N1 in X2.
      split_and!; try done; [congruence|]. change (min_rtt_timestamp_ s2 = min_rtt_timestamp_ s). congruence.
    + subst s1. rewrite decide_False in E2 by done. apply Ok_inj in E2 as <-. by split_and!.
Qed.

(** One decision on the mode. *)
Lemma update_modes_spec rtt_stats m s t n b rs ex e s' : update_modes rtt_stats m s t n b rs ex e = Ok s' -> gains_ok s ->
  gains_ok s' /\ mode_move (is_at_full_bandwidth_ s') (mode_ s) (mode_ s') = true /\
  (is_at_full_bandwidth_ s = true -> is_at_full_bandwidth_ s' = true) /\ exiting_quiescence_ s' = false /\
  (mode_ s = PROBE_BW -> mode_ s' = PROBE_BW ->
    cycle_current_offset_ s' = cycle_current_offset_ s \/ cycle_current_offset_ s' = (cycle_current_offset_ s + 1) mod 8) /\
  (mode_ s <> PROBE_RTT -> if ex && negb (exiting_quiescence_ s) then probe_started m s t s' else mode_ s' <> PROBE_RTT) /\
  (mode_ s <> PROBE_RTT -> min_rtt_timestamp_ s' = min_rtt_timestamp_ s) /\
  (mode_ s = PROBE_RTT -> probe_continued m s t rs s').
Proof.
  unfold update_modes. intros E [Hg Hf].
  assert (E' : exists s1, (let* s := if decide (mode_ s = PROBE_BW) then UpdateGainCyclePhase rtt_stats m s t n b else Ok s in
    let* s := if rs && negb (is_at_full_bandwidth_ s) then CheckIfFullBandwidthReached s e else Ok s in
    MaybeExitStartupOrDrain rtt_stats m s t) = Ok s1 /\ MaybeEnterOrExitProbeRtt m s1 t rs ex = Ok s').
  { apply rbind_Ok in E as (u1 & E1 & (u2 & E2 & (u3 & E3 & E)%rbind_Ok)%rbind_Ok). exists u3. rewrite E1. cbn [rbind]. rewrite E2. done. }
  clear E. destruct E' as (s1 & (G1 & (P1 & P2 & P3 & P4 & P5) & T1 & F1 & O1 & X1)%before_probe_spec & (G & F & Q & X)%probe_rtt_spec); [|done..].
  split; [done|]. rewrite F. rewrite P3 in X.
  assert (Hc : mode_ s = PROBE_RTT <-> mode_ s1 = PROBE_RTT) by naive_solver congruence.
  destruct G1 as [Gm Gs]. destruct (decide (mode_ s1 = PROBE_RTT)) as [Hm|Hm].
  - assert (Hm0 : mode_ s = PROBE_RTT) by naive_solver. rewrite Hm0.
    assert (Hc' : probe_continued m s t rs s') by (unfold probe_continued, probe_started in *; by rewrite <- P1, <- P2, <- P5).
    split_and!; try done. clear Hc'. unfold probe_continued, probe_started in X. rewrite F in X.
    destruct (_ =? 0); [by rewrite (proj1 X)|]. destruct (_ && _); rewrite (proj1 X); [by destruct (is_at_full_bandwidth_ s1)|done].
  - assert (Hm0 : mode_ s <> PROBE_RTT) by naive_solver. destruct (ex && negb (exiting_quiescence_ s)).
    + destruct X as [[M X] T]. unfold probe_started. rewrite M, <- P5. split_and!; try done; [|congruence]. by destruct (mode_ s).
    + subst s'. unfold gains_mid in Gm. cbn. split_and!; try done; [|intros Hb _; by apply O1].
      destruct X1 as [X1|[[X1 X2]|[[X1|X1] X2]]]; [rewrite X1 in *|rewrite X1, X2 in *..]; cbn; try (by apply Gm); try done.
      destruct (mode_ s); try done. cbn. by rewrite Gs.
Qed.

(** A configured sender in its first startup. *)
Definition starting s : Prop :=
  mode_ s = STARTUP /\ is_at_full_bandwidth_ s = false /\ pacing_gain_ s = high_gain_ s /\ congestion_window_gain_ s = high_cwnd_gain_ s.
Lemma when_starting (b : bool) (f : BbrSender R -> BbrSender R) s : (forall s, starting s -> starting (f s)) -> starting s -> starting (when b f s).
Proof. intros Hf Hs. destruct b; [by apply Hf|done]. Qed.
Ltac when_starts := repeat (apply when_starting; [done|]).
Lemma set_high_gain_starting s g s' : set_high_gain s g = Ok s' -> starting s -> starting s'.
Proof.
  unfold set_high_gain, starting. intros (u & _ & E)%rbind_Ok (M & F & G & W). apply Ok_inj in E as <-. cbn. by rewrite decide_True.
Qed.
Lemma set_high_cwnd_gain_starting s g s' : set_high_cwnd_gain s g = Ok s' -> starting s -> starting s'.
Proof.
  unfold set_high_cwnd_gain, starting. intros (u & _ & E)%rbind_Ok (M & F & G & W). apply Ok_inj in E as <-. cbn. by rewrite decide_True.
Qed.
Lemma set_drain_gain_starting s g s' : set_drain_gain s g = Ok s' -> starting s -> starting s'.
Proof.
  unfold set_drain_gain. intros (u & _ & E)%rbind_Ok Hs. by apply Ok_inj in E as <-.
Qed.
Lemma config_starting s o s' : SetFromConfig s o = Ok s' -> starting s -> starting s'.
Proof.
  unfold SetFromConfig. intros (s1 & E1 & E)%rbind_Ok Hs. apply Ok_inj in E as <-. unfold ApplyConnectionOptions.
  when_starts. destruct (kBBQ1 o); [|apply Ok_inj in E1 as <-; by when_starts].
  apply rbind_Ok in E1 as (s2 & E2 & (s3 & E3 & E1)%rbind_Ok). eapply set_drain_gain_starting; [exact E1|].
  eapply set_high_cwnd_gain_starting; [exact E3|]. eapply set_high_gain_starting; [exact E2|]. by when_starts.
Qed.

(** The states of a connection: the sender is configured once, when it is created. *)
Definition no_config (e : bbr_event) : bool := match e with BConfig _ => false | _ => true end.
Inductive reachable : BbrSender R -> Prop :=
  | reachable_start now n mx r st o s0 s : now <> QuicTime_Infinite -> BbrSender_init now n mx r st = Ok s0 ->
      SetFromConfig s0 o = Ok s -> reachable s
  | reachable_step s e s' : reachable s -> no_config e = true -> bbr_step s e = Ok s' -> reachable s'.

(** Every step but an event leaves the mode alone. *)
Definition is_event (e : bbr_event) : bool := match e with BEvent _ _ _ _ _ _ => true | _ => false end.
Lemma step_same_mode s e s' : no_config e = true -> is_event e = false -> bbr_step s e = Ok s' ->
  same_mode s s' /\ drain_to_target_ s' = drain_to_target_ s.
Proof.
  destruct e as [r m n t a l|t n pn b d|pn|n|b|o]; cbn [bbr_step no_config is_event]; try done; intros _ _.
  - unfold OnPacketSent. intros (smp & _ & E)%rbind_Ok. apply Ok_inj in E as <-. by destruct (InSlowStart s), (_ && _).
  - unfold OnPacketNeutered. intros (smp & _ & E)%rbind_Ok. by apply Ok_inj in E as <-.
  - unfold OnApplicationLimited. intros E. apply Ok_inj in E as <-. by destruct (_ <=? _).
  - intros E. by apply Ok_inj in E as <-.
Qed.
Lemma gains_ok_same s s' : same_mode s s' -> drain_to_target_ s' = drain_to_target_ s -> gains_ok s -> gains_ok s'.
Proof.
  intros (E1 & E2 & E3 & E4 & E5 & E6 & E7 & E8 & E9) F. unfold gains_ok, gains_mid, cycle_ok.
  by rewrite E1, E2, E3, E4, E5, E6, E7, E8, E9, F.
Qed.
Lemma event_gains rtt_stats m s n t a l s' : OnCongestionEvent rtt_stats m s n t a l = Ok s' -> gains_ok s ->
  gains_ok s' /\ mode_move (is_at_full_bandwidth_ s') (mode_ s) (mode_ s') = true /\
  (is_at_full_bandwidth_ s = true -> is_at_full_bandwidth_ s' = true) /\
  (mode_ s = PROBE_BW -> mode_ s' = PROBE_BW ->
    cycle_current_offset_ s' = cycle_current_offset_ s \/ cycle_current_offset_ s' = (cycle_current_offset_ s + 1) mod 8).
Proof.
  intros (? & s1 & s2 & rs & ex & st & _ & [M1 P1] & E & [M2 P2] & _)%event_split Hg.
  apply update_modes_spec in E as (G & V & F & _ & O & _); [|eapply gains_ok_same; [exact M1| |exact Hg]; apply P1].
  split; [eapply gains_ok_same; [exact M2| |exact G]; apply P2|].
  destruct M1 as (A1 & _ & _ & A2 & A3 & _), M2 as (B1 & _ & _ & B2 & B3 & _). rewrite B1, B2, B3, <- A1, <- A2, <- A3. done.
Qed.
Lemma reachable_gains s : reachable s -> gains_ok s.
Proof.
  induction 1 as [now n mx r st o s0 s Hn E Ec|s e s' _ IH Hc E].
  - destruct (BbrSender_init_ok now n mx r st Hn) as (s0' & E' & M & F & _ & _ & _ & _ & _ & P & W & _).
    rewrite E in E'. apply Ok_inj in E' as <-. apply config_starting in Ec as (M' & F' & G' & W'); [|done].
    unfold gains_ok, gains_mid. by rewrite M'.
  - destruct (is_event e) eqn:Ee.
    + destruct e; try done. cbn in E. by apply event_gains in E as [? _].
    + apply step_same_mode in E as [M D]; [|done..]. by eapply gains_ok_same.
Qed.

(** C4. BBR's state machine.  In every state a connection reaches the gains are those of
    the mode (in PROBE_BW the gain of the current phase of the cycle, and full
    bandwidth has been reached; in STARTUP it has not), and one more step
    moves between modes only as BBR allows: STARTUP to DRAIN or on to
    PROBE_BW, DRAIN to PROBE_BW, any mode to PROBE_RTT, and PROBE_RTT back to
    PROBE_BW or STARTUP as full bandwidth has been reached or not; having reached it is never
    forgotten, and the phase of the cycle advances by at most one. *)
Theorem bbr_mode_machine s e s' : reachable s -> no_config e = true -> bbr_step s e = Ok s' ->
  gains_ok s' /\ mode_move (is_at_full_bandwidth_ s') (mode_ s) (mode_ s') = true /\
  (is_at_full_bandwidth_ s = true -> is_at_full_bandwidth_ s' = true) /\
  (mode_ s = PROBE_BW -> mode_ s' = PROBE_BW ->
    cycle_current_offset_ s' = cycle_current_offset_ s \/ cycle_current_offset_ s' = (cycle_current_offset_ s + 1) mod 8).
Proof.
  intros Hg%reachable_gains Hc E. destruct (is_event e) eqn:Ee; [destruct e; try done; by eapply event_gains|].
  apply step_same_mode in E as [M D]; [|done..]. split; [by eapply gains_ok_same|].
  destruct M as (A1 & _ & _ & A2 & A3 & _). rewrite A1, A2, A3. split_and!; [|done|by left].
  destruct Hg as [_ Hf]. destruct (mode_ s); cbn; try done. by rewrite Hf.
Qed.

(** C22. The probe of the minimum RTT.  An event in another mode starts the probe only
    if the estimate is older than ten seconds and the connection is not leaving an
    idle period, and then stamps the estimate with the event's time; and it does
    start it then if it brings a new RTT sample.  Inside
    the probe the exit is scheduled 200 ms after the event that finds at most the
    minimum window and one packet in flight; the probe ends only at or after that time,
    to PROBE_BW if full bandwidth has been reached and to STARTUP if not, and the
    estimate counts as renewed. *)
Theorem bbr_probe_rtt_cycle rtt_stats m s n t a l s' : reachable s -> OnCongestionEvent rtt_stats m s n t a l = Ok s' ->
  exiting_quiescence_ s' = false /\
  (mode_ s <> PROBE_RTT -> mode_ s' = PROBE_RTT ->
    expired s t = true /\ exiting_quiescence_ s = false /\ min_rtt_timestamp_ s' = t /\ probe_started m s t s') /\
  (mode_ s <> PROBE_RTT -> expired s t = true -> exiting_quiescence_ s = false -> min_rtt_timestamp_ s' <> min_rtt_timestamp_ s ->
    mode_ s' = PROBE_RTT) /\
  (mode_ s = PROBE_RTT -> exists s0 is_round_start, event_round s a l = Ok (s0, is_round_start) /\ probe_continued m s t is_round_start s').
Proof.
  intros Hr (s0 & s1 & s2 & rs & ex & st & Er & [M1 P1] & E & [M2 P2] & T & X & X')%event_split.
  apply reachable_gains in Hr. apply update_modes_spec in E as (_ & _ & _ & Q & _ & St & Ts & Co); [|eapply gains_ok_same; [exact M1| |done]; apply P1].
  destruct M1 as (A1 & _ & _ & _ & A3 & _), M2 as (B1 & _ & _ & _ & B3 & _).
  destruct P1 as (A4 & A5 & A6 & _ & A7), P2 as (B4 & B5 & B6 & _ & B7).
  rewrite A1 in *. unfold probe_continued, probe_started in *. rewrite B1, B3, B4, B6, T. rewrite A4, A5, A6, A7 in *.
  split_and!; [done| | |].
  - intros Hm Hp. specialize (St Hm). specialize (Ts Hm). destruct ex; cbn in St; [|done].
    destruct (exiting_quiescence_ s); cbn in St; [done|]. destruct (X eq_refl) as [X1 X2]. split_and!; try done; [congruence|apply St].
  - intros Hm Hx Hq Hts. specialize (St Hm). specialize (Ts Hm). rewrite Hq in St. destruct ex; cbn in St; [apply St|].
    destruct Hts. rewrite Ts. by apply X'.
  - intros Hm. exists s0, rs. split; [done|]. exact (Co Hm).
Qed.

End Sender.

(** * Witnesses *)

(** A generator that counts. *)
#[export] Instance counting_random : QuicRandom Z := {|
  RandUint64 r := (r mod two64, r + 1);
  RandUint64_range r := Z.mod_pos_bound r two64 eq_refl;
|}.
Definition no_options : BbrOptions :=
  mkBbrOptions false false false false false false false false false false false false false false.
Definition empty_map : QuicUnackedPacketMap (list QuicFrame) := QuicUnackedPacketMap_init IS_CLIENT.
(** The [i]-th of packets sent every 50 ms, acknowledged 20 ms later. *)
Definition exchange (i : nat) : list (@bbr_event (list QuicFrame)) :=
  let pn := Z.of_nat i + 1 in let t := 2000 + 50000 * Z.of_nat i in
  [BSent t 0 pn 1200 HAS_RETRANSMITTABLE_DATA;
   BEvent RttStats_init empty_map 1200 (t + 20000) [mkAcked pn 1200 (t + 20000)] []].
Definition first_sender : result (BbrSender Z) := BbrSender_init 1000 32 2000 5 QuicConnectionStats_init.
Definition sender_after (es : list (@bbr_event (list QuicFrame))) : result (BbrSender Z) :=
  let* s := first_sender in let* s := SetFromConfig s no_options in rfold bbr_step es s.

Lemma rfold_reachable (es : list (@bbr_event (list QuicFrame))) : forall (s s' : BbrSender Z),
  reachable (N:=list QuicFrame) s -> forallb no_config es = true -> rfold bbr_step es s = Ok s' -> reachable (N:=list QuicFrame) s'.
Proof.
  induction es as [|e es IH]; intros s s' Hs Hc E; cbn in *; [by apply Ok_inj in E as <-|].
  apply andb_prop in Hc as [He Hc]. apply rbind_Ok in E as (s1 & E1 & E). eapply IH; [|done|exact E]. by eapply reachable_step.
Qed.
Lemma sender_after_reachable es s : forallb no_config es = true -> sender_after es = Ok s -> reachable (N:=list QuicFrame) s.
Proof.
  unfold sender_after, first_sender. intros Hc (s0 & E0 & (s1 & E1 & E)%rbind_Ok)%rbind_Ok. eapply rfold_reachable; [|exact Hc|exact E].
  eapply reachable_start; [|exact E0|exact E1]. done.
Qed.

Lemma bbr_window_bounds_witness :
  exists s0 s, first_sender = Ok s0 /\ rfold bbr_step (exchange 0 ++ exchange 1) s0 = Ok s /\ 1460 <= GetCongestionWindow s <= 2920000.
Proof.
  destruct (bbr_window_bounds (N:=list QuicFrame) 1000 32 2000 5 QuicConnectionStats_init (exchange 0 ++ exchange 1)) as (s0 & E0 & Hall); [done|lia|lia|].
  exists s0. destruct (rfold bbr_step (exchange 0 ++ exchange 1) s0) as [s|f] eqn:E.
  - exists s. split; [done|]. split; [done|]. destruct (Hall s eq_refl) as (H1 & H2 & _).
    change kMaxSegmentSize with 1460 in H1. change (2000 * kDefaultTCPMSS) with 2920000 in H2. lia.
  - exfalso. vm_compute in E0. apply Ok_inj in E0 as <-. vm_compute in E. discriminate.
Defined.

Lemma bbr_mode_machine_witness :
  exists s s' : BbrSender Z, bbr_step (N:=list QuicFrame) s (BAppLimited 0) = Ok s' /\ mode_ s' = STARTUP /\ gains_ok s'.
Proof.
  destruct (sender_after (exchange 0)) as [s|f] eqn:E; [|exfalso; vm_compute in E; discriminate].
  pose proof (sender_after_reachable (exchange 0) s eq_refl E) as Hr.
  destruct (bbr_mode_machine (N:=list QuicFrame) s (BAppLimited 0) (OnApplicationLimited s 0) Hr eq_refl eq_refl) as (G & _).
  exists s, (OnApplicationLimited s 0). split; [reflexivity|]. split; [|exact G].
  vm_compute in E. apply Ok_inj in E as <-. vm_compute. reflexivity.
Defined.

(** After twelve silent seconds an acknowledgment starts the probe. *)
Lemma bbr_probe_rtt_cycle_witness :
  exists s s' : BbrSender Z, mode_ s = STARTUP /\ mode_ s' = PROBE_RTT /\ expired s 12522000 = true /\
    OnCongestionEvent RttStats_init empty_map s 1200 12522000 [mkAcked 251 1200 12522000] [] = Ok s' /\ exiting_quiescence_ s' = false.
Proof.
  set (es := exchange 0 ++ exchange 1 ++ take 1 (exchange 250)).
  destruct (sender_after es) as [s|f] eqn:E; [|exfalso; vm_compute in E; discriminate].
  pose proof (sender_after_reachable es s eq_refl E) as Hr. exists s.
  destruct (OnCongestionEvent RttStats_init empty_map s 1200 12522000 [mkAcked 251 1200 12522000] []) as [s'|f] eqn:Ee.
  - exists s'. destruct (bbr_probe_rtt_cycle RttStats_init empty_map s 1200 12522000 [mkAcked 251 1200 12522000] [] s' Hr Ee) as (Hq & Hstart & Hconv & _).
    assert (Hx : mode_ s = STARTUP /\ expired s 12522000 = true /\ mode_ s' = PROBE_RTT).
    { vm_compute in E. apply Ok_inj in E as <-. vm_compute in Ee. apply Ok_inj in Ee as <-. by vm_compute. }
    destruct Hx as (H1 & H2 & H3). split; [exact H1|]. split; [exact H3|]. split; [exact H2|]. split; [reflexivity|exact Hq].
  - exfalso. vm_compute in E. apply Ok_inj in E as <-. vm_compute in Ee. discriminate.
Defined.
