(* ===== verification/BbrSafety.v ===== *)
(** The BBR sender does not stop: on every run of a connection that keeps to the
    sampler's contract (packets are acknowledged or declared lost once, byte
    counts stay below 2^35, the clock does not run backwards) no assertion
    of [BbrSender] fails, no conversion from a float is out of range and no
    division is by zero. *)

From Stdlib Require Import SpecFloat.
From stdpp Require Import gmap relations.
From S2P Require Import Prelude Float QuicTime PacketNumber WindowedFilter RttStats SendAlgorithm UnackedMap IndexedQueue BandwidthSampler Bbr.

(** * Floats in range *)

(** Every gain of the sender is between 1/8 and 4. *)
Definition gain_ok (gain : spec_float) : Prop := mag_in gain (-2) 2.

Lemma kPacingGain_ok g : g ∈ kPacingGain -> gain_ok g.
Proof.
  assert (Hf : Forall gain_ok kPacingGain) by (unfold kPacingGain; repeat (apply Forall_cons_2; [by vm_compute|]); apply Forall_nil_2).
  intros Hg. by eapply Forall_forall in Hf.
Qed.

Lemma float_to_u64_mag0 x lo hi : mag0_in x lo hi -> 0 <= hi <= 64 -> exists z, float_to_u64 x = Ok z.
Proof. intros [->|Hx] Hh; [by exists 0|]. destruct (float_to_u64_mag x lo hi Hx Hh) as (z & -> & _). eauto. Qed.

Lemma gain_times_ok gain z : gain_ok gain -> 0 <= z < 2 ^ 50 -> exists w, float_to_u64 (f32_mul gain (f32_of_Z z)) = Ok w.
Proof.
  intros Hg Hz. eapply float_to_u64_mag0; [apply (f32_mul_mag0 _ _ (-2) 2 1 51); [done|apply (f32_of_Z_mag0 z 50); lia|lia|lia]|lia].
Qed.

Lemma round_mag x lo hi : mag_in x lo hi -> 0 <= hi -> exists z, float_round x = Some z /\ 0 <= z <= 2 ^ hi.
Proof.
  destruct x as [| | |[] m e]; cbn [mag_in]; try done. intros [[_ Hhi] _] H0. cbn [float_round]. eexists; split; [done|].
  pose proof (digits2_pos_spec m) as [_ Hm]. unfold mag in *. set (d := Zpos (digits2_pos m)) in *.
  destruct (Z.leb_spec 0 e).
  - assert (0 < 2 ^ e) by (apply Z.pow_pos_nonneg; lia). split; [lia|].
    apply Z.le_trans with (2 ^ d * 2 ^ e); [apply Z.mul_le_mono_pos_r; lia|].
    rewrite <- Z.pow_add_r by lia. apply Z.pow_le_mono_r; lia.
  - rewrite Z.pow_add_r by lia. assert (Hp : 0 < 2 ^ (- e)) by (apply Z.pow_pos_nonneg; lia). change (2 ^ 1) with 2.
    assert (Hh : 0 < 2 ^ hi) by (apply Z.pow_pos_nonneg; lia).
    assert (Hmb : Zpos m <= 2 ^ hi * 2 ^ (- e)).
    { apply Z.le_trans with (2 ^ d); [lia|]. rewrite <- Z.pow_add_r by lia. apply Z.pow_le_mono_r; lia. }
    split; [apply Z.div_pos; nia|]. apply Z.lt_succ_r, Z.div_lt_upper_bound; nia.
Qed.

(** A bandwidth times a gain. *)
Definition bandwidth_ok (b : Z) : Prop := 0 <= b < 2 ^ 58.
Lemma bandwidth_mul_ok b gain : bandwidth_ok b -> gain_ok gain -> exists v, QuicBandwidth_mul b gain = Ok v.
Proof.
  intros Hb Hg. unfold QuicBandwidth_mul. destruct (f32_of_Z_mag0 b 58 ltac:(lia) Hb) as [->|Hm].
  { change (f32_mul (S754_zero false) gain) with (SFmul 24 128 (S754_zero false) gain). unfold gain_ok in Hg. destruct gain as [| | |[] m e]; try done. cbn. eauto. }
  destruct (round_mag _ _ _ (f32_mul_mag _ _ _ _ _ _ Hm Hg ltac:(lia) ltac:(lia)) ltac:(lia)) as (z & Hz & Hr).
  unfold float_llround. rewrite Hz. cbn -[Z.pow] in *. change (2 ^ (58 + 1 + 2 + 1)) with 4611686018427387904 in Hr.
  zcases; [cbn; eauto|lia..].
Qed.
Lemma bandwidth_mul_zero : QuicBandwidth_mul 0 kStartupGrowthTarget = Ok 0.
Proof. reflexivity. Qed.
Lemma kStartupGrowthTarget_ok : gain_ok kStartupGrowthTarget.
Proof. by vm_compute. Qed.

Lemma FromBytes_ok bytes d : d <> 0 -> exists r, FromBytesAndTimeDelta bytes d = Ok r.
Proof. intros Hd. unfold FromBytesAndTimeDelta. destruct (_ =? 0); [eauto|]. destruct (_ <? _); [eauto|]. destruct (Z.eqb_spec d 0); [done|eauto]. Qed.
Lemma FromBytes_bound bytes d : 0 <= bytes < 2 ^ 33 -> d <> 0 -> exists r, FromBytesAndTimeDelta bytes d = Ok r /\ bandwidth_ok r.
Proof.
  intros Hb Hd. unfold FromBytesAndTimeDelta, bandwidth_ok. destruct (Z.eqb_spec bytes 0); [by exists 0|].
  change kNumMicrosPerSecond with 1000000. rewrite (u64_small (8 * bytes)), (u64_small (8 * bytes * 1000000)), i64_small by lia.
  set (b := 8 * bytes * 1000000). assert (Hbb : 0 < b < 2 ^ 58) by lia. clearbody b.
  destruct (_ <? _); [by exists 1|]. destruct (Z.eqb_spec d 0); [done|]. eexists. split; [done|].
  assert (Hq : - b <= Z.quot b d <= b).
  { destruct (Z.lt_trichotomy d 0) as [Hn|[?|Hp]]; [|done|].
    - replace d with (- - d) by lia. rewrite Z.quot_opp_r, Z.quot_div_nonneg by lia.
      assert (0 <= b / - d <= b) by (split; [apply Z.div_pos; lia|apply Z.div_le_upper_bound; nia]). lia.
    - rewrite Z.quot_div_nonneg by lia. assert (0 <= b / d <= b) by (split; [apply Z.div_pos; lia|apply Z.div_le_upper_bound; nia]). lia. }
  rewrite i64_small by lia. unfold QuicBandwidth_mk. zcases; lia.
Qed.

(** * The bandwidth filter *)

Definition filter_in : WindowedFilter -> Prop := filter_all bandwidth_ok.
Lemma filter_in_update f b t : filter_in f -> bandwidth_ok b -> filter_in (Update MaxFilter f b t).
Proof. apply filter_all_update. Qed.
Lemma filter_best_zero f t : filter_in f -> GetBest f = 0 -> GetBest (Update MaxFilter f 0 t) = 0.
Proof. intros (F0 & _) E. unfold Update, GetBest in *. rewrite E, F0. reflexivity. Qed.

Section Safety.
Context {R : Type} `{QuicRandom R} {N : Type} `{SessionNotifier N}.
Implicit Types s : BbrSender R.
Implicit Types rtt_stats : RttStats.
Implicit Types m : QuicUnackedPacketMap N.

(** * What is kept between the steps of an event *)

Definition constants_ok s : Prop :=
  gain_ok (high_gain_ s) /\ gain_ok (high_cwnd_gain_ s) /\ gain_ok (drain_gain_ s) /\ gain_ok (congestion_window_gain_constant_ s) /\
  0 <= initial_congestion_window_ s < 2 ^ 33.
(** Until a sample that is not limited by the application has been seen there is either no
    estimate, or the last sample was limited. *)
Definition estimates_ok s : Prop :=
  filter_in (max_bandwidth_ s) /\ bandwidth_ok (bandwidth_at_last_round_ s) /\
  (has_non_app_limited_sample_ s = false -> last_sample_is_app_limited_ s = false ->
     GetBest (max_bandwidth_ s) = 0 /\ bandwidth_at_last_round_ s = 0).
Definition recovery_ok s : Prop := recovery_state_ s <> NOT_IN_RECOVERY -> PN_IsInitialized (end_recovery_at_ s) = true.
(** Slow start is timed while the mode is STARTUP. *)
Definition clock_ok s : Prop := IsRunning (slowstart_duration (stats_ s)) = bool_decide (mode_ s = STARTUP).
Definition base_ok s : Prop := constants_ok s /\ estimates_ok s /\ recovery_ok s /\ clock_ok s.

Lemma estimate_ok s : estimates_ok s -> bandwidth_ok (BandwidthEstimate s).
Proof. intros ((_ & F & _) & _). exact F. Qed.

Lemma target_window_ok rtt_stats s gain : constants_ok s -> gain_ok gain -> exists w, GetTargetCongestionWindow rtt_stats s gain = Ok w.
Proof.
  intros (_ & _ & _ & _ & Hi) Hg. unfold GetTargetCongestionWindow.
  pose proof (ToBytesPerPeriod_bound (BandwidthEstimate s) (GetMinRtt rtt_stats s)).
  destruct (gain_times_ok gain (ToBytesPerPeriod (BandwidthEstimate s) (GetMinRtt rtt_stats s)) Hg ltac:(lia)) as (w & ->). cbn [rbind].
  destruct (w =? 0); [|cbn; eauto]. destruct (gain_times_ok gain (initial_congestion_window_ s) Hg ltac:(lia)) as (w' & ->). cbn. eauto.
Qed.

(** The gains that belong to a mode are in range. *)
Lemma pacing_gain_ok s : constants_ok s -> gains_mid s -> gain_ok (pacing_gain_ s).
Proof.
  intros (C1 & C2 & C3 & C4 & _) Hg. unfold gains_mid in Hg. destruct (mode_ s).
  - by destruct Hg as [-> _].
  - by destruct Hg as [-> _].
  - destruct Hg as (_ & _ & _ & Hin & _). by apply kPacingGain_ok.
  - rewrite Hg. by vm_compute.
Qed.
Lemma window_gain_ok s : constants_ok s -> gains_mid s -> mode_ s <> PROBE_RTT -> gain_ok (congestion_window_gain_ s).
Proof.
  intros (C1 & C2 & C3 & C4 & _) Hg Hm. unfold gains_mid in Hg. destruct (mode_ s); [| | |done].
  - by destruct Hg as [_ ->].
  - by destruct Hg as (_ & -> & _).
  - by destruct Hg as (-> & _).
Qed.

(** * The steps of an event *)

Lemma round_counter_ok s p : base_ok s -> PN_IsInitialized p = true ->
  exists s' rs, UpdateRoundTripCounter s p = Ok (s', rs) /\ base_ok s' /\ sampler_ s' = sampler_ s /\ last_sent_packet_ s' = last_sent_packet_ s.
Proof.
  intros Hb Hp. unfold UpdateRoundTripCounter. destruct (PN_IsInitialized (current_round_trip_end_ s)) eqn:Ec; cbn [negb].
  - rewrite PN_gt_init by done. cbn [rbind]. destruct (_ <? p); [|by eexists _, _].
    eexists _, _. split; [done|]. destruct (InSlowStart _); (split; [exact Hb|done]).
  - cbn [rbind]. eexists _, _. split; [done|]. destruct (InSlowStart _); (split; [exact Hb|done]).
Qed.

Lemma maybe_exit_recovery_ok s p b : base_ok s -> PN_IsInitialized p = true -> (b = false -> PN_IsInitialized (end_recovery_at_ s) = true) ->
  exists s', maybe_exit_recovery s p b = Ok s' /\ base_ok s' /\ sampler_ s' = sampler_ s /\ last_sent_packet_ s' = last_sent_packet_ s.
Proof.
  intros Hb Hp He. unfold maybe_exit_recovery. destruct b; [by eexists|]. rewrite PN_gt_init by auto. cbn [rbind].
  eexists. split; [done|]. destruct (_ <? p); [|done]. split; [|done]. destruct Hb as (B1 & B2 & B3 & B4). unfold base_ok. split_and!; try done. intros Hx. by destruct Hx.
Qed.

Lemma recovery_state_ok s p (b rs : bool) : base_ok s -> PN_IsInitialized p = true -> (b = true -> PN_IsInitialized (last_sent_packet_ s) = true) ->
  exists s', UpdateRecoveryState s p b rs = Ok s' /\ base_ok s' /\ sampler_ s' = sampler_ s /\ last_sent_packet_ s' = last_sent_packet_ s.
Proof.
  intros Hb Hp Hl. unfold UpdateRecoveryState. destruct (is_at_full_bandwidth_ s); cbn [negb]; [|by eexists].
  set (s1 := if b then s <| end_recovery_at_ := last_sent_packet_ s |> else s).
  assert (H1 : base_ok s1 /\ sampler_ s1 = sampler_ s /\ last_sent_packet_ s1 = last_sent_packet_ s /\
    (b = true -> PN_IsInitialized (end_recovery_at_ s1) = true)).
  { destruct Hb as (B1 & B2 & B3 & B4). destruct b; [|by split_and!]. split; [|split; [done|]; split; [done|]; exact Hl].
    unfold base_ok. split_and!; try done. intros _. by apply Hl. }
  clearbody s1. destruct H1 as (Hb1 & E1 & E2 & He). rewrite <- E1, <- E2 in *. clear E1 E2. pose proof Hb1 as (B1 & B2 & B3 & B4).
  assert (Hr : recovery_state_ s1 <> NOT_IN_RECOVERY -> forall s2, base_ok s2 -> end_recovery_at_ s2 = end_recovery_at_ s1 -> sampler_ s2 = sampler_ s1 ->
    last_sent_packet_ s2 = last_sent_packet_ s1 -> exists s', maybe_exit_recovery s2 p b = Ok s' /\ base_ok s' /\ sampler_ s' = sampler_ s1 /\ last_sent_packet_ s' = last_sent_packet_ s1).
  { intros Hn s2 Hb2 Ee Es El. rewrite <- Es, <- El. apply maybe_exit_recovery_ok; [done..|]. intros _. rewrite Ee. by apply B3. }
  destruct (recovery_state_ s1) eqn:Es.
  - eexists. split; [done|]. destruct b; [|done]. split; [|done]. unfold base_ok. split_and!; try done. intros _. by apply He.
  - destruct rs; apply Hr; try done. unfold base_ok. split_and!; try done. intros _. apply B3. by rewrite Es.
  - by apply Hr.
Qed.

Lemma event_round_ok s a l : base_ok s -> Forall (fun p => PN_IsInitialized (acked_packet_number p) = true) a ->
  (l <> [] -> PN_IsInitialized (last_sent_packet_ s) = true) ->
  exists s' rs, event_round s a l = Ok (s', rs) /\ base_ok s' /\ sampler_ s' = sampler_ s /\ last_sent_packet_ s' = last_sent_packet_ s.
Proof.
  intros Hb Ha Hl. unfold event_round. destruct (last a) as [p|] eqn:El; [|by eexists _, _].
  apply last_Some in El as (a' & ->). apply Forall_app in Ha as [_ Hp]. apply Forall_inv in Hp.
  destruct (round_counter_ok s _ Hb Hp) as (s1 & rs & -> & Hb1 & E1 & E1'). cbn [rbind fst snd].
  destruct (recovery_state_ok s1 (acked_packet_number p) (bool_decide (l <> [])) rs Hb1 Hp) as (s2 & -> & Hb2 & E2 & E2').
  { intros Hx%bool_decide_eq_true. rewrite E1'. by apply Hl. }
  cbn [rbind]. eexists _, _. split; [done|]. split; [done|]. split; congruence.
Qed.

Lemma take_sample_ok s n e : base_ok s -> bandwidth_ok (sample_max_bandwidth e) ->
  (is_valid (last_packet_send_state e) = false -> sample_max_bandwidth e = 0) ->
  let s' := take_bandwidth_sample s n e in base_ok s' /\ sampler_ s' = sampler_ s /\ last_sent_packet_ s' = last_sent_packet_ s.
Proof.
  intros (B1 & (F & L & Q) & B3 & B4) Hb Hv. cbn zeta. unfold take_bandwidth_sample.
  set (s1 := if is_valid (last_packet_send_state e) then _ else s).
  assert (H1 : base_ok s1 /\ sampler_ s1 = sampler_ s /\ last_sent_packet_ s1 = last_sent_packet_ s /\
    (has_non_app_limited_sample_ s1 = false -> last_sample_is_app_limited_ s1 = false -> sample_max_bandwidth e = 0)).
  { unfold s1. destruct (is_valid (last_packet_send_state e)) eqn:Ev; [|split; [exact (conj B1 (conj (conj F (conj L Q)) (conj B3 B4)))|]; split_and!; auto]. cbn.
    destruct (is_app_limited (last_packet_send_state e)); cbn; rewrite ?orb_false_r, ?orb_true_r; unfold base_ok, estimates_ok; cbn; by split_and!. }
  clearbody s1. destruct H1 as ((C1 & (F1 & L1 & Q1) & C3 & C4) & E1 & E2 & Hz).
  destruct (_ && _); [|by split_and!]. split; [|done]. unfold base_ok. split_and!; try done.
  unfold estimates_ok. cbn. split_and!; try done; [by apply filter_in_update|apply L1..|].
  intros Hh Hl. destruct (Q1 Hh Hl) as [G Z0]. rewrite (Hz Hh Hl). split; [by apply filter_best_zero|done].
Qed.

Lemma min_rtt_ok s t d : base_ok s -> d <> 0 ->
  exists s' ex, MaybeUpdateMinRtt s t d = Ok (s', ex) /\ base_ok s' /\ sampler_ s' = sampler_ s /\ last_sent_packet_ s' = last_sent_packet_ s.
Proof.
  intros Hb Hd. unfold MaybeUpdateMinRtt. destruct (_ || Delta_IsZero (min_rtt_ s)) eqn:Eb; cbn.
  - unfold Delta_IsZero at 1. cbn. destruct (Z.eqb_spec d 0); [done|]. cbn. by eexists _, _.
  - apply orb_false_elim in Eb as [_ Eb]. rewrite Eb. cbn. by eexists _, _.
Qed.

Lemma count_losses_ok s l n : base_ok s ->
  base_ok (count_losses s l n) /\ sampler_ (count_losses s l n) = sampler_ s /\ last_sent_packet_ (count_losses s l n) = last_sent_packet_ s.
Proof. intros Hb. unfold count_losses. destruct (decide _), l; (split; [exact Hb|done]). Qed.

(** ** Mode decisions *)

(** The sampler may be told that the application limits the connection, or its tracker may be reset. *)
Definition sampler_follows (a b : BandwidthSampler) : Prop :=
  (forall now, sampler_core a now -> sampler_core b now) /\ (forall g, sampler_ghost a g -> sampler_ghost b g) /\
  total_bytes_sent_ b = total_bytes_sent_ a.
#[local] Instance sampler_follows_preorder : PreOrder sampler_follows.
Proof. split; [done|]. unfold sampler_follows. intros ??? (? & ? & ?) (? & ? & ?). split_and!; [auto..|congruence]. Qed.
Lemma follows_app_limited a : sampler_follows a (OnAppLimited a).
Proof. split; [intros now Hc; by apply (sampler_core_frame a); [|done|apply Hc|]|]. split; [by intros g []|done]. Qed.
Lemma follows_reset a h t : sampler_follows a (ResetMaxAckHeightTracker a h t).
Proof. split; [intros now Hc; by apply (sampler_core_frame a); [|done|apply Hc|]|]. split; [by intros g []|done]. Qed.

(** A step of the mode decisions that returns. *)
Definition step_ok s (r : result (BbrSender R)) : Prop :=
  exists s', r = Ok s' /\ base_ok s' /\ sampler_follows (sampler_ s) (sampler_ s') /\ last_sent_packet_ s' = last_sent_packet_ s.
Lemma step_ok_refl s : base_ok s -> step_ok s (Ok s).
Proof. intros Hb. by exists s. Qed.
Lemma step_ok_bind s (r : result (BbrSender R)) k : step_ok s r -> (forall s', r = Ok s' -> base_ok s' -> step_ok s' (k s')) -> step_ok s (rbind r k).
Proof.
  intros (s1 & E1 & B1 & F1 & L1) Hk. destruct (Hk s1 E1 B1) as (s2 & E2 & B2 & F2 & L2). exists s2. rewrite E1. split; [done|].
  split; [done|]. split; [by etrans|congruence].
Qed.

Lemma gain_cycle_ok rtt_stats m s t n b : base_ok s -> gains_mid s -> mode_ s = PROBE_BW -> step_ok s (UpdateGainCyclePhase rtt_stats m s t n b).
Proof.
  intros Hb Hg Hm. pose proof Hb as (B1 & _). pose proof (pacing_gain_ok s B1 Hg) as Hp. unfold UpdateGainCyclePhase.
  assert (H1 : gain_ok (f32_of_Z 1)) by (by vm_compute).
  assert (Ha : exists adv, should_advance rtt_stats m s t n b = Ok adv).
  { unfold should_advance. destruct (target_window_ok rtt_stats s (pacing_gain_ s) B1 Hp) as (w & ->).
    destruct (target_window_ok rtt_stats s (f32_of_Z 1) B1 H1) as (w1 & ->). cbn [rbind].
    destruct (_ && _); cbn [rbind]; destruct (gain_lt1 _); eauto. }
  destruct Ha as (adv & ->). cbn [rbind]. destruct adv; [|by apply step_ok_refl].
  unfold gains_mid in Hg. rewrite Hm in Hg. destruct Hg as (_ & _ & Ho & _).
  set (o := (cycle_current_offset_ s + 1) mod kGainCycleLength).
  assert (Eg : exists g, pacing_gain_at o = Ok g).
  { unfold pacing_gain_at. destruct (lookup_lt_is_Some_2 kPacingGain (Z.to_nat o)) as (g & ->); [|eauto].
    pose proof (Z.mod_pos_bound (cycle_current_offset_ s + 1) kGainCycleLength ltac:(done)). change (length kPacingGain) with 8%nat.
    unfold o. change kGainCycleLength with 8 in *. lia. }
  destruct Eg as (g & ->). cbn [rbind].
  set (s1 := if o =? 0 then _ else _).
  assert (E1 : exists stay, (if drain_to_target_ (s1 <| last_cycle_start_ := t |>) && gain_lt1 (pacing_gain_ (s1 <| last_cycle_start_ := t |>)) && SFeqb g (f32_of_Z 1) then
      let* target := GetTargetCongestionWindow rtt_stats (s1 <| last_cycle_start_ := t |>) (f32_of_Z 1) in Ok (target <? bytes_in_flight_ m) else Ok false) = Ok stay).
  { destruct (_ && _); [|eauto]. destruct (target_window_ok rtt_stats (s1 <| last_cycle_start_ := t |>) (f32_of_Z 1)) as (w & ->); [|done|cbn; eauto].
    unfold s1. by destruct (o =? 0). }
  destruct E1 as (stay & ->). cbn [rbind]. eexists. split; [done|]. unfold s1. destruct stay, (o =? 0); (split; [exact Hb|done]).
Qed.

Lemma check_full_ok s e : base_ok s -> step_ok s (CheckIfFullBandwidthReached s e).
Proof.
  intros Hb. pose proof Hb as (B1 & (F & L & Q) & B3 & B4). unfold CheckIfFullBandwidthReached.
  destruct (last_sample_is_app_limited_ s) eqn:El; [by apply step_ok_refl|].
  destruct (bandwidth_mul_ok _ _ L kStartupGrowthTarget_ok) as (v & Ev). rewrite Ev. cbn [rbind].
  destruct (Z.leb_spec v (BandwidthEstimate s)) as [Hv|Hv].
  - eexists. split; [done|]. destruct (expire_ack_aggregation_in_startup_ _); (split; [|split; [try apply follows_reset; done|done]]);
      unfold base_ok, estimates_ok; cbn; split_and!; try done; try apply F; try (by apply estimate_ok); intros Hh _; by split; apply Q.
  - assert (Hh : has_non_app_limited_sample_ s = true).
    { destruct (has_non_app_limited_sample_ s) eqn:Eh; [done|]. destruct (Q eq_refl eq_refl) as [Q1 Q2]. rewrite Q2, bandwidth_mul_zero in Ev.
      apply Ok_inj in Ev as <-. unfold BandwidthEstimate in Hv. lia. }
    set (s1 := s <| rounds_without_bandwidth_gain_ := _ |>).
    assert (Hx : exists s2 x, (if num_startup_rtts_ s1 <=? rounds_without_bandwidth_gain_ s1 then (s1, true) else ShouldExitStartupDueToLoss s1 e) = (s2, x) /\
      base_ok s2 /\ sampler_ s2 = sampler_ s /\ last_sent_packet_ s2 = last_sent_packet_ s /\ has_non_app_limited_sample_ s2 = true).
    { destruct (_ <=? _); [by eexists _, _|]. unfold ShouldExitStartupDueToLoss. destruct (_ || _); [by eexists _, _|].
      destruct (_ && _); [|by eexists _, _]. destruct (SFltb _ _); by eexists _, _. }
    destruct Hx as (s2 & x & -> & Hb2 & E2 & L2 & Hh2). destruct x.
    + rewrite Hh2. cbn [CHECK rbind]. eexists. split; [done|]. split; [exact Hb2|]. cbn. by rewrite E2.
    + eexists. split; [done|]. by rewrite E2.
Qed.

Lemma exit_startup_ok s t : base_ok s -> mode_ s = STARTUP ->
  exists s', OnExitStartup s t = Ok s' /\ constants_ok s' /\ estimates_ok s' /\ recovery_ok s' /\
    IsRunning (slowstart_duration (stats_ s')) = false /\ sampler_ s' = sampler_ s /\ last_sent_packet_ s' = last_sent_packet_ s.
Proof.
  intros (B1 & B2 & B3 & B4) Hm. unfold OnExitStartup, Accumulator_Stop. unfold clock_ok in B4. rewrite Hm in *. rewrite B4. cbn.
  eexists. by split_and!.
Qed.
Lemma enter_startup_ok s t : constants_ok s -> estimates_ok s -> recovery_ok s -> IsRunning (slowstart_duration (stats_ s)) = false ->
  t < 2 ^ 61 -> step_ok s (EnterStartupMode s t).
Proof.
  intros B1 B2 B3 Hr Ht. unfold EnterStartupMode, Accumulator_Start. cbn -[IsRunning]. rewrite Hr. cbn -[IsRunning].
  assert (E : forall x, IsRunning (mkAccumulator x t) = true).
  { intros x. unfold IsRunning. cbn. destruct (Z.eqb_spec t NotRunningSentinel) as [E|]; [|done].
    change NotRunningSentinel with 9223372036854775807 in E. lia. }
  rewrite E. cbn -[IsRunning]. eexists. split; [done|]. split; [|done]. unfold base_ok. split_and!; try done. apply E.
Qed.
Lemma enter_probe_bw_ok s t : constants_ok s -> estimates_ok s -> recovery_ok s -> IsRunning (slowstart_duration (stats_ s)) = false ->
  step_ok s (EnterProbeBandwidthMode s t).
Proof.
  intros B1 B2 B3 Hr. unfold EnterProbeBandwidthMode. destruct (RandUint64 (random_ s)) as [x r].
  change (kGainCycleLength - 1) with 7. pose proof (Z.mod_pos_bound x 7 ltac:(done)).
  assert (Eg : forall o, 0 <= o < 8 -> exists g, pacing_gain_at o = Ok g).
  { intros o Ho. unfold pacing_gain_at. destruct (lookup_lt_is_Some_2 kPacingGain (Z.to_nat o)) as (g & ->); [|eauto].
    change (length kPacingGain) with 8%nat. lia. }
  destruct (Eg (if 1 <=? x mod 7 then x mod 7 + 1 else x mod 7)) as (g & ->); [zcases; lia|]. cbn [rbind].
  eexists. split; [done|]. split; [|done]. unfold base_ok. by split_and!.
Qed.

Lemma not_startup_clock s : clock_ok s -> mode_ s <> STARTUP -> IsRunning (slowstart_duration (stats_ s)) = false.
Proof. unfold clock_ok. intros -> Hm. by apply bool_decide_eq_false. Qed.

Lemma exit_startup_or_drain_ok rtt_stats m s t : base_ok s -> step_ok s (MaybeExitStartupOrDrain rtt_stats m s t).
Proof.
  intros Hb. unfold MaybeExitStartupOrDrain. apply step_ok_bind.
  - destruct (decide (mode_ s = STARTUP)) as [Hm|Hm]; [|by apply step_ok_refl]. destruct (is_at_full_bandwidth_ s); [|by apply step_ok_refl].
    destruct (exit_startup_ok s t Hb Hm) as (s1 & -> & C1 & C2 & C3 & C4 & E1 & E2). cbn [rbind]. eexists. split; [done|].
    split; [|cbn; by rewrite E1]. unfold base_ok. by split_and!.
  - intros s1 _ Hb1. destruct (decide (mode_ s1 = DRAIN)) as [Hd|Hd]; [|by apply step_ok_refl].
    pose proof Hb1 as (B1 & B2 & B3 & B4). destruct (target_window_ok rtt_stats s1 (f32_of_Z 1) B1) as (w & ->); [by vm_compute|]. cbn [rbind].
    destruct (_ <=? w); [|by apply step_ok_refl]. apply enter_probe_bw_ok; try done. apply not_startup_clock; [done|]. by rewrite Hd.
Qed.

Lemma in_probe_rtt_ok m s t rs : base_ok s -> mode_ s = PROBE_RTT -> t < 2 ^ 61 -> step_ok s (in_probe_rtt m s t rs).
Proof.
  intros Hb Hm Ht. unfold in_probe_rtt. set (s1 := s <| sampler_ := OnAppLimited (sampler_ s) |>).
  assert (H1 : base_ok s1 /\ sampler_follows (sampler_ s) (sampler_ s1) /\ last_sent_packet_ s1 = last_sent_packet_ s /\ mode_ s1 = PROBE_RTT).
  { split; [exact Hb|]. split; [apply follows_app_limited|done]. }
  clearbody s1. destruct H1 as (Hb1 & F1 & L1 & Hm1).
  destruct (exit_probe_rtt_at_ s1 =? QuicTime_Zero).
  { eexists. split; [done|]. destruct (_ <? _); by split_and!. }
  set (s2 := if rs then s1 <| probe_rtt_round_passed_ := true |> else s1).
  assert (H2 : base_ok s2 /\ sampler_ s2 = sampler_ s1 /\ last_sent_packet_ s2 = last_sent_packet_ s1 /\ mode_ s2 = PROBE_RTT) by (unfold s2; by destruct rs).
  clearbody s2. destruct H2 as (Hb2 & F2 & L2 & Hm2). rewrite <- F2, <- L2 in *.
  assert (Hk : forall r, step_ok s2 r -> step_ok s r).
  { intros r (s3 & E & B & F & L). exists s3. split_and!; try done; [|congruence]. by etrans. }
  apply Hk. destruct (_ && _); [|by apply step_ok_refl].
  set (s3 := s2 <| min_rtt_timestamp_ := t |>). pose proof Hb2 as (B1 & B2 & B3 & B4).
  assert (Hr : IsRunning (slowstart_duration (stats_ s3)) = false) by (apply (not_startup_clock s2); [exact B4|by rewrite Hm2]).
  destruct (negb _); [apply (enter_startup_ok s3)|apply (enter_probe_bw_ok s3)]; done.
Qed.

Lemma probe_rtt_ok m s t rs ex : base_ok s -> t < 2 ^ 61 -> step_ok s (MaybeEnterOrExitProbeRtt m s t rs ex).
Proof.
  intros Hb Ht. unfold MaybeEnterOrExitProbeRtt. apply step_ok_bind; [|intros s1 _ Hb1; apply step_ok_bind].
  - unfold maybe_enter_probe_rtt. destruct (_ && _); [|by apply step_ok_refl]. unfold InSlowStart. case_bool_decide as Hm.
    + destruct (exit_startup_ok s t Hb Hm) as (s1 & -> & C1 & C2 & C3 & C4 & E1 & E2). cbn [rbind]. eexists. split; [done|].
      split; [|cbn; by rewrite E1]. unfold base_ok. by split_and!.
    + cbn [rbind]. eexists. split; [done|]. split; [|done]. destruct Hb as (B1 & B2 & B3 & B4). unfold base_ok. split_and!; try done.
      exact (not_startup_clock s B4 Hm).
  - destruct (decide _); [by apply in_probe_rtt_ok|by apply step_ok_refl].
  - intros s2 _ Hb2. by eexists.
Qed.

Lemma update_modes_ok rtt_stats m s t n b rs ex e : base_ok s -> gains_mid s -> t < 2 ^ 61 -> step_ok s (update_modes rtt_stats m s t n b rs ex e).
Proof.
  intros Hb Hg Ht. unfold update_modes. apply step_ok_bind; [|intros s1 _ Hb1; apply step_ok_bind; [|intros s2 _ Hb2; apply step_ok_bind]].
  - destruct (decide _); [by apply gain_cycle_ok|by apply step_ok_refl].
  - destruct (_ && _); [by apply check_full_ok|by apply step_ok_refl].
  - by apply exit_startup_or_drain_ok.
  - intros s3 _ Hb3. by apply probe_rtt_ok.
Qed.

(** ** Rate and windows *)

Lemma GetMinRtt_nonzero rtt_stats s : 0 < initial_rtt_ rtt_stats -> GetMinRtt rtt_stats s <> 0.
Proof.
  intros Hi. unfold GetMinRtt, MinOrInitialRtt, Delta_IsZero. destruct (Z.eqb_spec (min_rtt_ s) 0); cbn; [|done].
  destruct (Z.eqb_spec (RttStats.min_rtt_ rtt_stats) 0); lia.
Qed.
Lemma PacingRate_ok rtt_stats s : base_ok s -> 0 < initial_rtt_ rtt_stats -> exists b, PacingRate rtt_stats s = Ok b.
Proof.
  intros ((C1 & _ & _ & _ & Hi) & _) Hr. unfold PacingRate. destruct (_ =? 0); [|eauto].
  destruct (FromBytes_bound (initial_congestion_window_ s) (GetMinRtt rtt_stats s) Hi) as (b & -> & Hb); [by apply GetMinRtt_nonzero|].
  by apply bandwidth_mul_ok.
Qed.

Lemma pacing_rate_ok rtt_stats s n : base_ok s -> gains_mid s -> 0 < initial_rtt_ rtt_stats -> step_ok s (CalculatePacingRate rtt_stats s n).
Proof.
  intros Hb Hg Hi. pose proof Hb as (B1 & B2 & _). unfold CalculatePacingRate. destruct (_ =? 0); [by apply step_ok_refl|].
  destruct (bandwidth_mul_ok _ _ (estimate_ok s B2) (pacing_gain_ok s B1 Hg)) as (v & ->). cbn [rbind].
  destruct (is_at_full_bandwidth_ s); [by eexists|].
  destruct ((pacing_rate_ s =? 0) && negb (Delta_IsZero (RttStats.min_rtt_ rtt_stats))) eqn:Er.
  { apply andb_prop in Er as [_ Er]. unfold Delta_IsZero in Er. destruct (Z.eqb_spec (RttStats.min_rtt_ rtt_stats) 0) as [|Hn]; [done|].
    destruct (FromBytes_ok (initial_congestion_window_ s) _ Hn) as (r & ->). by eexists. }
  assert (Hm : forall s, GetMinRtt rtt_stats s <> 0) by (intros; by apply GetMinRtt_nonzero).
  apply step_ok_bind; [|intros s1 _ Hb1; eexists; by split]. destruct (detect_overshooting_ s); [|by apply step_ok_refl].
  unfold check_overshooting. cbv zeta. match goal with |- step_ok _ (if ?b then _ else _) => destruct b end; [|by eexists].
  match goal with |- context [FromBytesAndTimeDelta ?x ?y] => destruct (FromBytes_ok x y (Hm _)) as (r & ->) end. cbn [rbind]. by eexists.
Qed.

Lemma recalculate_ok rtt_stats m s a l e : base_ok s -> gains_ok s -> 0 < initial_rtt_ rtt_stats -> step_ok s (recalculate rtt_stats m s a l e).
Proof.
  intros Hb [Hg _] Hi. unfold recalculate. apply step_ok_bind; [by apply pacing_rate_ok|]. intros s1 [Hm _]%CalculatePacingRate_modes Hb1.
  apply step_ok_bind; [|intros s2 _ Hb2; eexists; split; [done|]; unfold CalculateRecoveryWindow; destruct (decide _); [by split_and!|]; destruct (_ =? 0); by split_and!].
  unfold CalculateCongestionWindow. destruct (decide _) as [Hp|Hp]; [by apply step_ok_refl|]. pose proof Hb1 as (B1 & _).
  destruct (target_window_ok rtt_stats s1 (congestion_window_gain_ s1) B1) as (w & ->); [|by eexists].
  apply window_gain_ok; [done| |done]. by eapply gains_mid_same.
Qed.

(** * Connections *)

(** [g] is the outstanding packets with their sizes, [now] the time of the last step. *)
Definition safe s (g : gmap Z Z) (now : QuicTime) : Prop :=
  base_ok s /\ gains_ok s /\ sampler_core (sampler_ s) now /\ sampler_ghost (sampler_ s) g /\
  total_bytes_sent_ (sampler_ s) < 2 ^ 35 /\ (0 < total_bytes_sent_ (sampler_ s) -> PN_IsInitialized (last_sent_packet_ s) = true).

(** What the connection keeps to. *)
Definition valid_bbr_event s (g : gmap Z Z) (now : QuicTime) (e : bbr_event) : Prop :=
  match e with
  | BEvent rtt_stats m n t a l =>
      valid_sampler_op (sampler_ s) g now (SEvent t a l 0 0 0) /\ 0 < initial_rtt_ rtt_stats /\ 0 <= GetLeastUnacked (N:=N) m < 2 ^ 47
  | BSent t n pn bytes d => valid_sampler_op (sampler_ s) g now (SSent t pn bytes n d) /\ total_bytes_sent_ (sampler_ s) + bytes < 2 ^ 35
  | BNeutered pn => valid_sampler_op (sampler_ s) g now (SNeutered pn)
  | BAppLimited _ | BTimeout _ => True
  | BConfig _ => False
  end.
Definition bbr_outstanding (g : gmap Z Z) (e : @bbr_event N) : gmap Z Z :=
  match e with
  | BEvent _ m _ t a l => outstanding (outstanding g (SEvent t a l 0 0 0)) (SObsolete (GetLeastUnacked m))
  | BSent t n pn bytes d => outstanding g (SSent t pn bytes n d)
  | BNeutered pn => outstanding g (SNeutered pn)
  | _ => g
  end.
Definition bbr_clock (now : QuicTime) (e : @bbr_event N) : QuicTime :=
  match e with BEvent _ _ _ t _ _ | BSent t _ _ _ _ => t | _ => now end.

Lemma lost_means_sent (s : BandwidthSampler) g now l : sampler_core s now -> sampler_ghost s g ->
  Forall (fun p => 0 <= lost_packet_number p < 2 ^ 47 /\ g !! lost_packet_number p = Some (bytes_lost p)) l -> l <> [] -> 0 < total_bytes_sent_ s.
Proof.
  intros Hc Hg Hl Hn. destruct l as [|p l]; [done|]. apply Forall_inv in Hl as [_ Hp].
  destruct (sg_tracked s g Hg _ _ Hp) as (e & He & _). pose proof (sc_bytes s now Hc).
  destruct (Z.eq_dec (total_bytes_sent_ s) 0) as [E0|]; [|lia]. rewrite (sc_quiet s now Hc E0) in He. by rewrite lookup_empty in He.
Qed.

(** A congestion event returns. *)
Lemma event_safe rtt_stats m s g now n t a l : safe s g now -> valid_bbr_event s g now (BEvent rtt_stats m n t a l) ->
  exists s', OnCongestionEvent rtt_stats m s n t a l = Ok s' /\ safe s' (bbr_outstanding g (BEvent rtt_stats m n t a l)) t.
Proof.
  intros (Hb & Hg & Hc & Hgh & Hs & Hl) ((Ht & Hnd & Ha & Hlo) & Hi & Hlu).
  assert (Ha' : Forall (fun p => PN_IsInitialized (acked_packet_number p) = true) a).
  { apply Forall_fmap in Ha. eapply Forall_impl; [exact Ha|]. cbn. intros p [Hp _]. apply PN_init_small. lia. }
  destruct (event_round_ok s a l Hb Ha') as (s1 & rs & E1 & Hb1 & Es1 & El1).
  { intros Hn. apply Hl. by eapply (lost_means_sent _ g now). }
  assert (Hex : exists s', OnCongestionEvent rtt_stats m s n t a l = Ok s' /\ base_ok s' /\ last_sent_packet_ s' = last_sent_packet_ s /\
    sampler_core (sampler_ s') t /\ sampler_ghost (sampler_ s') (bbr_outstanding g (BEvent rtt_stats m n t a l)) /\
    total_bytes_sent_ (sampler_ s') = total_bytes_sent_ (sampler_ s)).
  2:{ destruct Hex as (s' & E & Hb' & El & Hc' & Hg' & Es). exists s'. split; [done|]. rewrite <- Es, <- El in *. unfold safe.
      split_and!; try done; by apply event_gains in E as [[? ?] _]. }
  unfold OnCongestionEvent. pose proof E1 as (M1 & _)%event_round_modes. cbn [fst] in M1. rewrite E1. cbn [rbind]. rewrite Es1.
  destruct (event_spec (sampler_ s) g now t a l (GetBest (max_bandwidth_ s1)) QuicBandwidth_Infinite (round_trip_count_ s1) Hc Hgh Ht Hnd Ha Hlo)
    as (smp & ev & -> & Hc2 & Hg2 & Et2 & (F1 & F2 & F3 & _) & _). cbn [rbind].
  assert (Hb1' : base_ok (s1 <| sampler_ := smp |>)) by exact Hb1.
  destruct (take_sample_ok (s1 <| sampler_ := smp |>) (total_bytes_acked_ (sampler_ s)) ev Hb1') as (Hb2 & Es2 & El2); [|done|].
  { unfold bandwidth_ok. lia. }
  destruct (take_sample_modes (s1 <| sampler_ := smp |>) (total_bytes_acked_ (sampler_ s)) ev) as (M2 & _).
  set (s2 := take_bandwidth_sample _ _ _) in *. clearbody s2. cbn in Es2, El2.
  assert (H3 : exists s3 ex, (if negb (Delta_IsInfinite (sample_rtt ev)) then MaybeUpdateMinRtt s2 t (sample_rtt ev) else Ok (s2, false)) = Ok (s3, ex) /\
    base_ok s3 /\ sampler_ s3 = smp /\ last_sent_packet_ s3 = last_sent_packet_ s /\ same_modes s2 s3).
  { destruct (negb _); [|exists s2, false; split_and!; try done; congruence].
    destruct (min_rtt_ok s2 t (sample_rtt ev) Hb2 ltac:(lia)) as (s3 & ex & E3 & Hb3 & Es3 & El3). exists s3, ex.
    pose proof (MaybeUpdateMinRtt_modes _ _ _ _ E3) as (M3 & _). split_and!; try done; [congruence|congruence|apply M3..]. }
  destruct H3 as (s3 & ex & -> & Hb3 & Es3 & El3 & M3). cbn [rbind]. rewrite Es3.
  set (lb := total_bytes_lost_ smp ⊖ total_bytes_lost_ (sampler_ s)). destruct (count_losses_ok s3 l lb Hb3) as (Hb4 & Es4 & El4).
  destruct (count_losses_modes s3 l lb) as [M4 _]. set (s4 := count_losses s3 l lb) in *. clearbody s4 lb.
  assert (M : same_modes s s4) by (etrans; [exact M1|]; etrans; [exact M2|]; by etrans).
  assert (Hg4 : gains_ok s4) by (eapply gains_ok_same; [apply M|apply M|done]).
  destruct (update_modes_ok rtt_stats m s4 t n (bool_decide (l <> [])) rs ex (last_packet_send_state ev) Hb4 (proj1 Hg4) ltac:(lia)) as (s5 & E5 & Hb5 & F5 & El5).
  rewrite E5. cbn [rbind]. apply update_modes_spec in E5 as [Hg5 _]; [|done].
  destruct (recalculate_ok rtt_stats m s5 (total_bytes_acked_ (sampler_ s5) ⊖ total_bytes_acked_ (sampler_ s)) lb (extra_acked ev) Hb5 Hg5 Hi) as (s6 & -> & Hb6 & F6 & El6). cbn [rbind].
  assert (F : sampler_follows smp (sampler_ s6)) by (rewrite <- Es3, <- Es4; by etrans). destruct F as (Fc & Fg & Ft).
  destruct (obsolete_spec (sampler_ s6) _ t (GetLeastUnacked m) (Fc t Hc2) (Fg _ Hg2) Hlu) as (smp' & -> & Hc7 & Hg7 & Et7). cbn [rbind].
  eexists. split; [done|]. destruct rs; (split; [exact Hb6|]); (split; [cbn; congruence|]); (split; [done|]); (split; [exact Hg7|]); cbn; congruence.
Qed.

Lemma sent_safe s g now t n pn bytes d : safe s g now -> valid_bbr_event s g now (BSent t n pn bytes d) ->
  exists s', OnPacketSent s t n pn bytes d = Ok s' /\ safe s' (bbr_outstanding g (BSent t n pn bytes d)) t.
Proof.
  intros (Hb & Hg & Hc & Hgh & Hs & Hl) (Hv & Hbytes). pose proof Hv as (Ht & Htp & Hpn & _). unfold OnPacketSent.
  set (s2 := when _ (fun s => s <| exiting_quiescence_ := true |>) _).
  assert (H2 : base_ok s2 /\ sampler_ s2 = sampler_ s /\ last_sent_packet_ s2 = pn /\ gains_ok s2).
  { unfold s2. destruct (InSlowStart s), (_ && _); (split; [exact Hb|]); (split; [done|]); (split; [done|exact Hg]). }
  clearbody s2. destruct H2 as (Hb2 & Es2 & El2 & Hg2). rewrite Es2.
  assert (Hi : PN_IsInitialized pn = true) by (apply PN_init_small; lia).
  destruct (sent_any_spec (sampler_ s) g now t pn bytes n d Hc Hgh Hv) as (smp & -> & Hc' & Hg' & Et). assert (Hs' : total_bytes_sent_ smp < 2 ^ 35) by lia. cbn [rbind]. eexists. split; [done|]. split; [exact Hb2|]. split; [exact Hg2|].
  split; [done|]. split; [done|]. split; [done|]. intros _. cbn. by rewrite El2.
Qed.

Lemma step_safe s g now e : safe s g now -> valid_bbr_event s g now e ->
  exists s', bbr_step s e = Ok s' /\ safe s' (bbr_outstanding g e) (bbr_clock now e).
Proof.
  intros Hs Hv. destruct e as [r m n t a l|t n pn b d|pn|n|b|o]; cbn [bbr_step bbr_clock]; [by apply (event_safe _ _ _ _ now)|by apply (sent_safe _ _ now)|..].
  - destruct Hs as (Hb & Hg & Hc & Hgh & Hs & Hl). destruct Hv as [Hp Hin]. unfold OnPacketNeutered.
    destruct (neutered_spec (sampler_ s) g now pn Hc Hgh Hp Hin) as (smp & -> & ? & ? & Es). cbn [rbind]. eexists. split; [done|].
    unfold safe. cbn [sampler_]. cbn. rewrite Es. done.
  - destruct Hs as (Hb & Hg & Hc & Hgh & Hs & Hl). eexists. split; [done|]. unfold OnApplicationLimited. destruct (_ <=? n); [done|].
    destruct (follows_app_limited (sampler_ s)) as (F1 & F2 & F3). split; [exact Hb|]. split; [exact Hg|]. split; [by apply F1|]. split; [by apply F2|done].
  - by eexists.
  - done.
Qed.

(** ** Creation *)

Definition fresh s : Prop :=
  base_ok s /\ sampler_core (sampler_ s) 0 /\ sampler_ghost (sampler_ s) ∅ /\ total_bytes_sent_ (sampler_ s) = 0.
Lemma when_fresh (b : bool) (f : BbrSender R -> BbrSender R) s : (forall s, fresh s -> fresh (f s)) -> fresh s -> fresh (when b f s).
Proof. intros Hf Hs. destruct b; [by apply Hf|done]. Qed.
Lemma fresh_sampler s a : sampler_follows (sampler_ s) a -> fresh s -> fresh (s <| sampler_ := a |>).
Proof. intros (F1 & F2 & F3) (Hb & Hc & Hg & Hz). split; [exact Hb|]. split; [by apply F1|]. split; [by apply F2|]. cbn. congruence. Qed.
Lemma follows_window a n : sampler_follows a (SetMaxAckHeightTrackerWindowLength a n).
Proof. split; [intros now Hc; by apply (sampler_core_frame a); [|done|apply Hc|]|]. split; [by intros g []|done]. Qed.

Lemma set_high_gain_ok s g : fresh s -> gain_ok g -> SFltb (f32_of_Z 1) g = true -> exists s', set_high_gain s g = Ok s' /\ fresh s'.
Proof.
  intros ((B1 & B2 & B3 & B4) & Hf) Hg Hl. unfold set_high_gain. rewrite Hl. cbn. eexists. split; [done|].
  destruct (decide _); (split; [|exact Hf]); unfold base_ok, constants_ok in *; cbn; split_and!; (done || apply B1 || apply B2).
Qed.
Lemma set_high_cwnd_gain_ok s g : fresh s -> gain_ok g -> SFltb (f32_of_Z 1) g = true -> exists s', set_high_cwnd_gain s g = Ok s' /\ fresh s'.
Proof.
  intros ((B1 & B2 & B3 & B4) & Hf) Hg Hl. unfold set_high_cwnd_gain. rewrite Hl. cbn. eexists. split; [done|].
  destruct (decide _); (split; [|exact Hf]); unfold base_ok, constants_ok in *; cbn; split_and!; (done || apply B1 || apply B2).
Qed.
Lemma set_drain_gain_ok s g : fresh s -> gain_ok g -> SFltb g (f32_of_Z 1) = true -> exists s', set_drain_gain s g = Ok s' /\ fresh s'.
Proof.
  intros ((B1 & B2 & B3 & B4) & Hf) Hg Hl. unfold set_drain_gain. rewrite Hl. cbn. eexists. split; [done|].
  split; [|exact Hf]. unfold base_ok, constants_ok in *; cbn; split_and!; (done || apply B1 || apply B2).
Qed.

Lemma config_ok s o : fresh s -> exists s', SetFromConfig s o = Ok s' /\ fresh s'.
Proof.
  intros Hs. unfold SetFromConfig. set (s1 := when (kBBR5 o) _ _).
  assert (H1 : fresh s1).
  { unfold s1. repeat (apply when_fresh; [intros; first [done|apply fresh_sampler; [apply follows_window|done]]|]). done. }
  clearbody s1. assert (H2 : exists s2, (if kBBQ1 o then let* s := set_high_gain s1 kDerivedHighGain in let* s := set_high_cwnd_gain s kDerivedHighGain in
      set_drain_gain s (f32_div (f32_of_Z 1) kDerivedHighGain) else Ok s1) = Ok s2 /\ fresh s2).
  { destruct (kBBQ1 o); [|by exists s1]. destruct (set_high_gain_ok s1 kDerivedHighGain H1) as (s2 & -> & H2); [by vm_compute..|]. cbn [rbind].
    destruct (set_high_cwnd_gain_ok s2 kDerivedHighGain H2) as (s3 & -> & H3); [by vm_compute..|]. cbn [rbind].
    apply (set_drain_gain_ok s3 _ H3); by vm_compute. }
  destruct H2 as (s2 & -> & H2). cbn [rbind]. eexists. split; [done|]. unfold ApplyConnectionOptions.
  apply when_fresh.
  - intros s3 (Hb & Hc & Hg & Hz). destruct (valid_sampler_op_ok (sampler_ s3) ∅ 0 SEnable Hc Hg Hz) as (a & E & Hc' & Hg'). cbn in E. apply Ok_inj in E as <-.
    split; [exact Hb|]. split; [done|]. split; [done|]. cbn. unfold EnableOverestimateAvoidance. by destruct (overestimate_avoidance_ _).
  - repeat (apply when_fresh; [done|]). done.
Qed.

Lemma BbrSender_init_fresh now n mx r st s0 : now <> QuicTime_Infinite -> 0 <= n < 2 ^ 22 -> BbrSender_init now n mx r st = Ok s0 -> fresh s0.
Proof.
  intros Hnow Hn. unfold BbrSender_init, EnterStartupMode. intros (s1 & E1 & E)%rbind_Ok.
  assert (H1 : fresh s1).
  { apply rbind_Ok in E1 as (d & Ed & E1). apply Ok_inj in E1 as <-. unfold Accumulator_Start in Ed. cbn -[IsRunning CHECK] in Ed.
    apply rbind_Ok in Ed as (u & _ & Ed). apply rbind_Ok in Ed as (u' & Er & Ed). apply Ok_inj in Ed as <-.
    change kDefaultTCPMSS with 1460. split; [|cbn; split; [apply sampler_init_ok|split; [apply sampler_init_ok|done]]].
    split; [|split; [|split]].
    - unfold constants_ok. cbn -[Z.mul]. rewrite u64_small by lia. split_and!; try lia; by vm_compute.
    - unfold estimates_ok, filter_in, bandwidth_ok. cbn. done.
    - intros Hx. by destruct Hx.
    - unfold clock_ok, IsRunning. cbn. destruct (Z.eqb_spec now NotRunningSentinel); done. }
  destruct (set_high_cwnd_gain_ok s1 kDerivedHighCWNDGain H1) as (s2 & E2 & H2); [by vm_compute..|]. rewrite E2 in E. by apply Ok_inj in E as <-.
Qed.

(** ** Runs *)

Inductive connection_step : BbrSender R * gmap Z Z * QuicTime -> BbrSender R * gmap Z Z * QuicTime -> Prop :=
  connection_step_intro s g now e s' : valid_bbr_event s g now e -> bbr_step s e = Ok s' ->
    connection_step (s, g, now) (s', bbr_outstanding g e, bbr_clock now e).

Lemma connection_safe x y : rtc connection_step x y -> safe x.1.1 x.1.2 x.2 -> reachable (N:=N) x.1.1 -> safe y.1.1 y.1.2 y.2 /\ reachable (N:=N) y.1.1.
Proof.
  induction 1 as [x|x y z Hxy _ IH]; intros Hs Hr; [done|]. destruct Hxy as [s g now e s' Hv E]. cbn in Hs, Hr.
  destruct (step_safe s g now e Hs Hv) as (s1 & E1 & Hs1). rewrite E in E1. apply Ok_inj in E1 as <-. apply IH; [exact Hs1|].
  cbn. eapply reachable_step; [exact Hr| |exact E]. by destruct e.
Qed.

(** C3. BBR does not stop.  A sender can be created and configured with any options,
    and after every run of a connection that keeps to its contract (each packet is
    acknowledged or lost once with the size it was sent with, less than 2^35 bytes are sent, time
    does not go back, the RTT estimator has a positive initial estimate) the next
    valid event, sent packet or other call is processed to its end and the pacing rate can be computed: no
    assertion fails, no conversion from a float is out of range and no
    division is by zero. *)
Theorem bbr_never_stops now0 n mx r st o : now0 <> QuicTime_Infinite -> 0 <= n < 2 ^ 22 ->
  exists s0 s1, BbrSender_init now0 n mx r st = Ok s0 /\ SetFromConfig s0 o = Ok s1 /\
    forall s g now, rtc connection_step (s1, ∅, 0) (s, g, now) ->
      reachable (N:=N) s /\
      (forall e, valid_bbr_event s g now e -> exists s', bbr_step s e = Ok s') /\
      (forall rtt_stats, 0 < initial_rtt_ rtt_stats -> exists b, PacingRate rtt_stats s = Ok b).
Proof.
  intros Hnow Hn. destruct (BbrSender_init_ok now0 n mx r st Hnow) as (s0 & E0 & _).
  pose proof (BbrSender_init_fresh now0 n mx r st s0 Hnow Hn E0) as Hf. destruct (config_ok s0 o Hf) as (s1 & E1 & Hb & Hc & Hg & Hz).
  exists s0, s1. split; [done|]. split; [done|]. intros s g now Hrun.
  assert (Hr1 : reachable (N:=N) s1) by (by eapply reachable_start).
  destruct (connection_safe _ _ Hrun) as [Hs Hr]; [|exact Hr1|].
  { cbn. unfold safe. rewrite Hz. pose proof (reachable_gains s1 Hr1). by split_and!. }
  split; [done|]. split; [|intros rs Hrs; apply PacingRate_ok; [apply Hs|done]].
  intros e Hv. destruct (step_safe s g now e Hs Hv) as (s' & E & _). eauto.
Qed.

End Safety.

(** * Witness *)

Definition first_packet : @bbr_event (list QuicFrame) := BSent 2000 0 1 1200 HAS_RETRANSMITTABLE_DATA.
Definition first_ack : @bbr_event (list QuicFrame) :=
  BEvent RttStats_init (empty_map <| least_unacked_ := 2 |>) 1200 22000 [mkAcked 1 1200 22000] [].
Lemma first_packet_valid s0 s1 : first_sender = Ok s0 -> SetFromConfig s0 no_options = Ok s1 -> valid_bbr_event s1 ∅ 0 first_packet.
Proof.
  intros E0 E1. vm_compute in E0. apply Ok_inj in E0 as <-. vm_compute in E1. apply Ok_inj in E1 as <-.
  split; [|vm_compute; reflexivity]. split; [lia|]. split; [lia|]. split; [lia|]. intros _. split; [lia|].
  split; [vm_compute; reflexivity|]. split; [done|]. intros k Hk. vm_compute in Hk. discriminate.
Qed.
Lemma first_ack_valid (s : BbrSender Z) : valid_bbr_event s (bbr_outstanding ∅ first_packet) 2000 first_ack.
Proof.
  split; [|split; [done|cbn; lia]]. split; [lia|]. split; [apply NoDup_singleton|]. split; [|constructor].
  constructor; [|constructor]. split; [cbn; lia|]. left. exists 1200. reflexivity.
Qed.

(** A packet is sent and acknowledged. *)
Lemma bbr_never_stops_witness :
  exists s0 s1 s2 s3 : BbrSender Z, first_sender = Ok s0 /\ SetFromConfig s0 no_options = Ok s1 /\
    bbr_step s1 first_packet = Ok s2 /\ bbr_step s2 first_ack = Ok s3.
Proof.
  destruct (bbr_never_stops (N:=list QuicFrame) 1000 32 2000 5 QuicConnectionStats_init no_options) as (s0 & s1 & E0 & E1 & Hrun); [done|lia|].
  exists s0, s1. destruct (Hrun s1 ∅ 0 (rtc_refl _ _)) as (_ & Hnext & _).
  pose proof (first_packet_valid s0 s1 E0 E1) as Hv. destruct (Hnext _ Hv) as (s2 & E2). exists s2.
  destruct (Hrun s2 (bbr_outstanding ∅ first_packet) (bbr_clock 0 first_packet)) as (_ & Hnext' & _).
  { eapply rtc_l; [|apply rtc_refl]. exact (connection_step_intro s1 ∅ 0 _ s2 Hv E2). }
  destruct (Hnext' first_ack (first_ack_valid s2)) as (s3 & E3).
  exists s3. split; [exact E0|]. split; [exact E1|]. split; [exact E2|exact E3].
Defined.
