(* ===== verification/Bbr2Model.v ===== *)
(** The network model of BBRv2 (bbr2_misc.h, bbr2_misc.cc): the parameters of a
    sender, the round trip counter, the filters of the least RTT and the
    greatest bandwidth, and [Bbr2NetworkModel], which turns packets sent,
    acknowledged and lost into the bounds the modes of the sender work with.

    The parameters the model points to are an argument of the operations that
    read them. *)

From Stdlib Require Import SpecFloat.
From S2P Require Import Prelude Float QuicTime PacketNumber WindowedFilter RttStats SendAlgorithm IndexedQueue BandwidthSampler Bbr.

(** * Limits *)

(** src/quiche/gquiche/quic/core/congestion_control/bbr2_misc.h:23-39 [Limits] *)
Record Limits := mkLimits { limit_min : Z; limit_max : Z }.
(** src/quiche/gquiche/quic/core/congestion_control/bbr2_misc.h:29-31 [Limits::ApplyLimits] *)
Definition ApplyLimits (l : Limits) (raw_value : Z) : Z := Z.min (limit_max l) (Z.max (limit_min l) raw_value).
(** src/quiche/gquiche/quic/core/congestion_control/bbr2_misc.h:52-54 [NoGreaterThan] *)
Definition NoGreaterThan (max : Z) : Limits := mkLimits 0 max.

(** * Parameters *)

(** src/quiche/gquiche/quic/core/quic_protocol_flags_list.h:120-122 [quic_bbr2_default_probe_bw_base_duration_ms] *)
Definition FLAGS_quic_bbr2_default_probe_bw_base_duration_ms : Z := 2000.
(** src/quiche/gquiche/quic/core/quic_protocol_flags_list.h:126-129 [quic_bbr2_default_probe_bw_max_rand_duration_ms] *)
Definition FLAGS_quic_bbr2_default_probe_bw_max_rand_duration_ms : Z := 1000.
(** src/quiche/gquiche/quic/core/quic_protocol_flags_list.h:133-135 [quic_bbr2_default_probe_rtt_period_ms] *)
Definition FLAGS_quic_bbr2_default_probe_rtt_period_ms : Z := 10000.
(** src/quiche/gquiche/quic/core/quic_protocol_flags_list.h:152-154 [quic_bbr2_default_probe_bw_full_loss_count] *)
Definition FLAGS_quic_bbr2_default_probe_bw_full_loss_count : Z := 2.
(** src/quiche/gquiche/quic/core/quic_protocol_flags_list.h:158-161 [quic_bbr2_default_inflight_hi_headroom] *)
Definition FLAGS_quic_bbr2_default_inflight_hi_headroom : spec_float := f64_div (f64_of_Z 15) (f64_of_Z 100).
(** src/quiche/gquiche/quic/core/quic_protocol_flags_list.h:165-167 [quic_bbr2_default_initial_ack_height_filter_window] *)
Definition FLAGS_quic_bbr2_default_initial_ack_height_filter_window : Z := 10.
(** src/quiche/gquiche/quic/core/quic_flags_list.h:17-17 [quic_bbr2_avoid_too_low_probe_bw_cwnd] *)
Definition FLAGS_quic_bbr2_avoid_too_low_probe_bw_cwnd : bool := false.
(** src/quiche/gquiche/quic/core/quic_flags_list.h:18-18 [quic_bbr2_fix_bw_lo_mode] *)
Definition FLAGS_quic_bbr2_fix_bw_lo_mode : bool := false.

(** src/quiche/gquiche/quic/core/congestion_control/bbr2_misc.h:199-204 [Bbr2Params::QuicBandwidthLoMode] *)
Inductive QuicBandwidthLoMode := DEFAULT | MIN_RTT_REDUCTION | INFLIGHT_REDUCTION | CWND_REDUCTION.
#[export] Instance QuicBandwidthLoMode_eq_dec : EqDecision QuicBandwidthLoMode.
Proof. solve_decision. Defined.

(** A literal of type [double], rounded from a decimal fraction, and its conversion to [float]. *)
Definition f64_dec (num den : Z) : spec_float := f64_div (f64_of_Z num) (f64_of_Z den).
Definition f32_dec (num den : Z) : spec_float := f32_of_f64 (f64_dec num den).

(** src/quiche/gquiche/quic/core/congestion_control/bbr2_misc.h:69-211 [Bbr2Params] *)
Record Bbr2Params := mkBbr2Params {
  startup_cwnd_gain : spec_float;
  startup_pacing_gain : spec_float;
  startup_full_bw_threshold : spec_float;
  startup_full_bw_rounds : Z;
  startup_full_loss_count : Z;
  always_exit_startup_on_excess_loss : bool;
  drain_cwnd_gain : spec_float;
  drain_pacing_gain : spec_float;
  probe_bw_max_probe_rand_rounds : Z;
  probe_bw_probe_max_rounds : Z;
  probe_bw_probe_reno_gain : spec_float;
  probe_bw_probe_base_duration : Delta;
  probe_bw_probe_max_rand_duration : Delta;
  probe_bw_full_loss_count : Z;
  probe_bw_probe_inflight_gain : spec_float;
  probe_bw_probe_up_pacing_gain : spec_float;
  probe_bw_probe_down_pacing_gain : spec_float;
  probe_bw_default_pacing_gain : spec_float;
  probe_bw_cwnd_gain : spec_float;
  probe_rtt_inflight_target_bdp_fraction : spec_float;
  probe_rtt_period : Delta;
  probe_rtt_duration : Delta;
  initial_max_ack_height_filter_window : Z;
  inflight_hi_headroom : spec_float;
  loss_threshold : spec_float;
  beta : spec_float;
  cwnd_limits : Limits;
  add_ack_height_to_queueing_threshold : bool;
  avoid_unnecessary_probe_rtt : bool;
  avoid_too_low_probe_bw_cwnd : bool;
  ignore_inflight_lo : bool;
  limit_inflight_hi_by_max_delivered : bool;
  startup_loss_exit_use_max_delivered_for_inflight_hi : bool;
  use_bytes_delivered_for_inflight_hi : bool;
  enable_reno_coexistence : bool;
  bw_lo_mode_ : QuicBandwidthLoMode;
  decrease_startup_pacing_at_end_of_round : bool;
}.
#[export] Instance eta_Bbr2Params : Eta Bbr2Params := MkEta _ (fun p =>
  mkBbr2Params (startup_cwnd_gain p) (startup_pacing_gain p) (startup_full_bw_threshold p) (startup_full_bw_rounds p)
    (startup_full_loss_count p) (always_exit_startup_on_excess_loss p) (drain_cwnd_gain p) (drain_pacing_gain p)
    (probe_bw_max_probe_rand_rounds p) (probe_bw_probe_max_rounds p) (probe_bw_probe_reno_gain p)
    (probe_bw_probe_base_duration p) (probe_bw_probe_max_rand_duration p) (probe_bw_full_loss_count p)
    (probe_bw_probe_inflight_gain p) (probe_bw_probe_up_pacing_gain p) (probe_bw_probe_down_pacing_gain p)
    (probe_bw_default_pacing_gain p) (probe_bw_cwnd_gain p) (probe_rtt_inflight_target_bdp_fraction p) (probe_rtt_period p)
    (probe_rtt_duration p) (initial_max_ack_height_filter_window p) (inflight_hi_headroom p) (loss_threshold p) (beta p)
    (cwnd_limits p) (add_ack_height_to_queueing_threshold p) (avoid_unnecessary_probe_rtt p) (avoid_too_low_probe_bw_cwnd p)
    (ignore_inflight_lo p) (limit_inflight_hi_by_max_delivered p) (startup_loss_exit_use_max_delivered_for_inflight_hi p)
    (use_bytes_delivered_for_inflight_hi p) (enable_reno_coexistence p) (bw_lo_mode_ p) (decrease_startup_pacing_at_end_of_round p)).
(** src/quiche/gquiche/quic/core/congestion_control/bbr2_misc.h:70-210 [Bbr2Params::Bbr2Params] *)
Definition Bbr2Params_init (cwnd_min cwnd_max : Z) : Bbr2Params :=
  mkBbr2Params (f32_of_Z 2) (f32_dec 2885 1000) (f32_lit 5 (-2)) 3 FLAGS_quic_bbr2_default_startup_full_loss_count true
    (f32_of_Z 2) (f32_of_f64 (f64_div (f64_of_Z 1) (f64_dec 2885 1000)))
    2 63 (f32_of_Z 1)
    (Delta_FromMilliseconds FLAGS_quic_bbr2_default_probe_bw_base_duration_ms)
    (Delta_FromMilliseconds FLAGS_quic_bbr2_default_probe_bw_max_rand_duration_ms)
    FLAGS_quic_bbr2_default_probe_bw_full_loss_count (f32_lit 5 (-2)) (f32_lit 5 (-2)) (f32_lit 3 (-2)) (f32_of_Z 1) (f32_of_Z 2)
    (f32_lit 1 (-1)) (Delta_FromMilliseconds FLAGS_quic_bbr2_default_probe_rtt_period_ms) (Delta_FromMilliseconds 200)
    FLAGS_quic_bbr2_default_initial_ack_height_filter_window (f32_of_f64 FLAGS_quic_bbr2_default_inflight_hi_headroom)
    (f32_of_f64 FLAGS_quic_bbr2_default_loss_threshold) (f32_dec 3 10) (mkLimits cwnd_min cwnd_max)
    true true FLAGS_quic_bbr2_avoid_too_low_probe_bw_cwnd false false true false true DEFAULT false.

(** * Counters and filters *)

(** src/quiche/gquiche/quic/core/congestion_control/bbr2_misc.h:213-234 [RoundTripCounter] *)
Record RoundTripCounter := mkRoundTrips {
  rt_count_ : Z;
  rt_last_sent_packet_ : QuicPacketNumber;
  rt_end_of_round_trip_ : QuicPacketNumber;
}.
#[export] Instance eta_RoundTripCounter : Eta RoundTripCounter := MkEta _ (fun c =>
  mkRoundTrips (rt_count_ c) (rt_last_sent_packet_ c) (rt_end_of_round_trip_ c)).
(** src/quiche/gquiche/quic/core/congestion_control/bbr2_misc.cc:17-17 [RoundTripCounter::RoundTripCounter] *)
Definition RoundTripCounter_init : RoundTripCounter := mkRoundTrips 0 QuicPacketNumber_default QuicPacketNumber_default.
(** src/quiche/gquiche/quic/core/congestion_control/bbr2_misc.cc:19-23 [RoundTripCounter::OnPacketSent] *)
Definition RoundTrips_OnPacketSent (c : RoundTripCounter) (packet_number : QuicPacketNumber) : result RoundTripCounter :=
  let* ascending :=
    if negb (PN_IsInitialized (rt_last_sent_packet_ c)) then Ok true else PN_lt (rt_last_sent_packet_ c) packet_number in
  let* _ := CHECK ascending in
  Ok (c <| rt_last_sent_packet_ := packet_number |>).
(** src/quiche/gquiche/quic/core/congestion_control/bbr2_misc.cc:25-33 [RoundTripCounter::OnPacketsAcked] *)
Definition OnPacketsAcked (c : RoundTripCounter) (last_acked_packet : QuicPacketNumber) : result (RoundTripCounter * bool) :=
  let* ended :=
    if negb (PN_IsInitialized (rt_end_of_round_trip_ c)) then Ok true else PN_gt last_acked_packet (rt_end_of_round_trip_ c) in
  if ended then Ok (c <| rt_count_ := rt_count_ c ⊕ 1 |> <| rt_end_of_round_trip_ := rt_last_sent_packet_ c |>, true)
  else Ok (c, false).
(** src/quiche/gquiche/quic/core/congestion_control/bbr2_misc.cc:35-37 [RoundTripCounter::RestartRound] *)
Definition RestartRound (c : RoundTripCounter) : RoundTripCounter := c <| rt_end_of_round_trip_ := rt_last_sent_packet_ c |>.

(** src/quiche/gquiche/quic/core/congestion_control/bbr2_misc.h:236-253 [MinRttFilter] *)
Record MinRttFilter := mkMinRttFilter { mr_min_rtt_ : Delta; mr_timestamp_ : QuicTime }.
(** src/quiche/gquiche/quic/core/congestion_control/bbr2_misc.cc:44-49 [MinRttFilter::Update] *)
Definition MinRtt_Update (f : MinRttFilter) (sample_rtt : Delta) (now : QuicTime) : MinRttFilter :=
  if (sample_rtt <? mr_min_rtt_ f) || (mr_timestamp_ f =? QuicTime_Zero) then mkMinRttFilter sample_rtt now else f.
(** src/quiche/gquiche/quic/core/congestion_control/bbr2_misc.cc:51-54 [MinRttFilter::ForceUpdate] *)
Definition MinRtt_ForceUpdate (f : MinRttFilter) (sample_rtt : Delta) (now : QuicTime) : MinRttFilter := mkMinRttFilter sample_rtt now.

(** src/quiche/gquiche/quic/core/congestion_control/bbr2_misc.h:255-277 [Bbr2MaxBandwidthFilter] *)
Record Bbr2MaxBandwidthFilter := mkMaxBw { max_bandwidth_0 : Z; max_bandwidth_1 : Z }.
Definition Bbr2MaxBandwidthFilter_init : Bbr2MaxBandwidthFilter := mkMaxBw QuicBandwidth_Zero QuicBandwidth_Zero.
(** src/quiche/gquiche/quic/core/congestion_control/bbr2_misc.h:257-259 [Bbr2MaxBandwidthFilter::Update] *)
Definition MaxBw_Update (f : Bbr2MaxBandwidthFilter) (sample : Z) : Bbr2MaxBandwidthFilter :=
  mkMaxBw (max_bandwidth_0 f) (Z.max sample (max_bandwidth_1 f)).
(** src/quiche/gquiche/quic/core/congestion_control/bbr2_misc.h:261-268 [Bbr2MaxBandwidthFilter::Advance] *)
Definition MaxBw_Advance (f : Bbr2MaxBandwidthFilter) : Bbr2MaxBandwidthFilter :=
  if max_bandwidth_1 f =? 0 then f else mkMaxBw (max_bandwidth_1 f) QuicBandwidth_Zero.
(** src/quiche/gquiche/quic/core/congestion_control/bbr2_misc.h:270-272 [Bbr2MaxBandwidthFilter::Get] *)
Definition MaxBw_Get (f : Bbr2MaxBandwidthFilter) : Z := Z.max (max_bandwidth_0 f) (max_bandwidth_1 f).

(** * Congestion events *)

(** src/quiche/gquiche/quic/core/congestion_control/bbr2_misc.h:281-322 [Bbr2CongestionEvent] *)
Record Bbr2CongestionEvent := mkBbr2Event {
  ev_time : QuicTime;
  ev_prior_cwnd : Z;
  ev_prior_bytes_in_flight : Z;
  ev_bytes_in_flight : Z;
  ev_bytes_acked : Z;
  ev_bytes_lost : Z;
  ev_end_of_round_trip : bool;
  ev_last_sample_is_app_limited : bool;
  ev_is_probing_for_bandwidth : bool;
  ev_sample_min_rtt : Delta;
  ev_sample_max_bandwidth : Z;
  ev_send_state : SendTimeState;
}.
#[export] Instance eta_Bbr2Event : Eta Bbr2CongestionEvent := MkEta _ (fun e =>
  mkBbr2Event (ev_time e) (ev_prior_cwnd e) (ev_prior_bytes_in_flight e) (ev_bytes_in_flight e) (ev_bytes_acked e)
    (ev_bytes_lost e) (ev_end_of_round_trip e) (ev_last_sample_is_app_limited e) (ev_is_probing_for_bandwidth e)
    (ev_sample_min_rtt e) (ev_sample_max_bandwidth e) (ev_send_state e)).
(** The event as [OnCongestionEvent] begins it. *)
Definition Bbr2CongestionEvent_init (prior_cwnd prior_in_flight : Z) (probing : bool) : Bbr2CongestionEvent :=
  mkBbr2Event QuicTime_Zero prior_cwnd prior_in_flight 0 0 0 false false probing Delta_Infinite QuicBandwidth_Zero SendTimeState_default.

(** src/quiche/gquiche/quic/core/congestion_control/bbr2_misc.h:622-630 [BytesInFlight] *)
Definition BytesInFlight (send_state : SendTimeState) : result Z :=
  let* _ := CHECK (is_valid send_state) in
  Ok (if negb (bytes_in_flight send_state =? 0) then bytes_in_flight send_state
      else (total_bytes_sent send_state ⊖ total_bytes_acked send_state) ⊖ total_bytes_lost send_state).

(** * The model *)

(** src/quiche/gquiche/quic/core/congestion_control/bbr2_misc.h:512-554 [Bbr2NetworkModel] *)
Record Bbr2NetworkModel := mkModel {
  round_trip_counter_ : RoundTripCounter;
  bandwidth_sampler_ : BandwidthSampler;
  max_bandwidth_filter_ : Bbr2MaxBandwidthFilter;
  min_rtt_filter_ : MinRttFilter;
  bytes_lost_in_round_ : Z;
  loss_events_in_round_ : Z;
  max_bytes_delivered_in_round_ : Z;
  bandwidth_latest_ : Z;
  bandwidth_lo_ : Z;
  prior_bandwidth_lo_ : Z;
  inflight_latest_ : Z;
  inflight_lo_ : Z;
  inflight_hi_ : Z;
  cwnd_gain_ : spec_float;
  pacing_gain_ : spec_float;
  full_bandwidth_reached_ : bool;
  full_bandwidth_baseline_ : Z;
  rounds_without_bandwidth_growth_ : Z;
}.
#[export] Instance eta_Model : Eta Bbr2NetworkModel := MkEta _ (fun m =>
  mkModel (round_trip_counter_ m) (bandwidth_sampler_ m) (max_bandwidth_filter_ m) (min_rtt_filter_ m)
    (bytes_lost_in_round_ m) (loss_events_in_round_ m) (max_bytes_delivered_in_round_ m) (bandwidth_latest_ m)
    (bandwidth_lo_ m) (prior_bandwidth_lo_ m) (inflight_latest_ m) (inflight_lo_ m) (inflight_hi_ m) (cwnd_gain_ m)
    (pacing_gain_ m) (full_bandwidth_reached_ m) (full_bandwidth_baseline_ m) (rounds_without_bandwidth_growth_ m)).

Implicit Types (m : Bbr2NetworkModel) (p : Bbr2Params) (e : Bbr2CongestionEvent).

(** src/quiche/gquiche/quic/core/congestion_control/bbr2_misc.h:477-479 [Bbr2NetworkModel::inflight_lo_default] *)
Definition inflight_lo_default : Z := UINT64_MAX.
(** src/quiche/gquiche/quic/core/congestion_control/bbr2_misc.h:485-487 [Bbr2NetworkModel::inflight_hi_default] *)
Definition inflight_hi_default : Z := UINT64_MAX.
(** src/quiche/gquiche/quic/core/congestion_control/bbr2_misc.h:470-472 [Bbr2NetworkModel::bandwidth_lo_default] *)
Definition bandwidth_lo_default : Z := QuicBandwidth_Infinite.

(** src/quiche/gquiche/quic/core/congestion_control/bbr2_misc.cc:56-73 [Bbr2NetworkModel::Bbr2NetworkModel] *)
Definition Bbr2NetworkModel_init p (initial_rtt : Delta) (initial_rtt_timestamp : QuicTime) (cwnd_gain pacing_gain : spec_float)
    (old_sampler : option BandwidthSampler) : Bbr2NetworkModel :=
  mkModel RoundTripCounter_init
    (match old_sampler with
     | Some s => BandwidthSampler_copy s
     | None => BandwidthSampler_init (initial_max_ack_height_filter_window p)
     end)
    Bbr2MaxBandwidthFilter_init (mkMinRttFilter initial_rtt initial_rtt_timestamp) 0 0 0 QuicBandwidth_Zero bandwidth_lo_default
    QuicBandwidth_Zero 0 inflight_lo_default inflight_hi_default cwnd_gain pacing_gain false QuicBandwidth_Zero 0.

(** ** Queries *)

(** src/quiche/gquiche/quic/core/congestion_control/bbr2_misc.h:375-375 [Bbr2NetworkModel::MinRtt] *)
Definition MinRtt m : Delta := mr_min_rtt_ (min_rtt_filter_ m).
(** src/quiche/gquiche/quic/core/congestion_control/bbr2_misc.h:377-377 [Bbr2NetworkModel::MinRttTimestamp] *)
Definition MinRttTimestamp m : QuicTime := mr_timestamp_ (min_rtt_filter_ m).
(** src/quiche/gquiche/quic/core/congestion_control/bbr2_misc.h:385-385 [Bbr2NetworkModel::MaxBandwidth] *)
Definition MaxBandwidth m : Z := MaxBw_Get (max_bandwidth_filter_ m).
(** src/quiche/gquiche/quic/core/congestion_control/bbr2_misc.h:367-369 [Bbr2NetworkModel::BDP(QuicBandwidth)] *)
Definition BDP_of m (bandwidth : Z) : Z := ToBytesPerPeriod bandwidth (MinRtt m).
(** src/quiche/gquiche/quic/core/congestion_control/bbr2_misc.h:365-365 [Bbr2NetworkModel::BDP] *)
Definition BDP m : Z := BDP_of m (MaxBandwidth m).
(** src/quiche/gquiche/quic/core/congestion_control/bbr2_misc.h:371-373 [Bbr2NetworkModel::BDP(QuicBandwidth, float)] *)
Definition BDP_gain m (bandwidth : Z) (gain : spec_float) : result Z := float_to_u64 (f32_mul (f32_of_Z (BDP_of m bandwidth)) gain).
(** src/quiche/gquiche/quic/core/congestion_control/bbr2_misc.h:387-389 [Bbr2NetworkModel::MaxAckHeight] *)
Definition MaxAckHeight m : Z := max_ack_height (bandwidth_sampler_ m).
(** src/quiche/gquiche/quic/core/congestion_control/bbr2_misc.h:409-411 [Bbr2NetworkModel::BandwidthEstimate] *)
Definition Model_BandwidthEstimate m : Z := Z.min (MaxBandwidth m) (bandwidth_lo_ m).
(** src/quiche/gquiche/quic/core/congestion_control/bbr2_misc.h:413-415 [Bbr2NetworkModel::RoundTripCount] *)
Definition RoundTripCount m : Z := rt_count_ (round_trip_counter_ m).
(** src/quiche/gquiche/quic/core/congestion_control/bbr2_misc.h:446-448 [Bbr2NetworkModel::total_bytes_acked] *)
Definition model_bytes_acked m : Z := total_bytes_acked_ (bandwidth_sampler_ m).
(** src/quiche/gquiche/quic/core/congestion_control/bbr2_misc.h:450-452 [Bbr2NetworkModel::total_bytes_lost] *)
Definition model_bytes_lost m : Z := total_bytes_lost_ (bandwidth_sampler_ m).
(** src/quiche/gquiche/quic/core/congestion_control/bbr2_misc.cc:319-325 [Bbr2NetworkModel::IsCongestionWindowLimited] *)
Definition IsCongestionWindowLimited m e : bool :=
  ev_prior_cwnd e <=? (ev_bytes_in_flight e ⊕ ev_bytes_acked e) ⊕ ev_bytes_lost e.
(** src/quiche/gquiche/quic/core/congestion_control/bbr2_misc.cc:327-362 [Bbr2NetworkModel::IsInflightTooHigh] *)
Definition IsInflightTooHigh m p e (max_loss_events : Z) : result bool :=
  let send_state := ev_send_state e in
  if negb (is_valid send_state) then Ok false
  else if loss_events_in_round_ m <? max_loss_events then Ok false
  else
    let* inflight_at_send := BytesInFlight send_state in
    if (0 <? inflight_at_send) && (0 <? bytes_lost_in_round_ m) then
      let* lost_in_round_threshold := float_to_u64 (f32_mul (f32_of_Z inflight_at_send) (loss_threshold p)) in
      Ok (lost_in_round_threshold <? bytes_lost_in_round_ m)
    else Ok false.
(** src/quiche/gquiche/quic/core/congestion_control/bbr2_misc.cc:384-388 [Bbr2NetworkModel::inflight_hi_with_headroom] *)
Definition inflight_hi_with_headroom m p : result Z :=
  let* headroom := float_to_u64 (f32_mul (f32_of_Z (inflight_hi_ m)) (inflight_hi_headroom p)) in
  Ok (if headroom <? inflight_hi_ m then inflight_hi_ m ⊖ headroom else 0).

(** ** Bounds *)

(** src/quiche/gquiche/quic/core/congestion_control/bbr2_misc.h:473-473 [Bbr2NetworkModel::clear_bandwidth_lo] *)
Definition clear_bandwidth_lo m : Bbr2NetworkModel := m <| bandwidth_lo_ := bandwidth_lo_default |>.
(** src/quiche/gquiche/quic/core/congestion_control/bbr2_misc.h:480-480 [Bbr2NetworkModel::clear_inflight_lo] *)
Definition clear_inflight_lo m : Bbr2NetworkModel := m <| inflight_lo_ := inflight_lo_default |>.
(** src/quiche/gquiche/quic/core/congestion_control/bbr2_misc.cc:375-382 [Bbr2NetworkModel::cap_inflight_lo] *)
Definition cap_inflight_lo m p (cap : Z) : Bbr2NetworkModel :=
  if ignore_inflight_lo p then m
  else if negb (inflight_lo_ m =? inflight_lo_default) && (cap <? inflight_lo_ m) then m <| inflight_lo_ := cap |> else m.
(** src/quiche/gquiche/quic/core/congestion_control/bbr2_misc.cc:369-373 [Bbr2NetworkModel::OnNewRound] *)
Definition OnNewRound m : Bbr2NetworkModel :=
  m <| bytes_lost_in_round_ := 0 |> <| loss_events_in_round_ := 0 |> <| max_bytes_delivered_in_round_ := 0 |>.
(** src/quiche/gquiche/quic/core/congestion_control/bbr2_misc.cc:364-367 [Bbr2NetworkModel::RestartRoundEarly] *)
Definition RestartRoundEarly m : Bbr2NetworkModel :=
  let m := OnNewRound m in m <| round_trip_counter_ := RestartRound (round_trip_counter_ m) |>.
(** src/quiche/gquiche/quic/core/congestion_control/bbr2_misc.h:360-360 [Bbr2NetworkModel::AdvanceMaxBandwidthFilter] *)
Definition AdvanceMaxBandwidthFilter m : Bbr2NetworkModel := m <| max_bandwidth_filter_ := MaxBw_Advance (max_bandwidth_filter_ m) |>.
(** src/quiche/gquiche/quic/core/congestion_control/bbr2_misc.h:381-383 [Bbr2NetworkModel::PostponeMinRttTimestamp] *)
Definition PostponeMinRttTimestamp m (duration : Delta) : Bbr2NetworkModel :=
  m <| min_rtt_filter_ := MinRtt_ForceUpdate (min_rtt_filter_ m) (MinRtt m) (QuicTime_add (MinRttTimestamp m) duration) |>.
(** src/quiche/gquiche/quic/core/congestion_control/bbr2_misc.h:362-362 [Bbr2NetworkModel::OnApplicationLimited] *)
Definition Model_OnApplicationLimited m : Bbr2NetworkModel := m <| bandwidth_sampler_ := OnAppLimited (bandwidth_sampler_ m) |>.
(** src/quiche/gquiche/quic/core/congestion_control/bbr2_misc.h:391-393 [Bbr2NetworkModel::EnableOverestimateAvoidance] *)
Definition Model_EnableOverestimateAvoidance m : Bbr2NetworkModel :=
  m <| bandwidth_sampler_ := EnableOverestimateAvoidance (bandwidth_sampler_ m) |>.
(** src/quiche/gquiche/quic/core/congestion_control/bbr2_misc.h:399-401 [Bbr2NetworkModel::OnPacketNeutered] *)
Definition Model_OnPacketNeutered m (packet_number : QuicPacketNumber) : result Bbr2NetworkModel :=
  let* s := Sampler_OnPacketNeutered (bandwidth_sampler_ m) packet_number in Ok (m <| bandwidth_sampler_ := s |>).
(** src/quiche/gquiche/quic/core/congestion_control/bbr2_misc.cc:75-84 [Bbr2NetworkModel::OnPacketSent] *)
Definition Model_OnPacketSent m (sent_time : QuicTime) (bytes_in_flight : Z) (packet_number : QuicPacketNumber) (bytes : Z)
    (is_retransmittable : HasRetransmittableData) : result Bbr2NetworkModel :=
  let* c := RoundTrips_OnPacketSent (round_trip_counter_ m) packet_number in
  let* s := Sampler_OnPacketSent (bandwidth_sampler_ m) sent_time packet_number bytes bytes_in_flight is_retransmittable in
  Ok (m <| round_trip_counter_ := c |> <| bandwidth_sampler_ := s |>).
(** src/quiche/gquiche/quic/core/congestion_control/bbr2_misc.cc:296-300 [Bbr2NetworkModel::UpdateNetworkParameters] *)
Definition UpdateNetworkParameters m (rtt : Delta) : Bbr2NetworkModel :=
  if negb (Delta_IsZero rtt) then m <| min_rtt_filter_ := MinRtt_Update (min_rtt_filter_ m) rtt (MinRttTimestamp m) |> else m.
(** src/quiche/gquiche/quic/core/congestion_control/bbr2_misc.cc:302-317 [Bbr2NetworkModel::MaybeExpireMinRtt] *)
Definition MaybeExpireMinRtt m p e : Bbr2NetworkModel * bool :=
  if ev_time e <? QuicTime_add (MinRttTimestamp m) (probe_rtt_period p) then (m, false)
  else if Delta_IsInfinite (ev_sample_min_rtt e) then (m, false)
  else (m <| min_rtt_filter_ := MinRtt_ForceUpdate (min_rtt_filter_ m) (ev_sample_min_rtt e) (ev_time e) |>, true).

(** ** Lower bounds *)

Definition one_minus_beta p : spec_float := f64_sub (f64_of_Z 1) (f64_of_f32 (beta p)).

(** src/quiche/gquiche/quic/core/congestion_control/bbr2_misc.cc:209-235 [Bbr2NetworkModel::AdaptLowerBounds, reduction] *)
Definition reduce_bandwidth_lo m p e : result Z :=
  let lo := bandwidth_lo_ m in
  match bw_lo_mode_ p with
  | MIN_RTT_REDUCTION =>
      let* r := FromBytesAndTimeDelta (ev_bytes_lost e) (MinRtt m) in Ok (QuicBandwidth_sub lo r)
  | INFLIGHT_REDUCTION =>
      let effective_inflight := Z.max (BDP m) (ev_prior_bytes_in_flight e) in
      QuicBandwidth_mul lo (f32_of_f64 (f64_div (f64_of_Z (effective_inflight ⊖ ev_bytes_lost e)) (f64_of_Z effective_inflight)))
  | CWND_REDUCTION =>
      QuicBandwidth_mul lo (f32_of_f64 (f64_div (f64_of_Z (ev_prior_cwnd e ⊖ ev_bytes_lost e)) (f64_of_Z (ev_prior_cwnd e))))
  | DEFAULT => Fault CheckFailed
  end.
(** src/quiche/gquiche/quic/core/congestion_control/bbr2_misc.cc:191-260 [Bbr2NetworkModel::AdaptLowerBounds, by mode] *)
Definition adapt_by_mode m p e : result Bbr2NetworkModel :=
  if ev_bytes_lost e =? 0 then Ok m
  else if SFltb (pacing_gain_ m) (f32_of_Z 1) then Ok m
  else
    let m := when (bandwidth_lo_ m =? QuicBandwidth_Infinite) (fun m => m <| bandwidth_lo_ := MaxBandwidth m |>) m in
    let m := when (prior_bandwidth_lo_ m =? 0) (fun m => m <| prior_bandwidth_lo_ := bandwidth_lo_ m |>) m in
    let* lo := reduce_bandwidth_lo m p e in
    let* floor :=
      if SFltb (startup_full_bw_threshold p) (pacing_gain_ m)
      then QuicBandwidth_mul (bandwidth_latest_ m) (f32_div (startup_full_bw_threshold p) (pacing_gain_ m))
      else Ok (bandwidth_latest_ m) in
    let m := m <| bandwidth_lo_ := Z.max lo floor |> in
    if FLAGS_quic_bbr2_fix_bw_lo_mode && ev_end_of_round_trip e then
      let* floor := QuicBandwidth_mul (prior_bandwidth_lo_ m) (f32_of_f64 (one_minus_beta p)) in
      Ok (m <| bandwidth_lo_ := Z.max (bandwidth_lo_ m) floor |> <| prior_bandwidth_lo_ := QuicBandwidth_Zero |>)
    else Ok m.
(** src/quiche/gquiche/quic/core/congestion_control/bbr2_misc.cc:266-283 [Bbr2NetworkModel::AdaptLowerBounds, by default] *)
Definition adapt_by_default m p e : result Bbr2NetworkModel :=
  if 0 <? bytes_lost_in_round_ m then
    let m := when (bandwidth_lo_ m =? QuicBandwidth_Infinite) (fun m => m <| bandwidth_lo_ := MaxBandwidth m |>) m in
    let* reduced := QuicBandwidth_mul (bandwidth_lo_ m) (f32_of_f64 (one_minus_beta p)) in
    let m := m <| bandwidth_lo_ := Z.max (bandwidth_latest_ m) reduced |> in
    if ignore_inflight_lo p then Ok m
    else
      let m := when (inflight_lo_ m =? inflight_lo_default) (fun m => m <| inflight_lo_ := ev_prior_cwnd e |>) m in
      let* reduced := float_to_u64 (f64_mul (f64_of_Z (inflight_lo_ m)) (one_minus_beta p)) in
      Ok (m <| inflight_lo_ := Z.max (inflight_latest_ m) reduced |>)
  else Ok m.
(** src/quiche/gquiche/quic/core/congestion_control/bbr2_misc.cc:189-284 [Bbr2NetworkModel::AdaptLowerBounds] *)
Definition AdaptLowerBounds m p e : result Bbr2NetworkModel :=
  if decide (bw_lo_mode_ p <> DEFAULT) then adapt_by_mode m p e
  else if negb (ev_end_of_round_trip e) || ev_is_probing_for_bandwidth e then Ok m
  else adapt_by_default m p e.

(** ** Events *)

(** src/quiche/gquiche/quic/core/congestion_control/bbr2_misc.cc:94-103 [Bbr2NetworkModel::OnCongestionEventStart, sampling] *)
Definition start_sampling m e (event_time : QuicTime) (acked : list AckedPacket) (lost : list LostPacket)
    : result (Bbr2NetworkModel * Bbr2CongestionEvent * CongestionEventSample) :=
  let e := e <| ev_time := event_time |> in
  let* r :=
    match last acked with
    | None => Ok (round_trip_counter_ m, false)
    | Some a => OnPacketsAcked (round_trip_counter_ m) (acked_packet_number a)
    end in
  let m := m <| round_trip_counter_ := r.1 |> in
  let e := e <| ev_end_of_round_trip := r.2 |> in
  let* x := Sampler_OnCongestionEvent (bandwidth_sampler_ m) event_time acked lost (MaxBandwidth m) (bandwidth_lo_ m) (RoundTripCount m) in
  Ok (m <| bandwidth_sampler_ := x.1 |>, e, x.2).
(** src/quiche/gquiche/quic/core/congestion_control/bbr2_misc.cc:105-129 [Bbr2NetworkModel::OnCongestionEventStart, filters] *)
Definition update_filters m e (sample : CongestionEventSample) (prior_bytes_acked : Z) : Bbr2NetworkModel * Bbr2CongestionEvent :=
  let e := when (is_valid (last_packet_send_state sample))
    (fun e => e <| ev_send_state := last_packet_send_state sample |>
                <| ev_last_sample_is_app_limited := is_app_limited (last_packet_send_state sample) |>) e in
  let '(m, e) :=
    if negb (prior_bytes_acked =? model_bytes_acked m) &&
       (negb (sample_is_app_limited sample) || (MaxBandwidth m <? sample_max_bandwidth sample))
    then (m <| max_bandwidth_filter_ := MaxBw_Update (max_bandwidth_filter_ m) (sample_max_bandwidth sample) |>,
          e <| ev_sample_max_bandwidth := sample_max_bandwidth sample |>)
    else (m, e) in
  if negb (Delta_IsInfinite (sample_rtt sample))
  then (m <| min_rtt_filter_ := MinRtt_Update (min_rtt_filter_ m) (sample_rtt sample) (ev_time e) |>,
        e <| ev_sample_min_rtt := sample_rtt sample |>)
  else (m, e).
(** src/quiche/gquiche/quic/core/congestion_control/bbr2_misc.cc:131-171 [Bbr2NetworkModel::OnCongestionEventStart, accounting] *)
Definition account m e (sample : CongestionEventSample) (prior_bytes_acked prior_bytes_lost : Z) : Bbr2NetworkModel * Bbr2CongestionEvent :=
  let e := e <| ev_bytes_acked := model_bytes_acked m ⊖ prior_bytes_acked |> <| ev_bytes_lost := model_bytes_lost m ⊖ prior_bytes_lost |> in
  let e := e <| ev_bytes_in_flight :=
    if ev_bytes_acked e ⊕ ev_bytes_lost e <=? ev_prior_bytes_in_flight e
    then (ev_prior_bytes_in_flight e ⊖ ev_bytes_acked e) ⊖ ev_bytes_lost e else 0 |> in
  let m := when (0 <? ev_bytes_lost e)
    (fun m => m <| bytes_lost_in_round_ := bytes_lost_in_round_ m ⊕ ev_bytes_lost e |>
                <| loss_events_in_round_ := i64 (loss_events_in_round_ m + 1) |>) m in
  let m := when ((0 <? ev_bytes_acked e) && is_valid (ev_send_state e) && (total_bytes_acked (ev_send_state e) <? model_bytes_acked m))
    (fun m => m <| max_bytes_delivered_in_round_ :=
       Z.max (max_bytes_delivered_in_round_ m) (model_bytes_acked m ⊖ total_bytes_acked (ev_send_state e)) |>) m in
  let m := when (bandwidth_latest_ m <? sample_max_bandwidth sample) (fun m => m <| bandwidth_latest_ := sample_max_bandwidth sample |>) m in
  (when (inflight_latest_ m <? sample_max_inflight sample) (fun m => m <| inflight_latest_ := sample_max_inflight sample |>) m, e).
(** src/quiche/gquiche/quic/core/congestion_control/bbr2_misc.cc:86-187 [Bbr2NetworkModel::OnCongestionEventStart] *)
Definition OnCongestionEventStart m p e (event_time : QuicTime) (acked : list AckedPacket) (lost : list LostPacket)
    : result (Bbr2NetworkModel * Bbr2CongestionEvent) :=
  let prior_bytes_acked := model_bytes_acked m in
  let prior_bytes_lost := model_bytes_lost m in
  let* r := start_sampling m e event_time acked lost in
  let '(m, e, sample) := r in
  let '(m, e) := update_filters m e sample prior_bytes_acked in
  let '(m, e) := account m e sample prior_bytes_acked prior_bytes_lost in
  let* m := AdaptLowerBounds m p e in
  if negb (ev_end_of_round_trip e) then Ok (m, e)
  else
    let m := when (negb (sample_max_bandwidth sample =? 0)) (fun m => m <| bandwidth_latest_ := sample_max_bandwidth sample |>) m in
    Ok (when (0 <? sample_max_inflight sample) (fun m => m <| inflight_latest_ := sample_max_inflight sample |>) m, e).
(** src/quiche/gquiche/quic/core/congestion_control/bbr2_misc.cc:286-294 [Bbr2NetworkModel::OnCongestionEventFinish] *)
Definition OnCongestionEventFinish m (least_unacked_packet : QuicPacketNumber) e : result Bbr2NetworkModel :=
  let m := when (ev_end_of_round_trip e) OnNewRound m in
  let* s := Sampler_RemoveObsoletePackets (bandwidth_sampler_ m) least_unacked_packet in
  Ok (m <| bandwidth_sampler_ := s |>).

(** src/quiche/gquiche/quic/core/congestion_control/bbr2_misc.h:425-430 [Bbr2NetworkModel::BandwidthGrowth] *)
Inductive BandwidthGrowth := APP_LIMITED | NO_GROWTH | BW_GROWTH | EXIT.
#[export] Instance BandwidthGrowth_eq_dec : EqDecision BandwidthGrowth.
Proof. solve_decision. Defined.
(** src/quiche/gquiche/quic/core/congestion_control/bbr2_misc.cc:390-423 [Bbr2NetworkModel::CheckBandwidthGrowth] *)
Definition CheckBandwidthGrowth m p e : result (Bbr2NetworkModel * BandwidthGrowth) :=
  let* _ := CHECK (negb (full_bandwidth_reached_ m)) in
  let* _ := CHECK (ev_end_of_round_trip e) in
  if ev_last_sample_is_app_limited e then Ok (m, APP_LIMITED)
  else
    let* threshold := QuicBandwidth_mul (full_bandwidth_baseline_ m) (startup_full_bw_threshold p) in
    if threshold <=? MaxBandwidth m
    then Ok (m <| full_bandwidth_baseline_ := MaxBandwidth m |> <| rounds_without_bandwidth_growth_ := 0 |>, BW_GROWTH)
    else
      let m := m <| rounds_without_bandwidth_growth_ := rounds_without_bandwidth_growth_ m ⊕ 1 |> in
      if startup_full_bw_rounds p <=? rounds_without_bandwidth_growth_ m
      then Ok (m <| full_bandwidth_reached_ := true |>, EXIT)
      else Ok (m, NO_GROWTH).
