(* ===== verification/Bbr2.v ===== *)
(** [Bbr2Sender] (bbr2_sender.h, bbr2_sender.cc) and its modes (bbr2_startup,
    bbr2_drain, bbr2_probe_bw, bbr2_probe_rtt): the BBRv2 congestion
    controller, over the network model of [Bbr2Model].

    A mode object has pointers to its sender and to the sender's network model;
    its methods are operations of the sender's record here, and its own members are
    fields of that record.  The two flags of [Bbr2ProbeBwMode] that its
    constructor leaves uninitialized are optional, and a read before the
    first write is a fault. *)

From Stdlib Require Import SpecFloat.
From stdpp Require Import relations.
From S2P Require Import Prelude Float QuicTime PacketNumber WindowedFilter RttStats SendAlgorithm UnackedMap IndexedQueue BandwidthSampler Bbr BbrSafety Bbr2Model.

(** * State *)

(** src/quiche/gquiche/quic/core/congestion_control/bbr2_misc.h:557-568 [Bbr2Mode] *)
Inductive Bbr2Mode := STARTUP | DRAIN | PROBE_BW | PROBE_RTT.
#[export] Instance Bbr2Mode_eq_dec : EqDecision Bbr2Mode.
Proof. solve_decision. Defined.
(** src/quiche/gquiche/quic/core/congestion_control/bbr2_probe_bw.h:42-48 [Bbr2ProbeBwMode::CyclePhase] *)
Inductive CyclePhase := PROBE_NOT_STARTED | PROBE_UP | PROBE_DOWN | PROBE_CRUISE | PROBE_REFILL.
#[export] Instance CyclePhase_eq_dec : EqDecision CyclePhase.
Proof. solve_decision. Defined.

(** src/quiche/gquiche/quic/core/congestion_control/bbr2_probe_bw.h:111-125 [Bbr2ProbeBwMode::Cycle] *)
Record Cycle := mkCycle {
  cycle_start_time : QuicTime;
  phase : CyclePhase;
  rounds_in_phase : Z;
  phase_start_time : QuicTime;
  rounds_since_probe : Z;
  probe_wait_time : Delta;
  probe_up_rounds : Z;
  probe_up_bytes : Z;
  probe_up_acked : Z;
  has_advanced_max_bw : bool;
  is_sample_from_probing : bool;
}.
#[export] Instance eta_Cycle : Eta Cycle := MkEta _ (fun c =>
  mkCycle (cycle_start_time c) (phase c) (rounds_in_phase c) (phase_start_time c) (rounds_since_probe c) (probe_wait_time c)
    (probe_up_rounds c) (probe_up_bytes c) (probe_up_acked c) (has_advanced_max_bw c) (is_sample_from_probing c)).
Definition Cycle_init : Cycle :=
  mkCycle QuicTime_Zero PROBE_NOT_STARTED 0 QuicTime_Zero 0 Delta_Zero 0 UINT64_MAX 0 false false.

(** src/quiche/gquiche/quic/core/congestion_control/bbr2_sender.h:171-202 [Bbr2Sender], with the members of the modes: bbr2_startup.h:61, bbr2_probe_bw.h:110-128, bbr2_probe_rtt.h:50. *)
Record Bbr2Sender (R : Type) := mkBbr2 {
  mode_ : Bbr2Mode;
  random_ : R;
  connection_stats_ : QuicConnectionStats;
  params_ : Bbr2Params;
  max_cwnd_when_network_parameters_adjusted_ : Z;
  model_ : Bbr2NetworkModel;
  initial_cwnd_ : Z;
  cwnd_ : Z;
  pacing_rate_ : Z;
  last_quiescence_start_ : QuicTime;
  max_bw_at_round_beginning_ : Z;
  cycle_ : Cycle;
  last_cycle_probed_too_high_ : option bool;
  last_cycle_stopped_risky_probe_ : option bool;
  exit_time_ : QuicTime;
  last_sample_is_app_limited_ : bool;
}.
Arguments mkBbr2 {R}.
Arguments mode_ {R}.
Arguments random_ {R}.
Arguments connection_stats_ {R}.
Arguments params_ {R}.
Arguments max_cwnd_when_network_parameters_adjusted_ {R}.
Arguments model_ {R}.
Arguments initial_cwnd_ {R}.
Arguments cwnd_ {R}.
Arguments pacing_rate_ {R}.
Arguments last_quiescence_start_ {R}.
Arguments max_bw_at_round_beginning_ {R}.
Arguments cycle_ {R}.
Arguments last_cycle_probed_too_high_ {R}.
Arguments last_cycle_stopped_risky_probe_ {R}.
Arguments exit_time_ {R}.
Arguments last_sample_is_app_limited_ {R}.
#[export] Instance eta_Bbr2 R : Eta (Bbr2Sender R) := MkEta _ (fun s =>
  mkBbr2 (mode_ s) (random_ s) (connection_stats_ s) (params_ s) (max_cwnd_when_network_parameters_adjusted_ s) (model_ s)
    (initial_cwnd_ s) (cwnd_ s) (pacing_rate_ s) (last_quiescence_start_ s) (max_bw_at_round_beginning_ s) (cycle_ s)
    (last_cycle_probed_too_high_ s) (last_cycle_stopped_risky_probe_ s) (exit_time_ s) (last_sample_is_app_limited_ s)).

(** src/quiche/gquiche/quic/core/congestion_control/bbr2_sender.cc:26-26 [kDefaultMinimumCongestionWindow] *)
Definition kDefaultMinimumCongestionWindow : Z := 4 * kMaxSegmentSize.
(** src/quiche/gquiche/quic/core/congestion_control/bbr2_sender.cc:28-28 [kInitialPacingGain] *)
Definition kInitialPacingGain : spec_float := f32_div (f32_of_Z 2885) (f32_of_Z 1000).
(** src/quiche/gquiche/quic/core/congestion_control/bbr2_sender.cc:30-30 [kMaxModeChangesPerCongestionEvent] *)
Definition kMaxModeChangesPerCongestionEvent : nat := 4.

(** A member that the constructor leaves uninitialized. *)
Definition read {A} (o : option A) : result A := match o with Some a => Ok a | None => Fault UninitializedRead end.

(** Opens a computation that succeeded, one bind at a time. *)
Ltac open_ok :=
  repeat match goal with
  | E : rbind _ _ = Ok _ |- _ => apply rbind_Ok in E; let x := fresh "x" in let Ex := fresh "Ex" in destruct E as (x & Ex & E)
  | E : Ok ?a = Ok ?b |- _ => apply Ok_inj in E; subst
  | E : Fault _ = Ok _ |- _ => discriminate E
  | E : (let '(_, _) := ?p in _) = Ok _ |- _ => destruct p eqn:?
  | E : (if ?b then _ else _) = Ok _ |- _ => destruct b eqn:?
  | E : (match ?o with Some _ => _ | None => _ end) = Ok _ |- _ => destruct o eqn:?
  end.

Section Sender.
Context {R : Type} `{QuicRandom R}.
Implicit Types (s : Bbr2Sender R) (e : Bbr2CongestionEvent).

Definition on_model s (f : Bbr2NetworkModel -> Bbr2NetworkModel) : Bbr2Sender R := s <| model_ := f (model_ s) |>.
Definition on_cycle s (f : Cycle -> Cycle) : Bbr2Sender R := s <| cycle_ := f (cycle_ s) |>.
Definition on_stats s (f : QuicConnectionStats -> QuicConnectionStats) : Bbr2Sender R := s <| connection_stats_ := f (connection_stats_ s) |>.
Definition set_gains (pacing cwnd : spec_float) (m : Bbr2NetworkModel) : Bbr2NetworkModel := m <| pacing_gain_ := pacing |> <| cwnd_gain_ := cwnd |>.

(** ** Queries of the sender that the modes use *)

(** src/quiche/gquiche/quic/core/congestion_control/bbr2_sender.cc:410-413 [Bbr2Sender::GetCongestionWindow] *)
Definition GetCongestionWindow s : Z := cwnd_ s.
(** src/quiche/gquiche/quic/core/congestion_control/bbr2_sender.h:103-105 [Bbr2Sender::GetMinimumCongestionWindow] *)
Definition GetMinimumCongestionWindow s : Z := limit_min (cwnd_limits (params_ s)).
(** src/quiche/gquiche/quic/core/congestion_control/bbr2_sender.h:82-84 [Bbr2Sender::BandwidthEstimate] *)
Definition BandwidthEstimate s : Z := Model_BandwidthEstimate (model_ s).
(** src/quiche/gquiche/quic/core/congestion_control/bbr2_sender.cc:430-433 [Bbr2Sender::GetTargetBytesInflight] *)
Definition GetTargetBytesInflight s : Z := Z.min (BDP_of (model_ s) (Model_BandwidthEstimate (model_ s))) (GetCongestionWindow s).
(** src/quiche/gquiche/quic/core/congestion_control/bbr2_sender.h:159-161 [Bbr2Sender::RandomUint64] *)
Definition RandomUint64 s (max : Z) : result (Bbr2Sender R * Z) :=
  let '(x, r) := RandUint64 (random_ s) in
  if max =? 0 then Fault DivByZero else Ok (s <| random_ := r |>, x mod max).

(** * STARTUP *)

(** src/quiche/gquiche/quic/core/congestion_control/bbr2_startup.cc:16-28 [Bbr2StartupMode::Bbr2StartupMode] *)
Definition Startup_init s (now : QuicTime) : result (Bbr2Sender R) :=
  let s := on_stats s (fun st => st <| slowstart_count := 1 |> <| slowstart_duration := QuicTimeAccumulator_init |>) in
  let* d := Accumulator_Start (slowstart_duration (connection_stats_ s)) now in
  let s := on_stats s (fun st => st <| slowstart_duration := d |>) in
  Ok (on_model s (set_gains (startup_pacing_gain (params_ s)) (startup_cwnd_gain (params_ s)))).
(** src/quiche/gquiche/quic/core/congestion_control/bbr2_startup.cc:36-41 [Bbr2StartupMode::Leave] *)
Definition Startup_Leave s (now : QuicTime) : result (Bbr2Sender R) :=
  let* d := Accumulator_Stop (slowstart_duration (connection_stats_ s)) now in
  Ok (on_model (on_stats s (fun st => st <| slowstart_duration := d |>)) clear_bandwidth_lo).
(** src/quiche/gquiche/quic/core/congestion_control/bbr2_startup.cc:98-122 [Bbr2StartupMode::CheckExcessiveLosses] *)
Definition CheckExcessiveLosses s e : result (Bbr2Sender R) :=
  let* _ := CHECK (ev_end_of_round_trip e) in
  if full_bandwidth_reached_ (model_ s) then Ok s
  else
    let* high := IsInflightTooHigh (model_ s) (params_ s) e (startup_full_loss_count (params_ s)) in
    if high then
      let hi := BDP (model_ s) in
      let hi := if startup_loss_exit_use_max_delivered_for_inflight_hi (params_ s) && (hi <? max_bytes_delivered_in_round_ (model_ s))
        then max_bytes_delivered_in_round_ (model_ s) else hi in
      let s := on_model s (fun m => m <| inflight_hi_ := hi |> <| full_bandwidth_reached_ := true |>) in
      Ok (on_stats s (fun st => st <| bbr_exit_startup_due_to_loss := true |>))
    else Ok s.
(** src/quiche/gquiche/quic/core/congestion_control/bbr2_startup.cc:68-89 [Bbr2StartupMode::OnCongestionEvent, new gain] *)
Definition startup_new_gain s : result (Bbr2Sender R) :=
  if 0 <? max_bw_at_round_beginning_ s then
    let ratio := f64_div (f64_of_Z (MaxBandwidth (model_ s))) (f64_of_Z (max_bw_at_round_beginning_ s)) in
    let bandwidth_ratio := f32_of_f64 (if SFltb (f64_of_Z 1) ratio then ratio else f64_of_Z 1) in
    let p := params_ s in
    let new_gain := f32_add (f32_mul (f32_sub bandwidth_ratio (f32_of_Z 1)) (f32_sub (startup_pacing_gain p) (startup_full_bw_threshold p)))
                      (startup_full_bw_threshold p) in
    let gain := if SFltb new_gain (startup_pacing_gain p) then new_gain else startup_pacing_gain p in
    let s := on_model s (fun m => m <| pacing_gain_ := gain |>) in
    let* rate := QuicBandwidth_mul (MaxBandwidth (model_ s)) (pacing_gain_ (model_ s)) in
    Ok (when (bandwidth_lo_ (model_ s) <? rate) (fun s => on_model s clear_bandwidth_lo) s)
  else Ok s.
(** src/quiche/gquiche/quic/core/congestion_control/bbr2_startup.cc:43-96 [Bbr2StartupMode::OnCongestionEvent] *)
Definition Startup_OnCongestionEvent s e : result (Bbr2Sender R * Bbr2Mode) :=
  let* s :=
    if negb (full_bandwidth_reached_ (model_ s)) && ev_end_of_round_trip e then
      let* r := CheckBandwidthGrowth (model_ s) (params_ s) e in
      let '(m, bw_growth) := r in
      let s := s <| model_ := m |> in
      if always_exit_startup_on_excess_loss (params_ s) || bool_decide (bw_growth = NO_GROWTH \/ bw_growth = EXIT)
      then CheckExcessiveLosses s e else Ok s
    else Ok s in
  let* s :=
    if decrease_startup_pacing_at_end_of_round (params_ s) then
      let* _ := CHECK (SFltb (f32_of_Z 0) (pacing_gain_ (model_ s))) in
      if ev_end_of_round_trip e && negb (ev_last_sample_is_app_limited e) then
        let* s := startup_new_gain s in
        Ok (s <| max_bw_at_round_beginning_ := MaxBandwidth (model_ s) |>)
      else Ok s
    else Ok s in
  Ok (s, if full_bandwidth_reached_ (model_ s) then DRAIN else STARTUP).
(** src/quiche/gquiche/quic/core/congestion_control/bbr2_startup.h:35-40 [Bbr2StartupMode::GetCwndLimits] *)
Definition Startup_GetCwndLimits s : result Limits :=
  let* _ := CHECK (inflight_lo_default =? inflight_lo_ (model_ s)) in
  Ok (NoGreaterThan (inflight_lo_ (model_ s))).

(** * DRAIN *)

(** src/quiche/gquiche/quic/core/congestion_control/bbr2_drain.cc:41-44 [Bbr2DrainMode::DrainTarget] *)
Definition DrainTarget s : Z := Z.max (BDP (model_ s)) (GetMinimumCongestionWindow s).
(** src/quiche/gquiche/quic/core/congestion_control/bbr2_drain.cc:12-39 [Bbr2DrainMode::OnCongestionEvent] *)
Definition Drain_OnCongestionEvent s e : result (Bbr2Sender R * Bbr2Mode) :=
  let s := on_model s (fun m => m <| pacing_gain_ := drain_pacing_gain (params_ s) |>) in
  let* _ := CHECK (SFeqb (cwnd_gain_ (model_ s)) (drain_cwnd_gain (params_ s))) in
  let s := on_model s (fun m => m <| cwnd_gain_ := drain_cwnd_gain (params_ s) |>) in
  Ok (s, if ev_bytes_in_flight e <=? DrainTarget s then PROBE_BW else DRAIN).
(** src/quiche/gquiche/quic/core/congestion_control/bbr2_drain.h:32-34 [Bbr2DrainMode::GetCwndLimits] *)
Definition Drain_GetCwndLimits s : Limits := NoGreaterThan (inflight_lo_ (model_ s)).

(** * PROBE_BW *)

(** src/quiche/gquiche/quic/core/congestion_control/bbr2_probe_bw.cc:624-633 [Bbr2ProbeBwMode::PacingGainForPhase] *)
Definition PacingGainForPhase s (ph : CyclePhase) : spec_float :=
  match ph with
  | PROBE_UP => probe_bw_probe_up_pacing_gain (params_ s)
  | PROBE_DOWN => probe_bw_probe_down_pacing_gain (params_ s)
  | _ => probe_bw_default_pacing_gain (params_ s)
  end.
(** src/quiche/gquiche/quic/core/congestion_control/bbr2_probe_bw.cc:571-578 [Bbr2ProbeBwMode::ExitProbeDown] *)
Definition ExitProbeDown s : result (Bbr2Sender R) :=
  let* _ := CHECK (bool_decide (phase (cycle_ s) = PROBE_DOWN)) in
  Ok (if has_advanced_max_bw (cycle_ s) then s
      else on_cycle (on_model s AdvanceMaxBandwidthFilter) (fun c => c <| has_advanced_max_bw := true |>)).
(** src/quiche/gquiche/quic/core/congestion_control/bbr2_probe_bw.cc:485-515 [Bbr2ProbeBwMode::EnterProbeDown] *)
Definition EnterProbeDown s (probed_too_high stopped_risky_probe : bool) (now : QuicTime) : result (Bbr2Sender R) :=
  let s := s <| last_cycle_probed_too_high_ := Some probed_too_high |> <| last_cycle_stopped_risky_probe_ := Some stopped_risky_probe |> in
  let s := on_cycle s (fun c => c <| cycle_start_time := now |> <| phase := PROBE_DOWN |> <| rounds_in_phase := 0 |> <| phase_start_time := now |>) in
  let s := on_stats s (fun st => st <| bbr_num_cycles := u32 (bbr_num_cycles st + 1) |>) in
  let* r1 := RandomUint64 s (probe_bw_max_probe_rand_rounds (params_ s)) in
  let s := on_cycle r1.1 (fun c => c <| rounds_since_probe := r1.2 |>) in
  let* r2 := RandomUint64 s (u64 (Delta_ToMicroseconds (probe_bw_probe_max_rand_duration (params_ s)))) in
  let s := on_cycle r2.1 (fun c => c <| probe_wait_time := Delta_add (probe_bw_probe_base_duration (params_ s)) (Delta_FromMicroseconds r2.2) |>) in
  let s := on_cycle s (fun c => c <| probe_up_bytes := UINT64_MAX |> <| has_advanced_max_bw := false |>) in
  Ok (on_model s RestartRoundEarly).
(** src/quiche/gquiche/quic/core/congestion_control/bbr2_probe_bw.cc:517-531 [Bbr2ProbeBwMode::EnterProbeCruise] *)
Definition EnterProbeCruise s (now : QuicTime) : result (Bbr2Sender R) :=
  let* s := if decide (phase (cycle_ s) = PROBE_DOWN) then ExitProbeDown s else Ok s in
  let s := on_model s (fun m => cap_inflight_lo m (params_ s) (inflight_hi_ m)) in
  Ok (on_cycle s (fun c => c <| phase := PROBE_CRUISE |> <| rounds_in_phase := 0 |> <| phase_start_time := now |> <| is_sample_from_probing := false |>)).
(** src/quiche/gquiche/quic/core/congestion_control/bbr2_probe_bw.cc:533-554 [Bbr2ProbeBwMode::EnterProbeRefill] *)
Definition EnterProbeRefill s (up_rounds : Z) (now : QuicTime) : result (Bbr2Sender R) :=
  let* s := if decide (phase (cycle_ s) = PROBE_DOWN) then ExitProbeDown s else Ok s in
  let s := on_cycle s (fun c => c <| phase := PROBE_REFILL |> <| rounds_in_phase := 0 |> <| phase_start_time := now |> <| is_sample_from_probing := false |>) in
  let s := s <| last_cycle_stopped_risky_probe_ := Some false |> in
  let s := on_model s (fun m => clear_inflight_lo (clear_bandwidth_lo m)) in
  let s := on_cycle s (fun c => c <| probe_up_rounds := up_rounds |> <| probe_up_acked := 0 |>) in
  Ok (on_model s RestartRoundEarly).
(** src/quiche/gquiche/quic/core/congestion_control/bbr2_probe_bw.cc:348-361 [Bbr2ProbeBwMode::RaiseInflightHighSlope].  The shift is of an [int]. *)
Definition RaiseInflightHighSlope s : result (Bbr2Sender R) :=
  let* _ := CHECK (bool_decide (phase (cycle_ s) = PROBE_UP)) in
  let growth_this_round := u64 (i32 (Z.shiftl 1 (probe_up_rounds (cycle_ s)))) in
  let s := on_cycle s (fun c => c <| probe_up_rounds := Z.min (probe_up_rounds c ⊕ 1) 30 |>) in
  if growth_this_round =? 0 then Fault DivByZero
  else
    let bytes := GetCongestionWindow s / growth_this_round in
    Ok (on_cycle s (fun c => c <| probe_up_bytes := Z.max bytes kDefaultTCPMSS |>)).
(** src/quiche/gquiche/quic/core/congestion_control/bbr2_probe_bw.cc:556-569 [Bbr2ProbeBwMode::EnterProbeUp] *)
Definition EnterProbeUp s (now : QuicTime) : result (Bbr2Sender R) :=
  let* _ := CHECK (bool_decide (phase (cycle_ s) = PROBE_REFILL)) in
  let s := on_cycle s (fun c => c <| phase := PROBE_UP |> <| rounds_in_phase := 0 |> <| phase_start_time := now |> <| is_sample_from_probing := true |>) in
  let* s := RaiseInflightHighSlope s in
  Ok (on_model s RestartRoundEarly).
(** src/quiche/gquiche/quic/core/congestion_control/bbr2_probe_bw.cc:18-36 [Bbr2ProbeBwMode::Enter] *)
Definition ProbeBw_Enter s (now : QuicTime) : result (Bbr2Sender R) :=
  if decide (phase (cycle_ s) = PROBE_NOT_STARTED) then EnterProbeDown s false false now
  else
    let* _ := CHECK (bool_decide (phase (cycle_ s) = PROBE_CRUISE \/ phase (cycle_ s) = PROBE_REFILL)) in
    let s := on_cycle s (fun c => c <| cycle_start_time := now |>) in
    match phase (cycle_ s) with
    | PROBE_CRUISE => EnterProbeCruise s now
    | PROBE_REFILL => EnterProbeRefill s (probe_up_rounds (cycle_ s)) now
    | _ => Ok s
    end.
(** src/quiche/gquiche/quic/core/congestion_control/bbr2_probe_bw.cc:82-113 [Bbr2ProbeBwMode::GetCwndLimits] *)
Definition ProbeBw_GetCwndLimits s : result Limits :=
  let* hi := if decide (phase (cycle_ s) = PROBE_CRUISE) then inflight_hi_with_headroom (model_ s) (params_ s) else Ok (inflight_hi_ (model_ s)) in
  let upper_limit := Z.min (inflight_lo_ (model_ s)) hi in
  if negb FLAGS_quic_bbr2_avoid_too_low_probe_bw_cwnd then Ok (NoGreaterThan upper_limit)
  else
    let bdp_with_ack_height := BDP_of (model_ s) (MaxBandwidth (model_ s)) ⊕ MaxAckHeight (model_ s) in
    Ok (NoGreaterThan (if avoid_too_low_probe_bw_cwnd (params_ s) && (upper_limit <? bdp_with_ack_height) then bdp_with_ack_height else upper_limit)).
(** src/quiche/gquiche/quic/core/congestion_control/bbr2_probe_bw.cc:115-118 [Bbr2ProbeBwMode::IsProbingForBandwidth] *)
Definition ProbeBw_IsProbingForBandwidth s : bool := bool_decide (phase (cycle_ s) = PROBE_REFILL \/ phase (cycle_ s) = PROBE_UP).
(** src/quiche/gquiche/quic/core/congestion_control/bbr2_probe_bw.cc:120-127 [Bbr2ProbeBwMode::OnExitQuiescence] *)
Definition ProbeBw_OnExitQuiescence s (now quiescence_start_time : QuicTime) : Bbr2Sender R * Bbr2Mode :=
  (on_model s (fun m => PostponeMinRttTimestamp m (QuicTime_diff now quiescence_start_time)), PROBE_BW).

(** ** Upper bounds *)

(** src/quiche/gquiche/quic/core/congestion_control/bbr2_probe_bw.h:71-76 [Bbr2ProbeBwMode::AdaptUpperBoundsResult] *)
Inductive AdaptUpperBoundsResult :=
  ADAPTED_OK | ADAPTED_PROBED_TOO_HIGH | NOT_ADAPTED_INFLIGHT_HIGH_NOT_SET | NOT_ADAPTED_INVALID_SAMPLE.
#[export] Instance AdaptUpperBoundsResult_eq_dec : EqDecision AdaptUpperBoundsResult.
Proof. solve_decision. Defined.
(** src/quiche/gquiche/quic/core/congestion_control/bbr2_probe_bw.cc:200-213 [Bbr2ProbeBwMode::MaybeAdaptUpperBounds, inflight at send] *)
Definition upper_inflight_at_send s e : result Z :=
  let* inflight := BytesInFlight (ev_send_state e) in
  if use_bytes_delivered_for_inflight_hi (params_ s) then
    if total_bytes_acked (ev_send_state e) <=? model_bytes_acked (model_ s)
    then Ok (model_bytes_acked (model_ s) ⊖ total_bytes_acked (ev_send_state e))
    else Fault CheckFailed
  else Ok inflight.
(** src/quiche/gquiche/quic/core/congestion_control/bbr2_probe_bw.cc:219-250 [Bbr2ProbeBwMode::MaybeAdaptUpperBounds, cut] *)
Definition cut_inflight_hi s e (inflight_at_send : Z) : result (Bbr2Sender R) :=
  if is_app_limited (ev_send_state e) then Ok s
  else
    let* inflight_target := float_to_u64 (f64_mul (f64_of_Z (GetTargetBytesInflight s)) (one_minus_beta (params_ s))) in
    let new_inflight_hi := Z.max inflight_at_send inflight_target in
    let new_inflight_hi :=
      if limit_inflight_hi_by_max_delivered (params_ s) && (new_inflight_hi <? max_bytes_delivered_in_round_ (model_ s))
      then max_bytes_delivered_in_round_ (model_ s) else new_inflight_hi in
    Ok (on_model s (fun m => m <| inflight_hi_ := new_inflight_hi |>)).
(** src/quiche/gquiche/quic/core/congestion_control/bbr2_probe_bw.cc:189-275 [Bbr2ProbeBwMode::MaybeAdaptUpperBounds] *)
Definition MaybeAdaptUpperBounds s e : result (Bbr2Sender R * AdaptUpperBoundsResult) :=
  if negb (is_valid (ev_send_state e)) then Ok (s, NOT_ADAPTED_INVALID_SAMPLE)
  else
    let* inflight_at_send := upper_inflight_at_send s e in
    let* high := IsInflightTooHigh (model_ s) (params_ s) e (probe_bw_full_loss_count (params_ s)) in
    if high then
      if is_sample_from_probing (cycle_ s) then
        let s := on_cycle s (fun c => c <| is_sample_from_probing := false |>) in
        let* s := cut_inflight_hi s e inflight_at_send in
        Ok (s, ADAPTED_PROBED_TOO_HIGH)
      else Ok (s, ADAPTED_OK)
    else if inflight_hi_ (model_ s) =? inflight_hi_default then Ok (s, NOT_ADAPTED_INFLIGHT_HIGH_NOT_SET)
    else Ok (when (inflight_hi_ (model_ s) <? inflight_at_send) (fun s => on_model s (fun m => m <| inflight_hi_ := inflight_at_send |>)) s, ADAPTED_OK).

(** ** When to probe *)

(** src/quiche/gquiche/quic/core/congestion_control/bbr2_probe_bw.cc:301-311 [Bbr2ProbeBwMode::HasCycleLasted] *)
Definition HasCycleLasted s (duration : Delta) e : bool := duration <? QuicTime_diff (ev_time e) (cycle_start_time (cycle_ s)).
(** src/quiche/gquiche/quic/core/congestion_control/bbr2_probe_bw.cc:313-323 [Bbr2ProbeBwMode::HasPhaseLasted] *)
Definition HasPhaseLasted s (duration : Delta) e : bool := duration <? QuicTime_diff (ev_time e) (phase_start_time (cycle_ s)).
(** src/quiche/gquiche/quic/core/congestion_control/bbr2_probe_bw.cc:292-299 [Bbr2ProbeBwMode::HasStayedLongEnoughInProbeDown] *)
Definition HasStayedLongEnoughInProbeDown s e : bool := HasPhaseLasted s (MinRtt (model_ s)) e.
(** src/quiche/gquiche/quic/core/congestion_control/bbr2_probe_bw.cc:325-346 [Bbr2ProbeBwMode::IsTimeToProbeForRenoCoexistence] *)
Definition IsTimeToProbeForRenoCoexistence s (probe_wait_fraction : spec_float) : result bool :=
  if negb (enable_reno_coexistence (params_ s)) then Ok false
  else
    let rounds := probe_bw_probe_max_rounds (params_ s) in
    let* rounds :=
      if SFltb (f64_of_Z 0) (f64_of_f32 (probe_bw_probe_reno_gain (params_ s))) then
        let* reno_rounds := float_to_u64 (f32_div (f32_mul (probe_bw_probe_reno_gain (params_ s)) (f32_of_Z (GetTargetBytesInflight s))) (f32_of_Z kDefaultTCPMSS)) in
        Ok (Z.min rounds reno_rounds)
      else Ok rounds in
    Ok (SFleb (f64_mul (f64_of_Z rounds) probe_wait_fraction) (f64_of_Z (rounds_since_probe (cycle_ s)))).
(** src/quiche/gquiche/quic/core/congestion_control/bbr2_probe_bw.cc:277-288 [Bbr2ProbeBwMode::IsTimeToProbeBandwidth] *)
Definition IsTimeToProbeBandwidth s e : result (Bbr2Sender R * bool) :=
  if HasCycleLasted s (probe_wait_time (cycle_ s)) e then Ok (s, true)
  else
    let* reno := IsTimeToProbeForRenoCoexistence s (f64_of_Z 1) in
    if reno then
      Ok (on_stats s (fun st => st <| bbr_num_short_cycles_for_reno_coexistence := u32 (bbr_num_short_cycles_for_reno_coexistence st + 1) |>), true)
    else Ok (s, false).

(** ** Phases *)

(** src/quiche/gquiche/quic/core/congestion_control/bbr2_probe_bw.cc:135-150 [Bbr2ProbeBwMode::UpdateProbeDown, first round] *)
Definition probe_down_first_round s e : result (Bbr2Sender R * bool) :=
  if (rounds_in_phase (cycle_ s) =? 1) && ev_end_of_round_trip e then
    let s := on_cycle s (fun c => c <| is_sample_from_probing := false |>) in
    let s := when (negb (ev_last_sample_is_app_limited e))
      (fun s => on_cycle (on_model s AdvanceMaxBandwidthFilter) (fun c => c <| has_advanced_max_bw := true |>)) s in
    let* risky := read (last_cycle_stopped_risky_probe_ s) in
    let* refill := if risky then let* high := read (last_cycle_probed_too_high_ s) in Ok (negb high) else Ok false in
    if refill then let* s := EnterProbeRefill s 0 (ev_time e) in Ok (s, true) else Ok (s, false)
  else Ok (s, false).
(** src/quiche/gquiche/quic/core/congestion_control/bbr2_probe_bw.cc:130-187 [Bbr2ProbeBwMode::UpdateProbeDown] *)
Definition UpdateProbeDown s (prior_in_flight : Z) e : result (Bbr2Sender R) :=
  let* _ := CHECK (bool_decide (phase (cycle_ s) = PROBE_DOWN)) in
  let* r := probe_down_first_round s e in
  let '(s, done) := r in
  if done then Ok s
  else
    let* r := MaybeAdaptUpperBounds s e in
    let* t := IsTimeToProbeBandwidth r.1 e in
    let '(s, probe) := t in
    if probe then EnterProbeRefill s 0 (ev_time e)
    else if HasStayedLongEnoughInProbeDown s e then EnterProbeCruise s (ev_time e)
    else
      let* inflight_with_headroom := inflight_hi_with_headroom (model_ s) (params_ s) in
      if inflight_with_headroom <? ev_bytes_in_flight e then Ok s
      else if ev_bytes_in_flight e <? BDP (model_ s) then EnterProbeCruise s (ev_time e) else Ok s.
(** src/quiche/gquiche/quic/core/congestion_control/bbr2_probe_bw.cc:408-418 [Bbr2ProbeBwMode::UpdateProbeCruise] *)
Definition UpdateProbeCruise s e : result (Bbr2Sender R) :=
  let* _ := CHECK (bool_decide (phase (cycle_ s) = PROBE_CRUISE)) in
  let* r := MaybeAdaptUpperBounds s e in
  let s := r.1 in
  let* _ := CHECK (negb (is_sample_from_probing (cycle_ s))) in
  let* t := IsTimeToProbeBandwidth s e in
  let '(s, probe) := t in
  if probe then EnterProbeRefill s 0 (ev_time e) else Ok s.
(** src/quiche/gquiche/quic/core/congestion_control/bbr2_probe_bw.cc:420-430 [Bbr2ProbeBwMode::UpdateProbeRefill] *)
Definition UpdateProbeRefill s e : result (Bbr2Sender R) :=
  let* _ := CHECK (bool_decide (phase (cycle_ s) = PROBE_REFILL)) in
  let* r := MaybeAdaptUpperBounds s e in
  let s := r.1 in
  let* _ := CHECK (negb (is_sample_from_probing (cycle_ s))) in
  if (0 <? rounds_in_phase (cycle_ s)) && ev_end_of_round_trip e then EnterProbeUp s (ev_time e) else Ok s.
(** src/quiche/gquiche/quic/core/congestion_control/bbr2_probe_bw.cc:363-406 [Bbr2ProbeBwMode::ProbeInflightHighUpward] *)
Definition ProbeInflightHighUpward s e : result (Bbr2Sender R) :=
  let* _ := CHECK (bool_decide (phase (cycle_ s) = PROBE_UP)) in
  if negb (IsCongestionWindowLimited (model_ s) e) then Ok s
  else if ev_prior_cwnd e <? inflight_hi_ (model_ s) then Ok s
  else
    let s := on_cycle s (fun c => c <| probe_up_acked := probe_up_acked c ⊕ ev_bytes_acked e |>) in
    let c := cycle_ s in
    let* s :=
      if probe_up_bytes c <=? probe_up_acked c then
        if probe_up_bytes c =? 0 then Fault DivByZero
        else
          let delta := probe_up_acked c / probe_up_bytes c in
          let s := on_cycle s (fun c => c <| probe_up_acked := probe_up_acked c ⊖ (delta ⊗ probe_up_bytes c) |>) in
          let new_inflight_hi := inflight_hi_ (model_ s) ⊕ (delta ⊗ kDefaultTCPMSS) in
          let* _ := CHECK (inflight_hi_ (model_ s) <? new_inflight_hi) in
          Ok (on_model s (fun m => m <| inflight_hi_ := new_inflight_hi |>))
      else Ok s in
    if ev_end_of_round_trip e then RaiseInflightHighSlope s else Ok s.
(** src/quiche/gquiche/quic/core/congestion_control/bbr2_probe_bw.cc:458-467 [Bbr2ProbeBwMode::UpdateProbeUp, queue] *)
Definition is_queuing s e : result bool :=
  let bdp := BDP (model_ s) in
  let extra := 2 * kDefaultTCPMSS in
  let extra := if add_ack_height_to_queueing_threshold (params_ s) then extra ⊕ MaxAckHeight (model_ s) else extra in
  let* queuing_threshold := float_to_u64 (f32_add (f32_mul (probe_bw_probe_inflight_gain (params_ s)) (f32_of_Z bdp)) (f32_of_Z extra)) in
  Ok (queuing_threshold <=? ev_bytes_in_flight e).
(** src/quiche/gquiche/quic/core/congestion_control/bbr2_probe_bw.cc:432-483 [Bbr2ProbeBwMode::UpdateProbeUp] *)
Definition UpdateProbeUp s (prior_in_flight : Z) e : result (Bbr2Sender R) :=
  let* _ := CHECK (bool_decide (phase (cycle_ s) = PROBE_UP)) in
  let* r := MaybeAdaptUpperBounds s e in
  let s := r.1 in
  if decide (r.2 = ADAPTED_PROBED_TOO_HIGH) then EnterProbeDown s true false (ev_time e)
  else
    let* s := ProbeInflightHighUpward s e in
    let* high := read (last_cycle_probed_too_high_ s) in
    let risky := high && (inflight_hi_ (model_ s) <=? prior_in_flight) in
    let* queuing := if risky then Ok false else if 0 <? rounds_in_phase (cycle_ s) then is_queuing s e else Ok false in
    if risky || queuing then EnterProbeDown s false risky (ev_time e) else Ok s.
(** src/quiche/gquiche/quic/core/congestion_control/bbr2_probe_bw.cc:46-53 [Bbr2ProbeBwMode::OnCongestionEvent, rounds] *)
Definition count_rounds s e (event_time : QuicTime) : Bbr2Sender R :=
  when (ev_end_of_round_trip e) (fun s =>
    let s := when (negb (cycle_start_time (cycle_ s) =? event_time)) (fun s => on_cycle s (fun c => c <| rounds_since_probe := rounds_since_probe c ⊕ 1 |>)) s in
    when (negb (phase_start_time (cycle_ s) =? event_time)) (fun s => on_cycle s (fun c => c <| rounds_in_phase := rounds_in_phase c ⊕ 1 |>)) s) s.
(** src/quiche/gquiche/quic/core/congestion_control/bbr2_probe_bw.cc:38-80 [Bbr2ProbeBwMode::OnCongestionEvent] *)
Definition ProbeBw_OnCongestionEvent s (prior_in_flight : Z) (event_time : QuicTime) e : result (Bbr2Sender R * Bbr2Mode) :=
  let* _ := CHECK (bool_decide (phase (cycle_ s) <> PROBE_NOT_STARTED)) in
  let s := count_rounds s e event_time in
  let* r :=
    match phase (cycle_ s) with
    | PROBE_UP => let* s := UpdateProbeUp s prior_in_flight e in Ok (s, false)
    | PROBE_DOWN =>
        let* s := UpdateProbeDown s prior_in_flight e in
        if decide (phase (cycle_ s) <> PROBE_DOWN) then
          let '(m, expired) := MaybeExpireMinRtt (model_ s) (params_ s) e in Ok (s <| model_ := m |>, expired)
        else Ok (s, false)
    | PROBE_CRUISE => let* s := UpdateProbeCruise s e in Ok (s, false)
    | PROBE_REFILL => let* s := UpdateProbeRefill s e in Ok (s, false)
    | PROBE_NOT_STARTED => Ok (s, false)
    end in
  let '(s, switch_to_probe_rtt) := r in
  let s := when (negb switch_to_probe_rtt) (fun s => on_model s (set_gains (PacingGainForPhase s (phase (cycle_ s))) (probe_bw_cwnd_gain (params_ s)))) s in
  Ok (s, if switch_to_probe_rtt then PROBE_RTT else PROBE_BW).

(** * PROBE_RTT *)

(** src/quiche/gquiche/quic/core/congestion_control/bbr2_probe_rtt.cc:13-18 [Bbr2ProbeRttMode::Enter] *)
Definition ProbeRtt_Enter s : Bbr2Sender R := on_model s (set_gains (f32_of_Z 1) (f32_of_Z 1)) <| exit_time_ := QuicTime_Zero |>.
(** src/quiche/gquiche/quic/core/congestion_control/bbr2_probe_rtt.cc:45-48 [Bbr2ProbeRttMode::InflightTarget] *)
Definition InflightTarget s : result Z := BDP_gain (model_ s) (MaxBandwidth (model_ s)) (probe_rtt_inflight_target_bdp_fraction (params_ s)).
(** src/quiche/gquiche/quic/core/congestion_control/bbr2_probe_rtt.cc:20-43 [Bbr2ProbeRttMode::OnCongestionEvent] *)
Definition ProbeRtt_OnCongestionEvent s e : result (Bbr2Sender R * Bbr2Mode) :=
  if exit_time_ s =? QuicTime_Zero then
    let* target := InflightTarget s in
    Ok (when ((ev_bytes_in_flight e <=? target) || (ev_bytes_in_flight e <=? GetMinimumCongestionWindow s))
          (fun s => s <| exit_time_ := QuicTime_add (ev_time e) (probe_rtt_duration (params_ s)) |>) s, PROBE_RTT)
  else Ok (s, if exit_time_ s <? ev_time e then PROBE_BW else PROBE_RTT).
(** src/quiche/gquiche/quic/core/congestion_control/bbr2_probe_rtt.cc:50-54 [Bbr2ProbeRttMode::GetCwndLimits] *)
Definition ProbeRtt_GetCwndLimits s : result Limits :=
  let* hi := inflight_hi_with_headroom (model_ s) (params_ s) in
  let* target := InflightTarget s in
  Ok (NoGreaterThan (Z.min (Z.min (inflight_lo_ (model_ s)) hi) target)).
(** src/quiche/gquiche/quic/core/congestion_control/bbr2_probe_rtt.cc:56-63 [Bbr2ProbeRttMode::OnExitQuiescence] *)
Definition ProbeRtt_OnExitQuiescence s (now : QuicTime) : Bbr2Mode := if exit_time_ s <? now then PROBE_BW else PROBE_RTT.

(** * The sender *)

(** ** Mode dispatch *)

(** src/quiche/gquiche/quic/core/congestion_control/bbr2_sender.h:41-41 [Bbr2Sender::InSlowStart] *)
Definition InSlowStart s : bool := bool_decide (mode_ s = STARTUP).
(** src/quiche/gquiche/quic/core/congestion_control/bbr2_sender.cc:48-55 [BBR2_MODE_DISPATCH, IsProbingForBandwidth] *)
Definition IsProbingForBandwidth s : bool :=
  match mode_ s with STARTUP => true | PROBE_BW => ProbeBw_IsProbingForBandwidth s | DRAIN => false | PROBE_RTT => false end.
(** src/quiche/gquiche/quic/core/congestion_control/bbr2_misc.h:603-608 [Bbr2ModeBase::OnCongestionEvent, dispatch] *)
Definition mode_event s (prior_in_flight : Z) (event_time : QuicTime) e : result (Bbr2Sender R * Bbr2Mode) :=
  match mode_ s with
  | STARTUP => Startup_OnCongestionEvent s e
  | PROBE_BW => ProbeBw_OnCongestionEvent s prior_in_flight event_time e
  | DRAIN => Drain_OnCongestionEvent s e
  | PROBE_RTT => ProbeRtt_OnCongestionEvent s e
  end.
(** src/quiche/gquiche/quic/core/congestion_control/bbr2_misc.h:600-601 [Bbr2ModeBase::Leave, dispatch] *)
Definition mode_leave s (now : QuicTime) : result (Bbr2Sender R) :=
  match mode_ s with STARTUP => Startup_Leave s now | PROBE_BW => Ok s | DRAIN => Ok s | PROBE_RTT => Ok s end.
(** src/quiche/gquiche/quic/core/congestion_control/bbr2_misc.h:598-599 [Bbr2ModeBase::Enter, dispatch].  STARTUP's is a bug to call. *)
Definition mode_enter s (now : QuicTime) : result (Bbr2Sender R) :=
  match mode_ s with STARTUP => Fault CheckFailed | PROBE_BW => ProbeBw_Enter s now | DRAIN => Ok s | PROBE_RTT => Ok (ProbeRtt_Enter s) end.
Definition change_mode s (next_mode : Bbr2Mode) (now : QuicTime) : result (Bbr2Sender R) :=
  let* s := mode_leave s now in
  mode_enter (s <| mode_ := next_mode |>) now.
(** src/quiche/gquiche/quic/core/congestion_control/bbr2_sender.cc:166-180 [Bbr2Sender::GetCwndLimitsByMode] *)
Definition GetCwndLimitsByMode s : result Limits :=
  match mode_ s with
  | STARTUP => Startup_GetCwndLimits s
  | PROBE_BW => ProbeBw_GetCwndLimits s
  | DRAIN => Ok (Drain_GetCwndLimits s)
  | PROBE_RTT => ProbeRtt_GetCwndLimits s
  end.

(** ** Creation *)

(** src/quiche/gquiche/quic/core/congestion_control/bbr2_sender.cc:57-93 [Bbr2Sender::Bbr2Sender] *)
Definition Bbr2Sender_init (now : QuicTime) (rtt_stats : RttStats) (initial_cwnd_in_packets max_cwnd_in_packets : Z) (random : R)
    (stats : QuicConnectionStats) (old_sender : option (BbrSender R)) : result (Bbr2Sender R) :=
  let params := Bbr2Params_init kDefaultMinimumCongestionWindow (max_cwnd_in_packets ⊗ kDefaultTCPMSS) in
  let model := Bbr2NetworkModel_init params (SmoothedOrInitialRtt rtt_stats) (last_update_time_ rtt_stats) (f32_of_Z 1) kInitialPacingGain
                 (sampler_ <$> old_sender) in
  let initial := ApplyLimits (cwnd_limits params)
    (match old_sender with Some o => Bbr.GetCongestionWindow o | None => initial_cwnd_in_packets ⊗ kDefaultTCPMSS end) in
  let* rate := FromBytesAndTimeDelta initial (SmoothedOrInitialRtt rtt_stats) in
  let* pacing_rate := QuicBandwidth_mul rate kInitialPacingGain in
  Startup_init (mkBbr2 STARTUP random stats params (kMaxInitialCongestionWindow * kDefaultTCPMSS) model initial initial pacing_rate
    QuicTime_Zero QuicBandwidth_Zero Cycle_init None None QuicTime_Zero false) now.

(** src/quiche/gquiche/quic/core/congestion_control/bbr2_sender.cc:96-117 [Bbr2Sender::SetFromConfig].  The options the client may request, with those of [ApplyConnectionOptions]. *)
Record Bbr2Options := mkBbr2Options {
  o_B2NA : bool; o_B2RP : bool; o_B2CL : bool; o_1RTT : bool; o_2RTT : bool; o_B2HR : bool; o_ICW1 : bool; o_BBQ2 : bool; o_B2LO : bool;
  o_B2NE : bool; o_B2SL : bool; o_B2H2 : bool; o_B2DL : bool; o_B2RC : bool; o_BSAO : bool; o_BBQ6 : bool; o_BBQ7 : bool; o_BBQ8 : bool; o_BBQ9 : bool;
}.
Definition on_params s (f : Bbr2Params -> Bbr2Params) : Bbr2Sender R := s <| params_ := f (params_ s) |>.
(** src/quiche/gquiche/quic/core/congestion_control/bbr2_sender.cc:124-164 [Bbr2Sender::ApplyConnectionOptions] *)
Definition ApplyConnectionOptions s (o : Bbr2Options) : Bbr2Sender R :=
  let s := when (o_BBQ2 o) (fun s => on_model (on_params s (fun p => p <| startup_cwnd_gain := f32_dec 2885 1000 |> <| drain_cwnd_gain := f32_dec 2885 1000 |>))
             (fun m => m <| cwnd_gain_ := f32_dec 2885 1000 |>)) s in
  let s := when (o_B2LO o) (fun s => on_params s (fun p => p <| ignore_inflight_lo := true |>)) s in
  let s := when (o_B2NE o) (fun s => on_params s (fun p => p <| always_exit_startup_on_excess_loss := false |>)) s in
  let s := when (o_B2SL o) (fun s => on_params s (fun p => p <| startup_loss_exit_use_max_delivered_for_inflight_hi := false |>)) s in
  let s := when (o_B2H2 o) (fun s => on_params s (fun p => p <| limit_inflight_hi_by_max_delivered := true |>)) s in
  let s := when (o_B2DL o) (fun s => on_params s (fun p => p <| use_bytes_delivered_for_inflight_hi := true |>)) s in
  let s := when (o_B2RC o) (fun s => on_params s (fun p => p <| enable_reno_coexistence := false |>)) s in
  let s := when (o_BSAO o) (fun s => on_model s Model_EnableOverestimateAvoidance) s in
  let s := when (o_BBQ6 o) (fun s => on_params s (fun p => p <| decrease_startup_pacing_at_end_of_round := true |>)) s in
  let s := when (o_BBQ7 o) (fun s => on_params s (fun p => p <| bw_lo_mode_ := MIN_RTT_REDUCTION |>)) s in
  let s := when (o_BBQ8 o) (fun s => on_params s (fun p => p <| bw_lo_mode_ := INFLIGHT_REDUCTION |>)) s in
  when (o_BBQ9 o) (fun s => on_params s (fun p => p <| bw_lo_mode_ := CWND_REDUCTION |>)) s.
(** src/quiche/gquiche/quic/core/congestion_control/bbr2_sender.cc:96-122 [Bbr2Sender::SetFromConfig] *)
Definition SetFromConfig s (o : Bbr2Options) : Bbr2Sender R :=
  let s := when (o_B2NA o) (fun s => on_params s (fun p => p <| add_ack_height_to_queueing_threshold := false |>)) s in
  let s := when (o_B2RP o) (fun s => on_params s (fun p => p <| avoid_unnecessary_probe_rtt := false |>)) s in
  let s := when (FLAGS_quic_bbr2_avoid_too_low_probe_bw_cwnd && o_B2CL o) (fun s => on_params s (fun p => p <| avoid_too_low_probe_bw_cwnd := false |>)) s in
  let s := when (o_1RTT o) (fun s => on_params s (fun p => p <| startup_full_bw_rounds := 1 |>)) s in
  let s := when (o_2RTT o) (fun s => on_params s (fun p => p <| startup_full_bw_rounds := 2 |>)) s in
  let s := when (o_B2HR o) (fun s => on_params s (fun p => p <| inflight_hi_headroom := f32_dec 15 100 |>)) s in
  let s := when (o_ICW1 o) (fun s => s <| max_cwnd_when_network_parameters_adjusted_ := 100 * kDefaultTCPMSS |>) s in
  ApplyConnectionOptions s o.
(** src/quiche/gquiche/quic/core/congestion_control/bbr2_sender.cc:214-220 [Bbr2Sender::SetInitialCongestionWindowInPackets] *)
Definition SetInitialCongestionWindowInPackets s (congestion_window : Z) : Bbr2Sender R :=
  if decide (mode_ s = STARTUP) then s <| cwnd_ := ApplyLimits (cwnd_limits (params_ s)) (congestion_window ⊗ kDefaultTCPMSS) |> else s.
(** src/quiche/gquiche/quic/core/congestion_control/bbr2_sender.cc:186-212 [Bbr2Sender::AdjustNetworkParameters] *)
Definition AdjustNetworkParameters s (params : NetworkParams) : result (Bbr2Sender R) :=
  let s := on_model s (fun m => UpdateNetworkParameters m (params_rtt params)) in
  if decide (mode_ s = STARTUP) then
    let prior_cwnd := cwnd_ s in
    let effective_bandwidth := Z.max (params_bandwidth params) (Model_BandwidthEstimate (model_ s)) in
    let s := on_stats s (fun st => st <| cwnd_bootstrapping_rtt_us := Delta_ToMicroseconds (MinRtt (model_ s)) |>) in
    let s := when (0 <? max_initial_congestion_window params)
      (fun s => s <| max_cwnd_when_network_parameters_adjusted_ := max_initial_congestion_window params ⊗ kDefaultTCPMSS |>) s in
    let w := ApplyLimits (cwnd_limits (params_ s)) (Z.min (max_cwnd_when_network_parameters_adjusted_ s) (BDP_of (model_ s) effective_bandwidth)) in
    let s := s <| cwnd_ := if allow_cwnd_to_decrease params then w else Z.max w prior_cwnd |> in
    let* rate := FromBytesAndTimeDelta (cwnd_ s) (MinRtt (model_ s)) in
    Ok (s <| pacing_rate_ := Z.max (pacing_rate_ s) rate |>)
  else Ok s.

(** ** Events *)

(** src/quiche/gquiche/quic/core/congestion_control/bbr2_sender.cc:373-376 [Bbr2Sender::GetTargetCongestionWindow] *)
Definition GetTargetCongestionWindow s (gain : spec_float) : result Z :=
  let* bdp := BDP_gain (model_ s) (Model_BandwidthEstimate (model_ s)) gain in
  Ok (Z.max bdp (limit_min (cwnd_limits (params_ s)))).
(** src/quiche/gquiche/quic/core/congestion_control/bbr2_sender.cc:312-343 [Bbr2Sender::UpdatePacingRate] *)
Definition UpdatePacingRate s (bytes_acked : Z) : result (Bbr2Sender R) :=
  if BandwidthEstimate s =? 0 then Ok s
  else if model_bytes_acked (model_ s) =? bytes_acked then
    let* rate := FromBytesAndTimeDelta (cwnd_ s) (MinRtt (model_ s)) in Ok (s <| pacing_rate_ := rate |>)
  else
    let* target_rate := QuicBandwidth_mul (Model_BandwidthEstimate (model_ s)) (pacing_gain_ (model_ s)) in
    if full_bandwidth_reached_ (model_ s) then Ok (s <| pacing_rate_ := target_rate |>)
    else if decrease_startup_pacing_at_end_of_round (params_ s) && SFltb (pacing_gain_ (model_ s)) (startup_pacing_gain (params_ s))
    then Ok (s <| pacing_rate_ := target_rate |>)
    else if bool_decide (bw_lo_mode_ (params_ s) <> DEFAULT) && (0 <? loss_events_in_round_ (model_ s)) then Ok (s <| pacing_rate_ := target_rate |>)
    else Ok (when (pacing_rate_ s <? target_rate) (fun s => s <| pacing_rate_ := target_rate |>) s).
(** src/quiche/gquiche/quic/core/congestion_control/bbr2_sender.cc:345-371 [Bbr2Sender::UpdateCongestionWindow] *)
Definition UpdateCongestionWindow s (bytes_acked : Z) : result (Bbr2Sender R) :=
  let* target_cwnd := GetTargetCongestionWindow s (cwnd_gain_ (model_ s)) in
  let prior_cwnd := cwnd_ s in
  let w :=
    if full_bandwidth_reached_ (model_ s) then Z.min (prior_cwnd ⊕ bytes_acked) (target_cwnd ⊕ MaxAckHeight (model_ s))
    else if (prior_cwnd <? target_cwnd) || (prior_cwnd <? 2 ⊗ initial_cwnd_ s) then prior_cwnd ⊕ bytes_acked
    else prior_cwnd in
  let* l := GetCwndLimitsByMode s in
  Ok (s <| cwnd_ := ApplyLimits (cwnd_limits (params_ s)) (ApplyLimits l w) |>).
(** src/quiche/gquiche/quic/core/congestion_control/bbr2_sender.cc:250-271 [Bbr2Sender::OnCongestionEvent, modes].
    [allowed] changes may still be made; one more is a bug. *)
Fixpoint mode_loop (allowed : nat) s (prior_in_flight : Z) (event_time : QuicTime) e : result (Bbr2Sender R) :=
  let* r := mode_event s prior_in_flight event_time e in
  let '(s, next_mode) := r in
  if decide (next_mode = mode_ s) then Ok s
  else
    let* s := change_mode s next_mode event_time in
    match allowed with
    | O => Fault CheckFailed
    | S allowed => mode_loop allowed s prior_in_flight event_time e
    end.
(** src/quiche/gquiche/quic/core/congestion_control/bbr2_sender.cc:239-247 [Bbr2Sender::OnCongestionEvent, statistics] *)
Definition event_stats s e (lost : list LostPacket) : Bbr2Sender R :=
  when (InSlowStart s) (fun s =>
    let s := when (bool_decide (lost <> [])) (fun s => on_stats s (fun st =>
      st <| slowstart_packets_lost := slowstart_packets_lost st ⊕ Z.of_nat (length lost) |>
         <| slowstart_bytes_lost := slowstart_bytes_lost st ⊕ ev_bytes_lost e |>)) s in
    when (ev_end_of_round_trip e) (fun s => on_stats s (fun st => st <| slowstart_num_rtts := u32 (slowstart_num_rtts st + 1) |>)) s) s.
(** src/quiche/gquiche/quic/core/congestion_control/bbr2_sender.cc:222-310 [Bbr2Sender::OnCongestionEvent].  [least_unacked] is the unacked packet map's answer. *)
Definition OnCongestionEvent s (least_unacked : QuicPacketNumber) (prior_in_flight : Z) (event_time : QuicTime)
    (acked : list AckedPacket) (lost : list LostPacket) : result (Bbr2Sender R) :=
  let e := Bbr2CongestionEvent_init (cwnd_ s) prior_in_flight (IsProbingForBandwidth s) in
  let* r := OnCongestionEventStart (model_ s) (params_ s) e event_time acked lost in
  let '(m, e) := r in
  let s := s <| model_ := m |> in
  let s := event_stats s e lost in
  let* s := mode_loop kMaxModeChangesPerCongestionEvent s prior_in_flight event_time e in
  let* s := UpdatePacingRate s (ev_bytes_acked e) in
  let* _ := CHECK (negb (pacing_rate_ s =? 0)) in
  let* s := UpdateCongestionWindow s (ev_bytes_acked e) in
  let* _ := CHECK (negb (cwnd_ s =? 0)) in
  let* m := OnCongestionEventFinish (model_ s) least_unacked e in
  let s := s <| model_ := m |> <| last_sample_is_app_limited_ := ev_last_sample_is_app_limited e |> in
  Ok (when ((ev_bytes_in_flight e =? 0) && avoid_unnecessary_probe_rtt (params_ s)) (fun s => s <| last_quiescence_start_ := event_time |>) s).

(** src/quiche/gquiche/quic/core/congestion_control/bbr2_sender.cc:443-454 [Bbr2Sender::OnExitQuiescence] *)
Definition OnExitQuiescence s (now : QuicTime) : result (Bbr2Sender R) :=
  if negb (last_quiescence_start_ s =? QuicTime_Zero) then
    let '(s, next_mode) :=
      match mode_ s with
      | STARTUP => (s, STARTUP)
      | PROBE_BW => ProbeBw_OnExitQuiescence s now (Z.min now (last_quiescence_start_ s))
      | DRAIN => (s, DRAIN)
      | PROBE_RTT => (s, ProbeRtt_OnExitQuiescence s now)
      end in
    let* s := if decide (next_mode <> mode_ s) then change_mode s next_mode now else Ok s in
    Ok (s <| last_quiescence_start_ := QuicTime_Zero |>)
  else Ok s.
(** src/quiche/gquiche/quic/core/congestion_control/bbr2_sender.cc:378-399 [Bbr2Sender::OnPacketSent] *)
Definition OnPacketSent s (sent_time : QuicTime) (bytes_in_flight : Z) (packet_number : QuicPacketNumber) (bytes : Z)
    (is_retransmittable : HasRetransmittableData) : result (Bbr2Sender R) :=
  let s := when (InSlowStart s) (fun s => on_stats s (fun st =>
    st <| slowstart_packets_sent := slowstart_packets_sent st ⊕ 1 |> <| slowstart_bytes_sent := slowstart_bytes_sent st ⊕ bytes |>)) s in
  let* s := if (bytes_in_flight =? 0) && avoid_unnecessary_probe_rtt (params_ s) then OnExitQuiescence s sent_time else Ok s in
  let* m := Model_OnPacketSent (model_ s) sent_time bytes_in_flight packet_number bytes is_retransmittable in
  Ok (s <| model_ := m |>).
(** src/quiche/gquiche/quic/core/congestion_control/bbr2_sender.cc:401-403 [Bbr2Sender::OnPacketNeutered] *)
Definition OnPacketNeutered s (packet_number : QuicPacketNumber) : result (Bbr2Sender R) :=
  let* m := Model_OnPacketNeutered (model_ s) packet_number in Ok (s <| model_ := m |>).
(** src/quiche/gquiche/quic/core/congestion_control/bbr2_sender.cc:405-408 [Bbr2Sender::CanSend] *)
Definition CanSend s (bytes_in_flight : Z) : bool := bytes_in_flight <? GetCongestionWindow s.
(** src/quiche/gquiche/quic/core/congestion_control/bbr2_sender.cc:415-417 [Bbr2Sender::PacingRate] *)
Definition PacingRate s : Z := pacing_rate_ s.
(** src/quiche/gquiche/quic/core/congestion_control/bbr2_sender.cc:419-428 [Bbr2Sender::OnApplicationLimited] *)
Definition OnApplicationLimited s (bytes_in_flight : Z) : Bbr2Sender R :=
  if GetCongestionWindow s <=? bytes_in_flight then s else on_model s Model_OnApplicationLimited.
(** src/quiche/gquiche/quic/core/congestion_control/bbr2_sender.cc:435-437 [Bbr2Sender::PopulateConnectionStats] *)
Definition PopulateConnectionStats s (stats : QuicConnectionStats) : QuicConnectionStats :=
  stats <| stats_num_ack_aggregation_epochs := num_ack_aggregation_epochs (bandwidth_sampler_ (model_ s)) |>.
(** src/quiche/gquiche/quic/core/congestion_control/bbr2_sender.cc:456-459 [Bbr2Sender::ShouldSendProbingPacket] *)
Definition ShouldSendProbingPacket s : bool := IsProbingForBandwidth s.
(** src/quiche/gquiche/quic/core/congestion_control/bbr2_sender.h:43-46 [Bbr2Sender::InRecovery] *)
Definition InRecovery s : bool := false.
(** src/quiche/gquiche/quic/core/congestion_control/bbr2_sender.h:88-88 [Bbr2Sender::GetSlowStartThreshold] *)
Definition GetSlowStartThreshold s : Z := 0.
(** src/quiche/gquiche/quic/core/congestion_control/bbr2_sender.h:90-92 [Bbr2Sender::GetCongestionControlType] *)
Definition GetCongestionControlType s : Z := kBBRv2.
(** src/quiche/gquiche/quic/core/congestion_control/bbr2_sender.h:74-74 [Bbr2Sender::OnRetransmissionTimeout] *)
Definition OnRetransmissionTimeout s (packets_retransmitted : bool) : Bbr2Sender R := s.
(** src/quiche/gquiche/quic/core/congestion_control/bbr2_sender.h:76-76 [Bbr2Sender::OnConnectionMigration] *)
Definition OnConnectionMigration s : Bbr2Sender R := s.

(** * The loop over modes

    How many changes of mode an event can still make: STARTUP, DRAIN, PROBE_BW
    and PROBE_RTT follow each other, a phase other than PROBE_DOWN stays in
    PROBE_BW, and a PROBE_RTT just entered is not left. *)
Definition changes_left s : nat :=
  match mode_ s with
  | STARTUP => 3
  | DRAIN => 2
  | PROBE_BW => if decide (phase (cycle_ s) = PROBE_DOWN) then 1 else 0
  | PROBE_RTT => if exit_time_ s =? QuicTime_Zero then 0 else 2
  end.

(** What the phases of PROBE_BW leave alone. *)
Definition same_core s s' : Prop :=
  mode_ s' = mode_ s /\ params_ s' = params_ s /\ exit_time_ s' = exit_time_ s /\ cwnd_ s' = cwnd_ s /\ initial_cwnd_ s' = initial_cwnd_ s /\
  pacing_rate_ s' = pacing_rate_ s /\ last_quiescence_start_ s' = last_quiescence_start_ s /\
  slowstart_duration (connection_stats_ s') = slowstart_duration (connection_stats_ s) /\
  full_bandwidth_reached_ (model_ s') = full_bandwidth_reached_ (model_ s) /\ bandwidth_sampler_ (model_ s') = bandwidth_sampler_ (model_ s) /\
  min_rtt_filter_ (model_ s') = min_rtt_filter_ (model_ s) /\ cwnd_gain_ (model_ s') = cwnd_gain_ (model_ s) /\ pacing_gain_ (model_ s') = pacing_gain_ (model_ s).
#[export] Instance same_core_preorder : PreOrder same_core.
Proof. split; [done|]. unfold same_core. intros ???. naive_solver congruence. Qed.
Ltac core_frame := unfold same_core; cbn; split_and!; done.

Lemma RandomUint64_core s n r : RandomUint64 s n = Ok r -> same_core s r.1 /\ cycle_ r.1 = cycle_ s.
Proof. unfold RandomUint64. destruct (RandUint64 (random_ s)). intros; open_ok. cbn. split; [core_frame|done]. Qed.
Lemma ExitProbeDown_core s s' : ExitProbeDown s = Ok s' -> same_core s s' /\ phase (cycle_ s') = phase (cycle_ s).
Proof. unfold ExitProbeDown. intros; open_ok. destruct (has_advanced_max_bw _); (split; [core_frame|done]). Qed.
Lemma EnterProbeDown_core s a b t s' : EnterProbeDown s a b t = Ok s' -> same_core s s' /\ phase (cycle_ s') = PROBE_DOWN.
Proof.
  unfold EnterProbeDown. intros; open_ok. apply RandomUint64_core in Ex as [C1 K1], Ex0 as [C2 K2]. cbn in *.
  split; [|rewrite K2; cbn; by rewrite K1]. etrans; [|etrans; [exact C2|core_frame]]. etrans; [|core_frame]. etrans; [|exact C1]. core_frame.
Qed.
Lemma EnterProbeCruise_core s t s' : EnterProbeCruise s t = Ok s' -> same_core s s' /\ phase (cycle_ s') = PROBE_CRUISE.
Proof.
  unfold EnterProbeCruise. intros H1. assert (C : forall s0, same_core s0 (on_model s0 (fun m => cap_inflight_lo m (params_ s0) (inflight_hi_ m)))).
  { intros s0. unfold cap_inflight_lo, on_model. destruct (ignore_inflight_lo _); [core_frame|]. destruct (_ && _); core_frame. }
  open_ok; (split; [|done]).
  - apply ExitProbeDown_core in Ex as [C1 _]. etrans; [exact C1|]. etrans; [apply C|core_frame].
  - etrans; [apply C|core_frame].
Qed.
Lemma EnterProbeRefill_core s n t s' : EnterProbeRefill s n t = Ok s' -> same_core s s' /\ phase (cycle_ s') = PROBE_REFILL.
Proof.
  unfold EnterProbeRefill. intros; open_ok; (split; [|done]); [|core_frame]. apply ExitProbeDown_core in Ex as [C1 _]. etrans; [exact C1|core_frame].
Qed.
Lemma RaiseInflightHighSlope_core s s' : RaiseInflightHighSlope s = Ok s' -> same_core s s' /\ phase (cycle_ s') = phase (cycle_ s).
Proof. unfold RaiseInflightHighSlope. intros; open_ok. split; [core_frame|done]. Qed.
Lemma EnterProbeUp_core s t s' : EnterProbeUp s t = Ok s' -> same_core s s' /\ phase (cycle_ s') = PROBE_UP.
Proof. unfold EnterProbeUp. intros; open_ok. apply RaiseInflightHighSlope_core in Ex0 as [C K]. split; [etrans; [|etrans; [exact C|core_frame]]; core_frame|done]. Qed.
Lemma MaybeAdaptUpperBounds_core s e r : MaybeAdaptUpperBounds s e = Ok r -> same_core s r.1 /\ phase (cycle_ r.1) = phase (cycle_ s).
Proof.
  unfold MaybeAdaptUpperBounds, cut_inflight_hi. intros; open_ok; cbn; try (split; [core_frame|done]).
  unfold when. destruct (_ <? _); (split; [core_frame|done]).
Qed.
Lemma IsTimeToProbeBandwidth_core s e r : IsTimeToProbeBandwidth s e = Ok r -> same_core s r.1 /\ cycle_ r.1 = cycle_ s /\ model_ r.1 = model_ s.
Proof. unfold IsTimeToProbeBandwidth. intros; open_ok; (split; [core_frame|done]). Qed.
Lemma ProbeInflightHighUpward_core s e s' : ProbeInflightHighUpward s e = Ok s' -> same_core s s' /\ phase (cycle_ s') = phase (cycle_ s).
Proof.
  unfold ProbeInflightHighUpward. intros; open_ok; try (split; [core_frame|done]);
    apply RaiseInflightHighSlope_core in H0 as [C K]; (split; [etrans; [|exact C]; core_frame|done]).
Qed.

(** The phases follow each other. *)
Definition phase_move (old new : CyclePhase) : bool :=
  match old, new with
  | PROBE_UP, (PROBE_UP | PROBE_DOWN) | PROBE_DOWN, (PROBE_DOWN | PROBE_CRUISE | PROBE_REFILL)
  | PROBE_CRUISE, (PROBE_CRUISE | PROBE_REFILL) | PROBE_REFILL, (PROBE_REFILL | PROBE_UP) => true
  | _, _ => false
  end.
Ltac phase_known := repeat match goal with E : CHECK (bool_decide (phase (cycle_ _) = _)) = Ok _ |- _ => apply CHECK_Ok, bool_decide_eq_true in E end.
Lemma probe_down_first_round_core s e r : probe_down_first_round s e = Ok r -> phase (cycle_ s) = PROBE_DOWN ->
  same_core s r.1 /\ phase (cycle_ r.1) = if r.2 then PROBE_REFILL else PROBE_DOWN.
Proof.
  unfold probe_down_first_round. intros E Hp. destruct (_ && _); [|apply Ok_inj in E as <-; done]. cbn zeta in E.
  set (s0 := when _ _ _) in E.
  assert (H0 : same_core s s0 /\ phase (cycle_ s0) = PROBE_DOWN) by (unfold s0, when; destruct (negb _); (split; [core_frame|done])).
  clearbody s0. destruct H0 as [C0 K0]. apply rbind_Ok in E as (risky & _ & (refill & _ & E)%rbind_Ok). destruct refill.
  - apply rbind_Ok in E as (s1 & E1 & E). apply Ok_inj in E as <-. apply EnterProbeRefill_core in E1 as [C1 K1]. split; [by etrans|done].
  - apply Ok_inj in E as <-. done.
Qed.
Lemma UpdateProbeDown_core s n e s' : UpdateProbeDown s n e = Ok s' -> same_core s s' /\ phase_move (phase (cycle_ s)) (phase (cycle_ s')) = true.
Proof.
  unfold UpdateProbeDown. intros (u & Hp & (r & E1 & E)%rbind_Ok)%rbind_Ok. phase_known. rewrite Hp.
  apply probe_down_first_round_core in E1 as H1; [|done].
  destruct r as [s1 dn]. cbn [fst snd] in H1. destruct H1 as [C1 K1]. destruct dn; [apply Ok_inj in E as <-; rewrite K1; done|].
  apply rbind_Ok in E as (r & E2 & E). apply MaybeAdaptUpperBounds_core in E2 as [C2 K2].
  apply rbind_Ok in E as ([s3 pb] & E3 & E). apply IsTimeToProbeBandwidth_core in E3 as (C3 & K3 & _). cbn [fst] in C3, K3.
  assert (C : same_core s s3) by (etrans; [exact C1|]; by etrans). rewrite <- K3 in K2. rewrite K1 in K2.
  destruct pb; [apply EnterProbeRefill_core in E as [C4 ->]; split; [by etrans|done]|].
  destruct (HasStayedLongEnoughInProbeDown s3 e); [apply EnterProbeCruise_core in E as [C4 ->]; split; [by etrans|done]|].
  apply rbind_Ok in E as (h & _ & E). destruct (h <? _); [apply Ok_inj in E as <-; by rewrite K2|].
  destruct (_ <? _); [apply EnterProbeCruise_core in E as [C4 ->]; split; [by etrans|done]|]. apply Ok_inj in E as <-. by rewrite K2.
Qed.
Lemma UpdateProbeCruise_core s e s' : UpdateProbeCruise s e = Ok s' -> same_core s s' /\ phase_move (phase (cycle_ s)) (phase (cycle_ s')) = true.
Proof.
  unfold UpdateProbeCruise. intros (u & Hp & (r & E1 & (u' & _ & ([s2 pb] & E2 & E)%rbind_Ok)%rbind_Ok)%rbind_Ok)%rbind_Ok. phase_known.
  apply MaybeAdaptUpperBounds_core in E1 as [C1 K1]. apply IsTimeToProbeBandwidth_core in E2 as (C2 & K2 & _). cbn [fst] in C2, K2.
  assert (C : same_core s s2) by (by etrans). rewrite Hp in K1 |- *. destruct pb.
  - apply EnterProbeRefill_core in E as [C3 ->]. split; [by etrans|done].
  - apply Ok_inj in E as <-. by rewrite K2, K1.
Qed.
Lemma UpdateProbeRefill_core s e s' : UpdateProbeRefill s e = Ok s' -> same_core s s' /\ phase_move (phase (cycle_ s)) (phase (cycle_ s')) = true.
Proof.
  unfold UpdateProbeRefill. intros (u & Hp & (r & E1 & (u' & _ & E)%rbind_Ok)%rbind_Ok)%rbind_Ok. phase_known.
  apply MaybeAdaptUpperBounds_core in E1 as [C1 K1]. rewrite Hp in *. destruct (_ && _).
  - apply EnterProbeUp_core in E as [C2 ->]. split; [by etrans|done].
  - apply Ok_inj in E as <-. by rewrite K1.
Qed.
Lemma UpdateProbeUp_core s n e s' : UpdateProbeUp s n e = Ok s' -> same_core s s' /\ phase_move (phase (cycle_ s)) (phase (cycle_ s')) = true.
Proof.
  unfold UpdateProbeUp. intros (u & Hp & (r & E1 & E)%rbind_Ok)%rbind_Ok. phase_known. rewrite Hp in *.
  apply MaybeAdaptUpperBounds_core in E1 as [C1 K1]. rewrite Hp in K1. destruct (decide _).
  { apply EnterProbeDown_core in E as [C2 ->]. split; [by etrans|done]. }
  apply rbind_Ok in E as (s2 & E2 & E). apply ProbeInflightHighUpward_core in E2 as [C2 K2]. rewrite K1 in K2.
  apply rbind_Ok in E as (h & _ & E). apply rbind_Ok in E as (q & _ & E).
  destruct (_ || q); [apply EnterProbeDown_core in E as [C3 ->]; split; [etrans; [exact C1|]; by etrans|done]|].
  apply Ok_inj in E as <-. rewrite K2. split; [by etrans|done].
Qed.

Lemma count_rounds_core s e t : same_core s (count_rounds s e t) /\ phase (cycle_ (count_rounds s e t)) = phase (cycle_ s).
Proof.
  unfold count_rounds, when. destruct (ev_end_of_round_trip e); [|done].
  destruct (negb (cycle_start_time (cycle_ s) =? t)); cbn; destruct (negb _); (split; [core_frame|done]).
Qed.

(** An event in PROBE_BW updates the phase, and switches to PROBE_RTT only from a PROBE_DOWN that ends with an expired RTT. *)
Lemma ProbeBw_event_spec s n t e r : ProbeBw_OnCongestionEvent s n t e = Ok r ->
  exists s1, same_core s s1 /\ phase_move (phase (cycle_ s)) (phase (cycle_ s1)) = true /\
    ((r.2 = PROBE_BW /\ r.1 = on_model s1 (set_gains (PacingGainForPhase s1 (phase (cycle_ s1))) (probe_bw_cwnd_gain (params_ s1)))) \/
     (r.2 = PROBE_RTT /\ phase (cycle_ s) = PROBE_DOWN /\ phase (cycle_ s1) <> PROBE_DOWN /\
      exists m, MaybeExpireMinRtt (model_ s1) (params_ s1) e = (m, true) /\ r.1 = s1 <| model_ := m |>)).
Proof.
  unfold ProbeBw_OnCongestionEvent. intros (u & Hp & ([s2 sw] & E & E')%rbind_Ok)%rbind_Ok. apply Ok_inj in E' as <-. cbn [fst snd].
  destruct (count_rounds_core s e t) as [C0 K0]. set (s0 := count_rounds s e t) in *. clearbody s0.
  assert (H0 : forall s1, same_core s0 s1 -> phase_move (phase (cycle_ s0)) (phase (cycle_ s1)) = true -> s2 = s1 -> sw = false ->
    exists s1, same_core s s1 /\ phase_move (phase (cycle_ s)) (phase (cycle_ s1)) = true /\
    ((PROBE_BW = PROBE_BW /\ on_model s2 (set_gains (PacingGainForPhase s2 (phase (cycle_ s2))) (probe_bw_cwnd_gain (params_ s2))) =
       on_model s1 (set_gains (PacingGainForPhase s1 (phase (cycle_ s1))) (probe_bw_cwnd_gain (params_ s1)))) \/
     (PROBE_BW = PROBE_RTT /\ phase (cycle_ s) = PROBE_DOWN /\ phase (cycle_ s1) <> PROBE_DOWN /\
      exists m, MaybeExpireMinRtt (model_ s1) (params_ s1) e = (m, true) /\ on_model s2 (set_gains (PacingGainForPhase s2 (phase (cycle_ s2))) (probe_bw_cwnd_gain (params_ s2))) = s1 <| model_ := m |>))).
  { intros s1 C1 M1 -> ->. exists s1. rewrite K0 in M1. split; [by etrans|]. split; [done|]. by left. }
  destruct (phase (cycle_ s0)) eqn:Eph.
  - rewrite bool_decide_false in Hp by (intros Hx; apply Hx; congruence). done.
  - apply rbind_Ok in E as (s3 & E & E'). apply UpdateProbeUp_core in E as [C M]. rewrite Eph in M. injection E' as <- <-. cbn [negb when]. by apply (H0 s3).
  - apply rbind_Ok in E as (s3 & E & E'). apply UpdateProbeDown_core in E as [C M]. rewrite Eph in M. destruct (decide _) as [Hd|Hd].
    + destruct (MaybeExpireMinRtt (model_ s3) (params_ s3) e) as [m ex] eqn:Ex. injection E' as <- <-. destruct ex; cbn [negb when].
      * exists s3. rewrite <- K0. split; [by etrans|]. split; [done|]. right. split; [done|]. split; [done|]. split; [done|]. by exists m.
      * assert (Em : m = model_ s3) by (unfold MaybeExpireMinRtt in Ex; repeat case_match; by injection Ex). subst m.
        apply (H0 s3); try done. by destruct s3.
    + injection E' as <- <-. cbn [negb when]. by apply (H0 s3).
  - apply rbind_Ok in E as (s3 & E & E'). apply UpdateProbeCruise_core in E as [C M]. rewrite Eph in M. injection E' as <- <-. cbn [negb when]. by apply (H0 s3).
  - apply rbind_Ok in E as (s3 & E & E'). apply UpdateProbeRefill_core in E as [C M]. rewrite Eph in M. injection E' as <- <-. cbn [negb when]. by apply (H0 s3).
Qed.

(** ** The other modes *)

(** What every mode leaves alone during an event. *)
Definition same_frame s s' : Prop :=
  params_ s' = params_ s /\ cwnd_ s' = cwnd_ s /\ initial_cwnd_ s' = initial_cwnd_ s /\ pacing_rate_ s' = pacing_rate_ s /\
  last_quiescence_start_ s' = last_quiescence_start_ s /\ bandwidth_sampler_ (model_ s') = bandwidth_sampler_ (model_ s).
#[export] Instance same_frame_preorder : PreOrder same_frame.
Proof. split; [done|]. unfold same_frame. intros ???. naive_solver congruence. Qed.
Lemma core_same_frame s s' : same_core s s' -> same_frame s s'.
Proof. unfold same_core, same_frame. tauto. Qed.
Ltac event_frame := unfold same_frame; cbn; split_and!; done.

(** What an event in STARTUP also leaves alone. *)
Definition same_startup s s' : Prop :=
  same_frame s s' /\ mode_ s' = mode_ s /\ cycle_ s' = cycle_ s /\ slowstart_duration (connection_stats_ s') = slowstart_duration (connection_stats_ s) /\
  inflight_lo_ (model_ s') = inflight_lo_ (model_ s) /\ cwnd_gain_ (model_ s') = cwnd_gain_ (model_ s) /\ min_rtt_filter_ (model_ s') = min_rtt_filter_ (model_ s).
#[export] Instance same_startup_preorder : PreOrder same_startup.
Proof. split; [done|]. unfold same_startup. intros ???. intros (? & ?) (? & ?). split; [by etrans|]. naive_solver congruence. Qed.
Ltac startup_frame := unfold same_startup, same_frame; cbn; split_and!; done.

Lemma CheckExcessiveLosses_frame s e s' : CheckExcessiveLosses s e = Ok s' -> same_startup s s' /\ pacing_gain_ (model_ s') = pacing_gain_ (model_ s).
Proof. unfold CheckExcessiveLosses. intros; open_ok; (split; [startup_frame|done]). Qed.
Lemma CheckBandwidthGrowth_frame s e m g : CheckBandwidthGrowth (model_ s) (params_ s) e = Ok (m, g) ->
  same_startup s (s <| model_ := m |>) /\ pacing_gain_ m = pacing_gain_ (model_ s).
Proof.
  unfold CheckBandwidthGrowth. intros; open_ok; repeat match goal with E : (_, _) = (_, _) |- _ => injection E as <- <- end; (split; [startup_frame|done]).
Qed.
Lemma startup_new_gain_frame s s' : startup_new_gain s = Ok s' -> same_startup s s'.
Proof.
  unfold startup_new_gain. destruct (0 <? _); [|intros E; by apply Ok_inj in E as <-].
  intros (rate & _ & E)%rbind_Ok. apply Ok_inj in E as <-. unfold when. destruct (_ <? _); startup_frame.
Qed.
Lemma Startup_event_spec s e r : Startup_OnCongestionEvent s e = Ok r ->
  same_startup s r.1 /\ r.2 = (if full_bandwidth_reached_ (model_ r.1) then DRAIN else STARTUP) /\
  (decrease_startup_pacing_at_end_of_round (params_ s) = false -> pacing_gain_ (model_ r.1) = pacing_gain_ (model_ s)).
Proof.
  unfold Startup_OnCongestionEvent. intros (s1 & E1 & (s2 & E2 & E)%rbind_Ok)%rbind_Ok. apply Ok_inj in E as <-. cbn [fst snd].
  assert (H1 : same_startup s s1 /\ pacing_gain_ (model_ s1) = pacing_gain_ (model_ s)).
  { destruct (_ && _); [|apply Ok_inj in E1 as <-; done]. apply rbind_Ok in E1 as ([m g] & Eg & E1).
    apply CheckBandwidthGrowth_frame in Eg as [Cg Pg]. cbn zeta in E1. destruct (_ || _).
    - apply CheckExcessiveLosses_frame in E1 as [C1 P1]. split; [by etrans|by rewrite P1].
    - apply Ok_inj in E1 as <-. done. }
  clear E1. destruct H1 as [C1 P1]. assert (Ep : params_ s1 = params_ s) by apply C1. rewrite Ep in E2.
  assert (H2 : same_startup s1 s2 /\ (decrease_startup_pacing_at_end_of_round (params_ s) = false -> s2 = s1)).
  { destruct (decrease_startup_pacing_at_end_of_round (params_ s)); [|apply Ok_inj in E2 as <-; done]. split; [|done].
    apply rbind_Ok in E2 as (u & _ & E2). destruct (_ && _); [|apply Ok_inj in E2 as <-; done].
    apply rbind_Ok in E2 as (s3 & E3%startup_new_gain_frame & E2). apply Ok_inj in E2 as <-. etrans; [exact E3|startup_frame]. }
  destruct H2 as [C2 P2]. split; [by etrans|]. split; [done|]. intros Hd. by rewrite P2.
Qed.

Lemma Drain_event_spec s e r : Drain_OnCongestionEvent s e = Ok r ->
  r.1 = on_model s (set_gains (drain_pacing_gain (params_ s)) (drain_cwnd_gain (params_ s))) /\
  r.2 = (if ev_bytes_in_flight e <=? DrainTarget s then PROBE_BW else DRAIN).
Proof. unfold Drain_OnCongestionEvent. intros (u & _ & E)%rbind_Ok. apply Ok_inj in E as <-. done. Qed.

(** PROBE_RTT is left once its exit time is set and has passed. *)
Lemma ProbeRtt_event_spec s e r : ProbeRtt_OnCongestionEvent s e = Ok r ->
  (r.2 = PROBE_RTT /\ (r.1 = s \/ exit_time_ s = QuicTime_Zero /\ r.1 = s <| exit_time_ := QuicTime_add (ev_time e) (probe_rtt_duration (params_ s)) |>)) \/
  (r = (s, PROBE_BW) /\ exit_time_ s <> QuicTime_Zero /\ exit_time_ s < ev_time e).
Proof.
  unfold ProbeRtt_OnCongestionEvent. destruct (Z.eqb_spec (exit_time_ s) QuicTime_Zero) as [Ez|Ez].
  - intros (target & _ & E)%rbind_Ok. apply Ok_inj in E as <-. cbn. left. split; [done|]. unfold when. destruct (_ || _); auto.
  - intros E. apply Ok_inj in E as <-. cbn. destruct (Z.ltb_spec (exit_time_ s) (ev_time e)); [right|left]; auto.
Qed.

Lemma ProbeBw_Enter_spec s t s' : ProbeBw_Enter s t = Ok s' -> same_core s s' /\
  ((phase (cycle_ s) = PROBE_NOT_STARTED /\ phase (cycle_ s') = PROBE_DOWN) \/
   (phase (cycle_ s') = phase (cycle_ s) /\ (phase (cycle_ s) = PROBE_CRUISE \/ phase (cycle_ s) = PROBE_REFILL))).
Proof.
  unfold ProbeBw_Enter. destruct (decide _) as [Hn|Hn].
  - intros [C K]%EnterProbeDown_core. split; [done|by left].
  - intros (u & Hp & E)%rbind_Ok. apply CHECK_Ok, bool_decide_eq_true in Hp. cbn -[EnterProbeCruise EnterProbeRefill] in E.
    destruct Hp as [Hp|Hp]; rewrite Hp in E; [apply EnterProbeCruise_core in E as [C ->]|apply EnterProbeRefill_core in E as [C ->]];
      (split; [etrans; [|exact C]; core_frame|right; by rewrite Hp; auto]).
Qed.
Lemma change_mode_spec s next t s' : change_mode s next t = Ok s' ->
  exists s1, mode_leave s t = Ok s1 /\ same_frame s s1 /\ same_frame s s' /\ mode_ s' = next /\
    match next with
    | STARTUP => False
    | DRAIN => s' = s1 <| mode_ := DRAIN |>
    | PROBE_BW => ProbeBw_Enter (s1 <| mode_ := PROBE_BW |>) t = Ok s'
    | PROBE_RTT => s' = ProbeRtt_Enter (s1 <| mode_ := PROBE_RTT |>)
    end.
Proof.
  unfold change_mode. intros (s1 & E1 & E)%rbind_Ok. exists s1. split; [done|].
  assert (F1 : same_frame s s1).
  { unfold mode_leave, Startup_Leave in E1. destruct (mode_ s); open_ok; event_frame. }
  split; [done|]. unfold mode_enter in E. cbn -[ProbeBw_Enter] in E. destruct next; [done|apply Ok_inj in E as <-; split; [exact F1|done]| |apply Ok_inj in E as <-; split; [exact F1|done]].
  pose proof E as [C _]%ProbeBw_Enter_spec. split; [etrans; [exact F1|]; etrans; [|by apply core_same_frame]; event_frame|]. split; [|done]. apply C.
Qed.

(** A change of mode uses up one of the changes left. *)
Lemma mode_event_frame s n t e r : mode_event s n t e = Ok r -> same_frame s r.1 /\ mode_ r.1 = mode_ s.
Proof.
  unfold mode_event. destruct (mode_ s) eqn:Em.
  - intros [(F & M & _) _]%Startup_event_spec. rewrite M. done.
  - intros [-> _]%Drain_event_spec. split; [event_frame|done].
  - intros (s1 & C & _ & [(_ & ->)|(_ & _ & _ & m & Hm & ->)])%ProbeBw_event_spec; (split; [|by rewrite <- Em; apply C]).
    + etrans; [apply core_same_frame; exact C|event_frame].
    + etrans; [apply core_same_frame; exact C|]. unfold MaybeExpireMinRtt in Hm. repeat case_match; injection Hm as <-; (done || event_frame).
  - intros [(_ & [->|(_ & ->)])|(-> & _)]%ProbeRtt_event_spec; (split; [event_frame|done]).
Qed.
Lemma change_decreases s n t e r s' : mode_event s n t e = Ok r -> r.2 <> mode_ r.1 -> change_mode r.1 r.2 t = Ok s' ->
  (changes_left s' < changes_left s)%nat.
Proof.
  intros E Hn (s1 & El & F1 & _ & Hm & Hs')%change_mode_spec. pose proof E as [_ Em]%mode_event_frame. rewrite Em in Hn.
  unfold mode_event in E. unfold changes_left. rewrite Hm. unfold mode_leave in El. rewrite Em in El. destruct (mode_ s) eqn:Es.
  - apply Startup_event_spec in E as (_ & E2 & _). destruct (full_bandwidth_reached_ _); rewrite E2 in *; [lia|done].
  - apply Drain_event_spec in E as (_ & E2). destruct (_ <=? _); rewrite E2 in *; [|done]. case_decide; lia.
  - apply ProbeBw_event_spec in E as (s2 & _ & _ & [(E2 & _)|(E2 & Hd & _)]); rewrite E2 in *; [done|].
    rewrite Hs'. cbn. rewrite decide_True by done. lia.
  - apply ProbeRtt_event_spec in E as [(E2 & _)|(-> & Hz & _)]; [by rewrite E2 in Hn|]. cbn in *.
    destruct (Z.eqb_spec (exit_time_ s) QuicTime_Zero); [done|]. case_decide; lia.
Qed.

Lemma mode_loop_enough n : forall s k p t e, (changes_left s <= n)%nat -> mode_loop (n + k) s p t e = mode_loop n s p t e.
Proof.
  induction n as [|n IH]; intros s k p t e Hn; cbn [Nat.add]; [destruct k|]; [done|..]; cbn [mode_loop];
    (destruct (mode_event s p t e) as [[s1 next]|f] eqn:E; cbn [rbind]; [|done]); (destruct (decide _) as [|Hd]; [done|]);
    (destruct (change_mode s1 next t) as [s2|f] eqn:Ec; cbn [rbind]; [|done]); pose proof (change_decreases s p t e (s1, next) s2 E Hd Ec).
  - lia.
  - apply IH. lia.
Qed.

Lemma mode_loop_frame n : forall s p t e s', mode_loop n s p t e = Ok s' -> same_frame s s'.
Proof.
  induction n as [|n IH]; intros s p t e s'; cbn [mode_loop]; intros ([s1 next] & [F _]%mode_event_frame & E)%rbind_Ok; cbn [fst] in F;
    (destruct (decide _); [by apply Ok_inj in E as <-|]); apply rbind_Ok in E as (s2 & (s3 & _ & _ & F2 & _)%change_mode_spec & E); [done|].
  apply IH in E. etrans; [exact F|]. by etrans.
Qed.

(** * Creation succeeds *)

Lemma kInitialPacingGain_ok : gain_ok kInitialPacingGain.
Proof. by vm_compute. Qed.
(** The window a new sender starts with: that of the BBR sender it replaces, if there is one. *)
Definition first_window (n mx : Z) (old : option (BbrSender R)) : Z :=
  ApplyLimits (mkLimits kDefaultMinimumCongestionWindow (mx * kDefaultTCPMSS))
    (match old with Some o => Bbr.GetCongestionWindow o | None => n * kDefaultTCPMSS end).
Lemma first_window_bounds n mx old : 4 <= mx -> kDefaultMinimumCongestionWindow <= first_window n mx old <= mx * kDefaultTCPMSS.
Proof. intros Hm. unfold first_window, ApplyLimits. cbn -[Z.mul]. change kDefaultMinimumCongestionWindow with 5840. change kDefaultTCPMSS with 1460. lia. Qed.
Lemma first_window_none n mx : 4 <= n <= mx -> first_window n mx None = n * kDefaultTCPMSS.
Proof. intros Hn. unfold first_window, ApplyLimits. cbn -[Z.mul]. change kDefaultMinimumCongestionWindow with 5840. change kDefaultTCPMSS with 1460. lia. Qed.
Lemma Bbr2Sender_init_ok now rtt_stats n mx random stats old :
  now <> QuicTime_Infinite -> 0 < SmoothedOrInitialRtt rtt_stats -> 0 <= n < 2 ^ 50 -> 4 <= mx < 2 ^ 50 -> first_window n mx old < 2 ^ 33 ->
  exists s, Bbr2Sender_init now rtt_stats n mx random stats old = Ok s /\ mode_ s = STARTUP /\ cwnd_ s = first_window n mx old /\
    initial_cwnd_ s = first_window n mx old /\
    params_ s = Bbr2Params_init kDefaultMinimumCongestionWindow (mx * kDefaultTCPMSS) /\
    model_ s = set_gains (startup_pacing_gain (params_ s)) (startup_cwnd_gain (params_ s))
      (Bbr2NetworkModel_init (params_ s) (SmoothedOrInitialRtt rtt_stats) (last_update_time_ rtt_stats) (f32_of_Z 1) kInitialPacingGain (sampler_ <$> old)) /\
    cycle_ s = Cycle_init /\ IsRunning (slowstart_duration (connection_stats_ s)) = true /\ last_quiescence_start_ s = QuicTime_Zero /\ 0 <= pacing_rate_ s.
Proof.
  intros Hnow Hr Hn Hm Hw. pose proof (first_window_bounds n mx old ltac:(lia)) as Hb. unfold Bbr2Sender_init. cbn zeta. change kDefaultTCPMSS with 1460 in *.
  rewrite (u64_small (n * 1460)), (u64_small (mx * 1460)) by lia. set (p := Bbr2Params_init _ _).
  assert (Ew : ApplyLimits (cwnd_limits p) (match old with Some o => Bbr.GetCongestionWindow o | None => n * 1460 end) = first_window n mx old) by done.
  rewrite Ew. clearbody p. change kDefaultMinimumCongestionWindow with 5840 in Hb.
  destruct (FromBytes_bound (first_window n mx old) (SmoothedOrInitialRtt rtt_stats)) as (r & -> & Hbw); [lia|lia|]. cbn [rbind].
  destruct (bandwidth_mul_ok r kInitialPacingGain Hbw kInitialPacingGain_ok) as (v & Ev). rewrite Ev. cbn [rbind].
  unfold Startup_init, Accumulator_Start. cbn -[IsRunning Bbr2NetworkModel_init].
  assert (E : forall x, IsRunning (mkAccumulator x now) = true) by (intros x; unfold IsRunning; cbn; destruct (Z.eqb_spec now NotRunningSentinel); done).
  change (IsRunning QuicTimeAccumulator_init) with false. cbn -[IsRunning Bbr2NetworkModel_init]. rewrite E. cbn -[IsRunning Bbr2NetworkModel_init].
  eexists. split; [done|]. cbn -[IsRunning]. split_and!; try done. unfold QuicBandwidth_mul in Ev. apply rbind_Ok in Ev as (z & _ & Ev). apply Ok_inj in Ev as <-.
  unfold QuicBandwidth_mk. zcases; lia.
Qed.

(** * Runs *)

Inductive bbr2_call :=
  | B2Event (least_unacked : QuicPacketNumber) (prior_in_flight : Z) (event_time : QuicTime) (acked : list AckedPacket) (lost : list LostPacket)
  | B2Sent (sent_time : QuicTime) (bytes_in_flight : Z) (pn : QuicPacketNumber) (bytes : Z) (d : HasRetransmittableData)
  | B2Neutered (pn : QuicPacketNumber)
  | B2AppLimited (bytes_in_flight : Z)
  | B2Timeout (packets_retransmitted : bool)
  | B2InitialWindow (packets : Z)
  | B2Adjust (params : NetworkParams)
  | B2Config (o : Bbr2Options).
Definition bbr2_step s (c : bbr2_call) : result (Bbr2Sender R) :=
  match c with
  | B2Event least n t acked lost => OnCongestionEvent s least n t acked lost
  | B2Sent t n pn bytes d => OnPacketSent s t n pn bytes d
  | B2Neutered pn => OnPacketNeutered s pn
  | B2AppLimited n => Ok (OnApplicationLimited s n)
  | B2Timeout b => Ok (OnRetransmissionTimeout s b)
  | B2InitialWindow n => Ok (SetInitialCongestionWindowInPackets s n)
  | B2Adjust params => AdjustNetworkParameters s params
  | B2Config o => Ok (SetFromConfig s o)
  end.

(** ** The window *)

Lemma when_keeps {A} (Q : A -> Prop) (b : bool) f x : (forall x, Q x -> Q (f x)) -> Q x -> Q (when b f x).
Proof. destruct b; unfold when; auto. Qed.

Definition window_ok (mx : Z) s : Prop :=
  cwnd_limits (params_ s) = mkLimits kDefaultMinimumCongestionWindow mx /\ kDefaultMinimumCongestionWindow <= cwnd_ s <= mx.
Lemma ApplyLimits_in mn mx x : mn <= mx -> mn <= ApplyLimits (mkLimits mn mx) x <= mx.
Proof. unfold ApplyLimits. cbn. lia. Qed.
Lemma window_ok_set mx s s' x : window_ok mx s -> cwnd_limits (params_ s') = cwnd_limits (params_ s) ->
  cwnd_ s' = ApplyLimits (cwnd_limits (params_ s)) x -> window_ok mx s'.
Proof. intros [Hl Hw] El Ew. split; [congruence|]. rewrite Ew, Hl. apply ApplyLimits_in. lia. Qed.
Lemma window_ok_frame mx s s' : window_ok mx s -> same_frame s s' -> window_ok mx s'.
Proof. intros [Hl Hw] (Ep & Ew & _). split; congruence. Qed.

Lemma OnExitQuiescence_frame s t s' : OnExitQuiescence s t = Ok s' -> params_ s' = params_ s /\ cwnd_ s' = cwnd_ s.
Proof.
  unfold OnExitQuiescence. destruct (negb _); [|intros E; by apply Ok_inj in E as <-].
  set (r := match mode_ s with STARTUP => _ | _ => _ end). assert (F : same_frame s r.1) by (unfold r; destruct (mode_ s); event_frame).
  clearbody r. destruct r as [s1 next]. cbn [fst] in F. intros (s2 & E2 & E)%rbind_Ok. apply Ok_inj in E as <-. cbn.
  assert (F2 : same_frame s s2).
  { destruct (decide _); [|by apply Ok_inj in E2 as <-]. apply change_mode_spec in E2 as (s3 & _ & _ & F2 & _). by etrans. }
  split; apply F2.
Qed.

(** An event leaves a window within the limits of the mode it ends in. *)
Lemma event_window s least n t a l s' : OnCongestionEvent s least n t a l = Ok s' ->
  params_ s' = params_ s /\
  exists w lim, GetCwndLimitsByMode s' = Ok lim /\ cwnd_ s' = ApplyLimits (cwnd_limits (params_ s)) (ApplyLimits lim w).
Proof.
  unfold OnCongestionEvent. cbn zeta. intros ([m e] & _ & E)%rbind_Ok.
  set (s0 := event_stats _ e l) in E.
  assert (E0 : params_ s0 = params_ s) by (unfold s0, event_stats, when; repeat case_match; done).
  clearbody s0. apply rbind_Ok in E as (s1 & F1%mode_loop_frame & E). apply rbind_Ok in E as (s2 & E2 & E).
  assert (F2 : params_ s2 = params_ s1) by (unfold UpdatePacingRate, when in E2; open_ok; repeat case_match; done).
  apply rbind_Ok in E as (u & _ & E). apply rbind_Ok in E as (s3 & E3 & E). apply rbind_Ok in E as (u' & _ & E).
  apply rbind_Ok in E as (m' & Em & E). apply Ok_inj in E as <-.
  assert (Ep : params_ s3 = params_ s /\ exists w lim, GetCwndLimitsByMode s3 = Ok lim /\ cwnd_ s3 = ApplyLimits (cwnd_limits (params_ s)) (ApplyLimits lim w)).
  { unfold UpdateCongestionWindow in E3. apply rbind_Ok in E3 as (tg & _ & E3). cbn zeta in E3. apply rbind_Ok in E3 as (lim & El & E3).
    apply Ok_inj in E3 as <-. destruct F1 as (F1 & _). assert (Ep : params_ s2 = params_ s) by congruence. rewrite <- Ep.
    split; [done|]. eexists _, lim. split; [exact El|done]. }
  destruct Ep as (Ep & w & lim & El & Ew). assert (El' : GetCwndLimitsByMode (s3 <| model_ := m' |>) = GetCwndLimitsByMode s3).
  { unfold OnCongestionEventFinish, when in Em. apply rbind_Ok in Em as (smp & _ & Em). apply Ok_inj in Em as <-.
    destruct (ev_end_of_round_trip e); reflexivity. }
  rewrite <- El' in El. unfold when. destruct (_ && _); (split; [exact Ep|]); exists w, lim; (split; [exact El|exact Ew]).
Qed.

Lemma bbr2_step_window mx s c s' : window_ok mx s -> bbr2_step s c = Ok s' -> window_ok mx s'.
Proof.
  intros Hw. destruct c; cbn [bbr2_step]; intros E.
  - apply event_window in E as (Ep & w & lim & _ & Ew). eapply window_ok_set; [exact Hw|by rewrite Ep|exact Ew].
  - unfold OnPacketSent in E. apply rbind_Ok in E as (s1 & E1 & E). apply rbind_Ok in E as (m & _ & E). apply Ok_inj in E as <-.
    assert (F : params_ s1 = params_ s /\ cwnd_ s1 = cwnd_ s).
    { unfold when in E1. destruct (InSlowStart s), (_ && _); first [by apply OnExitQuiescence_frame in E1 | by apply Ok_inj in E1 as <-]. }
    destruct Hw as [Hl Hw], F as [F1 F2]. split; cbn; congruence.
  - unfold OnPacketNeutered in E. apply rbind_Ok in E as (m & _ & E). by apply Ok_inj in E as <-.
  - apply Ok_inj in E as <-. unfold OnApplicationLimited. by destruct (_ <=? _).
  - by apply Ok_inj in E as <-.
  - apply Ok_inj in E as <-. unfold SetInitialCongestionWindowInPackets. destruct (decide _); [|done]. by eapply window_ok_set.
  - unfold AdjustNetworkParameters in E. cbn zeta in E. destruct (decide _); [|by apply Ok_inj in E as <-].
    apply rbind_Ok in E as (r & _ & E). apply Ok_inj in E as <-. destruct Hw as [Hl Hw]. unfold when. destruct (0 <? _); (split; [done|]); cbn -[ApplyLimits]; rewrite Hl;
      match goal with |- context [ApplyLimits ?l ?x] => pose proof (ApplyLimits_in kDefaultMinimumCongestionWindow mx x ltac:(lia)) end;
      destruct (allow_cwnd_to_decrease params); lia.
  - apply Ok_inj in E as <-. destruct Hw as [Hl Hw]. unfold SetFromConfig, ApplyConnectionOptions.
    cbn zeta. repeat (apply (when_keeps (window_ok mx)); [intros x [Hx Hx']; by split|]). by split.
Qed.
Lemma bbr2_run_window mx cs : forall s s', window_ok mx s -> rfold bbr2_step cs s = Ok s' -> window_ok mx s'.
Proof.
  intros s s' Hw. apply (rfold_inv (window_ok mx)); [|done]. intros c t t' _ Ht. by apply bbr2_step_window.
Qed.

(** The sender with the map it points to. *)
Section OnMap.
Context {N : Type} `{SessionNotifier N}.
Record Bbr2OnMap := mkBbr2OnMap { bbr2 : Bbr2Sender R; bbr2_unacked : QuicUnackedPacketMap N }.
Definition on_bbr2 (b : Bbr2OnMap) (r : result (Bbr2Sender R)) : result Bbr2OnMap := let* s := r in Ok (mkBbr2OnMap s (bbr2_unacked b)).

#[export] Instance Bbr2OnMap_interface : SendAlgorithmInterface Bbr2OnMap := {|
  sa_SetInitialCongestionWindowInPackets b n := mkBbr2OnMap (SetInitialCongestionWindowInPackets (bbr2 b) n) (bbr2_unacked b);
  sa_OnCongestionEvent _ b _ n t acked lost := on_bbr2 b (OnCongestionEvent (bbr2 b) (GetLeastUnacked (bbr2_unacked b)) n t acked lost);
  sa_OnPacketSent b t n pn bytes d := on_bbr2 b (OnPacketSent (bbr2 b) t n pn bytes d);
  sa_OnPacketNeutered b pn := on_bbr2 b (OnPacketNeutered (bbr2 b) pn);
  sa_OnRetransmissionTimeout b x := mkBbr2OnMap (OnRetransmissionTimeout (bbr2 b) x) (bbr2_unacked b);
  sa_OnConnectionMigration b := mkBbr2OnMap (OnConnectionMigration (bbr2 b)) (bbr2_unacked b);
  sa_CanSend b n := CanSend (bbr2 b) n;
  sa_PacingRate _ b _ := Ok (PacingRate (bbr2 b));
  sa_BandwidthEstimate _ b := Ok (BandwidthEstimate (bbr2 b));
  sa_GetCongestionWindow b := GetCongestionWindow (bbr2 b);
  sa_InSlowStart b := InSlowStart (bbr2 b);
  sa_InRecovery b := InRecovery (bbr2 b);
  sa_ShouldSendProbingPacket b := ShouldSendProbingPacket (bbr2 b);
  sa_GetSlowStartThreshold b := GetSlowStartThreshold (bbr2 b);
  sa_GetCongestionControlType b := GetCongestionControlType (bbr2 b);
  sa_AdjustNetworkParameters _ b params := on_bbr2 b (AdjustNetworkParameters (bbr2 b) params);
  sa_OnApplicationLimited b n := mkBbr2OnMap (OnApplicationLimited (bbr2 b) n) (bbr2_unacked b);
|}.

Definition bbr2_inv (b : Bbr2OnMap) : Prop := exists mx, mx < two64 /\ window_ok mx (bbr2 b).
Lemma window_ok_idle mx s : window_ok mx s -> CanSend s 0 = true.
Proof. intros [_ Hw]. unfold CanSend, GetCongestionWindow. change kDefaultMinimumCongestionWindow with 5840 in Hw. apply Z.ltb_lt. lia. Qed.

(** BBRv2 is a lawful send algorithm. *)
#[export] Instance Bbr2OnMap_laws : SendAlgorithmLaws Bbr2OnMap.
Proof.
  refine {| sender_inv := bbr2_inv |}; cbn.
  - intros rtt b _ n t a l b' (mx & Hmx & Hw) _ _ (s' & E & Eb)%rbind_Ok. apply Ok_inj in Eb as <-. exists mx. split; [done|].
    exact (bbr2_step_window mx (bbr2 b) (B2Event _ n t a l) s' Hw E).
  - intros b t n pn bytes d b' (mx & Hmx & Hw) (s' & E & Eb)%rbind_Ok. apply Ok_inj in Eb as <-. exists mx. split; [done|].
    exact (bbr2_step_window mx (bbr2 b) (B2Sent t n pn bytes d) s' Hw E).
  - done.
  - intros b (mx & Hmx & _ & Hw). change kDefaultMinimumCongestionWindow with 5840 in Hw. change kDefaultTCPMSS with 1460. cbn in *. unfold GetCongestionWindow. lia.
  - intros b (mx & _ & Hw). by eapply window_ok_idle.
Defined.
End OnMap.

(** Changes of mode that follow each other within one event. *)
Inductive mode_chain (prior_in_flight : Z) (t : QuicTime) e : nat -> Bbr2Sender R -> Bbr2Sender R -> Prop :=
  | chain_none s : mode_chain prior_in_flight t e 0 s s
  | chain_change k s s1 next s2 s' : mode_event s prior_in_flight t e = Ok (s1, next) -> next <> mode_ s1 -> change_mode s1 next t = Ok s2 ->
      mode_chain prior_in_flight t e k s2 s' -> mode_chain prior_in_flight t e (S k) s s'.
Lemma changes_left_three s : (changes_left s <= 3)%nat.
Proof. unfold changes_left. destruct (mode_ s); [lia|lia|case_decide; lia|destruct (_ =? _); lia]. Qed.
Lemma mode_chain_bound n t e k s s' : mode_chain n t e k s s' -> (k + changes_left s' <= changes_left s)%nat.
Proof. induction 1 as [|k s s1 next s2 s' E Hn Ec _ IH]; [lia|]. pose proof (change_decreases s n t e (s1, next) s2 E Hn Ec). lia. Qed.

(** C11. The loop of [OnCongestionEvent] over the modes ends by itself.  Whatever the
    state of the sender and the event, the mode changes at most three
    times in a row, so that a loop without a bound on the number of changes
    computes what the code's loop with its four computes, and the branch the code
    reports as a bug is not reached. *)
Theorem bbr2_mode_loop_terminates s n t e :
  (forall k s', mode_chain n t e k s s' -> (k <= changes_left s <= 3)%nat) /\
  (forall bound, (3 <= bound)%nat -> mode_loop bound s n t e = mode_loop kMaxModeChangesPerCongestionEvent s n t e) /\
  mode_loop kMaxModeChangesPerCongestionEvent s n t e = mode_loop (changes_left s) s n t e.
Proof.
  assert (Hl : forall b, (changes_left s <= b)%nat -> mode_loop b s n t e = mode_loop (changes_left s) s n t e).
  { intros b Hb. replace b with (changes_left s + (b - changes_left s))%nat by lia. by apply mode_loop_enough. }
  pose proof (changes_left_three s). change kMaxModeChangesPerCongestionEvent with 4%nat. split; [|split].
  - intros k s' Hc%mode_chain_bound. lia.
  - intros b Hb. rewrite (Hl b), (Hl 4%nat) by lia. done.
  - apply Hl. lia.
Qed.

(** C12. BBRv2's window stays within its bounds.  A sender can be created, and
    along every run of events, sent and neutered packets, timeouts,
    configuration changes and resumed network parameters the window is at
    least four segments and at most the configured maximum, so an idle
    connection may send; each event leaves it within the limit of the mode it ends
    in, down to those four segments, which while the RTT is probed is at most half the
    bandwidth-delay product. *)
Theorem bbr2_window_bounds now rtt_stats n mx random stats cs :
  now <> QuicTime_Infinite -> 0 < SmoothedOrInitialRtt rtt_stats -> 4 <= n <= mx -> n < 2 ^ 22 -> mx < 2 ^ 50 ->
  exists s0, Bbr2Sender_init now rtt_stats n mx random stats None = Ok s0 /\
    forall s, rfold bbr2_step cs s0 = Ok s ->
      4 * kDefaultTCPMSS <= GetCongestionWindow s <= mx * kDefaultTCPMSS /\ CanSend s 0 = true /\
      forall least f t a l s', OnCongestionEvent s least f t a l = Ok s' ->
        (exists lim, GetCwndLimitsByMode s' = Ok lim /\ GetCongestionWindow s' <= Z.max (4 * kDefaultTCPMSS) (limit_max lim)) /\
        (mode_ s' = PROBE_RTT -> exists target, InflightTarget s' = Ok target /\ GetCongestionWindow s' <= Z.max (4 * kDefaultTCPMSS) target).
Proof.
  intros Hnow Hr Hn Hn' Hm. pose proof (first_window_none n mx Hn) as Ef. change kDefaultTCPMSS with 1460 in Ef.
  destruct (Bbr2Sender_init_ok now rtt_stats n mx random stats None Hnow Hr ltac:(lia) ltac:(lia) ltac:(lia)) as (s0 & E0 & _ & Ew & _ & Ep & _). rewrite Ef in Ew.
  exists s0. split; [done|]. intros s Es. change kDefaultTCPMSS with 1460 in *.
  assert (H0 : window_ok (mx * 1460) s0).
  { split; rewrite ?Ep, ?Ew; [done|]. change kDefaultMinimumCongestionWindow with 5840. lia. }
  pose proof (bbr2_run_window _ cs s0 s H0 Es) as Hw. pose proof Hw as [Hl Hb]. change kDefaultMinimumCongestionWindow with 5840 in *.
  split; [exact Hb|]. split; [by eapply window_ok_idle|]. intros least f t a l s' (_ & w & lim & El & Ew')%event_window.
  assert (Hc : GetCongestionWindow s' <= Z.max (4 * 1460) (limit_max lim)) by (unfold GetCongestionWindow; rewrite Ew', Hl; unfold ApplyLimits; cbn -[Z.mul]; lia).
  split; [by exists lim|]. intros Hm'. unfold GetCwndLimitsByMode in El. rewrite Hm' in El. unfold ProbeRtt_GetCwndLimits in El.
  apply rbind_Ok in El as (hi & _ & El). apply rbind_Ok in El as (target & Et & El). apply Ok_inj in El as <-. exists target. split; [done|].
  cbn -[Z.mul] in Hc. lia.
Qed.

End Sender.

(** * Witnesses *)

Definition no_options2 : Bbr2Options :=
  mkBbr2Options false false false false false false false false false false false false false false false false false false false.
Definition first_bbr2 : result (Bbr2Sender Z) := Bbr2Sender_init 1000 RttStats_init 32 2000 5 QuicConnectionStats_init None.
(** A packet every two seconds, each acknowledged 20 ms after the next is sent. *)
Definition overlap (i : nat) : list bbr2_call :=
  let k := Z.of_nat i in let t := 2000000 * k in
  [B2Sent t (if k =? 1 then 0 else 1200) k 1200 HAS_RETRANSMITTABLE_DATA;
   B2Event k 2400 (t + 20000) (if k =? 1 then [] else [mkAcked (k - 1) 1200 (t + 20000)]) []].
Definition overlaps (n : nat) : list bbr2_call := concat (map overlap (seq 1 n)).
Definition bbr2_after (cs : list bbr2_call) : result (Bbr2Sender Z) := let* s := first_bbr2 in rfold bbr2_step cs (SetFromConfig s no_options2).

Lemma bbr2_window_bounds_witness :
  exists s0 s : Bbr2Sender Z, first_bbr2 = Ok s0 /\ rfold bbr2_step (overlaps 3) s0 = Ok s /\ 5840 <= GetCongestionWindow s <= 2920000.
Proof.
  destruct (bbr2_window_bounds 1000 RttStats_init 32 2000 5 QuicConnectionStats_init (overlaps 3)) as (s0 & E0 & Hall); [done|vm_compute; reflexivity|lia|lia|lia|].
  exists s0. destruct (rfold bbr2_step (overlaps 3) s0) as [s|f] eqn:E.
  - exists s. split; [exact E0|]. split; [reflexivity|]. destruct (Hall s eq_refl) as (H1 & _). exact H1.
  - exfalso. vm_compute in E0. apply Ok_inj in E0 as <-. vm_compute in E. discriminate.
Defined.
