(* ===== verification/Bbr2Machine.v ===== *)
(** The modes of [Bbr2Sender] (bbr2_sender.cc, bbr2_startup.cc, bbr2_drain.cc,
    bbr2_probe_bw.cc, bbr2_probe_rtt.cc) as a state machine: what holds in each mode
    of a sender at work, the gains that belong to it, the order in which modes and
    phases follow each other, and the cycle of PROBE_RTT. *)

From Stdlib Require Import SpecFloat.
From stdpp Require Import relations.
From S2P Require Import Prelude Float QuicTime PacketNumber WindowedFilter RttStats SendAlgorithm UnackedMap IndexedQueue BandwidthSampler Bbr Bbr2Model Bbr2.

Section Machine.
Context {R : Type} `{QuicRandom R}.
Implicit Types (s : Bbr2Sender R) (e : Bbr2CongestionEvent).

(** * The mode machine *)

(** What PROBE_BW keeps of its cycle: the flags of the last cycle are set, and no sample is from probing while cruising or refilling. *)
Definition cycle_ok s : Prop :=
  is_Some (last_cycle_probed_too_high_ s) /\ is_Some (last_cycle_stopped_risky_probe_ s) /\
  (phase (cycle_ s) = PROBE_CRUISE \/ phase (cycle_ s) = PROBE_REFILL -> is_sample_from_probing (cycle_ s) = false).
Lemma cycle_ok_same s s' : cycle_ok s -> last_cycle_probed_too_high_ s' = last_cycle_probed_too_high_ s ->
  last_cycle_stopped_risky_probe_ s' = last_cycle_stopped_risky_probe_ s -> phase (cycle_ s') = phase (cycle_ s) ->
  (is_sample_from_probing (cycle_ s') = is_sample_from_probing (cycle_ s) \/ is_sample_from_probing (cycle_ s') = false) -> cycle_ok s'.
Proof. intros (C1 & C2 & C3) E1 E2 E3 [E4|E4]; unfold cycle_ok; rewrite E1, E2, E3, E4; auto. Qed.
Ltac cycle_frame Hc := apply (cycle_ok_same _ _ Hc); cbn; auto.

Lemma EnterProbeDown_cycle s a b t s' : EnterProbeDown s a b t = Ok s' -> cycle_ok s'.
Proof.
  intros E. pose proof E as [_ K]%EnterProbeDown_core. unfold cycle_ok. rewrite K.
  assert (Hf : is_Some (last_cycle_probed_too_high_ s') /\ is_Some (last_cycle_stopped_risky_probe_ s')).
  { unfold EnterProbeDown, RandomUint64 in E. cbn in E. destruct (RandUint64 _) as [x1 r1]. destruct (_ =? 0); [done|]. cbn in E.
    destruct (RandUint64 r1) as [x2 r2]. destruct (_ =? 0); [done|]. apply Ok_inj in E as <-. cbn. eauto. }
  split_and!; [apply Hf..|]. by intros [|].
Qed.
Lemma ExitProbeDown_cycle s s' : ExitProbeDown s = Ok s' -> cycle_ok s -> cycle_ok s'.
Proof. unfold ExitProbeDown. intros (u & _ & E)%rbind_Ok Hc. apply Ok_inj in E as <-. destruct (has_advanced_max_bw _); [done|cycle_frame Hc]. Qed.
Lemma maybe_ExitProbeDown_cycle s s' : (if decide (phase (cycle_ s) = PROBE_DOWN) then ExitProbeDown s else Ok s) = Ok s' -> cycle_ok s -> cycle_ok s'.
Proof. destruct (decide _); [apply ExitProbeDown_cycle|]. intros E. by apply Ok_inj in E as <-. Qed.
Lemma EnterProbeCruise_cycle s t s' : EnterProbeCruise s t = Ok s' -> cycle_ok s -> cycle_ok s'.
Proof.
  unfold EnterProbeCruise. intros (s1 & E1 & E)%rbind_Ok Hc. apply maybe_ExitProbeDown_cycle in E1 as (C1 & C2 & _); [|done]. by apply Ok_inj in E as <-.
Qed.
Lemma EnterProbeRefill_cycle s n t s' : EnterProbeRefill s n t = Ok s' -> cycle_ok s -> cycle_ok s'.
Proof.
  unfold EnterProbeRefill. intros (s1 & E1 & E)%rbind_Ok Hc. apply maybe_ExitProbeDown_cycle in E1 as (C1 & C2 & _); [|done]. apply Ok_inj in E as <-.
  split; [exact C1|]. by split.
Qed.
Lemma RaiseInflightHighSlope_cycle s s' : RaiseInflightHighSlope s = Ok s' -> cycle_ok s -> cycle_ok s'.
Proof. unfold RaiseInflightHighSlope. intros (u & _ & E)%rbind_Ok Hc. cbn zeta in E. destruct (_ =? 0); [done|]. apply Ok_inj in E as <-. cycle_frame Hc. Qed.
Lemma EnterProbeUp_cycle s t s' : EnterProbeUp s t = Ok s' -> cycle_ok s -> cycle_ok s'.
Proof.
  unfold EnterProbeUp. intros (u & _ & (s1 & E1 & E)%rbind_Ok)%rbind_Ok (C1 & C2 & _). apply Ok_inj in E as <-.
  apply RaiseInflightHighSlope_cycle in E1; [cycle_frame E1|]. split; [exact C1|]. split; [exact C2|]. cbn. by intros [|].
Qed.
Lemma MaybeAdaptUpperBounds_cycle s e r : MaybeAdaptUpperBounds s e = Ok r -> cycle_ok s -> cycle_ok r.1.
Proof.
  intros E Hc. unfold MaybeAdaptUpperBounds, cut_inflight_hi in E. open_ok; cbn; try done; unfold when; repeat case_match; cycle_frame Hc.
Qed.
Lemma IsTimeToProbeBandwidth_cycle s e r : IsTimeToProbeBandwidth s e = Ok r -> cycle_ok s -> cycle_ok r.1.
Proof. unfold IsTimeToProbeBandwidth. intros E Hc. open_ok; done. Qed.
Lemma ProbeInflightHighUpward_cycle s e s' : ProbeInflightHighUpward s e = Ok s' -> cycle_ok s -> cycle_ok s'.
Proof.
  unfold ProbeInflightHighUpward. intros (u & _ & E)%rbind_Ok Hc. destruct (negb _); [by apply Ok_inj in E as <-|].
  destruct (_ <? _); [by apply Ok_inj in E as <-|]. cbn zeta in E. apply rbind_Ok in E as (s1 & E1 & E).
  assert (H1 : cycle_ok s1) by (open_ok; cycle_frame Hc).
  destruct (ev_end_of_round_trip e); [by eapply RaiseInflightHighSlope_cycle|by apply Ok_inj in E as <-].
Qed.
Lemma UpdateProbeDown_cycle s n e s' : UpdateProbeDown s n e = Ok s' -> cycle_ok s -> cycle_ok s'.
Proof.
  unfold UpdateProbeDown. intros (u & _ & ([s1 dn] & E1 & E)%rbind_Ok)%rbind_Ok Hc.
  assert (H1 : cycle_ok s1).
  { unfold probe_down_first_round in E1. destruct (_ && _); [|apply Ok_inj in E1; by injection E1 as <- _]. cbn zeta in E1. set (s0 := when _ _ _) in E1.
    assert (H0 : cycle_ok s0) by (unfold s0, when; destruct (negb _); cycle_frame Hc). clearbody s0.
    apply rbind_Ok in E1 as (risky & _ & (refill & _ & E1)%rbind_Ok). destruct refill; [|apply Ok_inj in E1; by injection E1 as <- _].
    apply rbind_Ok in E1 as (s2 & E2 & E1). apply Ok_inj in E1. injection E1 as <- _. by eapply EnterProbeRefill_cycle. }
  destruct dn; [by apply Ok_inj in E as <-|]. apply rbind_Ok in E as (r & E2 & E). apply MaybeAdaptUpperBounds_cycle in E2; [|done].
  apply rbind_Ok in E as ([s3 pb] & E3 & E). apply IsTimeToProbeBandwidth_cycle in E3; [|done]. cbn [fst] in E3.
  destruct pb; [by eapply EnterProbeRefill_cycle|]. destruct (HasStayedLongEnoughInProbeDown s3 e); [by eapply EnterProbeCruise_cycle|].
  apply rbind_Ok in E as (h & _ & E). destruct (h <? _); [by apply Ok_inj in E as <-|].
  destruct (_ <? _); [by eapply EnterProbeCruise_cycle|by apply Ok_inj in E as <-].
Qed.
Lemma UpdateProbeCruise_cycle s e s' : UpdateProbeCruise s e = Ok s' -> cycle_ok s -> cycle_ok s'.
Proof.
  unfold UpdateProbeCruise. intros (u & _ & (r & E1 & (u' & _ & ([s2 pb] & E2 & E)%rbind_Ok)%rbind_Ok)%rbind_Ok)%rbind_Ok Hc.
  apply MaybeAdaptUpperBounds_cycle in E1; [|done]. apply IsTimeToProbeBandwidth_cycle in E2; [|done].
  destruct pb; [by eapply EnterProbeRefill_cycle|by apply Ok_inj in E as <-].
Qed.
Lemma UpdateProbeRefill_cycle s e s' : UpdateProbeRefill s e = Ok s' -> cycle_ok s -> cycle_ok s'.
Proof.
  unfold UpdateProbeRefill. intros (u & _ & (r & E1 & (u' & _ & E)%rbind_Ok)%rbind_Ok)%rbind_Ok Hc. apply MaybeAdaptUpperBounds_cycle in E1; [|done].
  destruct (_ && _); [by eapply EnterProbeUp_cycle|by apply Ok_inj in E as <-].
Qed.
Lemma UpdateProbeUp_cycle s n e s' : UpdateProbeUp s n e = Ok s' -> cycle_ok s -> cycle_ok s'.
Proof.
  unfold UpdateProbeUp. intros (u & _ & (r & E1 & E)%rbind_Ok)%rbind_Ok Hc. apply MaybeAdaptUpperBounds_cycle in E1; [|done].
  destruct (decide _); [by eapply EnterProbeDown_cycle|]. apply rbind_Ok in E as (s2 & E2 & E). apply ProbeInflightHighUpward_cycle in E2; [|done].
  apply rbind_Ok in E as (h & _ & E). apply rbind_Ok in E as (q & _ & E). destruct (_ || q); [by eapply EnterProbeDown_cycle|by apply Ok_inj in E as <-].
Qed.
Lemma count_rounds_cycle s e t : cycle_ok s -> cycle_ok (count_rounds s e t).
Proof. intros Hc. unfold count_rounds, when. destruct (ev_end_of_round_trip e); [|done]. repeat case_match; cycle_frame Hc. Qed.
Lemma ProbeBw_event_cycle s n t e r : ProbeBw_OnCongestionEvent s n t e = Ok r -> cycle_ok s -> cycle_ok r.1.
Proof.
  unfold ProbeBw_OnCongestionEvent. intros (u & _ & ([s2 sw] & E & E')%rbind_Ok)%rbind_Ok Hc. apply Ok_inj in E' as <-. cbn [fst].
  apply (count_rounds_cycle _ e t) in Hc. set (s0 := count_rounds s e t) in *. clearbody s0.
  assert (H2 : cycle_ok s2).
  { destruct (phase (cycle_ s0)); [by injection E as <- _|..]; apply rbind_Ok in E as (s3 & E & E').
    - injection E' as <- _. by eapply UpdateProbeUp_cycle.
    - apply UpdateProbeDown_cycle in E; [|done]. destruct (decide _); [|by injection E' as <- _].
      destruct (MaybeExpireMinRtt _ _ _) as [m ex]. by injection E' as <- _.
    - injection E' as <- _. by eapply UpdateProbeCruise_cycle.
    - injection E' as <- _. by eapply UpdateProbeRefill_cycle. }
  unfold when. destruct (negb sw); [cycle_frame H2|done].
Qed.
Lemma ProbeBw_Enter_cycle s t s' : ProbeBw_Enter s t = Ok s' -> (phase (cycle_ s) <> PROBE_NOT_STARTED -> cycle_ok s) -> cycle_ok s'.
Proof.
  unfold ProbeBw_Enter. intros E Hc. destruct (decide _) as [Hn|Hn]; [by eapply EnterProbeDown_cycle|].
  specialize (Hc Hn). apply rbind_Ok in E as (u & _ & E). cbn zeta in E. set (s1 := on_cycle s _) in E.
  assert (Hc' : cycle_ok s1) by (cycle_frame Hc). clearbody s1.
  destruct (phase (cycle_ s1)); [by apply Ok_inj in E as <-..|by eapply EnterProbeCruise_cycle|by eapply EnterProbeRefill_cycle].
Qed.

(** What the network model's part of an event leaves alone. *)
Definition same_model (m m' : Bbr2NetworkModel) : Prop :=
  full_bandwidth_reached_ m' = full_bandwidth_reached_ m /\ cwnd_gain_ m' = cwnd_gain_ m /\ pacing_gain_ m' = pacing_gain_ m /\ inflight_hi_ m' = inflight_hi_ m.
#[export] Instance same_model_preorder : PreOrder same_model.
Proof. split; [done|]. unfold same_model. intros ???. naive_solver congruence. Qed.
Ltac model_frame := unfold same_model; cbn; split_and!; done.
Lemma AdaptLowerBounds_frame m p e m' : AdaptLowerBounds m p e = Ok m' ->
  same_model m m' /\ min_rtt_filter_ m' = min_rtt_filter_ m /\ bandwidth_sampler_ m' = bandwidth_sampler_ m /\ (ev_is_probing_for_bandwidth e = true -> inflight_lo_ m' = inflight_lo_ m).
Proof.
  unfold AdaptLowerBounds. destruct (decide _).
  - unfold adapt_by_mode. intros E. open_ok; unfold when; repeat case_match; (split; [model_frame|done]).
  - destruct (_ || _) eqn:Eo; [intros E; by apply Ok_inj in E as <-|]. apply orb_false_elim in Eo as [_ Hp].
    unfold adapt_by_default. intros E. open_ok; unfold when; repeat case_match; (split; [model_frame|split; [done|]; split; [done|congruence]]).
Qed.
Lemma account_frame m e smp x y : let r := account m e smp x y in
  same_model m r.1 /\ inflight_lo_ r.1 = inflight_lo_ m /\ min_rtt_filter_ r.1 = min_rtt_filter_ m /\
  ev_time r.2 = ev_time e /\ ev_prior_cwnd r.2 = ev_prior_cwnd e /\ ev_is_probing_for_bandwidth r.2 = ev_is_probing_for_bandwidth e.
Proof.
  set (Q := fun m' => same_model m m' /\ inflight_lo_ m' = inflight_lo_ m /\ min_rtt_filter_ m' = min_rtt_filter_ m).
  assert (H1 : Q (account m e smp x y).1) by (unfold account; cbn [fst]; repeat (apply (when_keeps Q); [done|]); done).
  destruct H1 as (H1 & H2 & H3). cbn zeta. by split_and!.
Qed.
Lemma event_start_spec m p e t a l m' e' : OnCongestionEventStart m p e t a l = Ok (m', e') ->
  same_model m m' /\ (ev_is_probing_for_bandwidth e = true -> inflight_lo_ m' = inflight_lo_ m) /\
  ev_time e' = t /\ ev_prior_cwnd e' = ev_prior_cwnd e /\ (min_rtt_filter_ m' = min_rtt_filter_ m \/ MinRttTimestamp m' = t).
Proof.
  unfold OnCongestionEventStart. cbn zeta. intros ([[m1 e1] smp] & E1 & E)%rbind_Ok.
  assert (H1 : same_model m m1 /\ inflight_lo_ m1 = inflight_lo_ m /\ min_rtt_filter_ m1 = min_rtt_filter_ m /\
    ev_time e1 = t /\ ev_prior_cwnd e1 = ev_prior_cwnd e /\ ev_is_probing_for_bandwidth e1 = ev_is_probing_for_bandwidth e).
  { unfold start_sampling in E1. cbn zeta in E1. apply rbind_Ok in E1 as (r & _ & E1). apply rbind_Ok in E1 as (x & _ & E1). apply Ok_inj in E1.
    injection E1 as <- <- _. split; [model_frame|done]. }
  destruct H1 as (M1 & L1 & R1 & T1 & W1 & P1).
  destruct (update_filters m1 e1 smp (model_bytes_acked m)) as [m2 e2] eqn:E2.
  assert (H2 : same_model m1 m2 /\ inflight_lo_ m2 = inflight_lo_ m1 /\ (min_rtt_filter_ m2 = min_rtt_filter_ m1 \/ MinRttTimestamp m2 = t) /\
    ev_time e2 = t /\ ev_prior_cwnd e2 = ev_prior_cwnd e1 /\ ev_is_probing_for_bandwidth e2 = ev_is_probing_for_bandwidth e1).
  { unfold update_filters, when in E2. destruct (is_valid _), (_ && _), (negb (Delta_IsInfinite _)); injection E2 as <- <-; cbn; rewrite ?T1; (split; [model_frame|]);
      (split; [done|]); (split; [|done]); try (by left); unfold MinRttTimestamp, MinRtt_Update; cbn; destruct (_ || _); by auto. }
  destruct H2 as (M2 & L2 & R2 & T2 & W2 & P2).
  destruct (account m2 e2 smp (model_bytes_acked m) (model_bytes_lost m)) as [m3 e3] eqn:E3.
  assert (H3 : same_model m2 m3 /\ inflight_lo_ m3 = inflight_lo_ m2 /\ min_rtt_filter_ m3 = min_rtt_filter_ m2 /\
    ev_time e3 = t /\ ev_prior_cwnd e3 = ev_prior_cwnd e2 /\ ev_is_probing_for_bandwidth e3 = ev_is_probing_for_bandwidth e2).
  { pose proof (account_frame m2 e2 smp (model_bytes_acked m) (model_bytes_lost m)) as H3. rewrite E3, T2 in H3. exact H3. }
  destruct H3 as (M3 & L3 & R3 & T3 & W3 & P3). apply rbind_Ok in E as (m4 & (M4 & R4 & _ & L4)%AdaptLowerBounds_frame & E).
  assert (H5 : same_model m4 m' /\ inflight_lo_ m' = inflight_lo_ m4 /\ min_rtt_filter_ m' = min_rtt_filter_ m4 /\ e' = e3).
  { destruct (negb _); apply Ok_inj in E; injection E as <- <-; [done|]. unfold when. destruct (negb _), (0 <? _); (split; [model_frame|done]). }
  destruct H5 as (M5 & L5 & R5 & ->). split; [etrans; [exact M1|]; etrans; [exact M2|]; etrans; [exact M3|]; by etrans|].
  split; [|split; [done|split; [congruence|]]].
  - intros Hp. rewrite L5, L4 by congruence. congruence.
  - unfold MinRttTimestamp in *. rewrite R5, R4, R3. destruct R2 as [R2|R2]; [left; congruence|by right].
Qed.

Definition slow_start_timed s : bool := IsRunning (slowstart_duration (connection_stats_ s)).
Definition steering s : Prop := phase (cycle_ s) = PROBE_CRUISE \/ phase (cycle_ s) = PROBE_REFILL.
(** What holds in each mode, the gains apart. *)
Definition machine_core s : Prop :=
  match mode_ s with
  | STARTUP => full_bandwidth_reached_ (model_ s) = false /\ slow_start_timed s = true /\ phase (cycle_ s) = PROBE_NOT_STARTED /\
      inflight_lo_ (model_ s) = inflight_lo_default
  | DRAIN => full_bandwidth_reached_ (model_ s) = true /\ slow_start_timed s = false /\ phase (cycle_ s) = PROBE_NOT_STARTED
  | PROBE_BW => full_bandwidth_reached_ (model_ s) = true /\ slow_start_timed s = false /\ phase (cycle_ s) <> PROBE_NOT_STARTED /\ cycle_ok s
  | PROBE_RTT => full_bandwidth_reached_ (model_ s) = true /\ slow_start_timed s = false /\ steering s /\ cycle_ok s
  end.
(** The gains that belong to a mode.  Leaving PROBE_RTT with a packet sent after quiescence keeps the window gain until the next event. *)
Definition gains_of_mode s : Prop :=
  match mode_ s with
  | STARTUP => cwnd_gain_ (model_ s) = startup_cwnd_gain (params_ s) /\
      (decrease_startup_pacing_at_end_of_round (params_ s) = false -> pacing_gain_ (model_ s) = startup_pacing_gain (params_ s))
  | DRAIN => pacing_gain_ (model_ s) = drain_pacing_gain (params_ s) /\ cwnd_gain_ (model_ s) = drain_cwnd_gain (params_ s)
  | PROBE_BW => pacing_gain_ (model_ s) = PacingGainForPhase s (phase (cycle_ s)) /\
      (cwnd_gain_ (model_ s) = probe_bw_cwnd_gain (params_ s) \/ steering s /\ cwnd_gain_ (model_ s) = f32_of_Z 1)
  | PROBE_RTT => pacing_gain_ (model_ s) = f32_of_Z 1 /\ cwnd_gain_ (model_ s) = f32_of_Z 1
  end.
(** Parameters that no option changes. *)
Definition fixed_params (p : Bbr2Params) : Prop :=
  probe_bw_default_pacing_gain p = f32_of_Z 1 /\ probe_rtt_period p = Delta_FromMilliseconds 10000 /\ probe_rtt_duration p = Delta_FromMilliseconds 200.
Definition machine s : Prop := machine_core s /\ gains_of_mode s /\ fixed_params (params_ s).
(** DRAIN and PROBE_BW set their gains in the event that enters them. *)
Definition machine_in s : Prop :=
  machine_core s /\ (mode_ s = STARTUP \/ mode_ s = PROBE_RTT -> gains_of_mode s) /\ fixed_params (params_ s).
Definition mode_order (a b : Bbr2Mode) : bool :=
  match a, b with
  | STARTUP, _ => true
  | DRAIN, STARTUP => false
  | DRAIN, _ => true
  | (PROBE_BW | PROBE_RTT), (PROBE_BW | PROBE_RTT) => true
  | _, _ => false
  end.
#[local] Instance mode_order_preorder : PreOrder (fun a b => mode_order a b = true).
Proof. split; [by intros []|by intros [] [] []]. Qed.

Lemma machine_in_weaken s : machine s -> machine_in s.
Proof. intros (C & G & D). by split_and!. Qed.
Lemma machine_core_same s s' : machine_core s -> mode_ s' = mode_ s -> full_bandwidth_reached_ (model_ s') = full_bandwidth_reached_ (model_ s) ->
  slow_start_timed s' = slow_start_timed s -> cycle_ s' = cycle_ s -> last_cycle_probed_too_high_ s' = last_cycle_probed_too_high_ s ->
  last_cycle_stopped_risky_probe_ s' = last_cycle_stopped_risky_probe_ s -> (mode_ s = STARTUP -> inflight_lo_ (model_ s') = inflight_lo_ (model_ s)) -> machine_core s'.
Proof.
  intros C Em Ef Et Ec E1 E2 El. unfold machine_core, steering, cycle_ok in *. rewrite Em, Ef, Et, Ec, E1, E2. destruct (mode_ s); try done. by rewrite El.
Qed.
Lemma gains_same s s' : gains_of_mode s -> mode_ s' = mode_ s -> params_ s' = params_ s -> cycle_ s' = cycle_ s ->
  pacing_gain_ (model_ s') = pacing_gain_ (model_ s) -> cwnd_gain_ (model_ s') = cwnd_gain_ (model_ s) -> gains_of_mode s'.
Proof. intros G Em Ep Ec E1 E2. unfold gains_of_mode, steering, PacingGainForPhase in *. by rewrite Em, Ep, Ec, E1, E2. Qed.

Lemma phase_move_started a b : phase_move a b = true -> b <> PROBE_NOT_STARTED.
Proof. by destruct a, b. Qed.
Lemma phase_move_down b : phase_move PROBE_DOWN b = true -> b <> PROBE_DOWN -> b = PROBE_CRUISE \/ b = PROBE_REFILL.
Proof. destruct b; naive_solver. Qed.

(** An event in a mode that is kept. *)
Lemma mode_event_machine s n t e r : machine_in s -> mode_event s n t e = Ok r -> r.2 = mode_ r.1 -> machine r.1.
Proof.
  intros (C & G & D) E Hn. pose proof E as [F Em]%mode_event_frame. unfold mode_event in E.
  assert (D' : fixed_params (params_ r.1)) by (destruct F as (-> & _); done).
  unfold machine. rewrite Em in Hn. destruct (mode_ s) eqn:Es.
  - apply Startup_event_spec in E as ((_ & Em' & Ec & Et & El & Eg & _) & E2 & Ep). unfold machine_core, gains_of_mode, slow_start_timed in *. rewrite Em, Es in *.
    rewrite Ec, Et, El, Eg. destruct F as (-> & _). destruct C as (C1 & C2 & C3 & C4), (G (or_introl eq_refl)) as [G1 G2].
    destruct (full_bandwidth_reached_ (model_ r.1)); [congruence|]. split_and!; try done. intros Hd. by rewrite Ep, G2.
  - apply Drain_event_spec in E as [-> _]. split; [|split; [by unfold gains_of_mode; cbn; rewrite Es|done]]. by apply (machine_core_same s).
  - pose proof E as Hcy%ProbeBw_event_cycle; [|by unfold machine_core in C; rewrite Es in C; apply C].
    apply ProbeBw_event_spec in E as (s1 & C1 & Hp & [(_ & E1)|(E2 & _)]); [|congruence]. unfold machine_core in C |- *. rewrite Es in C. rewrite Em.
    destruct C1 as (K1 & K2 & K3 & K4 & K5 & K6 & K7 & K8 & K9 & _). split; [|split; [|done]].
    + unfold slow_start_timed in *. rewrite E1 in *. cbn in *. rewrite K8, K9. destruct C as (? & ? & ? & ?). split_and!; try done; [by eapply phase_move_started|apply Hcy..].
    + unfold gains_of_mode. rewrite Em. rewrite E1. cbn. auto.
  - apply ProbeRtt_event_spec in E as [(_ & E1)|(-> & _)]; [|done]. specialize (G (or_intror eq_refl)).
    destruct E1 as [->|(_ & ->)]; (split; [by apply (machine_core_same s)|]); (split; [by apply (gains_same s)|done]).
Qed.
(** A change of mode. *)
Lemma leave_not_startup s t s1 : mode_leave s t = Ok s1 -> mode_ s <> STARTUP -> s1 = s.
Proof. unfold mode_leave. destruct (mode_ s); [done|..]; intros E _; by apply Ok_inj in E. Qed.
Lemma change_mode_machine s n t e r s' : machine_in s -> mode_event s n t e = Ok r -> r.2 <> mode_ r.1 -> change_mode r.1 r.2 t = Ok s' ->
  machine_in s' /\ mode_order (mode_ s) (mode_ s') = true.
Proof.
  intros (C & G & D) E Hn (s1 & El & F1 & F & Hm & Hs')%change_mode_spec. pose proof E as [F0 Em]%mode_event_frame. unfold mode_event in E.
  assert (D' : fixed_params (params_ s')) by (rewrite (proj1 F), (proj1 F0); done).
  unfold machine_in. rewrite Em in Hn. unfold machine_core at 1 in C. destruct (mode_ s) eqn:Es.
  - apply Startup_event_spec in E as ((_ & _ & Ec & _) & E2 & _). destruct (full_bandwidth_reached_ (model_ r.1)) eqn:Ef; [|congruence]. rewrite E2 in Hs'. subst s'. cbn in Hm.
    split; [|done]. split; [|split; [cbn; by intros [|]|done]]. unfold mode_leave, Startup_Leave in El. rewrite Em in El. apply rbind_Ok in El as (d & Ed & El). apply Ok_inj in El as <-.
    unfold machine_core, slow_start_timed. cbn -[IsRunning]. rewrite Ec. unfold Accumulator_Stop in Ed. apply rbind_Ok in Ed as (u & _ & Ed). apply Ok_inj in Ed as <-.
    destruct C as (_ & _ & C3 & _). by split_and!.
  - apply leave_not_startup in El as ->; [|by rewrite Em]. apply Drain_event_spec in E as [E1 E2]. destruct (_ <=? _); [|congruence]. rewrite E2, E1 in *.
    pose proof Hs' as [K [(Kp & Kd)|(Kp & Kd)]]%ProbeBw_Enter_spec; cbn in Kp, Kd; destruct C as (C1 & C2 & C3); [|by destruct Kd; congruence].
    destruct K as (K1 & K2 & K3 & K4 & K5 & K6 & K7 & K8 & K9 & _). split; [|by rewrite Hm].
    split; [|split; [rewrite Hm; by intros [|]|done]]. unfold machine_core, slow_start_timed in *. rewrite Hm, K8, K9, Kd. cbn. split_and!; try done.
    all: by (eapply ProbeBw_Enter_cycle in Hs'; [apply Hs'|]; cbn; congruence).
  - apply leave_not_startup in El as ->; [|by rewrite Em]. destruct C as (C1 & C2 & C3 & C4). pose proof E as Hcy%ProbeBw_event_cycle; [|done].
    apply ProbeBw_event_spec in E as (s2 & K & Hp & [(E2 & _)|(E2 & Hd & Hd' & m & Ex & E1)]); [congruence|]. rewrite E2 in *. subst s'.
    split; [|done]. split; [|split; [by unfold gains_of_mode|done]]. destruct K as (K1 & K2 & K3 & K4 & K5 & K6 & K7 & K8 & K9 & _).
    assert (Em' : full_bandwidth_reached_ m = full_bandwidth_reached_ (model_ s2)) by (unfold MaybeExpireMinRtt in Ex; repeat case_match; by injection Ex as <-).
    unfold machine_core, slow_start_timed, steering. rewrite E1 in *. cbn in *. rewrite K8, Em', K9. rewrite Hd in Hp.
    split_and!; try done; [by apply phase_move_down|apply Hcy..].
  - apply leave_not_startup in El as ->; [|by rewrite Em]. destruct C as (C1 & C2 & C3 & C4).
    apply ProbeRtt_event_spec in E as [(E2 & _)|(-> & _)]; [congruence|]. cbn [fst snd] in *.
    pose proof Hs' as [K [(Kp & Kd)|(Kp & Kd)]]%ProbeBw_Enter_spec; cbn in Kp, Kd; [by destruct C3; congruence|].
    destruct K as (K1 & K2 & K3 & K4 & K5 & K6 & K7 & K8 & K9 & _). split; [|by rewrite Hm].
    split; [|split; [rewrite Hm; by intros [|]|done]]. unfold machine_core, slow_start_timed in *. rewrite Hm, K8, K9, Kp. cbn.
    eapply ProbeBw_Enter_cycle in Hs'; [|done]. split_and!; try done; [by destruct Kd; congruence|apply Hs'..].
Qed.

Lemma mode_loop_machine n : forall s p t e s', machine_in s -> mode_loop n s p t e = Ok s' -> machine s' /\ mode_order (mode_ s) (mode_ s') = true.
Proof.
  induction n as [|n IH]; intros s p t e s' Hm; cbn [mode_loop]; intros ([s1 next] & E & E')%rbind_Ok; (destruct (decide _) as [Hd|Hd];
    [apply Ok_inj in E' as <-; split; [exact (mode_event_machine s p t e (s1, next) Hm E Hd)|apply mode_event_frame in E as [_ Em]; cbn in Em; rewrite Em; by destruct (mode_ s)]|]);
    apply rbind_Ok in E' as (s2 & Ec & E'); [done|].
  destruct (change_mode_machine s p t e (s1, next) s2 Hm E Hd Ec) as [Hm2 Ho]. apply IH in E' as [Hm' Ho']; [|done]. split; [done|].
  exact (transitivity (R := fun a b => mode_order a b = true) Ho Ho').
Qed.

(** ** The probe of the RTT *)

Lemma change_mode_min_rtt s next t s' : change_mode s next t = Ok s' -> min_rtt_filter_ (model_ s') = min_rtt_filter_ (model_ s).
Proof.
  intros (s1 & El & _ & _ & _ & Hs')%change_mode_spec.
  assert (E1 : min_rtt_filter_ (model_ s1) = min_rtt_filter_ (model_ s)).
  { unfold mode_leave, Startup_Leave in El. destruct (mode_ s); [|by apply Ok_inj in El as <-..]. apply rbind_Ok in El as (d & _ & El). by apply Ok_inj in El as <-. }
  rewrite <- E1. destruct next; [done|by subst|apply ProbeBw_Enter_spec in Hs' as [K _]; apply K|by subst].
Qed.
Lemma mode_event_min_rtt s n t e r : mode_event s n t e = Ok r -> mode_ s <> PROBE_RTT ->
  (r.2 <> PROBE_RTT /\ min_rtt_filter_ (model_ r.1) = min_rtt_filter_ (model_ s)) \/
  (r.2 = PROBE_RTT /\ QuicTime_add (MinRttTimestamp (model_ s)) (probe_rtt_period (params_ s)) <= ev_time e).
Proof.
  unfold mode_event. intros E Hn. destruct (mode_ s); [| | |done].
  - apply Startup_event_spec in E as ((_ & _ & _ & _ & _ & _ & Em) & E2 & _). left. rewrite E2. split; [by destruct (full_bandwidth_reached_ _)|done].
  - apply Drain_event_spec in E as [-> ->]. left. split; [by destruct (_ <=? _)|done].
  - apply ProbeBw_event_spec in E as (s1 & K & _ & [(-> & ->)|(-> & _ & _ & m & Ex & _)]); [left|right]; (split; [done|]).
    + apply K.
    + destruct K as (_ & Ep & _ & _ & _ & _ & _ & _ & _ & _ & Em & _). unfold MaybeExpireMinRtt, MinRttTimestamp in *. rewrite Ep, Em in Ex.
      destruct (Z.ltb_spec (ev_time e) (QuicTime_add (mr_timestamp_ (min_rtt_filter_ (model_ s))) (probe_rtt_period (params_ s)))); [done|lia].
Qed.
Lemma mode_loop_enters n : forall s p t e s', mode_loop n s p t e = Ok s' -> mode_ s <> PROBE_RTT -> mode_ s' = PROBE_RTT ->
  QuicTime_add (MinRttTimestamp (model_ s)) (probe_rtt_period (params_ s)) <= ev_time e.
Proof.
  induction n as [|n IH]; intros s p t e s'; cbn [mode_loop]; intros ([s1 next] & E & E')%rbind_Ok Hn Hr; pose proof E as [F Em]%mode_event_frame; cbn [fst] in *;
    (destruct (decide _) as [Hd|Hd]; [apply Ok_inj in E' as <-; congruence|]); apply rbind_Ok in E' as (s2 & Ec & E'); [done|].
  destruct (mode_event_min_rtt s p t e (s1, next) E Hn) as [[Hx Ex]|[_ Hx]]; [|done]. cbn in Hx, Ex.
  pose proof (change_mode_min_rtt _ _ _ _ Ec) as E2. apply change_mode_spec in Ec as (s3 & _ & _ & F2 & Em2 & _).
  unfold MinRttTimestamp. rewrite <- Ex, <- E2, <- (proj1 F), <- (proj1 F2). apply (IH _ _ _ _ _ E'); congruence.
Qed.
Lemma mode_loop_leaves n s p t e s' : mode_loop n s p t e = Ok s' -> mode_ s = PROBE_RTT ->
  (exit_time_ s <> QuicTime_Zero /\ exit_time_ s < ev_time e) \/
  (mode_ s' = PROBE_RTT /\ (exit_time_ s' = exit_time_ s \/ exit_time_ s = QuicTime_Zero /\ exit_time_ s' = QuicTime_add (ev_time e) (probe_rtt_duration (params_ s)))).
Proof.
  intros E Hm. assert (E0 : exists r k, ProbeRtt_OnCongestionEvent s e = Ok r /\ (if decide (r.2 = mode_ r.1) then Ok r.1 else k) = Ok s').
  { destruct n as [|n]; cbn [mode_loop] in E; unfold mode_event in E at 1; rewrite Hm in E; apply rbind_Ok in E as ([s1 next] & E & E');
      exists (s1, next); eexists; (split; [exact E|exact E']). }
  destruct E0 as (r & k & [(E2 & E1)|(_ & Hz & Ht)]%ProbeRtt_event_spec & E'); [right|by left].
  assert (Hm1 : mode_ r.1 = PROBE_RTT) by (by destruct E1 as [->|[_ ->]]). rewrite E2, Hm1, decide_True in E' by done. apply Ok_inj in E' as <-.
  split; [done|]. destruct E1 as [->|[Hz ->]]; auto.
Qed.

(** ** Steps *)

(** The parts of an event around the modes. *)
Lemma event_parts s least n t a l s' : OnCongestionEvent s least n t a l = Ok s' ->
  exists m e s0 s1, OnCongestionEventStart (model_ s) (params_ s) (Bbr2CongestionEvent_init (cwnd_ s) n (IsProbingForBandwidth s)) t a l = Ok (m, e) /\
    s0 = event_stats (s <| model_ := m |>) e l /\ mode_loop kMaxModeChangesPerCongestionEvent s0 n t e = Ok s1 /\
    mode_ s' = mode_ s1 /\ params_ s' = params_ s1 /\ cycle_ s' = cycle_ s1 /\ exit_time_ s' = exit_time_ s1 /\ connection_stats_ s' = connection_stats_ s1 /\
    last_cycle_probed_too_high_ s' = last_cycle_probed_too_high_ s1 /\ last_cycle_stopped_risky_probe_ s' = last_cycle_stopped_risky_probe_ s1 /\
    same_model (model_ s1) (model_ s') /\ inflight_lo_ (model_ s') = inflight_lo_ (model_ s1).
Proof.
  unfold OnCongestionEvent. cbn zeta. intros ([m e] & Es & E)%rbind_Ok. exists m, e. apply rbind_Ok in E as (s1 & El & E).
  exists (event_stats (s <| model_ := m |>) e l), s1. split; [done|]. split; [done|]. split; [done|]. clear Es El.
  apply rbind_Ok in E as (s2 & E2 & E). assert (H2 : exists x, s2 = s1 <| pacing_rate_ := x |>).
  { assert (Hs : s1 = s1 <| pacing_rate_ := pacing_rate_ s1 |>) by (by destruct s1). unfold UpdatePacingRate, when in E2. open_ok; repeat case_match; eauto. }
  destruct H2 as (x & ->). apply rbind_Ok in E as (u & _ & E). apply rbind_Ok in E as (s3 & E3 & E). apply rbind_Ok in E as (u' & _ & E). apply rbind_Ok in E as (m' & Em & E).
  unfold UpdateCongestionWindow in E3. apply rbind_Ok in E3 as (tg & _ & E3). cbn zeta in E3. apply rbind_Ok in E3 as (lim & _ & E3). apply Ok_inj in E3 as <-.
  unfold OnCongestionEventFinish, when in Em. apply rbind_Ok in Em as (smp & _ & Em). apply Ok_inj in Em as <-. apply Ok_inj in E as <-.
  unfold when. destruct (ev_end_of_round_trip e), (_ && _); split_and!; (done || model_frame).
Qed.
Lemma event_stats_frame s e l : let s' := event_stats s e l in
  mode_ s' = mode_ s /\ params_ s' = params_ s /\ model_ s' = model_ s /\ cycle_ s' = cycle_ s /\ exit_time_ s' = exit_time_ s /\ slow_start_timed s' = slow_start_timed s /\
  last_cycle_probed_too_high_ s' = last_cycle_probed_too_high_ s /\ last_cycle_stopped_risky_probe_ s' = last_cycle_stopped_risky_probe_ s.
Proof. unfold event_stats, when, slow_start_timed. repeat case_match; done. Qed.
Lemma event_start_machine s n t a l m e : machine s ->
  OnCongestionEventStart (model_ s) (params_ s) (Bbr2CongestionEvent_init (cwnd_ s) n (IsProbingForBandwidth s)) t a l = Ok (m, e) -> machine (event_stats (s <| model_ := m |>) e l).
Proof.
  intros (C & G & D) ((N1 & N2 & N3 & _) & Hlo & _)%event_start_spec.
  destruct (event_stats_frame (s <| model_ := m |>) e l) as (F1 & F2 & F3 & F4 & _ & F5 & F6 & F7). set (s0 := event_stats _ e l) in *. clearbody s0.
  split; [|split; [|by rewrite F2]].
  - apply (machine_core_same s s0 C); rewrite ?F3; try done. intros Hst. apply Hlo. unfold IsProbingForBandwidth. cbn. by rewrite Hst.
  - apply (gains_same s s0 G); rewrite ?F3; done.
Qed.
Lemma event_machine s least n t a l s' : machine s -> OnCongestionEvent s least n t a l = Ok s' -> machine s' /\ mode_order (mode_ s) (mode_ s') = true.
Proof.
  intros Hm (m & e & s0 & s1 & Hm0%event_start_machine & -> & El & E1 & E2 & E3 & _ & E4 & E5 & E6 & (M1 & M2 & M3 & _) & E7)%event_parts; [|done].
  destruct (event_stats_frame (s <| model_ := m |>) e l) as (F1 & _).
  apply mode_loop_machine in El as [(C1 & G1 & D1) Ho]; [|by apply machine_in_weaken]. rewrite F1 in Ho. cbn in Ho. rewrite E1. split; [|done].
  split; [|split; [|by rewrite E2]].
  - apply (machine_core_same s1 _ C1); try done. unfold slow_start_timed. by rewrite E4.
  - apply (gains_same s1 _ G1); done.
Qed.
Lemma machine_same s s' : machine s -> mode_ s' = mode_ s -> params_ s' = params_ s -> cycle_ s' = cycle_ s -> slow_start_timed s' = slow_start_timed s ->
  last_cycle_probed_too_high_ s' = last_cycle_probed_too_high_ s -> last_cycle_stopped_risky_probe_ s' = last_cycle_stopped_risky_probe_ s ->
  same_model (model_ s) (model_ s') -> inflight_lo_ (model_ s') = inflight_lo_ (model_ s) -> machine s'.
Proof.
  intros (C & G & D) E1 E2 E3 E4 E5 E6 (M1 & M2 & M3 & _) E7. split; [by apply (machine_core_same s s')|]. split; [by apply (gains_same s s')|by rewrite E2].
Qed.
Lemma quiescence_machine s t s' : machine s -> OnExitQuiescence s t = Ok s' ->
  machine s' /\ ((mode_ s' = mode_ s /\ exit_time_ s' = exit_time_ s) \/ (mode_ s = PROBE_RTT /\ mode_ s' = PROBE_BW /\ exit_time_ s < t)).
Proof.
  intros Hm. unfold OnExitQuiescence. destruct (negb _); [|intros E; apply Ok_inj in E as <-; auto]. destruct (mode_ s) eqn:Es; cbn [negb].
  - rewrite decide_False by (intros Hx; congruence). intros E. apply Ok_inj in E as <-. split; [|by left]. by apply (machine_same s).
  - rewrite decide_False by (intros Hx; congruence). intros E. apply Ok_inj in E as <-. split; [|by left]. by apply (machine_same s).
  - cbn. rewrite decide_False by (intros Hx; congruence). intros E. apply Ok_inj in E as <-. split; [|by left]. by apply (machine_same s).
  - unfold ProbeRtt_OnExitQuiescence. destruct (Z.ltb_spec (exit_time_ s) t) as [Ht|Ht].
    2:{ rewrite decide_False by (intros Hx; congruence). intros E. apply Ok_inj in E as <-. split; [|by left]. by apply (machine_same s). }
    rewrite decide_True by congruence. intros (s1 & (s2 & El & _ & F & Em & Hs')%change_mode_spec & E)%rbind_Ok. apply Ok_inj in E as <-. cbn [mode_].
    apply leave_not_startup in El as ->; [|congruence]. split; [|right; cbn; by rewrite Em]. destruct Hm as (C & G & D).
    unfold gains_of_mode in G. rewrite Es in G. destruct G as [G1 G2].
    unfold machine_core, steering in C. rewrite Es in C. destruct C as (C1 & C2 & C3 & C4). pose proof Hs' as [K [(Kp & Kd)|(Kp & Kd)]]%ProbeBw_Enter_spec; cbn in Kp, Kd; [by destruct C3; congruence|].
    destruct K as (K1 & K2 & K3 & K4 & K5 & K6 & K7 & K8 & K9 & _ & _ & K10 & K11). cbn in K1, K8, K9, K10, K11.
    apply (machine_same s1); try done. eapply ProbeBw_Enter_cycle in Hs'; [|done]. split; [|split].
    + unfold machine_core, slow_start_timed in *. rewrite Em, K8, K9. split_and!; try done; [rewrite Kp; by destruct C3 as [-> | ->]|apply Hs'..].
    + unfold gains_of_mode, steering, PacingGainForPhase. rewrite Em, K10, K11, Kp, (proj1 F), G1, G2, (proj1 D). split; [by destruct C3 as [-> | ->]|auto].
    + by rewrite (proj1 F).
Qed.

Definition not_config (c : bbr2_call) : Prop := match c with B2Config _ => False | _ => True end.
Lemma sent_machine s t n pn bytes d s' : machine s -> OnPacketSent s t n pn bytes d = Ok s' ->
  machine s' /\ ((mode_ s' = mode_ s /\ exit_time_ s' = exit_time_ s) \/ (mode_ s = PROBE_RTT /\ mode_ s' = PROBE_BW /\ n = 0 /\ exit_time_ s < t)).
Proof.
  intros Hm. unfold OnPacketSent. cbn zeta. set (s0 := when (InSlowStart s) _ s).
  assert (H0 : machine s0 /\ mode_ s0 = mode_ s /\ exit_time_ s0 = exit_time_ s).
  { unfold s0, when. destruct (InSlowStart s); [|done]. split; [by apply (machine_same s)|done]. }
  clearbody s0. destruct H0 as (Hm0 & E1 & E2). intros (s1 & Eq & E)%rbind_Ok.
  assert (H1 : machine s1 /\ ((mode_ s1 = mode_ s /\ exit_time_ s1 = exit_time_ s) \/ (mode_ s = PROBE_RTT /\ mode_ s1 = PROBE_BW /\ n = 0 /\ exit_time_ s < t))).
  { destruct (Z.eqb_spec n 0) as [Hn|]; [|apply Ok_inj in Eq as <-; split; [done|left; done]]. destruct (avoid_unnecessary_probe_rtt _); [|apply Ok_inj in Eq as <-; split; [done|left; done]].
    cbn in Eq. apply quiescence_machine in Eq as [Hq [[Q1 Q2]|(Q1 & Q2 & Q3)]]; [| |done]; (split; [done|]); [left|right]; rewrite ?E1, ?E2 in *; done. }
  destruct H1 as (Hm1 & Hc). apply rbind_Ok in E as (m & Em & E). apply Ok_inj in E as <-. split; [|exact Hc].
  unfold Model_OnPacketSent in Em. apply rbind_Ok in Em as (cn & _ & Em). apply rbind_Ok in Em as (smp & _ & Em). apply Ok_inj in Em as <-. by apply (machine_same s1).
Qed.
Lemma step_machine s c s' : machine s -> not_config c -> bbr2_step s c = Ok s' -> machine s' /\ mode_order (mode_ s) (mode_ s') = true.
Proof.
  intros Hm Hc E. assert (Hr : forall x, mode_order x x = true) by (by intros []). destruct c; cbn [bbr2_step] in E.
  - by eapply event_machine.
  - apply sent_machine in E as [Hm' [[-> _]|(-> & -> & _)]]; done.
  - unfold OnPacketNeutered, Model_OnPacketNeutered in E. open_ok. split; [by apply (machine_same s)|done].
  - apply Ok_inj in E as <-. unfold OnApplicationLimited. destruct (_ <=? _); [done|]. split; [by apply (machine_same s)|done].
  - by apply Ok_inj in E as <-.
  - apply Ok_inj in E as <-. unfold SetInitialCongestionWindowInPackets. destruct (decide _); [|done]. split; [by apply (machine_same s)|apply Hr].
  - unfold AdjustNetworkParameters in E. cbn zeta in E. set (s0 := on_model s _) in E.
    assert (H0 : machine s0 /\ mode_ s0 = mode_ s).
    { split; [|done]. unfold s0, UpdateNetworkParameters, on_model. destruct (negb _); by apply (machine_same s). }
    clearbody s0. destruct H0 as [H0 E0]. rewrite <- E0. destruct (decide _); [|by apply Ok_inj in E as <-].
    apply rbind_Ok in E as (rt & _ & E). apply Ok_inj in E as <-. unfold when. destruct (0 <? _); (split; [by apply (machine_same s0)|done]).
  - done.
Qed.

(** The states of a sender that is configured once, before it is used. *)
Inductive bbr2_reachable : Bbr2Sender R -> Prop :=
  | bbr2_start now rtt_stats n mx random stats old s o : Bbr2Sender_init now rtt_stats n mx random stats old = Ok s -> bbr2_reachable (SetFromConfig s o)
  | bbr2_next s c s' : bbr2_reachable s -> not_config c -> bbr2_step s c = Ok s' -> bbr2_reachable s'.

Definition starting s : Prop :=
  mode_ s = STARTUP /\ full_bandwidth_reached_ (model_ s) = false /\ slow_start_timed s = true /\ phase (cycle_ s) = PROBE_NOT_STARTED /\
  inflight_lo_ (model_ s) = inflight_lo_default /\ cwnd_gain_ (model_ s) = startup_cwnd_gain (params_ s) /\
  (decrease_startup_pacing_at_end_of_round (params_ s) = false -> pacing_gain_ (model_ s) = startup_pacing_gain (params_ s)) /\ fixed_params (params_ s).
Lemma starting_machine s : starting s -> machine s.
Proof. intros (Em & S1 & S2 & S3 & S4 & S5 & S6 & S7). unfold machine, machine_core, gains_of_mode. rewrite Em. by split_and!. Qed.
Lemma init_starting now rtt_stats n mx random stats old s : Bbr2Sender_init now rtt_stats n mx random stats old = Ok s -> starting s.
Proof.
  unfold Bbr2Sender_init. cbn zeta. intros (r & _ & (v & _ & E)%rbind_Ok)%rbind_Ok. unfold Startup_init in E. apply rbind_Ok in E as (d & Ed & E). apply Ok_inj in E as <-.
  unfold Accumulator_Start in Ed. apply rbind_Ok in Ed as (u & _ & Ed). apply rbind_Ok in Ed as (u' & Hr & Ed). apply Ok_inj in Ed as <-. apply CHECK_Ok in Hr.
  unfold starting, slow_start_timed. cbn -[IsRunning] in *. split_and!; done.
Qed.
Lemma config_keeps_starting s o : starting s -> starting (SetFromConfig s o).
Proof.
  intros Hs. unfold SetFromConfig, ApplyConnectionOptions. cbn zeta.
  repeat (apply (when_keeps starting); [intros x (X1 & X2 & X3 & X4 & X5 & X6 & X7 & X8); by split_and!|]). done.
Qed.
Lemma reachable_machine s : bbr2_reachable s -> machine s.
Proof.
  induction 1 as [????????? E|s c s' _ IH Hc E]; [by eapply starting_machine, config_keeps_starting, init_starting|]. by eapply step_machine.
Qed.

(** Within PROBE_BW an event moves the phase one place, or not at all. *)
Lemma mode_loop_phase n s p t e s' : mode_loop n s p t e = Ok s' -> mode_ s = PROBE_BW -> mode_ s' = PROBE_BW -> phase_move (phase (cycle_ s)) (phase (cycle_ s')) = true.
Proof.
  intros E Hm Hm'. assert (E0 : exists r k, ProbeBw_OnCongestionEvent s p t e = Ok r /\ mode_ r.1 = PROBE_BW /\ (if decide (r.2 = mode_ r.1) then Ok r.1 else let* s2 := change_mode r.1 r.2 t in k s2) = Ok s' /\
    forall s2, k s2 = Ok s' -> exists n, mode_loop n s2 p t e = Ok s').
  { destruct n as [|n]; cbn [mode_loop] in E; apply rbind_Ok in E as ([s1 next] & E & E'); pose proof E as [_ Em]%mode_event_frame; unfold mode_event in E; rewrite Hm in E, Em;
      exists (s1, next); eexists; (split; [exact E|]); (split; [exact Em|]); (split; [exact E'|]); [done|]. intros s2 E2. by exists n. }
  destruct E0 as (r & k & (s1 & _ & Hp & [(E2 & E1)|(E2 & _)])%ProbeBw_event_spec & Em & E' & Hk); rewrite E2, Em in E'.
  - rewrite decide_True in E' by done. apply Ok_inj in E' as <-. by rewrite E1.
  - cbn in E'. apply rbind_Ok in E' as (s2 & (s3 & _ & _ & _ & Em2 & ->)%change_mode_spec & (n' & E3)%Hk). apply mode_loop_leaves in E3 as [(Hz & _)|(Hx & _)]; [done|congruence|done].
Qed.
(** A PROBE_RTT that an event leaves is not entered again by it. *)
Lemma mode_loop_steady n s p t e s' : mode_loop n s p t e = Ok s' -> mode_ s = PROBE_BW -> phase (cycle_ s) <> PROBE_DOWN -> mode_ s' = PROBE_BW.
Proof.
  intros E Hm Hp. destruct n as [|n]; cbn [mode_loop] in E; apply rbind_Ok in E as ([s1 next] & E & E'); pose proof E as [_ Em]%mode_event_frame; unfold mode_event in E; rewrite Hm in E, Em;
    apply ProbeBw_event_spec in E as (s2 & _ & _ & [(E2 & _)|(_ & Hd & _)]); try done; cbn in *; rewrite E2, Em, decide_True in E' by done; apply Ok_inj in E' as <-; done.
Qed.
Lemma mode_loop_stays n s p t e s' : machine_in s -> mode_loop n s p t e = Ok s' -> mode_ s = PROBE_RTT -> mode_ s' = PROBE_RTT ->
  exit_time_ s' = exit_time_ s \/ exit_time_ s = QuicTime_Zero /\ exit_time_ s' = QuicTime_add (ev_time e) (probe_rtt_duration (params_ s)).
Proof.
  intros (C & _) E Hm Hm'. pose proof E as [(Hz & Ht)|(_ & Hx)]%mode_loop_leaves; [|done|done]. exfalso.
  assert (Ee : mode_event s p t e = Ok (s, PROBE_BW)).
  { unfold mode_event, ProbeRtt_OnCongestionEvent. rewrite Hm. destruct (Z.eqb_spec (exit_time_ s) QuicTime_Zero); [done|]. destruct (Z.ltb_spec (exit_time_ s) (ev_time e)); [done|lia]. }
  destruct n as [|n]; cbn [mode_loop] in E; rewrite Ee in E; cbn [rbind] in E; (destruct (decide _); [congruence|]); apply rbind_Ok in E as (s2 & Ec & E); [done|].
  apply change_mode_spec in Ec as (s3 & El & _ & _ & Em2 & Hs'). apply leave_not_startup in El as ->; [|congruence]. unfold machine_core, steering in C. rewrite Hm in C.
  apply ProbeBw_Enter_spec in Hs' as [_ [(Kp & Kd)|(Kp & Kd)]]; cbn in Kp, Kd; [by destruct C as (_ & _ & [?|?] & _); congruence|].
  apply mode_loop_steady in E; [congruence|done|]. rewrite Kp. by destruct Kd as [-> | ->].
Qed.

(** C10. The modes and gains of BBRv2.  In every state of a sender configured before its use the
    invariant of its mode holds, and so after the next call: STARTUP is timed, probes
    without a lower bound on the bytes in flight and has not reached full
    bandwidth, the other modes are not timed and have; the gains are those of the mode, in
    PROBE_BW of its phase; a cycle of PROBE_BW has started when and only when DRAIN has been left, its
    flags are initialized, and samples count as probing in neither CRUISE nor
    REFILL.  STARTUP is never entered again, nor DRAIN once it is left, and an event within
    PROBE_BW moves its phase along UP, DOWN, CRUISE, REFILL, UP or straight from
    DOWN to REFILL. *)
Theorem bbr2_mode_machine s c s' : bbr2_reachable s -> not_config c -> bbr2_step s c = Ok s' ->
  machine s' /\ mode_order (mode_ s) (mode_ s') = true /\
  (forall least n t a l, c = B2Event least n t a l -> mode_ s = PROBE_BW -> mode_ s' = PROBE_BW -> phase_move (phase (cycle_ s)) (phase (cycle_ s')) = true).
Proof.
  intros Hm%reachable_machine Hc E. destruct (step_machine s c s' Hm Hc E) as [Hm' Ho]. split; [done|]. split; [done|].
  intros least n t a l -> Hb Hb'. apply event_parts in E as (m & e & s0 & s1 & _ & -> & El & E1 & _ & E2 & _).
  destruct (event_stats_frame (s <| model_ := m |>) e l) as (F1 & _ & _ & F2 & _). apply mode_loop_phase in El; [|by rewrite F1|congruence].
  rewrite F2 in El. by rewrite E2.
Qed.

(** C23. The cycle of PROBE_RTT.  From any reachable state, an event enters PROBE_RTT only if the
    least RTT is ten seconds old; the time to leave is set once, by an
    event, to 200 ms from then; an event leaves only
    after that time, and the only other way out is a packet sent with nothing in
    flight. *)
Theorem bbr2_probe_rtt_cycle s c s' : bbr2_reachable s -> not_config c -> bbr2_step s c = Ok s' ->
  match c with
  | B2Event _ _ t _ _ =>
      (0 <= t < 2 ^ 61 -> mode_ s <> PROBE_RTT -> mode_ s' = PROBE_RTT ->
         QuicTime_add (MinRttTimestamp (model_ s)) (Delta_FromMilliseconds 10000) <= t) /\
      (mode_ s = PROBE_RTT -> mode_ s' = PROBE_RTT ->
         exit_time_ s' = exit_time_ s \/ exit_time_ s = QuicTime_Zero /\ exit_time_ s' = QuicTime_add t (Delta_FromMilliseconds 200)) /\
      (mode_ s = PROBE_RTT -> mode_ s' <> PROBE_RTT -> exit_time_ s <> QuicTime_Zero /\ exit_time_ s < t)
  | B2Sent t n _ _ _ =>
      mode_ s' = mode_ s /\ exit_time_ s' = exit_time_ s \/ mode_ s = PROBE_RTT /\ mode_ s' = PROBE_BW /\ n = 0 /\ exit_time_ s < t
  | _ => mode_ s' = mode_ s /\ exit_time_ s' = exit_time_ s
  end.
Proof.
  intros Hm%reachable_machine Hc E. destruct c as [least n t a l|t n pn b d|pn|n|b|n|params|o]; cbn [bbr2_step] in E.
  - apply event_parts in E as (m & e & s0 & s1 & Est & Es0 & El & E1 & _ & _ & E2 & _). apply event_start_spec in Est as ((N1 & N2 & N3 & _) & Hlo & Et & _ & Hmin).
    destruct (event_stats_frame (s <| model_ := m |>) e l) as (F1 & F2 & F3 & F4 & Fe & F5 & F6 & F7). rewrite <- Es0 in *. clear Es0. cbn in F1, F2, F3, F4, Fe, F6, F7.
    destruct Hm as (C & G & D1 & D2 & D3). rewrite E1, E2, <- F1, <- Fe, <- Et. split; [|split].
    + intros Ht Hn Hr. pose proof (mode_loop_enters _ _ _ _ _ _ El Hn Hr) as Hx. rewrite F2, D2, F3 in Hx.
      destruct Hmin as [Hmin|Hmin]; [by unfold MinRttTimestamp in *; rewrite <- Hmin|].
      rewrite Hmin, <- Et in Hx. unfold QuicTime_add in Hx. change (Delta_FromMilliseconds 10000) with 10000000 in Hx. rewrite i64_small in Hx by lia. lia.
    + intros Hr Hr'. rewrite <- D3, <- F2. eapply mode_loop_stays; [|exact El|done|done]. apply machine_in_weaken. split; [|split; [|by rewrite F2]].
      * apply (machine_core_same s s0 C); rewrite ?F3; try done. intros Hx. congruence.
      * apply (gains_same s s0 G); rewrite ?F3; done.
    + intros Hr Hr'. apply mode_loop_leaves in El as [Hx|[Hx _]]; [done|congruence|done].
  - by apply sent_machine in E as [_ Hx].
  - unfold OnPacketNeutered in E. apply rbind_Ok in E as (m & _ & E). by apply Ok_inj in E as <-.
  - apply Ok_inj in E as <-. unfold OnApplicationLimited. by destruct (_ <=? _).
  - by apply Ok_inj in E as <-.
  - apply Ok_inj in E as <-. unfold SetInitialCongestionWindowInPackets. by destruct (decide _).
  - unfold AdjustNetworkParameters, when in E. open_ok; [|done]. by destruct (0 <? _).
  - done.
Qed.

End Machine.

(** * Witnesses *)

Lemma bbr2_after_reachable cs s : Forall not_config cs -> bbr2_after cs = Ok s -> bbr2_reachable s.
Proof.
  unfold bbr2_after, first_bbr2. intros Hc (s0 & E0 & E)%rbind_Ok. revert E. apply (rfold_inv bbr2_reachable); [|by eapply bbr2_start].
  intros c x x' Hin Hx Ex. rewrite Forall_forall in Hc. eapply bbr2_next; [exact Hx|by apply Hc|exact Ex].
Qed.
(** The tenth acknowledgment takes the sender from STARTUP through DRAIN and PROBE_BW to PROBE_RTT, the next one back to PROBE_BW. *)
Lemma overlaps_run : exists s9 s9' s10 s10' s11,
  bbr2_after (overlaps 9) = Ok s9 /\ bbr2_step s9 (B2Sent 20000000 1200 10 1200 HAS_RETRANSMITTABLE_DATA) = Ok s9' /\ mode_ s9' = STARTUP /\
  bbr2_step s9' (B2Event 10 2400 20020000 [mkAcked 9 1200 20020000] []) = Ok s10 /\ mode_ s10 = PROBE_RTT /\
  bbr2_step s10 (B2Sent 22000000 1200 11 1200 HAS_RETRANSMITTABLE_DATA) = Ok s10' /\ mode_ s10' = PROBE_RTT /\ exit_time_ s10' = 20220000 /\
  bbr2_step s10' (B2Event 11 2400 22020000 [mkAcked 10 1200 22020000] []) = Ok s11 /\ mode_ s11 = PROBE_BW /\ cwnd_ s10 = 5840.
Proof.
  destruct (bbr2_after (overlaps 9)) as [s9|f] eqn:E; vm_compute in E; [|discriminate]. apply Ok_inj in E as <-. do 5 eexists. split; [reflexivity|].
  repeat (split; [vm_compute; reflexivity|]). vm_compute. reflexivity.
Qed.

Lemma bbr2_next_call (s s' : Bbr2Sender Z) c : bbr2_reachable s -> bbr2_step s c = Ok s' -> not_config c -> bbr2_reachable s'.
Proof. intros. by eapply bbr2_next. Qed.
Lemma overlaps_not_config n : Forall not_config (overlaps n).
Proof. unfold overlaps. apply Forall_concat, Forall_fmap, Forall_true. intros i. by repeat constructor. Qed.

Lemma bbr2_mode_machine_witness :
  exists s s' : Bbr2Sender Z, mode_ s = STARTUP /\ mode_ s' = PROBE_RTT /\ bbr2_step s (B2Event 10 2400 20020000 [mkAcked 9 1200 20020000] []) = Ok s' /\ machine s'.
Proof.
  destruct overlaps_run as (s9 & s9' & s10 & s10' & s11 & E9 & E9' & M9 & E10 & M10 & _).
  pose proof (bbr2_next_call _ _ _ (bbr2_after_reachable _ s9 (overlaps_not_config 9) E9) E9' I) as Hr.
  exists s9', s10. split; [exact M9|]. split; [exact M10|]. split; [exact E10|].
  exact (proj1 (bbr2_mode_machine s9' (B2Event 10 2400 20020000 [mkAcked 9 1200 20020000] []) s10 Hr I E10)).
Defined.

Lemma bbr2_probe_rtt_cycle_witness :
  exists s s' : Bbr2Sender Z, mode_ s = PROBE_RTT /\ mode_ s' = PROBE_BW /\ bbr2_step s (B2Event 11 2400 22020000 [mkAcked 10 1200 22020000] []) = Ok s' /\ exit_time_ s < 22020000.
Proof.
  destruct overlaps_run as (s9 & s9' & s10 & s10' & s11 & E9 & E9' & M9 & E10 & M10 & E10' & M10' & X10 & E11 & M11 & _).
  pose proof (bbr2_next_call _ _ _ (bbr2_after_reachable _ s9 (overlaps_not_config 9) E9) E9' I) as Hr9.
  pose proof (bbr2_next_call _ _ _ (bbr2_next_call _ _ _ Hr9 E10 I) E10' I) as Hr.
  exists s10', s11. split; [exact M10'|]. split; [exact M11|]. split; [exact E11|].
  destruct (bbr2_probe_rtt_cycle s10' (B2Event 11 2400 22020000 [mkAcked 10 1200 22020000] []) s11 Hr I E11) as (_ & _ & H1). apply H1; [exact M10'|]. rewrite M11. discriminate.
Defined.

