(* ===== verification/Bbr2Safety.v ===== *)
(** The BBRv2 sender does not stop: on every run of a connection that keeps to the
    sampler's contract and numbers its packets in ascending order, no
    assertion of [Bbr2Sender], its modes or its network model fails, no conversion
    from a float is out of range, no member is read before it is written and no
    division is by zero, unless the bandwidth estimate is one bit per
    second while the sender drains. *)

From Stdlib Require Import SpecFloat.
From stdpp Require Import gmap relations.
From S2P Require Import Prelude Float QuicTime PacketNumber WindowedFilter RttStats SendAlgorithm UnackedMap IndexedQueue BandwidthSampler Bbr BbrSafety Bbr2Model Bbr2 Bbr2Machine.

(** * Floats in range *)

Lemma SFmul_comm prec emax x y : SFmul prec emax x y = SFmul prec emax y x.
Proof. destruct x as [[]|[]| |[] m e], y as [[]|[]| |[] m' e']; cbn; try done; by rewrite (Pos.mul_comm m), (Z.add_comm e). Qed.

(** A window times a gain. *)
Lemma window_gain_cast z gain : gain_ok gain -> 0 <= z < 2 ^ 50 -> exists w, float_to_u64 (f32_mul (f32_of_Z z) gain) = Ok w.
Proof. intros Hg Hz. unfold f32_mul. rewrite SFmul_comm. by apply gain_times_ok. Qed.

(** A share of a 64-bit count: at most a quarter of it. *)
Definition share_ok (x : spec_float) : Prop := mag_in x (-20) (-2).
Lemma share_cast z x : share_ok x -> 0 <= z < two64 -> exists w, float_to_u64 (f32_mul (f32_of_Z z) x) = Ok w.
Proof.
  intros Hx Hz. unfold f32_mul. rewrite SFmul_comm.
  eapply float_to_u64_mag0; [apply (f32_mul_mag0 _ _ (-20) (-2) 1 65); [done|apply (f32_of_Z_mag0 z 64); lia|lia|lia]|lia].
Qed.

(** Three quarters of a count, in double precision. *)
Lemma fle_of_Z64 z c E : 0 <= z -> z <= c * 2 ^ E -> 0 <= E -> 0 < c < 2 ^ 52 -> z < 2 ^ 90 -> fle (f64_of_Z z) c E.
Proof.
  intros Hz Hle HE Hc Hz2. destruct (Z.eq_dec z 0) as [->|Hn]; [done|].
  apply (binary_normalize_fle 53 1024); try lia; try done.
  - rewrite Z.add_0_l, (Z.pow_add_r 2 E), Z.mul_assoc by lia. apply Z.mul_le_mono_nonneg_r; [done|lia].
  - exact (mag_in_wide _ _ _ (f64_of_Z_mag z 0 90 ltac:(lia) ltac:(lia) ltac:(lia)) ltac:(lia) ltac:(lia)).
Qed.
Definition reduction64_ok (x : spec_float) : Prop := mag_in x (-1) 0 /\ fle x 3 (-2).
Lemma reduction64_cast z x : reduction64_ok x -> 0 <= z < two64 -> exists w, float_to_u64 (f64_mul (f64_of_Z z) x) = Ok w.
Proof.
  intros [Hm Hx] Hz. destruct (Z.eq_dec z 0) as [->|Hn]; [change (f64_of_Z 0) with (S754_zero false); destruct x as [| | |[] m e]; try done; by exists 0|].
  pose proof (f64_of_Z_mag z 0 64 ltac:(lia) ltac:(lia) ltac:(lia)) as Hz'.
  pose proof (f64_mul_mag _ _ _ _ _ _ Hz' Hm ltac:(lia) ltac:(lia)) as Hp.
  assert (Hle : fle (f64_mul (f64_of_Z z) x) 3 62).
  { apply (SFmul_fle 53 1024 ltac:(lia) ltac:(done) (f64_of_Z z) x 1 64 3 (-2)); try lia; try done; [apply fle_of_Z64; lia|..];
      (eapply mag_in_wide; [eassumption|lia|lia]). }
  destruct (fle_trunc _ _ _ Hle ltac:(lia) ltac:(lia)) as (w & Ew & Hw). unfold float_to_u64. rewrite Ew. exists w. cbn.
  rewrite (proj2 (Z.leb_le _ _)), (proj2 (Z.ltb_lt _ _)) by lia. done.
Qed.

(** Rounding to an integer stays below an integer bound. *)
Lemma fle_round x c E : fle x c E -> 0 <= E -> 0 < c -> exists z, float_round x = Some z /\ 0 <= z <= c * 2 ^ E.
Proof.
  intros Hx HE Hc. assert (0 < 2 ^ E) by (apply Z.pow_pos_nonneg; lia).
  destruct x as [| | |[] m e]; try done; cbn [fle float_round] in *; [exists 0; split; [done|nia]|].
  destruct Hx as [He Hle]. eexists; split; [done|]. rewrite (Z.pow_add_r 2 E) in Hle by lia. destruct (Z.leb_spec 0 e).
  - rewrite Z.pow_add_r, !Z.mul_assoc in Hle by lia. apply Z.mul_le_mono_pos_r in Hle; [|done]. assert (0 < 2 ^ e) by (apply Z.pow_pos_nonneg; lia). lia.
  - assert (Hp : 0 < 2 ^ (- e)) by (apply Z.pow_pos_nonneg; lia). rewrite (Z.pow_add_r 2 (- e) 1) by lia. change (2 ^ 1) with 2.
    assert (Hb : 2 ^ bias = 2 ^ (e + bias) * 2 ^ (- e)) by (rewrite <- Z.pow_add_r by lia; f_equal; lia).
    assert (0 < 2 ^ (e + bias)) by (apply Z.pow_pos_nonneg; lia).
    assert (Hm : Zpos m <= c * 2 ^ E * 2 ^ (- e)) by (apply (Z.mul_le_mono_pos_r _ _ (2 ^ (e + bias))); [done|]; rewrite Hb in Hle; lia).
    split; [apply Z.div_pos; lia|]. apply Z.lt_succ_r, Z.div_lt_upper_bound; nia.
Qed.
(** Three quarters of a bandwidth. *)
Definition reduction32_ok (x : spec_float) : Prop := gain_ok x /\ fle x 3 (-2).
Lemma bandwidth_reduced b x : bandwidth_ok b -> reduction32_ok x -> exists v, QuicBandwidth_mul b x = Ok v /\ bandwidth_ok v.
Proof.
  intros Hb [Hm Hx]. unfold QuicBandwidth_mul. assert (Hle : fle (f32_mul (f32_of_Z b) x) 3 56).
  { destruct (f32_of_Z_mag0 b 58 ltac:(lia) Hb) as [->|Hbm].
    { change (f32_mul (S754_zero false) x) with (SFmul 24 128 (S754_zero false) x). destruct x as [| | |[] m e]; done. }
    pose proof (f32_mul_mag _ _ _ _ _ _ Hbm Hm ltac:(lia) ltac:(lia)) as Hp.
    apply (SFmul_fle 24 128 ltac:(lia) ltac:(done) (f32_of_Z b) x 1 58 3 (-2)); try lia; try done; [apply fle_of_Z32; unfold bandwidth_ok in Hb; lia|..];
      (eapply mag_in_wide; [eassumption|lia|lia]). }
  destruct (fle_round _ _ _ Hle ltac:(lia) ltac:(lia)) as (z & Ez & Hz). unfold float_llround. rewrite Ez. cbn.
  rewrite (proj2 (Z.leb_le _ _)), (proj2 (Z.ltb_lt _ _)) by lia. cbn. eexists. split; [done|]. unfold bandwidth_ok, QuicBandwidth_mk. zcases; lia.
Qed.

(** A product is at least the product of the lower bounds, and so is the integer it is rounded to. *)
Lemma f32_mul_fge x y a b c d k E k' E' : fge x k E -> fge y k' E' -> mag_in x a b -> mag_in y c d -> -100 < a -> -100 < c -> -100 < a + c -> b + d < 100 ->
  0 < k -> 0 < k' -> k * k' < 2 ^ 24 -> -100 <= E <= 100 -> -100 <= E' <= 100 -> -100 <= E + E' -> fge (f32_mul x y) (k * k') (E + E').
Proof.
  destruct x as [| | |[] mx ex], y as [| | |[] my ey]; try done. cbn [fge mag_in]. unfold mag. intros [Hx1 Hx] [Hy1 Hy] [Hmx Hdx] [Hmy Hdy] Ha Hc H1 H2 Hk Hk' Hkk HE HE' HEE.
  unfold f32_mul, SFmul. cbn [xorb].
  pose proof (digits2_pos_spec mx) as Sx. pose proof (digits2_pos_spec my) as Sy. pose proof (digits2_pos_spec (mx * my)) as Sxy.
  set (dx := Zpos (digits2_pos mx)) in *. set (dy := Zpos (digits2_pos my)) in *. set (d' := Zpos (digits2_pos (mx * my))) in *.
  assert (0 < 2 ^ (dx - 1)) by (apply Z.pow_pos_nonneg; lia). assert (0 < 2 ^ (dy - 1)) by (apply Z.pow_pos_nonneg; lia).
  assert (Hlo : dx + dy - 1 <= d').
  { replace (dx + dy - 1) with (dx - 1 + (dy - 1) + 1) by lia. apply digits2_pos_ge. rewrite Pos2Z.inj_mul, Z.pow_add_r by lia. apply Z.mul_le_mono_nonneg; lia. }
  assert (Hhi : d' <= dx + dy).
  { apply digits2_pos_le; [lia|]. rewrite Pos2Z.inj_mul, Z.pow_add_r by lia. apply Z.mul_lt_mono_nonneg; lia. }
  apply (binary_round_aux_fge 24 128) with (d := d'); unfold emin; try lia.
  assert (HS : forall u v, -1000 <= u -> -1000 <= v -> 2 ^ (u + v + bias) * 2 ^ bias = 2 ^ (u + bias) * 2 ^ (v + bias)).
  { intros u v Hu Hv. rewrite <- !Z.pow_add_r by lia. f_equal. lia. }
  apply (Z.mul_le_mono_pos_r _ _ (2 ^ bias)); [done|]. rewrite <- !Z.mul_assoc, !HS, Pos2Z.inj_mul by lia.
  assert (0 < 2 ^ (E + bias)) by (apply Z.pow_pos_nonneg; lia). assert (0 < 2 ^ (E' + bias)) by (apply Z.pow_pos_nonneg; lia).
  transitivity ((k * 2 ^ (E + bias)) * (k' * 2 ^ (E' + bias))); [lia|]. transitivity ((Zpos mx * 2 ^ (ex + bias)) * (Zpos my * 2 ^ (ey + bias))); [|lia].
  apply Z.mul_le_mono_nonneg; lia.
Qed.
Lemma fge_round x : fge x 1 (-1) -> forall z, float_round x = Some z -> 1 <= z.
Proof.
  destruct x as [| | |[] m e]; try done. cbn [fge float_round]. intros [He Hle] z [= <-]. destruct (Z.leb_spec 0 e).
  - assert (0 < 2 ^ e) by (apply Z.pow_pos_nonneg; lia). nia.
  - assert (Hp : 0 < 2 ^ (- e)) by (apply Z.pow_pos_nonneg; lia). apply Z.div_le_lower_bound; [apply Z.pow_pos_nonneg; lia|].
    rewrite (Z.pow_add_r 2 (- e) 1) by lia. change (2 ^ 1) with 2.
    assert (H1 : 0 < 2 ^ (e + bias)) by (apply Z.pow_pos_nonneg; lia).
    assert (Hb : 2 ^ (-1 + bias) * 2 = 2 ^ (- e) * 2 ^ (e + bias)) by (change 2 with (2 ^ 1) at 2; rewrite <- !Z.pow_add_r by lia; f_equal; lia). nia.
Qed.
Lemma bandwidth_positive b g k : 0 < k < 2 ^ 11 -> k <= b -> bandwidth_ok b -> gain_ok g -> forall k' E', fge g k' E' -> 0 < k' < 2 ^ 11 -> -50 <= E' <= -1 -> 2 ^ (- E' - 1) <= k * k' ->
  forall v, QuicBandwidth_mul b g = Ok v -> 0 < v.
Proof.
  intros Hk Hb Hbw Hg k' E' Hge Hk' HE Hkk v Ev. unfold bandwidth_ok, gain_ok in *. unfold QuicBandwidth_mul, float_llround in Ev.
  assert (Hm : mag_in (f32_of_Z b) (0 + 1) (58 + 1)) by (apply f32_of_Z_mag; lia).
  assert (Hp : fge (f32_mul (f32_of_Z b) g) (k * k') (0 + E')).
  { eapply f32_mul_fge; [apply f32_of_Z_fge; lia|exact Hge|exact Hm|exact Hg|lia..|nia|lia|lia|lia]. }
  assert (Hp' : fge (f32_mul (f32_of_Z b) g) 1 (-1)).
  { destruct (f32_mul _ _) as [| | |[] m e]; try done. cbn [fge] in *. destruct Hp as [He Hle]. split; [done|]. etrans; [|exact Hle].
    rewrite Z.add_0_l. replace (-1 + bias) with (- E' - 1 + (E' + bias)) by lia. rewrite Z.pow_add_r, Z.mul_1_l by lia.
    apply Z.mul_le_mono_nonneg_r; [apply Z.pow_nonneg; lia|done]. }
  destruct (float_round _) as [z|] eqn:Ez; [|done]. apply fge_round with (z := z) in Hp'; [|done].
  cbn in Ev. destruct (_ && _); [|done]. cbn in Ev. apply Ok_inj in Ev as <-. unfold QuicBandwidth_mk. zcases; lia.
Qed.

Section Safety.
Context {R : Type} `{QuicRandom R}.
Implicit Types (s : Bbr2Sender R) (e : Bbr2CongestionEvent) (m : Bbr2NetworkModel) (p : Bbr2Params).

(** * What is kept between the steps of an event *)

(** The parameters of a sender without the experiments on lower bounds and startup pacing. *)
Record params_safe p : Prop := {
  ps_startup : gain_ok (startup_cwnd_gain p) /\ gain_ok (startup_pacing_gain p) /\ gain_ok (startup_full_bw_threshold p);
  ps_drain : gain_ok (drain_cwnd_gain p) /\ gain_ok (drain_pacing_gain p);
  ps_probe : gain_ok (probe_bw_probe_up_pacing_gain p) /\ gain_ok (probe_bw_probe_down_pacing_gain p) /\ gain_ok (probe_bw_cwnd_gain p);
  ps_other : gain_ok (probe_bw_probe_inflight_gain p) /\ gain_ok (probe_bw_probe_reno_gain p) /\ gain_ok (probe_rtt_inflight_target_bdp_fraction p);
  ps_rates : fge (startup_pacing_gain p) 1 (-1) /\ fge (probe_bw_probe_up_pacing_gain p) 1 (-1) /\ fge (probe_bw_probe_down_pacing_gain p) 1 (-1) /\
    fge (drain_pacing_gain p) 1 (-2);
  ps_same : drain_cwnd_gain p = startup_cwnd_gain p /\ SFeqb (startup_cwnd_gain p) (startup_cwnd_gain p) = true;
  ps_shares : share_ok (inflight_hi_headroom p) /\ share_ok (loss_threshold p);
  ps_beta : reduction64_ok (one_minus_beta p) /\ reduction32_ok (f32_of_f64 (one_minus_beta p));
  ps_mode : bw_lo_mode_ p = DEFAULT /\ decrease_startup_pacing_at_end_of_round p = false;
  ps_random : probe_bw_max_probe_rand_rounds p <> 0 /\ u64 (Delta_ToMicroseconds (probe_bw_probe_max_rand_duration p)) <> 0;
  ps_fixed : fixed_params p;
  ps_trickle : QuicBandwidth_mul 1 (drain_pacing_gain p) = Ok 0;
}.

Record model_safe m : Prop := {
  ms_max : bandwidth_ok (max_bandwidth_0 (max_bandwidth_filter_ m)) /\ bandwidth_ok (max_bandwidth_1 (max_bandwidth_filter_ m));
  ms_latest : bandwidth_ok (bandwidth_latest_ m);
  ms_baseline : bandwidth_ok (full_bandwidth_baseline_ m);
  ms_lo : bandwidth_lo_ m = QuicBandwidth_Infinite \/ bandwidth_ok (bandwidth_lo_ m);
  ms_inflight : is_u64 (inflight_lo_ m) /\ is_u64 (inflight_hi_ m) /\ is_u64 (inflight_latest_ m) /\ is_u64 (max_bytes_delivered_in_round_ m);
  ms_rtt : 0 < MinRtt m;
  ms_heights : heights_ok (bandwidth_sampler_ m);
}.
Definition cycle_safe (c : Cycle) : Prop :=
  0 <= probe_up_rounds c <= 30 /\ 0 <= probe_up_acked c < 2 ^ 33 /\ (phase c = PROBE_UP -> 1460 <= probe_up_bytes c <= 2 ^ 33).
Definition window_safe s : Prop := 5840 <= cwnd_ s < 2 ^ 33.
Definition mid s : Prop := params_safe (params_ s) /\ model_safe (model_ s) /\ cycle_safe (cycle_ s) /\ window_safe s.
Definition goes (r : result (Bbr2Sender R)) : Prop := exists s', r = Ok s' /\ mid s'.
(** A step that also answers. *)
Definition goes_with {A} (r : result (Bbr2Sender R * A)) : Prop := exists x, r = Ok x /\ mid x.1.

(** What the modes know of an event. *)
Definition event_safe s e : Prop :=
  state_fine (model_bytes_acked (model_ s)) (ev_send_state e) /\ 0 < ev_sample_min_rtt e /\ 0 <= ev_bytes_acked e < 2 ^ 40 /\ 0 <= ev_prior_cwnd e < 2 ^ 33.

Lemma goes_Ok s : mid s -> goes (Ok s).
Proof. intros Hm. by exists s. Qed.
Lemma goes_with_Ok {A} (x : Bbr2Sender R * A) : mid x.1 -> goes_with (Ok x).
Proof. intros Hm. by exists x. Qed.
Lemma mid_model s m : mid s -> model_safe m -> mid (s <| model_ := m |>).
Proof. intros (P & M & C & W) Hm. by split. Qed.
Lemma mid_cycle s c : mid s -> cycle_safe c -> mid (s <| cycle_ := c |>).
Proof. intros (P & M & C & W) Hc. by split. Qed.
(** What does not touch the parameters, the model, the cycle and the window. *)
Lemma mid_same s s' : mid s -> params_ s' = params_ s -> model_ s' = model_ s -> cycle_ s' = cycle_ s -> cwnd_ s' = cwnd_ s -> mid s'.
Proof. intros (P & M & C & W) E1 E2 E3 E4. unfold mid, window_safe. by rewrite E1, E2, E3, E4. Qed.

Lemma max_bandwidth_ok m : model_safe m -> bandwidth_ok (MaxBandwidth m).
Proof. intros []. unfold MaxBandwidth, MaxBw_Get, bandwidth_ok in *. lia. Qed.
Lemma estimate_safe m : model_safe m -> bandwidth_ok (Model_BandwidthEstimate m).
Proof.
  intros Hm. pose proof (max_bandwidth_ok m Hm). destruct Hm. unfold Model_BandwidthEstimate, bandwidth_ok in *.
  destruct ms_lo0 as [->|?]; [change QuicBandwidth_Infinite with 9223372036854775807|]; lia.
Qed.
Lemma BDP_of_bound m b : 0 <= BDP_of m b < 2 ^ 45.
Proof. apply ToBytesPerPeriod_bound. Qed.
Lemma BDP_gain_ok m b gain : gain_ok gain -> exists w, BDP_gain m b gain = Ok w.
Proof. intros Hg. apply window_gain_cast; [done|]. pose proof (BDP_of_bound m b). lia. Qed.
Lemma BDP_u64 m : is_u64 (BDP m).
Proof. pose proof (BDP_of_bound m (MaxBandwidth m)). unfold is_u64, BDP. lia. Qed.
Lemma headroom_ok m p : model_safe m -> params_safe p -> exists w, inflight_hi_with_headroom m p = Ok w.
Proof.
  intros [] []. unfold inflight_hi_with_headroom. destruct (share_cast (inflight_hi_ m) (inflight_hi_headroom p)) as (w & ->); [apply ps_shares0|apply ms_inflight0|]. cbn. eauto.
Qed.
Lemma BytesInFlight_ok a st : state_fine a st -> is_valid st = true -> exists n, BytesInFlight st = Ok n /\ is_u64 n.
Proof.
  intros Hs Hv. unfold BytesInFlight. rewrite Hv. cbn. eexists. split; [done|]. destruct (_ =? 0); cbn; [apply u64_range|]. by apply (Hs Hv).
Qed.
Lemma too_high_ok a m p e k : state_fine a (ev_send_state e) -> params_safe p -> exists b, IsInflightTooHigh m p e k = Ok b.
Proof.
  intros Hs []. unfold IsInflightTooHigh. destruct (is_valid (ev_send_state e)) eqn:Ev; cbn [negb]; [|eauto]. destruct (_ <? _); [eauto|].
  destruct (BytesInFlight_ok a _ Hs Ev) as (n & -> & Hn). cbn [rbind]. destruct (_ && _); [|eauto].
  destruct (share_cast n (loss_threshold p)) as (w & ->); [apply ps_shares0|exact Hn|]. cbn. eauto.
Qed.

(** Parts of the network model that an operation sets. *)
Ltac model_part Hm := destruct Hm; constructor; cbn; try done.
Lemma restart_safe m : model_safe m -> model_safe (RestartRoundEarly m).
Proof. intros Hm. model_part Hm. by split_and!; try apply ms_inflight0. Qed.
Lemma advance_safe m : model_safe m -> model_safe (AdvanceMaxBandwidthFilter m).
Proof.
  intros Hm. model_part Hm. unfold MaxBw_Advance. destruct (_ =? 0); [done|]. cbn. split; [apply ms_max0|]. unfold bandwidth_ok. change QuicBandwidth_Zero with 0. lia.
Qed.
Lemma set_gains_safe m a b : model_safe m -> model_safe (set_gains a b m).
Proof. intros Hm. by model_part Hm. Qed.
Lemma set_hi_safe m n : model_safe m -> is_u64 n -> model_safe (m <| inflight_hi_ := n |>).
Proof. intros Hm Hn. model_part Hm. by split_and!; try apply ms_inflight0; try apply Hn. Qed.
Lemma clear_lo_safe m : model_safe m -> model_safe (clear_inflight_lo (clear_bandwidth_lo m)).
Proof. intros Hm. model_part Hm; [by left|]. by split_and!; try apply ms_inflight0. Qed.
Lemma cap_lo_safe m p n : model_safe m -> is_u64 n -> model_safe (cap_inflight_lo m p n).
Proof. intros Hm Hn. unfold cap_inflight_lo. destruct (ignore_inflight_lo p); [done|]. destruct (_ && _); [|done]. model_part Hm. by split_and!; try apply ms_inflight0; try apply Hn. Qed.
Lemma expire_safe m p e m' b : model_safe m -> 0 < ev_sample_min_rtt e -> MaybeExpireMinRtt m p e = (m', b) -> model_safe m'.
Proof. intros Hm He. unfold MaybeExpireMinRtt. repeat case_match; intros [= <- _]; [done..|]. by model_part Hm. Qed.

(** * PROBE_BW *)

Lemma EnterProbeDown_goes s a b t : mid s -> goes (EnterProbeDown s a b t).
Proof.
  intros (P & M & C & W). unfold EnterProbeDown, RandomUint64. cbn. destruct (RandUint64 _) as [x1 r1]. destruct (ps_random _ P) as [P1 P2].
  destruct (Z.eqb_spec (probe_bw_max_probe_rand_rounds (params_ s)) 0); [done|]. cbn. destruct (RandUint64 r1) as [x2 r2].
  destruct (Z.eqb_spec (u64 (Delta_ToMicroseconds (probe_bw_probe_max_rand_duration (params_ s)))) 0); [done|]. cbn. eexists. split; [done|].
  split; [exact P|]. split; [by apply restart_safe|]. split; [|exact W]. destruct C as (C1 & C2 & _). split; [exact C1|]. by split; [exact C2|].
Qed.
Lemma ExitProbeDown_goes s : mid s -> phase (cycle_ s) = PROBE_DOWN -> goes (ExitProbeDown s).
Proof.
  intros Hm Hp. unfold ExitProbeDown. rewrite bool_decide_true by done. cbn. eexists. split; [done|]. destruct (has_advanced_max_bw _); [done|].
  destruct Hm as (P & M & C & W). split; [exact P|]. split; [by apply advance_safe|]. split; [exact C|exact W].
Qed.
Lemma maybe_ExitProbeDown_goes s : mid s -> goes (if decide (phase (cycle_ s) = PROBE_DOWN) then ExitProbeDown s else Ok s).
Proof. intros Hm. destruct (decide _); [by apply ExitProbeDown_goes|by apply goes_Ok]. Qed.
Lemma EnterProbeCruise_goes s t : mid s -> goes (EnterProbeCruise s t).
Proof.
  intros Hm. unfold EnterProbeCruise. destruct (maybe_ExitProbeDown_goes s Hm) as (s1 & -> & P & M & C & W). cbn [rbind]. eexists. split; [done|].
  split; [exact P|]. split; [apply cap_lo_safe; [done|apply M]|]. split; [|exact W]. destruct C as (C1 & C2 & _). split; [exact C1|]. by split; [exact C2|].
Qed.
Lemma EnterProbeRefill_goes s n t : mid s -> 0 <= n <= 30 -> goes (EnterProbeRefill s n t).
Proof.
  intros Hm Hn. unfold EnterProbeRefill. destruct (maybe_ExitProbeDown_goes s Hm) as (s1 & -> & P & M & C & W). cbn [rbind]. eexists. split; [done|].
  split; [exact P|]. split; [by apply restart_safe, clear_lo_safe|]. split; [|exact W]. split; [cbn; lia|]. by split; [cbn; lia|].
Qed.
Lemma RaiseInflightHighSlope_goes s : mid s -> phase (cycle_ s) = PROBE_UP -> goes (RaiseInflightHighSlope s).
Proof.
  intros (P & M & C & W) Hp. destruct C as (C1 & C2 & C3). unfold RaiseInflightHighSlope. rewrite bool_decide_true by done. cbn [CHECK rbind].
  assert (Hg : 1 <= Z.shiftl 1 (probe_up_rounds (cycle_ s)) <= 2 ^ 30).
  { rewrite Z.shiftl_mul_pow2, Z.mul_1_l by lia. assert (0 < 2 ^ probe_up_rounds (cycle_ s)) by (apply Z.pow_pos_nonneg; lia).
    split; [lia|]. apply Z.pow_le_mono_r; lia. }
  rewrite i32_small, u64_small by (rewrite ?i32_small; lia). set (g := Z.shiftl 1 _) in *. clearbody g. destruct (Z.eqb_spec g 0); [lia|].
  eexists. split; [done|]. split; [exact P|]. split; [exact M|]. split; [|exact W]. unfold cycle_safe, window_safe, GetCongestionWindow in *. cbn. rewrite u64_small by lia.
  change kDefaultTCPMSS with 1460. assert (0 <= cwnd_ s / g <= cwnd_ s) by (split; [apply Z.div_pos; lia|apply Z.div_le_upper_bound; nia]). split_and!; (done || lia).
Qed.
Lemma EnterProbeUp_goes s t : mid s -> phase (cycle_ s) = PROBE_REFILL -> goes (EnterProbeUp s t).
Proof.
  intros (P & M & C & W) Hp. unfold EnterProbeUp. rewrite bool_decide_true by done. cbn [CHECK rbind]. set (s1 := on_cycle s _).
  assert (G : goes (RaiseInflightHighSlope s1)).
  { assert (E : RaiseInflightHighSlope s1 = RaiseInflightHighSlope (on_cycle s1 (fun c => c <| probe_up_bytes := 1460 |>))) by done.
    rewrite E. apply RaiseInflightHighSlope_goes; [|done]. split; [exact P|]. split; [exact M|]. split; [|exact W]. destruct C as (C1 & C2 & C3). split; [exact C1|]. by split; [exact C2|]. }
  destruct G as (s2 & -> & P2 & M2 & C2 & W2). cbn [rbind]. eexists. split; [done|]. split; [exact P2|]. split; [by apply restart_safe|]. by split.
Qed.
Lemma GetTargetBytesInflight_u64 s : mid s -> 0 <= GetTargetBytesInflight s < 2 ^ 45.
Proof.
  intros (_ & _ & _ & W). unfold GetTargetBytesInflight, GetCongestionWindow, window_safe in *. pose proof (BDP_of_bound (model_ s) (Model_BandwidthEstimate (model_ s))). lia.
Qed.
Lemma MaybeAdaptUpperBounds_goes s e : mid s -> event_safe s e -> goes_with (MaybeAdaptUpperBounds s e).
Proof.
  intros Hm (Hs & _). pose proof Hm as (P & M & C & W). unfold MaybeAdaptUpperBounds. destruct (is_valid (ev_send_state e)) eqn:Ev; cbn [negb]; [|by apply goes_with_Ok].
  assert (Hi : exists n, upper_inflight_at_send s e = Ok n /\ is_u64 n).
  { unfold upper_inflight_at_send. destruct (BytesInFlight_ok _ _ Hs Ev) as (n & -> & Hn). cbn [rbind]. destruct (use_bytes_delivered_for_inflight_hi _); [|eauto].
    destruct (Hs Ev) as [_ Ha]. rewrite (proj2 (Z.leb_le _ _)) by lia. eexists. split; [done|apply u64_range]. }
  destruct Hi as (n & -> & Hn). cbn [rbind]. destruct (too_high_ok _ (model_ s) (params_ s) e (probe_bw_full_loss_count (params_ s)) Hs P) as (b & ->). cbn [rbind].
  destruct b.
  - destruct (is_sample_from_probing _); [|by apply goes_with_Ok]. unfold cut_inflight_hi. destruct (is_app_limited _); cbn [rbind]; [apply goes_with_Ok; exact Hm|].
    set (s1 := on_cycle s _). assert (Hm1 : mid s1) by exact Hm. pose proof (GetTargetBytesInflight_u64 s1 Hm1).
    destruct (reduction64_cast (GetTargetBytesInflight s1) (one_minus_beta (params_ s1))) as (w & Ew); [apply P|lia|]. rewrite Ew. cbn [rbind].
    apply float_to_u64_range in Ew. apply goes_with_Ok. cbn [fst]. apply mid_model; [exact Hm1|]. apply set_hi_safe; [exact M|].
    destruct (ms_inflight _ M) as (_ & _ & _ & Hd). unfold is_u64 in *. destruct (_ && _); cbn; lia.
  - destruct (_ =? inflight_hi_default); [by apply goes_with_Ok|]. apply goes_with_Ok. cbn [fst]. unfold when. destruct (_ <? _); [|done]. apply mid_model; [done|]. by apply set_hi_safe.
Qed.
Lemma IsTimeToProbeBandwidth_goes s e : mid s -> goes_with (IsTimeToProbeBandwidth s e).
Proof.
  intros Hm. pose proof Hm as (P & M & C & W). unfold IsTimeToProbeBandwidth. destruct (HasCycleLasted _ _ _); [by apply goes_with_Ok|].
  assert (Hr : exists b, IsTimeToProbeForRenoCoexistence s (f64_of_Z 1) = Ok b).
  { unfold IsTimeToProbeForRenoCoexistence. destruct (negb _); [eauto|]. destruct (SFltb _ _); [|cbn; eauto].
    pose proof (GetTargetBytesInflight_u64 s Hm) as Hb.
    assert (Hd : mag0_in (f32_div (f32_mul (probe_bw_probe_reno_gain (params_ s)) (f32_of_Z (GetTargetBytesInflight s))) (f32_of_Z kDefaultTCPMSS)) (-20) 41).
    { eapply mag0_widen; [eapply f32_div_mag0; [apply (f32_mul_mag0 _ _ (-2) 2 1 46); [apply P|apply (f32_of_Z_mag0 _ 45); lia|lia|lia]|by apply (f32_of_Z_mag _ 10 11)|lia|lia]|lia|lia]. }
    destruct (float_to_u64_mag0 _ _ _ Hd ltac:(lia)) as (w & ->). cbn. eauto. }
  destruct Hr as (b & ->). cbn [rbind]. destruct b; by apply goes_with_Ok.
Qed.

Lemma event_safe_frame s s' e : event_safe s e -> same_frame s s' -> event_safe s' e.
Proof. intros He (_ & _ & _ & _ & _ & Es). unfold event_safe, model_bytes_acked in *. by rewrite Es. Qed.

Lemma probe_down_first_round_goes s e : mid s -> cycle_ok s -> goes_with (probe_down_first_round s e).
Proof.
  intros Hm ([h Hh] & [r Hr] & _). unfold probe_down_first_round. destruct (_ && _); [|by apply goes_with_Ok]. cbv zeta. set (s1 := when _ _ _).
  assert (H1 : mid s1 /\ last_cycle_probed_too_high_ s1 = Some h /\ last_cycle_stopped_risky_probe_ s1 = Some r).
  { unfold s1, when. destruct (negb _); (split; [|done]); destruct Hm as (P & M & C & W); (split; [exact P|]); (split; [try by apply advance_safe|]); try done. }
  clearbody s1. destruct H1 as (H1 & -> & ->). cbn [read rbind].
  assert (Hf : exists b, (if r then Ok (negb h) else Ok false) = Ok b) by (destruct r; eauto).
  destruct r; cbn [read rbind]; [|by apply goes_with_Ok]. destruct (negb h); [|by apply goes_with_Ok].
  destruct (EnterProbeRefill_goes s1 0 (ev_time e) H1 ltac:(lia)) as (s2 & -> & H2). cbn [rbind]. by apply goes_with_Ok.
Qed.
Lemma UpdateProbeDown_goes s n e : mid s -> event_safe s e -> cycle_ok s -> phase (cycle_ s) = PROBE_DOWN -> goes (UpdateProbeDown s n e).
Proof.
  intros Hm He Hc Hp. unfold UpdateProbeDown. rewrite bool_decide_true by done. cbn [CHECK rbind].
  destruct (probe_down_first_round_goes s e Hm Hc) as ([s1 dn] & E1 & H1). rewrite E1. cbn [rbind fst] in *. destruct dn; [by apply goes_Ok|].
  apply probe_down_first_round_core in E1 as [F1 _]; [|done]. apply core_same_frame in F1. cbn [fst] in F1. pose proof (event_safe_frame _ _ _ He F1) as He1.
  destruct (MaybeAdaptUpperBounds_goes s1 e H1 He1) as (r & Er & Hr). rewrite Er. cbn [rbind].
  destruct (IsTimeToProbeBandwidth_goes r.1 e Hr) as ([s2 pb] & -> & H2). cbn [rbind fst] in *.
  destruct pb; [by apply EnterProbeRefill_goes|]. destruct (HasStayedLongEnoughInProbeDown _ _); [by apply EnterProbeCruise_goes|].
  destruct (headroom_ok (model_ s2) (params_ s2)) as (w & ->); [apply H2..|]. cbn [rbind]. destruct (_ <? _); [by apply goes_Ok|].
  destruct (_ <? _); [by apply EnterProbeCruise_goes|by apply goes_Ok].
Qed.
Lemma adapt_sampling s e r : MaybeAdaptUpperBounds s e = Ok r -> cycle_ok s -> phase (cycle_ s) = PROBE_CRUISE \/ phase (cycle_ s) = PROBE_REFILL ->
  CHECK (negb (is_sample_from_probing (cycle_ r.1))) = Ok tt.
Proof.
  intros E Hc Hp. pose proof E as (_ & _ & C)%MaybeAdaptUpperBounds_cycle; [|done]. apply MaybeAdaptUpperBounds_core in E as [_ K]. rewrite <- K in Hp. by rewrite (C Hp).
Qed.
Lemma UpdateProbeCruise_goes s e : mid s -> event_safe s e -> cycle_ok s -> phase (cycle_ s) = PROBE_CRUISE -> goes (UpdateProbeCruise s e).
Proof.
  intros Hm He Hc Hp. unfold UpdateProbeCruise. rewrite bool_decide_true by done. cbn [CHECK rbind].
  destruct (MaybeAdaptUpperBounds_goes s e Hm He) as (r & Er & Hr). rewrite Er. cbn [rbind]. rewrite (adapt_sampling s e r Er Hc) by auto. cbn [rbind].
  destruct (IsTimeToProbeBandwidth_goes r.1 e Hr) as ([s2 pb] & -> & H2). cbn [rbind fst] in *. destruct pb; [by apply EnterProbeRefill_goes|by apply goes_Ok].
Qed.
Lemma UpdateProbeRefill_goes s e : mid s -> event_safe s e -> cycle_ok s -> phase (cycle_ s) = PROBE_REFILL -> goes (UpdateProbeRefill s e).
Proof.
  intros Hm He Hc Hp. unfold UpdateProbeRefill. rewrite bool_decide_true by done. cbn [CHECK rbind].
  destruct (MaybeAdaptUpperBounds_goes s e Hm He) as (r & Er & Hr). rewrite Er. cbn [rbind]. rewrite (adapt_sampling s e r Er Hc) by auto. cbn [rbind].
  destruct (_ && _); [|by apply goes_Ok]. apply EnterProbeUp_goes; [done|]. apply MaybeAdaptUpperBounds_core in Er as [_ K]. congruence.
Qed.
Lemma ProbeInflightHighUpward_goes s e : mid s -> event_safe s e -> phase (cycle_ s) = PROBE_UP -> goes (ProbeInflightHighUpward s e).
Proof.
  intros Hm (_ & _ & Ha & Hw) Hp. unfold ProbeInflightHighUpward. rewrite bool_decide_true by done. cbn [CHECK rbind].
  destruct (negb _); [by apply goes_Ok|]. destruct (Z.ltb_spec (ev_prior_cwnd e) (inflight_hi_ (model_ s))) as [|Hhi]; [by apply goes_Ok|].
  destruct Hm as (P & M & (C1 & C2 & C3) & W). specialize (C3 Hp). destruct (ms_inflight _ M) as (_ & Mh & _). unfold is_u64 in Mh. change kDefaultTCPMSS with 1460.
  set (s1 := on_cycle s _). assert (Ea : probe_up_acked (cycle_ s1) = probe_up_acked (cycle_ s) + ev_bytes_acked e) by (cbn; rewrite u64_small; lia).
  assert (K1 : phase (cycle_ s1) = PROBE_UP /\ probe_up_bytes (cycle_ s1) = probe_up_bytes (cycle_ s) /\ probe_up_rounds (cycle_ s1) = probe_up_rounds (cycle_ s)) by (by split_and!).
  assert (F1 : params_ s1 = params_ s /\ model_ s1 = model_ s /\ cwnd_ s1 = cwnd_ s) by (by split_and!). clearbody s1. destruct K1 as (K1 & K2 & K3), F1 as (F1 & F2 & F3).
  assert (G : exists s2, (if probe_up_bytes (cycle_ s1) <=? probe_up_acked (cycle_ s1) then
        if probe_up_bytes (cycle_ s1) =? 0 then Fault DivByZero
        else
          let delta := probe_up_acked (cycle_ s1) / probe_up_bytes (cycle_ s1) in
          let s := on_cycle s1 (fun c => c <| probe_up_acked := probe_up_acked c ⊖ (delta ⊗ probe_up_bytes c) |>) in
          let new_inflight_hi := inflight_hi_ (model_ s) ⊕ (delta ⊗ 1460) in
          let* _ := CHECK (inflight_hi_ (model_ s) <? new_inflight_hi) in
          Ok (on_model s (fun m => m <| inflight_hi_ := new_inflight_hi |>))
      else Ok s1) = Ok s2 /\ mid s2 /\ phase (cycle_ s2) = PROBE_UP).
  { unfold mid, window_safe. destruct (Z.leb_spec (probe_up_bytes (cycle_ s1)) (probe_up_acked (cycle_ s1))) as [Hle|Hlt].
    - destruct (Z.eqb_spec (probe_up_bytes (cycle_ s1)) 0); [lia|]. cbv zeta. set (B := probe_up_bytes (cycle_ s1)) in *. set (A := probe_up_acked (cycle_ s1)) in *.
      pose proof (Z.div_mod A B ltac:(lia)) as Hdm. pose proof (Z.mod_pos_bound A B ltac:(lia)) as Hmb.
      assert (Hd1 : 1 <= A / B) by (apply Z.div_le_lower_bound; lia). assert (Hd2 : A / B * 1460 <= A) by nia. set (D := A / B) in *.
      unfold on_cycle, on_model; cbn -[Z.mul]. fold B A. rewrite F2, !u64_small by (rewrite ?u64_small; nia). rewrite (proj2 (Z.ltb_lt _ _)) by lia. cbn [CHECK rbind]. eexists. split; [done|].
      cbn -[Z.mul]. rewrite F1, F3. fold A B. split; [|done]. split; [exact P|]. split; [apply set_hi_safe; [exact M|unfold is_u64; lia]|]. split; [|exact W].
      unfold cycle_safe. cbn -[Z.mul]. fold A B. rewrite K1, K3. split; [lia|]. split; [nia|lia].
    - eexists. split; [done|]. rewrite F1, F2, F3, K1. split; [|done]. split; [exact P|]. split; [exact M|]. split; [|exact W]. unfold cycle_safe. rewrite K1, K2, K3 in *. lia. }
  destruct G as (s2 & E2 & H2 & Hp2). cbv zeta in E2. rewrite E2. cbn [rbind]. destruct (ev_end_of_round_trip e); [by apply RaiseInflightHighSlope_goes|by apply goes_Ok].
Qed.
Lemma is_queuing_ok s e : mid s -> exists b, is_queuing s e = Ok b.
Proof.
  intros (P & M & _). unfold is_queuing. cbv zeta. pose proof (BDP_of_bound (model_ s) (MaxBandwidth (model_ s)) : 0 <= BDP (model_ s) < 2 ^ 45) as Hb.
  pose proof (heights_ok_bound _ (ms_heights _ M)) as Hh. unfold height_ok in Hh. change (max_ack_height (bandwidth_sampler_ (model_ s))) with (MaxAckHeight (model_ s)) in Hh.
  change (2 * kDefaultTCPMSS) with 2920. set (x := if add_ack_height_to_queueing_threshold (params_ s) then _ else _). assert (Hx : 0 <= x < 2 ^ 45) by (unfold x; destruct (add_ack_height_to_queueing_threshold _); rewrite ?u64_small; lia).
  clearbody x. assert (Hf : mag0_in (f32_add (f32_mul (probe_bw_probe_inflight_gain (params_ s)) (f32_of_Z (BDP (model_ s)))) (f32_of_Z x)) (-20) 60).
  { eapply mag0_widen; [eapply f32_add_mag0; [apply (f32_mul_mag0 _ _ (-2) 2 1 46); [apply P|apply (f32_of_Z_mag0 _ 45); lia|lia|lia]|apply (f32_of_Z_mag0 _ 45); lia|lia..]|lia|lia]. }
  destruct (float_to_u64_mag0 _ _ _ Hf ltac:(lia)) as (w & ->). cbn. eauto.
Qed.
Lemma UpdateProbeUp_goes s n e : mid s -> event_safe s e -> cycle_ok s -> phase (cycle_ s) = PROBE_UP -> goes (UpdateProbeUp s n e).
Proof.
  intros Hm He Hc Hp. unfold UpdateProbeUp. rewrite bool_decide_true by done. cbn [CHECK rbind].
  destruct (MaybeAdaptUpperBounds_goes s e Hm He) as (r & Er & Hr). rewrite Er. cbn [rbind]. destruct (decide _); [by apply EnterProbeDown_goes|].
  pose proof Er as Hc1%MaybeAdaptUpperBounds_cycle; [|done]. apply MaybeAdaptUpperBounds_core in Er as [F1 K1]. apply core_same_frame in F1.
  destruct (ProbeInflightHighUpward_goes r.1 e Hr (event_safe_frame _ _ _ He F1) ltac:(congruence)) as (s2 & E2 & H2). rewrite E2. cbn [rbind].
  apply ProbeInflightHighUpward_cycle in E2 as ([h ->] & _); [|done]. cbn [read rbind].
  assert (Hq : exists q, (if h && (inflight_hi_ (model_ s2) <=? n) then Ok false else if 0 <? rounds_in_phase (cycle_ s2) then is_queuing s2 e else Ok false) = Ok q).
  { destruct (_ && _); [eauto|]. destruct (0 <? _); [by apply is_queuing_ok|eauto]. }
  destruct Hq as (q & ->). cbn [rbind]. destruct (_ || q); [by apply EnterProbeDown_goes|by apply goes_Ok].
Qed.
Lemma count_rounds_mid s e t : mid s -> mid (count_rounds s e t).
Proof. intros Hm. unfold count_rounds, when. destruct (ev_end_of_round_trip e); [|done]. repeat case_match; apply mid_cycle; try done; apply Hm. Qed.
Lemma ProbeBw_event_goes s n t e : mid s -> event_safe s e -> cycle_ok s -> phase (cycle_ s) <> PROBE_NOT_STARTED -> goes_with (ProbeBw_OnCongestionEvent s n t e).
Proof.
  intros Hm He Hc Hp. unfold ProbeBw_OnCongestionEvent. rewrite bool_decide_true by done. cbn [CHECK rbind]. destruct (count_rounds_core s e t) as [F K].
  apply core_same_frame in F. apply (event_safe_frame _ _ _ He) in F. clear He. apply (count_rounds_mid s e t) in Hm. apply (count_rounds_cycle s e t) in Hc. rewrite <- K in Hp. clear K.
  set (s1 := count_rounds s e t) in *. clearbody s1.
  match goal with |- goes_with (rbind ?r _) => assert (G : goes_with r) end.
  { destruct (phase (cycle_ s1)) eqn:Ep; [done|..].
    - destruct (UpdateProbeUp_goes s1 n e Hm F Hc Ep) as (s2 & -> & H2). by apply goes_with_Ok.
    - destruct (UpdateProbeDown_goes s1 n e Hm F Hc Ep) as (s2 & -> & H2). cbn [rbind]. destruct (decide _); [|by apply goes_with_Ok].
      destruct (MaybeExpireMinRtt _ _ _) as [m b] eqn:Ex. apply goes_with_Ok, mid_model; [done|]. eapply expire_safe; [apply H2|apply F|exact Ex].
    - destruct (UpdateProbeCruise_goes s1 e Hm F Hc Ep) as (s2 & -> & H2). by apply goes_with_Ok.
    - destruct (UpdateProbeRefill_goes s1 e Hm F Hc Ep) as (s2 & -> & H2). by apply goes_with_Ok. }
  destruct G as ([s2 sw] & -> & H2). cbn [rbind fst] in *. apply goes_with_Ok. cbn [fst]. unfold when. destruct (negb sw); [|done].
  apply mid_model; [done|]. by apply set_gains_safe, H2.
Qed.
Lemma ProbeBw_Enter_goes s t : mid s -> phase (cycle_ s) = PROBE_NOT_STARTED \/ steering s -> goes (ProbeBw_Enter s t).
Proof.
  intros Hm Hp. unfold ProbeBw_Enter. destruct (decide _) as [|Hn]; [by apply EnterProbeDown_goes|]. destruct Hp as [|Hp]; [done|].
  rewrite bool_decide_true by done. cbn [CHECK rbind]. cbv zeta. set (s1 := on_cycle s _). assert (H1 : mid s1) by (apply mid_cycle; [done|apply Hm]).
  assert (K1 : phase (cycle_ s1) = phase (cycle_ s)) by done. clearbody s1. rewrite K1.
  destruct Hp as [-> | ->]; [by apply EnterProbeCruise_goes|apply EnterProbeRefill_goes; [done|apply H1]].
Qed.

(** * The other modes *)

Lemma CheckBandwidthGrowth_goes s e : mid s -> full_bandwidth_reached_ (model_ s) = false -> ev_end_of_round_trip e = true ->
  exists m g, CheckBandwidthGrowth (model_ s) (params_ s) e = Ok (m, g) /\ mid (s <| model_ := m |>).
Proof.
  intros Hm Hf He. pose proof Hm as (P & M & _). unfold CheckBandwidthGrowth. rewrite Hf, He. cbn [negb CHECK rbind]. destruct (ev_last_sample_is_app_limited e); [by do 2 eexists; split; [done|apply mid_model]|].
  destruct (bandwidth_mul_ok (full_bandwidth_baseline_ (model_ s)) (startup_full_bw_threshold (params_ s))) as (v & ->); [apply M|apply P|]. cbn [rbind].
  pose proof (max_bandwidth_ok _ M). destruct (v <=? _); [do 2 eexists; split; [done|apply mid_model; [done|by model_part M]]|].
  destruct (_ <=? _); (do 2 eexists; split; [done|apply mid_model; [done|by model_part M]]).
Qed.
Lemma CheckExcessiveLosses_goes s e : mid s -> event_safe s e -> ev_end_of_round_trip e = true -> goes (CheckExcessiveLosses s e).
Proof.
  intros Hm (Hs & _) He. pose proof Hm as (P & M & _). unfold CheckExcessiveLosses. rewrite He. cbn [CHECK rbind]. destruct (full_bandwidth_reached_ _); [by apply goes_Ok|].
  destruct (too_high_ok _ (model_ s) (params_ s) e (startup_full_loss_count (params_ s)) Hs P) as (b & ->). cbn [rbind]. destruct b; [|by apply goes_Ok].
  apply goes_Ok. eapply mid_same; [apply (mid_model s); [exact Hm|]|done..]. model_part M. destruct ms_inflight0 as (I1 & I2 & I3 & I4).
  pose proof (BDP_u64 (model_ s)). split_and!; try apply I1; try apply I3; try apply I4; destruct (_ && _); apply I4 || apply H0.
Qed.
Lemma Startup_event_goes s e : mid s -> event_safe s e -> goes_with (Startup_OnCongestionEvent s e).
Proof.
  intros Hm He. unfold Startup_OnCongestionEvent.
  match goal with |- goes_with (rbind ?r _) => assert (G : goes r) end.
  { destruct (full_bandwidth_reached_ (model_ s)) eqn:Ef; [by apply goes_Ok|]. destruct (ev_end_of_round_trip e) eqn:Ee; [|by apply goes_Ok]. cbn [negb andb].
    destruct (CheckBandwidthGrowth_goes s e Hm Ef Ee) as (m & g & Eg & H1). rewrite Eg. cbn [rbind]. apply CheckBandwidthGrowth_frame in Eg as [[F _] _].
    destruct (_ || _); [|by apply goes_Ok]. apply CheckExcessiveLosses_goes; [done|by eapply event_safe_frame|done]. }
  destruct G as (s1 & -> & H1). cbn [rbind]. rewrite (proj2 (ps_mode _ (proj1 H1))). cbn [rbind]. by apply goes_with_Ok.
Qed.
Definition drain_gain s : Prop := mode_ s = DRAIN -> cwnd_gain_ (model_ s) = drain_cwnd_gain (params_ s).
Lemma mode_event_goes s n t e : mid s -> event_safe s e -> machine_in s -> drain_gain s -> goes_with (mode_event s n t e).
Proof.
  intros Hm He (C & _) Hd. pose proof Hm as (P & M & _). unfold mode_event. unfold machine_core in C. destruct (mode_ s) eqn:Em.
  - by apply Startup_event_goes.
  - unfold Drain_OnCongestionEvent. cbn. rewrite (Hd Em). destruct (ps_same _ P) as [-> ->]. cbn [CHECK rbind]. apply goes_with_Ok, (mid_model s); [done|]. by model_part M.
  - destruct C as (_ & _ & C3 & C4). by apply ProbeBw_event_goes.
  - unfold ProbeRtt_OnCongestionEvent. destruct (_ =? _); [|by apply goes_with_Ok]. unfold InflightTarget.
    destruct (BDP_gain_ok (model_ s) (MaxBandwidth (model_ s)) (probe_rtt_inflight_target_bdp_fraction (params_ s))) as (w & ->); [apply P|]. cbn [rbind]. apply goes_with_Ok. cbn [fst].
    unfold when. destruct (_ || _); [|done]. by apply (mid_same s).
Qed.
Lemma change_mode_goes s n t e r : machine_in s -> mode_event s n t e = Ok r -> mid r.1 -> r.2 <> mode_ r.1 ->
  exists s', change_mode r.1 r.2 t = Ok s' /\ mid s' /\ drain_gain s'.
Proof.
  intros (C & G & _) E Hm Hn. pose proof Hm as (P & M & _). pose proof E as [(F & _) Em]%mode_event_frame. unfold mode_event in E. rewrite Em in Hn. unfold machine_core in C.
  unfold change_mode, mode_leave. rewrite Em. unfold drain_gain. destruct (mode_ s) eqn:Es.
  - apply Startup_event_spec in E as ((_ & _ & _ & Et & _ & Eg & _) & E2 & _). destruct (full_bandwidth_reached_ (model_ r.1)); [|congruence]. rewrite E2.
    unfold Startup_Leave, Accumulator_Stop. rewrite Et. destruct C as (_ & C2 & _). unfold slow_start_timed in C2. rewrite C2. cbn.
    eexists. split; [done|]. split; [|intros _; cbn; rewrite (proj1 (ps_same _ P)), Eg, F; specialize (G (or_introl eq_refl)); unfold gains_of_mode in G; rewrite Es in G; apply G].
    apply (mid_same (r.1 <| model_ := clear_bandwidth_lo (model_ r.1) |>)); [|done..]. apply mid_model; [done|]. model_part M. by left.
  - apply Drain_event_spec in E as [E1 E2]. destruct (_ <=? _); [|congruence]. rewrite E2. destruct C as (_ & _ & C3). cbn [rbind mode_enter].
    destruct (ProbeBw_Enter_goes (r.1 <| mode_ := PROBE_BW |>) t) as (s' & E' & H'); [by apply (mid_same r.1)|left; cbn; by rewrite E1|].
    exists s'. split; [exact E'|]. split; [done|]. apply ProbeBw_Enter_spec in E' as [(K & _) _]. cbn in K. congruence.
  - apply ProbeBw_event_spec in E as (s2 & _ & _ & [(E2 & _)|(E2 & _)]); [congruence|]. rewrite E2. cbn. eexists. split; [done|]. split; [|done].
    apply (mid_same (r.1 <| model_ := set_gains (f32_of_Z 1) (f32_of_Z 1) (model_ r.1) |>)); [|done..]. apply mid_model; [done|]. by apply set_gains_safe.
  - apply ProbeRtt_event_spec in E as [(E2 & _)|(-> & _)]; [congruence|]. cbn [fst snd rbind mode_enter] in *. destruct C as (_ & _ & C3 & _).
    destruct (ProbeBw_Enter_goes (s <| mode_ := PROBE_BW |>) t) as (s' & E' & H'); [by apply (mid_same s)|by right|].
    exists s'. split; [exact E'|]. split; [done|]. apply ProbeBw_Enter_spec in E' as [(K & _) _]. cbn in K. congruence.
Qed.
(** The modes of one event. *)
Lemma mode_loop_goes n : forall s k t e, (changes_left s <= n)%nat -> mid s -> event_safe s e -> machine_in s -> drain_gain s -> goes (mode_loop n s k t e).
Proof.
  induction n as [|n IH]; intros s k t e Hn Hm He Hc Hd; cbn [mode_loop]; destruct (mode_event_goes s k t e Hm He Hc Hd) as (r & E & H1); rewrite E; cbn [rbind];
    destruct r as [s1 next]; cbn [fst] in H1; (destruct (decide _) as [|Hx]; [by apply goes_Ok|]);
    destruct (change_mode_goes s k t e (s1, next) Hc E H1 Hx) as (s2 & E2 & H2 & D2); cbn [fst snd] in E2; pose proof (change_decreases s k t e (s1, next) s2 E Hx E2) as Hlt; [lia|].
  rewrite E2. cbn [rbind]. apply IH; [lia|done| |by eapply change_mode_machine|done].
  eapply event_safe_frame; [exact He|]. apply mode_event_frame in E as [F _]. apply change_mode_spec in E2 as (_ & _ & _ & F2 & _). by etrans.
Qed.

(** * The network model's part of an event *)

Definition sampling s (g : gmap Z Z) (now : QuicTime) : Prop :=
  let smp := bandwidth_sampler_ (model_ s) in sampler_core smp now /\ sampler_ghost smp g /\ total_bytes_sent_ smp < 2 ^ 35.

Lemma acked_round_ok c pn : PN_IsInitialized pn = true -> exists r, OnPacketsAcked c pn = Ok r.
Proof.
  intros Hp. unfold OnPacketsAcked. destruct (PN_IsInitialized (rt_end_of_round_trip_ c)) eqn:Ec; cbn [negb rbind]; [|eauto].
  rewrite PN_gt_init by done. cbn [rbind]. destruct (_ <? _); eauto.
Qed.
Lemma start_sampling_ok m e g now t a l : model_safe m -> sampler_core (bandwidth_sampler_ m) now -> sampler_ghost (bandwidth_sampler_ m) g ->
  valid_sampler_op (bandwidth_sampler_ m) g now (SEvent t a l 0 0 0) ->
  exists m' b smp, start_sampling m e t a l = Ok (m', e <| ev_time := t |> <| ev_end_of_round_trip := b |>, smp) /\ model_safe m' /\
    sampler_core (bandwidth_sampler_ m') t /\ sampler_ghost (bandwidth_sampler_ m') (outstanding g (SEvent t a l 0 0 0)) /\
    total_bytes_sent_ (bandwidth_sampler_ m') = total_bytes_sent_ (bandwidth_sampler_ m) /\
    event_fine (total_bytes_sent_ (bandwidth_sampler_ m)) (model_bytes_acked m') smp (last_packet_send_state smp) /\ model_bytes_acked m <= model_bytes_acked m'.
Proof.
  intros Hm Hc Hg (Ht & Hnd & Ha & Hl). unfold start_sampling. cbv zeta.
  assert (Hr : exists r, match last a with None => Ok (round_trip_counter_ m, false) | Some a => OnPacketsAcked (round_trip_counter_ m) (acked_packet_number a) end = Ok r).
  { destruct (last a) as [p|] eqn:El; [|eauto]. apply acked_round_ok. apply last_Some in El as (a' & ->). rewrite map_app in Ha. apply Forall_app in Ha as [_ Ha].
    apply Forall_inv in Ha as [Ha _]. apply PN_init_small. lia. }
  destruct Hr as (r & ->). cbn [rbind]. set (m1 := m <| round_trip_counter_ := r.1 |>). change (bandwidth_sampler_ m1) with (bandwidth_sampler_ m).
  destruct (event_spec (bandwidth_sampler_ m) g now t a l (MaxBandwidth m1) (bandwidth_lo_ m1) (RoundTripCount m1) Hc Hg Ht Hnd Ha Hl) as (s' & ev & E & Hc' & Hg' & Es & Hf & Hge).
  rewrite E. cbn [rbind]. do 3 eexists. split; [done|]. cbn -[forget]. split; [|by split_and!].
  apply event_heights in E; [|apply Hm|]. 2:{ split; [done|]. pose proof (sc_bytes s' t Hc'). lia. }
  by model_part Hm.
Qed.
Definition fine_event m e : Prop := state_fine (model_bytes_acked m) (ev_send_state e) /\ 0 < ev_sample_min_rtt e /\ 0 <= ev_prior_cwnd e < 2 ^ 33.
Lemma update_filters_ok m e smp n k : model_safe m -> n < 2 ^ 35 -> event_fine n (model_bytes_acked m) smp (last_packet_send_state smp) -> fine_event m e ->
  let r := update_filters m e smp k in model_safe r.1 /\ bandwidth_sampler_ r.1 = bandwidth_sampler_ m /\ fine_event r.1 r.2.
Proof.
  intros Hm Hn (F1 & F2 & F3 & F4 & F5) (E1 & E2 & E3). cbv zeta. unfold update_filters. set (e1 := when _ _ e).
  assert (H1 : fine_event m e1) by (unfold e1, when; destruct (is_valid _); (split; [assumption|split; [exact E2|exact E3]])). clearbody e1.
  assert (Hb : bandwidth_ok (sample_max_bandwidth smp)) by (unfold bandwidth_ok; lia). destruct H1 as (K1 & K2 & K3).
  destruct (_ && _); destruct (negb _); cbn; (split; [|split; [done|split; [exact K1|split; [assumption|exact K3]]]]); try done; model_part Hm.
  all: try (split; [apply ms_max0|]; unfold bandwidth_ok in *; lia).
  all: unfold MinRtt, MinRtt_Update in *; cbn; destruct (_ || _); (done || lia).
Qed.
Lemma is_u64_max a b : is_u64 a -> is_u64 b -> is_u64 (Z.max a b).
Proof. unfold is_u64. lia. Qed.
Lemma account_ok m e smp n k j : model_safe m -> n < 2 ^ 35 -> event_fine n (model_bytes_acked m) smp (last_packet_send_state smp) -> fine_event m e ->
  0 <= k <= model_bytes_acked m -> model_bytes_acked m < 2 ^ 40 ->
  let r := account m e smp k j in model_safe r.1 /\ bandwidth_sampler_ r.1 = bandwidth_sampler_ m /\ fine_event r.1 r.2 /\ 0 <= ev_bytes_acked r.2 < 2 ^ 40.
Proof.
  intros Hm Hn (F1 & F2 & F3 & F4 & F5) He Hk Ha. cbv zeta. unfold account. cbv zeta. rewrite (u64_small (model_bytes_acked m - k)) by lia. set (e1 := e <| ev_bytes_acked := _ |> <| ev_bytes_lost := _ |>).
  assert (Q : forall b (f : Bbr2NetworkModel -> Bbr2NetworkModel) x, (model_safe x /\ bandwidth_sampler_ x = bandwidth_sampler_ m -> model_safe (f x) /\ bandwidth_sampler_ (f x) = bandwidth_sampler_ m) ->
    model_safe x /\ bandwidth_sampler_ x = bandwidth_sampler_ m -> model_safe (when b f x) /\ bandwidth_sampler_ (when b f x) = bandwidth_sampler_ m).
  { intros b f x Hf Hx. destruct b; [by apply Hf|done]. }
  assert (Hb : bandwidth_ok (sample_max_bandwidth smp)) by (unfold bandwidth_ok; lia).
  match goal with |- model_safe (?x, ?y).1 /\ _ => assert (G : model_safe x /\ bandwidth_sampler_ x = bandwidth_sampler_ m) end.
  { apply Q; [intros [X1 X2]; split; [|done]; model_part X1; by split_and!; try apply ms_inflight0; try apply F4|].
    apply Q; [intros [X1 X2]; split; [|done]; by model_part X1|].
    apply Q; [intros [X1 X2]; split; [|done]|apply Q; [intros [X1 X2]; split; [|done]; by model_part X1|done]].
    model_part X1. split_and!; try apply ms_inflight0; apply is_u64_max; (apply ms_inflight0 || apply u64_range). }
  cbn [fst snd]. destruct G as [G1 G2]. split; [done|]. split; [done|]. destruct He as (E1 & E2 & E3). split; [|cbn; lia].
  split; [|split; [exact E2|exact E3]]. unfold model_bytes_acked in *. rewrite G2. exact E1.
Qed.
Lemma adapt_ok m p e : model_safe m -> params_safe p -> 0 <= ev_prior_cwnd e < 2 ^ 33 -> exists m', AdaptLowerBounds m p e = Ok m' /\ model_safe m' /\ bandwidth_sampler_ m' = bandwidth_sampler_ m.
Proof.
  intros Hm Hp He. unfold AdaptLowerBounds. destruct (ps_mode _ Hp) as [-> _]. rewrite decide_False by congruence. destruct (_ || _); [eauto|].
  unfold adapt_by_default. destruct (0 <? _); [|eauto]. cbv zeta. set (m1 := when _ _ m).
  assert (H1 : model_safe m1 /\ bandwidth_ok (bandwidth_lo_ m1) /\ bandwidth_sampler_ m1 = bandwidth_sampler_ m).
  { pose proof (max_bandwidth_ok m Hm). unfold m1, when. destruct (Z.eqb_spec (bandwidth_lo_ m) QuicBandwidth_Infinite) as [El|El]; [|split; [done|]; split; [by destruct (ms_lo _ Hm)|done]].
    split; [|done]. model_part Hm. by right. }
  clearbody m1. destruct H1 as (H1 & Hl & Es). destruct (bandwidth_reduced (bandwidth_lo_ m1) (f32_of_f64 (one_minus_beta p)) Hl) as (v & -> & Hv); [apply Hp|]. cbn [rbind].
  set (m2 := m1 <| bandwidth_lo_ := _ |>). assert (H2 : model_safe m2).
  { model_part H1. right. unfold bandwidth_ok in *. lia. }
  assert (Es2 : bandwidth_sampler_ m2 = bandwidth_sampler_ m) by done. clearbody m2. destruct (ignore_inflight_lo p); [eauto|].
  set (m3 := when _ _ m2). assert (H3 : model_safe m3 /\ bandwidth_sampler_ m3 = bandwidth_sampler_ m).
  { unfold m3, when. destruct (_ =? _); [|done]. split; [|done]. model_part H2. split; [unfold is_u64; lia|apply ms_inflight0]. }
  clearbody m3. destruct H3 as [H3 Es3]. destruct (ms_inflight _ H3) as (I1 & _ & I3 & _).
  destruct (reduction64_cast (inflight_lo_ m3) (one_minus_beta p)) as (w & Ew); [apply Hp|exact I1|]. rewrite Ew. cbn [rbind]. apply float_to_u64_range in Ew.
  eexists. split; [done|]. split; [|done]. model_part H3. split; [by apply is_u64_max|apply ms_inflight0].
Qed.
Lemma event_start_ok s g now t a l n : mid s -> sampling s g now -> valid_sampler_op (bandwidth_sampler_ (model_ s)) g now (SEvent t a l 0 0 0) ->
  exists m e, OnCongestionEventStart (model_ s) (params_ s) (Bbr2CongestionEvent_init (cwnd_ s) n (IsProbingForBandwidth s)) t a l = Ok (m, e) /\
    let s' := s <| model_ := m |> in mid s' /\ sampling s' (outstanding g (SEvent t a l 0 0 0)) t /\ event_safe s' e.
Proof.
  intros Hm (Hc & Hg & Hs) Hv. pose proof Hm as (P & M & _ & W). unfold window_safe in W. unfold OnCongestionEventStart. cbv zeta.
  destruct (start_sampling_ok (model_ s) (Bbr2CongestionEvent_init (cwnd_ s) n (IsProbingForBandwidth s)) g now t a l M Hc Hg Hv) as (m1 & b & smp & -> & M1 & Hc1 & Hg1 & Es1 & F1 & Hge).
  cbn [rbind]. set (e1 := _ <| ev_end_of_round_trip := b |>). assert (K1 : fine_event m1 e1) by (split; [done|]; split; [done|cbn; lia]).
  pose proof (update_filters_ok m1 e1 smp _ (model_bytes_acked (model_ s)) M1 Hs F1 K1) as H2. destruct (update_filters m1 e1 smp _) as [m2 e2]. cbn [fst snd] in H2. destruct H2 as (M2 & Es2 & K2).
  assert (Ea : model_bytes_acked m2 = model_bytes_acked m1) by (unfold model_bytes_acked; by rewrite Es2).
  pose proof (sc_bytes _ _ Hc) as B0. pose proof (sc_bytes _ _ Hc1) as B1.
  assert (H3 : let r := account m2 e2 smp (model_bytes_acked (model_ s)) (model_bytes_lost (model_ s)) in model_safe r.1 /\ bandwidth_sampler_ r.1 = bandwidth_sampler_ m2 /\ fine_event r.1 r.2 /\ 0 <= ev_bytes_acked r.2 < 2 ^ 40).
  { apply (account_ok m2 e2 smp (total_bytes_sent_ (bandwidth_sampler_ (model_ s)))); rewrite ?Ea; try done; unfold model_bytes_acked in *; lia. }
  destruct (account m2 e2 smp _ _) as [m3 e3]. cbn [fst snd] in H3. destruct H3 as (M3 & Es3 & (K3 & K4 & K5) & K6).
  destruct (adapt_ok m3 (params_ s) e3 M3 P K5) as (m4 & -> & M4 & Es4). cbn [rbind].
  assert (Hx : forall m', model_safe m' -> bandwidth_sampler_ m' = bandwidth_sampler_ m4 -> let s' := s <| model_ := m' |> in mid s' /\ sampling s' (outstanding g (SEvent t a l 0 0 0)) t /\ event_safe s' e3).
  { intros m' M' Es'. cbv zeta. split; [by apply mid_model|]. assert (E : bandwidth_sampler_ m' = bandwidth_sampler_ m1) by congruence.
    assert (E3 : bandwidth_sampler_ m' = bandwidth_sampler_ m3) by congruence. split; [unfold sampling; cbn -[forget]; rewrite E; split_and!; [done..|lia]|].
    unfold event_safe, model_bytes_acked in *. cbn. rewrite E3. by split_and!; try apply K6; try apply K5. }
  destruct (negb _); [do 2 eexists; split; [done|by apply Hx]|]. destruct F1 as (F1 & F2 & F3 & F4 & F5).
  assert (Hb : bandwidth_ok (sample_max_bandwidth smp)) by (unfold bandwidth_ok; lia).
  do 2 eexists. split; [done|]. apply Hx; unfold when; destruct (0 <? _), (negb _); try done; model_part M4; by split_and!; try apply ms_inflight0; try apply F4.
Qed.

(** * Rate and window *)

Lemma FromBytes_positive bytes d : 0 < bytes < 2 ^ 33 -> 0 < d -> exists r, FromBytesAndTimeDelta bytes d = Ok r /\ 0 < r /\ bandwidth_ok r.
Proof.
  intros Hb Hd. destruct (FromBytes_bound bytes d) as (r & E & Hr); [lia..|]. exists r. split; [done|]. split; [|done].
  unfold FromBytesAndTimeDelta in E. destruct (Z.eqb_spec bytes 0); [lia|]. change kNumMicrosPerSecond with 1000000 in E.
  rewrite (u64_small (8 * bytes)), (u64_small (8 * bytes * 1000000)), (i64_small (8 * bytes * 1000000)) in E by lia.
  set (b := 8 * bytes * 1000000) in E. assert (Hbb : 0 < b < 2 ^ 58) by lia. clearbody b. destruct (Z.ltb_spec b d); [by apply Ok_inj in E as <-|].
  destruct (Z.eqb_spec d 0); [lia|]. apply Ok_inj in E as <-. rewrite Z.quot_div_nonneg by lia.
  assert (1 <= b / d <= b) by (split; [apply Z.div_le_lower_bound; lia|apply Z.div_le_upper_bound; nia]). rewrite i64_small by lia. unfold QuicBandwidth_mk. zcases; lia.
Qed.
Lemma mode_gains s : mid s -> machine s -> gain_ok (pacing_gain_ (model_ s)) /\ gain_ok (cwnd_gain_ (model_ s)) /\
  fge (pacing_gain_ (model_ s)) 1 (-2) /\ (mode_ s <> DRAIN -> fge (pacing_gain_ (model_ s)) 1 (-1)).
Proof.
  intros (P & _) (_ & G & F & _). pose proof P as []. destruct ps_startup0 as (A1 & A2 & A3), ps_drain0 as (A4 & A5), ps_probe0 as (A6 & A7 & A8), ps_rates0 as (R1 & R2 & R3 & R4), ps_mode0 as [_ D].
  assert (W : forall x, fge x 1 (-1) -> fge x 1 (-2)).
  { intros [| | |[] m e]; try done. cbn [fge]. intros [He Hx]. split; [done|]. etrans; [|exact Hx]. apply Z.mul_le_mono_nonneg_l; [done|]. apply Z.pow_le_mono_r; lia. }
  assert (H1 : gain_ok (f32_of_Z 1) /\ fge (f32_of_Z 1) 1 (-1)) by (split; by vm_compute). destruct H1 as [O1 O2].
  unfold gains_of_mode in G. destruct (mode_ s).
  - destruct G as [-> G]. rewrite (G D). auto 10.
  - destruct G as [-> ->]. by split_and!.
  - destruct G as [-> G]. assert (Hc : gain_ok (cwnd_gain_ (model_ s))) by (by destruct G as [->|[_ ->]]).
    unfold PacingGainForPhase. rewrite F. destruct (phase (cycle_ s)); auto 10.
  - destruct G as [-> ->]. auto 10.
Qed.
(** An event whose rate is rounded down to zero: the estimate is of one bit per second and the sender drains. *)
Definition trickle s (bytes_acked : Z) : Prop := mode_ s = DRAIN /\ Model_BandwidthEstimate (model_ s) = 1 /\ model_bytes_acked (model_ s) <> bytes_acked.
#[local] Instance trickle_dec s k : Decision (trickle s k).
Proof. apply and_dec; [apply Bbr2Mode_eq_dec|]. apply and_dec; [apply Z.eq_dec|apply not_dec, Z.eq_dec]. Qed.
Lemma UpdatePacingRate_goes s k : mid s -> machine s -> 0 < pacing_rate_ s ->
  exists x, UpdatePacingRate s k = Ok (s <| pacing_rate_ := x |>) /\ if decide (trickle s k) then x = 0 else 0 < x.
Proof.
  intros Hm Hc Hr. destruct (mode_gains s Hm Hc) as (G1 & _ & G2 & G3). pose proof Hm as (P & M & _ & W). unfold window_safe in W.
  assert (Hs : s <| pacing_rate_ := pacing_rate_ s |> = s) by (by destruct s). unfold UpdatePacingRate, BandwidthEstimate. destruct (decide _) as [(Hd & He & Ha)|Ht].
  { rewrite He. cbn [Z.eqb]. destruct (Z.eqb_spec (model_bytes_acked (model_ s)) k); [done|]. destruct Hc as (C & G & _). unfold machine_core, gains_of_mode in C, G. rewrite Hd in C, G.
    destruct C as (-> & _), G as [-> _]. rewrite (ps_trickle _ P). cbn. eauto. }
  destruct (Z.eqb_spec (Model_BandwidthEstimate (model_ s)) 0) as [|Hz]; [exists (pacing_rate_ s); by rewrite Hs|].
  destruct (Z.eqb_spec (model_bytes_acked (model_ s)) k) as [|Ha].
  { destruct (FromBytes_positive (cwnd_ s) (MinRtt (model_ s))) as (r & -> & Hp & _); [lia|apply M|]. cbn [rbind]. eauto. }
  pose proof (estimate_safe _ M) as Hb. pose proof Hb as Hb'. unfold bandwidth_ok in Hb'. destruct (bandwidth_mul_ok _ _ Hb G1) as (v & Ev).
  assert (Hv : 0 < v).
  { destruct (decide (mode_ s = DRAIN)) as [Hd|Hd].
    - assert (Model_BandwidthEstimate (model_ s) <> 1) by (intros ?; by apply Ht).
      eapply (bandwidth_positive (Model_BandwidthEstimate (model_ s)) (pacing_gain_ (model_ s)) 2); [lia|lia|exact Hb|exact G1|exact G2|lia|lia|done|exact Ev].
    - eapply (bandwidth_positive (Model_BandwidthEstimate (model_ s)) (pacing_gain_ (model_ s)) 1); [lia|lia|exact Hb|exact G1|exact (G3 Hd)|lia|lia|done|exact Ev]. }
  rewrite Ev. cbn [rbind]. destruct (full_bandwidth_reached_ _); [eauto|]. destruct (_ && _); [eauto|]. destruct (_ && _); [eauto|].
  unfold when. destruct (_ <? _); [eauto|]. exists (pacing_rate_ s). by rewrite Hs.
Qed.
Lemma UpdateCongestionWindow_goes s k : mid s -> machine s -> exists x, UpdateCongestionWindow s k = Ok (s <| cwnd_ := ApplyLimits (cwnd_limits (params_ s)) x |>).
Proof.
  intros Hm Hc. destruct (mode_gains s Hm Hc) as (_ & G1 & _). pose proof Hm as (P & M & _). unfold UpdateCongestionWindow, GetTargetCongestionWindow.
  destruct (BDP_gain_ok (model_ s) (Model_BandwidthEstimate (model_ s)) _ G1) as (w & ->). cbn [rbind].
  assert (Hl : exists lim, GetCwndLimitsByMode s = Ok lim).
  { destruct (headroom_ok _ _ M P) as (h & Eh). destruct Hc as (C & _). unfold GetCwndLimitsByMode. unfold machine_core in C. destruct (mode_ s).
    - unfold Startup_GetCwndLimits. destruct C as (_ & _ & _ & ->). cbn. eauto.
    - eauto.
    - unfold ProbeBw_GetCwndLimits. rewrite Eh. destruct (decide _); cbn; eauto.
    - unfold ProbeRtt_GetCwndLimits, InflightTarget. rewrite Eh. cbn [rbind].
      destruct (BDP_gain_ok (model_ s) (MaxBandwidth (model_ s)) (probe_rtt_inflight_target_bdp_fraction (params_ s))) as (w' & ->); [apply P|]. cbn. eauto. }
  destruct Hl as (lim & ->). cbn [rbind]. eauto.
Qed.

(** * Connections *)

(** [g] is the outstanding packets with their sizes, [now] the time of the last call, [mx] the largest window. *)
Definition safe2 (mx : Z) s (g : gmap Z Z) (now : QuicTime) : Prop :=
  mid s /\ machine s /\ window_ok mx s /\ mx < 2 ^ 33 /\ 0 < pacing_rate_ s /\ sampling s g now.

(** The last packet sent, as the round trip counter knows it. *)
Definition last_sent s : QuicPacketNumber := rt_last_sent_packet_ (round_trip_counter_ (model_ s)).
(** What the connection keeps to: its part of the sampler's contract, and packet numbers that ascend. *)
Definition valid_bbr2_call s (g : gmap Z Z) (now : QuicTime) (c : bbr2_call) : Prop :=
  let smp := bandwidth_sampler_ (model_ s) in
  match c with
  | B2Event least n t a l => valid_sampler_op smp g now (SEvent t a l 0 0 0) /\ 0 <= least < 2 ^ 47
  | B2Sent t n pn bytes d => valid_sampler_op smp g now (SSent t pn bytes n d) /\ total_bytes_sent_ smp + bytes < 2 ^ 35 /\
      (PN_IsInitialized (last_sent s) = true -> last_sent s < pn)
  | B2Neutered pn => valid_sampler_op smp g now (SNeutered pn)
  | B2Adjust params => 0 <= params_rtt params
  | B2AppLimited _ | B2Timeout _ | B2InitialWindow _ => True
  | B2Config _ => False
  end.
Definition bbr2_outstanding (g : gmap Z Z) (c : bbr2_call) : gmap Z Z :=
  match c with
  | B2Event least n t a l => outstanding (outstanding g (SEvent t a l 0 0 0)) (SObsolete least)
  | B2Sent t n pn bytes d => outstanding g (SSent t pn bytes n d)
  | B2Neutered pn => outstanding g (SNeutered pn)
  | _ => g
  end.
Definition bbr2_clock (now : QuicTime) (c : bbr2_call) : QuicTime :=
  match c with B2Event _ _ t _ _ | B2Sent t _ _ _ _ => t | _ => now end.
(** The call is an event in which the modes end draining with an estimate of one bit per second. *)
Definition drains_a_bit s (c : bbr2_call) : Prop :=
  match c with
  | B2Event least n t a l => exists m e s1,
      OnCongestionEventStart (model_ s) (params_ s) (Bbr2CongestionEvent_init (cwnd_ s) n (IsProbingForBandwidth s)) t a l = Ok (m, e) /\
      mode_loop kMaxModeChangesPerCongestionEvent (event_stats (s <| model_ := m |>) e l) n t e = Ok s1 /\ trickle s1 (ev_bytes_acked e)
  | _ => False
  end.

Lemma machine_drain_gain s : machine s -> drain_gain s.
Proof. intros (_ & G & _) Hd. unfold gains_of_mode in G. rewrite Hd in G. apply G. Qed.
Lemma safe_mid_window mx s : window_ok mx s -> mx < 2 ^ 33 -> window_safe s.
Proof. intros [_ Hw] Hm. unfold window_safe. change kDefaultMinimumCongestionWindow with 5840 in Hw. lia. Qed.
Lemma finish_ok s g t e least : mid s -> sampling s g t -> 0 <= least < 2 ^ 47 ->
  exists m, OnCongestionEventFinish (model_ s) least e = Ok m /\ model_safe m /\ same_model (model_ s) m /\ inflight_lo_ m = inflight_lo_ (model_ s) /\ sampling (s <| model_ := m |>) (outstanding g (SObsolete least)) t.
Proof.
  intros (P & M & _) (Hc & Hg & Hs) Hl. unfold OnCongestionEventFinish. cbv zeta. set (m1 := when _ _ _).
  assert (H1 : model_safe m1 /\ bandwidth_sampler_ m1 = bandwidth_sampler_ (model_ s) /\ same_model (model_ s) m1 /\ inflight_lo_ m1 = inflight_lo_ (model_ s)).
  { unfold m1, when. destruct (ev_end_of_round_trip e); [|done]. split; [|done]. model_part M. split; [apply ms_inflight0|]. split; [apply ms_inflight0|]. split; [apply ms_inflight0|done]. }
  clearbody m1. destruct H1 as (M1 & E1 & N1 & N2). rewrite E1. destruct (obsolete_spec _ _ t least Hc Hg Hl) as (smp & Es & Hc' & Hg' & Et). rewrite Es. cbn [rbind].
  eexists. split; [done|]. split; [|split; [done|]; split; [done|]; by unfold sampling; cbn -[filter]; rewrite Et]. unfold Sampler_RemoveObsoletePackets in Es. apply rbind_Ok in Es as (q & _ & Es). apply Ok_inj in Es as <-.
  rewrite <- E1. by model_part M1.
Qed.
Lemma event_goes mx s g now least n t a l : safe2 mx s g now -> valid_bbr2_call s g now (B2Event least n t a l) ->
  (exists s', OnCongestionEvent s least n t a l = Ok s' /\ safe2 mx s' (bbr2_outstanding g (B2Event least n t a l)) t /\ ~ drains_a_bit s (B2Event least n t a l)) \/
  (OnCongestionEvent s least n t a l = Fault CheckFailed /\ drains_a_bit s (B2Event least n t a l)).
Proof.
  intros (Hm & Hc & Hw & Hmx & Hr & Hs) [Hv Hl]. destruct (event_start_ok s g now t a l n Hm Hs Hv) as (m & e & Est & Hm0 & Hs0 & He).
  pose proof (event_start_machine s n t a l m e Hc Est) as Hc0. destruct (event_stats_frame (s <| model_ := m |>) e l) as (F1 & F2 & F3 & F4 & _).
  assert (F5 : cwnd_ (event_stats (s <| model_ := m |>) e l) = cwnd_ s /\ pacing_rate_ (event_stats (s <| model_ := m |>) e l) = pacing_rate_ s) by (unfold event_stats, when; repeat case_match; done).
  unfold OnCongestionEvent, drains_a_bit. cbv zeta. rewrite Est. cbn [rbind]. set (s0 := event_stats _ e l) in *.
  assert (H0 : mid s0) by (apply (mid_same (s <| model_ := m |>)); [exact Hm0|done..|apply F5]).
  assert (S0 : sampling s0 (outstanding g (SEvent t a l 0 0 0)) t) by (unfold sampling; by rewrite F3).
  assert (E0 : event_safe s0 e) by (unfold event_safe; by rewrite F3).
  assert (W0 : window_ok mx s0) by (destruct Hw as [W1 W2]; split; [by rewrite F2|by rewrite (proj1 F5)]).
  destruct (mode_loop_goes kMaxModeChangesPerCongestionEvent s0 n t e) as (s1 & E1 & H1); [pose proof (changes_left_three s0); change kMaxModeChangesPerCongestionEvent with 4%nat; lia|done|done|by apply machine_in_weaken|by apply machine_drain_gain|].
  pose proof E1 as [C1 _]%mode_loop_machine; [|by apply machine_in_weaken]. pose proof E1 as L1%mode_loop_frame. rewrite E1. cbn [rbind].
  assert (R1 : 0 < pacing_rate_ s1) by (destruct L1 as (_ & _ & _ & -> & _); destruct F5; lia). pose proof (window_ok_frame _ _ _ W0 L1) as W1.
  assert (S1 : sampling s1 (outstanding g (SEvent t a l 0 0 0)) t) by (unfold sampling; by destruct L1 as (_ & _ & _ & _ & _ & ->)).
  destruct (UpdatePacingRate_goes s1 (ev_bytes_acked e) H1 C1 R1) as (x & E2 & Hx). rewrite E2. cbn [rbind]. destruct (decide (trickle s1 (ev_bytes_acked e))) as [Ht|Ht].
  { right. subst x. cbn. split; [done|]. exists m, e, s1. done. }
  left. cbn [pacing_rate_]. set (s2 := s1 <| pacing_rate_ := x |>). assert (Hp : CHECK (negb (pacing_rate_ s2 =? 0)) = Ok tt) by (cbn; destruct (Z.eqb_spec x 0); [lia|done]). rewrite Hp. cbn [rbind].
  assert (H2 : mid s2) by (by apply (mid_same s1)). assert (C2 : machine s2) by (by apply (machine_same s1)).
  destruct (UpdateCongestionWindow_goes s2 (ev_bytes_acked e) H2 C2) as (w & E3). rewrite E3. cbn [rbind]. set (s3 := s2 <| cwnd_ := _ |>).
  assert (W3 : window_ok mx s3) by (by eapply (window_ok_set mx s1)). pose proof (safe_mid_window mx s3 W3 Hmx) as W3'. unfold window_safe in W3'.
  assert (Hz : CHECK (negb (cwnd_ s3 =? 0)) = Ok tt) by (destruct (Z.eqb_spec (cwnd_ s3) 0); [lia|done]). rewrite Hz. cbn [rbind].
  assert (H3 : mid s3) by (destruct H2 as (P & M & C & _); by split).
  destruct (finish_ok s3 _ t e least H3 S1 Hl) as (m' & E4 & M4 & N4 & N5 & S4). rewrite E4. cbn [rbind]. eexists. split; [done|].
  split; [|intros (m0 & e0 & s5 & X1 & X2 & X3); injection X1 as <- <-; fold s0 in X2; rewrite E1 in X2; by injection X2 as <-].
  set (s4 := s3 <| model_ := m' |> <| last_sample_is_app_limited_ := _ |>).
  assert (H4 : safe2 mx s4 (bbr2_outstanding g (B2Event least n t a l)) t).
  { split; [apply (mid_same (s3 <| model_ := m' |>)); [by apply mid_model|done..]|]. split; [by apply (machine_same s2)|]. split; [exact W3|]. split; [done|]. split; [exact Hx|exact S4]. }
  clearbody s4. unfold when. destruct (_ && _); [|done]. destruct H4 as (H4 & C4 & W4 & _ & R4 & S5). split; [by apply (mid_same s4)|]. split; [by apply (machine_same s4)|]. by split_and!.
Qed.
Lemma ExitProbeDown_last_sent s s' : (if decide (phase (cycle_ s) = PROBE_DOWN) then ExitProbeDown s else Ok s) = Ok s' -> last_sent s' = last_sent s.
Proof.
  destruct (decide _); intros E; [|by apply Ok_inj in E as <-]. unfold ExitProbeDown in E. apply rbind_Ok in E as (u & _ & E). apply Ok_inj in E as <-. by destruct (has_advanced_max_bw _).
Qed.
Lemma ProbeBw_Enter_last_sent s t s' : ProbeBw_Enter s t = Ok s' -> last_sent s' = last_sent s.
Proof.
  unfold ProbeBw_Enter. destruct (decide _).
  - unfold EnterProbeDown, RandomUint64. cbn. destruct (RandUint64 _) as [x1 r1]. destruct (_ =? 0); [done|]. cbn. destruct (RandUint64 r1) as [x2 r2]. destruct (_ =? 0); [done|].
    intros E. by apply Ok_inj in E as <-.
  - intros (u & _ & E)%rbind_Ok. cbv zeta in E. change (last_sent s) with (last_sent (on_cycle s (fun c => c <| cycle_start_time := t |>))). set (s1 := on_cycle s _) in *. clearbody s1.
    destruct (phase (cycle_ s1)); try (by apply Ok_inj in E as <-); unfold EnterProbeCruise, EnterProbeRefill in E; apply rbind_Ok in E as (s2 & E2%ExitProbeDown_last_sent & E);
      apply Ok_inj in E as <-; rewrite <- E2; [|done]. unfold last_sent, cap_inflight_lo. cbn. destruct (ignore_inflight_lo _); [done|]. by destruct (_ && _).
Qed.
Lemma quiescence_goes s t : mid s -> machine s -> exists s', OnExitQuiescence s t = Ok s' /\ mid s' /\ machine s' /\ pacing_rate_ s' = pacing_rate_ s /\
  bandwidth_sampler_ (model_ s') = bandwidth_sampler_ (model_ s) /\ last_sent s' = last_sent s.
Proof.
  intros Hm Hc. assert (G : exists s', OnExitQuiescence s t = Ok s' /\ mid s' /\ pacing_rate_ s' = pacing_rate_ s /\ bandwidth_sampler_ (model_ s') = bandwidth_sampler_ (model_ s) /\
    last_sent s' = last_sent s).
  2:{ destruct G as (s' & E & Hm' & ? & ? & ?). exists s'. split; [done|]. split; [done|]. split; [by eapply quiescence_machine|done]. }
  pose proof Hm as (P & M & _). unfold OnExitQuiescence. destruct (negb _); [|by exists s].
  assert (Hk : forall s1, mid s1 -> pacing_rate_ s1 = pacing_rate_ s -> bandwidth_sampler_ (model_ s1) = bandwidth_sampler_ (model_ s) ->
    last_sent s1 = last_sent s -> exists s', Ok (s1 <| last_quiescence_start_ := QuicTime_Zero |>) = Ok s' /\ mid s' /\
    pacing_rate_ s' = pacing_rate_ s /\ bandwidth_sampler_ (model_ s') = bandwidth_sampler_ (model_ s) /\ last_sent s' = last_sent s).
  { intros s1 H1 E1 E2 E3. eexists. split; [done|]. split; [by apply (mid_same s1)|]. done. }
  destruct (mode_ s) eqn:Es; cbn [fst snd].
  - rewrite decide_False by (intros Hx; congruence). cbn [rbind]. by apply Hk.
  - rewrite decide_False by (intros Hx; congruence). cbn [rbind]. by apply Hk.
  - unfold ProbeBw_OnExitQuiescence. rewrite decide_False by (intros Hx; cbn in Hx; congruence). cbn [rbind]. apply Hk; try done. apply mid_model; [done|]. by model_part M.
  - unfold ProbeRtt_OnExitQuiescence. destruct (_ <? t); [|rewrite decide_False by (intros Hx; congruence); cbn [rbind]; by apply Hk].
    rewrite decide_True by congruence. unfold change_mode, mode_leave. rewrite Es. cbn [rbind mode_enter]. destruct Hc as (C & _). unfold machine_core in C. rewrite Es in C.
    destruct (ProbeBw_Enter_goes (s <| mode_ := PROBE_BW |>) t) as (s1 & E1 & H1); [by apply (mid_same s)|right; apply C|]. change (mode_enter (s <| mode_ := PROBE_BW |>) t) with (ProbeBw_Enter (s <| mode_ := PROBE_BW |>) t).
    rewrite E1. cbn [rbind]. pose proof E1 as [K _]%ProbeBw_Enter_spec. destruct K as (K1 & K2 & K3 & K4 & K5 & K6 & K7 & K8 & K9 & K10 & _).
    apply ProbeBw_Enter_last_sent in E1. by apply Hk.
Qed.
Lemma heights_sent smp t pn bytes n d smp' : Sampler_OnPacketSent smp t pn bytes n d = Ok smp' -> heights_ok smp -> heights_ok smp'.
Proof.
  intros E Hh. assert (G : max_ack_height_tracker_ smp' = max_ack_height_tracker_ smp /\ total_bytes_acked_after_last_ack_event_ smp' = total_bytes_acked_after_last_ack_event_ smp /\
    total_bytes_acked_ smp' = total_bytes_acked_ smp).
  { unfold Sampler_OnPacketSent, start_of_flight in E. open_ok; done. }
  destruct G as (G1 & G2 & G3). eapply heights_ok_frame; [exact Hh|split; done|done].
Qed.
Lemma sent_goes mx s g now t n pn bytes d : safe2 mx s g now -> valid_bbr2_call s g now (B2Sent t n pn bytes d) ->
  exists s', OnPacketSent s t n pn bytes d = Ok s' /\ safe2 mx s' (bbr2_outstanding g (B2Sent t n pn bytes d)) t.
Proof.
  intros Hsafe Hv. pose proof Hsafe as (Hm & Hc & Hw & Hmx & Hr & Hs).
  assert (G : exists s', OnPacketSent s t n pn bytes d = Ok s' /\ mid s' /\ 0 < pacing_rate_ s' /\ sampling s' (bbr2_outstanding g (B2Sent t n pn bytes d)) t).
  2:{ destruct G as (s' & E & G1 & G2 & G3). exists s'. split; [done|]. split; [done|]. split; [by eapply sent_machine|]. split; [by eapply (bbr2_step_window mx s (B2Sent t n pn bytes d))|]. done. }
  destruct Hv as (Hv & Hb & Hl). pose proof Hv as (Ht & Htp & Hpn & _). unfold OnPacketSent. cbv zeta. set (s0 := when (InSlowStart s) _ s).
  assert (H0 : mid s0 /\ machine s0 /\ pacing_rate_ s0 = pacing_rate_ s /\ bandwidth_sampler_ (model_ s0) = bandwidth_sampler_ (model_ s) /\ last_sent s0 = last_sent s).
  { unfold s0, when. destruct (InSlowStart s); [|done]. split; [by apply (mid_same s)|]. split; [by apply (machine_same s)|done]. }
  clearbody s0. destruct H0 as (Hm0 & Hc0 & R0 & S0 & L0).
  match goal with |- exists s', rbind ?r _ = _ /\ _ => assert (H1 : exists s1, r = Ok s1 /\ mid s1 /\ pacing_rate_ s1 = pacing_rate_ s /\ bandwidth_sampler_ (model_ s1) = bandwidth_sampler_ (model_ s) /\ last_sent s1 = last_sent s) end.
  { destruct (_ && _); [|by exists s0]. destruct (quiescence_goes s0 t Hm0 Hc0) as (s1 & E & H1 & _ & R1 & S1 & L1). exists s1. split; [done|]. split; [done|]. split_and!; congruence. }
  destruct H1 as (s1 & -> & H1 & R1 & S1 & L1). cbn [rbind]. unfold Model_OnPacketSent, RoundTrips_OnPacketSent. fold (last_sent s1). rewrite L1.
  assert (Hi : PN_IsInitialized pn = true) by (apply PN_init_small; lia).
  assert (Ha : (let* ascending := if negb (PN_IsInitialized (last_sent s)) then Ok true else PN_lt (last_sent s) pn in let* _ := CHECK ascending in
      Ok (round_trip_counter_ (model_ s1) <| rt_last_sent_packet_ := pn |>)) = Ok (round_trip_counter_ (model_ s1) <| rt_last_sent_packet_ := pn |>)).
  { destruct (PN_IsInitialized (last_sent s)) eqn:Ei; [|done]. cbn [negb]. rewrite PN_lt_init by done. cbn [rbind]. rewrite (proj2 (Z.ltb_lt _ _)) by (by apply Hl). done. }
  rewrite Ha. cbn [rbind]. rewrite S1. destruct Hs as (Hsc & Hsg & Hsn).
  destruct (sent_any_spec _ g now t pn bytes n d Hsc Hsg Hv) as (smp & Es & Hc' & Hg' & Et). assert (Hs' : total_bytes_sent_ smp < 2 ^ 35) by lia. rewrite Es. cbn [rbind]. eexists. split; [done|]. split; [|split; [cbn; lia|by split_and!]].
  apply mid_model; [done|]. pose proof H1 as (_ & M1 & _). apply heights_sent in Es; [|rewrite <- S1; apply M1]. by model_part M1.
Qed.
Lemma heights_neutered smp pn smp' : Sampler_OnPacketNeutered smp pn = Ok smp' -> heights_ok smp -> heights_ok smp'.
Proof.
  unfold Sampler_OnPacketNeutered. intros (r & _ & E)%rbind_Ok Hh. apply Ok_inj in E as <-. destruct r as [q [x|]]; by apply (heights_ok_frame smp).
Qed.
Lemma adjust_goes mx s g now params : safe2 mx s g now -> 0 <= params_rtt params -> exists s', AdjustNetworkParameters s params = Ok s' /\ safe2 mx s' g now.
Proof.
  intros (Hm & Hc & Hw & Hmx & Hr & Hs) Hp. pose proof Hm as (P & M & C & W).
  assert (G : exists s', AdjustNetworkParameters s params = Ok s' /\ model_safe (model_ s') /\ params_ s' = params_ s /\ cycle_ s' = cycle_ s /\
    0 < pacing_rate_ s' /\ bandwidth_sampler_ (model_ s') = bandwidth_sampler_ (model_ s)).
  2:{ destruct G as (s' & E & M' & Ep & Ec & R' & S'). exists s'. split; [done|]. pose proof (bbr2_step_window mx s (B2Adjust params) s' Hw E) as Hw'.
      split; [|split; [|split; [done|split; [done|split; [done|unfold sampling; by rewrite S']]]]].
      - split; [by rewrite Ep|]. split; [done|]. split; [by rewrite Ec|by eapply safe_mid_window].
      - by eapply (step_machine s (B2Adjust params)). }
  unfold AdjustNetworkParameters. cbv zeta. set (s1 := on_model s _).
  assert (H1 : model_safe (model_ s1) /\ params_ s1 = params_ s /\ cycle_ s1 = cycle_ s /\ pacing_rate_ s1 = pacing_rate_ s /\ window_ok mx s1 /\ bandwidth_sampler_ (model_ s1) = bandwidth_sampler_ (model_ s)).
  { unfold s1, UpdateNetworkParameters, Delta_IsZero. unfold on_model. destruct (Z.eqb_spec (params_rtt params) 0) as [|Hz]; cbn [negb]; [done|]. split; [|done]. model_part M.
    unfold MinRtt, MinRtt_Update in *. cbn. destruct (_ || _); cbn; lia. }
  clearbody s1. destruct H1 as (M1 & P1 & C1 & R1 & W1 & S1). destruct (decide _) as [Hst|]; [|exists s1; split_and!; try done; lia].
  match goal with |- context [rbind (FromBytesAndTimeDelta (cwnd_ ?x) _)] => set (s2 := x) end.
  assert (H2 : model_ s2 = model_ s1 /\ params_ s2 = params_ s1 /\ cycle_ s2 = cycle_ s1 /\ pacing_rate_ s2 = pacing_rate_ s1) by (unfold s2, when; destruct (0 <? _); done).
  destruct H2 as (E1 & E2 & E3 & E4). assert (H3 : 5840 <= cwnd_ s2 < 2 ^ 33).
  { destruct W1 as [Wl W1]. change kDefaultMinimumCongestionWindow with 5840 in *. unfold s2. cbn -[ApplyLimits when]. match goal with |- context [ApplyLimits ?l ?x] => assert (Hl : l = mkLimits 5840 mx) by (unfold when; destruct (0 <? _); exact Wl); rewrite Hl; pose proof (ApplyLimits_in 5840 mx x ltac:(lia)) end.
    destruct (allow_cwnd_to_decrease params); lia. }
  clearbody s2. destruct (FromBytes_positive (cwnd_ s2) (MinRtt (model_ s2))) as (r & -> & Hr' & _); [lia|rewrite E1; apply M1|]. cbn [rbind].
  eexists. split; [done|]. cbn. rewrite E1, E2, E3, E4. split_and!; try done. lia.
Qed.
Lemma step_goes mx s g now c : safe2 mx s g now -> valid_bbr2_call s g now c ->
  (exists s', bbr2_step s c = Ok s' /\ safe2 mx s' (bbr2_outstanding g c) (bbr2_clock now c) /\ ~ drains_a_bit s c) \/ (bbr2_step s c = Fault CheckFailed /\ drains_a_bit s c).
Proof.
  intros Hs Hv. assert (Hd : (exists least n t a l, c = B2Event least n t a l) \/ ~ exists least n t a l, c = B2Event least n t a l) by (destruct c; [left; eauto 6|right; by intros (? & ? & ? & ? & ? & ?)..]).
  destruct Hd as [(least & n & t & a & l & ->)|Hne]; [by apply (event_goes _ _ _ now)|left].
  assert (G : exists s', bbr2_step s c = Ok s' /\ safe2 mx s' (bbr2_outstanding g c) (bbr2_clock now c)); [|destruct G as (s' & ? & ?); exists s'; split; [done|]; split; [done|]; destruct c; [destruct Hne; eauto 6|by intros []..]].
  destruct c as [least n t a l|t n pn b d|pn|n|b|n|params|o]; cbn [bbr2_step bbr2_clock]; [destruct Hne; eauto 6|..].
  - by apply (sent_goes _ _ _ now).
  - pose proof Hs as (Hm & Hc & Hw & Hmx & Hr & Hsc & Hg & Hn). destruct Hv as [Hp Hin]. unfold OnPacketNeutered, Model_OnPacketNeutered.
    destruct (neutered_spec _ g now pn Hsc Hg Hp Hin) as (smp & Es & ? & ? & Et). rewrite Es. cbn [rbind]. eexists. split; [done|]. pose proof Hm as (_ & M & _). apply heights_neutered in Es; [|apply M].
    split; [apply mid_model; [done|by model_part M]|]. split; [by apply (machine_same s)|]. split; [done|]. split; [done|]. split; [done|]. unfold sampling. cbn. by rewrite Et.
  - eexists. split; [done|]. unfold OnApplicationLimited. destruct (_ <=? n); [done|]. pose proof Hs as (Hm & Hc & Hw & Hmx & Hr & Hsc & Hg & Hn). pose proof Hm as (_ & M & _).
    destruct (follows_app_limited (bandwidth_sampler_ (model_ s))) as (F1 & F2 & F3).
    split; [apply mid_model; [done|by model_part M]|]. split; [by apply (machine_same s)|]. split; [done|]. split; [done|]. split; [done|]. split; [by apply F1|]. split; [by apply F2|done].
  - by eexists.
  - eexists. split; [done|]. pose proof Hs as ((P & M & C & W) & Hc & Hw & Hmx & Hr & Hs'). pose proof (bbr2_step_window mx s (B2InitialWindow n) _ Hw eq_refl) as Hw'. cbn in Hw'.
    unfold SetInitialCongestionWindowInPackets in *. destruct (decide _); [|done]. split; [split; [done|]; split; [done|]; split; [done|by eapply safe_mid_window]|].
    split; [by apply (machine_same s)|]. done.
  - by apply adjust_goes.
  - done.
Qed.

(** ** Creation *)

(** The options that change neither how the lower bound on the bandwidth is kept nor the pacing within STARTUP. *)
Definition plain_options (o : Bbr2Options) : Prop := o_BBQ6 o = false /\ o_BBQ7 o = false /\ o_BBQ8 o = false /\ o_BBQ9 o = false.
Lemma params_init_safe a b : params_safe (Bbr2Params_init a b).
Proof. constructor; by vm_compute. Qed.
Definition fresh2 (mx : Z) s : Prop :=
  mid s /\ starting s /\ window_ok mx s /\ 0 < pacing_rate_ s /\ sampling s ∅ 0 /\ total_bytes_sent_ (bandwidth_sampler_ (model_ s)) = 0.
Lemma fresh2_params mx s f : (forall p, params_safe p -> params_safe (f p)) -> cwnd_limits (f (params_ s)) = cwnd_limits (params_ s) -> startup_cwnd_gain (f (params_ s)) = startup_cwnd_gain (params_ s) ->
  startup_pacing_gain (f (params_ s)) = startup_pacing_gain (params_ s) -> fresh2 mx s -> fresh2 mx (on_params s f).
Proof.
  intros Hf E1 E2 E3 ((P & M & C & W) & (S1 & S2 & S3 & S4 & S5 & S6 & S7 & S8) & [W1 W2] & Hr & Hs & Hz). pose proof (Hf _ P) as P'. split; [by split|]. split; [|split; [split; [cbn; congruence|done]|done]].
  unfold starting. cbn. rewrite E2, E3. split_and!; try done. intros _. apply S7, P. apply (ps_fixed _ P').
Qed.
Ltac params_part := let p := fresh "p" in let Hp := fresh "Hp" in intros p Hp; destruct Hp; constructor; try done; match goal with H : share_ok _ /\ share_ok _ |- _ => split; [by vm_compute|apply H] end.
Lemma config_goes mx s o : fresh2 mx s -> plain_options o -> fresh2 mx (SetFromConfig s o).
Proof.
  intros Hs (O6 & O7 & O8 & O9). unfold SetFromConfig, ApplyConnectionOptions. cbv zeta. rewrite O6, O7, O8, O9. cbn [when].
  apply (when_keeps (fresh2 mx)).
  { intros x ((P & M & C & W) & (S1 & S2 & S3 & S4 & S5 & S6 & S7 & S8) & Hw & Hr & (Hc & Hg & Hn) & Hz).
    destruct (valid_sampler_op_ok _ ∅ 0 SEnable Hc Hg Hz) as (a & E & Hc' & Hg'). cbn in E. apply Ok_inj in E as <-.
    assert (Ez : total_bytes_sent_ (EnableOverestimateAvoidance (bandwidth_sampler_ (model_ x))) = 0) by (unfold EnableOverestimateAvoidance; by destruct (overestimate_avoidance_ _)).
    split; [apply (mid_model x); [done|]|split; [done|]; split; [done|]; split; [done|]; split; [|done]].
    - model_part M. by apply heights_ok_enable.
    - unfold sampling. cbn. rewrite Ez. done. }
  do 6 (apply (when_keeps (fresh2 mx)); [intros x; by apply fresh2_params; [params_part|..]|]).
  apply (when_keeps (fresh2 mx)).
  { intros x ((P & M & C & W) & (S1 & S2 & S3 & S4 & S5 & S6 & S7 & S8) & Hw & Hr & Hs' & Hz). split; [|split; [|by split_and!]]; [|split_and!; done]. split; [|split; [by model_part M|done]].
    destruct P. destruct ps_startup0 as (A1 & A2 & A3), ps_drain0 as [A4 A5]. assert (Hg : gain_ok (f32_dec 2885 1000)) by (by vm_compute). constructor; cbn; try done. }
  apply (when_keeps (fresh2 mx)); [by intros x|]. do 6 (apply (when_keeps (fresh2 mx)); [intros x; by apply fresh2_params; [params_part|..]|]). done.
Qed.
Lemma init_rate now rtt_stats n mx random stats s : Bbr2Sender_init now rtt_stats n mx random stats None = Ok s -> 0 < SmoothedOrInitialRtt rtt_stats -> 0 < cwnd_ s < 2 ^ 33 -> 0 < pacing_rate_ s.
Proof.
  unfold Bbr2Sender_init. cbv zeta. intros (r & Er & (v & Ev & E)%rbind_Ok)%rbind_Ok Hr Hw. unfold Startup_init in E. apply rbind_Ok in E as (d & _ & E). apply Ok_inj in E as <-. cbn -[ApplyLimits] in Hw |- *.
  match type of Er with FromBytesAndTimeDelta ?w ?d = _ => destruct (FromBytes_positive w d Hw Hr) as (r' & Er' & Hp & Hb) end. rewrite Er in Er'. apply Ok_inj in Er' as <-.
  apply (bandwidth_positive r kInitialPacingGain 1 ltac:(lia) ltac:(lia) Hb kInitialPacingGain_ok 1 (-1)); [by vm_compute|lia|lia|done|exact Ev].
Qed.
Lemma init_goes now rtt_stats n mx (random : R) stats : now <> QuicTime_Infinite -> 0 < SmoothedOrInitialRtt rtt_stats -> 4 <= n <= mx -> mx * 1460 < 2 ^ 33 ->
  exists s, Bbr2Sender_init now rtt_stats n mx random stats None = Ok s /\ fresh2 (mx * 1460) s.
Proof.
  intros Hnow Hr Hn Hm. pose proof (first_window_none (R := R) n mx Hn) as Ew. change kDefaultTCPMSS with 1460 in Ew.
  destruct (Bbr2Sender_init_ok now rtt_stats n mx random stats None Hnow Hr ltac:(lia) ltac:(lia) ltac:(lia)) as (s & E & Em & Ec & _ & Ep & Emo & Ecy & _).
  exists s. split; [done|]. rewrite Ew in Ec. pose proof E as Hst%init_starting. pose proof (init_rate _ _ _ _ _ _ _ E Hr ltac:(lia)) as Hp.
  pose proof (sampler_init_ok (initial_max_ack_height_filter_window (params_ s))) as [Hc Hg].
  assert (Es : bandwidth_sampler_ (model_ s) = BandwidthSampler_init (initial_max_ack_height_filter_window (params_ s))) by (by rewrite Emo).
  split; [|split; [done|split; [|split; [done|unfold sampling; by rewrite Es]]]].
  - split; [rewrite Ep; apply params_init_safe|]. split; [|split; [by rewrite Ecy|unfold window_safe; lia]].
    rewrite Emo. constructor; cbn; try done; [by left|apply heights_ok_init].
  - split; [by rewrite Ep|]. change kDefaultMinimumCongestionWindow with 5840. lia.
Qed.

(** ** Runs *)

Inductive connection2_step : Bbr2Sender R * gmap Z Z * QuicTime -> Bbr2Sender R * gmap Z Z * QuicTime -> Prop :=
  connection2_step_intro s g now c s' : valid_bbr2_call s g now c -> bbr2_step s c = Ok s' ->
    connection2_step (s, g, now) (s', bbr2_outstanding g c, bbr2_clock now c).
Lemma connection2_safe mx x y : rtc connection2_step x y -> safe2 mx x.1.1 x.1.2 x.2 -> safe2 mx y.1.1 y.1.2 y.2.
Proof.
  induction 1 as [x|x y z Hxy _ IH]; intros Hs; [done|]. destruct Hxy as [s g now c s' Hv E]. apply IH. cbn in *.
  destruct (step_goes mx s g now c Hs Hv) as [(s1 & E1 & Hs1 & _)|[E1 _]]; rewrite E in E1; [|done]. by apply Ok_inj in E1 as <-.
Qed.

(** C9. BBRv2 does not stop, with one exception.  A sender can be created with any window of at least
    four packets and configured with any options but the four experiments on lower bounds
    and startup pacing; after every run of a connection that keeps to its contract (each packet is
    acknowledged or lost once with the size it was sent with, packet numbers ascend, less than
    2^35 bytes are sent, time does not go back) the pacing rate is positive, and the next valid call is
    processed to its end: no assertion fails, no conversion from a float is out of
    range, no uninitialized flag is read and no division is by zero.  The exception is an
    event that leaves the sender draining with a bandwidth estimate of one bit per second; then, and
    only then, the rate rounds to zero and the assertion on it fails. *)
Theorem bbr2_never_stops now0 rtt_stats n mx (random : R) stats o :
  now0 <> QuicTime_Infinite -> 0 < SmoothedOrInitialRtt rtt_stats -> 4 <= n <= mx -> mx * 1460 < 2 ^ 33 -> plain_options o ->
  exists s0, Bbr2Sender_init now0 rtt_stats n mx random stats None = Ok s0 /\
    forall s g now, rtc connection2_step (SetFromConfig s0 o, ∅, 0) (s, g, now) ->
      0 < PacingRate s /\
      forall c, valid_bbr2_call s g now c ->
        (exists s', bbr2_step s c = Ok s' /\ ~ drains_a_bit s c) \/ (bbr2_step s c = Fault CheckFailed /\ drains_a_bit s c).
Proof.
  intros Hnow Hr Hn Hm Ho. destruct (init_goes now0 rtt_stats n mx random stats Hnow Hr Hn Hm) as (s0 & E0 & Hf). exists s0. split; [done|]. intros s g now Hrun.
  destruct (config_goes _ _ o Hf Ho) as (Hmid & Hst & Hw & Hp & Hs & _).
  apply (connection2_safe (mx * 1460)) in Hrun; [|cbn; split; [done|]; split; [by apply starting_machine|done]]. cbn in Hrun. split; [apply Hrun|].
  intros c Hv. destruct (step_goes _ s g now c Hrun Hv) as [(s' & E & _ & Hd)|Hd]; [left; eauto|by right].
Qed.

End Safety.

(** * Witnesses *)

Definition packet_at (t fl pn : Z) : bbr2_call := B2Sent t fl pn 1200 HAS_RETRANSMITTABLE_DATA.
Lemma first_sent_valid s0 : first_bbr2 = Ok s0 -> valid_bbr2_call (SetFromConfig s0 no_options2) ∅ 0 (packet_at 2000 0 1).
Proof.
  intros E0. vm_compute in E0. apply Ok_inj in E0 as <-. split; [|split; [vm_compute; reflexivity|intros Hx; vm_compute in Hx; discriminate]].
  split; [lia|]. split; [lia|]. split; [lia|]. intros _. split; [lia|]. split; [vm_compute; reflexivity|]. split; [done|]. intros k Hk. vm_compute in Hk. discriminate.
Qed.
Lemma first_acked_valid (s : Bbr2Sender Z) : valid_bbr2_call s (bbr2_outstanding ∅ (packet_at 2000 0 1)) 2000 (B2Event 2 1200 22000 [mkAcked 1 1200 22000] []).
Proof.
  split; [|lia]. split; [lia|]. split; [apply NoDup_singleton|]. split; [|constructor]. constructor; [|constructor]. split; [cbn; lia|]. left. exists 1200. reflexivity.
Qed.
(** A packet is sent and acknowledged. *)
Lemma bbr2_never_stops_witness :
  exists s0 s1 s2 : Bbr2Sender Z, first_bbr2 = Ok s0 /\ bbr2_step (SetFromConfig s0 no_options2) (packet_at 2000 0 1) = Ok s1 /\
    bbr2_step s1 (B2Event 2 1200 22000 [mkAcked 1 1200 22000] []) = Ok s2 /\ 0 < PacingRate s1.
Proof.
  destruct (bbr2_never_stops 1000 RttStats_init 32 2000 5 QuicConnectionStats_init no_options2) as (s0 & E0 & Hrun); [done|vm_compute; reflexivity|lia|lia|repeat split|].
  exists s0. destruct (Hrun _ ∅ 0 (rtc_refl _ _)) as (_ & Hnext). pose proof (first_sent_valid s0 E0) as Hv.
  destruct (Hnext _ Hv) as [(s1 & E1 & _)|[_ []]]. exists s1.
  destruct (Hrun s1 (bbr2_outstanding ∅ (packet_at 2000 0 1)) 2000) as (Hp & Hnext').
  { eapply rtc_l; [|apply rtc_refl]. exact (connection2_step_intro _ ∅ 0 _ s1 Hv E1). }
  destruct (Hnext' _ (first_acked_valid s1)) as [(s2 & E2 & _)|[E2 _]].
  - exists s2. split; [exact E0|]. split; [exact E1|]. split; [exact E2|exact Hp].
  - exfalso. vm_compute in E0. apply Ok_inj in E0 as <-. vm_compute in E1. apply Ok_inj in E1 as <-. vm_compute in E2. discriminate.
Defined.

(** ** Draining at one bit per second

    A byte is sent with eight packets and acknowledged ten seconds later, the packets are
    lost one by one, a byte and six more packets are sent and the byte is
    acknowledged after eighteen seconds. *)
Definition bulk (t fl : Z) (first count : nat) : list bbr2_call := map (fun i => packet_at t (fl + 1200 * Z.of_nat i) (Z.of_nat (first + i))) (seq 0 count).
Definition slow_run : list bbr2_call :=
  [B2Sent 1000 0 1 1 HAS_RETRANSMITTABLE_DATA] ++ bulk 1000 1 2 8 ++ [B2Event 2 9601 10000000 [mkAcked 1 1 10000000] []] ++
  map (fun i => B2Event 2 (9600 - 1200 * Z.of_nat i) (11000000 + Z.of_nat i) [] [mkLost (2 + Z.of_nat i) 1200]) (seq 0 8) ++
  [B2Sent 12000000 0 10 1 HAS_RETRANSMITTABLE_DATA] ++ bulk 12000000 1 11 6.
(** The exception does occur: the last acknowledgment of this run fails the assertion on the rate. *)
Lemma bbr2_stops_at_one_bit :
  exists s : Bbr2Sender Z, bbr2_after slow_run = Ok s /\ mode_ s = STARTUP /\ bbr2_step s (B2Event 11 7201 30000000 [mkAcked 10 1 30000000] []) = Fault CheckFailed.
Proof.
  destruct (bbr2_after slow_run) as [s|f] eqn:E; vm_compute in E; [|discriminate]. apply Ok_inj in E as <-. eexists. split; [reflexivity|]. split; vm_compute; reflexivity.
Qed.
