(* ===== verification/ClientApp.v ===== *)
(** The client application's own logic: the choice of congestion controller by
    name (ns3-quic-client-app.cc), the factory that creates it
    (ns3-quic-congestion-factory.cc), and the path of a packet from the QUIC
    connection to the simulated socket ([QuicClientApp::SendToNetwork]).  The
    socket's and the client's own behaviour are ns-3's and quiche's and appear as
    arguments. *)

From Stdlib Require Import SpecFloat.
From S2P Require Import Prelude Float QuicTime PacketNumber RttStats SendAlgorithm.
From S2P Require Import UnackedMap BandwidthSampler Bbr Bbr2Model Bbr2 CubicBytes TcpCubic Copa Vegas QuicTag.

(** * Controllers *)

(** src/src/quic/model/ns3-quic-client-app.cc:87-115 [GetCongestionType] *)
Definition GetCongestionType (cc_name : string) : Z :=
  if String.eqb cc_name "bbr" then kBBR
  else if String.eqb cc_name "bbrv2" then kBBRv2
  else if String.eqb cc_name "copa" then kCopa
  else if String.eqb cc_name "vegas" then kVegas
  else if String.eqb cc_name "reno" then kRenoBytes
  else if String.eqb cc_name "cubic" then kCubicBytes
  else kCubicBytes.

(** A pointer to a sender; those of BBR and BBRv2 hold the map they point to. *)
Section factory.
Context {R : Type} `{QuicRandom R} {N : Type} `{SessionNotifier N}.

Inductive Controller :=
  | TcpCubicController (s : TcpCubicSender)
  | CopaController (s : CopaSender)
  | VegasController (s : VegasSender)
  | BbrController (s : @BbrOnMap R N)
  | Bbr2Controller (s : @Bbr2OnMap R N).

(** src/src/quic/model/ns3-quic-congestion-factory.cc:44-47 [Ns3QuicCongestionFactory::Create, old sender].
    Only [BbrSender] reports the type [kBBR]. *)
Definition old_bbr (old_send_algorithm : option Controller) : option (BbrSender R) :=
  match old_send_algorithm with Some (BbrController b) => Some (bbr b) | _ => None end.

(** src/src/quic/model/ns3-quic-congestion-factory.cc:25-65 [Ns3QuicCongestionFactory::Create].
    [now] is the clock's time. *)
Definition Create (now : QuicTime) (rtt_stats : RttStats) (unacked_packets : QuicUnackedPacketMap N) (type : Z) (random : R) (stats : QuicConnectionStats)
    (initial_congestion_window max_congestion_window : Z) (old_send_algorithm : option Controller) : result (Controller * QuicConnectionStats) :=
  if kBBR =? type then
    let* s := BbrSender_init now initial_congestion_window max_congestion_window random stats in
    Ok (BbrController (mkBbrOnMap s unacked_packets), Bbr.stats_ s)
  else if kBBRv2 =? type then
    let* s := Bbr2Sender_init now rtt_stats initial_congestion_window max_congestion_window random stats (old_bbr old_send_algorithm) in
    Ok (Bbr2Controller (mkBbr2OnMap s unacked_packets), Bbr2.connection_stats_ s)
  else if kCubicBytes =? type then
    Ok (TcpCubicController (TcpCubicSender_init false initial_congestion_window max_congestion_window stats), stats)
  else if kCopa =? type then
    let '(s, st) := CopaSender_init initial_congestion_window max_congestion_window (Some stats) in
    Ok (CopaController s, default stats st)
  else if kVegas =? type then
    let '(s, st) := VegasSender_init initial_congestion_window max_congestion_window (Some stats) in
    Ok (VegasController s, default stats st)
  else
    Ok (TcpCubicController (TcpCubicSender_init true initial_congestion_window max_congestion_window stats), stats).

(** ** Virtual dispatch *)

Context `{Libm}.

#[export] Instance Controller_interface : SendAlgorithmInterface Controller := {|
  sa_SetInitialCongestionWindowInPackets c n := match c with
    | TcpCubicController s => TcpCubicController (sa_SetInitialCongestionWindowInPackets s n)
    | CopaController s => CopaController (sa_SetInitialCongestionWindowInPackets s n)
    | VegasController s => VegasController (sa_SetInitialCongestionWindowInPackets s n)
    | BbrController s => BbrController (sa_SetInitialCongestionWindowInPackets s n)
    | Bbr2Controller s => Bbr2Controller (sa_SetInitialCongestionWindowInPackets s n) end;
  sa_OnCongestionEvent r c u f t acked lost := match c with
    | TcpCubicController s => let* s := sa_OnCongestionEvent r s u f t acked lost in Ok (TcpCubicController s)
    | CopaController s => let* s := sa_OnCongestionEvent r s u f t acked lost in Ok (CopaController s)
    | VegasController s => let* s := sa_OnCongestionEvent r s u f t acked lost in Ok (VegasController s)
    | BbrController s => let* s := sa_OnCongestionEvent r s u f t acked lost in Ok (BbrController s)
    | Bbr2Controller s => let* s := sa_OnCongestionEvent r s u f t acked lost in Ok (Bbr2Controller s) end;
  sa_OnPacketSent c t f pn b d := match c with
    | TcpCubicController s => let* s := sa_OnPacketSent s t f pn b d in Ok (TcpCubicController s)
    | CopaController s => let* s := sa_OnPacketSent s t f pn b d in Ok (CopaController s)
    | VegasController s => let* s := sa_OnPacketSent s t f pn b d in Ok (VegasController s)
    | BbrController s => let* s := sa_OnPacketSent s t f pn b d in Ok (BbrController s)
    | Bbr2Controller s => let* s := sa_OnPacketSent s t f pn b d in Ok (Bbr2Controller s) end;
  sa_OnPacketNeutered c pn := match c with
    | TcpCubicController s => let* s := sa_OnPacketNeutered s pn in Ok (TcpCubicController s)
    | CopaController s => let* s := sa_OnPacketNeutered s pn in Ok (CopaController s)
    | VegasController s => let* s := sa_OnPacketNeutered s pn in Ok (VegasController s)
    | BbrController s => let* s := sa_OnPacketNeutered s pn in Ok (BbrController s)
    | Bbr2Controller s => let* s := sa_OnPacketNeutered s pn in Ok (Bbr2Controller s) end;
  sa_OnRetransmissionTimeout c b := match c with
    | TcpCubicController s => TcpCubicController (sa_OnRetransmissionTimeout s b)
    | CopaController s => CopaController (sa_OnRetransmissionTimeout s b)
    | VegasController s => VegasController (sa_OnRetransmissionTimeout s b)
    | BbrController s => BbrController (sa_OnRetransmissionTimeout s b)
    | Bbr2Controller s => Bbr2Controller (sa_OnRetransmissionTimeout s b) end;
  sa_OnConnectionMigration c := match c with
    | TcpCubicController s => TcpCubicController (sa_OnConnectionMigration s)
    | CopaController s => CopaController (sa_OnConnectionMigration s)
    | VegasController s => VegasController (sa_OnConnectionMigration s)
    | BbrController s => BbrController (sa_OnConnectionMigration s)
    | Bbr2Controller s => Bbr2Controller (sa_OnConnectionMigration s) end;
  sa_CanSend c f := match c with
    | TcpCubicController s => sa_CanSend s f | CopaController s => sa_CanSend s f
    | VegasController s => sa_CanSend s f | BbrController s => sa_CanSend s f
    | Bbr2Controller s => sa_CanSend s f end;
  sa_PacingRate r c f := match c with
    | TcpCubicController s => sa_PacingRate r s f | CopaController s => sa_PacingRate r s f
    | VegasController s => sa_PacingRate r s f | BbrController s => sa_PacingRate r s f
    | Bbr2Controller s => sa_PacingRate r s f end;
  sa_BandwidthEstimate r c := match c with
    | TcpCubicController s => sa_BandwidthEstimate r s | CopaController s => sa_BandwidthEstimate r s
    | VegasController s => sa_BandwidthEstimate r s | BbrController s => sa_BandwidthEstimate r s
    | Bbr2Controller s => sa_BandwidthEstimate r s end;
  sa_GetCongestionWindow c := match c with
    | TcpCubicController s => sa_GetCongestionWindow s | CopaController s => sa_GetCongestionWindow s
    | VegasController s => sa_GetCongestionWindow s | BbrController s => sa_GetCongestionWindow s
    | Bbr2Controller s => sa_GetCongestionWindow s end;
  sa_InSlowStart c := match c with
    | TcpCubicController s => sa_InSlowStart s | CopaController s => sa_InSlowStart s
    | VegasController s => sa_InSlowStart s | BbrController s => sa_InSlowStart s
    | Bbr2Controller s => sa_InSlowStart s end;
  sa_InRecovery c := match c with
    | TcpCubicController s => sa_InRecovery s | CopaController s => sa_InRecovery s
    | VegasController s => sa_InRecovery s | BbrController s => sa_InRecovery s
    | Bbr2Controller s => sa_InRecovery s end;
  sa_ShouldSendProbingPacket c := match c with
    | TcpCubicController s => sa_ShouldSendProbingPacket s | CopaController s => sa_ShouldSendProbingPacket s
    | VegasController s => sa_ShouldSendProbingPacket s | BbrController s => sa_ShouldSendProbingPacket s
    | Bbr2Controller s => sa_ShouldSendProbingPacket s end;
  sa_GetSlowStartThreshold c := match c with
    | TcpCubicController s => sa_GetSlowStartThreshold s | CopaController s => sa_GetSlowStartThreshold s
    | VegasController s => sa_GetSlowStartThreshold s | BbrController s => sa_GetSlowStartThreshold s
    | Bbr2Controller s => sa_GetSlowStartThreshold s end;
  sa_GetCongestionControlType c := match c with
    | TcpCubicController s => sa_GetCongestionControlType s | CopaController s => sa_GetCongestionControlType s
    | VegasController s => sa_GetCongestionControlType s | BbrController s => sa_GetCongestionControlType s
    | Bbr2Controller s => sa_GetCongestionControlType s end;
  sa_AdjustNetworkParameters r c params := match c with
    | TcpCubicController s => let* s := sa_AdjustNetworkParameters r s params in Ok (TcpCubicController s)
    | CopaController s => let* s := sa_AdjustNetworkParameters r s params in Ok (CopaController s)
    | VegasController s => let* s := sa_AdjustNetworkParameters r s params in Ok (VegasController s)
    | BbrController s => let* s := sa_AdjustNetworkParameters r s params in Ok (BbrController s)
    | Bbr2Controller s => let* s := sa_AdjustNetworkParameters r s params in Ok (Bbr2Controller s) end;
  sa_OnApplicationLimited c f := match c with
    | TcpCubicController s => TcpCubicController (sa_OnApplicationLimited s f)
    | CopaController s => CopaController (sa_OnApplicationLimited s f)
    | VegasController s => VegasController (sa_OnApplicationLimited s f)
    | BbrController s => BbrController (sa_OnApplicationLimited s f)
    | Bbr2Controller s => Bbr2Controller (sa_OnApplicationLimited s f) end;
|}.

Definition controller_inv (c : Controller) : Prop :=
  match c with
  | TcpCubicController s => sender_inv s
  | CopaController s => sender_inv s
  | VegasController s => sender_inv s
  | BbrController s => sender_inv s
  | Bbr2Controller s => sender_inv s
  end.

(** The laws hold of whichever sender is behind the pointer. *)
#[export] Instance Controller_laws : SendAlgorithmLaws Controller.
Proof.
  refine {| sender_inv := controller_inv |}.
  - intros r c u f t acked lost c' Hc Hw Ha E. destruct c as [s|s|s|s|s]; apply rbind_Ok in E as (s' & E & Ec); apply Ok_inj in Ec as <-;
      by eapply (event_inv r s u f t acked lost s').
  - intros c t f pn b d c' Hc E. destruct c as [s|s|s|s|s]; apply rbind_Ok in E as (s' & E & Ec); apply Ok_inj in Ec as <-;
      by eapply (sent_inv s t f pn b d s').
  - intros [s|s|s|s|s] b Hc; by apply (timeout_inv s b).
  - intros [s|s|s|s|s] Hc; by apply (window_floor s).
  - intros [s|s|s|s|s] Hc; by apply (idle_can_send s).
Defined.

Lemma tcp_init_inv reno n m stats :
  1 <= n < 2 ^ 40 -> 1 <= m < 2 ^ 40 -> tcp_inv (TcpCubicSender_init reno n m stats).
Proof.
  intros Hn Hm. unfold TcpCubicSender_init. unfold TcpCubic.kDefaultMinimumCongestionWindow, kDefaultTCPMSS.
  rewrite !u64_small by lia. split; unfold kDefaultTCPMSS; cbn; try lia. by apply cubic_floor_stopped.
Qed.

(** A controller in its first state: its type, the invariant, the window it starts with, and leave to send. *)
Definition lawful (type w : Z) (c : Controller) : Prop :=
  sa_GetCongestionControlType c = type /\ sender_inv c /\ sa_GetCongestionWindow c = w /\ sa_CanSend c 0 = true.
Lemma lawful_intro type w c : sa_GetCongestionControlType c = type -> controller_inv c -> sa_GetCongestionWindow c = w -> lawful type w c.
Proof. intros Ht Hi Hw. split; [done|]. split; [done|]. split; [done|]. exact (@idle_can_send _ _ Controller_laws c Hi). Qed.
Lemma bbr_lawful now unacked random stats n m : 4 <= n <= m -> m < 2 ^ 40 -> now <> QuicTime_Infinite ->
  exists s, BbrSender_init now n m random stats = Ok s /\ lawful kBBR (n * kDefaultTCPMSS) (BbrController (mkBbrOnMap s unacked)).
Proof.
  intros Hn Hm Hnow. destruct (BbrSender_init_ok now n m random stats Hnow) as (s & E & Em & _ & E1 & _ & E2 & E3 & E4 & _).
  exists s. split; [done|]. change kDefaultTCPMSS with 1460 in *. rewrite u64_small in E1, E2 by lia.
  assert (Hw : windows_ok (m * 1460) s).
  { split; rewrite ?E1, ?E2, ?E3, ?E4; change kMaxSegmentSize with 1460; (done || lia). }
  apply lawful_intro; [done|exists (m * 1460); split; [lia|done]|]. cbn. unfold Bbr.GetCongestionWindow, Bbr.InRecovery.
  rewrite decide_False by congruence. rewrite bool_decide_false by (intros Hx; by apply Hx). done.
Qed.

Lemma bbr2_lawful now rtt_stats unacked random stats n m old : 4 <= n <= m -> m < 2 ^ 22 -> now <> QuicTime_Infinite -> 0 < SmoothedOrInitialRtt rtt_stats ->
  exists s, Bbr2Sender_init now rtt_stats n m random stats old = Ok s /\ lawful kBBRv2 (first_window n m old) (Bbr2Controller (mkBbr2OnMap s unacked)).
Proof.
  intros Hn Hm Hnow Hr. pose proof (first_window_bounds n m old ltac:(lia)) as Hb. change kDefaultTCPMSS with 1460 in Hb.
  destruct (Bbr2Sender_init_ok now rtt_stats n m random stats old Hnow Hr ltac:(lia) ltac:(lia) ltac:(lia)) as (s & E & _ & Ew & _ & Ep & _).
  exists s. split; [done|]. apply lawful_intro; [done| |exact Ew]. exists (m * 1460). split; [lia|]. cbn. split; [by rewrite Ep|]. rewrite Ew. lia.
Qed.

(** The window a name starts with: BBRv2 takes over that of a BBR sender. *)
Definition starting_window (type n m : Z) (old : option Controller) : Z :=
  if type =? kBBRv2 then first_window n m (old_bbr old) else n * kDefaultTCPMSS.

(** Which controller a name stands for; any other name stands for CUBIC. *)
Definition named_by (name : string) (c : Controller) : Prop :=
  match c with
  | BbrController _ => name = "bbr"
  | Bbr2Controller _ => name = "bbrv2"
  | CopaController _ => name = "copa"
  | VegasController _ => name = "vegas"
  | TcpCubicController s => if reno_ s then name = "reno" else name ∉ ["bbr"; "bbrv2"; "copa"; "vegas"; "reno"]
  end.

Lemma Create_named_by now rtt_stats unacked name random stats n m old c st :
  Create now rtt_stats unacked (GetCongestionType name) random stats n m old = Ok (c, st) -> named_by name c.
Proof.
  unfold GetCongestionType.
  repeat match goal with |- context [if String.eqb ?a ?b then _ else _] =>
    destruct (String.eqb_spec a b) as [->|?];
    [cbn -[TcpCubicSender_init CopaSender_init VegasSender_init BbrSender_init Bbr2Sender_init named_by] |] end.
  - by intros (s & _ & [= <- <-])%rbind_Ok.
  - by intros (s & _ & [= <- <-])%rbind_Ok.
  - by intros [= <- <-].
  - by intros [= <- <-].
  - by intros [= <- <-].
  - intros [= <- <-]. cbn. set_solver.
  - cbn -[TcpCubicSender_init named_by]. intros [= <- <-]. cbn. set_solver.
Qed.

(** C34. The name on the command line selects the controller, and what the
    factory creates satisfies the laws its clients rely on: creation succeeds, and
    the sender created is the one the name stands for (CUBIC for any other name),
    reports its type, starts with the configured window in segments (or, where BBRv2 replaces a BBR
    sender, with that sender's window inside BBRv2's limits), satisfies its invariant
    (so the interface's laws hold of it from then on) and may send. *)
Theorem factory_creates_lawful now rtt_stats unacked random name stats n m old :
  now <> QuicTime_Infinite -> 0 < SmoothedOrInitialRtt rtt_stats -> 4 <= n <= m -> m < 2 ^ 22 ->
  exists c st, Create now rtt_stats unacked (GetCongestionType name) random stats n m old = Ok (c, st) /\ named_by name c /\
    lawful (GetCongestionType name) (starting_window (GetCongestionType name) n m old) c /\
    (old_bbr old = None -> sa_GetCongestionWindow c = n * kDefaultTCPMSS).
Proof.
  intros Hnow Hr Hn Hm. cut (exists c st, Create now rtt_stats unacked (GetCongestionType name) random stats n m old = Ok (c, st) /\
    lawful (GetCongestionType name) (starting_window (GetCongestionType name) n m old) c).
  { intros (c & st & E & Hl). exists c, st. split; [done|]. split; [by eapply Create_named_by|]. split; [done|]. intros Ho. destruct Hl as (_ & _ & -> & _). unfold starting_window. rewrite Ho.
    destruct (_ =? _); [by apply first_window_none|done]. }
  unfold GetCongestionType.
  assert (Hc : forall reno : bool, lawful (if reno then kRenoBytes else kCubicBytes) (n * kDefaultTCPMSS) (TcpCubicController (TcpCubicSender_init reno n m stats))).
  { intros reno. apply lawful_intro; [by destruct reno|apply tcp_init_inv; lia|]. cbn. rewrite u64_small by (unfold kDefaultTCPMSS; lia). done. }
  repeat match goal with |- context [if String.eqb ?a ?b then _ else _] =>
    destruct (String.eqb_spec a b) as [->|_];
    [cbn -[TcpCubicSender_init CopaSender_init VegasSender_init BbrSender_init Bbr2Sender_init lawful] |] end.
  - destruct (bbr_lawful now unacked random stats n m Hn ltac:(lia) Hnow) as (s & -> & Hl). cbn [rbind]. by eexists _, _.
  - destruct (bbr2_lawful now rtt_stats unacked random stats n m (old_bbr old) Hn Hm Hnow Hr) as (s & -> & Hl). cbn [rbind]. by eexists _, _.
  - assert (Hi : controller_inv (CopaController (CopaSender_init n m (Some stats)).1)) by (apply CopaSender_init_inv; lia).
    eexists _, _. split; [done|]. apply lawful_intro; [done|exact Hi|]. cbn. rewrite u64_small by (unfold kDefaultTCPMSS; lia). done.
  - eexists _, _. split; [done|]. apply lawful_intro; [done| |].
    + cbn. unfold kDefaultTCPMSS. rewrite u64_small by lia. split; [done|lia].
    + cbn. rewrite u64_small by (unfold kDefaultTCPMSS; lia). done.
  - eexists _, _. split; [done|exact (Hc true)].
  - eexists _, _. split; [done|exact (Hc false)].
  - cbn -[TcpCubicSender_init lawful]. eexists _, _. split; [done|exact (Hc false)].
Qed.
End factory.
Arguments Controller : clear implicits.

Lemma factory_creates_lawful_witness :
  exists c st, Create (N:=list QuicFrame) 1000 RttStats_init empty_map (GetCongestionType "bbrv2") 5 QuicConnectionStats_init 32 2000 None = Ok (c, st) /\ named_by "bbrv2" c /\
    lawful (H1:=truncating_libm) kBBRv2 46720 c.
Proof.
  destruct (factory_creates_lawful (N:=list QuicFrame) (H1:=truncating_libm) 1000 RttStats_init empty_map 5 "bbrv2" QuicConnectionStats_init 32 2000 None) as (c & st & E & Hn & Hc & _);
    [done|vm_compute; reflexivity|lia|lia|].
  exists c, st. split; [exact E|]. split; [exact Hn|exact Hc].
Defined.

(** * Sending *)

(** src/src/quic/model/ns3-quic-client-app.h:32-51 [QuicClientApp].
    With what was handed to the socket and to the trace callbacks.  [m_impl] is
    the implementation, if there is one, and whether its [m_quicClient] is set. *)
Record QuicClientApp := mkApp {
  m_targetBytes : Z;
  m_currentTxBytes : Z;
  m_socket : bool;
  m_impl : option bool;
  m_seq : Z;
  m_traceRate : bool;
  m_traceCwnd : bool;
  m_traceInFlight : bool;
  m_rate : Z;
  m_cwnd : Z;
  m_inFlight : Z;
  sent : list (Ns3QuicTag * Z);
  traced_cwnd : list Z;
  traced_in_flight : list Z;
  traced_rate : list spec_float;
}.
#[export] Instance eta_App : Eta QuicClientApp := MkEta _ (fun a =>
  mkApp (m_targetBytes a) (m_currentTxBytes a) (m_socket a) (m_impl a) (m_seq a) (m_traceRate a) (m_traceCwnd a)
    (m_traceInFlight a) (m_rate a) (m_cwnd a) (m_inFlight a) (sent a) (traced_cwnd a) (traced_in_flight a)
    (traced_rate a)).

(** src/src/quic/model/ns3-quic-client-app.cc:202-228 [QuicClientApp::SendToNetwork, traces].
    [cwnd], [in_flight] and [bps] are the client's answers. *)
Definition trace_state (a : QuicClientApp) (cwnd in_flight bps : Z) : QuicClientApp :=
  let a := if m_traceCwnd a && negb (m_cwnd a =? cwnd)
    then a <| traced_cwnd := traced_cwnd a ++ [cwnd] |> <| m_cwnd := cwnd |> else a in
  let a := if m_traceInFlight a && negb (m_inFlight a =? in_flight)
    then a <| traced_in_flight := traced_in_flight a ++ [in_flight] |> <| m_inFlight := in_flight |> else a in
  if m_traceRate a && negb (m_rate a =? bps)
  then a <| traced_rate := traced_rate a ++
              [f32_of_f64 (f64_div (f64_mul (f64_of_Z 1) (f64_of_Z bps)) (f64_of_Z 1000))] |>
         <| m_rate := bps |>
  else a.

(** src/src/quic/model/ns3-quic-client-app.cc:189-252 [QuicClientApp::SendToNetwork].
    [now] is the simulator's time in nanoseconds. *)
Definition SendToNetwork (a : QuicClientApp) (now cwnd in_flight bps sz : Z) : QuicClientApp :=
  if negb (m_socket a) then a
  else if default false (m_impl a) then
    let a := trace_state a cwnd in_flight bps in
    let send_time := u64 (Z.quot now 1000000) in
    let tag := mkTag (m_seq a) send_time in
    let a := a <| m_seq := m_seq a ⊕ 1 |> in
    let a := a <| m_currentTxBytes := m_currentTxBytes a ⊕ sz |> in
    if m_currentTxBytes a <? 1500000000 then a <| sent := sent a ++ [(tag, sz)] |> else a
  else a.

(** src/src/quic/model/ns3-quic-client-app.cc:360-370 [QuicClientAppImpl::WritePacket].
    The writer is told that everything was written, sent or not. *)
Definition WritePacket (a : QuicClientApp) (now cwnd in_flight bps buf_len : Z) : QuicClientApp * Z :=
  (SendToNetwork a now cwnd in_flight bps buf_len, i32 buf_len).

(** src/src/quic/model/ns3-quic-client-app.cc:280-284 [QuicClientApp::StopApplication] *)
Definition StopApplication (a : QuicClientApp) : QuicClientApp := a <| m_impl := None |>.

(** ** The cap *)

(** A packet offered by the connection. *)
Record offer := mkOffer { o_now : Z; o_cwnd : Z; o_in_flight : Z; o_bps : Z; o_size : Z }.

Definition send_offer (a : QuicClientApp) (o : offer) : QuicClientApp :=
  SendToNetwork a (o_now o) (o_cwnd o) (o_in_flight o) (o_bps o) (o_size o).

Fixpoint total (l : list offer) : Z :=
  match l with [] => 0 | o :: l => o_size o + total l end.

(** The tags a list of packets gets when the next sequence number is [q]. *)
Fixpoint tagged (q : Z) (l : list offer) : list (Ns3QuicTag * Z) :=
  match l with
  | [] => []
  | o :: l => (mkTag q (u64 (Z.quot (o_now o) 1000000)), o_size o) :: tagged (q + 1) l
  end.

Lemma total_app l l' : total (l ++ l') = total l + total l'.
Proof. induction l; cbn; lia. Qed.
Lemma total_nonneg l : Forall (fun o => 0 <= o_size o) l -> 0 <= total l.
Proof. induction 1; cbn; lia. Qed.
Lemma tagged_app q l l' : tagged q (l ++ l') = tagged q l ++ tagged (q + Z.of_nat (length l)) l'.
Proof.
  revert q. induction l as [|o l IH]; intros q; cbn [app tagged length].
  - by rewrite Z.add_0_r.
  - rewrite IH. by replace (q + Z.of_nat (S (length l))) with (q + 1 + Z.of_nat (length l)) by lia.
Qed.

Lemma trace_state_frame a x y z :
  let b := trace_state a x y z in
  m_currentTxBytes b = m_currentTxBytes a /\ m_seq b = m_seq a /\ sent b = sent a /\ m_socket b = m_socket a /\ m_impl b = m_impl a.
Proof. unfold trace_state. by repeat (case_match; cbn). Qed.

Lemma send_offer_spec a o :
  m_socket a = true -> m_impl a = Some true -> 0 <= m_currentTxBytes a -> 0 <= o_size o ->
  m_currentTxBytes a + o_size o < two64 -> 0 <= m_seq a -> m_seq a + 1 < two64 ->
  let b := send_offer a o in
  m_socket b = true /\ m_impl b = Some true /\ m_currentTxBytes b = m_currentTxBytes a + o_size o /\
  m_seq b = m_seq a + 1 /\
  sent b = sent a ++ (if m_currentTxBytes a + o_size o <? 1500000000 then tagged (m_seq a) [o] else []).
Proof.
  intros Hs Hi H1 H2 H3 H4 H5. unfold send_offer, SendToNetwork. rewrite Hs, Hi. cbn [negb default].
  destruct (trace_state_frame a (o_cwnd o) (o_in_flight o) (o_bps o)) as (E1 & E2 & E3 & E4 & E5).
  set (b := trace_state a _ _ _) in *. clearbody b. cbn. rewrite E1, E2, !u64_small by lia.
  destruct (_ <? _); cbn; rewrite ?E2, ?E3, ?E4, ?E5, ?app_nil_r; done.
Qed.

(** What a run of offers leaves: [k] of them were sent. *)
Definition capped (l : list offer) (k : nat) (a : QuicClientApp) : Prop :=
  m_socket a = true /\ m_impl a = Some true /\ m_currentTxBytes a = total l /\ m_seq a = 1 + Z.of_nat (length l) /\
  (k <= length l)%nat /\ sent a = tagged 1 (take k l) /\
  (k <> 0%nat -> total (take k l) < 1500000000) /\ ((k < length l)%nat -> 1500000000 <= total (take (S k) l)).

Lemma capped_step l k a o :
  capped l k a -> Forall (fun o => 0 <= o_size o) (l ++ [o]) -> total (l ++ [o]) < two63 ->
  Z.of_nat (length l) < two63 -> exists k', capped (l ++ [o]) k' (send_offer a o).
Proof.
  intros (Hs & Hi & Ht & Hq & Hk & Hsent & Hlow & Hhigh) Hpos Htot Hlen.
  pose proof Hpos as [Hpl Hpo]%Forall_app. apply Forall_inv in Hpo. rewrite total_app in Htot. cbn in Htot.
  pose proof (total_nonneg l Hpl).
  destruct (send_offer_spec a o Hs Hi) as (E1 & E2 & E3 & E4 & E5); try lia. rewrite Ht, Hq in *.
  assert (Etot : total (l ++ [o]) = total l + o_size o) by (rewrite total_app; cbn; lia).
  destruct (Z.ltb_spec (total l + o_size o) 1500000000) as [Hc|Hc].
  - assert (k = length l) as ->.
    { destruct (Nat.eq_dec k (length l)) as [|Hne]; [done|]. specialize (Hhigh ltac:(lia)).
      assert (total l = total (take (S k) l) + total (drop (S k) l)) by (by rewrite <- total_app, take_drop).
      assert (0 <= total (drop (S k) l)) by (apply total_nonneg, Forall_drop; done). lia. }
    exists (length (l ++ [o])). unfold capped. rewrite E3, E4, E5, Etot, Hsent, !take_ge by (rewrite ?length_app; lia).
    rewrite length_app, tagged_app. cbn [length]. split_and!; try done; lia.
  - exists k. unfold capped. rewrite E3, E4, E5, Etot, Hsent, app_nil_r, length_app. cbn [length].
    rewrite take_app_le by lia. split_and!; try done; try lia. intros _.
    destruct (Nat.eq_dec k (length l)) as [->|Hne].
    + rewrite take_ge by (rewrite length_app; cbn; lia). rewrite Etot. lia.
    + rewrite take_app_le by lia. apply Hhigh. lia.
Qed.

(** C33. The client's byte cap: of the packets the connection offers, exactly a
    prefix reaches the socket, numbered consecutively from 1; it stops at the
    first packet that brings the bytes offered to 1500000000, and nothing
    offered later is ever sent, although the writer reports each as written.
    The target passed to the application plays no part. *)
Theorem client_stops_at_cap a l :
  m_socket a = true -> m_impl a = Some true -> m_currentTxBytes a = 0 -> m_seq a = 1 -> sent a = [] ->
  Forall (fun o => 0 <= o_size o) l -> total l < two63 -> Z.of_nat (length l) < two63 ->
  exists k, (k <= length l)%nat /\
    sent (foldl send_offer a l) = tagged 1 (take k l) /\
    (k <> 0%nat -> total (take k l) < 1500000000) /\
    ((k < length l)%nat -> 1500000000 <= total (take (S k) l)).
Proof.
  intros Hs Hi Hc Hq Hse Hpos Htot Hlen.
  assert (H : exists k, capped l k (foldl send_offer a l)).
  { revert Hpos Htot Hlen. induction l as [|o l IH] using rev_ind; intros Hpos Htot Hlen.
    - exists 0%nat. unfold capped. cbn. split_and!; (done || lia).
    - pose proof Hpos as [Hpl Hpo]%Forall_app. apply Forall_inv in Hpo.
      pose proof Htot as Htot'. rewrite total_app in Htot'. cbn in Htot'. pose proof (total_nonneg l Hpl).
      rewrite length_app in Hlen. cbn in Hlen.
      destruct (IH Hpl ltac:(lia) ltac:(lia)) as (k & Hk). rewrite foldl_snoc.
      apply (capped_step l k); (done || lia). }
  destruct H as (k & _ & _ & _ & _ & H1 & H2 & H3 & H4). eauto.
Qed.

Lemma client_stops_at_cap_witness :
  let a := mkApp 1000 0 true (Some true) 1 false false false 0 0 0 [] [] [] [] in
  let l := [mkOffer 0 0 0 0 900000000; mkOffer 5000000 0 0 0 599999999; mkOffer 6000000 0 0 0 1; mkOffer 7000000 0 0 0 1] in
  exists k, (k <= length l)%nat /\ sent (foldl send_offer a l) = tagged 1 (take k l) /\
    (k <> 0%nat -> total (take k l) < 1500000000) /\
    ((k < length l)%nat -> 1500000000 <= total (take (S k) l)).
Proof.
  intros a l. apply (client_stops_at_cap a l); try reflexivity.
  - repeat constructor; cbn; lia.
Defined.
