(* ===== verification/ServerTrace.v ===== *)
(** The server's traces (ns3-quic-trace.h, ns3-quic-trace.cc) and its receive path
    (ns3-quic-server-app.cc): the per-flow log of one-way delays, losses and
    goodput, the dispatcher that finds the log of a packet's flow, and
    [QuicServerApp::RecvPacket], which feeds it.

    A file is the lines written to it, whether it is open and whether its
    stream has failed.  ns-3's [Time] is a count of nanoseconds. *)

From Stdlib Require Import SpecFloat Ascii Sorted.
From S2P Require Import Prelude Float QuicTag Address ClientApp.

(** * Files and times *)

Record File (A : Type) := mkFile { is_open : bool; failed : bool; lines : list A }.
Arguments mkFile {A}.
Arguments is_open {A}.
Arguments failed {A}.
Arguments lines {A}.
Definition File_closed {A} : File A := mkFile false false [].
(** [std::fstream::open] for output empties the file; on a stream that is open it fails. *)
Definition File_open {A} (f : File A) : File A := if is_open f then mkFile true true (lines f) else mkFile true false [].
Definition File_close {A} (f : File A) : File A := mkFile false (failed f) (lines f).
Definition File_write {A} (f : File A) (x : A) : File A := if failed f then f else mkFile (is_open f) false (lines f ++ [x]).

Definition Time_GetMilliSeconds (t : Z) : Z := Z.quot t 1000000.

(** src/src/quic/model/ns3-quic-trace.cc:13-13 [g_goodputInterval].  Its first value, in nanoseconds. *)
Definition g_goodputInterval_init : Z := 1000000000.

(** src/src/quic/model/ns3-quic-trace.cc:19-30 [set_quic_trace_folder].  The
    present folder and the new one; an index past the terminating null is out of bounds. *)
Definition set_quic_trace_folder (Ns3QuicTracePath path : string) : result string :=
  let len := String.length path in
  if (0 <? Z.of_nat len) then
    let* c :=
      if (len - 1 <? String.length Ns3QuicTracePath)%nat then Ok (String.get (len - 1) Ns3QuicTracePath)
      else if (len - 1 =? String.length Ns3QuicTracePath)%nat then Ok (Some Ascii.zero)
      else Fault OutOfBounds in
    Ok (if decide (c = Some "/"%char) then path else path +:+ "/"%string)
  else Ok path.

(** src/src/quic/model/ns3-quic-trace.h:21-28 [QuicServerTraceEnable] *)
Definition E_QS_OWD : Z := 1.
Definition E_QS_GOODPUT : Z := 2.
Definition E_QS_LOST : Z := 4.
Definition E_QS_UTIL : Z := 8.

(** * The client's trace *)

(** src/src/quic/model/ns3-quic-trace.h:15-20 [QuicClientTraceEnable] *)
Definition E_QC_CWND : Z := 1.
Definition E_QC_IN_FLIGHT : Z := 2.
Definition E_QC_SEND_RATE : Z := 4.

(** src/src/quic/model/ns3-quic-trace.h:44-47 [Ns3QuicClientTrace].  A line is the time and the value. *)
Record Ns3QuicClientTrace := mkClientTrace {
  m_rate : File (Z * spec_float);
  m_cwnd : File (Z * Z);
  m_inFlight : File (Z * Z);
}.
#[export] Instance eta_ClientTrace : Eta Ns3QuicClientTrace := MkEta _ (fun t => mkClientTrace (m_rate t) (m_cwnd t) (m_inFlight t)).

(** src/src/quic/model/ns3-quic-trace.cc:44-70 [Ns3QuicClientTrace::LogEnable].  The files' names are left out. *)
Definition Client_LogEnable (t : Ns3QuicClientTrace) (e : Z) : Ns3QuicClientTrace :=
  let t := when (negb (Z.land e E_QC_CWND =? 0)) (fun t => t <| m_cwnd := File_open (m_cwnd t) |>) t in
  let t := when (negb (Z.land e E_QC_IN_FLIGHT =? 0)) (fun t => t <| m_inFlight := File_open (m_inFlight t) |>) t in
  when (negb (Z.land e E_QC_SEND_RATE =? 0)) (fun t => t <| m_rate := File_open (m_rate t) |>) t.
(** src/src/quic/model/ns3-quic-trace.cc:71-78 [Ns3QuicClientTrace::OnSendRate] *)
Definition OnSendRate (t : Ns3QuicClientTrace) (now : Z) (v : spec_float) : Ns3QuicClientTrace :=
  when (is_open (m_rate t)) (fun t => t <| m_rate := File_write (m_rate t) (now, v) |>) t.
(** src/src/quic/model/ns3-quic-trace.cc:79-86 [Ns3QuicClientTrace::OnCwnd] *)
Definition OnCwnd (t : Ns3QuicClientTrace) (now v : Z) : Ns3QuicClientTrace :=
  when (is_open (m_cwnd t)) (fun t => t <| m_cwnd := File_write (m_cwnd t) (now, v) |>) t.
(** src/src/quic/model/ns3-quic-trace.cc:87-94 [Ns3QuicClientTrace::OnInFlight] *)
Definition OnInFlight (t : Ns3QuicClientTrace) (now v : Z) : Ns3QuicClientTrace :=
  when (is_open (m_inFlight t)) (fun t => t <| m_inFlight := File_write (m_inFlight t) (now, v) |>) t.
(** src/src/quic/model/ns3-quic-trace.cc:110-124 [Ns3QuicClientTrace::Close] *)
Definition ClientTrace_Close (t : Ns3QuicClientTrace) : Ns3QuicClientTrace :=
  let t := when (is_open (m_rate t)) (fun t => t <| m_rate := File_close (m_rate t) |>) t in
  let t := when (is_open (m_cwnd t)) (fun t => t <| m_cwnd := File_close (m_cwnd t) |>) t in
  when (is_open (m_inFlight t)) (fun t => t <| m_inFlight := File_close (m_inFlight t) |>) t.

(** * One flow *)

(** src/src/quic/model/ns3-quic-trace.h:61-71 [Ns3QuicServerTrace] *)
Record Ns3QuicServerTrace := mkTrace {
  m_lastSeq : Z;
  m_largestSeq : Z;
  m_lostPackets : Z;
  m_lastRateBytes : Z;
  m_lastRateTime : Z;
  m_readBytes : Z;
  m_firstPacketTime : Z;
  m_receiptTime : Z;
  m_owd : File (Z * Z * Z * Z);
  m_lost : File (Z * Z * spec_float);
  m_goodput : File (Z * spec_float);
}.
#[export] Instance eta_ServerTrace : Eta Ns3QuicServerTrace := MkEta _ (fun t =>
  mkTrace (m_lastSeq t) (m_largestSeq t) (m_lostPackets t) (m_lastRateBytes t) (m_lastRateTime t) (m_readBytes t)
    (m_firstPacketTime t) (m_receiptTime t) (m_owd t) (m_lost t) (m_goodput t)).

(** src/src/quic/model/ns3-quic-trace.cc:126-152 [Ns3QuicServerTrace::Ns3QuicServerTrace].  The files' names are left out. *)
Definition Ns3QuicServerTrace_init (e : Z) : Ns3QuicServerTrace :=
  let t := mkTrace 0 0 0 0 0 0 0 0 File_closed File_closed File_closed in
  let t := when (negb (Z.land e E_QS_OWD =? 0)) (fun t => t <| m_owd := File_open (m_owd t) |>) t in
  let t := when (negb (Z.land e E_QS_LOST =? 0)) (fun t => t <| m_lost := File_open (m_lost t) |>) t in
  when (negb (Z.land e E_QS_GOODPUT =? 0)) (fun t => t <| m_goodput := File_open (m_goodput t) |>) t.

Section Traces.
(** The interval between goodput records, the global that [set_quic_goodput_interval] assigns. *)
Variable g_goodputInterval : Z.

(** src/src/quic/model/ns3-quic-trace.cc:231-231 [Ns3QuicServerTrace::LogGoodput, rate] *)
Definition goodput_kbps (bytes ms : Z) : spec_float :=
  f32_of_f64 (f64_div (f64_mul (f64_mul (f64_of_Z 1) (f64_of_Z bytes)) (f64_of_Z 8)) (f64_of_Z ms)).
(** src/src/quic/model/ns3-quic-trace.cc:222-248 [Ns3QuicServerTrace::LogGoodput] *)
Definition LogGoodput (t : Ns3QuicServerTrace) (dtor : bool) : Ns3QuicServerTrace :=
  if is_open (m_goodput t) then
    let delta := i64 (m_receiptTime t - m_lastRateTime t) in
    let line := (m_receiptTime t, goodput_kbps (i64 (m_readBytes t - m_lastRateBytes t)) (Time_GetMilliSeconds delta)) in
    if dtor then
      if m_lastRateTime t <? m_receiptTime t then t <| m_goodput := File_write (m_goodput t) line |> else t
    else
      if i64 (m_lastRateTime t + g_goodputInterval) <=? m_receiptTime t then
        t <| m_goodput := File_write (m_goodput t) line |>
          <| m_lastRateBytes := m_readBytes t |> <| m_lastRateTime := m_receiptTime t |>
      else t
  else t.

(** src/src/quic/model/ns3-quic-trace.cc:161-176 [Ns3QuicServerTrace::OnOwd, delay and goodput] *)
Definition trace_delay (t : Ns3QuicServerTrace) (now seq owd len : Z) : Ns3QuicServerTrace :=
  if is_open (m_owd t) || is_open (m_goodput t) then
    let t := when (m_firstPacketTime t =? 0) (fun t => t <| m_firstPacketTime := now |> <| m_lastRateTime := now |>) t in
    let t := t <| m_readBytes := i64 (m_readBytes t + len) |> in
    let t := when (is_open (m_owd t)) (fun t => t <| m_owd := File_write (m_owd t) (now, seq, owd, len) |> <| m_receiptTime := now |>) t in
    LogGoodput t false
  else t.
(** src/src/quic/model/ns3-quic-trace.cc:178-193 [Ns3QuicServerTrace::OnOwd, losses] *)
Definition trace_loss (t : Ns3QuicServerTrace) (seq : Z) : Ns3QuicServerTrace :=
  if is_open (m_lost t) then
    let t := when (i32 (m_lastSeq t - 1) <? seq)
      (fun t => t <| m_lostPackets := i32 (m_lostPackets t + i32 (seq - m_lastSeq t - 1)) |>) t in
    let t := when (m_lastSeq t <? seq) (fun t => t <| m_lastSeq := seq |>) t in
    when (m_largestSeq t <? seq) (fun t => t <| m_largestSeq := seq |>) t
  else t.
(** src/src/quic/model/ns3-quic-trace.cc:159-194 [Ns3QuicServerTrace::OnOwd] *)
Definition Trace_OnOwd (t : Ns3QuicServerTrace) (now seq owd len : Z) : Ns3QuicServerTrace :=
  trace_loss (trace_delay t now seq owd len) seq.

(** src/src/quic/model/ns3-quic-trace.cc:214-218 [Ns3QuicServerTrace::LogLostPackets, ratio] *)
Definition loss_ratio (lost largest : Z) : spec_float :=
  if 0 <? largest then f32_of_f64 (f64_div (f64_mul (f64_mul (f64_of_Z 1) (f64_of_Z lost)) (f64_of_Z 100)) (f64_of_Z largest))
  else f32_of_Z 0.
(** src/src/quic/model/ns3-quic-trace.cc:210-221 [Ns3QuicServerTrace::LogLostPackets] *)
Definition LogLostPackets (t : Ns3QuicServerTrace) : Ns3QuicServerTrace :=
  if is_open (m_lost t) then
    t <| m_lost := File_write (m_lost t) (m_lostPackets t, m_largestSeq t, loss_ratio (m_lostPackets t) (m_largestSeq t)) |>
  else t.
(** src/src/quic/model/ns3-quic-trace.cc:249-263 [Ns3QuicServerTrace::Close] *)
Definition Trace_Close (t : Ns3QuicServerTrace) : Ns3QuicServerTrace :=
  let t := when (is_open (m_owd t)) (fun t => t <| m_owd := File_close (m_owd t) |>) t in
  let t := when (is_open (m_lost t)) (fun t => t <| m_lost := File_close (m_lost t) |>) t in
  when (is_open (m_goodput t)) (fun t => t <| m_goodput := File_close (m_goodput t) |>) t.
(** src/src/quic/model/ns3-quic-trace.cc:153-158 [Ns3QuicServerTrace::~Ns3QuicServerTrace].  The files it leaves. *)
Definition Trace_destroy (t : Ns3QuicServerTrace) : Ns3QuicServerTrace := Trace_Close (LogLostPackets (LogGoodput t true)).

(** * The dispatcher *)

(** src/src/quic/model/ns3-quic-trace.h:85-91 [Ns3QuicServerTraceDispatcher].  The map is the list of its
    entries in key order; [destroyed] collects the traces it has deleted. *)
Record Ns3QuicServerTraceDispatcher := mkDispatcher {
  m_topoId : string;
  m_e : Z;
  d_readBytes : Z;
  d_firstPacketTime : Z;
  d_receiptTime : Z;
  m_traceDb : list (Ns3QuicAddressPair * Ns3QuicServerTrace);
  f_util : File spec_float;
  destroyed : list (Ns3QuicAddressPair * Ns3QuicServerTrace);
}.
#[export] Instance eta_Dispatcher : Eta Ns3QuicServerTraceDispatcher := MkEta _ (fun d =>
  mkDispatcher (m_topoId d) (m_e d) (d_readBytes d) (d_firstPacketTime d) (d_receiptTime d) (m_traceDb d) (f_util d) (destroyed d)).
Definition Dispatcher_init : Ns3QuicServerTraceDispatcher := mkDispatcher EmptyString 0 0 0 0 [] File_closed [].

(** [std::map::find] and [insert]: the key must be ordered consistently with those present. *)
Definition db_find (db : list (Ns3QuicAddressPair * Ns3QuicServerTrace)) (k : Ns3QuicAddressPair) : result (option Ns3QuicServerTrace) :=
  if forallb (fun e => comparable k e.1) db then
    Ok (snd <$> List.find (fun e => negb (pair_lt e.1 k) && negb (pair_lt k e.1)) db)
  else Fault BadOrder.
Fixpoint db_insert (db : list (Ns3QuicAddressPair * Ns3QuicServerTrace)) k t :=
  match db with
  | [] => [(k, t)]
  | e :: db => if pair_lt e.1 k then e :: db_insert db k t else if pair_lt k e.1 then (k, t) :: e :: db else e :: db
  end.
Definition db_update (db : list (Ns3QuicAddressPair * Ns3QuicServerTrace)) (k : Ns3QuicAddressPair) (f : Ns3QuicServerTrace -> Ns3QuicServerTrace) :=
  map (fun e => if decide (e.1 = k) then (e.1, f e.2) else e) db.

(** src/src/quic/model/ns3-quic-trace.cc:269-278 [Ns3QuicServerTraceDispatcher::Shutdown] *)
Definition Dispatcher_Shutdown (d : Ns3QuicServerTraceDispatcher) : Ns3QuicServerTraceDispatcher :=
  d <| m_traceDb := [] |> <| destroyed := destroyed d ++ map (fun e => (e.1, Trace_destroy e.2)) (m_traceDb d) |>.
(** src/src/quic/model/ns3-quic-trace.cc:279-287 [Ns3QuicServerTraceDispatcher::LogEnable].  The test is a logical and. *)
Definition Dispatcher_LogEnable (d : Ns3QuicServerTraceDispatcher) (topo_id : string) (e : Z) : Ns3QuicServerTraceDispatcher :=
  let d := d <| m_topoId := topo_id |> <| m_e := e |> in
  when (negb (E_QS_UTIL =? 0) && negb (e =? 0)) (fun d => d <| f_util := File_open (f_util d) |>) d.
(** src/src/quic/model/ns3-quic-trace.cc:288-300 [Ns3QuicServerTraceDispatcher::AddMonitorAddressPair] *)
Definition AddMonitorAddressPair (d : Ns3QuicServerTraceDispatcher) (addr_pair : Ns3QuicAddressPair)
    : result (Ns3QuicServerTraceDispatcher * bool) :=
  let* it := db_find (m_traceDb d) addr_pair in
  match it with
  | Some _ => Ok (d, false)
  | None => Ok (d <| m_traceDb := db_insert (m_traceDb d) addr_pair (Ns3QuicServerTrace_init (m_e d)) |>, true)
  end.
(** src/src/quic/model/ns3-quic-trace.cc:301-316 [Ns3QuicServerTraceDispatcher::OnOwd] *)
Definition Dispatcher_OnOwd (d : Ns3QuicServerTraceDispatcher) (now : Z) (c s : InetSocketAddress) (seq owd len : Z)
    : result Ns3QuicServerTraceDispatcher :=
  let d := d <| d_readBytes := i64 (d_readBytes d + len) |> in
  let d := when (d_firstPacketTime d =? 0) (fun d => d <| d_firstPacketTime := now |>) d in
  let d := d <| d_receiptTime := now |> in
  let addr_pair := AddressPair c s in
  let* it := db_find (m_traceDb d) addr_pair in
  match it with
  | Some _ => Ok (d <| m_traceDb := db_update (m_traceDb d) addr_pair (fun t => Trace_OnOwd t now seq owd len) |>)
  | None => Ok d
  end.
(** src/src/quic/model/ns3-quic-trace.cc:318-326 [Ns3QuicServerTraceDispatcher::CalculateUtil] *)
Definition CalculateUtil (d : Ns3QuicServerTraceDispatcher) (channel_bit : Z) : Ns3QuicServerTraceDispatcher :=
  when (is_open (f_util d) && (0 <? channel_bit)) (fun d =>
    let util := f32_of_f64 (f64_div (f64_mul (f64_mul (f64_mul (f64_of_Z 1) (f64_of_Z (d_readBytes d))) (f64_of_Z 8)) (f64_of_Z 100)) (f64_of_Z channel_bit)) in
    d <| f_util := File_close (File_write (f_util d) util) |>) d.

(** * The server application *)

(** src/src/quic/model/ns3-quic-server-app.h:30-37 [QuicServerApp].  [server_running] tells whether the
    implementation has its QUIC server; the packets handed to it and to the socket are kept. *)
Record QuicServerApp := mkServerApp {
  server_running : bool;
  m_socket : bool;
  m_bindIp : Z;
  m_bindPort : Z;
  m_trace : option Ns3QuicServerTraceDispatcher;
  m_running : bool;
  m_seq : Z;
  m_totalTxBytes : Z;
  processed : list (InetSocketAddress * Z);
  sent : list (InetSocketAddress * Ns3QuicTag * Z);
}.
#[export] Instance eta_ServerApp : Eta QuicServerApp := MkEta _ (fun a =>
  mkServerApp (server_running a) (m_socket a) (m_bindIp a) (m_bindPort a) (m_trace a) (m_running a) (m_seq a) (m_totalTxBytes a)
    (processed a) (sent a)).

(** src/src/quic/model/ns3-quic-server-app.cc:113-113 [QuicServerApp::RecvPacket, buffer] *)
Definition recv_buffer_size : Z := 2000.
(** src/src/quic/model/ns3-quic-server-app.cc:93-133 [QuicServerApp::RecvPacket].
    A packet is its sender, its tag and its length; [now] is the simulator's time.  A packet longer than the buffer is copied past its end. *)
Definition RecvPacket (a : QuicServerApp) (now : Z) (peer : InetSocketAddress) (tag : Ns3QuicTag) (length : Z) : result QuicServerApp :=
  if negb (m_running a) then Ok a
  else
    let self := mkInet (m_bindIp a) (m_bindPort a) in
    let a := a <| m_totalTxBytes := m_totalTxBytes a ⊕ length |> in
    if recv_buffer_size <? length then Fault OutOfBounds
    else
      let a := when (server_running a) (fun a => a <| processed := processed a ++ [(peer, length)] |>) a in
      match m_trace a with
      | None => Ok a
      | Some d =>
          let seq := i32 (seq_ tag) in
          let now_ms := Time_GetMilliSeconds now in
          let sent_time := i64 (time_ tag) in
          let owd := if sent_time <=? now_ms then i32 (now_ms - sent_time) else 0 in
          let* d := Dispatcher_OnOwd d now peer self seq owd length in
          Ok (a <| m_trace := Some d |>)
      end.
(** src/src/quic/model/ns3-quic-server-app.cc:135-149 [QuicServerApp::SendToNetwork] *)
Definition Server_SendToNetwork (a : QuicServerApp) (now sz : Z) (dest : InetSocketAddress) : QuicServerApp :=
  if negb (m_socket a) || negb (m_running a) then a
  else
    let tag := mkTag (m_seq a) (u64 (Time_GetMilliSeconds now)) in
    a <| m_seq := m_seq a ⊕ 1 |> <| sent := sent a ++ [(dest, tag, sz)] |>.
(** src/src/quic/model/ns3-quic-server-app.cc:160-172 [QuicServerApp::StopApplication] *)
Definition Server_StopApplication (a : QuicServerApp) : QuicServerApp * option Ns3QuicServerTraceDispatcher :=
  (a <| m_trace := None |> <| server_running := false |> <| m_running := false |>, Dispatcher_Shutdown <$> m_trace a).
End Traces.

(** * Arrivals *)

(** A packet as it reaches the server: when, from whom, with which tag, how long. *)
Record arrival := mkArrival { p_now : Z; p_peer : InetSocketAddress; p_tag : Ns3QuicTag; p_len : Z }.
Definition p_seq (p : arrival) : Z := i32 (seq_ (p_tag p)).
(** The delay the server computes. *)
Definition p_owd (p : arrival) : Z :=
  let now_ms := Time_GetMilliSeconds (p_now p) in
  if i64 (time_ (p_tag p)) <=? now_ms then i32 (now_ms - i64 (time_ (p_tag p))) else 0.
Definition on_arrival (interval : Z) (t : Ns3QuicServerTrace) (p : arrival) : Ns3QuicServerTrace :=
  Trace_OnOwd interval t (p_now p) (p_seq p) (p_owd p) (p_len p).
Definition recv (interval : Z) (a : QuicServerApp) (p : arrival) : result QuicServerApp :=
  RecvPacket interval a (p_now p) (p_peer p) (p_tag p) (p_len p).

(** ** Losses *)

(** The arrivals that are not overtaken: not below any earlier one. *)
Fixpoint in_order (top : Z) (seqs : list Z) : Z :=
  match seqs with
  | [] => 0
  | s :: seqs => if top <=? s then 1 + in_order s seqs else in_order top seqs
  end.
Definition highest (top : Z) (seqs : list Z) : Z := foldl Z.max top seqs.

Lemma LogGoodput_frame I t b : let t' := LogGoodput I t b in
  m_lastSeq t' = m_lastSeq t /\ m_largestSeq t' = m_largestSeq t /\ m_lostPackets t' = m_lostPackets t /\ m_lost t' = m_lost t.
Proof. unfold LogGoodput. cbv zeta. repeat case_match; done. Qed.
Lemma trace_delay_frame I t now seq owd len : let t' := trace_delay I t now seq owd len in
  m_lastSeq t' = m_lastSeq t /\ m_largestSeq t' = m_largestSeq t /\ m_lostPackets t' = m_lostPackets t /\ m_lost t' = m_lost t.
Proof.
  unfold trace_delay. cbv zeta. destruct (_ || _); [|done].
  match goal with |- context [LogGoodput I ?x false] => destruct (LogGoodput_frame I x false) as (-> & -> & -> & ->) end.
  unfold when. repeat case_match; done.
Qed.

(** The log of losses is open, its counters in range. *)
Definition losing (t : Ns3QuicServerTrace) (n : nat) : Prop :=
  is_open (m_lost t) = true /\ 0 <= m_lastSeq t < two31 /\ m_largestSeq t = m_lastSeq t /\
  - two31 <= m_lostPackets t - Z.of_nat n /\ m_lostPackets t <= m_lastSeq t.
Lemma losing_step I t p n : losing t (S n) -> 0 <= p_seq p ->
  let t' := on_arrival I t p in
  losing t' n /\ m_lost t' = m_lost t /\ m_lastSeq t' = Z.max (m_lastSeq t) (p_seq p) /\
  m_lostPackets t' = m_lostPackets t + (Z.max (m_lastSeq t) (p_seq p) - m_lastSeq t) - (if m_lastSeq t <=? p_seq p then 1 else 0).
Proof.
  unfold losing. intros (Ho & Hl & Hm & Hlo & Hhi) Hp. pose proof (i32_range (seq_ (p_tag p))) as Hp'. fold (p_seq p) in Hp'.
  unfold on_arrival, Trace_OnOwd. destruct (trace_delay_frame I t (p_now p) (p_seq p) (p_owd p) (p_len p)) as (E1 & E2 & E3 & E4).
  set (u := trace_delay I t (p_now p) (p_seq p) (p_owd p) (p_len p)) in *. clearbody u. rewrite <- E1, <- E2, <- E3, <- E4 in *. clear E1 E2 E3 E4 t.
  unfold trace_loss, when. rewrite Ho. wrap_small.
  zcases; cbn; rewrite ?Hm; zcases; cbn; wrap_small; split_and!; first [done | lia | cbn in *; lia].
Qed.
Lemma losses_fold I l : forall t, losing t (length l) -> Forall (fun p => 0 <= p_seq p) l ->
  let t' := foldl (on_arrival I) t l in
  let top := highest (m_lastSeq t) (map p_seq l) in
  losing t' 0 /\ m_lost t' = m_lost t /\ m_lastSeq t' = top /\
  m_lostPackets t' = m_lostPackets t + (top - m_lastSeq t) - in_order (m_lastSeq t) (map p_seq l).
Proof.
  induction l as [|p l IH]; intros t Ht Hs; [cbn; split_and!; done || lia|].
  apply Forall_cons in Hs as [Hp Hs]. destruct (losing_step I t p (length l) Ht Hp) as (H1 & H2 & H3 & H4).
  destruct (IH _ H1 Hs) as (H5 & H6 & H7 & H8). cbn [foldl map highest in_order].
  unfold highest in *. cbn [foldl]. rewrite H3 in H7, H8. cbv zeta. rewrite H7, H8, H6, H2, H4. split; [exact H5|].
  split_and!; [done|done|]. zcases; rewrite ?Z.max_r, ?Z.max_l by lia; lia.
Qed.

Lemma last_cons_default {A} (l : list A) : forall x d, List.last (x :: l) d = List.last l x.
Proof. induction l as [|y l IH]; intros x d; [done|]. change (List.last (x :: y :: l) d) with (List.last (y :: l) d). by rewrite !IH. Qed.
(** Without overtaking every arrival is in order and the last is the highest. *)
Lemma sorted_in_order seqs : forall top, Sorted Z.lt (top :: seqs) ->
  in_order top seqs = Z.of_nat (length seqs) /\ highest top seqs = List.last seqs top.
Proof.
  induction seqs as [|s l IH]; intros top Hs; [done|]. apply Sorted_inv in Hs as [Hs Hh]. apply HdRel_inv in Hh.
  destruct (IH s Hs) as [E1 E2]. cbn [in_order length]. destruct (Z.leb_spec top s); [|lia]. split; [lia|].
  unfold highest in *. cbn [foldl]. rewrite Z.max_r, E2 by lia. by rewrite last_cons_default.
Qed.

(** The sequence numbers a client gives, and what a network that drops but never
    reorders leaves of them. *)
Lemma tagged_length q l : length (tagged q l) = length l.
Proof. revert q. induction l as [|o l IH]; intros q; cbn; [done|]. by rewrite IH. Qed.
Lemma tagged_sublist l : forall q (ds : list (Ns3QuicTag * Z)), sublist ds (tagged q l) ->
  Sorted Z.lt (q - 1 :: map (fun d => seq_ d.1) ds) /\ Forall (fun d => q <= seq_ d.1 < q + Z.of_nat (length l)) ds.
Proof.
  induction l as [|o l IH]; intros q ds Hs; cbn [tagged] in Hs.
  - apply sublist_nil_r in Hs as ->. split; [repeat constructor|done].
  - apply sublist_cons_r in Hs as [Hs|(ds' & -> & Hs)]; destruct (IH _ _ Hs) as [H1 H2]; cbn [length map].
    + split; [|eapply Forall_impl; [exact H2|]; cbn; intros; lia]. apply Sorted_inv in H1 as [H1 H3].
      constructor; [done|]. destruct ds; cbn in *; constructor. apply HdRel_inv in H3. lia.
    + split; [constructor; [by replace q with (q + 1 - 1) by lia|constructor; cbn; lia]|].
      constructor; [cbn; lia|]. eapply Forall_impl; [exact H2|]; cbn; intros; lia.
Qed.

(** Counting what is missing. *)
Lemma missing_count n (qs : list Z) : 0 <= n -> NoDup qs -> Forall (fun q => 1 <= q <= n) qs ->
  Z.of_nat (length (filter (fun q => q ∉ qs) (seqZ 1 n))) = n - Z.of_nat (length qs).
Proof.
  intros Hn Hd Hr. pose proof (filter_app_complement (fun q => q ∈ qs) (seqZ 1 n)) as HP.
  apply Permutation_length in HP. rewrite length_app, length_seqZ in HP.
  assert (E : filter (fun q => q ∈ qs) (seqZ 1 n) ≡ₚ qs).
  { apply NoDup_Permutation; [apply NoDup_filter, NoDup_seqZ|done|]. intros x. rewrite list_elem_of_filter, elem_of_seqZ.
    rewrite Forall_forall in Hr. split; [tauto|]. intros Hx. specialize (Hr x Hx). split; [done|lia]. }
  rewrite (Permutation_length E) in HP. lia.
Qed.
Lemma sorted_range qs : forall top, Sorted Z.lt (top :: qs) ->
  NoDup qs /\ Forall (fun q => top < q <= List.last qs top) qs /\ top <= List.last qs top.
Proof.
  induction qs as [|q qs IH]; intros top Hs; [repeat split; [constructor|constructor|cbn; lia]|].
  apply Sorted_inv in Hs as [Hs Hh]. apply HdRel_inv in Hh. destruct (IH q Hs) as (H1 & H2 & H3). rewrite last_cons_default.
  split; [constructor; [|done]|split; [constructor; [lia|]|lia]].
  - intros Hin. rewrite Forall_forall in H2. specialize (H2 q Hin). lia.
  - eapply Forall_impl; [exact H2|]. cbn. intros. lia.
Qed.

Lemma Trace_destroy_lost I t : is_open (m_lost t) = true -> failed (m_lost t) = false ->
  lines (m_lost (Trace_destroy I t)) = lines (m_lost t) ++ [(m_lostPackets t, m_largestSeq t, loss_ratio (m_lostPackets t) (m_largestSeq t))].
Proof.
  intros Ho Hf. unfold Trace_destroy, LogLostPackets, Trace_Close. destruct (LogGoodput_frame I t true) as (_ & E2 & E3 & E4).
  rewrite E4, Ho, E2, E3. set (u := LogGoodput I t true) in *. clearbody u. unfold when, File_write.
  destruct u; cbn in *; subst; rewrite Hf; repeat (case_match; cbn); done.
Qed.
Lemma init_losing e n : Z.land e E_QS_LOST <> 0 -> Z.of_nat n < two31 ->
  let t := Ns3QuicServerTrace_init e in
  losing t n /\ m_lost t = mkFile true false [] /\ m_lastSeq t = 0 /\ m_lostPackets t = 0.
Proof.
  intros He Hn. unfold losing, Ns3QuicServerTrace_init, when. destruct (Z.eqb_spec (Z.land e E_QS_LOST) 0); [done|].
  destruct (Z.land e E_QS_OWD =? 0), (Z.land e E_QS_GOODPUT =? 0); cbn; split_and!; done || lia.
Qed.

(** C36. Losses from one end to the other: when the network drops packets of a
    client but neither reorders nor duplicates them, the server's count of lost
    packets is the number of sequence numbers, up to the highest received, that never
    arrived; if the last packet arrived it is the number of packets dropped;
    and the one line of the log written when the trace ends holds it. *)
Theorem server_counts_losses I e l ps :
  Z.land e E_QS_LOST <> 0 -> Z.of_nat (length l) < two31 ->
  sublist (map (fun p => (p_tag p, p_len p)) ps) (tagged 1 l) ->
  let t := foldl (on_arrival I) (Ns3QuicServerTrace_init e) ps in
  m_largestSeq t = List.last (map p_seq ps) 0 /\
  m_lostPackets t = Z.of_nat (length (filter (fun q => q ∉ map p_seq ps) (seqZ 1 (m_largestSeq t)))) /\
  (m_largestSeq t = Z.of_nat (length l) -> m_lostPackets t = Z.of_nat (length l) - Z.of_nat (length ps)) /\
  lines (m_lost (Trace_destroy I t)) = [(m_lostPackets t, m_largestSeq t, loss_ratio (m_lostPackets t) (m_largestSeq t))].
Proof.
  intros He Hl Hs t. pose proof (sublist_length _ _ Hs) as Hlen. destruct (tagged_sublist _ _ _ Hs) as [Hsort Hr].
  rewrite length_map, tagged_length in Hlen. rewrite List.map_map in Hsort. rewrite Forall_map in Hr. cbn [fst] in Hsort, Hr.
  assert (E : map (fun p => seq_ (p_tag p)) ps = map p_seq ps).
  { apply map_ext_in. intros p Hp. rewrite Forall_forall in Hr. specialize (Hr p ltac:(by apply list_elem_of_In)). cbn in Hr. unfold p_seq. wrap_small. done. }
  rewrite E in Hsort. destruct (sorted_range _ _ Hsort) as (Hd & Hq & Hz). destruct (sorted_in_order _ _ Hsort) as [E1 E2].
  destruct (init_losing e (length ps) He ltac:(lia)) as (L1 & L2 & L3 & L4).
  destruct (losses_fold I ps _ L1) as ((O1 & O2 & O3 & _) & F & E3 & E4).
  { rewrite <- (Forall_map p_seq (fun s => 0 <= s)). eapply Forall_impl; [exact Hq|]. cbn. lia. }
  fold t in O1, O2, O3, F, E3, E4. rewrite L3 in E3, E4. rewrite L4 in E4. change (1 - 1) with 0 in *. rewrite E2 in E3, E4. rewrite E1, length_map in E4.
  rewrite O3, E3, E4. split; [done|]. rewrite missing_count, length_map; [|lia|done|eapply Forall_impl; [exact Hq|]; cbn; lia].
  split; [lia|]. split; [lia|]. rewrite Trace_destroy_lost by (by rewrite F, L2). by rewrite F, L2, O3, E3, E4.
Qed.

(** A packet delivered twice is counted as one packet found: the count falls below zero. *)
Lemma duplicate_counts_negative I peer :
  let p := mkArrival 5000000 peer (mkTag 1 4) 1200 in
  m_lostPackets (foldl (on_arrival I) (Ns3QuicServerTrace_init E_QS_LOST) [p; p]) = -1.
Proof. reflexivity. Qed.
(** A packet that is overtaken is counted as lost although it arrives. *)
Lemma reordered_counts_lost I peer :
  let p q := mkArrival 5000000 peer (mkTag q 4) 1200 in
  m_lostPackets (foldl (on_arrival I) (Ns3QuicServerTrace_init E_QS_LOST) [p 2; p 1]) = 1.
Proof. reflexivity. Qed.

(** ** Flows *)

Definition db_get (db : list (Ns3QuicAddressPair * Ns3QuicServerTrace)) (k : Ns3QuicAddressPair) : option Ns3QuicServerTrace :=
  snd <$> List.find (fun e => bool_decide (e.1 = k)) db.

Lemma comparable_equal k k' : comparable k k' = true -> negb (pair_lt k' k) && negb (pair_lt k k') = bool_decide (k' = k).
Proof.
  intros Hc. destruct (bool_decide_reflect (k' = k)) as [->|Hn].
  - assert (E : pair_lt k k = false) by (apply pair_lt_false; lia). by rewrite E.
  - destruct (pair_lt k' k) eqn:E1, (pair_lt k k') eqn:E2; try done. by destruct Hn; apply pair_lt_equiv.
Qed.
Lemma db_find_get db k : Forall (fun e => comparable k e.1 = true) db -> db_find db k = Ok (db_get db k).
Proof.
  intros Hc. unfold db_find. assert (E : forallb (fun e => comparable k e.1) db = true).
  { apply forallb_forall. intros e He%list_elem_of_In. rewrite Forall_forall in Hc. by apply Hc. }
  rewrite E. f_equal. clear E. unfold db_get. f_equal. induction db as [|e db IH]; [done|]. apply Forall_cons in Hc as [He Hc]. cbn [List.find].
  rewrite (comparable_equal _ _ He). destruct (bool_decide _); [done|]. by apply IH.
Qed.
Lemma db_get_insert db k t k' : db_get db k = None ->
  db_get (db_insert db k t) k' = if decide (k' = k) then Some t else db_get db k'.
Proof.
  unfold db_get. induction db as [|e db IH]; cbn [db_insert List.find fst].
  - intros _. destruct (bool_decide_reflect (k = k')), (decide (k' = k)); cbn; congruence || done.
  - intros Hn. destruct (bool_decide_reflect (e.1 = k)) as [->|He]; [done|]. specialize (IH Hn).
    destruct (pair_lt e.1 k) eqn:E1; [|destruct (pair_lt k e.1) eqn:E2]; [|clear IH|by destruct He; apply pair_lt_equiv]; cbn [List.find fst].
    + destruct (bool_decide_reflect (e.1 = k')) as [<-|]; [|done]. destruct (decide (e.1 = k)); done.
    + destruct (bool_decide_reflect (k = k')) as [Ek|], (decide (k' = k)); congruence || done.
Qed.
Lemma db_insert_keys db k t : db_get db k = None -> forall k', k' ∈ (db_insert db k t).*1 <-> k' = k \/ k' ∈ db.*1.
Proof.
  unfold db_get. induction db as [|e db IH]; cbn [db_insert List.find]; intros Hn k'.
  - cbn. rewrite list_elem_of_singleton, elem_of_nil. tauto.
  - destruct (bool_decide_reflect (e.1 = k)) as [->|He]; [done|]. specialize (IH Hn k').
    destruct (pair_lt e.1 k) eqn:E1; [|destruct (pair_lt k e.1) eqn:E2]; [|clear IH|by destruct He; apply pair_lt_equiv];
      rewrite ?fmap_cons, ?elem_of_cons in *; cbn [fst]; tauto.
Qed.
Lemma db_update_keys db k f : (db_update db k f).*1 = db.*1.
Proof. unfold db_update. induction db as [|e db IH]; [done|]. cbn. rewrite IH. by destruct (decide (e.1 = k)). Qed.
Lemma db_get_update db k f k' : db_get (db_update db k f) k' = if decide (k' = k) then f <$> db_get db k' else db_get db k'.
Proof.
  unfold db_get, db_update. induction db as [|e db IH]; cbn [map List.find]; [by destruct (decide (k' = k))|].
  destruct (decide (e.1 = k)) as [Ek|Ek]; cbn [fst]; destruct (bool_decide_reflect (e.1 = k')) as [Ek'|Ek']; [|done| |done].
  - rewrite decide_True by congruence. done.
  - by rewrite decide_False by congruence.
Qed.
Lemma Forall_keys (P : Ns3QuicAddressPair -> Prop) (db : list (Ns3QuicAddressPair * Ns3QuicServerTrace)) :
  (forall k, k ∈ db.*1 -> P k) -> Forall (fun e => P e.1) db.
Proof. intros H. apply Forall_forall. intros e He. apply H. by apply list_elem_of_fmap_2. Qed.
Lemma db_get_key db k t : db_get db k = Some t -> k ∈ db.*1.
Proof.
  unfold db_get. induction db as [|e db IH]; cbn; [done|]. destruct (bool_decide_reflect (e.1 = k)) as [<-|]; [by left|].
  intros. right. by apply IH.
Qed.
#[local] Arguments db_get : simpl never.
#[local] Arguments db_update : simpl never.

(** The flow a packet belongs to, for a server bound to [self]. *)
Definition flow (self : InetSocketAddress) (p : arrival) : Ns3QuicAddressPair := AddressPair (p_peer p) self.
Definition self_of (a : QuicServerApp) : InetSocketAddress := mkInet (m_bindIp a) (m_bindPort a).
Definition of_flow (self : InetSocketAddress) (k : Ns3QuicAddressPair) (ps : list arrival) : list arrival :=
  filter (fun p => flow self p = k) ps.
Definition comparable_keys (db : list (Ns3QuicAddressPair * Ns3QuicServerTrace)) (k : Ns3QuicAddressPair) : Prop :=
  forall k', k' ∈ db.*1 -> comparable k k' = true.

Lemma recv_step I a d p : m_running a = true -> m_trace a = Some d -> p_len p <= recv_buffer_size ->
  comparable_keys (m_traceDb d) (flow (self_of a) p) ->
  exists a' d', recv I a p = Ok a' /\ m_trace a' = Some d' /\ m_running a' = true /\ self_of a' = self_of a /\
    server_running a' = server_running a /\ (m_traceDb d').*1 = (m_traceDb d).*1 /\
    processed a' = processed a ++ (if server_running a then [(p_peer p, p_len p)] else []) /\
    forall k, db_get (m_traceDb d') k =
      if decide (flow (self_of a) p = k) then (fun t => on_arrival I t p) <$> db_get (m_traceDb d) k else db_get (m_traceDb d) k.
Proof.
  intros Hr Ht Hl Hc. unfold recv, RecvPacket. rewrite Hr. cbn [negb]. destruct (Z.ltb_spec recv_buffer_size (p_len p)) as [?|_]; [lia|].
  unfold when. set (a1 := if server_running _ then _ else _).
  assert (F : m_trace a1 = Some d /\ m_running a1 = true /\ self_of a1 = self_of a /\ server_running a1 = server_running a /\
    processed a1 = processed a ++ (if server_running a then [(p_peer p, p_len p)] else [])).
  { subst a1. destruct a as [sr ? ? ? ? ? ? ? ? ?]. cbn in *. subst. destruct sr; cbn; rewrite ?app_nil_r; done. }
  clearbody a1. destruct F as (F1 & F2 & F3 & F4 & F5). rewrite F1. unfold Dispatcher_OnOwd.
  cbv zeta. match goal with |- context [m_traceDb ?x] => set (d1 := x) end.
  assert (G : m_traceDb d1 = m_traceDb d) by (subst d1; unfold when; destruct (_ =? _); done). clearbody d1.
  change (AddressPair (p_peer p) (mkInet (m_bindIp a) (m_bindPort a))) with (flow (self_of a) p).
  rewrite G, db_find_get by (by apply (Forall_keys (fun k => comparable _ k = true))). cbn [rbind]. destruct (db_get (m_traceDb d) (flow (self_of a) p)) as [t|] eqn:Eg; cbn [rbind].
  - eexists _, _. split; [reflexivity|]. split; [reflexivity|]. cbn. rewrite db_update_keys. split_and!; try done.
    intros k. rewrite db_get_update. destruct (decide (flow (self_of a) p = k)) as [<-|Hk]; [by rewrite decide_True|]. by rewrite decide_False by congruence.
  - eexists _, _. split; [reflexivity|]. split; [reflexivity|]. cbn. rewrite G. split_and!; try done.
    intros k. destruct (decide (flow (self_of a) p = k)) as [<-|Hk]; [by rewrite Eg|done].
Qed.
(** A packet longer than the server's buffer overruns it. *)
Lemma recv_overruns I a p : m_running a = true -> recv_buffer_size < p_len p -> recv I a p = Fault OutOfBounds.
Proof. intros Hr Hl. unfold recv, RecvPacket. rewrite Hr. cbn [negb]. destruct (Z.ltb_spec recv_buffer_size (p_len p)); [done|lia]. Qed.

Lemma recv_fold I ps : forall a d, m_running a = true -> m_trace a = Some d ->
  Forall (fun p => p_len p <= recv_buffer_size /\ comparable_keys (m_traceDb d) (flow (self_of a) p)) ps ->
  exists a' d', rfold (recv I) ps a = Ok a' /\ m_trace a' = Some d' /\ m_running a' = true /\
    processed a' = processed a ++ (if server_running a then map (fun p => (p_peer p, p_len p)) ps else []) /\
    forall k, db_get (m_traceDb d') k = (fun t => foldl (on_arrival I) t (of_flow (self_of a) k ps)) <$> db_get (m_traceDb d) k.
Proof.
  induction ps as [|p ps IH]; intros a d Hr Ht Hps.
  - exists a, d. cbn. split_and!; try done; [by destruct (server_running a); rewrite app_nil_r|]. intros k. by destruct (db_get _ k).
  - apply Forall_cons in Hps as [[Hp1 Hp2] Hps].
    destruct (recv_step I a d p Hr Ht Hp1 Hp2) as (a1 & d1 & E1 & T1 & R1 & S1 & V1 & K1 & P1 & G1).
    destruct (IH a1 d1 R1 T1) as (a2 & d2 & E2 & T2 & R2 & P2 & G2).
    { rewrite S1. eapply Forall_impl; [exact Hps|]. cbn. intros q [Hq1 Hq2]. split; [done|]. unfold comparable_keys. by rewrite K1. }
    exists a2, d2. cbn [rfold]. rewrite E1. cbn [rbind]. split_and!; [done|done|done| |].
    + rewrite P2, P1, V1, <- app_assoc. by destruct (server_running a).
    + intros k. rewrite G2, G1, S1. unfold of_flow. rewrite filter_cons. destruct (decide (flow (self_of a) p = k)); [|done].
      by destruct (db_get (m_traceDb d) k).
Qed.

Definition add_pair (d : Ns3QuicServerTraceDispatcher) (k : Ns3QuicAddressPair) : result Ns3QuicServerTraceDispatcher :=
  let* r := AddMonitorAddressPair d k in Ok r.1.
Lemma monitor_fold ks : forall d,
  (forall k k', k ∈ ks -> k' ∈ ks \/ k' ∈ (m_traceDb d).*1 -> comparable k k' = true) ->
  exists d', rfold add_pair ks d = Ok d' /\ (forall k, k ∈ (m_traceDb d').*1 <-> k ∈ ks \/ k ∈ (m_traceDb d).*1) /\
    forall k, db_get (m_traceDb d') k = match db_get (m_traceDb d) k with
      | Some t => Some t | None => if decide (k ∈ ks) then Some (Ns3QuicServerTrace_init (m_e d)) else None end.
Proof.
  induction ks as [|k ks IH]; intros d Hc.
  - exists d. split_and!; [done|intros k; rewrite elem_of_nil; tauto|]. intros k. destruct (db_get _ k); [done|].
    by rewrite decide_False by apply not_elem_of_nil.
  - cbn [rfold]. unfold add_pair at 1, AddMonitorAddressPair. rewrite db_find_get.
    2: { apply (Forall_keys (fun k' => comparable k k' = true)). intros k' Hk'. apply Hc; [left|by right]. }
    cbn [rbind]. destruct (db_get (m_traceDb d) k) as [t|] eqn:Eg; cbn [rbind fst].
    + destruct (IH d) as (d' & E & K & G). { intros k1 k2 H1 H2. apply Hc; rewrite ?elem_of_cons; tauto. }
      exists d'. split; [done|]. split.
      * intros k'. rewrite K, elem_of_cons. split; [tauto|]. intros [[->|?]|?]; try tauto. right. by apply (db_get_key _ _ t).
      * intros k'. rewrite G. destruct (db_get (m_traceDb d) k') eqn:E'; [done|]. apply decide_ext.
        rewrite elem_of_cons. split; [tauto|]. intros [->|?]; [congruence|done].
    + set (d1 := d <| m_traceDb := _ |>). assert (D : m_traceDb d1 = db_insert (m_traceDb d) k (Ns3QuicServerTrace_init (m_e d)) /\ m_e d1 = m_e d) by done.
      destruct D as [D1 D2]. clearbody d1. pose proof (db_insert_keys (m_traceDb d) k (Ns3QuicServerTrace_init (m_e d)) Eg) as HK.
      destruct (IH d1) as (d' & E & K & G).
      { intros k1 k2 H1 H2. rewrite D1, HK in H2. apply Hc; rewrite ?elem_of_cons; tauto. }
      exists d'. split; [done|]. split.
      * intros k'. rewrite K, D1, HK, elem_of_cons. tauto.
      * intros k'. rewrite G, D1, D2, db_get_insert by done. destruct (decide (k' = k)) as [->|Hk].
        -- rewrite Eg, decide_True by (by left). done.
        -- destruct (db_get (m_traceDb d) k'); [done|]. apply decide_ext. rewrite elem_of_cons. tauto.
Qed.

(** C37. Every flow has its own log: after a server has been told which flows to
    monitor and has received any packets that fit its buffer, every packet has been
    handed to the QUIC server in order, the trace of a monitored flow is what
    its own packets alone make of an empty one, and no other flow has a
    trace -- provided the table's order can tell the flows apart.  A packet too
    long for the buffer ends the program there: the receive call overruns it. *)
Theorem traces_demultiplexed I a topo e ks ps :
  let d0 := Dispatcher_LogEnable Dispatcher_init topo e in
  m_running a = true -> server_running a = true ->
  Forall (fun p => p_len p <= recv_buffer_size) ps ->
  (forall k k', k ∈ ks ++ map (flow (self_of a)) ps -> k' ∈ ks -> comparable k k' = true) ->
  exists d a' d', rfold add_pair ks d0 = Ok d /\
    rfold (recv I) ps (a <| m_trace := Some d |>) = Ok a' /\ m_trace a' = Some d' /\
    (forall p, recv_buffer_size < p_len p -> recv I a' p = Fault OutOfBounds) /\
    processed a' = processed a ++ map (fun p => (p_peer p, p_len p)) ps /\
    forall k, db_get (m_traceDb d') k =
      if decide (k ∈ ks) then Some (foldl (on_arrival I) (Ns3QuicServerTrace_init e) (of_flow (self_of a) k ps)) else None.
Proof.
  intros d0 Hr Hs Hl Hc. assert (D : m_traceDb d0 = [] /\ m_e d0 = e).
  { subst d0. unfold Dispatcher_LogEnable, when. by destruct (_ && _). }
  destruct D as [D1 D2]. clearbody d0.
  destruct (monitor_fold ks d0) as (d & E & K & G).
  { intros k k' Hk [Hk'|Hk']; [apply Hc; [apply elem_of_app; by left|done]|]. rewrite D1 in Hk'. by apply elem_of_nil in Hk'. }
  destruct (recv_fold I ps (a <| m_trace := Some d |>) d) as (a' & d' & E' & T' & R' & P' & G'); [done|done| |].
  { apply Forall_forall. intros p Hp. rewrite Forall_forall in Hl. split; [by apply Hl|]. intros k' Hk'. rewrite K, D1 in Hk'.
    apply Hc; [|destruct Hk' as [?|Hk']; [done|by apply elem_of_nil in Hk']]. apply elem_of_app. right. by apply (list_elem_of_fmap_2 (flow (self_of a))). }
  exists d, a', d'. split_and!; [done|done|done|intros p; by apply recv_overruns| |].
  - rewrite P'. cbn. by rewrite Hs.
  - intros k. rewrite G', G, D1, D2. cbn. by destruct (decide (k ∈ ks)).
Qed.

(** ** Goodput *)

(** A stretch of time and the bytes that arrived in it. *)
Record window := mkWindow { w_from : Z; w_to : Z; w_bytes : Z }.
Definition window_line (w : window) : Z * spec_float :=
  (w_to w, goodput_kbps (w_bytes w) (Time_GetMilliSeconds (w_to w - w_from w))).
(** Each window begins where the one before it ended. *)
Fixpoint adjacent (from : Z) (ws : list window) : Prop :=
  match ws with [] => True | w :: ws => w_from w = from /\ adjacent (w_to w) ws end.
Definition sum_bytes (ws : list window) : Z := foldr (fun w n => w_bytes w + n) 0 ws.
Definition sum_len (ps : list arrival) : Z := foldr (fun p n => p_len p + n) 0 ps.
Definition last_to (from : Z) (ws : list window) : Z := List.last (map w_to ws) from.

(** The windows that arrivals close: the first that comes an interval or more
    after the previous one.  The last component is what has arrived since. *)
Fixpoint windows (I from bytes : Z) (ps : list arrival) : list window * Z :=
  match ps with
  | [] => ([], bytes)
  | p :: ps =>
      if from + I <=? p_now p then
        let r := windows I (p_now p) 0 ps in (mkWindow from (p_now p) (bytes + p_len p) :: r.1, r.2)
      else windows I from (bytes + p_len p) ps
  end.
Lemma windows_spec I ps : forall from bytes, let r := windows I from bytes ps in
  adjacent from r.1 /\ Forall (fun w => I <= w_to w - w_from w) r.1 /\ sum_bytes r.1 + r.2 = bytes + sum_len ps.
Proof.
  induction ps as [|p ps IH]; intros from bytes; cbn [windows sum_len foldr]; [cbn; split_and!; done || lia|].
  destruct (Z.leb_spec (from + I) (p_now p)).
  - destruct (IH (p_now p) 0) as (H1 & H2 & H3). unfold sum_len in H3. cbn. split_and!; [done|done|constructor; [cbn; lia|done]|].
    unfold sum_bytes in *. lia.
  - destruct (IH from (bytes + p_len p)) as (H1 & H2 & H3). unfold sum_len in *. split_and!; try done. lia.
Qed.
Lemma adjacent_app ws : forall from w, adjacent from ws -> w_from w = last_to from ws -> adjacent from (ws ++ [w]).
Proof.
  induction ws as [|v ws IH]; intros from w; cbn [adjacent app]; [done|]. intros [H1 H2] E. split; [done|]. apply IH; [done|].
  rewrite E. unfold last_to. cbn [map]. apply last_cons_default.
Qed.
Lemma sum_bytes_app ws v : sum_bytes (ws ++ [v]) = sum_bytes ws + w_bytes v.
Proof. induction ws as [|w ws IH]; cbn; [lia|]. unfold sum_bytes in IH. lia. Qed.
Lemma last_to_cons from w ws : last_to from (w :: ws) = last_to (w_to w) ws.
Proof. unfold last_to. cbn [map]. apply last_cons_default. Qed.

(** What the simulator and the network give: times after the start of the simulation, packets of
    at most the buffer's size. *)
Definition timely (p : arrival) : Prop := 0 < p_now p < 2 ^ 62 /\ 0 <= p_len p <= recv_buffer_size.
Lemma sum_len_bound ps : Forall timely ps -> 0 <= sum_len ps <= recv_buffer_size * Z.of_nat (length ps).
Proof. induction 1 as [|p ps [_ Hp] _ IH]; cbn [sum_len foldr length]; [lia|]. fold (sum_len ps). unfold recv_buffer_size in *. lia. Qed.
Lemma last_timely p ps : Forall timely (p :: ps) -> 0 < List.last (map p_now ps) (p_now p) < 2 ^ 62.
Proof.
  revert p. induction ps as [|q ps IH]; intros p Hp; apply Forall_cons in Hp as [Hp Hps]; [apply Hp|].
  cbn [map]. rewrite last_cons_default. by apply IH.
Qed.
(** Both logs are open and [n] bytes have arrived since the last line. *)
Definition measuring (t : Ns3QuicServerTrace) (n : Z) : Prop :=
  is_open (m_owd t) = true /\ is_open (m_goodput t) = true /\ failed (m_goodput t) = false /\ m_firstPacketTime t <> 0 /\
  0 < m_lastRateTime t < 2 ^ 62 /\ 0 <= m_lastRateBytes t /\ m_readBytes t = m_lastRateBytes t + n /\ 0 <= n.

Lemma trace_loss_frame t seq : let t' := trace_loss t seq in
  m_owd t' = m_owd t /\ m_goodput t' = m_goodput t /\ m_firstPacketTime t' = m_firstPacketTime t /\ m_lastRateTime t' = m_lastRateTime t /\
  m_lastRateBytes t' = m_lastRateBytes t /\ m_readBytes t' = m_readBytes t /\ m_receiptTime t' = m_receiptTime t.
Proof. unfold trace_loss, when. cbv zeta. repeat case_match; done. Qed.
Lemma measuring_step I t n p : measuring t n -> timely p -> 0 < I < 2 ^ 62 -> m_readBytes t + recv_buffer_size < two63 ->
  let t' := on_arrival I t p in let w := mkWindow (m_lastRateTime t) (p_now p) (n + p_len p) in
  m_receiptTime t' = p_now p /\ m_readBytes t' = m_readBytes t + p_len p /\
  if m_lastRateTime t + I <=? p_now p
  then measuring t' 0 /\ m_lastRateTime t' = p_now p /\ lines (m_goodput t') = lines (m_goodput t) ++ [window_line w]
  else measuring t' (n + p_len p) /\ m_lastRateTime t' = m_lastRateTime t /\ m_goodput t' = m_goodput t.
Proof.
  intros (M1 & M2 & M3 & M4 & M5 & M6 & M7 & M8) [P1 P2] HI HB. unfold recv_buffer_size in *. rewrite M7 in HB. change (2 ^ 62) with 4611686018427387904 in *.
  unfold on_arrival, Trace_OnOwd.
  destruct (trace_loss_frame (trace_delay I t (p_now p) (p_seq p) (p_owd p) (p_len p)) (p_seq p)) as (L1 & L2 & L3 & L4 & L5 & L6 & L7). unfold measuring.
  cbv zeta. rewrite L1, L2, L3, L4, L5, L6, L7. clear L1 L2 L3 L4 L5 L6 L7. destruct t as [ls lg lp rb rt rd fp rc ow lo gp]. cbn in M1, M2, M3, M4, M5, M6, M7, HB |-. subst rd.
  apply Z.eqb_neq in M4 as Ef. unfold trace_delay, when, LogGoodput. cbn. rewrite M1, Ef. cbn. rewrite M1. cbn. rewrite M2. wrap_small.
  replace (rb + n + p_len p - rb) with (n + p_len p) by lia. destruct (Z.leb_spec (rt + I) (p_now p)); cbn.
  - unfold File_write. rewrite M3. cbn. split_and!; try done; try lia. by destruct ow as [? []].
  - unfold File_write. split_and!; try done; try lia. by destruct ow as [? []].
Qed.
Lemma measuring_fold I ps : 0 < I < 2 ^ 62 -> forall t n, measuring t n -> Forall timely ps ->
  m_readBytes t + recv_buffer_size * Z.of_nat (length ps) < two63 ->
  let t' := foldl (on_arrival I) t ps in let r := windows I (m_lastRateTime t) n ps in
  measuring t' r.2 /\ m_lastRateTime t' = last_to (m_lastRateTime t) r.1 /\
  lines (m_goodput t') = lines (m_goodput t) ++ map window_line r.1 /\ m_receiptTime t' = List.last (map p_now ps) (m_receiptTime t) /\
  m_readBytes t' = m_readBytes t + sum_len ps.
Proof.
  intros HI. unfold recv_buffer_size. induction ps as [|p ps IH]; intros t n Hm Hp HB; [cbn; rewrite app_nil_r, Z.add_0_r; done|].
  apply Forall_cons in Hp as [Hp Hps]. cbn [length] in HB. pose proof (measuring_step I t n p Hm Hp HI ltac:(unfold recv_buffer_size; lia)) as (S1 & S2 & S3).
  pose proof Hp as [_ Hp2]. unfold recv_buffer_size in Hp2. cbn [foldl windows map sum_len foldr]. fold (sum_len ps). rewrite last_cons_default.
  destruct (m_lastRateTime t + I <=? p_now p).
  - destruct S3 as (M & T & L). destruct (IH _ 0 M Hps) as (I1 & I2 & I3 & I4 & I5); [lia|]. rewrite T in *. cbn [fst snd]. cbv zeta.
    rewrite I2, I3, I4, I5, L, S1, S2, last_to_cons, <- app_assoc, Z.add_assoc. done.
  - destruct S3 as (M & T & L). destruct (IH _ _ M Hps) as (I1 & I2 & I3 & I4 & I5); [lia|]. rewrite T in *. cbv zeta. rewrite I2, I3, I4, I5, L, S1, S2, Z.add_assoc. done.
Qed.

(** The line written when the trace ends. *)
Lemma Trace_destroy_goodput I t n : measuring t n -> 0 <= m_receiptTime t < 2 ^ 62 -> m_readBytes t < two63 ->
  lines (m_goodput (Trace_destroy I t)) = lines (m_goodput t) ++
    (if m_lastRateTime t <? m_receiptTime t then [window_line (mkWindow (m_lastRateTime t) (m_receiptTime t) n)] else []).
Proof.
  intros (M1 & M2 & M3 & M4 & M5 & M6 & M7 & M8) HR HB. change (2 ^ 62) with 4611686018427387904 in *.
  destruct t as [ls lg lp rb rt rd fp rc ow lo gp]. cbn in M1, M2, M3, M4, M5, M6, M7, M8, HR, HB |-. subst rd.
  unfold Trace_destroy, LogGoodput. cbn [m_goodput m_receiptTime m_lastRateTime m_readBytes m_lastRateBytes]. rewrite M2. wrap_small.
  replace (rb + n - rb) with n by lia. destruct gp as [go gf gl]. cbn in M2, M3. subst go gf.
  unfold Trace_Close, LogLostPackets, when. destruct (rt <? rc); cbn; rewrite ?app_nil_r; repeat (case_match; cbn); done.
Qed.

Lemma first_arrival I e p : Z.land e E_QS_OWD <> 0 -> Z.land e E_QS_GOODPUT <> 0 -> timely p ->
  exists t, measuring t 0 /\ m_lastRateTime t = p_now p /\ m_readBytes t = 0 /\ lines (m_goodput t) = [] /\
    on_arrival I (Ns3QuicServerTrace_init e) p = on_arrival I t p.
Proof.
  intros He1 He2 [Hp _]. exists (Ns3QuicServerTrace_init e <| m_firstPacketTime := p_now p |> <| m_lastRateTime := p_now p |>).
  assert (Ef : (p_now p =? 0) = false) by (apply Z.eqb_neq; lia).
  apply Z.eqb_neq in He1, He2. unfold Ns3QuicServerTrace_init, measuring, when. rewrite He1, He2. cbn [negb].
  destruct (Z.land e E_QS_LOST =? 0); (split; [cbn; split_and!; done || lia|]); (split; [done|]); (split; [done|]); (split; [done|]);
    unfold on_arrival, Trace_OnOwd; f_equal; unfold trace_delay, when; cbn; rewrite Ef; done.
Qed.

(** The goodput log alone stays empty: only the log of delays notes when a packet arrived. *)
Definition unmeasured (t : Ns3QuicServerTrace) : Prop :=
  is_open (m_owd t) = false /\ m_receiptTime t = 0 /\ 0 <= m_lastRateTime t < 2 ^ 62 /\ lines (m_goodput t) = [].
Lemma LogGoodput_unmeasured I t b : 0 < I < 2 ^ 62 -> unmeasured t -> (b = false -> 0 < m_lastRateTime t) -> LogGoodput I t b = t.
Proof.
  intros HI (_ & HR & HT & _) Hb. change (2 ^ 62) with 4611686018427387904 in *. unfold LogGoodput. destruct (is_open (m_goodput t)); [|done].
  rewrite HR. wrap_small. destruct b; [destruct (Z.ltb_spec (m_lastRateTime t) 0); [lia|done]|].
  destruct (Z.leb_spec (m_lastRateTime t + I) 0); [lia|done].
Qed.
#[local] Arguments LogGoodput : simpl never.
Lemma unmeasured_step I t p : 0 < I < 2 ^ 62 -> timely p -> unmeasured t -> (m_firstPacketTime t <> 0 -> 0 < m_lastRateTime t) ->
  let t' := on_arrival I t p in unmeasured t' /\ (m_firstPacketTime t' <> 0 -> 0 < m_lastRateTime t').
Proof.
  intros HI [Hp _] Hu Hf. unfold on_arrival, Trace_OnOwd.
  destruct (trace_loss_frame (trace_delay I t (p_now p) (p_seq p) (p_owd p) (p_len p)) (p_seq p)) as (L1 & L2 & L3 & L4 & _ & _ & L7).
  cbv zeta. unfold unmeasured at 1. rewrite L1, L2, L3, L4, L7. clear L1 L2 L3 L4 L7. unfold trace_delay. pose proof Hu as (U1 & U2 & U3 & U4). rewrite U1. cbn [orb].
  destruct (is_open (m_goodput t)) eqn:Eg; [|done]. destruct t as [ls lg lp rb rt rd fp rc ow lo gp]. cbn in Hf, U1, U2, U3, U4, Eg.
  unfold when. cbn. destruct (fp =? 0) eqn:Ef; cbn; rewrite U1; rewrite LogGoodput_unmeasured; cbn; try done; try lia; unfold unmeasured; cbn.
  all: split_and!; done || lia.
Qed.
Theorem goodput_needs_owd I e ps : 0 < I < 2 ^ 62 -> Z.land e E_QS_OWD = 0 -> Forall timely ps ->
  lines (m_goodput (Trace_destroy I (foldl (on_arrival I) (Ns3QuicServerTrace_init e) ps))) = [].
Proof.
  intros HI He Hps. set (t := Ns3QuicServerTrace_init e).
  assert (H0 : unmeasured t /\ (m_firstPacketTime t <> 0 -> 0 < m_lastRateTime t)).
  { subst t. unfold Ns3QuicServerTrace_init, when, unmeasured. rewrite He. cbn [negb Z.eqb].
    destruct (Z.land e E_QS_LOST =? 0), (Z.land e E_QS_GOODPUT =? 0); cbn; split_and!; done || lia. }
  clearbody t. revert t H0. induction Hps as [|p ps Hp _ IH]; intros t [Hu Hf].
  - cbn [foldl]. unfold Trace_destroy. rewrite LogGoodput_unmeasured by done. destruct Hu as (_ & _ & _ & U4).
    unfold Trace_Close, LogLostPackets, when. destruct t as [ls lg lp rb rt rd fp rc ow lo gp]. cbn in U4.
    repeat (case_match; cbn); done.
  - cbn [foldl]. apply IH. by apply unmeasured_step.
Qed.

(** C38. The goodput log accounts for every byte, provided the log of delays is
    enabled too: its lines are the rates over
    adjacent stretches of time that begin with the flow's first packet, each at
    least an interval long except a last one that is closed when the
    trace ends, and together they hold all the bytes that arrived, but for
    those that came at the very instant the last stretch was closed.  Without the
    log of delays it stays empty. *)
Theorem goodput_accounts I e p ps :
  Z.land e E_QS_GOODPUT <> 0 -> 0 < I < 2 ^ 62 ->
  Forall timely (p :: ps) -> recv_buffer_size * Z.of_nat (length (p :: ps)) < two63 ->
  let t := Trace_destroy I (foldl (on_arrival I) (Ns3QuicServerTrace_init e) (p :: ps)) in
  (Z.land e E_QS_OWD <> 0 -> exists ws tail rest,
    lines (m_goodput t) = map window_line (ws ++ tail) /\ adjacent (p_now p) (ws ++ tail) /\
    Forall (fun w => I <= w_to w - w_from w) ws /\ (length tail <= 1)%nat /\
    sum_bytes (ws ++ tail) + rest = sum_len (p :: ps) /\
    (rest <> 0 -> List.last (map p_now ps) (p_now p) <= last_to (p_now p) (ws ++ tail))) /\
  (Z.land e E_QS_OWD = 0 -> lines (m_goodput t) = []).
Proof.
  intros He2 HI Hp HB. cbv zeta. split; [|intros He1; by apply goodput_needs_owd]. intros He1. pose proof Hp as Hall. apply Forall_cons in Hp as [Hp Hps].
  destruct (first_arrival I e p He1 He2 Hp) as (t & Hm & HT & HR & HL & E). cbn [foldl]. rewrite E.
  change (foldl (on_arrival I) (on_arrival I t p) ps) with (foldl (on_arrival I) t (p :: ps)).
  pose proof (measuring_fold I (p :: ps) HI t 0 Hm Hall ltac:(lia)) as (F1 & F2 & F3 & F4 & F5).
  pose proof (windows_spec I (p :: ps) (m_lastRateTime t) 0) as (W1 & W2 & W3). rewrite HT in *. set (r := windows I (p_now p) 0 (p :: ps)) in *. clearbody r.
  set (t' := foldl (on_arrival I) t (p :: ps)) in *. clearbody t'. cbn [map] in F4. rewrite last_cons_default in F4.
  assert (Hsum : 0 <= sum_len (p :: ps) < two63) by (pose proof (sum_len_bound _ Hall); lia).
  assert (Hlast : 0 < List.last (map p_now ps) (p_now p) < 2 ^ 62) by (by apply (last_timely p ps)).
  rewrite (Trace_destroy_goodput I t' r.2 F1), F3, HL, F2, F4, app_nil_l; [|lia|lia].
  destruct (Z.ltb_spec (last_to (p_now p) r.1) (List.last (map p_now ps) (p_now p))) as [Hlt|Hge].
  - exists r.1, [mkWindow (last_to (p_now p) r.1) (List.last (map p_now ps) (p_now p)) r.2], 0. rewrite map_app.
    split_and!; [done|by apply adjacent_app|done|cbn; lia|rewrite sum_bytes_app; cbn [sum_bytes foldr w_bytes]; lia|done].
  - exists r.1, [], r.2. rewrite !app_nil_r. split_and!; [done|done|done|cbn; lia|lia|done].
Qed.

(** Naming the folder for the first time reads past the end of the old, empty name. *)
Lemma set_quic_trace_folder_first path : (1 < String.length path)%nat -> set_quic_trace_folder EmptyString path = Fault OutOfBounds.
Proof.
  intros Hp. unfold set_quic_trace_folder. destruct (Z.ltb_spec 0 (Z.of_nat (String.length path))); [|lia]. cbn [String.length].
  destruct (Nat.ltb_spec (String.length path - 1) 0); [lia|]. destruct (Nat.eqb_spec (String.length path - 1) 0); [lia|done].
Qed.
(** Any log opens the utilization file. *)
Lemma LogEnable_opens_util d topo e : f_util d = File_closed -> e <> 0 -> is_open (f_util (Dispatcher_LogEnable d topo e)) = true.
Proof. intros Hd He. apply Z.eqb_neq in He. unfold Dispatcher_LogEnable, when. rewrite He. cbn. by rewrite Hd. Qed.
(** * Witnesses *)

Definition ex_client : InetSocketAddress := mkInet 167837953 49153.
Definition ex_offers : list offer := map (fun i => mkOffer (i * 500000000) 0 0 0 1200) (seqZ 1 5).
(** The client's second and third packets are dropped. *)
Definition ex_arrivals : list arrival :=
  map (fun q => mkArrival (q * 500000000 + 20000000) ex_client (mkTag q (q * 500)) 1200) [1; 4; 5].

Lemma server_counts_losses_witness :
  let t := foldl (on_arrival g_goodputInterval_init) (Ns3QuicServerTrace_init 15) ex_arrivals in
  m_largestSeq t = 5 /\ m_lostPackets t = 2 /\ m_lostPackets t = Z.of_nat (length ex_offers) - Z.of_nat (length ex_arrivals).
Proof.
  cbv zeta. assert (Hs : sublist (map (fun p => (p_tag p, p_len p)) ex_arrivals) (tagged 1 ex_offers)).
  { vm_compute. apply sublist_skip. apply sublist_cons, sublist_cons. do 2 apply sublist_skip. apply sublist_nil. }
  destruct (server_counts_losses g_goodputInterval_init 15 ex_offers ex_arrivals) as (H1 & H2 & H3 & _); [discriminate|vm_compute; reflexivity|exact Hs|].
  split; [rewrite H1; reflexivity|]. split; [rewrite H2; vm_compute; reflexivity|]. apply H3. vm_compute. reflexivity.
Defined.

Definition ex_app : QuicServerApp := mkServerApp true true 167838209 1234 None true 1 0 [] [].
Definition ex_pair (port : Z) : Ns3QuicAddressPair := AddressPair (mkInet 167837953 port) (self_of ex_app).
Definition ex_mixed : list arrival :=
  [mkArrival 520000000 ex_client (mkTag 1 500) 1200; mkArrival 530000000 (mkInet 167837953 49154) (mkTag 1 500) 1300; mkArrival 1020000000 ex_client (mkTag 2 1000) 1200].
Lemma traces_demultiplexed_witness :
  exists d a' d', rfold add_pair [ex_pair 49153; ex_pair 49154] (Dispatcher_LogEnable Dispatcher_init "1"%string 15) = Ok d /\
    rfold (recv g_goodputInterval_init) ex_mixed (ex_app <| m_trace := Some d |>) = Ok a' /\ m_trace a' = Some d' /\ length (processed a') = 3%nat /\
    (m_readBytes <$> db_get (m_traceDb d') (ex_pair 49153)) = Some 2400.
Proof.
  destruct (traces_demultiplexed g_goodputInterval_init ex_app "1"%string 15 [ex_pair 49153; ex_pair 49154] ex_mixed) as (d & a' & d' & H1 & H2 & H3 & _ & H4 & H5);
    [reflexivity|reflexivity|repeat constructor; vm_compute; discriminate| |].
  - intros k k' Hk Hk'. rewrite list_elem_of_In in Hk, Hk'. cbn in Hk, Hk'. naive_solver.
  - exists d, a', d'. split; [exact H1|]. split; [exact H2|]. split; [exact H3|]. split; [rewrite H4; reflexivity|]. rewrite H5. vm_compute. reflexivity.
Defined.

Definition ex_flow : list arrival := map (fun i => mkArrival (i * 400000000) ex_client (mkTag i 0) 1000) (seqZ 2 4).
Lemma goodput_accounts_witness :
  let t := Trace_destroy g_goodputInterval_init (foldl (on_arrival g_goodputInterval_init) (Ns3QuicServerTrace_init 15) (mkArrival 400000000 ex_client (mkTag 1 0) 1000 :: ex_flow)) in
  exists ws tail rest, lines (m_goodput t) = map window_line (ws ++ tail) /\ adjacent 400000000 (ws ++ tail) /\ sum_bytes (ws ++ tail) + rest = 5000.
Proof.
  destruct (goodput_accounts g_goodputInterval_init 15 (mkArrival 400000000 ex_client (mkTag 1 0) 1000) ex_flow) as [H _];
    [discriminate|vm_compute; split; reflexivity|repeat constructor; vm_compute; (reflexivity || discriminate)|vm_compute; reflexivity|].
  destruct (H ltac:(discriminate)) as (ws & tl & rest & H1 & H2 & _ & _ & H3 & _).
  exists ws, tl, rest. split; [exact H1|]. split; [exact H2|exact H3].
Defined.
