(* ===== verification/FlowController.v ===== *)
(** [QuicFlowController] (quic_flow_controller.h, quic_flow_controller.cc): the
    accounting of one stream or of the whole connection, as a sender against
    the window its peer has granted and as a receiver granting windows, with
    the automatic tuning of the receive window.  The session's controller,
    which a stream's controller reaches through a pointer, is passed as an
    option ([None] is [nullptr]); window update frames are returned. *)

From S2P Require Import Prelude Float QuicTime.

(** src/quiche/gquiche/quic/core/quic_flow_controller.h:22-22 [kSessionFlowControlMultiplier] *)
Definition kSessionFlowControlMultiplier : SpecFloat.spec_float := f32_lit 3 (-1).
#[global] Arguments kSessionFlowControlMultiplier : simpl never.
(** src/quiche/gquiche/quic/core/quic_constants.h:80-80 [kStreamReceiveWindowLimit] *)
Definition kStreamReceiveWindowLimit : Z := 16 * 1024 * 1024.
(** src/quiche/gquiche/quic/core/quic_constants.h:81-81 [kSessionReceiveWindowLimit] *)
Definition kSessionReceiveWindowLimit : Z := 24 * 1024 * 1024.

(** What a controller asks of its connection: whether the version has IETF
    frames, the time and the smoothed round trip time. *)
Record Env := mkEnv { ietf : bool; now : QuicTime; smoothed_rtt : Delta }.

(** src/quiche/gquiche/quic/core/quic_utils.cc:381-385 [QuicUtils::GetInvalidStreamId] *)
Definition GetInvalidStreamId (ietf : bool) : Z := if ietf then two32 - 1 else 0.

(** src/quiche/gquiche/quic/core/frames/quic_window_update_frame.h:29-38 [QuicWindowUpdateFrame] *)
Record QuicWindowUpdateFrame := mkWindowUpdate { stream_id : Z; max_data : Z }.

(** src/quiche/gquiche/quic/core/quic_flow_controller.h:142-212 [QuicFlowController] *)
Record QuicFlowController := mkFlowController {
  id_ : Z;
  is_connection_flow_controller_ : bool;
  bytes_sent_ : Z;
  send_window_offset_ : Z;
  bytes_consumed_ : Z;
  highest_received_byte_offset_ : Z;
  receive_window_offset_ : Z;
  receive_window_size_ : Z;
  receive_window_size_limit_ : Z;
  auto_tune_receive_window_ : bool;
  last_blocked_send_window_offset_ : Z;
  prev_window_update_time_ : QuicTime;
}.
#[export] Instance eta_FlowController : Eta QuicFlowController := MkEta _ (fun c =>
  mkFlowController (id_ c) (is_connection_flow_controller_ c) (bytes_sent_ c) (send_window_offset_ c)
    (bytes_consumed_ c) (highest_received_byte_offset_ c) (receive_window_offset_ c) (receive_window_size_ c)
    (receive_window_size_limit_ c) (auto_tune_receive_window_ c) (last_blocked_send_window_offset_ c)
    (prev_window_update_time_ c)).
Implicit Types (c : QuicFlowController) (e : Env).

(** src/quiche/gquiche/quic/core/quic_flow_controller.cc:31-68 [QuicFlowController::QuicFlowController] *)
Definition QuicFlowController_init (e : Env) (id : Z) (is_connection : bool)
    (send_window_offset receive_window_offset receive_window_size_limit : Z) (auto_tune : bool)
    : result QuicFlowController :=
  let* _ := CHECK (receive_window_offset <=? receive_window_size_limit) in
  let* _ := CHECK (Bool.eqb is_connection (GetInvalidStreamId (ietf e) =? id)) in
  Ok (mkFlowController id is_connection 0 send_window_offset 0 0 receive_window_offset receive_window_offset
        receive_window_size_limit auto_tune 0 QuicTime_Zero).

(** src/quiche/gquiche/quic/core/quic_flow_controller.cc:78-90 [QuicFlowController::UpdateHighestReceivedOffset] *)
Definition UpdateHighestReceivedOffset (c : QuicFlowController) (new_offset : Z) : QuicFlowController * bool :=
  if new_offset <=? highest_received_byte_offset_ c then (c, false)
  else (c <| highest_received_byte_offset_ := new_offset |>, true).

(** src/quiche/gquiche/quic/core/quic_flow_controller.cc:92-112 [QuicFlowController::AddBytesSent] *)
Definition FC_AddBytesSent (c : QuicFlowController) (bytes_sent : Z) : result QuicFlowController :=
  if send_window_offset_ c <? bytes_sent_ c ⊕ bytes_sent then Fault CheckFailed
  else Ok (c <| bytes_sent_ := bytes_sent_ c ⊕ bytes_sent |>).

(** src/quiche/gquiche/quic/core/quic_flow_controller.cc:114-123 [QuicFlowController::FlowControlViolation] *)
Definition FlowControlViolation (c : QuicFlowController) : bool :=
  receive_window_offset_ c <? highest_received_byte_offset_ c.

(** src/quiche/gquiche/quic/core/quic_flow_controller.cc:185-189 [QuicFlowController::IncreaseWindowSize] *)
Definition IncreaseWindowSize (c : QuicFlowController) : QuicFlowController :=
  c <| receive_window_size_ := Z.min (receive_window_size_ c ⊗ 2) (receive_window_size_limit_ c) |>.

(** src/quiche/gquiche/quic/core/quic_flow_controller.cc:191-193 [QuicFlowController::WindowUpdateThreshold] *)
Definition WindowUpdateThreshold (c : QuicFlowController) : Z := receive_window_size_ c / 2.

(** src/quiche/gquiche/quic/core/quic_flow_controller.cc:311-317 [QuicFlowController::SendWindowUpdate] *)
Definition FC_SendWindowUpdate (e : Env) (c : QuicFlowController) : QuicWindowUpdateFrame :=
  let id := if is_connection_flow_controller_ c then GetInvalidStreamId (ietf e) else id_ c in
  mkWindowUpdate id (receive_window_offset_ c).

(** src/quiche/gquiche/quic/core/quic_flow_controller.cc:223-236 [QuicFlowController::UpdateReceiveWindowOffsetAndSendWindowUpdate] *)
Definition UpdateReceiveWindowOffsetAndSendWindowUpdate (e : Env) (c : QuicFlowController) (available_window : Z)
    : QuicFlowController * list QuicWindowUpdateFrame :=
  let c := c <| receive_window_offset_ :=
                  receive_window_offset_ c ⊕ (receive_window_size_ c ⊖ available_window) |> in
  (c, [FC_SendWindowUpdate e c]).

(** src/quiche/gquiche/quic/core/quic_flow_controller.cc:276-284 [QuicFlowController::EnsureWindowAtLeast] *)
Definition EnsureWindowAtLeast (e : Env) (c : QuicFlowController) (window_size : Z)
    : QuicFlowController * list QuicWindowUpdateFrame :=
  if window_size <=? receive_window_size_limit_ c then (c, [])
  else
    let available_window := receive_window_offset_ c ⊖ bytes_consumed_ c in
    UpdateReceiveWindowOffsetAndSendWindowUpdate e (IncreaseWindowSize c) available_window.

(** src/quiche/gquiche/quic/core/quic_flow_controller.cc:125-183 [QuicFlowController::MaybeIncreaseMaxWindowSize] *)
Definition MaybeIncreaseMaxWindowSize (e : Env) (c : QuicFlowController) (session : option QuicFlowController)
    : result (QuicFlowController * option QuicFlowController * list QuicWindowUpdateFrame) :=
  let prev := prev_window_update_time_ c in
  let c := c <| prev_window_update_time_ := now e |> in
  if negb (QuicTime_IsInitialized prev) then Ok (c, session, [])
  else if negb (auto_tune_receive_window_ c) then Ok (c, session, [])
  else
    let rtt := smoothed_rtt e in
    if Delta_IsZero rtt then Ok (c, session, [])
    else
      let since_last := QuicTime_diff (now e) prev in
      let two_rtt := Delta_mul_int rtt 2 in
      if two_rtt <=? since_last then Ok (c, session, [])
      else
        let old_window := receive_window_size_ c in
        let c := IncreaseWindowSize c in
        if old_window <? receive_window_size_ c then
          match session with
          | Some sc =>
              let* w := float_to_u64 (f32_mul kSessionFlowControlMultiplier (f32_of_Z (receive_window_size_ c))) in
              let '(sc, out) := EnsureWindowAtLeast e sc w in
              Ok (c, Some sc, out)
          | None => Ok (c, None, [])
          end
        else Ok (c, session, []).

(** src/quiche/gquiche/quic/core/quic_flow_controller.cc:195-221 [QuicFlowController::MaybeSendWindowUpdate] *)
Definition MaybeSendWindowUpdate (e : Env) (connected : bool) (c : QuicFlowController)
    (session : option QuicFlowController)
    : result (QuicFlowController * option QuicFlowController * list QuicWindowUpdateFrame) :=
  if negb connected then Ok (c, session, [])
  else
    let* _ := CHECK (bytes_consumed_ c <=? receive_window_offset_ c) in
    let available_window := receive_window_offset_ c ⊖ bytes_consumed_ c in
    let threshold := WindowUpdateThreshold c in
    let c := when (negb (QuicTime_IsInitialized (prev_window_update_time_ c)))
               (fun c => c <| prev_window_update_time_ := now e |>) c in
    if threshold <=? available_window then Ok (c, session, [])
    else
      let* (c, session, out) := MaybeIncreaseMaxWindowSize e c session in
      let '(c, upd) := UpdateReceiveWindowOffsetAndSendWindowUpdate e c available_window in
      Ok (c, session, out ++ upd).

(** src/quiche/gquiche/quic/core/quic_flow_controller.cc:70-76 [QuicFlowController::AddBytesConsumed] *)
Definition FC_AddBytesConsumed (e : Env) (connected : bool) (c : QuicFlowController)
    (session : option QuicFlowController) (bytes_consumed : Z)
    : result (QuicFlowController * option QuicFlowController * list QuicWindowUpdateFrame) :=
  MaybeSendWindowUpdate e connected (c <| bytes_consumed_ := bytes_consumed_ c ⊕ bytes_consumed |>) session.

(** src/quiche/gquiche/quic/core/quic_flow_controller.cc:290-295 [QuicFlowController::SendWindowSize] *)
Definition SendWindowSize (c : QuicFlowController) : Z :=
  if send_window_offset_ c <? bytes_sent_ c then 0 else send_window_offset_ c ⊖ bytes_sent_ c.

(** src/quiche/gquiche/quic/core/quic_flow_controller.cc:286-288 [QuicFlowController::IsBlocked] *)
Definition IsBlocked (c : QuicFlowController) : bool := SendWindowSize c =? 0.

(** src/quiche/gquiche/quic/core/quic_flow_controller.cc:238-254 [QuicFlowController::ShouldSendBlocked] *)
Definition ShouldSendBlocked (c : QuicFlowController) : QuicFlowController * bool :=
  if negb (SendWindowSize c =? 0) || (send_window_offset_ c <=? last_blocked_send_window_offset_ c) then (c, false)
  else (c <| last_blocked_send_window_offset_ := send_window_offset_ c |>, true).

(** src/quiche/gquiche/quic/core/quic_flow_controller.cc:256-274 [QuicFlowController::UpdateSendWindowOffset] *)
Definition UpdateSendWindowOffset (c : QuicFlowController) (new_send_window_offset : Z) : QuicFlowController * bool :=
  if new_send_window_offset <=? send_window_offset_ c then (c, false)
  else (c <| send_window_offset_ := new_send_window_offset |>, IsBlocked c).

(** src/quiche/gquiche/quic/core/quic_flow_controller.cc:297-309 [QuicFlowController::UpdateReceiveWindowSize] *)
Definition FC_UpdateReceiveWindowSize (c : QuicFlowController) (size : Z) : result QuicFlowController :=
  let* _ := CHECK (size <=? receive_window_size_limit_ c) in
  let* _ := CHECK (receive_window_size_ c =? receive_window_offset_ c) in
  Ok (c <| receive_window_size_ := size |> <| receive_window_offset_ := size |>).

(** src/quiche/gquiche/quic/core/quic_flow_controller.h:104-107 [QuicFlowController::set_receive_window_size_limit] *)
Definition set_receive_window_size_limit (c : QuicFlowController) (limit : Z) : result QuicFlowController :=
  let* _ := CHECK (receive_window_size_limit_ c <=? limit) in
  Ok (c <| receive_window_size_limit_ := limit |>).

(** * A receiver's window *)

(** What a controller as a receiver keeps while its connection is open: what
    was consumed was received, what was received was granted, and what is
    granted beyond the bytes consumed is at most a window, and at least half a
    window between two calls. *)
Record recv_base (c : QuicFlowController) : Prop := {
  recv_consumed : 0 <= bytes_consumed_ c <= highest_received_byte_offset_ c;
  recv_granted : highest_received_byte_offset_ c <= receive_window_offset_ c;
  recv_window : receive_window_offset_ c - bytes_consumed_ c <= receive_window_size_ c;
  recv_size : 2 <= receive_window_size_ c <= receive_window_size_limit_ c;
  recv_small : receive_window_size_limit_ c <= 2 ^ 40 /\ bytes_consumed_ c <= 2 ^ 62;
}.
Definition recv_ok (c : QuicFlowController) : Prop :=
  recv_base c /\ receive_window_size_ c / 2 <= receive_window_offset_ c - bytes_consumed_ c.

(** [c'] is [c] after its receive window has been moved on or enlarged. *)
Record grows (c c' : QuicFlowController) : Prop := {
  grows_id : id_ c' = id_ c;
  grows_conn : is_connection_flow_controller_ c' = is_connection_flow_controller_ c;
  grows_sent : bytes_sent_ c' = bytes_sent_ c;
  grows_swo : send_window_offset_ c' = send_window_offset_ c;
  grows_consumed : bytes_consumed_ c' = bytes_consumed_ c;
  grows_highest : highest_received_byte_offset_ c' = highest_received_byte_offset_ c;
  grows_limit : receive_window_size_limit_ c' = receive_window_size_limit_ c;
  grows_auto : auto_tune_receive_window_ c' = auto_tune_receive_window_ c;
  grows_blocked : last_blocked_send_window_offset_ c' = last_blocked_send_window_offset_ c;
  grows_offset : receive_window_offset_ c <= receive_window_offset_ c';
  grows_size : receive_window_size_ c <= receive_window_size_ c';
}.

#[export] Instance grows_preorder : PreOrder grows.
Proof. split; [intros c; by constructor|]. intros c1 c2 c3 [] []. constructor; congruence || lia. Qed.

(** The frames sent when [c] has become [c'] announce its present offset; there
    is none only if the offset is the one announced before. *)
Definition announced (e : Env) (c c' : QuicFlowController) (out : list QuicWindowUpdateFrame) : Prop :=
  (out = [] /\ receive_window_offset_ c' = receive_window_offset_ c) \/ out = [FC_SendWindowUpdate e c'].

(** The session's controller after a stream's controller has used it. *)
Definition session_grows (e : Env) (o o' : option QuicFlowController) (out : list QuicWindowUpdateFrame) : Prop :=
  match o, o' with
  | Some sc, Some sc' => recv_ok sc -> grows sc sc' /\ announced e sc sc' out /\ recv_ok sc'
  | None, None => out = []
  | _, _ => False
  end.

Lemma session_grows_refl e o : session_grows e o o [].
Proof. destruct o; cbn; [|done]. intros Ho. split; [reflexivity|]. split; [by left|done]. Qed.

(** Enlarging the window of a controller and granting all of it. *)
Lemma regrant e c size : recv_base c -> receive_window_size_ c <= size <= receive_window_size_limit_ c ->
  let '(c', out) := UpdateReceiveWindowOffsetAndSendWindowUpdate e (c <| receive_window_size_ := size |>)
                      (receive_window_offset_ c ⊖ bytes_consumed_ c) in
  grows c c' /\ out = [FC_SendWindowUpdate e c'] /\ recv_ok c' /\
  receive_window_offset_ c' = bytes_consumed_ c + size /\ receive_window_size_ c' = size.
Proof.
  intros [H1 H2 H3 H4 H5] Hs. unfold UpdateReceiveWindowOffsetAndSendWindowUpdate. cbn.
  rewrite (u64_small (receive_window_offset_ c - _)), (u64_small (size - _)), u64_small by lia.
  assert (Hd : size / 2 <= size) by (apply Z.div_le_upper_bound; lia).
  split; [constructor; cbn; lia || done|]. split; [done|]. split; [|split; [lia|done]].
  split; [constructor; cbn; lia|cbn; lia].
Qed.

Lemma IncreaseWindowSize_size c : recv_base c ->
  receive_window_size_ c <= receive_window_size_ (IncreaseWindowSize c) <= receive_window_size_limit_ c /\
  receive_window_size_ (IncreaseWindowSize c) = Z.min (2 * receive_window_size_ c) (receive_window_size_limit_ c).
Proof. intros [H1 H2 H3 H4 H5]. cbn. rewrite u64_small by lia. lia. Qed.

Lemma EnsureWindowAtLeast_spec e c w : let '(c', out) := EnsureWindowAtLeast e c w in
  recv_ok c -> grows c c' /\ announced e c c' out /\ recv_ok c'.
Proof.
  unfold EnsureWindowAtLeast. zcases.
  - intros Hc. split; [reflexivity|]. split; [by left|done].
  - destruct UpdateReceiveWindowOffsetAndSendWindowUpdate as [c' out] eqn:E. intros Hc.
    pose proof (regrant e c _ (proj1 Hc) (proj1 (IncreaseWindowSize_size c (proj1 Hc)))) as H'.
    change (c <| receive_window_size_ := _ |>) with (IncreaseWindowSize c) in H'. rewrite E in H'.
    destruct H' as (? & ? & ? & _). split; [done|]. split; [by right|done].
Qed.

Lemma session_window_float size : 2 <= size <= 2 ^ 40 ->
  exists w, float_to_u64 (f32_mul kSessionFlowControlMultiplier (f32_of_Z size)) = Ok w.
Proof.
  intros Hs. assert (H2 : mag_in (f32_of_Z size) 2 42) by (apply (f32_of_Z_mag size 1 41); lia).
  assert (H1 : mag_in kSessionFlowControlMultiplier 1 1) by (vm_compute; intuition congruence).
  pose proof (f32_mul_mag _ _ _ _ _ _ H1 H2 ltac:(lia) ltac:(lia)) as H'.
  destruct (float_to_u64_mag _ _ _ H' ltac:(lia)) as (w & -> & _). by exists w.
Qed.

(** Reference for the tuning: the window is doubled, up to its limit, when this
    update follows the last one, or the first bytes consumed, within two round
    trips. *)
Definition tunes (e : Env) (c : QuicFlowController) : bool :=
  let prev := if prev_window_update_time_ c =? 0 then now e else prev_window_update_time_ c in
  negb (prev =? 0) && auto_tune_receive_window_ c && negb (smoothed_rtt e =? 0) &&
  (i64 (now e - prev) <? i64 (smoothed_rtt e * 2)).
Definition tuned_size (e : Env) (c : QuicFlowController) : Z :=
  if tunes e c then Z.min (2 * receive_window_size_ c) (receive_window_size_limit_ c) else receive_window_size_ c.

(** [c] with the time of its first use noted, as [MaybeSendWindowUpdate] does. *)
Definition noted (e : Env) (c : QuicFlowController) : QuicFlowController :=
  when (negb (QuicTime_IsInitialized (prev_window_update_time_ c))) (fun c => c <| prev_window_update_time_ := now e |>) c.

Lemma noted_prev e c : noted e c =
  c <| prev_window_update_time_ := if prev_window_update_time_ c =? 0 then now e else prev_window_update_time_ c |>.
Proof. unfold noted, QuicTime_IsInitialized. destruct c; cbn. zcases; [subst|]; done. Qed.

(** Doubling the window asks the session for a window half as large again. *)
Lemma ensure_session e session size (c : QuicFlowController) : 2 <= size <= 2 ^ 40 ->
  exists session' out,
    match session with
    | Some sc =>
        let* w := float_to_u64 (f32_mul kSessionFlowControlMultiplier (f32_of_Z size)) in
        let '(sc, out) := EnsureWindowAtLeast e sc w in
        Ok (c, Some sc, out)
    | None => Ok (c, None, [])
    end = Ok (c, session', out) /\ session_grows e session session' out.
Proof.
  intros Hs. destruct session as [sc|]; [|by exists None, []].
  destruct (session_window_float size Hs) as [w ->]. cbn [rbind].
  pose proof (EnsureWindowAtLeast_spec e sc w) as H'. destruct EnsureWindowAtLeast as [sc' out].
  exists (Some sc'), out. split; [done|]. done.
Qed.

Lemma MaybeIncreaseMaxWindowSize_spec e c session : recv_base c ->
  exists session' out,
    MaybeIncreaseMaxWindowSize e (noted e c) session =
      Ok (c <| prev_window_update_time_ := now e |> <| receive_window_size_ := tuned_size e c |>, session', out) /\
    session_grows e session session' out.
Proof.
  intros Hc. destruct (IncreaseWindowSize_size c Hc) as [Hi Ei]. rewrite noted_prev.
  unfold MaybeIncreaseMaxWindowSize, tuned_size, tunes, QuicTime_IsInitialized, Delta_IsZero, QuicTime_diff, Delta_mul_int.
  rewrite <- Ei. destruct Hc as [_ _ _ H4 H5]. destruct c as [? ? ? ? ? ? ? ? ? auto]. cbn in *. rewrite u64_small in * by lia.
  set (prev := if _ =? 0 then _ else _). set (size := Z.min _ _).
  pose proof (session_grows_refl e session).
  destruct (prev =? 0); cbn [negb andb]; [by exists session, []|].
  destruct auto; cbn [negb andb]; [|by exists session, []].
  destruct (smoothed_rtt e =? 0); cbn [negb andb]; [by exists session, []|].
  rewrite Z.leb_antisym. destruct (_ <? _); cbn [negb]; [|by exists session, []].
  destruct (_ <? size); [|by exists session, []]. apply ensure_session. lia.
Qed.

(** A connected receiver regrants a whole window exactly when less than half a
    window is left, and then announces it. *)
Lemma MaybeSendWindowUpdate_spec e c session : recv_base c ->
  exists c' session' out upd,
    MaybeSendWindowUpdate e true c session = Ok (c', session', out ++ upd) /\
    grows c c' /\ recv_ok c' /\ session_grows e session session' out /\
    if receive_window_size_ c / 2 <=? receive_window_offset_ c - bytes_consumed_ c then
      out = [] /\ upd = [] /\ receive_window_offset_ c' = receive_window_offset_ c /\
      receive_window_size_ c' = receive_window_size_ c
    else
      upd = [FC_SendWindowUpdate e c'] /\ receive_window_size_ c' = tuned_size e c /\
      receive_window_offset_ c' = bytes_consumed_ c + tuned_size e c.
Proof.
  intros Hb. destruct (Hb) as [H1 H2 H3 H4 H5]. unfold MaybeSendWindowUpdate. cbn [negb].
  change (when _ _ c) with (noted e c).
  replace (bytes_consumed_ c <=? receive_window_offset_ c) with true by lia. cbn [CHECK rbind].
  rewrite (u64_small (receive_window_offset_ c - _)) by lia. unfold WindowUpdateThreshold.
  destruct (Z.leb_spec (receive_window_size_ c / 2) (receive_window_offset_ c - bytes_consumed_ c)) as [Hl|Hl].
  - exists (noted e c), session, [], []. rewrite noted_prev. split; [done|]. split; [constructor; cbn; done || lia|].
    split; [split; [constructor|]; cbn; lia|]. split; [apply session_grows_refl|done].
  - destruct (MaybeIncreaseMaxWindowSize_spec e c session Hb) as (session' & out & -> & Hg). cbn [rbind].
    destruct (IncreaseWindowSize_size c Hb) as [Hi Ei].
    assert (Ht : receive_window_size_ c <= tuned_size e c <= receive_window_size_limit_ c).
    { unfold tuned_size. rewrite <- Ei. destruct (tunes e c); [done|lia]. }
    assert (Hb' : recv_base (c <| prev_window_update_time_ := now e |>)) by (constructor; cbn; lia).
    pose proof (regrant e _ _ Hb' Ht) as H'. cbn [receive_window_offset_ bytes_consumed_ set_field] in H'.
    rewrite (u64_small (receive_window_offset_ c - _)) in H' by lia.
    destruct UpdateReceiveWindowOffsetAndSendWindowUpdate as [c' upd]. destruct H' as (G1 & G2 & G3 & G4 & G5).
    exists c', session', out, upd. split; [done|]. split; [destruct G1; by constructor|]. done.
Qed.

Lemma FC_AddBytesConsumed_spec e c session n (c1 := c <| bytes_consumed_ := bytes_consumed_ c + n |>) :
  recv_ok c -> 0 <= n <= highest_received_byte_offset_ c - bytes_consumed_ c -> bytes_consumed_ c + n <= 2 ^ 62 ->
  FC_AddBytesConsumed e true c session n = MaybeSendWindowUpdate e true c1 session /\ recv_base c1.
Proof.
  intros [[H1 H2 H3 H4 H5] H6] Hn Hs. unfold FC_AddBytesConsumed. rewrite u64_small by lia.
  split; [done|]. constructor; cbn; lia.
Qed.

(** C18. The window update policy: a connected receiver that consumes bytes it
    received never fails; it sends nothing while at least half a window is left
    to the peer, and otherwise grants exactly one window beyond the bytes
    consumed and announces it last, after what the session's controller may
    announce.  The window is doubled, up to its limit, exactly when tuning is on
    and the last window was used up within two round trips. *)
Theorem window_update_policy e c session n :
  recv_ok c -> 0 <= n <= highest_received_byte_offset_ c - bytes_consumed_ c -> bytes_consumed_ c + n <= 2 ^ 62 ->
  exists c' session' out upd, FC_AddBytesConsumed e true c session n = Ok (c', session', out ++ upd) /\
    recv_ok c' /\ bytes_consumed_ c' = bytes_consumed_ c + n /\ session_grows e session session' out /\
    if receive_window_size_ c / 2 <=? receive_window_offset_ c - (bytes_consumed_ c + n) then
      out = [] /\ upd = [] /\ receive_window_offset_ c' = receive_window_offset_ c /\
      receive_window_size_ c' = receive_window_size_ c
    else
      upd = [FC_SendWindowUpdate e c'] /\ receive_window_offset_ c' = bytes_consumed_ c' + receive_window_size_ c' /\
      receive_window_size_ c' = tuned_size e c.
Proof.
  intros Hc Hn Hs. destruct (FC_AddBytesConsumed_spec e c session n Hc Hn Hs) as [-> Hb].
  destruct (MaybeSendWindowUpdate_spec e _ session Hb) as (c' & session' & out & upd & -> & Hg & Ho & Hse & H').
  exists c', session', out, upd. split; [done|]. split; [done|].
  pose proof (grows_consumed _ _ Hg) as Ec. cbn in Ec, H'. split; [done|]. split; [done|].
  destruct (_ <=? _); [naive_solver|]. destruct H' as (? & E1 & E2).
  split; [done|]. rewrite E2, E1, Ec. done.
Qed.

(** A stream's controller of 16 KB that has received 9000 bytes, and a session's. *)
Definition sample_env : Env := mkEnv true 2000 100000.
Definition sample_stream : QuicFlowController :=
  mkFlowController 4 false 0 16384 0 9000 16384 16384 kStreamReceiveWindowLimit true 0 1000.
Definition sample_session : QuicFlowController :=
  mkFlowController (two32 - 1) true 0 24576 0 9000 24576 24576 kSessionReceiveWindowLimit true 0 0.

Lemma sample_recv_ok : recv_ok sample_stream /\ recv_ok sample_session.
Proof. split; (split; [constructor|]; vm_compute; intuition congruence). Qed.

Lemma window_update_policy_witness : exists c' session' out upd,
  FC_AddBytesConsumed sample_env true sample_stream (Some sample_session) 9000 = Ok (c', session', out ++ upd) /\
  recv_ok c' /\ bytes_consumed_ c' = 9000 /\ session_grows sample_env (Some sample_session) session' out /\
  upd = [FC_SendWindowUpdate sample_env c'] /\ receive_window_offset_ c' = bytes_consumed_ c' + receive_window_size_ c' /\
  receive_window_size_ c' = 32768.
Proof.
  apply (window_update_policy sample_env sample_stream (Some sample_session) 9000).
  - apply sample_recv_ok.
  - cbn. lia.
  - cbn. lia.
Defined.

(** [EnsureWindowAtLeast] compares the size asked for with the limit of the
    window, not with the window: a session whose window is far smaller is left
    as it is and no update is sent, whatever was asked for below the limit. *)
Lemma ensure_window_not_ensured :
  receive_window_size_ sample_session < 1048576 /\
  EnsureWindowAtLeast sample_env sample_session 1048576 = (sample_session, []).
Proof. vm_compute. done. Qed.

(** * A sender's window *)

(** A sender never goes beyond the offset it was granted. *)
Definition send_ok (c : QuicFlowController) : Prop :=
  0 <= bytes_sent_ c <= send_window_offset_ c /\ send_window_offset_ c < two64.

Lemma SendWindowSize_val c : send_ok c -> SendWindowSize c = send_window_offset_ c - bytes_sent_ c.
Proof. intros [H1 H2]. unfold SendWindowSize. zcases; [lia|]. apply u64_small. lia. Qed.

Lemma FC_AddBytesSent_val c n : send_ok c -> 0 <= n <= SendWindowSize c ->
  FC_AddBytesSent c n = Ok (c <| bytes_sent_ := bytes_sent_ c + n |>) /\ send_ok (c <| bytes_sent_ := bytes_sent_ c + n |>).
Proof.
  intros Hc Hn. rewrite (SendWindowSize_val c Hc) in Hn. destruct Hc as [H1 H2]. unfold FC_AddBytesSent.
  rewrite !u64_small by lia. zcases; [lia|]. split; [done|]. unfold send_ok. cbn. lia.
Qed.

(** A BLOCKED frame is asked for once per offset. *)
Lemma blocked_once c c' : ShouldSendBlocked c = (c', true) -> snd (ShouldSendBlocked c') = false /\ IsBlocked c = true.
Proof.
  unfold ShouldSendBlocked, IsBlocked. destruct (SendWindowSize c =? 0) eqn:E; cbn; [|done].
  destruct (_ <=? _); [done|]. intros [= <-]. cbn. change (SendWindowSize _) with (SendWindowSize c). rewrite E. cbn.
  rewrite Z.leb_refl. done.
Qed.
