(* ===== verification/StreamFlow.v ===== *)
(** The flow control of a session's streams (quic_stream.cc, quic_session.cc): the
    parts of [QuicStream] and [QuicSession] that send and receive stream data,
    resets and window updates, close the two sides of a stream and account for
    it at both levels.  A stream that is closed leaves [stream_map_], since
    [GetOrCreateStream] gives no zombie either; the contents of the send
    buffer and of the sequencer's buffer, the write-blocked list and the
    stream id managers are left out.  The frames a session sends are kept in
    [frames_], oldest first. *)

From stdpp Require Import gmap.
From S2P Require Import Prelude Float QuicTime FlowController.

(** src/quiche/gquiche/quic/core/quic_constants.h:235-235 [kMaxStreamLength] *)
Definition kMaxStreamLength : Z := 2 ^ 62 - 1.

(** src/quiche/gquiche/quic/core/quic_types.h:677-687 [StreamType] *)
Inductive StreamType := BIDIRECTIONAL | WRITE_UNIDIRECTIONAL | READ_UNIDIRECTIONAL | CRYPTO.
#[export] Instance StreamType_eq_dec : EqDecision StreamType.
Proof. solve_decision. Defined.

(** The errors with which the modelled code closes the connection. *)
Inductive QuicErrorCode :=
  | QUIC_INVALID_STREAM_ID
  | QUIC_DATA_RECEIVED_ON_WRITE_UNIDIRECTIONAL_STREAM
  | QUIC_STREAM_LENGTH_OVERFLOW
  | QUIC_STREAM_DATA_BEYOND_CLOSE_OFFSET
  | QUIC_STREAM_MULTIPLE_OFFSET
  | QUIC_STREAM_SEQUENCER_INVALID_STATE
  | QUIC_EMPTY_STREAM_FRAME_NO_FIN
  | QUIC_INTERNAL_ERROR
  | QUIC_WINDOW_UPDATE_RECEIVED_ON_READ_UNIDIRECTIONAL_STREAM
  | QUIC_FLOW_CONTROL_RECEIVED_TOO_MUCH_DATA.

(** The frames of a session that bear on flow control. *)
Inductive Frame :=
  | StreamFrame (id offset length : Z) (fin : bool)
  | RstStream (id byte_offset : Z)
  | StopSending (id : Z)
  | Blocked (id : Z)
  | WindowUpdate (w : QuicWindowUpdateFrame).

(** src/quiche/gquiche/quic/core/quic_stream.h:505-602 [QuicStream]
    The sequencer is represented by its two offsets, the send buffer by the
    bytes written. *)
Record QuicStream := mkStream {
  stream_id_ : Z;
  is_static_ : bool;
  type_ : StreamType;
  flow_controller_ : option QuicFlowController;
  stream_contributes_to_connection_flow_control_ : bool;
  read_side_closed_ : bool;
  write_side_closed_ : bool;
  fin_received_ : bool;
  rst_received_ : bool;
  fin_sent_ : bool;
  rst_sent_ : bool;
  stop_sending_sent_ : bool;
  was_draining_ : bool;
  stream_bytes_read_ : Z;
  stream_bytes_written_ : Z;
  highest_offset_ : Z;
  close_offset_ : Z;
}.
#[export] Instance eta_Stream : Eta QuicStream := MkEta _ (fun st =>
  mkStream (stream_id_ st) (is_static_ st) (type_ st) (flow_controller_ st)
    (stream_contributes_to_connection_flow_control_ st) (read_side_closed_ st) (write_side_closed_ st)
    (fin_received_ st) (rst_received_ st) (fin_sent_ st) (rst_sent_ st) (stop_sending_sent_ st) (was_draining_ st)
    (stream_bytes_read_ st) (stream_bytes_written_ st) (highest_offset_ st) (close_offset_ st)).

(** src/quiche/gquiche/quic/core/quic_session.h:844-901 [QuicSession]
    [error_] is the error the connection was closed with, if it was;
    [stream_type_] is [QuicUtils::GetStreamType] at this end. *)
Record QuicSession := mkSession {
  session_flow_controller_ : QuicFlowController;
  stream_map_ : gmap Z QuicStream;
  locally_closed_streams_highest_offset_ : gmap Z Z;
  frames_ : list Frame;
  error_ : option QuicErrorCode;
  stream_type_ : Z -> StreamType;
}.
#[export] Instance eta_Session : Eta QuicSession := MkEta _ (fun s =>
  mkSession (session_flow_controller_ s) (stream_map_ s) (locally_closed_streams_highest_offset_ s) (frames_ s)
    (error_ s) (stream_type_ s)).
Implicit Types (s : QuicSession) (st : QuicStream) (c : QuicFlowController) (e : Env).

Definition connected (s : QuicSession) : bool := match error_ s with None => true | Some _ => false end.
Definition send_frames (s : QuicSession) (fs : list Frame) : QuicSession := s <| frames_ := frames_ s ++ fs |>.

(** src/quiche/gquiche/quic/core/quic_session.cc:955-960 [QuicSession::OnStreamError]
    The first error closes the connection. *)
Definition OnStreamError (s : QuicSession) (error : QuicErrorCode) : QuicSession :=
  if connected s then s <| error_ := Some error |> else s.

(** src/quiche/gquiche/quic/core/quic_session.cc:950-953 [QuicSession::SendWindowUpdate] *)
Definition Session_SendWindowUpdate (s : QuicSession) (out : list QuicWindowUpdateFrame) : QuicSession :=
  send_frames s (map WindowUpdate out).

(** src/quiche/gquiche/quic/core/quic_session.cc:892-905 [QuicSession::MaybeSendRstStreamFrame] *)
Definition MaybeSendRstStreamFrame (e : Env) (s : QuicSession) (id bytes_written : Z) : QuicSession :=
  if negb (connected s) then s
  else if negb (ietf e) || negb (bool_decide (stream_type_ s id = READ_UNIDIRECTIONAL))
  then send_frames s [RstStream id bytes_written] else s.

(** src/quiche/gquiche/quic/core/quic_session.cc:907-917 [QuicSession::MaybeSendStopSendingFrame] *)
Definition MaybeSendStopSendingFrame (e : Env) (s : QuicSession) (id : Z) : QuicSession :=
  if negb (connected s) then s
  else if ietf e && negb (bool_decide (stream_type_ s id = WRITE_UNIDIRECTIONAL))
  then send_frames s [StopSending id] else s.

(** * Accounting at both levels *)

(** src/quiche/gquiche/quic/core/quic_stream.cc:965-989 [QuicStream::MaybeIncreaseHighestReceivedOffset] *)
Definition MaybeIncreaseHighestReceivedOffset (s : QuicSession) (st : QuicStream) (new_offset : Z)
    : result (QuicSession * QuicStream * bool) :=
  match flow_controller_ st with
  | None => Fault CheckFailed
  | Some c =>
      let increment := new_offset ⊖ highest_received_byte_offset_ c in
      let '(c, updated) := UpdateHighestReceivedOffset c new_offset in
      if negb updated then Ok (s, st, false)
      else
        let st := st <| flow_controller_ := Some c |> in
        let s := when (stream_contributes_to_connection_flow_control_ st) (fun s =>
          let conn := session_flow_controller_ s in
          s <| session_flow_controller_ :=
                 fst (UpdateHighestReceivedOffset conn (highest_received_byte_offset_ conn ⊕ increment)) |>) s in
        Ok (s, st, true)
  end.

(** src/quiche/gquiche/quic/core/quic_stream.cc:991-1001 [QuicStream::AddBytesSent] *)
Definition AddBytesSent (s : QuicSession) (st : QuicStream) (bytes : Z) : result (QuicSession * QuicStream) :=
  match flow_controller_ st with
  | None => Fault CheckFailed
  | Some c =>
      let* c := FC_AddBytesSent c bytes in
      let st := st <| flow_controller_ := Some c |> in
      if stream_contributes_to_connection_flow_control_ st then
        let* conn := FC_AddBytesSent (session_flow_controller_ s) bytes in
        Ok (s <| session_flow_controller_ := conn |>, st)
      else Ok (s, st)
  end.

(** The connection's share of [AddBytesConsumed]. *)
Definition connection_consumed (e : Env) (s : QuicSession) (bytes : Z) : result QuicSession :=
  let* (conn, _, out) := FC_AddBytesConsumed e (connected s) (session_flow_controller_ s) None bytes in
  Ok (Session_SendWindowUpdate (s <| session_flow_controller_ := conn |>) out).

(** src/quiche/gquiche/quic/core/quic_stream.cc:1003-1024 [QuicStream::AddBytesConsumed] *)
Definition AddBytesConsumed (e : Env) (s : QuicSession) (st : QuicStream) (bytes : Z)
    : result (QuicSession * QuicStream) :=
  if bool_decide (type_ st = CRYPTO) then Ok (s, st)
  else
    match flow_controller_ st with
    | None => Fault CheckFailed
    | Some c =>
        let* (s, st) :=
          if negb (read_side_closed_ st) then
            let* (c, session, out) := FC_AddBytesConsumed e (connected s) c (Some (session_flow_controller_ s)) bytes in
            let conn := default (session_flow_controller_ s) session in
            Ok (Session_SendWindowUpdate (s <| session_flow_controller_ := conn |>) out,
                st <| flow_controller_ := Some c |>)
          else Ok (s, st) in
        if stream_contributes_to_connection_flow_control_ st then
          let* s := connection_consumed e s bytes in Ok (s, st)
        else Ok (s, st)
    end.

(** src/quiche/gquiche/quic/core/quic_stream.cc:944-963 [QuicStream::OnWindowUpdateFrame] *)
Definition Stream_OnWindowUpdateFrame (s : QuicSession) (st : QuicStream) (max_data : Z)
    : result (QuicSession * QuicStream) :=
  if bool_decide (type_ st = READ_UNIDIRECTIONAL) then
    Ok (OnStreamError s QUIC_WINDOW_UPDATE_RECEIVED_ON_READ_UNIDIRECTIONAL_STREAM, st)
  else
    match flow_controller_ st with
    | None => Fault CheckFailed
    | Some c => Ok (s, st <| flow_controller_ := Some (fst (UpdateSendWindowOffset c max_data)) |>)
    end.

(** src/quiche/gquiche/quic/core/quic_stream.cc:736-759 [QuicStream::MaybeSendBlocked] *)
Definition MaybeSendBlocked (e : Env) (s : QuicSession) (st : QuicStream) : result (QuicSession * QuicStream) :=
  match flow_controller_ st with
  | None => Fault CheckFailed
  | Some c =>
      let '(c, blocked) := ShouldSendBlocked c in
      let st := st <| flow_controller_ := Some c |> in
      let s := when blocked (fun s => send_frames s [Blocked (stream_id_ st)]) s in
      if negb (stream_contributes_to_connection_flow_control_ st) then Ok (s, st)
      else
        let '(conn, blocked) := ShouldSendBlocked (session_flow_controller_ s) in
        let s := s <| session_flow_controller_ := conn |> in
        Ok (when blocked (fun s => send_frames s [Blocked (GetInvalidStreamId (ietf e))]) s, st)
  end.

(** * Closing a stream *)

(** src/quiche/gquiche/quic/core/quic_session.cc:986-1027 [QuicSession::OnStreamClosed]
    The part up to the record of a stream whose end is not known yet. *)
Definition OnStreamClosed (s : QuicSession) (st : QuicStream) : result QuicSession :=
  match stream_map_ s !! stream_id_ st with
  | None => Fault CheckFailed
  | Some _ =>
      let s := s <| stream_map_ := delete (stream_id_ st) (stream_map_ s) |> in
      if negb (fin_received_ st || rst_received_ st) then
        let* _ := CHECK (negb (was_draining_ st)) in
        match flow_controller_ st with
        | None => Fault CheckFailed
        | Some c =>
            Ok (s <| locally_closed_streams_highest_offset_ :=
                       <[stream_id_ st := highest_received_byte_offset_ c]> (locally_closed_streams_highest_offset_ s) |>)
        end
      else Ok s
  end.

(** src/quiche/gquiche/quic/core/quic_stream.cc:914-942 [QuicStream::OnClose]
    With both sides closed [MaybeSendRstStream] only sends the frame. *)
Definition OnClose (e : Env) (s : QuicSession) (st : QuicStream) : result (QuicSession * QuicStream) :=
  let* _ := CHECK (read_side_closed_ st && write_side_closed_ st) in
  let* (s, st) :=
    if negb (fin_sent_ st) && negb (rst_sent_ st) then
      let* _ := CHECK (negb (connected s && ietf e)) in
      Ok (MaybeSendRstStreamFrame e s (stream_id_ st) (stream_bytes_written_ st), st <| rst_sent_ := true |>)
    else Ok (s, st) in
  match flow_controller_ st with
  | None => Ok (s, st)
  | Some c =>
      if FlowControlViolation c || FlowControlViolation (session_flow_controller_ s) then Ok (s, st)
      else
        let bytes_to_consume := highest_received_byte_offset_ c ⊖ bytes_consumed_ c in
        AddBytesConsumed e s st bytes_to_consume
  end.

(** src/quiche/gquiche/quic/core/quic_stream.cc:826-840 [QuicStream::CloseReadSide] *)
Definition CloseReadSide (e : Env) (s : QuicSession) (st : QuicStream) : result (QuicSession * QuicStream) :=
  if read_side_closed_ st then Ok (s, st)
  else
    let st := st <| read_side_closed_ := true |> in
    if write_side_closed_ st then let* s := OnStreamClosed s st in OnClose e s st else Ok (s, st).

(** src/quiche/gquiche/quic/core/quic_stream.cc:842-854 [QuicStream::CloseWriteSide] *)
Definition CloseWriteSide (e : Env) (s : QuicSession) (st : QuicStream) : result (QuicSession * QuicStream) :=
  if write_side_closed_ st then Ok (s, st)
  else
    let st := st <| write_side_closed_ := true |> in
    if read_side_closed_ st then let* s := OnStreamClosed s st in OnClose e s st else Ok (s, st).

(** src/quiche/gquiche/quic/core/quic_stream.cc:856-875 [QuicStream::MaybeSendStopSending]
    [no_error] says that the error is [QUIC_STREAM_NO_ERROR]; IETF versions
    are those that use HTTP/3. *)
Definition MaybeSendStopSending (e : Env) (s : QuicSession) (st : QuicStream) (no_error : bool)
    : result (QuicSession * QuicStream) :=
  if stop_sending_sent_ st then Ok (s, st)
  else if negb (ietf e) && negb no_error then Ok (s, st)
  else
    let s := if ietf e then MaybeSendStopSendingFrame e s (stream_id_ st)
             else MaybeSendRstStreamFrame e s (stream_id_ st) (stream_bytes_written_ st) in
    CloseReadSide e s (st <| stop_sending_sent_ := true |>).

(** src/quiche/gquiche/quic/core/quic_stream.cc:877-890 [QuicStream::MaybeSendRstStream] *)
Definition MaybeSendRstStream (e : Env) (s : QuicSession) (st : QuicStream) (no_error : bool)
    : result (QuicSession * QuicStream) :=
  if rst_sent_ st then Ok (s, st)
  else
    let* (s, st) :=
      if negb (ietf e) then
        let* _ := CHECK (negb no_error) in
        CloseReadSide e s (st <| stop_sending_sent_ := true |>)
      else Ok (s, st) in
    let s := MaybeSendRstStreamFrame e s (stream_id_ st) (stream_bytes_written_ st) in
    CloseWriteSide e s (st <| rst_sent_ := true |>).

(** src/quiche/gquiche/quic/core/quic_stream.cc:594-604 [QuicStream::Reset] *)
Definition Stream_Reset (e : Env) (s : QuicSession) (st : QuicStream) (no_error : bool)
    : result (QuicSession * QuicStream) :=
  let* (s, st) := MaybeSendStopSending e s st no_error in
  MaybeSendRstStream e s st no_error.

(** src/quiche/gquiche/quic/core/quic_stream.cc:491-512 [QuicStream::OnStopSending]
    [waiting] is [IsWaitingForAcks]. *)
Definition OnStopSending (e : Env) (s : QuicSession) (st : QuicStream) (waiting no_error : bool)
    : result (QuicSession * QuicStream) :=
  if write_side_closed_ st && negb waiting then Ok (s, st)
  else if is_static_ st then Ok (OnStreamError s QUIC_INVALID_STREAM_ID, st)
  else MaybeSendRstStream e s st no_error.

(** * Receiving *)

(** src/quiche/gquiche/quic/core/quic_stream_sequencer.cc:128-156 [QuicStreamSequencer::CloseStreamAtOffset]
    The stream closes itself later, when its bytes have been read. *)
Definition CloseStreamAtOffset (s : QuicSession) (st : QuicStream) (offset : Z) : QuicSession * QuicStream * bool :=
  if negb (close_offset_ st =? two64 - 1) && negb (offset =? close_offset_ st) then
    (OnStreamError s QUIC_STREAM_SEQUENCER_INVALID_STATE, st, false)
  else if offset <? highest_offset_ st then (OnStreamError s QUIC_STREAM_SEQUENCER_INVALID_STATE, st, false)
  else (s, st <| close_offset_ := offset |>, true).

(** src/quiche/gquiche/quic/core/quic_stream_sequencer_buffer.cc:115-132 [QuicStreamSequencerBuffer::OnStreamData]
    The checks on a frame's range; the bytes read from the buffer are those
    the stream's controller has counted as consumed, and the capacity is that of
    the sequencer's constructor. *)
Definition buffer_check (st : QuicStream) (starting_offset size : Z) : result (option QuicErrorCode) :=
  if size =? 0 then Ok (Some QUIC_EMPTY_STREAM_FRAME_NO_FIN)
  else
    match flow_controller_ st with
    | None => Fault CheckFailed
    | Some c =>
        if (bytes_consumed_ c ⊕ kStreamReceiveWindowLimit <? starting_offset ⊕ size) ||
           (starting_offset ⊕ size <? starting_offset)
        then Ok (Some QUIC_INTERNAL_ERROR) else Ok None
    end.

(** src/quiche/gquiche/quic/core/quic_stream_sequencer.cc:76-94 [QuicStreamSequencer::OnFrameData]
    Up to the storing of the bytes. *)
Definition OnFrameData (s : QuicSession) (st : QuicStream) (byte_offset data_len : Z) : result (QuicSession * QuicStream) :=
  let* error := buffer_check st byte_offset data_len in
  let st := st <| highest_offset_ := Z.max (highest_offset_ st) (byte_offset ⊕ data_len) |> in
  match error with
  | Some err => Ok (OnStreamError s err, st)
  | None => Ok (s, st)
  end.

(** src/quiche/gquiche/quic/core/quic_stream_sequencer.cc:49-69 [QuicStreamSequencer::OnStreamFrame]
    With [quic_accept_empty_stream_frame_with_no_fin] on, its default. *)
Definition Sequencer_OnStreamFrame (e : Env) (s : QuicSession) (st : QuicStream) (offset data_len : Z) (fin : bool)
    : result (QuicSession * QuicStream) :=
  let* _ := CHECK (offset ⊕ data_len <=? close_offset_ st) in
  let '(s, st, go_on) :=
    if fin then
      let '(s, st, closed) := CloseStreamAtOffset s st (offset ⊕ data_len) in
      (s, st, closed && negb (data_len =? 0))
    else (s, st, true) in
  if negb go_on then Ok (s, st)
  else if ietf e && (data_len =? 0) then let* _ := CHECK (negb fin) in Ok (s, st)
  else OnFrameData s st offset data_len.

(** src/quiche/gquiche/quic/core/quic_stream.cc:449-457 [QuicStream::OnStreamFrame]
    The first FIN; a stream whose own FIN was sent is then draining. *)
Definition note_fin (st : QuicStream) (fin : bool) : result QuicStream :=
  if fin && negb (fin_received_ st) then
    let st := st <| fin_received_ := true |> in
    if fin_sent_ st then
      let* _ := CHECK (negb (was_draining_ st)) in Ok (st <| was_draining_ := true |>)
    else Ok st
  else Ok st.

(** src/quiche/gquiche/quic/core/quic_stream.cc:405-489 [QuicStream::OnStreamFrame] *)
Definition Stream_OnStreamFrame (e : Env) (s : QuicSession) (st : QuicStream) (offset data_length : Z) (fin : bool)
    : result (QuicSession * QuicStream) :=
  let* _ := CHECK (negb (read_side_closed_ st && write_side_closed_ st)) in
  if fin && is_static_ st then Ok (OnStreamError s QUIC_INVALID_STREAM_ID, st)
  else if bool_decide (type_ st = WRITE_UNIDIRECTIONAL) then
    Ok (OnStreamError s QUIC_DATA_RECEIVED_ON_WRITE_UNIDIRECTIONAL_STREAM, st)
  else if (kMaxStreamLength <? offset) || (kMaxStreamLength ⊖ offset <? data_length) then
    Ok (OnStreamError s QUIC_STREAM_LENGTH_OVERFLOW, st)
  else if close_offset_ st <? offset ⊕ data_length then
    Ok (OnStreamError s QUIC_STREAM_DATA_BEYOND_CLOSE_OFFSET, st)
  else
    let* st := note_fin st fin in
    if read_side_closed_ st then Ok (s, st)
    else
      let st := st <| stream_bytes_read_ := stream_bytes_read_ st ⊕ data_length |> in
      let* (s, st, increased) :=
        if 0 <? data_length then MaybeIncreaseHighestReceivedOffset s st (offset ⊕ data_length)
        else Ok (s, st, false) in
      let* violation :=
        if increased then
          match flow_controller_ st with
          | None => Fault CheckFailed
          | Some c => Ok (FlowControlViolation c || FlowControlViolation (session_flow_controller_ s))
          end
        else Ok false in
      if violation then Ok (OnStreamError s QUIC_FLOW_CONTROL_RECEIVED_TOO_MUCH_DATA, st)
      else Sequencer_OnStreamFrame e s st offset data_length fin.

(** src/quiche/gquiche/quic/core/quic_stream.cc:522-562 [QuicStream::OnStreamReset] *)
Definition OnStreamReset (e : Env) (s : QuicSession) (st : QuicStream) (byte_offset : Z)
    : result (QuicSession * QuicStream) :=
  let st := st <| rst_received_ := true |> in
  if kMaxStreamLength <? byte_offset then Ok (OnStreamError s QUIC_STREAM_LENGTH_OVERFLOW, st)
  else if negb (close_offset_ st =? two64 - 1) && negb (byte_offset =? close_offset_ st) then
    Ok (OnStreamError s QUIC_STREAM_MULTIPLE_OFFSET, st)
  else
    let* (s, st, _) := MaybeIncreaseHighestReceivedOffset s st byte_offset in
    match flow_controller_ st with
    | None => Fault CheckFailed
    | Some c =>
        if FlowControlViolation c || FlowControlViolation (session_flow_controller_ s) then
          Ok (OnStreamError s QUIC_FLOW_CONTROL_RECEIVED_TOO_MUCH_DATA, st)
        else
          let* (s, st) := if negb (ietf e) then CloseWriteSide e s st else Ok (s, st) in
          CloseReadSide e s st
    end.

(** src/quiche/gquiche/quic/core/quic_stream.cc:578-587 [QuicStream::OnFinRead]
    The sequencer is closed when all bytes up to its close offset are consumed. *)
Definition OnFinRead (e : Env) (s : QuicSession) (st : QuicStream) : result (QuicSession * QuicStream) :=
  let* _ := CHECK (match flow_controller_ st with Some c => close_offset_ st <=? bytes_consumed_ c | None => false end) in
  CloseReadSide e s (st <| fin_received_ := true |>).

(** * Writing *)

(** src/quiche/gquiche/quic/core/quic_stream.cc:1278-1302 [QuicStream::WriteBufferedData]
    After the bytes have been charged. *)
Definition after_write (e : Env) (s : QuicSession) (st : QuicStream) (write_length : Z) (fin fin_with_zero_data : bool)
    (accepted : Z) (fin_consumed : bool) : result (QuicSession * QuicStream) :=
  if write_side_closed_ st then Ok (s, st)
  else if accepted =? write_length then
    let* (s, st) := if negb fin_with_zero_data then MaybeSendBlocked e s st else Ok (s, st) in
    if fin && fin_consumed then
      let* _ := CHECK (negb (fin_sent_ st)) in
      let st := st <| fin_sent_ := true |> in
      let* st :=
        if fin_received_ st then
          let* _ := CHECK (negb (was_draining_ st)) in Ok (st <| was_draining_ := true |>)
        else Ok st in
      CloseWriteSide e s st
    else Ok (s, st)
  else Ok (s, st).

(** src/quiche/gquiche/quic/core/quic_stream.cc:1212-1306 [QuicStream::WriteBufferedData]
    [buffered] and [fin_buffered] are what the send buffer holds, [accepted] and
    [fin_consumed] what [WritevData] reports to have written; the frame it
    writes is logged.  The write-blocked list is left out. *)
Definition WriteBufferedData (e : Env) (s : QuicSession) (st : QuicStream) (should_yield : bool) (buffered : Z)
    (fin_buffered : bool) (accepted : Z) (fin_consumed : bool) : result (QuicSession * QuicStream) :=
  let* _ := CHECK (negb (write_side_closed_ st) && ((0 <? buffered) || fin_buffered)) in
  if should_yield then Ok (s, st)
  else
    let fin_with_zero_data := fin_buffered && (buffered =? 0) in
    let* send_window := match flow_controller_ st with Some c => Ok (SendWindowSize c) | None => Fault CheckFailed end in
    let send_window := if stream_contributes_to_connection_flow_control_ st
                       then Z.min send_window (SendWindowSize (session_flow_controller_ s)) else send_window in
    if (send_window =? 0) && negb fin_with_zero_data then MaybeSendBlocked e s st
    else
      let '(write_length, fin) := if send_window <? buffered then (send_window, false) else (buffered, fin_buffered) in
      let s := when ((0 <? accepted) || fin_consumed) (fun s =>
        send_frames s [StreamFrame (stream_id_ st) (stream_bytes_written_ st) accepted fin_consumed]) s in
      let st := st <| stream_bytes_written_ := stream_bytes_written_ st ⊕ accepted |> in
      let* (s, st) := AddBytesSent s st accepted in
      after_write e s st write_length fin fin_with_zero_data accepted fin_consumed.

(** * The session *)

(** src/quiche/gquiche/quic/core/quic_session.cc:1070-1094 [QuicSession::OnFinalByteOffsetReceived] *)
Definition OnFinalByteOffsetReceived (e : Env) (s : QuicSession) (id final_byte_offset : Z) : result QuicSession :=
  match locally_closed_streams_highest_offset_ s !! id with
  | None => Ok s
  | Some highest =>
      let offset_diff := final_byte_offset ⊖ highest in
      let conn := session_flow_controller_ s in
      let '(conn, updated) := UpdateHighestReceivedOffset conn (highest_received_byte_offset_ conn ⊕ offset_diff) in
      let s := s <| session_flow_controller_ := conn |> in
      if updated && FlowControlViolation conn then Ok (OnStreamError s QUIC_FLOW_CONTROL_RECEIVED_TOO_MUCH_DATA)
      else
        let* s := connection_consumed e s offset_diff in
        Ok (s <| locally_closed_streams_highest_offset_ := delete id (locally_closed_streams_highest_offset_ s) |>)
  end.

(** The stream of an operation is put back unless the operation closed it. *)
Definition store (r : QuicSession * QuicStream) : QuicSession :=
  let '(s, st) := r in
  if read_side_closed_ st && write_side_closed_ st then s
  else s <| stream_map_ := <[stream_id_ st := st]> (stream_map_ s) |>.

(** src/quiche/gquiche/quic/core/quic_session.cc:199-230 [QuicSession::OnStreamFrame] *)
Definition OnStreamFrame (e : Env) (s : QuicSession) (id offset data_length : Z) (fin : bool) : result QuicSession :=
  if id =? GetInvalidStreamId (ietf e) then Ok (OnStreamError s QUIC_INVALID_STREAM_ID)
  else
    match stream_map_ s !! id with
    | None => if fin then OnFinalByteOffsetReceived e s id (offset ⊕ data_length) else Ok s
    | Some st => let* r := Stream_OnStreamFrame e s st offset data_length fin in Ok (store r)
    end.

(** src/quiche/gquiche/quic/core/quic_session.cc:327-366 [QuicSession::OnRstStream]
    Only closed streams have a recorded offset, so the check of
    [HandleRstOnValidNonexistentStream] for one is implied. *)
Definition OnRstStream (e : Env) (s : QuicSession) (id byte_offset : Z) : result QuicSession :=
  if id =? GetInvalidStreamId (ietf e) then Ok (OnStreamError s QUIC_INVALID_STREAM_ID)
  else if ietf e && bool_decide (stream_type_ s id = WRITE_UNIDIRECTIONAL) then
    Ok (OnStreamError s QUIC_INVALID_STREAM_ID)
  else
    match stream_map_ s !! id with
    | None => OnFinalByteOffsetReceived e s id byte_offset
    | Some st => let* r := OnStreamReset e s st byte_offset in Ok (store r)
    end.

(** src/quiche/gquiche/quic/core/quic_session.cc:481-513 [QuicSession::OnWindowUpdateFrame] *)
Definition OnWindowUpdateFrame (e : Env) (s : QuicSession) (frame : QuicWindowUpdateFrame) : result QuicSession :=
  if stream_id frame =? GetInvalidStreamId (ietf e) then
    Ok (s <| session_flow_controller_ := fst (UpdateSendWindowOffset (session_flow_controller_ s) (max_data frame)) |>)
  else if ietf e && bool_decide (stream_type_ s (stream_id frame) = READ_UNIDIRECTIONAL) then
    Ok (OnStreamError s QUIC_WINDOW_UPDATE_RECEIVED_ON_READ_UNIDIRECTIONAL_STREAM)
  else
    match stream_map_ s !! stream_id frame with
    | None => Ok s
    | Some st => let* r := Stream_OnWindowUpdateFrame s st (max_data frame) in Ok (store r)
    end.

(** An operation on a stream that the application still holds. *)
Definition on_stream (s : QuicSession) (id : Z) (f : QuicStream -> result (QuicSession * QuicStream)) : result QuicSession :=
  match stream_map_ s !! id with
  | None => Ok s
  | Some st => let* r := f st in Ok (store r)
  end.

(** src/quiche/gquiche/quic/core/quic_stream.cc:297-315 [FlowController] *)
Definition FlowController (e : Env) (s : QuicSession) (id send_window receive_window : Z) (type : StreamType)
    : result (option QuicFlowController) :=
  if bool_decide (type = CRYPTO) then Ok None
  else
    let* c := QuicFlowController_init e id false send_window receive_window kStreamReceiveWindowLimit
                (auto_tune_receive_window_ (session_flow_controller_ s)) in
    Ok (Some c).

(** src/quiche/gquiche/quic/core/quic_stream.cc:335-390 [QuicStream::QuicStream]
    Created by an application or for an incoming frame, and put in the map; a
    version without IETF frames keeps the type it is given. *)
Definition CreateStream (e : Env) (s : QuicSession) (id send_window receive_window : Z) (is_static : bool)
    (type : StreamType) : result QuicSession :=
  let* fc := FlowController e s id send_window receive_window type in
  let ty := if ietf e && negb (bool_decide (type = CRYPTO)) then stream_type_ s id else type in
  let st := mkStream id is_static ty fc true false false false false false false false false 0 0 0 (two64 - 1) in
  let st := if bool_decide (ty = WRITE_UNIDIRECTIONAL) then
              st <| fin_received_ := true |> <| read_side_closed_ := true |>
            else if bool_decide (ty = READ_UNIDIRECTIONAL) then
              st <| fin_sent_ := true |> <| write_side_closed_ := true |>
            else st in
  Ok (s <| stream_map_ := <[id := st]> (stream_map_ s) |>).

(** src/quiche/gquiche/quic/core/quic_session.cc:96-105 [QuicSession::QuicSession]
    The controller of the connection; a server tunes its windows. *)
Definition QuicSession_init (e : Env) (send_window receive_window : Z) (is_server : bool)
    (stream_type : Z -> StreamType) : result QuicSession :=
  let* c := QuicFlowController_init e (GetInvalidStreamId (ietf e)) true send_window receive_window
              kSessionReceiveWindowLimit is_server in
  Ok (mkSession c ∅ ∅ [] None stream_type).

(** * Bytes that are never given back

    A peer writes 60 bytes on a stream and then its FIN, in a frame of its own
    that arrives first.  This end then resets the stream, and the bytes arrive.
    The FIN counts as the end of the stream being known, so nothing is recorded
    for the closed stream, but a frame without data does not raise the highest
    offset received: the connection's controller has not counted, and will
    never count, the 60 bytes that the peer has charged to its window. *)
Definition empty_fin_run (e : Env) : result QuicSession :=
  let* s := QuicSession_init e 1000 1000 true (fun _ => BIDIRECTIONAL) in
  let* s := CreateStream e s 4 1000 1000 false BIDIRECTIONAL in
  let* s := OnStreamFrame e s 4 60 0 true in
  let* s := on_stream s 4 (fun st => Stream_Reset e s st false) in
  let* s := OnStreamFrame e s 4 0 60 false in
  OnStreamFrame e s 4 60 0 true.

Lemma empty_fin_leaks :
  exists s, empty_fin_run sample_env = Ok s /\ error_ s = None /\
    stream_map_ s = ∅ /\ locally_closed_streams_highest_offset_ s = ∅ /\
    highest_received_byte_offset_ (session_flow_controller_ s) = 0 /\
    bytes_consumed_ (session_flow_controller_ s) = 0.
Proof. eexists. split; [vm_compute; reflexivity|]. vm_compute. done. Qed.
