(* ===== verification/FlowSafety.v ===== *)
(** The invariant of one session under flow control, and that every operation of
    StreamFlow.v keeps it and completes, given what is known of the peer: the
    bytes per stream the session counts as sent, received and consumed are
    those of a ghost account, the connection's counters are their sums, and its
    frames promise no more than the offsets it stands by.  [evolves] says how an
    operation may change the session as the peer sees it. *)

From stdpp Require Import gmap.
From S2P Require Import Prelude MapSum Float QuicTime FlowController StreamFlow.

(** What is known of one end, per stream: the bytes it sent, the final size once
    it has sent a FIN or a reset, the bytes it received (the highest offset) and
    the bytes it consumed. *)
Record Ghost := mkGhost {
  sent : gmap Z Z;
  final : gmap Z Z;
  recv : gmap Z Z;
  cons : gmap Z Z;
}.
#[export] Instance eta_Ghost : Eta Ghost := MkEta _ (fun g => mkGhost (sent g) (final g) (recv g) (cons g)).

(** A session with the stream of an operation under way put back. *)
Definition put (s : QuicSession) (st : QuicStream) : QuicSession :=
  s <| stream_map_ := <[stream_id_ st := st]> (stream_map_ s) |>.

Section Invariant.

(** The version, and the windows this end grants at first to a stream and to
    the connection. *)
Variable ietf_version : bool.
Variables W C : Z.
Abbreviation invalid := (GetInvalidStreamId ietf_version).

Record conn_ok (c : QuicFlowController) (g : Ghost) : Prop := {
  co_conn : is_connection_flow_controller_ c = true;
  co_send : send_ok c;
  co_sent : bytes_sent_ c = sum_sizes (sent g);
  co_recv : recv_ok c;
  co_highest : highest_received_byte_offset_ c = sum_sizes (recv g);
  co_consumed : bytes_consumed_ c = sum_sizes (cons g);
  co_grant : C <= receive_window_offset_ c;
}.

Record stream_ok (j : Z) (st : QuicStream) (c : QuicFlowController) (g : Ghost) : Prop := {
  so_fc : flow_controller_ st = Some c;
  so_id : stream_id_ st = j /\ id_ c = j /\ is_connection_flow_controller_ c = false;
  so_kind : type_ st = BIDIRECTIONAL /\ is_static_ st = false /\ stream_contributes_to_connection_flow_control_ st = true;
  so_send : send_ok c /\ bytes_sent_ c = at_ (sent g) j /\ stream_bytes_written_ st = at_ (sent g) j;
  so_recv : recv_ok c /\ highest_received_byte_offset_ c = at_ (recv g) j /\ bytes_consumed_ c = at_ (cons g) j;
  so_grant : W <= receive_window_offset_ c /\ receive_window_size_limit_ c = kStreamReceiveWindowLimit;
  so_write : write_side_closed_ st = true <-> is_Some (final g !! j);
  so_ends : write_side_closed_ st = true <-> fin_sent_ st = true \/ rst_sent_ st = true;
  so_draining : was_draining_ st = true -> fin_received_ st = true /\ fin_sent_ st = true;
  so_offset : highest_offset_ st <= highest_received_byte_offset_ c;
}.

(** The frames a session has sent promise no more than what it stands by. *)
Definition frame_ok (s : QuicSession) (opened : gset Z) (g : Ghost) (f : Frame) : Prop :=
  match f with
  | StreamFrame j o l fin => 0 <= o /\ 0 <= l /\ (l = 0 -> fin = true) /\ o + l <= at_ (sent g) j /\
                             (fin = true -> final g !! j = Some (o + l)) /\ j ∈ opened
  | RstStream j o => final g !! j = Some o /\ j ∈ opened
  | WindowUpdate w => 0 <= max_data w < two64 /\
      if decide (stream_id w = invalid) then max_data w <= receive_window_offset_ (session_flow_controller_ s)
      else stream_id w ∈ opened /\
           forall st c, stream_map_ s !! stream_id w = Some st -> flow_controller_ st = Some c ->
                        max_data w <= receive_window_offset_ c
  | StopSending _ | Blocked _ => True
  end.

Record sess_inv (s : QuicSession) (opened : gset Z) (g : Ghost) : Prop := {
  si_error : error_ s = None;
  si_conn : conn_ok (session_flow_controller_ s) g;
  si_streams : forall j st, stream_map_ s !! j = Some st -> j ∈ opened /\ exists c, stream_ok j st c g;
  si_closed : forall j, stream_map_ s !! j = None -> at_ (cons g) j = at_ (recv g) j;
  si_recorded : forall j o, locally_closed_streams_highest_offset_ s !! j = Some o ->
                  j ∈ opened /\ at_ (recv g) j = o /\ stream_map_ s !! j = None;
  si_final : forall j n, final g !! j = Some n -> at_ (sent g) j = n;
  si_frames : Forall (frame_ok s opened g) (frames_ s);
  si_counts : forall j, 0 <= at_ (sent g) j /\ 0 <= at_ (cons g) j <= at_ (recv g) j;
  si_fresh : forall j, j ∉ opened -> at_ (sent g) j = 0 /\ at_ (recv g) j = 0 /\ final g !! j = None;
  si_valid : invalid ∉ opened;
  si_small : sum_sizes (sent g) < 2 ^ 62 /\ sum_sizes (recv g) < 2 ^ 62;
  si_types : forall j, stream_type_ s j = BIDIRECTIONAL;
}.

(** No stream is left in the map with both sides closed. *)
Definition live (s : QuicSession) : Prop :=
  map_Forall (fun _ st => read_side_closed_ st && write_side_closed_ st = false) (stream_map_ s).

Lemma put_id s st : stream_map_ s !! stream_id_ st = Some st -> put s st = s.
Proof. intros Hs. unfold put. rewrite insert_id by done. by destruct s. Qed.

Lemma sess_stream s opened g st : sess_inv (put s st) opened g -> exists c, stream_ok (stream_id_ st) st c g.
Proof. intros Hs. apply (si_streams _ _ _ Hs (stream_id_ st)). cbn. apply lookup_insert_eq. Qed.

(** Promises made are kept while offsets grow. *)
Lemma frame_ok_mono s s' opened g g' f :
  (forall k, at_ (sent g) k <= at_ (sent g') k) -> (forall k n, final g !! k = Some n -> final g' !! k = Some n) ->
  receive_window_offset_ (session_flow_controller_ s) <= receive_window_offset_ (session_flow_controller_ s') ->
  (forall k st' c', stream_map_ s' !! k = Some st' -> flow_controller_ st' = Some c' ->
     exists st c, stream_map_ s !! k = Some st /\ flow_controller_ st = Some c /\
                  receive_window_offset_ c <= receive_window_offset_ c') ->
  frame_ok s opened g f -> frame_ok s' opened g' f.
Proof.
  intros Hsent Hfin Hconn Hstr. destruct f as [j o l fin|j o|j|j|w]; cbn; try done.
  - specialize (Hsent j). intros (? & ? & ? & ? & Hf & ?). repeat split; try done; [lia|]. intros E. by apply Hfin, Hf.
  - intros [Hf ?]. split; [by apply Hfin|done].
  - intros [H0 Hw]. split; [done|]. case_decide; [lia|]. destruct Hw as [? Hw]. split; [done|].
    intros st' c' Hst Hc. destruct (Hstr _ _ _ Hst Hc) as (st & c & X1 & X2 & X3). specialize (Hw _ _ X1 X2). lia.
Qed.

(** The ghost states agree on all streams but one. *)
Record same_off (j : Z) (g g' : Ghost) : Prop := {
  off_sent : forall k, k <> j -> at_ (sent g') k = at_ (sent g) k;
  off_final : forall k, k <> j -> final g' !! k = final g !! k;
  off_recv : forall k, k <> j -> at_ (recv g') k = at_ (recv g) k;
  off_cons : forall k, k <> j -> at_ (cons g') k = at_ (cons g) k;
}.

Lemma stream_ok_off j g g' k st c : same_off j g g' -> k <> j -> stream_ok k st c g -> stream_ok k st c g'.
Proof.
  intros [O1 O2 O3 O4] Hk []. constructor; try done.
  - by rewrite O1.
  - by rewrite O3, O4.
  - by rewrite O2.
Qed.

(** What an operation on stream [j] may do to the counts of [j]. *)
Record counts_step (j : Z) (g g' : Ghost) : Prop := {
  cs_sent : 0 <= at_ (sent g) j <= at_ (sent g') j;
  cs_cons : 0 <= at_ (cons g') j <= at_ (recv g') j;
  cs_final : forall n, final g' !! j = Some n -> at_ (sent g') j = n;
  cs_keeps : forall n, final g !! j = Some n -> final g' !! j = Some n;
}.

Lemma counts_mono j g g' : same_off j g g' -> counts_step j g g' ->
  (forall k, at_ (sent g) k <= at_ (sent g') k) /\ (forall k n, final g !! k = Some n -> final g' !! k = Some n).
Proof.
  intros [O1 O2 O3 O4] [K1 K2 K3 K4]. split; intros k; destruct (decide (k = j)) as [->|Hk]; try (lia || done).
  - rewrite O1 by done. lia.
  - by rewrite O2.
Qed.

(** An operation on a stream that leaves it in the map. *)
Lemma sess_update s s' st st' c c' opened g g' fs (j := stream_id_ st) :
  sess_inv (put s st) opened g -> flow_controller_ st = Some c ->
  stream_ok j st' c' g' -> conn_ok (session_flow_controller_ s') g' ->
  stream_map_ s' = stream_map_ s -> stream_type_ s' = stream_type_ s -> error_ s' = None ->
  locally_closed_streams_highest_offset_ s' = locally_closed_streams_highest_offset_ s ->
  same_off j g g' -> counts_step j g g' ->
  receive_window_offset_ (session_flow_controller_ s) <= receive_window_offset_ (session_flow_controller_ s') ->
  receive_window_offset_ c <= receive_window_offset_ c' ->
  frames_ s' = frames_ s ++ fs -> Forall (frame_ok (put s' st') opened g') fs ->
  sum_sizes (sent g') < 2 ^ 62 -> sum_sizes (recv g') < 2 ^ 62 ->
  sess_inv (put s' st') opened g'.
Proof.
  intros Hs Hc Hst' Hconn Em Et Ee El Ho Hk Hgc Hg Hf Hfs Hsm1 Hsm2.
  destruct (counts_mono j g g' Ho Hk) as [Hm1 Hm2].
  assert (Ej : stream_id_ st' = j) by apply Hst'.
  destruct (si_streams _ _ _ Hs j st ltac:(apply lookup_insert_eq)) as [Hj _].
  assert (Elk : forall k, k <> j -> stream_map_ (put s' st') !! k = stream_map_ (put s st) !! k).
  { intros k Hkj. cbn. rewrite Ej, Em. by rewrite !lookup_insert_ne. }
  constructor; cbn [put set_field error_ session_flow_controller_ stream_type_ frames_ locally_closed_streams_highest_offset_]; try done.
  - intros k st1 H1. destruct (decide (k = j)) as [->|Hkj].
    + cbn in H1. rewrite Ej, lookup_insert_eq in H1. injection H1 as <-. split; [done|]. by exists c'.
    + rewrite Elk in H1 by done. apply (si_streams _ _ _ Hs) in H1 as [? (c1 & H1)]. split; [done|].
      exists c1. by eapply stream_ok_off.
  - intros k H1. destruct (decide (k = j)) as [->|Hkj]; [cbn in H1; rewrite Ej, lookup_insert_eq in H1; done|].
    rewrite Elk in H1 by done. rewrite (off_cons _ _ _ Ho), (off_recv _ _ _ Ho) by done. by apply (si_closed _ _ _ Hs).
  - rewrite El. intros k o H1. destruct (si_recorded _ _ _ Hs k o H1) as (H2 & H3 & H4). destruct (decide (k = j)) as [->|Hkj].
    + cbn in H4. unfold j in H4. rewrite lookup_insert_eq in H4. done.
    + rewrite Elk, (off_recv _ _ _ Ho) by done. done.
  - intros k n H1. destruct (decide (k = j)) as [->|Hkj]; [by apply (cs_final _ _ _ Hk)|].
    rewrite (off_final _ _ _ Ho) in H1 by done. rewrite (off_sent _ _ _ Ho) by done. by apply (si_final _ _ _ Hs).
  - rewrite Hf. apply Forall_app. split; [|done]. eapply Forall_impl; [apply (si_frames _ _ _ Hs)|].
    intros f. apply frame_ok_mono; try done. intros k st1 c1 H1 Hc1. destruct (decide (k = j)) as [->|Hkj].
    + cbn in H1. rewrite Ej, lookup_insert_eq in H1. injection H1 as <-. exists st, c. split; [apply lookup_insert_eq|].
      split; [done|]. rewrite (so_fc _ _ _ _ Hst') in Hc1. by injection Hc1 as <-.
    + rewrite Elk in H1 by done. exists st1, c1. done.
  - intros k. pose proof (si_counts _ _ _ Hs k) as H1. destruct (decide (k = j)) as [->|Hkj].
    + pose proof (cs_sent _ _ _ Hk). pose proof (cs_cons _ _ _ Hk). lia.
    + rewrite (off_sent _ _ _ Ho), (off_cons _ _ _ Ho), (off_recv _ _ _ Ho) by done. done.
  - intros k Hk'. assert (k <> j) by congruence. rewrite (off_sent _ _ _ Ho), (off_recv _ _ _ Ho), (off_final _ _ _ Ho) by done.
    by apply (si_fresh _ _ _ Hs).
  - apply (si_valid _ _ _ Hs).
  - rewrite Et. apply (si_types _ _ _ Hs).
Qed.

(** The offset a controller grants is the one it granted, or one announced. *)
Definition told (s' : QuicSession) (k : Z) (c c' : QuicFlowController) : Prop :=
  receive_window_offset_ c' = receive_window_offset_ c \/
  WindowUpdate (mkWindowUpdate k (receive_window_offset_ c')) ∈ frames_ s'.

(** How a session changes in one operation, the peer being [p] with counts [h]:
    it takes back no frame and no byte sent, its send limits are those it had
    or later ones of a window update the peer has sent, the offsets it grants
    are those it granted before or announced in a frame, and it counts as
    received, and as the end of a stream, what the peer has sent. *)
Record evolves (p : QuicSession) (h : Ghost) (s s' : QuicSession) (g g' : Ghost) : Prop := {
  ev_frames : frames_ s ⊆ frames_ s';
  ev_sent : forall k, at_ (sent g) k <= at_ (sent g') k;
  ev_within : forall k, at_ (sent g') k = at_ (sent g) k \/
    exists st c, stream_map_ s !! k = Some st /\ flow_controller_ st = Some c /\ at_ (sent g') k <= send_window_offset_ c;
  ev_final : forall k n, final g !! k = Some n -> final g' !! k = Some n;
  ev_conn : send_window_offset_ (session_flow_controller_ s') = send_window_offset_ (session_flow_controller_ s) \/
    send_window_offset_ (session_flow_controller_ s) <= send_window_offset_ (session_flow_controller_ s') /\
    WindowUpdate (mkWindowUpdate invalid (send_window_offset_ (session_flow_controller_ s'))) ∈ frames_ p;
  ev_announced : told s' invalid (session_flow_controller_ s) (session_flow_controller_ s');
  ev_streams : forall k st' c', stream_map_ s' !! k = Some st' -> flow_controller_ st' = Some c' ->
    exists st c, stream_map_ s !! k = Some st /\ flow_controller_ st = Some c /\
      (send_window_offset_ c' = send_window_offset_ c \/ send_window_offset_ c <= send_window_offset_ c' /\
       WindowUpdate (mkWindowUpdate k (send_window_offset_ c')) ∈ frames_ p) /\
      (close_offset_ st' = close_offset_ st \/ final h !! k = Some (close_offset_ st')) /\ told s' k c c';
  ev_recv : forall k, at_ (recv g') k = at_ (recv g) k \/ at_ (recv g') k <= at_ (sent h) k;
}.

Lemma evolves_refl p h s g : evolves p h s s g g.
Proof. constructor; try done; auto; [by left|]. intros k st' c' H1 H2. exists st', c'. unfold told. auto 6. Qed.

(** Between two changes the send limits stay; only the last may move them. *)
Lemma evolves_trans p h s1 s2 s3 g1 g2 g3 :
  evolves p h s1 s2 g1 g2 -> evolves p h s2 s3 g2 g3 ->
  (forall k st c, stream_map_ s2 !! k = Some st -> flow_controller_ st = Some c ->
     exists st0 c0, stream_map_ s1 !! k = Some st0 /\ flow_controller_ st0 = Some c0 /\
                    send_window_offset_ c = send_window_offset_ c0) ->
  evolves p h s1 s3 g1 g3.
Proof.
  intros [A1 A2 A3 A4 A5 A5' A6 A7] [B1 B2 B3 B4 B5 B5' B6 B7] Hswo.
  assert (Htold : forall k c1 c2 c3, told s2 k c1 c2 -> told s3 k c2 c3 -> told s3 k c1 c3).
  { intros k c1 c2 c3 [T1|T1] [T2|T2]; [left; congruence|by right|right; rewrite T2; set_solver|by right]. }
  constructor.
  - set_solver.
  - intros k. specialize (A2 k). specialize (B2 k). lia.
  - intros k. destruct (B3 k) as [->|(st & c & H1 & H2 & H3)]; [apply A3|].
    destruct (Hswo _ _ _ H1 H2) as (st0 & c0 & H4 & H5 & H6). right. exists st0, c0. rewrite <- H6. done.
  - auto.
  - destruct B5 as [->|[B5 ?]]; [done|right]. split; [destruct A5 as [<-|[? _]]; lia|done].
  - by eapply Htold.
  - intros k st3 c3 H1 H2. destruct (B6 _ _ _ H1 H2) as (st2 & c2 & H3 & H4 & H5 & H6 & T2).
    destruct (A6 _ _ _ H3 H4) as (st1 & c1 & H7 & H8 & H9 & H10 & T1). exists st1, c1. split; [done|]. split; [done|].
    split; [|split; [|by eapply Htold]].
    + destruct H5 as [->|[H5 ?]]; [done|right]. split; [destruct H9 as [<-|[? _]]; lia|done].
    + destruct H6 as [->|?]; [done|by right].
  - intros k. destruct (B7 k) as [->|?]; [apply A7|by right].
Qed.

(** No send limit has moved. *)
Definition keeps_limits (s s' : QuicSession) : Prop :=
  forall k st' c', stream_map_ s' !! k = Some st' -> flow_controller_ st' = Some c' ->
    exists st c, stream_map_ s !! k = Some st /\ flow_controller_ st = Some c /\
                 send_window_offset_ c' = send_window_offset_ c.
Definition moves (p : QuicSession) (h : Ghost) (s s' : QuicSession) (g g' : Ghost) : Prop :=
  evolves p h s s' g g' /\ keeps_limits s s'.

Lemma moves_refl p h s g : moves p h s s g g.
Proof. split; [apply evolves_refl|]. intros k st c H1 H2. by exists st, c. Qed.

Lemma moves_trans p h s1 s2 s3 g1 g2 g3 :
  moves p h s1 s2 g1 g2 -> moves p h s2 s3 g2 g3 -> moves p h s1 s3 g1 g3.
Proof.
  intros [A1 A2] [B1 B2]. split; [by eapply evolves_trans|]. intros k st3 c3 H1 H2.
  destruct (B2 _ _ _ H1 H2) as (st2 & c2 & H3 & H4 & ->). exact (A2 _ _ _ H3 H4).
Qed.

Lemma sess_step p h s s' st st' c c' opened g g' fs (j := stream_id_ st) :
  sess_inv (put s st) opened g -> flow_controller_ st = Some c ->
  stream_ok j st' c' g' -> conn_ok (session_flow_controller_ s') g' ->
  stream_map_ s' = stream_map_ s -> stream_type_ s' = stream_type_ s -> error_ s' = None ->
  locally_closed_streams_highest_offset_ s' = locally_closed_streams_highest_offset_ s ->
  same_off j g g' -> counts_step j g g' ->
  receive_window_offset_ (session_flow_controller_ s) <= receive_window_offset_ (session_flow_controller_ s') ->
  receive_window_offset_ c <= receive_window_offset_ c' ->
  frames_ s' = frames_ s ++ fs -> Forall (frame_ok (put s' st') opened g') fs ->
  sum_sizes (sent g') < 2 ^ 62 -> sum_sizes (recv g') < 2 ^ 62 ->
  send_window_offset_ c' = send_window_offset_ c ->
  send_window_offset_ (session_flow_controller_ s') = send_window_offset_ (session_flow_controller_ s) ->
  close_offset_ st' = close_offset_ st \/ final h !! j = Some (close_offset_ st') ->
  at_ (recv g') j = at_ (recv g) j \/ at_ (recv g') j <= at_ (sent h) j ->
  told s' invalid (session_flow_controller_ s) (session_flow_controller_ s') -> told s' j c c' ->
  sess_inv (put s' st') opened g' /\ moves p h (put s st) (put s' st') g g'.
Proof.
  intros Hs Hc Hst' Hconn Em Et Ee El Ho Hk Hgc Hg Hf Hfs Hsm1 Hsm2 Hsw Hswc Hcl Hrc Hta Htb.
  destruct (counts_mono j g g' Ho Hk) as [Hm1 Hm2].
  split; [by eapply (sess_update s s' st st' c c')|]. assert (Ej : stream_id_ st' = j) by apply Hst'.
  assert (Hstr : forall k st1 c1, stream_map_ (put s' st') !! k = Some st1 -> flow_controller_ st1 = Some c1 ->
    exists st2 c2, stream_map_ (put s st) !! k = Some st2 /\ flow_controller_ st2 = Some c2 /\
      send_window_offset_ c1 = send_window_offset_ c2 /\
      (close_offset_ st1 = close_offset_ st2 \/ final h !! k = Some (close_offset_ st1)) /\ told s' k c2 c1).
  { intros k st1 c1. cbn. rewrite Ej, Em. intros H1 H2. destruct (decide (k = j)) as [->|Hkj].
    - rewrite lookup_insert_eq in H1. injection H1 as <-. rewrite (so_fc _ _ _ _ Hst') in H2. injection H2 as <-.
      exists st, c. rewrite lookup_insert_eq. done.
    - exists st1, c1. rewrite lookup_insert_ne in H1 |- * by done. unfold told. auto 6. }
  split.
  - constructor; try done.
    + cbn. rewrite Hf. set_solver.
    + intros k. destruct (decide (k = j)) as [->|Hkj]; [|left; by apply (off_sent _ _ _ Ho)].
      right. exists st, c. split; [apply lookup_insert_eq|]. split; [done|]. rewrite <- Hsw.
      destruct (so_send _ _ _ _ Hst') as ([? ?] & <- & _). lia.
    + by left.
    + intros k st1 c1 H1 H2. destruct (Hstr _ _ _ H1 H2) as (st2 & c2 & ? & ? & ? & ? & ?). exists st2, c2. auto 6.
    + intros k. destruct (decide (k = j)) as [->|Hkj]; [done|left; by apply (off_recv _ _ _ Ho)].
  - intros k st1 c1 H1 H2. destruct (Hstr _ _ _ H1 H2) as (st2 & c2 & ? & ? & ? & ? & ?). exists st2, c2. auto.
Qed.

(** * Consuming *)

Definition add_cons (j n : Z) (g : Ghost) : Ghost := g <| cons := <[j := at_ (cons g) j + n]> (cons g) |>.

Lemma same_off_cons j n g : same_off j g (add_cons j n g).
Proof. constructor; try done. intros k Hk. cbn. by apply at_insert_ne. Qed.

Lemma counts_cons j n g : (forall j, 0 <= at_ (sent g) j /\ 0 <= at_ (cons g) j <= at_ (recv g) j) ->
  (forall j n, final g !! j = Some n -> at_ (sent g) j = n) ->
  0 <= n <= at_ (recv g) j - at_ (cons g) j -> counts_step j g (add_cons j n g).
Proof.
  intros Hc Hf Hn. pose proof (Hc j). constructor; cbn; rewrite ?at_insert; try lia; auto.
Qed.

Lemma conn_ok_consume c c' g j n : conn_ok c g -> grows (c <| bytes_consumed_ := bytes_consumed_ c + n |>) c' -> recv_ok c' ->
  conn_ok c' (add_cons j n g).
Proof.
  intros [] [] Hr. cbn in *. constructor; cbn; try congruence.
  - unfold send_ok in *. by rewrite grows_sent, grows_swo.
  - rewrite sum_update. lia.
  - lia.
Qed.

Lemma stream_ok_consume j st c c' g n : stream_ok j st c g -> grows (c <| bytes_consumed_ := bytes_consumed_ c + n |>) c' -> recv_ok c' ->
  stream_ok j (st <| flow_controller_ := Some c' |>) c' (add_cons j n g).
Proof.
  intros [] [] Hr. cbn in *. constructor; cbn; try done.
  - destruct so_id0 as (? & ? & ?). split; [done|]. split; congruence.
  - unfold send_ok in *. by rewrite grows_sent, grows_swo.
  - destruct so_recv0 as (? & ? & ?). split; [done|]. rewrite at_insert. split; [congruence|lia].
  - destruct so_grant0. split; [lia|congruence].
  - by rewrite grows_highest.
Qed.

(** Consuming at one controller. *)
Lemma fc_consume e c session n :
  recv_ok c -> 0 <= n <= highest_received_byte_offset_ c - bytes_consumed_ c -> highest_received_byte_offset_ c <= 2 ^ 62 ->
  exists c' session' out upd,
    FC_AddBytesConsumed e true c session n = Ok (c', session', out ++ upd) /\
    grows (c <| bytes_consumed_ := bytes_consumed_ c + n |>) c' /\ recv_ok c' /\
    session_grows e session session' out /\ announced e c c' upd.
Proof.
  intros Hc Hn Hs. destruct (FC_AddBytesConsumed_spec e c session n Hc Hn ltac:(lia)) as [-> Hb].
  destruct (MaybeSendWindowUpdate_spec e _ session Hb) as (c' & session' & out & upd & -> & Hg & Ho & Hse & H').
  exists c', session', out, upd. split; [done|]. split; [done|]. split; [done|]. split; [done|].
  destruct (_ <=? _); [destruct H' as (_ & -> & ? & _); by left|destruct H' as (-> & _); by right].
Qed.

(** What is announced is the offset granted now. *)
Lemma announced_frames e c c' out w : announced e c c' out -> w ∈ out -> w = FC_SendWindowUpdate e c'.
Proof. intros [[-> _]| ->] Hw; [by apply not_elem_of_nil in Hw|]. by apply list_elem_of_singleton in Hw. Qed.

Lemma announced_told e s' k c0 c c' out : announced e c c' out -> receive_window_offset_ c = receive_window_offset_ c0 ->
  stream_id (FC_SendWindowUpdate e c') = k -> map WindowUpdate out ⊆ frames_ s' -> told s' k c0 c'.
Proof.
  intros [[_ E]| ->] E0 Ek Hs; [left; congruence|right]. apply Hs. cbn. rewrite <- Ek. apply list_elem_of_singleton. done.
Qed.

Lemma update_id_conn e c : ietf e = ietf_version -> is_connection_flow_controller_ c = true ->
  stream_id (FC_SendWindowUpdate e c) = invalid.
Proof. intros He Hc. unfold FC_SendWindowUpdate. by rewrite Hc, He. Qed.

Lemma connection_consume e s n (conn := session_flow_controller_ s) :
  error_ s = None -> recv_ok conn -> 0 <= n <= highest_received_byte_offset_ conn - bytes_consumed_ conn ->
  highest_received_byte_offset_ conn <= 2 ^ 62 ->
  exists conn' out,
    connection_consumed e s n = Ok (Session_SendWindowUpdate (s <| session_flow_controller_ := conn' |>) out) /\
    grows (conn <| bytes_consumed_ := bytes_consumed_ conn + n |>) conn' /\ recv_ok conn' /\ announced e conn conn' out.
Proof.
  intros He Hr Hn Hs. unfold connection_consumed, connected. rewrite He.
  destruct (fc_consume e conn None n Hr Hn Hs) as (c' & session' & out & upd & E & Hg & Ho & Hse & Hw).
  destruct session'; [done|]. cbn in Hse. subst out. fold conn. rewrite E. cbn [rbind]. exists c', upd. done.
Qed.

Lemma wu_conn e s opened g c' : ietf e = ietf_version -> is_connection_flow_controller_ c' = true -> recv_ok c' ->
  receive_window_offset_ c' <= receive_window_offset_ (session_flow_controller_ s) ->
  frame_ok s opened g (WindowUpdate (FC_SendWindowUpdate e c')).
Proof.
  intros He Hc [[] _] Hr. unfold FC_SendWindowUpdate. rewrite Hc, He. cbn. rewrite decide_True by done. lia.
Qed.

Lemma wu_stream e s opened g c c' st : is_connection_flow_controller_ c = false -> recv_ok c ->
  id_ c ∈ opened -> invalid ∉ opened -> stream_map_ s !! id_ c = Some st -> flow_controller_ st = Some c' ->
  receive_window_offset_ c <= receive_window_offset_ c' -> frame_ok s opened g (WindowUpdate (FC_SendWindowUpdate e c)).
Proof.
  intros Hc [[] _] Ho Hi Hs Hf Hr. unfold FC_SendWindowUpdate. rewrite Hc. cbn. rewrite decide_False by (by intros Heq; rewrite Heq in Ho).
  split; [lia|]. split; [done|]. intros st1 c1 H1 H2. rewrite Hs in H1. injection H1 as <-. rewrite Hf in H2. injection H2 as <-. done.
Qed.

(** The bytes of a stream still to be consumed are bytes of the connection. *)
Lemma conn_room s opened g j : sess_inv s opened g ->
  at_ (recv g) j - at_ (cons g) j <=
    highest_received_byte_offset_ (session_flow_controller_ s) - bytes_consumed_ (session_flow_controller_ s) /\
  at_ (recv g) j < 2 ^ 62 /\ highest_received_byte_offset_ (session_flow_controller_ s) < 2 ^ 62.
Proof.
  intros Hs. destruct (si_conn _ _ _ Hs) as [_ _ _ _ E1 E2 _]. rewrite E1, E2.
  assert (Hc : forall k, 0 <= at_ (cons g) k <= at_ (recv g) k) by apply (si_counts _ _ _ Hs).
  pose proof (sum_diff (cons g) (recv g) j Hc). pose proof (at_le_sum (recv g) j ltac:(intros k; specialize (Hc k); lia)).
  pose proof (si_small _ _ _ Hs). lia.
Qed.

Lemma AddBytesConsumed_open p h e s st opened g n (j := stream_id_ st) :
  ietf e = ietf_version -> sess_inv (put s st) opened g -> read_side_closed_ st = false ->
  0 <= n <= at_ (recv g) j - at_ (cons g) j ->
  exists s' st', AddBytesConsumed e s st n = Ok (s', st') /\ sess_inv (put s' st') opened (add_cons j n g) /\
    moves p h (put s st) (put s' st') g (add_cons j n g) /\
    read_side_closed_ st' = read_side_closed_ st /\ write_side_closed_ st' = write_side_closed_ st.
Proof.
  intros He Hs Hopen Hn. destruct (sess_stream _ _ _ _ Hs) as [c Hst]. destruct (conn_room _ _ _ j Hs) as (Hr1 & Hr2 & Hr3).
  cbn in Hr1, Hr3. pose proof (si_conn _ _ _ Hs) as Hc. cbn in Hc. pose proof (si_error _ _ _ Hs) as Hq. cbn in Hq.
  destruct (so_recv _ _ _ _ Hst) as (Hrc & E1 & E2). destruct (so_kind _ _ _ _ Hst) as (K1 & K2 & K3).
  destruct (so_id _ _ _ _ Hst) as (I1 & I2 & I3). fold j in E1, E2, I2.
  unfold AddBytesConsumed. rewrite K1, bool_decide_eq_false_2 by done. rewrite (so_fc _ _ _ _ Hst), Hopen. cbn [negb].
  unfold connected. rewrite Hq.
  destruct (fc_consume e c (Some (session_flow_controller_ s)) n Hrc ltac:(lia) ltac:(lia))
    as (c' & session' & out & upd & -> & Hg & Ho & Hse & Hw). cbn [rbind].
  destruct session' as [conn1|]; [|done]. destruct (Hse (co_recv _ _ Hc)) as (G1 & G2 & G3). change (default _ (Some conn1)) with conn1.
  change (stream_contributes_to_connection_flow_control_ (set_field _ st)) with (stream_contributes_to_connection_flow_control_ st). rewrite K3.
  destruct (connection_consume e (Session_SendWindowUpdate (s <| session_flow_controller_ := conn1 |>) (out ++ upd)) n)
    as (conn2 & out2 & -> & G4 & G5 & Hw2); try done.
  { cbn. rewrite (grows_highest _ _ G1), (grows_consumed _ _ G1). lia. }
  { cbn. rewrite (grows_highest _ _ G1). lia. }
  cbn [rbind]. cbn in G4.
  assert (G6 : grows (session_flow_controller_ s <| bytes_consumed_ := bytes_consumed_ (session_flow_controller_ s) + n |>) conn2).
  { etrans; [|exact G4]. destruct G1. constructor; cbn; done || lia. }
  eexists _, _. split; [done|].
  assert (Hj : j ∈ opened /\ invalid ∉ opened).
  { split; [|apply (si_valid _ _ _ Hs)]. eapply (proj1 (si_streams _ _ _ Hs j st ltac:(apply lookup_insert_eq))). }
  pose proof (grows_offset _ _ Hg) as Hoff. pose proof (grows_offset _ _ G6) as Hoff2. pose proof (grows_offset _ _ G4) as Hoff3. cbn in Hoff, Hoff2, Hoff3.
  match goal with |- sess_inv (put ?s' ?st') _ _ /\ _ =>
    destruct (sess_step p h s s' st st' c c' opened g (add_cons j n g) (map WindowUpdate (out ++ upd) ++ map WindowUpdate out2)) as [R1 R2]; try done end.
  - apply Hst.
  - by apply stream_ok_consume with c.
  - by apply conn_ok_consume with (session_flow_controller_ s).
  - apply same_off_cons.
  - apply counts_cons; [apply (si_counts _ _ _ Hs)|apply (si_final _ _ _ Hs)|done].
  - cbn. by rewrite <- app_assoc.
  - apply Forall_app; split; apply Forall_forall; intros f (w & -> & Hf)%list_elem_of_fmap.
    + apply elem_of_app in Hf as [Hf|Hf].
      * rewrite (announced_frames _ _ _ _ _ G2 Hf).
        apply wu_conn; [done| |done|cbn; lia]. rewrite (grows_conn _ _ G1). apply Hc.
      * rewrite (announced_frames _ _ _ _ _ Hw Hf). assert (Eid : id_ c' = j) by (rewrite (grows_id _ _ Hg); exact I2).
        apply wu_stream with c' (st <| flow_controller_ := Some c' |>); try done; rewrite ?Eid; [|apply Hj..|apply lookup_insert_eq].
        by rewrite (grows_conn _ _ Hg).
    + rewrite (announced_frames _ _ _ _ _ Hw2 Hf). apply wu_conn; [done| |done|cbn; lia]. rewrite (grows_conn _ _ G6). apply Hc.
  - apply (si_small _ _ _ Hs).
  - apply (si_small _ _ _ Hs).
  - apply (grows_swo _ _ Hg).
  - apply (grows_swo _ _ G6).
  - by left.
  - by left.
  - assert (Ei1 : is_connection_flow_controller_ conn1 = true) by (rewrite (grows_conn _ _ G1); apply Hc).
    assert (Ei2 : is_connection_flow_controller_ conn2 = true) by (rewrite (grows_conn _ _ G6); apply Hc).
    destruct Hw2 as [[_ E]| ->].
    + assert (T : told (s <| frames_ := map WindowUpdate out |>) invalid (session_flow_controller_ s) conn1)
        by (eapply announced_told; [exact G2|done|by apply update_id_conn|done]).
      unfold told in *. cbn in *. destruct T as [T|T]; [left; congruence|right]. rewrite E, map_app. set_solver.
    + right. cbn. rewrite !elem_of_app, list_elem_of_singleton. right. f_equal. unfold FC_SendWindowUpdate. by rewrite Ei2, He.
  - eapply announced_told; [exact Hw|done| |].
    + unfold FC_SendWindowUpdate. rewrite (grows_conn _ _ Hg). cbn. rewrite I3. rewrite (grows_id _ _ Hg). exact I2.
    + cbn. rewrite map_app. set_solver.
Qed.

(** * Closing a stream *)

(** A stream with both sides closed leaves the map: its unread bytes are counted
    as consumed, and its offset is kept if its end is not known. *)
Definition recorded (st : QuicStream) (n : Z) (m : gmap Z Z) : gmap Z Z :=
  if fin_received_ st || rst_received_ st then m else <[stream_id_ st := n]> m.

Lemma sess_close p h s st conn' opened g out (j := stream_id_ st) (g' := add_cons j (at_ (recv g) j - at_ (cons g) j) g)
    (s' := s <| stream_map_ := delete j (stream_map_ s) |>
             <| locally_closed_streams_highest_offset_ :=
                  recorded st (at_ (recv g) j) (locally_closed_streams_highest_offset_ s) |>
             <| session_flow_controller_ := conn' |> <| frames_ := frames_ s ++ map WindowUpdate out |>) :
  sess_inv (put s st) opened g -> conn_ok conn' g' ->
  receive_window_offset_ (session_flow_controller_ s) <= receive_window_offset_ conn' ->
  send_window_offset_ conn' = send_window_offset_ (session_flow_controller_ s) ->
  (forall w, w ∈ out -> frame_ok s' opened g' (WindowUpdate w)) ->
  told s' invalid (session_flow_controller_ s) conn' ->
  sess_inv s' opened g' /\ moves p h (put s st) s' g g'.
Proof.
  intros Hs Hconn Hoff Hsw Hout Htold. pose proof (si_counts _ _ _ Hs j) as Hj.
  destruct (si_streams _ _ _ Hs j st ltac:(apply lookup_insert_eq)) as [Hjo _].
  assert (Ho : same_off j g g') by apply same_off_cons.
  assert (Elk : forall k st1, stream_map_ s' !! k = Some st1 -> k <> j /\ stream_map_ (put s st) !! k = Some st1).
  { intros k st1 H1. cbn in H1. apply lookup_delete_Some in H1 as [H1 H2]. split; [done|]. cbn. by rewrite lookup_insert_ne. }
  assert (Hmono : forall f, frame_ok (put s st) opened g f -> frame_ok s' opened g' f).
  { intros f. apply frame_ok_mono; try done. intros k st1 c1 H1 H2. apply Elk in H1 as [_ H1]. by exists st1, c1. }
  split; [|split].
  - constructor; try apply Hs; try done.
    + intros k st1 H1. apply Elk in H1 as [Hk H1]. apply (si_streams _ _ _ Hs) in H1 as [? (c1 & H1)].
      split; [done|]. exists c1. by eapply stream_ok_off.
    + intros k H1. destruct (decide (k = j)) as [->|Hkj]; [cbn; rewrite at_insert; lia|].
      rewrite (off_cons _ _ _ Ho), (off_recv _ _ _ Ho) by done. apply (si_closed _ _ _ Hs).
      cbn in H1 |- *. rewrite lookup_delete_ne in H1 by done. by rewrite lookup_insert_ne.
    + intros k o H1. destruct (decide (k = j)) as [->|Hkj].
      * split; [done|]. cbn. rewrite lookup_delete_eq. split; [|done]. cbn in H1. unfold recorded in H1.
        destruct (_ || _); [|fold j in H1; rewrite lookup_insert_eq in H1; congruence].
        apply (si_recorded _ _ _ Hs) in H1 as (_ & _ & H1). cbn in H1. unfold j in H1. rewrite lookup_insert_eq in H1. done.
      * assert (H2 : locally_closed_streams_highest_offset_ s !! k = Some o).
        { cbn in H1. unfold recorded in H1. destruct (_ || _); [done|]. fold j in H1. by rewrite lookup_insert_ne in H1. }
        destruct (si_recorded _ _ _ Hs k o H2) as (? & ? & H3). split; [done|]. split; [done|].
        cbn in H3 |- *. rewrite lookup_insert_ne in H3 by done. by rewrite lookup_delete_ne.
    + apply Forall_app. split; [eapply Forall_impl; [apply (si_frames _ _ _ Hs)|done]|].
      apply Forall_forall. intros f (w & -> & Hw)%list_elem_of_fmap. by apply Hout.
    + intros k. pose proof (si_counts _ _ _ Hs k). destruct (decide (k = j)) as [->|Hkj]; [cbn; rewrite at_insert; lia|].
      by rewrite (off_cons _ _ _ Ho).
  - constructor; try done; [cbn; set_solver| |by left| |]; auto.
    intros k st1 c1 H1 H2. apply Elk in H1 as [_ H1]. exists st1, c1. unfold told. auto 6.
  - intros k st1 c1 H1 H2. apply Elk in H1 as [_ H1]. by exists st1, c1.
Qed.

Lemma close_stream p h e s st opened g (j := stream_id_ st) (g' := add_cons j (at_ (recv g) j - at_ (cons g) j) g) :
  ietf e = ietf_version -> sess_inv (put s st) opened g -> is_Some (stream_map_ s !! j) ->
  read_side_closed_ st = true -> write_side_closed_ st = true ->
  exists s', (let* s1 := OnStreamClosed s st in OnClose e s1 st) = Ok (s', st) /\ sess_inv s' opened g' /\
    moves p h (put s st) s' g g' /\ stream_map_ s' = delete j (stream_map_ s).
Proof.
  intros He Hs [st0 Hm] Hr Hw. destruct (sess_stream _ _ _ _ Hs) as [c Hst]. destruct (conn_room _ _ _ j Hs) as (Hr1 & Hr2 & Hr3).
  cbn in Hr1, Hr3. pose proof (si_conn _ _ _ Hs) as Hc. cbn in Hc. pose proof (si_error _ _ _ Hs) as Hq. cbn in Hq.
  destruct (so_recv _ _ _ _ Hst) as (Hrc & E1 & E2). destruct (so_kind _ _ _ _ Hst) as (K1 & K2 & K3). fold j in E1, E2.
  pose proof (si_counts _ _ _ Hs j) as Hj.
  assert (E : OnStreamClosed s st = Ok (s <| stream_map_ := delete j (stream_map_ s) |>
    <| locally_closed_streams_highest_offset_ := recorded st (at_ (recv g) j) (locally_closed_streams_highest_offset_ s) |>)).
  { unfold OnStreamClosed, recorded. fold j. rewrite Hm, (so_fc _ _ _ _ Hst), <- E1. destruct (fin_received_ st || rst_received_ st) eqn:Ef; [by destruct s|].
    destruct (was_draining_ st) eqn:Ed; [|done]. destruct (so_draining _ _ _ _ Hst Ed) as [Hf _]. by rewrite Hf in Ef. }
  rewrite E. cbn [rbind]. unfold OnClose. rewrite Hr, Hw. cbn [andb CHECK rbind].
  assert (Ee : negb (fin_sent_ st) && negb (rst_sent_ st) = false).
  { destruct (proj1 (so_ends _ _ _ _ Hst) Hw) as [-> | ->]; cbn; [done|apply andb_false_r]. }
  rewrite Ee. cbn [rbind]. rewrite (so_fc _ _ _ _ Hst).
  assert (Ev : forall c, recv_ok c -> FlowControlViolation c = false) by (intros ? [[] _]; unfold FlowControlViolation; lia).
  cbn [session_flow_controller_ set_field]. rewrite (Ev c Hrc), (Ev _ (co_recv _ _ Hc)). cbn [orb].
  rewrite u64_small by lia. rewrite E1, E2. unfold AddBytesConsumed. rewrite K1, bool_decide_eq_false_2 by done.
  rewrite (so_fc _ _ _ _ Hst), Hr. cbn [negb rbind]. rewrite K3.
  match goal with |- context [connection_consumed e ?s1 ?n] => destruct (connection_consume e s1 n) as (conn' & out & -> & G1 & G2 & Hw2); try done end.
  { apply Hc. } { cbn. lia. } { cbn. lia. }
  cbn [rbind]. cbn in G1. eexists. split; [done|].
  pose proof (grows_offset _ _ G1) as Hoff. cbn in Hoff.
  destruct (sess_close p h s st conn' opened g out) as [R1 R2]; try done.
  - by apply conn_ok_consume with (session_flow_controller_ s).
  - apply (grows_swo _ _ G1).
  - intros w Hwo. rewrite (announced_frames _ _ _ _ _ Hw2 Hwo). apply wu_conn; [done| |done|done]. rewrite (grows_conn _ _ G1). apply Hc.
  - eapply announced_told; [exact Hw2|done| |cbn; set_solver]. apply update_id_conn; [done|]. rewrite (grows_conn _ _ G1). apply Hc.
Qed.

(** Only flags or the offsets of the sequencer change. *)
Lemma sess_flags p h s st st' c opened g (j := stream_id_ st) :
  sess_inv (put s st) opened g -> flow_controller_ st = Some c -> stream_ok j st' c g ->
  close_offset_ st' = close_offset_ st \/ final h !! j = Some (close_offset_ st') ->
  sess_inv (put s st') opened g /\ moves p h (put s st) (put s st') g g.
Proof.
  intros Hs Hc Hst' Hcl. pose proof (si_counts _ _ _ Hs j). subst j.
  apply (sess_step p h s s st st' c c opened g g []); try done; try apply Hs.
  - constructor; try (lia || done). apply (si_final _ _ _ Hs).
  - by rewrite app_nil_r.
  - by left.
  - by left.
  - by left.
Qed.

(** The outcome of an operation on a stream: the session it leaves. *)
Definition op_ok (p : QuicSession) (h : Ghost) (s : QuicSession) (st : QuicStream) (opened : gset Z) (g : Ghost)
    (r : QuicSession * QuicStream) (g' : Ghost) : Prop :=
  sess_inv (store r) opened g' /\ moves p h (put s st) (store r) g g' /\ (live s -> live (store r)).

Lemma op_ok_put p h s st opened g s' st' g' :
  sess_inv (put s' st') opened g' -> moves p h (put s st) (put s' st') g g' -> stream_map_ s' = stream_map_ s ->
  read_side_closed_ st' && write_side_closed_ st' = false -> op_ok p h s st opened g (s', st') g'.
Proof.
  intros Hs Hm Em Hb. unfold op_ok, store. rewrite Hb. split; [done|]. split; [done|]. intros Hl.
  unfold live. cbn. rewrite Em. by apply map_Forall_insert_2.
Qed.

Lemma op_ok_closed p h s st opened g s' st' g' j :
  sess_inv s' opened g' -> moves p h (put s st) s' g g' -> stream_map_ s' = delete j (stream_map_ s) ->
  read_side_closed_ st' && write_side_closed_ st' = true -> op_ok p h s st opened g (s', st') g'.
Proof.
  intros Hs Hm Em Hb. unfold op_ok, store. rewrite Hb. split; [done|]. split; [done|]. intros Hl.
  unfold live. rewrite Em. by apply map_Forall_delete.
Qed.

(** An operation may follow one that left the stream in place. *)
Lemma op_ok_after p h s0 st0 s st opened g0 g r g' :
  moves p h (put s0 st0) (put s st) g0 g -> stream_map_ s = stream_map_ s0 -> op_ok p h s st opened g r g' ->
  op_ok p h s0 st0 opened g0 r g'.
Proof.
  intros Hm Em (H1 & H2 & H3). split; [done|]. split; [by eapply moves_trans|].
  intros Hl. apply H3. unfold live. by rewrite Em.
Qed.

Lemma stream_ok_read j st c g b : stream_ok j st c g -> stream_ok j (st <| read_side_closed_ := b |>) c g.
Proof. intros []. by constructor. Qed.

Lemma CloseReadSide_ok p h e s st opened g (j := stream_id_ st) :
  ietf e = ietf_version -> sess_inv (put s st) opened g -> is_Some (stream_map_ s !! j) ->
  read_side_closed_ st && write_side_closed_ st = false ->
  exists r g', CloseReadSide e s st = Ok r /\ op_ok p h s st opened g r g'.
Proof.
  intros He Hs Hm Hb. unfold CloseReadSide. destruct (sess_stream _ _ _ _ Hs) as [c Hst].
  destruct (read_side_closed_ st) eqn:Er.
  - exists (s, st), g. split; [done|]. apply op_ok_put; try done; [apply moves_refl|by rewrite Er].
  - destruct (sess_flags p h s st (st <| read_side_closed_ := true |>) c opened g) as [H1 H2]; try done;
      [apply Hst|by apply stream_ok_read|by left|].
    change (write_side_closed_ (set_field _ st)) with (write_side_closed_ st). destruct (write_side_closed_ st) eqn:Ew.
    + destruct (close_stream p h e s _ opened g He H1) as (s' & -> & H3 & H4 & H5); try done.
      eexists _, _. split; [done|]. eapply op_ok_after; [exact H2|done|]. by eapply op_ok_closed.
    + eexists _, _. split; [done|]. apply op_ok_put; try done.
Qed.

(** The write side is closed when the end of the stream has been sent. *)
Lemma CloseWriteSide_ok p h e s st opened g (j := stream_id_ st) (st1 := st <| write_side_closed_ := true |>) :
  ietf e = ietf_version -> sess_inv (put s st1) opened g -> is_Some (stream_map_ s !! j) ->
  read_side_closed_ st && write_side_closed_ st = false ->
  exists r g', CloseWriteSide e s st = Ok r /\ op_ok p h s st1 opened g r g'.
Proof.
  intros He Hs Hm Hb. unfold CloseWriteSide. destruct (write_side_closed_ st) eqn:Ew.
  - assert (E : st1 = st) by (unfold st1; destruct st; cbn in *; by subst). rewrite E in *.
    exists (s, st), g. split; [done|]. apply op_ok_put; try done; [apply moves_refl|by rewrite Ew].
  - fold st1. change (read_side_closed_ st1) with (read_side_closed_ st). destruct (read_side_closed_ st) eqn:Er.
    + destruct (close_stream p h e s st1 opened g He Hs) as (s' & -> & H3 & H4 & H5); try done.
      eexists _, _. split; [done|]. eapply op_ok_closed; [done..|]. unfold st1. cbn. by rewrite Er.
    + eexists _, _. split; [done|]. apply op_ok_put; [done|apply moves_refl|done|]. unfold st1. cbn. by rewrite Er.
Qed.

(** * Resetting a stream *)

Definition add_final (j : Z) (g : Ghost) : Ghost := g <| final := <[j := at_ (sent g) j]> (final g) |>.

Lemma same_off_final j g : same_off j g (add_final j g).
Proof. constructor; try done. intros k Hk. cbn. by apply lookup_insert_ne. Qed.

Lemma counts_final j g : 0 <= at_ (sent g) j -> 0 <= at_ (cons g) j <= at_ (recv g) j ->
  (forall n, final g !! j = Some n -> at_ (sent g) j = n) -> counts_step j g (add_final j g).
Proof.
  intros H1 H2 H3. constructor; cbn; try done.
  - intros n. rewrite lookup_insert_eq. congruence.
  - intros n Hn. rewrite lookup_insert_eq. f_equal. by apply H3.
Qed.

(** A reset tells the peer the final size and closes the write side. *)
Lemma MaybeSendRstStream_ok p h e s st opened g b (j := stream_id_ st) :
  ietf e = true -> ietf_version = true -> sess_inv (put s st) opened g -> is_Some (stream_map_ s !! j) ->
  read_side_closed_ st && write_side_closed_ st = false ->
  exists r g', MaybeSendRstStream e s st b = Ok r /\ op_ok p h s st opened g r g'.
Proof.
  intros He Hv Hs Hm Hb. unfold MaybeSendRstStream. destruct (sess_stream _ _ _ _ Hs) as [c Hst].
  destruct (rst_sent_ st) eqn:Er; [exists (s, st), g; split; [done|]; by apply op_ok_put; [|apply moves_refl|..]|].
  rewrite He. cbn [negb rbind]. unfold MaybeSendRstStreamFrame, connected.
  pose proof (si_error _ _ _ Hs) as Hq. cbn in Hq. rewrite Hq. cbn [negb].
  rewrite (si_types _ _ _ Hs : forall k, stream_type_ s k = _), bool_decide_eq_false_2, orb_true_r by done.
  destruct (si_counts _ _ _ Hs j) as [N1 N2].
  destruct (so_send _ _ _ _ Hst) as (S1 & S2 & S3). fold j in S3 |- *. rewrite S3.
  set (s1 := send_frames s _). set (st1 := st <| rst_sent_ := true |> <| write_side_closed_ := true |>).
  destruct (si_streams _ _ _ Hs j st ltac:(apply lookup_insert_eq)) as [Hjo _].
  destruct (sess_step p h s s1 st st1 c c opened g (add_final j g) [RstStream j (at_ (sent g) j)]) as [H1 H2]; try done; try apply Hs; try by left.
  - apply Hst.
  - destruct Hst. constructor; try done; cbn.
    + rewrite lookup_insert_eq. naive_solver.
    + naive_solver.
  - destruct (si_conn _ _ _ Hs). by constructor.
  - apply same_off_final.
  - apply counts_final; [done|done|apply (si_final _ _ _ Hs)].
  - apply Forall_singleton. cbn. by rewrite lookup_insert_eq.
  - destruct (CloseWriteSide_ok p h e s1 (st <| rst_sent_ := true |>) opened (add_final j g)) as (r & g' & H3 & H4); try done.
    { by rewrite Hv. }
    exists r, g'. split; [done|]. eapply op_ok_after; [exact H2|done|exact H4].
Qed.

(** A frame the session stands by may be sent at any time. *)
Lemma sess_send p h s opened g f : sess_inv s opened g -> frame_ok s opened g f ->
  sess_inv (send_frames s [f]) opened g /\ moves p h s (send_frames s [f]) g g.
Proof.
  intros Hs Hf. split.
  - constructor; try apply Hs. cbn. apply Forall_app. split; [apply (si_frames _ _ _ Hs)|]. by apply Forall_singleton.
  - split; [|intros k st c H1 H2; by exists st, c].
    constructor; try done; auto; [cbn; set_solver|by left|]. intros k st c H1 H2. exists st, c. unfold told. auto 6.
Qed.

Lemma stream_ok_stop j st c g b : stream_ok j st c g -> stream_ok j (st <| stop_sending_sent_ := b |>) c g.
Proof. intros []. by constructor. Qed.

Lemma Stream_Reset_ok p h e s st opened g b (j := stream_id_ st) :
  ietf e = true -> ietf_version = true -> sess_inv (put s st) opened g -> is_Some (stream_map_ s !! j) ->
  read_side_closed_ st && write_side_closed_ st = false ->
  exists r g', Stream_Reset e s st b = Ok r /\ op_ok p h s st opened g r g'.
Proof.
  intros He Hv Hs Hm Hb. unfold Stream_Reset, MaybeSendStopSending. destruct (sess_stream _ _ _ _ Hs) as [c Hst].
  destruct (stop_sending_sent_ st); [by apply MaybeSendRstStream_ok|].
  rewrite He. cbn [negb andb]. unfold MaybeSendStopSendingFrame, connected.
  pose proof (si_error _ _ _ Hs) as Hq. cbn in Hq. rewrite Hq, He. cbn [negb andb].
  rewrite (si_types _ _ _ Hs : forall k, stream_type_ s k = _), bool_decide_eq_false_2 by done. cbn [negb].
  set (s1 := send_frames s _). set (st1 := st <| stop_sending_sent_ := true |>). fold j in s1.
  destruct (sess_flags p h s st st1 c opened g) as [H1 H2]; try done; [apply Hst|by apply stream_ok_stop|by left|].
  destruct (sess_send p h (put s st1) opened g (StopSending j) H1 I) as [H3 H4].
  change (send_frames (put s st1) [StopSending j]) with (put s1 st1) in H3, H4.
  assert (Hm1 : moves p h (put s st) (put s1 st1) g g) by (by eapply moves_trans).
  assert (Hst1 : stream_ok j st1 c g) by (by apply stream_ok_stop).
  unfold CloseReadSide. change (read_side_closed_ st1) with (read_side_closed_ st).
  destruct (read_side_closed_ st) eqn:Er; cbn [rbind].
  - destruct (MaybeSendRstStream_ok p h e s1 st1 opened g b) as (r & g' & ? & ?); try done; [by unfold st1; cbn; rewrite Er|].
    exists r, g'. split; [done|]. by eapply op_ok_after.
  - destruct (sess_flags p h s1 st1 (st1 <| read_side_closed_ := true |>) c opened g) as [H5 H6]; try done;
      [apply Hst1|by apply stream_ok_read|by left|].
    change (write_side_closed_ (set_field _ st1)) with (write_side_closed_ st). destruct (write_side_closed_ st) eqn:Ew; cbn [rbind].
    + destruct (close_stream p h e s1 _ opened g ltac:(by rewrite Hv) H5) as (s2 & -> & H7 & H8 & H9); try done. cbn [rbind].
      assert (Hm2 : moves p h (put s st) s2 g _) by (eapply moves_trans; [exact Hm1|]; eapply moves_trans; [exact H6|exact H8]).
      unfold MaybeSendRstStream. destruct (rst_sent_ (set_field _ st1)) eqn:Er2.
      { eexists _, _. split; [done|]. eapply op_ok_closed; [done|exact Hm2|exact H9|]. unfold st1. cbn. by rewrite Ew. }
      rewrite He. cbn [negb rbind]. unfold MaybeSendRstStreamFrame, connected. rewrite (si_error _ _ _ H7), (si_types _ _ _ H7).
      rewrite bool_decide_eq_false_2, orb_true_r by done. cbn [negb]. unfold CloseWriteSide.
      match goal with |- context [if write_side_closed_ ?x then _ else _] =>
        replace (write_side_closed_ x) with true by (unfold st1; cbn; by rewrite Ew) end.
      eexists _, _. split; [done|].
      destruct (proj1 (so_write _ _ _ _ Hst) Ew) as [n Hn]. destruct (so_send _ _ _ _ Hst) as (_ & _ & S3).
      destruct (sess_send p h s2 opened _ (RstStream j n) H7) as [R1 R2].
      { split; [done|]. apply (si_streams _ _ _ Hs j st), lookup_insert_eq. }
      assert (En : stream_bytes_written_ st = n) by (rewrite S3; apply (si_final _ _ _ Hs); done).
      rewrite <- En in R1, R2. eapply op_ok_closed; [exact R1|by eapply moves_trans|exact H9|]. cbn. by rewrite Ew.
    + destruct (MaybeSendRstStream_ok p h e s1 (st1 <| read_side_closed_ := true |>) opened g b) as (r & g' & ? & ?); try done.
      exists r, g'. split; [done|]. eapply op_ok_after; [| |eassumption]; [by eapply moves_trans|done].
Qed.

Lemma OnStopSending_ok p h e s st opened g waiting b (j := stream_id_ st) :
  ietf e = true -> ietf_version = true -> sess_inv (put s st) opened g -> is_Some (stream_map_ s !! j) ->
  read_side_closed_ st && write_side_closed_ st = false ->
  exists r g', OnStopSending e s st waiting b = Ok r /\ op_ok p h s st opened g r g'.
Proof.
  intros He Hv Hs Hm Hb. unfold OnStopSending. destruct (sess_stream _ _ _ _ Hs) as [c Hst].
  destruct (_ && negb waiting); [exists (s, st), g; split; [done|]; by apply op_ok_put; [|apply moves_refl|..]|].
  destruct (so_kind _ _ _ _ Hst) as (_ & -> & _). by apply MaybeSendRstStream_ok.
Qed.

Lemma OnFinRead_ok p h e s st opened g (j := stream_id_ st) :
  ietf e = ietf_version -> sess_inv (put s st) opened g -> is_Some (stream_map_ s !! j) ->
  read_side_closed_ st && write_side_closed_ st = false -> close_offset_ st <= at_ (cons g) j ->
  exists r g', OnFinRead e s st = Ok r /\ op_ok p h s st opened g r g'.
Proof.
  intros He Hs Hm Hb Hcl. unfold OnFinRead. destruct (sess_stream _ _ _ _ Hs) as [c Hst]. rewrite (so_fc _ _ _ _ Hst).
  destruct (so_recv _ _ _ _ Hst) as (_ & _ & ->). fold j. rewrite (proj2 (Z.leb_le _ _) Hcl). cbn [CHECK rbind].
  destruct (sess_flags p h s st (st <| fin_received_ := true |>) c opened g) as [H1 H2]; try done;
    [apply Hst|destruct Hst; constructor; naive_solver|by left|].
  destruct (CloseReadSide_ok p h e s (st <| fin_received_ := true |>) opened g He H1) as (r & g' & ? & ?); try done.
  exists r, g'. split; [done|]. eapply op_ok_after; [| |eassumption]; done.
Qed.

(** * Receiving *)

(** What a session owes its peer, whose counts are [h]: all the peer has sent was
    granted, and what was received of it, and known of its ends, was sent. *)
Record room (h : Ghost) (s : QuicSession) (g : Ghost) : Prop := {
  rm_streams : forall j st c, stream_map_ s !! j = Some st -> flow_controller_ st = Some c ->
                 at_ (sent h) j <= receive_window_offset_ c;
  rm_conn : sum_sizes (sent h) <= receive_window_offset_ (session_flow_controller_ s);
  rm_small : sum_sizes (sent h) < 2 ^ 62;
  rm_recv : forall k, 0 <= at_ (recv g) k <= at_ (sent h) k;
  rm_close : forall j st, stream_map_ s !! j = Some st ->
               close_offset_ st = two64 - 1 \/ final h !! j = Some (close_offset_ st);
  rm_final : forall j n, final h !! j = Some n -> at_ (sent h) j = n;
}.

Definition raise (j o : Z) (g : Ghost) : Ghost :=
  if o <=? at_ (recv g) j then g else g <| recv := <[j := o]> (recv g) |>.

Lemma raise_at j o g : at_ (recv (raise j o g)) j = Z.max (at_ (recv g) j) o.
Proof. unfold raise. destruct (Z.leb_spec o (at_ (recv g) j)); [lia|]. cbn. rewrite at_insert. lia. Qed.

(** The connection has room for what a stream has room for. *)
Lemma room_sum h s g j o : room h s g -> at_ (recv g) j < o <= at_ (sent h) j ->
  sum_sizes (recv g) + (o - at_ (recv g) j) <= sum_sizes (sent h).
Proof.
  intros Hr Ho. rewrite <- sum_update. apply sum_le. intros k. pose proof (rm_recv _ _ _ Hr k).
  destruct (decide (k = j)) as [->|Hk]; [rewrite at_insert; lia|by rewrite at_insert_ne].
Qed.

Lemma sent_small h s g j : room h s g -> 0 <= at_ (sent h) j < 2 ^ 62.
Proof.
  intros Hr. assert (H0 : forall k, 0 <= at_ (sent h) k) by (intros k; pose proof (rm_recv _ _ _ Hr k); lia).
  pose proof (at_le_sum _ j H0). pose proof (rm_small _ _ _ Hr). specialize (H0 j). lia.
Qed.

Lemma recv_ok_raise c o : recv_ok c -> highest_received_byte_offset_ c <= o <= receive_window_offset_ c ->
  recv_ok (c <| highest_received_byte_offset_ := o |>).
Proof. intros [[] ?] Ho. split; [|done]. constructor; cbn; lia. Qed.

Lemma MaybeIncrease_ok p h s st c opened g o (j := stream_id_ st) :
  sess_inv (put s st) opened g -> room h (put s st) g -> flow_controller_ st = Some c -> 0 <= o <= at_ (sent h) j ->
  exists s' c' b, MaybeIncreaseHighestReceivedOffset s st o = Ok (s', st <| flow_controller_ := Some c' |>, b) /\
    sess_inv (put s' (st <| flow_controller_ := Some c' |>)) opened (raise j o g) /\
    moves p h (put s st) (put s' (st <| flow_controller_ := Some c' |>)) g (raise j o g) /\
    stream_map_ s' = stream_map_ s /\ receive_window_offset_ c' = receive_window_offset_ c /\ bytes_consumed_ c' = bytes_consumed_ c.
Proof.
  intros Hs Hr Hc Ho. destruct (sess_stream _ _ _ _ Hs) as [c0 Hst].
  assert (c0 = c) as -> by (pose proof (so_fc _ _ _ _ Hst); congruence).
  destruct (so_recv _ _ _ _ Hst) as (R1 & R2 & R3). fold j in R2, R3. pose proof (sent_small _ _ _ j Hr).
  pose proof (rm_recv _ _ _ Hr j) as Hrj. pose proof (rm_streams _ _ _ Hr j st c ltac:(apply lookup_insert_eq) Hc) as Hw.
  unfold MaybeIncreaseHighestReceivedOffset. rewrite Hc. unfold UpdateHighestReceivedOffset at 1. unfold raise. rewrite R2.
  destruct (Z.leb_spec o (at_ (recv g) j)) as [Hle|Hlt]; cbn [negb].
  - exists s, c, false. assert (E : st <| flow_controller_ := Some c |> = st) by (destruct st; cbn in *; by subst).
    rewrite E. split; [done|]. split; [done|]. split; [apply moves_refl|done].
  - destruct (so_kind _ _ _ _ Hst) as (K1 & K2 & K3). cbn [stream_contributes_to_connection_flow_control_ set_field].
    rewrite K3. cbn [when]. pose proof (room_sum _ _ _ j o Hr ltac:(lia)) as Hsum.
    pose proof (si_conn _ _ _ Hs) as Hcn. pose proof (co_highest _ _ Hcn) as Eh. cbn in Eh.
    pose proof (rm_small _ _ _ Hr). pose proof (rm_conn _ _ _ Hr) as Hrc. cbn in Hrc.
    assert (0 <= sum_sizes (recv g)) by (destruct (co_recv _ _ Hcn) as [[] _]; cbn in *; lia).
    rewrite (u64_small (o - _)), u64_small by lia. unfold UpdateHighestReceivedOffset. rewrite Eh.
    destruct (Z.leb_spec (sum_sizes (recv g) + (o - at_ (recv g) j)) (sum_sizes (recv g))); [lia|]. cbn [fst].
    eexists _, (c <| highest_received_byte_offset_ := o |>), true. split; [done|].
    pose proof (si_counts _ _ _ Hs j) as Hn.
    match goal with |- sess_inv (put ?s' ?st') _ ?g' /\ _ =>
      destruct (sess_step p h s s' st st' c (c <| highest_received_byte_offset_ := o |>) opened g g' []) as [X1 X2]; try done end.
    + destruct Hst. destruct so_grant0. constructor; cbn; try done; [|lia]. rewrite at_insert.
      split; [apply recv_ok_raise; [done|lia]|done].
    + destruct Hcn. constructor; cbn in *; try done; [apply recv_ok_raise; [done|lia]|]. rewrite sum_update. lia.
    + apply (si_error _ _ _ Hs).
    + constructor; try done. intros k Hk. cbn. by apply at_insert_ne.
    + subst j. constructor; cbn; rewrite ?at_insert; try (lia || done). apply (si_final _ _ _ Hs).
    + cbn. by rewrite app_nil_r.
    + apply (si_small _ _ _ Hs).
    + cbn. rewrite sum_update. lia.
    + by left.
    + right. cbn. rewrite at_insert. apply Ho.
    + by left.
    + by left.
Qed.

(** The sequencer accepts what was sent within the window. *)
Lemma Sequencer_ok h e s st c g o l fin (j := stream_id_ st) :
  stream_ok j st c g -> close_offset_ st = two64 - 1 \/ final h !! j = Some (close_offset_ st) ->
  (forall n, final h !! j = Some n -> at_ (sent h) j = n) -> at_ (recv g) j <= at_ (sent h) j < 2 ^ 62 ->
  at_ (sent h) j <= receive_window_offset_ c ->
  0 <= o -> 0 <= l -> (l = 0 -> fin = true) -> o + l <= at_ (sent h) j -> (fin = true -> final h !! j = Some (o + l)) ->
  (0 < l -> o + l <= at_ (recv g) j) ->
  exists st', Sequencer_OnStreamFrame e s st o l fin = Ok (s, st') /\ stream_ok j st' c g /\
    (close_offset_ st' = close_offset_ st \/ final h !! j = Some (close_offset_ st')) /\
    read_side_closed_ st' = read_side_closed_ st /\ write_side_closed_ st' = write_side_closed_ st.
Proof.
  intros Hst Hcl Hfin Hrs Hrwo Ho Hl Hl0 Hol Hf Hraised. unfold Sequencer_OnStreamFrame. rewrite (u64_small (o + l)) by lia.
  destruct (so_recv _ _ _ _ Hst) as ([[C1 C2 C3 C4 C5] C6] & R2 & R3). destruct (so_grant _ _ _ _ Hst) as [_ G2].
  pose proof (so_offset _ _ _ _ Hst) as Hof. rewrite R2 in Hof. unfold kStreamReceiveWindowLimit in G2.
  assert (Hclo : o + l <= close_offset_ st) by (destruct Hcl as [->|Hcl%Hfin]; lia).
  rewrite (proj2 (Z.leb_le _ _) Hclo). cbn [CHECK rbind].
  assert (Ec : fin = true -> CloseStreamAtOffset s st (o + l) = (s, st <| close_offset_ := o + l |>, true)).
  { intros E. unfold CloseStreamAtOffset. pose proof (Hfin _ (Hf E)). destruct (Z.ltb_spec (o + l) (highest_offset_ st)); [lia|].
    destruct Hcl as [->|Hcl]; [done|]. rewrite (Hf E) in Hcl. injection Hcl as <-. rewrite Z.eqb_refl, andb_false_r. done. }
  assert (Ed : forall st1, flow_controller_ st1 = Some c -> 0 < l ->
    OnFrameData s st1 o l = Ok (s, st1 <| highest_offset_ := Z.max (highest_offset_ st1) (o + l) |>)).
  { intros st1 Hc1 Hlp. unfold OnFrameData, buffer_check. rewrite Hc1. destruct (Z.eqb_spec l 0); [lia|].
    unfold kStreamReceiveWindowLimit. rewrite !(u64_small (o + l)), (u64_small (bytes_consumed_ c + _)) by lia.
    destruct (Z.ltb_spec (bytes_consumed_ c + 16 * 1024 * 1024) (o + l)); [lia|].
    destruct (Z.ltb_spec (o + l) o); [lia|]. done. }
  pose proof (so_fc _ _ _ _ Hst) as Hc. destruct (Z.eqb_spec l 0) as [E0|E0].
  - rewrite (Hl0 E0), (Ec (Hl0 E0)). rewrite andb_false_r. cbn [negb]. eexists. split; [done|].
    split; [destruct Hst; by constructor|]. split; [right; apply Hf; auto|done].
  - specialize (Hraised ltac:(lia)).
    assert (Hok : forall st1, stream_ok j st1 c g -> stream_ok j (st1 <| highest_offset_ := Z.max (highest_offset_ st1) (o + l) |>) c g).
    { intros st1 []. constructor; cbn; try done. rewrite R2 in *. lia. }
    destruct fin; [rewrite (Ec eq_refl)|]; cbn [negb andb]; rewrite andb_false_r, Ed by (lia || done); eexists; (split; [done|]).
    + split; [apply Hok; destruct Hst; by constructor|]. split; [right; by apply Hf|done].
    + split; [by apply Hok|]. split; [by left|done].
Qed.

(** The FIN of a frame is noted, and the stream drains if it was the last. *)
Lemma note_fin_ok st c g fin (j := stream_id_ st) : stream_ok j st c g ->
  exists st1, note_fin st fin = Ok st1 /\ stream_ok j st1 c g /\ close_offset_ st1 = close_offset_ st /\ stream_id_ st1 = j /\
    read_side_closed_ st1 = read_side_closed_ st /\ write_side_closed_ st1 = write_side_closed_ st.
Proof.
  intros Hst. unfold note_fin. destruct (fin && negb (fin_received_ st)) eqn:E; [|by exists st].
  apply andb_true_iff in E as [_ E%negb_true_iff]. cbn [fin_sent_ was_draining_ set_field].
  destruct (fin_sent_ st) eqn:Es; [|eexists; split; [done|]; split; [destruct Hst; constructor; naive_solver|done]].
  destruct (was_draining_ st) eqn:Ed; [destruct (so_draining _ _ _ _ Hst Ed); congruence|]. cbn [negb CHECK rbind].
  eexists. split; [done|]. split; [|done]. destruct Hst. rewrite Es in *. by constructor.
Qed.

Lemma no_violation c : recv_ok c -> FlowControlViolation c = false.
Proof. intros [[] _]. unfold FlowControlViolation. lia. Qed.

Lemma room_flags h s st st' g : room h (put s st) g -> stream_id_ st' = stream_id_ st ->
  flow_controller_ st' = flow_controller_ st -> close_offset_ st' = close_offset_ st -> room h (put s st') g.
Proof.
  intros [] Ei Ef Ec. constructor; try done; cbn in *; rewrite Ei.
  - intros k st1 c1 H1 H2. destruct (decide (k = stream_id_ st)) as [->|Hk].
    + rewrite lookup_insert_eq in H1. injection H1 as <-. apply rm_streams0 with st; [apply lookup_insert_eq|congruence].
    + rewrite lookup_insert_ne in H1 by done. apply rm_streams0 with st1; [by rewrite lookup_insert_ne|done].
  - intros k st1 H1. destruct (decide (k = stream_id_ st)) as [->|Hk].
    + rewrite lookup_insert_eq in H1. injection H1 as <-. rewrite Ec. apply rm_close0, lookup_insert_eq.
    + rewrite lookup_insert_ne in H1 by done. apply rm_close0. by rewrite lookup_insert_ne.
Qed.

Lemma Stream_OnStreamFrame_ok p h e s st opened g o l fin (j := stream_id_ st) :
  sess_inv (put s st) opened g -> room h (put s st) g -> read_side_closed_ st && write_side_closed_ st = false ->
  0 <= o -> 0 <= l -> (l = 0 -> fin = true) -> o + l <= at_ (sent h) j -> (fin = true -> final h !! j = Some (o + l)) ->
  exists r g', Stream_OnStreamFrame e s st o l fin = Ok r /\ op_ok p h s st opened g r g'.
Proof.
  intros Hs Hr Hb Ho Hl Hl0 Hol Hf. unfold Stream_OnStreamFrame. rewrite Hb. cbn [negb CHECK rbind].
  destruct (sess_stream _ _ _ _ Hs) as [c Hst]. destruct (so_kind _ _ _ _ Hst) as (K1 & K2 & K3).
  pose proof (sent_small _ _ _ j Hr) as Hsm. rewrite K2, andb_false_r, K1, bool_decide_eq_false_2 by done.
  unfold kMaxStreamLength. rewrite (u64_small (2 ^ 62 - 1 - o)), (u64_small (o + l)) by lia.
  destruct (Z.ltb_spec (2 ^ 62 - 1) o); [lia|]. destruct (Z.ltb_spec (2 ^ 62 - 1 - o) l); [lia|]. cbn [orb].
  pose proof (rm_close _ _ _ Hr j st ltac:(apply lookup_insert_eq)) as Hcl. pose proof (rm_final _ _ _ Hr j) as Hfin.
  destruct (Z.ltb_spec (close_offset_ st) (o + l)); [destruct Hcl as [Hcl|Hcl%Hfin]; lia|].
  destruct (note_fin_ok st c g fin Hst) as (st1 & -> & Hst1 & Ec1 & Ei1 & Er1 & Ew1). cbn [rbind]. fold j in Hst1, Ei1.
  destruct (sess_flags p h s st st1 c opened g) as [M1 M2]; try done; [apply Hst|by left|].
  rewrite Er1. destruct (read_side_closed_ st) eqn:Er.
  { exists (s, st1), g. split; [done|]. apply op_ok_put; try done. by rewrite Er1, Ew1. }
  set (st2 := st1 <| stream_bytes_read_ := _ |>).
  assert (Hst2 : stream_ok j st2 c g) by (destruct Hst1; by constructor).
  destruct (sess_flags p h s st1 st2 c opened g) as [M3 M4]; try done; [apply Hst1|by rewrite Ei1|by left|].
  assert (Hr2 : room h (put s st2) g).
  { apply room_flags with st; try done. etrans; [apply Hst2|]. symmetry. apply Hst. }
  assert (Hinc : exists s3 c3 b, (if 0 <? l then MaybeIncreaseHighestReceivedOffset s st2 (o + l) else Ok (s, st2, false)) =
      Ok (s3, st2 <| flow_controller_ := Some c3 |>, b) /\
    (let g3 := if 0 <? l then raise j (o + l) g else g in
     sess_inv (put s3 (st2 <| flow_controller_ := Some c3 |>)) opened g3 /\
     moves p h (put s st2) (put s3 (st2 <| flow_controller_ := Some c3 |>)) g g3 /\
     stream_map_ s3 = stream_map_ s /\ receive_window_offset_ c3 = receive_window_offset_ c)).
  { destruct (0 <? l).
    - destruct (MaybeIncrease_ok p h s st2 c opened g (o + l) M3 Hr2) as (s3 & c3 & b & -> & X1 & X2 & X3 & X4 & _);
        [apply Hst2|change (stream_id_ st2) with (stream_id_ st1); rewrite Ei1; lia|]. change (stream_id_ st2) with (stream_id_ st1) in X1, X2. rewrite Ei1 in X1, X2. by exists s3, c3, b.
    - exists s, c, false. assert (E : st2 <| flow_controller_ := Some c |> = st2).
      { pose proof (so_fc _ _ _ _ Hst2). destruct st2; cbn in *; by subst. }
      rewrite E. split; [done|]. split; [done|]. split; [apply moves_refl|done]. }
  destruct Hinc as (s3 & c3 & b & -> & X1 & X2 & X3 & X4). cbn [rbind]. set (st3 := st2 <| flow_controller_ := Some c3 |>) in *.
  set (g3 := if 0 <? l then raise j (o + l) g else g) in *.
  assert (Ei3 : stream_id_ st3 = j) by exact Ei1.
  destruct (sess_stream _ _ _ _ X1) as [c4 Hst3]. rewrite Ei3 in Hst3.
  assert (c4 = c3) as -> by (pose proof (so_fc _ _ _ _ Hst3) as E; cbn in E; congruence).
  change (flow_controller_ st3) with (Some c3). cbv iota. rewrite (no_violation c3) by apply Hst3. rewrite (no_violation (session_flow_controller_ s3)) by apply X1.
  replace (if b then _ else _) with (Ok (A := bool) false) by (by destruct b). cbn [rbind].
  pose proof (rm_recv _ _ _ Hr j) as Hrj. pose proof (rm_streams _ _ _ Hr j st c ltac:(apply lookup_insert_eq) ltac:(apply Hst)) as Hw.
  assert (Er3 : at_ (recv g3) j <= at_ (sent h) j).
  { unfold g3. destruct (0 <? l); [rewrite raise_at|]; lia. }
  destruct (Sequencer_ok h e s3 st3 c3 g3 o l fin) as (st4 & -> & Y1 & Y2 & Y3 & Y4); try (rewrite ?Ei3; done || lia).
  { rewrite Ei3. change (close_offset_ st3) with (close_offset_ st1). by rewrite Ec1. }
  { intros Hlp. rewrite Ei3. unfold g3. rewrite (proj2 (Z.ltb_lt _ _) Hlp), raise_at. lia. }
  rewrite Ei3 in Y1, Y2. eexists _, g3. split; [done|].
  destruct (sess_flags p h s3 st3 st4 c3 opened g3) as [Z1 Z2]; try (rewrite ?Ei3; done).
  apply op_ok_put; try done.
  - eapply moves_trans; [exact M2|]. eapply moves_trans; [exact M4|]. by eapply moves_trans.
  - rewrite Y3, Y4. change (read_side_closed_ st3) with (read_side_closed_ st1). by rewrite Er1.
Qed.

Lemma OnStreamReset_ok p h e s st opened g o (j := stream_id_ st) :
  ietf e = true -> ietf_version = true -> sess_inv (put s st) opened g -> room h (put s st) g -> is_Some (stream_map_ s !! j) ->
  read_side_closed_ st && write_side_closed_ st = false -> final h !! j = Some o ->
  exists r g', OnStreamReset e s st o = Ok r /\ op_ok p h s st opened g r g'.
Proof.
  intros He Hv Hs Hr Hm Hb Hf. unfold OnStreamReset. destruct (sess_stream _ _ _ _ Hs) as [c Hst].
  pose proof (sent_small _ _ _ j Hr) as Hsm. pose proof (rm_final _ _ _ Hr j _ Hf) as Efin.
  unfold kMaxStreamLength. destruct (Z.ltb_spec (2 ^ 62 - 1) o); [lia|].
  set (st1 := st <| rst_received_ := true |>).
  assert (Hst1 : stream_ok j st1 c g) by (destruct Hst; by constructor).
  destruct (sess_flags p h s st st1 c opened g) as [M1 M2]; try done; [apply Hst|by left|].
  assert (Ecl : negb (close_offset_ st1 =? two64 - 1) && negb (o =? close_offset_ st1) = false).
  { destruct (rm_close _ _ _ Hr j st ltac:(apply lookup_insert_eq)) as [E|E]; unfold st1; cbn.
    - by rewrite E.
    - assert (close_offset_ st = o) as -> by congruence. rewrite Z.eqb_refl. apply andb_false_r. }
  rewrite Ecl. assert (Hr1 : room h (put s st1) g) by (by apply room_flags with st).
  destruct (MaybeIncrease_ok p h s st1 c opened g o M1 Hr1) as (s3 & c3 & b & -> & X1 & X2 & X3 & X4 & _);
    [apply Hst1|change (stream_id_ st1) with j; lia|]. cbn [rbind]. change (stream_id_ st1) with j in X1, X2.
  destruct (sess_stream _ _ _ _ X1) as [c4 Hst3]. set (st3 := st1 <| flow_controller_ := Some c3 |>) in *.
  change (flow_controller_ st3) with (Some c3). cbv iota.
  assert (c4 = c3) as -> by (pose proof (so_fc _ _ _ _ Hst3) as E; cbn in E; congruence).
  rewrite (no_violation c3) by apply Hst3. rewrite (no_violation (session_flow_controller_ s3)) by apply X1. cbn [orb].
  rewrite He. cbn [negb rbind].
  destruct (CloseReadSide_ok p h e s3 st3 opened _ ltac:(by rewrite Hv) X1) as (r & g' & ? & ?); [by rewrite X3|done|].
  exists r, g'. split; [done|]. eapply op_ok_after; [| |eassumption]; [by eapply moves_trans|done].
Qed.

(** * Writing *)

Definition add_sent (j a : Z) (fin : bool) (g : Ghost) : Ghost :=
  g <| sent := <[j := at_ (sent g) j + a]> (sent g) |>
    <| final := if fin then <[j := at_ (sent g) j + a]> (final g) else final g |>.

(** A controller that has sent [a] bytes, and perhaps told its peer it is blocked. *)
Definition has_sent (a b : Z) (c : QuicFlowController) : QuicFlowController :=
  c <| bytes_sent_ := bytes_sent_ c + a |> <| last_blocked_send_window_offset_ := b |>.

Lemma send_ok_sent a b c : send_ok c -> 0 <= a <= SendWindowSize c -> send_ok (has_sent a b c).
Proof.
  intros Hc Ha. destruct (FC_AddBytesSent_val c a Hc Ha) as [_ H']. exact H'.
Qed.

Lemma recv_ok_sent a b c : recv_ok c -> recv_ok (has_sent a b c).
Proof. intros [[] ?]. split; [|done]. by constructor. Qed.

(** The frames of a write: the data accepted, and whether a level is blocked. *)
Definition write_frame (j o a : Z) (fin : bool) (f : Frame) : Prop :=
  f = StreamFrame j o a fin /\ (a = 0 -> fin = true) \/ exists k, f = Blocked k.

Lemma write_step p h s s' st st' c b1 b2 opened g a fin fs (j := stream_id_ st) :
  sess_inv (put s st) opened g -> flow_controller_ st = Some c -> write_side_closed_ st = false ->
  0 <= a <= SendWindowSize c -> a <= SendWindowSize (session_flow_controller_ s) -> sum_sizes (sent g) + a < 2 ^ 62 ->
  session_flow_controller_ s' = has_sent a b2 (session_flow_controller_ s) ->
  stream_map_ s' = stream_map_ s -> stream_type_ s' = stream_type_ s -> error_ s' = None ->
  locally_closed_streams_highest_offset_ s' = locally_closed_streams_highest_offset_ s ->
  frames_ s' = frames_ s ++ fs -> Forall (write_frame j (at_ (sent g) j) a fin) fs ->
  stream_ok j st' (has_sent a b1 c) (add_sent j a fin g) -> close_offset_ st' = close_offset_ st ->
  sess_inv (put s' st') opened (add_sent j a fin g) /\
  moves p h (put s st) (put s' st') g (add_sent j a fin g).
Proof.
  intros Hs Hc Hw Ha Hac Hsm Ec Em Et Ee El Ef Hfs Hst' Ecl. pose proof (si_counts _ _ _ Hs j) as Hn.
  destruct (sess_stream _ _ _ _ Hs) as [c0 Hst].
  assert (Hnf : final g !! j = None).
  { destruct (final g !! j) eqn:E; [|done]. rewrite (proj2 (so_write _ _ _ _ Hst) ltac:(by eexists)) in Hw. done. }
  destruct (si_streams _ _ _ Hs j st ltac:(apply lookup_insert_eq)) as [Hjo _].
  apply (sess_step p h s s' st st' c (has_sent a b1 c) opened g _ fs); try done.
  - rewrite Ec. destruct (si_conn _ _ _ Hs). constructor; try done.
    + by apply send_ok_sent; [|cbn in *; lia].
    + cbn in *. rewrite sum_update. lia.
    + by apply recv_ok_sent.
  - constructor; cbn; try done; intros k Hk; [by apply at_insert_ne|]. destruct fin; [by apply lookup_insert_ne|done].
  - subst j. constructor; cbn; rewrite ?at_insert; try lia.
    + intros n. destruct fin; [rewrite lookup_insert_eq; congruence|congruence].
    + congruence.
  - by rewrite Ec.
  - eapply Forall_impl; [exact Hfs|]. intros f [[-> Hf]|[k ->]]; [|done]. cbn. rewrite at_insert. split; [lia|]. split; [lia|].
    split; [done|]. split; [lia|]. split; [|done]. intros ->. by rewrite lookup_insert_eq.
  - cbn. rewrite sum_update. lia.
  - apply (si_small _ _ _ Hs).
  - by rewrite Ec.
  - by left.
  - by left.
  - left. by rewrite Ec.
  - by left.
Qed.

Lemma MaybeSendBlocked_val e s st c :
  flow_controller_ st = Some c -> stream_contributes_to_connection_flow_control_ st = true ->
  exists b1 b2 fs, Forall (fun f => exists k, f = Blocked k) fs /\
    MaybeSendBlocked e s st = Ok (send_frames (s <| session_flow_controller_ :=
                                     session_flow_controller_ s <| last_blocked_send_window_offset_ := b2 |> |>) fs,
                                  st <| flow_controller_ := Some (c <| last_blocked_send_window_offset_ := b1 |>) |>).
Proof.
  intros Hc Hk. unfold MaybeSendBlocked. rewrite Hc.
  assert (Hb : forall c, exists b blocked, ShouldSendBlocked c = (c <| last_blocked_send_window_offset_ := b |>, blocked)).
  { intros c0. unfold ShouldSendBlocked. destruct (_ || _); [|by eexists _, _]. exists (last_blocked_send_window_offset_ c0), false. by destruct c0. }
  destruct (Hb c) as (b1 & x1 & ->). cbn [stream_contributes_to_connection_flow_control_ set_field]. rewrite Hk. cbn [negb].
  assert (E : session_flow_controller_ (when x1 (fun s => send_frames s [Blocked (stream_id_ st)]) s) = session_flow_controller_ s) by (by destruct x1).
  cbn [stream_id_ set_field]. rewrite E. destruct (Hb (session_flow_controller_ s)) as (b2 & x2 & ->).
  exists b1, b2, ((if x1 then [Blocked (stream_id_ st)] else []) ++ (if x2 then [Blocked (GetInvalidStreamId (ietf e))] else [])).
  split; [destruct x1, x2; repeat constructor; eauto|].
  destruct x1, x2; cbn; unfold send_frames; cbn; rewrite <- ?app_assoc, ?app_nil_r; done.
Qed.

(** What flow control permits to write on a stream, and what is asked of the
    caller of [WriteBufferedData]: the write side is open, there is something to
    write, and [WritevData] accepts no more than it is given, the FIN only with
    the last byte. *)
Definition send_limit (s : QuicSession) (st : QuicStream) : Z :=
  match flow_controller_ st with
  | Some c => Z.min (SendWindowSize c) (SendWindowSize (session_flow_controller_ s))
  | None => 0
  end.
Record write_allowed (s : QuicSession) (st : QuicStream) (buffered : Z) (fin_buffered : bool) (accepted : Z)
    (fin_consumed : bool) : Prop := {
  wa_open : write_side_closed_ st = false;
  wa_some : 0 < buffered \/ buffered = 0 /\ fin_buffered = true;
  wa_accepted : 0 <= accepted <= Z.min buffered (send_limit s st);
  wa_fin : fin_consumed = true -> fin_buffered = true /\ accepted = buffered;
  wa_small : bytes_sent_ (session_flow_controller_ s) + accepted < 2 ^ 62;
}.

Lemma AddBytesSent_val s st c a : flow_controller_ st = Some c ->
  stream_contributes_to_connection_flow_control_ st = true -> send_ok c -> send_ok (session_flow_controller_ s) ->
  0 <= a <= Z.min (SendWindowSize c) (SendWindowSize (session_flow_controller_ s)) ->
  AddBytesSent s st a =
    Ok (s <| session_flow_controller_ := session_flow_controller_ s <| bytes_sent_ := bytes_sent_ (session_flow_controller_ s) + a |> |>,
        st <| flow_controller_ := Some (c <| bytes_sent_ := bytes_sent_ c + a |>) |>).
Proof.
  intros Hc Hk H1 H2 Ha. unfold AddBytesSent. rewrite Hc, (proj1 (FC_AddBytesSent_val c a H1 ltac:(lia))). cbn [rbind].
  cbn [stream_contributes_to_connection_flow_control_ set_field]. rewrite Hk.
  by rewrite (proj1 (FC_AddBytesSent_val (session_flow_controller_ s) a H2 ltac:(lia))).
Qed.

(** The state after the data has been handed over: the frame is logged, the bytes
    are charged at both levels and a blocked level is reported. *)
Definition written (s : QuicSession) (st : QuicStream) (c : QuicFlowController) (a b1 b2 : Z) (fs : list Frame)
    : QuicSession * QuicStream :=
  (s <| session_flow_controller_ := has_sent a b2 (session_flow_controller_ s) |> <| frames_ := frames_ s ++ fs |>,
   st <| stream_bytes_written_ := stream_bytes_written_ st + a |> <| flow_controller_ := Some (has_sent a b1 c) |>).

Lemma stream_ok_written j st c g a b1 :
  stream_ok j st c g -> 0 <= a <= SendWindowSize c -> write_side_closed_ st = false ->
  stream_ok j (st <| stream_bytes_written_ := stream_bytes_written_ st + a |> <| flow_controller_ := Some (has_sent a b1 c) |>)
    (has_sent a b1 c) (add_sent j a false g).
Proof.
  intros [] Ha Hw. constructor; try done.
  - cbn. rewrite at_insert. destruct so_send0 as (? & ? & ?). split; [by apply send_ok_sent|]. lia.
  - destruct so_recv0 as (? & ? & ?). split; [by apply recv_ok_sent|done].
Qed.

(** The last write closes the write side. *)
Definition finished (st : QuicStream) : QuicStream :=
  st <| fin_sent_ := true |> <| was_draining_ := was_draining_ st || fin_received_ st |>.
Lemma stream_ok_finished j st c g a b1 :
  stream_ok j st c g -> 0 <= a <= SendWindowSize c -> write_side_closed_ st = false ->
  stream_ok j (finished (st <| stream_bytes_written_ := stream_bytes_written_ st + a |>
                            <| flow_controller_ := Some (has_sent a b1 c) |>) <| write_side_closed_ := true |>)
    (has_sent a b1 c) (add_sent j a true g).
Proof.
  intros [] Ha Hw. constructor; try done; cbn.
  - rewrite at_insert. destruct so_send0 as (? & ? & ?). split; [by apply send_ok_sent|]. lia.
  - destruct so_recv0 as (? & ? & ?). split; [by apply recv_ok_sent|done].
  - rewrite lookup_insert_eq. naive_solver.
  - naive_solver.
  - intros [E|E]%orb_true_iff; [|done]. split; [|done]. by apply so_draining0.
Qed.

Lemma has_sent_same a c : c <| bytes_sent_ := bytes_sent_ c + a |> = has_sent a (last_blocked_send_window_offset_ c) c.
Proof. by destruct c. Qed.

(** Charging the bytes, then reporting a blocked level or not. *)
Lemma charge_val e s st c a f0 (report : bool)
    (s0 := s <| frames_ := frames_ s ++ f0 |>) (st0 := st <| stream_bytes_written_ := stream_bytes_written_ st + a |>)
    (s1 := s0 <| session_flow_controller_ :=
                  session_flow_controller_ s0 <| bytes_sent_ := bytes_sent_ (session_flow_controller_ s0) + a |> |>)
    (st1 := st0 <| flow_controller_ := Some (c <| bytes_sent_ := bytes_sent_ c + a |>) |>) :
  stream_contributes_to_connection_flow_control_ st = true ->
  exists b1 b2 fs, Forall (fun f => exists k, f = Blocked k) fs /\
    (if report then MaybeSendBlocked e s1 st1 else Ok (s1, st1)) = Ok (written s st c a b1 b2 (f0 ++ fs)).
Proof.
  intros Hk. destruct report.
  - destruct (MaybeSendBlocked_val e s1 st1 _ eq_refl Hk) as (b1 & b2 & fs & Hf & ->). exists b1, b2, fs. split; [done|].
    unfold written, send_frames, s1, st1, s0, st0, has_sent. cbn. by rewrite <- app_assoc.
  - exists (last_blocked_send_window_offset_ c), (last_blocked_send_window_offset_ (session_flow_controller_ s)), [].
    split; [constructor|]. unfold written. rewrite <- !has_sent_same. unfold s1, st1, s0, st0. cbn. by rewrite app_nil_r.
Qed.

Lemma write_frames j o a (fin : bool) fs (f0 := if (0 <? a) || fin then [StreamFrame j o a fin] else []) :
  0 <= a -> Forall (fun f => exists k, f = Blocked k) fs -> Forall (write_frame j o a fin) (f0 ++ fs).
Proof.
  intros Ha Hf. apply Forall_app. split.
  - unfold f0. destruct (Z.ltb_spec 0 a); cbn [orb]; [|destruct fin; [|constructor]]; apply Forall_singleton; left; (split; [done|]); [lia|done].
  - eapply Forall_impl; [exact Hf|]. intros f. by right.
Qed.

(** The state when the write is over: the caller has its stream back, or the FIN
    was sent and the write side is closed. *)
Lemma after_write_ok p h e s st c opened g a (finc : bool) f0 wl (fin zero : bool) (j := stream_id_ st)
    (s0 := s <| frames_ := frames_ s ++ f0 |>) (st0 := st <| stream_bytes_written_ := stream_bytes_written_ st + a |>)
    (s1 := s0 <| session_flow_controller_ :=
                  session_flow_controller_ s0 <| bytes_sent_ := bytes_sent_ (session_flow_controller_ s0) + a |> |>)
    (st1 := st0 <| flow_controller_ := Some (c <| bytes_sent_ := bytes_sent_ c + a |>) |>) :
  ietf e = ietf_version -> sess_inv (put s st) opened g -> is_Some (stream_map_ s !! j) -> stream_ok j st c g ->
  write_side_closed_ st = false -> 0 <= a <= Z.min (SendWindowSize c) (SendWindowSize (session_flow_controller_ s)) ->
  sum_sizes (sent g) + a < 2 ^ 62 ->
  f0 = (if (0 <? a) || finc then [StreamFrame j (at_ (sent g) j) a finc] else []) ->
  (finc = true -> fin = true /\ a = wl) ->
  exists r g', after_write e s1 st1 wl fin zero a finc = Ok r /\ op_ok p h s st opened g r g'.
Proof.
  intros He Hs Hm Hst Hw Ha Hsum Ef0 Hfin. destruct (so_kind _ _ _ _ Hst) as (K1 & K2 & K3).
  pose proof (so_fc _ _ _ _ Hst) as Hfc. pose proof (si_error _ _ _ Hs) as Hq. cbn in Hq.
  assert (Hstep : forall b1 b2 fs st', Forall (fun f => exists k, f = Blocked k) fs ->
    stream_ok j st' (has_sent a b1 c) (add_sent j a finc g) -> close_offset_ st' = close_offset_ st ->
    let s' := fst (written s st c a b1 b2 (f0 ++ fs)) in
    sess_inv (put s' st') opened (add_sent j a finc g) /\ moves p h (put s st) (put s' st') g (add_sent j a finc g)).
  { intros b1 b2 fs st' Hfs Hst' Ecl. apply (write_step p h s _ st st' c b1 b2 opened g a finc (f0 ++ fs)); try (done || lia).
    rewrite Ef0. apply write_frames; (done || lia). }
  unfold after_write. change (write_side_closed_ st1) with (write_side_closed_ st). rewrite Hw.
  destruct (charge_val e s st c a f0 (negb zero) K3) as (b1 & b2 & fs & Hfs & Ech). fold s0 st0 s1 st1 in Ech.
  destruct finc.
  - destruct (Hfin eq_refl) as [-> <-]. rewrite Z.eqb_refl, Ech. cbn [rbind andb]. unfold written.
    assert (Efs : fin_sent_ st = false).
    { destruct (fin_sent_ st) eqn:E; [|done]. rewrite (proj2 (so_ends _ _ _ _ Hst)) in Hw by auto. done. }
    assert (Ewd : was_draining_ st = false).
    { destruct (was_draining_ st) eqn:E; [|done]. destruct (so_draining _ _ _ _ Hst E). congruence. }
    set (st2 := snd (written s st c a b1 b2 (f0 ++ fs))). set (s2 := fst (written s st c a b1 b2 (f0 ++ fs))).
    destruct (Hstep b1 b2 fs (finished st2 <| write_side_closed_ := true |>)) as [X1 X2]; try done.
    { apply stream_ok_finished; (done || lia). }
    destruct (CloseWriteSide_ok p h e s2 (finished st2) opened (add_sent j a true g) He X1) as (r & g' & X3 & X4);
      [done|by cbn; rewrite Hw, andb_false_r|].
    exists r, g'. split; [|eapply op_ok_after; [| |eassumption]; done].
    rewrite <- X3. unfold finished. cbn. rewrite Efs, Ewd. cbn. by destruct (fin_received_ st).
  - assert (Hres : exists b1 b2 fs, Forall (fun f => exists k, f = Blocked k) fs /\
      (if a =? wl then let* (s, st) := if negb zero then MaybeSendBlocked e s1 st1 else Ok (s1, st1) in Ok (s, st)
       else Ok (s1, st1)) = Ok (written s st c a b1 b2 (f0 ++ fs))).
    { destruct (a =? wl); [by exists b1, b2, fs; rewrite Ech|]. apply (charge_val e s st c a f0 false K3). }
    rewrite andb_false_r. clear b1 b2 fs Hfs Ech. destruct Hres as (b1 & b2 & fs & Hfs & ->).
    eexists _, (add_sent j a false g). split; [done|].
    destruct (Hstep b1 b2 fs (snd (written s st c a b1 b2 (f0 ++ fs)))) as [X1 X2]; try done.
    { apply stream_ok_written; (done || lia). }
    apply op_ok_put; try done. cbn. by rewrite Hw, andb_false_r.
Qed.

Lemma WriteBufferedData_ok p h e s st opened g y buffered finb accepted finc (j := stream_id_ st) :
  ietf e = ietf_version -> sess_inv (put s st) opened g -> is_Some (stream_map_ s !! j) ->
  write_allowed s st buffered finb accepted finc ->
  exists r g', WriteBufferedData e s st y buffered finb accepted finc = Ok r /\ op_ok p h s st opened g r g'.
Proof.
  intros He Hs Hm [Hw Hsome Hacc Hfin Hsm]. destruct (sess_stream _ _ _ _ Hs) as [c Hst]. unfold WriteBufferedData. rewrite Hw.
  assert (Hb : read_side_closed_ st && write_side_closed_ st = false) by (rewrite Hw; apply andb_false_r).
  replace ((0 <? buffered) || finb) with true by (destruct Hsome as [?|[_ ->]]; [lia|by rewrite orb_true_r]). cbn [negb andb CHECK rbind].
  destruct y; [exists (s, st), g; split; [done|]; by apply op_ok_put; [|apply moves_refl|..]|].
  destruct (so_kind _ _ _ _ Hst) as (K1 & K2 & K3). destruct (so_send _ _ _ _ Hst) as (S1 & S2 & S3). fold j in S2, S3.
  pose proof (si_conn _ _ _ Hs) as Hc. cbn in Hc. pose proof (co_send _ _ Hc) as Hcs. pose proof (co_sent _ _ Hc) as Ecs.
  pose proof (so_fc _ _ _ _ Hst) as Hfc. pose proof (si_counts _ _ _ Hs j) as Hn.
  unfold send_limit in Hacc. rewrite Hfc in Hacc. rewrite Hfc. cbn [rbind]. rewrite K3.
  set (L := Z.min (SendWindowSize c) _) in *. pose proof (SendWindowSize_val c S1) as W1. pose proof (SendWindowSize_val _ Hcs) as W2.
  assert (HL : 0 <= L /\ at_ (sent g) j + L < two64) by (destruct S1, Hcs; lia).
  destruct ((L =? 0) && negb (finb && (buffered =? 0))) eqn:Ez.
  - apply andb_true_iff in Ez as [Ez%Z.eqb_eq Ez2%negb_true_iff].
    destruct (MaybeSendBlocked_val e s st c Hfc K3) as (b1 & b2 & fs & Hfs & ->).
    eexists _, (add_sent j 0 false g). split; [done|].
    destruct (write_step p h s (send_frames (s <| session_flow_controller_ :=
                                     session_flow_controller_ s <| last_blocked_send_window_offset_ := b2 |> |>) fs) st
                (st <| flow_controller_ := Some (c <| last_blocked_send_window_offset_ := b1 |>) |>) c b1 b2 opened g 0 false fs)
      as [X1 X2]; try (done || lia).
    + unfold has_sent. rewrite Z.add_0_r. by destruct s as [[]].
    + apply (si_error _ _ _ Hs).
    + eapply Forall_impl; [exact Hfs|]. by right.
    + pose proof (stream_ok_written j st c g 0 b1 Hst ltac:(lia) Hw) as H'. unfold has_sent in *. rewrite !Z.add_0_r in *.
      by destruct st, c.
    + by apply op_ok_put.
  - rewrite S3, (u64_small (at_ (sent g) j + accepted)) by lia. rewrite <- S3.
    set (f0 := if (0 <? accepted) || finc then [StreamFrame j (at_ (sent g) j) accepted finc] else []).
    replace (when _ _ s) with (s <| frames_ := frames_ s ++ f0 |>)
      by (unfold f0; rewrite S3; destruct (_ || finc); cbn; [done|rewrite app_nil_r; by destruct s]).
    destruct (if L <? buffered then _ else _) as [wl fin] eqn:Ewl.
    rewrite (AddBytesSent_val _ _ c); [|done..|change (0 <= accepted <= L); lia]. cbn [rbind].
    apply after_write_ok; try (done || lia). intros E. destruct (Hfin E) as [-> ->].
    destruct (Z.ltb_spec L buffered); [lia|]. by injection Ewl as <- <-.
Qed.

(** * The handlers of the session *)

Definition good (p : QuicSession) (h : Ghost) (s : QuicSession) (opened : gset Z) (g : Ghost)
    (s' : QuicSession) (g' : Ghost) : Prop :=
  sess_inv s' opened g' /\ evolves p h s s' g g' /\ live s'.

Lemma good_refl p h s opened g : sess_inv s opened g -> live s -> good p h s opened g s g.
Proof. intros Hs Hl. split; [done|]. split; [apply evolves_refl|done]. Qed.

(** The stream an operation takes from the map. *)
Lemma taken s opened g id st : sess_inv s opened g -> live s -> stream_map_ s !! id = Some st ->
  stream_id_ st = id /\ put s st = s /\ is_Some (stream_map_ s !! stream_id_ st) /\
  read_side_closed_ st && write_side_closed_ st = false.
Proof.
  intros Hs Hl Hm. destruct (si_streams _ _ _ Hs id st Hm) as (_ & c & Hst). assert (E : stream_id_ st = id) by apply Hst.
  split; [done|]. split; [apply put_id; congruence|]. split; [rewrite E; by eexists|exact (Hl _ _ Hm)].
Qed.

Lemma stored p h s id st opened g (f : result (QuicSession * QuicStream)) :
  sess_inv s opened g -> live s -> stream_map_ s !! id = Some st ->
  (exists r g', f = Ok r /\ op_ok p h s st opened g r g') ->
  exists s' g', (let* r := f in Ok (store r)) = Ok s' /\ good p h s opened g s' g'.
Proof.
  intros Hs Hl Hm (r & g' & -> & H1 & [H2 _] & H3). destruct (taken _ _ _ _ _ Hs Hl Hm) as (_ & E & _).
  rewrite E in H2. exists (store r), g'. split; [done|]. split; [done|]. split; [done|]. auto.
Qed.

Lemma on_stream_ok p h s id opened g f :
  sess_inv s opened g -> live s ->
  (forall st, stream_map_ s !! id = Some st -> exists r g', f st = Ok r /\ op_ok p h s st opened g r g') ->
  exists s' g', on_stream s id f = Ok s' /\ good p h s opened g s' g'.
Proof.
  intros Hs Hl Hf. unfold on_stream. destruct (stream_map_ s !! id) as [st|] eqn:E.
  - by eapply stored; eauto.
  - exists s, g. split; [done|]. by apply good_refl.
Qed.

Lemma AddBytesConsumed_map e s st n s' st' : AddBytesConsumed e s st n = Ok (s', st') -> stream_map_ s' = stream_map_ s.
Proof.
  unfold AddBytesConsumed, connection_consumed. intros H.
  repeat first [case_match; simplify_eq; cbn [rbind] in *; try done
               |match type of H with context [FC_AddBytesConsumed ?a ?b ?c ?d ?f] =>
                  destruct (FC_AddBytesConsumed a b c d f) as [[[? ?] ?]|]; cbn [rbind] in *; simplify_eq; try done end].
Qed.

(** The application reads. *)
Lemma read_ok p h e s id st opened g n : ietf e = ietf_version -> sess_inv s opened g -> live s -> stream_map_ s !! id = Some st ->
  read_side_closed_ st = false ->
  (forall c, flow_controller_ st = Some c -> 0 <= n <= highest_received_byte_offset_ c - bytes_consumed_ c) ->
  exists r g', AddBytesConsumed e s st n = Ok r /\ op_ok p h s st opened g r g'.
Proof.
  intros He Hs Hl Hst Hr Hn. destruct (taken _ _ _ _ _ Hs Hl Hst) as (Ei & Ep & _ & Hb).
  destruct (si_streams _ _ _ Hs id st Hst) as (_ & c & Hok). specialize (Hn c (so_fc _ _ _ _ Hok)).
  destruct (so_recv _ _ _ _ Hok) as (_ & E1 & E2).
  destruct (AddBytesConsumed_open p h e s st opened g n) as (s' & st' & E & H1 & H2 & H3 & H4); rewrite ?Ep, ?Ei; try done; [lia|].
  exists (s', st'), (add_cons (stream_id_ st) n g). split; [done|].
  apply op_ok_put; [done|done|by eapply AddBytesConsumed_map|]. by rewrite H3, H4.
Qed.

(** The final size of a stream that was closed before its end was known. *)
Definition settle (j n : Z) (g : Ghost) : Ghost := g <| recv := <[j := n]> (recv g) |> <| cons := <[j := n]> (cons g) |>.

Lemma sess_settle p h s opened g j n conn' out
    (s' := s <| session_flow_controller_ := conn' |> <| frames_ := frames_ s ++ map WindowUpdate out |>
             <| locally_closed_streams_highest_offset_ := delete j (locally_closed_streams_highest_offset_ s) |>) :
  sess_inv s opened g -> live s -> stream_map_ s !! j = None -> j ∈ opened -> 0 <= n <= at_ (sent h) j ->
  conn_ok conn' (settle j n g) ->
  receive_window_offset_ (session_flow_controller_ s) <= receive_window_offset_ conn' ->
  send_window_offset_ conn' = send_window_offset_ (session_flow_controller_ s) ->
  (forall w, w ∈ out -> frame_ok s' opened (settle j n g) (WindowUpdate w)) ->
  sum_sizes (recv (settle j n g)) < 2 ^ 62 -> told s' invalid (session_flow_controller_ s) conn' ->
  good p h s opened g s' (settle j n g).
Proof.
  intros Hs Hl Hm Hj Hn Hc Hoff Hsw Hout Hsm Htold. assert (Ho : same_off j g (settle j n g)).
  { constructor; try done; intros k Hk; cbn; by apply at_insert_ne. }
  split; [|split; [|done]].
  - constructor; try apply Hs; try done.
    + intros k st1 H1. destruct (si_streams _ _ _ Hs k st1 H1) as (? & c1 & H2). split; [done|]. exists c1.
      eapply stream_ok_off; [done| |done]. intros ->. cbn in H1. congruence.
    + intros k H1. destruct (decide (k = j)) as [->|Hk]; [cbn; by rewrite !at_insert|].
      rewrite (off_cons _ _ _ Ho), (off_recv _ _ _ Ho) by done. by apply (si_closed _ _ _ Hs).
    + intros k o H1. cbn in H1. apply lookup_delete_Some in H1 as [Hk H1]. rewrite (off_recv _ _ _ Ho) by done. by apply (si_recorded _ _ _ Hs).
    + apply Forall_app. split.
      * eapply Forall_impl; [apply (si_frames _ _ _ Hs)|]. intros f. apply frame_ok_mono; try done.
        intros k st1 c1 H1 H2. by exists st1, c1.
      * apply Forall_forall. intros f (w & -> & Hw)%list_elem_of_fmap. by apply Hout.
    + intros k. pose proof (si_counts _ _ _ Hs k). destruct (decide (k = j)) as [->|Hk]; [cbn; rewrite !at_insert; lia|].
      by rewrite (off_cons _ _ _ Ho), (off_recv _ _ _ Ho).
    + intros k Hk. assert (k <> j) by congruence. rewrite (off_recv _ _ _ Ho) by done. by apply (si_fresh _ _ _ Hs).
    + split; [apply (si_small _ _ _ Hs)|done].
  - constructor; try done; auto; [cbn; set_solver| |].
    + intros k st1 c1 H1 H2. exists st1, c1. unfold told. auto 6.
    + intros k. destruct (decide (k = j)) as [->|Hk]; [right; cbn; rewrite at_insert; lia|left; by apply (off_recv _ _ _ Ho)].
Qed.

Lemma conn_ok_settle c c' g j n : conn_ok c g -> at_ (cons g) j = at_ (recv g) j -> recv_ok c' ->
  grows (c <| highest_received_byte_offset_ := highest_received_byte_offset_ c + (n - at_ (recv g) j) |>
           <| bytes_consumed_ := bytes_consumed_ c + (n - at_ (recv g) j) |>) c' ->
  conn_ok c' (settle j n g).
Proof.
  intros [] E Hr []. cbn in *. constructor; cbn; rewrite ?sum_update, ?E; try congruence; try lia.
  unfold send_ok in *. by rewrite grows_sent, grows_swo.
Qed.

Lemma OnFinalByteOffsetReceived_ok p h e s opened g j n :
  ietf e = ietf_version -> sess_inv s opened g -> live s -> room h s g -> final h !! j = Some n ->
  exists s' g', OnFinalByteOffsetReceived e s j n = Ok s' /\ good p h s opened g s' g'.
Proof.
  intros He Hs Hl Hr Hf. unfold OnFinalByteOffsetReceived.
  destruct (locally_closed_streams_highest_offset_ s !! j) as [o|] eqn:El; [|exists s, g; split; [done|]; by apply good_refl].
  destruct (si_recorded _ _ _ Hs j o El) as (Hj & <- & Hm). pose proof (si_closed _ _ _ Hs j Hm) as Ecr.
  pose proof (rm_final _ _ _ Hr j n Hf) as En. pose proof (sent_small _ _ _ j Hr) as Hsm. pose proof (rm_recv _ _ _ Hr j) as Hrj.
  pose proof (si_conn _ _ _ Hs) as Hc. pose proof (co_highest _ _ Hc) as Eh. destruct (conn_room _ _ _ j Hs) as (_ & _ & Hh).
  destruct (co_recv _ _ Hc) as [[C1 C2 C3 C4 C5] C6]. pose proof (rm_conn _ _ _ Hr) as Hrw. pose proof (rm_small _ _ _ Hr) as Hss.
  rewrite (u64_small (n - _)) by lia. set (d := n - at_ (recv g) j) in *. set (conn := session_flow_controller_ s) in *.
  assert (Hsum : highest_received_byte_offset_ conn + d <= sum_sizes (sent h)).
  { rewrite Eh. unfold d. destruct (Z.eq_dec n (at_ (recv g) j)) as [->|].
    - rewrite Z.sub_diag, Z.add_0_r. apply sum_le, (rm_recv _ _ _ Hr).
    - apply (room_sum _ _ _ j n Hr). lia. }
  rewrite u64_small by lia.
  set (conn1 := conn <| highest_received_byte_offset_ := highest_received_byte_offset_ conn + d |>).
  assert (Hr1 : recv_ok conn1) by (apply recv_ok_raise; [apply Hc|lia]).
  assert (Eu : exists b, UpdateHighestReceivedOffset conn (highest_received_byte_offset_ conn + d) = (conn1, b)).
  { unfold UpdateHighestReceivedOffset. destruct (Z.leb_spec (highest_received_byte_offset_ conn + d) (highest_received_byte_offset_ conn)); [|by eexists].
    assert (d = 0) by lia. exists false. f_equal. unfold conn1. replace (_ + d) with (highest_received_byte_offset_ conn) by lia. by destruct conn. }
  destruct Eu as [b ->]. rewrite (no_violation conn1 Hr1), andb_false_r.
  destruct (connection_consume e (s <| session_flow_controller_ := conn1 |>) d) as (conn2 & out & -> & G1 & G2 & G3).
  { apply (si_error _ _ _ Hs). } { done. } { cbn. lia. } { cbn. lia. }
  cbn [rbind]. eexists _, (settle j n g). split; [done|]. pose proof (grows_offset _ _ G1) as Hoff. cbn in Hoff, G1.
  apply (sess_settle p h s opened g j n conn2 out); try done; try lia.
  - by apply conn_ok_settle with conn.
  - apply (grows_swo _ _ G1).
  - intros w Hw. rewrite (announced_frames _ _ _ _ _ G3 Hw). apply wu_conn; [done| |done|done]. rewrite (grows_conn _ _ G1). apply Hc.
  - cbn. rewrite sum_update. lia.
  - eapply announced_told; [exact G3|done| |cbn; set_solver]. apply update_id_conn; [done|]. rewrite (grows_conn _ _ G1). apply Hc.
Qed.

(** A window update moves the send limit forward or leaves it. *)
Lemma UpdateSendWindowOffset_cases c m : send_ok c -> m < two64 ->
  fst (UpdateSendWindowOffset c m) = c \/
  fst (UpdateSendWindowOffset c m) = c <| send_window_offset_ := m |> /\ send_ok (c <| send_window_offset_ := m |>) /\
  send_window_offset_ c <= m.
Proof.
  intros [H1 H2] Hm. unfold UpdateSendWindowOffset. destruct (Z.leb_spec m (send_window_offset_ c)); [by left|right].
  split; [done|]. unfold send_ok. cbn. lia.
Qed.

Lemma recv_ok_limit c m : recv_ok c -> recv_ok (c <| send_window_offset_ := m |>).
Proof. intros [[] ?]. split; [|done]. by constructor. Qed.

Lemma conn_window p h s opened g m : sess_inv s opened g -> live s ->
  WindowUpdate (mkWindowUpdate invalid m) ∈ frames_ p -> m < two64 ->
  good p h s opened g (s <| session_flow_controller_ := fst (UpdateSendWindowOffset (session_flow_controller_ s) m) |>) g.
Proof.
  intros Hs Hl Hw Hm. pose proof (si_conn _ _ _ Hs) as Hc.
  destruct (UpdateSendWindowOffset_cases _ m (co_send _ _ Hc) Hm) as [->|(-> & Hok & Hle)].
  - replace (s <| session_flow_controller_ := session_flow_controller_ s |>) with s by (by destruct s). by apply good_refl.
  - split; [|split; [|done]].
    + constructor; try apply Hs. destruct Hc. constructor; try done. by apply recv_ok_limit.
    + constructor; try done; auto; [by left|]. intros k st1 c1 H1 H2. exists st1, c1. unfold told. auto 6.
Qed.

Lemma stream_window_ok p h s opened g id m st : sess_inv s opened g -> live s -> stream_map_ s !! id = Some st ->
  WindowUpdate (mkWindowUpdate id m) ∈ frames_ p -> m < two64 ->
  exists s' g', (let* r := Stream_OnWindowUpdateFrame s st m in Ok (store r)) = Ok s' /\ good p h s opened g s' g'.
Proof.
  intros Hs Hl Hst Hw Hm. destruct (taken _ _ _ _ _ Hs Hl Hst) as (Ei & Ep & _ & Hb).
  destruct (si_streams _ _ _ Hs id st Hst) as (_ & c & Hok). destruct (so_kind _ _ _ _ Hok) as (K1 & _).
  unfold Stream_OnWindowUpdateFrame. rewrite K1, bool_decide_eq_false_2, (so_fc _ _ _ _ Hok) by done. cbn [rbind].
  destruct (so_send _ _ _ _ Hok) as (S1 & S2 & S3).
  destruct (UpdateSendWindowOffset_cases c m S1 Hm) as [->|(-> & Hso & Hle)].
  - eexists _, g. split; [done|]. unfold store. replace (st <| flow_controller_ := Some c |>) with st
      by (pose proof (so_fc _ _ _ _ Hok); destruct st; cbn in *; by subst). rewrite Hb. change (good p h s opened g (put s st) g).
    rewrite Ep. by apply good_refl.
  - set (c' := c <| send_window_offset_ := m |>) in *. set (st' := st <| flow_controller_ := Some c' |>).
    exists (put s st'), g. split; [unfold store; cbn; by rewrite Hb|].
    assert (Hok' : stream_ok id st' c' g).
    { destruct Hok as [? ? ? ? (? & ? & ?)]. constructor; try done. split; [by apply recv_ok_limit|done]. }
    pose proof (si_counts _ _ _ Hs id) as Hn. split; [|split].
    + rewrite <- Ep in Hs. subst id. apply (sess_update s s st st' c c' opened g g []); try done; try apply Hs; [apply Hok| |by rewrite app_nil_r].
      constructor; try (lia || done). apply (si_final _ _ _ Hs).
    + constructor; try done; auto; [by left|]. intros k st1 c1. cbn. rewrite Ei. intros H1 H2. destruct (decide (k = id)) as [->|Hk].
      * rewrite lookup_insert_eq in H1. injection H1 as <-. cbn in H2. injection H2 as <-. exists st, c.
        split; [done|]. split; [apply Hok|]. split; [by right|]. split; by left.
      * rewrite lookup_insert_ne in H1 by done. exists st1, c1. unfold told. auto 6.
    + unfold live. cbn. by apply map_Forall_insert_2.
Qed.

Lemma OnWindowUpdateFrame_ok p h e s opened g w :
  ietf e = ietf_version -> sess_inv s opened g -> live s -> WindowUpdate w ∈ frames_ p -> max_data w < two64 ->
  exists s' g', OnWindowUpdateFrame e s w = Ok s' /\ good p h s opened g s' g'.
Proof.
  intros He Hs Hl Hw Hm. destruct w as [id m]. unfold OnWindowUpdateFrame. cbn [stream_id max_data] in *. rewrite He.
  destruct (Z.eqb_spec id invalid) as [->|Hid]; [eexists _, g; split; [done|]; by apply conn_window|].
  rewrite (si_types _ _ _ Hs), bool_decide_eq_false_2, andb_false_r by done.
  destruct (stream_map_ s !! id) as [st|] eqn:E; [by apply (stream_window_ok p h s opened g id m st)|]. exists s, g. split; [done|]. by apply good_refl.
Qed.

Lemma OnStreamFrame_ok p h e s opened g j o l fin :
  ietf e = ietf_version -> sess_inv s opened g -> live s -> room h s g -> j <> invalid ->
  0 <= o -> 0 <= l -> (l = 0 -> fin = true) -> o + l <= at_ (sent h) j -> (fin = true -> final h !! j = Some (o + l)) ->
  exists s' g', OnStreamFrame e s j o l fin = Ok s' /\ good p h s opened g s' g'.
Proof.
  intros He Hs Hl Hr Hj Ho Hle Hl0 Hol Hf. unfold OnStreamFrame. rewrite He. destruct (Z.eqb_spec j invalid); [done|].
  pose proof (sent_small _ _ _ j Hr). destruct (stream_map_ s !! j) as [st|] eqn:E.
  - apply (stored p h s j st); try done. destruct (taken _ _ _ _ _ Hs Hl E) as (Ei & Ep & _ & Hb).
    apply Stream_OnStreamFrame_ok; rewrite ?Ep, ?Ei; done.
  - destruct fin; [|exists s, g; split; [done|]; by apply good_refl]. rewrite u64_small by lia.
    apply OnFinalByteOffsetReceived_ok; auto.
Qed.

Lemma OnRstStream_ok p h e s opened g j o :
  ietf e = true -> ietf_version = true -> sess_inv s opened g -> live s -> room h s g -> j <> invalid -> final h !! j = Some o ->
  exists s' g', OnRstStream e s j o = Ok s' /\ good p h s opened g s' g'.
Proof.
  intros He Hv Hs Hl Hr Hj Hf. unfold OnRstStream. rewrite He, <- Hv. destruct (Z.eqb_spec j invalid); [done|].
  rewrite (si_types _ _ _ Hs), bool_decide_eq_false_2, andb_false_r by done.
  destruct (stream_map_ s !! j) as [st|] eqn:E.
  - apply (stored p h s j st); try done. destruct (taken _ _ _ _ _ Hs Hl E) as (Ei & Ep & Hm & Hb).
    apply OnStreamReset_ok; rewrite ?Ep, ?Ei; rewrite ?Ei in Hm; done.
  - apply OnFinalByteOffsetReceived_ok; congruence || done.
Qed.

(** * Creation *)

Definition Ghost_init : Ghost := mkGhost ∅ ∅ ∅ ∅.

Lemma QuicSession_init_ok e sw is_server :
  ietf e = ietf_version -> 2 <= C <= kSessionReceiveWindowLimit -> 0 <= sw < two64 ->
  exists s, QuicSession_init e sw C is_server (fun _ => BIDIRECTIONAL) = Ok s /\ sess_inv s ∅ Ghost_init /\ live s /\
    send_window_offset_ (session_flow_controller_ s) = sw /\
    receive_window_offset_ (session_flow_controller_ s) = C /\ stream_map_ s = ∅.
Proof.
  intros He Hc Hsw. unfold QuicSession_init, QuicFlowController_init. rewrite (proj2 (Z.leb_le _ _)) by lia.
  cbn [CHECK rbind]. rewrite Z.eqb_refl. cbn. eexists. split; [done|]. split; [|done]. unfold kSessionReceiveWindowLimit in *.
  assert (C / 2 <= C) by (apply Z.div_le_upper_bound; lia).
  constructor; try done; cbn.
  - constructor; cbn; try done; try lia.
    + unfold send_ok. cbn. lia.
    + split; [constructor; cbn; lia|]. cbn. lia.
Qed.

Lemma CreateStream_ok e s opened g id sw :
  ietf e = ietf_version -> sess_inv s opened g -> live s -> id ∉ opened -> id <> invalid ->
  2 <= W <= kStreamReceiveWindowLimit -> 0 <= sw < two64 ->
  exists st c, CreateStream e s id sw W false BIDIRECTIONAL = Ok (s <| stream_map_ := <[id := st]> (stream_map_ s) |>) /\
    flow_controller_ st = Some c /\ send_window_offset_ c = sw /\ receive_window_offset_ c = W /\ close_offset_ st = two64 - 1 /\
    sess_inv (s <| stream_map_ := <[id := st]> (stream_map_ s) |>) ({[id]} ∪ opened) g /\
    live (s <| stream_map_ := <[id := st]> (stream_map_ s) |>).
Proof.
  intros He Hs Hl Hid Hinv HW Hsw. unfold CreateStream, FlowController, QuicFlowController_init.
  rewrite bool_decide_eq_false_2, (proj2 (Z.leb_le _ _)), He by (done || lia). cbn [CHECK rbind].
  destruct (Z.eqb_spec invalid id) as [E|_]; [congruence|]. cbn [Bool.eqb CHECK rbind]. rewrite (si_types _ _ _ Hs).
  replace (if ietf_version && _ then _ else _) with BIDIRECTIONAL by (by destruct ietf_version).
  rewrite !bool_decide_eq_false_2 by done. eexists _, _. split; [done|]. do 4 (split; [done|]).
  destruct (si_fresh _ _ _ Hs id Hid) as (F1 & F2 & F3). pose proof (si_counts _ _ _ Hs id) as Hn.
  assert (W / 2 <= W) by (apply Z.div_le_upper_bound; lia). unfold kStreamReceiveWindowLimit in *.
  split; [|by apply map_Forall_insert_2]. constructor; try apply Hs.
  - intros j st Hj. cbn in Hj. destruct (decide (j = id)) as [->|Hji].
    + rewrite lookup_insert_eq in Hj. injection Hj as <-. split; [set_solver|]. eexists. constructor; cbn; try done.
      * rewrite F1. unfold send_ok. cbn. lia.
      * split; [|cbn; lia]. split; [constructor; cbn; lia|cbn; lia].
      * rewrite F3. split; [done|]. by intros [? ?].
      * naive_solver.
    + rewrite lookup_insert_ne in Hj by done. destruct (si_streams _ _ _ Hs j st Hj) as (? & c & ?). split; [set_solver|]. by exists c.
  - intros j Hj. cbn in Hj. apply lookup_insert_None in Hj as [Hj _]. by apply (si_closed _ _ _ Hs).
  - intros j o Hj. destruct (si_recorded _ _ _ Hs j o Hj) as (? & ? & ?). split; [set_solver|]. split; [done|].
    cbn. rewrite lookup_insert_ne by congruence. done.
  - eapply Forall_impl; [apply (si_frames _ _ _ Hs)|]. intros [j o l fin|j o|j|j|w]; cbn; try done.
    + intros (? & ? & ? & ? & ? & ?). repeat split; try done. set_solver.
    + intros [? ?]. split; [done|set_solver].
    + intros [? Hw]. split; [done|]. case_decide; [done|]. destruct Hw as [Hw1 Hw2]. split; [set_solver|].
      intros st c Hst. rewrite lookup_insert_ne in Hst by congruence. by apply Hw2.
  - intros j Hj. apply (si_fresh _ _ _ Hs). set_solver.
  - pose proof (si_valid _ _ _ Hs). set_solver.
Qed.

End Invariant.
