(* ===== verification/FlowSystem.v ===== *)
(** Two ends of a connection as one system: each may open streams, write, read,
    reset and close, and receive any frame the other has sent, in any order, any
    number of times or never.  The theorems: no end ever finds the other in
    violation of flow control and no operation fails; a sender whose bytes have
    all been consumed can be given credit by frames already on their way. *)

From stdpp Require Import gmap.
From S2P Require Import Prelude MapSum QuicTime FlowController StreamFlow FlowSafety.

(** The windows an end grants at first. *)
Record Config := mkConfig { stream_window : Z; session_window : Z }.
Definition config_ok (w : Config) : Prop :=
  2 <= stream_window w <= kStreamReceiveWindowLimit /\ 2 <= session_window w <= kSessionReceiveWindowLimit.

(** One end, with the ids of the streams it has had. *)
Record End := mkEnd { sess : QuicSession; opened : gset Z }.

(** What an end may do. *)
Inductive Cmd :=
  | Open (id : Z)
  | Write (id : Z) (should_yield : bool) (buffered : Z) (fin_buffered : bool) (accepted : Z) (fin_consumed : bool)
  | Read (id n : Z)
  | ReadFin (id : Z)
  | Reset (id : Z) (no_error : bool)
  | GetStream (id offset length : Z) (fin : bool)
  | GetRst (id byte_offset : Z)
  | GetStopSending (id : Z) (waiting no_error : bool)
  | GetWindow (w : QuicWindowUpdateFrame).

(** Each is one call into the session. *)
Definition run (e : Env) (own peer : Config) (s : QuicSession) (c : Cmd) : result QuicSession :=
  match c with
  | Open id => CreateStream e s id (stream_window peer) (stream_window own) false BIDIRECTIONAL
  | Write id y buffered fin_buffered accepted fin_consumed =>
      on_stream s id (fun st => WriteBufferedData e s st y buffered fin_buffered accepted fin_consumed)
  | Read id n => on_stream s id (fun st => AddBytesConsumed e s st n)
  | ReadFin id => on_stream s id (fun st => OnFinRead e s st)
  | Reset id no_error => on_stream s id (fun st => Stream_Reset e s st no_error)
  | GetStream id offset length fin => OnStreamFrame e s id offset length fin
  | GetRst id byte_offset => OnRstStream e s id byte_offset
  | GetStopSending id waiting no_error => on_stream s id (fun st => OnStopSending e s st waiting no_error)
  | GetWindow w => OnWindowUpdateFrame e s w
  end.
Definition exec (e : Env) (own peer : Config) (x : End) (c : Cmd) : result End :=
  let* s := run e own peer (sess x) c in
  Ok (mkEnd s (match c with Open id => {[id]} ∪ opened x | _ => opened x end)).

(** When it may do it: a new stream has a new id, the application reads what has
    arrived and the FIN when all is read, and frames come from the peer. *)
Definition allowed (p : QuicSession) (x : End) (c : Cmd) : Prop :=
  match c with
  | Open id => id ∉ opened x /\ id <> GetInvalidStreamId true
  | Write id _ buffered fin_buffered accepted fin_consumed =>
      forall st, stream_map_ (sess x) !! id = Some st -> write_allowed (sess x) st buffered fin_buffered accepted fin_consumed
  | Read id n =>
      forall st, stream_map_ (sess x) !! id = Some st -> read_side_closed_ st = false /\
        forall c, flow_controller_ st = Some c -> 0 <= n <= highest_received_byte_offset_ c - bytes_consumed_ c
  | ReadFin id =>
      forall st c, stream_map_ (sess x) !! id = Some st -> flow_controller_ st = Some c -> close_offset_ st <= bytes_consumed_ c
  | Reset _ _ => True
  | GetStream id offset length fin => StreamFrame id offset length fin ∈ frames_ p
  | GetRst id byte_offset => RstStream id byte_offset ∈ frames_ p
  | GetStopSending id _ _ => StopSending id ∈ frames_ p
  | GetWindow w => WindowUpdate w ∈ frames_ p
  end.

(** * What links the two ends *)

(** The receiver [y] has granted offset [n] of stream [k], or of the connection. *)
Definition granted (y : QuicSession) (first k n : Z) : Prop :=
  n <= first \/ exists m, n <= m /\ WindowUpdate (mkWindowUpdate k m) ∈ frames_ y.

Record link (wy : Config) (x : QuicSession) (gx : Ghost) (y : QuicSession) (gy : Ghost) : Prop := {
  lk_recv : forall k, at_ (recv gy) k <= at_ (sent gx) k;
  lk_sent : forall k, granted y (stream_window wy) k (at_ (sent gx) k);
  lk_streams : forall k st c, stream_map_ x !! k = Some st -> flow_controller_ st = Some c ->
                 stream_window wy <= send_window_offset_ c /\ granted y (stream_window wy) k (send_window_offset_ c);
  lk_conn : session_window wy <= send_window_offset_ (session_flow_controller_ x) /\
            granted y (session_window wy) (GetInvalidStreamId true) (send_window_offset_ (session_flow_controller_ x));
  lk_close : forall k st c, stream_map_ y !! k = Some st -> flow_controller_ st = Some c ->
               close_offset_ st = two64 - 1 \/ final gx !! k = Some (close_offset_ st);
  lk_told : (receive_window_offset_ (session_flow_controller_ y) = session_window wy \/
             WindowUpdate (mkWindowUpdate (GetInvalidStreamId true) (receive_window_offset_ (session_flow_controller_ y))) ∈ frames_ y) /\
            forall k st c, stream_map_ y !! k = Some st -> flow_controller_ st = Some c ->
              receive_window_offset_ c = stream_window wy \/ WindowUpdate (mkWindowUpdate k (receive_window_offset_ c)) ∈ frames_ y;
}.

Record end_ok (w : Config) (x : End) (g : Ghost) : Prop := {
  eo_inv : sess_inv true (stream_window w) (session_window w) (sess x) (opened x) g;
  eo_live : live (sess x);
}.
Record pair_ok (wx wy : Config) (x y : End) (gx gy : Ghost) : Prop := {
  pr_x : end_ok wx x gx;
  pr_y : end_ok wy y gy;
  pr_xy : link wy (sess x) gx (sess y) gy;
  pr_yx : link wx (sess y) gy (sess x) gx;
}.

Lemma pair_ok_sym wx wy x y gx gy : pair_ok wx wy x y gx gy -> pair_ok wy wx y x gy gx.
Proof. intros []. by constructor. Qed.

Lemma granted_mono y y' first k n : frames_ y ⊆ frames_ y' -> granted y first k n -> granted y' first k n.
Proof. intros Hf [?|(m & ? & ?)]; [by left|right]. exists m. set_solver. Qed.

(** The sender moves. *)
Lemma link_sender wy x x' gx gx' y gy : link wy x gx y gy -> evolves true y gy x x' gx gx' -> link wy x' gx' y gy.
Proof.
  intros [L1 L2 L3 L4 L5 L6] [E1 E2 E3 E4 E5 E6 E7 E8]. constructor; try done.
  - intros k. specialize (L1 k). specialize (E2 k). lia.
  - intros k. destruct (E3 k) as [->|(st & c & H1 & H2 & H3)]; [apply L2|].
    destruct (L3 _ _ _ H1 H2) as [_ [?|(m & ? & ?)]]; [left; lia|right]. exists m. split; [lia|done].
  - intros k st' c' H1 H2. destruct (E7 _ _ _ H1 H2) as (st & c & H3 & H4 & H5 & _). destruct (L3 _ _ _ H3 H4) as [H6 H7].
    destruct H5 as [->|[H5 H8]]; [done|]. split; [lia|]. right. by eexists.
  - destruct E5 as [->|[H5 H8]]; [done|]. split; [lia|]. right. by eexists.
  - intros k st c H1 H2. destruct (L5 k st c H1 H2) as [?|?]; [by left|right]. auto.
Qed.

(** The receiver moves. *)
Lemma link_receiver wy x gx y y' gy gy' : link wy x gx y gy -> evolves true x gx y y' gy gy' -> link wy x gx y' gy'.
Proof.
  intros [L1 L2 L3 L4 L5 L6] [E1 E2 E3 E4 E5 E6 E7 E8]. constructor.
  - intros k. destruct (E8 k) as [->|?]; done.
  - intros k. by eapply granted_mono.
  - intros k st c H1 H2. destruct (L3 _ _ _ H1 H2). split; [done|]. by eapply granted_mono.
  - destruct L4. split; [done|]. by eapply granted_mono.
  - intros k st' c' H1 H2. destruct (E7 _ _ _ H1 H2) as (st & c & H3 & H4 & _ & [->|?] & _); [by eapply L5|by right].
  - destruct L6 as [T1 T2]. split.
    + destruct E6 as [->|?]; [|by right]. destruct T1 as [?|?]; [by left|right; set_solver].
    + intros k st' c' H1 H2. destruct (E7 _ _ _ H1 H2) as (st & c & H3 & H4 & _ & _ & [->|?]); [|by right].
      destruct (T2 _ _ _ H3 H4) as [?|?]; [by left|right; set_solver].
Qed.

(** What was granted is covered by the offset the receiver stands by. *)
Lemma granted_stream wy y g k n st c : end_ok wy y g -> granted (sess y) (stream_window wy) k n ->
  stream_map_ (sess y) !! k = Some st -> flow_controller_ st = Some c -> n <= receive_window_offset_ c.
Proof.
  intros [Hs _] Hg Hst Hc. destruct (si_streams _ _ _ _ _ _ Hs k st Hst) as (Hk & c0 & Hok).
  assert (c0 = c) as -> by (pose proof (so_fc _ _ _ _ _ Hok); congruence). destruct (so_grant _ _ _ _ _ Hok) as [HW _].
  destruct Hg as [?|(m & ? & Hm)]; [lia|].
  pose proof (proj1 (Forall_forall _ _) (si_frames _ _ _ _ _ _ Hs) _ Hm) as [_ Hf]. cbn [stream_id max_data] in Hf.
  case_decide as Hd; [|specialize (proj2 Hf _ _ Hst Hc); lia]. subst k. by destruct (si_valid _ _ _ _ _ _ Hs).
Qed.

Lemma granted_conn wy y g n : end_ok wy y g -> granted (sess y) (session_window wy) (GetInvalidStreamId true) n ->
  n <= receive_window_offset_ (session_flow_controller_ (sess y)).
Proof.
  intros [Hs _] Hg. pose proof (co_grant _ _ _ (si_conn _ _ _ _ _ _ Hs)). destruct Hg as [?|(m & ? & Hm)]; [lia|].
  pose proof (proj1 (Forall_forall _ _) (si_frames _ _ _ _ _ _ Hs) _ Hm) as [_ Hf]. cbn [stream_id max_data] in Hf.
  rewrite decide_True in Hf by done. lia.
Qed.

Lemma link_room wx wy x y gx gy : pair_ok wx wy x y gx gy -> room gx (sess y) gy.
Proof.
  intros [Hx Hy L _]. pose proof (eo_inv _ _ _ Hx) as Ix. pose proof (eo_inv _ _ _ Hy) as Iy. constructor.
  - intros j st c Hst Hc. eapply granted_stream; [exact Hy|apply (lk_sent _ _ _ _ _ L)|done|done].
  - transitivity (send_window_offset_ (session_flow_controller_ (sess x))); [|apply granted_conn with wy gy; [done|apply L]].
    pose proof (si_conn _ _ _ _ _ _ Ix) as Hc. rewrite <- (co_sent _ _ _ Hc). destruct (co_send _ _ _ Hc). lia.
  - apply (si_small _ _ _ _ _ _ Ix).
  - intros k. pose proof (si_counts _ _ _ _ _ _ Iy k). pose proof (lk_recv _ _ _ _ _ L k). lia.
  - intros j st Hst. destruct (si_streams _ _ _ _ _ _ Iy j st Hst) as (_ & c & Hok).
    by eapply (lk_close _ _ _ _ _ L), Hok.
  - apply (si_final _ _ _ _ _ _ Ix).
Qed.

(** One end makes a change that leaves its invariant. *)
Lemma pair_evolves wx wy x y gx gy s' g' : pair_ok wx wy x y gx gy ->
  good true (stream_window wx) (session_window wx) (sess y) gy (sess x) (opened x) gx s' g' ->
  pair_ok wx wy (mkEnd s' (opened x)) y g' gy.
Proof.
  intros [Hx Hy Lxy Lyx] (H1 & H2 & H3). constructor; [by constructor|done| |].
  - by eapply link_sender.
  - by eapply link_receiver.
Qed.

(** A new stream starts from the windows both ends grant at first. *)
Lemma pair_open wx wy x y gx gy st c id :
  pair_ok wx wy x y gx gy -> flow_controller_ st = Some c -> send_window_offset_ c = stream_window wy ->
  receive_window_offset_ c = stream_window wx -> close_offset_ st = two64 - 1 ->
  end_ok wx (mkEnd (sess x <| stream_map_ := <[id := st]> (stream_map_ (sess x)) |>) ({[id]} ∪ opened x)) gx ->
  pair_ok wx wy (mkEnd (sess x <| stream_map_ := <[id := st]> (stream_map_ (sess x)) |>) ({[id]} ∪ opened x)) y gx gy.
Proof.
  intros [Hx Hy [A1 A2 A3 A4 A5 A6] [B1 B2 B3 B4 B5 B6]] Hc Es Er Ecl Hx'. constructor; try done; constructor; try done.
  - intros k st' c' H1 H2. cbn in H1. apply lookup_insert_Some in H1 as [[<- <-]|[_ H1]]; [|by eapply A3].
    assert (c' = c) as -> by congruence. rewrite Es. split; [lia|]. left. lia.
  - intros k st' c' H1 H2. cbn in H1. apply lookup_insert_Some in H1 as [[<- <-]|[_ H1]]; [by left|by eapply B5].
  - destruct B6 as [T1 T2]. split; [done|]. intros k st' c' H1 H2. cbn in H1.
    apply lookup_insert_Some in H1 as [[<- <-]|[_ H1]]; [left; congruence|by eapply T2].
Qed.

Lemma frame_known w y g f : end_ok w y g -> f ∈ frames_ (sess y) -> frame_ok true (sess y) (opened y) g f.
Proof. intros [Hs _] Hf. exact (proj1 (Forall_forall _ _) (si_frames _ _ _ _ _ _ Hs) _ Hf). Qed.

Lemma opened_valid w y g j : end_ok w y g -> j ∈ opened y -> j <> GetInvalidStreamId true.
Proof. intros [Hs _] Hj ->. by apply (si_valid _ _ _ _ _ _ Hs). Qed.

(** Every command but [Open]. *)
Lemma cmd_ok e wx wy x y gx gy c : ietf e = true -> pair_ok wx wy x y gx gy -> allowed (sess y) x c ->
  (forall id, c <> Open id) ->
  exists s' g', run e wx wy (sess x) c = Ok s' /\
    good true (stream_window wx) (session_window wx) (sess y) gy (sess x) (opened x) gx s' g'.
Proof.
  intros He HP Ha Hno. pose proof (link_room _ _ _ _ _ _ (pair_ok_sym _ _ _ _ _ _ HP)) as Hroom.
  destruct HP as [[Hs Hl] Hy _ _]. pose proof (fun id st => taken true _ _ _ _ _ id st Hs Hl) as Ht.
  destruct c as [id|id yl b fb a fc|id n|id|id b|id o l fin|id o|id wt b|w]; cbn [run]; cbn [allowed] in Ha.
  - by destruct (Hno id).
  - apply on_stream_ok; try done. intros st Hst. destruct (Ht _ _ Hst) as (Ei & Ep & Hm & Hb).
    apply WriteBufferedData_ok; rewrite ?Ep; auto.
  - apply on_stream_ok; try done. intros st Hst. destruct (Ha _ Hst). by eapply read_ok.
  - apply on_stream_ok; try done. intros st Hst. destruct (Ht _ _ Hst) as (Ei & Ep & Hm & Hb).
    destruct (si_streams _ _ _ _ _ _ Hs id st Hst) as (_ & c & Hok). specialize (Ha _ _ Hst (so_fc _ _ _ _ _ Hok)).
    destruct (so_recv _ _ _ _ _ Hok) as (_ & _ & E). apply OnFinRead_ok; rewrite ?Ep; try done. rewrite Ei. lia.
  - apply on_stream_ok; try done. intros st Hst. destruct (Ht _ _ Hst) as (Ei & Ep & Hm & Hb).
    apply Stream_Reset_ok; rewrite ?Ep; done.
  - destruct (frame_known _ _ _ _ Hy Ha) as (F1 & F2 & F3 & F4 & F5 & F6). apply OnStreamFrame_ok; try done. by eapply opened_valid.
  - destruct (frame_known _ _ _ _ Hy Ha) as (F1 & F2). apply OnRstStream_ok; try done. by eapply opened_valid.
  - apply on_stream_ok; try done. intros st Hst. destruct (Ht _ _ Hst) as (Ei & Ep & Hm & Hb).
    apply OnStopSending_ok; rewrite ?Ep; done.
  - destruct (frame_known _ _ _ _ Hy Ha) as [F1 _]. apply OnWindowUpdateFrame_ok; try done. lia.
Qed.

(** Whatever one end is allowed to do succeeds and keeps the two ends linked. *)
Lemma pair_step e wx wy x y gx gy c : ietf e = true -> config_ok wx -> config_ok wy -> pair_ok wx wy x y gx gy ->
  allowed (sess y) x c -> exists x' gx', exec e wx wy x c = Ok x' /\ pair_ok wx wy x' y gx' gy.
Proof.
  intros He [Cx _] [Cy _] HP Ha. unfold exec.
  assert (Hc : (exists id, c = Open id) \/ forall id, c <> Open id) by (destruct c; [left; by eexists|by right..]).
  destruct Hc as [[id ->]|Hno].
  - destruct Ha as [Hid Hinv]. destruct (pr_x _ _ _ _ _ _ HP) as [Hs Hl]. cbn [run]. unfold kStreamReceiveWindowLimit in *.
    destruct (CreateStream_ok true (stream_window wx) (session_window wx) e (sess x) (opened x) gx id (stream_window wy))
      as (st & c & -> & H1 & H2 & H3 & H4 & H5 & H6); try done; [lia|].
    eexists _, gx. split; [done|]. by apply pair_open with c.
  - destruct (cmd_ok e wx wy x y gx gy c He HP Ha Hno) as (s' & g' & -> & Hg). exists (mkEnd s' (opened x)), g'.
    split; [destruct c; [by destruct (Hno id)|done..]|]. by eapply pair_evolves.
Qed.

(** * The system *)

Section System.
Variables wa wb : Config.

(** A client and a server whose handshake has told each the other's windows. *)
Definition connect (e : Env) : result (End * End) :=
  let* a := QuicSession_init e (session_window wb) (session_window wa) false (fun _ => BIDIRECTIONAL) in
  let* b := QuicSession_init e (session_window wa) (session_window wb) true (fun _ => BIDIRECTIONAL) in
  Ok (mkEnd a ∅, mkEnd b ∅).

Inductive reach : End -> End -> Prop :=
  | reach_connect e a b : ietf e = true -> connect e = Ok (a, b) -> reach a b
  | reach_client e a b c a' : reach a b -> ietf e = true -> allowed (sess b) a c -> exec e wa wb a c = Ok a' -> reach a' b
  | reach_server e a b c b' : reach a b -> ietf e = true -> allowed (sess a) b c -> exec e wb wa b c = Ok b' -> reach a b'.

Hypothesis Ha : config_ok wa.
Hypothesis Hb : config_ok wb.

Lemma link_init wy x y : send_window_offset_ (session_flow_controller_ x) = session_window wy ->
  receive_window_offset_ (session_flow_controller_ y) = session_window wy -> stream_map_ x = ∅ -> stream_map_ y = ∅ ->
  0 <= stream_window wy -> link wy x Ghost_init y Ghost_init.
Proof.
  intros E1 E2 E3 E4 Hw. constructor; rewrite ?E1, ?E2, ?E3, ?E4; try done.
  - by left.
  - split; [lia|left; lia].
  - split; [by left|done].
Qed.

Lemma connect_ok e : ietf e = true -> exists a b, connect e = Ok (a, b) /\ pair_ok wa wb a b Ghost_init Ghost_init.
Proof.
  intros He. destruct Ha as [A1 A2], Hb as [B1 B2]. unfold connect, kSessionReceiveWindowLimit in *.
  destruct (QuicSession_init_ok true (stream_window wa) (session_window wa) e (session_window wb) false)
    as (sa & -> & A & LA & EA & RA & MA); [done|done|lia|].
  destruct (QuicSession_init_ok true (stream_window wb) (session_window wb) e (session_window wa) true)
    as (sb & -> & B & LB & EB & RB & MB); [done|done|lia|].
  eexists _, _. split; [done|]. constructor; try done; apply link_init; done || lia.
Qed.

Lemma reach_ok a b : reach a b -> exists ga gb, pair_ok wa wb a b ga gb.
Proof.
  induction 1 as [e a b He E|e a b c a' _ (ga & gb & HP) He Hc E|e a b c b' _ (ga & gb & HP) He Hc E].
  - destruct (connect_ok e He) as (a' & b' & E' & HP). rewrite E in E'. injection E' as <- <-. by eexists _, _.
  - destruct (pair_step e wa wb a b ga gb c) as (x & g & E' & HP'); try done. rewrite E in E'. injection E' as <-. by eexists _, _.
  - destruct (pair_step e wb wa b a gb ga c) as (x & g & E' & HP'); try done; [by apply pair_ok_sym|].
    rewrite E in E'. injection E' as <-. exists ga, g. by apply pair_ok_sym.
Qed.

(** An end that has found no fault with the other. *)
Definition at_peace (s : QuicSession) : Prop :=
  error_ s = None /\ FlowControlViolation (session_flow_controller_ s) = false /\
  forall id st c, stream_map_ s !! id = Some st -> flow_controller_ st = Some c -> FlowControlViolation c = false.

Lemma end_at_peace w x g : end_ok w x g -> at_peace (sess x).
Proof.
  intros [Hs _]. split; [apply Hs|]. split; [apply no_violation, (co_recv _ _ _ (si_conn _ _ _ _ _ _ Hs))|].
  intros id st c Hst Hc. destruct (si_streams _ _ _ _ _ _ Hs id st Hst) as (_ & c' & Hok).
  assert (c = c') as -> by (pose proof (so_fc _ _ _ _ _ Hok); congruence). apply no_violation, Hok.
Qed.

Lemma exec_at_peace wx wy x y gx gy e c : config_ok wx -> config_ok wy -> pair_ok wx wy x y gx gy -> ietf e = true ->
  allowed (sess y) x c -> exists x', exec e wx wy x c = Ok x' /\ at_peace (sess x').
Proof.
  intros Cx Cy HP He Hc. destruct (pair_step e wx wy x y gx gy c) as (x' & g & E & HP'); try done.
  exists x'. split; [done|]. by eapply end_at_peace, HP'.
Qed.

(** C5. Two sessions that open streams, write as far as their windows allow,
    read, reset and close, over a network that loses, repeats and reorders
    their frames: in every state they can reach neither has closed the
    connection nor finds the other beyond an offset it granted, at the level of
    a stream or of the connection; and whatever either may do next completes,
    with none of the code's checks failing, and leaves it so. *)
Theorem flow_control_safe a b : reach a b ->
  at_peace (sess a) /\ at_peace (sess b) /\
  forall e c, ietf e = true ->
    (allowed (sess b) a c -> exists a', exec e wa wb a c = Ok a' /\ at_peace (sess a')) /\
    (allowed (sess a) b c -> exists b', exec e wb wa b c = Ok b' /\ at_peace (sess b')).
Proof.
  intros Hr. destruct (reach_ok a b Hr) as (ga & gb & HP). split; [by eapply end_at_peace, HP|].
  split; [by eapply end_at_peace, HP|]. intros e c He. split; intros Hc; eapply exec_at_peace; try done.
  by apply pair_ok_sym.
Qed.

(** * Credit returns *)

(** Window updates handled one after the other. *)
Fixpoint deliver (e : Env) (s : QuicSession) (ws : list QuicWindowUpdateFrame) : result QuicSession :=
  match ws with
  | [] => Ok s
  | w :: ws => let* s := OnWindowUpdateFrame e s w in deliver e s ws
  end.

(** An update, if one is needed, brings a controller up to the offset granted. *)
Lemma catch_up c (m k : Z) (fs : list Frame) first : send_ok c -> m < two64 -> first <= send_window_offset_ c ->
  m = first \/ WindowUpdate (mkWindowUpdate k m) ∈ fs ->
  m <= send_window_offset_ c \/
  WindowUpdate (mkWindowUpdate k m) ∈ fs /\ fst (UpdateSendWindowOffset c m) = c <| send_window_offset_ := m |> /\
  send_ok (c <| send_window_offset_ := m |>).
Proof.
  intros Hs Hm Hf Ht. destruct (Z.le_gt_cases m (send_window_offset_ c)) as [?|Hlt]; [by left|right].
  destruct Ht as [->|Ht]; [lia|]. unfold UpdateSendWindowOffset. zcases; [lia|]. split; [done|]. split; [done|].
  destruct Hs. unfold send_ok. cbn. lia.
Qed.

Lemma recv_offset_small c : recv_ok c -> receive_window_offset_ c < two64.
Proof. intros [[H1 H2 H3 H4 H5] _]. lia. Qed.

(** The connection's limit is brought up to date. *)
Lemma conn_credit e wx wy x y gx gy (cy := session_flow_controller_ (sess y)) : ietf e = true -> pair_ok wx wy x y gx gy ->
  exists ws c, (length ws <= 1)%nat /\ (forall w, w ∈ ws -> WindowUpdate w ∈ frames_ (sess y)) /\
    deliver e (sess x) ws = Ok (sess x <| session_flow_controller_ := c |>) /\ send_ok c /\
    bytes_sent_ c = bytes_sent_ (session_flow_controller_ (sess x)) /\ receive_window_offset_ cy <= send_window_offset_ c.
Proof.
  intros He [[Hs _] [Hy _] L _]. pose proof (co_send _ _ _ (si_conn _ _ _ _ _ _ Hs)) as Hc.
  pose proof (recv_offset_small _ (co_recv _ _ _ (si_conn _ _ _ _ _ _ Hy))) as Hm.
  destruct (catch_up _ _ _ _ _ Hc Hm (proj1 (lk_conn _ _ _ _ _ L)) (proj1 (lk_told _ _ _ _ _ L))) as [Hle|(Hin & E & Hok)].
  - exists [], (session_flow_controller_ (sess x)). split; [cbn; lia|]. split; [by intros w ?%elem_of_nil|].
    split; [by destruct (sess x)|done].
  - eexists [_], _. split; [done|]. split; [by intros w ->%list_elem_of_singleton|]. split; [|split; [exact Hok|done]].
    cbn [deliver]. unfold OnWindowUpdateFrame. cbn [stream_id max_data]. rewrite He, Z.eqb_refl. cbn [rbind].
    rewrite E. done.
Qed.

(** So is a stream's. *)
Lemma stream_credit e wx wy x y gx gy conn id st sty cy : ietf e = true -> pair_ok wx wy x y gx gy ->
  stream_map_ (sess x) !! id = Some st -> stream_map_ (sess y) !! id = Some sty -> flow_controller_ sty = Some cy ->
  exists ws s' st' c c', (length ws <= 1)%nat /\ (forall w, w ∈ ws -> WindowUpdate w ∈ frames_ (sess y)) /\
    deliver e (sess x <| session_flow_controller_ := conn |>) ws = Ok s' /\ session_flow_controller_ s' = conn /\
    stream_map_ s' !! id = Some st' /\ flow_controller_ st = Some c /\ flow_controller_ st' = Some c' /\ send_ok c' /\
    bytes_sent_ c' = bytes_sent_ c /\ receive_window_offset_ cy <= send_window_offset_ c'.
Proof.
  intros He HP Hst Hsty Hcy. destruct HP as [[Hs Hl] [Hy _] L _].
  destruct (si_streams _ _ _ _ _ _ Hs id st Hst) as (Hid & c & Hok). pose proof (so_fc _ _ _ _ _ Hok) as Hfc.
  destruct (si_streams _ _ _ _ _ _ Hy id sty Hsty) as (_ & cy' & Hoky).
  assert (cy' = cy) as -> by (pose proof (so_fc _ _ _ _ _ Hoky); congruence).
  destruct (so_send _ _ _ _ _ Hok) as (Hc & _ & _). destruct (so_kind _ _ _ _ _ Hok) as (K & _ & _).
  pose proof (recv_offset_small _ (proj1 (so_recv _ _ _ _ _ Hoky))) as Hm.
  destruct (catch_up _ _ _ _ _ Hc Hm (proj1 (lk_streams _ _ _ _ _ L id st c Hst Hfc)) (proj2 (lk_told _ _ _ _ _ L) id sty cy Hsty Hcy))
    as [Hle|(Hin & E & Hok')].
  - eexists [], _, st, c, c. split; [cbn; lia|]. split; [by intros w ?%elem_of_nil|]. done.
  - eexists [_], _, _, c, _. split; [done|]. split; [by intros w ->%list_elem_of_singleton|].
    cbn [deliver]. unfold OnWindowUpdateFrame. cbn [stream_id max_data]. rewrite He.
    destruct (Z.eqb_spec id (GetInvalidStreamId true)) as [->|_]; [by destruct (si_valid _ _ _ _ _ _ Hs)|].
    cbn [set_field stream_type_ stream_map_]. rewrite (si_types _ _ _ _ _ _ Hs). cbn. rewrite Hst.
    unfold Stream_OnWindowUpdateFrame. rewrite K, bool_decide_eq_false_2, Hfc, E by done. cbn [rbind store].
    specialize (Hl _ _ Hst). cbn in Hl. cbn [read_side_closed_ write_side_closed_ set_field]. rewrite Hl. split; [done|].
    cbn. destruct (so_id _ _ _ _ _ Hok) as (-> & _ & _). rewrite lookup_insert_eq. done.
Qed.

Lemma deliver_app e s ws ws' : deliver e s (ws ++ ws') = (let* s := deliver e s ws in deliver e s ws').
Proof. revert s. induction ws as [|w ws IH]; intros s; [done|]. cbn. destruct (OnWindowUpdateFrame e s w); cbn; [apply IH|done]. Qed.

Lemma reach_either x y : reach x y \/ reach y x -> exists wx wy gx gy, pair_ok wx wy x y gx gy.
Proof.
  intros [Hr|Hr]; destruct (reach_ok _ _ Hr) as (g & h & HP); [by exists wa, wb, g, h|].
  exists wb, wa, h, g. by apply pair_ok_sym.
Qed.

Lemma half_left c : recv_ok c -> 1 <= receive_window_size_ c / 2 <= receive_window_offset_ c - bytes_consumed_ c.
Proof. intros [[] ?]. split; [apply Z.div_le_lower_bound; lia|done]. Qed.

(** C6. Credit returns: when the peer has consumed all that was sent to it, on a
    stream and on the connection, at most two of the window updates it has
    already sent are enough for the sender to go on; once they are delivered,
    in any state both have got to, it may write at least half of the smaller of
    the two windows, so that a flow-controlled sender is never stuck by frames
    that were never sent. *)
Theorem flow_credit_returns e x y id st sty cx cy (conn := session_flow_controller_ (sess y)) :
  ietf e = true -> reach x y \/ reach y x ->
  stream_map_ (sess x) !! id = Some st -> flow_controller_ st = Some cx ->
  stream_map_ (sess y) !! id = Some sty -> flow_controller_ sty = Some cy ->
  bytes_consumed_ cy = bytes_sent_ cx -> bytes_consumed_ conn = bytes_sent_ (session_flow_controller_ (sess x)) ->
  exists ws s' st', (length ws <= 2)%nat /\ (forall w, w ∈ ws -> WindowUpdate w ∈ frames_ (sess y)) /\
    deliver e (sess x) ws = Ok s' /\ stream_map_ s' !! id = Some st' /\
    1 <= Z.min (receive_window_size_ cy / 2) (receive_window_size_ conn / 2) <= send_limit s' st'.
Proof.
  intros He Hr Hst Hcx Hsty Hcy Ec Econn. destruct (reach_either x y Hr) as (wx & wy & gx & gy & HP).
  destruct (conn_credit e wx wy x y gx gy He HP) as (ws1 & c1 & N1 & I1 & D1 & S1 & B1 & O1).
  destruct (stream_credit e wx wy x y gx gy c1 id st sty cy He HP Hst Hsty Hcy)
    as (ws2 & s' & st' & c & c' & N2 & I2 & D2 & E2 & M2 & F2 & F2' & S2 & B2 & O2).
  assert (c = cx) as -> by congruence. exists (ws1 ++ ws2), s', st'. split; [rewrite length_app; lia|].
  split; [intros w [Hw|Hw]%elem_of_app; auto|]. split; [by rewrite deliver_app, D1|]. split; [done|].
  unfold send_limit. rewrite F2', E2, !SendWindowSize_val by done.
  destruct (pr_y _ _ _ _ _ _ HP) as [Hy _]. destruct (si_streams _ _ _ _ _ _ Hy id sty Hsty) as (_ & cy' & Hok).
  assert (cy' = cy) as -> by (pose proof (so_fc _ _ _ _ _ Hok); congruence).
  pose proof (half_left _ (proj1 (so_recv _ _ _ _ _ Hok))). pose proof (half_left _ (co_recv _ _ _ (si_conn _ _ _ _ _ _ Hy))).
  subst conn. cbn zeta in O1. lia.
Qed.

End System.

(** * Runs *)

#[export] Instance QuicWindowUpdateFrame_eq_dec : EqDecision QuicWindowUpdateFrame.
Proof. solve_decision. Defined.
#[export] Instance Frame_eq_dec : EqDecision Frame.
Proof. solve_decision. Defined.

Definition write_allowedb (s : QuicSession) (st : QuicStream) (buffered : Z) (fin_buffered : bool) (accepted : Z)
    (fin_consumed : bool) : bool :=
  negb (write_side_closed_ st) && ((0 <? buffered) || (buffered =? 0) && fin_buffered) &&
  ((0 <=? accepted) && (accepted <=? Z.min buffered (send_limit s st))) &&
  implb fin_consumed (fin_buffered && (accepted =? buffered)) &&
  (bytes_sent_ (session_flow_controller_ s) + accepted <? 2 ^ 62).

(** Whether an end may do something. *)
Definition allowedb (p : QuicSession) (x : End) (c : Cmd) : bool :=
  match c with
  | Open id => bool_decide (id ∉ opened x) && negb (id =? GetInvalidStreamId true)
  | Write id _ buffered fin_buffered accepted fin_consumed =>
      match stream_map_ (sess x) !! id with
      | Some st => write_allowedb (sess x) st buffered fin_buffered accepted fin_consumed
      | None => true
      end
  | Read id n =>
      match stream_map_ (sess x) !! id with
      | Some st => negb (read_side_closed_ st) &&
          match flow_controller_ st with
          | Some c => (0 <=? n) && (n <=? highest_received_byte_offset_ c - bytes_consumed_ c)
          | None => true
          end
      | None => true
      end
  | ReadFin id =>
      match stream_map_ (sess x) !! id with
      | Some st => match flow_controller_ st with Some c => close_offset_ st <=? bytes_consumed_ c | None => true end
      | None => true
      end
  | Reset _ _ => true
  | GetStream id offset length fin => bool_decide (StreamFrame id offset length fin ∈ frames_ p)
  | GetRst id byte_offset => bool_decide (RstStream id byte_offset ∈ frames_ p)
  | GetStopSending id _ _ => bool_decide (StopSending id ∈ frames_ p)
  | GetWindow w => bool_decide (WindowUpdate w ∈ frames_ p)
  end.

Lemma write_allowedb_sound s st buffered fb accepted fc :
  write_allowedb s st buffered fb accepted fc = true -> write_allowed s st buffered fb accepted fc.
Proof.
  unfold write_allowedb. intros ((((H1 & H2)%andb_prop & (H3 & H4)%andb_prop)%andb_prop & H5)%andb_prop & H6)%andb_prop.
  constructor.
  - by destruct (write_side_closed_ st).
  - apply orb_prop in H2 as [H2|(H2 & H2')%andb_prop]; [left; lia|right; split; [lia|done]].
  - lia.
  - intros ->. cbn in H5. apply andb_prop in H5 as [H5 H5']. split; [done|lia].
  - lia.
Qed.

Lemma allowedb_sound p x c : allowedb p x c = true -> allowed p x c.
Proof.
  destruct c as [id|id yl b fb a fc|id n|id|id b|id o l fin|id o|id wt b|w]; cbn; try done; try apply bool_decide_eq_true_1.
  - intros [H1 H2]%andb_prop. apply bool_decide_eq_true_1 in H1. split; [done|]. intros ->. by rewrite Z.eqb_refl in H2.
  - intros H st Hst. rewrite Hst in H. by apply write_allowedb_sound.
  - intros H st Hst. rewrite Hst in H. apply andb_prop in H as [H1 H2]. split; [by destruct (read_side_closed_ st)|].
    intros c Hc. rewrite Hc in H2. lia.
  - intros H st c Hst Hc. rewrite Hst, Hc in H. lia.
Qed.

(** A run of both ends ([true] is the client), if all of it is allowed. *)
Fixpoint play (e : Env) (wa wb : Config) (a b : End) (cs : list (bool * Cmd)) : option (End * End) :=
  match cs with
  | [] => Some (a, b)
  | (true, c) :: cs =>
      if allowedb (sess b) a c then
        match exec e wa wb a c with Ok a => play e wa wb a b cs | Fault _ => None end
      else None
  | (false, c) :: cs =>
      if allowedb (sess a) b c then
        match exec e wb wa b c with Ok b => play e wa wb a b cs | Fault _ => None end
      else None
  end.

Lemma play_reach e wa wb a b cs a' b' : ietf e = true -> reach wa wb a b -> play e wa wb a b cs = Some (a', b') -> reach wa wb a' b'.
Proof.
  intros He. revert a b. induction cs as [|[[] c] cs IH]; intros a b Hr; cbn; [by intros [= -> ->]| |].
  - destruct (allowedb (sess b) a c) eqn:E; [|done]. apply allowedb_sound in E. destruct (exec e wa wb a c) as [a1|] eqn:E1; [|done].
    apply IH. by eapply reach_client.
  - destruct (allowedb (sess a) b c) eqn:E; [|done]. apply allowedb_sound in E. destruct (exec e wb wa b c) as [b1|] eqn:E1; [|done].
    apply IH. by eapply reach_server.
Qed.

(** A client uses up its windows on stream 4 and sends stream 8 with a FIN; the
    server gets the frames, one of them twice, reads stream 4 and resets 8. *)
Definition sample_config : Config := mkConfig 16384 24576.
Definition sample_run : list (bool * Cmd) :=
  [(true, Open 4); (true, Open 8); (false, Open 4); (false, Open 8);
   (true, Write 4 false 20000 false 16384 false); (true, Write 8 false 500 true 500 true);
   (false, GetStream 4 0 16384 false); (false, GetStream 4 0 16384 false); (false, GetStream 8 0 500 true);
   (false, Read 4 16384); (false, Reset 8 false); (true, GetRst 8 0); (true, GetStopSending 8 false false)].
Definition sample_ends : option (End * End) :=
  match connect sample_config sample_config sample_env with
  | Ok (a, b) => play sample_env sample_config sample_config a b sample_run
  | Fault _ => None
  end.

Lemma sample_reach a b : sample_ends = Some (a, b) -> reach sample_config sample_config a b.
Proof.
  unfold sample_ends. destruct connect as [[a0 b0]|] eqn:E; [|done]. apply play_reach; [done|]. by apply reach_connect with sample_env.
Qed.

Lemma sample_config_ok : config_ok sample_config.
Proof. vm_compute. intuition congruence. Qed.

Lemma flow_control_safe_witness : exists a b, sample_ends = Some (a, b) /\ at_peace (sess a) /\ at_peace (sess b) /\
  exists b', exec sample_env sample_config sample_config b (Write 4 false 1000 false 1000 false) = Ok b' /\ at_peace (sess b').
Proof.
  eexists _, _. split; [vm_compute; reflexivity|].
  match goal with |- at_peace (sess ?a) /\ at_peace (sess ?b) /\ _ =>
    destruct (flow_control_safe sample_config sample_config sample_config_ok sample_config_ok a b) as (H1 & H2 & H3) end.
  - apply sample_reach. vm_compute. reflexivity.
  - split; [exact H1|]. split; [exact H2|]. apply (H3 sample_env _ eq_refl), allowedb_sound. vm_compute. reflexivity.
Defined.

Lemma flow_credit_returns_witness : exists a b sta ws s' st', sample_ends = Some (a, b) /\
  stream_map_ (sess a) !! 4 = Some sta /\ send_limit (sess a) sta = 0 /\
  (length ws <= 2)%nat /\ deliver sample_env (sess a) ws = Ok s' /\ stream_map_ s' !! 4 = Some st' /\
  12288 <= send_limit s' st'.
Proof.
  destruct sample_ends as [[a b]|] eqn:E; [|by vm_compute in E].
  pose proof (sample_reach a b E) as Hr. vm_compute in E. injection E as <- <-.
  eexists _, _, _.
  match type of Hr with reach _ _ ?a ?b =>
    edestruct (flow_credit_returns sample_config sample_config sample_config_ok sample_config_ok sample_env a b 4)
      as (ws & s' & st' & H1 & _ & H2 & H3 & H4); [reflexivity|left; exact Hr|..] end.
  1-6: vm_compute; reflexivity.
  exists ws, s', st'. split; [reflexivity|]. split; [vm_compute; reflexivity|]. split; [vm_compute; reflexivity|].
  split; [exact H1|]. split; [exact H2|]. split; [exact H3|]. refine (Z.le_trans _ _ _ _ (proj2 H4)). vm_compute. discriminate.
Defined.
